(* ===== verification/_CoqProject ===== *)
-Q . S2P
Prelude.v
Lifecycle.v
Planner.v
GasPolicy.v
Journal.v
FileJournal.v
Engine.v
Scan.v
Gateway.v
Twab.v
Accounting.v
Draw.v
WeightDomain.v
WalletAddress.v
WalletSession.v
WalletRecovery.v
Reliability.v
NetworkHealth.v
KeeperConfig.v
Transactions.v
Clients.v
FrontendConfig.v
Actions.v
V2Actions.v
AccountState.v
PrivateBalance.v
Errors.v
Reading.v
Reads.v
Health.v
UiState.v
Sg4Protocol.v
Sg4Winner.v
Sg4Expected.v
Sg4RunPlan.v
Sg5Graph.v
Sg5Protocol.v
HcuJson.v
HcuAbi.v
HcuPlan.v
HcuTransport.v
HcuBytecode.v
HcuManifest.v
HcuSource.v
HcuPricing.v
HcuSchedule.v
HcuScheduleText.v
HcuControls.v
HcuSchema.v
HcuLineage.v
HcuResult.v
Sg5Process.v
Sg5Plan.v
Sg5Launcher.v
DomainReport.v
Sg2Debug.v
Sg2Bootstrap.v
GateTasks.v
Sg2Tasks.v
Sg1Tasks.v
