(* ===== verification/Prelude.v ===== *)
(** * Leopold: a verification development (root file)

    Leopold is a prize-savings protocol.  Savers deposit into vaults; each vault
    runs rounds; at the end of a round a winner is drawn with a probability
    proportional to the time-weighted balance, over encrypted values.  The parts
    of the repository and how they interact:

    - the contracts (contracts/, Solidity) hold the money and the round state
      machine;
    - the keeper (keeper/src/) is a service without privileges that watches
      the vaults and sends the transactions the round state machine waits for:
      closing a round, publishing the results of decryptions, processing the
      draw chunk by chunk;
    - the frontend (frontend/lib/) links one verified wallet to an account,
      decides when financial actions are open, and sends the saver's
      transactions;
    - the reference models (reference/leopoldModels.ts, scripts/sg3-domain.ts)
      state what the contracts compute on plain numbers: balance-time,
      accounting, the draw and the widths of the encrypted integers;
    - the gates: preregistered experiments that must pass before the contracts
      may be used.  The first and the second (tasks/sg1.ts, tasks/sg2.ts) send
      one transaction on the Sepolia network; the fourth measures the computation
      units of homomorphic operations (scripts/sg4-protocol.ts), against limits
      that are established from the chain and from reviewed evidence
      (scripts/sg4-hcu-authority.ts); the fifth probes the encryption SDK in a
      browser (scripts/sg5-launcher.cjs, frontend/lib/sg5/protocol.ts).

    This development models the keeper, the reference models, the core of the
    frontend, and of the gates their tasks, launchers, protocols and the checks
    of their evidence.  A definition has the name of the function, method or type
    it models wherever Rocq allows it.

    ** Files

    - [Prelude]: values and exceptions of JavaScript ([result], [js_error]), the
      monad of methods with state ([method S A], a thrown exception keeps the
      mutations made), its weakest preconditions ([wp], [by_wp]), texts, numbers,
      [Map], stable sorting, and the lemmas and tactics the other files share.
    - [Lifecycle] (keeper/src/lifecycle.ts): the vocabulary, and the class
      [KeeperGateway], the interface between engine and chain.
    - [Planner] (planner.ts): [planNextAction], which transaction is due, and
      [isActionRequired], whether the chain still asks for one.
    - [GasPolicy] (gas-policy.ts, balance-guard.ts): the gas limit of a
      transaction, the parser of its floors, the balance guard.
    - [Journal] (journal.ts): the schema of an entry, the append-only check, the
      class [JournalStore] with its memory instance.
    - [FileJournal] (journal.ts): the store on disk, each write a sequence of
      I/O steps any of which may be the last ([WritePoint]), and the lock that
      keeps a second process out.
    - [Engine] (engine.ts): one pass of the keeper, [runOnce]: reconcile the
      attempts of earlier passes with receipts and chain state, plan, simulate,
      sign, journal, broadcast, wait.  Its trace records every journal write,
      broadcast and log line in order.
    - [Scan], [Gateway] (ethers-gateway.ts): circular scans with a persisted
      position; agreement of the RPC endpoints on a block; snapshots read at a
      pinned block; encoding, estimation and signature.  [Gateway] ends with the
      instance of [KeeperGateway].
    - [KeeperConfig] (config.ts, manifest.ts, public-proof.ts, cli.ts): the
      configuration, the official vaults, proofs of public decryption with
      fallback, and the program that puts the parts together.
    - [Twab], [Accounting], [Draw] (reference/leopoldModels.ts): the
      time-weighted balances, the ledger, and the draw with its round states.
    - [WeightDomain] (scripts/sg3-domain.ts): the bounds from which the widths
      of the encrypted integers follow.
    - [WalletAddress], [WalletSession], [WalletRecovery] (frontend/lib/auth/
      readiness.ts, wallet-identity.ts, recovery.ts, wallet-recovery.ts): address
      comparison and the guards of an account, the session's reducer and its
      derived snapshot, the recovery prompt and the reconnection of a wallet.
    - [Reliability], [NetworkHealth] (frontend/lib/ops/reliability.ts, metrics.ts,
      frontend/lib/leopold/network.ts): bounded reads, and the preflight that
      must be healthy before a transaction.
    - [Transactions] (frontend/lib/leopold/transactions.ts, withdrawal.ts): the
      record of transactions, the checkpoint of a deposit, the preparation of a
      withdrawal.
    - [Clients] (frontend/lib/leopold/zama.ts, v2-preview-config.ts): what an
      action calls (wallet, public client, relayer) and the monad [io] of the
      actions: the environment, the metrics, the private session and a trace of
      what the action did.  Its rules ([adds], [flow_of], [silent]) say what a
      computation adds to the trace.
    - [FrontendConfig] (config.ts, amounts.ts): configured addresses and amounts.
    - [Actions] (actions.ts), [V2Actions] (v2-actions.ts): the saver's actions of
      both generations, each a sequence of reads, simulations, submissions and
      receipts, and the recovery of a deposit from its transaction hashes.
    - [AccountState] (frontend/lib/auth/account-state.ts, account-integrity.ts,
      username.ts): the metadata of an account, its updates, and what makes it
      ready.
    - [PrivateBalance] (private-balance.ts): the reveal of an encrypted balance.
    - [Errors] (errors.ts): the texts of a failure, their redaction, and the code
      and message they select.
    - [Reading]: reads that record their answers, shared by [Reads] (reads.ts: the
      deployment and the vaults as the chain answers them) and [Health]
      (frontend/lib/ops/health.ts, release.ts: the public health page).
    - [UiState] (frontend/lib/ui/controller.ts, experience.ts, v2-entry-status.ts,
      frontend/lib/auth/hydration.ts, onboarding-surface.ts, email.ts): the states
      the interface shows and the guard on what it renders.
    - [Sg4Protocol], [Sg4Winner], [Sg4Expected], [Sg4RunPlan]
      (scripts/sg4-protocol.ts): the preregistered protocol of the benchmarks of
      homomorphic computation.  [Sg4Protocol]: the limits on a transaction's
      computation units, the statistics, the circuits and the manifest of their
      priced operations.  [Sg4Winner]: the oracle of the draw's chunks and the
      instances it predicts.  [Sg4Expected]: the closed tables the protocol is
      compared with.  [Sg4RunPlan]: the plan of runs, its independent
      derivation, and the validation.
    - [DomainReport] (scripts/sg3-domain.ts): the document that the script prints.
    - [Sg5Graph], [Sg5Protocol] (frontend/lib/sg5/protocol.ts): values of unknown
      origin as heaps, and the results of the browser probe over them.
    - [HcuJson], [HcuAbi] (scripts/sg4-hcu-authority-protocol.ts,
      sg4-hcu-authority.ts, as all files named Hcu): JSON with its canonical text,
      and the words of the chain.  [HcuPlan], [HcuTransport]: the calls the
      verifier plans, and the guard that lets nothing else through.
      [HcuBytecode], [HcuManifest]: the identity of deployed code, and the
      manifests that say which of its bytes may differ.  [HcuSource],
      [HcuPricing], [HcuSchedule], [HcuScheduleText]: costs and prices as they are
      parsed from sources and compared.  [HcuControls], [HcuLineage]: the
      declared limits, and the git history of the reviewed record.  [HcuSchema],
      [HcuResult]: the schema of the verifier's report, and what a PASS must say.
    - [Sg5Process], [Sg5Plan], [Sg5Launcher] (scripts/sg5-launcher.cjs,
      sg5-protocol.ts): the processes of the browser gate over the process table
      of the system, the protocol it expects, and the order of a run.
    - [Sg2Debug], [Sg2Bootstrap] (tasks/sg2.ts, scripts/sg2-launcher.cjs,
      sg2-bootstrap-state.cjs): which debug output is refused, and the capability
      that lets a task run once.  [GateTasks], [Sg2Tasks], [Sg1Tasks]
      (tasks/sg2.ts, sg1.ts): the tasks of both gates.

    ** What the theorems show

    - The keeper is safe to crash and to repeat.  [Engine.runOnce_write_ahead]:
      a pass broadcasts at most one transaction, after every guard and after its
      journal entry.  [Engine.runOnce_single_flight]: at most one attempt is
      unresolved and none is lost.  [Engine.reconcileEntry_sound]: a verdict on
      an attempt is the one a decision table over receipt, known transaction and
      chain state gives.  Below it,
      [FileJournal.file_put_crash_atomic] and [FileJournal.file_refines_memory]:
      a crash leaves the old or the new journal, and under every I/O fault the
      file store implements the memory store, operation by operation;
      [Journal.journal_history_append_only]; and
      [FileJournal.lock_mutual_exclusion] across processes.
    - The keeper does what is due.  The theorems of [Planner]: the action planned
      is one the chain requires, closures first, oldest round first, idle exactly
      when nothing is due, and keys identify actions.
    - The keeper sees one chain.  [Gateway.readSnapshot_pinned],
      [Gateway.readVault_sound], [Scan.persistent_scan_covers],
      [KeeperConfig.publicDecrypt_first].
    - The keeper starts well and stops well.  [KeeperConfig.loadConfig_sound],
      [KeeperConfig.loadOfficialVaults_distinct], [KeeperConfig.keeperMain_releases].
    - The draw is right.  [Draw.completePrivateDraw_fair]: of all candidates each
      participant wins exactly its weight times the same quotient;
      [Draw.settlePrivateDraw_spec], [Draw.mapCandidate_uniform];
      [Twab.twab_exact]: balance-time read by binary search is the sum over the
      recorded changes; [Twab.aggregateWeight_sum]; [Accounting.run_operation_safe]:
      no operation breaks solvency; [WeightDomain]: the widths suffice, and the
      two descriptions of rejection sampling agree.
    - Money moves in the browser only when it may.
      [WalletSession.canUseFinancialActions_iff], [NetworkHealth.preflight_healthy]:
      exactly when actions are open; [WalletSession.invalidated_session_stays],
      [WalletRecovery.reconnectExistingWallet_sound],
      [WalletAddress.checkFinancialWalletLink_allowed]: no other account is
      adopted; [Transactions.prepareWithdrawalRound_sound],
      [Transactions.findLatestV2AddMoneyCheckpoint_spec],
      [Reliability.withReadReliability_bounded].
    - The actions of the saver are well sent.  [V2Actions.run_v2_action_well_sent],
      [Actions.run_action_well_sent]: every submission follows a simulation that
      succeeded, on Sepolia, for the connected account, and nothing is sent after
      a failure; [V2Actions.addV2Money_spec], [V2Actions.withdrawV2Asset_sound],
      [V2Actions.enableV2PrizeSavings_spec], [Actions.makePrivate_spec]: which
      transactions, in which order, each after the confirmation of the one
      before; [V2Actions.recovered_wrap_roundtrip]: a wrap whose receipt was lost
      is recovered from its hash.
    - Accounts and private values.  [AccountState.financial_wallet_update_roundtrip]:
      a stored wallet link is read back and never silently replaced;
      [PrivateBalance.revealPrivateBalance_current]: a revealed amount is that of
      the identity and the handle at the moment it is shown.
    - What is shown is what was read.  [Reads.validateConfiguredDeployment_sound],
      [Reads.readVaultPublicState_sound], [Health.getPublicHealth_operational]:
      every claim of the result has its answer among those recorded;
      [UiState.assertUiControllerSafety_iff]: a rendered value has no internal
      field at any depth outside functions.
    - The benchmark protocol is what was preregistered.
      [Sg4Winner.winnerStateTransition_selects],
      [Sg4Winner.winner_chunks_compose]: the winner the oracle predicts is the
      first participant whose prefix passes the ticket, however the participants
      are cut into chunks; [Sg4Protocol.deriveCanonicalOperationManifest_exact]:
      the manifest prices exactly what the circuits execute;
      [Sg4RunPlan.validateProtocol_pins]: whatever the modelled checks accept has
      the preregistered circuits, weights, instances and setups and exactly the
      runs that are derived a second time independently;
      [Sg4RunPlan.deriveProtocol_valid]: the protocol built is accepted.
    - The limits on computation are what the evidence says.
      [HcuTransport.guard_run_safe]: whatever is asked of the transport, only
      reads of the planned calls, in their order, at the pinned block reach the
      chain; [HcuTransport.generated_plan_can_be_followed].
      [HcuBytecode.verified_code_unique], [HcuBytecode.verified_code_is_artifact]:
      code that passes the comparison is the artifact but for the ranges the
      manifest names; [HcuManifest.validateNormalizationManifest_sound].
      [HcuSchedule.extractPriceSchedule_sound],
      [HcuScheduleText.extractPriceSchedule_print]: the prices extracted are the
      ones listed, each once, and a printed table is read back;
      [HcuPricing.pricingComparisonBlockers_exact],
      [HcuSource.compareOperationTables_exact]: no difference of prices is
      missed.  [HcuLineage.checkPreparationLineage_exact]: which histories are
      accepted.  [HcuSchema.validateNode_exact], [HcuResult.pass_report_sound]: a
      report of PASS that is accepted agrees with the reviewed record and with
      what is derived from its material.  [HcuJson.canonicalJson_same],
      [HcuAbi.decode_encode]: digests and words determine their values.
    - The tasks of the gates send once, and only what was prepared.
      [Sg2Tasks.dispatch_sends_once], [Sg1Tasks.sg1_sends_once];
      [Sg2Bootstrap.dispatch_once], [Sg2Bootstrap.launch_closes]: one capability,
      one use, revoked at the end; [Sg2Debug.requireSafe_exact]: the matcher of
      debug selectors decides the meaning of patterns.
    - The launcher of the browser gate cleans up after itself and signals nothing
      else.  [Sg5Process.signals_are_justified], [Sg5Process.ended_group_is_gone]:
      under any changes of the process table between two looks at it, each
      signal follows two inspections of its own;
      [Sg5Launcher.cleanup_deletes_last], [Sg5Launcher.live_mode_closed].
      [Sg5Graph.assertSafeGraph_iff]: exactly the finite trees of plain data are
      accepted as results, and the walk ends on every graph.
    - Failures.  [Errors.sanitizeTechnicalDetail_no_jwt]: no token is shown;
      [Errors.action_failures_classified]: the failures of the actions reach the
      codes meant for them.
    - What the code does beyond its intent is stated too:
      [GasPolicy.parseGasFloors_inherited_key], [Twab.change_not_atomic],
      [FileJournal.temporary_file_blocks],
      [Transactions.persistSafeTransaction_forgets],
      [NetworkHealth.getFinancialNetworkStatus_no_mismatch],
      [Errors.classifyLeopoldError_configuration_unreachable],
      [Reads.round_state_labels_disagree],
      [HcuScheduleText.empty_bucket_map_read], [HcuSchema.inherited_field_accepted],
      [HcuManifest.overlapping_primaries_accepted],
      [KeeperConfig.maximum_below_every_floor],
      [Sg5Launcher.launcher_refuses_generated].

    ** Modelling choices

    A bigint and an integer-valued number are [Z]; a number the code still has to
    check is a [js_number].  Texts are byte strings; case conversion and
    whitespace are those of ASCII, which is what addresses, hashes, keys and
    settings are made of.  Asynchronous calls are methods over an arbitrary
    environment state, so every theorem holds for every answer and every failure
    of the chain, the disk, the wallet and the clock; [Promise.all] runs its calls
    in order and reports the earliest rejection.  Code of other packages (ethers,
    viem, the relayer, wallet SDKs) is a class ([Backend], [Viem], [Platform],
    [ProofRelayer], [ExistingWalletConnection]) whose laws, where one is needed,
    are a second class with a concrete instance.

    An action of the browser records in its trace each simulation, submission and
    receipt, in order; a read that is repeated ([withReadReliability]) may run its
    body several times, and the rules of [Clients] account for that.  A read of
    [Reads] and [Health] records each answer it got; [rests m Q] says that a
    success of [m] has its answers as [Q] states.  A thrown object is a graph with
    addresses ([Errors]): causes may be shared or cyclic.

    Loops that are not structural carry fuel.  The engine's receipt wait takes
    as fuel the number of polls the deadline leaves room for
    ([Engine.runOnce_terminates] shows it is enough under the laws of the clock);
    the bit count of [WeightDomain.requiredBits] takes the bits of its argument
    ([requiredBits_least]); the binary search of [Twab] halves an interval no
    longer than the list; the service loop of [KeeperConfig] takes the number of
    polls before the stop signal, which [keeperMain_releases] relates to the
    signal.

    Evidence of the gates is JSON ([HcuJson.Json]); a field that is absent is
    [None].  The operating system of [Sg5Process] is the state of /proc at each
    moment: the listing of /proc and the look at each process have moments of their
    own, so processes may come and go in between, while what is read of one process
    and one search for the owners of a port belong to one moment; the tasks of
    [GateTasks] run over a class of what Hardhat, git and the disk answer.  Of the
    authority, the validation of the binding record ([HcuLineage.RecordValidator])
    and the derivations from its source material ([HcuResult.Derivations]) are
    classes: what is proved about reports holds for any of them.

    ** Not modelled

    The contracts (Solidity; encrypted types), React components, drivers of local
    chains and of testnets, the drivers of the browser probe, ABI tables, the
    fields of log lines, floating-point backoff.  Of sg4-protocol.ts: the JSON of
    static settings, the checks of the validation on which the runs do not rest,
    and the schema of raw results.  Of the authority: the live run
    and the offline preflight, the two hundred field checks of the binding record,
    the extraction of a build from compiler output, and the regular expressions
    that enumerate a contract's declarations.  The deployment scripts. *)
From Stdlib Require Import ZArith Lia DecimalString DecimalZ DecimalFacts Ascii.
From stdpp Require Import base option list sets strings sorting.

(** ** Thrown values and results

    A JavaScript function either returns or throws.  [js_error] keeps what the
    program reads off a thrown value: whether it is an [Error], its name, its
    [code] property when that is a string or a number (already rendered), and
    its message. *)
Record js_error := JsError {
  err_is_error : bool;
  err_name : string;
  err_code : option string;
  err_message : string
}.

Inductive result (A : Type) : Type :=
| Ok (a : A)
| Throw (e : js_error).
Arguments Ok {A} a.
Arguments Throw {A} e.

(** [new Error(message)] *)
Definition new_Error (message : string) : js_error :=
  JsError true "Error" None message.

Definition throw_new {A : Type} (message : string) : result A :=
  Throw (new_Error message).

Definition is_ok {A} (r : result A) : bool :=
  match r with Ok _ => true | Throw _ => false end.

#[export] Instance result_ret : MRet result := fun A a => Ok a.
#[export] Instance result_bind : MBind result := fun A B f r =>
  match r with Ok a => f a | Throw e => Throw e end.

(** A method of an object with mutable state [S]: a thrown exception does not
    undo the mutations made before it. *)
Definition method (S A : Type) : Type := S -> result A * S.

#[export] Instance method_ret S : MRet (method S) := fun A a s => (Ok a, s).
#[export] Instance method_bind S : MBind (method S) := fun A B f m s =>
  match m s with
  | (Ok a, s') => f a s'
  | (Throw e, s') => (Throw e, s')
  end.

Definition get {S} : method S S := fun s => (Ok s, s).
Definition put {S} (s' : S) : method S unit := fun _ => (Ok tt, s').
Definition gets {S A} (f : S -> A) : method S A := fun s => (Ok (f s), s).
Definition modify {S} (f : S -> S) : method S unit := fun s => (Ok tt, f s).
Definition throw_in {S A} (e : js_error) : method S A := fun s => (Throw e, s).
Definition lift {S A} (r : result A) : method S A := fun s => (r, s).
(** [if (c) throw new Error(msg);] *)
Definition throw_if {S} (c : bool) (message : string) : method S unit :=
  fun s => (if c then throw_new message else Ok tt, s).

(** The same guard outside an object. *)
Definition fail_if (c : bool) (message : string) : result unit :=
  if c then throw_new message else Ok tt.

(** [try { m } catch (error) { h(error) }] *)
Definition try_catch {S A} (m : method S A) (h : js_error -> method S A) : method S A :=
  fun s => match m s with
           | (Ok a, s') => (Ok a, s')
           | (Throw e, s') => h e s'
           end.

(** [try { body } finally { last }]: what the end throws is what is thrown. *)
Definition try_finally {S A} (body : method S A) (last_step : method S unit) : method S A := fun s =>
  let '(r, s1) := body s in
  match last_step s1 with (Ok _, s2) => (r, s2) | (Throw e, s2) => (Throw e, s2) end.

(** [for (const x of xs) body(x)], the first throw ending the loop. *)
Fixpoint for_each {S A} (xs : list A) (body : A -> method S unit) : method S unit :=
  match xs with
  | [] => mret tt
  | x :: xs' => body x ≫= fun _ => for_each xs' body
  end.

(** [xs.map(f)] with a throwing [f] in result form. *)
Fixpoint result_map {A B} (f : A -> result B) (xs : list A) : result (list B) :=
  match xs with
  | [] => Ok []
  | x :: xs' => y ← f x; ys ← result_map f xs'; Ok (y :: ys)
  end.

Fixpoint method_map {S A B} (f : A -> method S B) (xs : list A) : method S (list B) :=
  match xs with
  | [] => mret []
  | x :: xs' => y ← f x; ys ← method_map f xs'; mret (y :: ys)
  end.

(** [const [a, b] = await Promise.all([p, q]);]: both calls are started, and the
    first rejection is thrown once both effects are under way. *)
Definition promise_all2 {S A B} (p : method S A) (q : method S B) : method S (A * B) :=
  fun s => let '(r1, s1) := p s in
           let '(r2, s2) := q s1 in
           (a ← r1; b ← r2; Ok (a, b), s2).

(** [Promise.all(ps)]: every call is started; the rejection reported is that of
    the earliest in the list. *)
Fixpoint promise_all {S A} (ps : list (method S A)) : method S (list A) :=
  match ps with
  | [] => mret []
  | p :: ps' => fun s => let '(r, s1) := p s in
                         let '(rs, s2) := promise_all ps' s1 in
                         (x ← r; xs ← rs; Ok (x :: xs), s2)
  end.

(** A local variable that a [try] block assigns and its handler reads: the
    block runs on the object's state paired with the variable. *)
Definition on_state {S X A} (m : method S A) : method (S * X) A :=
  fun '(s, x) => let '(r, s') := m s in (r, (s', x)).
Definition assign {S X} (x : X) : method (S * X) unit := fun '(s, _) => (Ok tt, (s, x)).
Definition local_var {S X} : method (S * X) X := fun '(s, x) => (Ok x, (s, x)).
Definition with_local {S X A} (x : X) (m : method (S * X) A) : method S (A * X) :=
  fun s => let '(r, (s', x')) := m (s, x) in (a ← r; Ok (a, x'), s').

(** ** Numbers

    A [bigint] is a [Z].  A [number] is a [Z] where the program has already
    checked it is an integer, and a [js_number] where it still has to check. *)
Inductive js_number : Type :=
| JInt (z : Z)
| JNonInteger.

Definition MAX_SAFE_INTEGER : Z := 2 ^ 53 - 1.

Definition Number_isInteger (n : js_number) : bool :=
  match n with JInt _ => true | JNonInteger => false end.

Definition Number_isSafeInteger (n : js_number) : bool :=
  match n with JInt z => (Z.abs z <=? MAX_SAFE_INTEGER)%Z | JNonInteger => false end.

(** ** Strings *)
Definition ascii_to_lower (c : ascii) : ascii :=
  let n := nat_of_ascii c in
  if (65 <=? n)%nat && (n <=? 90)%nat then ascii_of_nat (n + 32) else c.

(** [s.toLowerCase()] on the ASCII strings (addresses, hashes) it is used on. *)
Fixpoint toLowerCase (s : string) : string :=
  match s with
  | EmptyString => EmptyString
  | String c s' => String (ascii_to_lower c) (toLowerCase s')
  end.

Definition is_digit (c : ascii) : bool :=
  let n := nat_of_ascii c in (48 <=? n)%nat && (n <=? 57)%nat.

Definition is_hex_digit (c : ascii) : bool :=
  let n := nat_of_ascii c in
  is_digit c || ((65 <=? n)%nat && (n <=? 70)%nat) || ((97 <=? n)%nat && (n <=? 102)%nat).

Fixpoint string_forall (p : ascii -> bool) (s : string) : bool :=
  match s with
  | EmptyString => true
  | String c s' => p c && string_forall p s'
  end.

Definition string_nonempty (s : string) : bool :=
  match s with EmptyString => false | _ => true end.

(** No [":"] in [s]: it can be one part of a key joined by colons. *)
Definition no_colon (s : string) : bool := string_forall (fun c => negb (Ascii.eqb c ":"%char)) s.

(** [/^\d+$/u] *)
Definition matches_digits (s : string) : bool := string_nonempty s && string_forall is_digit s.

(** [/^0x[0-9a-fA-F]{n}$/u] *)
Definition matches_hex (n : nat) (s : string) : bool :=
  match s with
  | String "0" (String "x" body) => (String.length body =? n)%nat && string_forall is_hex_digit body
  | _ => false
  end.

(** [s.slice(0, n)] *)
Fixpoint slice0 (n : nat) (s : string) : string :=
  match n, s with
  | S n', String c s' => String c (slice0 n' s')
  | _, _ => EmptyString
  end.

Definition is_space (c : ascii) : bool :=
  let n := nat_of_ascii c in ((9 <=? n) && (n <=? 13) || (n =? 32))%nat.

Fixpoint trimStart (s : string) : string :=
  match s with
  | String c s' => if is_space c then trimStart s' else s
  | EmptyString => EmptyString
  end.

Fixpoint trimEnd (s : string) : string :=
  match s with
  | String c s' =>
      match trimEnd s' with
      | EmptyString => if is_space c then EmptyString else String c EmptyString
      | t => String c t
      end
  | EmptyString => EmptyString
  end.

(** [s.trim()] *)
Definition trim (s : string) : string := trimEnd (trimStart s).

(** [s.split(c)] for a one-character separator: never the empty list. *)
Fixpoint split_char (c : ascii) (s : string) : list string :=
  match s with
  | EmptyString => [EmptyString]
  | String d s' =>
      if Ascii.eqb d c then EmptyString :: split_char c s'
      else match split_char c s' with
           | part :: rest => String d part :: rest
           | [] => [String d EmptyString]
           end
  end.

(** [parts.join(c)] *)
Fixpoint join_char (c : ascii) (parts : list string) : string :=
  match parts with
  | [] => EmptyString
  | [p] => p
  | p :: parts' => p +:+ String c (join_char c parts')
  end.

(** [s.startsWith(p)] *)
Definition startsWith (p s : string) : bool := String.prefix p s.

(** [s.includes(p)] *)
Fixpoint includes (p s : string) : bool :=
  startsWith p s || match s with String _ s' => includes p s' | EmptyString => false end.

(** [s.endsWith(p)] *)
Fixpoint endsWith (p s : string) : bool :=
  bool_decide (s = p) || match s with String _ s' => endsWith p s' | EmptyString => false end.

(** No occurrence of [sep] in [s]. *)
Definition lacks (sep : ascii) (s : string) : bool :=
  string_forall (fun c => negb (Ascii.eqb c sep)) s.

(** [z.toString()] for a bigint or an integer. *)
Definition Z_toString (z : Z) : string := NilZero.string_of_int (Z.to_int z).

(** [BigInt(s)] on a string of digits, the only strings the program passes it. *)
Definition BigInt_of_digits (s : string) : result Z :=
  match NilZero.uint_of_string s with
  | Some d => Ok (Z.of_uint d)
  | None => Throw (JsError true "SyntaxError" None ("Cannot convert " +:+ s +:+ " to a BigInt"))
  end.

Definition hex_digit_value (c : ascii) : Z :=
  let n := Z.of_nat (nat_of_ascii c) in
  if (n <=? 57)%Z then n - 48 else if (n <=? 70)%Z then n - 55 else n - 87.

Fixpoint hex_value (acc : Z) (s : string) : Z :=
  match s with
  | EmptyString => acc
  | String c s' => hex_value (16 * acc + hex_digit_value c)%Z s'
  end.

(** [/^0x[0-9a-fA-F]+$/u] *)
Definition matches_hex_quantity (s : string) : bool :=
  match s with
  | String "0" (String "x" body) => string_nonempty body && string_forall is_hex_digit body
  | _ => false
  end.

(** [BigInt(s)] on a string [matches_hex_quantity] accepts. *)
Definition BigInt_of_hex (s : string) : Z :=
  match s with
  | String "0" (String "x" body) => hex_value 0 body
  | _ => 0
  end.

(** The digits of [0x], [0o] and [0b] literals. *)
Fixpoint radix_value (base acc : Z) (s : string) : option Z :=
  match s with
  | EmptyString => Some acc
  | String c s' =>
      if is_hex_digit c && (hex_digit_value c <? base)%Z then radix_value base (base * acc + hex_digit_value c)%Z s' else None
  end.

(** [BigInt(s)] on any string (StringToBigInt, with the white space of ASCII). *)
Definition BigInt_of_string (s : string) : result Z :=
  let syntax_error := Throw (JsError true "SyntaxError" None ("Cannot convert " +:+ s +:+ " to a BigInt")) in
  let radix base body :=
    match (if string_nonempty body then radix_value base 0 body else None) with
    | Some z => Ok z | None => syntax_error end in
  let decimal (sign : Z) body :=
    if matches_digits body then z ← BigInt_of_digits body; Ok (sign * z)%Z else syntax_error in
  match trim s with
  | EmptyString => Ok 0%Z
  | String "0" (String "x" body) | String "0" (String "X" body) => radix 16%Z body
  | String "0" (String "o" body) | String "0" (String "O" body) => radix 8%Z body
  | String "0" (String "b" body) | String "0" (String "B" body) => radix 2%Z body
  | String "-" body => decimal (-1)%Z body
  | String "+" body => decimal 1%Z body
  | body => if matches_digits body then BigInt_of_digits body else syntax_error
  end.

(** The order of [Array.prototype.sort] without a comparator. *)
Definition compare_code_units (s t : string) : Z :=
  match String.compare s t with Lt => -1 | Eq => 0 | Gt => 1 end%Z.

(** The pattern of the non-negative decimals: no leading zero. *)
Definition matches_decimal (s : string) : bool :=
  match s with
  | String "0" EmptyString => true
  | String c _ => negb (Ascii.eqb c "0") && string_forall is_digit s
  | EmptyString => false
  end.

(** ** Lists *)
(** [Array.prototype.sort] with a comparator: stable, here insertion from the
    right, so that equal elements keep their order. *)
Fixpoint js_insert {A} (cmp : A -> A -> Z) (x : A) (l : list A) : list A :=
  match l with
  | [] => [x]
  | y :: l' => if (cmp x y <=? 0)%Z then x :: y :: l' else y :: js_insert cmp x l'
  end.

Fixpoint js_sort {A} (cmp : A -> A -> Z) (l : list A) : list A :=
  match l with
  | [] => []
  | x :: l' => js_insert cmp x (js_sort cmp l')
  end.

(** [[...new Set(xs)]] *)
Definition js_set {A} `{EqDecision A} (xs : list A) : list A :=
  fold_left (fun s x => if bool_decide (x ∈ s) then s else s ++ [x]) xs [].

(** [xs.map(f).filter(x => x !== null)] *)
Definition filter_map {A B} (f : A -> option B) (l : list A) : list B := omap f l.

(** The first success of [f] along [l]: a [for] loop that returns early. *)
Fixpoint first_some {A B} (f : A -> option B) (l : list A) : option B :=
  match l with
  | [] => None
  | x :: l' => match f x with Some b => Some b | None => first_some f l' end
  end.

(** [s === undefined ? undefined : p(s)] as a test: absent fields pass. *)
Definition if_present {A} (p : A -> bool) (o : option A) : bool :=
  match o with Some a => p a | None => true end.

(** ** [Map]: an insertion-ordered association list; [set] on a present key
    keeps its position. *)
Section jsMap.
Context {K V : Type} `{EqDecision K}.

Fixpoint map_get (k : K) (m : list (K * V)) : option V :=
  match m with
  | [] => None
  | (k', v) :: m' => if decide (k = k') then Some v else map_get k m'
  end.

Fixpoint map_set (k : K) (v : V) (m : list (K * V)) : list (K * V) :=
  match m with
  | [] => [(k, v)]
  | (k', v') :: m' => if decide (k = k') then (k', v) :: m' else (k', v') :: map_set k v m'
  end.
End jsMap.

(** * Lemmas *)

Create HintDb leopold.
Create Rewrite HintDb leopold.

(** ** Automation

    [destruct_guard] splits on the scrutinee of the first [if]/[match] of a
    hypothesis or of the goal and discharges the branches that contradict it;
    [run_method] first unfolds the state-and-exception monad. *)
Ltac unfold_method :=
  unfold mbind, mret, method_bind, method_ret, result_bind, result_ret,
    get, put, gets, modify, lift, throw_in, throw_if, fail_if, throw_new, try_catch in *.

Ltac destruct_guard :=
  match goal with
  | H : context [if ?b then _ else _] |- _ => destruct b eqn:?; simplify_eq/=
  | |- context [if ?b then _ else _] => destruct b eqn:?; simplify_eq/=
  end.

Ltac destruct_scrut :=
  match goal with
  | H : context [match ?x with _ => _ end] |- _ => destruct x eqn:?; simplify_eq/=
  | |- context [match ?x with _ => _ end] => destruct x eqn:?; simplify_eq/=
  end.

Ltac run_method := unfold_method; simpl in *; repeat destruct_guard.

(** Boolean comparisons of a context as propositions [lia] can use. *)
Ltac bool_to_prop :=
  repeat match goal with
  | H : (_ && _)%bool = true |- _ => apply andb_true_iff in H; destruct H
  | H : (_ || _)%bool = false |- _ => apply orb_false_iff in H; destruct H
  | H : (_ && _)%bool = false |- _ => apply andb_false_iff in H
  | H : (_ || _)%bool = true |- _ => apply orb_true_iff in H
  | H : negb _ = true |- _ => apply negb_true_iff in H
  | H : negb _ = false |- _ => apply negb_false_iff in H
  | H : (_ =? _)%Z = true |- _ => apply Z.eqb_eq in H
  | H : (_ =? _)%Z = false |- _ => apply Z.eqb_neq in H
  | H : (_ <? _)%Z = true |- _ => apply Z.ltb_lt in H
  | H : (_ <? _)%Z = false |- _ => apply Z.ltb_ge in H
  | H : (_ <=? _)%Z = true |- _ => apply Z.leb_le in H
  | H : (_ <=? _)%Z = false |- _ => apply Z.leb_gt in H
  | H : bool_decide _ = true |- _ => apply bool_decide_eq_true in H
  | H : bool_decide _ = false |- _ => apply bool_decide_eq_false in H
  end.

(** ** Results *)
Lemma result_bind_Ok {A B} (r : result A) (f : A -> result B) b :
  (r ≫= f) = Ok b <-> exists a, r = Ok a /\ f a = Ok b.
Proof. destruct r; simpl; naive_solver. Qed.

Lemma fail_if_Ok c msg u : fail_if c msg = Ok u <-> c = false.
Proof. unfold fail_if, throw_new. destruct c, u; naive_solver. Qed.

(** A guard that does not fire. *)
Lemma guard_pass {B} c msg (k : unit -> result B) : c = false -> (fail_if c msg ≫= k) = k tt.
Proof. by intros ->. Qed.

(** Peel the passed guards off a successful run [H : guard ;; ... = Ok _]. *)
Ltac inv_guards H :=
  repeat (apply result_bind_Ok in H as (? & ?%fail_if_Ok & H));
  try (cbv [mret result_ret] in H; injection H as <-).

Lemma result_map_Ok {A B} (f : A -> result B) xs ys :
  result_map f xs = Ok ys <-> Forall2 (fun x y => f x = Ok y) xs ys.
Proof.
  revert ys; induction xs as [|x xs IH]; intros ys; simpl.
  - split; [by intros [= <-] | by intros H; inversion H].
  - rewrite result_bind_Ok. setoid_rewrite result_bind_Ok. setoid_rewrite IH.
    split.
    + intros (y & Hy & ys' & Hys & [= <-]). by constructor.
    + intros H. inversion H as [|? y ? ys' ? ?]; subst. eauto 6.
Qed.

Lemma result_map_total {A B} (f : A -> result B) (g : A -> B) xs :
  (forall x, x ∈ xs -> f x = Ok (g x)) -> result_map f xs = Ok (g <$> xs).
Proof.
  induction xs as [|x xs IH]; intros Hf; simpl; [done|].
  rewrite Hf by set_solver. simpl. rewrite IH by set_solver. done.
Qed.

(** ** Weakest preconditions of methods *)
Definition wp {S A} (m : method S A) (Q : result A -> S -> Prop) (s : S) : Prop :=
  let '(r, s') := m s in Q r s'.

Section wp.
Context {S : Type}.
Implicit Types (s : S).

Lemma wp_mono {A} (m : method S A) (P Q : result A -> S -> Prop) s :
  wp m P s -> (forall r s', P r s' -> Q r s') -> wp m Q s.
Proof. unfold wp. destruct (m s). auto. Qed.

Lemma wp_any {A} (m : method S A) (Q : result A -> S -> Prop) s : (forall r s', Q r s') -> wp m Q s.
Proof. unfold wp. destruct (m s). auto. Qed.

Lemma wp_ret {A} (a : A) (Q : result A -> S -> Prop) s : Q (Ok a) s -> wp (mret a) Q s.
Proof. done. Qed.

Lemma wp_bind {A B} (m : method S A) (f : A -> method S B) (Q : result B -> S -> Prop) s :
  wp m (fun r s' => match r with Ok a => wp (f a) Q s' | Throw e => Q (Throw e) s' end) s ->
  wp (m ≫= f) Q s.
Proof. unfold wp, mbind, method_bind. simpl. destruct (m s) as [[a|e] s']; done. Qed.

Lemma method_bind_Ok {A B} (m : method S A) (f : A -> method S B) s b s' :
  (m ≫= f) s = (Ok b, s') -> exists a s1, m s = (Ok a, s1) /\ f a s1 = (Ok b, s').
Proof. unfold mbind, method_bind. destruct (m s) as [[a|e] s1]; [|done]. intros E. by exists a, s1. Qed.

Lemma wp_lift {A} (r : result A) (Q : result A -> S -> Prop) s : Q r s -> wp (lift r) Q s.
Proof. done. Qed.

Lemma wp_throw_if c msg (Q : result unit -> S -> Prop) s :
  (c = true -> Q (throw_new msg) s) -> (c = false -> Q (Ok tt) s) -> wp (throw_if c msg) Q s.
Proof. unfold wp, throw_if. simpl. destruct c; auto. Qed.

Lemma wp_try_catch {A} (m : method S A) h (Q : result A -> S -> Prop) s :
  wp m (fun r s' => match r with Ok a => Q (Ok a) s' | Throw e => wp (h e) Q s' end) s ->
  wp (try_catch m h) Q s.
Proof. unfold wp, try_catch. simpl. destruct (m s) as [[a|e] s']; done. Qed.

Lemma wp_try_finally {A} (m : method S A) (last_step : method S unit) (Q : result A -> S -> Prop) s :
  wp m (fun r s1 => wp last_step (fun r' s2 => match r' with Ok _ => Q r s2 | Throw e => Q (Throw e) s2 end) s1) s ->
  wp (try_finally m last_step) Q s.
Proof. unfold wp, try_finally. simpl. destruct (m s) as [r s1]. destruct (last_step s1) as [[[]|e] s2]; done. Qed.

Lemma wp_with_local {X A} (x : X) (m : method (S * X) A) (Q : result (A * X) -> S -> Prop) s :
  wp m (fun r sx => Q (a ← r; Ok (a, sx.2)) sx.1) (s, x) -> wp (with_local x m) Q s.
Proof. unfold wp, with_local. simpl. by destruct (m (s, x)) as [r [s' x']]. Qed.

Lemma wp_on_state {X A} (m : method S A) (x : X) (Q : result A -> S * X -> Prop) s :
  wp m (fun r s' => Q r (s', x)) s -> wp (on_state m) Q (s, x).
Proof. unfold wp, on_state. simpl. by destruct (m s). Qed.

Lemma wp_promise_all2 {A B} (p : method S A) (q : method S B) (Q : result (A * B) -> S -> Prop) s :
  wp p (fun r1 s1 => wp q (fun r2 s2 => Q (a ← r1; b ← r2; Ok (a, b)) s2) s1) s ->
  wp (promise_all2 p q) Q s.
Proof. unfold wp, promise_all2. simpl. destruct (p s) as [r1 s1]. simpl. by destruct (q s1). Qed.

(** Calls that each satisfy [P] on success, started together. *)
Lemma wp_promise_all {A B} (f : A -> method S B) (xs : list A) (P : A -> B -> Prop)
    (Q : result (list B) -> S -> Prop) s :
  (forall x s, wp (f x) (fun r _ => forall b, r = Ok b -> P x b) s) ->
  (forall r s', (forall ys, r = Ok ys -> Forall2 P xs ys) -> Q r s') ->
  wp (promise_all (f <$> xs)) Q s.
Proof.
  intros Hf. revert Q s; induction xs as [|x xs IH]; intros Q s HQ; simpl.
  { apply wp_ret, HQ. by intros ys [= <-]. }
  unfold wp. destruct (f x s) as [r s1] eqn:E1. destruct (promise_all (f <$> xs) s1) as [rs s2] eqn:E2.
  pose proof (Hf x s) as H1. unfold wp in H1. rewrite E1 in H1.
  assert (H2 : forall ys, rs = Ok ys -> Forall2 P xs ys).
  { specialize (IH (fun r _ => forall ys, r = Ok ys -> Forall2 P xs ys) s1).
    unfold wp in IH. rewrite E2 in IH. by apply IH. }
  change (list_fmap A (method S B) f xs) with (f <$> xs). rewrite E2.
  apply HQ. intros ys Hys. destruct r as [y|], rs as [ys'|]; simpl in Hys; simplify_eq.
  constructor; auto.
Qed.

(** The value of a run, whatever the state it ends in. *)
Lemma wp_value {A} (m : method S A) s :
  wp m (fun r _ => forall a, r = Ok a -> exists s1 s2, m s1 = (Ok a, s2)) s.
Proof. unfold wp. destruct (m s) as [r s'] eqn:E. intros a ->. eauto. Qed.

(** What a run gives is what its weakest precondition says. *)
Lemma wp_run {A} (m : method S A) (Q : result A -> S -> Prop) s r s' :
  wp m Q s -> m s = (r, s') -> Q r s'.
Proof. unfold wp. by intros H E; rewrite E in H. Qed.
End wp.

(** Prove what holds of the value [a] of a run [E : m s = (Ok a, s')] as a
    weakest precondition of [m]. *)
Ltac by_wp E :=
  match type of E with
  | ?m ?s = (Ok ?a, _) =>
      pattern a;
      match goal with
      | |- ?P a =>
          let H := fresh "H" in
          enough (H : wp m (fun r _ => forall v, r = Ok v -> P v) s) by exact (wp_run _ _ _ _ _ H E a eq_refl);
          clear E; cbv beta
      end
  end.

(** ** Sorting *)
(** A comparator [Array.prototype.sort] may be given: a total preorder. *)
Class Comparator {A} (cmp : A -> A -> Z) : Prop := {
  cmp_total : forall x y, (0 < cmp x y)%Z -> (cmp y x <= 0)%Z;
  cmp_trans : forall x y z, (cmp x y <= 0)%Z -> (cmp y z <= 0)%Z -> (cmp x z <= 0)%Z
}.

Section js_sort.
Context {A : Type} (cmp : A -> A -> Z).

Lemma js_insert_Permutation x l : js_insert cmp x l ≡ₚ x :: l.
Proof.
  induction l as [|y l IH]; simpl; [done|].
  case_match; [done|]. rewrite IH. by constructor.
Qed.

Lemma js_sort_Permutation l : js_sort cmp l ≡ₚ l.
Proof.
  induction l as [|x l IH]; simpl; [done|]. by rewrite js_insert_Permutation, IH.
Qed.

Lemma elem_of_js_sort x l : x ∈ js_sort cmp l <-> x ∈ l.
Proof. by rewrite js_sort_Permutation. Qed.

Lemma js_sort_nil_inv l : js_sort cmp l = [] -> l = [].
Proof.
  intros H. apply Permutation_nil. rewrite <- (js_sort_Permutation l), H. done.
Qed.

(** What a consistent comparator gives. *)
Context `{!Comparator cmp}.

Let le x y := (cmp x y <= 0)%Z.

Lemma js_insert_sorted x l : StronglySorted le l -> StronglySorted le (js_insert cmp x l).
Proof.
  induction 1 as [|y l Hs IH Hy]; simpl; [repeat constructor|].
  destruct (cmp x y <=? 0)%Z eqn:E; bool_to_prop.
  - constructor; [by constructor|]. constructor; [done|].
    eapply Forall_impl; [exact Hy|]. intros z Hz. by eapply cmp_trans.
  - constructor; [done|]. rewrite js_insert_Permutation.
    constructor; [by apply cmp_total|done].
Qed.

Lemma js_sort_sorted l : StronglySorted le (js_sort cmp l).
Proof. induction l; simpl; [constructor|by apply js_insert_sorted]. Qed.

(** The first success along a sorted list is a least one. *)
Lemma js_sort_first_some {B} (f : A -> option B) l b :
  first_some f (js_sort cmp l) = Some b ->
  exists x, x ∈ l /\ f x = Some b /\
    forall y, y ∈ l -> f y <> None -> y = x \/ (cmp x y <= 0)%Z.
Proof.
  intros H. pose proof (js_sort_sorted l) as Hs.
  setoid_rewrite <- (elem_of_js_sort _ l). revert Hs H.
  induction (js_sort cmp l) as [|x k IH]; [done|].
  intros Hs H. inversion Hs as [|?? Hk Hx]; subst. simpl in H.
  destruct (f x) as [b'|] eqn:E; simplify_eq.
  - exists x. split; [set_solver|]. split; [done|].
    intros y [->|Hy]%elem_of_cons _; [by left|right]. by eapply Forall_forall in Hx.
  - destruct (IH Hk H) as (z & ? & ? & Hz). exists z. split; [set_solver|]. split; [done|].
    intros y [->|Hy]%elem_of_cons Hf; [congruence|]. by apply Hz.
Qed.

(** The first element after sorting is a least one. *)
Lemma js_sort_head x l l' :
  js_sort cmp l = x :: l' -> x ∈ l /\ forall y, y ∈ l -> y = x \/ (cmp x y <= 0)%Z.
Proof.
  intros E. destruct (js_sort_first_some Some l x) as (z & ? & [= ->] & Hz); [by rewrite E|].
  split; [done|]. intros y Hy. by apply Hz.
Qed.
End js_sort.

(** ** Lists without repeated keys *)
Lemma NoDup_fmap_inj_on {A B} (f : A -> B) l x y :
  NoDup (f <$> l) -> x ∈ l -> y ∈ l -> f x = f y -> x = y.
Proof.
  induction l as [|z l IH]; simpl; [set_solver|].
  intros [Hz Hl]%NoDup_cons Hx Hy E.
  apply elem_of_cons in Hx as [->|Hx], Hy as [->|Hy]; auto.
  - destruct Hz. rewrite E. by apply list_elem_of_fmap_2.
  - destruct Hz. rewrite <- E. by apply list_elem_of_fmap_2.
Qed.

(** ** First successes *)
Lemma first_some_Some {A B} (f : A -> option B) l b :
  first_some f l = Some b -> exists x, x ∈ l /\ f x = Some b.
Proof.
  induction l as [|x l IH]; simpl; [done|].
  destruct (f x) eqn:E; intros H; simplify_eq; [set_solver|].
  destruct (IH H) as (z & ? & ?). set_solver.
Qed.

Lemma first_some_None {A B} (f : A -> option B) l :
  first_some f l = None <-> forall x, x ∈ l -> f x = None.
Proof.
  induction l as [|x l IH]; simpl; [set_solver|].
  destruct (f x) eqn:E; [|set_solver].
  split; [done|]. intros H. specialize (H x). rewrite E in H. set_solver.
Qed.

Lemma find_Some_in {A} (p : A -> bool) l x : List.find p l = Some x -> x ∈ l /\ p x = true.
Proof. intros H%find_some. by rewrite list_elem_of_In. Qed.

Lemma find_None_all {A} (p : A -> bool) l :
  List.find p l = None <-> forall x, x ∈ l -> p x = false.
Proof.
  split.
  - intros H x Hx. rewrite list_elem_of_In in Hx. by eapply find_none in H.
  - intros H. induction l as [|y l IH]; simpl; [done|].
    rewrite (H y) by set_solver. apply IH. set_solver.
Qed.

(** The first match is the only one when matches are equal. *)
Lemma find_unique {A} (p : A -> bool) l x :
  x ∈ l -> p x = true -> (forall y, y ∈ l -> p y = true -> y = x) -> List.find p l = Some x.
Proof.
  intros Hx Hp Hu. destruct (List.find p l) as [y|] eqn:E.
  - apply find_Some_in in E as [??]. f_equal. by apply Hu.
  - rewrite find_None_all in E. specialize (E x Hx). congruence.
Qed.

(** ** Maps *)
Section jsMap_lemmas.
Context {K V : Type} `{EqDecision K}.
Implicit Types (m : list (K * V)).

Lemma map_get_set k k' (v : V) m :
  map_get k' (map_set k v m) = if decide (k' = k) then Some v else map_get k' m.
Proof.
  induction m as [|[k1 v1] m IH]; simpl; [by repeat case_decide|].
  destruct (decide (k = k1)) as [->|Hk]; simpl.
  - repeat case_decide; naive_solver.
  - rewrite IH. repeat case_decide; naive_solver.
Qed.

Lemma map_get_set_eq k (v : V) m : map_get k (map_set k v m) = Some v.
Proof. rewrite map_get_set. by rewrite decide_True. Qed.

Lemma map_get_set_ne k k' (v : V) m : k' <> k -> map_get k' (map_set k v m) = map_get k' m.
Proof. intros. rewrite map_get_set. by rewrite decide_False. Qed.

Lemma map_set_keys k (v : V) m x : x ∈ (map_set k v m).*1 <-> x = k \/ x ∈ m.*1.
Proof.
  induction m as [|[k1 v1] m IH]; simpl; [set_solver|].
  destruct (decide (k = k1)) as [->|]; simpl; set_solver.
Qed.

Lemma map_set_NoDup k (v : V) m : NoDup m.*1 -> NoDup (map_set k v m).*1.
Proof.
  induction m as [|[k1 v1] m IH]; simpl; [intros; apply NoDup_singleton|].
  intros [Hn Hm]%NoDup_cons. destruct (decide (k = k1)) as [->|]; simpl.
  - by apply NoDup_cons.
  - apply NoDup_cons. split; [|by apply IH]. rewrite map_set_keys. naive_solver.
Qed.

Lemma map_get_Some_elem k (v : V) m : map_get k m = Some v -> (k, v) ∈ m.
Proof.
  induction m as [|[k1 v1] m IH]; simpl; [done|]. case_decide; simplify_eq; set_solver.
Qed.

Lemma map_get_elem k (v : V) m : NoDup m.*1 -> (k, v) ∈ m -> map_get k m = Some v.
Proof.
  induction m as [|[k1 v1] m IH]; simpl; [set_solver|].
  intros [Hn Hm]%NoDup_cons [E|Hin]%elem_of_cons; simplify_eq.
  - by rewrite decide_True.
  - rewrite decide_False; [auto|]. intros ->. destruct Hn. apply list_elem_of_fmap. by exists (k1, v).
Qed.
End jsMap_lemmas.

(** ** Strings *)
Lemma ascii_to_lower_idemp c : ascii_to_lower (ascii_to_lower c) = ascii_to_lower c.
Proof. by destruct c as [[] [] [] [] [] [] [] []]. Qed.

Lemma toLowerCase_idemp s : toLowerCase (toLowerCase s) = toLowerCase s.
Proof. induction s; simpl; [done|]. by rewrite ascii_to_lower_idemp, IHs. Qed.

Lemma is_hex_digit_lower c : is_hex_digit (ascii_to_lower c) = is_hex_digit c.
Proof. by destruct c as [[] [] [] [] [] [] [] []]. Qed.

Lemma string_forall_impl p q s :
  (forall c, p c = true -> q c = true) -> string_forall p s = true -> string_forall q s = true.
Proof. intros H. induction s; simpl; [done|]. intros ?; bool_to_prop. by rewrite H, IHs. Qed.

Lemma string_forall_app p s t : string_forall p (s +:+ t) = string_forall p s && string_forall p t.
Proof. induction s; simpl; [done|]. by rewrite IHs, andb_assoc. Qed.

(** Splitting a string at the first separator is unambiguous. *)
Lemma app_sep_inj (sep : ascii) a b s t :
  string_forall (fun c => negb (Ascii.eqb c sep)) a = true ->
  string_forall (fun c => negb (Ascii.eqb c sep)) b = true ->
  a +:+ String sep s = b +:+ String sep t -> a = b /\ s = t.
Proof.
  revert b; induction a as [|c a IH]; intros [|d b]; simpl; intros Ha Hb E; bool_to_prop.
  - by simplify_eq.
  - injection E as <- _. by rewrite Ascii.eqb_refl in *.
  - injection E as -> _. by rewrite Ascii.eqb_refl in *.
  - injection E as -> E. destruct (IH b) as [-> ->]; auto.
Qed.

Lemma length_slice0 n s : String.length (slice0 n s) <= n.
Proof. revert s; induction n; intros []; simpl; auto with arith. Qed.

(** Splitting undoes joining when no part holds the separator. *)
Lemma split_char_lacks sep s : lacks sep s = true -> split_char sep s = [s].
Proof.
  unfold lacks. induction s as [|c s IH]; simpl; [done|]. intros H; bool_to_prop.
  match goal with E : Ascii.eqb _ _ = false |- _ => rewrite E end.
  by rewrite IH.
Qed.

Lemma split_char_app sep s t :
  lacks sep s = true -> split_char sep (s +:+ String sep t) = s :: split_char sep t.
Proof.
  unfold lacks. induction s as [|c s IH]; simpl; [by rewrite Ascii.eqb_refl|].
  intros H; bool_to_prop. match goal with E : Ascii.eqb _ _ = false |- _ => rewrite E end.
  by rewrite IH.
Qed.

Lemma split_join sep parts :
  parts <> [] -> Forall (fun p => lacks sep p = true) parts ->
  split_char sep (join_char sep parts) = parts.
Proof.
  intros Hne H. induction H as [|p parts Hp Hps IH]; [done|].
  destruct parts as [|q parts]; [by apply split_char_lacks|].
  change (join_char sep (p :: q :: parts)) with (p +:+ String sep (join_char sep (q :: parts))).
  rewrite split_char_app by done. by rewrite IH.
Qed.

Lemma trim_no_space s : string_forall (fun c => negb (is_space c)) s = true -> trim s = s.
Proof.
  intros H. assert (E : trimEnd s = s).
  { revert H. induction s as [|c s IH]; simpl; [done|]. intros H; bool_to_prop.
    rewrite IH by done. destruct s; [|done].
    match goal with E : is_space _ = false |- _ => by rewrite E end. }
  unfold trim. destruct s as [|c s]; [done|]. simpl in H |- *. bool_to_prop.
  match goal with H' : is_space _ = false |- _ => by rewrite H' end.
Qed.

(** A string that starts with a visible character does not trim away. *)
Definition starts_visible (s : string) : bool :=
  match s with String c _ => negb (is_space c) | EmptyString => false end.

Lemma trim_nonempty s : starts_visible s = true -> string_nonempty (trim s) = true.
Proof.
  destruct s as [|c s]; simpl; [done|]. intros Hc%negb_true_iff.
  unfold trim. simpl. rewrite Hc. simpl. destruct (trimEnd s); [by rewrite Hc|done].
Qed.

(** ** Decimal printing and parsing *)
Lemma string_of_uint_digits d : string_forall is_digit (NilEmpty.string_of_uint d) = true.
Proof. by induction d. Qed.

Lemma to_int_nonneg z : (0 <= z)%Z -> exists d, Z.to_int z = Decimal.Pos d /\ d <> Decimal.Nil.
Proof.
  destruct z as [|p|p]; intros Hz; [by eexists| |lia].
  eexists; split; [done|]. apply DecimalPos.Unsigned.to_uint_nonnil.
Qed.

Lemma Z_toString_nonneg z :
  (0 <= z)%Z -> exists d, Z.to_int z = Decimal.Pos d /\ Z_toString z = NilZero.string_of_uint d /\ d <> Decimal.Nil.
Proof.
  intros Hz. destruct (to_int_nonneg z Hz) as (d & Hd & Hn).
  exists d. unfold Z_toString. by rewrite Hd.
Qed.

(** [BigInt(n.toString()) === n] *)
Lemma BigInt_toString z : (0 <= z)%Z -> BigInt_of_digits (Z_toString z) = Ok z.
Proof.
  intros Hz. destruct (Z_toString_nonneg z Hz) as (d & Hd & -> & Hn).
  unfold BigInt_of_digits. rewrite NilZero.usu by done.
  f_equal. pose proof (DecimalZ.of_to z) as E. rewrite Hd in E. exact E.
Qed.

(** [BigInt] accepts every digit string. *)
Lemma uint_of_digits s :
  string_forall is_digit s = true -> exists d, NilEmpty.uint_of_string s = Some d.
Proof.
  induction s as [|c s IH]; simpl; [by eexists|]. intros H; bool_to_prop.
  destruct IH as [d ->]; [done|].
  destruct c as [[] [] [] [] [] [] [] []]; try (vm_compute in H; discriminate); by eexists.
Qed.

Lemma BigInt_of_digits_total s :
  matches_digits s = true -> exists z, (0 <= z)%Z /\ BigInt_of_digits s = Ok z.
Proof.
  unfold matches_digits, BigInt_of_digits. intros H; bool_to_prop.
  destruct (uint_of_digits s) as [d Hd]; [done|].
  destruct s as [|c s]; [done|]. unfold NilZero.uint_of_string. rewrite Hd.
  exists (Z.of_uint d). split; [|done]. unfold Z.of_uint. lia.
Qed.

Lemma Z_toString_digits z : (0 <= z)%Z -> matches_digits (Z_toString z) = true.
Proof.
  intros Hz. destruct (Z_toString_nonneg z Hz) as (d & _ & -> & Hn).
  unfold matches_digits. destruct d; try done; simpl; apply string_of_uint_digits.
Qed.

Lemma Z_toString_inj z w : Z_toString z = Z_toString w -> z = w.
Proof.
  unfold Z_toString. intros E.
  assert (Hn : forall v, Z.to_int v <> Decimal.Pos Decimal.Nil /\ Z.to_int v <> Decimal.Neg Decimal.Nil).
  { intros [|p|p]; simpl; split; try done; intros [= H];
      by apply (DecimalPos.Unsigned.to_uint_nonnil p). }
  apply (f_equal NilZero.int_of_string) in E.
  rewrite !NilZero.isi in E by (apply Hn).
  injection E as E. by apply DecimalZ.to_int_inj.
Qed.

(** A digit string never holds a separator outside the digits. *)
Lemma digits_no_sep sep s :
  is_digit sep = false -> string_forall is_digit s = true ->
  string_forall (fun c => negb (Ascii.eqb c sep)) s = true.
Proof.
  intros Hs. apply string_forall_impl. intros c Hc.
  apply negb_true_iff, Ascii.eqb_neq. intros ->. congruence.
Qed.

Lemma Z_toString_no_sep sep z :
  (0 <= z)%Z -> is_digit sep = false ->
  string_forall (fun c => negb (Ascii.eqb c sep)) (Z_toString z) = true.
Proof.
  intros Hz Hs. apply digits_no_sep; [done|].
  pose proof (Z_toString_digits z Hz) as H. unfold matches_digits in H. by bool_to_prop.
Qed.

Lemma Z_toString_no_colon z : (0 <= z)%Z -> no_colon (Z_toString z) = true.
Proof. intros Hz. by apply Z_toString_no_sep. Qed.

Lemma app_colon_inj a b s t :
  no_colon a = true -> no_colon b = true ->
  a +:+ ":" +:+ s = b +:+ ":" +:+ t -> a = b /\ s = t.
Proof. apply app_sep_inj. Qed.

(** A digit string is read as its number. *)
Lemma BigInt_of_string_digits s : matches_digits s = true -> BigInt_of_string s = BigInt_of_digits s.
Proof.
  intros H. unfold BigInt_of_string. assert (Hd : string_forall is_digit s = true).
  { unfold matches_digits in H. by bool_to_prop. }
  rewrite (trim_no_space s).
  2: { apply (string_forall_impl is_digit); [|done]. intros c Hc.
       destruct c as [[] [] [] [] [] [] [] []]; try reflexivity; vm_compute in Hc; discriminate. }
  destruct s as [|c s]; [done|]. cbn [string_forall] in Hd. apply andb_true_iff in Hd as [Hc Hs].
  destruct c as [[] [] [] [] [] [] [] []]; try (vm_compute in Hc; discriminate); try (by rewrite H).
  destruct s as [|c s]; [by rewrite H|]. cbn [string_forall] in Hs. apply andb_true_iff in Hs as [Hc' _].
  destruct c as [[] [] [] [] [] [] [] []]; try (vm_compute in Hc'; discriminate); by rewrite H.
Qed.

Lemma BigInt_of_string_toString z : (0 <= z)%Z -> BigInt_of_string (Z_toString z) = Ok z.
Proof. intros Hz. rewrite BigInt_of_string_digits by (by apply Z_toString_digits). by apply BigInt_toString. Qed.

(** The pattern of decimals accepts what is printed, and only digits. *)
Lemma matches_decimal_digits s : matches_decimal s = true -> matches_digits s = true.
Proof.
  destruct s as [|c s]; [done|]. unfold matches_decimal, matches_digits. intros H.
  destruct c as [[] [] [] [] [] [] [] []]; try exact H; by destruct s.
Qed.

Lemma matches_decimal_toString z : (0 <= z)%Z -> matches_decimal (Z_toString z) = true.
Proof.
  intros Hz. destruct (Z.eq_dec z 0%Z) as [->|Hn]; [reflexivity|].
  pose proof (Z_toString_digits z Hz) as Hd. destruct (Z_toString z) as [|c s] eqn:E; [done|].
  unfold matches_decimal. unfold matches_digits in Hd. cbn [string_nonempty andb] in Hd.
  destruct (Ascii.eqb c "0") eqn:Ec; [|destruct c as [[] [] [] [] [] [] [] []]; try exact Hd; discriminate].
  apply Ascii.eqb_eq in Ec as ->. exfalso. apply Hn, (Z_toString_inj z 0%Z). rewrite E. clear -E Hz.
  destruct (Z_toString_nonneg z Hz) as (d & Ed & Es & _). rewrite E in Es.
  pose proof (DecimalZ.to_of (Z.to_int z)) as Hnorm. rewrite DecimalZ.of_to, Ed in Hnorm. injection Hnorm as Hnorm.
  destruct d as [|d|d|d|d|d|d|d|d|d|d]; try discriminate.
  pose proof (DecimalFacts.nzhead_nonzero (Decimal.D0 d) d) as Hh. unfold Decimal.unorm in Hnorm.
  destruct (Decimal.nzhead (Decimal.D0 d)) eqn:Ez; try congruence. injection Hnorm as ->. exact Es.
Qed.

(** [[...new Set(xs)]] has the members of [xs], once each. *)
Section js_set.
Context {A : Type} `{EqDecision A}.

Lemma js_set_fold (xs s : list A) :
  NoDup s ->
  let r := fold_left (fun s x => if bool_decide (x ∈ s) then s else s ++ [x]) xs s in
  NoDup r /\ (forall x, x ∈ r <-> x ∈ s \/ x ∈ xs).
Proof.
  revert s. induction xs as [|y xs IH]; intros s Hs; cbn [fold_left]; [split; [done|set_solver]|].
  case_bool_decide as Hy; destruct (IH (if decide (y ∈ s) then s else s ++ [y])) as [IH1 IH2].
  - by rewrite decide_True.
  - rewrite decide_True in IH1, IH2 by done. split; [done|]. intros x. rewrite IH2. set_solver.
  - rewrite decide_False by done. apply NoDup_app. split; [done|]. split; [set_solver|apply NoDup_singleton].
  - rewrite decide_False in IH1, IH2 by done. split; [done|]. intros x. rewrite IH2. set_solver.
Qed.

Lemma elem_of_js_set (x : A) xs : x ∈ js_set xs <-> x ∈ xs.
Proof. unfold js_set. destruct (js_set_fold xs [] NoDup_nil_2) as [_ H]. rewrite H. set_solver. Qed.

Lemma NoDup_js_set (xs : list A) : NoDup (js_set xs).
Proof. unfold js_set. by destruct (js_set_fold xs [] NoDup_nil_2). Qed.
End js_set.

(** ** The order of texts *)
Lemma compare_le s t : (compare_code_units s t <= 0)%Z <-> String.compare s t <> Gt.
Proof. unfold compare_code_units. destruct (String.compare s t); split; intros; try lia; done. Qed.

Lemma string_compare_trans s t u : String.compare s t <> Gt -> String.compare t u <> Gt -> String.compare s u <> Gt.
Proof.
  revert t u. induction s as [|a s IH]; intros [|b t] [|c u]; cbn; try done. unfold Ascii.compare.
  destruct (N.compare_spec (N_of_ascii a) (N_of_ascii b)), (N.compare_spec (N_of_ascii b) (N_of_ascii c)),
    (N.compare_spec (N_of_ascii a) (N_of_ascii c)); try done; try lia. apply IH.
Qed.

#[export] Instance compare_code_units_order : Comparator compare_code_units.
Proof.
  split.
  - intros s t. rewrite compare_le. unfold compare_code_units. pose proof (String.compare_antisym s t) as E.
    destruct (String.compare s t), (String.compare t s); done.
  - intros s t u. rewrite !compare_le. apply string_compare_trans.
Qed.

(** ** Concatenation *)
Lemma append_cons c (a b : string) : String c a +:+ b = String c (a +:+ b).
Proof. reflexivity. Qed.

Lemma string_app_assoc (a b c : string) : (a +:+ b) +:+ c = a +:+ (b +:+ c).
Proof. induction a as [|x a IH]; [done|]. by rewrite !append_cons, IH. Qed.

Lemma length_append (a b : string) : String.length (a +:+ b) = (String.length a + String.length b)%nat.
Proof. induction a as [|x a IH]; [done|]. rewrite append_cons. cbn [String.length]. by rewrite IH. Qed.

#[export] Hint Resolve Z_toString_no_colon toLowerCase_idemp Z_toString_digits Z_toString_no_sep : leopold.
#[export] Hint Rewrite toLowerCase_idemp @result_map_Ok @fail_if_Ok : leopold.
