(* ===== verification/Lifecycle.v ===== *)
(** * The keeper's vocabulary (keeper/src/lifecycle.ts)

    Round states, vault and round snapshots, lifecycle actions, signed
    transactions, and the [KeeperGateway] interface the engine drives.  The
    gateway reads and writes a world [W] the program does not see (chain, RPC
    providers, relayer): each operation is a [method W]. *)
From Stdlib Require Import ZArith Lia Ascii.
From stdpp Require Import base option list sets strings.
From S2P Require Import Prelude.

Definition SEPOLIA_CHAIN_ID : Z := 11155111.
Definition SELECTION_CHUNK_SIZE : Z := 4.
Definition ALLOCATION_CHUNK_SIZE : Z := 4.

(** The listed states keep their numbers in [RoundState_of_number].  A state read from a contract
    is cast, not checked ([Number(result[2]) as RoundState]), so any other
    number is a value of the type at run time. *)
Inductive RoundState : Type :=
| UNINITIALIZED
| OPEN
| AGGREGATE_PENDING
| AGGREGATE_FINALIZED
| EMPTY
| CANDIDATE_VALIDITY_PENDING
| CANDIDATE_REJECTED
| TICKET_ACCEPTED
| WINNER_PROCESSING
| WINNINGS_ALLOCATED
| SETTLED
| RECONCILIATION_PENDING
| RECONCILIATION_FAILED
| READY_TO_ALLOCATE
| ALLOCATION_PROCESSING
| UNLISTED_STATE (n : Z).

#[export] Instance RoundState_eq_dec : EqDecision RoundState.
Proof. solve_decision. Defined.

Definition RoundState_of_number (n : Z) : RoundState :=
  match n with
  | 0 => UNINITIALIZED
  | 1 => OPEN
  | 2 => AGGREGATE_PENDING
  | 3 => AGGREGATE_FINALIZED
  | 4 => EMPTY
  | 5 => CANDIDATE_VALIDITY_PENDING
  | 6 => CANDIDATE_REJECTED
  | 7 => TICKET_ACCEPTED
  | 8 => WINNER_PROCESSING
  | 9 => WINNINGS_ALLOCATED
  | 10 => SETTLED
  | 11 => RECONCILIATION_PENDING
  | 12 => RECONCILIATION_FAILED
  | 13 => READY_TO_ALLOCATE
  | 14 => ALLOCATION_PROCESSING
  | _ => UNLISTED_STATE n
  end%Z.

Definition RoundState_number (s : RoundState) : Z :=
  match s with
  | UNINITIALIZED => 0
  | OPEN => 1
  | AGGREGATE_PENDING => 2
  | AGGREGATE_FINALIZED => 3
  | EMPTY => 4
  | CANDIDATE_VALIDITY_PENDING => 5
  | CANDIDATE_REJECTED => 6
  | TICKET_ACCEPTED => 7
  | WINNER_PROCESSING => 8
  | WINNINGS_ALLOCATED => 9
  | SETTLED => 10
  | RECONCILIATION_PENDING => 11
  | RECONCILIATION_FAILED => 12
  | READY_TO_ALLOCATE => 13
  | ALLOCATION_PROCESSING => 14
  | UNLISTED_STATE n => n
  end.

Definition state_is (s : RoundState) (t : RoundState) : bool := bool_decide (s = t).

Record VaultConfig := {
  vc_id : Z;
  vc_name : string;
  vc_cadence : string;
  vc_address : string;
  vc_bondEscrow : string;
  vc_automaticEntry : option bool
}.

Record RoundSnapshot := {
  rs_roundId : Z;
  rs_opensAt : Z;
  rs_closesAt : Z;
  rs_state : RoundState;
  rs_publicAggregateTwab : Z;
  rs_publicPrize : Z;
  rs_participantCount : Z;
  rs_selectionCursor : Z;
  rs_allocationCursor : Z;
  rs_candidateValidityHandle : option string
}.

Record AutoEntryCandidate := {
  ae_account : string;
  ae_enabled : bool;
  ae_prospectivelyEnabled : option bool;
  ae_availableCredit : Z;
  ae_registered : bool
}.

Record VaultSnapshot := {
  vs_vault : VaultConfig;
  vs_activeRoundId : Z;
  vs_bondAmount : Z;
  vs_autoEntryCandidates : list AutoEntryCandidate;
  vs_rounds : list RoundSnapshot
}.

Record ProtocolSnapshot := {
  ps_chainId : Z;
  ps_blockNumber : Z;
  ps_blockHash : string;
  ps_blockTimestamp : Z;
  ps_vaults : list VaultSnapshot
}.

Record SnapshotReadHint := {
  srh_vaultAddress : string;
  srh_account : option string;
  srh_roundId : option Z
}.

Inductive LifecycleActionKind : Type :=
| register_auto_entry
| prune_auto_entry
| close_round
| finalize_aggregate
| settle_empty_round
| generate_random_candidate
| finalize_candidate_validity
| process_selection
| finalize_reconciliation
| recover_failed_reconciliation
| process_allocation
| finalize_settlement.

#[export] Instance LifecycleActionKind_eq_dec : EqDecision LifecycleActionKind.
Proof. solve_decision. Defined.

(** The string each kind is at run time. *)
Definition kind_string (k : LifecycleActionKind) : string :=
  match k with
  | register_auto_entry => "register-auto-entry"
  | prune_auto_entry => "prune-auto-entry"
  | close_round => "close-round"
  | finalize_aggregate => "finalize-aggregate"
  | settle_empty_round => "settle-empty-round"
  | generate_random_candidate => "generate-random-candidate"
  | finalize_candidate_validity => "finalize-candidate-validity"
  | process_selection => "process-selection"
  | finalize_reconciliation => "finalize-reconciliation"
  | recover_failed_reconciliation => "recover-failed-reconciliation"
  | process_allocation => "process-allocation"
  | finalize_settlement => "finalize-settlement"
  end.

Definition all_kinds : list LifecycleActionKind :=
  [register_auto_entry; prune_auto_entry; close_round; finalize_aggregate; settle_empty_round;
   generate_random_candidate; finalize_candidate_validity; process_selection;
   finalize_reconciliation; recover_failed_reconciliation; process_allocation;
   finalize_settlement].

Record LifecycleAction := {
  la_key : string;
  la_kind : LifecycleActionKind;
  la_vault : VaultConfig;
  la_roundId : Z;
  la_cursor : option Z;
  la_account : option string
}.

Record PublicProof := {
  abiEncodedClearValues : string;
  decryptionProof : string
}.

Record GasPolicyDecision := {
  gd_action : LifecycleActionKind;
  gd_estimatedGas : option Z;
  gd_gasFloor : option Z;
  gd_multiplierBps : Z;
  gd_additiveMargin : Z;
  gd_gasLimit : Z;
  gd_estimationFallback : bool
}.

Record SignedLifecycleTransaction := {
  st_action : LifecycleAction;
  st_hash : string;
  st_nonce : Z;
  st_serialized : string;
  st_calldataHash : string;
  st_maximumCostWei : Z;
  st_gasPolicy : option GasPolicyDecision
}.

(** [status] is [1], [0] or null in the provider's receipt. *)
Record ReceiptView := {
  rv_hash : string;
  rv_blockHash : string;
  rv_blockNumber : Z;
  rv_status : option Z;
  rv_confirmations : Z
}.

Record TransactionView := { tv_hash : string; tv_nonce : Z }.

(** What a settlement engine asks of the chain side. *)
Class KeeperGateway (W : Type) := {
  gw_getChainId : method W Z;
  gw_getKeeperBalance : method W Z;
  gw_readSnapshot : option SnapshotReadHint -> method W ProtocolSnapshot;
  gw_encodeAction : LifecycleAction -> method W string;
  gw_simulate : LifecycleAction -> string -> method W unit;
  gw_sign : LifecycleAction -> string -> method W SignedLifecycleTransaction;
  gw_broadcast : SignedLifecycleTransaction -> method W string;
  gw_getReceipt : string -> method W (option ReceiptView);
  gw_getTransaction : string -> method W (option TransactionView);
  gw_getTransactionCount : string -> method W Z
}.

Lemma RoundState_of_number_inj n m : RoundState_of_number n = RoundState_of_number m -> n = m.
Proof.
  assert (H : forall k, RoundState_number (RoundState_of_number k) = k).
  { intros k. destruct k as [|p|p]; [done| |done].
    do 4 (try destruct p as [p|p|]; try done). }
  intros E. apply (f_equal RoundState_number) in E. by rewrite !H in E.
Qed.

Lemma kind_string_inj k1 k2 : kind_string k1 = kind_string k2 -> k1 = k2.
Proof. by destruct k1, k2. Qed.

Lemma kind_string_no_colon k : no_colon (kind_string k) = true.
Proof. by destruct k. Qed.

Lemma elem_of_all_kinds k : k ∈ all_kinds.
Proof. destruct k; unfold all_kinds; set_solver. Qed.

#[export] Hint Resolve kind_string_no_colon elem_of_all_kinds : leopold.
