(* ===== verification/Planner.v ===== *)
(** * The lifecycle planner (keeper/src/planner.ts)

    [planNextAction] picks the one globally legal operation of a snapshot;
    [isActionRequired] is the check the engine repeats on a fresh snapshot.
    The theorems say the planner only proposes actions that check accepts, in
    which order it proposes them, when it proposes none, and that the journal
    key of an action identifies it. *)
From Stdlib Require Import ZArith Lia Ascii.
From stdpp Require Import base option list sets strings.
From S2P Require Import Prelude.
From S2P Require Import Lifecycle.

Definition findRound (vault : VaultSnapshot) (roundId : Z) : option RoundSnapshot :=
  List.find (fun round => rs_roundId round =? roundId)%Z (vs_rounds vault).

Definition actionKey (vault : VaultSnapshot) (round : RoundSnapshot)
    (kind : LifecycleActionKind) (version : option string) : string :=
  toLowerCase (vc_address (vs_vault vault)) +:+ ":" +:+ Z_toString (rs_roundId round) +:+ ":" +:+
    kind_string kind +:+ ":" +:+ default "phase" version.

Definition createAction (vault : VaultSnapshot) (round : RoundSnapshot)
    (kind : LifecycleActionKind) (version : option string)
    (cursor : option Z) (account : option string) : LifecycleAction :=
  {| la_key := actionKey vault round kind version;
     la_kind := kind;
     la_vault := vs_vault vault;
     la_roundId := rs_roundId round;
     la_cursor := cursor;
     la_account := account |}.

(** The [switch]; a state outside the enumeration falls through it and the
    function returns [undefined], which its caller treats as no action. *)
Definition actionForRound (vault : VaultSnapshot) (round : RoundSnapshot) : option LifecycleAction :=
  match rs_state round with
  | AGGREGATE_PENDING => Some (createAction vault round finalize_aggregate None None None)
  | AGGREGATE_FINALIZED =>
      Some (createAction vault round generate_random_candidate (Some "initial") None None)
  | EMPTY => Some (createAction vault round settle_empty_round None None None)
  | CANDIDATE_VALIDITY_PENDING =>
      Some (createAction vault round finalize_candidate_validity
              (Some (default "pending-handle" (rs_candidateValidityHandle round))) None None)
  | CANDIDATE_REJECTED =>
      Some (createAction vault round generate_random_candidate
              (Some (default "rejected-handle" (rs_candidateValidityHandle round))) None None)
  | TICKET_ACCEPTED | WINNER_PROCESSING =>
      Some (createAction vault round process_selection
              (Some (Z_toString (rs_selectionCursor round))) (Some (rs_selectionCursor round)) None)
  | RECONCILIATION_PENDING =>
      Some (createAction vault round finalize_reconciliation None None None)
  | RECONCILIATION_FAILED =>
      Some (createAction vault round recover_failed_reconciliation None None None)
  | READY_TO_ALLOCATE | ALLOCATION_PROCESSING =>
      Some (createAction vault round process_allocation
              (Some (Z_toString (rs_allocationCursor round))) (Some (rs_allocationCursor round)) None)
  | WINNINGS_ALLOCATED => Some (createAction vault round finalize_settlement None None None)
  | UNINITIALIZED | OPEN | SETTLED | UNLISTED_STATE _ => None
  end.

(** The closure a vault is due, if its active round is open and expired. *)
Definition dueClosure (snapshot : ProtocolSnapshot) (vault : VaultSnapshot) : option LifecycleAction :=
  match findRound vault (vs_activeRoundId vault) with
  | Some active =>
      if state_is (rs_state active) OPEN && negb (ps_blockTimestamp snapshot <? rs_closesAt active)%Z
      then Some (createAction vault active close_round (Some (Z_toString (rs_closesAt active))) None None)
      else None
  | None => None
  end.

Definition compareClosures (left right : LifecycleAction) : Z :=
  if (la_roundId left <? la_roundId right)%Z then -1
  else if (la_roundId right <? la_roundId left)%Z then 1
  else vc_id (la_vault left) - vc_id (la_vault right).

Definition compareVaults (left right : VaultSnapshot) : Z :=
  vc_id (vs_vault left) - vc_id (vs_vault right).

Definition compareRounds (left right : RoundSnapshot) : Z :=
  if (rs_roundId left <? rs_roundId right)%Z then -1
  else if (rs_roundId right <? rs_roundId left)%Z then 1 else 0.

Definition registrable (vault : VaultSnapshot) (entry : AutoEntryCandidate) : bool :=
  ae_enabled entry && negb (ae_registered entry) &&
  (vs_bondAmount vault <=? ae_availableCredit entry)%Z.

Definition prunable (entry : AutoEntryCandidate) : bool :=
  negb (ae_enabled entry) && negb (bool_decide (ae_prospectivelyEnabled entry = Some true)).

(** The auto-entry work of one vault: one turn of the second loop. *)
Definition autoEntryAction (snapshot : ProtocolSnapshot) (vault : VaultSnapshot) : option LifecycleAction :=
  match findRound vault (vs_activeRoundId vault) with
  | Some active =>
      if negb (state_is (rs_state active) OPEN) || (rs_closesAt active <=? ps_blockTimestamp snapshot)%Z
      then None
      else
        match List.find (registrable vault) (vs_autoEntryCandidates vault) with
        | Some candidate =>
            Some (createAction vault active register_auto_entry
                    (Some (toLowerCase (ae_account candidate))) None (Some (ae_account candidate)))
        | None =>
            match List.find prunable (vs_autoEntryCandidates vault) with
            | Some stale =>
                Some (createAction vault active prune_auto_entry
                        (Some (toLowerCase (ae_account stale))) None (Some (ae_account stale)))
            | None => None
            end
        end
  | None => None
  end.

Definition unfinishedRounds (vault : VaultSnapshot) : list RoundSnapshot :=
  js_sort compareRounds
    (List.filter (fun round => (rs_roundId round <? vs_activeRoundId vault)%Z &&
                               negb (state_is (rs_state round) SETTLED)) (vs_rounds vault)).

(** The settlement work of one vault: one turn of the third loop. *)
Definition settlementAction (vault : VaultSnapshot) : option LifecycleAction :=
  first_some (actionForRound vault) (unfinishedRounds vault).

Definition dueClosures (snapshot : ProtocolSnapshot) : list LifecycleAction :=
  js_sort compareClosures (filter_map (dueClosure snapshot) (ps_vaults snapshot)).

Definition planNextAction (snapshot : ProtocolSnapshot) : option LifecycleAction :=
  match dueClosures snapshot with
  | first :: _ => Some first
  | [] =>
      match first_some (autoEntryAction snapshot) (js_sort compareVaults (ps_vaults snapshot)) with
      | Some action => Some action
      | None => first_some settlementAction (js_sort compareVaults (ps_vaults snapshot))
      end
  end.

(** [entry.account.toLowerCase() === action.account?.toLowerCase()] *)
Definition sameAccount (action : LifecycleAction) (entry : AutoEntryCandidate) : bool :=
  bool_decide (Some (toLowerCase (ae_account entry)) = (toLowerCase <$> la_account action)).

Definition isActionRequired (snapshot : ProtocolSnapshot) (action : LifecycleAction) : bool :=
  match List.find (fun candidate =>
          bool_decide (toLowerCase (vc_address (vs_vault candidate)) =
                       toLowerCase (vc_address (la_vault action)))) (ps_vaults snapshot) with
  | None => false
  | Some vault =>
    match findRound vault (la_roundId action) with
    | None => false
    | Some round =>
      let active := findRound vault (vs_activeRoundId vault) in
      let activeOpen := match active with Some a => state_is (rs_state a) OPEN | None => false end in
      let beforeClose := match active with
                         | Some a => (ps_blockTimestamp snapshot <? rs_closesAt a)%Z
                         | None => false end in
      let candidate := List.find (sameAccount action) (vs_autoEntryCandidates vault) in
      let state := rs_state round in
      match la_kind action with
      | register_auto_entry =>
          (la_roundId action =? vs_activeRoundId vault)%Z && activeOpen && beforeClose &&
          match candidate with
          | Some c => ae_enabled c && negb (ae_registered c) &&
                      (vs_bondAmount vault <=? ae_availableCredit c)%Z
          | None => false
          end
      | prune_auto_entry =>
          (la_roundId action =? vs_activeRoundId vault)%Z && activeOpen &&
          match candidate with
          | Some c => negb (ae_enabled c) && negb (bool_decide (ae_prospectivelyEnabled c = Some true))
          | None => false
          end
      | close_round =>
          (vs_activeRoundId vault =? la_roundId action)%Z && state_is state OPEN &&
          (rs_closesAt round <=? ps_blockTimestamp snapshot)%Z
      | finalize_aggregate => state_is state AGGREGATE_PENDING
      | settle_empty_round => state_is state EMPTY
      | generate_random_candidate =>
          state_is state AGGREGATE_FINALIZED || state_is state CANDIDATE_REJECTED
      | finalize_candidate_validity => state_is state CANDIDATE_VALIDITY_PENDING
      | process_selection =>
          (state_is state TICKET_ACCEPTED || state_is state WINNER_PROCESSING) &&
          bool_decide (Some (rs_selectionCursor round) = la_cursor action) &&
          (rs_selectionCursor round <? rs_participantCount round)%Z
      | finalize_reconciliation => state_is state RECONCILIATION_PENDING
      | recover_failed_reconciliation => state_is state RECONCILIATION_FAILED
      | process_allocation =>
          (state_is state READY_TO_ALLOCATE || state_is state ALLOCATION_PROCESSING) &&
          bool_decide (Some (rs_allocationCursor round) = la_cursor action) &&
          (rs_allocationCursor round <? rs_participantCount round)%Z && activeOpen && beforeClose
      | finalize_settlement => state_is state WINNINGS_ALLOCATED
      end
    end
  end.

Definition actionChunkSize (action : LifecycleAction) : option Z :=
  if decide (la_kind action = process_selection) then Some SELECTION_CHUNK_SIZE
  else if decide (la_kind action = process_allocation) then Some ALLOCATION_CHUNK_SIZE
  else None.

(** * Well-formed snapshots

    What the gateway and the contract give a snapshot: one entry per vault
    address, per round id and per account, cursors inside the participant list
    while a round is being processed, and an open active round. *)
Definition cursorsInRange (round : RoundSnapshot) : Prop :=
  (rs_state round ∈ [TICKET_ACCEPTED; WINNER_PROCESSING] ->
     rs_selectionCursor round < rs_participantCount round)%Z /\
  (rs_state round ∈ [READY_TO_ALLOCATE; ALLOCATION_PROCESSING] ->
     rs_allocationCursor round < rs_participantCount round)%Z.

Definition wf_vault (vault : VaultSnapshot) : Prop :=
  NoDup (rs_roundId <$> vs_rounds vault) /\
  NoDup ((fun e => toLowerCase (ae_account e)) <$> vs_autoEntryCandidates vault) /\
  Forall cursorsInRange (vs_rounds vault) /\
  (rs_state <$> findRound vault (vs_activeRoundId vault)) = Some OPEN.

Definition wf_snapshot (snapshot : ProtocolSnapshot) : Prop :=
  NoDup ((fun v => toLowerCase (vc_address (vs_vault v))) <$> ps_vaults snapshot) /\
  Forall wf_vault (ps_vaults snapshot).

#[export] Instance cursorsInRange_dec round : Decision (cursorsInRange round).
Proof. unfold cursorsInRange. apply _. Defined.
#[export] Instance wf_vault_dec vault : Decision (wf_vault vault).
Proof. unfold wf_vault. apply _. Defined.
#[export] Instance wf_snapshot_dec snapshot : Decision (wf_snapshot snapshot).
Proof. unfold wf_snapshot. apply _. Defined.

(** * Lemmas *)
#[export] Instance compareClosures_comparator : Comparator compareClosures.
Proof.
  split; unfold compareClosures; intros.
  - repeat case_match; bool_to_prop; lia.
  - repeat case_match; bool_to_prop; lia.
Qed.

#[export] Instance compareVaults_comparator : Comparator compareVaults.
Proof. split; unfold compareVaults; intros; lia. Qed.

#[export] Instance compareRounds_comparator : Comparator compareRounds.
Proof. split; unfold compareRounds; intros; repeat case_match; bool_to_prop; lia. Qed.

Lemma state_is_true s t : state_is s t = true <-> s = t.
Proof. apply bool_decide_eq_true. Qed.

Lemma findRound_unique vault round :
  wf_vault vault -> round ∈ vs_rounds vault -> findRound vault (rs_roundId round) = Some round.
Proof.
  intros (Hr & _) Hin. apply find_unique; [done|by apply Z.eqb_refl|].
  intros y Hy E%Z.eqb_eq. by eapply NoDup_fmap_inj_on.
Qed.

Lemma findRound_Some vault id round :
  findRound vault id = Some round -> round ∈ vs_rounds vault /\ rs_roundId round = id.
Proof. intros [? ?%Z.eqb_eq]%find_Some_in. done. Qed.

Lemma sameAccount_found vault entry action :
  wf_vault vault -> entry ∈ vs_autoEntryCandidates vault -> la_account action = Some (ae_account entry) ->
  List.find (sameAccount action) (vs_autoEntryCandidates vault) = Some entry.
Proof.
  intros (_ & Ha & _) Hin E. unfold sameAccount. rewrite E. apply find_unique; [done| |].
  - by apply bool_decide_eq_true.
  - intros y Hy H%bool_decide_eq_true. simpl in H. simplify_eq.
    by eapply (NoDup_fmap_inj_on (fun e => toLowerCase (ae_account e))).
Qed.

(** [isActionRequired] on an action the planner built for a vault of a
    well-formed snapshot looks at that vault and that round. *)
Lemma vault_found snapshot vault action :
  wf_snapshot snapshot -> vault ∈ ps_vaults snapshot -> la_vault action = vs_vault vault ->
  List.find (fun candidate =>
    bool_decide (toLowerCase (vc_address (vs_vault candidate)) =
                 toLowerCase (vc_address (la_vault action)))) (ps_vaults snapshot) = Some vault.
Proof.
  intros [Hu _] Hin E. rewrite E. apply find_unique; [done|by apply bool_decide_eq_true|].
  intros y Hy H%bool_decide_eq_true.
  by eapply (NoDup_fmap_inj_on (fun v => toLowerCase (vc_address (vs_vault v)))).
Qed.

Lemma wf_snapshot_vault snapshot vault :
  wf_snapshot snapshot -> vault ∈ ps_vaults snapshot -> wf_vault vault.
Proof. intros [_ H] Hin. by eapply Forall_forall in H. Qed.

Lemma dueClosure_Some snapshot vault a :
  dueClosure snapshot vault = Some a ->
  exists active, findRound vault (vs_activeRoundId vault) = Some active /\
    rs_state active = OPEN /\ (rs_closesAt active <= ps_blockTimestamp snapshot)%Z /\
    a = createAction vault active close_round (Some (Z_toString (rs_closesAt active))) None None.
Proof.
  unfold dueClosure. intros H. repeat case_match; simplify_eq. bool_to_prop.
  eexists. split; [done|]. split; [by apply state_is_true|]. split; [lia|done].
Qed.

Lemma dueClosure_None snapshot vault :
  wf_vault vault -> dueClosure snapshot vault = None ->
  exists active, findRound vault (vs_activeRoundId vault) = Some active /\
    rs_state active = OPEN /\ (ps_blockTimestamp snapshot < rs_closesAt active)%Z.
Proof.
  intros (_ & _ & _ & Ho). unfold dueClosure.
  destruct (findRound vault _) as [active|]; [|done]. simpl in Ho. simplify_eq/=.
  rewrite Ho. unfold state_is. rewrite bool_decide_eq_true_2 by done. simpl.
  destruct (_ <? _)%Z eqn:?; [|done]. bool_to_prop. eauto.
Qed.

Lemma dueClosures_nil snapshot :
  dueClosures snapshot = [] <-> forall vault, vault ∈ ps_vaults snapshot -> dueClosure snapshot vault = None.
Proof.
  unfold dueClosures, filter_map. split.
  - intros H%js_sort_nil_inv vault Hin. destruct (dueClosure snapshot vault) as [a|] eqn:E; [|done].
    assert (a ∈ omap (dueClosure snapshot) (ps_vaults snapshot)) as Ha
      by (apply list_elem_of_omap; eauto).
    rewrite H in Ha. set_solver.
  - intros H. replace (omap _ _) with (@nil LifecycleAction); [done|].
    symmetry. apply elem_of_nil_inv. intros a (v & Hv & E)%list_elem_of_omap.
    rewrite H in E; done.
Qed.

Lemma elem_of_unfinished vault round :
  round ∈ unfinishedRounds vault <->
  round ∈ vs_rounds vault /\ (rs_roundId round < vs_activeRoundId vault)%Z /\ rs_state round <> SETTLED.
Proof.
  unfold unfinishedRounds. rewrite elem_of_js_sort, !list_elem_of_In, filter_In, andb_true_iff.
  rewrite Z.ltb_lt, negb_true_iff. unfold state_is. rewrite bool_decide_eq_false. tauto.
Qed.

(** The states with no lifecycle work. *)
Lemma actionForRound_None vault round :
  actionForRound vault round = None <->
  match rs_state round with
  | UNINITIALIZED | OPEN | SETTLED | UNLISTED_STATE _ => True
  | _ => False
  end.
Proof. unfold actionForRound. destruct (rs_state round); naive_solver. Qed.

(** Soundness, phase by phase. *)
Lemma dueClosure_required snapshot vault a :
  wf_snapshot snapshot -> vault ∈ ps_vaults snapshot ->
  dueClosure snapshot vault = Some a -> isActionRequired snapshot a = true.
Proof.
  intros Hwf Hin (active & Hf & Ho & Hd & ->)%dueClosure_Some.
  unfold isActionRequired. rewrite (vault_found snapshot vault) by done. simpl.
  apply findRound_Some in Hf as [Hr <-]. rewrite findRound_unique by eauto using wf_snapshot_vault.
  apply findRound_unique in Hr; [|by eauto using wf_snapshot_vault].
  rewrite !andb_true_iff, Z.leb_le, state_is_true. split; [split|]; try done.
  by apply Z.eqb_eq.
Qed.

Lemma autoEntryAction_required snapshot vault a :
  wf_snapshot snapshot -> vault ∈ ps_vaults snapshot ->
  autoEntryAction snapshot vault = Some a -> isActionRequired snapshot a = true.
Proof.
  intros Hwf Hin H. pose proof (wf_snapshot_vault _ _ Hwf Hin) as Hv.
  unfold autoEntryAction in H. repeat case_match; simplify_eq; bool_to_prop;
    match goal with E : List.find _ _ = Some ?c |- _ => apply find_Some_in in E as [? Hp] end;
    unfold isActionRequired; rewrite (vault_found snapshot vault) by done; simpl;
    match goal with E : findRound _ _ = Some _ |- _ =>
      pose proof (proj2 (findRound_Some _ _ _ E)) as Hid; rewrite Hid, E end;
    (erewrite sameAccount_found; [|exact Hv|eassumption|reflexivity]);
    match goal with E : state_is _ OPEN = true |- _ => rewrite E end;
    rewrite Z.eqb_refl; simpl.
  - unfold registrable in Hp. rewrite Hp.
    replace (_ <? _)%Z with true; [done|]. symmetry. apply Z.ltb_lt. lia.
  - unfold prunable in Hp. done.
Qed.

Lemma actionForRound_required snapshot vault round a :
  wf_snapshot snapshot -> vault ∈ ps_vaults snapshot -> round ∈ vs_rounds vault ->
  dueClosure snapshot vault = None ->
  actionForRound vault round = Some a -> isActionRequired snapshot a = true.
Proof.
  intros Hwf Hin Hr Hdue H. pose proof (wf_snapshot_vault _ _ Hwf Hin) as Hv.
  destruct (dueClosure_None _ _ Hv Hdue) as (active & Ha & Ho & Hb).
  assert (Hc : cursorsInRange round) by (destruct Hv as (_ & _ & Hc & _); by eapply Forall_forall in Hc).
  destruct Hc as [Hsel Hall].
  unfold actionForRound in H.
  destruct (rs_state round) eqn:Es; simplify_eq; unfold isActionRequired;
    rewrite (vault_found snapshot vault) by done; simpl;
    rewrite (findRound_unique _ _ Hv Hr), ?Es, ?Ha, ?Ho; try done;
    simpl; rewrite bool_decide_eq_true_2 by done; simpl.
  all: rewrite ?andb_true_r; try (apply Z.ltb_lt, Hsel; set_solver).
  all: apply andb_true_iff; split; [apply Z.ltb_lt, Hall; set_solver|by apply Z.ltb_lt].
Qed.

(** C4: Soundness of the planner.  On a well-formed snapshot, whatever action
    [planNextAction] proposes is one [isActionRequired] accepts on the same
    snapshot, so the engine's re-check never discards a freshly planned action
    as unnecessary. *)
Theorem planNextAction_required snapshot action :
  wf_snapshot snapshot -> planNextAction snapshot = Some action ->
  isActionRequired snapshot action = true.
Proof.
  intros Hwf H. unfold planNextAction in H.
  destruct (dueClosures snapshot) as [|a rest] eqn:Ed; simplify_eq.
  - rewrite dueClosures_nil in Ed.
    destruct (first_some (autoEntryAction snapshot) _) as [a|] eqn:Ea; simplify_eq.
    + apply first_some_Some in Ea as (v & Hv & Ea). rewrite elem_of_js_sort in Hv.
      by eapply autoEntryAction_required.
    + apply first_some_Some in H as (v & Hv & H). rewrite elem_of_js_sort in Hv.
      apply first_some_Some in H as (r & Hr & H). apply elem_of_unfinished in Hr as [Hr _].
      by eapply actionForRound_required; eauto.
  - apply js_sort_head in Ed as [Ha _]; [|apply _].
    apply list_elem_of_omap in Ha as (v & Hv & Ha). by eapply dueClosure_required.
Qed.

(** Closures come first, least round and then least vault id first. *)
Theorem planNextAction_closures_first snapshot vault closure :
  vault ∈ ps_vaults snapshot -> dueClosure snapshot vault = Some closure ->
  exists first vault', planNextAction snapshot = Some first /\ la_kind first = close_round /\
    vault' ∈ ps_vaults snapshot /\ dueClosure snapshot vault' = Some first /\
    (la_roundId first < la_roundId closure \/
     la_roundId first = la_roundId closure /\
     vc_id (la_vault first) <= vc_id (la_vault closure))%Z.
Proof.
  intros Hin Hc. unfold planNextAction.
  assert (closure ∈ filter_map (dueClosure snapshot) (ps_vaults snapshot)) as Hcl
    by (apply list_elem_of_omap; eauto).
  destruct (dueClosures snapshot) as [|first rest] eqn:Ed.
  - rewrite dueClosures_nil in Ed. rewrite Ed in Hc; done.
  - apply js_sort_head in Ed as [Hf Hmin]; [|apply _].
    apply list_elem_of_omap in Hf as (v' & Hv' & Hf).
    exists first, v'. split_and!; [done| |done|done|].
    + by apply dueClosure_Some in Hf as (? & _ & _ & _ & ->).
    + destruct (Hmin closure Hcl) as [->|Hle]; [right; lia|].
      unfold compareClosures in Hle. repeat case_match; bool_to_prop; lia.
Qed.

(** The planner is idle exactly when there is nothing to do. *)
Theorem planNextAction_idle snapshot :
  planNextAction snapshot = None <->
  forall vault, vault ∈ ps_vaults snapshot ->
    dueClosure snapshot vault = None /\ autoEntryAction snapshot vault = None /\
    forall round, round ∈ vs_rounds vault -> (rs_roundId round < vs_activeRoundId vault)%Z ->
      match rs_state round with
      | UNINITIALIZED | OPEN | SETTLED | UNLISTED_STATE _ => True
      | _ => False
      end.
Proof.
  unfold planNextAction. setoid_rewrite <- actionForRound_None. split.
  - intros H vault Hin. destruct (dueClosures snapshot) eqn:Ed; [|done].
    rewrite dueClosures_nil in Ed. split; [by apply Ed|].
    destruct (first_some (autoEntryAction snapshot) _) eqn:Ea; [done|].
    rewrite first_some_None in Ea. setoid_rewrite elem_of_js_sort in Ea.
    split; [by apply Ea|]. intros round Hr Hlt.
    rewrite first_some_None in H. setoid_rewrite elem_of_js_sort in H.
    specialize (H vault Hin). unfold settlementAction in H. rewrite first_some_None in H.
    destruct (decide (rs_state round = SETTLED)) as [Es|Hns].
    + apply actionForRound_None. by rewrite Es.
    + apply H, elem_of_unfinished. auto.
  - intros H. replace (dueClosures snapshot) with (@nil LifecycleAction)
      by (symmetry; apply dueClosures_nil; naive_solver).
    replace (first_some (autoEntryAction snapshot) _) with (@None LifecycleAction).
    2: { symmetry. apply first_some_None. intros v. rewrite elem_of_js_sort. naive_solver. }
    apply first_some_None. intros v. rewrite elem_of_js_sort. intros Hv.
    apply first_some_None. intros r (Hr & Hlt & _)%elem_of_unfinished. naive_solver.
Qed.

(** Settlement works on the least vault id and there on the oldest round. *)
Theorem planNextAction_oldest_first snapshot action :
  planNextAction snapshot = Some action ->
  (forall vault, vault ∈ ps_vaults snapshot ->
     dueClosure snapshot vault = None /\ autoEntryAction snapshot vault = None) ->
  exists vault round, vault ∈ ps_vaults snapshot /\ round ∈ vs_rounds vault /\
    actionForRound vault round = Some action /\
    (forall vault', vault' ∈ ps_vaults snapshot -> settlementAction vault' <> None ->
       vault' = vault \/ vc_id (vs_vault vault) <= vc_id (vs_vault vault'))%Z /\
    (forall round', round' ∈ unfinishedRounds vault -> actionForRound vault round' <> None ->
       round' = round \/ rs_roundId round <= rs_roundId round')%Z.
Proof.
  intros H Hq. unfold planNextAction in H.
  replace (dueClosures snapshot) with (@nil LifecycleAction) in H
    by (symmetry; apply dueClosures_nil; naive_solver).
  replace (first_some (autoEntryAction snapshot) _) with (@None LifecycleAction) in H.
  2: { symmetry. apply first_some_None. intros v. rewrite elem_of_js_sort. naive_solver. }
  apply js_sort_first_some in H as (vault & Hv & H & Hmin); [|apply _].
  pose proof H as Hs. unfold settlementAction, unfinishedRounds in Hs.
  apply js_sort_first_some in Hs as (round & Hr & Ha & Hrmin); [|apply _].
  exists vault, round. split; [done|]. split.
  { apply list_elem_of_In, filter_In in Hr as [Hr _]. by apply list_elem_of_In. }
  split; [done|]. split.
  - intros v' Hv' Hn. destruct (Hmin v' Hv' Hn) as [->|Hc]; [by left|right].
    unfold compareVaults in Hc. lia.
  - intros r' Hr' Hn. unfold unfinishedRounds in Hr'. rewrite elem_of_js_sort in Hr'.
    destruct (Hrmin r' Hr' Hn) as [->|Hc]; [by left|right].
    unfold compareRounds in Hc. repeat case_match; bool_to_prop; lia.
Qed.

(** The journal key of an action identifies its vault (up to case), round,
    kind and version. *)
Theorem actionKey_inj vault1 round1 kind1 version1 vault2 round2 kind2 version2 :
  no_colon (toLowerCase (vc_address (vs_vault vault1))) = true ->
  no_colon (toLowerCase (vc_address (vs_vault vault2))) = true ->
  (0 <= rs_roundId round1)%Z -> (0 <= rs_roundId round2)%Z ->
  actionKey vault1 round1 kind1 version1 = actionKey vault2 round2 kind2 version2 ->
  toLowerCase (vc_address (vs_vault vault1)) = toLowerCase (vc_address (vs_vault vault2)) /\
  rs_roundId round1 = rs_roundId round2 /\ kind1 = kind2 /\
  default "phase" version1 = default "phase" version2.
Proof.
  intros Ha1 Ha2 Hr1 Hr2 E. unfold actionKey in E.
  apply app_colon_inj in E as [-> E]; [|done..].
  apply app_colon_inj in E as [?%Z_toString_inj E]; [|auto with leopold..].
  apply app_colon_inj in E as [?%kind_string_inj E]; [|auto with leopold..].
  done.
Qed.

(** * Concrete instances *)
Definition ex_config (id : Z) (address : string) : VaultConfig :=
  {| vc_id := id; vc_name := "Daily"; vc_cadence := "daily"; vc_address := address;
     vc_bondEscrow := "0xE5"; vc_automaticEntry := Some true |}.

Definition ex_round (id closesAt : Z) (state : RoundState) : RoundSnapshot :=
  {| rs_roundId := id; rs_opensAt := 0; rs_closesAt := closesAt; rs_state := state;
     rs_publicAggregateTwab := 0; rs_publicPrize := 0; rs_participantCount := 3;
     rs_selectionCursor := 1; rs_allocationCursor := 0; rs_candidateValidityHandle := None |}.

Definition ex_vault (id : Z) (address : string) (closesAt : Z) (earlier : RoundState) : VaultSnapshot :=
  {| vs_vault := ex_config id address; vs_activeRoundId := 3; vs_bondAmount := 5;
     vs_autoEntryCandidates := [];
     vs_rounds := [ex_round 1 50 SETTLED; ex_round 2 80 earlier; ex_round 3 closesAt OPEN] |}.

(** Two vaults at time 100; the first vault's round 2 is half selected. *)
Definition ex_snapshot (closesAt : Z) : ProtocolSnapshot :=
  {| ps_chainId := SEPOLIA_CHAIN_ID; ps_blockNumber := 7; ps_blockHash := "0xB7"; ps_blockTimestamp := 100;
     ps_vaults := [ex_vault 2 "0xBb" 120 AGGREGATE_PENDING; ex_vault 1 "0xAa" closesAt WINNER_PROCESSING] |}.

Definition ex_selection : LifecycleAction :=
  createAction (ex_vault 1 "0xAa" 120 WINNER_PROCESSING) (ex_round 2 80 WINNER_PROCESSING)
    process_selection (Some "1") (Some 1%Z) None.

Lemma planNextAction_required_witness :
  planNextAction (ex_snapshot 120) = Some ex_selection /\
  isActionRequired (ex_snapshot 120) ex_selection = true.
Proof.
  split; [reflexivity|]. apply planNextAction_required; [|reflexivity].
  apply (bool_decide_unpack _). vm_compute. exact I.
Defined.

Lemma planNextAction_closures_first_witness :
  exists first vault', planNextAction (ex_snapshot 90) = Some first /\ la_kind first = close_round /\
    vault' ∈ ps_vaults (ex_snapshot 90) /\ dueClosure (ex_snapshot 90) vault' = Some first /\
    (la_roundId first < 3 \/ la_roundId first = 3 /\ vc_id (la_vault first) <= 1)%Z.
Proof.
  apply (planNextAction_closures_first (ex_snapshot 90) (ex_vault 1 "0xAa" 90 WINNER_PROCESSING)
           (createAction (ex_vault 1 "0xAa" 90 WINNER_PROCESSING) (ex_round 3 90 OPEN)
              close_round (Some "90") None None)).
  - apply elem_of_cons. right. apply elem_of_cons. by left.
  - reflexivity.
Defined.

Lemma planNextAction_oldest_first_witness :
  exists vault round, vault ∈ ps_vaults (ex_snapshot 120) /\ round ∈ vs_rounds vault /\
    actionForRound vault round = Some ex_selection /\
    (forall vault', vault' ∈ ps_vaults (ex_snapshot 120) -> settlementAction vault' <> None ->
       vault' = vault \/ vc_id (vs_vault vault) <= vc_id (vs_vault vault'))%Z /\
    (forall round', round' ∈ unfinishedRounds vault -> actionForRound vault round' <> None ->
       round' = round \/ rs_roundId round <= rs_roundId round')%Z.
Proof.
  apply planNextAction_oldest_first; [reflexivity|].
  apply Forall_forall. repeat constructor.
Defined.

Lemma actionKey_inj_witness :
  no_colon (toLowerCase "0xAa") = true /\
  actionKey (ex_vault 1 "0xAa" 9 EMPTY) (ex_round 2 8 EMPTY) settle_empty_round None =
    "0xaa:2:settle-empty-round:phase" /\
  settle_empty_round = settle_empty_round.
Proof.
  split; [reflexivity|]. split; [reflexivity|].
  apply (actionKey_inj (ex_vault 1 "0xAa" 9 EMPTY) (ex_round 2 8 EMPTY) settle_empty_round None
           (ex_vault 1 "0xAA" 9 EMPTY) (ex_round 2 8 EMPTY) settle_empty_round (Some "phase"));
    first [reflexivity|done].
Defined.
