(* ===== verification/GasPolicy.v ===== *)
(** * Gas policy and balance guard (keeper/src/gas-policy.ts, balance-guard.ts)

    The gas limit the keeper signs with, the floors an operator configures and
    the balance window every run starts with.  The theorems give
    [applyGasPolicy] exactly (when it throws, and which limit it returns), the
    headroom of the default policy, the round trip of the floor syntax and a
    gap in its key check. *)
From Stdlib Require Import ZArith Lia Ascii.
From stdpp Require Import base option list sets strings gmap.
From S2P Require Import Prelude.
From S2P Require Import Lifecycle.
Local Open Scope Z_scope.

(** [floors] is a JavaScript object: its own properties, by name. *)
Record GasPolicyConfig := {
  gp_multiplierBps : js_number;
  gp_additiveMargin : Z;
  gp_maximumGasLimit : Z;
  gp_floors : gmap string Z
}.

Definition default_floor (kind : LifecycleActionKind) : Z :=
  match kind with
  | register_auto_entry => 700000
  | prune_auto_entry => 300000
  | close_round => 750000
  | finalize_aggregate => 350000
  | settle_empty_round => 350000
  | generate_random_candidate => 600000
  | finalize_candidate_validity => 350000
  | process_selection => 1000000
  | finalize_reconciliation => 350000
  | recover_failed_reconciliation => 350000
  | process_allocation => 1000000
  | finalize_settlement => 500000
  end.

Definition DEFAULT_GAS_FLOORS : gmap string Z :=
  list_to_map ((fun k => (kind_string k, default_floor k)) <$> all_kinds).

Definition DEFAULT_GAS_POLICY : GasPolicyConfig :=
  {| gp_multiplierBps := JInt 12500;
     gp_additiveMargin := 25000;
     gp_maximumGasLimit := 3000000;
     gp_floors := DEFAULT_GAS_FLOORS |}.

(** BigInt division truncates. *)
Definition ceilMultiply (value basisPoints : Z) : Z :=
  Z.quot (value * basisPoints + 9999) 10000.

Definition invalidMultiplier (m : js_number) : bool :=
  match m with
  | JNonInteger => true
  | JInt bps => (bps <? 10000)%Z || (20000 <? bps)%Z
  end.

Definition bps_of (m : js_number) : Z := match m with JInt z => z | JNonInteger => 0 end.

Definition applyGasPolicy (action : LifecycleActionKind) (estimatedGas : option Z)
    (config : GasPolicyConfig) (estimationFallback : bool) : result GasPolicyDecision :=
  fail_if (invalidMultiplier (gp_multiplierBps config)) "Invalid keeper gas multiplier" ;;
  fail_if ((gp_additiveMargin config <? 0)%Z || (gp_maximumGasLimit config <=? 0)%Z)
    "Invalid keeper gas policy bounds" ;;
  let floor := gp_floors config !! kind_string action in
  fail_if match floor with
          | Some f => (f <=? 0)%Z || (gp_maximumGasLimit config <? f)%Z
          | None => false
          end ("Invalid gas floor for " +:+ kind_string action) ;;
  fail_if match estimatedGas, floor with None, None => true | _, _ => false end
    ("Gas estimation failed for " +:+ kind_string action +:+
     " and no reviewed static floor is configured") ;;
  fail_if match estimatedGas with Some e => (e <=? 0)%Z | None => false end
    ("Invalid gas estimate for " +:+ kind_string action) ;;
  let bps := bps_of (gp_multiplierBps config) in
  let estimatedWithMargin :=
    match estimatedGas with
    | None => default 0%Z floor
    | Some e => (ceilMultiply e bps + gp_additiveMargin config)%Z
    end in
  let gasLimit :=
    if (default 0 floor <? estimatedWithMargin)%Z then estimatedWithMargin
    else default estimatedWithMargin floor in
  fail_if (gp_maximumGasLimit config <? gasLimit)%Z
    ("Gas policy limit exceeded for " +:+ kind_string action +:+ ": " +:+ Z_toString gasLimit +:+
     " > " +:+ Z_toString (gp_maximumGasLimit config)) ;;
  mret {| gd_action := action;
         gd_estimatedGas := estimatedGas;
         gd_gasFloor := floor;
         gd_multiplierBps := bps;
         gd_additiveMargin := gp_additiveMargin config;
         gd_gasLimit := gasLimit;
         gd_estimationFallback := estimationFallback |}.

(** The names every object inherits: [k in object] is true of them. *)
Definition objectPrototypeKeys : list string :=
  ["constructor"; "__defineGetter__"; "__defineSetter__"; "hasOwnProperty"; "__lookupGetter__";
   "__lookupSetter__"; "isPrototypeOf"; "propertyIsEnumerable"; "toString"; "valueOf";
   "__proto__"; "toLocaleString"].

(** [rawAction in DEFAULT_GAS_FLOORS] *)
Definition in_DEFAULT_GAS_FLOORS (k : string) : bool :=
  bool_decide (is_Some (DEFAULT_GAS_FLOORS !! k)) || bool_decide (k ∈ objectPrototypeKeys).

(** [result[k] = v]: assigning a bigint to [__proto__] is a no-op. *)
Definition set_property (k : string) (v : Z) (o : gmap string Z) : gmap string Z :=
  if bool_decide (k = "__proto__") then o else <[k:=v]> o.

(** One [token] of the list: the first two parts around ["="] count. *)
Definition parseFloorToken (token : string) (floors : gmap string Z) : result (gmap string Z) :=
  match trim <$> split_char "="%char token with
  | rawAction :: rawFloor :: _ =>
      if negb (string_nonempty rawAction) || negb (string_nonempty rawFloor) ||
         negb (matches_digits rawFloor)
      then throw_new "Invalid KEEPER_GAS_FLOORS format"
      else if negb (in_DEFAULT_GAS_FLOORS rawAction)
      then throw_new ("Unknown keeper gas action " +:+ rawAction)
      else n ← BigInt_of_digits rawFloor; mret (set_property rawAction n floors)
  | _ => throw_new "Invalid KEEPER_GAS_FLOORS format"
  end.

Fixpoint parseFloorTokens (tokens : list string) (floors : gmap string Z) : result (gmap string Z) :=
  match tokens with
  | [] => mret floors
  | token :: rest => floors' ← parseFloorToken token floors; parseFloorTokens rest floors'
  end.

Definition parseGasFloors (value : option string) : result (gmap string Z) :=
  match value with
  | None => mret ∅
  | Some v => if negb (string_nonempty (trim v)) then mret ∅
              else parseFloorTokens (split_char ","%char v) ∅
  end.

(** The operator's side: how a list of floors is written. *)
Definition printFloor (f : LifecycleActionKind * Z) : string :=
  kind_string f.1 +:+ String "="%char (Z_toString f.2).
Definition printGasFloors (fs : list (LifecycleActionKind * Z)) : string :=
  join_char ","%char (printFloor <$> fs).

Definition assertKeeperBalanceWithinLimits (balanceWei minimumBalanceWei maximumBalanceWei : Z) : result unit :=
  fail_if (minimumBalanceWei <? 0)%Z "Keeper minimum balance must not be negative" ;;
  fail_if (maximumBalanceWei <=? 0)%Z "Keeper maximum balance must be greater than zero" ;;
  fail_if (maximumBalanceWei <? minimumBalanceWei)%Z "Keeper minimum balance must not exceed its ceiling" ;;
  fail_if (balanceWei <? minimumBalanceWei)%Z
    ("Keeper balance " +:+ Z_toString balanceWei +:+ " is below the configured minimum " +:+
     Z_toString minimumBalanceWei) ;;
  fail_if (maximumBalanceWei <? balanceWei)%Z
    ("Keeper balance " +:+ Z_toString balanceWei +:+ " exceeds the configured ceiling " +:+
     Z_toString maximumBalanceWei).

Definition assertKeeperBalanceWithinLimit (balanceWei maximumBalanceWei : Z) : result unit :=
  assertKeeperBalanceWithinLimits balanceWei 0 maximumBalanceWei.

(** * Lemmas *)
Arguments DEFAULT_GAS_FLOORS : simpl never.
Arguments in_DEFAULT_GAS_FLOORS : simpl never.

(** When a policy is usable for an action and an estimate. *)
Definition usable (action : LifecycleActionKind) (estimatedGas : option Z)
    (config : GasPolicyConfig) (bps : Z) : Prop :=
  gp_multiplierBps config = JInt bps /\ (10000 <= bps <= 20000)%Z /\
  (0 <= gp_additiveMargin config)%Z /\ (0 < gp_maximumGasLimit config)%Z /\
  match gp_floors config !! kind_string action with
  | Some f => 0 < f <= gp_maximumGasLimit config
  | None => is_Some estimatedGas
  end%Z /\
  match estimatedGas with Some e => 0 < e | None => True end%Z.

(** The limit it gives: estimate with multiplier (rounded up) and margin,
    raised to the floor. *)
Definition limit_of (action : LifecycleActionKind) (estimatedGas : option Z)
    (config : GasPolicyConfig) (bps : Z) : Z :=
  let floor := default 0 (gp_floors config !! kind_string action) in
  match estimatedGas with
  | None => floor
  | Some e => Z.max floor ((e * bps + 9999) / 10000 + gp_additiveMargin config)
  end.

Lemma ceilMultiply_div value bps :
  (0 <= value)%Z -> (0 <= bps)%Z -> ceilMultiply value bps = ((value * bps + 9999) / 10000)%Z.
Proof. intros. unfold ceilMultiply. apply Z.quot_div_nonneg; lia. Qed.

(** Rounding up: the least integer not below [value * bps / 10000]. *)
Lemma ceilMultiply_bounds value bps :
  (0 <= value)%Z -> (0 <= bps)%Z ->
  (value * bps <= 10000 * ceilMultiply value bps < value * bps + 10000)%Z.
Proof. intros. rewrite ceilMultiply_div by done. Z.to_euclidean_division_equations. lia. Qed.

Lemma scaled_nonneg value bps :
  0 <= value -> 0 <= bps -> 0 <= (value * bps + 9999) / 10000.
Proof. intros. apply Z.div_pos; nia. Qed.

Lemma invalidMultiplier_false m :
  invalidMultiplier m = false <-> exists bps, m = JInt bps /\ (10000 <= bps <= 20000)%Z.
Proof.
  destruct m as [bps|]; simpl; [|naive_solver].
  rewrite orb_false_iff, !Z.ltb_ge. naive_solver lia.
Qed.

(** [applyGasPolicy] succeeds exactly on the usable policies whose limit stays
    below the maximum, and then decides that limit. *)
Theorem applyGasPolicy_spec action estimatedGas config fallback d :
  applyGasPolicy action estimatedGas config fallback = Ok d <->
  exists bps, usable action estimatedGas config bps /\
    (limit_of action estimatedGas config bps <= gp_maximumGasLimit config)%Z /\
    d = {| gd_action := action; gd_estimatedGas := estimatedGas;
           gd_gasFloor := gp_floors config !! kind_string action;
           gd_multiplierBps := bps; gd_additiveMargin := gp_additiveMargin config;
           gd_gasLimit := limit_of action estimatedGas config bps;
           gd_estimationFallback := fallback |}.
Proof.
  unfold applyGasPolicy, usable, limit_of.
  destruct config as [m margin maxi floors]; simpl.
  set (floor := floors !! kind_string action). clearbody floor.
  destruct (invalidMultiplier m) eqn:Em.
  { simpl. split; [done|]. intros (bps & (Hm & Hb & _) & _).
    assert (invalidMultiplier m = false) by (apply invalidMultiplier_false; eauto). congruence. }
  apply invalidMultiplier_false in Em as (bps & -> & Hb).
  split.
  - intros H. exists bps. inv_guards H. simpl in *.
    destruct floor as [f|], estimatedGas as [e|]; simpl in *; bool_to_prop; try done;
      rewrite ?ceilMultiply_div in * by lia; repeat case_match; bool_to_prop;
      try (pose proof (scaled_nonneg e bps ltac:(lia) ltac:(lia)));
      split_and!; try done; try lia; try (f_equal; lia).
  - intros (bps' & (E & _ & Hmg & Hmx & Hfl & Hes) & Hle & ->). injection E as <-.
    rewrite !guard_pass by (destruct floor, estimatedGas; simpl in *; lia || done || by destruct Hfl).
    destruct floor as [f|], estimatedGas as [e|]; simpl in *; try (by destruct Hfl);
      rewrite ?ceilMultiply_div by lia;
      try (pose proof (scaled_nonneg e bps ltac:(lia) ltac:(lia)));
      repeat case_match; bool_to_prop; rewrite guard_pass by lia;
      unfold mret, result_ret; repeat f_equal; lia.
Qed.

Lemma default_floors_lookup action :
  gp_floors DEFAULT_GAS_POLICY !! kind_string action = Some (default_floor action).
Proof. by destruct action; vm_compute. Qed.

(** With the default policy every reviewed action has a floor and every
    estimate up to 2,380,000 gas is signable, the 2,269,439 gas of a
    two-participant allocation included. *)
Theorem default_policy_headroom action estimatedGas fallback :
  match estimatedGas with Some e => 0 < e <= 2380000 | None => True end ->
  exists d, applyGasPolicy action estimatedGas DEFAULT_GAS_POLICY fallback = Ok d /\
    default_floor action <= gd_gasLimit d <= 3000000 /\
    match estimatedGas with Some e => 5 * e <= 4 * (gd_gasLimit d - 25000) | None => True end.
Proof.
  intros He. assert (Hf : 300000 <= default_floor action <= 1000000) by (destruct action; simpl; lia).
  assert (Hl : limit_of action estimatedGas DEFAULT_GAS_POLICY 12500 =
               match estimatedGas with
               | Some e => default_floor action `max` ((e * 12500 + 9999) / 10000 + 25000)
               | None => default_floor action
               end) by (unfold limit_of; by rewrite default_floors_lookup).
  eexists. split.
  - apply applyGasPolicy_spec. exists 12500. split; [|split; [|reflexivity]].
    + unfold usable. rewrite default_floors_lookup.
      destruct estimatedGas; split_and!; cbn; first [done|lia].
    + rewrite Hl. cbn. destruct estimatedGas; Z.to_euclidean_division_equations; lia.
  - cbn [gd_gasLimit]. rewrite Hl.
    destruct estimatedGas; Z.to_euclidean_division_equations; lia.
Qed.

(** ** The floor syntax *)
Lemma kind_string_in_floors k : in_DEFAULT_GAS_FLOORS (kind_string k) = true.
Proof. by destruct k; vm_compute. Qed.

Lemma kind_string_not_proto k : kind_string k <> "__proto__".
Proof. by destruct k. Qed.

Lemma digits_lack sep s : is_digit sep = false -> string_forall is_digit s = true -> lacks sep s = true.
Proof. apply digits_no_sep. Qed.

Lemma Z_toString_all_digits n : 0 <= n -> string_forall is_digit (Z_toString n) = true.
Proof. intros Hn. pose proof (Z_toString_digits n Hn) as H. unfold matches_digits in H. by bool_to_prop. Qed.

Lemma parseFloorToken_print k n floors :
  0 <= n -> parseFloorToken (printFloor (k, n)) floors = Ok (<[kind_string k := n]> floors).
Proof.
  intros Hn. pose proof (Z_toString_digits n Hn) as Hd. pose proof (Z_toString_all_digits n Hn) as Ha.
  unfold parseFloorToken, printFloor. cbn [fst snd].
  rewrite split_char_app by (by destruct k).
  rewrite split_char_lacks by (by apply digits_lack). cbn [fmap list_fmap].
  rewrite (trim_no_space (kind_string k)) by (by destruct k).
  rewrite (trim_no_space (Z_toString n)).
  2: { eapply string_forall_impl; [|exact Ha].
       intros c Hc. by destruct c as [[] [] [] [] [] [] [] []]. }
  assert (Hne : string_nonempty (Z_toString n) = true) by (unfold matches_digits in Hd; by bool_to_prop).
  rewrite kind_string_in_floors, Hne, Hd. replace (string_nonempty (kind_string k)) with true by (by destruct k).
  cbn [negb orb]. rewrite BigInt_toString by done. unfold mbind, result_bind, mret, result_ret.
  unfold set_property. rewrite bool_decide_eq_false_2 by apply kind_string_not_proto. done.
Qed.

(** What is written with [printGasFloors] is read back, a later token for the
    same action winning. *)
Theorem parseGasFloors_print fs :
  Forall (fun f => 0 <= f.2) fs ->
  parseGasFloors (Some (printGasFloors fs)) =
  Ok (foldl (fun m f => <[kind_string f.1 := f.2]> m) ∅ fs).
Proof.
  intros Hfs. destruct (decide (fs = [])) as [->|Hne]; [done|].
  unfold parseGasFloors, printGasFloors.
  assert (Hns : string_nonempty (trim (join_char "," (printFloor <$> fs))) = true).
  { apply trim_nonempty. destruct fs as [|[k n] fs]; [done|]. by destruct k, fs. }
  rewrite Hns. simpl. rewrite split_join.
  2: { destruct fs; done. }
  2: { apply Forall_fmap. eapply Forall_impl; [exact Hfs|]. intros [k n] Hn.
       unfold lacks, printFloor. simpl. rewrite string_forall_app. simpl.
       rewrite (digits_lack "," _ eq_refl (Z_toString_all_digits n Hn) : string_forall _ _ = true).
       by destruct k. }
  clear Hne Hns. generalize (∅ : gmap string Z).
  induction Hfs as [|[k n] fs Hn Hfs IH]; intros floors; [done|]. cbn [fmap list_fmap parseFloorTokens].
  rewrite parseFloorToken_print by done. apply IH.
Qed.

(** Nothing but the twelve actions is written by the operator's syntax, yet a
    token naming an inherited property is accepted and stored. *)
Theorem parseGasFloors_inherited_key :
  parseGasFloors (Some "toString=1") = Ok {["toString" := 1]} /\
  (forall k, kind_string k <> "toString") /\
  parseGasFloors (Some "no-such-action=1") = throw_new "Unknown keeper gas action no-such-action".
Proof. split; [by vm_compute|]. split; [by intros []|by vm_compute]. Qed.

(** ** The balance window *)
Lemma assertKeeperBalanceWithinLimits_Ok balance minimum maximum u :
  assertKeeperBalanceWithinLimits balance minimum maximum = Ok u <->
  0 <= minimum /\ 0 < maximum /\ minimum <= balance <= maximum.
Proof.
  unfold assertKeeperBalanceWithinLimits. split.
  - intros H. inv_guards H. apply fail_if_Ok in H. bool_to_prop. lia.
  - intros ?. rewrite !guard_pass by lia. apply fail_if_Ok. lia.
Qed.

(** * Concrete instances *)
Lemma default_policy_headroom_witness :
  exists d, applyGasPolicy process_allocation (Some 2269439) DEFAULT_GAS_POLICY false = Ok d /\
    default_floor process_allocation <= gd_gasLimit d <= 3000000 /\ 5 * 2269439 <= 4 * (gd_gasLimit d - 25000).
Proof. apply (default_policy_headroom process_allocation (Some 2269439) false). lia. Defined.

Lemma parseGasFloors_print_witness :
  printGasFloors [(close_round, 800000); (process_selection, 1200000)] =
    "close-round=800000,process-selection=1200000" /\
  parseGasFloors (Some (printGasFloors [(close_round, 800000); (process_selection, 1200000)])) =
  Ok (foldl (fun m f => <[kind_string f.1 := f.2]> m) ∅ [(close_round, 800000); (process_selection, 1200000)]).
Proof.
  split; [reflexivity|]. apply parseGasFloors_print. repeat constructor; simpl; lia.
Defined.
