(* ===== verification/Journal.v ===== *)
(** * The keeper journal: entries, schema, append-only updates, memory store
    (keeper/src/journal.ts)

    An entry is one signed attempt at one lifecycle action, with the history
    of its statuses.  Stores accept an entry only when the schema accepts it
    and, for a known attempt, only as an append-only update.  [JournalStore]
    is the interface the engine uses; [JournalLaws] is what a store promises,
    discharged here for the memory store and in FileJournal.v for the file
    store.

    Instants: the code stores [toISOString()] strings and reads them back with
    [new Date(s).getTime()]; a timestamp field here is the instant (epoch
    milliseconds) the string denotes.  The schema parses every entry before it
    is stored, so [JSON.stringify] on two stored transitions is equal exactly
    when the transitions are. *)
From Stdlib Require Import ZArith Lia Ascii.
From stdpp Require Import base option list sets strings gmap.
From S2P Require Import Prelude.
From S2P Require Import Lifecycle.

Inductive JournalStatus : Type :=
| prepared
| submitted
| confirmed
| reconciled
| obsolete
| reorged
| reverted
| unknown.

#[export] Instance JournalStatus_eq_dec : EqDecision JournalStatus.
Proof. solve_decision. Defined.

Record JournalTransition := {
  jt_status : JournalStatus;
  jt_at : Z;
  jt_blockNumber : option Z;
  jt_blockHash : option string;
  jt_confirmations : option Z;
  jt_errorCode : option string
}.

#[export] Instance JournalTransition_eq_dec : EqDecision JournalTransition.
Proof. solve_decision. Defined.

Record JournalEntry := {
  je_attemptId : string;
  je_replayOfAttemptId : option string;
  je_actionKey : string;
  je_vault : string;
  je_vaultName : string;
  je_roundId : string;
  je_action : LifecycleActionKind;
  je_cursor : option string;
  je_account : option string;
  je_txHash : string;
  je_calldataHash : string;
  je_nonce : Z;
  je_submittedAt : Z;
  je_updatedAt : Z;
  je_status : JournalStatus;
  je_blockNumber : option Z;
  je_blockHash : option string;
  je_confirmations : option Z;
  je_errorCode : option string;
  je_history : list JournalTransition
}.

#[export] Instance JournalEntry_eq_dec : EqDecision JournalEntry.
Proof. solve_decision. Defined.

(** [z.number().int().nonnegative()]: zod's integers are the safe ones. *)
Definition nonnegative_int (z : Z) : bool := (0 <=? z)%Z && (z <=? MAX_SAFE_INTEGER)%Z.

Definition hashSchema (s : string) : bool := matches_hex 64 s.
Definition addressSchema (s : string) : bool := matches_hex 40 s.
Definition max_length (n : nat) (s : string) : bool := (String.length s <=? n)%nat.

Definition journalTransitionSchema (t : JournalTransition) : bool :=
  if_present nonnegative_int (jt_blockNumber t) &&
  if_present hashSchema (jt_blockHash t) &&
  if_present nonnegative_int (jt_confirmations t) &&
  if_present (max_length 120) (jt_errorCode t).

Definition attemptIdOf (actionKey txHash : string) : string :=
  actionKey +:+ ":" +:+ toLowerCase txHash.

Definition is_cursorAction (k : LifecycleActionKind) : bool :=
  bool_decide (k = process_selection) || bool_decide (k = process_allocation).
Definition is_accountAction (k : LifecycleActionKind) : bool :=
  bool_decide (k = register_auto_entry) || bool_decide (k = prune_auto_entry).

Definition latestMatches (e : JournalEntry) : bool :=
  match last (je_history e) with
  | Some latest => bool_decide (jt_status latest = je_status e) && (jt_at latest =? je_updatedAt e)%Z
  | None => false
  end.

(** The object part of the schema and its [superRefine]. *)
Definition journalEntrySchema (e : JournalEntry) : bool :=
  (string_nonempty (je_attemptId e) &&
   if_present string_nonempty (je_replayOfAttemptId e) &&
   string_nonempty (je_actionKey e) &&
   addressSchema (je_vault e) &&
   string_nonempty (je_vaultName e) &&
   matches_digits (je_roundId e) &&
   if_present matches_digits (je_cursor e) &&
   if_present addressSchema (je_account e) &&
   hashSchema (je_txHash e) &&
   hashSchema (je_calldataHash e) &&
   nonnegative_int (je_nonce e) &&
   if_present nonnegative_int (je_blockNumber e) &&
   if_present hashSchema (je_blockHash e) &&
   if_present nonnegative_int (je_confirmations e) &&
   if_present (max_length 120) (je_errorCode e) &&
   negb (bool_decide (je_history e = [])) &&
   forallb journalTransitionSchema (je_history e)) &&
  (Bool.eqb (is_cursorAction (je_action e)) (bool_decide (is_Some (je_cursor e))) &&
   Bool.eqb (is_accountAction (je_action e)) (bool_decide (is_Some (je_account e))) &&
   latestMatches e &&
   bool_decide (je_attemptId e = attemptIdOf (je_actionKey e) (je_txHash e))).

Definition zod_error : js_error := JsError true "ZodError" None "schema".

(** [journalEntrySchema.parse(entry)] *)
Definition parseEntry (e : JournalEntry) : result JournalEntry :=
  if journalEntrySchema e then Ok e else Throw zod_error.

(** The first immutable key on which two entries differ, in the order of
    [immutableKeys]. *)
Definition changedImmutableKey (p n : JournalEntry) : option string :=
  if decide (je_attemptId p <> je_attemptId n) then Some "attemptId"
  else if decide (je_replayOfAttemptId p <> je_replayOfAttemptId n) then Some "replayOfAttemptId"
  else if decide (je_actionKey p <> je_actionKey n) then Some "actionKey"
  else if decide (je_vault p <> je_vault n) then Some "vault"
  else if decide (je_vaultName p <> je_vaultName n) then Some "vaultName"
  else if decide (je_roundId p <> je_roundId n) then Some "roundId"
  else if decide (je_action p <> je_action n) then Some "action"
  else if decide (je_cursor p <> je_cursor n) then Some "cursor"
  else if decide (je_account p <> je_account n) then Some "account"
  else if decide (je_txHash p <> je_txHash n) then Some "txHash"
  else if decide (je_calldataHash p <> je_calldataHash n) then Some "calldataHash"
  else if decide (je_nonce p <> je_nonce n) then Some "nonce"
  else if decide (je_submittedAt p <> je_submittedAt n) then Some "submittedAt"
  else None.

(** The loop over [previous.history.entries()]. *)
Fixpoint sameTransitions (previous next : list JournalTransition) : bool :=
  match previous, next with
  | [], _ => true
  | t :: previous', t' :: next' => bool_decide (t = t') && sameTransitions previous' next'
  | _ :: _, [] => false
  end.

Definition assertAppendOnlyUpdate (previous next : JournalEntry) : result unit :=
  match changedImmutableKey previous next with
  | Some key => throw_new ("Journal immutable field changed: " +:+ key)
  | None =>
      fail_if (length (je_history next) <? length (je_history previous))%nat
        "Journal transition history was truncated" ;;
      fail_if (negb (sameTransitions (je_history previous) (je_history next)))
        "Journal transition history is not append-only"
  end.

Definition journalEntryForPrepared (action : LifecycleAction) (hash : string) (nonce : Z)
    (calldataHash : string) (now : Z) (replayOfAttemptId : option string) : JournalEntry :=
  {| je_attemptId := attemptIdOf (la_key action) hash;
     je_replayOfAttemptId := replayOfAttemptId;
     je_actionKey := la_key action;
     je_vault := vc_address (la_vault action);
     je_vaultName := vc_name (la_vault action);
     je_roundId := Z_toString (la_roundId action);
     je_action := la_kind action;
     je_cursor := Z_toString <$> la_cursor action;
     je_account := la_account action;
     je_txHash := hash;
     je_calldataHash := calldataHash;
     je_nonce := nonce;
     je_submittedAt := now;
     je_updatedAt := now;
     je_status := prepared;
     je_blockNumber := None;
     je_blockHash := None;
     je_confirmations := None;
     je_errorCode := None;
     je_history := [{| jt_status := prepared; jt_at := now; jt_blockNumber := None;
                       jt_blockHash := None; jt_confirmations := None; jt_errorCode := None |}] |}.

(** ** Stores *)
Class JournalStore (J : Type) := {
  journal_list : method J (list JournalEntry);
  journal_put : JournalEntry -> method J unit;
  journal_getCheckpoint : string -> method J (option string);
  journal_putCheckpoint : string -> string -> method J unit
}.

(** The entry of an attempt in a store's list. *)
Definition find_attempt (id : string) (es : list JournalEntry) : option JournalEntry :=
  List.find (fun e => bool_decide (je_attemptId e = id)) es.

(** A [put] of [e] that takes the entries [view] to [view']: the schema accepts the entry,
    it is an append-only update of a known attempt, and no other attempt is touched. *)
Definition put_view (e : JournalEntry) (view view' : list JournalEntry) : Prop :=
  journalEntrySchema e = true /\
  (forall p, find_attempt (je_attemptId e) view = Some p -> assertAppendOnlyUpdate p e = Ok tt) /\
  forall id, find_attempt id view' = if decide (id = je_attemptId e) then Some e else find_attempt id view.

(** What the engine may rely on: [view] is what [list] returns; a successful
    [put] stores the entry; one that throws has changed nothing, or has stored the entry
    all the same (on disk, when the directory cannot be synced after the rename). *)
Class JournalLaws (J : Type) `{JournalStore J} := {
  journal_inv : J -> Prop;
  journal_view : J -> list JournalEntry;
  list_view : forall j, journal_inv j -> journal_list j = (Ok (journal_view j), j);
  put_inv : forall e j, journal_inv j -> journal_inv (journal_put e j).2;
  put_stores : forall e j j' u, journal_inv j -> journal_put e j = (Ok u, j') ->
    put_view e (journal_view j) (journal_view j');
  put_throws : forall e j j' err, journal_inv j -> journal_put e j = (Throw err, j') ->
    journal_view j' = journal_view j \/ put_view e (journal_view j) (journal_view j');
  view_NoDup : forall j, journal_inv j -> NoDup (je_attemptId <$> journal_view j)
}.

(** [MemoryJournalStore] *)
Record MemoryJournal := {
  mj_entries : list (string * JournalEntry);
  mj_checkpoints : list (string * string)
}.

Definition memory_list : method MemoryJournal (list JournalEntry) :=
  gets (fun j => (mj_entries j).*2).

Definition memory_put (entry : JournalEntry) : method MemoryJournal unit :=
  parsedEntry ← lift (parseEntry entry);
  previous ← gets (fun j => map_get (je_attemptId parsedEntry) (mj_entries j));
  match previous with
  | Some p => lift (assertAppendOnlyUpdate p parsedEntry)
  | None => mret tt
  end ;;
  modify (fun j => {| mj_entries := map_set (je_attemptId parsedEntry) parsedEntry (mj_entries j);
                      mj_checkpoints := mj_checkpoints j |}).

Definition memory_getCheckpoint (key : string) : method MemoryJournal (option string) :=
  gets (fun j => map_get key (mj_checkpoints j)).

Definition memory_putCheckpoint (key value : string) : method MemoryJournal unit :=
  throw_if (negb (string_nonempty key)) "Checkpoint key must not be empty" ;;
  modify (fun j => {| mj_entries := mj_entries j;
                      mj_checkpoints := map_set key value (mj_checkpoints j) |}).

#[export] Instance memory_store : JournalStore MemoryJournal := {
  journal_list := memory_list;
  journal_put := memory_put;
  journal_getCheckpoint := memory_getCheckpoint;
  journal_putCheckpoint := memory_putCheckpoint
}.

(** * Lemmas *)

(** ** Append-only updates *)

(** The fields an attempt never changes. *)
Definition identity (e : JournalEntry) :=
  (je_attemptId e, je_replayOfAttemptId e, je_actionKey e, je_vault e, je_vaultName e,
   (je_roundId e, je_action e, je_cursor e, je_account e),
   (je_txHash e, je_calldataHash e, je_nonce e, je_submittedAt e)).

(** [n] is a later state of the attempt [p]. *)
Definition extends (p n : JournalEntry) : Prop :=
  identity p = identity n /\ je_history p `prefix_of` je_history n.

#[export] Instance extends_preorder : PreOrder extends.
Proof.
  split; [by intros e|].
  intros a b c [E1 P1] [E2 P2]. split; [congruence|by etrans].
Qed.

Lemma changedImmutableKey_None p n : changedImmutableKey p n = None <-> identity p = identity n.
Proof.
  unfold changedImmutableKey, identity. split.
  - intros H. repeat case_decide; simplify_eq.
    repeat match goal with E : ¬ (_ <> _) |- _ => apply dec_stable in E end. congruence.
  - intros [=]. rewrite !decide_False by tauto. done.
Qed.

Lemma sameTransitions_prefix p n : sameTransitions p n = true <-> p `prefix_of` n.
Proof.
  revert n; induction p as [|t p IH]; intros [|t' n]; simpl.
  - split; [intros; apply prefix_nil|done].
  - split; [intros; apply prefix_nil|done].
  - split; [done|intros H; by apply prefix_nil_not in H].
  - rewrite andb_true_iff, bool_decide_eq_true, IH. split.
    + intros [-> ?]. by apply prefix_cons.
    + intros H. split; [by eapply prefix_cons_inv_1|by eapply prefix_cons_inv_2].
Qed.

Lemma assertAppendOnlyUpdate_Ok p n : assertAppendOnlyUpdate p n = Ok tt <-> extends p n.
Proof.
  unfold assertAppendOnlyUpdate, extends. rewrite <- changedImmutableKey_None.
  destruct (changedImmutableKey p n); [naive_solver|].
  rewrite result_bind_Ok. split.
  - intros (u & _ & H%fail_if_Ok%negb_false_iff). by apply sameTransitions_prefix in H.
  - intros [_ Hs]. exists tt. rewrite !fail_if_Ok, negb_false_iff, sameTransitions_prefix.
    split; [|done]. by apply Nat.ltb_ge, prefix_length.
Qed.

(** ** The schema, as facts about an entry *)
Lemma journalEntrySchema_attemptId e :
  journalEntrySchema e = true -> je_attemptId e = attemptIdOf (je_actionKey e) (je_txHash e).
Proof. unfold journalEntrySchema. intros H. by bool_to_prop. Qed.

Lemma journalEntrySchema_latest e :
  journalEntrySchema e = true ->
  exists t, last (je_history e) = Some t /\ jt_status t = je_status e /\ jt_at t = je_updatedAt e.
Proof.
  unfold journalEntrySchema, latestMatches. intros H. bool_to_prop.
  destruct (last (je_history e)) as [t|]; [|done]. bool_to_prop. eauto.
Qed.

(** A signed planner action is journalable: the entry the engine writes ahead
    of the broadcast passes the schema. *)
Definition journalable (action : LifecycleAction) : Prop :=
  string_nonempty (la_key action) = true /\
  addressSchema (vc_address (la_vault action)) = true /\
  string_nonempty (vc_name (la_vault action)) = true /\
  (0 <= la_roundId action)%Z /\
  (is_cursorAction (la_kind action) = bool_decide (is_Some (la_cursor action))) /\
  (is_accountAction (la_kind action) = bool_decide (is_Some (la_account action))) /\
  (forall c, la_cursor action = Some c -> 0 <= c)%Z /\
  (forall a, la_account action = Some a -> addressSchema a = true).

Lemma string_nonempty_app s t : string_nonempty t = true -> string_nonempty (s +:+ t) = true.
Proof. by destruct s. Qed.

Lemma journalEntryForPrepared_schema action hash nonce calldataHash now replayOf :
  journalable action -> hashSchema hash = true -> hashSchema calldataHash = true ->
  nonnegative_int nonce = true -> if_present string_nonempty replayOf = true ->
  journalEntrySchema (journalEntryForPrepared action hash nonce calldataHash now replayOf) = true.
Proof.
  intros (Hk & Ha & Hn & Hr & Hc & Hac & Hcs & Has) Hh Hd Hno Hrep.
  unfold journalEntrySchema. rewrite !andb_true_iff. simpl.
  split_and!; try done.
  - by apply string_nonempty_app.
  - by apply Z_toString_digits.
  - destruct (la_cursor action); [|done]. by apply Z_toString_digits, Hcs.
  - destruct (la_account action); [|done]. by apply Has.
  - rewrite Hc. by destruct (la_cursor action).
  - rewrite Hac. by destruct (la_account action).
  - unfold latestMatches. simpl. by rewrite Z.eqb_refl.
  - by apply bool_decide_eq_true.
Qed.

(** ** What any lawful store guarantees *)
Section store_laws.
Context {J : Type} `{JL : JournalLaws J}.

(** One use of the store: a [put], whether it succeeds or throws. *)
Inductive store_step (j : J) : J -> Prop :=
| store_put e r j' : journal_put e j = (r, j') -> store_step j j'.

Lemma store_step_inv j j' : journal_inv j -> store_step j j' -> journal_inv j'.
Proof. intros Hj [e r j2 E]. pose proof (put_inv e j Hj) as Hi. by rewrite E in Hi. Qed.

Lemma find_attempt_id id es e : find_attempt id es = Some e -> e ∈ es /\ je_attemptId e = id.
Proof. intros [? ?%bool_decide_eq_true]%find_Some_in. done. Qed.

Lemma store_step_extends j j' id p :
  journal_inv j -> store_step j j' -> find_attempt id (journal_view j) = Some p ->
  exists n, find_attempt id (journal_view j') = Some n /\ extends p n.
Proof.
  intros Hj [e r j2 E] Hp.
  assert (Hcases : journal_view j2 = journal_view j \/ put_view e (journal_view j) (journal_view j2)).
  { destruct r as [u|err]; [right; by eapply put_stores|by eapply put_throws]. }
  destruct Hcases as [->|(_ & Hap & Hl)]; [by exists p|]. rewrite Hl.
  case_decide as Hid; [|exists p; by split].
  subst id. exists e. split; [done|]. by apply assertAppendOnlyUpdate_Ok, Hap.
Qed.

(** The history of an attempt only ever grows, and its identity never
    changes, along any run of a lawful store. *)
Theorem journal_history_append_only j j' id p :
  journal_inv j -> rtc store_step j j' -> find_attempt id (journal_view j) = Some p ->
  exists n, find_attempt id (journal_view j') = Some n /\ identity n = identity p /\
    je_history p `prefix_of` je_history n.
Proof.
  intros Hj Hrun. revert p Hj. induction Hrun as [j|j j2 j' Hs Hrun IH]; intros p Hj Hp.
  - exists p. split_and!; done.
  - destruct (store_step_extends _ _ _ _ Hj Hs Hp) as (q & Hq & Hext).
    destruct (IH q (store_step_inv _ _ Hj Hs) Hq) as (n & Hn & Hid & Hh).
    exists n. destruct Hext as [Hi Hpre]. split_and!; [done|congruence|by etrans].
Qed.
End store_laws.

(** ** The memory store is lawful *)
Definition memory_inv (j : MemoryJournal) : Prop :=
  NoDup (mj_entries j).*1 /\
  forall k e, (k, e) ∈ mj_entries j -> k = je_attemptId e /\ journalEntrySchema e = true.

Lemma memory_find j id :
  memory_inv j -> find_attempt id (mj_entries j).*2 = map_get id (mj_entries j).
Proof.
  intros [Hnd Hk]. unfold find_attempt. revert Hnd Hk.
  induction (mj_entries j) as [|[k e] es IH]; intros Hnd Hk; simpl; [done|].
  destruct (Hk k e) as [-> _]; [set_solver|].
  apply NoDup_cons in Hnd as [_ Hnd].
  destruct (decide (id = je_attemptId e)) as [->|Hne].
  - by rewrite bool_decide_eq_true_2.
  - rewrite bool_decide_eq_false_2 by congruence. apply IH; [done|]. set_solver.
Qed.

Lemma memory_put_inv e j : memory_inv j -> memory_inv (memory_put e j).2.
Proof.
  intros [Hnd Hk]. unfold memory_put, parseEntry. unfold_method.
  destruct (journalEntrySchema e) eqn:He; simpl; [|done].
  destruct (map_get _ _) as [p|]; simpl; [destruct (assertAppendOnlyUpdate p e); simpl; [|done]|];
    (split; simpl; [by apply map_set_NoDup|]; intros k e' Hin;
     apply map_get_elem in Hin; [|by apply map_set_NoDup];
     rewrite map_get_set in Hin; case_decide; simplify_eq; [done|];
     by apply Hk, map_get_Some_elem).
Qed.

Lemma memory_put_cases e j r j' :
  memory_inv j -> memory_put e j = (r, j') ->
  match r with
  | Ok _ => journalEntrySchema e = true /\
      (forall p, map_get (je_attemptId e) (mj_entries j) = Some p -> assertAppendOnlyUpdate p e = Ok tt) /\
      mj_entries j' = map_set (je_attemptId e) e (mj_entries j) /\
      mj_checkpoints j' = mj_checkpoints j
  | Throw _ => j' = j
  end.
Proof.
  intros Hj. unfold memory_put, parseEntry. unfold_method.
  destruct (journalEntrySchema e) eqn:He; simpl; [|by intros [= <- <-]].
  destruct (map_get _ _) as [p|] eqn:Hg; simpl.
  - destruct (assertAppendOnlyUpdate p e) as [[]|] eqn:Ha; simpl; intros [= <- <-]; [|done].
    split_and!; [done| |done|done]. intros p' Hp'. naive_solver.
  - intros [= <- <-]. split_and!; [done| |done|done]. intros p' Hp'. naive_solver.
Qed.

#[export, refine] Instance memory_laws : JournalLaws MemoryJournal := {|
  journal_inv := memory_inv;
  journal_view := fun j => (mj_entries j).*2
|}.
Proof.
  - done.
  - intros e j Hj. by apply memory_put_inv.
  - intros e j j' u Hj E. pose proof (memory_put_inv e j Hj) as Hj'. simpl in E. rewrite E in Hj'.
    destruct (memory_put_cases _ _ _ _ Hj E) as (Hs & Ha & Hm & _).
    split; [done|]. split.
    + intros p Hp. rewrite memory_find in Hp by done. by apply Ha.
    + intros id. rewrite !memory_find by done. rewrite Hm. apply map_get_set.
  - intros e j j' err Hj E. left. by rewrite (memory_put_cases _ _ _ _ Hj E : j' = j).
  - intros j [Hnd Hk]. replace (je_attemptId <$> (mj_entries j).*2) with (mj_entries j).*1; [done|].
    rewrite <- list_fmap_compose. apply list_fmap_ext. intros i [k e] Hin. simpl.
    apply list_elem_of_lookup_2 in Hin. by apply Hk in Hin as [-> _].
Defined.

(** * Concrete instances *)
Definition ex_hash (c : string) : string :=
  "0x" +:+ String.concat "" (replicate 64 c).
Definition ex_address : string := "0x" +:+ String.concat "" (replicate 40 "a").

Definition ex_action : LifecycleAction :=
  {| la_key := "0xaa:2:close-round:90"; la_kind := close_round;
     la_vault := {| vc_id := 1; vc_name := "Daily"; vc_cadence := "daily"; vc_address := ex_address;
                    vc_bondEscrow := ex_address; vc_automaticEntry := None |};
     la_roundId := 2; la_cursor := None; la_account := None |}.

Definition ex_entry : JournalEntry :=
  journalEntryForPrepared ex_action (ex_hash "b") 7 (ex_hash "c") 1000 None.

Definition ex_journal : MemoryJournal := (memory_put ex_entry {| mj_entries := []; mj_checkpoints := [] |}).2.

Lemma journal_history_append_only_witness :
  exists n, find_attempt (je_attemptId ex_entry) (journal_view ex_journal) = Some n /\
    identity n = identity ex_entry /\ je_history ex_entry `prefix_of` je_history n.
Proof.
  apply (journal_history_append_only (J := MemoryJournal) ex_journal ex_journal).
  - apply memory_put_inv. split; [constructor|]. intros k e H. by apply not_elem_of_nil in H.
  - constructor.
  - vm_compute. reflexivity.
Defined.
