(* ===== verification/FileJournal.v ===== *)
(** * The journal on disk (keeper/src/journal.ts)

    [FileJournalStore]: reading, the document schema, and the write path
    (temporary file, sync, rename), with an I/O fault or a crash possible at
    every step; the process lock, with the failures of its own operations.
    Theorems: a write is atomic whatever the fault; the store implements the
    memory store, operation by operation, whatever the faults; a left-over
    temporary file blocks every later write; the lock excludes a second process.

    [JSON.stringify]/[JSON.parse] are inverse on documents, so a file holds a
    document or something that does not parse.  A file that is there can be read.  [#exclusive] queues the
    operations of one store, which makes each of them atomic: an operation here
    is one [method Disk].  Checkpoint keys are assumed not to be names every
    object inherits (the gateway's start with [historical:] or
    [auto-entry:]). *)
From Stdlib Require Import ZArith Lia Ascii.
From stdpp Require Import base option list sets strings gmap relations.
From S2P Require Import Prelude.
From S2P Require Import Lifecycle.
From S2P Require Import Journal.

Record JournalDocument := {
  jd_entries : list JournalEntry;
  jd_checkpoints : list (string * string)
}.

Definition emptyJournal : JournalDocument := {| jd_entries := []; jd_checkpoints := [] |}.

(** The [superRefine] of the document schema: one pass with two sets. *)
Fixpoint documentIssues (document es : list JournalEntry) (attempts transactionHashes : list string)
    : list string :=
  match es with
  | [] => []
  | entry :: es' =>
      (if bool_decide (je_attemptId entry ∈ attempts) then ["Duplicate attempt id"] else []) ++
      (if bool_decide (toLowerCase (je_txHash entry) ∈ transactionHashes)
       then ["Duplicate transaction hash"] else []) ++
      (match je_replayOfAttemptId entry with
       | Some parent =>
           if string_nonempty parent &&
              negb (existsb (fun candidate => bool_decide (je_attemptId candidate = parent)) document)
           then ["Replay parent is missing"] else []
       | None => []
       end) ++
      documentIssues document es' (je_attemptId entry :: attempts)
        (toLowerCase (je_txHash entry) :: transactionHashes)
  end.

Definition journalDocumentSchema (document : JournalDocument) : bool :=
  forallb journalEntrySchema (jd_entries document) &&
  forallb (fun kv => string_nonempty kv.1) (jd_checkpoints document) &&
  bool_decide (documentIssues (jd_entries document) (jd_entries document) [] [] = []).

Definition parseJournal (document : JournalDocument) : result JournalDocument :=
  if journalDocumentSchema document then Ok document else Throw zod_error.

Inductive FileContent : Type :=
| Json (document : JournalDocument)
| Malformed.

(** The journal file and this process's temporary file next to it. *)
Record Disk := {
  d_journal : option FileContent;
  d_temporary : option FileContent
}.

(** Where an I/O operation of [#write] can fail, or the process die. *)
Inductive WritePoint : Type :=
| at_mkdir | at_open | at_writeFile | at_sync | at_close | at_rename | at_open_directory | at_sync_directory | at_close_directory.

#[export] Instance WritePoint_eq_dec : EqDecision WritePoint.
Proof. solve_decision. Defined.

Definition io_error : js_error := JsError true "Error" (Some "EIO") "i/o error".
Definition eexist_error : js_error := JsError true "Error" (Some "EEXIST") "file already exists".

(** An I/O operation with effect [f] that fails, without the effect, when the
    fault is at [p]. *)
Definition io {P S} `{EqDecision P} (fault : option P) (p : P) (f : S -> S) : method S unit :=
  fun d => if bool_decide (fault = Some p) then (Throw io_error, d) else (Ok tt, f d).

Definition set_temporary (c : option FileContent) (d : Disk) : Disk :=
  {| d_journal := d_journal d; d_temporary := c |}.

(** [#write]: the document goes to the temporary file, which then replaces the
    journal.  [open] with flag ["wx"] refuses an existing file. *)
Definition file_write (fault : option WritePoint) (next : JournalDocument) : method Disk unit :=
  io fault at_mkdir id ;;
  exists_ ← gets (fun d => bool_decide (is_Some (d_temporary d)));
  (if exists_ : bool then throw_in eexist_error else mret tt) ;;
  io fault at_open (set_temporary (Some Malformed)) ;;
  io fault at_writeFile (set_temporary (Some (Json next))) ;;
  io fault at_sync id ;;
  io fault at_close id ;;
  io fault at_rename (fun d => {| d_journal := d_temporary d; d_temporary := None |}) ;;
  io fault at_open_directory id ;;
  io fault at_sync_directory id ;;
  io fault at_close_directory id.

Definition file_read : method Disk JournalDocument :=
  file ← gets d_journal;
  match file with
  | None => mret emptyJournal
  | Some Malformed => throw_in (JsError true "SyntaxError" None "JSON")
  | Some (Json document) => lift (parseJournal document)
  end.

Definition file_list : method Disk (list JournalEntry) :=
  document ← file_read; mret (jd_entries document).

(** The document [put] writes for an accepted entry. *)
Definition with_entry (current : JournalDocument) (entry : JournalEntry) : JournalDocument :=
  {| jd_entries := List.filter (fun candidate => negb (bool_decide (je_attemptId candidate = je_attemptId entry)))
                     (jd_entries current) ++ [entry];
     jd_checkpoints := jd_checkpoints current |}.

Definition file_put (fault : option WritePoint) (entry : JournalEntry) : method Disk unit :=
  current ← file_read;
  parsedEntry ← lift (parseEntry entry);
  match find_attempt (je_attemptId parsedEntry) (jd_entries current) with
  | Some previous => lift (assertAppendOnlyUpdate previous parsedEntry)
  | None => mret tt
  end ;;
  next ← lift (parseJournal (with_entry current parsedEntry));
  file_write fault next.

(** The document [putCheckpoint] writes. *)
Definition with_checkpoint (current : JournalDocument) (key value : string) : JournalDocument :=
  {| jd_entries := jd_entries current; jd_checkpoints := map_set key value (jd_checkpoints current) |}.

Definition file_getCheckpoint (key : string) : method Disk (option string) :=
  document ← file_read; mret (map_get key (jd_checkpoints document)).

Definition file_putCheckpoint (fault : option WritePoint) (key value : string) : method Disk unit :=
  throw_if (negb (string_nonempty key)) "Checkpoint key must not be empty" ;;
  current ← file_read;
  next ← lift (parseJournal (with_checkpoint current key value));
  file_write fault next.

(** The store of a process whose writes meet faults: the next write meets the first of the
    list, and none when the list is empty. *)
Definition FaultyDisk : Type := Disk * list (option WritePoint).

Definition faulty_write (write : option WritePoint -> method Disk unit) : method FaultyDisk unit := fun s =>
  let '(r, d) := write (default None (head s.2)) s.1 in (r, (d, tail s.2)).
Definition faulty_read {A} (read : method Disk A) : method FaultyDisk A := fun s => let '(r, d) := read s.1 in (r, (d, s.2)).

#[export] Instance file_store : JournalStore FaultyDisk := {
  journal_list := faulty_read file_list;
  journal_put entry := faulty_write (fun fault => file_put fault entry);
  journal_getCheckpoint key := faulty_read (file_getCheckpoint key);
  journal_putCheckpoint key value := faulty_write (fun fault => file_putCheckpoint fault key value)
}.

(** ** The process lock

    The lock file and the release closures handed out: [true] once the
    closure's [released] flag is set. *)
Record LockState := {
  lk_file : bool;
  lk_released : list bool
}.

(** Where an I/O operation of the lock can fail; [at_lock_open] is a failure of [open] for
    another reason than an existing file. *)
Inductive LockPoint : Type := at_lock_mkdir | at_lock_open | at_lock_writeFile | at_lock_sync | at_lock_close | at_unlink.

#[export] Instance LockPoint_eq_dec : EqDecision LockPoint.
Proof. solve_decision. Defined.

Definition set_lock_file (present : bool) (s : LockState) : LockState := {| lk_file := present; lk_released := lk_released s |}.

Definition acquireKeeperProcessLock (fault : option LockPoint) : method LockState nat :=
  io fault at_lock_mkdir id ;;
  io fault at_lock_open id ;;
  exists_ ← gets lk_file;
  throw_if exists_ "Keeper process lock already exists" ;;
  modify (set_lock_file true) ;;
  io fault at_lock_writeFile id ;;
  io fault at_lock_sync id ;;
  s ← get;
  put {| lk_file := lk_file s; lk_released := lk_released s ++ [false] |} ;;
  mret (length (lk_released s)).

(** The closure of the [i]-th acquisition. *)
Definition releaseLock (fault : option LockPoint) (i : nat) : method LockState unit :=
  s ← get;
  match lk_released s !! i with
  | Some false =>
      put {| lk_file := lk_file s; lk_released := <[i := true]> (lk_released s) |} ;;
      io fault at_lock_close id ;;
      io fault at_unlink (set_lock_file false)
  | _ => mret tt
  end.

(** A crash takes a closure away and leaves the file. *)
Definition crashProcess (i : nat) (s : LockState) : LockState :=
  {| lk_file := lk_file s; lk_released := <[i := true]> (lk_released s) |}.

Inductive lock_step (s : LockState) : LockState -> Prop :=
| step_acquire fault r s' : acquireKeeperProcessLock fault s = (r, s') -> lock_step s s'
| step_release fault i r s' : releaseLock fault i s = (r, s') -> lock_step s s'
| step_crash i : lock_step s (crashProcess i s).

(** Processes that hold the lock. *)
Definition holders (s : LockState) : nat := length (List.filter negb (lk_released s)).
Definition no_lock : LockState := {| lk_file := false; lk_released := [] |}.

(** * Lemmas *)

(** ** The document schema *)
Definition replayParentPresent (document : list JournalEntry) (e : JournalEntry) : Prop :=
  forall parent, je_replayOfAttemptId e = Some parent -> string_nonempty parent = true ->
    parent ∈ je_attemptId <$> document.

Lemma existsb_attempt document parent :
  existsb (fun candidate => bool_decide (je_attemptId candidate = parent)) document = true <->
  parent ∈ je_attemptId <$> document.
Proof.
  rewrite existsb_exists, list_elem_of_fmap. setoid_rewrite bool_decide_eq_true.
  setoid_rewrite <- list_elem_of_In. naive_solver.
Qed.

Lemma forall_elem_cons {A} (Q : A -> Prop) x (l : list A) :
  (forall y, y ∈ (x :: l) -> Q y) <-> Q x /\ forall y, y ∈ l -> Q y.
Proof. setoid_rewrite elem_of_cons. split; [firstorder|]. intros [? ?] y [->|?]; auto. Qed.

Lemma fresh_cons {A} (f : A -> string) x (l : list A) (seen : list string) :
  (forall y, y ∈ l -> f y ∉ (f x :: seen)) <-> f x ∉ f <$> l /\ forall y, y ∈ l -> f y ∉ seen.
Proof.
  setoid_rewrite not_elem_of_cons. split.
  - intros H. split; [|firstorder]. intros (y & E & Hy)%list_elem_of_fmap. by destruct (H y Hy).
  - intros [Hn H] y Hy. split; [|auto]. intros E. apply Hn. rewrite <- E. by apply list_elem_of_fmap_2.
Qed.

Lemma issue_nil (P : Prop) `{Decision P} (issue : string) :
  (if bool_decide P then [issue] else []) = [] <-> ~ P.
Proof. case_bool_decide; split; first [done|tauto|discriminate]. Qed.

Lemma replayIssue_nil document e :
  (match je_replayOfAttemptId e with
  | Some parent =>
      if string_nonempty parent &&
         negb (existsb (fun candidate => bool_decide (je_attemptId candidate = parent)) document)
      then ["Replay parent is missing"] else []
  | None => []
  end) = [] <-> replayParentPresent document e.
Proof.
  unfold replayParentPresent. destruct (je_replayOfAttemptId e) as [parent|]; [|split; [intros _ p [=]|done]].
  destruct (string_nonempty parent) eqn:En; simpl; [|split; [intros _ p [= <-] ?; congruence|done]].
  destruct (existsb _ document) eqn:Ex; simpl.
  - split; [|done]. intros _ p [= <-] _. by apply existsb_attempt.
  - split; [done|]. intros H. specialize (H parent eq_refl En). apply existsb_attempt in H. congruence.
Qed.

Lemma documentIssues_nil document es attempts hashes :
  documentIssues document es attempts hashes = [] <->
  NoDup (je_attemptId <$> es) /\ (forall e, e ∈ es -> je_attemptId e ∉ attempts) /\
  NoDup ((fun e => toLowerCase (je_txHash e)) <$> es) /\
  (forall e, e ∈ es -> toLowerCase (je_txHash e) ∉ hashes) /\
  (forall e, e ∈ es -> replayParentPresent document e).
Proof.
  revert attempts hashes; induction es as [|e es IH]; intros A T.
  { simpl. split; [intros _; split_and!; solve [constructor|set_solver]|done]. }
  cbn [documentIssues fmap list_fmap]. rewrite !app_nil, IH, !NoDup_cons.
  rewrite !issue_nil, (replayIssue_nil document e), (fresh_cons je_attemptId),
    (fresh_cons (fun e => toLowerCase (je_txHash e))), !forall_elem_cons. tauto.
Qed.

Lemma journalDocumentSchema_spec document :
  journalDocumentSchema document = true <->
  (forall e, e ∈ jd_entries document -> journalEntrySchema e = true) /\
  (forall kv, kv ∈ jd_checkpoints document -> string_nonempty kv.1 = true) /\
  NoDup (je_attemptId <$> jd_entries document) /\
  NoDup ((fun e => toLowerCase (je_txHash e)) <$> jd_entries document) /\
  (forall e, e ∈ jd_entries document -> replayParentPresent (jd_entries document) e).
Proof.
  unfold journalDocumentSchema.
  rewrite !andb_true_iff, !forallb_forall, bool_decide_eq_true, documentIssues_nil.
  setoid_rewrite <- list_elem_of_In.
  split; [intros [[? ?] (? & _ & ? & _ & ?)]|intros (? & ? & ? & ? & ?)]; split_and!; try done;
    intros; apply not_elem_of_nil.
Qed.

(** ** Reading *)
Definition file_inv (d : Disk) : Prop :=
  match d_journal d with
  | None => True
  | Some Malformed => False
  | Some (Json document) => journalDocumentSchema document = true
  end.

(** The document a valid disk holds. *)
Definition file_document (d : Disk) : JournalDocument :=
  match d_journal d with Some (Json document) => document | _ => emptyJournal end.

Lemma file_document_valid d : file_inv d -> journalDocumentSchema (file_document d) = true.
Proof. unfold file_inv, file_document. destruct (d_journal d) as [[]|]; done. Qed.

Lemma file_read_valid d : file_inv d -> file_read d = (Ok (file_document d), d).
Proof.
  unfold file_read, file_inv, file_document, parseJournal. unfold_method.
  destruct (d_journal d) as [[document|]|] eqn:E; intros H; rewrite ?E; simpl; [by rewrite H|done..].
Qed.

(** ** Writing *)

(** Whatever happens, the journal file is the old one or exactly the new one;
    it is the new one when the write reports success. *)
Lemma file_write_atomic fault next d r d' :
  file_write fault next d = (r, d') ->
  (d_journal d' = d_journal d \/ d_journal d' = Some (Json next)) /\
  match r with
  | Ok _ => d' = {| d_journal := Some (Json next); d_temporary := None |} /\ d_temporary d = None
  | Throw _ => True
  end.
Proof.
  unfold file_write, io. unfold_method.
  destruct fault as [[]|]; simpl; destruct (d_temporary d) eqn:Ht; simpl;
    intros [= <- <-]; simpl; rewrite ?Ht; auto.
Qed.

Lemma file_write_ok next d :
  d_temporary d = None ->
  file_write None next d = (Ok tt, {| d_journal := Some (Json next); d_temporary := None |}).
Proof. intros Ht. unfold file_write, io. unfold_method. simpl. rewrite Ht. done. Qed.

(** A left-over temporary file stops every write and is never removed. *)
Lemma file_write_blocked fault next d c :
  d_temporary d = Some c -> exists err, file_write fault next d = (Throw err, d).
Proof.
  intros Ht. unfold file_write, io. unfold_method.
  destruct (bool_decide (fault = Some at_mkdir)); simpl; [by eauto|].
  rewrite Ht. simpl. eauto.
Qed.

(** The checks of [put], before the write. *)
Definition admissible (entry : JournalEntry) (document : JournalDocument) : result JournalDocument :=
  e ← parseEntry entry;
  match find_attempt (je_attemptId e) (jd_entries document) with
  | Some previous => assertAppendOnlyUpdate previous e
  | None => Ok tt
  end ;;
  parseJournal (with_entry document e).

Lemma file_put_valid fault entry d :
  file_inv d ->
  file_put fault entry d =
  match admissible entry (file_document d) with
  | Ok next => file_write fault next d
  | Throw err => (Throw err, d)
  end.
Proof.
  intros Hd. unfold file_put, admissible. unfold mbind at 1, method_bind at 1.
  rewrite (file_read_valid d Hd). unfold parseEntry. unfold_method.
  destruct (journalEntrySchema entry); simpl; [|done].
  destruct (find_attempt _ _) as [p|]; simpl; [destruct (assertAppendOnlyUpdate p entry); simpl; [|done]|];
    destruct (parseJournal _); done.
Qed.

Lemma admissible_Ok entry document next :
  admissible entry document = Ok next <->
  journalEntrySchema entry = true /\
  (forall p, find_attempt (je_attemptId entry) (jd_entries document) = Some p ->
     assertAppendOnlyUpdate p entry = Ok tt) /\
  journalDocumentSchema next = true /\ next = with_entry document entry.
Proof.
  unfold admissible, parseEntry, parseJournal. unfold mbind, result_bind.
  destruct (journalEntrySchema entry); [|naive_solver].
  destruct (find_attempt _ _) as [p|].
  - destruct (assertAppendOnlyUpdate p entry) as [[]|] eqn:Ha.
    + destruct (journalDocumentSchema (with_entry document entry)) eqn:Hs; [naive_solver|].
      split; [done|]. intros (_ & _ & Hn & ->). congruence.
    + split; [done|]. intros (_ & Hp & _). specialize (Hp p eq_refl). congruence.
  - destruct (journalDocumentSchema (with_entry document entry)) eqn:Hs; [naive_solver|].
    split; [done|]. intros (_ & _ & Hn & ->). congruence.
Qed.

(** C5: Crash atomicity of [put]: with a fault or a crash at any step, the journal
    file is untouched or holds exactly the updated, valid document, and a
    reported success means the latter. *)
Theorem file_put_crash_atomic fault entry d r d' :
  file_inv d -> file_put fault entry d = (r, d') ->
  file_inv d' /\
  (d_journal d' = d_journal d \/ file_document d' = with_entry (file_document d) entry) /\
  (forall u, r = Ok u -> file_document d' = with_entry (file_document d) entry).
Proof.
  intros Hd. rewrite file_put_valid by done.
  destruct (admissible entry (file_document d)) as [next|err] eqn:Ha.
  2: { intros [= <- <-]. split_and!; [done|by left|done]. }
  apply admissible_Ok in Ha as (_ & _ & Hn & Hnext). intros E.
  destruct (file_write_atomic _ _ _ _ _ E) as [Hj Hr]. split_and!.
  - destruct Hj as [Hj|Hj]; unfold file_inv; rewrite Hj; [exact Hd|done].
  - destruct Hj as [Hj|Hj]; [by left|right]. unfold file_document at 1. by rewrite Hj.
  - intros u ->. destruct Hr as [-> _]. done.
Qed.

(** A failed write that leaves its temporary file wedges the store: from then
    on every [put] of this process throws and the journal never changes. *)
Theorem temporary_file_blocks fault entry d c :
  file_inv d -> d_temporary d = Some c -> exists err, file_put fault entry d = (Throw err, d).
Proof.
  intros Hd Ht. rewrite file_put_valid by done. destruct (admissible _ _) as [next|err]; [|by eauto].
  by eapply file_write_blocked.
Qed.

(** ** The file store is lawful *)
Lemma find_attempt_app id l1 l2 :
  find_attempt id (l1 ++ l2) =
  match find_attempt id l1 with Some e => Some e | None => find_attempt id l2 end.
Proof. unfold find_attempt. induction l1 as [|e l1 IH]; simpl; [done|]. by case_bool_decide. Qed.

Lemma find_attempt_filter id drop l :
  find_attempt id (List.filter (fun c => negb (bool_decide (je_attemptId c = drop))) l) =
  if decide (id = drop) then None else find_attempt id l.
Proof.
  unfold find_attempt. induction l as [|e l IH]; simpl; [by case_decide|].
  destruct (bool_decide (je_attemptId e = drop)) eqn:Ed; bool_to_prop; simpl; rewrite IH.
  - case_decide; [done|]. rewrite bool_decide_eq_false_2; [done|congruence].
  - case_bool_decide; [|done]. rewrite decide_False; [done|congruence].
Qed.

Lemma find_with_entry id document entry :
  find_attempt id (jd_entries (with_entry document entry)) =
  if decide (id = je_attemptId entry) then Some entry else find_attempt id (jd_entries document).
Proof.
  unfold with_entry. simpl. rewrite find_attempt_app, find_attempt_filter.
  assert (H1 : find_attempt id [entry] = if decide (id = je_attemptId entry) then Some entry else None).
  { unfold find_attempt. simpl. case_bool_decide; case_decide; congruence. }
  rewrite H1. case_decide; [done|]. by destruct (find_attempt id (jd_entries document)).
Qed.

(** What a [put] has done, whatever the fault: nothing to the journal, or its update. *)
Lemma file_put_cases fault entry d r d' :
  file_inv d -> file_put fault entry d = (r, d') ->
  file_inv d' /\
  match r with
  | Ok _ => admissible entry (file_document d) = Ok (with_entry (file_document d) entry) /\
            file_document d' = with_entry (file_document d) entry
  | Throw _ =>
      (file_document d' = file_document d \/
       admissible entry (file_document d) = Ok (with_entry (file_document d) entry) /\
       file_document d' = with_entry (file_document d) entry) /\
      (is_ok (admissible entry (file_document d)) = false \/ d_temporary d <> None \/ fault <> None)
  end.
Proof.
  intros Hd. rewrite file_put_valid by done.
  destruct (admissible entry (file_document d)) as [next|err] eqn:Ha; [|by intros [= <- <-]; auto].
  pose proof Ha as Ha'. apply admissible_Ok in Ha' as (_ & _ & Hn & ->). intros E.
  destruct (file_write_atomic _ _ _ _ _ E) as [Hj Hr].
  assert (Hdoc : file_document d' = file_document d /\ file_inv d' \/
                 file_document d' = with_entry (file_document d) entry /\ file_inv d').
  { unfold file_document, file_inv in *. destruct Hj as [->| ->]; [by left|by right]. }
  split; [tauto|]. destruct r as [[]|err]; [destruct Hr as [-> _]; done|]. split; [tauto|right].
  destruct (d_temporary d) eqn:Ht; [by left|right]. intros ->. rewrite file_write_ok in E by done. done.
Qed.

Lemma with_entry_view entry document next :
  admissible entry document = Ok next -> put_view entry (jd_entries document) (jd_entries (with_entry document entry)).
Proof.
  intros (Hs & Hp & _ & _)%admissible_Ok. split_and!; [done|done|]. intros id. apply find_with_entry.
Qed.

(** The store keeps its promises whatever faults its writes meet. *)
#[export, refine] Instance file_laws : JournalLaws FaultyDisk := {|
  journal_inv := fun s => file_inv s.1;
  journal_view := fun s => jd_entries (file_document s.1)
|}.
Proof.
  - intros [d faults] Hd. unfold journal_list. simpl. unfold faulty_read, file_list.
    unfold mbind, method_bind. cbn [fst]. by rewrite (file_read_valid d Hd).
  - intros e [d faults] Hd. cbn. unfold faulty_write. cbn [fst snd].
    destruct (file_put _ e d) as [r d'] eqn:E. by apply file_put_cases in E as [? _].
  - intros e [d faults] [d' faults'] u Hd E. cbn in E. unfold faulty_write in E. cbn [fst snd] in *.
    destruct (file_put _ e d) as [r d2] eqn:Ep. injection E as -> -> _. apply file_put_cases in Ep as [_ (Ha & ->)]; [|done].
    by eapply with_entry_view.
  - intros e [d faults] [d' faults'] err Hd E. cbn in E. unfold faulty_write in E. cbn [fst snd] in *.
    destruct (file_put _ e d) as [r d2] eqn:Ep. injection E as -> -> _. apply file_put_cases in Ep as [_ [[->|[Ha ->]] _]]; [by left| |done].
    right. by eapply with_entry_view.
  - intros [d faults] Hd%file_document_valid. by apply journalDocumentSchema_spec in Hd as (_ & _ & ? & _).
Defined.

(** ** The memory store is its abstraction *)

(** The document on disk and the memory store hold the same attempts and the same
    checkpoints. *)
Definition represents (d : Disk) (m : MemoryJournal) : Prop :=
  file_inv d /\ memory_inv m /\
  (forall id, find_attempt id (jd_entries (file_document d)) = map_get id (mj_entries m)) /\
  (forall key, map_get key (jd_checkpoints (file_document d)) = map_get key (mj_checkpoints m)).

Lemma find_attempt_elem e es : NoDup (je_attemptId <$> es) -> e ∈ es <-> find_attempt (je_attemptId e) es = Some e.
Proof.
  intros Hnd. split; [|by intros [? _]%find_attempt_id]. unfold find_attempt.
  induction es as [|x es IH]; [by intros ?%elem_of_nil|]. apply NoDup_cons in Hnd as [Hx Hnd].
  intros [->|He]%elem_of_cons; cbn; [by rewrite bool_decide_true|].
  rewrite bool_decide_false; [by apply IH|]. intros E. apply Hx. rewrite E. by apply list_elem_of_fmap_2.
Qed.

Lemma represents_Permutation d m : represents d m -> jd_entries (file_document d) ≡ₚ (mj_entries m).*2.
Proof.
  intros (Hd & Hm & He & _).
  pose proof (file_document_valid d Hd) as (_ & _ & Hnd & _)%journalDocumentSchema_spec.
  pose proof (view_NoDup m Hm) as Hnd'. cbn in Hnd'.
  apply NoDup_Permutation; [by eapply NoDup_fmap_1|by eapply NoDup_fmap_1|].
  intros e. by rewrite !find_attempt_elem, He, memory_find.
Qed.

(** One step of the memory store. *)
Lemma memory_accepts entry d m :
  represents d m -> journalEntrySchema entry = true ->
  (forall p, find_attempt (je_attemptId entry) (jd_entries (file_document d)) = Some p -> assertAppendOnlyUpdate p entry = Ok tt) ->
  memory_put entry m = (Ok tt, {| mj_entries := map_set (je_attemptId entry) entry (mj_entries m); mj_checkpoints := mj_checkpoints m |}).
Proof.
  intros (_ & _ & Hsame & _) Hs Hp. unfold memory_put, parseEntry. unfold_method. rewrite Hs. simpl.
  destruct (map_get _ _) as [p|] eqn:Hg; simpl; [|done]. rewrite (Hp p) by (by rewrite Hsame). done.
Qed.

Lemma represents_put entry d d' m next :
  represents d m -> admissible entry (file_document d) = Ok next ->
  file_inv d' -> file_document d' = with_entry (file_document d) entry ->
  exists m', memory_put entry m = (Ok tt, m') /\ represents d' m'.
Proof.
  intros Hr (Hs & Hp & _ & _)%admissible_Ok Hd' Hdoc. pose proof (memory_accepts entry d m Hr Hs Hp) as Em.
  destruct Hr as (_ & Hm & He & Hc). eexists. split; [exact Em|].
  pose proof (memory_put_inv entry m Hm) as Hm'. rewrite Em in Hm'. split_and!; [done|done| |].
  - intros id. cbn [mj_entries]. by rewrite Hdoc, find_with_entry, map_get_set, He.
  - intros key. by rewrite Hdoc.
Qed.

(** What only the file store refuses is a violation of the document or of the disk. *)
Lemma file_refuses entry d m :
  represents d m -> is_ok (admissible entry (file_document d)) = false ->
  (exists err, memory_put entry m = (Throw err, m)) \/ journalDocumentSchema (with_entry (file_document d) entry) = false.
Proof.
  intros Hr Ha. destruct (memory_put entry m) as [[[]|err] m'] eqn:Em; pose proof Hr as (_ & Hm & He & _);
    pose proof (memory_put_cases _ _ _ _ Hm Em) as Hc; [right|left; exists err; cbn in Hc; by rewrite Hc].
  destruct Hc as (Hs & Hp & _). destruct (journalDocumentSchema _) eqn:Hn; [|done].
  rewrite (proj2 (admissible_Ok entry (file_document d) (with_entry (file_document d) entry))) in Ha; [done|].
  split_and!; try done. intros p. rewrite He. apply Hp.
Qed.

Lemma with_checkpoint_valid document key value :
  journalDocumentSchema document = true -> string_nonempty key = true -> journalDocumentSchema (with_checkpoint document key value) = true.
Proof.
  rewrite !journalDocumentSchema_spec. intros (H1 & H2 & H3) Hk. split_and!; [done| |apply H3..].
  intros kv Hin. apply (list_elem_of_fmap_2 fst), map_set_keys in Hin as [->|(kv' & -> & Hin)%list_elem_of_fmap]; [done|by apply H2].
Qed.

Lemma file_putCheckpoint_valid fault key value d :
  file_inv d -> string_nonempty key = true ->
  file_putCheckpoint fault key value d = file_write fault (with_checkpoint (file_document d) key value) d.
Proof.
  intros Hd Hk. unfold file_putCheckpoint, throw_if. rewrite Hk. cbn [negb]. unfold mbind at 1 2, method_bind at 1 2.
  cbn. unfold mbind, method_bind. rewrite (file_read_valid d Hd). cbn. unfold parseJournal.
  by rewrite (with_checkpoint_valid _ key value (file_document_valid d Hd) Hk).
Qed.

Lemma represents_checkpoint key value d d' m :
  represents d m -> file_inv d' -> file_document d' = with_checkpoint (file_document d) key value ->
  represents d' {| mj_entries := mj_entries m; mj_checkpoints := map_set key value (mj_checkpoints m) |}.
Proof.
  intros (_ & Hm & He & Hc) Hd' Hdoc. split_and!; [done|done| |].
  - intros id. by rewrite Hdoc.
  - intros key'. rewrite Hdoc. cbn. by rewrite !map_get_set, Hc.
Qed.

(** C38: The file store implements the memory store, operation by operation and under every
    I/O fault.  Between a disk and a memory that hold the same attempts and checkpoints:
    the lists are the same up to the order, every checkpoint is the same; a write that
    succeeds is one the memory store accepts, and takes both to the same content again; a
    write that throws leaves the content as it was, or is one the memory store accepts
    and has been carried out all the same; and a write throws only if the memory store
    refuses it, the document would not be valid (a hash twice, a missing replay parent),
    a temporary file is left over, or a fault is met. *)
Theorem file_refines_memory d m :
  represents d m ->
  (exists es, file_list d = (Ok es, d) /\ es ≡ₚ (mj_entries m).*2 /\ memory_list m = (Ok (mj_entries m).*2, m)) /\
  (forall key, exists value, file_getCheckpoint key d = (Ok value, d) /\ memory_getCheckpoint key m = (Ok value, m)) /\
  (forall fault entry r d', file_put fault entry d = (r, d') ->
     let carried_out := exists m', memory_put entry m = (Ok tt, m') /\ represents d' m' in
     match r with
     | Ok _ => carried_out
     | Throw _ => (represents d' m \/ carried_out) /\
         ((exists err, memory_put entry m = (Throw err, m)) \/
          journalDocumentSchema (with_entry (file_document d) entry) = false \/ d_temporary d <> None \/ fault <> None)
     end) /\
  (forall fault key value r d', file_putCheckpoint fault key value d = (r, d') ->
     let carried_out := exists m', memory_putCheckpoint key value m = (Ok tt, m') /\ represents d' m' in
     match r with
     | Ok _ => carried_out
     | Throw _ => (represents d' m \/ carried_out) /\
         ((exists err, memory_putCheckpoint key value m = (Throw err, m)) \/ d_temporary d <> None \/ fault <> None)
     end).
Proof.
  intros Hr. pose proof Hr as (Hd & Hm & He & Hc). split_and!.
  - exists (jd_entries (file_document d)). split_and!; [|by apply represents_Permutation|done].
    unfold file_list, mbind, method_bind. by rewrite (file_read_valid d Hd).
  - intros key. exists (map_get key (mj_checkpoints m)). split; [|done].
    unfold file_getCheckpoint, mbind, method_bind. rewrite (file_read_valid d Hd). by rewrite Hc.
  - intros fault entry r d' E. apply file_put_cases in E as [Hd' E]; [|done]. destruct r as [u|err].
    + destruct E as (Ha & Hdoc). by eapply represents_put.
    + destruct E as ([Hdoc|[Ha Hdoc]] & Hwhy); (split; [|destruct Hwhy as [Hf|[]]; [destruct (file_refuses _ _ _ Hr Hf)|..]; auto]).
      * left. unfold represents. by rewrite Hdoc.
      * right. by eapply represents_put.
  - intros fault key value r d' E. destruct (string_nonempty key) eqn:Hk.
    2: { unfold file_putCheckpoint, memory_putCheckpoint, throw_if in *. rewrite Hk in *. cbn in *.
         injection E as <- <-. eauto. }
    rewrite file_putCheckpoint_valid in E by done.
    assert (Em : memory_putCheckpoint key value m = (Ok tt, {| mj_entries := mj_entries m; mj_checkpoints := map_set key value (mj_checkpoints m) |})).
    { unfold memory_putCheckpoint, throw_if. by rewrite Hk. }
    rewrite Em. destruct (file_write_atomic _ _ _ _ _ E) as [Hj Hw].
    assert (Hout : d_journal d' = Some (Json (with_checkpoint (file_document d) key value)) ->
      exists m', (Ok tt, {| mj_entries := mj_entries m; mj_checkpoints := map_set key value (mj_checkpoints m) |}) = (Ok tt, m') /\ represents d' m').
    { intros Ej. eexists. split; [done|]. eapply represents_checkpoint; [exact Hr| |].
      - unfold file_inv. rewrite Ej. by apply with_checkpoint_valid; [apply file_document_valid|].
      - unfold file_document at 1. by rewrite Ej. }
    destruct r as [u|err]; [destruct Hw as [-> _]; by apply Hout|]. split.
    + destruct Hj as [Hj|Hj]; [left|right; by apply Hout]. unfold represents, file_inv, file_document in *. by rewrite Hj.
    + destruct (d_temporary d) eqn:Ht; [by right; left|right; right]. intros ->. rewrite file_write_ok in E by done. done.
Qed.

(** ** The process lock *)
Definition lock_inv (s : LockState) : Prop :=
  holders s <= if lk_file s then 1 else 0.

Lemma holders_app l1 l2 :
  length (List.filter negb (l1 ++ l2)) = length (List.filter negb l1) + length (List.filter negb l2).
Proof. by rewrite List.filter_app, length_app. Qed.

Lemma holders_release (l : list bool) (i : nat) (b : bool) :
  l !! i = Some b ->
  length (List.filter negb l) = length (List.filter negb (<[i := true]> l)) + (if b then 0 else 1)%nat.
Proof.
  revert i; induction l as [|c l IH]; intros [|i] H; simpl in *; simplify_eq.
  - destruct b; simpl; lia.
  - specialize (IH _ H). destruct c; simpl; lia.
Qed.

(** What an acquisition leaves: nothing new, only the file, or the file and a closure. *)
Lemma acquire_cases fault s r s' :
  acquireKeeperProcessLock fault s = (r, s') ->
  match r with
  | Ok i => lk_file s = false /\ s' = {| lk_file := true; lk_released := lk_released s ++ [false] |} /\ i = length (lk_released s)
  | Throw _ => s' = s \/ lk_file s = false /\ s' = set_lock_file true s
  end.
Proof.
  destruct s as [[] released]; unfold acquireKeeperProcessLock, io, throw_if; unfold_method;
    destruct fault as [[]|]; cbn; intros [= <- <-]; auto.
Qed.

Lemma release_cases fault i s r s' :
  releaseLock fault i s = (r, s') ->
  s' = s \/ lk_released s !! i = Some false /\
             (s' = {| lk_file := lk_file s; lk_released := <[i := true]> (lk_released s) |} \/
              s' = {| lk_file := false; lk_released := <[i := true]> (lk_released s) |}).
Proof.
  unfold releaseLock, io. unfold_method. destruct (lk_released s !! i) as [[]|] eqn:Ei; [by intros [= _ <-]; left| |by intros [= _ <-]; left].
  destruct fault as [[]|]; cbn; intros [= _ <-]; auto.
Qed.

Lemma lock_step_inv s s' : lock_inv s -> lock_step s s' -> lock_inv s'.
Proof.
  unfold lock_inv, holders. intros Hs Hstep. destruct Hstep as [fault r s' E|fault i r s' E|i].
  - apply acquire_cases in E. destruct r as [i|e].
    + destruct E as (Hf & -> & _). rewrite Hf in Hs. simpl. rewrite holders_app. simpl. lia.
    + destruct E as [->|[Hf ->]]; [done|]. rewrite Hf in Hs. simpl. lia.
  - apply release_cases in E as [->|[Hi E]]; [done|]. apply holders_release in Hi.
    destruct E as [->| ->]; simpl; destruct (lk_file s); lia.
  - simpl. destruct (lk_released s !! i) as [b|] eqn:Hi.
    + apply holders_release in Hi. destruct (lk_file s), b; lia.
    + rewrite list_insert_ge; [done|]. by apply lookup_ge_None.
Qed.

(** C40: At most one process holds the lock, whatever acquisitions, releases
    (repeated ones included), I/O failures in either and crashes happen; and while the
    lock file is there, even after a crash, nobody acquires. *)
Theorem lock_mutual_exclusion s :
  rtc lock_step no_lock s ->
  holders s <= 1 /\
  (lk_file s = true -> forall fault, exists err, acquireKeeperProcessLock fault s = (Throw err, s)) /\
  (lk_file s = false -> holders s = 0).
Proof.
  intros Hrun. assert (Hs : lock_inv s).
  { assert (H0 : lock_inv no_lock) by (unfold lock_inv, holders; simpl; lia).
    revert H0. induction Hrun; eauto using lock_step_inv. }
  unfold lock_inv in Hs. split_and!.
  - destruct (lk_file s); lia.
  - intros Hf fault. destruct (acquireKeeperProcessLock fault s) as [[i|e] s'] eqn:E; apply acquire_cases in E.
    + destruct E as (Hn & _). congruence.
    + destruct E as [->|[Hn _]]; [by exists e|congruence].
  - intros Hf. rewrite Hf in Hs. lia.
Qed.

(** * Concrete instances *)
Definition ex_disk : Disk := {| d_journal := None; d_temporary := None |}.

Lemma file_put_crash_atomic_witness :
  file_inv (file_put (Some at_rename) ex_entry ex_disk).2 /\
  (d_journal (file_put (Some at_rename) ex_entry ex_disk).2 = None \/
   file_document (file_put (Some at_rename) ex_entry ex_disk).2 = with_entry emptyJournal ex_entry) /\
  (forall u, (file_put (Some at_rename) ex_entry ex_disk).1 = Ok u ->
     file_document (file_put (Some at_rename) ex_entry ex_disk).2 = with_entry emptyJournal ex_entry).
Proof. apply (file_put_crash_atomic (Some at_rename) ex_entry ex_disk); [exact I|by destruct (file_put _ _ _)]. Defined.

Lemma temporary_file_blocks_witness :
  exists err, file_put None ex_entry {| d_journal := None; d_temporary := Some Malformed |} =
              (Throw err, {| d_journal := None; d_temporary := Some Malformed |}).
Proof. apply (temporary_file_blocks None ex_entry _ Malformed); [exact I|reflexivity]. Defined.

Definition ex_memory : MemoryJournal := {| mj_entries := []; mj_checkpoints := [] |}.

(** The directory is not synced: the caller is told of a failure, the entry is there. *)
Lemma file_refines_memory_witness :
  exists d m, file_put (Some at_sync_directory) ex_entry ex_disk = (Throw io_error, d) /\
    memory_put ex_entry ex_memory = (Ok tt, m) /\ represents d m /\
    exists d' m', file_putCheckpoint None "historical:1" "7" d = (Ok tt, d') /\
      memory_putCheckpoint "historical:1" "7" m = (Ok tt, m') /\ represents d' m'.
Proof.
  assert (H0 : represents ex_disk ex_memory).
  { split_and!; [exact I| |reflexivity..]. split; [constructor|]. intros k e H. by apply not_elem_of_nil in H. }
  destruct (file_refines_memory ex_disk ex_memory H0) as (_ & _ & Hput & _).
  destruct (file_put (Some at_sync_directory) ex_entry ex_disk) as [r d] eqn:E.
  pose proof (Hput (Some at_sync_directory) ex_entry r d E) as Hd. vm_compute in E. injection E as <- <-.
  destruct Hd as [[(_ & _ & He & _)|(m & Em & Hr)] _].
  { exfalso. specialize (He (je_attemptId ex_entry)). vm_compute in He. discriminate He. }
  eexists _, m. split; [reflexivity|]. split; [exact Em|]. split; [exact Hr|].
  destruct (file_refines_memory _ m Hr) as (_ & _ & _ & Hcheck).
  match type of Hr with represents ?d _ => destruct (file_putCheckpoint None "historical:1" "7" d) as [r' d'] eqn:E' end.
  pose proof (Hcheck None "historical:1" "7" r' d' E') as Hd'. vm_compute in E'. injection E' as <- <-.
  destruct Hd' as (m' & Em' & Hr'). eexists _, m'. split; [reflexivity|]. split; [exact Em'|exact Hr'].
Defined.

(** An update moves an attempt to the end of the file's list, and leaves it at its place in
    the memory's: the two lists agree up to the order. *)
Definition ex_second : JournalEntry := journalEntryForPrepared ex_action (ex_hash "d") 8 (ex_hash "c") 1000 None.
Example list_order_differs :
  file_list (file_put None ex_entry (file_put None ex_second (file_put None ex_entry ex_disk).2).2).2 =
    (Ok [ex_second; ex_entry], (file_put None ex_entry (file_put None ex_second (file_put None ex_entry ex_disk).2).2).2) /\
  (memory_list (memory_put ex_entry (memory_put ex_second (memory_put ex_entry ex_memory).2).2).2).1 = Ok [ex_entry; ex_second].
Proof. split; vm_compute; reflexivity. Qed.

Lemma lock_mutual_exclusion_witness :
  holders (acquireKeeperProcessLock None no_lock).2 <= 1 /\
  (lk_file (acquireKeeperProcessLock None no_lock).2 = true ->
   forall fault, exists err, acquireKeeperProcessLock fault (acquireKeeperProcessLock None no_lock).2 =
     (Throw err, (acquireKeeperProcessLock None no_lock).2)) /\
  (lk_file (acquireKeeperProcessLock None no_lock).2 = false -> holders (acquireKeeperProcessLock None no_lock).2 = 0).
Proof.
  apply lock_mutual_exclusion. eapply rtc_once. by eapply (step_acquire _ None).
Defined.
