(* ===== verification/Engine.v ===== *)
(** * The settlement engine (keeper/src/engine.ts)

    [runOnce] is one pass of the keeper: reconcile every unresolved attempt of
    the journal, plan one action, sign it, write the attempt ahead, broadcast
    it and follow its receipt.  It runs over any gateway, any clock and any
    journal store; the state threads the world, the store and the trace of
    the accepted journal writes, broadcasts and log lines. *)
From Stdlib Require Import ZArith Lia Ascii.
From stdpp Require Import base option list sets strings relations.
From S2P Require Import Prelude.
From S2P Require Import Lifecycle.
From S2P Require Import Planner.
From S2P Require Import GasPolicy.
From S2P Require Import Journal.
Local Open Scope Z_scope.

Definition unresolvedStatuses : list JournalStatus :=
  [prepared; submitted; confirmed; unknown; reverted].
Definition is_unresolved (s : JournalStatus) : bool := bool_decide (s ∈ unresolvedStatuses).

Inductive KeeperRunResult : Type :=
| Idle
| Blocked (actionKey : string) (status : JournalStatus)
| Submitted (actionKey txHash : string)
| Settled (status : JournalStatus) (actionKey txHash : string).

(** [receiptPollMs] has a default. *)
Record EngineOptions := {
  eo_minimumBalanceWei : Z;
  eo_maximumBalanceWei : Z;
  eo_confirmations : Z;
  eo_receiptWaitMs : Z;
  eo_receiptPollMs : option Z
}.
Definition receiptPollMs (o : EngineOptions) : Z := default 2000 (eo_receiptPollMs o).

(** [options.now] and [options.sleep]. *)
Class KeeperClock (W : Type) := {
  clock_now : W -> Z * W;
  clock_sleep : Z -> W -> W
}.

Definition safeErrorCode (error : js_error) : string :=
  match err_code error with
  | Some code => slice0 80 code
  | None => if err_is_error error then slice0 80 (err_name error) else "UNKNOWN_ERROR"
  end.

Record UpdateOptions := {
  uo_blockNumber : option Z;
  uo_blockHash : option string;
  uo_confirmations : option Z;
  uo_errorCode : option string
}.
Definition no_options : UpdateOptions :=
  {| uo_blockNumber := None; uo_blockHash := None; uo_confirmations := None; uo_errorCode := None |}.
Definition error_option (code : string) : UpdateOptions :=
  {| uo_blockNumber := None; uo_blockHash := None; uo_confirmations := None; uo_errorCode := Some code |}.
Definition receipt_options (r : ReceiptView) (code : option string) : UpdateOptions :=
  {| uo_blockNumber := Some (rv_blockNumber r); uo_blockHash := Some (rv_blockHash r);
     uo_confirmations := Some (rv_confirmations r); uo_errorCode := code |}.

(** An absent option leaves the entry's field: [...entry] comes first. *)
Definition updateEntry (entry : JournalEntry) (status : JournalStatus) (now : Z)
    (options : UpdateOptions) : JournalEntry :=
  {| je_attemptId := je_attemptId entry;
     je_replayOfAttemptId := je_replayOfAttemptId entry;
     je_actionKey := je_actionKey entry;
     je_vault := je_vault entry;
     je_vaultName := je_vaultName entry;
     je_roundId := je_roundId entry;
     je_action := je_action entry;
     je_cursor := je_cursor entry;
     je_account := je_account entry;
     je_txHash := je_txHash entry;
     je_calldataHash := je_calldataHash entry;
     je_nonce := je_nonce entry;
     je_submittedAt := je_submittedAt entry;
     je_updatedAt := now;
     je_status := status;
     je_blockNumber := union (uo_blockNumber options) (je_blockNumber entry);
     je_blockHash := union (uo_blockHash options) (je_blockHash entry);
     je_confirmations := union (uo_confirmations options) (je_confirmations entry);
     je_errorCode := union (uo_errorCode options) (je_errorCode entry);
     je_history := je_history entry ++
       [{| jt_status := status; jt_at := now; jt_blockNumber := uo_blockNumber options;
           jt_blockHash := uo_blockHash options; jt_confirmations := uo_confirmations options;
           jt_errorCode := uo_errorCode options |}] |}.

(** [o === undefined ? {} : { f: BigInt(o) }] *)
Definition optional_BigInt (o : option string) : result (option Z) :=
  match o with Some s => z ← BigInt_of_digits s; Ok (Some z) | None => Ok None end.

Definition actionFromEntry (snapshot : ProtocolSnapshot) (entry : JournalEntry) : result (option LifecycleAction) :=
  match List.find (fun candidate => bool_decide (toLowerCase (vc_address (vs_vault candidate)) =
                                                 toLowerCase (je_vault entry))) (ps_vaults snapshot) with
  | None => Ok None
  | Some vault =>
      roundId ← BigInt_of_digits (je_roundId entry);
      cursor ← optional_BigInt (je_cursor entry);
      Ok (Some {| la_key := je_actionKey entry; la_kind := je_action entry; la_vault := vs_vault vault;
                  la_roundId := roundId; la_cursor := cursor; la_account := je_account entry |})
  end.

(** The hint of a targeted snapshot: the account only for an account action
    that has one. *)
Definition targetedHint (vaultAddress : string) (kind : LifecycleActionKind)
    (account : option string) (roundId : Z) : SnapshotReadHint :=
  {| srh_vaultAddress := vaultAddress;
     srh_account := match account with
                    | Some a => if is_accountAction kind && string_nonempty a then Some a else None
                    | None => None
                    end;
     srh_roundId := Some roundId |}.

Inductive LogLevel := Debug_level | Info_level | Warn_level | Error_level.

Inductive KeeperEvent : Type :=
| EvPut (entry : JournalEntry)
| EvBroadcast (transaction : SignedLifecycleTransaction)
| EvLog (level : LogLevel) (message : string).

Record EngineState (W J : Type) := {
  es_world : W;
  es_journal : J;
  es_trace : list KeeperEvent
}.
Arguments es_world {W J} _.
Arguments es_journal {W J} _.
Arguments es_trace {W J} _.

Section engine.
Context {W J : Type} {GW : KeeperGateway W} {CK : KeeperClock W} {JS : JournalStore J}.
Context (options : EngineOptions).

Notation state := (EngineState W J).

Definition with_world (w : W) (s : state) : state :=
  {| es_world := w; es_journal := es_journal s; es_trace := es_trace s |}.
Definition emit (ev : KeeperEvent) : method state unit :=
  modify (fun s => {| es_world := es_world s; es_journal := es_journal s; es_trace := es_trace s ++ [ev] |}).

Definition gateway {A} (m : method W A) : method state A :=
  fun s => let '(r, w) := m (es_world s) in (r, with_world w s).
Definition journal {A} (m : method J A) : method state A :=
  fun s => let '(r, j) := m (es_journal s) in
           (r, {| es_world := es_world s; es_journal := j; es_trace := es_trace s |}).

Definition now : method state Z := gateway (fun w => let '(t, w') := clock_now w in (Ok t, w')).
Definition sleep (ms : Z) : method state unit := gateway (fun w => (Ok tt, clock_sleep ms w)).
Definition log (level : LogLevel) (message : string) : method state unit := emit (EvLog level message).

(** A journal write leaves its event once the store has accepted it, a
    broadcast as soon as it is handed to the provider. *)
Definition journal_write (entry : JournalEntry) : method state unit :=
  journal (journal_put entry) ;; emit (EvPut entry).
Definition broadcast (transaction : SignedLifecycleTransaction) : method state string :=
  emit (EvBroadcast transaction) ;; gateway (gw_broadcast transaction).

Definition preflight : method state Z :=
  chainId ← gateway gw_getChainId;
  throw_if (negb (chainId =? SEPOLIA_CHAIN_ID))
    ("Keeper refuses chain " +:+ Z_toString chainId +:+ "; expected Sepolia " +:+ Z_toString SEPOLIA_CHAIN_ID) ;;
  balance ← gateway gw_getKeeperBalance;
  lift (assertKeeperBalanceWithinLimits balance (eo_minimumBalanceWei options) (eo_maximumBalanceWei options)) ;;
  mret balance.

(** [const next = updateEntry(entry, status, this.#now(), options); await put(next)] *)
Definition record (entry : JournalEntry) (status : JournalStatus) (o : UpdateOptions) : method state JournalEntry :=
  t ← now;
  let next := updateEntry entry status t o in
  journal_write next ;;
  mret next.

Definition is_required (snapshot : ProtocolSnapshot) (action : option LifecycleAction) : bool :=
  match action with Some a => isActionRequired snapshot a | None => false end.

(** The receipt has its confirmations. *)
Definition reconcileReceipt (entry : JournalEntry) (receipt : ReceiptView) (required : bool) : method state JournalEntry :=
  if bool_decide (rv_status receipt = Some 1) && negb required then
    reconciled ← record entry reconciled (receipt_options receipt None);
    log Info_level "keeper transaction confirmed and reconciled" ;;
    mret reconciled
  else if bool_decide (rv_status receipt = Some 0) && negb required then
    obsolete ← record entry obsolete (receipt_options receipt None);
    log Info_level "keeper action became unnecessary because another caller advanced state" ;;
    mret obsolete
  else
    failed ← record entry (if bool_decide (rv_status receipt = Some 0) then reverted else unknown)
               (receipt_options receipt (Some (if bool_decide (rv_status receipt = Some 0)
                                               then "TRANSACTION_REVERTED" else "CONFIRMED_STATE_UNCHANGED")));
    log Error_level "keeper transaction requires operator review" ;;
    mret failed.

(** There is no receipt. *)
Definition reconcileMissing (entry : JournalEntry) (required : bool) : method state JournalEntry :=
  transaction ← gateway (gw_getTransaction (je_txHash entry));
  match transaction with
  | Some _ => record entry submitted no_options
  | None =>
      t ← now;
      let submittedAgeMs := t - je_submittedAt entry in
      if bool_decide (je_status entry ∈ [prepared; submitted]) && (submittedAgeMs <? eo_receiptWaitMs options) then
        mret entry
      else if negb required then
        obsolete ← record entry obsolete (error_option "STATE_ADVANCED_EXTERNALLY");
        log Info_level "keeper action already completed by authoritative chain state" ;;
        mret obsolete
      else if bool_decide (je_status entry = confirmed) then
        reorged ← record entry reorged (error_option "REORGED_TRANSACTION_DROPPED");
        log Warn_level "confirmed keeper transaction disappeared after a shallow reorg; replay is permitted with history preserved" ;;
        mret reorged
      else
        nonces ← promise_all2 (gateway (gw_getTransactionCount "latest"))
                              (gateway (gw_getTransactionCount "pending"));
        unknown ← record entry unknown
          (error_option (if (je_nonce entry <? nonces.1) || (je_nonce entry <? nonces.2)
                         then "NONCE_CONSUMED_OUTCOME_UNKNOWN" else "TX_OUTCOME_UNKNOWN"));
        log Warn_level "transaction outcome unknown; automatic retry disabled" ;;
        mret unknown
  end.

Definition reconcileEntry (entry : JournalEntry) : method state JournalEntry :=
  receipt ← gateway (gw_getReceipt (je_txHash entry));
  roundId ← lift (BigInt_of_digits (je_roundId entry));
  snapshot ← gateway (gw_readSnapshot (Some (targetedHint (je_vault entry) (je_action entry) (je_account entry) roundId)));
  action ← lift (actionFromEntry snapshot entry);
  let required := is_required snapshot action in
  if bool_decide (je_status entry ∈ [unknown; reverted]) && required then mret entry
  else if bool_decide (je_status entry ∈ [unknown; reverted]) && negb required then
    record entry obsolete (error_option "STATE_ADVANCED_EXTERNALLY")
  else
    match receipt with
    | Some r =>
        if rv_confirmations r <? eo_confirmations options then
          record entry confirmed (receipt_options r (Some "WAITING_CONFIRMATIONS"))
        else reconcileReceipt entry r required
    | None => reconcileMissing entry required
    end.

(** The loop of [#reconcileOutstanding]: stop at the first attempt that stays
    unresolved. *)
Fixpoint reconcileEntries (entries : list JournalEntry) : method state (option JournalEntry) :=
  match entries with
  | [] => mret None
  | entry :: entries' =>
      reconciled ← reconcileEntry entry;
      if is_unresolved (je_status reconciled) then mret (Some reconciled) else reconcileEntries entries'
  end.

Definition reconcileOutstanding : method state (option JournalEntry) :=
  listed ← journal journal_list;
  reconcileEntries (List.filter (fun entry => is_unresolved (je_status entry)) listed).

(** The loop of [#waitAndReconcile]; [None] is running out of fuel. *)
Fixpoint waitLoop (fuel : nat) (deadline : Z) (entry : JournalEntry) : method state (option JournalEntry) :=
  match fuel with
  | O => mret None
  | S fuel' =>
      current ← reconcileEntry entry;
      if negb (bool_decide (je_status current ∈ [submitted; confirmed])) then mret (Some current)
      else
        t ← now;
        if deadline <=? t then mret (Some current)
        else sleep (receiptPollMs options) ;; waitLoop fuel' deadline current
  end.

Definition waitAndReconcile (fuel : nat) (entry : JournalEntry) : method state (option JournalEntry) :=
  t ← now;
  waitLoop fuel (t + eo_receiptWaitMs options) entry.

(** Encoding and simulation, and the re-read that follows their failure: the
    calldata, or the end of the pass. *)
Definition prepareCalldata (action : LifecycleAction) : method state (KeeperRunResult + string) :=
  try_catch
    (data ← gateway (gw_encodeAction action);
     gateway (gw_simulate action data) ;;
     mret (inr data))
    (fun error =>
       snapshot ← gateway (gw_readSnapshot (Some (targetedHint (vc_address (la_vault action)) (la_kind action)
                                                    (la_account action) (la_roundId action))));
       if negb (isActionRequired snapshot action) then
         log Info_level "action became unnecessary before submission" ;;
         mret (inl Idle)
       else
         log Warn_level "lifecycle simulation or public-proof preparation failed" ;;
         throw_in error).

(** The broadcast and its [catch]; the variable is the mutable [entry]. *)
Definition broadcastEntry (action : LifecycleAction) (transaction : SignedLifecycleTransaction)
    : method (state * JournalEntry) (option KeeperRunResult) :=
  try_catch
    (broadcastHash ← on_state (broadcast transaction);
     throw_if (negb (bool_decide (toLowerCase broadcastHash = toLowerCase (st_hash transaction))))
       "RPC returned a transaction hash that does not match the signed transaction" ;;
     entry ← local_var;
     t ← on_state now;
     assign (updateEntry entry submitted t no_options) ;;
     entry ← local_var;
     on_state (journal_write entry) ;;
     on_state (log Info_level "keeper transaction submitted") ;;
     mret None)
    (fun error =>
       entry ← local_var;
       t ← on_state now;
       assign (updateEntry entry unknown t (error_option (safeErrorCode error))) ;;
       entry ← local_var;
       on_state (journal_write entry) ;;
       on_state (log Warn_level "broadcast outcome unknown; automatic retry disabled") ;;
       mret (Some (Blocked (la_key action) unknown))).

(** From the signed transaction to the result of the pass. *)
Definition submit (fuel : nat) (action : LifecycleAction) (previous : option JournalEntry)
    (transaction : SignedLifecycleTransaction) : method state (option KeeperRunResult) :=
  balance ← gateway gw_getKeeperBalance;
  lift (assertKeeperBalanceWithinLimits balance (eo_minimumBalanceWei options) (eo_maximumBalanceWei options)) ;;
  throw_if (balance - eo_minimumBalanceWei options <? st_maximumCostWei transaction)
    "Keeper balance cannot cover the populated transaction maximum cost while preserving its minimum" ;;
  t ← now;
  let entry := journalEntryForPrepared action (st_hash transaction) (st_nonce transaction)
                 (st_calldataHash transaction) t (je_attemptId <$> previous) in
  journal_write entry ;;
  broadcast_result ← with_local entry (broadcastEntry action transaction);
  match broadcast_result with
  | (Some blocked, _) => mret (Some blocked)
  | (None, entry) =>
      finalEntry ← waitAndReconcile fuel entry;
      mret (match finalEntry with
            | None => None
            | Some finalEntry =>
                if bool_decide (je_status finalEntry ∈ [reconciled; obsolete]) then
                  Some (Settled (je_status finalEntry) (la_key action) (st_hash transaction))
                else if bool_decide (je_status finalEntry = submitted) then
                  Some (Submitted (la_key action) (st_hash transaction))
                else Some (Blocked (la_key action) (je_status finalEntry))
            end)
  end.

(** A planned action that nothing blocks: prepared, signed and submitted. *)
Definition signAndSubmit (fuel : nat) (action : LifecycleAction) (previous : option JournalEntry)
    : method state (option KeeperRunResult) :=
  prepared ← prepareCalldata action;
  match prepared with
  | inl r => mret (Some r)
  | inr data =>
      transaction ← gateway (gw_sign action data);
      match st_gasPolicy transaction with
      | Some _ => log Info_level "keeper gas policy applied"
      | None => mret tt
      end ;;
      submit fuel action previous transaction
  end.

(** The planned action: blocked by an unresolved attempt at the same action,
    or signed and submitted. *)
Definition attempt (fuel : nat) (action : LifecycleAction) : method state (option KeeperRunResult) :=
  log Info_level "keeper derived next lifecycle action" ;;
  listed ← journal journal_list;
  let previous := last (List.filter (fun entry => bool_decide (je_actionKey entry = la_key action)) listed) in
  match previous with
  | Some p =>
      if is_unresolved (je_status p) then mret (Some (Some (Blocked (je_actionKey p) (je_status p)))) else mret None
  | None => mret None
  end ≫= fun blocked =>
  match blocked with
  | Some r => mret r
  | None =>
      signAndSubmit fuel action previous
  end.

Definition runOnce (fuel : nat) : method state (option KeeperRunResult) :=
  preflight ;;
  outstanding ← reconcileOutstanding;
  match outstanding with
  | Some e => mret (Some (Blocked (je_actionKey e) (je_status e)))
  | None =>
      snapshot ← gateway (gw_readSnapshot None);
      throw_if (negb (ps_chainId snapshot =? SEPOLIA_CHAIN_ID)) "Authoritative snapshot is not Sepolia" ;;
      match planNextAction snapshot with
      | None => log Debug_level "no lifecycle action due" ;; mret (Some Idle)
      | Some action => attempt fuel action
      end
  end.

(** * Lemmas *)

(** ** The trace *)
Definition broadcasts (t : list KeeperEvent) : list SignedLifecycleTransaction :=
  omap (fun ev => match ev with EvBroadcast tx => Some tx | _ => None end) t.

Lemma broadcasts_app t u : broadcasts (t ++ u) = broadcasts t ++ broadcasts u.
Proof. apply omap_app. Qed.

(** [s'] extends the trace of [s] without a broadcast. *)
Definition quiet (s s' : state) : Prop :=
  exists new, es_trace s' = es_trace s ++ new /\ broadcasts new = [].

#[local] Instance quiet_preorder : PreOrder quiet.
Proof.
  split; [intros s; exists []; by rewrite app_nil_r|].
  intros a b c (n1 & E1 & H1) (n2 & E2 & H2). exists (n1 ++ n2).
  by rewrite broadcasts_app, H1, H2, E2, E1, app_assoc.
Qed.

(** ** The journal *)
Context {JL : JournalLaws J}.

Definition jinv (s : state) : Prop := journal_inv (es_journal s).
Definition stored (s : state) (id : string) : option JournalEntry :=
  find_attempt id (journal_view (es_journal s)).

(** The attempt [id] is in the journal with an unresolved status. *)
Definition unresolved_at (s : state) (id : string) : Prop :=
  exists e, stored s id = Some e /\ is_unresolved (je_status e) = true.

(** [s'] follows [s] by store operations on the attempts of [P] only. *)
Definition touches (P : string -> Prop) (s s' : state) : Prop :=
  jinv s' /\ rtc store_step (es_journal s) (es_journal s') /\
  forall id, ~ P id -> stored s' id = stored s id.

Lemma touches_refl P s : jinv s -> touches P s s.
Proof. intros H. split_and!; [done|constructor|done]. Qed.

Lemma touches_same P s s' : jinv s -> es_journal s' = es_journal s -> touches P s s'.
Proof. intros H E. unfold touches, jinv, stored. rewrite E. by apply touches_refl. Qed.

Lemma touches_trans (P : string -> Prop) a b c : touches P a b -> touches P b c -> touches P a c.
Proof.
  intros (I1 & R1 & F1) (I2 & R2 & F2). split_and!; [done|by etrans|].
  intros id Hid. by rewrite F2, F1.
Qed.

Lemma touches_weaken (P Q : string -> Prop) s s' :
  (forall id, P id -> Q id) -> touches P s s' -> touches Q s s'.
Proof. intros H (I & R & F). split_and!; [done|done|]. intros id Hid. apply F. auto. Qed.

Lemma touches_unresolved (P : string -> Prop) s s' id :
  touches P s s' -> ~ P id -> unresolved_at s' id -> unresolved_at s id.
Proof. intros (_ & _ & F) Hid (e & He & Hu). exists e. by rewrite <- (F id Hid). Qed.

(** ** Rules of the primitive operations *)
Lemma wp_gateway {A} (m : method W A) (Q : result A -> state -> Prop) s :
  (forall r w, m (es_world s) = (r, w) -> Q r (with_world w s)) -> wp (gateway m) Q s.
Proof. intros H. unfold wp, gateway. destruct (m (es_world s)) as [r w] eqn:E. by apply H. Qed.

Lemma wp_now (Q : result Z -> state -> Prop) s :
  (forall t w, clock_now (es_world s) = (t, w) -> Q (Ok t) (with_world w s)) -> wp now Q s.
Proof.
  intros H. unfold now. apply wp_gateway. intros r w E.
  destruct (clock_now (es_world s)) as [t w'] eqn:Ec. simplify_eq. by apply H.
Qed.

(** What a gateway or clock operation leaves alone. *)
Definition world_step (s s' : state) : Prop :=
  es_journal s' = es_journal s /\ es_trace s' = es_trace s.

Lemma world_step_quiet s s' : world_step s s' -> quiet s s'.
Proof. intros [_ E]. exists []. by rewrite E, app_nil_r. Qed.

Lemma world_step_touches P s s' : jinv s -> world_step s s' -> touches P s s'.
Proof. intros H [E _]. by apply touches_same. Qed.

Lemma jinv_world s s' : jinv s -> world_step s s' -> jinv s'.
Proof. intros H [E _]. unfold jinv. by rewrite E. Qed.

Lemma wp_log level msg (Q : result unit -> state -> Prop) s :
  (forall s', es_journal s' = es_journal s -> quiet s s' -> Q (Ok tt) s') -> wp (log level msg) Q s.
Proof. intros H. apply H; [done|]. by exists [EvLog level msg]. Qed.

Lemma wp_list (Q : result (list JournalEntry) -> state -> Prop) s :
  jinv s -> Q (Ok (journal_view (es_journal s))) s -> wp (journal journal_list) Q s.
Proof. intros Hj HQ. unfold wp, journal. rewrite list_view by done. by destruct s. Qed.

(** An accepted write stores the entry and leaves its event; one that throws leaves no
    event, and no other attempt is touched. *)
Lemma wp_journal_write entry (Q : result unit -> state -> Prop) s :
  jinv s ->
  (forall s', touches (eq (je_attemptId entry)) s s' -> stored s' (je_attemptId entry) = Some entry ->
     es_trace s' = es_trace s ++ [EvPut entry] -> es_world s' = es_world s ->
     (forall p, stored s (je_attemptId entry) = Some p -> extends p entry) -> Q (Ok tt) s') ->
  (forall e s', touches (eq (je_attemptId entry)) s s' -> es_trace s' = es_trace s -> Q (Throw e) s') ->
  wp (journal_write entry) Q s.
Proof.
  intros Hj HOk HThrow. unfold journal_write. apply wp_bind. unfold wp, journal.
  destruct (journal_put entry (es_journal s)) as [[[]|e] j'] eqn:E.
  - destruct (put_stores _ _ _ _ Hj E) as (Hs & Ha & Hf).
    pose proof (put_inv entry (es_journal s) Hj) as Hi. rewrite E in Hi.
    unfold emit, modify. apply HOk; unfold stored; simpl.
    + split_and!; [done|by apply rtc_once; econstructor|].
      intros id Hid. unfold stored; simpl. rewrite Hf. by rewrite decide_False by congruence.
    + rewrite Hf. by rewrite decide_True.
    + done.
    + done.
    + intros p Hp. by apply assertAppendOnlyUpdate_Ok, Ha.
  - pose proof (put_throws _ _ _ _ Hj E) as Hv.
    pose proof (put_inv entry (es_journal s) Hj) as Hi. rewrite E in Hi.
    apply HThrow; [|done]. split_and!; [done|by apply rtc_once; econstructor|].
    intros id Hid. unfold stored; simpl. destruct Hv as [->|(_ & _ & Hf)]; [done|]. rewrite Hf. by rewrite decide_False by congruence.
Qed.

(** ** [updateEntry] *)
Lemma updateEntry_id e st t o : je_attemptId (updateEntry e st t o) = je_attemptId e.
Proof. done. Qed.

Lemma updateEntry_extends e st t o : extends e (updateEntry e st t o).
Proof. split; [done|]. simpl. by apply prefix_app_r. Qed.

(** One status update: nothing is broadcast, only this attempt changes, and a
    result is the stored update. *)
Lemma wp_record entry st o (Q : result JournalEntry -> state -> Prop) s :
  jinv s ->
  (forall r s', touches (eq (je_attemptId entry)) s s' -> quiet s s' ->
     (forall e', r = Ok e' -> (exists t, e' = updateEntry entry st t o) /\
                              stored s' (je_attemptId entry) = Some e') -> Q r s') ->
  wp (record entry st o) Q s.
Proof.
  intros Hj HQ. unfold record. apply wp_bind, wp_now. intros t w _.
  assert (Hw : world_step s (with_world w s)) by done.
  apply wp_bind, wp_journal_write; [by eapply jinv_world| |].
  - intros s' Ht Hs Htr _ _. apply HQ; [exact Ht| |].
    + etrans; [by apply world_step_quiet|]. by exists [EvPut (updateEntry entry st t o)].
    + intros e' [= <-]. eauto.
  - intros e s' Ht Htr. apply HQ; [done| |by intros e' ?].
    exists []. rewrite Htr. by rewrite app_nil_r.
Qed.

(** ** Reconciliation *)

(** The reads [reconcileEntry] bases its verdict on. *)
Definition authoritative (entry : JournalEntry) (s : state) (receipt : option ReceiptView) (required : bool) : Prop :=
  exists w1 roundId snapshot w2 action,
    gw_getReceipt (je_txHash entry) (es_world s) = (Ok receipt, w1) /\
    BigInt_of_digits (je_roundId entry) = Ok roundId /\
    gw_readSnapshot (Some (targetedHint (je_vault entry) (je_action entry) (je_account entry) roundId)) w1
      = (Ok snapshot, w2) /\
    actionFromEntry snapshot entry = Ok action /\
    required = is_required snapshot action.

(** The verdicts that change an entry, with what each rests on. *)
Definition verdict (entry : JournalEntry) (receipt : option ReceiptView) (required : bool)
    (known : bool) (st : JournalStatus) : Prop :=
  match st with
  | prepared => False
  | submitted => receipt = None /\ known = true
  | confirmed => exists r, receipt = Some r /\ rv_confirmations r < eo_confirmations options
  | reconciled => required = false /\
      exists r, receipt = Some r /\ eo_confirmations options <= rv_confirmations r /\ rv_status r = Some 1
  | obsolete => required = false
  | reorged => required = true /\ je_status entry = confirmed /\ receipt = None /\ known = false
  | reverted => required = true /\
      exists r, receipt = Some r /\ eo_confirmations options <= rv_confirmations r /\ rv_status r = Some 0
  | unknown => required = true \/ exists r, receipt = Some r /\ rv_status r <> Some 1
  end.

Definition is_failed (e : JournalEntry) : bool := bool_decide (je_status e ∈ [unknown; reverted]).

(** The result of reconciling an entry: the entry itself, still unresolved, or
    its stored update by a verdict; failed attempts only become obsolete. *)
Definition reconciliation (entry : JournalEntry) (s s' : state) (e' : JournalEntry) : Prop :=
  exists receipt required known,
    authoritative entry s receipt required /\
    (known = false \/ receipt = None) /\
    ((e' = entry /\ es_journal s' = es_journal s /\ is_unresolved (je_status entry) = true /\
      (is_failed entry = true -> required = true)) \/
     (exists st t o, e' = updateEntry entry st t o /\ stored s' (je_attemptId entry) = Some e' /\
        verdict entry receipt required known st /\
        (is_failed entry = true -> required = false /\ st = obsolete))).

Definition reconcile_post (entry : JournalEntry) (s : state) (r : result JournalEntry) (s' : state) : Prop :=
  touches (eq (je_attemptId entry)) s s' /\ quiet s s' /\
  forall e', r = Ok e' -> reconciliation entry s s' e'.

Section verdicts.
Context (entry : JournalEntry) (receipt : option ReceiptView) (required known : bool) (s s1 : state).
Context (Hj : jinv s) (Hw : world_step s s1).
Context (Ha : authoritative entry s receipt required) (Hk : known = false \/ receipt = None).

Lemma wp_keep :
  is_unresolved (je_status entry) = true -> (is_failed entry = true -> required = true) ->
  wp (mret entry) (reconcile_post entry s) s1.
Proof.
  intros Hu Hf. apply wp_ret. split_and!.
  - by apply world_step_touches.
  - by apply world_step_quiet.
  - intros e' [= <-]. exists receipt, required, known. split_and!; [done|done|].
    left. split_and!; [done|apply Hw|done|done].
Qed.

Lemma wp_verdict st o :
  verdict entry receipt required known st ->
  (is_failed entry = true -> required = false /\ st = obsolete) ->
  wp (record entry st o) (reconcile_post entry s) s1.
Proof.
  intros Hv Hf. apply wp_record; [by eapply jinv_world|].
  intros r s' Ht Hq He. split_and!.
  - eapply touches_trans; [by apply world_step_touches|done].
  - etrans; [by apply world_step_quiet|done].
  - intros e' ->. destruct (He e' eq_refl) as [(t & ->) Hst].
    exists receipt, required, known. split_and!; [done|done|]. right. eauto 8.
Qed.

Lemma wp_verdict_log st o level msg :
  verdict entry receipt required known st ->
  (is_failed entry = true -> required = false /\ st = obsolete) ->
  wp (e' ← record entry st o; log level msg ;; mret e') (reconcile_post entry s) s1.
Proof.
  intros Hv Hf. apply wp_bind. eapply wp_mono; [by apply wp_verdict|].
  intros [e'|e] s2 (Ht & Hq & He); [|done].
  apply wp_bind, wp_log. intros s3 Ej Hq3. apply wp_ret. split_and!.
  - eapply touches_trans; [done|]. apply touches_same; [by apply Ht|done].
  - by etrans.
  - intros e2 [= <-]. destruct (He e' eq_refl) as (r & q & k & H1 & H2 & H3).
    exists r, q, k. split_and!; [done|done|].
    destruct H3 as [(-> & E & Hu)|(st' & t & o' & -> & Hs & Hv' & Hf')].
    + left. by rewrite Ej.
    + right. exists st', t, o'. unfold stored. by rewrite Ej.
Qed.
End verdicts.

Lemma wp_reconcileReceipt entry r required s s1 :
  jinv s -> world_step s s1 -> authoritative entry s (Some r) required ->
  eo_confirmations options <= rv_confirmations r -> is_failed entry = false ->
  wp (reconcileReceipt entry r required) (reconcile_post entry s) s1.
Proof.
  intros Hj Hw Ha Hc Hf. unfold reconcileReceipt.
  assert (Hk : false = false \/ Some r = None) by auto.
  destruct (bool_decide (rv_status r = Some 1) && negb required) eqn:E1;
    [|destruct (bool_decide (rv_status r = Some 0) && negb required) eqn:E0];
    [..|destruct (bool_decide (rv_status r = Some 0)) eqn:E2];
    bool_to_prop.
  all: apply (wp_verdict_log entry (Some r) required false s s1); try done; simpl; try (by intros; congruence).
  all: try by eauto.
  all: destruct required; [by eauto 6|]; destruct E0, E1; bool_to_prop; try done; eauto.
Qed.

Lemma unresolved_list s : s ∈ unresolvedStatuses -> is_unresolved s = true.
Proof. apply bool_decide_eq_true_2. Qed.

Lemma wp_reconcile_throw {entry s s1 e} :
  jinv s -> world_step s s1 -> reconcile_post entry s (Throw e) s1.
Proof. intros Hj Hw. split_and!; [by apply world_step_touches|by apply world_step_quiet|done]. Qed.

(** A read of the chain, whose failure is the operation's. *)
Lemma wp_read {A} (m : method W A) (f : A -> method state JournalEntry) entry s s1 :
  jinv s -> world_step s s1 ->
  (forall a w, m (es_world s1) = (Ok a, w) -> world_step s (with_world w s1) ->
     wp (f a) (reconcile_post entry s) (with_world w s1)) ->
  wp (gateway m ≫= f) (reconcile_post entry s) s1.
Proof.
  intros Hj Hw H. apply wp_bind, wp_gateway. intros [a|e] w E; [by apply H|].
  by apply wp_reconcile_throw.
Qed.

Lemma wp_read_now (f : Z -> method state JournalEntry) entry s s1 :
  jinv s -> world_step s s1 ->
  (forall t w, world_step s (with_world w s1) -> wp (f t) (reconcile_post entry s) (with_world w s1)) ->
  wp (now ≫= f) (reconcile_post entry s) s1.
Proof. intros Hj Hw H. apply wp_bind, wp_now. intros t w _. by apply H. Qed.

Lemma wp_lifted {A} (r : result A) (f : A -> method state JournalEntry) entry s s1 :
  jinv s -> world_step s s1 ->
  (forall a, r = Ok a -> wp (f a) (reconcile_post entry s) s1) ->
  wp (lift r ≫= f) (reconcile_post entry s) s1.
Proof.
  intros Hj Hw H. apply wp_bind, wp_lift. destruct r; [by apply H|]. by apply wp_reconcile_throw.
Qed.

Lemma wp_reconcileMissing entry required s s1 :
  jinv s -> world_step s s1 -> authoritative entry s None required -> is_failed entry = false ->
  wp (reconcileMissing entry required) (reconcile_post entry s) s1.
Proof.
  intros Hj Hw Ha Hf. unfold reconcileMissing.
  apply wp_read; [done|done|]. intros [tx|] w1 _ Hw1.
  { eapply (wp_verdict entry None required true); try done; [by right|]. by rewrite Hf. }
  apply wp_read_now; [done|done|]. intros t w2 Hw2.
  assert (Hv : forall st o level msg, verdict entry None required false st ->
    wp (e' ← record entry st o; log level msg ;; mret e') (reconcile_post entry s) (with_world w2 (with_world w1 s1))).
  { intros. apply (wp_verdict_log entry None required false); try done; [by left|]. by rewrite Hf. }
  destruct (bool_decide (je_status entry ∈ [prepared; submitted]) && _) eqn:Ep;
    [|destruct required; [simpl; destruct (bool_decide (je_status entry = confirmed)) eqn:Ec|]];
    simpl; bool_to_prop.
  - apply (wp_keep entry None required false); [done|done|done|by left| |by rewrite Hf].
    apply unresolved_list. set_solver.
  - by apply Hv.
  - apply wp_bind, wp_promise_all2, wp_gateway. intros r1 w3 _. apply wp_gateway. intros r2 w4 _.
    destruct r1 as [n1|], r2 as [n2|]; simpl; try by apply wp_reconcile_throw.
    apply (wp_verdict_log entry None true false); simpl; try done; [by left|by left|by rewrite Hf].
  - by apply Hv.
Qed.

Lemma wp_reconcileEntry entry s :
  jinv s -> wp (reconcileEntry entry) (reconcile_post entry s) s.
Proof.
  intros Hj. unfold reconcileEntry.
  apply wp_read; [done|done|]. intros receipt w1 E1 Hw1.
  apply wp_lifted; [done|done|]. intros roundId ER.
  apply wp_read; [done|done|]. intros snapshot w2 E2 Hw2.
  apply wp_lifted; [done|done|]. intros action EA.
  set (required := is_required snapshot action).
  assert (Ha : authoritative entry s receipt required) by (by repeat eexists).
  destruct (bool_decide (je_status entry ∈ [unknown; reverted])) eqn:Ef; simpl.
  - destruct required eqn:Er; simpl.
    + apply (wp_keep entry receipt true false); [done|done|done|by left| |done].
      apply unresolved_list. apply bool_decide_eq_true in Ef. set_solver.
    + apply (wp_verdict entry receipt false false); try done; by left.
  - destruct receipt as [r|].
    + destruct (rv_confirmations r <? eo_confirmations options) eqn:Ec; bool_to_prop.
      * apply (wp_verdict entry (Some r) required false); try done; [by left|by exists r|].
        unfold is_failed. by rewrite bool_decide_eq_false_2.
      * apply wp_reconcileReceipt; try done. unfold is_failed. by rewrite bool_decide_eq_false_2.
    + apply wp_reconcileMissing; done.
Qed.

(** ** The loops *)
Lemma reconciliation_resolves entry s s' e' :
  reconciliation entry s s' e' -> is_unresolved (je_status e') = false -> ~ unresolved_at s' (je_attemptId entry).
Proof.
  intros (rc & rq & k & _ & _ & [(-> & _ & Hu & _)|(st & t & o & -> & Hs & _)]) Hr; [congruence|].
  intros (e & He & Hue). congruence.
Qed.

Lemma reconciliation_id entry s s' e' : reconciliation entry s s' e' -> je_attemptId e' = je_attemptId entry.
Proof. intros (rc & rq & k & _ & _ & [(-> & _)|(st & t & o & -> & _)]); done. Qed.

Lemma touches_unresolved_list ids s s' id :
  touches (fun i => i ∈ (ids : list string)) s s' -> (forall i, i ∈ ids -> unresolved_at s i) ->
  unresolved_at s' id -> unresolved_at s id.
Proof.
  intros Ht Hids Hu. destruct (decide (id ∈ ids)) as [?|Hn]; [auto|].
  by eapply touches_unresolved.
Qed.

Lemma wp_reconcileEntries entries s :
  jinv s -> NoDup (je_attemptId <$> entries) ->
  wp (reconcileEntries entries) (fun r s' =>
    touches (fun id => id ∈ (je_attemptId <$> entries)) s s' /\ quiet s s' /\
    (r = Ok None -> forall id, id ∈ (je_attemptId <$> entries) -> ~ unresolved_at s' id)) s.
Proof.
  revert s; induction entries as [|e es IH]; intros s Hj Hnd; simpl.
  { apply wp_ret. split_and!; [by apply touches_refl|done|]. intros _ id Hid. by apply not_elem_of_nil in Hid. }
  apply NoDup_cons in Hnd as [Hn Hnd].
  apply wp_bind. eapply wp_mono; [by apply wp_reconcileEntry|].
  intros r s1 (Ht & Hq & Hr).
  assert (Ht' : touches (fun id => id ∈ je_attemptId e :: (je_attemptId <$> es)) s s1).
  { eapply touches_weaken; [|done]. intros id ->. by left. }
  destruct r as [e'|err]; [|by split_and!].
  destruct (is_unresolved (je_status e')) eqn:Eu; [by apply wp_ret; split_and!|].
  eapply wp_mono; [apply IH; [apply Ht|done]|]. intros r2 s2 (Ht2 & Hq2 & Hr2). split_and!.
  - eapply touches_trans; [done|]. eapply touches_weaken; [|done]. intros id Hid. by right.
  - by etrans.
  - intros -> id [->|Hid]%elem_of_cons; [|by apply Hr2].
    intros Hu. eapply touches_unresolved in Hu; [|done|done].
    by eapply reconciliation_resolves in Hu; [|by apply Hr|].
Qed.

Lemma unresolved_ids s id :
  jinv s ->
  id ∈ (je_attemptId <$> List.filter (fun e => is_unresolved (je_status e)) (journal_view (es_journal s))) <->
  unresolved_at s id.
Proof.
  intros Hj. rewrite list_elem_of_fmap. split.
  - intros (e & -> & He). rewrite list_elem_of_In, filter_In, <- list_elem_of_In in He.
    destruct He as [Hin Hu]. exists e. split; [|done].
    apply find_unique; [done|by apply bool_decide_eq_true|].
    intros y Hy Ey%bool_decide_eq_true. by eapply NoDup_fmap_inj_on; [by apply view_NoDup| | |].
  - intros (e & [Hin <-]%find_attempt_id & Hu). exists e. split; [done|].
    by rewrite list_elem_of_In, filter_In, <- list_elem_of_In.
Qed.

Definition all_resolved (s : state) : Prop := forall id, ~ unresolved_at s id.

Lemma wp_reconcileOutstanding s :
  jinv s ->
  wp reconcileOutstanding (fun r s' =>
    jinv s' /\ rtc store_step (es_journal s) (es_journal s') /\
    (forall id, unresolved_at s' id -> unresolved_at s id) /\
    quiet s s' /\ (r = Ok None -> all_resolved s')) s.
Proof.
  intros Hj. unfold reconcileOutstanding. apply wp_bind, wp_list; [done|].
  set (es := List.filter _ _).
  assert (Hids : forall id, id ∈ (je_attemptId <$> es) <-> unresolved_at s id)
    by (intros; by apply unresolved_ids).
  eapply wp_mono; [apply wp_reconcileEntries; [done|]|].
  - subst es. eapply sublist_NoDup; [by apply (view_NoDup (es_journal s))|].
    apply fmap_sublist. clear. induction (journal_view (es_journal s)) as [|x l IH]; simpl; [constructor|].
    destruct (is_unresolved (je_status x)); by constructor.
  - intros r s' (Ht & Hq & Hr).
    assert (Hu : forall id, unresolved_at s' id -> unresolved_at s id).
    { intros id Hid. eapply touches_unresolved_list; [done| |done]. intros i Hi. by apply Hids. }
    split_and!; [apply Ht|apply Ht|done|done|].
    intros -> id Hid. eapply Hr; [done| |done]. apply Hids, Hu, Hid.
Qed.

Lemma wp_waitLoop fuel deadline entry s :
  jinv s ->
  wp (waitLoop fuel deadline entry) (fun r s' => touches (eq (je_attemptId entry)) s s' /\ quiet s s') s.
Proof.
  revert entry s; induction fuel as [|fuel IH]; intros entry s Hj; simpl.
  { apply wp_ret. split; [by apply touches_refl|done]. }
  apply wp_bind. eapply wp_mono; [by apply wp_reconcileEntry|].
  intros [e'|err] s1 (Ht & Hq & Hr); [|done].
  destruct (negb _); [by apply wp_ret|].
  apply wp_bind, wp_now. intros t w _.
  destruct (deadline <=? t); [apply wp_ret; split; [exact Ht|exact Hq]|].
  apply wp_bind. unfold sleep. apply wp_gateway. intros r w' [= <- <-].
  eapply wp_mono; [apply IH, Ht|]. intros r s2 [Ht2 Hq2].
  rewrite (reconciliation_id _ _ _ _ (Hr e' eq_refl)) in Ht2. split.
  - eapply touches_trans; [exact Ht|exact Ht2].
  - etrans; [exact Hq|exact Hq2].
Qed.

(** ** Broadcasting *)

(** The trace of a pass that wrote [e] ahead and then broadcast [tx], once. *)
Definition wrote_ahead (e : JournalEntry) (tx : SignedLifecycleTransaction) (s s' : state) : Prop :=
  exists pre post, es_trace s' = es_trace s ++ pre ++ EvPut e :: EvBroadcast tx :: post /\
    broadcasts pre = [] /\ broadcasts post = [].

Lemma wrote_ahead_before e tx s s1 s' : quiet s s1 -> wrote_ahead e tx s1 s' -> wrote_ahead e tx s s'.
Proof.
  intros (n & E1 & H1) (pre & post & E2 & Hpre & Hpost). exists (n ++ pre), post.
  rewrite broadcasts_app, H1, Hpre, E2, E1, <- !app_assoc. done.
Qed.

Lemma wrote_ahead_after e tx s s1 s' : wrote_ahead e tx s s1 -> quiet s1 s' -> wrote_ahead e tx s s'.
Proof.
  intros (pre & post & E2 & Hpre & Hpost) (n & E1 & H1). exists pre, (post ++ n).
  rewrite broadcasts_app, H1, Hpost, E1, E2, <- !app_assoc. done.
Qed.

(** [tx] was handed to the provider, once, first thing after [s]. *)
Definition sent (tx : SignedLifecycleTransaction) (s s' : state) : Prop :=
  exists post, es_trace s' = es_trace s ++ EvBroadcast tx :: post /\ broadcasts post = [].

Lemma sent_quiet tx s s1 s' : sent tx s s1 -> quiet s1 s' -> sent tx s s'.
Proof.
  intros (post & E & Hp) (n & E2 & Hn). exists (post ++ n).
  rewrite broadcasts_app, Hp, Hn, E2, E, <- !app_assoc. done.
Qed.

(** What holds from the hand-over on, with the mutable entry. *)
Definition sent_post (tx : SignedLifecycleTransaction) (id : string) (s : state)
    (sx : state * JournalEntry) : Prop :=
  touches (eq id) s sx.1 /\ sent tx s sx.1 /\ je_attemptId sx.2 = id.

Lemma wp_settle_local {A} tx id s s1 e st o level msg (a : A) (Q : result A -> state * JournalEntry -> Prop) :
  sent_post tx id s (s1, e) ->
  (forall sx, sent_post tx id s sx -> Q (Ok a) sx) ->
  (forall err sx, sent_post tx id s sx -> Q (Throw err) sx) ->
  wp (t ← on_state now;
      assign (updateEntry e st t o) ;;
      entry ← local_var;
      on_state (journal_write entry) ;;
      on_state (log level msg) ;;
      mret a) Q (s1, e).
Proof.
  intros (Ht & Hs & Hid) HOk HThrow. simpl in *.
  apply wp_bind, wp_on_state, wp_now. intros t w _.
  apply wp_bind. unfold wp at 1; simpl. apply wp_bind. unfold wp at 1; simpl.
  apply wp_bind, wp_on_state, wp_journal_write; simpl; rewrite ?Hid; [by apply Ht|..].
  - intros s2 Ht2 _ Etr2 _ _. apply wp_bind, wp_on_state, wp_log. intros s3 Ej Hq.
    apply wp_ret, HOk. split_and!; simpl; [..|done].
    + eapply touches_trans; [exact Ht|]. eapply touches_trans; [exact Ht2|]. by apply touches_same; [apply Ht2|].
    + eapply sent_quiet; [|exact Hq]. eapply sent_quiet; [exact Hs|]. by eexists [_].
  - intros err s2 Ht2 Etr2. apply HThrow. split_and!; simpl; [..|done].
    + eapply touches_trans; [exact Ht|exact Ht2].
    + eapply sent_quiet; [exact Hs|]. exists []. simpl in *. by rewrite app_nil_r.
Qed.

(** After the write ahead: whatever the provider answers, the transaction was
    handed to it exactly once and only its attempt changes. *)
Lemma wp_broadcastEntry action tx entry s :
  jinv s ->
  wp (with_local entry (broadcastEntry action tx)) (fun r s' =>
    touches (eq (je_attemptId entry)) s s' /\ sent tx s s' /\
    forall o e', r = Ok (o, e') -> je_attemptId e' = je_attemptId entry) s.
Proof.
  intros Hj. apply wp_with_local. unfold broadcastEntry.
  set (id := je_attemptId entry).
  eapply (wp_mono _ (fun r sx => sent_post tx id s sx)).
  2:{ intros r [s' e'] (Ht & Hs & Hid). split_and!; [done|done|]. destruct r; by intros o e2 [= _ <-]. }
  assert (Hcatch : forall error sx, sent_post tx id s sx ->
    wp (entry ← local_var;
        t ← on_state now;
        assign (updateEntry entry unknown t (error_option (safeErrorCode error))) ;;
        entry ← local_var;
        on_state (journal_write entry) ;;
        on_state (log Warn_level "broadcast outcome unknown; automatic retry disabled") ;;
        mret (Some (Blocked (la_key action) unknown))) (fun r sx => sent_post tx id s sx) sx).
  { intros error [s1 e1] H. apply wp_bind. unfold wp at 1; simpl. by eapply wp_settle_local. }
  apply wp_try_catch, wp_bind, wp_on_state. unfold broadcast. apply wp_bind. unfold wp at 1; simpl.
  assert (H0 : forall w, sent_post tx id s (with_world w {| es_world := es_world s; es_journal := es_journal s;
                es_trace := es_trace s ++ [EvBroadcast tx] |}, entry)).
  { intros w. split_and!; [by apply touches_same| |done]. by exists []. }
  apply wp_gateway. intros [hash|err] w _; [|by apply Hcatch].
  apply wp_bind, wp_throw_if; intros _; [by apply Hcatch|].
  apply wp_bind. unfold wp at 1; simpl. by eapply wp_settle_local.
Qed.

(** The balance check that let [tx] through: it was read at some point of the
    pass, lies in the window and leaves the minimum after the maximum cost. *)
Definition affordable (tx : SignedLifecycleTransaction) : Prop :=
  exists w balance w', gw_getKeeperBalance w = (Ok balance, w') /\
    eo_minimumBalanceWei options <= balance <= eo_maximumBalanceWei options /\
    eo_minimumBalanceWei options + st_maximumCostWei tx <= balance.

Definition written_ahead (action : LifecycleAction) (tx : SignedLifecycleTransaction) (s s' : state) : Prop :=
  exists t replayOf,
    wrote_ahead (journalEntryForPrepared action (st_hash tx) (st_nonce tx) (st_calldataHash tx) t replayOf) tx s s'.

Lemma wp_submit fuel action previous tx s :
  jinv s ->
  wp (submit fuel action previous tx) (fun _ s' =>
    touches (eq (attemptIdOf (la_key action) (st_hash tx))) s s' /\
    (quiet s s' \/ (affordable tx /\ written_ahead action tx s s'))) s.
Proof.
  intros Hj. unfold submit.
  assert (Hq : forall s1, world_step s s1 -> touches (eq (attemptIdOf (la_key action) (st_hash tx))) s s1 /\
    (quiet s s1 \/ (affordable tx /\ written_ahead action tx s s1))).
  { intros s1 Hw. split; [by apply world_step_touches|left; by apply world_step_quiet]. }
  apply wp_bind, wp_gateway. intros [balance|e] w1 Eb; [|by apply Hq].
  apply wp_bind, wp_lift. destruct (assertKeeperBalanceWithinLimits _ _ _) as [[]|e] eqn:El; [|by apply Hq].
  apply assertKeeperBalanceWithinLimits_Ok in El.
  apply wp_bind, wp_throw_if; intros Ec; [by apply Hq|]. bool_to_prop.
  assert (Hpay : affordable tx) by (exists (es_world s), balance, w1; split; [done|lia]).
  apply wp_bind, wp_now. intros t w2 _.
  set (entry := journalEntryForPrepared _ _ _ _ _ _).
  apply wp_bind, wp_journal_write; [done| |].
  2:{ intros e s2 Ht Etr. split; [exact Ht|left; exists []; simpl in Etr; by rewrite app_nil_r]. }
  intros s2 Ht2 _ Etr2 _ _. apply wp_bind. eapply wp_mono; [apply wp_broadcastEntry, Ht2|].
  intros r s3 (Ht3 & (post & E3 & Hpost) & Hr).
  assert (H3 : touches (eq (attemptIdOf (la_key action) (st_hash tx))) s s3 /\ written_ahead action tx s s3).
  { split; [eapply touches_trans; [exact Ht2|exact Ht3]|].
    exists t, (je_attemptId <$> previous), [], post. rewrite E3, Etr2. simpl. by rewrite <- app_assoc. }
  destruct H3 as [H3 H3']. destruct r as [[[blocked|] e']|err]; [by apply wp_ret; eauto| |by eauto].
  apply wp_bind. unfold waitAndReconcile. apply wp_bind, wp_now. intros t4 w4 _.
  eapply wp_mono; [apply wp_waitLoop, H3|].
  intros r s4 [Ht4 Hq4]. rewrite (Hr None e' eq_refl) in Ht4.
  assert (H4 : touches (eq (attemptIdOf (la_key action) (st_hash tx))) s s4 /\
               (quiet s s4 \/ (affordable tx /\ written_ahead action tx s s4))).
  { split; [eapply touches_trans; [exact H3|exact Ht4]|right; split; [done|]].
    destruct H3' as (t' & rp & H'). exists t', rp. eapply wrote_ahead_after; [exact H'|exact Hq4]. }
  destruct r as [fe|err]; [by apply wp_ret|done].
Qed.

(** ** The pass *)
Lemma wp_prepareCalldata action s :
  wp (prepareCalldata action) (fun r s' =>
    es_journal s' = es_journal s /\ quiet s s' /\
    forall data, r = Ok (inr data) -> exists w w1 w2,
      gw_encodeAction action w = (Ok data, w1) /\ gw_simulate action data w1 = (Ok tt, w2)) s.
Proof.
  unfold prepareCalldata. apply wp_try_catch.
  assert (Hcatch : forall error s1, world_step s s1 ->
    wp (snapshot ← gateway (gw_readSnapshot (Some (targetedHint (vc_address (la_vault action)) (la_kind action)
                                                    (la_account action) (la_roundId action))));
       if negb (isActionRequired snapshot action) then
         log Info_level "action became unnecessary before submission" ;;
         mret (inl Idle)
       else
         log Warn_level "lifecycle simulation or public-proof preparation failed" ;;
         throw_in error)
      (fun r s' => es_journal s' = es_journal s /\ quiet s s' /\
        forall data, r = Ok (inr data : KeeperRunResult + string) -> exists w w1 w2,
          gw_encodeAction action w = (Ok data, w1) /\ gw_simulate action data w1 = (Ok tt, w2)) s1).
  { intros error s1 [Ej Et]. apply wp_bind, wp_gateway. intros [snapshot|e] w _.
    2:{ split_and!; [done|by apply world_step_quiet|done]. }
    assert (Hl : forall s2, es_journal s2 = es_journal s1 -> quiet (with_world w s1) s2 ->
      es_journal s2 = es_journal s /\ quiet s s2).
    { intros s2 E Hq. split; [congruence|]. etrans; [|exact Hq]. by apply world_step_quiet. }
    destruct (negb _); apply wp_bind, wp_log; intros s2 E Hq; destruct (Hl s2 E Hq);
      by (apply wp_ret || unfold wp; simpl). }
  apply wp_bind, wp_gateway. intros [data|e] w1 E1; [|by apply Hcatch].
  apply wp_bind, wp_gateway. intros [[]|e] w2 E2; [|by apply Hcatch].
  apply wp_ret. split_and!; [done|by apply world_step_quiet|]. intros d [= <-]. eauto.
Qed.

(** Calldata that simulated cleanly, and the transaction signed over it. *)
Definition signed_after_simulation (action : LifecycleAction) (tx : SignedLifecycleTransaction) : Prop :=
  exists data w w1 w2 w3 w4,
    gw_encodeAction action w = (Ok data, w1) /\ gw_simulate action data w1 = (Ok tt, w2) /\
    gw_sign action data w3 = (Ok tx, w4).

Definition submission (action : LifecycleAction) (s s' : state) : Prop :=
  exists tx, signed_after_simulation action tx /\ affordable tx /\ written_ahead action tx s s' /\
    touches (eq (attemptIdOf (la_key action) (st_hash tx))) s s'.

Lemma submission_before action s s1 s' :
  quiet s s1 -> touches (fun _ => False) s s1 -> submission action s1 s' -> submission action s s'.
Proof.
  intros Hq Ht (tx & H1 & H2 & (t & rp & Hw) & Ht'). exists tx. split_and!; [done|done| |].
  - exists t, rp. by eapply wrote_ahead_before.
  - eapply touches_trans; [|done]. by eapply touches_weaken; [|done].
Qed.

(** The result of the second half of a pass. *)
Definition attempt_post (action : LifecycleAction) (s s' : state) : Prop :=
  (quiet s s' /\ exists id, touches (eq id) s s') \/ submission action s s'.

Lemma attempt_post_same action s s' :
  jinv s -> es_journal s' = es_journal s -> quiet s s' -> attempt_post action s s'.
Proof. intros Hj E Hq. left. split; [done|]. exists "". by apply touches_same. Qed.

Lemma wp_signAndSubmit fuel action previous s :
  jinv s -> wp (signAndSubmit fuel action previous) (fun _ => attempt_post action s) s.
Proof.
  intros Hj. unfold signAndSubmit. apply wp_bind. eapply wp_mono; [apply wp_prepareCalldata|].
  intros [[r|data]|e] s2 (E2 & Hq2 & Hd); [by apply attempt_post_same| |by apply attempt_post_same].
  destruct (Hd data eq_refl) as (w & w1 & w2 & He & Hs).
  apply wp_bind, wp_gateway. intros [tx|e] w3 E3; [|by apply attempt_post_same].
  assert (Hsubmit : forall s3, es_journal s3 = es_journal s2 -> quiet (with_world w3 s2) s3 ->
    wp (submit fuel action previous tx) (fun _ => attempt_post action s) s3).
  { intros s3 Ej3 Hq3. assert (Hq03 : quiet s s3) by (etrans; [exact Hq2|exact Hq3]).
    assert (Et : es_journal s3 = es_journal s) by congruence.
    eapply wp_mono; [apply wp_submit; unfold jinv; by rewrite Et|].
    intros r s4 [Ht [Hq4|[Hp Hw]]].
    - left. split; [by etrans|]. eexists. eapply touches_trans; [|exact Ht]. by apply touches_same.
    - right. eapply submission_before; [exact Hq03|by apply touches_same|]. exists tx. split_and!; try done.
      by repeat eexists. }
  apply wp_bind. destruct (st_gasPolicy tx).
  - apply wp_log. intros s3 Ej3 Hq3. by apply Hsubmit.
  - apply wp_ret. by apply Hsubmit.
Qed.

Lemma wp_attempt fuel action s :
  jinv s -> wp (attempt fuel action) (fun _ => attempt_post action s) s.
Proof.
  intros Hj. unfold attempt. apply wp_bind, wp_log. intros s1 Ej Hq.
  assert (Hj1 : jinv s1) by (unfold jinv; by rewrite Ej).
  assert (Hgo : forall previous, wp (signAndSubmit fuel action previous) (fun _ => attempt_post action s) s1).
  { intros previous. eapply wp_mono; [by apply wp_signAndSubmit|].
    intros r s2 [[Hq2 [id Ht]]|Hsub].
    - left. split; [by etrans|]. exists id. eapply touches_trans; [|done]. by apply touches_same.
    - right. eapply submission_before; [done|by apply touches_same|done]. }
  apply wp_bind, wp_list; [done|].
  set (previous := last _). apply wp_bind.
  destruct previous as [p|]; [destruct (is_unresolved (je_status p))|]; apply wp_ret.
  - apply wp_ret. by apply attempt_post_same.
  - exact (Hgo _).
  - exact (Hgo _).
Qed.

(** What led to a planned action. *)
Definition planned (action : LifecycleAction) : Prop :=
  exists w snapshot w', gw_readSnapshot None w = (Ok snapshot, w') /\
    ps_chainId snapshot = SEPOLIA_CHAIN_ID /\ planNextAction snapshot = Some action.

Definition on_Sepolia (s : state) : Prop := exists w, gw_getChainId (es_world s) = (Ok SEPOLIA_CHAIN_ID, w).

(** A whole pass: either only unresolved attempts were updated and nothing was
    broadcast, or all attempts were resolved first and one more is written. *)
Definition run_post (s s' : state) : Prop :=
  jinv s' /\ rtc store_step (es_journal s) (es_journal s') /\
  ((quiet s s' /\ forall id, unresolved_at s' id -> unresolved_at s id) \/
   exists action s1, on_Sepolia s /\ planned action /\ quiet s s1 /\ all_resolved s1 /\ attempt_post action s1 s').

Lemma attempt_post_run action s s' :
  attempt_post action s s' -> jinv s' /\ rtc store_step (es_journal s) (es_journal s') /\
    exists id, touches (eq id) s s'.
Proof.
  intros [[_ [id Ht]]|(tx & _ & _ & _ & Ht)]; (split_and!; [apply Ht|apply Ht|by eexists]).
Qed.

Lemma wp_preflight s :
  wp preflight (fun r s' => world_step s s' /\ (is_ok r = true -> on_Sepolia s)) s.
Proof.
  unfold preflight. apply wp_bind, wp_gateway. intros [c|e] w E; [|by split].
  apply wp_bind, wp_throw_if; intros Ec; [by split|]. bool_to_prop. subst c.
  assert (Hs : on_Sepolia s) by (by exists w).
  apply wp_bind, wp_gateway. intros [b|e] w2 _; [|by split].
  apply wp_bind, wp_lift. destruct (assertKeeperBalanceWithinLimits _ _ _); [|by split].
  by apply wp_ret.
Qed.

Lemma wp_runOnce fuel s : jinv s -> wp (runOnce fuel) (fun _ => run_post s) s.
Proof.
  intros Hj. unfold runOnce. apply wp_bind. eapply wp_mono; [apply wp_preflight|].
  intros r s1 [Hw1 HS].
  assert (Hj1 : jinv s1) by (by eapply jinv_world).
  assert (Hsame : forall s2, jinv s2 -> rtc store_step (es_journal s1) (es_journal s2) ->
    (forall id, unresolved_at s2 id -> unresolved_at s1 id) -> quiet s1 s2 -> run_post s s2).
  { destruct Hw1 as [E1 E1']. intros s2 H1 H2 H3 H4. split_and!; [done|by rewrite <- E1|].
    left. split; [etrans; [by apply world_step_quiet|done]|].
    intros id Hid. unfold unresolved_at, stored in *. rewrite <- E1. by apply H3. }
  destruct r as [b|e]; [|by apply Hsame].
  apply wp_bind. eapply wp_mono; [by apply wp_reconcileOutstanding|].
  intros r s2 (Hj2 & R2 & U2 & Q2 & Hres).
  destruct r as [[e|]|e]; [by apply wp_ret; apply Hsame| |by apply Hsame].
  apply wp_bind, wp_gateway. intros [snapshot|e] w3 E3; [|by apply Hsame].
  apply wp_bind, wp_throw_if; intros Ec; [by apply Hsame|]. bool_to_prop.
  destruct (planNextAction snapshot) as [action|] eqn:Ep.
  2:{ apply wp_bind, wp_log. intros s4 Ej4 Hq4. apply wp_ret. apply Hsame.
      - unfold jinv. by rewrite Ej4.
      - by rewrite Ej4.
      - intros id. unfold unresolved_at, stored. rewrite Ej4. apply U2.
      - etrans; [exact Q2|exact Hq4]. }
  eapply wp_mono; [by apply wp_attempt|]. intros r s4 Hat.
  destruct (attempt_post_run _ _ _ Hat) as (J4 & R4 & _). destruct Hw1 as [Ew1 Ew1'].
  split_and!; [done| |].
  - etrans; [rewrite <- Ew1; exact R2|exact R4].
  - right. exists action, (with_world w3 s2). split_and!; [by apply HS| | |by apply Hres|done].
    + exists (es_world s2), snapshot, w3. done.
    + etrans; [by apply world_step_quiet|exact Q2].
Qed.

(** * What a pass guarantees *)

(** C1: Write-ahead.  A pass of the engine, over any gateway, clock and lawful
    journal, either hands nothing to the provider or hands it exactly one
    transaction, on Sepolia, for the action the planner derived from a Sepolia
    snapshot, after its calldata simulated, with a balance that keeps the
    configured minimum after the maximum cost - and the accepted journal write
    just before the broadcast is the prepared entry of that transaction. *)
Theorem runOnce_write_ahead fuel s r s' :
  jinv s -> runOnce fuel s = (r, s') ->
  quiet s s' \/
  exists action tx, on_Sepolia s /\ planned action /\ signed_after_simulation action tx /\
    affordable tx /\ written_ahead action tx s s'.
Proof.
  intros Hj E. pose proof (wp_run _ _ _ _ _ (wp_runOnce fuel s Hj) E) as (_ & _ & [[Hq _]|H]); [by left|].
  destruct H as (action & s1 & HS & Hp & Hq & _ & [[Hq' _]|(tx & Hsim & Hpay & (t & rp & Hw) & _)]).
  - left. by etrans.
  - right. exists action, tx. split_and!; try done. exists t, rp. by eapply wrote_ahead_before.
Qed.

(** At most one attempt of the journal is unresolved. *)
Definition single_flight (s : state) : Prop :=
  forall id1 id2, unresolved_at s id1 -> unresolved_at s id2 -> id1 = id2.

Lemma rtc_store_extends j j' id p :
  journal_inv j -> rtc store_step j j' -> find_attempt id (journal_view j) = Some p ->
  exists n, find_attempt id (journal_view j') = Some n /\ extends p n.
Proof.
  intros Hj Hrun. revert p Hj. induction Hrun as [j|j j2 j' Hs Hrun IH]; intros p Hj Hp.
  - by exists p.
  - destruct (store_step_extends _ _ _ _ Hj Hs Hp) as (q & Hq & Hext).
    destruct (IH q (store_step_inv _ _ Hj Hs) Hq) as (n & Hn & Hn'). exists n. split; [done|by etrans].
Qed.

(** C2: Single flight.  A pass, however it ends (result or exception), keeps at
    most one unresolved attempt in the journal, loses no attempt, and only
    extends the history of the attempts it finds; and when it does broadcast,
    every attempt but the broadcast one is resolved afterwards - so an attempt
    whose outcome is unknown or that reverted while the chain still requires
    the action is never followed by another transaction. *)
Theorem runOnce_single_flight fuel s r s' :
  jinv s -> single_flight s -> runOnce fuel s = (r, s') ->
  jinv s' /\ single_flight s' /\
  (forall id p, stored s id = Some p -> exists n, stored s' id = Some n /\ extends p n) /\
  (quiet s s' \/ exists id, forall id', unresolved_at s' id' -> id' = id).
Proof.
  intros Hj Hsf E. pose proof (wp_run _ _ _ _ _ (wp_runOnce fuel s Hj) E) as (Hj' & R & H).
  assert (Hone : (quiet s s' /\ forall id, unresolved_at s' id -> unresolved_at s id) \/
                 exists id, forall id', unresolved_at s' id' -> id' = id).
  { destruct H as [Hq|(action & s1 & _ & _ & _ & Hres & Hat)]; [by left|right].
    destruct (attempt_post_run _ _ _ Hat) as (_ & _ & id & Ht). exists id. intros id' Hu.
    destruct (decide (id = id')) as [|Hne]; [done|]. destruct (Hres id').
    by eapply touches_unresolved. }
  split_and!; [done| | |].
  - intros id1 id2 H1 H2. destruct Hone as [[_ Hu]|[id Hid]]; [auto|].
    rewrite (Hid id1 H1). symmetry. by apply Hid.
  - intros id p Hp. exact (rtc_store_extends _ _ id p Hj R Hp).
  - destruct Hone as [[Hq _]|Hid]; [by left|by right].
Qed.

(** ** What a verdict rests on *)
(** The answers of the chain: the receipt, and whether the authoritative snapshot still
    requires the action; [w] is the world after them. *)
Definition chain_reads (entry : JournalEntry) (s : state) (receipt : option ReceiptView) (required : bool) (w : W) : Prop :=
  exists w1 roundId snapshot action,
    gw_getReceipt (je_txHash entry) (es_world s) = (Ok receipt, w1) /\
    BigInt_of_digits (je_roundId entry) = Ok roundId /\
    gw_readSnapshot (Some (targetedHint (je_vault entry) (je_action entry) (je_account entry) roundId)) w1
      = (Ok snapshot, w) /\
    actionFromEntry snapshot entry = Ok action /\
    required = is_required snapshot action.

(** There is no receipt and no such transaction at [w]; [t] is the time after that answer. *)
Definition not_found (entry : JournalEntry) (w : W) (t : Z) (w' : W) : Prop :=
  exists w1, gw_getTransaction (je_txHash entry) w = (Ok None, w1) /\ clock_now w1 = (t, w').
Definition is_recent (entry : JournalEntry) (t : Z) : Prop :=
  (je_status entry = prepared \/ je_status entry = submitted) /\ t - je_submittedAt entry < eo_receiptWaitMs options.

(** The verdicts, each with what it rests on; [None] leaves the entry as it is. *)
Inductive judgement (entry : JournalEntry) (receipt : option ReceiptView) (required : bool) (w : W)
    : option (JournalStatus * UpdateOptions) -> Prop :=
| judge_failed : is_failed entry = true -> required = true -> judgement entry receipt required w None
| judge_failed_advanced : is_failed entry = true -> required = false ->
    judgement entry receipt required w (Some (obsolete, error_option "STATE_ADVANCED_EXTERNALLY"))
| judge_waiting r : is_failed entry = false -> receipt = Some r -> rv_confirmations r < eo_confirmations options ->
    judgement entry receipt required w (Some (confirmed, receipt_options r (Some "WAITING_CONFIRMATIONS")))
| judge_reconciled r : is_failed entry = false -> receipt = Some r -> eo_confirmations options <= rv_confirmations r ->
    rv_status r = Some 1 -> required = false -> judgement entry receipt required w (Some (reconciled, receipt_options r None))
| judge_reverted_done r : is_failed entry = false -> receipt = Some r -> eo_confirmations options <= rv_confirmations r ->
    rv_status r = Some 0 -> required = false -> judgement entry receipt required w (Some (obsolete, receipt_options r None))
| judge_reverted r : is_failed entry = false -> receipt = Some r -> eo_confirmations options <= rv_confirmations r ->
    rv_status r = Some 0 -> required = true ->
    judgement entry receipt required w (Some (reverted, receipt_options r (Some "TRANSACTION_REVERTED")))
| judge_unchanged r : is_failed entry = false -> receipt = Some r -> eo_confirmations options <= rv_confirmations r ->
    rv_status r <> Some 0 -> (rv_status r = Some 1 -> required = true) ->
    judgement entry receipt required w (Some (unknown, receipt_options r (Some "CONFIRMED_STATE_UNCHANGED")))
| judge_pending transaction w' : is_failed entry = false -> receipt = None ->
    gw_getTransaction (je_txHash entry) w = (Ok (Some transaction), w') ->
    judgement entry receipt required w (Some (submitted, no_options))
| judge_recent t w' : is_failed entry = false -> receipt = None -> not_found entry w t w' -> is_recent entry t ->
    judgement entry receipt required w None
| judge_advanced t w' : is_failed entry = false -> receipt = None -> not_found entry w t w' -> ~ is_recent entry t ->
    required = false -> judgement entry receipt required w (Some (obsolete, error_option "STATE_ADVANCED_EXTERNALLY"))
| judge_reorged t w' : is_failed entry = false -> receipt = None -> not_found entry w t w' -> ~ is_recent entry t ->
    required = true -> je_status entry = confirmed ->
    judgement entry receipt required w (Some (reorged, error_option "REORGED_TRANSACTION_DROPPED"))
| judge_lost t w1 latest w2 pending w3 : is_failed entry = false -> receipt = None -> not_found entry w t w1 -> ~ is_recent entry t ->
    required = true -> je_status entry <> confirmed ->
    gw_getTransactionCount "latest" w1 = (Ok latest, w2) -> gw_getTransactionCount "pending" w2 = (Ok pending, w3) ->
    judgement entry receipt required w (Some (unknown, error_option
      (if bool_decide (je_nonce entry < latest \/ je_nonce entry < pending) then "NONCE_CONSUMED_OUTCOME_UNKNOWN" else "TX_OUTCOME_UNKNOWN"))).

(** What became of an entry: nothing, or the stored update that was judged. *)
Definition carried_out (entry : JournalEntry) (s : state) (e' : JournalEntry) (s' : state)
    (judged : option (JournalStatus * UpdateOptions)) : Prop :=
  match judged with
  | None => e' = entry /\ es_journal s' = es_journal s
  | Some (st, o) => (exists t, e' = updateEntry entry st t o) /\ stored s' (je_attemptId entry) = Some e'
  end.

Lemma gateway_Ok {A} (m : method W A) s a s' :
  gateway m s = (Ok a, s') -> exists w, m (es_world s) = (Ok a, w) /\ s' = with_world w s.
Proof. unfold gateway. destruct (m (es_world s)) as [r w] eqn:E. intros [= -> <-]. by exists w. Qed.
Lemma now_Ok s t s' : now s = (Ok t, s') -> exists w, clock_now (es_world s) = (t, w) /\ s' = with_world w s.
Proof. unfold now, gateway. destruct (clock_now (es_world s)) as [t' w]. intros [= -> <-]. by exists w. Qed.
Lemma lift_Ok {A} (r : result A) (s : state) a s' : lift r s = (Ok a, s') -> r = Ok a /\ s' = s.
Proof. by intros [= -> <-]. Qed.

Lemma record_Ok entry st o s0 s e' s' :
  jinv s0 -> world_step s0 s -> record entry st o s = (Ok e', s') -> carried_out entry s0 e' s' (Some (st, o)).
Proof.
  intros Hj Hw E. refine (wp_run (record entry st o) (fun r s'' => forall e'', r = Ok e'' -> carried_out entry s0 e'' s'' (Some (st, o))) _ _ _ _ E e' eq_refl).
  apply wp_record; [by eapply jinv_world|]. intros r s'' _ _ He e'' Er. exact (He e'' Er).
Qed.
Lemma record_log_Ok entry st o level message s0 s e' s' :
  jinv s0 -> world_step s0 s ->
  (e' ← record entry st o; log level message ;; mret e') s = (Ok e', s') -> carried_out entry s0 e' s' (Some (st, o)).
Proof.
  intros Hj Hw (a & s1 & E & El)%method_bind_Ok. eapply record_Ok in E; [|done..].
  injection El as -> <-. destruct E as [Ht Hs]. by split.
Qed.

Lemma reconcileReceipt_judged entry r required w s0 s e' s' :
  jinv s0 -> world_step s0 s -> is_failed entry = false -> eo_confirmations options <= rv_confirmations r ->
  reconcileReceipt entry r required s = (Ok e', s') ->
  exists judged, judgement entry (Some r) required w judged /\ carried_out entry s0 e' s' judged.
Proof.
  intros Hj Hw Hf Hc. unfold reconcileReceipt.
  case_bool_decide as H1; [destruct required|case_bool_decide as H0; [destruct required|]]; cbn [andb negb]; intros E.
  - rewrite (bool_decide_eq_false_2 (rv_status r = Some 0)) in E by congruence.
    cbn beta iota in E. eexists. split; [by eapply (judge_unchanged _ _ _ _ r); try done; congruence|eapply record_log_Ok; [exact Hj|exact Hw|exact E]].
  - eexists. split; [by eapply judge_reconciled|by eapply record_log_Ok].
  - eexists. split; [by eapply judge_reverted|by eapply record_log_Ok].
  - eexists. split; [by eapply judge_reverted_done|by eapply record_log_Ok].
  - eexists. split; [by eapply (judge_unchanged _ _ _ _ r)|by eapply record_log_Ok].
Qed.
Lemma reconcileMissing_judged entry required s0 s e' s' :
  jinv s0 -> world_step s0 s -> is_failed entry = false -> reconcileMissing entry required s = (Ok e', s') ->
  exists judged, judgement entry None required (es_world s) judged /\ carried_out entry s0 e' s' judged.
Proof.
  intros Hj Hw Hf (transaction & s1 & (w1 & Et & ->)%gateway_Ok & E)%method_bind_Ok. destruct transaction as [transaction|].
  { eexists. split; [by eapply judge_pending|eapply record_Ok; [exact Hj| |exact E]; exact Hw]. }
  apply method_bind_Ok in E as (t & s1 & (w2 & Ec & ->)%now_Ok & E). cbn [es_world with_world] in Ec. cbv zeta in E.
  assert (Hn : not_found entry (es_world s) t w2) by (by exists w1).
  destruct (bool_decide (je_status entry ∈ [prepared; submitted]) && (t - je_submittedAt entry <? eo_receiptWaitMs options)) eqn:Er.
  { apply andb_true_iff in Er as [Er%bool_decide_eq_true Ew%Z.ltb_lt]. cbn beta iota in E. change ((Ok entry, with_world w2 (with_world w1 s)) = (Ok e', s')) in E. injection E as <- <-. exists None. split; [|by split; [|apply Hw]].
    eapply judge_recent; [done|done|done|]. split; [set_solver|done]. }
  assert (Hr : ~ is_recent entry t).
  { intros [Hs Hl]. apply andb_false_iff in Er as [Er%bool_decide_eq_false|Er%Z.ltb_ge]; [apply Er; destruct Hs as [-> | ->]; set_solver|lia]. }
  destruct required; cbn [negb] in E; [case_bool_decide as Hc|].
  - eexists. split; [by eapply judge_reorged|eapply record_log_Ok; [exact Hj| |exact E]; exact Hw].
  - apply method_bind_Ok in E as ([latest pending] & s1 & Ep & E). unfold promise_all2 in Ep.
    destruct (gateway (gw_getTransactionCount "latest") _) as [[n1|] sa] eqn:E1; apply gateway_Ok in E1 as (w3 & E1 & ->) || (destruct (gateway _ sa); discriminate Ep).
    destruct (gateway (gw_getTransactionCount "pending") _) as [[n2|] sb] eqn:E2; [|discriminate Ep]. apply gateway_Ok in E2 as (w4 & E2 & ->).
    injection Ep as -> -> <-. cbn [fst snd es_world with_world] in *. eexists. split; [by eapply judge_lost|].
    assert (Hd : (je_nonce entry <? latest) || (je_nonce entry <? pending) = bool_decide (je_nonce entry < latest \/ je_nonce entry < pending)).
    { symmetry. rewrite orb_comm. destruct (Z.ltb_spec (je_nonce entry) pending), (Z.ltb_spec (je_nonce entry) latest); cbn;
        [apply bool_decide_eq_true..|apply bool_decide_eq_false]; lia. }
    rewrite Hd in E. eapply record_log_Ok; [exact Hj| |exact E]; exact Hw.
  - eexists. split; [by eapply judge_advanced|eapply record_log_Ok; [exact Hj| |exact E]; exact Hw].
Qed.

End engine.

(** ** Status updates pass the schema *)
Definition wf_options (o : UpdateOptions) : bool :=
  if_present nonnegative_int (uo_blockNumber o) && if_present hashSchema (uo_blockHash o) &&
  if_present nonnegative_int (uo_confirmations o) && if_present (max_length 120) (uo_errorCode o).

Lemma if_present_union {A} (p : A -> bool) o o' :
  if_present p o = true -> if_present p o' = true -> if_present p (union o o') = true.
Proof. by destruct o, o'. Qed.

Lemma safeErrorCode_length error : max_length 120 (safeErrorCode error) = true.
Proof.
  assert (H : forall s, max_length 120 (slice0 80 s) = true).
  { intros s. apply Nat.leb_le. pose proof (length_slice0 80 s). lia. }
  unfold safeErrorCode. destruct (err_code error); [apply H|].
  destruct (err_is_error error); [apply H|done].
Qed.

(** Every status update of a valid entry with well-formed options - in
    particular with the error code of any thrown value - is a valid entry and
    an append-only update, so no store refuses it. *)
Theorem updateEntry_accepted entry st t o :
  journalEntrySchema entry = true -> wf_options o = true ->
  journalEntrySchema (updateEntry entry st t o) = true /\
  assertAppendOnlyUpdate entry (updateEntry entry st t o) = Ok tt.
Proof.
  intros He Ho. split; [|by apply assertAppendOnlyUpdate_Ok, updateEntry_extends].
  unfold wf_options in Ho. unfold journalEntrySchema in *.
  rewrite !andb_true_iff in *. simpl. destruct Ho as [[[Ho1 Ho2] Ho3] Ho4].
  destruct_and!. split_and!; try done; try by apply if_present_union.
  - apply negb_true_iff, bool_decide_eq_false. by destruct (je_history entry).
  - rewrite forallb_app. apply andb_true_iff. split; [done|]. simpl. rewrite andb_true_r.
    unfold journalTransitionSchema. simpl. by rewrite Ho1, Ho2, Ho3, Ho4.
  - unfold latestMatches. simpl. rewrite last_snoc. simpl.
    by rewrite bool_decide_eq_true_2, Z.eqb_refl.
Qed.

(** ** Termination

    A pass waits for a receipt in a loop with no bound of its own: it ends
    because the clock does not run backwards and each turn sleeps. *)
Class TimeLaws (W : Type) `{KeeperGateway W, KeeperClock W} := {
  time : W -> Z;
  now_time : forall w, time w <= (clock_now w).1 /\ (clock_now w).1 <= time (clock_now w).2;
  sleep_time : forall ms w, 0 <= ms -> time w + ms <= time (clock_sleep ms w);
  getReceipt_time : forall h w, time w <= time (gw_getReceipt h w).2;
  readSnapshot_time : forall h w, time w <= time (gw_readSnapshot h w).2;
  getTransaction_time : forall h w, time w <= time (gw_getTransaction h w).2;
  getTransactionCount_time : forall b w, time w <= time (gw_getTransactionCount b w).2
}.

Create HintDb forward.

Section termination.
Context {W J : Type} {GW : KeeperGateway W} {CK : KeeperClock W} {JS : JournalStore J}.
Context {TL : TimeLaws W} (options : EngineOptions).

Definition clock (s : EngineState W J) : Z := time (es_world s).

(** [m] does not set the clock back. *)
Definition forward {A} (m : method (EngineState W J) A) : Prop :=
  forall s, wp m (fun _ s' => clock s <= clock s') s.

Lemma forward_ret {A} (a : A) : forward (mret a).
Proof. intros s. apply wp_ret. lia. Qed.

Lemma forward_bind {A B} (m : method (EngineState W J) A) (f : A -> method (EngineState W J) B) :
  forward m -> (forall a, forward (f a)) -> forward (m ≫= f).
Proof.
  intros Hm Hf s. apply wp_bind. eapply wp_mono; [apply Hm|]. intros [a|e] s' H; [|done].
  eapply wp_mono; [apply Hf|]. simpl in *. intros r s2 H2. simpl in *. lia.
Qed.

Lemma forward_lift {A} (r : result A) : forward (lift r).
Proof. intros s. apply wp_lift. lia. Qed.

Lemma forward_gateway {A} (m : method W A) : (forall w, time w <= time (m w).2) -> forward (gateway m).
Proof. intros H s. apply wp_gateway. intros r w E. unfold clock. simpl. specialize (H (es_world s)). by rewrite E in H. Qed.

Lemma forward_now : forward now.
Proof.
  intros s. apply wp_now. intros t w E. unfold clock. simpl.
  destruct (now_time (es_world s)). rewrite E in *. simpl in *. lia.
Qed.

Lemma forward_log level msg : forward (log level msg).
Proof. intros s. unfold wp, log, emit, modify, clock. simpl. lia. Qed.

Lemma forward_journal_write entry : forward (journal_write entry).
Proof.
  intros s. unfold journal_write. apply wp_bind. unfold wp at 1, journal.
  destruct (journal_put entry (es_journal s)) as [[]]; unfold wp, clock; simpl; lia.
Qed.

Lemma forward_promise_all2 {A B} (p : method (EngineState W J) A) (q : method (EngineState W J) B) :
  forward p -> forward q -> forward (promise_all2 p q).
Proof.
  intros Hp Hq s. apply wp_promise_all2. eapply wp_mono; [apply Hp|]. intros r1 s1 H1.
  eapply wp_mono; [apply Hq|]. simpl in *. intros r2 s2 H2. lia.
Qed.

Hint Resolve forward_ret forward_bind forward_lift forward_now forward_log forward_journal_write
  forward_promise_all2 forward_gateway getReceipt_time readSnapshot_time getTransaction_time
  getTransactionCount_time : forward.

Lemma forward_record entry st o : forward (record entry st o).
Proof. unfold record. auto 8 with forward. Qed.
Hint Resolve forward_record : forward.

Lemma forward_reconcileEntry entry : forward (reconcileEntry options entry).
Proof.
  unfold reconcileEntry, reconcileReceipt, reconcileMissing.
  repeat first [ apply forward_bind; [auto with forward|intros]
               | match goal with |- forward (if ?b then _ else _) => destruct b end
               | match goal with |- forward (match ?o with _ => _ end) => destruct o end
               | progress auto with forward ].
Qed.

(** Enough fuel for a loop that still waits [deadline - clock]. *)
Lemma wp_waitLoop_ends fuel deadline entry s :
  0 < receiptPollMs options -> deadline - clock s <= Z.of_nat fuel * receiptPollMs options ->
  wp (waitLoop options (S fuel) deadline entry) (fun r _ => r <> Ok None) s.
Proof.
  intros Hp. revert entry s; induction fuel as [|fuel IH]; intros entry s Hd;
    simpl;
    apply wp_bind; (eapply wp_mono; [apply forward_reconcileEntry|]); intros [e'|e] s1 H1; try done;
    (destruct (negb _); [by apply wp_ret|]); apply wp_bind, wp_now; intros t w E;
    destruct (now_time (es_world s1)) as [N1 N2]; rewrite E in N1, N2; simpl in N1, N2; unfold clock in *;
    (destruct (deadline <=? t) eqn:Ed; [by apply wp_ret|]); bool_to_prop; [lia|].
  apply wp_bind. unfold sleep. apply wp_gateway. intros r w2 [= <- <-].
  pose proof (sleep_time (receiptPollMs options) w ltac:(lia)) as Hs.
  apply IH. simpl. lia.
Qed.

Lemma wp_waitAndReconcile_ends fuel entry s :
  0 < receiptPollMs options -> eo_receiptWaitMs options <= Z.of_nat fuel * receiptPollMs options ->
  wp (waitAndReconcile options (S fuel) entry) (fun r _ => r <> Ok None) s.
Proof.
  intros Hp Hf. unfold waitAndReconcile. apply wp_bind, wp_now. intros t w E.
  apply wp_waitLoop_ends; [done|]. destruct (now_time (es_world s)) as [N1 N2].
  rewrite E in N1, N2. unfold clock. simpl in *. lia.
Qed.

Lemma wp_submit_ends fuel action previous tx s :
  0 < receiptPollMs options -> eo_receiptWaitMs options <= Z.of_nat fuel * receiptPollMs options ->
  wp (submit options (S fuel) action previous tx) (fun r _ => r <> Ok None) s.
Proof.
  intros Hp Hf. unfold submit.
  apply wp_bind, wp_any. intros [b|e] s1; [|done]. apply wp_bind, wp_any. intros [u|e] s2; [|done].
  apply wp_bind, wp_any. intros [u2|e] s3; [|done]. apply wp_bind, wp_any. intros [t|e] s4; [|done].
  apply wp_bind, wp_any. intros [u3|e] s5; [|done].
  apply wp_bind, wp_any. intros [[[blocked|] e']|e] s6; [by apply wp_ret| |done].
  apply wp_bind. eapply wp_mono; [by apply wp_waitAndReconcile_ends|].
  intros [[fe|]|e] s7 H7; [|done|done]. apply wp_ret. by repeat case_match.
Qed.

(** C39: A pass ends.  With a positive poll interval and a clock that does not
    run backwards, fuel for the receipt wait - one turn more than the polls
    that fit in it - is never used up: the pass returns or throws. *)
Theorem runOnce_terminates fuel s :
  0 < receiptPollMs options -> eo_receiptWaitMs options <= Z.of_nat fuel * receiptPollMs options ->
  (runOnce options (S fuel) s).1 <> Ok None.
Proof.
  intros Hp Hf. enough (H : wp (runOnce options (S fuel)) (fun r _ => r <> Ok None) s).
  { unfold wp in H. by destruct (runOnce options (S fuel) s). }
  unfold runOnce. apply wp_bind, wp_any. intros [b|e] s1; [|done].
  apply wp_bind, wp_any. intros [[o|]|e] s2; [by apply wp_ret| |done].
  apply wp_bind, wp_any. intros [snapshot|e] s3; [|done]. apply wp_bind, wp_any. intros [u|e] s4; [|done].
  destruct (planNextAction snapshot) as [action|].
  2:{ apply wp_bind, wp_any. intros [?|e] s5; [by apply wp_ret|done]. }
  unfold attempt, signAndSubmit. apply wp_bind, wp_any. intros [u2|e] s5; [|done].
  apply wp_bind, wp_any. intros [listed|e] s6; [|done]. apply wp_bind.
  assert (Hgo : forall previous s7, wp (signAndSubmit options (S fuel) action previous) (fun r _ => r <> Ok None) s7).
  { intros previous s7. apply wp_bind, wp_any. intros [[r|data]|e] s8; [by apply wp_ret| |done].
    apply wp_bind, wp_any. intros [tx|e] s9; [|done]. apply wp_bind, wp_any. intros [?|e] s10; [|done].
    by apply wp_submit_ends. }
  destruct (last _) as [p|]; [destruct (is_unresolved (je_status p))|]; apply wp_ret;
    [by apply wp_ret|exact (Hgo _ _)..].
Qed.
End termination.

(** * Concrete instances

    A small chain: one vault whose round is due, a provider that mines what it
    is given, and a clock that advances one millisecond per reading. *)
Record SimWorld := { sim_time : Z; sim_closed : bool }.

Definition sim_vault (closed : bool) : VaultSnapshot :=
  {| vs_vault := {| vc_id := 1; vc_name := "Daily"; vc_cadence := "daily"; vc_address := ex_address;
                    vc_bondEscrow := ex_address; vc_automaticEntry := None |};
     vs_activeRoundId := if closed then 3 else 2; vs_bondAmount := 5; vs_autoEntryCandidates := [];
     vs_rounds := [{| rs_roundId := 2; rs_opensAt := 0; rs_closesAt := 90;
                      rs_state := if closed then SETTLED else OPEN; rs_publicAggregateTwab := 0; rs_publicPrize := 0;
                      rs_participantCount := 1; rs_selectionCursor := 0; rs_allocationCursor := 0;
                      rs_candidateValidityHandle := None |}] |}.

Definition sim_snapshot (w : SimWorld) : ProtocolSnapshot :=
  {| ps_chainId := SEPOLIA_CHAIN_ID; ps_blockNumber := 1; ps_blockHash := ex_hash "d";
     ps_blockTimestamp := 100; ps_vaults := [sim_vault (sim_closed w)] |}.

Definition sim_tx (action : LifecycleAction) : SignedLifecycleTransaction :=
  {| st_action := action; st_hash := ex_hash "b"; st_nonce := 7; st_serialized := "0x02";
     st_calldataHash := ex_hash "c"; st_maximumCostWei := 10; st_gasPolicy := None |}.

#[local] Instance sim_gateway : KeeperGateway SimWorld := {
  gw_getChainId := mret SEPOLIA_CHAIN_ID;
  gw_getKeeperBalance := mret 1000;
  gw_readSnapshot := fun _ => gets sim_snapshot;
  gw_encodeAction := fun _ => mret "0x1234";
  gw_simulate := fun _ _ => mret tt;
  gw_sign := fun action _ => mret (sim_tx action);
  gw_broadcast := fun tx w => (Ok (st_hash tx), {| sim_time := sim_time w; sim_closed := true |});
  gw_getReceipt := fun hash w =>
    (Ok (if sim_closed w then Some {| rv_hash := hash; rv_blockHash := ex_hash "e"; rv_blockNumber := 2;
                                      rv_status := Some 1; rv_confirmations := sim_time w |} else None), w);
  gw_getTransaction := fun _ => mret None;
  gw_getTransactionCount := fun _ => mret 7
}.

#[local] Instance sim_clock : KeeperClock SimWorld := {
  clock_now := fun w => (sim_time w, {| sim_time := sim_time w + 1; sim_closed := sim_closed w |});
  clock_sleep := fun ms w => {| sim_time := sim_time w + ms; sim_closed := sim_closed w |}
}.

#[local, refine] Instance sim_time_laws : TimeLaws SimWorld := { time := sim_time }.
Proof. all: intros; simpl; lia. Defined.

Definition sim_options : EngineOptions :=
  {| eo_minimumBalanceWei := 100; eo_maximumBalanceWei := 2000; eo_confirmations := 10;
     eo_receiptWaitMs := 20; eo_receiptPollMs := Some 5 |}.

Definition sim_start : EngineState SimWorld MemoryJournal :=
  {| es_world := {| sim_time := 0; sim_closed := false |};
     es_journal := {| mj_entries := []; mj_checkpoints := [] |}; es_trace := [] |}.

Definition sim_action : LifecycleAction :=
  {| la_key := ex_address +:+ ":2:close-round:90"; la_kind := close_round;
     la_vault := vs_vault (sim_vault false); la_roundId := 2; la_cursor := None; la_account := None |}.

Lemma sim_start_inv : jinv sim_start.
Proof. split; [constructor|]. intros k e H. by apply not_elem_of_nil in H. Qed.

(** The pass broadcasts the closure, polls until ten confirmations and
    reconciles it. *)
Lemma runOnce_write_ahead_witness :
  let '(r, s') := runOnce sim_options 10 sim_start in
  r = Ok (Some (Settled reconciled (la_key sim_action) (ex_hash "b"))) /\
  broadcasts (es_trace s') = [sim_tx sim_action] /\
  (quiet sim_start s' \/
   exists action tx, on_Sepolia sim_start /\ planned action /\ signed_after_simulation action tx /\
     affordable sim_options tx /\ written_ahead action tx sim_start s').
Proof.
  destruct (runOnce sim_options 10 sim_start) as [r s'] eqn:E.
  pose proof (runOnce_write_ahead sim_options 10 sim_start r s' sim_start_inv E) as H.
  vm_compute in E. injection E as <- <-. split; [reflexivity|]. split; [reflexivity|]. exact H.
Defined.

Lemma runOnce_single_flight_witness :
  let '(r, s') := runOnce sim_options 1 sim_start in
  r = Ok None /\ single_flight s'.
Proof.
  destruct (runOnce sim_options 1 sim_start) as [r s'] eqn:E.
  assert (Hs : single_flight sim_start) by (intros id1 id2 (e & H & _); discriminate H).
  pose proof (runOnce_single_flight sim_options 1 sim_start r s' sim_start_inv Hs E) as (_ & H & _).
  split; [|exact H]. vm_compute in E. by injection E as <- _.
Defined.

Lemma runOnce_terminates_witness : (runOnce sim_options 5 sim_start).1 <> Ok None.
Proof. apply (runOnce_terminates sim_options 4 sim_start); vm_compute; congruence. Defined.

(** An entry of the sample journal, after its transaction was mined. *)
Definition sim_mined : EngineState SimWorld MemoryJournal :=
  {| es_world := {| sim_time := 30; sim_closed := true |}; es_journal := ex_journal; es_trace := [] |}.


Lemma updateEntry_accepted_witness :
  journalEntrySchema (updateEntry ex_entry unknown 1005 (error_option "TIMEOUT")) = true /\
  assertAppendOnlyUpdate ex_entry (updateEntry ex_entry unknown 1005 (error_option "TIMEOUT")) = Ok tt.
Proof. apply (updateEntry_accepted ex_entry unknown 1005 (error_option "TIMEOUT")); vm_compute; reflexivity. Defined.
