(* ===== verification/Scan.v ===== *)
(** * Circular scans and block agreement (keeper/src/ethers-gateway.ts)

    The functions of the gateway that need no contract: the page of a
    circular scan and its persisted cursor, and the agreement of several RPC
    endpoints on chain, height and block.  [CheckpointStore] is the half of
    the journal store the gateway uses. *)
From Stdlib Require Import ZArith Lia Ascii.
From stdpp Require Import base option list sets strings numbers.
From S2P Require Import Prelude.
From S2P Require Import Lifecycle.
From S2P Require Import Journal.
Local Open Scope Z_scope.

Definition MAX_ALLOWED_RPC_HEAD_LAG_BLOCKS : Z := 2.

Record ScanPage := { sp_indexes : list Z; sp_nextCursor : Z }.

Definition page_size_invalid (m : js_number) : bool :=
  match m with JInt n => n <? 1 | JNonInteger => true end.

Definition page_size (m : js_number) : Z := match m with JInt n => n | JNonInteger => 0 end.

Definition circularScanPage (count cursor : Z) (maximumPageSize : js_number) : result ScanPage :=
  fail_if ((count <? 0) || (cursor <? 0) || page_size_invalid maximumPageSize) "Invalid circular scan bounds" ;;
  if count =? 0 then Ok {| sp_indexes := []; sp_nextCursor := 0 |}
  else
    let start := Z.rem cursor count in
    let pageSize := if count <? page_size maximumPageSize then count else page_size maximumPageSize in
    Ok {| sp_indexes := (fun offset => Z.rem (start + offset) count) <$> seqZ 0 pageSize;
          sp_nextCursor := Z.rem (start + pageSize) count |}.

(** ** Persisted cursors *)
Class CheckpointStore (S : Type) := {
  getCheckpoint : string -> method S (option string);
  putCheckpoint : string -> string -> method S unit
}.

#[export] Instance memory_checkpoints : CheckpointStore MemoryJournal := {
  getCheckpoint := memory_getCheckpoint;
  putCheckpoint := memory_putCheckpoint
}.

Definition persistentCircularScanPage {S} `{CheckpointStore S} (count : Z) (checkpointKey : string)
    (maximumPageSize : js_number) : method S ScanPage :=
  encodedCursor ← getCheckpoint checkpointKey;
  throw_if (negb (if_present matches_digits encodedCursor)) "Persisted scan cursor is invalid" ;;
  cursor ← lift (match encodedCursor with Some e => BigInt_of_digits e | None => Ok 0 end);
  page ← lift (circularScanPage count cursor maximumPageSize);
  putCheckpoint checkpointKey (Z_toString (sp_nextCursor page)) ;;
  mret page.

(** ** Agreement of the RPC endpoints *)
Record RpcBlockIdentity := { bi_number : Z; bi_hash : string; bi_timestamp : Z }.

Definition differs (block first : RpcBlockIdentity) : bool :=
  negb (bi_number block =? bi_number first) ||
  negb (bool_decide (toLowerCase (bi_hash block) = toLowerCase (bi_hash first))) ||
  negb (bi_timestamp block =? bi_timestamp first).

Definition assertAgreedBlockIdentities (blocks : list RpcBlockIdentity) : result RpcBlockIdentity :=
  match blocks with
  | [] => throw_new "RPC block agreement requires at least one endpoint"
  | first :: _ =>
      fail_if (existsb (fun block => differs block first) blocks)
        "RPC endpoints disagree on the authoritative block identity" ;;
      Ok first
  end.

Record RpcBlockIdentityCandidate := { bc_number : Z; bc_hash : option string; bc_timestamp : Z }.

(** [!block?.hash]: no block, no hash, or an empty one. *)
Definition requireCompleteBlockIdentity (block : option RpcBlockIdentityCandidate) : result RpcBlockIdentity :=
  match block with
  | Some {| bc_number := n; bc_hash := Some h; bc_timestamp := t |} =>
      if string_nonempty h then Ok {| bi_number := n; bi_hash := h; bi_timestamp := t |}
      else throw_new "RPC returned no complete block identity"
  | _ => throw_new "RPC returned no complete block identity"
  end.

Definition selectCommonBlockHeight (latestBlocks : list RpcBlockIdentity) : result Z :=
  match bi_number <$> latestBlocks with
  | [] => throw_new "RPC block agreement requires at least one endpoint"
  | h :: hs =>
      let minimum := foldr Z.min h hs in
      let maximum := foldr Z.max h hs in
      fail_if (MAX_ALLOWED_RPC_HEAD_LAG_BLOCKS <? maximum - minimum)
        ("RPC head lag exceeds " +:+ Z_toString MAX_ALLOWED_RPC_HEAD_LAG_BLOCKS +:+ " blocks") ;;
      Ok minimum
  end.

Definition assertPinnedBlockIdentity (expected : RpcBlockIdentity) (pinnedBlocks : list RpcBlockIdentity)
    : result RpcBlockIdentity :=
  canonical ← assertAgreedBlockIdentities pinnedBlocks;
  fail_if (differs canonical expected) "Pinned block was reorganized during snapshot construction" ;;
  Ok canonical.

(** The answer of one endpoint to [eth_chainId]; [None] is a value that is not
    a string. *)
Definition parseChainId (answer : option string) : result Z :=
  match answer with
  | Some s => if matches_hex_quantity s then Ok (BigInt_of_hex s)
              else throw_new "RPC endpoint returned an invalid eth_chainId"
  | None => throw_new "RPC endpoint returned an invalid eth_chainId"
  end.

(** The endpoints are methods that send the request. *)
Definition verifySepoliaRpcIdentity {S} (endpoints : list (method S (option string))) : method S Z :=
  match endpoints with
  | [] => lift (throw_new "At least one RPC endpoint is required")
  | _ =>
      chainIds ← promise_all ((fun send => answer ← send; lift (parseChainId answer)) <$> endpoints);
      throw_if (existsb (fun chainId => negb (chainId =? SEPOLIA_CHAIN_ID)) chainIds)
        ("Every RPC endpoint must report Sepolia chain " +:+ Z_toString SEPOLIA_CHAIN_ID) ;;
      mret SEPOLIA_CHAIN_ID
  end.

(** * Lemmas *)

(** ** One page *)
Lemma circularScanPage_Ok count cursor n :
  0 < count -> 0 <= cursor -> 1 <= n ->
  circularScanPage count cursor (JInt n) =
    Ok {| sp_indexes := (fun i => (cursor + i) mod count) <$> seqZ 0 (Z.min count n);
          sp_nextCursor := (cursor + Z.min count n) mod count |}.
Proof.
  intros Hc Hk Hn. unfold circularScanPage. rewrite guard_pass.
  2:{ simpl. rewrite !orb_false_iff, !Z.ltb_ge. lia. }
  destruct (Z.eqb_spec count 0) as [|_]; [lia|].
  assert (Emod : forall i, 0 <= i -> Z.rem (Z.rem cursor count + i) count = (cursor + i) mod count).
  { intros i Hi. rewrite (Z.rem_mod_nonneg cursor) by lia.
    rewrite Z.rem_mod_nonneg; [by rewrite Z.add_mod_idemp_l by lia| |done].
    pose proof (Z.mod_pos_bound cursor count Hc). lia. }
  assert (Emin : (if count <? n then count else n) = Z.min count n) by (destruct (Z.ltb_spec count n); lia).
  simpl. rewrite Emin. do 2 f_equal; [|apply Emod; lia].
  apply list_fmap_ext. intros i x Hx. apply Emod. apply lookup_seqZ in Hx. lia.
Qed.

Lemma elem_of_page count cursor n x :
  x ∈ (fun i => (cursor + i) mod count) <$> seqZ 0 (Z.min count n) <->
  exists i, 0 <= i < Z.min count n /\ x = (cursor + i) mod count.
Proof.
  rewrite list_elem_of_fmap. split; intros (i & H1 & H2); exists i.
  - apply elem_of_seqZ in H2. split; [lia|done].
  - split; [done|]. apply elem_of_seqZ. lia.
Qed.

Lemma mod_shift_inj count c i j :
  0 <= i < count -> 0 <= j < count -> (c + i) mod count = (c + j) mod count -> i = j.
Proof.
  intros Hi Hj E.
  assert (E2 : (c + i - c) mod count = (c + j - c) mod count).
  { by rewrite Zminus_mod, E, <- Zminus_mod. }
  replace (c + i - c) with i in E2 by lia. replace (c + j - c) with j in E2 by lia.
  by rewrite !Z.mod_small in E2.
Qed.

Lemma circularScanPage_indexes count cursor m page :
  circularScanPage count cursor m = Ok page ->
  NoDup (sp_indexes page) /\ Forall (fun i => 0 <= i < count) (sp_indexes page) /\
  0 <= sp_nextCursor page /\ (0 < count -> sp_nextCursor page < count).
Proof.
  intros E. destruct ((count <? 0) || (cursor <? 0) || page_size_invalid m) eqn:G.
  { unfold circularScanPage, fail_if in E. by rewrite G in E. }
  bool_to_prop. destruct m as [n|]; simpl in *; [|done]. bool_to_prop.
  destruct (Z.eq_dec count 0) as [->|Hne].
  - unfold circularScanPage in E. rewrite guard_pass in E by (simpl; rewrite !orb_false_iff, !Z.ltb_ge; lia).
    injection E as <-. simpl. split_and!; [constructor|constructor|done|lia].
  - rewrite circularScanPage_Ok in E by lia. injection E as <-. simpl.
    pose proof (Z.mod_pos_bound (cursor + Z.min count n) count). split_and!; [| |lia|lia].
    + apply NoDup_fmap_2_strong; [|apply NoDup_seqZ].
      intros i j Hi%elem_of_seqZ Hj%elem_of_seqZ. apply mod_shift_inj; lia.
    + apply Forall_forall. intros x Hx%list_elem_of_In. apply elem_of_page in Hx as (i & Hi & ->).
      apply Z.mod_pos_bound. lia.
Qed.

(** A page holds the next [min count size] indexes, none twice, all of them
    valid, and the cursor it leaves is a valid one; exactly negative counts or
    cursors and page sizes that are not positive integers are refused. *)
Theorem circularScanPage_spec count cursor maximumPageSize :
  match circularScanPage count cursor maximumPageSize with
  | Ok page =>
      (exists n, maximumPageSize = JInt n /\ 1 <= n /\ 0 <= count /\ 0 <= cursor /\
         Z.of_nat (length (sp_indexes page)) = Z.min count n) /\
      NoDup (sp_indexes page) /\ Forall (fun i => 0 <= i < count) (sp_indexes page) /\
      0 <= sp_nextCursor page /\ (0 < count -> sp_nextCursor page < count)
  | Throw _ => count < 0 \/ cursor < 0 \/ maximumPageSize = JNonInteger \/
               exists n, maximumPageSize = JInt n /\ n < 1
  end.
Proof.
  destruct (circularScanPage count cursor maximumPageSize) as [page|err] eqn:Ep.
  - split; [|by eapply circularScanPage_indexes].
    unfold circularScanPage in Ep. apply result_bind_Ok in Ep as (u & G%fail_if_Ok & Ep). bool_to_prop.
    destruct maximumPageSize as [n|]; simpl in *; [|done]. bool_to_prop. exists n.
    split_and!; [done|done|done|done|].
    destruct (Z.eqb_spec count 0) as [->|]; injection Ep as <-; simpl; [lia|].
    rewrite length_fmap, length_seqZ. destruct (Z.ltb_spec count n); lia.
  - unfold circularScanPage, fail_if in Ep.
    destruct ((count <? 0) || (cursor <? 0) || page_size_invalid maximumPageSize) eqn:G;
      [|simpl in Ep; by destruct (count =? 0)].
    bool_to_prop. destruct G as [[G|G]%orb_true_iff|G]; bool_to_prop; [auto|auto|].
    destruct maximumPageSize as [n|]; simpl in G; bool_to_prop; eauto 6.
Qed.

(** ** Fairness of the persisted scan *)

(** What the scan relies on: writes that succeed and are read back. *)
Class CheckpointLaws (S : Type) `{CheckpointStore S} := {
  cp_inv : S -> Prop;
  cp_view : S -> string -> option string;
  get_view : forall k s, cp_inv s -> getCheckpoint k s = (Ok (cp_view s k), s);
  put_view : forall k v s, cp_inv s -> string_nonempty k = true ->
    exists s', putCheckpoint k v s = (Ok tt, s') /\ cp_inv s' /\
      forall k', cp_view s' k' = if decide (k' = k) then Some v else cp_view s k'
}.

#[export, refine] Instance memory_checkpoint_laws : CheckpointLaws MemoryJournal := {|
  cp_inv := fun _ => True;
  cp_view := fun j k => map_get k (mj_checkpoints j)
|}.
Proof.
  - done.
  - intros k v j _ Hk. eexists. unfold putCheckpoint, memory_checkpoints, memory_putCheckpoint.
    unfold_method. rewrite Hk. simpl. split; [done|]. split; [done|]. intros k'. apply map_get_set.
Defined.

Section fairness.
Context {S : Type} `{CheckpointLaws S} (count : Z) (key : string) (n : Z).
Context (Hcount : 0 < count) (Hn : 1 <= n) (Hkey : string_nonempty key = true).

(** [k] successive pages. *)
Fixpoint scanPages (k : nat) : method S (list Z) :=
  match k with
  | O => mret []
  | Datatypes.S k' =>
      page ← persistentCircularScanPage count key (JInt n);
      rest ← scanPages k';
      mret (sp_indexes page ++ rest)
  end.

Definition cursor_at (s : S) (c : Z) : Prop :=
  0 <= c /\ match cp_view s key with
            | Some e => matches_digits e = true /\ BigInt_of_digits e = Ok c
            | None => c = 0
            end.

Lemma persistent_step s c :
  cp_inv s -> cursor_at s c -> exists s',
    persistentCircularScanPage count key (JInt n) s =
      (Ok {| sp_indexes := (fun i => (c + i) mod count) <$> seqZ 0 (Z.min count n);
             sp_nextCursor := (c + Z.min count n) mod count |}, s') /\
    cp_inv s' /\ cursor_at s' ((c + Z.min count n) mod count).
Proof.
  intros Hs [Hc Hcur]. unfold persistentCircularScanPage.
  set (page := {| sp_indexes := _; sp_nextCursor := _ |}).
  destruct (put_view key (Z_toString (sp_nextCursor page)) s Hs Hkey) as (s' & Ep & Hs' & Hv).
  exists s'. split; [|split; [done|]].
  - unfold_method. rewrite get_view by done.
    assert (E : if_present matches_digits (cp_view s key) = true /\
                match cp_view s key with Some e => BigInt_of_digits e | None => Ok 0 end = Ok c).
    { destruct (cp_view s key) as [e|]; [done|]. by subst. }
    destruct E as [-> ->]. simpl. rewrite circularScanPage_Ok by done. fold page. by rewrite Ep.
  - assert (Hb : 0 <= (c + Z.min count n) mod count) by (apply Z.mod_pos_bound; lia).
    split; [done|]. rewrite Hv, decide_True by done.
    split; [by apply Z_toString_digits|by apply BigInt_toString].
Qed.

Lemma scanPages_visits k s c :
  cp_inv s -> cursor_at s c -> exists xs s', scanPages k s = (Ok xs, s') /\
    forall i, 0 <= i < Z.of_nat k * Z.min count n -> (c + i) mod count ∈ xs.
Proof.
  revert s c; induction k as [|k IH]; intros s c Hs Hc; [exists [], s; split; [done|lia]|].
  destruct (persistent_step s c Hs Hc) as (s1 & E1 & Hs1 & Hc1).
  destruct (IH s1 _ Hs1 Hc1) as (xs & s2 & E2 & Hxs).
  cbn [scanPages]. unfold_method. rewrite E1, E2. eexists _, _. split; [done|].
  intros i Hi. simpl. apply elem_of_app.
  destruct (Z.lt_ge_cases i (Z.min count n)) as [Hlt|Hge]; [left|right].
  - apply elem_of_page. exists i. split; [lia|done].
  - specialize (Hxs (i - Z.min count n)). rewrite Z.add_mod_idemp_l in Hxs by lia.
    replace (c + Z.min count n + (i - Z.min count n)) with (c + i) in Hxs by lia. apply Hxs. lia.
Qed.

(** C36: Fairness.  Whatever valid cursor was persisted, [k] successive pages
    succeed, and once [k] pages hold as many indexes as there are, every index
    has been read: no account and no historical round is skipped for ever. *)
Theorem persistent_scan_covers k s :
  cp_inv s -> if_present matches_digits (cp_view s key) = true -> count <= Z.of_nat k * n ->
  exists xs s', scanPages k s = (Ok xs, s') /\ forall x, 0 <= x < count -> x ∈ xs.
Proof.
  intros Hs Hv Hk.
  assert (exists c, cursor_at s c) as [c Hc].
  { unfold cursor_at. destruct (cp_view s key) as [e|]; [|by exists 0].
    destruct (BigInt_of_digits_total e Hv) as (z & ? & ?). by exists z. }
  destruct (scanPages_visits k s c Hs Hc) as (xs & s' & E & Hxs).
  exists xs, s'. split; [done|]. intros x Hx.
  specialize (Hxs ((x - c) mod count)). pose proof (Z.mod_pos_bound (x - c) count Hcount).
  rewrite Z.add_mod_idemp_r in Hxs by lia. replace (c + (x - c)) with x in Hxs by lia.
  rewrite (Z.mod_small x) in Hxs by lia. apply Hxs.
  assert (count <= Z.of_nat k * Z.min count n); [|lia].
  destruct (Z.le_ge_cases count n); [rewrite Z.min_l by lia; destruct k; [lia|]; rewrite Nat2Z.inj_succ; nia|by rewrite Z.min_r by lia].
Qed.
End fairness.

(** ** Agreement *)
Lemma differs_false block first :
  differs block first = false <->
  bi_number block = bi_number first /\ toLowerCase (bi_hash block) = toLowerCase (bi_hash first) /\
  bi_timestamp block = bi_timestamp first.
Proof.
  unfold differs. rewrite !orb_false_iff, !negb_false_iff, !Z.eqb_eq, bool_decide_eq_true. tauto.
Qed.

(** Agreement up to the case of the hash. *)
Definition same_block (a b : RpcBlockIdentity) : Prop := differs a b = false.

#[export] Instance same_block_equivalence : Equivalence same_block.
Proof.
  split; unfold same_block.
  - intros a. by apply differs_false.
  - intros a b (?&?&?)%differs_false. by apply differs_false.
  - intros a b c (?&?&?)%differs_false (?&?&?)%differs_false. apply differs_false. split_and!; congruence.
Qed.

Lemma existsb_false {A} (p : A -> bool) l : existsb p l = false <-> forall x, x ∈ l -> p x = false.
Proof.
  induction l as [|y l IH]; simpl; [split; [intros _ x Hx; by apply not_elem_of_nil in Hx|done]|].
  rewrite orb_false_iff, IH. split.
  - intros [Hy Hl] x [->|Hx]%elem_of_cons; auto.
  - intros H. split; [apply H; by left|intros x Hx; apply H; by right].
Qed.

Lemma assertAgreed_Ok blocks b :
  assertAgreedBlockIdentities blocks = Ok b <->
  (exists rest, blocks = b :: rest) /\ forall x, x ∈ blocks -> same_block x b.
Proof.
  unfold assertAgreedBlockIdentities. destruct blocks as [|first rest].
  { split; [done|]. by intros [[? ?] _]. }
  split.
  - intros H. apply result_bind_Ok in H as (u & Hf%fail_if_Ok & [= <-]).
    split; [by eexists|]. by apply existsb_false.
  - intros [[rest' E] Hall]. injection E as -> ->. rewrite guard_pass; [done|]. by apply existsb_false.
Qed.

Lemma foldr_min_le h hs x : x ∈ h :: hs -> foldr Z.min h hs <= x.
Proof.
  induction hs as [|y hs IH]; simpl.
  - intros ->%list_elem_of_singleton. done.
  - intros [->|[->|Hx]%elem_of_cons]%elem_of_cons; [|lia|].
    + assert (foldr Z.min h hs <= h) by (apply IH; by left). lia.
    + assert (foldr Z.min h hs <= x) by (apply IH; by right). lia.
Qed.

Lemma foldr_max_ge h hs x : x ∈ h :: hs -> x <= foldr Z.max h hs.
Proof.
  induction hs as [|y hs IH]; simpl.
  - intros ->%list_elem_of_singleton. done.
  - intros [->|[->|Hx]%elem_of_cons]%elem_of_cons; [|lia|].
    + assert (h <= foldr Z.max h hs) by (apply IH; by left). lia.
    + assert (x <= foldr Z.max h hs) by (apply IH; by right). lia.
Qed.

(** The common height is no head's future and at most the allowed lag behind. *)
Lemma selectCommonBlockHeight_Ok blocks height :
  selectCommonBlockHeight blocks = Ok height ->
  forall b, b ∈ blocks -> height <= bi_number b <= height + MAX_ALLOWED_RPC_HEAD_LAG_BLOCKS.
Proof.
  unfold selectCommonBlockHeight. destruct (bi_number <$> blocks) as [|h hs] eqn:E; [done|].
  intros H b Hb. apply result_bind_Ok in H as (u & Hf%fail_if_Ok & [= <-]). bool_to_prop.
  assert (Hin : bi_number b ∈ h :: hs) by (rewrite <- E; by apply list_elem_of_fmap_2).
  pose proof (foldr_min_le h hs _ Hin). pose proof (foldr_max_ge h hs _ Hin). lia.
Qed.

Lemma assertPinned_Ok expected blocks b :
  assertPinnedBlockIdentity expected blocks = Ok b ->
  blocks <> [] /\ forall x, x ∈ blocks -> same_block x expected.
Proof.
  unfold assertPinnedBlockIdentity. intros H.
  apply result_bind_Ok in H as (c & [[rest ->] Hc]%assertAgreed_Ok & H).
  apply result_bind_Ok in H as (u & Hf%fail_if_Ok & [= ->]).
  split; [done|]. intros x Hx. etrans; [by apply Hc|exact Hf].
Qed.

(** * Concrete instances *)
Lemma persistent_scan_covers_witness :
  exists xs s', scanPages 7 "historical:0xaa" 3 3 {| mj_entries := []; mj_checkpoints := [] |} = (Ok xs, s') /\
    forall x, 0 <= x < 7 -> x ∈ xs.
Proof.
  apply (persistent_scan_covers (S := MemoryJournal) 7 "historical:0xaa" 3); try reflexivity; vm_compute; congruence.
Defined.
