(* ===== verification/Gateway.v ===== *)
(** * The chain gateway (keeper/src/ethers-gateway.ts)

    [EthersKeeperGateway] over its providers.  What ethers, the wallet and the
    proof relayer do is the [Backend] class: one method per contract read,
    RPC request or signer call, over a world [W] which also holds the
    checkpoints.  [getAddress], [keccak256] and the ABI encoder are pure
    functions of the backend.  Calls started by [Promise.all] run here in the
    order they are started. *)
From Stdlib Require Import ZArith Lia Ascii.
From stdpp Require Import base option list sets strings numbers gmap.
From S2P Require Import Prelude.
From S2P Require Import Lifecycle.
From S2P Require Import Planner.
From S2P Require Import GasPolicy.
From S2P Require Import Journal.
From S2P Require Import Scan.
Local Open Scope Z_scope.

(** The tuple [roundInfo] returns. *)
Record RoundInfo := {
  ri_opensAt : Z; ri_closesAt : Z; ri_state : Z; ri_publicAggregateTwab : Z;
  ri_publicPrize : Z; ri_participantCount : Z; ri_selectionCursor : Z; ri_allocationCursor : Z
}.

Inductive AbiArg := AUint (z : Z) | AAddress (a : string) | ABytes (b : string).

Record TransactionRequest := {
  tr_to : string; tr_data : string; tr_nonce : option Z; tr_gasLimit : option Z;
  tr_maxFeePerGas : option Z; tr_gasPrice : option Z; tr_value : option Z
}.

Record Receipt := { rc_hash : string; rc_blockHash : string; rc_blockNumber : Z; rc_status : option Z }.

Class Backend (W : Type) := {
  bk_getAddress : string -> result string;
  bk_keccak256 : string -> string;
  bk_encodeFunctionData : string -> list AbiArg -> string;
  (* per endpoint *)
  bk_chainId : nat -> method W (option string);
  bk_getBlock : nat -> option Z -> method W (option RpcBlockIdentityCandidate);
  (* vault reads: address, then block tag *)
  bk_activeRoundId : string -> Z -> method W Z;
  bk_SETTLEMENT_BOND_ESCROW : string -> Z -> method W string;
  bk_roundInfo : string -> Z -> Z -> method W RoundInfo;
  bk_candidateValidityHandle : string -> Z -> Z -> method W string;
  bk_handle : string -> string -> Z -> method W string;
  (* escrow reads *)
  bk_VAULT : string -> Z -> method W string;
  bk_BOND_AMOUNT : string -> Z -> method W Z;
  bk_autoEntryAccountCount : string -> Z -> method W Z;
  bk_autoEntryAccountAt : string -> Z -> Z -> method W string;
  bk_isAutoEntryEnabled : string -> string -> Z -> Z -> method W bool;
  bk_automationBondCredit : string -> string -> Z -> method W Z;
  bk_isRegistered : string -> Z -> string -> Z -> method W bool;
  bk_autoEntryPreference : string -> string -> Z -> method W (bool * bool * Z);
  (* provider, wallet and relayer *)
  bk_getBalance : string -> method W Z;
  bk_call : string -> string -> string -> method W unit;
  bk_estimateGas : string -> string -> string -> method W Z;
  bk_populateTransaction : string -> string -> Z -> method W TransactionRequest;
  bk_signTransaction : TransactionRequest -> method W string;
  bk_broadcastTransaction : string -> method W string;
  bk_getTransactionReceipt : string -> method W (option Receipt);
  bk_confirmations : Receipt -> method W Z;
  bk_getTransaction : string -> method W (option TransactionView);
  bk_getTransactionCount : string -> string -> method W Z;
  bk_publicDecrypt : string -> method W PublicProof
}.

(** The fields the constructor fixes. *)
Record GatewayOptions := {
  go_rpcUrls : list string;
  go_vaults : list VaultConfig;
  go_autoEntryScanSize : js_number;
  go_historicalScanSize : js_number;
  go_gasPolicy : option GasPolicyConfig;
  go_keeperAddress : string
}.

Definition scan_size_invalid (m : js_number) : bool :=
  match m with JInt n => (n <? 1) || (500 <? n) | JNonInteger => true end.

(** The checks of the constructor; [keeperAddress] is derived from the private
    key by the wallet library. *)
Definition EthersKeeperGateway_new (options : GatewayOptions) : result GatewayOptions :=
  fail_if (bool_decide (go_rpcUrls options = []) ||
           existsb (fun url => negb (string_nonempty (trim url))) (go_rpcUrls options))
    "At least one non-empty RPC URL is required" ;;
  fail_if (scan_size_invalid (go_autoEntryScanSize options))
    "Auto-entry scan size must be an integer from 1 through 500" ;;
  fail_if (scan_size_invalid (go_historicalScanSize options))
    "Historical scan size must be an integer from 1 through 500" ;;
  Ok options.

Section gateway.
Context {W : Type} {BK : Backend W} {CS : CheckpointStore W} (options : GatewayOptions).

Definition gasPolicyOf : GasPolicyConfig := default DEFAULT_GAS_POLICY (go_gasPolicy options).
Definition endpoints : list nat := seq 0 (length (go_rpcUrls options)).

Definition getChainId : method W Z := verifySepoliaRpcIdentity (bk_chainId <$> endpoints).

Definition getKeeperBalance : method W Z := bk_getBalance (go_keeperAddress options).

(** ** Reading a vault at a block *)
Definition hinted (hint : option SnapshotReadHint) (vault : VaultConfig) (activeRoundId : Z)
    (roundIds : list Z) : list Z :=
  match hint with
  | Some {| srh_vaultAddress := address; srh_roundId := Some roundId |} =>
      if bool_decide (toLowerCase address = toLowerCase (vc_address vault)) &&
         (0 <? roundId) && (roundId <=? activeRoundId) && negb (bool_decide (roundId ∈ roundIds))
      then roundIds ++ [roundId] else roundIds
  | _ => roundIds
  end.

Definition readRound (vault : VaultConfig) (blockTag roundId : Z) : method W RoundSnapshot :=
  info ← bk_roundInfo (vc_address vault) roundId blockTag;
  let state := RoundState_of_number (ri_state info) in
  handle ← (if state_is state CANDIDATE_VALIDITY_PENDING || state_is state CANDIDATE_REJECTED
            then h ← bk_candidateValidityHandle (vc_address vault) roundId blockTag; mret (Some h)
            else mret None);
  mret {| rs_roundId := roundId; rs_opensAt := ri_opensAt info; rs_closesAt := ri_closesAt info;
          rs_state := state; rs_publicAggregateTwab := ri_publicAggregateTwab info;
          rs_publicPrize := ri_publicPrize info; rs_participantCount := ri_participantCount info;
          rs_selectionCursor := ri_selectionCursor info; rs_allocationCursor := ri_allocationCursor info;
          rs_candidateValidityHandle := handle |}.

Definition readAutoEntryAccount (escrow : string) (roundId blockTag : Z) (account : string) : method W AutoEntryCandidate :=
  reads ← promise_all2
    (promise_all2 (bk_isAutoEntryEnabled escrow account roundId blockTag) (bk_automationBondCredit escrow account blockTag))
    (promise_all2 (bk_isRegistered escrow roundId account blockTag) (bk_autoEntryPreference escrow account blockTag));
  let '((enabled, availableCredit), (registered, preference)) := reads in
  mret {| ae_account := account; ae_enabled := enabled; ae_prospectivelyEnabled := Some preference.1.2;
          ae_availableCredit := availableCredit; ae_registered := registered |}.

(** The account a hint adds to the page. *)
Definition requiredAccountFor (hint : option SnapshotReadHint) (vault : VaultConfig) (accounts : list string) : option string :=
  match hint with
  | Some {| srh_vaultAddress := address; srh_account := Some account |} =>
      if bool_decide (toLowerCase address = toLowerCase (vc_address vault)) &&
         negb (existsb (fun a => bool_decide (toLowerCase a = toLowerCase account)) accounts)
      then Some account else None
  | _ => None
  end.

Definition readAutoEntryCandidates (escrow : string) (vault : VaultConfig) (roundId blockTag : Z)
    (hint : option SnapshotReadHint) : method W (list AutoEntryCandidate) :=
  count ← bk_autoEntryAccountCount escrow blockTag;
  throw_if (MAX_SAFE_INTEGER <? count) "Auto-entry account count exceeds safe read bounds" ;;
  page ← persistentCircularScanPage count ("auto-entry:" +:+ toLowerCase (vc_address vault)) (go_autoEntryScanSize options);
  accounts ← promise_all ((fun index => a ← bk_autoEntryAccountAt escrow index blockTag; lift (bk_getAddress a))
                            <$> sp_indexes page);
  accounts ← match requiredAccountFor hint vault accounts with
             | Some account => a ← lift (bk_getAddress account); mret (accounts ++ [a])
             | None => mret accounts
             end;
  promise_all (readAutoEntryAccount escrow roundId blockTag <$> accounts).

Definition readVault (vault : VaultConfig) (blockTag : Z) (hint : option SnapshotReadHint) : method W VaultSnapshot :=
  reads ← promise_all2 (bk_activeRoundId (vc_address vault) blockTag)
                       (bk_SETTLEMENT_BOND_ESCROW (vc_address vault) blockTag);
  let '(activeRoundId, configuredEscrowAddress) := reads in
  throw_if (MAX_SAFE_INTEGER <? activeRoundId) "Active round id exceeds safe read bounds" ;;
  escrowAddress ← lift (bk_getAddress configuredEscrowAddress);
  manifestEscrow ← lift (bk_getAddress (vc_bondEscrow vault));
  throw_if (negb (bool_decide (escrowAddress = manifestEscrow)))
    ("Manifest escrow mismatch for vault " +:+ vc_name vault) ;;
  reads ← promise_all2 (bk_VAULT escrowAddress blockTag) (bk_BOND_AMOUNT escrowAddress blockTag);
  let '(escrowVault, bondAmount) := reads in
  backpointer ← lift (bk_getAddress escrowVault);
  vaultAddress ← lift (bk_getAddress (vc_address vault));
  throw_if (negb (bool_decide (backpointer = vaultAddress)))
    ("Escrow backpointer mismatch for vault " +:+ vc_name vault) ;;
  historicalPage ← persistentCircularScanPage (if 0 <? activeRoundId then activeRoundId - 1 else 0)
    ("historical:" +:+ toLowerCase (vc_address vault)) (go_historicalScanSize options);
  let roundIds := hinted hint vault activeRoundId
                    (((fun index => index + 1) <$> sp_indexes historicalPage) ++ [activeRoundId]) in
  rounds ← promise_all (readRound vault blockTag <$> roundIds);
  autoEntryCandidates ← (if default false (vc_automaticEntry vault)
                         then readAutoEntryCandidates escrowAddress vault activeRoundId blockTag hint
                         else mret []);
  mret {| vs_vault := vault; vs_activeRoundId := activeRoundId; vs_bondAmount := bondAmount;
          vs_autoEntryCandidates := autoEntryCandidates; vs_rounds := rounds |}.

(** ** The snapshot *)
Definition readBlocks (tag : option Z) : method W (list RpcBlockIdentity) :=
  promise_all ((fun endpoint => candidate ← bk_getBlock endpoint tag; lift (requireCompleteBlockIdentity candidate))
                 <$> endpoints).

Definition readSnapshot (hint : option SnapshotReadHint) : method W ProtocolSnapshot :=
  getChainId ;;
  latestBlocks ← readBlocks None;
  commonBlockNumber ← lift (selectCommonBlockHeight latestBlocks);
  commonBlocks ← readBlocks (Some commonBlockNumber);
  block ← lift (assertAgreedBlockIdentities commonBlocks);
  vaults ← promise_all ((fun vault => readVault vault (bi_number block) hint) <$> go_vaults options);
  canonicalBlocks ← readBlocks (Some (bi_number block));
  lift (assertPinnedBlockIdentity block canonicalBlocks) ;;
  mret {| ps_chainId := SEPOLIA_CHAIN_ID; ps_blockNumber := bi_number block; ps_blockHash := bi_hash block;
          ps_blockTimestamp := bi_timestamp block; ps_vaults := vaults |}.

(** ** Calldata *)
Definition publicProof (roundId : Z) (address handleFunction : string) : method W PublicProof :=
  handle ← bk_handle address handleFunction roundId;
  bk_publicDecrypt handle.

(** Calldata with a decryption proof for the handle a getter returns. *)
Definition withProof (function handleFunction : string) (action : LifecycleAction) : method W string :=
  proof ← publicProof (la_roundId action) (vc_address (la_vault action)) handleFunction;
  mret (bk_encodeFunctionData function
          [AUint (la_roundId action); ABytes (abiEncodedClearValues proof); ABytes (decryptionProof proof)]).

(** [undefined] reaches the encoder as no argument. *)
Definition chunk_arg (action : LifecycleAction) : list AbiArg :=
  match actionChunkSize action with Some n => [AUint n] | None => [] end.

Definition encodeAction (action : LifecycleAction) : method W string :=
  let account := match la_account action with
                 | Some a => if string_nonempty a then Some a else None
                 | None => None
                 end in
  let round := AUint (la_roundId action) in
  match la_kind action with
  | register_auto_entry =>
      match account with
      | Some a => mret (bk_encodeFunctionData "registerForRoundFor" [AAddress a; round])
      | None => lift (throw_new "Auto-entry action is missing its participant account")
      end
  | prune_auto_entry =>
      match account with
      | Some a => mret (bk_encodeFunctionData "pruneAutoEntryAccount" [AAddress a])
      | None => lift (throw_new "Auto-entry prune action is missing its participant account")
      end
  | close_round => mret (bk_encodeFunctionData "closeRound" [])
  | finalize_aggregate => withProof "finalizeAggregate" "aggregateTwabHandle" action
  | settle_empty_round => mret (bk_encodeFunctionData "settleEmptyRound" [round])
  | generate_random_candidate => mret (bk_encodeFunctionData "generateRandomCandidate" [round])
  | finalize_candidate_validity => withProof "finalizeCandidateValidity" "candidateValidityHandle" action
  | process_selection => mret (bk_encodeFunctionData "processSelection" (round :: chunk_arg action))
  | finalize_reconciliation => withProof "finalizeSelectionReconciliation" "reconciliationHandle" action
  | recover_failed_reconciliation => mret (bk_encodeFunctionData "recoverFailedReconciliation" [round])
  | process_allocation => mret (bk_encodeFunctionData "processAllocation" (round :: chunk_arg action))
  | finalize_settlement => mret (bk_encodeFunctionData "finalizeSettlement" [round])
  end.

(** ** Transactions *)
Definition target (action : LifecycleAction) : string :=
  match la_kind action with
  | register_auto_entry | prune_auto_entry => vc_bondEscrow (la_vault action)
  | _ => vc_address (la_vault action)
  end.

Definition simulate (action : LifecycleAction) (data : string) : method W unit :=
  bk_call (go_keeperAddress options) (target action) data.

(** The estimate, or the fallback when the kind has a gas floor. *)
Definition estimate (action : LifecycleAction) (data : string) : method W (option Z * bool) :=
  try_catch
    (gas ← bk_estimateGas (go_keeperAddress options) (target action) data; mret (Some gas, false))
    (fun error => match gp_floors gasPolicyOf !! kind_string (la_kind action) with
                  | None => throw_in error
                  | Some _ => mret (None, true)
                  end).

Definition sign (action : LifecycleAction) (data : string) : method W SignedLifecycleTransaction :=
  estimated ← estimate action data;
  let '(estimatedGas, estimationFallback) := estimated in
  gasPolicy ← lift (applyGasPolicy (la_kind action) estimatedGas gasPolicyOf estimationFallback);
  request ← bk_populateTransaction (target action) data (gd_gasLimit gasPolicy);
  serialized ← bk_signTransaction request;
  match tr_nonce request, tr_gasLimit request with
  | Some nonce, Some gasLimit =>
      match union (tr_maxFeePerGas request) (tr_gasPrice request) with
      | Some feePerGas =>
          mret {| st_action := action; st_hash := bk_keccak256 serialized; st_nonce := nonce;
                  st_serialized := serialized; st_calldataHash := bk_keccak256 data;
                  st_maximumCostWei := gasLimit * feePerGas + default 0 (tr_value request);
                  st_gasPolicy := Some gasPolicy |}
      | None => lift (throw_new "RPC did not populate transaction fee")
      end
  | _, _ => lift (throw_new "RPC did not populate transaction nonce/gas limit")
  end.

Definition gatewayBroadcast (transaction : SignedLifecycleTransaction) : method W string :=
  bk_broadcastTransaction (st_serialized transaction).

Definition getReceipt (hash : string) : method W (option ReceiptView) :=
  receipt ← bk_getTransactionReceipt hash;
  match receipt with
  | None => mret None
  | Some r =>
      confirmations ← bk_confirmations r;
      mret (Some {| rv_hash := rc_hash r; rv_blockHash := rc_blockHash r; rv_blockNumber := rc_blockNumber r;
                    rv_status := rc_status r; rv_confirmations := confirmations |})
  end.

Definition getTransactionCount (blockTag : string) : method W Z :=
  bk_getTransactionCount (go_keeperAddress options) blockTag.

(** The gateway the engine is given. *)
#[export] Instance EthersKeeperGateway : KeeperGateway W := {
  gw_getChainId := getChainId;
  gw_getKeeperBalance := getKeeperBalance;
  gw_readSnapshot := readSnapshot;
  gw_encodeAction := encodeAction;
  gw_simulate := simulate;
  gw_sign := sign;
  gw_broadcast := gatewayBroadcast;
  gw_getReceipt := getReceipt;
  gw_getTransaction := bk_getTransaction;
  gw_getTransactionCount := getTransactionCount
}.
End gateway.

(** * Lemmas *)
Section reads.
Context {W : Type} {BK : Backend W} {CS : CheckpointStore W} (options : GatewayOptions).

(** [ep] answered, at some point, with the complete block [b]. *)
Definition answered (ep : nat) (tag : option Z) (b : RpcBlockIdentity) : Prop :=
  exists w candidate w', bk_getBlock ep tag w = (Ok candidate, w') /\
    requireCompleteBlockIdentity candidate = Ok b.

(** [ep] answered [eth_chainId] with Sepolia's. *)
Definition reports_Sepolia (ep : nat) : Prop :=
  exists w id w', bk_chainId ep w = (Ok (Some id), w') /\ matches_hex_quantity id = true /\
    BigInt_of_hex id = SEPOLIA_CHAIN_ID.

Lemma wp_readBlocks tag (Q : result (list RpcBlockIdentity) -> W -> Prop) w :
  (forall r w', (forall bs, r = Ok bs -> Forall2 (fun ep b => answered ep tag b) (endpoints options) bs) -> Q r w') ->
  wp (readBlocks options tag) Q w.
Proof.
  intros HQ. unfold readBlocks. eapply wp_promise_all; [|exact HQ].
  intros ep w1. unfold wp, mbind, method_bind.
  destruct (bk_getBlock ep tag w1) as [[c|e] w2] eqn:E; [|done].
  simpl. intros b Hb. by exists w1, c, w2.
Qed.

Lemma parseChainId_Ok answer c :
  parseChainId answer = Ok c -> exists id, answer = Some id /\ matches_hex_quantity id = true /\ BigInt_of_hex id = c.
Proof. destruct answer as [id|]; simpl; [|done]. destruct (matches_hex_quantity id) eqn:E; [|done]. intros [= <-]. eauto. Qed.

Lemma wp_getChainId w :
  wp (getChainId options) (fun r _ => forall c, r = Ok c ->
    c = SEPOLIA_CHAIN_ID /\ endpoints options <> [] /\ Forall reports_Sepolia (endpoints options)) w.
Proof.
  unfold getChainId, verifySepoliaRpcIdentity. destruct (endpoints options) as [|ep0 eps] eqn:E; [done|].
  change (match bk_chainId <$> (ep0 :: eps) with [] => ?a | _ :: _ => ?b end) with b.
  apply wp_bind. rewrite <- list_fmap_compose.
  eapply (wp_promise_all _ _ (fun ep c => exists w id w', bk_chainId ep w = (Ok (Some id), w') /\
            matches_hex_quantity id = true /\ BigInt_of_hex id = c)).
  { intros ep w1. unfold compose, wp, mbind, method_bind.
    destruct (bk_chainId ep w1) as [[a|e] w2] eqn:Ec; [|done]. simpl.
    intros c (id & -> & ? & ?)%parseChainId_Ok. eauto 8. }
  intros [cs|e] w1 Hcs; [|done]. specialize (Hcs cs eq_refl).
  apply wp_bind, wp_throw_if; [done|]. intros Hne. rewrite existsb_false in Hne.
  apply wp_ret. intros c [= <-]. split_and!; [done|done|].
  apply Forall_lookup_2. intros i ep Hep.
  destruct (Forall2_lookup_l _ _ _ _ _ Hcs Hep) as (c & Hc & w2 & id & w3 & E1 & E2 & E3).
  exists w2, id, w3. split_and!; [done|done|].
  apply list_elem_of_lookup_2, Hne, negb_false_iff, Z.eqb_eq in Hc. congruence.
Qed.

(** Everything a snapshot of block [block] rests on, endpoint by endpoint. *)
Definition pinned (block : RpcBlockIdentity) (height : Z) (ep : nat) : Prop :=
  reports_Sepolia ep /\
  (exists b, answered ep None b /\ height <= bi_number b <= height + MAX_ALLOWED_RPC_HEAD_LAG_BLOCKS) /\
  (exists b, answered ep (Some height) b /\ same_block b block) /\
  (exists b, answered ep (Some (bi_number block)) b /\ same_block b block).

Lemma Forall2_answer {P : nat -> RpcBlockIdentity -> Prop} {eps bs ep} :
  Forall2 P eps bs -> ep ∈ eps -> exists b, b ∈ bs /\ P ep b.
Proof.
  intros H Hin. apply list_elem_of_lookup in Hin as [i Hi].
  destruct (Forall2_lookup_l _ _ _ _ _ H Hi) as (b & Hb & HP). exists b. split; [|done].
  by eapply list_elem_of_lookup_2.
Qed.

(** C35: Snapshots are pinned.  A snapshot the gateway returns is labelled with
    Sepolia and with one block that every configured endpoint served twice,
    before and after the vaults were read, at a height no endpoint is more
    than two blocks ahead of; every endpoint reported Sepolia; and every
    configured vault was read, in order, at that block. *)
Theorem readSnapshot_pinned hint w snapshot w' :
  readSnapshot options hint w = (Ok snapshot, w') ->
  exists block height,
    ps_chainId snapshot = SEPOLIA_CHAIN_ID /\ ps_blockNumber snapshot = bi_number block /\
    ps_blockHash snapshot = bi_hash block /\ ps_blockTimestamp snapshot = bi_timestamp block /\
    endpoints options <> [] /\ Forall (pinned block height) (endpoints options) /\
    Forall2 (fun vault v => exists w1 w2, readVault options vault (bi_number block) hint w1 = (Ok v, w2))
      (go_vaults options) (ps_vaults snapshot).
Proof.
  intros E. by_wp E.
  unfold readSnapshot. apply wp_bind. eapply wp_mono; [apply wp_getChainId|].
  intros [c|e] w1 Hc; [|done]. destruct (Hc c eq_refl) as (_ & Hne & Hsep).
  apply wp_bind, wp_readBlocks. intros [latest|e] w2 Hl; [|done]. specialize (Hl latest eq_refl).
  apply wp_bind, wp_lift. destruct (selectCommonBlockHeight latest) as [height|e] eqn:Eh; [|done].
  apply wp_bind, wp_readBlocks. intros [common|e] w3 Hcm; [|done]. specialize (Hcm common eq_refl).
  apply wp_bind, wp_lift. destruct (assertAgreedBlockIdentities common) as [block|e] eqn:Eb; [|done].
  apply wp_bind. eapply wp_promise_all; [intros vault w4; apply wp_value|].
  intros [vaults|e] w5 Hv; [|done]. specialize (Hv vaults eq_refl).
  apply wp_bind, wp_readBlocks. intros [canonical|e] w6 Hcn; [|done]. specialize (Hcn canonical eq_refl).
  apply wp_bind, wp_lift. destruct (assertPinnedBlockIdentity block canonical) as [b|e] eqn:Ep; [|done].
  apply wp_ret. intros s [= <-]. exists block, height. split_and!; try done.
  apply Forall_lookup_2. intros i ep Hep. pose proof (list_elem_of_lookup_2 _ _ _ Hep) as Hin.
  apply assertAgreed_Ok in Eb as [_ Hag]. apply assertPinned_Ok in Ep as [_ Hpin].
  destruct (Forall2_answer Hl Hin) as (b1 & Hb1 & A1).
  destruct (Forall2_answer Hcm Hin) as (b2 & Hb2 & A2).
  destruct (Forall2_answer Hcn Hin) as (b3 & Hb3 & A3).
  split_and!.
  - by eapply Forall_lookup_1.
  - exists b1. split; [done|]. by eapply selectCommonBlockHeight_Ok.
  - exists b2. split; [done|]. by apply Hag.
  - exists b3. split; [done|]. by apply Hpin.
Qed.

(** ** What a vault snapshot holds *)
Lemma wp_persistent_page count key m (w : W) :
  wp (persistentCircularScanPage count key m) (fun r _ => forall page, r = Ok page ->
    exists cursor, circularScanPage count cursor m = Ok page) w.
Proof.
  unfold persistentCircularScanPage. apply wp_bind, wp_any. intros [enc|e] w1; [|done].
  apply wp_bind, wp_throw_if; [done|]. intros _.
  apply wp_bind, wp_lift. destruct (match enc with Some _ => _ | None => _ end) as [cursor|e]; [|done].
  apply wp_bind, wp_lift. destruct (circularScanPage count cursor m) as [page|e] eqn:E; [|done].
  apply wp_bind, wp_any. intros [[]|e] w2; [|done]. apply wp_ret. intros p [= <-]. by exists cursor.
Qed.

Lemma readRound_id vault tag id (w : W) :
  wp (readRound vault tag id) (fun r _ => forall v, r = Ok v -> rs_roundId v = id) w.
Proof.
  unfold readRound. apply wp_bind, wp_any. intros [info|e] w1; [|done].
  apply wp_bind, wp_any. intros [h|e] w2; [|done]. apply wp_ret. by intros v [= <-].
Qed.

(** The rounds a read covers, given a page of historical indexes. *)
Definition coverage (hint : option SnapshotReadHint) (vault : VaultConfig) (activeRoundId : Z) (ids : list Z) : Prop :=
  NoDup ids /\ activeRoundId ∈ ids /\
  (forall id, id ∈ ids -> id = activeRoundId \/ 1 <= id < activeRoundId) /\
  (forall h id, hint = Some h -> srh_roundId h = Some id ->
     toLowerCase (srh_vaultAddress h) = toLowerCase (vc_address vault) -> 0 < id <= activeRoundId -> id ∈ ids).

Lemma hinted_coverage hint vault activeRoundId page cursor m :
  circularScanPage (if 0 <? activeRoundId then activeRoundId - 1 else 0) cursor m = Ok page ->
  coverage hint vault activeRoundId
    (hinted hint vault activeRoundId (((fun i => i + 1) <$> sp_indexes page) ++ [activeRoundId])).
Proof.
  intros E. destruct (circularScanPage_indexes _ _ _ _ E) as (Hnd & Hr & _).
  set (base := ((fun i => i + 1) <$> sp_indexes page) ++ [activeRoundId]).
  assert (Hrange : forall id, id ∈ (fun i => i + 1) <$> sp_indexes page -> 1 <= id < activeRoundId).
  { intros id (i & -> & Hi)%list_elem_of_fmap. rewrite list_elem_of_In in Hi.
    eapply List.Forall_forall in Hr; [|done]. simpl in Hr. destruct (Z.ltb_spec 0 activeRoundId); lia. }
  assert (Hb : NoDup base /\ activeRoundId ∈ base /\
               forall id, id ∈ base -> id = activeRoundId \/ 1 <= id < activeRoundId).
  { unfold base. split_and!.
    - apply NoDup_app. split_and!; [|intros id Hid ->%list_elem_of_singleton; apply Hrange in Hid; lia|apply NoDup_singleton].
      apply NoDup_fmap_2_strong; [intros i j _ _ ?; lia|done].
    - apply elem_of_app. right. by left.
    - intros id [Hid| ->%list_elem_of_singleton]%elem_of_app; [right; by apply Hrange|by left]. }
  destruct Hb as (Hbn & Hba & Hbr). unfold hinted, coverage.
  destruct hint as [[address account [roundId|]]|]; [|by split_and!; try done; intros h id [= <-] [=]|by split_and!].
  destruct (bool_decide _ && _ && _ && _) eqn:C; bool_to_prop.
  - split_and!.
    + apply NoDup_app. split_and!; [done|intros id Hid ->%list_elem_of_singleton; done|apply NoDup_singleton].
    + apply elem_of_app. by left.
    + intros id [Hid| ->%list_elem_of_singleton]%elem_of_app; [by apply Hbr|].
      destruct (Z.eq_dec roundId activeRoundId); [by left|right; lia].
    + intros h id [= <-] [= <-] _ _. apply elem_of_app. right. by left.
  - split_and!; [done|done|done|]. intros h id [= <-] [= <-] Ha Hid. simpl in Ha.
    destruct C as [[[C|C]%andb_false_iff|C]%andb_false_iff|C]; bool_to_prop; [done|lia|lia|done].
Qed.

(** Vault reads.  A vault snapshot the gateway returns names the vault asked
    for, whose contract and escrow point at each other and at the manifest's
    escrow; its rounds are the active one, earlier ones and the one asked
    for, each once, every one read from the contract at the block. *)
Theorem readVault_sound vault blockTag hint w v w' :
  readVault options vault blockTag hint w = (Ok v, w') ->
  vs_vault v = vault /\
  (exists w1 configured escrow w2 w3 backpointer w4,
     bk_SETTLEMENT_BOND_ESCROW (vc_address vault) blockTag w1 = (Ok configured, w2) /\
     bk_getAddress configured = Ok escrow /\ bk_getAddress (vc_bondEscrow vault) = Ok escrow /\
     bk_VAULT escrow blockTag w3 = (Ok backpointer, w4) /\
     is_ok (bk_getAddress backpointer) = true /\ bk_getAddress backpointer = bk_getAddress (vc_address vault)) /\
  coverage hint vault (vs_activeRoundId v) (rs_roundId <$> vs_rounds v) /\
  Forall (fun r => exists w1 w2, readRound vault blockTag (rs_roundId r) w1 = (Ok r, w2)) (vs_rounds v).
Proof.
  intros E. by_wp E. unfold readVault. apply wp_bind, wp_promise_all2.
  eapply wp_mono; [apply wp_value|]. intros r1 wa _. eapply wp_mono; [apply wp_value|]. intros r2 wb H2.
  destruct r1 as [active|e1], r2 as [configured|e2]; simpl; try done.
  destruct (H2 configured eq_refl) as (w1 & w2 & Hconf).
  apply wp_bind, wp_throw_if; [done|]. intros _.
  apply wp_bind, wp_lift. destruct (bk_getAddress configured) as [escrow|e] eqn:Eesc; [|done].
  apply wp_bind, wp_lift. destruct (bk_getAddress (vc_bondEscrow vault)) as [manifest|e] eqn:Eman; [|done].
  apply wp_bind, wp_throw_if; [done|]. intros <-%negb_false_iff%bool_decide_eq_true.
  apply wp_bind, wp_promise_all2. eapply wp_mono; [apply wp_value|]. intros r3 wc H3.
  apply wp_any. intros r4 wd. destruct r3 as [backpointer|e3], r4 as [bond|e4]; simpl; try done.
  destruct (H3 backpointer eq_refl) as (w3 & w4 & Hback).
  apply wp_bind, wp_lift. destruct (bk_getAddress backpointer) as [bp|e] eqn:Ebp; [|done].
  apply wp_bind, wp_lift. destruct (bk_getAddress (vc_address vault)) as [va|e] eqn:Eva; [|done].
  apply wp_bind, wp_throw_if; [done|]. intros <-%negb_false_iff%bool_decide_eq_true.
  apply wp_bind. eapply wp_mono; [apply wp_persistent_page|]. intros [page|e] we Hp; [|done].
  destruct (Hp page eq_refl) as [cursor Hpage].
  apply wp_bind. eapply (wp_promise_all _ _ (fun id r => rs_roundId r = id /\
                           exists w1 w2, readRound vault blockTag id w1 = (Ok r, w2))).
  { intros id wf. pose proof (readRound_id vault blockTag id wf) as Hid. unfold wp in *.
    destruct (readRound vault blockTag id wf) as [r wg] eqn:Er. intros b ->. split; [by apply Hid|eauto]. }
  intros [rounds|e] wf Hr; [|done]. specialize (Hr rounds eq_refl).
  apply wp_bind, wp_any. intros [accounts|e] wg; [|done]. apply wp_ret. intros s [= <-]. simpl.
  assert (Eids : rs_roundId <$> rounds = hinted hint vault active (((fun i => i + 1) <$> sp_indexes page) ++ [active])).
  { clear -Hr. revert Hr. generalize (hinted hint vault active (((fun i => i + 1) <$> sp_indexes page) ++ [active])).
    intros ids Hr. induction Hr as [|id r ids rs [? ?] ? IH]; [done|]. rewrite fmap_cons, IH. by f_equal. }
  split_and!; [done| | |].
  - exists w1, configured, escrow, w2, w3, backpointer, w4. rewrite Ebp. split_and!; try done; congruence.
  - rewrite Eids. by eapply hinted_coverage.
  - apply Forall_lookup_2. intros i r Hi. destruct (Forall2_lookup_r _ _ _ _ _ Hr Hi) as (id & _ & <- & Hrd). exact Hrd.
Qed.
End reads.

(** * Concrete instances

    Two endpoints one block apart over one vault in its third round; the world
    is a memory journal, for its checkpoints. *)
#[local] Instance demo_backend : Backend MemoryJournal := {
  bk_getAddress := Ok;
  bk_keccak256 := fun s => s;
  bk_encodeFunctionData := fun f _ => f;
  bk_chainId := fun _ => mret (Some "0xaa36a7");
  bk_getBlock := fun ep tag => mret (Some {|
    bc_number := match tag with Some n => n | None => 100 + Z.of_nat ep end;
    bc_hash := Some (if (ep =? 0)%nat then "0xAB" else "0xab"); bc_timestamp := 1000 |});
  bk_activeRoundId := fun _ _ => mret 3;
  bk_SETTLEMENT_BOND_ESCROW := fun _ _ => mret "0xe";
  bk_roundInfo := fun _ _ _ => mret {| ri_opensAt := 0; ri_closesAt := 900; ri_state := 1; ri_publicAggregateTwab := 0;
    ri_publicPrize := 0; ri_participantCount := 0; ri_selectionCursor := 0; ri_allocationCursor := 0 |};
  bk_candidateValidityHandle := fun _ _ _ => mret "0x0";
  bk_handle := fun _ _ _ => mret "0x0";
  bk_VAULT := fun _ _ => mret "0xa";
  bk_BOND_AMOUNT := fun _ _ => mret 5;
  bk_autoEntryAccountCount := fun _ _ => mret 2;
  bk_autoEntryAccountAt := fun _ i _ => mret (if i =? 0 then "0x1" else "0x2");
  bk_isAutoEntryEnabled := fun _ _ _ _ => mret true;
  bk_automationBondCredit := fun _ _ _ => mret 5;
  bk_isRegistered := fun _ _ _ _ => mret false;
  bk_autoEntryPreference := fun _ _ _ => mret (true, true, 0);
  bk_getBalance := fun _ => mret 1000;
  bk_call := fun _ _ _ => mret tt;
  bk_estimateGas := fun _ _ _ => mret 21000;
  bk_populateTransaction := fun t d g => mret {| tr_to := t; tr_data := d; tr_nonce := Some 1; tr_gasLimit := Some g;
    tr_maxFeePerGas := Some 2; tr_gasPrice := None; tr_value := None |};
  bk_signTransaction := fun r => mret (tr_data r);
  bk_broadcastTransaction := mret;
  bk_getTransactionReceipt := fun _ => mret None;
  bk_confirmations := fun _ => mret 1;
  bk_getTransaction := fun _ => mret None;
  bk_getTransactionCount := fun _ _ => mret 1;
  bk_publicDecrypt := fun _ => mret {| abiEncodedClearValues := "0x"; decryptionProof := "0x" |}
}.

Definition demo_vault : VaultConfig :=
  {| vc_id := 1; vc_name := "Daily"; vc_cadence := "daily"; vc_address := "0xa"; vc_bondEscrow := "0xe";
     vc_automaticEntry := Some true |}.
Definition demo_options : GatewayOptions :=
  {| go_rpcUrls := ["a"; "b"]; go_vaults := [demo_vault]; go_autoEntryScanSize := JInt 1;
     go_historicalScanSize := JInt 1; go_gasPolicy := None; go_keeperAddress := "0xk" |}.
Definition demo_world : MemoryJournal := {| mj_entries := []; mj_checkpoints := [] |}.

Lemma readSnapshot_pinned_witness :
  exists snapshot w', readSnapshot demo_options None demo_world = (Ok snapshot, w') /\
    ps_blockNumber snapshot = 100 /\
    exists block height, ps_blockHash snapshot = bi_hash block /\ Forall (pinned block height) (endpoints demo_options).
Proof.
  destruct (readSnapshot demo_options None demo_world) as [[snapshot|e] w'] eqn:E;
    [|exfalso; vm_compute in E; discriminate E].
  pose proof (readSnapshot_pinned demo_options None demo_world snapshot w' E) as (block & height & H).
  exists snapshot, w'. split; [done|]. split; [vm_compute in E; by injection E as <- _|].
  exists block, height. by destruct H as (_ & _ & Hh & _ & _ & Hp & _).
Defined.

Lemma readVault_sound_witness :
  let hint := Some {| srh_vaultAddress := "0xA"; srh_account := Some "0x2"; srh_roundId := Some 2 |} in
  exists v w', readVault demo_options demo_vault 100 hint demo_world = (Ok v, w') /\
    (rs_roundId <$> vs_rounds v) = [1; 3; 2] /\ (ae_account <$> vs_autoEntryCandidates v) = ["0x1"; "0x2"] /\
    coverage hint demo_vault (vs_activeRoundId v) (rs_roundId <$> vs_rounds v).
Proof.
  intros hint. destruct (readVault demo_options demo_vault 100 hint demo_world) as [[v|e] w'] eqn:E;
    [|exfalso; vm_compute in E; discriminate E].
  pose proof (readVault_sound demo_options demo_vault 100 hint demo_world v w' E) as (_ & _ & H & _).
  exists v, w'. split; [done|]. split; [vm_compute in E; by injection E as <- _|].
  split; [vm_compute in E; by injection E as <- _|]. exact H.
Defined.
