(* ===== verification/Twab.v ===== *)
(** * Time-weighted balances (reference/leopoldModels.ts, TwabReferenceModel)

    The reference model of balance-time accounting: one checkpoint list per
    account and vault and one per vault, read by binary search.  Its
    specification is the sum of [delta * (t - timestamp)] over the balance
    changes made up to [t]. *)
From Stdlib Require Import ZArith Lia Ascii.
From stdpp Require Import base option list sets strings sorting.
From S2P Require Import Prelude.
Local Open Scope Z_scope.

Inductive VaultId : Type := Vault1 | Vault2 | Vault3 | Vault4.

#[export] Instance VaultId_eq_dec : EqDecision VaultId.
Proof. solve_decision. Defined.

Definition VaultId_number (v : VaultId) : Z :=
  match v with Vault1 => 1 | Vault2 => 2 | Vault3 => 3 | Vault4 => 4 end.

Record Checkpoint := { cp_timestamp : Z; cp_balance : Z; cp_cumulative : Z }.

Definition key (vaultId : VaultId) (account : string) : string :=
  Z_toString (VaultId_number vaultId) +:+ ":" +:+ toLowerCase account.

Record TwabReferenceModel := {
  tw_checkpoints : list (string * list Checkpoint);
  tw_vaultTotals : list (VaultId * list Checkpoint)
}.

Definition emptyTwab : TwabReferenceModel := {| tw_checkpoints := []; tw_vaultTotals := [] |}.

(** [this.last(values)?.balance ?? 0n] *)
Definition lastBalance (values : option (list Checkpoint)) : Z :=
  match values with
  | Some cps => match last cps with Some c => cp_balance c | None => 0 end
  | None => 0
  end.

Definition userCheckpoints (vaultId : VaultId) (account : string) (m : TwabReferenceModel) : option (list Checkpoint) :=
  map_get (key vaultId account) (tw_checkpoints m).
Definition vaultCheckpoints (vaultId : VaultId) (m : TwabReferenceModel) : option (list Checkpoint) :=
  map_get vaultId (tw_vaultTotals m).

Definition balance (vaultId : VaultId) (account : string) (m : TwabReferenceModel) : Z :=
  lastBalance (userCheckpoints vaultId account m).
Definition totalBalance (vaultId : VaultId) (m : TwabReferenceModel) : Z :=
  lastBalance (vaultCheckpoints vaultId m).

(** [checkpoints.pop()] and [push]: replacing the last element. *)
Definition set_last (c : Checkpoint) (cps : list Checkpoint) : list Checkpoint := removelast cps ++ [c].

Definition write (checkpoints : list Checkpoint) (newBalance timestamp : Z) : result (list Checkpoint) :=
  match last checkpoints with
  | None => Ok (checkpoints ++ [{| cp_timestamp := timestamp; cp_balance := newBalance; cp_cumulative := 0 |}])
  | Some previous =>
      fail_if (timestamp <? cp_timestamp previous) "actions must be chronological" ;;
      let cumulative := cp_cumulative previous + cp_balance previous * (timestamp - cp_timestamp previous) in
      let checkpoint := {| cp_timestamp := timestamp; cp_balance := newBalance; cp_cumulative := cumulative |} in
      Ok (if cp_timestamp previous =? timestamp then set_last checkpoint checkpoints
          else checkpoints ++ [checkpoint])
  end.

(** A [write] that throws leaves its array as it was; the account's array is in
    the map before the total's is written. *)
Definition change (vaultId : VaultId) (account : string) (delta timestamp : Z) : method TwabReferenceModel unit :=
  let userKey := key vaultId account in
  user ← gets (fun m => default [] (map_get userKey (tw_checkpoints m)));
  let userBalance := lastBalance (Some user) in
  throw_if (userBalance + delta <? 0) "negative balance" ;;
  user ← lift (write user (userBalance + delta) timestamp);
  modify (fun m => {| tw_checkpoints := map_set userKey user (tw_checkpoints m);
                      tw_vaultTotals := tw_vaultTotals m |}) ;;
  total ← gets (fun m => default [] (map_get vaultId (tw_vaultTotals m)));
  let totalBalance := lastBalance (Some total) in
  throw_if (totalBalance + delta <? 0) "negative aggregate" ;;
  total ← lift (write total (totalBalance + delta) timestamp);
  modify (fun m => {| tw_checkpoints := tw_checkpoints m;
                      tw_vaultTotals := map_set vaultId total (tw_vaultTotals m) |}).

Definition deposit (vaultId : VaultId) (account : string) (amount timestamp : Z) : method TwabReferenceModel unit :=
  throw_if (amount <=? 0) "deposit must be positive" ;;
  change vaultId account amount timestamp.

Definition withdraw (vaultId : VaultId) (account : string) (amount timestamp : Z) : method TwabReferenceModel unit :=
  available ← gets (balance vaultId account);
  throw_if ((amount <=? 0) || (available <? amount)) "invalid withdrawal" ;;
  change vaultId account (- amount) timestamp.

Definition move (source destination : VaultId) (account : string) (amount timestamp : Z) : method TwabReferenceModel unit :=
  throw_if (bool_decide (source = destination)) "vault move must cross vaults" ;;
  withdraw source account amount timestamp ;;
  deposit destination account amount timestamp.

(** The [while] of [interpolate]; [None] is running out of fuel, an index out
    of range a [TypeError]. *)
Definition type_error : js_error := JsError true "TypeError" None "Cannot read properties of undefined".

Fixpoint search (fuel : nat) (checkpoints : list Checkpoint) (timestamp : Z) (low high : nat) : option (result nat) :=
  if (low + 1 <? high)%nat then
    match fuel with
    | O => None
    | S fuel' =>
        let middle := (low + (high - low) / 2)%nat in
        match checkpoints !! middle with
        | None => Some (Throw type_error)
        | Some c => if cp_timestamp c <=? timestamp then search fuel' checkpoints timestamp middle high
                    else search fuel' checkpoints timestamp low middle
        end
    end
  else Some (Ok low).

Definition interpolate (fuel : nat) (checkpoints : option (list Checkpoint)) (timestamp : Z) : option (result Z) :=
  match checkpoints with
  | None | Some [] => Some (Ok 0)
  | Some ((first :: _) as cps) =>
      if timestamp <? cp_timestamp first then Some (Ok 0)
      else match search fuel cps timestamp 0 (length cps) with
           | None => None
           | Some r => Some (low ← r;
               match cps !! low with
               | Some c => Ok (cp_cumulative c + cp_balance c * (timestamp - cp_timestamp c))
               | None => Throw type_error
               end)
           end
  end.

(** As many turns as there are checkpoints are enough ([interpolate_value]). *)
Definition interpolateAll (checkpoints : option (list Checkpoint)) (timestamp : Z) : option (result Z) :=
  interpolate (length (default [] checkpoints)) checkpoints timestamp.

Definition cumulativeAt (vaultId : VaultId) (account : string) (timestamp : Z) (m : TwabReferenceModel) : option (result Z) :=
  interpolateAll (userCheckpoints vaultId account m) timestamp.

(** Both reads, subtracted. *)
Definition difference (closing opening : option (result Z)) : option (result Z) :=
  match closing, opening with
  | Some r1, Some r2 => Some (c ← r1; o ← r2; Ok (c - o))
  | _, _ => None
  end.

Definition weight (vaultId : VaultId) (account : string) (opensAt closesAt : Z) (m : TwabReferenceModel) : option (result Z) :=
  if closesAt <? opensAt then Some (throw_new "invalid interval")
  else difference (cumulativeAt vaultId account closesAt m) (cumulativeAt vaultId account opensAt m).

Definition aggregateWeight (vaultId : VaultId) (opensAt closesAt : Z) (m : TwabReferenceModel) : option (result Z) :=
  difference (interpolateAll (vaultCheckpoints vaultId m) closesAt)
             (interpolateAll (vaultCheckpoints vaultId m) opensAt).

Definition checkpointSnapshot (vaultId : VaultId) (account : string) (m : TwabReferenceModel) : list Checkpoint :=
  default [] (userCheckpoints vaultId account m).

(** * Specification *)

(** A balance change is a timestamp and a delta.  The exact cumulative
    balance-time at [t]: *)
Definition balance_time (acts : list (Z * Z)) (t : Z) : Z :=
  foldr (fun a total => (if a.1 <=? t then a.2 * (t - a.1) else 0) + total) 0 acts.
Definition net (acts : list (Z * Z)) : Z := foldr (fun a total => a.2 + total) 0 acts.

(** The changes a run of operations made, in order. *)
Record LoggedChange := { lc_vault : VaultId; lc_account : string; lc_delta : Z; lc_timestamp : Z }.

Definition logged_action (c : LoggedChange) : Z * Z := (lc_timestamp c, lc_delta c).
Definition of_user (v : VaultId) (a : string) (c : LoggedChange) : bool :=
  bool_decide (lc_vault c = v) && bool_decide (toLowerCase (lc_account c) = toLowerCase a).
Definition of_vault (v : VaultId) (c : LoggedChange) : bool := bool_decide (lc_vault c = v).
Definition user_actions (v : VaultId) (a : string) (log : list LoggedChange) : list (Z * Z) :=
  logged_action <$> List.filter (of_user v a) log.
Definition vault_actions (v : VaultId) (log : list LoggedChange) : list (Z * Z) :=
  logged_action <$> List.filter (of_vault v) log.

(** Runs of operations that return. *)
Inductive twab_run : list LoggedChange -> TwabReferenceModel -> Prop :=
| run_start : twab_run [] emptyTwab
| run_deposit log m v a x t m' :
    twab_run log m -> deposit v a x t m = (Ok tt, m') ->
    twab_run (log ++ [{| lc_vault := v; lc_account := a; lc_delta := x; lc_timestamp := t |}]) m'
| run_withdraw log m v a x t m' :
    twab_run log m -> withdraw v a x t m = (Ok tt, m') ->
    twab_run (log ++ [{| lc_vault := v; lc_account := a; lc_delta := - x; lc_timestamp := t |}]) m'
| run_move log m v w a x t m' :
    twab_run log m -> move v w a x t m = (Ok tt, m') ->
    twab_run (log ++ [{| lc_vault := v; lc_account := a; lc_delta := - x; lc_timestamp := t |};
                      {| lc_vault := w; lc_account := a; lc_delta := x; lc_timestamp := t |}]) m'.

(** * Lemmas *)

(** ** Keys *)
Lemma key_inj v a w b : key v a = key w b <-> v = w /\ toLowerCase a = toLowerCase b.
Proof.
  split; [|by unfold key; intros [-> ->]].
  unfold key. intros H. apply app_colon_inj in H as [H1 H2]; [|by destruct v|by destruct w].
  split; [|done]. apply Z_toString_inj in H1. by destruct v, w.
Qed.

(** ** Sums *)
Lemma balance_time_app acts bs t : balance_time (acts ++ bs) t = balance_time acts t + balance_time bs t.
Proof. unfold balance_time. induction acts as [|a acts IH]; simpl; lia. Qed.

Lemma net_app acts bs : net (acts ++ bs) = net acts + net bs.
Proof. unfold net. induction acts as [|a acts IH]; simpl; lia. Qed.

(** ** The value a checkpoint list denotes *)
Definition value_at (cps : list Checkpoint) (t : Z) : Z :=
  match List.find (fun c => cp_timestamp c <=? t) (reverse cps) with
  | Some c => cp_cumulative c + cp_balance c * (t - cp_timestamp c)
  | None => 0
  end.

Lemma value_at_snoc cps c t :
  value_at (cps ++ [c]) t =
    if cp_timestamp c <=? t then cp_cumulative c + cp_balance c * (t - cp_timestamp c) else value_at cps t.
Proof. unfold value_at. rewrite reverse_snoc. simpl. by destruct (cp_timestamp c <=? t). Qed.

(** Strictly increasing timestamps: one checkpoint per instant. *)
Definition chronological (cps : list Checkpoint) : Prop := StronglySorted (fun a b => cp_timestamp a < cp_timestamp b) cps.

Lemma chronological_snoc cps c :
  chronological (cps ++ [c]) <-> chronological cps /\ forall d, d ∈ cps -> cp_timestamp d < cp_timestamp c.
Proof.
  unfold chronological. induction cps as [|d cps IH]; simpl.
  - split; [intros _; split; [constructor|intros d Hd; by apply not_elem_of_nil in Hd]|repeat constructor].
  - split.
    + intros H. inversion H as [|? ? Hs Hall]; subst. apply IH in Hs as [Hs Hlt].
      apply Forall_app in Hall as [Hall Hc]. split; [by constructor|].
      intros e [->|He]%elem_of_cons; [by inversion Hc|by apply Hlt].
    + intros [H Hlt]. inversion H as [|? ? Hs Hall]; subst. constructor.
      * apply IH. split; [done|]. intros e He. apply Hlt. by right.
      * apply Forall_app. split; [done|]. repeat constructor. apply Hlt. by left.
Qed.

Lemma chronological_lookup cps i j c d :
  chronological cps -> cps !! i = Some c -> cps !! j = Some d -> (i < j)%nat -> cp_timestamp c < cp_timestamp d.
Proof.
  unfold chronological. intros H. revert i j. induction H as [|e cps Hs IH Hall]; intros i j Hi Hj Hij; [done|].
  destruct j as [|j]; [lia|]. destruct i as [|i]; simpl in *.
  - injection Hi as ->. rewrite Forall_forall in Hall. apply Hall.
    by eapply list_elem_of_lookup_2.
  - apply (IH i j); [done|done|lia].
Qed.

(** ** The binary search finds the last checkpoint not after [t] *)
Lemma search_finds fuel cps t low high :
  chronological cps -> (low < high <= length cps)%nat -> (high - low <= S fuel)%nat ->
  (exists c, cps !! low = Some c /\ cp_timestamp c <= t) ->
  (forall j c, cps !! j = Some c -> (high <= j)%nat -> t < cp_timestamp c) ->
  exists i c, search fuel cps t low high = Some (Ok i) /\ cps !! i = Some c /\ cp_timestamp c <= t /\
    forall j d, cps !! j = Some d -> (i < j)%nat -> t < cp_timestamp d.
Proof.
  intros Hc. revert low high. induction fuel as [|fuel IH]; intros low high Hlh Hf (c & Hl & Ht) Hh; cbn [search];
    destruct (Nat.ltb_spec (low + 1) high) as [Hlt|Hge]; try lia;
    try (exists low, c; split_and!; [done|done|done|]; intros j d Hj Hij; apply (Hh j d Hj); lia).
  set (middle := (low + (high - low) / 2)%nat). cbv zeta.
  assert (Hm : (low < middle < high)%nat).
  { unfold middle. pose proof (Nat.div_mod_eq (high - low) 2). pose proof (Nat.mod_upper_bound (high - low) 2). lia. }
  destruct (lookup_lt_is_Some_2 cps middle) as [m Em]; [lia|]. rewrite Em.
  destruct (Z.leb_spec (cp_timestamp m) t) as [Hle|Hgt].
  - apply IH; [lia|lia|by exists m|done].
  - apply IH; [lia|lia|by exists c|]. intros j d Hj Hmj.
    destruct (decide (j = middle)) as [->|]; [by simplify_eq|].
    assert (cp_timestamp m < cp_timestamp d) by (apply (chronological_lookup cps middle j); try done; lia). lia.
Qed.

Lemma value_at_index cps i c t :
  cps !! i = Some c -> cp_timestamp c <= t ->
  (forall j d, cps !! j = Some d -> (i < j)%nat -> t < cp_timestamp d) ->
  value_at cps t = cp_cumulative c + cp_balance c * (t - cp_timestamp c).
Proof.
  induction cps as [|l cps IH] using rev_ind; [done|]. intros Hi Ht Hj. rewrite value_at_snoc.
  destruct (decide (i = length cps)) as [->|Hne].
  - rewrite list_lookup_middle in Hi by done. injection Hi as <-. destruct (Z.leb_spec (cp_timestamp l) t); [done|lia].
  - assert (Hlt : (i < length cps)%nat).
    { apply lookup_lt_Some in Hi. rewrite length_app in Hi. simpl in Hi. lia. }
    rewrite lookup_app_l in Hi by done.
    assert (Hl : t < cp_timestamp l) by (apply (Hj (length cps)); [by rewrite list_lookup_middle|done]).
    destruct (Z.leb_spec (cp_timestamp l) t); [lia|]. apply IH; [done|done|].
    intros j d Hd Hij. apply (Hj j); [|done]. by apply lookup_app_l_Some.
Qed.

Lemma value_at_before cps t :
  (forall c, c ∈ cps -> t < cp_timestamp c) -> value_at cps t = 0.
Proof.
  intros H. unfold value_at. destruct (List.find _ _) as [c|] eqn:E; [|done].
  apply find_Some_in in E as [Hin Hle]. bool_to_prop. rewrite elem_of_reverse in Hin. specialize (H c Hin). lia.
Qed.

(** The optimised read is the reference one, within its fuel. *)
Lemma interpolate_value cps t :
  chronological cps -> interpolateAll (Some cps) t = Some (Ok (value_at cps t)).
Proof.
  intros Hc. unfold interpolateAll, interpolate. simpl (default [] _). destruct cps as [|first cps]; [done|].
  destruct (Z.ltb_spec t (cp_timestamp first)) as [Hlt|Hge].
  - rewrite value_at_before; [done|]. intros c [->|Hin]%elem_of_cons; [done|].
    apply list_elem_of_lookup in Hin as [i Hi].
    assert (cp_timestamp first < cp_timestamp c); [|lia].
    by apply (chronological_lookup (first :: cps) 0 (S i)); [..|lia].
  - destruct (search_finds (length (first :: cps)) (first :: cps) t 0 (length (first :: cps)))
      as (i & c & -> & Hi & Ht & Hj); [done|simpl; lia|lia|by exists first| |].
    + intros j c Hj Hle. apply lookup_lt_Some in Hj. lia.
    + simpl. rewrite Hi. by rewrite (value_at_index (first :: cps) i c t Hi Ht Hj).
Qed.

(** ** A checkpoint list and the changes it stands for *)
Record represents (cps : list Checkpoint) (acts : list (Z * Z)) : Prop := {
  rep_chronological : chronological cps;
  rep_value : forall t, value_at cps t = balance_time acts t;
  rep_balance : lastBalance (Some cps) = net acts;
  rep_latest : forall a c, a ∈ acts -> last cps = Some c -> a.1 <= cp_timestamp c;
  rep_empty : cps = [] -> acts = []
}.

Lemma represents_nil : represents [] [].
Proof.
  split; [constructor|done|done| |done]. intros a c Ha _. by apply not_elem_of_nil in Ha.
Qed.

Lemma balance_time_early acts t : (forall a, a ∈ acts -> t < a.1) -> balance_time acts t = 0.
Proof.
  induction acts as [|a acts IH]; [done|]. intros H. simpl.
  rewrite IH by (intros b Hb; apply H; by right). destruct (Z.leb_spec a.1 t); [|lia].
  assert (t < a.1) by (apply H; by left). lia.
Qed.

(** After the last change, balance-time grows by the net balance. *)
Lemma balance_time_late acts s t :
  (forall a, a ∈ acts -> a.1 <= s) -> s <= t -> balance_time acts t = balance_time acts s + net acts * (t - s).
Proof.
  induction acts as [|a acts IH]; intros H Hst; simpl; [lia|].
  rewrite IH; [|intros b Hb; apply H; by right|done].
  assert (a.1 <= s) by (apply H; by left).
  destruct (Z.leb_spec a.1 t), (Z.leb_spec a.1 s); lia.
Qed.

Lemma last_snoc_inv {A} (l : list A) x : last l = Some x -> exists init, l = init ++ [x].
Proof. apply last_Some. Qed.

(** The last checkpoint sums the changes up. *)
Lemma represents_last init p acts :
  represents (init ++ [p]) acts ->
  cp_balance p = net acts /\ cp_cumulative p = balance_time acts (cp_timestamp p) /\
  (forall a, a ∈ acts -> a.1 <= cp_timestamp p) /\
  forall t, t < cp_timestamp p -> value_at init t = balance_time acts t.
Proof.
  intros [Hc Hv Hb Hl He]. split_and!.
  - rewrite <- Hb. simpl. by rewrite last_snoc.
  - rewrite <- Hv, value_at_snoc, Z.leb_refl. lia.
  - intros a Ha. apply Hl; [done|apply last_snoc].
  - intros t Ht. rewrite <- Hv, value_at_snoc. destruct (Z.leb_spec (cp_timestamp p) t); [lia|done].
Qed.

(** The list [pre] followed by the checkpoint [write] makes at [timestamp]. *)
Definition written (p : Checkpoint) (newBalance timestamp : Z) : Checkpoint :=
  {| cp_timestamp := timestamp; cp_balance := newBalance;
     cp_cumulative := cp_cumulative p + cp_balance p * (timestamp - cp_timestamp p) |}.

Lemma represents_written init p acts pre newBalance timestamp :
  represents (init ++ [p]) acts -> cp_timestamp p <= timestamp ->
  chronological pre -> (forall c, c ∈ pre -> cp_timestamp c < timestamp) ->
  (forall t, t < timestamp -> value_at pre t = balance_time acts t) ->
  represents (pre ++ [written p newBalance timestamp]) (acts ++ [(timestamp, newBalance - net acts)]).
Proof.
  intros R Hpt Hpre Hlt Hval. destruct (represents_last _ _ _ R) as (Eb & Ec & Hact & _). split.
  - by apply chronological_snoc.
  - intros t. rewrite value_at_snoc, balance_time_app. simpl.
    destruct (Z.leb_spec timestamp t); [|by rewrite Hval by done; lia].
    rewrite (balance_time_late acts (cp_timestamp p) t) by (done || lia). rewrite Ec, Eb. lia.
  - simpl. rewrite last_snoc, net_app. simpl. lia.
  - intros a c Ha. rewrite last_snoc. intros [= <-]. simpl.
    apply elem_of_app in Ha as [Ha|Ha%list_elem_of_singleton]; [specialize (Hact a Ha); lia|by subst].
  - intros H. by destruct pre.
Qed.

(** A write is a change by the difference of the balances. *)
Lemma write_represents cps acts newBalance timestamp cps' :
  represents cps acts -> write cps newBalance timestamp = Ok cps' ->
  represents cps' (acts ++ [(timestamp, newBalance - net acts)]).
Proof.
  intros R W. unfold write in W. destruct (last cps) as [p|] eqn:El.
  - apply last_snoc_inv in El as [init ->]. apply result_bind_Ok in W as (u & G%fail_if_Ok & W). bool_to_prop.
    destruct (represents_last _ _ _ R) as (_ & _ & _ & Hinit).
    pose proof (rep_chronological _ _ R) as [Hci Hlt]%chronological_snoc.
    destruct (Z.eqb_spec (cp_timestamp p) timestamp) as [Et|Et]; injection W as <-.
    + unfold set_last. rewrite removelast_last.
      apply (represents_written init p); [done|done|done|by rewrite <- Et|by rewrite <- Et].
    + apply (represents_written init p acts (init ++ [p])); [done|done|apply R| |intros t _; apply R].
      intros d [Hd|Hd%list_elem_of_singleton]%elem_of_app; [specialize (Hlt d Hd); lia|subst; lia].
  - apply last_None in El as ->. rewrite (rep_empty _ _ R) by done. injection W as <-. simpl. rewrite Z.sub_0_r. split.
    + apply (chronological_snoc []). split; [constructor|]. intros d Hd. by apply not_elem_of_nil in Hd.
    + intros t. unfold value_at, balance_time. simpl. destruct (timestamp <=? t); simpl; lia.
    + unfold net. simpl. lia.
    + by intros a c ->%list_elem_of_singleton [= <-].
    + done.
Qed.

(** ** Runs *)
Definition twab_inv (log : list LoggedChange) (m : TwabReferenceModel) : Prop :=
  (forall v a, represents (default [] (userCheckpoints v a m)) (user_actions v a log)) /\
  (forall v, represents (default [] (vaultCheckpoints v m)) (vault_actions v log)).

Lemma lastBalance_default o : lastBalance o = lastBalance (Some (default [] o)).
Proof. by destruct o. Qed.

Lemma filter_app_one {A} (p : A -> bool) l x :
  List.filter p (l ++ [x]) = List.filter p l ++ (if p x then [x] else []).
Proof. rewrite List.filter_app. simpl. by destruct (p x). Qed.

#[local] Arguments lastBalance : simpl never.

(** A successful change keeps every list's representation. *)
Lemma change_inv log m v a d t m' :
  twab_inv log m -> change v a d t m = (Ok tt, m') ->
  twab_inv (log ++ [{| lc_vault := v; lc_account := a; lc_delta := d; lc_timestamp := t |}]) m'.
Proof.
  intros [Hu Hv]. unfold change. unfold_method. simpl.
  match goal with |- context [if ?b then _ else _] => destruct b end; [done|].
  destruct (write (default [] (map_get (key v a) _)) _ t) as [user|e] eqn:Wu; simpl; [|done].
  match goal with |- context [if ?b then _ else _] => destruct b end; [done|].
  destruct (write (default [] (map_get v (tw_vaultTotals m))) _ t) as [total|e] eqn:Wt; simpl; [|done].
  intros [= <-]. split.
  - intros w b. unfold userCheckpoints, user_actions. simpl. rewrite map_get_set, filter_app_one, fmap_app.
    unfold of_user at 2. simpl.
    assert (Ek : bool_decide (v = w) && bool_decide (toLowerCase a = toLowerCase b) = bool_decide (key w b = key v a)).
    { apply Bool.eq_iff_eq_true. rewrite andb_true_iff, !bool_decide_eq_true, key_inj. naive_solver. }
    rewrite Ek. destruct (decide (key w b = key v a)) as [E|E].
    + rewrite bool_decide_eq_true_2 by done. simpl. apply key_inj in E as [-> E].
      assert (Eu : user_actions v b log = user_actions v a log).
      { unfold user_actions, of_user. by rewrite E. }
      fold (user_actions v b log). rewrite Eu.
      pose proof (write_represents _ _ _ _ _ (Hu v a) Wu) as R.
      assert (En : lastBalance (Some (default [] (userCheckpoints v a m))) + d - net (user_actions v a log) = d).
      { rewrite (rep_balance _ _ (Hu v a)). lia. }
      unfold userCheckpoints in *. by rewrite En in R.
    + rewrite bool_decide_eq_false_2 by done. simpl. rewrite app_nil_r. apply Hu.
  - intros w. unfold vaultCheckpoints, vault_actions. simpl. rewrite map_get_set, filter_app_one, fmap_app.
    unfold of_vault at 2. simpl. destruct (decide (w = v)) as [->|E].
    + rewrite bool_decide_eq_true_2 by done. simpl.
      pose proof (write_represents _ _ _ _ _ (Hv v) Wt) as R.
      assert (En : lastBalance (Some (default [] (vaultCheckpoints v m))) + d - net (vault_actions v log) = d).
      { rewrite (rep_balance _ _ (Hv v)). lia. }
      unfold vaultCheckpoints in *. by rewrite En in R.
    + rewrite bool_decide_eq_false_2 by congruence. simpl. rewrite app_nil_r. apply Hv.
Qed.

Lemma deposit_change v a x t m m' : deposit v a x t m = (Ok tt, m') -> 0 < x /\ change v a x t m = (Ok tt, m').
Proof. unfold deposit, throw_if. unfold_method. destruct (x <=? 0) eqn:E; [done|]. bool_to_prop. done. Qed.

Lemma withdraw_change v a x t m m' :
  withdraw v a x t m = (Ok tt, m') -> 0 < x <= balance v a m /\ change v a (- x) t m = (Ok tt, m').
Proof.
  unfold withdraw, throw_if. unfold_method. destruct ((x <=? 0) || _) eqn:E; [done|]. bool_to_prop. simpl. split; [lia|done].
Qed.

Lemma twab_run_inv log m : twab_run log m -> twab_inv log m.
Proof.
  induction 1 as [|log m v a x t m' _ IH H|log m v a x t m' _ IH H|log m v w a x t m' _ IH H].
  - split; intros; apply represents_nil.
  - apply deposit_change in H as [_ H]. by eapply change_inv.
  - apply withdraw_change in H as [_ H]. by eapply change_inv.
  - unfold move in H. unfold_method. destruct (bool_decide (v = w)); [done|].
    destruct (withdraw v a x t m) as [[[]|e] m1] eqn:W; [|done]. simpl in H.
    apply withdraw_change in W as [_ W]. apply deposit_change in H as [_ H].
    pose proof (change_inv _ _ _ _ _ _ _ IH W) as IH1.
    pose proof (change_inv _ _ _ _ _ _ _ IH1 H) as IH2. by rewrite <- app_assoc in IH2.
Qed.

Lemma interpolate_represents o acts t :
  represents (default [] o) acts -> interpolateAll o t = Some (Ok (balance_time acts t)).
Proof.
  intros R. destruct o as [cps|].
  - rewrite interpolate_value by apply R. by rewrite (rep_value _ _ R).
  - by rewrite (rep_empty _ _ R).
Qed.

(** C9: Exact balance-time.  After any run of deposits, withdrawals and moves,
    the cumulative balance of an account at any time, read by binary search
    over merged checkpoints, is the exact sum of its changes, each times the
    time since it; its balance is the net of its changes; and the same holds
    of a vault and all changes in it. *)
Theorem twab_exact log m v a t :
  twab_run log m ->
  cumulativeAt v a t m = Some (Ok (balance_time (user_actions v a log) t)) /\
  balance v a m = net (user_actions v a log) /\
  interpolateAll (vaultCheckpoints v m) t = Some (Ok (balance_time (vault_actions v log) t)) /\
  totalBalance v m = net (vault_actions v log).
Proof.
  intros [Hu Hv]%twab_run_inv. split_and!.
  - by apply interpolate_represents.
  - unfold balance. rewrite lastBalance_default. apply Hu.
  - by apply interpolate_represents.
  - unfold totalBalance. rewrite lastBalance_default. apply Hv.
Qed.

(** ** The aggregate is the sum of its accounts *)
Definition sum_over {A} (f : A -> Z) (l : list A) : Z := foldr (fun x total => f x + total) 0 l.

Lemma sum_over_plus {A} (f g h : A -> Z) l :
  (forall x, f x = g x + h x) -> sum_over f l = sum_over g l + sum_over h l.
Proof. intros H. unfold sum_over. induction l as [|x l IH]; simpl; [done|]. rewrite H, IH. lia. Qed.

Lemma sum_over_fmap {A B} (g : A -> B) (f : B -> Z) l : sum_over f (g <$> l) = sum_over (fun x => f (g x)) l.
Proof. unfold sum_over. induction l as [|x l IH]; [done|]. rewrite fmap_cons. simpl. by rewrite IH. Qed.

Lemma sum_over_zero {A} (f : A -> Z) l : (forall x, x ∈ l -> f x = 0) -> sum_over f l = 0.
Proof.
  induction l as [|x l IH]; [done|]. intros H. simpl. rewrite IH by (intros y Hy; apply H; by right).
  rewrite H; [done|by left].
Qed.

(** Exactly one account of the list owns a change. *)
Lemma sum_over_owner accounts b z :
  NoDup (toLowerCase <$> accounts) -> toLowerCase b ∈ toLowerCase <$> accounts ->
  sum_over (fun a => if bool_decide (toLowerCase b = toLowerCase a) then z else 0) accounts = z.
Proof.
  induction accounts as [|a accounts IH]; simpl; [by intros _ ?%not_elem_of_nil|].
  intros [Hn Hnd]%NoDup_cons Hin. destruct (decide (toLowerCase b = toLowerCase a)) as [E|E].
  - rewrite bool_decide_eq_true_2 by done. rewrite sum_over_zero; [lia|].
    intros c Hc. rewrite bool_decide_eq_false_2; [done|]. intros E2. apply Hn. rewrite <- E, E2.
    by apply list_elem_of_fmap_2.
  - rewrite bool_decide_eq_false_2 by done. apply elem_of_cons in Hin as [?|Hin]; [done|].
    rewrite IH by done. lia.
Qed.

Lemma balance_time_partition v accounts log t :
  NoDup (toLowerCase <$> accounts) ->
  (forall c, c ∈ log -> lc_vault c = v -> toLowerCase (lc_account c) ∈ toLowerCase <$> accounts) ->
  balance_time (vault_actions v log) t = sum_over (fun a => balance_time (user_actions v a log) t) accounts.
Proof.
  intros Hnd. induction log as [|c log IH]; intros Hin.
  { symmetry. by apply sum_over_zero. }
  set (z := if lc_timestamp c <=? t then lc_delta c * (t - lc_timestamp c) else 0).
  rewrite (sum_over_plus _ (fun a => if bool_decide (lc_vault c = v) && bool_decide (toLowerCase (lc_account c) = toLowerCase a)
                                     then z else 0) (fun a => balance_time (user_actions v a log) t)).
  2:{ intros a. unfold user_actions, of_user. simpl. by destruct (_ && _). }
  rewrite <- IH by (intros d Hd; apply Hin; by right).
  unfold vault_actions, of_vault. simpl. destruct (decide (lc_vault c = v)) as [E|E].
  - rewrite bool_decide_eq_true_2 by done. simpl. rewrite sum_over_owner; [done|done|].
    apply Hin; [by left|done].
  - rewrite bool_decide_eq_false_2 by done. simpl. by rewrite sum_over_zero by done.
Qed.

(** The aggregate is the sum of its accounts.  After any run, a vault's
    aggregate weight over an interval is exactly the sum of the weights of the
    accounts that ever changed their balance in it. *)
Theorem aggregateWeight_sum log m v accounts opensAt closesAt :
  twab_run log m -> NoDup (toLowerCase <$> accounts) ->
  (forall c, c ∈ log -> lc_vault c = v -> toLowerCase (lc_account c) ∈ toLowerCase <$> accounts) ->
  opensAt <= closesAt ->
  exists weights, Forall2 (fun a w => weight v a opensAt closesAt m = Some (Ok w)) accounts weights /\
    aggregateWeight v opensAt closesAt m = Some (Ok (sum_over id weights)).
Proof.
  intros [Hu Hv]%twab_run_inv Hnd Hin Hle.
  set (w := fun a => balance_time (user_actions v a log) closesAt - balance_time (user_actions v a log) opensAt).
  exists (w <$> accounts). split.
  - apply Forall2_fmap_r, Forall_Forall2_diag, Forall_forall. intros a _. unfold weight.
    destruct (Z.ltb_spec closesAt opensAt); [lia|]. unfold cumulativeAt.
    by rewrite !(interpolate_represents _ _ _ (Hu v a)).
  - unfold aggregateWeight. rewrite !(interpolate_represents _ _ _ (Hv v)). simpl. do 2 f_equal.
    rewrite !(balance_time_partition v accounts) by done.
    rewrite sum_over_fmap. change (sum_over (fun a => id (w a)) accounts) with (sum_over w accounts).
    rewrite (sum_over_plus (fun a => balance_time (user_actions v a log) closesAt) w
               (fun a => balance_time (user_actions v a log) opensAt)); [lia|]. intros a. unfold w. lia.
Qed.

(** A change is not atomic.  When the aggregate cannot be written because
    another account of the vault acted later, the exception leaves the
    account's new balance behind and the aggregate without it. *)
Theorem change_not_atomic :
  let (_, m1) := deposit Vault1 "0xa" 10 5 emptyTwab in
  let (r, m2) := deposit Vault1 "0xb" 10 3 m1 in
  r = throw_new "actions must be chronological" /\
  balance Vault1 "0xb" m1 = 0 /\ balance Vault1 "0xb" m2 = 10 /\ totalBalance Vault1 m2 = 10.
Proof. repeat split. Qed.

(** * Concrete instances *)
Definition demo_log : list LoggedChange :=
  [{| lc_vault := Vault1; lc_account := "0xA"; lc_delta := 10; lc_timestamp := 5 |};
   {| lc_vault := Vault1; lc_account := "0xb"; lc_delta := 4; lc_timestamp := 5 |};
   {| lc_vault := Vault1; lc_account := "0xa"; lc_delta := -3; lc_timestamp := 8 |};
   {| lc_vault := Vault2; lc_account := "0xa"; lc_delta := 3; lc_timestamp := 8 |}].

Definition demo_twab : TwabReferenceModel :=
  (move Vault1 Vault2 "0xa" 3 8 (deposit Vault1 "0xb" 4 5 (deposit Vault1 "0xA" 10 5 emptyTwab).2).2).2.

Lemma demo_run : twab_run demo_log demo_twab.
Proof.
  apply (run_move [{| lc_vault := Vault1; lc_account := "0xA"; lc_delta := 10; lc_timestamp := 5 |};
                   {| lc_vault := Vault1; lc_account := "0xb"; lc_delta := 4; lc_timestamp := 5 |}]
           (deposit Vault1 "0xb" 4 5 (deposit Vault1 "0xA" 10 5 emptyTwab).2).2 Vault1 Vault2 "0xa" 3 8); [|reflexivity].
  apply (run_deposit [{| lc_vault := Vault1; lc_account := "0xA"; lc_delta := 10; lc_timestamp := 5 |}]
           (deposit Vault1 "0xA" 10 5 emptyTwab).2); [|reflexivity].
  apply (run_deposit [] emptyTwab Vault1 "0xA" 10 5); [constructor|reflexivity].
Qed.

Lemma twab_exact_witness :
  cumulativeAt Vault1 "0xA" 10 demo_twab = Some (Ok (10 * 5 - 3 * 2)) /\ totalBalance Vault1 demo_twab = 11.
Proof. destruct (twab_exact demo_log demo_twab Vault1 "0xA" 10 demo_run) as (H & _ & _ & H2). split; [exact H|exact H2]. Defined.

Lemma aggregateWeight_sum_witness :
  exists weights, Forall2 (fun a w => weight Vault1 a 6 10 demo_twab = Some (Ok w)) ["0xa"; "0xB"] weights /\
    aggregateWeight Vault1 6 10 demo_twab = Some (Ok (sum_over id weights)).
Proof.
  apply (aggregateWeight_sum demo_log demo_twab Vault1 ["0xa"; "0xB"] 6 10 demo_run).
  - apply (bool_decide_unpack _). vm_compute. exact I.
  - intros c Hc Hv. repeat (apply elem_of_cons in Hc as [->|Hc]; [apply (bool_decide_unpack _); vm_compute; exact I || discriminate Hv|]).
    by apply not_elem_of_nil in Hc.
  - lia.
Defined.
