(* ===== verification/Accounting.v ===== *)
(** * Conservation of assets (reference/leopoldModels.ts, AccountingReferenceModel)

    Fifteen asset categories and thirteen operations on them.  Each operation
    mutates the state and then runs [assertInvariants]; an exception there
    leaves the mutation behind, so the theorems show it never comes. *)
From Stdlib Require Import ZArith Lia Ascii.
From stdpp Require Import base option list sets strings relations.
From S2P Require Import Prelude.
Local Open Scope Z_scope.

Record AccountingSnapshot := {
  principalLiability : Z;
  liquidPrincipal : Z;
  deployedPrincipal : Z;
  principalInTransition : Z;
  strategyShortfall : Z;
  liquidPrizeAssets : Z;
  realizedSurplus : Z;
  reservedPrize : Z;
  sponsoredPrize : Z;
  winningsLiability : Z;
  harvestedYield : Z;
  sponsorContributions : Z;
  allocatedWinnings : Z;
  withdrawnWinnings : Z;
  autoSavedWinnings : Z
}.

Definition emptyAccounting : AccountingSnapshot :=
  {| principalLiability := 0; liquidPrincipal := 0; deployedPrincipal := 0; principalInTransition := 0;
     strategyShortfall := 0; liquidPrizeAssets := 0; realizedSurplus := 0; reservedPrize := 0;
     sponsoredPrize := 0; winningsLiability := 0; harvestedYield := 0; sponsorContributions := 0;
     allocatedWinnings := 0; withdrawnWinnings := 0; autoSavedWinnings := 0 |}.

(** [Object.values(this.state)] *)
Definition values (s : AccountingSnapshot) : list Z :=
  [principalLiability s; liquidPrincipal s; deployedPrincipal s; principalInTransition s; strategyShortfall s;
   liquidPrizeAssets s; realizedSurplus s; reservedPrize s; sponsoredPrize s; winningsLiability s;
   harvestedYield s; sponsorContributions s; allocatedWinnings s; withdrawnWinnings s; autoSavedWinnings s].

(** The fields, as the code names them, and [this.state.f += z]. *)
Inductive Category : Type :=
| F_principalLiability
| F_liquidPrincipal
| F_deployedPrincipal
| F_principalInTransition
| F_strategyShortfall
| F_liquidPrizeAssets
| F_realizedSurplus
| F_reservedPrize
| F_sponsoredPrize
| F_winningsLiability
| F_harvestedYield
| F_sponsorContributions
| F_allocatedWinnings
| F_withdrawnWinnings
| F_autoSavedWinnings.

Definition Category_index (f : Category) : nat :=
  match f with
  | F_principalLiability => 0
  | F_liquidPrincipal => 1
  | F_deployedPrincipal => 2
  | F_principalInTransition => 3
  | F_strategyShortfall => 4
  | F_liquidPrizeAssets => 5
  | F_realizedSurplus => 6
  | F_reservedPrize => 7
  | F_sponsoredPrize => 8
  | F_winningsLiability => 9
  | F_harvestedYield => 10
  | F_sponsorContributions => 11
  | F_allocatedWinnings => 12
  | F_withdrawnWinnings => 13
  | F_autoSavedWinnings => 14
  end%nat.

Definition add_to (f : Category) (z : Z) (s : AccountingSnapshot) : AccountingSnapshot :=
  let upd g v := if (Category_index f =? Category_index g)%nat then v + z else v in
  {| principalLiability := upd F_principalLiability (principalLiability s);
     liquidPrincipal := upd F_liquidPrincipal (liquidPrincipal s);
     deployedPrincipal := upd F_deployedPrincipal (deployedPrincipal s);
     principalInTransition := upd F_principalInTransition (principalInTransition s);
     strategyShortfall := upd F_strategyShortfall (strategyShortfall s);
     liquidPrizeAssets := upd F_liquidPrizeAssets (liquidPrizeAssets s);
     realizedSurplus := upd F_realizedSurplus (realizedSurplus s);
     reservedPrize := upd F_reservedPrize (reservedPrize s);
     sponsoredPrize := upd F_sponsoredPrize (sponsoredPrize s);
     winningsLiability := upd F_winningsLiability (winningsLiability s);
     harvestedYield := upd F_harvestedYield (harvestedYield s);
     sponsorContributions := upd F_sponsorContributions (sponsorContributions s);
     allocatedWinnings := upd F_allocatedWinnings (allocatedWinnings s);
     withdrawnWinnings := upd F_withdrawnWinnings (withdrawnWinnings s);
     autoSavedWinnings := upd F_autoSavedWinnings (autoSavedWinnings s) |}.

Notation model := (method AccountingSnapshot unit).

Definition add (f : Category) (z : Z) : model := modify (add_to f z).

Definition positive (amount : Z) : model := throw_if (amount <=? 0) "amount must be positive".

(** [if (c(state)) throw new Error(msg)] *)
Definition throw_when (c : AccountingSnapshot -> bool) (msg : string) : model :=
  s ← get;
  throw_if (c s) msg.

Definition assertInvariants : model :=
  throw_when (fun s => existsb (fun value => value <? 0) (values s)) "negative accounting category" ;;
  throw_when (fun s => negb (liquidPrincipal s + deployedPrincipal s + principalInTransition s + strategyShortfall s
                             =? principalLiability s)) "principal reconciliation failed" ;;
  throw_when (fun s => negb (realizedSurplus s + sponsoredPrize s + reservedPrize s + winningsLiability s
                             =? liquidPrizeAssets s)) "prize category reconciliation failed" ;;
  throw_when (fun s => negb (harvestedYield s + sponsorContributions s
                             =? liquidPrizeAssets s + withdrawnWinnings s + autoSavedWinnings s))
    "prize asset reconciliation failed".

Definition depositPrincipal (amount : Z) : model :=
  positive amount ;;
  add F_principalLiability amount ;;
  add F_liquidPrincipal amount ;;
  assertInvariants.

Definition withdrawPrincipal (amount : Z) : model :=
  positive amount ;;
  throw_when (fun s => (principalLiability s <? amount) || (liquidPrincipal s <? amount))
    "insufficient principal liquidity" ;;
  add F_principalLiability (- amount) ;;
  add F_liquidPrincipal (- amount) ;;
  assertInvariants.

Definition deployPrincipal (amount : Z) : model :=
  positive amount ;;
  throw_when (fun s => liquidPrincipal s <? amount) "insufficient liquid principal" ;;
  add F_liquidPrincipal (- amount) ;;
  add F_deployedPrincipal amount ;;
  assertInvariants.

Definition beginAggregateDeployment (amount : Z) : model :=
  positive amount ;;
  throw_when (fun s => liquidPrincipal s <? amount) "insufficient liquid principal" ;;
  add F_liquidPrincipal (- amount) ;;
  add F_principalInTransition amount ;;
  assertInvariants.

Definition completeAggregateDeployment (amount : Z) : model :=
  positive amount ;;
  throw_when (fun s => principalInTransition s <? amount) "excess deployment completion" ;;
  add F_principalInTransition (- amount) ;;
  add F_deployedPrincipal amount ;;
  assertInvariants.

Definition cancelAggregateDeployment (amount : Z) : model :=
  positive amount ;;
  throw_when (fun s => principalInTransition s <? amount) "excess deployment cancellation" ;;
  add F_principalInTransition (- amount) ;;
  add F_liquidPrincipal amount ;;
  assertInvariants.

Definition recognizeStrategyLoss (amount : Z) : model :=
  positive amount ;;
  throw_when (fun s => deployedPrincipal s <? amount) "loss exceeds deployed basis" ;;
  add F_deployedPrincipal (- amount) ;;
  add F_strategyShortfall amount ;;
  assertInvariants.

Definition returnPrincipal (amount : Z) : model :=
  positive amount ;;
  throw_when (fun s => deployedPrincipal s <? amount) "excess principal return" ;;
  add F_deployedPrincipal (- amount) ;;
  add F_liquidPrincipal amount ;;
  assertInvariants.

Definition harvestGenuineSurplus (amount : Z) : model :=
  positive amount ;;
  add F_liquidPrizeAssets amount ;;
  add F_realizedSurplus amount ;;
  add F_harvestedYield amount ;;
  assertInvariants.

Definition sponsor (amount : Z) : model :=
  positive amount ;;
  add F_liquidPrizeAssets amount ;;
  add F_sponsoredPrize amount ;;
  add F_sponsorContributions amount ;;
  assertInvariants.

Definition reservePrize (fromYield fromSponsor : Z) : model :=
  throw_if ((fromYield <? 0) || (fromSponsor <? 0)) "negative prize source" ;;
  throw_when (fun s => (realizedSurplus s <? fromYield) || (sponsoredPrize s <? fromSponsor)) "unfunded prize" ;;
  add F_realizedSurplus (- fromYield) ;;
  add F_sponsoredPrize (- fromSponsor) ;;
  add F_reservedPrize (fromYield + fromSponsor) ;;
  assertInvariants.

Definition allocateWinnings (amount : Z) : model :=
  positive amount ;;
  throw_when (fun s => reservedPrize s <? amount) "unreserved winnings" ;;
  add F_reservedPrize (- amount) ;;
  add F_winningsLiability amount ;;
  add F_allocatedWinnings amount ;;
  assertInvariants.

Definition autoSave (amount : Z) : model :=
  positive amount ;;
  throw_when (fun s => winningsLiability s <? amount) "excess auto-save" ;;
  add F_winningsLiability (- amount) ;;
  add F_liquidPrizeAssets (- amount) ;;
  add F_principalLiability amount ;;
  add F_liquidPrincipal amount ;;
  add F_autoSavedWinnings amount ;;
  assertInvariants.

Definition withdrawWinnings (amount : Z) : model :=
  positive amount ;;
  throw_when (fun s => (winningsLiability s <? amount) || (liquidPrizeAssets s <? amount))
    "insufficient winnings liquidity" ;;
  add F_winningsLiability (- amount) ;;
  add F_liquidPrizeAssets (- amount) ;;
  add F_withdrawnWinnings amount ;;
  assertInvariants.

(** The public operations. *)
Inductive Operation : Type :=
| DepositPrincipal (amount : Z)
| WithdrawPrincipal (amount : Z)
| DeployPrincipal (amount : Z)
| BeginAggregateDeployment (amount : Z)
| CompleteAggregateDeployment (amount : Z)
| CancelAggregateDeployment (amount : Z)
| RecognizeStrategyLoss (amount : Z)
| ReturnPrincipal (amount : Z)
| HarvestGenuineSurplus (amount : Z)
| Sponsor (amount : Z)
| ReservePrize (fromYield fromSponsor : Z)
| AllocateWinnings (amount : Z)
| AutoSave (amount : Z)
| WithdrawWinnings (amount : Z).

Definition run_operation (o : Operation) : model :=
  match o with
  | DepositPrincipal a => depositPrincipal a
  | WithdrawPrincipal a => withdrawPrincipal a
  | DeployPrincipal a => deployPrincipal a
  | BeginAggregateDeployment a => beginAggregateDeployment a
  | CompleteAggregateDeployment a => completeAggregateDeployment a
  | CancelAggregateDeployment a => cancelAggregateDeployment a
  | RecognizeStrategyLoss a => recognizeStrategyLoss a
  | ReturnPrincipal a => returnPrincipal a
  | HarvestGenuineSurplus a => harvestGenuineSurplus a
  | Sponsor a => sponsor a
  | ReservePrize y s => reservePrize y s
  | AllocateWinnings a => allocateWinnings a
  | AutoSave a => autoSave a
  | WithdrawWinnings a => withdrawWinnings a
  end.

(** * Specification *)

(** When an operation may be called: nothing about liquidity of prize assets
    beyond what is owed to winners. *)
Definition allowed (o : Operation) (s : AccountingSnapshot) : Prop :=
  match o with
  | DepositPrincipal a | HarvestGenuineSurplus a | Sponsor a => 0 < a
  | WithdrawPrincipal a => 0 < a <= liquidPrincipal s
  | DeployPrincipal a | BeginAggregateDeployment a => 0 < a <= liquidPrincipal s
  | CompleteAggregateDeployment a | CancelAggregateDeployment a => 0 < a <= principalInTransition s
  | RecognizeStrategyLoss a | ReturnPrincipal a => 0 < a <= deployedPrincipal s
  | ReservePrize y p => 0 <= y <= realizedSurplus s /\ 0 <= p <= sponsoredPrize s
  | AllocateWinnings a => 0 < a <= reservedPrize s
  | AutoSave a | WithdrawWinnings a => 0 < a <= winningsLiability s
  end.

(** Every category is non-negative, principal owed is where it should be, prize
    assets are split among their categories and come from yield and sponsors,
    and every allocated winning is owed, withdrawn or saved. *)
Record solvent (s : AccountingSnapshot) : Prop := {
  sol_nonneg : Forall (fun value => 0 <= value) (values s);
  sol_principal : liquidPrincipal s + deployedPrincipal s + principalInTransition s + strategyShortfall s = principalLiability s;
  sol_categories : realizedSurplus s + sponsoredPrize s + reservedPrize s + winningsLiability s = liquidPrizeAssets s;
  sol_sources : harvestedYield s + sponsorContributions s = liquidPrizeAssets s + withdrawnWinnings s + autoSavedWinnings s;
  sol_winnings : allocatedWinnings s = winningsLiability s + withdrawnWinnings s + autoSavedWinnings s
}.

(** What an allowed operation moves. *)
Definition effect (o : Operation) (s : AccountingSnapshot) : AccountingSnapshot :=
  match o with
  | DepositPrincipal a => add_to F_liquidPrincipal a (add_to F_principalLiability a s)
  | WithdrawPrincipal a => add_to F_liquidPrincipal (- a) (add_to F_principalLiability (- a) s)
  | DeployPrincipal a => add_to F_deployedPrincipal a (add_to F_liquidPrincipal (- a) s)
  | BeginAggregateDeployment a => add_to F_principalInTransition a (add_to F_liquidPrincipal (- a) s)
  | CompleteAggregateDeployment a => add_to F_deployedPrincipal a (add_to F_principalInTransition (- a) s)
  | CancelAggregateDeployment a => add_to F_liquidPrincipal a (add_to F_principalInTransition (- a) s)
  | RecognizeStrategyLoss a => add_to F_strategyShortfall a (add_to F_deployedPrincipal (- a) s)
  | ReturnPrincipal a => add_to F_liquidPrincipal a (add_to F_deployedPrincipal (- a) s)
  | HarvestGenuineSurplus a => add_to F_harvestedYield a (add_to F_realizedSurplus a (add_to F_liquidPrizeAssets a s))
  | Sponsor a => add_to F_sponsorContributions a (add_to F_sponsoredPrize a (add_to F_liquidPrizeAssets a s))
  | ReservePrize y p => add_to F_reservedPrize (y + p) (add_to F_sponsoredPrize (- p) (add_to F_realizedSurplus (- y) s))
  | AllocateWinnings a => add_to F_allocatedWinnings a (add_to F_winningsLiability a (add_to F_reservedPrize (- a) s))
  | AutoSave a => add_to F_autoSavedWinnings a (add_to F_liquidPrincipal a (add_to F_principalLiability a
                    (add_to F_liquidPrizeAssets (- a) (add_to F_winningsLiability (- a) s))))
  | WithdrawWinnings a => add_to F_withdrawnWinnings a (add_to F_liquidPrizeAssets (- a) (add_to F_winningsLiability (- a) s))
  end.

(** * Lemmas *)
Lemma emptyAccounting_solvent : solvent emptyAccounting.
Proof. split; try done. apply (bool_decide_unpack _). vm_compute. exact I. Qed.

(** [solvent] as linear facts about the fifteen fields. *)
Lemma solvent_facts s :
  solvent s <->
  (0 <= principalLiability s /\ 0 <= liquidPrincipal s /\ 0 <= deployedPrincipal s /\ 0 <= principalInTransition s /\
   0 <= strategyShortfall s /\ 0 <= liquidPrizeAssets s /\ 0 <= realizedSurplus s /\ 0 <= reservedPrize s /\
   0 <= sponsoredPrize s /\ 0 <= winningsLiability s /\ 0 <= harvestedYield s /\ 0 <= sponsorContributions s /\
   0 <= allocatedWinnings s /\ 0 <= withdrawnWinnings s /\ 0 <= autoSavedWinnings s) /\
  liquidPrincipal s + deployedPrincipal s + principalInTransition s + strategyShortfall s = principalLiability s /\
  realizedSurplus s + sponsoredPrize s + reservedPrize s + winningsLiability s = liquidPrizeAssets s /\
  harvestedYield s + sponsorContributions s = liquidPrizeAssets s + withdrawnWinnings s + autoSavedWinnings s /\
  allocatedWinnings s = winningsLiability s + withdrawnWinnings s + autoSavedWinnings s.
Proof.
  split.
  - intros [Hn H1 H2 H3 H4]. unfold values in Hn. rewrite !Forall_cons in Hn. tauto.
  - intros (Hn & H1 & H2 & H3 & H4). split; try done. unfold values. rewrite !Forall_cons. split_and!; try tauto. constructor.
Qed.

Lemma assertInvariants_solvent s : solvent s -> assertInvariants s = (Ok tt, s).
Proof.
  intros H. apply solvent_facts in H. unfold assertInvariants, throw_when. unfold_method. simpl.
  repeat (match goal with |- context [?a <? 0] => destruct (Z.ltb_spec a 0); [lia|] end). simpl.
  repeat (match goal with |- context [?a =? ?b] => destruct (Z.eqb_spec a b); [|lia] end). done.
Qed.

(** The category a field is. *)
Definition category_value (f : Category) (s : AccountingSnapshot) : Z :=
  match f with
  | F_principalLiability => principalLiability s
  | F_liquidPrincipal => liquidPrincipal s
  | F_deployedPrincipal => deployedPrincipal s
  | F_principalInTransition => principalInTransition s
  | F_strategyShortfall => strategyShortfall s
  | F_liquidPrizeAssets => liquidPrizeAssets s
  | F_realizedSurplus => realizedSurplus s
  | F_reservedPrize => reservedPrize s
  | F_sponsoredPrize => sponsoredPrize s
  | F_winningsLiability => winningsLiability s
  | F_harvestedYield => harvestedYield s
  | F_sponsorContributions => sponsorContributions s
  | F_allocatedWinnings => allocatedWinnings s
  | F_withdrawnWinnings => withdrawnWinnings s
  | F_autoSavedWinnings => autoSavedWinnings s
  end.

Lemma category_value_add g f z s :
  category_value g (add_to f z s) = category_value g s + (if (Category_index f =? Category_index g)%nat then z else 0).
Proof. destruct g; unfold add_to; cbn [category_value principalLiability liquidPrincipal deployedPrincipal principalInTransition strategyShortfall liquidPrizeAssets realizedSurplus reservedPrize sponsoredPrize winningsLiability harvestedYield sponsorContributions allocatedWinnings withdrawnWinnings autoSavedWinnings]; destruct (_ =? _)%nat; lia. Qed.

(** [solvent] by category. *)
Lemma solvent_categories s :
  solvent s <->
  let v f := category_value f s in
  (0 <= v F_principalLiability /\ 0 <= v F_liquidPrincipal /\ 0 <= v F_deployedPrincipal /\ 0 <= v F_principalInTransition /\
   0 <= v F_strategyShortfall /\ 0 <= v F_liquidPrizeAssets /\ 0 <= v F_realizedSurplus /\ 0 <= v F_reservedPrize /\
   0 <= v F_sponsoredPrize /\ 0 <= v F_winningsLiability /\ 0 <= v F_harvestedYield /\ 0 <= v F_sponsorContributions /\
   0 <= v F_allocatedWinnings /\ 0 <= v F_withdrawnWinnings /\ 0 <= v F_autoSavedWinnings) /\
  v F_liquidPrincipal + v F_deployedPrincipal + v F_principalInTransition + v F_strategyShortfall = v F_principalLiability /\
  v F_realizedSurplus + v F_sponsoredPrize + v F_reservedPrize + v F_winningsLiability = v F_liquidPrizeAssets /\
  v F_harvestedYield + v F_sponsorContributions = v F_liquidPrizeAssets + v F_withdrawnWinnings + v F_autoSavedWinnings /\
  v F_allocatedWinnings = v F_winningsLiability + v F_withdrawnWinnings + v F_autoSavedWinnings.
Proof. apply solvent_facts. Qed.

Lemma effect_solvent o s : solvent s -> allowed o s -> solvent (effect o s).
Proof.
  intros H Ha. apply solvent_categories. apply solvent_facts in H. destruct_and?.
  destruct o; unfold effect; cbv zeta; rewrite !category_value_add;
    cbn [Category_index Nat.eqb category_value]; simpl in Ha; destruct_and?; split_and!; lia.
Qed.

(** Allowed operations pass their guards and reach the invariant check with
    exactly their effect; others throw before any assignment. *)
Lemma run_allowed o s : solvent s -> allowed o s -> run_operation o s = assertInvariants (effect o s).
Proof.
  intros H Ha. apply solvent_facts in H.
  destruct o; unfold run_operation; simpl in Ha;
    unfold depositPrincipal, withdrawPrincipal, deployPrincipal, beginAggregateDeployment, completeAggregateDeployment,
      cancelAggregateDeployment, recognizeStrategyLoss, returnPrincipal, harvestGenuineSurplus, sponsor, reservePrize,
      allocateWinnings, autoSave, withdrawWinnings, positive, throw_when, add;
    unfold_method;
    repeat (match goal with |- context [(?a <=? 0)%Z] => destruct (Z.leb_spec a 0); [lia|] end);
    repeat (match goal with |- context [(?a <? ?b)%Z] => destruct (Z.ltb_spec a b); [lia|] end); done.
Qed.

Lemma run_refused o s : solvent s -> ~ allowed o s -> exists e, run_operation o s = (Throw e, s).
Proof.
  intros H Ha. apply solvent_facts in H.
  destruct o; unfold run_operation; simpl in Ha;
    unfold depositPrincipal, withdrawPrincipal, deployPrincipal, beginAggregateDeployment, completeAggregateDeployment,
      cancelAggregateDeployment, recognizeStrategyLoss, returnPrincipal, harvestGenuineSurplus, sponsor, reservePrize,
      allocateWinnings, autoSave, withdrawWinnings, positive, throw_when;
    unfold_method;
    repeat (match goal with |- context [(?a <=? 0)%Z] => destruct (Z.leb_spec a 0); [by eexists|] end);
    repeat (match goal with |- context [(?a <? ?b)%Z] => destruct (Z.ltb_spec a b); [by eexists|] end); exfalso; lia.
Qed.

(** C10: The accounting operations are total and safe.  From a solvent state an
    allowed operation returns, with exactly its effect, in a solvent state;
    any other throws and leaves the state as it was - so the invariant check
    that ends every operation never fires after a mutation. *)
Theorem run_operation_safe o s :
  solvent s ->
  (allowed o s -> run_operation o s = (Ok tt, effect o s) /\ solvent (effect o s)) /\
  (~ allowed o s -> exists e, run_operation o s = (Throw e, s)).
Proof.
  intros H. split; [|by apply run_refused]. intros Ha.
  pose proof (effect_solvent o s H Ha) as He. rewrite run_allowed by done. by rewrite assertInvariants_solvent.
Qed.

(** One call, returning or throwing. *)
Inductive accounting_step (s : AccountingSnapshot) : AccountingSnapshot -> Prop :=
| step_call o r s' : run_operation o s = (r, s') -> accounting_step s s'.

#[export] Instance allowed_dec o s : Decision (allowed o s).
Proof. destruct o; simpl; apply _. Defined.

(** Every state a fresh model reaches, by any calls in any order, is solvent:
    principal owed is covered by liquid, deployed, travelling and lost
    principal, prize assets by their categories, and winnings ever allocated
    are owed, withdrawn or auto-saved. *)
Theorem accounting_reachable_solvent s : rtc accounting_step emptyAccounting s -> solvent s.
Proof.
  intros H. generalize emptyAccounting_solvent. induction H as [t|t u s [o r u' E] _ IH]; [done|].
  intros Ht. apply IH. destruct (decide (allowed o t)) as [Ha|Ha].
  - rewrite run_allowed in E by done. pose proof (effect_solvent o t Ht Ha) as He.
    rewrite assertInvariants_solvent in E by done. by injection E as _ <-.
  - destruct (run_refused o t Ht Ha) as [e Ee]. rewrite Ee in E. by injection E as _ <-.
Qed.

(** * Concrete instances *)
Lemma run_operation_safe_witness :
  let s := effect (AllocateWinnings 30) (effect (ReservePrize 20 10) (effect (Sponsor 10) (effect (HarvestGenuineSurplus 20) emptyAccounting))) in
  run_operation (AutoSave 30) s = (Ok tt, effect (AutoSave 30) s) /\ solvent (effect (AutoSave 30) s).
Proof.
  intros s. apply (run_operation_safe (AutoSave 30) s).
  - apply solvent_facts. vm_compute. repeat split; congruence.
  - vm_compute. split; congruence.
Defined.

Lemma accounting_reachable_solvent_witness : solvent (run_operation (DepositPrincipal 5) emptyAccounting).2.
Proof.
  apply accounting_reachable_solvent. apply rtc_once.
  apply (step_call _ (DepositPrincipal 5) (Ok tt)). vm_compute. reflexivity.
Defined.
