(* ===== verification/Draw.v ===== *)
(** * The draw (reference/leopoldModels.ts)

    Rejection sampling of a 128-bit candidate, the round's state machine, the
    private settlement of a draw and the chunking of its work. *)
From Stdlib Require Import ZArith Lia Ascii.
From stdpp Require Import base option list sets strings numbers relations.
From S2P Require Import Prelude.
From S2P Require Import Twab.
Local Open Scope Z_scope.

Definition UINT128_DOMAIN : Z := 2 ^ 128.

Record RejectionParameters := { rp_quotient : Z; rp_limit : Z; rp_acceptsAll : bool }.

(** BigInt division; both operands are positive. *)
Definition rejectionParameters (totalWeight : Z) : result RejectionParameters :=
  fail_if ((totalWeight <=? 0) || (UINT128_DOMAIN <=? totalWeight)) "total weight outside source domain" ;;
  let quotient := Z.quot UINT128_DOMAIN totalWeight in
  let limit := quotient * totalWeight in
  Ok {| rp_quotient := quotient; rp_limit := limit; rp_acceptsAll := limit =? UINT128_DOMAIN |}.

(** [None] is [{ accepted: false }]. *)
Definition mapCandidate (candidate totalWeight : Z) : result (option Z) :=
  fail_if ((candidate <? 0) || (UINT128_DOMAIN <=? candidate)) "candidate outside uint128" ;;
  parameters ← rejectionParameters totalWeight;
  if negb (rp_acceptsAll parameters) && (rp_limit parameters <=? candidate) then Ok None
  else Ok (Some (Z.rem candidate totalWeight)).

(** ** The round's state machine *)
Inductive ReferenceRoundState : Type :=
| R_OPEN
| R_AGGREGATE_PENDING
| R_AGGREGATE_FINALIZED
| R_EMPTY
| R_VALIDITY_PENDING
| R_REJECTED
| R_ACCEPTED
| R_WINNER_PROCESSING
| R_WINNINGS_ALLOCATED
| R_SETTLED.

#[export] Instance ReferenceRoundState_eq_dec : EqDecision ReferenceRoundState.
Proof. solve_decision. Defined.

Definition transition (expected next : ReferenceRoundState) : method ReferenceRoundState unit :=
  state ← get;
  throw_if (negb (bool_decide (state = expected))) "illegal round transition" ;;
  put next.

Definition close : method ReferenceRoundState unit := transition R_OPEN R_AGGREGATE_PENDING.

Definition finalizeAggregate (totalWeight : Z) : method ReferenceRoundState unit :=
  transition R_AGGREGATE_PENDING (if totalWeight =? 0 then R_EMPTY else R_AGGREGATE_FINALIZED).

Definition generateCandidate (acceptsAll : bool) : method ReferenceRoundState unit :=
  state ← get;
  throw_if (negb (bool_decide (state = R_AGGREGATE_FINALIZED)) && negb (bool_decide (state = R_REJECTED)))
    "illegal candidate generation" ;;
  put (if acceptsAll then R_ACCEPTED else R_VALIDITY_PENDING).

Definition validity (valid : bool) : method ReferenceRoundState unit :=
  transition R_VALIDITY_PENDING (if valid then R_ACCEPTED else R_REJECTED).

(** ** Settlement *)
Record DrawParticipant := {
  dp_account : string; dp_weight : Z; dp_principal : Z; dp_winnings : Z; dp_autoSave : bool
}.

Record SettledParticipant := {
  sp_account : string; sp_weight : Z; sp_principal : Z; sp_winnings : Z; sp_autoSave : bool;
  sp_winner : bool; sp_autoSavedPrize : Z; sp_keptPrize : Z; sp_autoSaveTimestamp : option Z
}.

Record DrawSettlementResult := {
  ds_totalWeight : Z; ds_winnerIndex : Z; ds_finalCumulative : Z; ds_allocatedPrize : Z;
  ds_principalAdded : Z; ds_winningsAdded : Z; ds_participants : list SettledParticipant
}.

(** The first [map]: the predicates, with [cumulative] and [winnerIndex]
    threaded through. *)
Fixpoint winnerPredicates (participants : list DrawParticipant) (ticket index cumulative winnerIndex : Z)
    : list bool * Z * Z :=
  match participants with
  | [] => ([], cumulative, winnerIndex)
  | p :: ps =>
      let start := cumulative in
      let cumulative := cumulative + dp_weight p in
      let winner := (0 <? dp_weight p) && (start <=? ticket) && (ticket <? cumulative) in
      let '(ws, c, i) := winnerPredicates ps ticket (index + 1) cumulative (if winner then index else winnerIndex) in
      (winner :: ws, c, i)
  end.

Record Accumulators := { ac_totalPrincipal : Z; ac_principalAdded : Z; ac_winningsAdded : Z }.

(** One turn of the second [map]. *)
Definition settleOne (winner : bool) (prize conversionTimestamp principalCap : Z) (p : DrawParticipant) (ac : Accumulators)
    : SettledParticipant * Accumulators :=
  let won := if winner then prize else 0 in
  let canAutoSave := dp_autoSave p && (ac_totalPrincipal ac + won <=? principalCap) in
  let autoSavedPrize := if canAutoSave then won else 0 in
  let keptPrize := won - autoSavedPrize in
  ({| sp_account := dp_account p; sp_weight := dp_weight p; sp_principal := dp_principal p + autoSavedPrize;
      sp_winnings := dp_winnings p + keptPrize; sp_autoSave := dp_autoSave p; sp_winner := winner;
      sp_autoSavedPrize := autoSavedPrize; sp_keptPrize := keptPrize;
      sp_autoSaveTimestamp := if 0 <? autoSavedPrize then Some conversionTimestamp else None |},
   {| ac_totalPrincipal := ac_totalPrincipal ac + autoSavedPrize;
      ac_principalAdded := ac_principalAdded ac + autoSavedPrize;
      ac_winningsAdded := ac_winningsAdded ac + keptPrize |}).

Fixpoint settleAll (participants : list DrawParticipant) (winners : list bool) (prize conversionTimestamp principalCap : Z)
    (ac : Accumulators) : list SettledParticipant * Accumulators :=
  match participants, winners with
  | p :: ps, w :: ws =>
      let '(settled, ac) := settleOne w prize conversionTimestamp principalCap p ac in
      let '(rest, ac) := settleAll ps ws prize conversionTimestamp principalCap ac in
      (settled :: rest, ac)
  | _, _ => ([], ac)
  end.

Definition settlePrivateDraw (participants : list DrawParticipant) (ticket prize conversionTimestamp principalCap : Z)
    : result DrawSettlementResult :=
  fail_if (prize <? 0) "negative prize" ;;
  let totalWeight := sum_over dp_weight participants in
  fail_if (totalWeight <=? 0) "empty round" ;;
  fail_if ((ticket <? 0) || (totalWeight <=? ticket)) "ticket outside aggregate" ;;
  fail_if (existsb (fun p => dp_weight p <? 0) participants) "negative weight" ;;
  let '(winners, cumulative, winnerIndex) := winnerPredicates participants ticket 0 0 (-1) in
  fail_if (negb (cumulative =? totalWeight) ||
           negb (length (List.filter id winners) =? 1)%nat || (winnerIndex <? 0)) "winner reconciliation failed" ;;
  let '(settled, ac) := settleAll participants winners prize conversionTimestamp principalCap
                          {| ac_totalPrincipal := sum_over dp_principal participants;
                             ac_principalAdded := 0; ac_winningsAdded := 0 |} in
  fail_if (negb (ac_principalAdded ac + ac_winningsAdded ac =? prize)) "prize conservation failed" ;;
  Ok {| ds_totalWeight := totalWeight; ds_winnerIndex := winnerIndex; ds_finalCumulative := cumulative;
        ds_allocatedPrize := prize; ds_principalAdded := ac_principalAdded ac;
        ds_winningsAdded := ac_winningsAdded ac; ds_participants := settled |}.

Record CompleteDrawResult := {
  cd_candidate : Z; cd_candidateValid : bool; cd_acceptedTicket : Z; cd_settlement : DrawSettlementResult
}.

Definition completePrivateDraw (participants : list DrawParticipant) (candidate prize conversionTimestamp principalCap : Z)
    : result CompleteDrawResult :=
  let totalWeight := sum_over dp_weight participants in
  mapped ← mapCandidate candidate totalWeight;
  match mapped with
  | None => throw_new "candidate objectively rejected"
  | Some ticket =>
      settlement ← settlePrivateDraw participants ticket prize conversionTimestamp principalCap;
      Ok {| cd_candidate := candidate; cd_candidateValid := true; cd_acceptedTicket := ticket; cd_settlement := settlement |}
  end.

(** ** Chunks *)
Fixpoint chunkLoop (fuel : nat) (cursor participantCount requestedChunkSize : Z) : option (list (list Z)) :=
  if cursor <? participantCount then
    match fuel with
    | O => None
    | S fuel' =>
        let stop := Z.min (cursor + requestedChunkSize) participantCount in
        chunks ← chunkLoop fuel' (cursor + requestedChunkSize) participantCount requestedChunkSize;
        Some (seqZ cursor (stop - cursor) :: chunks)
    end
  else Some [].

Definition safe_at_least (bound : Z) (n : js_number) : bool :=
  match n with JInt z => (Z.abs z <=? MAX_SAFE_INTEGER) && (bound <=? z) | JNonInteger => false end.

Definition number_value (n : js_number) : Z := match n with JInt z => z | JNonInteger => 0 end.

(** As many turns as participants are enough ([deterministicChunks_partition]). *)
Definition deterministicChunks (participantCount requestedChunkSize : js_number) : option (result (list (list Z))) :=
  if negb (safe_at_least 0 participantCount) then Some (throw_new "invalid participant count")
  else if negb (safe_at_least 1 requestedChunkSize) then Some (throw_new "invalid chunk size")
  else Ok <$> chunkLoop (Z.to_nat (number_value participantCount)) 0 (number_value participantCount) (number_value requestedChunkSize).

(** * Lemmas *)

(** ** Rejection sampling *)
Lemma rejectionParameters_Ok totalWeight :
  0 < totalWeight < UINT128_DOMAIN ->
  rejectionParameters totalWeight =
    Ok {| rp_quotient := UINT128_DOMAIN / totalWeight; rp_limit := UINT128_DOMAIN / totalWeight * totalWeight;
          rp_acceptsAll := UINT128_DOMAIN / totalWeight * totalWeight =? UINT128_DOMAIN |}.
Proof.
  intros H. unfold rejectionParameters. rewrite guard_pass by (rewrite orb_false_iff, Z.leb_gt, Z.leb_gt; lia).
  by rewrite Z.quot_div_nonneg by (unfold UINT128_DOMAIN in *; lia).
Qed.

(** A candidate is accepted exactly below the limit. *)
Lemma mapCandidate_below candidate totalWeight :
  0 < totalWeight < UINT128_DOMAIN -> 0 <= candidate < UINT128_DOMAIN ->
  mapCandidate candidate totalWeight =
    Ok (if candidate <? UINT128_DOMAIN / totalWeight * totalWeight then Some (candidate mod totalWeight) else None).
Proof.
  intros HT Hc. unfold mapCandidate. rewrite guard_pass by (rewrite orb_false_iff, Z.ltb_ge, Z.leb_gt; lia).
  rewrite rejectionParameters_Ok by done. simpl. rewrite Z.rem_mod_nonneg by lia.
  set (limit := UINT128_DOMAIN / totalWeight * totalWeight).
  destruct (Z.eqb_spec limit UINT128_DOMAIN), (Z.leb_spec limit candidate), (Z.ltb_spec candidate limit); simpl; try done; lia.
Qed.

Lemma mapCandidate_ticket candidate totalWeight ticket :
  0 < totalWeight < UINT128_DOMAIN ->
  mapCandidate candidate totalWeight = Ok (Some ticket) <->
  0 <= ticket < totalWeight /\
  exists k, 0 <= k < UINT128_DOMAIN / totalWeight /\ candidate = ticket + k * totalWeight.
Proof.
  intros HT. pose proof (Z.div_mod UINT128_DOMAIN totalWeight ltac:(lia)) as Hdm.
  pose proof (Z.mod_pos_bound UINT128_DOMAIN totalWeight ltac:(lia)) as Hmod.
  set (q := UINT128_DOMAIN / totalWeight) in *. split.
  - intros H. destruct (decide (0 <= candidate < UINT128_DOMAIN)) as [Hc|Hc].
    + rewrite mapCandidate_below in H by done. fold q in H.
      destruct (Z.ltb_spec candidate (q * totalWeight)); [|done]. injection H as <-.
      split; [apply Z.mod_pos_bound; lia|]. exists (candidate / totalWeight).
      pose proof (Z.div_mod candidate totalWeight ltac:(lia)). split; [|lia].
      split; [apply Z.div_pos; lia|]. apply Z.div_lt_upper_bound; lia.
    + unfold mapCandidate, fail_if in H.
      destruct ((candidate <? 0) || (UINT128_DOMAIN <=? candidate)) eqn:E; [done|]. bool_to_prop. lia.
  - intros (Ht & k & Hk & ->).
    assert (Hb : ticket + k * totalWeight < q * totalWeight) by nia.
    rewrite mapCandidate_below by (try done; nia). fold q.
    destruct (Z.ltb_spec (ticket + k * totalWeight) (q * totalWeight)); [|lia].
    by rewrite Z.mod_add, Z.mod_small by lia.
Qed.

(** The ticket is uniform.  Over a total weight in the domain, the
    candidates that give a ticket are exactly its [quotient] translates by
    multiples of the total: every ticket has the same number of candidates,
    and fewer than half of all candidates are rejected. *)
Theorem mapCandidate_uniform totalWeight :
  0 < totalWeight < UINT128_DOMAIN ->
  (forall candidate ticket,
     mapCandidate candidate totalWeight = Ok (Some ticket) <->
     0 <= ticket < totalWeight /\
     exists k, 0 <= k < UINT128_DOMAIN / totalWeight /\ candidate = ticket + k * totalWeight) /\
  (forall candidate, 0 <= candidate < UINT128_DOMAIN ->
     mapCandidate candidate totalWeight = Ok None <-> UINT128_DOMAIN / totalWeight * totalWeight <= candidate) /\
  2 * (UINT128_DOMAIN - UINT128_DOMAIN / totalWeight * totalWeight) < UINT128_DOMAIN.
Proof.
  intros HT. split_and!.
  - intros. by apply mapCandidate_ticket.
  - intros c Hc. rewrite mapCandidate_below by done. destruct (Z.ltb_spec c (UINT128_DOMAIN / totalWeight * totalWeight)); split; intros; simplify_eq; try done; lia.
  - pose proof (Z.div_mod UINT128_DOMAIN totalWeight ltac:(lia)) as Hdm.
    pose proof (Z.mod_pos_bound UINT128_DOMAIN totalWeight ltac:(lia)) as Hmod.
    assert (1 <= UINT128_DOMAIN / totalWeight) by (apply Z.div_le_lower_bound; lia). nia.
Qed.

(** ** Winner selection *)
Notation total := (sum_over dp_weight).

Lemma sum_over_app {A} (f : A -> Z) l k : sum_over f (l ++ k) = sum_over f l + sum_over f k.
Proof. unfold sum_over. induction l as [|x l IH]; simpl; lia. Qed.

Definition nonnegative_weights (ps : list DrawParticipant) : Prop := Forall (fun p => 0 <= dp_weight p) ps.

Lemma total_nonneg ps : nonnegative_weights ps -> 0 <= total ps.
Proof. unfold sum_over. induction 1; simpl in *; lia. Qed.

Lemma winnerPredicates_none ps ticket index cumulative w :
  nonnegative_weights ps -> ticket < cumulative \/ cumulative + total ps <= ticket ->
  winnerPredicates ps ticket index cumulative w = (replicate (length ps) false, cumulative + total ps, w).
Proof.
  intros H. revert index cumulative. induction H as [|p ps Hp Hps IH]; intros index cumulative Hout; simpl.
  { do 2 f_equal. unfold sum_over. simpl. lia. }
  assert (E : (0 <? dp_weight p) && (cumulative <=? ticket) && (ticket <? cumulative + dp_weight p) = false).
  { pose proof (total_nonneg ps Hps). unfold sum_over in *. simpl in Hout.
    rewrite !andb_false_iff, Z.leb_gt, !Z.ltb_ge. lia. }
  rewrite E, IH by (unfold sum_over in *; simpl in Hout; pose proof (total_nonneg ps Hps); unfold sum_over in *; lia).
  do 2 f_equal. unfold sum_over. simpl. lia.
Qed.

(** The participant whose interval of the cumulative weights holds the ticket. *)
Lemma winnerPredicates_one ps ticket index cumulative w :
  nonnegative_weights ps -> cumulative <= ticket < cumulative + total ps ->
  exists pre p post, ps = pre ++ p :: post /\
    cumulative + total pre <= ticket < cumulative + total pre + dp_weight p /\
    winnerPredicates ps ticket index cumulative w =
      (replicate (length pre) false ++ true :: replicate (length post) false, cumulative + total ps,
       index + Z.of_nat (length pre)).
Proof.
  intros H. revert index cumulative w. induction H as [|p ps Hp Hps IH]; intros index cumulative w Hin.
  { unfold sum_over in Hin. simpl in Hin. lia. }
  assert (Et : total (p :: ps) = dp_weight p + total ps) by done.
  destruct (Z.lt_ge_cases ticket (cumulative + dp_weight p)) as [Hlt|Hge].
  - exists [], p, ps. split; [done|]. split; [unfold sum_over; simpl; lia|]. cbn [winnerPredicates length replicate app].
    destruct (Z.ltb_spec 0 (dp_weight p)); [|lia]. destruct (Z.leb_spec cumulative ticket); [|lia].
    destruct (Z.ltb_spec ticket (cumulative + dp_weight p)); [|lia]. simpl.
    rewrite winnerPredicates_none by (try done; lia). rewrite ?Et. f_equal; [f_equal; lia|lia].
  - destruct (IH (index + 1) (cumulative + dp_weight p) w) as (pre & q & post & -> & Hq & E); [lia|].
    exists (p :: pre), q, post. split; [done|].
    assert (Ep : total (p :: pre) = dp_weight p + total pre) by done.
    split; [lia|]. cbn [winnerPredicates length replicate app].
    assert (Ef : (0 <? dp_weight p) && (cumulative <=? ticket) && (ticket <? cumulative + dp_weight p) = false).
    { rewrite !andb_false_iff, !Z.ltb_ge. right. lia. }
    rewrite Ef, E. rewrite ?Et. f_equal; [f_equal; lia|lia].
Qed.

(** ** Settlement *)

(** What the draw makes of a participant who does not win, and of the winner. *)
Definition unchanged (p : DrawParticipant) : SettledParticipant :=
  {| sp_account := dp_account p; sp_weight := dp_weight p; sp_principal := dp_principal p; sp_winnings := dp_winnings p;
     sp_autoSave := dp_autoSave p; sp_winner := false; sp_autoSavedPrize := 0; sp_keptPrize := 0; sp_autoSaveTimestamp := None |}.

Definition won (p : DrawParticipant) (saved kept timestamp : Z) : SettledParticipant :=
  {| sp_account := dp_account p; sp_weight := dp_weight p; sp_principal := dp_principal p + saved;
     sp_winnings := dp_winnings p + kept; sp_autoSave := dp_autoSave p; sp_winner := true; sp_autoSavedPrize := saved;
     sp_keptPrize := kept; sp_autoSaveTimestamp := if 0 <? saved then Some timestamp else None |}.

Lemma settleOne_loser prize ts cap p ac : settleOne false prize ts cap p ac = (unchanged p, ac).
Proof.
  unfold settleOne, unchanged. destruct ac as [tp pa wa]. cbn [ac_totalPrincipal ac_principalAdded ac_winningsAdded].
  destruct (dp_autoSave p && _); simpl; rewrite ?Z.add_0_r; done.
Qed.

Lemma settleAll_losers ps prize ts cap ac :
  settleAll ps (replicate (length ps) false) prize ts cap ac = (unchanged <$> ps, ac).
Proof. induction ps as [|p ps IH]; [done|]. cbn [length replicate settleAll]. rewrite settleOne_loser. by rewrite IH. Qed.

Lemma settleAll_winner pre p post prize ts cap ac :
  settleAll (pre ++ p :: post) (replicate (length pre) false ++ true :: replicate (length post) false) prize ts cap ac =
  let saved := if dp_autoSave p && (ac_totalPrincipal ac + prize <=? cap) then prize else 0 in
  ((unchanged <$> pre) ++ won p saved (prize - saved) ts :: (unchanged <$> post),
   {| ac_totalPrincipal := ac_totalPrincipal ac + saved; ac_principalAdded := ac_principalAdded ac + saved;
      ac_winningsAdded := ac_winningsAdded ac + (prize - saved) |}).
Proof.
  induction pre as [|q pre IH].
  - cbn [length replicate app settleAll fmap list_fmap]. unfold settleOne at 1. cbv zeta. by rewrite settleAll_losers.
  - cbn [length replicate app settleAll]. rewrite settleOne_loser. by rewrite IH.
Qed.

(** The draws the function settles. *)
Definition drawable (ps : list DrawParticipant) (ticket prize : Z) : Prop :=
  0 <= prize /\ 0 <= ticket < total ps /\ nonnegative_weights ps.

#[export] Instance drawable_dec ps ticket prize : Decision (drawable ps ticket prize).
Proof. unfold drawable, nonnegative_weights. apply _. Defined.

Lemma existsb_negative ps : existsb (fun p => dp_weight p <? 0) ps = false <-> nonnegative_weights ps.
Proof.
  unfold nonnegative_weights. induction ps as [|p ps IH]; simpl; [split; [constructor|done]|].
  rewrite orb_false_iff, Forall_cons, IH, Z.ltb_ge. done.
Qed.

Lemma length_filter_one m n : length (List.filter id (replicate m false ++ true :: replicate n false)) = 1%nat.
Proof.
  assert (H : forall k, List.filter id (replicate k false) = []) by (intros k; induction k; done).
  rewrite List.filter_app. simpl. rewrite !H. done.
Qed.

Lemma settle_drawable ps ticket prize ts cap :
  drawable ps ticket prize ->
  exists pre p post, ps = pre ++ p :: post /\ total pre <= ticket < total pre + dp_weight p /\
    let saved := if dp_autoSave p && (sum_over dp_principal ps + prize <=? cap) then prize else 0 in
    settlePrivateDraw ps ticket prize ts cap =
      Ok {| ds_totalWeight := total ps; ds_winnerIndex := Z.of_nat (length pre); ds_finalCumulative := total ps;
            ds_allocatedPrize := prize; ds_principalAdded := saved; ds_winningsAdded := prize - saved;
            ds_participants := (unchanged <$> pre) ++ won p saved (prize - saved) ts :: (unchanged <$> post) |}.
Proof.
  intros (Hp & Ht & Hw).
  destruct (winnerPredicates_one ps ticket 0 0 (-1) Hw) as (pre & p & post & Eps & Hin & E); [lia|].
  exists pre, p, post. split; [done|]. split; [lia|]. intros saved. unfold settlePrivateDraw.
  rewrite (guard_pass (prize <? 0)) by lia. cbv zeta.
  rewrite (guard_pass (total ps <=? 0)) by lia.
  rewrite (guard_pass ((ticket <? 0) || (total ps <=? ticket))) by (rewrite orb_false_iff, Z.ltb_ge, Z.leb_gt; lia).
  rewrite (guard_pass (existsb _ ps)) by (by apply existsb_negative).
  rewrite E. cbv zeta. rewrite guard_pass.
  2:{ rewrite length_filter_one, !orb_false_iff, negb_false_iff, Z.eqb_eq, Z.ltb_ge. repeat split; lia. }
  assert (Es : settleAll ps (replicate (length pre) false ++ true :: replicate (length post) false) prize ts cap
             {| ac_totalPrincipal := sum_over dp_principal ps; ac_principalAdded := 0; ac_winningsAdded := 0 |} =
    ((unchanged <$> pre) ++ won p saved (prize - saved) ts :: (unchanged <$> post),
     {| ac_totalPrincipal := sum_over dp_principal ps + saved; ac_principalAdded := 0 + saved;
        ac_winningsAdded := 0 + (prize - saved) |})) by (rewrite Eps at 1; apply settleAll_winner).
  rewrite Es. cbn [ac_principalAdded ac_winningsAdded]. rewrite guard_pass by (rewrite negb_false_iff, Z.eqb_eq; lia).
  f_equal.
Qed.

(** Settlement.  A draw is settled exactly when the prize is not negative,
    the ticket lies below the total and no weight is negative - the final
    reconciliation checks never fire; then the winner is the participant
    whose interval of cumulative weights holds the ticket, everybody else is
    unchanged, and the winner receives the whole prize, into principal only if
    they opted in and the cap allows it, into winnings otherwise. *)
Theorem settlePrivateDraw_spec ps ticket prize ts cap :
  (drawable ps ticket prize ->
   exists pre p post saved ds, settlePrivateDraw ps ticket prize ts cap = Ok ds /\
     ps = pre ++ p :: post /\ total pre <= ticket < total pre + dp_weight p /\
     ds_winnerIndex ds = Z.of_nat (length pre) /\
     ds_participants ds = (unchanged <$> pre) ++ won p saved (prize - saved) ts :: (unchanged <$> post) /\
     ds_principalAdded ds = saved /\ ds_principalAdded ds + ds_winningsAdded ds = prize /\
     (saved = 0 \/ saved = prize) /\
     (saved <> 0 -> dp_autoSave p = true /\ sum_over dp_principal ps + saved <= cap)) /\
  (~ drawable ps ticket prize -> exists e, settlePrivateDraw ps ticket prize ts cap = Throw e).
Proof.
  split.
  - intros Hd. destruct (settle_drawable ps ticket prize ts cap Hd) as (pre & p & post & Eps & Hin & E). cbv zeta in E.
    exists pre, p, post. eexists _, _. split; [exact E|]. cbn [ds_winnerIndex ds_participants ds_principalAdded ds_winningsAdded].
    split_and!; [done|lia|lia|done|done|done|lia| |].
    + destruct (_ && _); auto.
    + destruct (dp_autoSave p && _) eqn:C; [|done]. bool_to_prop. intros _. split; [done|lia].
  - intros Hn. unfold settlePrivateDraw, fail_if, throw_new.
    destruct (Z.ltb_spec prize 0); [by eexists|]. simpl.
    destruct (Z.leb_spec (total ps) 0); [by eexists|]. simpl.
    destruct ((ticket <? 0) || _) eqn:Ct; [by eexists|]. simpl.
    destruct (existsb _ ps) eqn:Ce; [by eexists|]. exfalso. apply Hn. apply existsb_negative in Ce. bool_to_prop.
    split_and!; [done|lia|lia|done].
Qed.

(** The interval that holds a ticket is one participant's. *)
Lemma interval_unique pre p post pre' p' post' ticket :
  nonnegative_weights (pre ++ p :: post) -> pre ++ p :: post = pre' ++ p' :: post' ->
  total pre <= ticket < total pre + dp_weight p -> total pre' <= ticket < total pre' + dp_weight p' ->
  pre' = pre /\ p' = p /\ post' = post.
Proof.
  revert pre' ticket. induction pre as [|x pre IH]; intros [|y pre'] ticket Hw E H1 H2.
  - by simplify_eq/=.
  - simplify_eq/=. unfold nonnegative_weights in Hw. rewrite Forall_cons, Forall_app in Hw.
    pose proof (total_nonneg pre' (proj1 (proj2 Hw))). unfold sum_over in *. simpl in *. lia.
  - simplify_eq/=. unfold nonnegative_weights in Hw. rewrite Forall_cons, Forall_app in Hw.
    pose proof (total_nonneg pre (proj1 (proj2 Hw))). unfold sum_over in *. simpl in *. lia.
  - cbn [app] in Hw, E. injection E as <- E. unfold nonnegative_weights in Hw. rewrite Forall_cons in Hw.
    change (total (x :: pre)) with (dp_weight x + total pre) in H1.
    change (total (x :: pre')) with (dp_weight x + total pre') in H2.
    destruct (IH pre' (ticket - dp_weight x)) as (-> & -> & ->); [apply Hw|done|lia|lia|done].
Qed.

Lemma total_split pre p post : total (pre ++ p :: post) = total pre + dp_weight p + total post.
Proof. rewrite sum_over_app. change (total (p :: post)) with (dp_weight p + total post). lia. Qed.

(** C8: The draw is fair.  Whatever the prize and the cap, a participant wins
    exactly with the candidates [s + k * total] for [s] in their interval of
    cumulative weights and [k] below the quotient - a set of
    [weight * quotient] candidates, so that the chances of two participants
    are in the ratio of their weights. *)
Theorem completePrivateDraw_fair pre p post candidate prize ts cap :
  let ps := pre ++ p :: post in
  nonnegative_weights ps -> 0 < total ps < UINT128_DOMAIN -> 0 <= prize ->
  (exists r, completePrivateDraw ps candidate prize ts cap = Ok r /\
     ds_winnerIndex (cd_settlement r) = Z.of_nat (length pre)) <->
  exists s k, 0 <= s < dp_weight p /\ 0 <= k < UINT128_DOMAIN / total ps /\
    candidate = (total pre + s) + k * total ps.
Proof.
  intros ps Hw HT Hp. assert (Hall := Hw). unfold nonnegative_weights, ps in Hall. rewrite Forall_app, Forall_cons in Hall.
  destruct Hall as (Hpre & Hwp & Hpost).
  pose proof (total_nonneg pre Hpre). pose proof (total_nonneg post Hpost).
  pose proof (total_split pre p post) as Hsplit. fold ps in Hsplit. unfold completePrivateDraw. split.
  - intros (r & Hr & Hi). apply result_bind_Ok in Hr as ([ticket|] & Hm & Hr); [|done].
    apply mapCandidate_ticket in Hm as (Ht & k & Hk & ->); [|done].
    apply result_bind_Ok in Hr as (ds & Hs & [= <-]).
    destruct (settle_drawable ps ticket prize ts cap) as (pre' & p' & post' & E & Hin & Es); [done|].
    rewrite Es in Hs. injection Hs as <-. simpl in Hi. apply Nat2Z.inj in Hi.
    apply app_inj_1 in E as [<- E]; [|done]. injection E as -> ->.
    exists (ticket - total pre), k. split_and!; lia.
  - intros (s & k & Hs & Hk & ->).
    assert (Hm : mapCandidate (total pre + s + k * total ps) (total ps) = Ok (Some (total pre + s))).
    { apply mapCandidate_ticket; [done|]. split; [lia|]. by exists k. }
    rewrite Hm. cbn [mbind result_bind].
    destruct (settle_drawable ps (total pre + s) prize ts cap) as (pre' & p' & post' & E & Hin & Es).
    { split_and!; [done|lia|lia|done]. }
    rewrite Es. eexists. split; [done|]. simpl. do 2 f_equal.
    by destruct (interval_unique pre p post pre' p' post' (total pre + s) Hw E) as (-> & _); [lia|lia|].
Qed.

(** ** Chunks *)
Lemma chunkLoop_spec fuel cursor count size :
  1 <= size -> 0 <= cursor -> count - cursor <= Z.of_nat fuel ->
  exists chunks, chunkLoop fuel cursor count size = Some chunks /\
    concat chunks = seqZ cursor (count - cursor) /\
    Forall (fun chunk => 0 < Z.of_nat (length chunk) <= size) chunks.
Proof.
  intros Hs. revert cursor. induction fuel as [|fuel IH]; intros cursor Hc Hf; cbn [chunkLoop].
  { destruct (Z.ltb_spec cursor count); [lia|]. exists []. split_and!; [done| |constructor].
    by rewrite seqZ_nil by lia. }
  destruct (Z.ltb_spec cursor count) as [Hlt|Hge].
  - destruct (IH (cursor + size)) as (chunks & -> & Ec & Hall); [lia|lia|]. eexists. split; [done|]. cbv zeta.
    set (stop := Z.min (cursor + size) count). split.
    + cbn [concat]. rewrite Ec. destruct (Z.le_ge_cases (cursor + size) count) as [Hle|Hgt].
      * replace (count - cursor) with (size + (count - (cursor + size))) by lia.
        rewrite seqZ_app by lia. f_equal. f_equal. lia.
      * rewrite (seqZ_nil (cursor + size)) by lia. rewrite app_nil_r. f_equal. lia.
    + constructor; [|done]. rewrite length_seqZ. lia.
  - exists []. split_and!; [done| |constructor]. by rewrite seqZ_nil by lia.
Qed.

(** Chunking.  For a safe participant count and a positive safe chunk size
    the loop ends, its chunks in order are the participants [0 .. n - 1], each
    exactly once, and every chunk holds between one and [size] of them; any
    other argument is refused. *)
Theorem deterministicChunks_partition count size :
  match deterministicChunks count size with
  | None => False
  | Some (Ok chunks) =>
      exists n k, count = JInt n /\ size = JInt k /\ 0 <= n <= MAX_SAFE_INTEGER /\ 1 <= k <= MAX_SAFE_INTEGER /\
        concat chunks = seqZ 0 n /\ Forall (fun chunk => 0 < Z.of_nat (length chunk) <= k) chunks
  | Some (Throw _) => safe_at_least 0 count = false \/ safe_at_least 1 size = false
  end.
Proof.
  unfold deterministicChunks. destruct (safe_at_least 0 count) eqn:E1; simpl; [|by left].
  destruct (safe_at_least 1 size) eqn:E2; simpl; [|by right].
  destruct count as [n|]; [|done]. destruct size as [k|]; [|done].
  unfold safe_at_least in E1, E2. bool_to_prop. simpl.
  destruct (chunkLoop_spec (Z.to_nat n) 0 n k) as (chunks & -> & Ec & Hall); [lia|lia|lia|].
  simpl. exists n, k. rewrite Z.sub_0_r in Ec. split_and!; try done; lia.
Qed.

(** ** The round *)
Inductive round_call (s : ReferenceRoundState) : ReferenceRoundState -> Prop :=
| call_close : round_call s (close s).2
| call_finalize w : round_call s (finalizeAggregate w s).2
| call_candidate b : round_call s (generateCandidate b s).2
| call_validity b : round_call s (validity b s).2.

(** The states the reference machine's calls lead to. *)
Definition drawing_states : list ReferenceRoundState :=
  [R_OPEN; R_AGGREGATE_PENDING; R_AGGREGATE_FINALIZED; R_EMPTY; R_VALIDITY_PENDING; R_REJECTED; R_ACCEPTED].

(** The round.  Whatever is called, in any order, a round ends its draw at
    most once: an accepted round and an empty one refuse every call and stay
    as they are, a ticket is accepted only from a finalized aggregate or a
    rejected or pending candidate, and no call reaches a settlement state. *)
Theorem round_reachable s s' :
  rtc round_call R_OPEN s -> round_call s s' ->
  s' ∈ drawing_states /\
  (s ∈ [R_EMPTY; R_ACCEPTED] -> s' = s) /\
  (s' = R_ACCEPTED -> s ∈ [R_ACCEPTED; R_AGGREGATE_FINALIZED; R_REJECTED; R_VALIDITY_PENDING]).
Proof.
  assert (Hcall : forall t u, t ∈ drawing_states -> round_call t u -> u ∈ drawing_states /\ (t ∈ [R_EMPTY; R_ACCEPTED] -> u = t) /\
     (u = R_ACCEPTED -> t ∈ [R_ACCEPTED; R_AGGREGATE_FINALIZED; R_REJECTED; R_VALIDITY_PENDING])).
  { intros t u Ht [|w|b|b]; unfold finalizeAggregate; try destruct (w =? 0); try destruct b; destruct t; simpl;
      try (exfalso; revert Ht; apply (bool_decide_unpack (_ -> False)); vm_compute; exact I);
      (split; [apply (bool_decide_unpack _); vm_compute; exact I|]);
      (split; [try done; apply (bool_decide_unpack (_ -> _)); vm_compute; exact I|]);
      intros E; try discriminate E; apply (bool_decide_unpack _); vm_compute; exact I. }
  intros Hs. assert (Hin : s ∈ drawing_states); [|by apply Hcall].
  assert (H0 : R_OPEN ∈ drawing_states) by (by left). revert H0.
  induction Hs as [t|t u v Hc _ IH]; [done|]. intros Ht. by apply IH, (Hcall t u).
Qed.

(** * Concrete instances *)
Definition demo_participants : list DrawParticipant :=
  [{| dp_account := "a"; dp_weight := 3; dp_principal := 10; dp_winnings := 0; dp_autoSave := true |};
   {| dp_account := "b"; dp_weight := 0; dp_principal := 5; dp_winnings := 1; dp_autoSave := false |};
   {| dp_account := "c"; dp_weight := 4; dp_principal := 20; dp_winnings := 2; dp_autoSave := true |}].

Lemma mapCandidate_uniform_witness :
  2 * (UINT128_DOMAIN - UINT128_DOMAIN / 7 * 7) < UINT128_DOMAIN /\
  (mapCandidate 17 7 = Ok (Some 3) <-> 0 <= 3 < 7 /\ exists k, 0 <= k < UINT128_DOMAIN / 7 /\ 17 = 3 + k * 7).
Proof.
  destruct (mapCandidate_uniform 7) as (H & _ & H2); [vm_compute; split; reflexivity|]. split; [exact H2|exact (H 17 3)].
Defined.

Lemma settlePrivateDraw_spec_witness :
  exists ds, settlePrivateDraw demo_participants 4 100 9 200 = Ok ds /\ ds_winnerIndex ds = 2 /\ ds_principalAdded ds = 100.
Proof.
  destruct (settlePrivateDraw_spec demo_participants 4 100 9 200) as [H _].
  destruct H as (pre & p & post & saved & ds & E & _); [apply (bool_decide_unpack _); vm_compute; exact I|].
  exists ds. split; [exact E|]. vm_compute in E. injection E as <-. split; reflexivity.
Defined.

Lemma completePrivateDraw_fair_witness :
  (exists r, completePrivateDraw demo_participants 15 100 9 200 = Ok r /\ ds_winnerIndex (cd_settlement r) = 0) <->
  exists s k, 0 <= s < 3 /\ 0 <= k < UINT128_DOMAIN / 7 /\ 15 = (0 + s) + k * 7.
Proof.
  apply (completePrivateDraw_fair [] (List.hd {| dp_account := ""; dp_weight := 0; dp_principal := 0; dp_winnings := 0; dp_autoSave := false |} demo_participants)
           (List.tl demo_participants) 15 100 9 200).
  - apply (bool_decide_unpack _). vm_compute. exact I.
  - vm_compute. split; reflexivity.
  - lia.
Defined.

Lemma round_reachable_witness : (generateCandidate true R_ACCEPTED).2 = R_ACCEPTED.
Proof.
  refine (proj1 (proj2 (round_reachable R_ACCEPTED _ _ (call_candidate R_ACCEPTED true))) _).
  - apply (rtc_l _ _ (close R_OPEN).2); [constructor|].
    apply (rtc_l _ _ (finalizeAggregate 5 R_AGGREGATE_PENDING).2); [constructor|].
    apply (rtc_l _ _ (generateCandidate true R_AGGREGATE_FINALIZED).2); [constructor|apply rtc_refl].
  - apply (bool_decide_unpack _). vm_compute. exact I.
Defined.
