(* ===== verification/WeightDomain.v ===== *)
(** * The weight domain (scripts/sg3-domain.ts)

    The offline derivation of the integer widths the encrypted implementation
    uses: bit counts, the bounded accrual of one account's balance-time, and
    the rejection plan of a candidate of any width.  Numbers are bigints; the
    report's prose is not modelled, the numbers it is built from are. *)
From Stdlib Require Import ZArith Lia Ascii.
From stdpp Require Import base option list sets strings numbers.
From S2P Require Import Prelude.
From S2P Require Import Twab.
From S2P Require Import Draw.
Local Open Scope Z_scope.

Definition TOKEN_DECIMALS : Z := 6.
Definition TOKEN_SCALE : Z := 10 ^ TOKEN_DECIMALS.
Definition MAX_POOL_WHOLE_TOKENS : Z := 1000000000.
Definition MAX_POOL_BASE_UNITS : Z := MAX_POOL_WHOLE_TOKENS * TOKEN_SCALE.
Definition TIME_GRANULARITY_SECONDS : Z := 1.
Definition MAX_ROUND_DURATION_DAYS : Z := 365.
Definition SECONDS_PER_DAY : Z := 24 * 60 * 60.
Definition MAX_ROUND_DURATION_SECONDS : Z := MAX_ROUND_DURATION_DAYS * SECONDS_PER_DAY.
Definition MAX_USER_BALANCE_BASE_UNITS : Z := MAX_POOL_BASE_UNITS.
Definition MAX_USER_TWAB : Z := MAX_USER_BALANCE_BASE_UNITS * MAX_ROUND_DURATION_SECONDS.
Definition MAX_AGGREGATE_TWAB : Z := MAX_POOL_BASE_UNITS * MAX_ROUND_DURATION_SECONDS.
Definition ENCRYPTED_WIDTHS : list Z := [64; 128; 256].
Definition PRODUCTION_TICKET_WIDTH : Z := 128.

Record TwabState := { ts_balance : Z; ts_cumulativeTwab : Z; ts_lastUpdate : Z }.

Record TwabUpdate := {
  tu_balance : Z; tu_cumulativeTwab : Z; tu_effectiveTime : Z; tu_elapsed : Z; tu_weightedDelta : Z
}.

Record RejectionPlan := {
  pl_noDraw : bool;
  pl_total : Z;
  pl_width : Z;
  pl_domainSize : Z;
  pl_quotient : option Z;
  pl_rejectionLimit : option Z;
  pl_rejectedCandidateCount : option Z;
  pl_allCandidatesValid : bool;
  pl_rejectionLimitFitsCandidateWidth : bool;
  pl_acceptanceNumerator : option Z;
  pl_acceptanceDenominator : Z;
  pl_expectedAttemptsNumerator : option Z;
  pl_expectedAttemptsDenominator : option Z
}.

Definition invariant (condition : bool) (message : string) : result unit :=
  fail_if (negb condition) ("SG3 domain invariant failed: " +:+ message).

Definition maxUnsigned (width : Z) : result Z :=
  invariant (0 <? width) "width must be positive" ;;
  Ok (Z.shiftl 1 width - 1).

Fixpoint bitsLoop (fuel : nat) (value bits maximum : Z) : option Z :=
  if maximum <? value then
    match fuel with
    | O => None
    | S fuel' => bitsLoop fuel' value (bits + 1) (Z.shiftl 1 (bits + 1) - 1)
    end
  else Some bits.

(** One turn per bit: [requiredBits_least] shows the fuel is enough. *)
Definition requiredBits (value : Z) : option (result Z) :=
  match invariant (0 <=? value) "requiredBits input must be non-negative" with
  | Throw e => Some (Throw e)
  | Ok _ => Ok <$> bitsLoop (Z.to_nat (Z.log2 value + 1)) value 0 0
  end.

Definition smallestSupportedWidth (bits : Z) : result Z :=
  match List.find (fun width => bits <=? width) ENCRYPTED_WIDTHS with
  | Some width => Ok width
  | None => throw_new "SG3 domain invariant failed: no supported encrypted width"
  end.

Definition requireWithin (name : string) (value maximum : Z) : result unit :=
  invariant (0 <=? value) (name +:+ " must be non-negative") ;;
  invariant (value <=? maximum) (name +:+ " exceeds its locked maximum").

Definition updateTwabBeforeBalanceMutation (state : TwabState) (currentTimestamp roundEnd nextBalance : Z) : result TwabUpdate :=
  requireWithin "balance" (ts_balance state) MAX_USER_BALANCE_BASE_UNITS ;;
  requireWithin "next balance" nextBalance MAX_USER_BALANCE_BASE_UNITS ;;
  requireWithin "cumulative TWAB" (ts_cumulativeTwab state) MAX_USER_TWAB ;;
  invariant ((0 <=? currentTimestamp) && (0 <=? roundEnd) && (0 <=? ts_lastUpdate state)) "timestamps must be non-negative" ;;
  let effectiveTime := if currentTimestamp <? roundEnd then currentTimestamp else roundEnd in
  invariant (ts_lastUpdate state <=? effectiveTime) "effective time precedes last update" ;;
  let elapsed := effectiveTime - ts_lastUpdate state in
  requireWithin "elapsed time" elapsed MAX_ROUND_DURATION_SECONDS ;;
  let weightedDelta := ts_balance state * elapsed in
  requireWithin "weighted delta" weightedDelta MAX_USER_TWAB ;;
  invariant (ts_cumulativeTwab state <=? MAX_USER_TWAB - weightedDelta) "cumulative TWAB addition overflows" ;;
  Ok {| tu_balance := nextBalance; tu_cumulativeTwab := ts_cumulativeTwab state + weightedDelta;
        tu_effectiveTime := effectiveTime; tu_elapsed := elapsed; tu_weightedDelta := weightedDelta |}.

Definition rejectionPlan (total width : Z) : result RejectionPlan :=
  invariant (0 <? width) "candidate width must be positive" ;;
  let domainSize := Z.shiftl 1 width in
  requireWithin "aggregate total" total (domainSize - 1) ;;
  if total =? 0 then
    Ok {| pl_noDraw := true; pl_total := total; pl_width := width; pl_domainSize := domainSize; pl_quotient := None;
          pl_rejectionLimit := None; pl_rejectedCandidateCount := None; pl_allCandidatesValid := false;
          pl_rejectionLimitFitsCandidateWidth := false; pl_acceptanceNumerator := None;
          pl_acceptanceDenominator := domainSize; pl_expectedAttemptsNumerator := None;
          pl_expectedAttemptsDenominator := None |}
  else
    let quotient := Z.quot domainSize total in
    let rejectionLimit := quotient * total in
    let rejectedCandidateCount := domainSize - rejectionLimit in
    invariant (rejectionLimit <=? domainSize) "rejection limit exceeds domain size" ;;
    invariant (rejectedCandidateCount <? total) "division remainder is not below total" ;;
    Ok {| pl_noDraw := false; pl_total := total; pl_width := width; pl_domainSize := domainSize;
          pl_quotient := Some quotient; pl_rejectionLimit := Some rejectionLimit;
          pl_rejectedCandidateCount := Some rejectedCandidateCount;
          pl_allCandidatesValid := rejectionLimit =? domainSize;
          pl_rejectionLimitFitsCandidateWidth := rejectionLimit <=? domainSize - 1;
          pl_acceptanceNumerator := Some rejectionLimit; pl_acceptanceDenominator := domainSize;
          pl_expectedAttemptsNumerator := Some domainSize; pl_expectedAttemptsDenominator := Some rejectionLimit |}.

(** The validity flag and the ticket. *)
Definition acceptCandidate (candidate total width : Z) : result (bool * option Z) :=
  plan ← rejectionPlan total width;
  requireWithin "candidate" candidate (pl_domainSize plan - 1) ;;
  if pl_noDraw plan then Ok (false, None)
  else if total =? 1 then Ok (true, Some 0)
  else
    match pl_rejectionLimit plan with
    | None => throw_new "SG3 domain invariant failed: non-zero total has no rejection limit"
    | Some limit =>
        let valid := pl_allCandidatesValid plan || (candidate <? limit) in
        Ok (valid, if valid then Some (Z.rem candidate total) else None)
    end.

(** The figures of one width, as decimal strings, and its verdicts. *)
Record WidthDecision := {
  wd_widthBits : string; wd_maximumRepresentable : string; wd_balanceEnvelopeFits : bool;
  wd_twabEnvelopeFits : bool; wd_capacityMargin : string; wd_unusedHeadroomBits : string;
  wd_maximumWholeTokenPool : string; wd_maximumRoundDuration : string;
  wd_mathematicalVerdict : string; wd_installedTicketApiVerdict : string
}.

Definition deriveWidthDecision (width : Z) : option (result WidthDecision) :=
  match requiredBits MAX_AGGREGATE_TWAB with
  | None => None
  | Some bits => Some (
      maximum ← maxUnsigned width;
      requiredTwabBits ← bits;
      let completeTwabDomainFits := MAX_AGGREGATE_TWAB <=? maximum in
      let installedFullTicketApi := (width =? 64) || (width =? 128) in
      Ok {| wd_widthBits := Z_toString width; wd_maximumRepresentable := Z_toString maximum;
            wd_balanceEnvelopeFits := MAX_POOL_BASE_UNITS <=? maximum;
            wd_twabEnvelopeFits := completeTwabDomainFits;
            wd_capacityMargin := Z_toString (maximum - MAX_AGGREGATE_TWAB);
            wd_unusedHeadroomBits := Z_toString (width - requiredTwabBits);
            wd_maximumWholeTokenPool := Z_toString (Z.quot maximum (TOKEN_SCALE * MAX_ROUND_DURATION_SECONDS));
            wd_maximumRoundDuration := Z_toString (Z.quot maximum MAX_POOL_BASE_UNITS);
            wd_mathematicalVerdict := if completeTwabDomainFits then "GO" else "NO-GO";
            wd_installedTicketApiVerdict :=
              if installedFullTicketApi then if completeTwabDomainFits then "GO" else "MATHEMATICALLY_UNSAFE"
              else "BLOCKED: installed FHE.sol lacks euint256 ordered comparison and public-scalar remainder" |})
  end.

(** The numbers [deriveDomainAnalysis] derives and checks before it writes its
    report. *)
Record DomainBounds := {
  db_requiredBalanceBits : Z; db_requiredElapsedTimeBits : Z; db_requiredTwabBits : Z; db_requiredTicketBits : Z;
  db_balanceWidth : Z; db_twabWidth : Z; db_ticketWidth : Z; db_plan : RejectionPlan; db_lowerBoundNumerator : Z
}.

Definition deriveDomainBounds : option (result DomainBounds) :=
  match requiredBits MAX_POOL_BASE_UNITS, requiredBits MAX_ROUND_DURATION_SECONDS,
        requiredBits MAX_USER_TWAB, requiredBits MAX_AGGREGATE_TWAB, requiredBits (MAX_AGGREGATE_TWAB - 1) with
  | Some balanceBits, Some elapsedBits, Some twabBits, Some aggregateBits, Some ticketBits => Some (
      requiredBalanceBits ← balanceBits;
      requiredElapsedTimeBits ← elapsedBits;
      requiredTwabBits ← twabBits;
      requiredAggregateBits ← aggregateBits;
      requiredTicketBits ← ticketBits;
      balanceWidth ← smallestSupportedWidth requiredBalanceBits;
      twabWidth ← smallestSupportedWidth requiredTwabBits;
      ticketWidth ← smallestSupportedWidth requiredTicketBits;
      productionPlan ← rejectionPlan MAX_AGGREGATE_TWAB ticketWidth;
      let domainSize := Z.shiftl 1 ticketWidth in
      let lowerBoundNumerator := domainSize - MAX_AGGREGATE_TWAB + 1 in
      invariant (TOKEN_SCALE =? 1000000) "token scale is not six decimals" ;;
      invariant (TIME_GRANULARITY_SECONDS =? 1) "time granularity is not one second" ;;
      invariant (MAX_POOL_BASE_UNITS =? 1000000000000000) "pool scaling is incorrect" ;;
      invariant (MAX_ROUND_DURATION_SECONDS =? 31536000) "round duration is incorrect" ;;
      invariant (MAX_USER_TWAB =? 31536000000000000000000) "user TWAB bound is incorrect" ;;
      invariant (MAX_AGGREGATE_TWAB =? MAX_USER_TWAB) "full-pool single-user bound differs from aggregate bound" ;;
      invariant (requiredBalanceBits =? 50) "balance bit derivation is incorrect" ;;
      invariant (requiredElapsedTimeBits =? 25) "elapsed-time bit derivation is incorrect" ;;
      invariant ((requiredTwabBits =? 75) && (requiredAggregateBits =? 75)) "TWAB bit derivation is incorrect" ;;
      invariant ((balanceWidth =? 64) && (twabWidth =? 128) && (ticketWidth =? 128)) "recommended widths changed" ;;
      invariant (domainSize <? lowerBoundNumerator * 2) "acceptance lower bound is not greater than one half" ;;
      invariant (bool_decide (is_Some (pl_rejectionLimit productionPlan))) "maximum total has no rejection limit" ;;
      Ok {| db_requiredBalanceBits := requiredBalanceBits; db_requiredElapsedTimeBits := requiredElapsedTimeBits;
            db_requiredTwabBits := requiredTwabBits; db_requiredTicketBits := requiredTicketBits;
            db_balanceWidth := balanceWidth; db_twabWidth := twabWidth; db_ticketWidth := ticketWidth;
            db_plan := productionPlan; db_lowerBoundNumerator := lowerBoundNumerator |})
  | _, _, _, _, _ => None
  end.

(** * Lemmas *)
Lemma invariant_pass {B} c msg (k : unit -> result B) : c = true -> (invariant c msg ≫= k) = k tt.
Proof. intros ->. done. Qed.

Lemma invariant_Ok c msg u : invariant c msg = Ok u <-> c = true.
Proof. unfold invariant. rewrite fail_if_Ok. by destruct c. Qed.

Lemma requireWithin_pass {B} name value maximum (k : unit -> result B) :
  0 <= value <= maximum -> (requireWithin name value maximum ≫= k) = k tt.
Proof.
  intros H. unfold requireWithin, invariant. destruct (Z.leb_spec 0 value); [|lia]. simpl.
  by destruct (Z.leb_spec value maximum); [|lia].
Qed.

Lemma requireWithin_Ok name value maximum u :
  requireWithin name value maximum = Ok u -> 0 <= value <= maximum.
Proof.
  unfold requireWithin. intros H. apply result_bind_Ok in H as (v & H1%invariant_Ok & H2%invariant_Ok). bool_to_prop. lia.
Qed.

Lemma bitsLoop_spec fuel value bits :
  0 <= bits -> value < 2 ^ (bits + Z.of_nat fuel) ->
  exists b, bitsLoop fuel value bits (2 ^ bits - 1) = Some b /\ bits <= b /\ value <= 2 ^ b - 1 /\
    (bits < b -> 2 ^ (b - 1) - 1 < value).
Proof.
  revert bits. induction fuel as [|fuel IH]; intros bits Hb Hv; cbn [bitsLoop];
    (destruct (Z.ltb_spec (2 ^ bits - 1) value) as [Hlt|Hge]; [|exists bits; split_and!; [done|lia|lia|lia]]).
  - replace (bits + Z.of_nat 0) with bits in Hv by lia. lia.
  - rewrite Z.shiftl_1_l. destruct (IH (bits + 1)) as (b & -> & H1 & H2 & H3); [lia| |].
    + replace (bits + 1 + Z.of_nat fuel) with (bits + Z.of_nat (S fuel)) by lia. done.
    + exists b. split_and!; [done|lia|done|]. intros _.
      destruct (decide (b = bits + 1)) as [->|]; [|apply H3; lia]. by replace (bits + 1 - 1) with bits by lia.
Qed.

(** Bit counts.  The loop ends, and the count it returns is the least number
    of bits whose unsigned range holds the value. *)
Theorem requiredBits_least value :
  0 <= value ->
  exists bits, requiredBits value = Some (Ok bits) /\ 0 <= bits /\ value < 2 ^ bits /\
    forall width, 0 <= width -> value < 2 ^ width -> bits <= width.
Proof.
  intros Hv. unfold requiredBits, invariant, fail_if. destruct (Z.leb_spec 0 value); [|lia]. simpl (negb true).
  pose proof (Z.log2_nonneg value) as Hlog.
  destruct (bitsLoop_spec (Z.to_nat (Z.log2 value + 1)) value 0) as (b & E & H1 & H2 & H3); [lia| |].
  { rewrite Z2Nat.id by lia. destruct (decide (value = 0)) as [->|]; [done|].
    pose proof (Z.log2_spec value ltac:(lia)). replace (0 + (Z.log2 value + 1)) with (Z.succ (Z.log2 value)) by lia. lia. }
  exists b. change (2 ^ 0 - 1) with 0 in E. rewrite E. split_and!; [done|lia|lia|].
  intros width Hw Hlt. destruct (Z.le_gt_cases b width) as [|Hgt]; [done|].
  assert (2 ^ width <= 2 ^ (b - 1)) by (apply Z.pow_le_mono_r; lia).
  assert (2 ^ (b - 1) - 1 < value) by (apply H3; lia). lia.
Qed.

(** ** Accrual never overflows *)

(** An account in a round that opened at [opensAt]: the balance it carries is
    in range, and what it accrued fits the time since the opening. *)
Record accrued (opensAt : Z) (s : TwabState) : Prop := {
  acc_balance : 0 <= ts_balance s <= MAX_USER_BALANCE_BASE_UNITS;
  acc_times : 0 <= opensAt <= ts_lastUpdate s;
  acc_cumulative : 0 <= ts_cumulativeTwab s <= MAX_USER_BALANCE_BASE_UNITS * (ts_lastUpdate s - opensAt)
}.

(** The state an update leaves. *)
Definition after_update (u : TwabUpdate) : TwabState :=
  {| ts_balance := tu_balance u; ts_cumulativeTwab := tu_cumulativeTwab u; ts_lastUpdate := tu_effectiveTime u |}.

(** Bounded accrual.  In a round no longer than a year, an update at any
    time not before the last one, to any balance in range, is never refused:
    every product and sum stays below the locked maximum, which fits 128 bits;
    it adds the old balance times the time up to the round's end, and
    the account stays within its bound - after the end it adds nothing. *)
Theorem updateTwab_bounded opensAt roundEnd s currentTimestamp nextBalance :
  accrued opensAt s -> roundEnd - opensAt <= MAX_ROUND_DURATION_SECONDS ->
  ts_lastUpdate s <= roundEnd -> ts_lastUpdate s <= currentTimestamp ->
  0 <= nextBalance <= MAX_USER_BALANCE_BASE_UNITS ->
  exists u, updateTwabBeforeBalanceMutation s currentTimestamp roundEnd nextBalance = Ok u /\
    accrued opensAt (after_update u) /\ tu_effectiveTime u = Z.min currentTimestamp roundEnd /\
    tu_cumulativeTwab u = ts_cumulativeTwab s + ts_balance s * (Z.min currentTimestamp roundEnd - ts_lastUpdate s) /\
    tu_cumulativeTwab u <= MAX_USER_TWAB < 2 ^ 128 /\
    (ts_lastUpdate s = roundEnd -> tu_cumulativeTwab u = ts_cumulativeTwab s).
Proof.
  intros [[Hb1 Hb2] [Ho1 Ho2] [Hc1 Hc2]] Hdur Hend Hcur Hnext.
  set (M := MAX_USER_BALANCE_BASE_UNITS) in *. set (D := MAX_ROUND_DURATION_SECONDS) in *.
  assert (HM : 0 < M) by (vm_compute; reflexivity). assert (HT : MAX_USER_TWAB = M * D) by done.
  assert (H128 : MAX_USER_TWAB < 2 ^ 128) by (vm_compute; reflexivity).
  unfold updateTwabBeforeBalanceMutation. fold M D.
  assert (Eeff : (if currentTimestamp <? roundEnd then currentTimestamp else roundEnd) = Z.min currentTimestamp roundEnd)
    by (destruct (Z.ltb_spec currentTimestamp roundEnd); lia).
  rewrite Eeff. set (e := Z.min currentTimestamp roundEnd). assert (He : ts_lastUpdate s <= e <= roundEnd) by lia.
  assert (Hw : 0 <= ts_balance s * (e - ts_lastUpdate s) <= M * (e - ts_lastUpdate s)) by nia.
  assert (Hsum : ts_cumulativeTwab s + ts_balance s * (e - ts_lastUpdate s) <= M * (e - opensAt)) by nia.
  assert (Htop : M * (e - opensAt) <= M * D) by nia.
  rewrite requireWithin_pass by done. rewrite requireWithin_pass by done. rewrite requireWithin_pass by nia.
  rewrite invariant_pass by (rewrite !andb_true_iff, !Z.leb_le; lia). cbv zeta.
  rewrite invariant_pass by (apply Z.leb_le; lia). rewrite requireWithin_pass by lia.
  rewrite requireWithin_pass by lia. rewrite invariant_pass by (apply Z.leb_le; lia).
  eexists. split; [done|]. cbn [tu_effectiveTime tu_cumulativeTwab].
  split_and!; [|done|done|lia|done|].
  - split; cbn [after_update ts_balance ts_cumulativeTwab ts_lastUpdate tu_balance tu_cumulativeTwab tu_effectiveTime];
      [done|lia|lia].
  - intros E. replace (e - ts_lastUpdate s) with 0 by lia. lia.
Qed.

(** ** The plan and the reference model agree *)
Lemma rejectionPlan_Ok total width :
  0 < width -> 0 < total < 2 ^ width ->
  exists plan, rejectionPlan total width = Ok plan /\ pl_noDraw plan = false /\ pl_domainSize plan = 2 ^ width /\
    pl_rejectionLimit plan = Some (2 ^ width / total * total) /\
    pl_allCandidatesValid plan = (2 ^ width / total * total =? 2 ^ width).
Proof.
  intros Hw HT. unfold rejectionPlan. rewrite invariant_pass by (by apply Z.ltb_lt). cbv zeta. rewrite Z.shiftl_1_l.
  rewrite requireWithin_pass by lia. destruct (Z.eqb_spec total 0); [lia|].
  rewrite Z.quot_div_nonneg by lia.
  pose proof (Z.div_mod (2 ^ width) total ltac:(lia)). pose proof (Z.mod_pos_bound (2 ^ width) total ltac:(lia)).
  rewrite invariant_pass by (apply Z.leb_le; nia). rewrite invariant_pass by (apply Z.ltb_lt; nia).
  eexists. split; [done|]. done.
Qed.

(** One rejection rule.  For every total weight with a draw, the width-128
    acceptance of the domain derivation and the reference model's candidate
    mapping accept the same candidates with the same tickets and refuse the
    same arguments. *)
Theorem acceptCandidate_mapCandidate candidate total :
  0 < total < UINT128_DOMAIN ->
  match acceptCandidate candidate total PRODUCTION_TICKET_WIDTH, mapCandidate candidate total with
  | Ok (valid, ticket), Ok ticket' => ticket = ticket' /\ valid = bool_decide (is_Some ticket)
  | Throw _, Throw _ => True
  | _, _ => False
  end.
Proof.
  intros HT. destruct (rejectionPlan_Ok total PRODUCTION_TICKET_WIDTH) as (plan & Ep & Hn & Hd & Hl & Ha); [done|exact HT|].
  unfold acceptCandidate. rewrite Ep. cbn [mbind result_bind]. rewrite Hd.
  change (2 ^ PRODUCTION_TICKET_WIDTH) with UINT128_DOMAIN in *.
  destruct (decide (0 <= candidate < UINT128_DOMAIN)) as [Hc|Hc].
  - rewrite requireWithin_pass by lia. rewrite Hn, Hl, Ha, mapCandidate_below by done.
    set (limit := UINT128_DOMAIN / total * total).
    assert (Hlim : limit <= UINT128_DOMAIN).
    { unfold limit. pose proof (Z.div_mod UINT128_DOMAIN total ltac:(lia)).
      pose proof (Z.mod_pos_bound UINT128_DOMAIN total ltac:(lia)). lia. }
    destruct (Z.eqb_spec total 1) as [E1|E1].
    + assert (El : limit = UINT128_DOMAIN) by (unfold limit; rewrite E1, Z.div_1_r; lia).
      rewrite El. destruct (Z.ltb_spec candidate UINT128_DOMAIN); [|lia]. by rewrite E1, Z.mod_1_r.
    + rewrite Z.rem_mod_nonneg by lia.
      destruct (Z.eqb_spec limit UINT128_DOMAIN), (Z.ltb_spec candidate limit); simpl; try done; lia.
  - destruct (requireWithin "candidate" candidate (UINT128_DOMAIN - 1)) eqn:Ew; [apply requireWithin_Ok in Ew; lia|].
    cbn [mbind result_bind]. unfold mapCandidate, fail_if.
    destruct ((candidate <? 0) || (UINT128_DOMAIN <=? candidate)) eqn:Eg; [done|]. bool_to_prop. lia.
Qed.

(** The derivation passes: every check of the report holds, so that balances
    take 50 bits, round times 25, balance-time and tickets 75; 64- and 128-bit
    types are enough; and the candidates accepted at the largest total are
    more than half. *)
Theorem deriveDomainBounds_passes :
  exists db, deriveDomainBounds = Some (Ok db) /\
    db_requiredBalanceBits db = 50 /\ db_requiredElapsedTimeBits db = 25 /\ db_requiredTwabBits db = 75 /\
    db_requiredTicketBits db = 75 /\ db_balanceWidth db = 64 /\ db_twabWidth db = 128 /\ db_ticketWidth db = 128 /\
    2 ^ 128 < 2 * db_lowerBoundNumerator db /\
    (wd_mathematicalVerdict <$> (match deriveWidthDecision 64 with Some (Ok d) => Some d | _ => None end)) = Some "NO-GO" /\
    (wd_installedTicketApiVerdict <$> (match deriveWidthDecision 128 with Some (Ok d) => Some d | _ => None end)) = Some "GO".
Proof. eexists. split; [vm_compute; reflexivity|]. repeat split. Qed.

(** * Concrete instances *)
Lemma requiredBits_least_witness : exists bits, requiredBits 8 = Some (Ok bits) /\ 0 <= bits /\ 8 < 2 ^ bits.
Proof. destruct (requiredBits_least 8) as (bits & H1 & H2 & H3 & _); [lia|]. exists bits. split; [exact H1|]. split; [exact H2|exact H3]. Defined.

Lemma updateTwab_bounded_witness :
  exists u, updateTwabBeforeBalanceMutation {| ts_balance := 5; ts_cumulativeTwab := 10; ts_lastUpdate := 102 |} 200 110 7 = Ok u /\
    tu_cumulativeTwab u = 10 + 5 * (Z.min 200 110 - 102).
Proof.
  destruct (updateTwab_bounded 100 110 {| ts_balance := 5; ts_cumulativeTwab := 10; ts_lastUpdate := 102 |} 200 7)
    as (u & H1 & _ & _ & H2 & _); simpl; try (vm_compute; repeat split; congruence).
  - split; vm_compute; repeat split; congruence.
  - exists u. split; [exact H1|exact H2].
Defined.

Lemma acceptCandidate_mapCandidate_witness :
  match acceptCandidate 17 7 PRODUCTION_TICKET_WIDTH, mapCandidate 17 7 with
  | Ok (valid, ticket), Ok ticket' => ticket = ticket' /\ valid = bool_decide (is_Some ticket)
  | Throw _, Throw _ => True
  | _, _ => False
  end /\ acceptCandidate 17 7 PRODUCTION_TICKET_WIDTH = Ok (true, Some 3).
Proof.
  split; [apply (acceptCandidate_mapCandidate 17 7); vm_compute; split; reflexivity|vm_compute; reflexivity].
Defined.
