(* ===== verification/WalletAddress.v ===== *)
(** * Wallet addresses and the account guards: frontend/lib/auth/readiness.ts

    Address comparison, the readiness state of a signed-in account and the
    last check before a financial wallet is linked.  The checksum code of viem
    is the class [Viem]; what is relied on of it is [ViemLaws]. *)
From Stdlib Require Import Ascii.
From stdpp Require Import base option list strings.
From S2P Require Import Prelude.

(** [isAddress(value, { strict: false })] and [getAddress] of viem. *)
Class Viem := {
  isAddress : string -> bool;
  getAddress : string -> string
}.

(** [isAddress] without [strict] ignores letter case; [getAddress] returns the
    same address with the letters of its checksum. *)
Class ViemLaws `{Viem} : Prop := {
  isAddress_nonempty : isAddress EmptyString = false;
  isAddress_lower : forall a, isAddress a = true -> isAddress (toLowerCase a) = true;
  getAddress_isAddress : forall a, isAddress a = true -> isAddress (getAddress a) = true;
  getAddress_lower : forall a, isAddress a = true -> toLowerCase (getAddress a) = toLowerCase a
}.

Section WalletAddress.
Context `{Viem}.

Definition normalizeWalletAddress (value : option string) : option string :=
  match value with
  | Some v => if negb (string_nonempty v) || negb (isAddress v) then None else Some (getAddress (toLowerCase v))
  | None => None
  end.

Definition walletsMatch (left right : option string) : bool :=
  match normalizeWalletAddress left, normalizeWalletAddress right with
  | Some normalizedLeft, Some normalizedRight =>
      string_nonempty normalizedLeft && string_nonempty normalizedRight &&
      bool_decide (toLowerCase normalizedLeft = toLowerCase normalizedRight)
  | _, _ => false
  end.

Definition findWalletByAddress {T} (address_of : T -> string) (wallets : list T) (address : option string) : option T :=
  match normalizeWalletAddress address with
  | None => None
  | Some _ => List.find (fun wallet => walletsMatch (Some (address_of wallet)) address) wallets
  end.

Inductive AuthReadinessState : Type :=
| ANONYMOUS | EMAIL_AUTHENTICATED | WALLET_AUTHENTICATED_INCOMPLETE | PROFILE_INCOMPLETE
| WALLET_REQUIRED | ACCOUNT_READY | SESSION_EXPIRED | ACCOUNT_CONFLICT.

Record AuthIdentitySnapshot := {
  ai_authenticated : bool;
  ai_emailVerified : bool;
  ai_username : option string;
  ai_providerUserId : option string;
  ai_financialWallet : option string;
  ai_connectedWallet : option string;
  ai_walletAuthenticated : bool;
  ai_sessionExpired : option bool;
  ai_accountConflict : option bool
}.

(** Truthiness of an optional string and of an optional boolean. *)
Definition truthy (value : option string) : bool :=
  match value with Some v => string_nonempty v | None => false end.
Definition flag (value : option bool) : bool := default false value.

Definition getAuthReadiness (identity : AuthIdentitySnapshot) : AuthReadinessState :=
  if flag (ai_sessionExpired identity) then SESSION_EXPIRED
  else if flag (ai_accountConflict identity) then ACCOUNT_CONFLICT
  else if negb (ai_authenticated identity) then ANONYMOUS
  else if negb (ai_emailVerified identity) && ai_walletAuthenticated identity then WALLET_AUTHENTICATED_INCOMPLETE
  else if negb (ai_emailVerified identity) then EMAIL_AUTHENTICATED
  else if negb (truthy (ai_username identity)) then PROFILE_INCOMPLETE
  else if negb (truthy (ai_financialWallet identity)) then WALLET_REQUIRED
  else ACCOUNT_READY.

Inductive WalletLinkGuardResult : Type :=
| LinkAllowed (wallet : string)
| LinkRefused (code message : string).

Definition checkFinancialWalletLink (identity : AuthIdentitySnapshot) (candidateWallet : option string)
    : WalletLinkGuardResult :=
  if flag (ai_sessionExpired identity) then
    LinkRefused "AUTH_SESSION_EXPIRED" "Your Leopold session expired. Sign in again."
  else if flag (ai_accountConflict identity) then
    LinkRefused "AUTH_ACCOUNT_CONFLICT" "Resolve the account credential conflict before linking a wallet."
  else if negb (ai_authenticated identity) || negb (truthy (ai_providerUserId identity))
          || negb (ai_emailVerified identity) || negb (truthy (ai_username identity)) then
    LinkRefused "FINANCIAL_IDENTITY_REQUIRED"
      "Verify your email and choose a username before linking a financial wallet."
  else
    match normalizeWalletAddress candidateWallet with
    | None => LinkRefused "WALLET_SIGNATURE_REQUIRED" "Connect and sign with the wallet you intend to verify."
    | Some normalizedCandidate =>
        if negb (truthy (ai_connectedWallet identity))
           || negb (walletsMatch (Some normalizedCandidate) (ai_connectedWallet identity)) then
          LinkRefused "WALLET_SIGNATURE_REQUIRED" "Connect and sign with the wallet you intend to verify."
        else if negb (ai_walletAuthenticated identity) then
          LinkRefused "WALLET_SIGNATURE_REQUIRED"
            "Sign with your external wallet to verify ownership before continuing."
        else if truthy (ai_financialWallet identity)
                && negb (walletsMatch (ai_financialWallet identity) (Some normalizedCandidate)) then
          LinkRefused "FINANCIAL_WALLET_CHANGE_REQUIRES_REAUTH"
            "The verified financial wallet cannot be replaced automatically."
        else LinkAllowed normalizedCandidate
    end.
End WalletAddress.

(** * Properties *)
Section properties.
Context `{ViemLaws}.

Lemma normalize_Some v w :
  normalizeWalletAddress (Some v) = Some w <-> isAddress v = true /\ w = getAddress (toLowerCase v).
Proof.
  simpl. destruct v as [|c v']; simpl string_nonempty.
  - rewrite isAddress_nonempty. simpl. naive_solver.
  - simpl. destruct (isAddress (String c v')); simpl; naive_solver.
Qed.

Lemma normalize_isAddress o w : normalizeWalletAddress o = Some w -> isAddress w = true.
Proof.
  destruct o as [v|]; [|done]. intros [Hv ->]%normalize_Some.
  by apply getAddress_isAddress, isAddress_lower.
Qed.

Lemma normalize_nonempty o w : normalizeWalletAddress o = Some w -> string_nonempty w = true.
Proof.
  intros E%normalize_isAddress. destruct w; [|done]. by rewrite isAddress_nonempty in E.
Qed.

(** Normalisation is idempotent. *)
Lemma normalize_idemp o w : normalizeWalletAddress o = Some w -> normalizeWalletAddress (Some w) = Some w.
Proof.
  intros E. apply normalize_Some. split; [by eapply normalize_isAddress|].
  destruct o as [v|]; [|done]. apply normalize_Some in E as [Hv ->].
  rewrite getAddress_lower by by apply isAddress_lower. by rewrite toLowerCase_idemp.
Qed.

Lemma normalize_normalize o : normalizeWalletAddress (normalizeWalletAddress o) = normalizeWalletAddress o.
Proof. destruct (normalizeWalletAddress o) as [w|] eqn:E; [by eapply normalize_idemp|done]. Qed.

Lemma normalize_lower_inj o1 o2 w1 w2 :
  normalizeWalletAddress o1 = Some w1 -> normalizeWalletAddress o2 = Some w2 ->
  toLowerCase w1 = toLowerCase w2 -> w1 = w2.
Proof.
  intros E1 E2 E. apply normalize_idemp, normalize_Some in E1 as [_ ->], E2 as [_ ->]. by rewrite E.
Qed.

(** Two wallets match when they have the same normal form. *)
Lemma walletsMatch_iff l r :
  walletsMatch l r = true <-> exists w, normalizeWalletAddress l = Some w /\ normalizeWalletAddress r = Some w.
Proof.
  unfold walletsMatch.
  destruct (normalizeWalletAddress l) as [wl|] eqn:El; [|naive_solver].
  destruct (normalizeWalletAddress r) as [wr|] eqn:Er; [|naive_solver].
  rewrite (normalize_nonempty _ _ El), (normalize_nonempty _ _ Er). simpl.
  rewrite bool_decide_eq_true. split.
  - intros E. exists wl. split; [done|]. f_equal. symmetry. by eapply normalize_lower_inj.
  - by intros (w & [= ->] & [= ->]).
Qed.

Lemma walletsMatch_normal l w o :
  normalizeWalletAddress o = Some w -> walletsMatch l (Some w) = walletsMatch l o.
Proof.
  intros E. apply Bool.eq_iff_eq_true. rewrite !walletsMatch_iff, (normalize_idemp _ _ E), E. done.
Qed.

Lemma walletsMatch_sym l r : walletsMatch l r = walletsMatch r l.
Proof. apply Bool.eq_iff_eq_true. rewrite !walletsMatch_iff. naive_solver. Qed.

Lemma walletsMatch_truthy l r : walletsMatch l r = true -> truthy l = true.
Proof.
  rewrite walletsMatch_iff. intros (w & E & _). destruct l as [[|c l']|]; [|done|done].
  apply normalize_Some in E as [E _]. by rewrite isAddress_nonempty in E.
Qed.

Lemma normalize_normal l o w :
  normalizeWalletAddress o = Some w -> walletsMatch (Some w) l = walletsMatch o l.
Proof. intros E. rewrite walletsMatch_sym, (walletsMatch_normal _ _ _ E). apply walletsMatch_sym. Qed.

(** The link guard lets exactly one wallet through.  The check allows a
    candidate exactly when the session is live and free of conflicts, the
    account is authenticated with a user id, a verified email and a username,
    the candidate is the wallet that is connected and signed, and the account
    either has no financial wallet or this same one; the wallet it returns is
    the candidate's normal form.  In particular a verified financial wallet is
    never replaced. *)
Theorem checkFinancialWalletLink_allowed identity candidateWallet wallet :
  checkFinancialWalletLink identity candidateWallet = LinkAllowed wallet <->
  flag (ai_sessionExpired identity) = false /\ flag (ai_accountConflict identity) = false /\
  ai_authenticated identity = true /\ truthy (ai_providerUserId identity) = true /\
  ai_emailVerified identity = true /\ truthy (ai_username identity) = true /\
  ai_walletAuthenticated identity = true /\
  normalizeWalletAddress candidateWallet = Some wallet /\
  normalizeWalletAddress (ai_connectedWallet identity) = Some wallet /\
  (truthy (ai_financialWallet identity) = true -> normalizeWalletAddress (ai_financialWallet identity) = Some wallet).
Proof.
  unfold checkFinancialWalletLink.
  destruct (flag (ai_sessionExpired identity)); [naive_solver|].
  destruct (flag (ai_accountConflict identity)); [naive_solver|].
  destruct (ai_authenticated identity); [|naive_solver].
  destruct (truthy (ai_providerUserId identity)); [|naive_solver].
  destruct (ai_emailVerified identity); [|naive_solver].
  destruct (truthy (ai_username identity)); [|naive_solver]. simpl.
  destruct (normalizeWalletAddress candidateWallet) as [w|] eqn:Ew; [|naive_solver].
  rewrite (normalize_normal _ _ _ Ew), (walletsMatch_normal _ _ _ Ew).
  destruct (walletsMatch candidateWallet (ai_connectedWallet identity)) eqn:Ec.
  - pose proof Ec as Et. rewrite walletsMatch_sym in Et. apply walletsMatch_truthy in Et. rewrite Et. simpl.
    apply walletsMatch_iff in Ec as (w' & E1 & Ec). rewrite Ew in E1. injection E1 as <-.
    destruct (ai_walletAuthenticated identity); [|naive_solver]. simpl.
    destruct (truthy (ai_financialWallet identity)); simpl; [|naive_solver].
    destruct (walletsMatch (ai_financialWallet identity) candidateWallet) eqn:Ef; simpl.
    + apply walletsMatch_iff in Ef as (w' & Ef & E1). rewrite Ew in E1. naive_solver.
    + split; [done|]. intros (_ & _ & _ & _ & _ & _ & _ & [= ->] & _ & Hf). exfalso.
      enough (walletsMatch (ai_financialWallet identity) candidateWallet = true) by congruence.
      apply walletsMatch_iff. exists wallet. split; [by apply Hf|done].
  - rewrite orb_true_r. split; [done|]. intros (_ & _ & _ & _ & _ & _ & _ & [= ->] & Hc & _).
    enough (walletsMatch candidateWallet (ai_connectedWallet identity) = true) by congruence.
    apply walletsMatch_iff. by exists wallet.
Qed.

(** The wallet found is one of the list, and has the address. *)
Lemma findWalletByAddress_Some {T} (address_of : T -> string) wallets address t :
  findWalletByAddress address_of wallets address = Some t ->
  t ∈ wallets /\ walletsMatch (Some (address_of t)) address = true.
Proof.
  unfold findWalletByAddress. destruct (normalizeWalletAddress address); [|done].
  intros E. exact (find_Some_in _ _ _ E).
Qed.
End properties.

(** * Concrete instances: addresses as hexadecimal strings *)
Definition hex_viem : Viem := {| isAddress := matches_hex 40; getAddress := toLowerCase |}.

Lemma matches_hex_lower n s : matches_hex n s = true -> matches_hex n (toLowerCase s) = true.
Proof.
  assert (Hf : forall t, string_forall is_hex_digit (toLowerCase t) = string_forall is_hex_digit t).
  { induction t as [|c t IH]; simpl; [done|]. by rewrite is_hex_digit_lower, IH. }
  assert (Hl : forall t, String.length (toLowerCase t) = String.length t) by (induction t; simpl; auto).
  destruct s as [|c1 [|c2 s]]; [done| |].
  - intros E. exfalso. revert E. simpl. repeat case_match; done.
  - intros E. assert (c1 = "0"%char /\ c2 = "x"%char) as [-> ->].
    { revert E. simpl. repeat case_match; naive_solver. }
    simpl in *. by rewrite Hl, Hf.
Qed.

#[export] Instance hex_viem_laws : @ViemLaws hex_viem.
Proof.
  split; simpl.
  - done.
  - intros a. apply matches_hex_lower.
  - intros a. apply matches_hex_lower.
  - intros a _. apply toLowerCase_idemp.
Qed.

Lemma checkFinancialWalletLink_allowed_witness :
  @checkFinancialWalletLink hex_viem
    {| ai_authenticated := true; ai_emailVerified := true; ai_username := Some "ada"; ai_providerUserId := Some "u1";
       ai_financialWallet := None; ai_connectedWallet := Some "0xABCDEF0000000000000000000000000000000001";
       ai_walletAuthenticated := true; ai_sessionExpired := None; ai_accountConflict := None |}
    (Some "0xabcdef0000000000000000000000000000000001")
  = LinkAllowed "0xabcdef0000000000000000000000000000000001".
Proof. apply (@checkFinancialWalletLink_allowed hex_viem hex_viem_laws). vm_compute. repeat split; congruence. Defined.
