(* ===== verification/WalletSession.v ===== *)
(** * The wallet session: frontend/lib/auth/wallet-identity.ts

    [walletSessionReducer] is the session's state machine, [deriveWalletSession]
    the snapshot shown to the rest of the application, and the persisted
    session is a document of the browser's storage. *)
From Stdlib Require Import ZArith Lia DecimalString Ascii.
From stdpp Require Import base option list strings relations.
From S2P Require Import Prelude WalletAddress.
Local Open Scope Z_scope.

Definition LEOPOLD_CHAIN_ID : Z := 11155111.
Definition WALLET_SESSION_STORAGE_KEY : string := "leopold.wallet-session.v1".

Inductive WalletSessionState : Type :=
| BOOTSTRAPPING | DISCONNECTED | CONNECTING | WRONG_NETWORK | CONNECTED | ERROR.

Inductive WalletSessionIntent : Type := INACTIVE | CONNECTING_INTENT | ACTIVE.

Inductive WalletConnectPhase : Type :=
| STARTING | SYNCING_PROVIDER | WAITING_FOR_ACCOUNT_SELECTION | VERIFYING_ACCOUNT
| VERIFYING_NETWORK | VERIFYING_RUNTIME.

Inductive WalletSessionReason : Type :=
| SDK_INITIALIZING | FINANCIAL_WALLET_NOT_LINKED | NO_ACTIVE_SESSION | USER_DISCONNECTED
| ACCOUNT_CHANGED | PROVIDER_DISCONNECTED | ACCOUNT_SELECTION_REQUIRED | PROVIDER_UNAVAILABLE
| PROVIDER_TIMEOUT | CONNECT_CANCELLED | CONNECT_TIMEOUT | R_WRONG_NETWORK
| DYNAMIC_WALLET_UNAVAILABLE | DYNAMIC_PRIMARY_MISMATCH | WAGMI_ACCOUNT_MISMATCH
| WALLETCLIENT_ACCOUNT_MISMATCH | WALLETCLIENT_NETWORK_MISMATCH | SESSION_RESTORE_INVALID
| R_CONNECTED.

#[export] Instance WalletSessionState_eq_dec : EqDecision WalletSessionState.
Proof. solve_decision. Defined.
#[export] Instance WalletSessionIntent_eq_dec : EqDecision WalletSessionIntent.
Proof. solve_decision. Defined.
#[export] Instance WalletSessionReason_eq_dec : EqDecision WalletSessionReason.
Proof. solve_decision. Defined.

Inductive WalletSessionRecoveryAction : Type :=
| LINK_WALLET | CONNECT_VERIFIED_WALLET | SWITCH_TO_SEPOLIA | RETRY_PROVIDER | NO_RECOVERY.

Inductive WalletRpcHealthState : Type :=
| NOT_CHECKED | CHECKING | HEALTHY | APP_RPC_UNAVAILABLE | WALLET_RPC_UNAVAILABLE | UNKNOWN.

#[export] Instance WalletRpcHealthState_eq_dec : EqDecision WalletRpcHealthState.
Proof. solve_decision. Defined.

Record WalletRpcHealth := {
  wh_state : WalletRpcHealthState;
  wh_checkedAt : option Z;
  wh_dynamicWalletChainId : option Z;
  wh_walletClientChainId : option Z;
  wh_appChainId : option Z;
  wh_technicalDetail : option string
}.

Record DynamicWalletDescriptor := { dw_id : string; dw_address : string }.

Record ProviderObservation := {
  po_revision : Z;
  po_available : bool;
  po_connected : bool;
  po_accountKnown : bool;
  po_activeAccount : option string;
  po_chainId : option Z
}.

Record WalletRuntimeObservation := {
  rt_dynamicPrimaryWallet : option string;
  rt_dynamicLinkedWallets : list DynamicWalletDescriptor;
  rt_dynamicWalletObjectForVerifiedAddress : option DynamicWalletDescriptor;
  rt_wagmiAccount : option string;
  rt_walletClientAccount : option string;
  rt_walletClientId : option string;
  rt_walletClientChainId : option Z
}.

Inductive ConnectOrigin : Type := USER | RESTORE.

Record WalletSessionControl := {
  wc_intent : WalletSessionIntent;
  wc_status : WalletSessionState;
  wc_reason : WalletSessionReason;
  wc_epoch : Z;
  wc_providerRevision : option Z;
  wc_connectOrigin : option ConnectOrigin;
  wc_connectAttemptId : option string;
  wc_connectStartedAt : option Z;
  wc_connectPhase : option WalletConnectPhase
}.

Inductive WalletSessionEvent : Type :=
| Ev_SDK_READY (reason : option WalletSessionReason)
| Ev_RESTORE_STARTED (attemptId : string) (startedAt epoch : Z)
| Ev_CONNECT_STARTED (attemptId : string) (startedAt epoch : Z)
| Ev_CONNECT_PHASE (attemptId : string) (phase : WalletConnectPhase) (reason : option WalletSessionReason)
| Ev_CONNECTED (attemptId : option string) (providerRevision : Z) (epoch : option Z)
| Ev_WRONG_NETWORK (attemptId : option string) (providerRevision : Z) (epoch : option Z)
| Ev_INVALIDATE (reason : WalletSessionReason) (epoch : Z)
| Ev_CONNECT_FAILED (reason : WalletSessionReason) (attemptId : string) (epoch : Z).

Definition initialWalletSessionControl : WalletSessionControl := {|
  wc_intent := INACTIVE;
  wc_status := BOOTSTRAPPING;
  wc_reason := SDK_INITIALIZING;
  wc_epoch := 0;
  wc_providerRevision := None;
  wc_connectOrigin := None;
  wc_connectAttemptId := None;
  wc_connectStartedAt := None;
  wc_connectPhase := None
|}.

Definition isCurrentAttempt (state : WalletSessionControl) (attemptId : option string) : bool :=
  bool_decide (attemptId = None) || bool_decide (wc_connectAttemptId state = attemptId).

(** The control after an attempt: no attempt in progress. *)
Definition settled (intent : WalletSessionIntent) (status : WalletSessionState) (reason : WalletSessionReason)
    (epoch : Z) (providerRevision : option Z) : WalletSessionControl := {|
  wc_intent := intent;
  wc_status := status;
  wc_reason := reason;
  wc_epoch := epoch;
  wc_providerRevision := providerRevision;
  wc_connectOrigin := None;
  wc_connectAttemptId := None;
  wc_connectStartedAt := None;
  wc_connectPhase := None
|}.

Definition attempt_started (origin : ConnectOrigin) (attemptId : string) (startedAt epoch : Z) : WalletSessionControl := {|
  wc_intent := CONNECTING_INTENT;
  wc_status := CONNECTING;
  wc_reason := NO_ACTIVE_SESSION;
  wc_epoch := epoch;
  wc_providerRevision := None;
  wc_connectOrigin := Some origin;
  wc_connectAttemptId := Some attemptId;
  wc_connectStartedAt := Some startedAt;
  wc_connectPhase := Some STARTING
|}.

Definition walletSessionReducer (state : WalletSessionControl) (event : WalletSessionEvent) : WalletSessionControl :=
  match event with
  | Ev_SDK_READY reason =>
      if bool_decide (wc_status state = BOOTSTRAPPING) then {|
        wc_intent := wc_intent state;
        wc_status := DISCONNECTED;
        wc_reason := default NO_ACTIVE_SESSION reason;
        wc_epoch := wc_epoch state;
        wc_providerRevision := wc_providerRevision state;
        wc_connectOrigin := wc_connectOrigin state;
        wc_connectAttemptId := wc_connectAttemptId state;
        wc_connectStartedAt := wc_connectStartedAt state;
        wc_connectPhase := wc_connectPhase state
      |} else state
  | Ev_RESTORE_STARTED attemptId startedAt epoch => attempt_started RESTORE attemptId startedAt epoch
  | Ev_CONNECT_STARTED attemptId startedAt epoch => attempt_started USER attemptId startedAt epoch
  | Ev_CONNECT_PHASE attemptId phase reason =>
      if negb (bool_decide (wc_connectAttemptId state = Some attemptId))
         || negb (bool_decide (wc_intent state = CONNECTING_INTENT)) then state
      else {|
        wc_intent := wc_intent state;
        wc_status := CONNECTING;
        wc_reason := default (wc_reason state) reason;
        wc_epoch := wc_epoch state;
        wc_providerRevision := wc_providerRevision state;
        wc_connectOrigin := wc_connectOrigin state;
        wc_connectAttemptId := wc_connectAttemptId state;
        wc_connectStartedAt := wc_connectStartedAt state;
        wc_connectPhase := Some phase
      |}
  | Ev_CONNECTED attemptId providerRevision epoch =>
      if negb (isCurrentAttempt state attemptId) then state
      else settled ACTIVE CONNECTED R_CONNECTED (default (wc_epoch state) epoch) (Some providerRevision)
  | Ev_WRONG_NETWORK attemptId providerRevision epoch =>
      if negb (isCurrentAttempt state attemptId) then state
      else settled ACTIVE WRONG_NETWORK R_WRONG_NETWORK (default (wc_epoch state) epoch) (Some providerRevision)
  | Ev_INVALIDATE reason epoch => settled INACTIVE DISCONNECTED reason epoch None
  | Ev_CONNECT_FAILED reason attemptId epoch =>
      if negb (bool_decide (wc_connectAttemptId state = Some attemptId)) then state
      else settled INACTIVE
             (if bool_decide (reason = ACCOUNT_SELECTION_REQUIRED) || bool_decide (reason = CONNECT_CANCELLED)
              then DISCONNECTED else ERROR)
             reason epoch None
  end.

(** A run of the reducer over the events dispatched, in order. *)
Definition dispatch_all (state : WalletSessionControl) (events : list WalletSessionEvent) : WalletSessionControl :=
  fold_left walletSessionReducer events state.

Definition createNotCheckedWalletRpcHealth : WalletRpcHealth :=
  {| wh_state := NOT_CHECKED; wh_checkedAt := None; wh_dynamicWalletChainId := None;
     wh_walletClientChainId := None; wh_appChainId := None; wh_technicalDetail := None |}.

Definition createCheckingWalletRpcHealth : WalletRpcHealth :=
  {| wh_state := CHECKING; wh_checkedAt := None; wh_dynamicWalletChainId := None;
     wh_walletClientChainId := None; wh_appChainId := None; wh_technicalDetail := None |}.

Record WalletSessionInputs := {
  wi_initialized : bool;
  wi_verifiedFinancialWallet : option string;
  wi_control : WalletSessionControl;
  wi_provider : ProviderObservation;
  wi_runtime : WalletRuntimeObservation;
  wi_networkHealth : WalletRpcHealth
}.

Record WalletSessionSnapshot := {
  ws_state : WalletSessionState;
  ws_status : WalletSessionState;
  ws_intent : WalletSessionIntent;
  ws_reason : WalletSessionReason;
  ws_revision : Z;
  ws_epoch : Z;
  ws_connectAttemptId : option string;
  ws_connectStartedAt : option Z;
  ws_connectPhase : option WalletConnectPhase;
  ws_verifiedAddress : option string;
  ws_address : option string;
  ws_connectedAddress : option string;
  ws_chainId : option Z;
  ws_providerObservation : ProviderObservation;
  ws_dynamicPrimaryAddress : option string;
  ws_dynamicLinkedWallets : list DynamicWalletDescriptor;
  ws_dynamicWalletObjectForVerifiedAddress : option DynamicWalletDescriptor;
  ws_providerActiveAccount : option string;
  ws_providerAccountKnown : bool;
  ws_providerConnected : bool;
  ws_wagmiAccount : option string;
  ws_walletClientAccount : option string;
  ws_walletClientChainId : option Z;
  ws_networkHealth : WalletRpcHealth;
  ws_runtimeAligned : bool;
  ws_canUseFinancialActions : bool;
  ws_recoveryAction : WalletSessionRecoveryAction;
  ws_recoveryMessage : string;
  ws_technicalDetail : option string
}.

(** The reason's spelling in the code. *)
Definition reason_string (r : WalletSessionReason) : string :=
  match r with
  | SDK_INITIALIZING => "SDK_INITIALIZING"
  | FINANCIAL_WALLET_NOT_LINKED => "FINANCIAL_WALLET_NOT_LINKED"
  | NO_ACTIVE_SESSION => "NO_ACTIVE_SESSION"
  | USER_DISCONNECTED => "USER_DISCONNECTED"
  | ACCOUNT_CHANGED => "ACCOUNT_CHANGED"
  | PROVIDER_DISCONNECTED => "PROVIDER_DISCONNECTED"
  | ACCOUNT_SELECTION_REQUIRED => "ACCOUNT_SELECTION_REQUIRED"
  | PROVIDER_UNAVAILABLE => "PROVIDER_UNAVAILABLE"
  | PROVIDER_TIMEOUT => "PROVIDER_TIMEOUT"
  | CONNECT_CANCELLED => "CONNECT_CANCELLED"
  | CONNECT_TIMEOUT => "CONNECT_TIMEOUT"
  | R_WRONG_NETWORK => "WRONG_NETWORK"
  | DYNAMIC_WALLET_UNAVAILABLE => "DYNAMIC_WALLET_UNAVAILABLE"
  | DYNAMIC_PRIMARY_MISMATCH => "DYNAMIC_PRIMARY_MISMATCH"
  | WAGMI_ACCOUNT_MISMATCH => "WAGMI_ACCOUNT_MISMATCH"
  | WALLETCLIENT_ACCOUNT_MISMATCH => "WALLETCLIENT_ACCOUNT_MISMATCH"
  | WALLETCLIENT_NETWORK_MISMATCH => "WALLETCLIENT_NETWORK_MISMATCH"
  | SESSION_RESTORE_INVALID => "SESSION_RESTORE_INVALID"
  | R_CONNECTED => "CONNECTED"
  end.

Section derive.
Context `{Viem}.

Definition normalizeDescriptor (wallet : option DynamicWalletDescriptor) : option DynamicWalletDescriptor :=
  match wallet with
  | None => None
  | Some w =>
      match normalizeWalletAddress (Some (dw_address w)) with
      | Some address => Some {| dw_id := dw_id w; dw_address := address |}
      | None => None
      end
  end.

(** The alignment as the code returns it: aligned, and the reason if not. *)
Definition runtimeAlignment (verifiedAddress providerAccount : option string) (providerChainId : option Z)
    (runtime : WalletRuntimeObservation) : bool * option WalletSessionReason :=
  if negb (truthy verifiedAddress) || negb (truthy providerAccount)
     || negb (walletsMatch verifiedAddress providerAccount) then (false, Some ACCOUNT_CHANGED)
  else if bool_decide (rt_dynamicWalletObjectForVerifiedAddress runtime = None :> option _)
       then (false, Some DYNAMIC_WALLET_UNAVAILABLE)
  else if negb (walletsMatch (rt_dynamicPrimaryWallet runtime) verifiedAddress)
       then (false, Some DYNAMIC_PRIMARY_MISMATCH)
  else if negb (walletsMatch (rt_wagmiAccount runtime) verifiedAddress) then (false, Some WAGMI_ACCOUNT_MISMATCH)
  else if negb (walletsMatch (rt_walletClientAccount runtime) verifiedAddress)
       then (false, Some WALLETCLIENT_ACCOUNT_MISMATCH)
  else if negb (bool_decide (rt_walletClientChainId runtime = providerChainId))
       then (false, Some WALLETCLIENT_NETWORK_MISMATCH)
  else (true, None).

Definition recoveryFor (status : WalletSessionState) (reason : WalletSessionReason) (verifiedAddress : option string)
    : WalletSessionRecoveryAction * string :=
  if negb (truthy verifiedAddress) then (LINK_WALLET, "Link your financial wallet to continue.")
  else match status with
  | WRONG_NETWORK => (SWITCH_TO_SEPOLIA, "Switch to Ethereum Sepolia to continue.")
  | CONNECTING =>
      (NO_RECOVERY,
       if bool_decide (reason = ACCOUNT_SELECTION_REQUIRED) then "Select your verified account in Rabby or MetaMask."
       else "Connecting your verified financial wallet…")
  | ERROR => (RETRY_PROVIDER, "Your wallet connection could not be completed.")
  | DISCONNECTED =>
      (CONNECT_VERIFIED_WALLET,
       if bool_decide (reason = ACCOUNT_CHANGED)
       then "Your wallet account changed. Reconnect your verified wallet to continue."
       else "Connect your verified financial wallet to continue.")
  | _ => (NO_RECOVERY, "")
  end.

(** [status] and [reason] of [deriveWalletSession]. *)
Definition sessionStatus (inputs : WalletSessionInputs) (verifiedAddress providerAccount : option string)
    : WalletSessionState * WalletSessionReason :=
  let control := wi_control inputs in
  let provider := wi_provider inputs in
  if negb (wi_initialized inputs) then (BOOTSTRAPPING, SDK_INITIALIZING)
  else if negb (truthy verifiedAddress) then (DISCONNECTED, FINANCIAL_WALLET_NOT_LINKED)
  else match wc_intent control with
  | INACTIVE => (if bool_decide (wc_status control = ERROR) then ERROR else DISCONNECTED, wc_reason control)
  | ACTIVE =>
      if negb (bool_decide (wc_providerRevision control = Some (po_revision provider))) then (DISCONNECTED, ACCOUNT_CHANGED)
      else if negb (po_accountKnown provider) || negb (po_connected provider) || negb (truthy providerAccount)
           then (DISCONNECTED, PROVIDER_DISCONNECTED)
      else if negb (walletsMatch providerAccount verifiedAddress) then (DISCONNECTED, ACCOUNT_CHANGED)
      else if negb (bool_decide (po_chainId provider = Some LEOPOLD_CHAIN_ID)) then (WRONG_NETWORK, R_WRONG_NETWORK)
      else
        let '(aligned, why) := runtimeAlignment verifiedAddress providerAccount (po_chainId provider) (wi_runtime inputs) in
        if negb aligned then (ERROR, default WALLETCLIENT_ACCOUNT_MISMATCH why) else (CONNECTED, R_CONNECTED)
  | CONNECTING_INTENT => (wc_status control, wc_reason control)
  end.

Definition deriveWalletSession (inputs : WalletSessionInputs) : WalletSessionSnapshot :=
  let control := wi_control inputs in
  let provider := wi_provider inputs in
  let runtime := wi_runtime inputs in
  let verifiedAddress := normalizeWalletAddress (wi_verifiedFinancialWallet inputs) in
  let providerAccount := normalizeWalletAddress (po_activeAccount provider) in
  let dynamicPrimaryAddress := normalizeWalletAddress (rt_dynamicPrimaryWallet runtime) in
  let wagmiAccount := normalizeWalletAddress (rt_wagmiAccount runtime) in
  let walletClientAccount := normalizeWalletAddress (rt_walletClientAccount runtime) in
  let dynamicWalletObject := normalizeDescriptor (rt_dynamicWalletObjectForVerifiedAddress runtime) in
  let dynamicLinkedWallets := filter_map (fun w => normalizeDescriptor (Some w)) (rt_dynamicLinkedWallets runtime) in
  let '(status, reason) := sessionStatus inputs verifiedAddress providerAccount in
  let alignment := runtimeAlignment verifiedAddress providerAccount (po_chainId provider) {|
    rt_dynamicPrimaryWallet := dynamicPrimaryAddress;
    rt_dynamicLinkedWallets := dynamicLinkedWallets;
    rt_dynamicWalletObjectForVerifiedAddress := dynamicWalletObject;
    rt_wagmiAccount := wagmiAccount;
    rt_walletClientAccount := walletClientAccount;
    rt_walletClientId := rt_walletClientId runtime;
    rt_walletClientChainId := rt_walletClientChainId runtime
  |} in
  let runtimeAligned := alignment.1 && bool_decide (po_chainId provider = Some LEOPOLD_CHAIN_ID) in
  let recovery := recoveryFor status reason verifiedAddress in
  let sessionAddress :=
    if bool_decide (status = CONNECTED) || bool_decide (status = WRONG_NETWORK) then verifiedAddress else None in
  {| ws_state := status;
     ws_status := status;
     ws_intent := wc_intent control;
     ws_reason := reason;
     ws_revision := wc_epoch control;
     ws_epoch := wc_epoch control;
     ws_connectAttemptId := wc_connectAttemptId control;
     ws_connectStartedAt := wc_connectStartedAt control;
     ws_connectPhase := wc_connectPhase control;
     ws_verifiedAddress := verifiedAddress;
     ws_address := sessionAddress;
     ws_connectedAddress := sessionAddress;
     ws_chainId := po_chainId provider;
     ws_providerObservation := {|
       po_revision := po_revision provider; po_available := po_available provider;
       po_connected := po_connected provider; po_accountKnown := po_accountKnown provider;
       po_activeAccount := providerAccount; po_chainId := po_chainId provider |};
     ws_dynamicPrimaryAddress := dynamicPrimaryAddress;
     ws_dynamicLinkedWallets := dynamicLinkedWallets;
     ws_dynamicWalletObjectForVerifiedAddress := dynamicWalletObject;
     ws_providerActiveAccount := providerAccount;
     ws_providerAccountKnown := po_accountKnown provider;
     ws_providerConnected := po_connected provider;
     ws_wagmiAccount := wagmiAccount;
     ws_walletClientAccount := walletClientAccount;
     ws_walletClientChainId := rt_walletClientChainId runtime;
     ws_networkHealth := wi_networkHealth inputs;
     ws_runtimeAligned := runtimeAligned;
     ws_canUseFinancialActions :=
       bool_decide (status = CONNECTED) && runtimeAligned && bool_decide (wh_state (wi_networkHealth inputs) = HEALTHY);
     ws_recoveryAction := recovery.1;
     ws_recoveryMessage := recovery.2;
     ws_technicalDetail :=
       if bool_decide (status = ERROR) || bool_decide (reason = ACCOUNT_CHANGED)
          || bool_decide (reason = PROVIDER_DISCONNECTED)
       then Some ("WALLET_SESSION:" +:+ reason_string reason) else None |}.

Definition walletSessionRuntimeAligned (snapshot : WalletSessionSnapshot) : bool :=
  bool_decide (ws_status snapshot = CONNECTED) && ws_runtimeAligned snapshot &&
  walletsMatch (ws_address snapshot) (ws_verifiedAddress snapshot) &&
  bool_decide (ws_chainId snapshot = Some LEOPOLD_CHAIN_ID).

(** ** The identity of a session

    What the provider compares to see whether an answer belongs to the session it was asked
    for: the texts of the observations, joined. *)
Definition status_text (status : WalletSessionState) : string :=
  match status with
  | BOOTSTRAPPING => "BOOTSTRAPPING" | DISCONNECTED => "DISCONNECTED" | CONNECTING => "CONNECTING" | WRONG_NETWORK => "WRONG_NETWORK"
  | CONNECTED => "CONNECTED" | ERROR => "ERROR"
  end.
Definition intent_text (intent : WalletSessionIntent) : string :=
  match intent with INACTIVE => "INACTIVE" | CONNECTING_INTENT => "CONNECTING" | ACTIVE => "ACTIVE" end.
Definition bool_text (b : bool) : string := if b then "true" else "false".
Definition number_text (z : option Z) : string := match z with Some z => Z_toString z | None => "" end.

(** The parts of the key that are texts or nothing. *)
Definition identity_texts (inputs : WalletSessionInputs) : list (option string) :=
  [wi_verifiedFinancialWallet inputs; po_activeAccount (wi_provider inputs); rt_dynamicPrimaryWallet (wi_runtime inputs);
   dw_id <$> rt_dynamicWalletObjectForVerifiedAddress (wi_runtime inputs); rt_wagmiAccount (wi_runtime inputs);
   rt_walletClientAccount (wi_runtime inputs); rt_walletClientId (wi_runtime inputs)].

Definition identity_parts (inputs : WalletSessionInputs) : list string :=
  let control := wi_control inputs in
  let provider := wi_provider inputs in
  let runtime := wi_runtime inputs in
  [bool_text (wi_initialized inputs); default "" (wi_verifiedFinancialWallet inputs); intent_text (wc_intent control);
   status_text (wc_status control); Z_toString (wc_epoch control); number_text (wc_providerRevision control); Z_toString (po_revision provider);
   bool_text (po_accountKnown provider); bool_text (po_connected provider); default "" (po_activeAccount provider);
   number_text (po_chainId provider); default "" (rt_dynamicPrimaryWallet runtime);
   default "" (dw_id <$> rt_dynamicWalletObjectForVerifiedAddress runtime); default "" (rt_wagmiAccount runtime);
   default "" (rt_walletClientAccount runtime); default "" (rt_walletClientId runtime); number_text (rt_walletClientChainId runtime)].

Definition walletSessionIdentityKey (inputs : WalletSessionInputs) : string := join_char "|" (identity_parts inputs).

(** ** The persisted session

    A value of the storage is a text: a JSON document, or anything else. *)
Inductive json : Type :=
| JsonNull
| JsonNumber (z : Z)
| JsonString (s : string)
| JsonOther
| JsonObject (fields : list (string * json)).

Inductive StoredText : Type :=
| JsonText (document : json)
| OtherText.

Definition SessionStorage : Type := list (string * StoredText).

Definition persistActiveWalletSession (storage : SessionStorage) (address : string) : SessionStorage :=
  map_set WALLET_SESSION_STORAGE_KEY
    (JsonText (JsonObject [("version", JsonNumber 1); ("intent", JsonString "ACTIVE");
       ("address", match normalizeWalletAddress (Some address) with Some a => JsonString a | None => JsonNull end)]))
    storage.

Definition clearPersistedWalletSession (storage : SessionStorage) : SessionStorage :=
  List.filter (fun '(k, _) => negb (bool_decide (k = WALLET_SESSION_STORAGE_KEY))) storage.

(** [parsed.field]: [null] has no properties and throws, other values without
    the field give [undefined]. *)
Definition json_field (field : string) (document : json) : result (option json) :=
  match document with
  | JsonNull => Throw (JsError true "TypeError" None "Cannot read properties of null")
  | JsonObject fields => Ok (map_get field fields)
  | _ => Ok None
  end.

Definition readPersistedWalletSession (storage : SessionStorage) : option string :=
  match map_get WALLET_SESSION_STORAGE_KEY storage with
  | None | Some OtherText => None
  | Some (JsonText parsed) =>
      match
        (version ← json_field "version" parsed;
         intent ← json_field "intent" parsed;
         address ← json_field "address" parsed;
         Ok (match version, intent, address with
             | Some (JsonNumber v), Some (JsonString i), Some (JsonString a) =>
                 if negb (bool_decide (v = 1)) || negb (bool_decide (i = "ACTIVE")) then None
                 else normalizeWalletAddress (Some a)
             | _, _, _ => None
             end))
      with
      | Ok address => address
      | Throw _ => None
      end
  end.
End derive.

(** * The state machine *)

(** What the fields of a reachable control say of each other: an attempt is
    recorded exactly while the intent is to connect, a provider revision exactly
    while the session is active, and the status fits the intent. *)
Definition control_ok (c : WalletSessionControl) : Prop :=
  match wc_intent c with
  | INACTIVE =>
      (wc_status c = BOOTSTRAPPING \/ wc_status c = DISCONNECTED \/ wc_status c = ERROR) /\
      wc_connectAttemptId c = None /\ wc_providerRevision c = None
  | CONNECTING_INTENT => wc_status c = CONNECTING /\ wc_connectAttemptId c <> None /\ wc_providerRevision c = None
  | ACTIVE =>
      (wc_status c = CONNECTED \/ wc_status c = WRONG_NETWORK) /\
      wc_connectAttemptId c = None /\ wc_providerRevision c <> None
  end.

Lemma walletSessionReducer_ok c e : control_ok c -> control_ok (walletSessionReducer c e).
Proof.
  intros Hc. destruct e; simpl; repeat case_match; try exact Hc; unfold control_ok in *; simpl; auto.
  all: destruct (wc_intent c) eqn:?; bool_to_prop; intuition congruence.
Qed.

Lemma dispatch_all_ok events c : control_ok c -> control_ok (dispatch_all c events).
Proof.
  revert c; induction events as [|e events IH]; intros c Hc; [exact Hc|]. by apply IH, walletSessionReducer_ok.
Qed.

Lemma dispatch_initial_ok events : control_ok (dispatch_all initialWalletSessionControl events).
Proof. apply dispatch_all_ok. unfold control_ok. simpl. auto. Qed.

(** Events that could begin a session: the start of an attempt, and an outcome
    that names no attempt. *)
Definition may_revive (e : WalletSessionEvent) : bool :=
  match e with
  | Ev_RESTORE_STARTED _ _ _ | Ev_CONNECT_STARTED _ _ _ => true
  | Ev_CONNECTED None _ _ | Ev_WRONG_NETWORK None _ _ => true
  | _ => false
  end.

Lemma reducer_stays_inactive c e :
  control_ok c -> wc_intent c = INACTIVE -> may_revive e = false ->
  wc_intent (walletSessionReducer c e) = INACTIVE.
Proof.
  unfold control_ok. intros Hc E. rewrite E in Hc. destruct Hc as (_ & Ha & _).
  destruct e as [| | |?? |[a|]??|[a|]??| |]; simpl; intros He; try done; unfold isCurrentAttempt; rewrite ?Ha;
    repeat case_match; done.
Qed.

(** A session that was ended stays ended.  Once a reachable session has
    been invalidated (a disconnect, an account change, a lost provider), no
    event of an earlier connection attempt, late success included, makes it
    active or connecting again: only a new attempt does, or an outcome that
    names no attempt. *)
Theorem invalidated_session_stays past reason epoch events :
  Forall (fun e => may_revive e = false) events ->
  wc_intent (dispatch_all initialWalletSessionControl (past ++ Ev_INVALIDATE reason epoch :: events)) = INACTIVE.
Proof.
  intros Hev. unfold dispatch_all. rewrite fold_left_app. simpl.
  assert (Hc : control_ok (settled INACTIVE DISCONNECTED reason epoch None)).
  { unfold control_ok. simpl. auto. }
  assert (Hi : wc_intent (settled INACTIVE DISCONNECTED reason epoch None) = INACTIVE) by done.
  revert Hc Hi. generalize (settled INACTIVE DISCONNECTED reason epoch None).
  induction Hev as [|e events He _ IH]; intros c Hc Hi; [exact Hi|].
  apply IH; [by apply walletSessionReducer_ok|by apply reducer_stays_inactive].
Qed.

(** * The snapshot *)
Section snapshot.
Context `{ViemLaws}.

Lemma truthy_normalize o : truthy (normalizeWalletAddress o) = bool_decide (is_Some (normalizeWalletAddress o)).
Proof.
  destruct (normalizeWalletAddress o) as [w|] eqn:E; [|done]. simpl. by rewrite (normalize_nonempty _ _ E).
Qed.

Lemma runtimeAlignment_true verified w provider chain rt :
  normalizeWalletAddress verified = Some w ->
  (runtimeAlignment (Some w) (normalizeWalletAddress provider) chain rt).1 = true <->
  normalizeWalletAddress provider = Some w /\
  rt_dynamicWalletObjectForVerifiedAddress rt <> None /\
  normalizeWalletAddress (rt_dynamicPrimaryWallet rt) = Some w /\
  normalizeWalletAddress (rt_wagmiAccount rt) = Some w /\
  normalizeWalletAddress (rt_walletClientAccount rt) = Some w /\
  rt_walletClientChainId rt = chain.
Proof.
  intros Hw. pose proof (normalize_idemp _ _ Hw) as Hi.
  assert (Hm : forall x, walletsMatch x (Some w) = true <-> normalizeWalletAddress x = Some w).
  { intros x. rewrite walletsMatch_iff, Hi. naive_solver. }
  unfold runtimeAlignment. rewrite truthy_normalize. simpl. rewrite (normalize_nonempty _ _ Hw). simpl.
  rewrite (walletsMatch_sym (Some w)).
  assert (Hp : walletsMatch (normalizeWalletAddress provider) (Some w) = true <-> normalizeWalletAddress provider = Some w).
  { rewrite Hm. destruct (normalizeWalletAddress provider) as [p|] eqn:Ep; [|done].
    by rewrite (normalize_idemp _ _ Ep). }
  rewrite <- Hp, <- !Hm.
  destruct (normalizeWalletAddress provider) as [p|] eqn:Ep; simpl; [|split; [done|]; intros (Hc & _); by apply walletsMatch_truthy in Hc].
  destruct (walletsMatch (Some p) (Some w)); simpl; [|naive_solver].
  case_bool_decide; [naive_solver|].
  destruct (walletsMatch (rt_dynamicPrimaryWallet rt) _); simpl; [|naive_solver].
  destruct (walletsMatch (rt_wagmiAccount rt) _); simpl; [|naive_solver].
  destruct (walletsMatch (rt_walletClientAccount rt) _); simpl; [|naive_solver].
  case_bool_decide; simpl; naive_solver.
Qed.

(** A descriptor that survives normalisation was present. *)
Lemma normalizeDescriptor_None d : normalizeDescriptor d <> None -> d <> None.
Proof. by destruct d. Qed.

(** When the derived status is [CONNECTED]: the code's chain of early exits. *)
Lemma sessionStatus_CONNECTED inputs w account :
  control_ok (wi_control inputs) -> string_nonempty w = true ->
  (sessionStatus inputs (Some w) account).1 = CONNECTED <->
  wi_initialized inputs = true /\ wc_intent (wi_control inputs) = ACTIVE /\
  wc_providerRevision (wi_control inputs) = Some (po_revision (wi_provider inputs)) /\
  po_accountKnown (wi_provider inputs) = true /\ po_connected (wi_provider inputs) = true /\
  truthy account = true /\ walletsMatch account (Some w) = true /\
  po_chainId (wi_provider inputs) = Some LEOPOLD_CHAIN_ID /\
  (runtimeAlignment (Some w) account (po_chainId (wi_provider inputs)) (wi_runtime inputs)).1 = true.
Proof.
  intros Hc Hw. unfold sessionStatus, control_ok in *. simpl truthy. rewrite Hw. simpl.
  destruct (wi_initialized inputs); simpl; [|naive_solver].
  destruct (wc_intent (wi_control inputs)); simpl.
  - case_bool_decide; naive_solver.
  - destruct Hc as (-> & _). naive_solver.
  - case_bool_decide; simpl; [|naive_solver].
    destruct (po_accountKnown (wi_provider inputs)); simpl; [|naive_solver].
    destruct (po_connected (wi_provider inputs)); simpl; [|naive_solver].
    destruct (truthy account); simpl; [|naive_solver].
    destruct (walletsMatch account (Some w)); simpl; [|naive_solver].
    case_bool_decide; simpl; [|naive_solver].
    destruct (runtimeAlignment _ _ _ _) as [[] why]; simpl; naive_solver.
Qed.

(** When money may move.  In every session the reducer can reach, financial
    actions are enabled exactly when: the SDK is initialised and an account is
    verified; the session is active for the provider's present revision; the
    provider is connected and knows its accounts; the provider's account, the
    Dynamic primary wallet, the wagmi account and the wallet client's account
    are all the verified address, and Dynamic holds a wallet object with a
    valid address; provider and wallet client are on Sepolia; and the last
    network check was healthy. *)
Theorem canUseFinancialActions_iff inputs events :
  wi_control inputs = dispatch_all initialWalletSessionControl events ->
  ws_canUseFinancialActions (deriveWalletSession inputs) = true <->
  exists w,
    wi_initialized inputs = true /\
    normalizeWalletAddress (wi_verifiedFinancialWallet inputs) = Some w /\
    wc_intent (wi_control inputs) = ACTIVE /\
    wc_providerRevision (wi_control inputs) = Some (po_revision (wi_provider inputs)) /\
    po_accountKnown (wi_provider inputs) = true /\ po_connected (wi_provider inputs) = true /\
    normalizeWalletAddress (po_activeAccount (wi_provider inputs)) = Some w /\
    normalizeWalletAddress (rt_dynamicPrimaryWallet (wi_runtime inputs)) = Some w /\
    normalizeWalletAddress (rt_wagmiAccount (wi_runtime inputs)) = Some w /\
    normalizeWalletAddress (rt_walletClientAccount (wi_runtime inputs)) = Some w /\
    normalizeDescriptor (rt_dynamicWalletObjectForVerifiedAddress (wi_runtime inputs)) <> None /\
    po_chainId (wi_provider inputs) = Some LEOPOLD_CHAIN_ID /\
    rt_walletClientChainId (wi_runtime inputs) = Some LEOPOLD_CHAIN_ID /\
    wh_state (wi_networkHealth inputs) = HEALTHY.
Proof.
  intros Hctl. pose proof (dispatch_initial_ok events) as Hc. rewrite <- Hctl in Hc. clear Hctl.
  unfold deriveWalletSession.
  destruct (sessionStatus inputs _ _) as [status reason] eqn:Es. cbn [ws_canUseFinancialActions].
  rewrite !andb_true_iff, !bool_decide_eq_true.
  destruct (normalizeWalletAddress (wi_verifiedFinancialWallet inputs)) as [w|] eqn:Ev.
  - pose proof (sessionStatus_CONNECTED inputs w (normalizeWalletAddress (po_activeAccount (wi_provider inputs))) Hc
      (normalize_nonempty _ _ Ev)) as Hs.
    rewrite Es in Hs. cbn [fst] in Hs. rewrite Hs, !(runtimeAlignment_true _ _ _ _ _ Ev).
    rewrite truthy_normalize, bool_decide_eq_true, walletsMatch_iff, normalize_normalize, (normalize_idemp _ _ Ev).
    cbn [rt_dynamicPrimaryWallet rt_dynamicWalletObjectForVerifiedAddress rt_wagmiAccount rt_walletClientAccount
      rt_walletClientChainId]. rewrite !normalize_normalize.
    pose proof (normalizeDescriptor_None (rt_dynamicWalletObjectForVerifiedAddress (wi_runtime inputs))).
    split.
    + intros Hall. destruct_and!. exists w. split_and!; first [assumption|reflexivity|congruence].
    + intros (? & Hall). destruct_and!. simplify_eq.
      split_and!; first [assumption|reflexivity|congruence|by auto|by eexists|by exists x|idtac].
  - split; [|naive_solver]. intros [[E _] _]. exfalso. unfold sessionStatus in Es. simpl in Es.
    destruct (wi_initialized inputs); simpl in Es; congruence.
Qed.

Lemma map_get_filter_out {V} (k : string) (m : list (string * V)) :
  map_get k (List.filter (fun '(k', _) => negb (bool_decide (k' = k))) m) = None.
Proof.
  induction m as [|[k' v] m IH]; simpl; [done|].
  case_bool_decide; simpl; [done|]. rewrite decide_False by congruence. exact IH.
Qed.

(** A persisted session names one address.  Reading back what was persisted
    gives the normal form of the address (nothing, if it is not an address);
    after clearing there is no session; and whatever the storage holds, an
    address read is in normal form. *)
Theorem persisted_session_roundtrip storage address :
  readPersistedWalletSession (persistActiveWalletSession storage address) = normalizeWalletAddress (Some address) /\
  readPersistedWalletSession (clearPersistedWalletSession storage) = None /\
  (forall w, readPersistedWalletSession storage = Some w -> normalizeWalletAddress (Some w) = Some w).
Proof.
  split_and!.
  - unfold readPersistedWalletSession, persistActiveWalletSession. rewrite map_get_set_eq.
    destruct (normalizeWalletAddress (Some address)) as [w|] eqn:E; cbn [json_field mbind result_bind]; [|done].
    by apply (normalize_idemp (Some address)).
  - unfold readPersistedWalletSession, clearPersistedWalletSession. by rewrite map_get_filter_out.
  - intros w. unfold readPersistedWalletSession.
    destruct (map_get _ storage) as [[parsed|]|]; [|done|done].
    destruct parsed as [| | | |fields]; cbn [json_field mbind result_bind]; try done.
    destruct (map_get "version" fields) as [[]|]; try done. destruct (map_get "intent" fields) as [[]|]; try done.
    destruct (map_get "address" fields) as [[]|]; try done. case_match; [done|]. apply normalize_idemp.
Qed.
End snapshot.

(** * The identity of a session *)
(** A text that the key keeps apart: none, or one that is not empty and has no bar. *)
Definition key_text (text : option string) : Prop := text <> Some "" /\ lacks "|" (default "" text) = true.

Lemma key_text_inj t u : key_text t -> key_text u -> default "" t = default "" u -> t = u.
Proof. intros [Ht _] [Hu _]. destruct t, u; cbn; congruence. Qed.
Lemma bool_text_inj b c : bool_text b = bool_text c -> b = c.
Proof. by destruct b, c. Qed.
Lemma intent_text_inj i j : intent_text i = intent_text j -> i = j.
Proof. by destruct i, j. Qed.
Lemma status_text_inj i j : status_text i = status_text j -> i = j.
Proof. by destruct i, j. Qed.
Lemma Z_toString_bar z : Z_toString z <> "" /\ lacks "|" (Z_toString z) = true.
Proof.
  destruct (Z_lt_le_dec z 0) as [Hz|Hz].
  - destruct z as [|p|p]; try lia. change (Z_toString (Z.neg p)) with (String "-" (NilZero.string_of_uint (Pos.to_uint p))). split; [done|].
    unfold lacks. cbn [string_forall Ascii.eqb]. apply digits_no_sep; [done|]. change (string_forall is_digit (Z_toString (Z.pos p)) = true).
    pose proof (Z_toString_digits (Z.pos p) ltac:(lia)) as Hd. unfold matches_digits in Hd. by bool_to_prop.
  - pose proof (Z_toString_digits z Hz) as Hd. split; [by intros E; rewrite E in Hd|]. by apply Z_toString_no_sep.
Qed.
Lemma number_text_inj y z : number_text y = number_text z -> y = z.
Proof.
  destruct y as [y|], z as [z|]; cbn; [by intros ->%Z_toString_inj| | |done]; [destruct (Z_toString_bar y)|destruct (Z_toString_bar z)]; done.
Qed.
Lemma number_text_bar z : lacks "|" (number_text z) = true.
Proof. destruct z as [z|]; [apply Z_toString_bar|done]. Qed.

Lemma identity_parts_bar inputs : Forall key_text (identity_texts inputs) -> Forall (fun part => lacks "|" part = true) (identity_parts inputs).
Proof.
  unfold identity_texts, identity_parts. rewrite !Forall_cons. intros ([_ ?] & [_ ?] & [_ ?] & [_ ?] & [_ ?] & [_ ?] & [_ ?] & _).
  split_and!; try done; try apply Z_toString_bar; try apply number_text_bar; try by apply Forall_nil.
  all: match goal with |- context [bool_text ?b] => destruct b | |- context [intent_text ?i] => destruct i | |- context [status_text ?i] => destruct i end.
  all: reflexivity.
Qed.

(** What the key observes. *)
Definition identity_observed (inputs : WalletSessionInputs) :=
  let control := wi_control inputs in
  let provider := wi_provider inputs in
  (wi_initialized inputs, identity_texts inputs, (wc_intent control, wc_status control, wc_epoch control, wc_providerRevision control),
   (po_revision provider, po_accountKnown provider, po_connected provider, po_chainId provider), rt_walletClientChainId (wi_runtime inputs)).

(** equal keys are equal sessions.  Two observations whose addresses and names hold no
    bar have the same key exactly when nothing that the key observes differs: an answer
    that was asked for another session is never taken for this one's. *)
Theorem walletSessionIdentityKey_exact inputs inputs' :
  Forall key_text (identity_texts inputs) -> Forall key_text (identity_texts inputs') ->
  walletSessionIdentityKey inputs = walletSessionIdentityKey inputs' <-> identity_observed inputs = identity_observed inputs'.
Proof.
  intros H H'. unfold walletSessionIdentityKey. split.
  - intros E. apply (f_equal (split_char "|")) in E. rewrite !split_join in E by (done || by apply identity_parts_bar).
    unfold identity_texts in H, H'. rewrite !Forall_cons in H, H'. unfold identity_parts in E. injection E as E.
    unfold identity_observed, identity_texts. destruct_and?.
    repeat match goal with
    | E : bool_text _ = bool_text _ |- _ => apply bool_text_inj in E; rewrite E
    | E : intent_text _ = intent_text _ |- _ => apply intent_text_inj in E; rewrite E
    | E : status_text _ = status_text _ |- _ => apply status_text_inj in E; rewrite E
    | E : Z_toString _ = Z_toString _ |- _ => apply Z_toString_inj in E; rewrite E
    | E : number_text _ = number_text _ |- _ => apply number_text_inj in E; rewrite E
    | E : default "" _ = default "" _ |- _ => apply key_text_inj in E; [rewrite E|done|done]
    end.
    done.
  - intros E. unfold identity_observed, identity_texts in E. injection E as E. unfold identity_parts. congruence.
Qed.

(** * Concrete instances *)
Definition sample_wallet : string := "0xabcdef0000000000000000000000000000000001".
Definition sample_events : list WalletSessionEvent :=
  [Ev_SDK_READY None; Ev_CONNECT_STARTED "connect-1" 1000 1;
   Ev_CONNECT_PHASE "connect-1" VERIFYING_NETWORK None; Ev_CONNECTED (Some "connect-1") 7 (Some 1)].
Definition sample_inputs : WalletSessionInputs := {|
  wi_initialized := true;
  wi_verifiedFinancialWallet := Some "0xABCDEF0000000000000000000000000000000001";
  wi_control := dispatch_all initialWalletSessionControl sample_events;
  wi_provider := {| po_revision := 7; po_available := true; po_connected := true; po_accountKnown := true;
                    po_activeAccount := Some sample_wallet; po_chainId := Some LEOPOLD_CHAIN_ID |};
  wi_runtime := {| rt_dynamicPrimaryWallet := Some sample_wallet;
                   rt_dynamicLinkedWallets := [{| dw_id := "d1"; dw_address := sample_wallet |}];
                   rt_dynamicWalletObjectForVerifiedAddress := Some {| dw_id := "d1"; dw_address := sample_wallet |};
                   rt_wagmiAccount := Some sample_wallet; rt_walletClientAccount := Some sample_wallet;
                   rt_walletClientId := Some "c1"; rt_walletClientChainId := Some LEOPOLD_CHAIN_ID |};
  wi_networkHealth := {| wh_state := HEALTHY; wh_checkedAt := Some 5; wh_dynamicWalletChainId := None;
                         wh_walletClientChainId := None; wh_appChainId := None; wh_technicalDetail := None |}
|}.

Lemma canUseFinancialActions_iff_witness :
  ws_canUseFinancialActions (@deriveWalletSession hex_viem sample_inputs) = true.
Proof.
  apply (@canUseFinancialActions_iff hex_viem hex_viem_laws sample_inputs sample_events); [reflexivity|].
  exists sample_wallet. vm_compute. repeat split; congruence.
Defined.

Lemma invalidated_session_stays_witness :
  wc_intent (dispatch_all initialWalletSessionControl
    (sample_events ++ [Ev_INVALIDATE USER_DISCONNECTED 2; Ev_CONNECTED (Some "connect-1") 8 (Some 1);
                       Ev_CONNECT_FAILED CONNECT_TIMEOUT "connect-1" 3])) = INACTIVE.
Proof. apply (invalidated_session_stays sample_events). repeat constructor. Defined.

Lemma persisted_session_roundtrip_witness :
  @readPersistedWalletSession hex_viem (@persistActiveWalletSession hex_viem [] "0xABCDEF0000000000000000000000000000000001")
  = Some sample_wallet.
Proof.
  destruct (@persisted_session_roundtrip hex_viem hex_viem_laws [] "0xABCDEF0000000000000000000000000000000001") as [E _].
  rewrite E. reflexivity.
Defined.
