(* ===== verification/WalletRecovery.v ===== *)
(** * Recovery of a wallet session: frontend/lib/auth/recovery.ts and
    frontend/lib/auth/wallet-recovery.ts

    What the application asks of the user next, and the reconnection of a wallet
    that is already linked.  The wallet's provider is the class
    [ExistingWalletConnection]; the reconnection's trace records, in order, the
    accounts it reported and the commands it gave. *)
From Stdlib Require Import ZArith Lia Ascii.
From stdpp Require Import base option list strings.
From S2P Require Import Prelude WalletAddress WalletSession.
Local Open Scope Z_scope.

(** ** The account states of frontend/lib/auth/account-state.ts *)
Inductive AccountStatus : Type :=
| AUTH_LOADING | SIGNED_OUT | SIGNED_IN_PROFILE_INCOMPLETE | SIGNED_IN_READY.

Inductive FinancialWalletMetadataStatus : Type := LOADING | UNAVAILABLE | NONE | PRESENT | METADATA_ERROR.

(** ** The gate and the recovery prompt *)
Inductive WalletGateMode : Type :=
| GATE_AUTH_LOADING | GATE_SIGNED_OUT | GATE_PROFILE_INCOMPLETE
| GATE_FINANCIAL_METADATA_LOADING | GATE_FINANCIAL_METADATA_ERROR | GATE_APPLICATION.

Definition deriveWalletGateMode (accountStatus : AccountStatus) (metadataStatus : FinancialWalletMetadataStatus)
    : WalletGateMode :=
  match accountStatus with
  | AUTH_LOADING => GATE_AUTH_LOADING
  | SIGNED_OUT => GATE_SIGNED_OUT
  | SIGNED_IN_PROFILE_INCOMPLETE => GATE_PROFILE_INCOMPLETE
  | SIGNED_IN_READY =>
      match metadataStatus with
      | LOADING => GATE_FINANCIAL_METADATA_LOADING
      | METADATA_ERROR | UNAVAILABLE => GATE_FINANCIAL_METADATA_ERROR
      | NONE | PRESENT => GATE_APPLICATION
      end
  end.

Inductive LeopoldRecoveryAction : Type :=
| L_LINK_FINANCIAL_WALLET | L_CONFIRM_FINANCIAL_WALLET | L_CONNECT_VERIFIED_WALLET
| L_CONFIRM_ACCOUNT_SELECTION | L_CANCEL_CONNECTION | L_SWITCH_TO_SEPOLIA
| L_RETRY_PROVIDER | L_RETRY_NETWORK | L_NONE | L_ERROR.

Record LeopoldRecovery := {
  lr_visible : bool;
  lr_action : LeopoldRecoveryAction;
  lr_message : string;
  lr_detail : string
}.

Inductive WalletIntegrity : Type := WI_LOADING | WI_READY | WI_ERROR.

Record RecoveryInputs := {
  ri_accountStatus : AccountStatus;
  ri_financialMetadataStatus : FinancialWalletMetadataStatus;
  ri_walletSessionStatus : WalletSessionState;
  ri_walletSessionReason : WalletSessionReason;
  ri_networkHealth : WalletRpcHealthState;
  ri_canConfirmFinancialWallet : option bool;
  ri_financialWalletIntegrity : option WalletIntegrity
}.

Definition hiddenRecovery : LeopoldRecovery :=
  {| lr_visible := false; lr_action := L_NONE; lr_message := ""; lr_detail := "" |}.

Definition shown (action : LeopoldRecoveryAction) (message detail : string) : LeopoldRecovery :=
  {| lr_visible := true; lr_action := action; lr_message := message; lr_detail := detail |}.

Definition noWalletRecovery (integrity : option WalletIntegrity) (canConfirm : option bool) : LeopoldRecovery :=
  match integrity with
  | Some WI_LOADING => hiddenRecovery
  | Some WI_ERROR =>
      shown L_ERROR "Financial-wallet linking is temporarily unavailable."
        "Leopold could not verify that unique wallet ownership is enforced. No account data was changed."
  | _ =>
      if flag canConfirm then
        shown L_CONFIRM_FINANCIAL_WALLET "Confirm your authenticated wallet for Leopold financial actions."
          "This wallet is already verified on your current Leopold account. Confirmation will not merge accounts."
      else
        shown L_LINK_FINANCIAL_WALLET "Link your financial wallet to continue."
          "Leopold has no verified financial wallet for this account yet."
  end.

Definition sessionRecovery (status : WalletSessionState) (reason : WalletSessionReason) (health : WalletRpcHealthState)
    : LeopoldRecovery :=
  match status with
  | BOOTSTRAPPING => hiddenRecovery
  | DISCONNECTED =>
      shown L_CONNECT_VERIFIED_WALLET "Connect your verified financial wallet to continue."
        "Financial and private actions remain paused. Public Leopold information remains available."
  | CONNECTING =>
      if bool_decide (reason = ACCOUNT_SELECTION_REQUIRED) then
        shown L_CONFIRM_ACCOUNT_SELECTION "Select your verified account in Rabby or MetaMask."
          "Leopold will not adopt another wallet account."
      else
        shown L_CANCEL_CONNECTION "Connecting your verified financial wallet…"
          "This user-initiated connection attempt is verifying your provider, account, and network."
  | WRONG_NETWORK =>
      shown L_SWITCH_TO_SEPOLIA "Switch to Ethereum Sepolia to continue."
        "No financial transaction will be attempted until your verified wallet is on Sepolia."
  | ERROR =>
      shown L_RETRY_PROVIDER "Your wallet connection could not be completed."
        "The connection attempt ended safely. You can retry without refreshing the page."
  | CONNECTED =>
      match health with
      | WALLET_RPC_UNAVAILABLE =>
          shown L_RETRY_NETWORK "Your wallet's Sepolia connection isn't working."
            "Your Leopold wallet session remains connected, but its Sepolia RPC is unavailable."
      | APP_RPC_UNAVAILABLE =>
          shown L_RETRY_NETWORK "Leopold's Sepolia service is currently unavailable."
            "Your wallet remains connected, but Leopold's public Sepolia service is unavailable."
      | UNKNOWN =>
          shown L_RETRY_NETWORK "Network health could not be confirmed."
            "Your wallet remains connected while network health is retried."
      | _ => hiddenRecovery
      end
  end.

Definition deriveLeopoldRecovery (inputs : RecoveryInputs) : LeopoldRecovery :=
  match ri_accountStatus inputs with
  | AUTH_LOADING | SIGNED_OUT | SIGNED_IN_PROFILE_INCOMPLETE => hiddenRecovery
  | SIGNED_IN_READY =>
      match ri_financialMetadataStatus inputs with
      | LOADING => hiddenRecovery
      | METADATA_ERROR | UNAVAILABLE =>
          shown L_ERROR "Your verified financial-wallet metadata could not be resolved."
            "Financial actions remain paused. Your account metadata has not been changed."
      | NONE => noWalletRecovery (ri_financialWalletIntegrity inputs) (ri_canConfirmFinancialWallet inputs)
      | PRESENT =>
          sessionRecovery (ri_walletSessionStatus inputs) (ri_walletSessionReason inputs) (ri_networkHealth inputs)
      end
  end.

(** ** Reconnection of an existing wallet *)

(** The provider's calls; [timer_first] says whether the timer of a race fires
    before the call it races ends. *)
Class ExistingWalletConnection (W : Type) := {
  isConnected : method W bool;
  sync : method W unit;
  getConnectedAccounts : method W (list string);
  switchWallet : method W unit;
  timer_first : W -> bool
}.

Inductive RecoveryEvent : Type :=
| Reported (address : option string)
| Synced
| SwitchedWallet.

Inductive RecoveryReason : Type := VERIFIED_ACCOUNT | NEEDS_ACCOUNT_SELECTION | NO_PROVIDER_ACCOUNT.

Record ExistingWalletRecoveryResult := {
  rr_connected : bool;
  rr_activeAddress : option string;
  rr_reason : RecoveryReason;
  rr_synced : bool
}.

Section reconnect.
Context `{Viem} {W : Type} `{ExistingWalletConnection W}.

(** [withWalletSessionTimeout]: the call is under way either way. *)
Definition withWalletSessionTimeout {A} (reason : string) (operation : method W A) : method W A :=
  fun w => let '(r, w') := operation w in
           if timer_first w' then (throw_new reason, w') else (r, w').

Definition recovery (A : Type) : Type := method (W * list RecoveryEvent) A.

Definition note_event (e : RecoveryEvent) : recovery unit := fun '(w, trace) => (Ok tt, (w, trace ++ [e])).

(** [readAccounts]: the provider's accounts, of which the first is active. *)
Definition readActiveAccount : recovery (option string) :=
  accounts ← on_state (withWalletSessionTimeout "PROVIDER_ACCOUNT_TIMEOUT" getConnectedAccounts);
  let activeAddress := normalizeWalletAddress (head accounts) in
  note_event (Reported activeAddress) ;;
  mret activeAddress.

Definition recovery_result connected activeAddress reason synced : ExistingWalletRecoveryResult :=
  {| rr_connected := connected; rr_activeAddress := activeAddress; rr_reason := reason; rr_synced := synced |}.

(** From the account found on: nothing, another account, or the verified one. *)
Definition reconnect_rest (verifiedAddress : string) (isPrimary : bool) (activeAddress : option string) (synced : bool)
    : recovery ExistingWalletRecoveryResult :=
  if negb (truthy activeAddress) then mret (recovery_result false None NO_PROVIDER_ACCOUNT synced)
  else if negb (walletsMatch activeAddress (Some verifiedAddress)) then
    mret (recovery_result false activeAddress NEEDS_ACCOUNT_SELECTION synced)
  else
    (if isPrimary then mret tt
     else note_event SwitchedWallet ;; on_state (withWalletSessionTimeout "DYNAMIC_PRIMARY_TIMEOUT" switchWallet)) ;;
    finalAddress ← readActiveAccount;
    mret (recovery_result (walletsMatch finalAddress (Some verifiedAddress)) finalAddress
            (if walletsMatch finalAddress (Some verifiedAddress) then VERIFIED_ACCOUNT else NEEDS_ACCOUNT_SELECTION)
            synced).

Definition reconnectExistingWallet (verifiedAddress : string) (isPrimary : bool) : recovery ExistingWalletRecoveryResult :=
  activeAddress ← readActiveAccount;
  if truthy activeAddress && negb (walletsMatch activeAddress (Some verifiedAddress)) then
    mret (recovery_result false activeAddress NEEDS_ACCOUNT_SELECTION false)
  else
    '(activeAddress, synced) ←
      (if truthy activeAddress then mret (activeAddress, false)
       else
         connected ← on_state (withWalletSessionTimeout "PROVIDER_CONNECTION_TIMEOUT" isConnected);
         synced ← (if connected : bool then mret false
                   else note_event Synced ;;
                        on_state (withWalletSessionTimeout "PROVIDER_SYNC_TIMEOUT" sync) ;;
                        mret true);
         activeAddress ← readActiveAccount;
         mret (activeAddress, synced));
    reconnect_rest verifiedAddress isPrimary activeAddress synced.
End reconnect.

(** * Properties *)

(** When a command may be given: the primary wallet is switched only right after
    the provider reported the verified account, and a synchronisation is asked
    for only right after it reported none. *)
Fixpoint commands_ok `{Viem} (verified : string) (previous : option RecoveryEvent) (trace : list RecoveryEvent) : Prop :=
  match trace with
  | [] => True
  | e :: trace' =>
      match e with
      | SwitchedWallet =>
          exists a, previous = Some (Reported a) /\ walletsMatch a (Some verified) = true
      | Synced => previous = Some (Reported None)
      | Reported _ => True
      end /\ commands_ok verified (Some e) trace'
  end.

Definition is_switch (e : RecoveryEvent) : bool := match e with SwitchedWallet => true | _ => false end.
Definition is_sync (e : RecoveryEvent) : bool := match e with Synced => true | _ => false end.

Section reconnect_properties.
Context `{ViemLaws} {W : Type} `{!ExistingWalletConnection W}.
Implicit Types (trace : list RecoveryEvent).

Lemma wp_readActiveAccount (Q : result (option string) -> W * list RecoveryEvent -> Prop) w trace :
  (forall w' e, Q (Throw e) (w', trace)) ->
  (forall w' o, Q (Ok (normalizeWalletAddress o)) (w', trace ++ [Reported (normalizeWalletAddress o)])) ->
  wp readActiveAccount Q (w, trace).
Proof.
  intros He Ho. unfold readActiveAccount. apply wp_bind, wp_on_state. apply wp_any.
  intros [accounts|e] w'; [|apply He]. apply Ho.
Qed.

Lemma wp_environment {A} (m : method W A) (Q : result A -> W * list RecoveryEvent -> Prop) w trace :
  (forall r w', Q r (w', trace)) -> wp (on_state m) Q (w, trace).
Proof. intros HQ. apply wp_on_state, wp_any. auto. Qed.

Lemma wp_note_event e (Q : result unit -> W * list RecoveryEvent -> Prop) w trace :
  Q (Ok tt) (w, trace ++ [e]) -> wp (note_event e) Q (w, trace).
Proof. done. Qed.

(** What holds of the outcome and the trace of a reconnection. *)
Definition reconnect_ok (verified : string) (isPrimary : bool)
    (r : result ExistingWalletRecoveryResult) (s : W * list RecoveryEvent) : Prop :=
  commands_ok verified None s.2 /\
  (length (List.filter is_switch s.2) <= (if isPrimary then 0 else 1))%nat /\
  forall x, r = Ok x ->
    last s.2 = Some (Reported (rr_activeAddress x)) /\
    (rr_connected x = true <-> rr_reason x = VERIFIED_ACCOUNT) /\
    rr_synced x = existsb is_sync s.2 /\
    (rr_connected x = true ->
       walletsMatch (rr_activeAddress x) (Some verified) = true /\
       (isPrimary = false -> existsb is_switch s.2 = true)).

Lemma normalized_cases o :
  normalizeWalletAddress o = None \/
  exists a, normalizeWalletAddress o = Some a /\ truthy (normalizeWalletAddress o) = true.
Proof.
  destruct (normalizeWalletAddress o) as [a|] eqn:E; [right|by left].
  exists a. split; [done|]. simpl. by eapply normalize_nonempty.
Qed.

(** Leaves of the execution: the trace is now a concrete list. *)
Ltac recovery_leaf :=
  unfold reconnect_ok; cbn;
  split; [repeat split; try done; try (by eexists)|split];
  [ repeat case_match; simpl; lia
  | let x := fresh "x" in let Hx := fresh "Hx" in
    intros x Hx; try discriminate Hx; injection Hx as <-; cbn;
    split_and!; try done; try (by (split; intros; simplify_eq)); try (by intros [=]) ].

Lemma wp_finish verified (isPrimary : bool) w trace o synced :
  walletsMatch (normalizeWalletAddress o) (Some verified) = true ->
  trace = [Reported (normalizeWalletAddress o)] /\ synced = false \/
  trace = [Reported None; Reported (normalizeWalletAddress o)] /\ synced = false \/
  trace = [Reported None; Synced; Reported (normalizeWalletAddress o)] /\ synced = true ->
  wp (S := W * list RecoveryEvent) ((if isPrimary then mret tt
       else note_event SwitchedWallet ;; on_state (withWalletSessionTimeout "DYNAMIC_PRIMARY_TIMEOUT" switchWallet)) ;;
      finalAddress ← readActiveAccount;
      mret (recovery_result (walletsMatch finalAddress (Some verified)) finalAddress
              (if walletsMatch finalAddress (Some verified) then VERIFIED_ACCOUNT else NEEDS_ACCOUNT_SELECTION)
              synced))
    (reconnect_ok verified isPrimary) (w, trace).
Proof.
  intros Hm Htrace.
  assert (Hfinal : forall w' (commands : list RecoveryEvent),
    commands = (if isPrimary then [] else [SwitchedWallet]) ->
    wp (S := W * list RecoveryEvent) (finalAddress ← readActiveAccount;
        mret (recovery_result (walletsMatch finalAddress (Some verified)) finalAddress
              (if walletsMatch finalAddress (Some verified) then VERIFIED_ACCOUNT else NEEDS_ACCOUNT_SELECTION)
              synced)) (reconnect_ok verified isPrimary) (w', trace ++ commands)).
  { intros w' commands ->. apply wp_bind, wp_readActiveAccount; intros w2.
    - intros e. destruct isPrimary, Htrace as [[-> ->]|[[-> ->]|[-> ->]]]; recovery_leaf.
    - intros o2. apply wp_ret. destruct (walletsMatch (normalizeWalletAddress o2) (Some verified)) eqn:E2;
        destruct isPrimary, Htrace as [[-> ->]|[[-> ->]|[-> ->]]]; recovery_leaf. }
  apply wp_bind. destruct isPrimary.
  - apply wp_ret. rewrite <- (app_nil_r trace). by apply Hfinal.
  - apply wp_bind, wp_note_event, wp_environment. intros [[]|e] w'; [by apply Hfinal|].
    destruct Htrace as [[-> ->]|[[-> ->]|[-> ->]]]; recovery_leaf.
Qed.

(** A second read of the account, after the provider reported none. *)
Lemma wp_second_read verified isPrimary w trace synced :
  trace = [Reported None] /\ synced = false \/ trace = [Reported None; Synced] /\ synced = true ->
  wp (S := W * list RecoveryEvent) (activeAddress ← readActiveAccount; mret (activeAddress, synced))
    (fun r s' => match r with
       | Ok (activeAddress, synced) =>
           wp (reconnect_rest verified isPrimary activeAddress synced) (reconnect_ok verified isPrimary) s'
       | Throw e => reconnect_ok verified isPrimary (Throw e) s'
       end) (w, trace).
Proof.
  intros Htrace. apply wp_bind, wp_readActiveAccount; intros w1.
  - intros e. destruct Htrace as [[-> ->]|[-> ->]]; recovery_leaf.
  - intros o. apply wp_ret. unfold reconnect_rest. destruct (normalized_cases o) as [E|(a & E & T)].
    + rewrite E. simpl. apply wp_ret. destruct Htrace as [[-> ->]|[-> ->]]; recovery_leaf.
    + rewrite T. simpl. destruct (walletsMatch (normalizeWalletAddress o) (Some verified)) eqn:Em; simpl.
      * apply wp_finish with (o := o); [done|]. destruct Htrace as [[-> ->]|[-> ->]]; auto.
      * apply wp_ret. rewrite E. destruct Htrace as [[-> ->]|[-> ->]]; recovery_leaf.
Qed.

(** Reconnection never adopts another account.  Whatever the provider
    answers and whichever call times out: the primary wallet is switched at most
    once, only if it is not already primary, and only right after the provider
    reported the verified account; the provider is asked to synchronise only
    after it reported no account; the address returned is the last one reported;
    and the result says connected exactly for the reason [VERIFIED_ACCOUNT], in
    which case that address is the verified one. *)
Theorem reconnectExistingWallet_sound verified isPrimary w r s :
  reconnectExistingWallet verified isPrimary (w, []) = (r, s) ->
  reconnect_ok verified isPrimary r s.
Proof.
  intros E. refine (wp_run _ _ _ _ _ _ E). clear E. unfold reconnectExistingWallet.
  apply wp_bind, wp_readActiveAccount; [intros; recovery_leaf|]. intros w1 o1.
  destruct (normalized_cases o1) as [E1|(a1 & E1 & T1)].
  - rewrite E1. simpl. apply wp_bind, wp_bind, wp_environment. intros [connected|e] w2; [|recovery_leaf].
    pose proof (wp_second_read verified isPrimary) as Hrest.
    destruct connected.
    + apply wp_bind, wp_ret. eapply wp_mono; [apply Hrest; by left|by intros [[]|] ?].
    + apply wp_bind, wp_bind, wp_note_event, wp_bind, wp_environment. intros [[]|e] w3; [|recovery_leaf].
      apply wp_ret. eapply wp_mono; [apply Hrest; by right|by intros [[]|] ?].
  - rewrite T1. destruct (walletsMatch (normalizeWalletAddress o1) (Some verified)) eqn:Em; simpl.
    + apply wp_bind, wp_ret. unfold reconnect_rest. rewrite T1, Em. simpl. apply wp_finish with (o := o1); [done|].
      by left.
    + apply wp_ret. rewrite E1. recovery_leaf.
Qed.
End reconnect_properties.

(** ** The prompt and the session agree *)
Section agreement.
Context `{ViemLaws}.

(** The prompt is the session's own recovery.  For a ready account with a
    verified wallet, the prompt shown is the recovery action of the session's
    snapshot (connect, switch network, retry the provider), a connecting session
    offers only to cancel or to confirm the account selection, a connected one
    only to retry the network; and whenever financial actions are enabled
    nothing is prompted. *)
Theorem recovery_agrees_session inputs integrity canConfirm :
  wi_initialized inputs = true -> normalizeWalletAddress (wi_verifiedFinancialWallet inputs) <> None ->
  let session := deriveWalletSession inputs in
  let recovery := deriveLeopoldRecovery {|
    ri_accountStatus := SIGNED_IN_READY; ri_financialMetadataStatus := PRESENT;
    ri_walletSessionStatus := ws_status session; ri_walletSessionReason := ws_reason session;
    ri_networkHealth := wh_state (wi_networkHealth inputs);
    ri_canConfirmFinancialWallet := canConfirm; ri_financialWalletIntegrity := integrity |} in
  (ws_recoveryAction session = CONNECT_VERIFIED_WALLET <-> lr_action recovery = L_CONNECT_VERIFIED_WALLET) /\
  (ws_recoveryAction session = SWITCH_TO_SEPOLIA <-> lr_action recovery = L_SWITCH_TO_SEPOLIA) /\
  (ws_recoveryAction session = RETRY_PROVIDER <-> lr_action recovery = L_RETRY_PROVIDER) /\
  ws_recoveryAction session <> LINK_WALLET /\
  (ws_status session = CONNECTING ->
     lr_action recovery = L_CANCEL_CONNECTION \/ lr_action recovery = L_CONFIRM_ACCOUNT_SELECTION) /\
  (lr_action recovery = L_RETRY_NETWORK -> ws_status session = CONNECTED) /\
  (ws_canUseFinancialActions session = true -> lr_visible recovery = false).
Proof.
  intros Hi Hv session recovery. subst recovery.
  assert (Hr : ws_recoveryAction session = (recoveryFor (ws_status session) (ws_reason session)
                 (normalizeWalletAddress (wi_verifiedFinancialWallet inputs))).1).
  { subst session. unfold deriveWalletSession. by destruct (sessionStatus _ _ _). }
  assert (Hu : ws_canUseFinancialActions session = true ->
    ws_status session = CONNECTED /\ wh_state (wi_networkHealth inputs) = HEALTHY).
  { subst session. unfold deriveWalletSession. destruct (sessionStatus _ _ _). cbn [ws_canUseFinancialActions ws_status].
    intros Hu. bool_to_prop. by split. }
  rewrite Hr. unfold recoveryFor. rewrite truthy_normalize, bool_decide_true by by apply not_eq_None_Some.
  cbn [negb deriveLeopoldRecovery ri_accountStatus ri_financialMetadataStatus ri_walletSessionStatus
    ri_walletSessionReason ri_networkHealth].
  destruct (ws_status session); simpl; repeat case_match; simpl; split_and!; try done; try naive_solver.
Qed.
End agreement.

(** * Concrete instances *)

(** A provider that answers from a script of account lists. *)
#[local] Instance scripted_wallet : ExistingWalletConnection (list (list string)) := {|
  isConnected := fun w => (Ok false, w);
  sync := fun w => (Ok tt, w);
  getConnectedAccounts := fun w => match w with a :: w' => (Ok a, w') | [] => (throw_new "no accounts", []) end;
  switchWallet := fun w => (Ok tt, w);
  timer_first := fun _ => false
|}.

Lemma reconnectExistingWallet_sound_witness :
  reconnect_ok (H := hex_viem) sample_wallet false
    (Ok (recovery_result true (Some sample_wallet) VERIFIED_ACCOUNT true))
    (@nil (list string), [Reported None; Synced; Reported (Some sample_wallet); SwitchedWallet; Reported (Some sample_wallet)]).
Proof.
  apply (@reconnectExistingWallet_sound hex_viem hex_viem_laws _ scripted_wallet sample_wallet false
           [[]; [sample_wallet]; [sample_wallet]]).
  vm_compute. reflexivity.
Defined.

Lemma recovery_agrees_session_witness :
  lr_visible (deriveLeopoldRecovery {|
    ri_accountStatus := SIGNED_IN_READY; ri_financialMetadataStatus := PRESENT;
    ri_walletSessionStatus := CONNECTED; ri_walletSessionReason := R_CONNECTED;
    ri_networkHealth := HEALTHY; ri_canConfirmFinancialWallet := None; ri_financialWalletIntegrity := None |}) = false.
Proof.
  destruct (@recovery_agrees_session hex_viem hex_viem_laws sample_inputs None None)
    as (_ & _ & _ & _ & _ & _ & Hu); [reflexivity|vm_compute; discriminate|].
  exact (Hu eq_refl).
Defined.
