(* ===== verification/Reliability.v ===== *)
(** * Bounded reads, single writes and metrics: frontend/lib/ops/reliability.ts
    and frontend/lib/ops/metrics.ts

    The classification of failures (the regular expressions are those of the
    code, over a small matcher), the retry loop of a read, the single shot of a
    financial write, and the aggregates they are counted in.  The clock, the
    timers and the reads themselves are the environment. *)
From Stdlib Require Import ZArith Lia Ascii.
From stdpp Require Import base option list strings sorting.
From S2P Require Import Prelude.
Local Open Scope Z_scope.

(** ** Regular expressions: sequences of character classes, each taken once,
    at most once or any number of times *)
Inductive pattern_item : Type :=
| one (p : ascii -> bool)
| maybe (p : ascii -> bool)
| many (p : ascii -> bool).

Fixpoint match_here (items : list pattern_item) : string -> bool :=
  match items with
  | [] => fun _ => true
  | one p :: items' => fun s => match s with String c s' => p c && match_here items' s' | EmptyString => false end
  | maybe p :: items' =>
      fun s => match_here items' s ||
               match s with String c s' => p c && match_here items' s' | EmptyString => false end
  | many p :: items' =>
      fix go s := match_here items' s || match s with String c s' => p c && go s' | EmptyString => false end
  end.

(** [/items/.test(s)] *)
Fixpoint regex_test (items : list pattern_item) (s : string) : bool :=
  match_here items s || match s with String _ s' => regex_test items s' | EmptyString => false end.

(** [/a|b|.../.test(s)] *)
Definition test_any (alternatives : list (list pattern_item)) (s : string) : bool :=
  existsb (fun items => regex_test items s) alternatives.

(** A literal under the flag [i]. *)
Definition same_letter (c d : ascii) : bool := Ascii.eqb (ascii_to_lower c) (ascii_to_lower d).
Fixpoint ilit (s : string) : list pattern_item :=
  match s with
  | EmptyString => []
  | String c s' => one (same_letter c) :: ilit s'
  end.
(** [[abc]] and [.]: a class of characters, and any but a line end. *)
Definition one_of (cs : list ascii) (c : ascii) : bool := existsb (Ascii.eqb c) cs.
Definition any_char (c : ascii) : bool := negb (one_of ["010"; "013"]%char c).

(** ** Failures of a read *)
Inductive ReadFailure : Type :=
| ReadTimeoutError (timeoutMs : Z)
| HttpReadError (status : Z)
| OtherError (name message : string)
| NotAnError (text : string).

Inductive MetricFailureCategory : Type :=
| C_NONE | C_TIMEOUT | C_NETWORK | C_RATE_LIMIT | C_SERVER | C_INVALID_RESPONSE | C_CONFIGURATION | C_UNKNOWN.

#[export] Instance MetricFailureCategory_eq_dec : EqDecision MetricFailureCategory.
Proof. solve_decision. Defined.

Definition configuration_pattern : list (list pattern_item) :=
  [ilit "configuration"; ilit "wrong" ++ one (one_of ["_"; " "]%char) :: ilit "network";
   ilit "chain" ++ maybe (one_of ["_"; " "; "-"]%char) :: ilit "id"; ilit "manifest"; ilit "invalid address"].
Definition invalid_response_pattern : list (list pattern_item) :=
  [ilit "invalid"; ilit "malformed"; ilit "unexpected response"; ilit "json"].
Definition timeout_pattern : list (list pattern_item) := [ilit "timeout"; ilit "timed out"; ilit "aborterror"].
Definition rate_limit_pattern : list (list pattern_item) :=
  [ilit "429"; ilit "rate" ++ maybe any_char :: ilit "limit"; ilit "too many requests"].
Definition server_pattern : list (list pattern_item) :=
  [ilit "5" ++ [one is_digit; one is_digit]; ilit "server error"; ilit "bad gateway"; ilit "service unavailable";
   ilit "gateway timeout"].
Definition network_pattern : list (list pattern_item) :=
  [ilit "fetch"; ilit "network"; ilit "socket"; ilit "econn"; ilit "enotfound"; ilit "connection";
   ilit "http request failed"; ilit "request failed"; ilit "connection refused"; ilit "connection reset";
   ilit "temporarily unavailable"].

Definition classifyMessage (message : string) : MetricFailureCategory :=
  if test_any configuration_pattern message then C_CONFIGURATION
  else if test_any invalid_response_pattern message then C_INVALID_RESPONSE
  else if test_any timeout_pattern message then C_TIMEOUT
  else if test_any rate_limit_pattern message then C_RATE_LIMIT
  else if test_any server_pattern message then C_SERVER
  else if test_any network_pattern message then C_NETWORK
  else C_UNKNOWN.

Definition classifyReadFailure (error : ReadFailure) : MetricFailureCategory :=
  match error with
  | ReadTimeoutError _ => C_TIMEOUT
  | HttpReadError status =>
      if status =? 408 then C_TIMEOUT
      else if status =? 429 then C_RATE_LIMIT
      else if 500 <=? status then C_SERVER
      else C_CONFIGURATION
  | OtherError name message => classifyMessage (name +:+ ":" +:+ message)
  | NotAnError text => classifyMessage text
  end.

Definition isTransientReadFailure (error : ReadFailure) : bool :=
  existsb (fun c => bool_decide (c = classifyReadFailure error)) [C_TIMEOUT; C_NETWORK; C_RATE_LIMIT; C_SERVER].

(** ** Metrics *)
Inductive MetricOperation : Type :=
| RPC_HEALTH | DEPLOYMENT_HEALTH | ZAMA_HEALTH | DYNAMIC_HEALTH | HEALTH_CHECK | NETWORK_PREFLIGHT
| PUBLIC_BALANCE_READ | VAULT_READ | DEPLOYMENT_READ | PRIVATE_HANDLE_READ | FINANCIAL_WRITE_SUBMISSION.

Inductive MetricOutcome : Type := SUCCESS | FAILURE.

#[export] Instance MetricOperation_eq_dec : EqDecision MetricOperation.
Proof. solve_decision. Defined.
#[export] Instance MetricOutcome_eq_dec : EqDecision MetricOutcome.
Proof. solve_decision. Defined.

(** The key [`operation:outcome:category`] of an aggregate: the three spellings
    hold no colon, so the triple and the text name the same aggregate. *)
Definition MetricKey : Type := MetricOperation * MetricOutcome * MetricFailureCategory.

Record MetricAggregate := {
  ma_operation : MetricOperation;
  ma_outcome : MetricOutcome;
  ma_failureCategory : MetricFailureCategory;
  ma_count : Z;
  ma_totalDurationMs : Z;
  ma_maximumDurationMs : Z
}.

Definition MetricsState : Type := list (MetricKey * MetricAggregate).

(** A duration that is an integer, as the differences of [Date.now()] are, or
    not a finite number ([None]). *)
Definition boundedDuration (durationMs : option Z) : Z := Z.max 0 (Z.min 300000 (default 0 durationMs)).

Definition recordMetric (operation : MetricOperation) (outcome : MetricOutcome) (durationMs : option Z)
    (failureCategory : MetricFailureCategory) (state : MetricsState) : MetricsState :=
  let duration := boundedDuration durationMs in
  let category := match outcome with SUCCESS => C_NONE | FAILURE => failureCategory end in
  let key := (operation, outcome, category) in
  let current := map_get key state in
  map_set key {|
    ma_operation := operation;
    ma_outcome := outcome;
    ma_failureCategory := category;
    ma_count := default 0 (ma_count <$> current) + 1;
    ma_totalDurationMs := default 0 (ma_totalDurationMs <$> current) + duration;
    ma_maximumDurationMs := Z.max (default 0 (ma_maximumDurationMs <$> current)) duration
  |} state.

(** The spelling of a key, by which the snapshot is sorted. *)
Definition operation_text (operation : MetricOperation) : string :=
  match operation with
  | RPC_HEALTH => "RPC_HEALTH" | DEPLOYMENT_HEALTH => "DEPLOYMENT_HEALTH" | ZAMA_HEALTH => "ZAMA_HEALTH"
  | DYNAMIC_HEALTH => "DYNAMIC_HEALTH" | HEALTH_CHECK => "HEALTH_CHECK" | NETWORK_PREFLIGHT => "NETWORK_PREFLIGHT"
  | PUBLIC_BALANCE_READ => "PUBLIC_BALANCE_READ" | VAULT_READ => "VAULT_READ" | DEPLOYMENT_READ => "DEPLOYMENT_READ"
  | PRIVATE_HANDLE_READ => "PRIVATE_HANDLE_READ" | FINANCIAL_WRITE_SUBMISSION => "FINANCIAL_WRITE_SUBMISSION"
  end.
Definition category_text (category : MetricFailureCategory) : string :=
  match category with
  | C_NONE => "NONE" | C_TIMEOUT => "TIMEOUT" | C_NETWORK => "NETWORK" | C_RATE_LIMIT => "RATE_LIMIT" | C_SERVER => "SERVER"
  | C_INVALID_RESPONSE => "INVALID_RESPONSE" | C_CONFIGURATION => "CONFIGURATION" | C_UNKNOWN => "UNKNOWN"
  end.
Definition aggregate_text (a : MetricAggregate) : string :=
  join_char ":" [operation_text (ma_operation a); match ma_outcome a with SUCCESS => "SUCCESS" | FAILURE => "FAILURE" end;
                 category_text (ma_failureCategory a)].

(** [localeCompare] is the collation of the host, which the language leaves to it. *)
Definition getMetricSnapshot (localeCompare : string -> string -> Z) (state : MetricsState) : list MetricAggregate :=
  js_sort (fun left right => localeCompare (aggregate_text left) (aggregate_text right)) state.*2.
Definition resetMetricSnapshotForTests (_ : MetricsState) : MetricsState := [].

(** ** The retry loop *)
Definition DEFAULT_READ_TIMEOUT_MS : Z := 8000.
Definition DEFAULT_READ_MAX_ATTEMPTS : Z := 3.

(** The clock, whether the timer of an attempt fires before its read ends, and
    the pause of [await sleep(exponentialBackoffMs(...))]. *)
Class ReadRuntime (W : Type) := {
  Date_now : W -> Z * W;
  read_timed_out : Z -> W -> bool;
  backoff_sleep : Z -> W -> W
}.

Record ReadReliabilityOptions := {
  ro_operation : MetricOperation;
  ro_timeoutMs : option Z;
  ro_maxAttempts : option js_number;
  ro_shouldRetry : option (ReadFailure -> bool)
}.

Section Reads.
Context {W : Type} `{ReadRuntime W} {A : Type}.

(** The environment, the metrics, and the outcomes of the attempts so far. *)
Record ReadState := ReadStateOf {
  rs_world : W;
  rs_metrics : MetricsState;
  rs_outcomes : list (A + ReadFailure)
}.

(** One attempt: the race between the read and its timer, and its metric. *)
Definition readAttempt (read : Z -> W -> (A + ReadFailure) * W) (operation : MetricOperation) (timeoutMs : Z)
    (attempt : Z) (s : ReadState) : (A + ReadFailure) * ReadState :=
  let '(startedAt, w1) := Date_now (rs_world s) in
  let '(value, w2) := read attempt w1 in
  let outcome := if read_timed_out timeoutMs w2 then inr (ReadTimeoutError timeoutMs) else value in
  let '(ended, w3) := Date_now w2 in
  (outcome,
   {| rs_world := w3;
      rs_metrics :=
        match outcome with
        | inl _ => recordMetric operation SUCCESS (Some (ended - startedAt)) C_NONE (rs_metrics s)
        | inr error => recordMetric operation FAILURE (Some (ended - startedAt)) (classifyReadFailure error) (rs_metrics s)
        end;
      rs_outcomes := rs_outcomes s ++ [outcome] |}).

Definition sleep_before (attempt : Z) (s : ReadState) : ReadState :=
  {| rs_world := backoff_sleep attempt (rs_world s); rs_metrics := rs_metrics s; rs_outcomes := rs_outcomes s |}.

(** [for (let attempt = 1; attempt <= maxAttempts; attempt += 1)]; [left] counts
    the attempts that remain. *)
Fixpoint readLoop (left : nat) (read : Z -> W -> (A + ReadFailure) * W) (operation : MetricOperation)
    (timeoutMs maxAttempts : Z) (shouldRetry : ReadFailure -> bool) (attempt : Z) (s : ReadState)
    : (A + ReadFailure) * ReadState :=
  match left with
  | O => (inr (OtherError "Error" "READ_RETRY_EXHAUSTED"), s)
  | S left' =>
      let '(outcome, s') := readAttempt read operation timeoutMs attempt s in
      match outcome with
      | inl value => (inl value, s')
      | inr error =>
          if (maxAttempts <=? attempt) || negb (shouldRetry error) then (inr error, s')
          else readLoop left' read operation timeoutMs maxAttempts shouldRetry (attempt + 1) (sleep_before attempt s')
      end
  end.

Definition withReadReliability (read : Z -> W -> (A + ReadFailure) * W) (options : ReadReliabilityOptions)
    (s : ReadState) : (A + ReadFailure) * ReadState :=
  let timeoutMs := default DEFAULT_READ_TIMEOUT_MS (ro_timeoutMs options) in
  match default (JInt DEFAULT_READ_MAX_ATTEMPTS) (ro_maxAttempts options) with
  | JInt maxAttempts =>
      if (maxAttempts <? 1) || (DEFAULT_READ_MAX_ATTEMPTS <? maxAttempts)
      then (inr (OtherError "Error" "INVALID_READ_ATTEMPT_LIMIT"), s)
      else
        let shouldRetry := default isTransientReadFailure (ro_shouldRetry options) in
        readLoop (Z.to_nat maxAttempts) read (ro_operation options) timeoutMs maxAttempts shouldRetry 1 s
  | JNonInteger => (inr (OtherError "Error" "INVALID_READ_ATTEMPT_LIMIT"), s)
  end.

(** A financial write: one call, whatever it gives. *)
Definition submitFinancialWriteOnce (write : W -> (A + ReadFailure) * W) (s : ReadState)
    : (A + ReadFailure) * ReadState :=
  let '(startedAt, w1) := Date_now (rs_world s) in
  let '(outcome, w2) := write w1 in
  let '(ended, w3) := Date_now w2 in
  (outcome,
   {| rs_world := w3;
      rs_metrics :=
        match outcome with
        | inl _ => recordMetric FINANCIAL_WRITE_SUBMISSION SUCCESS (Some (ended - startedAt)) C_NONE (rs_metrics s)
        | inr error =>
            recordMetric FINANCIAL_WRITE_SUBMISSION FAILURE (Some (ended - startedAt)) (classifyReadFailure error)
              (rs_metrics s)
        end;
      rs_outcomes := rs_outcomes s ++ [outcome] |}).
End Reads.
Arguments ReadState : clear implicits.

(** * Properties *)

(** ** Literals of the patterns *)
Fixpoint same_text (t s : string) : bool :=
  match t, s with
  | EmptyString, EmptyString => true
  | String c t', String d s' => same_letter c d && same_text t' s'
  | _, _ => false
  end.

Lemma match_here_ilit t s :
  match_here (ilit t) s = true <-> exists a b, s = a +:+ b /\ same_text t a = true.
Proof.
  revert s; induction t as [|c t IH]; intros s; simpl.
  - split; [by exists "", s|done].
  - destruct s as [|d s].
    + split; [done|]. by intros ([|? ?] & b & ? & ?).
    + rewrite andb_true_iff, IH. split.
      * intros [Hc (a & b & -> & Ha)]. exists (String d a), b. simpl. by rewrite Hc, Ha.
      * intros ([|d' a] & b & E & Ha); simpl in *; [done|].
        injection E as -> ->. bool_to_prop. eauto 6.
Qed.

(** [regex_test] of a literal finds its occurrences, whatever the letters' case. *)
Lemma regex_test_ilit t s :
  regex_test (ilit t) s = true <-> exists l a r, s = l +:+ a +:+ r /\ same_text t a = true.
Proof.
  induction s as [|c s IH].
  - cbn [regex_test]. rewrite orb_false_r, match_here_ilit. split.
    + intros (a & b & E & Ha). by exists "", a, b.
    + intros ([|d0 l0] & a & r & E & Ha); [|done]. by exists a, r.
  - cbn [regex_test]. rewrite orb_true_iff, match_here_ilit, IH. split.
    + intros [(a & b & E & Ha)|(l & a & r & -> & Ha)]; [by exists "", a, b|by exists (String c l), a, r].
    + intros ([|d l] & a & r & E & Ha); [left; by exists a, r|right].
      injection E as _ E. by exists l, a, r.
Qed.

(** ** Metrics *)
Definition metric_count (state : MetricsState) : Z := foldr (fun e acc => ma_count e.2 + acc) 0 state.

Lemma metric_count_cons e (m : MetricsState) : metric_count (e :: m) = ma_count e.2 + metric_count m.
Proof. done. Qed.

Lemma metric_count_set k a (m : MetricsState) :
  metric_count (map_set k a m) = metric_count m - default 0 (ma_count <$> map_get k m) + ma_count a.
Proof.
  induction m as [|[k' b] m IH]; simpl; rewrite ?metric_count_cons; [unfold metric_count; simpl; lia|].
  destruct (decide (k = k')) as [->|].
  - rewrite metric_count_cons. simpl. lia.
  - rewrite metric_count_cons, IH. cbn [snd]. lia.
Qed.

(** Each recording counts once, whatever the aggregate. *)
Lemma recordMetric_counts op outcome d c m : metric_count (recordMetric op outcome d c m) = metric_count m + 1.
Proof.
  unfold recordMetric. cbv zeta. rewrite metric_count_set. cbn [ma_count].
  set (n := default 0 _). lia.
Qed.

(** The snapshot shows each aggregate once, in the order of the host, and counts what was
    recorded. *)
Lemma getMetricSnapshot_spec localeCompare state :
  Comparator localeCompare ->
  getMetricSnapshot localeCompare state ≡ₚ state.*2 /\
  StronglySorted (fun left right => localeCompare (aggregate_text left) (aggregate_text right) <= 0) (getMetricSnapshot localeCompare state) /\
  foldr (fun a acc => ma_count a + acc) 0 (getMetricSnapshot localeCompare state) = metric_count state.
Proof.
  intros [Ht Htr]. unfold getMetricSnapshot. set (cmp := fun left right => localeCompare (aggregate_text left) (aggregate_text right)).
  assert (Comparator cmp) by (split; unfold cmp; intros *; [apply Ht|apply Htr]).
  split_and!; [apply js_sort_Permutation|by apply js_sort_sorted|].
  assert (Hp : forall l l' : list MetricAggregate, l ≡ₚ l' -> foldr (fun a acc => ma_count a + acc) 0 l = foldr (fun a acc => ma_count a + acc) 0 l').
  { induction 1; cbn [foldr]; lia. }
  rewrite (Hp _ _ (js_sort_Permutation cmp state.*2)). clear. induction state as [|e state IH]; [done|].
  cbn [fmap list_fmap foldr]. unfold metric_count in *. cbn [foldr]. by rewrite <- IH.
Qed.

(** What holds of every aggregate: it is filed under its own key, a success has
    no failure category, and its durations are those of [ma_count] bounded ones. *)
Definition aggregate_ok (entry : MetricKey * MetricAggregate) : Prop :=
  let a := entry.2 in
  entry.1 = (ma_operation a, ma_outcome a, ma_failureCategory a) /\
  (ma_outcome a = SUCCESS -> ma_failureCategory a = C_NONE) /\
  1 <= ma_count a /\ 0 <= ma_maximumDurationMs a <= 300000 /\
  ma_maximumDurationMs a <= ma_totalDurationMs a <= ma_count a * ma_maximumDurationMs a.

Definition metrics_ok (m : MetricsState) : Prop := NoDup m.*1 /\ Forall aggregate_ok m.

Lemma map_set_Forall {K V} `{EqDecision K} (P : K * V -> Prop) k v (m : list (K * V)) :
  Forall P m -> (forall k', k = k' -> P (k', v)) -> Forall P (map_set k v m).
Proof.
  intros Hm Hv. induction Hm as [|[k' v'] m Hx Hm IH]; simpl; [constructor; auto|].
  destruct (decide (k = k')) as [->|]; constructor; auto.
Qed.

Lemma recordMetric_ok op outcome d c m : metrics_ok m -> metrics_ok (recordMetric op outcome d c m).
Proof.
  intros [Hn Ha]. unfold recordMetric. set (cat := match outcome with SUCCESS => C_NONE | FAILURE => c end).
  split; [by apply map_set_NoDup|]. apply map_set_Forall; [done|]. intros k' <-.
  assert (Hb : 0 <= boundedDuration d <= 300000) by (unfold boundedDuration; lia).
  unfold aggregate_ok. simpl. split; [done|]. split; [by intros ->|].
  destruct (map_get (op, outcome, cat) m) as [a|] eqn:E; simpl; [|lia].
  apply map_get_Some_elem in E. rewrite Forall_forall in Ha.
  destruct (Ha ((op, outcome, cat), a)) as (_ & _ & ? & ? & ?); [first [exact E|by apply list_elem_of_In]|].
  simpl in *. split; [lia|]. split; [lia|]. split; [lia|]. nia.
Qed.

(** ** Reads *)
Section read_properties.
Context {W : Type} `{ReadRuntime W} {A : Type}.
Implicit Types (s : ReadState W A) (read : Z -> W -> (A + ReadFailure) * W).

Lemma readAttempt_spec read op timeoutMs attempt s outcome s' :
  readAttempt read op timeoutMs attempt s = (outcome, s') ->
  rs_outcomes s' = rs_outcomes s ++ [outcome] /\
  metric_count (rs_metrics s') = metric_count (rs_metrics s) + 1 /\
  (metrics_ok (rs_metrics s) -> metrics_ok (rs_metrics s')).
Proof.
  unfold readAttempt. destruct (Date_now _) as [t0 w1], (read _ _) as [v w2], (Date_now w2) as [t1 w3].
  intros [= <- <-]. cbn [rs_outcomes rs_metrics]. split; [done|].
  destruct (if read_timed_out timeoutMs w2 then _ else v); split;
    first [apply recordMetric_counts|apply recordMetric_ok].
Qed.

(** The loop, from any attempt on. *)
Lemma readLoop_spec left read op timeoutMs maxAttempts shouldRetry attempt s outcome s' :
  Z.of_nat left = maxAttempts - attempt + 1 -> (0 < left)%nat ->
  readLoop left read op timeoutMs maxAttempts shouldRetry attempt s = (outcome, s') ->
  exists failed,
    rs_outcomes s' = rs_outcomes s ++ (inr <$> failed) ++ [outcome] /\
    attempt + Z.of_nat (length failed) <= maxAttempts /\
    Forall (fun e => shouldRetry e = true) failed /\
    (forall e, outcome = inr e -> shouldRetry e = false \/ attempt + Z.of_nat (length failed) = maxAttempts) /\
    metric_count (rs_metrics s') = metric_count (rs_metrics s) + Z.of_nat (length failed) + 1 /\
    (metrics_ok (rs_metrics s) -> metrics_ok (rs_metrics s')).
Proof.
  revert attempt s; induction left as [|left IH]; intros attempt s Hl H0 E; [lia|]. simpl in E.
  destruct (readAttempt _ _ _ _ _) as [o s1] eqn:Ea. apply readAttempt_spec in Ea as (Ho & Hm & Hok).
  destruct o as [v|e].
  - injection E as <- <-. exists []. simpl. rewrite Ho. split_and!; try done; try (by constructor); try lia.
  - destruct (Z.leb_spec maxAttempts attempt) as [Hmax|Hmax]; simpl in E.
    + injection E as <- <-. exists []. simpl. rewrite Ho. split_and!; try done; try (by constructor); try lia.
    + destruct (shouldRetry e) eqn:Er; simpl in E.
      * apply IH in E as (failed & Ho' & Hb & Hf & Hlast & Hm' & Hok'); [|lia|lia].
        cbn [sleep_before rs_outcomes rs_metrics] in *. exists (e :: failed). simpl. rewrite Ho', Ho, <- app_assoc.
        split_and!; try done; try (by constructor); try lia; [|auto].
        intros e' He'. destruct (Hlast e' He'); [by left|right; lia].
      * injection E as <- <-. exists []. simpl. rewrite Ho. split_and!; try done; try (by constructor); try lia. by left; simplify_eq.
Qed.

(** With the default limit there are at most three attempts. *)
Lemma withReadReliability_attempts read options s outcome s' :
  ro_maxAttempts options = None -> withReadReliability read options s = (outcome, s') ->
  (length (rs_outcomes s') <= length (rs_outcomes s) + 3)%nat.
Proof.
  unfold withReadReliability. intros -> E.
  change (readLoop 3 read (ro_operation options) (default DEFAULT_READ_TIMEOUT_MS (ro_timeoutMs options)) 3
    (default isTransientReadFailure (ro_shouldRetry options)) 1 s = (outcome, s')) in E.
  apply readLoop_spec in E as (failed & Ho & Hb & _); [|done|lia].
  rewrite Ho, !length_app, length_fmap. simpl. lia.
Qed.

(** A read is tried a bounded number of times.  Whatever the reads, the timer
    and the clock do: an attempt limit that is not an integer from 1 to 3 is
    refused before any read; otherwise the read is attempted at least once and
    at most the limit, only failures that may be retried are followed by another
    attempt, the outcome is that of the last attempt, a failure is final because
    it may not be retried or because the limit is reached, and every attempt is
    counted once in the metrics, whose aggregates stay consistent. *)
Theorem withReadReliability_bounded read options s outcome s' :
  withReadReliability read options s = (outcome, s') ->
  let limit := default (JInt DEFAULT_READ_MAX_ATTEMPTS) (ro_maxAttempts options) in
  let shouldRetry := default isTransientReadFailure (ro_shouldRetry options) in
  (outcome = inr (OtherError "Error" "INVALID_READ_ATTEMPT_LIMIT") /\ s' = s /\
   forall max, limit = JInt max -> ~ 1 <= max <= 3) \/
  exists max failed,
    limit = JInt max /\ 1 <= max <= 3 /\
    rs_outcomes s' = rs_outcomes s ++ (inr <$> failed) ++ [outcome] /\
    1 + Z.of_nat (length failed) <= max /\
    Forall (fun e => shouldRetry e = true) failed /\
    (forall e, outcome = inr e -> shouldRetry e = false \/ 1 + Z.of_nat (length failed) = max) /\
    metric_count (rs_metrics s') = metric_count (rs_metrics s) + Z.of_nat (length failed) + 1 /\
    (metrics_ok (rs_metrics s) -> metrics_ok (rs_metrics s')).
Proof.
  intros E limit shouldRetry. unfold withReadReliability in E. fold limit in E. destruct limit as [max|] eqn:El.
  - destruct ((max <? 1) || (DEFAULT_READ_MAX_ATTEMPTS <? max)) eqn:Eg.
    + injection E as <- <-. left. split_and!; try done. intros ? [= <-]. unfold DEFAULT_READ_MAX_ATTEMPTS in Eg.
      bool_to_prop. destruct Eg; bool_to_prop; lia.
    + unfold DEFAULT_READ_MAX_ATTEMPTS in Eg. bool_to_prop. right. exists max.
      apply readLoop_spec in E as (failed & HH); [|lia|lia]. exists failed. destruct HH as (HA & HB & HC & HD & HE & HF).
      split_and!; try done; lia.
  - injection E as <- <-. left. by split_and!.
Qed.

(** A financial write is submitted once: one call, its outcome passed on
    whatever it is, and one metric. *)
Theorem submitFinancialWriteOnce_once (write : W -> (A + ReadFailure) * W) s outcome s' :
  submitFinancialWriteOnce write s = (outcome, s') ->
  rs_outcomes s' = rs_outcomes s ++ [outcome] /\
  (exists w w', write w = (outcome, w')) /\
  metric_count (rs_metrics s') = metric_count (rs_metrics s) + 1.
Proof.
  unfold submitFinancialWriteOnce. destruct (Date_now _) as [t0 w1], (write w1) as [v w2] eqn:Ew, (Date_now w2) as [t1 w3].
  intros [= <- <-]. cbn [rs_outcomes rs_metrics]. split; [done|]. split; [eauto|].
  destruct v; apply recordMetric_counts.
Qed.
End read_properties.

(** * Concrete instances: a clock that counts, and reads that fail twice *)
#[local] Instance counting_runtime : ReadRuntime Z := {|
  Date_now := fun w => (w, w + 1);
  read_timed_out := fun _ _ => false;
  backoff_sleep := fun _ w => w + 100
|}.

Definition flaky_read (attempt : Z) (w : Z) : (string + ReadFailure) * Z :=
  (if attempt <? 3 then inr (OtherError "TypeError" "Fetch failed") else inl "ready", w + 5).

Definition flaky_options : ReadReliabilityOptions :=
  {| ro_operation := RPC_HEALTH; ro_timeoutMs := Some 100; ro_maxAttempts := None; ro_shouldRetry := None |}.

Lemma withReadReliability_bounded_witness :
  exists failed, length failed = 2%nat /\
    rs_outcomes (withReadReliability flaky_read flaky_options (ReadStateOf 0 [] [])).2 = (inr <$> failed) ++ [inl "ready"].
Proof.
  destruct (withReadReliability_bounded flaky_read flaky_options (ReadStateOf 0 [] []) (inl "ready")
    (withReadReliability flaky_read flaky_options (ReadStateOf 0 [] [])).2) as [(E & _)|(max & failed & Hmax & H)].
  - vm_compute. reflexivity.
  - discriminate E.
  - destruct H as (_ & Ho & _). exists failed. split; [|exact Ho].
    apply (f_equal length) in Ho. rewrite !length_app, length_fmap in Ho. vm_compute (length (rs_outcomes _)) in Ho.
    simpl in Ho. lia.
Defined.

Lemma submitFinancialWriteOnce_once_witness :
  metric_count (rs_metrics (submitFinancialWriteOnce (flaky_read 1) (ReadStateOf 0 [] [])).2) = 1.
Proof.
  destruct (submitFinancialWriteOnce_once (flaky_read 1) (ReadStateOf 0 [] [])
    (inr (OtherError "TypeError" "Fetch failed")) (submitFinancialWriteOnce (flaky_read 1) (ReadStateOf 0 [] [])).2)
    as (_ & _ & E); [vm_compute; reflexivity|]. exact E.
Defined.
