(* ===== verification/NetworkHealth.v ===== *)
(** * The financial network preflight: frontend/lib/leopold/network.ts

    The read-only check that must be healthy before a financial transaction:
    the wallets agree, the wallet's own connection and the application's are on
    Sepolia and answer.  Requests go through [withReadReliability]; what the two
    clients answer is the environment.  The text of a failure
    ([sanitizeTechnicalDetail] of errors.ts) decides nothing here and is a
    parameter. *)
From Stdlib Require Import ZArith Lia Ascii.
From stdpp Require Import base option list strings.
From S2P Require Import Prelude WalletSession Reliability.
Local Open Scope Z_scope.

Definition FINANCIAL_NETWORK_HEALTH_CACHE_TTL_MS : Z := 5000.
Definition FINANCIAL_NETWORK_PROBE_TIMEOUT_MS : Z := 10000.

Inductive FinancialNetworkHealthState : Type :=
| F_IDLE | F_CHECKING | F_HEALTHY | F_WRONG_NETWORK | F_APP_RPC_UNAVAILABLE | F_WALLET_RPC_UNAVAILABLE
| F_WALLET_DISCONNECTED | F_WALLET_MISMATCH | F_UNKNOWN.

#[export] Instance FinancialNetworkHealthState_eq_dec : EqDecision FinancialNetworkHealthState.
Proof. solve_decision. Defined.

Record FinancialNetworkHealth := {
  fh_state : FinancialNetworkHealthState;
  fh_backgroundChecking : bool;
  fh_checkedAt : option Z;
  fh_dynamicWalletChainId : option Z;
  fh_walletClientChainId : option Z;
  fh_appChainId : option Z;
  fh_technicalDetail : option string
}.

(** What a client answers: a value of unknown type. *)
Inductive rpc_value : Type :=
| RpcNumber (n : js_number)
| RpcBigint (z : Z)
| RpcString (s : string)
| RpcOther.

Inductive RpcClient : Type := WalletClient | PublicClient.

Record FinancialNetworkPreflightInput := {
  fi_activeAccount : option string;
  fi_financialWallet : option string;
  fi_connectedWallet : option string;
  fi_activeWallet : option string;
  fi_walletClientAccount : option string;
  fi_walletClient : bool;
  fi_publicClient : bool;
  fi_dynamicWalletChainId : option Z;
  fi_timeoutMs : option Z
}.

(** [/^(?:\d+|0x[\da-f]+)$/iu] and [/^0x[\da-f]+$/iu] *)
Definition matches_0x (s : string) : bool :=
  match s with
  | String "0" (String x body) =>
      (Ascii.eqb x "x" || Ascii.eqb x "X")%char && string_nonempty body && string_forall is_hex_digit body
  | _ => false
  end.

(** [Number(value)] of such a string: below 2^53 it is exact. *)
Definition Number_of_quantity (value : string) : Z :=
  if matches_digits value then match BigInt_of_digits value with Ok z => z | Throw _ => 0 end
  else match value with String _ (String _ body) => hex_value 0 body | _ => 0 end.

Definition normalizeNetworkChainId (value : rpc_value) : option Z :=
  match value with
  | RpcNumber (JInt z) => if (z <=? MAX_SAFE_INTEGER) && (0 <? z) then Some z else None
  | RpcNumber JNonInteger => None
  | RpcBigint z => if (0 <? z) && (z <=? MAX_SAFE_INTEGER) then Some z else None
  | RpcString s =>
      if matches_digits s || matches_0x s then
        let parsed := Number_of_quantity s in
        if (parsed <=? MAX_SAFE_INTEGER) && (0 <? parsed) then Some parsed else None
      else None
  | RpcOther => None
  end.

Definition isRpcQuantity (value : rpc_value) : bool :=
  match value with RpcString s => matches_0x s | _ => false end.

(** [addressesMatch]: all present, all equal to the first up to letter case. *)
Definition addressesMatch (addresses : list (option string)) : bool :=
  let normalized : list (option string) := map (fun address => toLowerCase <$> address) addresses in
  forallb (fun address : option string => bool_decide (address <> None) && bool_decide (address = mjoin (head normalized))) normalized.

Definition getPublicReadAccount (financialWallet connectedWallet : option string) : option string :=
  match financialWallet with Some w => Some w | None => connectedWallet end.

Definition join_key (parts : list (option string)) : string := join_char "|" (default "" <$> parts).

Definition getFinancialNetworkHealthKey (activeAccount financialWallet connectedWallet activeWallet
    walletClientAccount walletClientId : option string) (dynamicWalletChainId wagmiAccountChainId : option Z) : string :=
  join_key [activeAccount; financialWallet; connectedWallet; activeWallet; walletClientAccount; walletClientId;
            Z_toString <$> dynamicWalletChainId; Z_toString <$> wagmiAccountChainId].

Section Preflight.
Context {W : Type} `{ReadRuntime W}.

(** What a client answers to a request: its method and its account parameter. *)
Context (rpc : RpcClient -> string -> option string -> W -> (rpc_value + ReadFailure) * W).
Context (sanitizeTechnicalDetail : ReadFailure -> string).
Context (now : W -> Z).

Definition PState : Type := ReadState W rpc_value.

Definition health_result (state : FinancialNetworkHealthState) (input : FinancialNetworkPreflightInput)
    (walletClientChainId appChainId : option Z) (technicalDetail : option string) (s : PState)
    : FinancialNetworkHealth :=
  {| fh_state := state;
     fh_backgroundChecking := false;
     fh_checkedAt := Some (now (rs_world s));
     fh_dynamicWalletChainId := fi_dynamicWalletChainId input;
     fh_walletClientChainId := walletClientChainId;
     fh_appChainId := appChainId;
     fh_technicalDetail := technicalDetail |}.

Definition request (client : RpcClient) (rpc_method : string) (account : option string) (timeoutMs : option Z)
    : PState -> (rpc_value + ReadFailure) * PState :=
  withReadReliability (fun _ => rpc client rpc_method account)
    {| ro_operation := NETWORK_PREFLIGHT;
       ro_timeoutMs := Some (default FINANCIAL_NETWORK_PROBE_TIMEOUT_MS timeoutMs);
       ro_maxAttempts := None; ro_shouldRetry := None |}.

Definition new_failure (message : string) : ReadFailure := OtherError "Error" message.

(** The application's probe: its chain, then its block number. *)
Definition appProbe (input : FinancialNetworkPreflightInput) (s : PState) : (Z + ReadFailure) * PState :=
  if negb (fi_publicClient input) then (inr (new_failure "APP_RPC_UNAVAILABLE:public-client-missing"), s)
  else
    match request PublicClient "eth_chainId" None (fi_timeoutMs input) s with
    | (inr error, s1) => (inr error, s1)
    | (inl answer, s1) =>
        let appChainId := normalizeNetworkChainId answer in
        if negb (bool_decide (appChainId = Some LEOPOLD_CHAIN_ID)) then
          (inr (new_failure ("APP_RPC_UNAVAILABLE:chain-" +:+ default "unknown" (Z_toString <$> appChainId))), s1)
        else
          match request PublicClient "eth_blockNumber" None (fi_timeoutMs input) s1 with
          | (inr error, s2) => (inr error, s2)
          | (inl blockNumber, s2) =>
              if negb (isRpcQuantity blockNumber) then (inr (new_failure "APP_RPC_UNAVAILABLE:invalid-block-number"), s2)
              else (inl LEOPOLD_CHAIN_ID, s2)
          end
    end.

(** The wallet's probe: the nonce of the financial wallet. *)
Definition walletProbe (input : FinancialNetworkPreflightInput) (s : PState) : option ReadFailure * PState :=
  match request WalletClient "eth_getTransactionCount" (fi_financialWallet input) (fi_timeoutMs input) s with
  | (inr error, s1) => (Some error, s1)
  | (inl nonce, s1) =>
      (if negb (isRpcQuantity nonce) then Some (new_failure "WALLET_RPC_UNAVAILABLE:invalid-nonce") else None, s1)
  end.

(** [Promise.allSettled] of both probes, and the verdict. *)
Definition probes (input : FinancialNetworkPreflightInput) (walletClientChainId : option Z) (s : PState)
    : FinancialNetworkHealth * PState :=
  let '(app, s1) := appProbe input s in
  let '(walletError, s2) := walletProbe input s1 in
  match walletError with
  | Some error =>
      let appDetail := match app with
                       | inr appError => " App RPC: " +:+ sanitizeTechnicalDetail appError
                       | inl _ => "" end in
      (health_result F_WALLET_RPC_UNAVAILABLE input walletClientChainId None
         (Some (slice0 1200 (sanitizeTechnicalDetail error +:+ appDetail))) s2, s2)
  | None =>
      match app with
      | inr appError =>
          (health_result F_APP_RPC_UNAVAILABLE input walletClientChainId None
             (Some (sanitizeTechnicalDetail appError)) s2, s2)
      | inl appChainId => (health_result F_HEALTHY input walletClientChainId (Some appChainId) None s2, s2)
      end
  end.

Definition runFinancialNetworkPreflight (input : FinancialNetworkPreflightInput) (s : PState)
    : FinancialNetworkHealth * PState :=
  match fi_activeAccount input with
  | None | Some EmptyString => (health_result F_WALLET_DISCONNECTED input None None None s, s)
  | Some _ =>
      if negb (addressesMatch [fi_financialWallet input; fi_connectedWallet input; fi_activeWallet input;
                               fi_activeAccount input; fi_walletClientAccount input])
      then (health_result F_WALLET_MISMATCH input None None None s, s)
      else if bool_decide (fi_dynamicWalletChainId input <> None)
              && negb (bool_decide (fi_dynamicWalletChainId input = Some LEOPOLD_CHAIN_ID))
      then (health_result F_WRONG_NETWORK input (fi_dynamicWalletChainId input) None None s, s)
      else if negb (fi_walletClient input) || negb (bool_decide (default "" (fi_walletClientAccount input) <> ""))
      then (health_result F_WALLET_DISCONNECTED input None None None s, s)
      else
        match request WalletClient "eth_chainId" None (fi_timeoutMs input) s with
        | (inr error, s1) =>
            (health_result F_WALLET_RPC_UNAVAILABLE input None None (Some (sanitizeTechnicalDetail error)) s1, s1)
        | (inl answer, s1) =>
            match normalizeNetworkChainId answer with
            | None =>
                (health_result F_UNKNOWN input None None
                   (Some "The wallet provider returned an invalid eth_chainId response.") s1, s1)
            | Some walletClientChainId =>
                if negb (walletClientChainId =? LEOPOLD_CHAIN_ID)
                then (health_result F_WRONG_NETWORK input (Some walletClientChainId) None None s1, s1)
                else probes input (Some walletClientChainId) s1
            end
        end
  end.
End Preflight.

Definition createIdleFinancialNetworkHealth : FinancialNetworkHealth :=
  {| fh_state := F_IDLE; fh_backgroundChecking := false; fh_checkedAt := None; fh_dynamicWalletChainId := None;
     fh_walletClientChainId := None; fh_appChainId := None; fh_technicalDetail := None |}.

Definition isFinancialNetworkHealthFresh (cached : option (string * FinancialNetworkHealth)) (key : string) (now : Z) : bool :=
  match cached with
  | None => false
  | Some (cached_key, health) =>
      bool_decide (cached_key = key) &&
      match fh_checkedAt health with
      | None => false
      | Some checkedAt => now - checkedAt <? FINANCIAL_NETWORK_HEALTH_CACHE_TTL_MS
      end
  end.

Inductive FinancialNetworkCheckMode : Type := M_auto | M_background | M_write | M_retry.

Definition beginFinancialNetworkCheck (current : FinancialNetworkHealth) (mode : FinancialNetworkCheckMode)
    : FinancialNetworkHealth :=
  let preserveHealthy :=
    bool_decide (fh_state current = F_HEALTHY) && match mode with M_background | M_write => true | _ => false end in
  {| fh_state := if preserveHealthy then F_HEALTHY else F_CHECKING;
     fh_backgroundChecking := preserveHealthy;
     fh_checkedAt := fh_checkedAt current;
     fh_dynamicWalletChainId := fh_dynamicWalletChainId current;
     fh_walletClientChainId := fh_walletClientChainId current;
     fh_appChainId := fh_appChainId current;
     fh_technicalDetail := if preserveHealthy then fh_technicalDetail current else None |}.

Definition financialWritesAllowed (health : FinancialNetworkHealth) : bool := bool_decide (fh_state health = F_HEALTHY).

(** [new Set(actual).size > 1] *)
Fixpoint distinct (xs : list Z) : list Z :=
  match xs with
  | [] => []
  | x :: xs' => if existsb (Z.eqb x) xs' then distinct xs' else x :: distinct xs'
  end.

Definition getFinancialNetworkStatus (connected : bool) (dynamicWalletChainId walletClientChainId : option Z)
    : FinancialNetworkHealthState :=
  if negb connected then F_WALLET_DISCONNECTED
  else
    let actual := filter_map id [dynamicWalletChainId; walletClientChainId] in
    match actual with
    | [] => F_CHECKING
    | _ =>
        if existsb (fun value => negb (value =? LEOPOLD_CHAIN_ID)) actual then F_WRONG_NETWORK
        else if (1 <? length (distinct actual))%nat then F_WALLET_MISMATCH
        else F_HEALTHY
    end.

(** * Properties *)

Lemma addressesMatch_iff first rest :
  addressesMatch (first :: rest) = true <->
  exists a, toLowerCase <$> first = Some a /\ Forall (fun o => toLowerCase <$> o = Some a) rest.
Proof.
  set (low := fun o : option string => toLowerCase <$> o).
  assert (Hu : addressesMatch (first :: rest) =
    forallb (fun o => bool_decide (o <> None) && bool_decide (o = low first)) (low first :: map low rest)) by done.
  rewrite Hu. cbn [forallb]. rewrite andb_true_iff, forallb_forall.
  change (toLowerCase <$> first) with (low first). destruct (low first) as [a|] eqn:Ea;
    [|split; [intros [Hb _]; bool_to_prop; congruence|by intros (? & ? & _)]].
  rewrite !bool_decide_true by done. split.
  - intros [_ Hall]. exists a. split; [done|]. apply Forall_forall. intros o Ho.
    assert (Hin : In (low o) (map low rest)) by (apply in_map; first [exact Ho|by apply list_elem_of_In]).
    specialize (Hall _ Hin). bool_to_prop. done.
  - intros (a' & [= <-] & Hr). split; [done|]. intros x Hx. apply in_map_iff in Hx as (o & <- & Ho).
    rewrite Forall_forall in Hr. unfold low. rewrite (Hr o) by first [exact Ho|by apply list_elem_of_In].
    by rewrite !bool_decide_true.
Qed.

Section properties.
Context {W : Type} `{ReadRuntime W}.
Context (rpc : RpcClient -> string -> option string -> W -> (rpc_value + ReadFailure) * W).
Context (sanitizeTechnicalDetail : ReadFailure -> string) (now : W -> Z).

Notation run_preflight := (runFinancialNetworkPreflight rpc sanitizeTechnicalDetail now).
Notation req := (request rpc).

(** The wallets a preflight accepts: all five are one address. *)
Definition wallets_agree (input : FinancialNetworkPreflightInput) : Prop :=
  exists a, a <> "" /\
    Forall (fun o => toLowerCase <$> o = Some a)
      [fi_financialWallet input; fi_connectedWallet input; fi_activeWallet input; fi_activeAccount input;
       fi_walletClientAccount input].

(** The answers a healthy preflight got, each to its own request, in order. *)
Definition healthy_answers (input : FinancialNetworkPreflightInput) (s s' : PState (W := W)) : Prop :=
  exists chain s1 appChain s2 block s3 nonce,
    req WalletClient "eth_chainId" None (fi_timeoutMs input) s = (inl chain, s1) /\
    normalizeNetworkChainId chain = Some LEOPOLD_CHAIN_ID /\
    req PublicClient "eth_chainId" None (fi_timeoutMs input) s1 = (inl appChain, s2) /\
    normalizeNetworkChainId appChain = Some LEOPOLD_CHAIN_ID /\
    req PublicClient "eth_blockNumber" None (fi_timeoutMs input) s2 = (inl block, s3) /\
    isRpcQuantity block = true /\
    req WalletClient "eth_getTransactionCount" (fi_financialWallet input) (fi_timeoutMs input) s3 = (inl nonce, s') /\
    isRpcQuantity nonce = true.

Lemma appProbe_inl input s v s3 :
  appProbe rpc input s = (inl v, s3) <->
  v = LEOPOLD_CHAIN_ID /\ fi_publicClient input = true /\
  exists appChain s2 block,
    req PublicClient "eth_chainId" None (fi_timeoutMs input) s = (inl appChain, s2) /\
    normalizeNetworkChainId appChain = Some LEOPOLD_CHAIN_ID /\
    req PublicClient "eth_blockNumber" None (fi_timeoutMs input) s2 = (inl block, s3) /\
    isRpcQuantity block = true.
Proof.
  unfold appProbe. destruct (fi_publicClient input); simpl; [|naive_solver].
  destruct (req PublicClient "eth_chainId" _ _ s) as [[appChain|e1] s2]; [|naive_solver].
  case_bool_decide; simpl; [|split; [done|]; intros (_ & _ & ? & ? & ? & [= <- <-] & ? & _); done].
  destruct (req PublicClient "eth_blockNumber" _ _ s2) as [[block|e2] s4] eqn:E.
  2: { split; [done|]. intros (_ & _ & ? & ? & ? & [= <- <-] & _ & ? & _). congruence. }
  destruct (isRpcQuantity block) eqn:Eq; simpl.
  2: { split; [done|]. intros (_ & _ & ? & ? & ? & [= <- <-] & _ & E' & ?). congruence. }
  split; [intros [= <- <-]; eauto 10|]. intros (-> & _ & ? & ? & ? & [= <- <-] & _ & E' & _). congruence.
Qed.

Lemma walletProbe_None input s s' :
  walletProbe rpc input s = (None, s') <->
  exists nonce,
    req WalletClient "eth_getTransactionCount" (fi_financialWallet input) (fi_timeoutMs input) s = (inl nonce, s') /\
    isRpcQuantity nonce = true.
Proof.
  unfold walletProbe. destruct (req WalletClient _ _ _ s) as [[nonce|e] s1]; [|naive_solver].
  destruct (isRpcQuantity nonce) eqn:Eq; simpl; (split; [intros [=]; subst; eauto|]);
    intros (? & [= <- <-] & ?); congruence.
Qed.

(** The probes are healthy exactly when both succeed. *)
Lemma probes_healthy input chain s h s' :
  probes rpc sanitizeTechnicalDetail now input chain s = (h, s') ->
  fh_state h = F_HEALTHY <->
  exists s3, appProbe rpc input s = (inl LEOPOLD_CHAIN_ID, s3) /\ walletProbe rpc input s3 = (None, s').
Proof.
  unfold probes. intros E. destruct (appProbe rpc input s) as [[v|e1] s3] eqn:Ea;
    destruct (walletProbe rpc input s3) as [[e2|] s4] eqn:Ew; injection E as <- <-; simpl;
    try (by split; [done|]; intros (? & [=] & _)).
  1: by split; [done|]; intros (? & [= _ <-] & Hw); congruence.
  1: apply appProbe_inl in Ea as (-> & _); split; [eauto|done].
Qed.

Lemma wallets_agree_iff input :
  wallets_agree input <->
  (exists c a, fi_activeAccount input = Some (String c a)) /\
  addressesMatch [fi_financialWallet input; fi_connectedWallet input; fi_activeWallet input;
                  fi_activeAccount input; fi_walletClientAccount input] = true.
Proof.
  unfold wallets_agree. rewrite addressesMatch_iff. setoid_rewrite Forall_cons at 1. split.
  - intros (a & Ha & Hf & Hall). split; [|by exists a].
    rewrite !Forall_cons in Hall. destruct Hall as (_ & _ & Hact & _).
    destruct (fi_activeAccount input) as [[|c t]|]; simpl in Hact; [congruence|eauto|done].
  - intros ((c & t & Ht) & a & Hf & Hall). exists a. split; [|done].
    rewrite !Forall_cons in Hall. destruct Hall as (_ & _ & Hact & _). rewrite Ht in Hact. by intros ->.
Qed.

(** The signing account of wallets that agree is present. *)
Lemma wallets_agree_signer input :
  wallets_agree input -> bool_decide (default "" (fi_walletClientAccount input) <> "") = true.
Proof.
  intros (a & Ha & Hall). rewrite !Forall_cons in Hall. destruct Hall as (_ & _ & _ & _ & Hs & _).
  apply bool_decide_eq_true. destruct (fi_walletClientAccount input) as [[|c t]|]; simpl in Hs; [congruence|done|done].
Qed.

(** A healthy network is one that was seen healthy.  The preflight ends
    [HEALTHY] exactly when: an account is active and the financial, connected,
    active and signing wallets are all that one address; the wallet's reported
    chain, if any, is Sepolia; and, asked in this order, the wallet's own client
    answered that it is on Sepolia, the application's client that it is, with a
    block number, and the wallet's client the nonce of the financial wallet. *)
Theorem preflight_healthy input s h s' :
  run_preflight input s = (h, s') ->
  fh_state h = F_HEALTHY <->
  wallets_agree input /\
  (fi_dynamicWalletChainId input = None \/ fi_dynamicWalletChainId input = Some LEOPOLD_CHAIN_ID) /\
  fi_walletClient input = true /\ fi_publicClient input = true /\ healthy_answers input s s'.
Proof.
  intros E. unfold runFinancialNetworkPreflight in E.
  destruct (fi_activeAccount input) as [[|c t]|] eqn:Eact.
  1, 3: injection E as <- <-; split; [done|]; intros (Hw & _); apply wallets_agree_iff in Hw as ((? & ? & ?) & _); congruence.
  rewrite <- Eact in E.
  assert (Hw : wallets_agree input <-> addressesMatch [fi_financialWallet input; fi_connectedWallet input;
    fi_activeWallet input; fi_activeAccount input; fi_walletClientAccount input] = true).
  { rewrite wallets_agree_iff. naive_solver. }
  destruct (addressesMatch _); cbn [negb] in E; [|injection E as <- <-; split; [done|]; intros (Hx & _); by apply Hw in Hx].
  assert (Hag : wallets_agree input) by by apply Hw. rewrite (wallets_agree_signer _ Hag) in E. clear Hw.
  destruct (decide (fi_dynamicWalletChainId input = None \/ fi_dynamicWalletChainId input = Some LEOPOLD_CHAIN_ID)) as [Hd|Hd].
  2: { rewrite bool_decide_true, bool_decide_false in E by naive_solver. injection E as <- <-.
       split; [done|]. by intros (_ & Hx & _). }
  replace (_ && _) with false in E
    by (symmetry; destruct Hd as [->| ->]; [by rewrite bool_decide_false by naive_solver|by rewrite (bool_decide_true (Some _ = _))]).
  destruct (fi_walletClient input); cbn [negb orb] in E; [|injection E as <- <-; split; [done|]; by intros (_ & _ & Hx & _)].
  destruct (req WalletClient "eth_chainId" _ _ s) as [[chain|e1] s1] eqn:Ec.
  2: { injection E as <- <-. split; [done|]. intros (_ & _ & _ & _ & (? & ? & ? & ? & ? & ? & ? & Hx & _)). congruence. }
  destruct (normalizeNetworkChainId chain) as [id|] eqn:En.
  2: { injection E as <- <-. split; [done|].
       intros (_ & _ & _ & _ & (? & ? & ? & ? & ? & ? & ? & Hx & Hy & _)). rewrite Ec in Hx. congruence. }
  destruct (Z.eqb_spec id LEOPOLD_CHAIN_ID) as [->|Hid]; cbn [negb] in E.
  2: { injection E as <- <-. split; [done|].
       intros (_ & _ & _ & _ & (? & ? & ? & ? & ? & ? & ? & Hx & Hy & _)). rewrite Ec in Hx. congruence. }
  rewrite (probes_healthy _ _ _ _ _ E). setoid_rewrite appProbe_inl. setoid_rewrite walletProbe_None.
  unfold healthy_answers. split.
  - intros (s3 & (_ & Hp & answer & s2 & block & H1 & H2 & H3 & H4) & nonce & H5 & H6).
    split_and!; try done. by exists chain, s1, answer, s2, block, s3, nonce.
  - intros (_ & _ & _ & Hp & chain' & s1' & answer & s2 & block & s3 & nonce & H0 & _ & H1 & H2 & H3 & H4 & H5 & H6).
    rewrite Ec in H0. injection H0 as <- <-. exists s3. split; [|by exists nonce].
    split_and!; try done. by exists answer, s2, block.
Qed.

(** The preflight ends: whatever the clients and timers do, it makes at most
    twelve requests (four, each attempted at most three times). *)
Theorem preflight_bounded input s h s' :
  run_preflight input s = (h, s') -> (length (rs_outcomes s') <= length (rs_outcomes s) + 12)%nat.
Proof.
  assert (Hreq : forall client rpc_method account t s1 o s2, req client rpc_method account t s1 = (o, s2) ->
    (length (rs_outcomes s2) <= length (rs_outcomes s1) + 3)%nat).
  { intros client rpc_method account t s1 o s2. by apply withReadReliability_attempts. }
  intros E. unfold runFinancialNetworkPreflight, probes, appProbe, walletProbe in E.
  repeat case_match; simplify_eq; try lia;
    repeat match goal with Hr : req _ _ _ _ _ = _ |- _ => apply Hreq in Hr end; lia.
Qed.
End properties.

(** A check that begins keeps financial writes open only in the background of a
    healthy state; it keeps the time of the last result. *)
Lemma beginFinancialNetworkCheck_writes current mode :
  financialWritesAllowed (beginFinancialNetworkCheck current mode) =
    (financialWritesAllowed current && match mode with M_background | M_write => true | _ => false end) /\
  fh_checkedAt (beginFinancialNetworkCheck current mode) = fh_checkedAt current.
Proof. destruct current as [[] ? ? ? ? ? ?], mode; done. Qed.

(** The chain-only status reports no mismatch.  [getFinancialNetworkStatus]
    never gives [WALLET_MISMATCH]: two different chains cannot both be Sepolia,
    so the earlier test for a wrong network already caught them. *)
Theorem getFinancialNetworkStatus_no_mismatch connected dynamicChain clientChain :
  getFinancialNetworkStatus connected dynamicChain clientChain <> F_WALLET_MISMATCH /\
  (getFinancialNetworkStatus connected dynamicChain clientChain = F_HEALTHY <->
   connected = true /\ ~ (dynamicChain = None /\ clientChain = None) /\
   (dynamicChain = None \/ dynamicChain = Some LEOPOLD_CHAIN_ID) /\
   (clientChain = None \/ clientChain = Some LEOPOLD_CHAIN_ID)).
Proof.
  unfold getFinancialNetworkStatus. destruct connected; cbn [negb]; [|naive_solver].
  destruct dynamicChain as [d|], clientChain as [c|]; cbn [filter_map omap list_omap id existsb].
  - destruct (Z.eqb_spec d LEOPOLD_CHAIN_ID) as [->|]; cbn [negb orb]; [|naive_solver].
    destruct (Z.eqb_spec c LEOPOLD_CHAIN_ID) as [->|]; cbn [negb orb]; [|naive_solver].
    vm_compute. naive_solver.
  - destruct (Z.eqb_spec d LEOPOLD_CHAIN_ID) as [->|]; cbn [negb orb]; naive_solver.
  - destruct (Z.eqb_spec c LEOPOLD_CHAIN_ID) as [->|]; cbn [negb orb]; naive_solver.
  - naive_solver.
Qed.

(** * Concrete instances: clients that answer in order, on a clock that counts *)
#[local] Instance clock_runtime : ReadRuntime Z := {|
  Date_now := fun w => (w, w + 1);
  read_timed_out := fun _ _ => false;
  backoff_sleep := fun _ w => w + 100
|}.

Definition sample_rpc (client : RpcClient) (rpc_method : string) (account : option string) (w : Z)
    : (rpc_value + ReadFailure) * Z :=
  (inl (if bool_decide (rpc_method = "eth_chainId") then RpcString "0xaa36a7" else RpcString "0x10"), w + 1).

Definition sample_preflight_input : FinancialNetworkPreflightInput :=
  {| fi_activeAccount := Some "0xAb"; fi_financialWallet := Some "0xab"; fi_connectedWallet := Some "0xAB";
     fi_activeWallet := Some "0xab"; fi_walletClientAccount := Some "0xab"; fi_walletClient := true;
     fi_publicClient := true; fi_dynamicWalletChainId := None; fi_timeoutMs := None |}.

Definition sample_health := runFinancialNetworkPreflight sample_rpc (fun _ => "") id sample_preflight_input (ReadStateOf 0 [] []).

Lemma preflight_healthy_witness : wallets_agree sample_preflight_input.
Proof.
  assert (Hh : fh_state sample_health.1 = F_HEALTHY) by (vm_compute; reflexivity).
  apply (preflight_healthy sample_rpc (fun _ => "") id sample_preflight_input (ReadStateOf 0 [] [])
           sample_health.1 sample_health.2) in Hh; [exact (proj1 Hh)|exact (surjective_pairing sample_health)].
Defined.

Lemma preflight_bounded_witness : (length (rs_outcomes sample_health.2) <= 12)%nat.
Proof.
  apply (preflight_bounded sample_rpc (fun _ => "") id sample_preflight_input (ReadStateOf 0 [] []) sample_health.1).
  vm_compute. reflexivity.
Defined.
