(* ===== verification/KeeperConfig.v ===== *)
(** * The keeper's configuration and start: keeper/src/config.ts,
    keeper/src/manifest.ts, keeper/src/public-proof.ts and keeper/src/cli.ts

    The environment is a map from variable names to texts, the manifest a record
    of the fields the schema reads.  Conversions of texts to numbers, URL parsing
    and the key and address functions are the class [Platform]. *)
From Stdlib Require Import ZArith Lia Ascii.
From stdpp Require Import base option list strings gmap.
From S2P Require Import Prelude Lifecycle GasPolicy Gateway.
Local Open Scope Z_scope.

(** [Number(text)], [BigInt(text)], [z.url().parse(text)],
    [new URL(text).toString()], [privateKeyToAccount(key).address] of viem,
    [new Wallet(key).address] of ethers and [getAddress]. *)
Class Platform := {
  Number_of_text : string -> js_number;
  BigInt_of_text : string -> option Z;
  url_parse : string -> option string;
  url_href : string -> option string;
  account_address : string -> string;
  wallet_address : string -> string;
  checksum_address : string -> result string
}.

(** A URL that was validated is visible text and validates again when trimmed;
    the serialisation of a URL is visible text; addresses that differ at most in
    letter case have one checksum. *)
Class PlatformLaws `{Platform} : Prop := {
  url_parse_visible : forall s v, url_parse s = Some v -> string_nonempty (trim v) = true;
  url_href_visible : forall s v, url_href s = Some v -> string_nonempty (trim v) = true;
  checksum_canonical : forall a b x y, checksum_address a = Ok x -> checksum_address b = Ok y ->
    toLowerCase x = toLowerCase y -> x = y
}.

(** A [ZodError], or an error thrown while a schema transforms its value. *)
Definition schema_error : js_error := JsError true "ZodError" None "invalid".
Definition invalid {A} : result A := Throw schema_error.
Definition require (c : bool) : result unit := if c then Ok tt else invalid.

Section Config.
Context `{Platform}.

Definition Environment : Type := string -> option string.

Definition required (env : Environment) (key : string) : result string :=
  match env key with Some v => Ok v | None => invalid end.

(** [z.coerce.number().int().min(lo).max(hi).default(d)] *)
Definition coerce_int (env : Environment) (key : string) (lo : Z) (hi : option Z) (d : Z) : result Z :=
  match env key with
  | None => Ok d
  | Some text =>
      match Number_of_text text with
      | JInt z => require (Number_isSafeInteger (JInt z) && (lo <=? z) && if_present (fun h => z <=? h) hi) ;; Ok z
      | JNonInteger => invalid
      end
  end.

(** [z.coerce.bigint()] with a test; [None] for an absent variable without default. *)
Definition coerce_bigint (env : Environment) (key : string) (ok : Z -> bool) (d : option Z) : result Z :=
  match env key with
  | None => match d with Some z => Ok z | None => invalid end
  | Some text =>
      match BigInt_of_text text with
      | Some z => require (ok z) ;; Ok z
      | None => invalid
      end
  end.

(** [z.string().min(1).default(d)] *)
Definition nonempty_string (env : Environment) (key d : string) : result string :=
  match env key with None => Ok d | Some v => require (string_nonempty v) ;; Ok v end.

Record KeeperConfig := {
  kc_NODE_ENV : string;
  kc_RPC_URLS : list string;
  kc_KEEPER_PRIVATE_KEY : string;
  kc_DEPLOYER_ADDRESS : string;
  kc_KEEPER_ADDRESS : string;
  kc_KEEPER_MIN_BALANCE_WEI : Z;
  kc_KEEPER_MAX_BALANCE_WEI : Z;
  kc_POLL_INTERVAL_MS : Z;
  kc_KEEPER_RECEIPT_WAIT_MS : Z;
  kc_KEEPER_CONFIRMATIONS : Z;
  kc_KEEPER_AUTO_ENTRY_SCAN_SIZE : Z;
  kc_KEEPER_HISTORICAL_SCAN_SIZE : Z;
  kc_KEEPER_JOURNAL_PATH : string;
  kc_KEEPER_MANIFEST_PATH : string;
  kc_GAS_POLICY : GasPolicyConfig
}.

(** [urls.filter((url, index, urls) => urls.indexOf(url) === index)] *)
Fixpoint first_occurrences (seen urls : list string) : list string :=
  match urls with
  | [] => []
  | url :: urls' =>
      if bool_decide (url ∈ seen) then first_occurrences seen urls'
      else url :: first_occurrences (url :: seen) urls'
  end.

(** The transform of [RPC_URLS]. *)
Definition rpcUrls (primary : string) (others : option string) : result (list string) :=
  let urls := primary :: match others with Some text => split_char "," text | None => [] end in
  hrefs ← result_map (fun url =>
    match url_parse url with
    | Some parsed => match url_href parsed with Some href => Ok href | None => invalid end
    | None => invalid
    end) (List.filter string_nonempty (trim <$> urls));
  Ok (first_occurrences [] hrefs).

Definition loadConfig (env : Environment) : result KeeperConfig :=
  let NODE_ENV := default "development" (env "NODE_ENV") in
  require (bool_decide (NODE_ENV ∈ ["development"; "test"; "production"])) ;;
  primary ← (text ← required env "SEPOLIA_RPC_URL"; match url_parse text with Some v => Ok v | None => invalid end);
  KEEPER_PRIVATE_KEY ← required env "KEEPER_PRIVATE_KEY";
  require (matches_hex 64 KEEPER_PRIVATE_KEY) ;;
  DEPLOYER_ADDRESS ← required env "DEPLOYER_ADDRESS";
  require (matches_hex 40 DEPLOYER_ADDRESS) ;;
  minimum ← coerce_bigint env "KEEPER_MIN_BALANCE_WEI" (fun z => 0 <=? z) (Some 10000000000000000);
  maximum ← coerce_bigint env "KEEPER_MAX_BALANCE_WEI" (fun z => 0 <? z) None;
  poll ← coerce_int env "POLL_INTERVAL_MS" 1000 None 15000;
  receiptWait ← coerce_int env "KEEPER_RECEIPT_WAIT_MS" 0 None 180000;
  confirmations ← coerce_int env "KEEPER_CONFIRMATIONS" 1 (Some 12) 1;
  autoEntryScan ← coerce_int env "KEEPER_AUTO_ENTRY_SCAN_SIZE" 1 (Some 500) 50;
  historicalScan ← coerce_int env "KEEPER_HISTORICAL_SCAN_SIZE" 1 (Some 500) 50;
  multiplierBps ← coerce_int env "KEEPER_GAS_MULTIPLIER_BPS" 10000 (Some 20000) (bps_of (gp_multiplierBps DEFAULT_GAS_POLICY));
  additiveMargin ← coerce_bigint env "KEEPER_GAS_MARGIN_UNITS" (fun z => 0 <=? z) (Some (gp_additiveMargin DEFAULT_GAS_POLICY));
  maximumGasLimit ← coerce_bigint env "KEEPER_GAS_MAX_LIMIT" (fun z => 0 <? z) (Some (gp_maximumGasLimit DEFAULT_GAS_POLICY));
  journalPath ← nonempty_string env "KEEPER_JOURNAL_PATH" "./keeper-data/lifecycle-journal.json";
  manifestPath ← nonempty_string env "KEEPER_MANIFEST_PATH" "../config/leopold-frontend-contracts.json";
  keeperAddress ← checksum_address (account_address KEEPER_PRIVATE_KEY);
  deployerAddress ← checksum_address DEPLOYER_ADDRESS;
  require (negb (bool_decide (keeperAddress = deployerAddress))) ;;
  require (minimum <=? maximum) ;;
  urls ← rpcUrls primary (env "SEPOLIA_RPC_URLS");
  floors ← parseGasFloors (env "KEEPER_GAS_FLOORS");
  Ok {| kc_NODE_ENV := NODE_ENV;
        kc_RPC_URLS := urls;
        kc_KEEPER_PRIVATE_KEY := KEEPER_PRIVATE_KEY;
        kc_DEPLOYER_ADDRESS := deployerAddress;
        kc_KEEPER_ADDRESS := keeperAddress;
        kc_KEEPER_MIN_BALANCE_WEI := minimum;
        kc_KEEPER_MAX_BALANCE_WEI := maximum;
        kc_POLL_INTERVAL_MS := poll;
        kc_KEEPER_RECEIPT_WAIT_MS := receiptWait;
        kc_KEEPER_CONFIRMATIONS := confirmations;
        kc_KEEPER_AUTO_ENTRY_SCAN_SIZE := autoEntryScan;
        kc_KEEPER_HISTORICAL_SCAN_SIZE := historicalScan;
        kc_KEEPER_JOURNAL_PATH := journalPath;
        kc_KEEPER_MANIFEST_PATH := manifestPath;
        kc_GAS_POLICY := {| gp_multiplierBps := JInt multiplierBps;
                            gp_additiveMargin := additiveMargin;
                            gp_maximumGasLimit := maximumGasLimit;
                            gp_floors := floors ∪ DEFAULT_GAS_FLOORS |} |}.

(** ** The manifest *)
Record ManifestVault := {
  mv_id : js_number;
  mv_type : string;
  mv_name : string;
  mv_vault : string;
  mv_bondEscrow : string;
  mv_implementation : option string;
  mv_automaticEntry : option bool
}.

Record AuthorityBinding := {
  ab_targetId : string; ab_targetScope : string; ab_path : string; ab_schema : string; ab_recordVersion : js_number
}.

Record Manifest := {
  mf_schema : string;
  mf_network_name : string;
  mf_network_chainId : js_number;
  mf_deploymentStatus : string;
  mf_authorityBinding : option AuthorityBinding;
  mf_officialVaults : list ManifestVault
}.

Definition authorityBinding_ok (b : AuthorityBinding) : bool :=
  bool_decide (ab_targetId b = "LEOPOLD_V2_SEPOLIA") && bool_decide (ab_targetScope b = "LEOPOLD_V2_RELEASE") &&
  bool_decide (ab_path b = "scripts/sg4-hcu-authority-bindings/v2.json") &&
  bool_decide (ab_schema b = "zama-szn4.sg4-hcu-authority-binding.v5") &&
  match ab_recordVersion b with JInt v => v =? 5 | JNonInteger => false end.

Definition vault_implementation (v : ManifestVault) : string := default "v1" (mv_implementation v).
Definition vault_automaticEntry (v : ManifestVault) : bool := default false (mv_automaticEntry v).

Definition manifestVault_ok (v : ManifestVault) : bool :=
  match mv_id v with JInt id => Number_isSafeInteger (JInt id) && (0 <? id) | JNonInteger => false end &&
  string_nonempty (mv_type v) && string_nonempty (mv_name v) &&
  bool_decide (vault_implementation v ∈ ["v1"; "v2"]) &&
  negb (vault_automaticEntry v && negb (bool_decide (vault_implementation v = "v2"))).

Definition manifestSchema (m : Manifest) : bool :=
  bool_decide (mf_schema m = "leopold.frontend-contract-manifest.v1") &&
  bool_decide (mf_network_name m = "ethereum-sepolia") && Number_isSafeInteger (mf_network_chainId m) &&
  bool_decide (mf_deploymentStatus m = "OFFICIAL_SEPOLIA_DEPLOYED") &&
  if_present authorityBinding_ok (mf_authorityBinding m) &&
  forallb manifestVault_ok (mf_officialVaults m) && negb (bool_decide (mf_officialVaults m = [])) &&
  negb (existsb vault_automaticEntry (mf_officialVaults m) && bool_decide (mf_authorityBinding m = None)).

(** The sets of [loadOfficialVaults], and one vault checked against them. *)
Record SeenVaults := { sv_ids : list Z; sv_addresses : list string; sv_escrows : list string }.

Definition official_id (v : ManifestVault) : Z := match mv_id v with JInt id => id | JNonInteger => 0 end.

Definition loadVault (vault : ManifestVault) : method SeenVaults VaultConfig :=
  seen ← get;
  let id := official_id vault in
  throw_if (bool_decide (id ∈ sv_ids seen)) ("Duplicate official vault id " +:+ Z_toString id) ;;
  put {| sv_ids := id :: sv_ids seen; sv_addresses := sv_addresses seen; sv_escrows := sv_escrows seen |} ;;
  address ← lift (checksum_address (mv_vault vault));
  throw_if (bool_decide (address ∈ sv_addresses seen)) ("Duplicate official vault address " +:+ address) ;;
  put {| sv_ids := id :: sv_ids seen; sv_addresses := address :: sv_addresses seen; sv_escrows := sv_escrows seen |} ;;
  bondEscrow ← lift (checksum_address (mv_bondEscrow vault));
  throw_if (bool_decide (bondEscrow ∈ sv_escrows seen)) ("Duplicate official bond escrow address " +:+ bondEscrow) ;;
  put {| sv_ids := id :: sv_ids seen; sv_addresses := address :: sv_addresses seen;
         sv_escrows := bondEscrow :: sv_escrows seen |} ;;
  mret {| vc_id := id; vc_name := mv_name vault; vc_cadence := mv_type vault; vc_address := address;
          vc_bondEscrow := bondEscrow; vc_automaticEntry := Some (vault_automaticEntry vault) |}.

Definition loadOfficialVaults (m : Manifest) : result (list VaultConfig) :=
  require (manifestSchema m) ;;
  match mf_network_chainId m with
  | JInt chainId =>
      fail_if (negb (chainId =? SEPOLIA_CHAIN_ID)) ("Keeper manifest chain " +:+ Z_toString chainId +:+ " is not Sepolia") ;;
      (method_map loadVault (mf_officialVaults m) {| sv_ids := []; sv_addresses := []; sv_escrows := [] |}).1
  | JNonInteger => invalid
  end.
End Config.

(** ** Public proofs: keeper/src/public-proof.ts *)

(** The relayer: a client for an RPC URL, and its decryption of a handle. *)
Class ProofRelayer (W I : Type) := {
  createInstance : string -> method W I;
  instance_publicDecrypt : I -> string -> method W PublicProof
}.

Section PublicProofs.
Context {W I : Type} `{ProofRelayer W I}.

(** The provider's state: the environment and, per URL, its cached client. *)
Definition ProofState : Type := W * list (option I).

Definition aggregate_error : js_error :=
  JsError true "AggregateError" None "Public proof retrieval failed across all configured RPC providers".

Definition ZamaPublicProofProvider_new (rpcUrls : list string) : result (list (option I)) :=
  fail_if (bool_decide (rpcUrls = [])) "Public proof provider requires at least one RPC URL" ;;
  Ok (replicate (length rpcUrls) None).

(** [this.#instances[index] ??= createInstance(...)] *)
Definition cachedInstance (index : nat) (rpcUrl : string) : method ProofState I :=
  fun '(w, instances) =>
    match mjoin (instances !! index) with
    | Some instance => (Ok instance, (w, instances))
    | None =>
        let '(r, w') := createInstance rpcUrl w in
        match r with
        | Ok instance => (Ok instance, (w', <[index := Some instance]> instances))
        | Throw e => (Throw e, (w', instances))
        end
    end.

Definition decryptAt (index : nat) (rpcUrl handle : string) : method ProofState PublicProof :=
  instance ← cachedInstance index rpcUrl;
  on_state (instance_publicDecrypt instance handle).

Definition forget (index : nat) : method ProofState unit :=
  modify (fun '(w, instances) => (w, <[index := None]> instances)).

(** The loop over the URLs; the errors collected are those of the exhausted ones. *)
Fixpoint decryptLoop (index : nat) (rpcUrls : list string) (handle : string) : method ProofState (PublicProof + list js_error) :=
  match rpcUrls with
  | [] => mret (inr [])
  | rpcUrl :: rest =>
      outcome ← try_catch (proof ← decryptAt index rpcUrl handle; mret (inl proof))
                  (fun error => forget index ;; mret (inr error));
      match outcome with
      | inl proof => mret (inl proof)
      | inr error =>
          tail ← decryptLoop (S index) rest handle;
          mret (match tail with inl proof => inl proof | inr errors => inr (error :: errors) end)
      end
  end.

Definition publicDecrypt (rpcUrls : list string) (handle : string) : method ProofState PublicProof :=
  outcome ← decryptLoop 0 rpcUrls handle;
  match outcome with
  | inl proof => mret proof
  | inr errors => throw_in aggregate_error
  end.
End PublicProofs.

(** ** The program: keeper/src/cli.ts *)
Inductive KeeperMode : Type := once | service.

Definition keeperMode (argv : list string) : result KeeperMode :=
  let has flag := bool_decide (flag ∈ argv) in
  let mode := if has "--service" then Some service else if has "--once" then Some once else None in
  match mode with
  | None => throw_new "Specify exactly one keeper mode: --once or --service"
  | Some mode =>
      fail_if (has "--service" && has "--once") "Keeper modes --once and --service are mutually exclusive" ;;
      Ok mode
  end.

(** What the program calls: the lock, the manifest file, the engine's preflight
    and passes (a pass gives its outcome), the pause between polls, whether a
    stop signal has arrived, the log and the exit code. *)
Class KeeperProgram (St : Type) := {
  acquireLock : method St unit;
  releaseProcessLock : method St unit;
  readManifest : string -> method St Manifest;
  engine_preflight : method St unit;
  engine_runOnce : method St string;
  pollPause : St -> St;
  stopping : St -> bool;
  log_line : string -> St -> St;
  set_exitCode : Z -> St -> St
}.

Section Program.
Context `{Platform} {St : Type} `{KeeperProgram St}.

(** The options keeper/src/cli.ts gives the gateway. *)
Definition gateway_options (c : KeeperConfig) (vaults : list VaultConfig) : GatewayOptions := {|
  go_rpcUrls := kc_RPC_URLS c; go_vaults := vaults;
  go_autoEntryScanSize := JInt (kc_KEEPER_AUTO_ENTRY_SCAN_SIZE c);
  go_historicalScanSize := JInt (kc_KEEPER_HISTORICAL_SCAN_SIZE c);
  go_gasPolicy := Some (kc_GAS_POLICY c); go_keeperAddress := wallet_address (kc_KEEPER_PRIVATE_KEY c) |}.

(** The start: the vaults, the proof provider, the gateway, and its checks. *)
Definition keeperStart (config : KeeperConfig) : method St unit :=
  manifest ← readManifest (kc_KEEPER_MANIFEST_PATH config);
  vaults ← lift (loadOfficialVaults manifest);
  lift (ZamaPublicProofProvider_new (I := unit) (kc_RPC_URLS config)) ;;
  gateway ← lift (EthersKeeperGateway_new (gateway_options config vaults));
  throw_if (negb (bool_decide (go_keeperAddress gateway = kc_KEEPER_ADDRESS config))) "Keeper signer address mismatch" ;;
  engine_preflight.

(** [try { m } finally { f }]: what [f] throws replaces the outcome. *)
Definition finally {A} (m : method St A) (f : method St unit) : method St A :=
  fun s => let '(r, s1) := m s in
           match f s1 with
           | (Ok _, s2) => (r, s2)
           | (Throw e, s2) => (Throw e, s2)
           end.

Definition runOneShot : method St unit :=
  outcome ← engine_runOnce;
  modify (log_line "keeper one-shot run complete") ;;
  if bool_decide (outcome = "blocked") then modify (set_exitCode 2) else mret tt.

(** One iteration of the service loop: a failed poll is logged and forgotten. *)
Definition poll : method St unit :=
  try_catch (engine_runOnce ;; modify (log_line "keeper poll complete"))
    (fun _ => modify (log_line "recoverable keeper poll failed; no write retry was attempted")) ;;
  stop ← gets stopping;
  if stop : bool then mret tt else modify pollPause.

(** [while (!stopping)]: [None] when the polls given run out first. *)
Fixpoint serviceLoop (polls : nat) : method St (option unit) :=
  stop ← gets stopping;
  if stop : bool then modify (log_line "keeper stopped") ;; mret (Some tt)
  else match polls with
       | O => mret None
       | S polls' => poll ;; serviceLoop polls'
       end.

Definition keeperMain (config : KeeperConfig) (polls : nat) (mode : KeeperMode) : method St (option unit) :=
  acquireLock ;;
  finally
    (keeperStart config ;;
     modify (log_line "keeper startup validation passed") ;;
     match mode with
     | once => runOneShot ;; mret (Some tt)
     | service => serviceLoop polls
     end)
    releaseProcessLock.
End Program.

(** * Properties *)

(** ** Configuration *)
Section config_properties.
Context `{PlatformLaws}.

Lemma require_Ok c u : require c = Ok u <-> c = true.
Proof. unfold require, invalid. destruct c, u; naive_solver. Qed.

Lemma coerce_int_Ok env key lo hi d z :
  coerce_int env key lo hi d = Ok z -> lo <= d -> if_present (fun h => d <=? h) hi = true ->
  lo <= z /\ if_present (fun h => z <=? h) hi = true.
Proof.
  unfold coerce_int. destruct (env key) as [text|]; [|by intros [= <-]].
  destruct (Number_of_text text) as [n|]; [|done].
  intros E. apply result_bind_Ok in E as (? & ?%require_Ok & [= <-]). by bool_to_prop.
Qed.

Lemma coerce_bigint_Ok env key ok d z :
  coerce_bigint env key ok d = Ok z -> (forall v, d = Some v -> ok v = true) -> ok z = true.
Proof.
  unfold coerce_bigint. destruct (env key) as [text|].
  - destruct (BigInt_of_text text) as [n|]; [|done].
    intros E. by apply result_bind_Ok in E as (? & ?%require_Ok & [= <-]).
  - destruct d; [|done]. intros [= <-]. auto.
Qed.

(** What [first_occurrences] keeps. *)
Lemma first_occurrences_elem seen urls x : x ∈ first_occurrences seen urls <-> x ∈ urls /\ x ∉ seen.
Proof.
  revert seen; induction urls as [|u urls IH]; intros seen; simpl; [set_solver|].
  case_bool_decide; [rewrite IH; set_solver|].
  rewrite elem_of_cons, IH. destruct (decide (x = u)); set_solver.
Qed.

Lemma first_occurrences_NoDup seen urls : NoDup (first_occurrences seen urls).
Proof.
  revert seen; induction urls as [|u urls IH]; intros seen; simpl; [constructor|].
  case_bool_decide; [done|]. constructor; [|done]. rewrite first_occurrences_elem. set_solver.
Qed.

Lemma rpcUrls_Ok primary others urls :
  rpcUrls primary others = Ok urls -> string_nonempty (trim primary) = true ->
  NoDup urls /\ urls <> [] /\ Forall (fun u => string_nonempty (trim u) = true) urls.
Proof.
  unfold rpcUrls. intros E Hp. apply result_bind_Ok in E as (hrefs & Em & [= <-]). simpl in Em. rewrite Hp in Em.
  apply result_map_Ok in Em. split; [apply first_occurrences_NoDup|]. split.
  - inversion Em; subst. simpl. done.
  - apply Forall_forall. intros u Hu.
    assert (Hin : u ∈ hrefs).
    { apply (first_occurrences_elem [] hrefs u). first [exact Hu|by apply list_elem_of_In]. }
    clear Hu. induction Em as [|x y xs ys Hxy _ IH]; [set_solver|].
    apply elem_of_cons in Hin as [->|Hin]; [|auto].
    destruct (url_parse x) as [v|]; [|done]. destruct (url_href v) as [h|] eqn:Eh; [|done].
    injection Hxy as ->. by eapply url_href_visible.
Qed.

(** Every action has a floor in a configuration's policy. *)
Lemma floors_cover (floors : gmap string Z) kind : is_Some ((floors ∪ DEFAULT_GAS_FLOORS) !! kind_string kind).
Proof.
  apply lookup_union_is_Some. right.
  assert (Hk : bool_decide (is_Some (DEFAULT_GAS_FLOORS !! kind_string kind)) = true) by (destruct kind; vm_compute; reflexivity).
  by apply bool_decide_eq_true in Hk.
Qed.

Lemma gateway_accepts o :
  go_rpcUrls o <> [] -> Forall (fun u => string_nonempty (trim u) = true) (go_rpcUrls o) ->
  scan_size_invalid (go_autoEntryScanSize o) = false -> scan_size_invalid (go_historicalScanSize o) = false ->
  EthersKeeperGateway_new o = Ok o.
Proof.
  intros Hne Hall Ha Hh. unfold EthersKeeperGateway_new. rewrite !guard_pass; try done.
  rewrite bool_decide_false by done. simpl.
  induction Hall as [|u us Hu _ IH]; simpl; [done|]. rewrite Hu. simpl.
  destruct us; [done|]. by apply IH.
Qed.

(** The gas policy of a configuration: what [applyGasPolicy] still asks for. *)
Lemma gas_policy_applies config kind estimatedGas fallback :
  invalidMultiplier (gp_multiplierBps config) = false -> 0 <= gp_additiveMargin config -> 0 < gp_maximumGasLimit config ->
  is_Some (gp_floors config !! kind_string kind) ->
  is_ok (applyGasPolicy kind estimatedGas config fallback) = true <->
  (exists floor, gp_floors config !! kind_string kind = Some floor /\ 0 < floor) /\
  match estimatedGas with Some e => 0 < e | None => True end /\
  limit_of kind estimatedGas config (bps_of (gp_multiplierBps config)) <= gp_maximumGasLimit config.
Proof.
  intros (bps & Em & Hb)%invalidMultiplier_false Hmargin Hmax [floor Hfloor]. rewrite Em. cbn [bps_of].
  transitivity (exists d, applyGasPolicy kind estimatedGas config fallback = Ok d).
  { destruct (applyGasPolicy _ _ _ _) as [d|e]; split; [by exists d|done|done|by intros [? [=]]]. }
  setoid_rewrite applyGasPolicy_spec. unfold usable. rewrite Hfloor, Em. split.
  - intros (d & bps' & (E & _ & _ & _ & Hf & He) & Hl & _). injection E as <-. split_and!; [|done|done]. exists floor. split; [done|lia].
  - intros ((f & E & Hf) & He & Hl). injection E as <-. eexists. exists bps. split_and!; try done; try lia.
    etransitivity; [|exact Hl]. unfold limit_of. rewrite Hfloor. cbn. destruct estimatedGas; lia.
Qed.

(** C37: what a configuration that loads guarantees, and what it leaves open.  The RPC URLs
    are distinct and visible and the scan sizes in range, so that the gateway's
    constructor accepts them; the keeper is not the deployer; the balance limits
    pass the guard's own checks; the polling, receipt and confirmation settings are in
    range.  The gas multiplier and margin are in range and every action has a floor, so
    that [applyGasPolicy] gives a limit for an action exactly when the action's floor and
    the estimate are positive and the limit (for a failed estimate the floor) does not exceed
    the configured maximum: that the floors are positive and within the maximum is not
    checked when the configuration is loaded ([maximum_below_every_floor]). *)
Theorem loadConfig_sound env c :
  loadConfig env = Ok c ->
  (forall vaults, EthersKeeperGateway_new (gateway_options c vaults) = Ok (gateway_options c vaults)) /\
  NoDup (kc_RPC_URLS c) /\ kc_KEEPER_ADDRESS c <> kc_DEPLOYER_ADDRESS c /\
  (forall balance, kc_KEEPER_MIN_BALANCE_WEI c <= balance <= kc_KEEPER_MAX_BALANCE_WEI c ->
     assertKeeperBalanceWithinLimits balance (kc_KEEPER_MIN_BALANCE_WEI c) (kc_KEEPER_MAX_BALANCE_WEI c) = Ok tt) /\
  (forall kind estimatedGas fallback, is_ok (applyGasPolicy kind estimatedGas (kc_GAS_POLICY c) fallback) = true <->
     (exists floor, gp_floors (kc_GAS_POLICY c) !! kind_string kind = Some floor /\ 0 < floor) /\
     match estimatedGas with Some e => 0 < e | None => True end /\
     limit_of kind estimatedGas (kc_GAS_POLICY c) (bps_of (gp_multiplierBps (kc_GAS_POLICY c))) <= gp_maximumGasLimit (kc_GAS_POLICY c)) /\
  1000 <= kc_POLL_INTERVAL_MS c /\ 0 <= kc_KEEPER_RECEIPT_WAIT_MS c /\ 1 <= kc_KEEPER_CONFIRMATIONS c <= 12.
Proof.
  intros E. unfold loadConfig in E. cbv zeta in E.
  repeat (let x := fresh "x" in let Hx := fresh "Hx" in apply result_bind_Ok in E as (x & Hx & E)).
  injection E as <-.
  cbn [kc_RPC_URLS kc_KEEPER_ADDRESS kc_DEPLOYER_ADDRESS kc_KEEPER_MIN_BALANCE_WEI
    kc_KEEPER_MAX_BALANCE_WEI kc_GAS_POLICY gp_multiplierBps gp_additiveMargin gp_maximumGasLimit gp_floors
    kc_POLL_INTERVAL_MS kc_KEEPER_RECEIPT_WAIT_MS kc_KEEPER_CONFIRMATIONS].
  assert (Hint : forall key lo hi d z, coerce_int env key lo hi d = Ok z ->
    (lo <=? d) && if_present (fun h => d <=? h) hi = true -> lo <= z /\ if_present (fun h => z <=? h) hi = true).
  { intros key lo hi d z Hz Hd. bool_to_prop. by eapply coerce_int_Ok. }
  apply Hint in Hx7 as [Hpoll _], Hx8 as [Hwait _], Hx9 as [Hc1 Hc2], Hx10 as [Ha1 Ha2], Hx11 as [Hh1 Hh2],
    Hx12 as [Hm1 Hm2]; try reflexivity.
  apply coerce_bigint_Ok in Hx5, Hx6, Hx13, Hx14; try (by intros ? [= <-]); try done.
  apply require_Ok in Hx19, Hx20. cbn [if_present] in *. bool_to_prop.
  apply rpcUrls_Ok in Hx21 as (Hnd & Hne & Hvis).
  2: { apply result_bind_Ok in Hx0 as (text & _ & Ht). destruct (url_parse text) as [v|] eqn:Ev; [|done].
       injection Ht as <-. by eapply url_parse_visible. }
  split_and!; try done; try lia.
  - intros vaults. apply gateway_accepts; simpl; try done; apply orb_false_iff; split; apply Z.ltb_ge; lia.
  - intros balance Hb. unfold assertKeeperBalanceWithinLimits.
    rewrite !guard_pass; [|first [apply Z.ltb_ge; lia|apply Z.leb_gt; lia]..].
    unfold fail_if. by replace (_ <? balance) with false by (symmetry; apply Z.ltb_ge; lia).
  - intros kind estimatedGas fallback. apply gas_policy_applies; cbn [gp_additiveMargin gp_maximumGasLimit gp_floors]; try lia.
    + simpl. apply orb_false_iff; split; apply Z.ltb_ge; lia.
    + apply floors_cover.
Qed.

(** ** Manifest *)
Lemma loadVault_Ok v seen c seen' :
  loadVault v seen = (Ok c, seen') ->
  official_id v ∉ sv_ids seen /\ vc_address c ∉ sv_addresses seen /\ vc_bondEscrow c ∉ sv_escrows seen /\
  vc_id c = official_id v /\ checksum_address (mv_vault v) = Ok (vc_address c) /\
  checksum_address (mv_bondEscrow v) = Ok (vc_bondEscrow c) /\
  vc_automaticEntry c = Some (vault_automaticEntry v) /\
  seen' = {| sv_ids := vc_id c :: sv_ids seen; sv_addresses := vc_address c :: sv_addresses seen;
             sv_escrows := vc_bondEscrow c :: sv_escrows seen |}.
Proof.
  unfold loadVault, mbind, method_bind, get, put, lift, throw_if, mret, method_ret. cbn beta iota.
  case_bool_decide; [done|]. destruct (checksum_address (mv_vault v)) as [a|]; [|done].
  case_bool_decide; [done|]. destruct (checksum_address (mv_bondEscrow v)) as [b|]; [|done].
  case_bool_decide; [done|]. intros [= <- <-]. done.
Qed.

(** The vaults loaded, against the sets they were checked with. *)
Lemma loadVaults_Ok vs seen cs seen' :
  method_map loadVault vs seen = (Ok cs, seen') ->
  Forall2 (fun v c => vc_id c = official_id v /\ checksum_address (mv_vault v) = Ok (vc_address c) /\
                      checksum_address (mv_bondEscrow v) = Ok (vc_bondEscrow c) /\
                      vc_automaticEntry c = Some (vault_automaticEntry v)) vs cs /\
  NoDup (vc_id <$> cs) /\ NoDup (vc_address <$> cs) /\ NoDup (vc_bondEscrow <$> cs) /\
  (forall c, c ∈ cs -> vc_id c ∉ sv_ids seen /\ vc_address c ∉ sv_addresses seen /\ vc_bondEscrow c ∉ sv_escrows seen).
Proof.
  revert seen cs seen'; induction vs as [|v vs IH]; intros seen cs seen' E.
  { injection E as <- <-. split_and!; try constructor; set_solver. }
  cbn [method_map] in E. unfold mbind, method_bind, mret, method_ret in E.
  destruct (loadVault v seen) as [[c|e] seen1] eqn:Ev; [|done].
  destruct (method_map loadVault vs seen1) as [[cs'|e] seen2] eqn:Evs; [|done]. injection E as <- <-.
  apply loadVault_Ok in Ev as (Hi & Ha & Hb & Hid & Hca & Hcb & Hau & ->).
  apply IH in Evs as (H2 & Hn1 & Hn2 & Hn3 & Hfresh). cbn [sv_ids sv_addresses sv_escrows] in Hfresh.
  assert (Hnew : forall A (f : VaultConfig -> A) l, NoDup (f <$> l) -> (forall x, x ∈ l -> f x <> f c) -> NoDup (f <$> c :: l)).
  { intros A f l Hl Hne. cbn. constructor; [|done]. intros (x & E & Hx)%list_elem_of_fmap. by apply (Hne x). }
  split_and!; [by constructor| | | |].
  - apply Hnew; [done|]. intros x Hx E. apply (proj1 (Hfresh x Hx)). rewrite E. set_solver.
  - apply Hnew; [done|]. intros x Hx E. apply (proj1 (proj2 (Hfresh x Hx))). rewrite E. set_solver.
  - apply Hnew; [done|]. intros x Hx E. apply (proj2 (proj2 (Hfresh x Hx))). rewrite E. set_solver.
  - intros x [->|Hx]%elem_of_cons; [by rewrite Hid|]. destruct (Hfresh x Hx) as (? & ? & ?). set_solver.
Qed.

(** Distinct checksums are distinct up to letter case. *)
Lemma checksums_NoDup {A} (f : A -> string) (l : list A) :
  NoDup (f <$> l) -> (forall x, x ∈ l -> exists a, checksum_address a = Ok (f x)) ->
  NoDup ((fun x => toLowerCase (f x)) <$> l).
Proof.
  intros Hn Hc. change (NoDup ((fun x => toLowerCase (f x)) <$> l)). rewrite (list_fmap_compose f toLowerCase).
  apply NoDup_fmap_2_strong; [|done].
  intros p q (x & -> & Hx)%list_elem_of_fmap (y & -> & Hy)%list_elem_of_fmap E.
  destruct (Hc x Hx) as [a Ea], (Hc y Hy) as [b Eb]. by eapply checksum_canonical.
Qed.

(** The official vaults are distinct.  A manifest that loads is a Sepolia
    manifest with at least one vault; the vaults come in the manifest's order,
    with positive ids that are pairwise distinct, and addresses and bond escrows
    pairwise distinct even up to letter case, which is what the planner assumes
    of a snapshot; and a vault enters rounds automatically only if it is marked
    as a second-generation vault and the manifest binds its authority. *)
Theorem loadOfficialVaults_distinct m vaults :
  loadOfficialVaults m = Ok vaults ->
  mf_network_chainId m = JInt SEPOLIA_CHAIN_ID /\ vaults <> [] /\
  (vc_id <$> vaults) = (official_id <$> mf_officialVaults m) /\
  Forall (fun c => 0 < vc_id c) vaults /\ NoDup (vc_id <$> vaults) /\
  NoDup ((fun c => toLowerCase (vc_address c)) <$> vaults) /\
  NoDup ((fun c => toLowerCase (vc_bondEscrow c)) <$> vaults) /\
  (forall c, c ∈ vaults -> vc_automaticEntry c = Some true ->
     mf_authorityBinding m <> None /\
     exists v, v ∈ mf_officialVaults m /\ official_id v = vc_id c /\ mv_implementation v = Some "v2").
Proof.
  unfold loadOfficialVaults. intros E. apply result_bind_Ok in E as (? & Hs%require_Ok & E).
  unfold manifestSchema in Hs. bool_to_prop.
  match goal with Hv : forallb manifestVault_ok _ = true |- _ => rename Hv into Hvaults end.
  match goal with Hv : _ \/ _ |- _ => rename Hv into Hauth end.
  match goal with Hv : mf_officialVaults m <> [] |- _ => rename Hv into Hne end.
  destruct (mf_network_chainId m) as [chain|]; [|done].
  apply result_bind_Ok in E as (? & Hc%fail_if_Ok & E). bool_to_prop. subst chain.
  destruct (method_map loadVault (mf_officialVaults m) _) as [r seen'] eqn:Em. simpl in E. subst r.
  apply loadVaults_Ok in Em as (H2 & Hn1 & Hn2 & Hn3 & _).
  assert (Hv : forall c, c ∈ vaults -> exists v, v ∈ mf_officialVaults m /\ manifestVault_ok v = true /\
    vc_id c = official_id v /\ checksum_address (mv_vault v) = Ok (vc_address c) /\
    checksum_address (mv_bondEscrow v) = Ok (vc_bondEscrow c) /\ vc_automaticEntry c = Some (vault_automaticEntry v)).
  { intros c Hc. apply list_elem_of_lookup in Hc as [i Hi].
    destruct (Forall2_lookup_r _ _ _ _ _ H2 Hi) as (v & Hvi & Hp). exists v.
    assert (Hin : v ∈ mf_officialVaults m) by by eapply list_elem_of_lookup_2. split; [done|]. split; [|done].
    rewrite forallb_forall in Hvaults. apply Hvaults. by apply list_elem_of_In. }
  split_and!; try done.
  - intros ->. apply Forall2_length in H2. destruct (mf_officialVaults m); [done|done].
  - symmetry. clear -H2. induction H2 as [|v c vs cs (E & _) _ IH]; [done|]. cbn. by rewrite E, IH.
  - apply Forall_forall. intros c Hc. destruct (Hv c) as (v & _ & Hok & -> & _); [first [exact Hc|by apply list_elem_of_In]|].
    unfold manifestVault_ok, official_id in *. destruct (mv_id v); bool_to_prop; [lia|done].
  - apply checksums_NoDup; [done|]. intros c Hc. destruct (Hv c Hc) as (v & _ & _ & _ & Ec & _). eauto.
  - apply checksums_NoDup; [done|]. intros c Hc. destruct (Hv c Hc) as (v & _ & _ & _ & _ & Ec & _). eauto.
  - intros c Hc Hauto. destruct (Hv c Hc) as (v & Hin & Hok & Hid & _ & _ & Ha).
    rewrite Ha in Hauto. injection Hauto as Hauto. split.
    + destruct Hauth as [Hauth|Hauth]; [|by bool_to_prop].
      exfalso. enough (existsb vault_automaticEntry (mf_officialVaults m) = true) by congruence.
      apply existsb_exists. exists v. split; [by apply list_elem_of_In|done].
    + exists v. split; [done|]. split; [done|].
      unfold manifestVault_ok, vault_implementation in Hok. rewrite Hauto in Hok. bool_to_prop.
      match goal with Hd : _ \/ _ |- _ => destruct Hd as [Hd|Hd] end; bool_to_prop; [done|].
      destruct (mv_implementation v); simpl in *; congruence.
Qed.
End config_properties.

(** ** Public proofs *)
Section proof_properties.
Context {W I : Type} `{ProofRelayer W I}.
Implicit Types (s : ProofState (W := W) (I := I)).

(** An endpoint that failed, at some state of the run. *)
Definition failed_at (index : nat) (rpcUrl handle : string) : Prop :=
  exists s1 s2 e, decryptAt index rpcUrl handle s1 = (Throw e, s2).

Lemma decryptAt_length index url handle s r s' :
  decryptAt index url handle s = (r, s') -> length s'.2 = length s.2.
Proof.
  destruct s as [w l]. unfold decryptAt, mbind, method_bind, cachedInstance, on_state.
  destruct (mjoin (l !! index)); [destruct (instance_publicDecrypt _ _ _); by intros [= <- <-]|].
  destruct (createInstance url w) as [[i|e] w1]; [|by intros [= <- <-]].
  destruct (instance_publicDecrypt _ _ _). intros [= <- <-]. simpl. apply length_insert.
Qed.

(** What one run of the loop gives. *)
Lemma decryptLoop_spec index urls handle s r s' :
  decryptLoop index urls handle s = (r, s') ->
  length s'.2 = length s.2 /\
  match r with
  | Ok (inl proof) =>
      exists i url s1, urls !! i = Some url /\ decryptAt (index + i) url handle s1 = (Ok proof, s') /\
        forall j u, (j < i)%nat -> urls !! j = Some u -> failed_at (index + j) u handle
  | Ok (inr errors) =>
      length errors = length urls /\ forall j u, urls !! j = Some u -> failed_at (index + j) u handle
  | Throw _ => False
  end.
Proof.
  revert index s r s'; induction urls as [|url urls IH]; intros index s r s' E.
  { injection E as <- <-. split; [done|]. split; [done|]. by intros ? ? ?. }
  cbn [decryptLoop] in E. unfold mbind, method_bind, try_catch, mret, method_ret in E.
  destruct (decryptAt index url handle s) as [[proof|e] s1] eqn:Ea.
  - injection E as <- <-. split; [by eapply decryptAt_length|]. exists 0%nat, url, s. rewrite Nat.add_0_r.
    split; [done|]. split; [done|]. lia.
  - unfold forget, modify in E. destruct s1 as [w1 l1]. apply decryptAt_length in Ea as El.
    destruct (decryptLoop (Datatypes.S index) urls handle _) as [[[proof|errors]|e'] s2] eqn:Er;
      apply IH in Er as [Hl Hr]; cbn [snd] in *; rewrite length_insert in Hl; [| |done]; injection E as <- <-;
      (split; [congruence|]).
    + destruct Hr as (i & u & s3 & Hu & Hd & Hf). exists (Datatypes.S i), u, s3.
      rewrite Nat.add_succ_r. split; [done|]. split; [done|]. intros [|j] v Hj Hv.
      * rewrite Nat.add_0_r. injection Hv as <-. by eexists s, _, _.
      * rewrite Nat.add_succ_r. apply (Hf j v); [lia|done].
    + destruct Hr as [Hn Hf]. split; [simpl; congruence|]. intros [|j] v Hv.
      * rewrite Nat.add_0_r. injection Hv as <-. by eexists s, _, _.
      * rewrite Nat.add_succ_r. by apply (Hf j v).
Qed.

(** A public proof comes from the first endpoint that gives one.  The URLs
    are tried in order; the proof returned is the one some URL's client gave,
    and every earlier URL failed; the only error is the aggregate one, thrown
    when every URL failed. *)
Theorem publicDecrypt_first rpcUrls handle s r s' :
  publicDecrypt rpcUrls handle s = (r, s') ->
  length s'.2 = length s.2 /\
  match r with
  | Ok proof =>
      exists i url s1, rpcUrls !! i = Some url /\ decryptAt i url handle s1 = (Ok proof, s') /\
        forall j u, (j < i)%nat -> rpcUrls !! j = Some u -> failed_at j u handle
  | Throw e => e = aggregate_error /\ forall j u, rpcUrls !! j = Some u -> failed_at j u handle
  end.
Proof.
  unfold publicDecrypt, mbind, method_bind. intros E.
  destruct (decryptLoop 0 rpcUrls handle s) as [[[proof|errors]|e] s1] eqn:El;
    apply decryptLoop_spec in El as [Hl Hr]; [| |done]; injection E as <- <-; (split; [done|]).
  - exact Hr.
  - split; [done|]. apply Hr.
Qed.
End proof_properties.

(** ** The program *)
Section program_properties.
Context `{Platform} {St : Type} `{KeeperProgram St}.
Implicit Types (s : St).

Lemma poll_Ok s : exists s', poll s = (Ok tt, s').
Proof.
  unfold poll, mbind, method_bind, try_catch, modify, gets, mret, method_ret.
  destruct (engine_runOnce s) as [[o|e] s1]; cbn beta iota; destruct (stopping _); eauto.
Qed.

Lemma serviceLoop_unfold polls s :
  serviceLoop polls s =
    if stopping s then (Ok (Some tt), log_line "keeper stopped" s)
    else match polls with O => (Ok None, s) | Datatypes.S polls' => serviceLoop polls' (poll s).2 end.
Proof.
  destruct polls; simpl; unfold mbind, method_bind, gets, modify, mret, method_ret; destruct (stopping s); try done.
  by destruct (poll_Ok s) as [s' ->].
Qed.

(** The state after some polls. *)
Definition after_polls (n : nat) (s : St) : St := Nat.iter n (fun s => (poll s).2) s.

Lemma after_polls_succ n s : after_polls (Datatypes.S n) s = after_polls n (poll s).2.
Proof. unfold after_polls. by rewrite Nat.iter_succ_r. Qed.

Lemma serviceLoop_stops n polls s :
  (n <= polls)%nat -> stopping (after_polls n s) = true ->
  (forall m, (m < n)%nat -> stopping (after_polls m s) = false) ->
  serviceLoop polls s = (Ok (Some tt), log_line "keeper stopped" (after_polls n s)).
Proof.
  revert polls s; induction n as [|n IH]; intros polls s Hp Hs Hb; rewrite serviceLoop_unfold.
  - change (after_polls 0 s) with s in *. by rewrite Hs.
  - pose proof (Hb 0%nat ltac:(lia)) as Hb0. change (after_polls 0 s) with s in Hb0. rewrite Hb0. destruct polls as [|polls]; [lia|]. rewrite after_polls_succ in *.
    apply IH; [lia|done|]. intros m Hm. rewrite <- after_polls_succ. apply Hb. lia.
Qed.

Lemma serviceLoop_Ok polls s : exists o s', serviceLoop polls s = (Ok o, s').
Proof.
  revert s; induction polls as [|polls IH]; intros s; rewrite serviceLoop_unfold; destruct (stopping s); eauto.
Qed.

Lemma finally_releases {A} (m : method St A) s : exists s2 r, releaseProcessLock s2 = (r, (finally m releaseProcessLock s).2).
Proof.
  unfold finally. destruct (m s) as [o s1], (releaseProcessLock s1) as [[|] s2] eqn:E; eauto.
Qed.

(** The service survives its polls and always gives back its lock.  In
    service mode no error of a poll ends the loop: after a start that succeeds,
    it runs one poll after another until the first one after which a stop signal
    has arrived (given as many polls), and ends there without an error, unless
    releasing the lock fails; and once the lock was taken, whatever the mode and
    whatever fails, the last thing the program does is to release it. *)
Theorem keeperMain_releases config polls mode s s1 :
  acquireLock s = (Ok tt, s1) ->
  (exists s2 r, releaseProcessLock s2 = (r, (keeperMain config polls mode s).2)) /\
  (forall n s2, mode = service -> keeperStart config s1 = (Ok tt, s2) ->
     let s3 := log_line "keeper startup validation passed" s2 in
     (n <= polls)%nat -> stopping (after_polls n s3) = true ->
     (forall m, (m < n)%nat -> stopping (after_polls m s3) = false) ->
     let '(r, s4) := releaseProcessLock (log_line "keeper stopped" (after_polls n s3)) in
     keeperMain config polls mode s = (match r with Ok _ => Ok (Some tt) | Throw e => Throw e end, s4)).
Proof.
  intros El. split.
  { unfold keeperMain at 1. unfold mbind at 1, method_bind at 1. rewrite El. apply finally_releases. }
  intros n s2 -> Estart s3 Hn Hs Hb. unfold keeperMain, mbind, method_bind, modify. rewrite El. unfold finally.
  rewrite Estart. change (serviceLoop polls (log_line "keeper startup validation passed" s2)) with (serviceLoop polls s3).
  rewrite (serviceLoop_stops n) by done. by destruct (releaseProcessLock _) as [[|] s4].
Qed.

(** A mode is chosen by exactly one of the two flags. *)
Lemma keeperMode_Ok argv mode :
  keeperMode argv = Ok mode <->
  (mode = service /\ "--service" ∈ argv /\ "--once" ∉ argv) \/ (mode = once /\ "--once" ∈ argv /\ "--service" ∉ argv).
Proof.
  unfold keeperMode. repeat case_bool_decide; simpl; unfold fail_if; simpl; naive_solver.
Qed.
End program_properties.

(** * Concrete instances *)
#[local] Instance sample_platform : Platform := {|
  Number_of_text := fun t => match BigInt_of_digits t with Ok z => JInt z | Throw _ => JNonInteger end;
  BigInt_of_text := fun t => match BigInt_of_digits t with Ok z => Some z | Throw _ => None end;
  url_parse := fun t => if string_nonempty (trim t) then Some t else None;
  url_href := fun t => if string_nonempty (trim t) then Some t else None;
  account_address := fun _ => "0x00000000000000000000000000000000000000aa";
  wallet_address := fun _ => "0x00000000000000000000000000000000000000aa";
  checksum_address := fun t => if matches_hex 40 t then Ok (toLowerCase t) else throw_new "invalid address"
|}.

#[local] Instance sample_platform_laws : PlatformLaws.
Proof.
  split; simpl.
  - intros s v. destruct (string_nonempty (trim s)) eqn:E; [|done]. by intros [= <-].
  - intros s v. destruct (string_nonempty (trim s)) eqn:E; [|done]. by intros [= <-].
  - intros a b x y. destruct (matches_hex 40 a); [|done]. destruct (matches_hex 40 b); [|done].
    intros [= <-] [= <-]. by rewrite !toLowerCase_idemp.
Qed.

Definition sample_environment : Environment := fun key =>
  map_get key
    [("SEPOLIA_RPC_URL", "https://a.example"); ("SEPOLIA_RPC_URLS", " https://b.example, https://a.example,");
     ("KEEPER_PRIVATE_KEY", "0x" +:+ "1111111111111111111111111111111111111111111111111111111111111111");
     ("DEPLOYER_ADDRESS", "0x00000000000000000000000000000000000000BB"); ("KEEPER_MAX_BALANCE_WEI", "20000000000000000");
     ("KEEPER_CONFIRMATIONS", "2")].

Lemma loadConfig_sound_witness :
  exists c, loadConfig sample_environment = Ok c /\ kc_RPC_URLS c = ["https://a.example"; "https://b.example"] /\
    kc_KEEPER_ADDRESS c <> kc_DEPLOYER_ADDRESS c.
Proof.
  destruct (loadConfig sample_environment) as [c|] eqn:E; [|vm_compute in E; discriminate E].
  exists c. split; [reflexivity|]. split; [|apply (loadConfig_sound sample_environment c E)].
  vm_compute in E. injection E as <-. reflexivity.
Defined.

(** A maximum below every floor is accepted, and no transaction gets a gas limit. *)
Example maximum_below_every_floor :
  exists c, loadConfig (fun key => if bool_decide (key = "KEEPER_GAS_MAX_LIMIT") then Some "1" else sample_environment key) = Ok c /\
    forall kind estimatedGas fallback, is_ok (applyGasPolicy kind estimatedGas (kc_GAS_POLICY c) fallback) = false.
Proof.
  destruct (loadConfig _) as [c|] eqn:E; [|vm_compute in E; discriminate E]. exists c. split; [done|].
  vm_compute in E. injection E as <-. by intros [] estimatedGas fallback; vm_compute.
Qed.

Definition sample_manifest : Manifest := {|
  mf_schema := "leopold.frontend-contract-manifest.v1"; mf_network_name := "ethereum-sepolia";
  mf_network_chainId := JInt 11155111; mf_deploymentStatus := "OFFICIAL_SEPOLIA_DEPLOYED";
  mf_authorityBinding := None;
  mf_officialVaults :=
    [{| mv_id := JInt 1; mv_type := "daily"; mv_name := "Daily"; mv_vault := "0x0000000000000000000000000000000000000001";
        mv_bondEscrow := "0x0000000000000000000000000000000000000011"; mv_implementation := None; mv_automaticEntry := None |};
     {| mv_id := JInt 2; mv_type := "weekly"; mv_name := "Weekly"; mv_vault := "0x000000000000000000000000000000000000000A";
        mv_bondEscrow := "0x0000000000000000000000000000000000000012"; mv_implementation := None; mv_automaticEntry := None |}] |}.

Lemma loadOfficialVaults_distinct_witness :
  exists vaults, loadOfficialVaults sample_manifest = Ok vaults /\ (vc_id <$> vaults) = [1; 2].
Proof.
  destruct (loadOfficialVaults sample_manifest) as [vaults|] eqn:E; [|vm_compute in E; discriminate E].
  exists vaults. split; [reflexivity|].
  destruct (loadOfficialVaults_distinct sample_manifest vaults E) as (_ & _ & Hids & _). exact Hids.
Defined.

(** A relayer whose first endpoint is down. *)
#[local] Instance sample_relayer : ProofRelayer nat string := {|
  createInstance := fun url w => (if bool_decide (url = "a") then throw_new "down" else Ok url, S w);
  instance_publicDecrypt := fun i handle w => (Ok {| abiEncodedClearValues := i; decryptionProof := handle |}, S w)
|}.

Lemma publicDecrypt_first_witness :
  exists i url, ["a"; "b"] !! i = Some url /\
    forall j u, (j < i)%nat -> ["a"; "b"] !! j = Some u -> failed_at j u "h".
Proof.
  destruct (publicDecrypt_first ["a"; "b"] "h" (0%nat, [None; None]) (Ok {| abiEncodedClearValues := "b"; decryptionProof := "h" |})
    (publicDecrypt ["a"; "b"] "h" (0%nat, [None; None])).2) as (_ & i & url & s1 & Hu & _ & Hf); [vm_compute; reflexivity|].
  by exists i, url.
Defined.

(** A program that polls twice before it is told to stop. *)
#[local] Instance sample_program : KeeperProgram (nat * list string) := {|
  acquireLock := fun s => (Ok tt, s);
  releaseProcessLock := fun s => (Ok tt, (s.1, s.2 ++ ["released"]));
  readManifest := fun _ s => (Ok sample_manifest, s);
  engine_preflight := fun s => (Ok tt, s);
  engine_runOnce := fun s => (throw_new "rpc failed", (S s.1, s.2));
  pollPause := id;
  stopping := fun s => (2 <=? s.1)%nat;
  log_line := fun line s => (s.1, s.2 ++ [line]);
  set_exitCode := fun _ s => s
|}.

Definition sample_config : KeeperConfig :=
  match loadConfig sample_environment with
  | Ok c => c
  | Throw _ =>
      {| kc_NODE_ENV := ""; kc_RPC_URLS := []; kc_KEEPER_PRIVATE_KEY := ""; kc_DEPLOYER_ADDRESS := "";
         kc_KEEPER_ADDRESS := ""; kc_KEEPER_MIN_BALANCE_WEI := 0; kc_KEEPER_MAX_BALANCE_WEI := 0;
         kc_POLL_INTERVAL_MS := 0; kc_KEEPER_RECEIPT_WAIT_MS := 0; kc_KEEPER_CONFIRMATIONS := 0;
         kc_KEEPER_AUTO_ENTRY_SCAN_SIZE := 0; kc_KEEPER_HISTORICAL_SCAN_SIZE := 0; kc_KEEPER_JOURNAL_PATH := "";
         kc_KEEPER_MANIFEST_PATH := ""; kc_GAS_POLICY := DEFAULT_GAS_POLICY |}
  end.

Lemma keeperMain_releases_witness :
  (keeperMain sample_config 5 service (0%nat, @nil string)).1 = Ok (Some tt) /\
  exists s2 r, releaseProcessLock s2 = (r, (keeperMain sample_config 5 service (0%nat, @nil string)).2).
Proof.
  destruct (keeperMain_releases (H0 := sample_program) sample_config 5 service (0%nat, @nil string) (0%nat, @nil string) eq_refl) as [Hrel Hrun].
  split; [|exact Hrel].
  assert (H0 : keeperStart sample_config (0%nat, @nil string) = (Ok tt, (0%nat, []))) by (vm_compute; reflexivity).
  specialize (Hrun 2%nat (0%nat, []) eq_refl H0).
  assert (H1 : (2 <= 5)%nat) by lia. specialize (Hrun H1 eq_refl).
  assert (H2 : forall m, (m < 2)%nat ->
    stopping (after_polls m (log_line "keeper startup validation passed" (0%nat, @nil string))) = false).
  { intros [|[|m]] Hm; [reflexivity|reflexivity|lia]. }
  specialize (Hrun H2). revert Hrun. destruct (releaseProcessLock _) as [r s4] eqn:E.
  intros ->. vm_compute in E. injection E as <- <-. reflexivity.
Defined.
