(* ===== verification/Transactions.v ===== *)
(** * Transactions and withdrawals in the browser:
    frontend/lib/leopold/transactions.ts and frontend/lib/leopold/withdrawal.ts

    The stages a transaction goes through, the record of public transactions
    kept in the browser's storage, the checkpoint an interrupted deposit is
    resumed from, and the preparation of a withdrawal. *)
From Stdlib Require Import ZArith Lia Ascii.
From stdpp Require Import base option list sets strings sorting.
From S2P Require Import Prelude.
Local Open Scope Z_scope.

Inductive TransactionStage : Type :=
| ready | wallet | submitted | confirming
| approval_simulating | approval_signature | approval_submitted | approval_confirming | allowance_refresh
| wrap_simulating | wrap_signature | wrap_submitted | wrap_confirming
| save_encrypting | save_simulating | save_signature | save_submitted | save_confirming | save_receipt | save_post_refresh
| withdraw_round_check | withdraw_round_advance_simulating | withdraw_round_advance_signature
| withdraw_round_advance_submitted | withdraw_round_advance_confirming | withdraw_refresh
| withdraw_simulating | withdraw_signature | withdraw_submitted | withdraw_confirming | withdraw_receipt
| private_processing | complete | failed.

#[export] Instance TransactionStage_eq_dec : EqDecision TransactionStage.
Proof. solve_decision. Defined.

(** The label of a stage. *)
Definition transactionStageLabel (stage : TransactionStage) : string :=
  match stage with
  | ready => "Ready"
  | wallet => "Waiting for wallet"
  | submitted => "Submitted"
  | confirming => "Confirming"
  | approval_simulating => "Simulating approval"
  | approval_signature => "Waiting for approval signature"
  | approval_submitted => "Approval submitted"
  | approval_confirming => "Confirming approval"
  | allowance_refresh => "Refreshing USDC allowance"
  | wrap_simulating => "Simulating private conversion"
  | wrap_signature => "Waiting for private conversion signature"
  | wrap_submitted => "Private conversion submitted"
  | wrap_confirming => "Confirming private conversion"
  | save_encrypting => "Encrypting private deposit"
  | save_simulating => "Simulating vault deposit"
  | save_signature => "Waiting for vault deposit signature"
  | save_submitted => "Vault deposit submitted"
  | save_confirming => "Confirming vault deposit"
  | save_receipt => "Vault deposit receipt confirmed"
  | save_post_refresh => "Refreshing vault state"
  | withdraw_round_check => "Checking withdrawal eligibility"
  | withdraw_round_advance_simulating => "Preparing withdrawal"
  | withdraw_round_advance_signature => "Confirm preparation"
  | withdraw_round_advance_submitted => "Withdrawal preparation submitted"
  | withdraw_round_advance_confirming => "Confirming withdrawal preparation"
  | withdraw_refresh => "Refreshing round state"
  | withdraw_simulating => "Simulating withdrawal"
  | withdraw_signature => "Waiting for withdrawal signature"
  | withdraw_submitted => "Withdrawal submitted"
  | withdraw_confirming => "Confirming withdrawal"
  | withdraw_receipt => "Withdrawal receipt confirmed"
  | private_processing => "Private processing"
  | complete => "Complete"
  | failed => "Failed"
  end.

Definition busyStages : list TransactionStage :=
  [wallet; submitted; confirming;
   approval_simulating; approval_signature; approval_submitted; approval_confirming; allowance_refresh;
   wrap_simulating; wrap_signature; wrap_submitted; wrap_confirming;
   save_encrypting; save_simulating; save_signature; save_submitted; save_confirming; save_receipt; save_post_refresh;
   withdraw_round_check; withdraw_round_advance_simulating; withdraw_round_advance_signature;
   withdraw_round_advance_submitted; withdraw_round_advance_confirming; withdraw_refresh;
   withdraw_simulating; withdraw_signature; withdraw_submitted; withdraw_confirming; withdraw_receipt;
   private_processing].

Definition transactionIsBusy (stage : TransactionStage) : bool := bool_decide (stage ∈ busyStages).

Inductive OperationStage : Type := Approval | Wrap | Save.
#[export] Instance OperationStage_eq_dec : EqDecision OperationStage.
Proof. solve_decision. Defined.

Record SafeTransactionRecord := {
  tx_id : string;
  tx_kind : string;
  tx_operationId : option string;
  tx_operationStage : option OperationStage;
  tx_hash : option string;
  tx_chainId : Z;
  tx_account : string;
  tx_stage : TransactionStage;
  tx_errorStage : option TransactionStage;
  tx_updatedAt : Z
}.

#[export] Instance SafeTransactionRecord_eq_dec : EqDecision SafeTransactionRecord.
Proof. solve_decision. Defined.

Record V2AddMoneyCheckpoint := {
  cp_operationId : string;
  cp_records : list SafeTransactionRecord;
  cp_approval : option SafeTransactionRecord;
  cp_wrap : option SafeTransactionRecord;
  cp_save : option SafeTransactionRecord
}.

(** ** The checkpoint of a deposit *)

(** The operation a record belongs to, if the loop does not skip it. *)
Definition operationOf (record : SafeTransactionRecord) : option string :=
  match tx_operationId record with
  | Some id => if negb (bool_decide (tx_kind record = "v2-add-money")) || negb (string_nonempty id) then None else Some id
  | None => None
  end.

(** One iteration of the grouping loop. *)
Definition group_record (grouped : list (string * list SafeTransactionRecord)) (record : SafeTransactionRecord)
    : list (string * list SafeTransactionRecord) :=
  match operationOf record with
  | None => grouped
  | Some id => map_set id (default [] (map_get id grouped) ++ [record]) grouped
  end.

Definition group_records (records : list SafeTransactionRecord) : list (string * list SafeTransactionRecord) :=
  fold_left group_record records [].

Definition newest_first (left right : SafeTransactionRecord) : Z := tx_updatedAt right - tx_updatedAt left.
Definition newest (group : list SafeTransactionRecord) : Z :=
  match group with record :: _ => tx_updatedAt record | [] => 0 end.
Definition newest_group_first (left right : list SafeTransactionRecord) : Z := newest right - newest left.

Definition hash_present (record : SafeTransactionRecord) : bool :=
  match tx_hash record with Some h => string_nonempty h | None => false end.

Definition latestForStage (operation : list SafeTransactionRecord) (stage : OperationStage) : option SafeTransactionRecord :=
  let of_stage record := bool_decide (tx_operationStage record = Some stage) in
  match List.find (fun record => of_stage record && hash_present record) operation with
  | Some record => Some record
  | None => List.find of_stage operation
  end.

Definition findLatestV2AddMoneyCheckpoint (records : list SafeTransactionRecord) : option V2AddMoneyCheckpoint :=
  let operations := js_sort newest_group_first (js_sort newest_first <$> (group_records records).*2) in
  match operations with
  | (first :: rest) :: _ =>
      let operation := first :: rest in
      match tx_operationId first with
      | Some id =>
          if string_nonempty id then
            Some {| cp_operationId := id; cp_records := operation;
                    cp_approval := latestForStage operation Approval;
                    cp_wrap := latestForStage operation Wrap;
                    cp_save := latestForStage operation Save |}
          else None
      | None => None
      end
  | _ => None
  end.

Definition isUnresolvedV2Transaction (record : SafeTransactionRecord) : bool :=
  startsWith "v2-" (tx_kind record) && hash_present record &&
  (bool_decide (tx_stage record = submitted) || bool_decide (tx_stage record = confirming)).

(** ** The browser's record: the storage item holds the records, or nothing a
    parser accepts ([None]) *)
Definition loadSafeTransactions (stored : option (list SafeTransactionRecord)) (account : string)
    : list SafeTransactionRecord :=
  match stored with
  | Some parsed =>
      firstn 20 (List.filter (fun item => bool_decide (toLowerCase (tx_account item) = toLowerCase account)) parsed)
  | None => []
  end.

Definition persistSafeTransaction (stored : option (list SafeTransactionRecord)) (record : SafeTransactionRecord)
    : option (list SafeTransactionRecord) :=
  let existing := List.filter (fun item => negb (bool_decide (tx_id item = tx_id record)))
                    (loadSafeTransactions stored (tx_account record)) in
  Some (firstn 20 (record :: existing)).

(** ** Preparing a withdrawal *)
Record WithdrawalRoundSnapshot := {
  canWithdrawNow : bool;
  canPrepareWithdrawal : bool;
  wr_reason : option string
}.

(** The round read and the transaction that advances it. *)
Class RoundAccess (W : Type) := {
  readRound : method W WithdrawalRoundSnapshot;
  advanceRound : method W unit
}.

Inductive WithdrawalEvent : Type :=
| Stage (stage : TransactionStage)
| RoundRead
| RoundAdvanced.

Section Withdrawal.
Context {W : Type} `{RoundAccess W} (sanitizeTechnicalDetail : js_error -> string).

Definition withdrawal (A : Type) : Type := method (W * list WithdrawalEvent) A.

Definition event (e : WithdrawalEvent) : withdrawal unit := fun '(w, trace) => (Ok tt, (w, trace ++ [e])).
Definition onStage (stage : TransactionStage) : withdrawal unit := event (Stage stage).
Definition read_round : withdrawal WithdrawalRoundSnapshot := event RoundRead ;; on_state readRound.
Definition advance_round : withdrawal unit := event RoundAdvanced ;; on_state advanceRound.

Definition stageError (prefix : string) (error : js_error) : js_error :=
  new_Error (prefix +:+ ": " +:+ sanitizeTechnicalDetail error).

Definition prepareWithdrawalRound : withdrawal WithdrawalRoundSnapshot :=
  onStage withdraw_round_check ;;
  current ← try_catch read_round (fun error => throw_in (stageError "WITHDRAW:ROUND_CHECK" error));
  throw_if (negb (canPrepareWithdrawal current))
    ("WITHDRAW:ROUND_CHECK: " +:+ default "withdrawal unavailable" (wr_reason current)) ;;
  if canWithdrawNow current then mret current
  else
    raced ← try_catch (advance_round ;; mret None)
      (fun error =>
         raced ← try_catch read_round (fun _ => throw_in error);
         if canWithdrawNow raced then mret (Some raced) else throw_in error);
    match raced with
    | Some raced => mret raced
    | None =>
        onStage withdraw_refresh ;;
        refreshed ← try_catch read_round (fun error => throw_in (stageError "WITHDRAW:REFRESH" error));
        throw_if (negb (canWithdrawNow refreshed)) "WITHDRAW:REFRESH: active round is not open" ;;
        mret refreshed
    end.
End Withdrawal.

(** * Properties *)

(** ** Withdrawals *)
Section withdrawal_properties.
Context {W : Type} `{RoundAccess W} (sanitizeTechnicalDetail : js_error -> string).

Definition is_advance (e : WithdrawalEvent) : bool := match e with RoundAdvanced => true | _ => false end.
Definition is_read (e : WithdrawalEvent) : bool := match e with RoundRead => true | _ => false end.

(** The runs a preparation can have: checked and open; checked, advanced and
    read again after a failure; checked, advanced and refreshed. *)
Definition withdrawal_trace (trace : list WithdrawalEvent) : Prop :=
  trace = [Stage withdraw_round_check; RoundRead] \/
  trace = [Stage withdraw_round_check; RoundRead; RoundAdvanced; RoundRead] \/
  trace = [Stage withdraw_round_check; RoundRead; RoundAdvanced; Stage withdraw_refresh; RoundRead].

(** The end of each path. *)
Ltac withdrawal_leaf :=
  split; [by auto|split; [simpl; lia|split]];
  [intros Hadv; first [discriminate Hadv|by eauto]
  |let round := fresh "round" in intros round Hr; first [discriminate Hr|injection Hr as <-; by eauto]].

(** A withdrawal is prepared only on an open round.  Whatever the reads and
    the transaction answer: a round that is returned can be withdrawn from and
    was the last one read; the round is advanced at most once, and only after it
    was read as one that can be prepared but not yet withdrawn from; and the
    stages and calls follow one of three orders. *)
Theorem prepareWithdrawalRound_sound w r w' trace :
  prepareWithdrawalRound sanitizeTechnicalDetail (w, []) = (r, (w', trace)) ->
  withdrawal_trace trace /\
  (length (List.filter is_advance trace) <= 1)%nat /\
  (existsb is_advance trace = true -> exists first w1,
     readRound w = (Ok first, w1) /\ canPrepareWithdrawal first = true /\ canWithdrawNow first = false) /\
  (forall round, r = Ok round -> canWithdrawNow round = true /\ exists w1, readRound w1 = (Ok round, w')).
Proof.
  unfold prepareWithdrawalRound, onStage, read_round, advance_round, event, on_state, try_catch, throw_if, throw_in,
    mbind, method_bind, mret, method_ret, withdrawal_trace. cbn beta iota zeta.
  destruct (readRound w) as [[first|e1] w1] eqn:E1; cbn beta iota zeta.
  2: { intros [= <- <- <-]. withdrawal_leaf. }
  destruct (canPrepareWithdrawal first) eqn:Ep; cbn [negb]; [|intros [= <- <- <-]; withdrawal_leaf].
  destruct (canWithdrawNow first) eqn:En; cbn beta iota zeta; [intros [= <- <- <-]; withdrawal_leaf|].
  destruct (advanceRound w1) as [[[]|e2] w2]; cbn beta iota zeta;
    destruct (readRound w2) as [[second|e3] w3] eqn:E2; cbn beta iota zeta;
    try (destruct (canWithdrawNow second) eqn:Es; cbn [negb]); intros [= <- <- <-]; withdrawal_leaf.
Qed.
End withdrawal_properties.

(** ** The stored transactions *)

(** Storing a transaction forgets the other accounts.  After a record of one
    account is stored, nothing of another account can be read back, although
    both share the storage item; the account itself reads the record first,
    then its earlier records without this id, twenty at most. *)
Theorem persistSafeTransaction_forgets stored record other :
  toLowerCase other <> toLowerCase (tx_account record) ->
  loadSafeTransactions (persistSafeTransaction stored record) other = [] /\
  loadSafeTransactions (persistSafeTransaction stored record) (tx_account record) =
    firstn 20 (record :: List.filter (fun item => negb (bool_decide (tx_id item = tx_id record)))
                           (loadSafeTransactions stored (tx_account record))).
Proof.
  intros Hne.
  assert (Hsame : Forall (fun item => toLowerCase (tx_account item) = toLowerCase (tx_account record))
    (firstn 20 (record :: List.filter (fun item => negb (bool_decide (tx_id item = tx_id record)))
                           (loadSafeTransactions stored (tx_account record))))).
  { apply Forall_take. constructor; [done|]. apply Forall_forall. intros item Hi.
    assert (Hin : In item (loadSafeTransactions stored (tx_account record))).
    { apply filter_In with (f := fun item => negb (bool_decide (tx_id item = tx_id record))).
      first [exact Hi|by apply list_elem_of_In]. }
    unfold loadSafeTransactions in Hin. destruct stored as [parsed|]; [|done].
    apply list_elem_of_In, elem_of_take in Hin as (i & Hin & _). apply list_elem_of_lookup_2, list_elem_of_In, filter_In in Hin as [_ Hin].
    by bool_to_prop. }
  assert (Hlen : (length (firstn 20 (record :: List.filter (fun item => negb (bool_decide (tx_id item = tx_id record)))
                           (loadSafeTransactions stored (tx_account record)))) <= 20)%nat) by apply firstn_le_length.
  unfold persistSafeTransaction. revert Hsame Hlen. set (l := firstn 20 _). clearbody l. intros Hsame Hlen.
  unfold loadSafeTransactions. split.
  - assert (E : List.filter (fun item => bool_decide (toLowerCase (tx_account item) = toLowerCase other)) l = []).
    { clear Hlen. induction Hsame as [|x l Hx _ IH]; simpl; [done|]. rewrite bool_decide_false by congruence. exact IH. }
    by rewrite E.
  - assert (E : List.filter (fun item => bool_decide (toLowerCase (tx_account item) = toLowerCase (tx_account record))) l = l).
    { clear Hlen. induction Hsame as [|x l Hx _ IH]; simpl; [done|]. rewrite bool_decide_true by done. by rewrite IH. }
    rewrite E. by apply take_ge.
Qed.


(** ** The checkpoint of a deposit *)

(** The records of one operation, in the order stored. *)
Definition records_of (id : string) (records : list SafeTransactionRecord) : list SafeTransactionRecord :=
  List.filter (fun record => bool_decide (operationOf record = Some id)) records.

Lemma records_of_snoc id records record :
  records_of id (records ++ [record]) =
    records_of id records ++ (if bool_decide (operationOf record = Some id) then [record] else []).
Proof. unfold records_of. rewrite List.filter_app. simpl. by case_bool_decide. Qed.

(** Grouping collects each operation's records. *)
Lemma group_records_get id records :
  map_get id (group_records records) = match records_of id records with [] => None | group => Some group end.
Proof.
  unfold group_records. induction records as [|record records IH] using rev_ind; [done|].
  rewrite fold_left_app, records_of_snoc. cbn [fold_left]. unfold group_record at 1.
  destruct (operationOf record) as [id'|] eqn:E.
  - rewrite map_get_set. case_decide as Hd.
    + subst id'. rewrite bool_decide_true by done. rewrite IH. by destruct (records_of id records).
    + rewrite bool_decide_false by congruence. by rewrite app_nil_r.
  - rewrite bool_decide_false by done. by rewrite app_nil_r.
Qed.

Lemma group_records_NoDup records : NoDup (group_records records).*1.
Proof.
  unfold group_records. induction records as [|record records IH] using rev_ind; [constructor|].
  rewrite fold_left_app. cbn [fold_left]. unfold group_record at 1.
  destruct (operationOf record); [by apply map_set_NoDup|done].
Qed.

Lemma group_records_elem id group records :
  (id, group) ∈ group_records records <-> group = records_of id records /\ group <> [].
Proof.
  pose proof (group_records_get id records) as Hg. split.
  - intros Hin. apply map_get_elem in Hin; [|apply group_records_NoDup]. rewrite Hin in Hg.
    destruct (records_of id records); [done|]. by injection Hg as ->.
  - intros [-> Hne]. apply map_get_Some_elem. rewrite Hg. by destruct (records_of id records).
Qed.

#[local] Instance newest_first_comparator : Comparator newest_first.
Proof. split; unfold newest_first; intros; lia. Qed.
#[local] Instance newest_group_first_comparator : Comparator newest_group_first.
Proof. split; unfold newest_group_first; intros; lia. Qed.

Lemma operationOf_records_of id records record : record ∈ records_of id records -> operationOf record = Some id.
Proof. intros Hin. apply list_elem_of_In, filter_In in Hin as [_ Hin]. by bool_to_prop. Qed.

Lemma operationOf_Some record id :
  operationOf record = Some id -> tx_operationId record = Some id /\ string_nonempty id = true.
Proof.
  unfold operationOf. destruct (tx_operationId record) as [i|]; [|done].
  destruct (negb _ || negb (string_nonempty i)) eqn:E; [done|]. intros [= <-]. bool_to_prop. done.
Qed.

(** A group sorted newest first begins with its newest record. *)
Lemma newest_sorted group record :
  record ∈ group -> tx_updatedAt record <= newest (js_sort newest_first group).
Proof.
  intros Hin. destruct (js_sort newest_first group) as [|first rest] eqn:E.
  { apply js_sort_nil_inv in E. subst. set_solver. }
  destruct (js_sort_head newest_first first group rest E) as [_ Hmin]. simpl.
  destruct (Hmin record Hin) as [->|Hle]; [lia|]. unfold newest_first in Hle. lia.
Qed.

Lemma latestForStage_spec operation stage :
  match latestForStage operation stage with
  | Some record =>
      record ∈ operation /\ tx_operationStage record = Some stage /\
      (hash_present record = false ->
       forall other, other ∈ operation -> tx_operationStage other = Some stage -> hash_present other = false)
  | None => forall other, other ∈ operation -> tx_operationStage other <> Some stage
  end.
Proof.
  unfold latestForStage. destruct (List.find _ operation) as [record|] eqn:E1.
  - apply find_Some_in in E1 as [Hin Hp]. bool_to_prop. split_and!; congruence.
  - rewrite find_None_all in E1.
    assert (Hno : forall other, other ∈ operation -> tx_operationStage other = Some stage -> hash_present other = false).
    { intros other Ho Hs. specialize (E1 other Ho). rewrite bool_decide_true in E1 by done. done. }
    destruct (List.find _ operation) as [record|] eqn:E2.
    + apply find_Some_in in E2 as [Hin Hp]. bool_to_prop. by split_and!.
    + rewrite find_None_all in E2. intros other Ho Hs. specialize (E2 other Ho). bool_to_prop. done.
Qed.

(** The record a checkpoint has for a step. *)
Definition record_for (cp : V2AddMoneyCheckpoint) (stage : OperationStage) : option SafeTransactionRecord :=
  match stage with Approval => cp_approval cp | Wrap => cp_wrap cp | Save => cp_save cp end.

(** A deposit resumes from its latest operation.  The checkpoint found holds
    exactly the records of one deposit operation, newest first, and no record of
    any deposit is newer than its first; for each of the three steps it gives a
    record of that step, one with a transaction hash whenever the operation has
    one; and there is no checkpoint exactly when no record belongs to a deposit. *)
Theorem findLatestV2AddMoneyCheckpoint_spec records :
  match findLatestV2AddMoneyCheckpoint records with
  | Some cp =>
      cp_records cp ≡ₚ records_of (cp_operationId cp) records /\ cp_records cp <> [] /\
      StronglySorted (fun a b => newest_first a b <= 0) (cp_records cp) /\
      (forall record, record ∈ records -> operationOf record <> None ->
         tx_updatedAt record <= newest (cp_records cp)) /\
      (forall stage, match record_for cp stage with
         | Some record =>
             record ∈ cp_records cp /\ tx_operationStage record = Some stage /\
             (hash_present record = false -> forall other, other ∈ cp_records cp ->
                tx_operationStage other = Some stage -> hash_present other = false)
         | None => forall other, other ∈ cp_records cp -> tx_operationStage other <> Some stage
         end)
  | None => forall record, record ∈ records -> operationOf record = None
  end.
Proof.
  unfold findLatestV2AddMoneyCheckpoint.
  set (groups := js_sort newest_first <$> (group_records records).*2).
  assert (Hg : forall g, g ∈ groups <-> exists id, g = js_sort newest_first (records_of id records) /\ records_of id records <> []).
  { intros g. unfold groups. rewrite list_elem_of_fmap. split.
    - intros (h & -> & ([id h'] & -> & Hin)%list_elem_of_fmap). apply group_records_elem in Hin as [-> Hne]. eauto.
    - intros (id & -> & Hne). eexists. split; [done|]. apply list_elem_of_fmap. exists (id, records_of id records).
      split; [done|]. by apply group_records_elem. }
  assert (Hin : forall record id, record ∈ records -> operationOf record = Some id -> record ∈ records_of id records).
  { intros record id Hr Ho. apply list_elem_of_In, filter_In. split; [by apply list_elem_of_In|]. by apply bool_decide_true. }
  destruct (js_sort newest_group_first groups) as [|top others] eqn:E.
  - apply js_sort_nil_inv in E. intros record Hr. destruct (operationOf record) as [id|] eqn:Ho; [|done].
    exfalso. assert (Hne : records_of id records <> []) by (intros Hn; pose proof (Hin record id Hr Ho); rewrite Hn in *; set_solver).
    assert (Hgin : js_sort newest_first (records_of id records) ∈ groups) by (apply Hg; eauto).
    rewrite E in Hgin. set_solver.
  - apply js_sort_head in E as [Htop Hmin]; [|apply _]. apply Hg in Htop as (id & -> & Hne).
    destruct (js_sort newest_first (records_of id records)) as [|first rest] eqn:Es.
    { by apply js_sort_nil_inv in Es. }
    assert (Hperm : first :: rest ≡ₚ records_of id records) by (rewrite <- Es; apply js_sort_Permutation).
    assert (Hfirst : operationOf first = Some id).
    { apply (operationOf_records_of id records). rewrite <- Hperm. set_solver. }
    destruct (operationOf_Some first id Hfirst) as [-> ->]. cbn [cp_records cp_operationId cp_approval cp_wrap cp_save].
    split_and!; try done.
    + rewrite <- Es. apply js_sort_sorted. apply _.
    + intros record Hr Ho. destruct (operationOf record) as [id'|] eqn:Eo; [|done].
      pose proof (Hin record id' Hr Eo) as Hmem.
      assert (Hgin : js_sort newest_first (records_of id' records) ∈ groups).
      { apply Hg. exists id'. split; [done|]. intros Hn. rewrite Hn in Hmem. set_solver. }
      pose proof (newest_sorted _ _ Hmem) as Hle.
      destruct (Hmin _ Hgin) as [Heq|Hcmp]; [rewrite Heq in Hle; exact Hle|].
      unfold newest_group_first in Hcmp. lia.
    + intros stage. pose proof (latestForStage_spec (first :: rest) stage) as Hl. destruct stage; exact Hl.
Qed.

(** * Concrete instances *)
Definition sample_record (id account : string) (stage : OperationStage) (hash : option string) (at_ : Z)
    : SafeTransactionRecord :=
  {| tx_id := id; tx_kind := "v2-add-money"; tx_operationId := Some "op"; tx_operationStage := Some stage;
     tx_hash := hash; tx_chainId := 11155111; tx_account := account; tx_stage := submitted; tx_errorStage := None;
     tx_updatedAt := at_ |}.

Lemma persistSafeTransaction_forgets_witness :
  loadSafeTransactions
    (persistSafeTransaction (Some [sample_record "1" "0xb" Approval None 1]) (sample_record "2" "0xa" Wrap None 2)) "0xB"
  = [].
Proof.
  apply (persistSafeTransaction_forgets (Some [sample_record "1" "0xb" Approval None 1]) (sample_record "2" "0xa" Wrap None 2) "0xB").
  vm_compute. discriminate.
Defined.

(** A round that opens once it is advanced. *)
#[local] Instance sample_round : RoundAccess bool := {|
  readRound := fun w => (Ok {| canWithdrawNow := w; canPrepareWithdrawal := true; wr_reason := None |}, w);
  advanceRound := fun _ => (Ok tt, true)
|}.

Lemma prepareWithdrawalRound_sound_witness :
  exists round trace, prepareWithdrawalRound (fun _ => "") (false, []) = (Ok round, (true, trace)) /\
    canWithdrawNow round = true /\ withdrawal_trace trace.
Proof.
  destruct (prepareWithdrawalRound (fun _ => "") (false, [])) as [[round|e] [w trace]] eqn:E; [|vm_compute in E; discriminate E].
  exists round, trace.
  destruct (prepareWithdrawalRound_sound (fun _ => "") false (Ok round) w trace E) as (Ht & _ & _ & Hr).
  split; [|split; [apply (Hr round eq_refl)|exact Ht]].
  vm_compute in E. injection E as <- <- <-. reflexivity.
Defined.
