(* ===== verification/Clients.v ===== *)
(** * The clients of the browser: what an action calls, and the private session

    frontend/lib/leopold/zama.ts and frontend/lib/leopold/v2-preview-config.ts.
    The wallet, the public client and the relayer SDK are the class [ClientEnv];
    an action is a computation [io] over the environment, the metrics, the
    module variables of zama.ts and a trace of what the action did, in order.
    The failures an action can throw keep what errors are classified by. *)
From Stdlib Require Import ZArith Lia Ascii.
From stdpp Require Import base option list sets strings.
From S2P Require Import Prelude WalletAddress Reliability Transactions.
Local Open Scope Z_scope.

(** ** Failures *)
Inductive V2AddMoneyStage : Type := stage_approval | stage_wrap | stage_save.

#[export] Instance V2AddMoneyStage_eq_dec : EqDecision V2AddMoneyStage.
Proof. solve_decision. Defined.

(** What an action throws: an error as any read may throw it, or the error that
    carries the hash of a transaction whose receipt could not be read. *)
Inductive Thrown : Type :=
| Failure (error : ReadFailure)
| ReconciliationPending (stage hash : string) (cause : ReadFailure) (transactionStage : option V2AddMoneyStage).

(** [error instanceof Error ? error.message : String(error)] *)
Definition failure_message (error : ReadFailure) : string :=
  match error with
  | ReadTimeoutError timeoutMs => "READ_TIMEOUT:" +:+ Z_toString timeoutMs
  | HttpReadError status => "HTTP_READ_ERROR:" +:+ Z_toString status
  | OtherError _ message => message
  | NotAnError text => text
  end.

(** The same error seen by the functions that classify errors. *)
Definition failure_of (error : Thrown) : ReadFailure :=
  match error with
  | Failure failure => failure
  | ReconciliationPending stage hash _ _ =>
      OtherError "V2TransactionReconciliationPendingError"
        ("V2_ACTION:" +:+ stage +:+ ":reconciliation-pending:" +:+ hash)
  end.

Definition thrown_message (error : Thrown) : string := failure_message (failure_of error).

(** [new Error(message)] *)
Definition plain_error (message : string) : Thrown := Failure (OtherError "Error" message).

(** ** Calls of the contracts *)
Inductive UintCall : Type :=
| balanceOf (account : string) | allowance (owner spender : string)
| BOND_AMOUNT | automationBondCredit (account : string)
| activeRoundId | settlementRewardCredit (account : string).
Inductive AddressCall : Type := ASSET | UNDERLYING | underlying | adapter_vault | adapter_asset | COMET.
Inductive HandleCall : Type :=
| principalOf (account : string) | winningsOf (account : string) | confidentialBalanceOf (account : string).
Inductive BoolCall : Type :=
| isAutoEntryEnabled (account : string) (roundId : Z)
| isRegistered (roundId : Z) (account : string)
| refundClaimed (roundId : Z) (account : string).
Inductive TupleCall : Type := autoEntryPreference (account : string) | roundInfo (roundId : Z).

(** A component of a decoded tuple, and the tuple as an [unknown]. *)
Inductive TupleItem : Type := item_bool (b : bool) | item_bigint (z : Z) | item_number (z : Z).
Inductive TupleAnswer : Type := tuple_array (items : list TupleItem) | not_an_array.

Inductive WriteCall : Type :=
| call_approve (spender : string) (amount : Z)
| call_wrap (to : string) (amount : Z)
| call_confidentialTransferAndCall (to encryptedAmount inputProof data : string)
| call_unwrap (from to encryptedAmount inputProof : string)
| call_finalizeUnwrap (unwrapRequestId : string) (clear : Z) (decryptionProof : string)
| call_withdraw (encryptedAmount inputProof : string)
| call_withdrawWinnings (encryptedAmount inputProof : string)
| call_depositAutomationBondCredit
| call_withdrawAutomationBondCredit (amount : Z)
| call_setAutoEntry (enabled : bool)
| call_claimBondRefund (roundId : Z)
| call_withdrawSettlementRewards
| call_registerForRound (roundId : Z)
| call_closeRound
| call_materializeMyRoundWeight (roundId : Z).

Record WriteRequest := { wr_address : string; wr_call : WriteCall; wr_value : option Z }.

(** A request without a value. *)
Definition write_request (address : string) (call : WriteCall) : WriteRequest :=
  {| wr_address := address; wr_call := call; wr_value := None |}.

(** ** Answers of the chain and of the relayer *)
Record Log := { log_address : string; log_topics : list string; log_data : string }.
Record Receipt := { rc_success : bool; rc_logs : list Log }.
Record ChainTransaction := { ct_from : string; ct_to : option string; ct_input : string }.
(** [decodeFunctionData]: a call of one of the functions above, or of another
    function of the ABI. *)
Inductive DecodedCall : Type := decoded_write (call : WriteCall) | decoded_other (functionName : string).

(** A clear value of the relayer, read by its [typeof]. *)
Inductive ClearValue : Type := clear_bigint (z : Z) | clear_text (s : string) | clear_other.
Record EncryptedInput := { ei_values : list (option string); ei_inputProof : option string }.
Record PublicDecryption := {
  pd_clearValues : list (string * ClearValue);
  pd_abiEncodedClearValues : option string;
  pd_decryptionProof : option string
}.

(** What the SDK was configured with: the wallet client it signs with, or none
    when it was given one made from the provider for [sdk_account]. *)
Record ZamaSDK := { sdk_walletClient : option Z; sdk_ethereum : Z; sdk_account : string }.

Class ClientEnv (W : Type) := {
  env_reads :: ReadRuntime W;
  walletChainId : W -> (Z + ReadFailure) * W;
  publicChainId : W -> (Z + ReadFailure) * W;
  getBlockNumber : W -> (Z + ReadFailure) * W;
  readUint : string -> UintCall -> option Z -> W -> (Z + ReadFailure) * W;
  readAddress : string -> AddressCall -> W -> (string + ReadFailure) * W;
  readHandle : string -> HandleCall -> W -> (string + ReadFailure) * W;
  readBool : string -> BoolCall -> W -> (bool + ReadFailure) * W;
  readTuple : string -> TupleCall -> W -> (TupleAnswer + ReadFailure) * W;
  simulateContract : string -> WriteRequest -> W -> (option Z + ReadFailure) * W;
  writeContract : string -> WriteRequest -> option Z -> W -> (string + ReadFailure) * W;
  callContract : string -> string -> string -> W -> (unit + ReadFailure) * W;
  sendTransaction : string -> string -> string -> W -> (string + ReadFailure) * W;
  waitForTransactionReceipt : string -> W -> (Receipt + ReadFailure) * W;
  getTransactionReceipt : string -> W -> (Receipt + ReadFailure) * W;
  getTransaction : string -> W -> (ChainTransaction + ReadFailure) * W;
  decodeWrapperData : string -> DecodedCall + ReadFailure;
  decodeErc20Data : string -> DecodedCall + ReadFailure;
  parseUnwrapRequested : list Log -> list string;
  importSdk : W -> (unit + ReadFailure) * W;
  sdkEncrypt : ZamaSDK -> Z -> string -> string -> W -> (EncryptedInput + ReadFailure) * W;
  sdkDecryptValues : ZamaSDK -> string -> string -> W -> (list (string * ClearValue) + ReadFailure) * W;
  sdkDecryptPublicValues : ZamaSDK -> list string -> W -> (PublicDecryption + ReadFailure) * W
}.

(** ** What an action is given *)
Inductive WalletAccount : Type := account_string (address : string) | account_object (address : string).

(** [walletClient] and [ethereum] are objects: an identity each. *)
Record ActionClients := {
  cl_walletClient : Z;
  cl_walletAccount : option WalletAccount;
  cl_ethereum : Z;
  cl_account : string
}.

Inductive V2ActionStage : Type :=
| precondition_read | approval | preparing_funds | adding_to_savings | entry_balance | prize_savings
| withdrawal | unwrapping | reveal | claim | reconcile.

Inductive PrivateBalanceRevealStage : Type :=
| READING_HANDLE | AWAITING_DECRYPT_AUTHORIZATION | DECRYPTING | REVALIDATING_HANDLE | REVEALED.

Record PrivateBalanceIdentity := { pi_chainId : Z; pi_account : string; pi_token : string; pi_handle : string }.

Record V2ActionStep := { step_current : Z; step_total : Z; step_label : string }.

(** ** What an action did *)
(** What a check of the wallet compared: the signer, and the chains that were read. *)
Record WalletCheck := { wc_stage : string; wc_signer : option string; wc_chains : list Z }.

Inductive Event : Type :=
| WalletChecked (check : WalletCheck)
| ReadUint (address : string) (call : UintCall) (value : Z)
| ReadHandle (address : string) (call : HandleCall) (value : string)
| ReadBool (address : string) (call : BoolCall) (value : bool)
| ReadTuple (address : string) (call : TupleCall) (value : TupleAnswer)
| Encrypted (contract : string) (amount : Z) (encryptedValue inputProof : string)
| Decrypted (contract handle : string) (clear : Z)
| PublicDecrypted (handle : string) (clear : Z) (decryptionProof : string)
| Simulated (account : string) (request : WriteRequest) (gas : option Z)
| WriteSubmitted (account : string) (request : WriteRequest) (gas : option Z) (outcome : string + ReadFailure)
| CallSimulated (account to data : string)
| TransactionSent (account to data : string) (outcome : string + ReadFailure)
| ReceiptRead (hash : string) (success : bool)
| OnHash (hash : string) (stage : option V2AddMoneyStage)
| OnReceipt (hash : string) (stage : option V2AddMoneyStage)
| OnV2Stage (stage : V2ActionStage)
| OnStage (stage : TransactionStage)
| OnStep (step : V2ActionStep)
| OnRevealStage (stage : PrivateBalanceRevealStage)
| OnIdentity (identity : PrivateBalanceIdentity).

(** The module variables of zama.ts: [cachedSigner] is the wallet client, or the
    provider when there is none. *)
Inductive Signer : Type := wallet_signer (id : Z) | ethereum_signer (id : Z).
#[export] Instance Signer_eq_dec : EqDecision Signer.
Proof. solve_decision. Defined.

Record ZamaCache := {
  zc_activeIdentity : string;
  zc_cachedSdk : option ZamaSDK;
  zc_cachedSigner : option Signer
}.

Record ClientState (W : Type) := ClientStateOf {
  cs_world : W;
  cs_metrics : MetricsState;
  cs_zama : ZamaCache;
  cs_trace : list Event
}.
Arguments ClientStateOf {W} _ _ _ _.
Arguments cs_world {W} _.
Arguments cs_metrics {W} _.
Arguments cs_zama {W} _.
Arguments cs_trace {W} _.

(** ** Computations *)
Definition io (W A : Type) : Type := ClientState W -> (A + Thrown) * ClientState W.

#[export] Instance io_ret W : MRet (io W) := fun A a s => (inl a, s).
#[export] Instance io_bind W : MBind (io W) := fun A B f m s =>
  match m s with
  | (inl a, s') => f a s'
  | (inr e, s') => (inr e, s')
  end.

Section Computations.
Context {W : Type}.

Definition raise {A} (error : Thrown) : io W A := fun s => (inr error, s).
(** [if (c) throw new Error(message);] *)
Definition raise_if (c : bool) (message : string) : io W unit :=
  fun s => (if c then inr (plain_error message) else inl tt, s).
(** [try { m } catch (error) { throw h(error); }] *)
Definition rethrow {A} (m : io W A) (h : Thrown -> Thrown) : io W A := fun s =>
  match m s with (inl a, s') => (inl a, s') | (inr e, s') => (inr (h e), s') end.
Definition emit (event : Event) : io W unit := fun s =>
  (inl tt, ClientStateOf (cs_world s) (cs_metrics s) (cs_zama s) (cs_trace s ++ [event])).
Definition emit_if (c : bool) (event : Event) : io W unit := if c then emit event else mret tt.
(** A call of the environment. *)
Definition perform {A} (f : W -> (A + ReadFailure) * W) : io W A := fun s =>
  let '(r, w) := f (cs_world s) in
  (match r with inl a => inl a | inr e => inr (Failure e) end,
   ClientStateOf w (cs_metrics s) (cs_zama s) (cs_trace s)).
Definition lift_sum {A} (r : A + ReadFailure) : io W A := fun s =>
  (match r with inl a => inl a | inr e => inr (Failure e) end, s).
Definition io_all2 {A B} (p : io W A) (q : io W B) : io W (A * B) := fun s =>
  let '(r1, s1) := p s in
  let '(r2, s2) := q s1 in
  (match r1, r2 with
   | inl a, inl b => inl (a, b)
   | inl _, inr e => inr e
   | inr e, _ => inr e
   end, s2).
(** [Promise.all([p, q, r])] *)
Definition io_all3 {A B C} (p : io W A) (q : io W B) (r : io W C) : io W (A * B * C) :=
  io_all2 (io_all2 p q) r.

(** [withReadReliability(read, options)] and [submitFinancialWriteOnce(write)]
    on the client's state. *)
Definition reliably `{ReadRuntime W} {A} (f : W -> (A + ReadFailure) * W) (options : ReadReliabilityOptions)
    : io W A := fun s =>
  let '(r, rs) := withReadReliability (fun _ => f) options (ReadStateOf (cs_world s) (cs_metrics s) []) in
  (match r with inl a => inl a | inr e => inr (Failure e) end,
   ClientStateOf (rs_world rs) (rs_metrics rs) (cs_zama s) (cs_trace s)).
Definition submit `{ReadRuntime W} (f : W -> (string + ReadFailure) * W) (record : string + ReadFailure -> Event)
    : io W string := fun s =>
  let '(r, rs) := submitFinancialWriteOnce f (ReadStateOf (cs_world s) (cs_metrics s) []) in
  (match r with inl a => inl a | inr e => inr (Failure e) end,
   ClientStateOf (rs_world rs) (rs_metrics rs) (cs_zama s) (cs_trace s ++ [record r])).
End Computations.

(** The addresses of the second generation. *)
Section V2PreviewAddresses.
Context `{Viem}.
Definition V2_PREVIEW_CHAIN_ID : Z := 11155111.
Definition V2_wrapper : string := getAddress "0x3AD7490852eA0cf16F654Ce854B87227b4369b91".
Definition V2_vault : string := getAddress "0x511c8ac93BC285662B9dbDF65a0a9E2Fb11e8c86".
Definition V2_adapter : string := getAddress "0xaF86E3a111DEE690Fa37b986D5F777689488938d".
Definition V2_escrow : string := getAddress "0x18F5C545D7f18350BEf44aC5C34D55B7C3b95E80".
Definition V2_usdc : string := getAddress "0x1c7D4B196Cb0C7B01d743Fbc6116a902379C7238".
Definition V2_comet : string := getAddress "0xAec1F48e02Cfb822Be958B68C7957156EB3F0b6e".
End V2PreviewAddresses.

Section Clients.
Context {W : Type} `{ClientEnv W}.

(** ** Reads, with what they gave *)
Definition read_uint (address : string) (call : UintCall) (block : option Z) : io W Z :=
  value ← perform (readUint address call block); emit (ReadUint address call value) ;; mret value.
Definition read_handle (address : string) (call : HandleCall) : io W string :=
  value ← perform (readHandle address call); emit (ReadHandle address call value) ;; mret value.
Definition read_bool (address : string) (call : BoolCall) : io W bool :=
  value ← perform (readBool address call); emit (ReadBool address call value) ;; mret value.
Definition read_tuple (address : string) (call : TupleCall) : io W TupleAnswer :=
  value ← perform (readTuple address call); emit (ReadTuple address call value) ;; mret value.

(** [await publicClient.waitForTransactionReceipt({ hash })] *)
Definition await_receipt (hash : string) : io W Receipt :=
  receipt ← perform (waitForTransactionReceipt hash);
  emit (ReceiptRead hash (rc_success receipt)) ;; mret receipt.

(** ** The private session: zama.ts *)
Definition get_zama : io W ZamaCache := fun s => (inl (cs_zama s), s).
Definition set_zama (cache : ZamaCache) : io W unit := fun s =>
  (inl tt, ClientStateOf (cs_world s) (cs_metrics s) cache (cs_trace s)).

Definition session_signer (ethereum : Z) (walletClient : option Z) : Signer :=
  match walletClient with Some client => wallet_signer client | None => ethereum_signer ethereum end.

Definition getZamaSdk (ethereum : Z) (account : string) (walletClient : option Z) : io W ZamaSDK :=
  let identity := toLowerCase account in
  let signer := session_signer ethereum walletClient in
  cache ← get_zama;
  match zc_cachedSdk cache with
  | Some sdk =>
      if bool_decide (zc_activeIdentity cache = identity) && bool_decide (zc_cachedSigner cache = Some signer)
      then mret sdk
      else
        perform importSdk ;;
        let sdk' := {| sdk_walletClient := walletClient; sdk_ethereum := ethereum; sdk_account := account |} in
        set_zama {| zc_activeIdentity := identity; zc_cachedSdk := Some sdk'; zc_cachedSigner := Some signer |} ;;
        mret sdk'
  | None =>
      perform importSdk ;;
      let sdk' := {| sdk_walletClient := walletClient; sdk_ethereum := ethereum; sdk_account := account |} in
      set_zama {| zc_activeIdentity := identity; zc_cachedSdk := Some sdk'; zc_cachedSigner := Some signer |} ;;
      mret sdk'
  end.

Definition clearPrivateSession : io W unit :=
  set_zama {| zc_activeIdentity := ""; zc_cachedSdk := None; zc_cachedSigner := None |}.

Definition encryptPrivateAmount (ethereum : Z) (account contractAddress : string) (amount : Z)
    (walletClient : option Z) : io W (string * string) :=
  sdk ← getZamaSdk ethereum account walletClient;
  encrypted ← perform (sdkEncrypt sdk amount contractAddress account);
  match hd_error (ei_values encrypted), ei_inputProof encrypted with
  | Some (Some encryptedValue), Some inputProof =>
      emit (Encrypted contractAddress amount encryptedValue inputProof) ;;
      mret (encryptedValue, inputProof)
  | _, _ => raise (plain_error "RELAYER_INVALID_ENCRYPTED_INPUT")
  end.

(** [typeof clear === "bigint" ? clear : /^\d+$/u.test(clear) ? BigInt(clear) : null] *)
Definition clear_value (clear : option ClearValue) : option Z :=
  match clear with
  | Some (clear_bigint z) => Some z
  | Some (clear_text text) =>
      if matches_digits text then match BigInt_of_digits text with Ok z => Some z | Throw _ => None end else None
  | _ => None
  end.

Definition decryptPrivateValue (ethereum : Z) (account contractAddress handle : string) (walletClient : option Z)
    : io W Z :=
  sdk ← rethrow (getZamaSdk ethereum account walletClient) (fun _ => plain_error "PRIVATE_BALANCE:SDK_NOT_READY");
  values ← perform (sdkDecryptValues sdk handle contractAddress);
  match clear_value (map_get handle values) with
  | Some clear => emit (Decrypted contractAddress handle clear) ;; mret clear
  | None => raise (plain_error "PRIVATE_BALANCE:RESULT_MISSING")
  end.

(** The clear value, its encoding and its proof. *)
Definition decryptPublicValue (ethereum : Z) (account handle : string) (walletClient : option Z)
    : io W (Z * string * string) :=
  sdk ← getZamaSdk ethereum account walletClient;
  result ← perform (sdkDecryptPublicValues sdk [handle]);
  match clear_value (map_get handle (pd_clearValues result)), pd_abiEncodedClearValues result,
        pd_decryptionProof result with
  | Some clear, Some encoded, Some proof =>
      emit (PublicDecrypted handle clear proof) ;; mret (clear, encoded, proof)
  | _, _, _ => raise (plain_error "RELAYER_INVALID_PUBLIC_DECRYPTION_RESULT")
  end.
End Clients.

(** * Properties *)

(** ** What a computation ends with *)
Definition iwp {W A} (m : io W A) (Q : A + Thrown -> ClientState W -> Prop) (s : ClientState W) : Prop :=
  let '(r, s') := m s in Q r s'.

(** The events a computation adds. *)
Definition adds {W A} (m : io W A) (L : A + Thrown -> list Event -> Prop) : Prop :=
  forall s r s', m s = (r, s') -> exists new, cs_trace s' = cs_trace s ++ new /\ L r new.

(** An event that sends nothing to the chain. *)
Definition quiet (event : Event) : bool :=
  match event with WriteSubmitted _ _ _ _ | TransactionSent _ _ _ _ => false | _ => true end.

Section computation_properties.
Context {W : Type}.
Implicit Types (s : ClientState W).

Lemma adds_mono {A} (m : io W A) (L L' : A + Thrown -> list Event -> Prop) :
  adds m L -> (forall r l, L r l -> L' r l) -> adds m L'.
Proof. intros Hm HL s r s' E. destruct (Hm s r s' E) as (new & ? & ?). eauto. Qed.

Lemma adds_ret {A} (a : A) (L : A + Thrown -> list Event -> Prop) : L (inl a) [] -> adds (mret a : io W A) L.
Proof. intros HL s r s' [= <- <-]. exists []. by rewrite app_nil_r. Qed.

Lemma adds_raise {A} (e : Thrown) (L : A + Thrown -> list Event -> Prop) : L (inr e) [] -> adds (raise e : io W A) L.
Proof. intros HL s r s' [= <- <-]. exists []. by rewrite app_nil_r. Qed.

Lemma adds_raise_if c message (L : unit + Thrown -> list Event -> Prop) :
  (c = false -> L (inl tt) []) -> (c = true -> L (inr (plain_error message)) []) ->
  adds (raise_if c message : io W unit) L.
Proof.
  intros H1 H2 s r s' [= <- <-]. exists []. rewrite app_nil_r. split; [done|]. destruct c; auto.
Qed.

Lemma adds_bind {A B} (m : io W A) (f : A -> io W B) (L : A + Thrown -> list Event -> Prop)
    (L' : B + Thrown -> list Event -> Prop) :
  adds m L ->
  (forall e l, L (inr e) l -> L' (inr e) l) ->
  (forall a l1, L (inl a) l1 -> adds (f a) (fun r l2 => L' r (l1 ++ l2))) ->
  adds (m ≫= f) L'.
Proof.
  intros Hm He Hf s r s' E. unfold mbind, io_bind in E.
  destruct (m s) as [[a|e] s1] eqn:Em; apply Hm in Em as (l1 & E1 & H1).
  - apply (Hf a l1 H1) in E as (l2 & E2 & H2). exists (l1 ++ l2). rewrite E2, E1, app_assoc. auto.
  - injection E as <- <-. exists l1. auto.
Qed.

(** An event, then the rest. *)
Lemma adds_emit_bind {B} event (f : unit -> io W B) (L : B + Thrown -> list Event -> Prop) :
  adds (f tt) (fun r l => L r (event :: l)) -> adds (emit event ≫= f) L.
Proof.
  intros Hf s r s' E. apply Hf in E as (l & E & HL). exists (event :: l).
  rewrite E. simpl. by rewrite <- app_assoc.
Qed.

Lemma adds_emit event (L : unit + Thrown -> list Event -> Prop) :
  L (inl tt) [event] -> adds (emit event : io W unit) L.
Proof. intros HL s r s' [= <- <-]. by exists [event]. Qed.

Lemma adds_perform {A} (f : W -> (A + ReadFailure) * W) (L : A + Thrown -> list Event -> Prop) :
  (forall a, L (inl a) []) -> (forall e, L (inr (Failure e)) []) -> adds (perform f) L.
Proof.
  intros Ha He s r s' E. unfold perform in E. destruct (f (cs_world s)) as [[a|e] w];
    injection E as <- <-; exists []; by rewrite app_nil_r.
Qed.

Lemma adds_reliably `{ReadRuntime W} {A} (f : W -> (A + ReadFailure) * W) options
    (L : A + Thrown -> list Event -> Prop) :
  (forall a, L (inl a) []) -> (forall e, L (inr (Failure e)) []) -> adds (reliably f options) L.
Proof.
  intros Ha He s r s' E. unfold reliably in E.
  destruct (withReadReliability _ _ _) as [[a|e] rs]; injection E as <- <-; exists []; by rewrite app_nil_r.
Qed.

Lemma adds_submit `{ReadRuntime W} (f : W -> (string + ReadFailure) * W) record
    (L : string + Thrown -> list Event -> Prop) :
  (forall hash, L (inl hash) [record (inl hash)]) -> (forall e, L (inr (Failure e)) [record (inr e)]) ->
  adds (submit f record) L.
Proof.
  intros Ha He s r s' E. unfold submit in E.
  destruct (submitFinancialWriteOnce _ _) as [[a|e] rs]; injection E as <- <-; eexists; split; done.
Qed.

Lemma adds_rethrow {A} (m : io W A) h (L : A + Thrown -> list Event -> Prop) :
  adds m (fun r l => match r with inl a => L (inl a) l | inr e => L (inr (h e)) l end) -> adds (rethrow m h) L.
Proof.
  intros Hm s r s' E. unfold rethrow in E. destruct (m s) as [[a|e] s1] eqn:Em;
    apply Hm in Em as (l & ? & ?); injection E as <- <-; eauto.
Qed.

Lemma adds_rethrow_match {A} (m : io W A) h (P : A -> list Event -> Prop) (Q : list Event -> Prop) :
  adds m (fun r l => match r with inl a => P a l | inr _ => Q l end) ->
  adds (rethrow m h) (fun r l => match r with inl a => P a l | inr _ => Q l end).
Proof. intros Hm. apply adds_rethrow. eapply adds_mono; [exact Hm|]. by intros []. Qed.

Lemma adds_rethrow_const {A} (m : io W A) h (P : list Event -> Prop) :
  adds m (fun _ l => P l) -> adds (rethrow m h) (fun _ l => P l).
Proof. intros Hm. apply adds_rethrow. eapply adds_mono; [exact Hm|]. by intros []. Qed.

Lemma adds_lift_sum {A} (r : A + ReadFailure) (L : A + Thrown -> list Event -> Prop) :
  (forall a, L (inl a) []) -> (forall e, L (inr (Failure e)) []) -> adds (lift_sum r : io W A) L.
Proof.
  intros Ha He s x s' E. unfold lift_sum in E. destruct r; injection E as <- <-; exists []; by rewrite app_nil_r.
Qed.
(** Rules for the first step of a computation. *)
Lemma adds_ret_bind {A B} (a : A) (f : A -> io W B) (L : B + Thrown -> list Event -> Prop) :
  adds (f a) L -> adds (mret a ≫= f) L.
Proof. intros Hf s r s' E. by apply Hf. Qed.

Lemma adds_raise_if_bind {B} c message (f : unit -> io W B) (L : B + Thrown -> list Event -> Prop) :
  (c = true -> L (inr (plain_error message)) []) -> (c = false -> adds (f tt) L) ->
  adds (raise_if c message ≫= f) L.
Proof.
  intros Ht Hf s r s' E. unfold mbind, io_bind, raise_if in E. destruct c.
  - injection E as <- <-. exists []. rewrite app_nil_r. auto.
  - by apply Hf.
Qed.

Lemma adds_perform_bind {A B} (g : W -> (A + ReadFailure) * W) (f : A -> io W B) (L : B + Thrown -> list Event -> Prop) :
  (forall e, L (inr (Failure e)) []) -> (forall a, adds (f a) L) -> adds (perform g ≫= f) L.
Proof.
  intros He Hf. eapply adds_bind; [apply (adds_perform _ (fun r l => l = [] /\ forall e, r = inr e -> exists f, e = Failure f)); naive_solver| |].
  - intros e l [-> Hx]. destruct (Hx e eq_refl) as (f' & ->). apply He.
  - intros a l [-> _]. apply Hf.
Qed.

Lemma adds_reliably_bind `{ReadRuntime W} {A B} (g : W -> (A + ReadFailure) * W) options (f : A -> io W B)
    (L : B + Thrown -> list Event -> Prop) :
  (forall e, L (inr (Failure e)) []) -> (forall a, adds (f a) L) -> adds (reliably g options ≫= f) L.
Proof.
  intros He Hf. eapply adds_bind; [apply (adds_reliably _ _ (fun r l => l = [] /\ forall e, r = inr e -> exists f, e = Failure f)); naive_solver| |].
  - intros e l [-> Hx]. destruct (Hx e eq_refl) as (f' & ->). apply He.
  - intros a l [-> _]. apply Hf.
Qed.

Lemma adds_submit_bind `{ReadRuntime W} {B} (g : W -> (string + ReadFailure) * W) record h (f : string -> io W B)
    (L : B + Thrown -> list Event -> Prop) :
  (forall e, L (inr (h (Failure e))) [record (inr e)]) ->
  (forall hash, adds (f hash) (fun r l => L r (record (inl hash) :: l))) ->
  adds (rethrow (submit g record) h ≫= f) L.
Proof.
  intros He Hf. eapply (adds_bind _ _ (fun r l => match r with
    | inl hash => l = [record (inl hash)] | inr e => exists e', e = h (Failure e') /\ l = [record (inr e')] end)).
  - apply adds_rethrow. apply adds_submit; eauto.
  - intros e l (e' & -> & ->). apply He.
  - intros hash l ->. apply Hf.
Qed.

Lemma adds_all2 {A B} (p : io W A) (q : io W B) (Lp : A + Thrown -> list Event -> Prop)
    (Lq : B + Thrown -> list Event -> Prop) (L : (A * B) + Thrown -> list Event -> Prop) :
  adds p Lp -> adds q Lq ->
  (forall r1 l1 r2 l2, Lp r1 l1 -> Lq r2 l2 ->
     L (match r1, r2 with inl a, inl b => inl (a, b) | inl _, inr e => inr e | inr e, _ => inr e end) (l1 ++ l2)) ->
  adds (io_all2 p q) L.
Proof.
  intros Hp Hq HL s r s' E. unfold io_all2 in E. destruct (p s) as [r1 s1] eqn:E1, (q s1) as [r2 s2] eqn:E2.
  injection E as <- <-. apply Hp in E1 as (l1 & T1 & H1). apply Hq in E2 as (l2 & T2 & H2).
  exists (l1 ++ l2). rewrite T2, T1, app_assoc. auto.
Qed.

(** Computations that leave nothing. *)
Lemma adds_nothing_all2 {A B} (p : io W A) (q : io W B) :
  adds p (fun _ l => l = []) -> adds q (fun _ l => l = []) -> adds (io_all2 p q) (fun _ l => l = []).
Proof. intros Hp Hq. eapply adds_all2; [exact Hp|exact Hq|]. by intros ? ? ? ? -> ->. Qed.
Lemma adds_nothing_perform {A} (f : W -> (A + ReadFailure) * W) : adds (perform f) (fun _ l => l = []).
Proof. by apply adds_perform. Qed.
End computation_properties.

(** ** A small chain, for the examples: one account, answers that depend on what
    was sent, receipts that can be made unavailable *)
Record SmallChain := {
  sc_balance : Z; sc_allowance : Z; sc_credit : Z; sc_auto : bool; sc_sent : Z;
  sc_simulates : bool; sc_receipts : bool
}.

Definition small_account : string := "0x00000000000000000000000000000000000000A1".

(** Data as text: the function, the address, the amount. *)
Definition small_encode (name party : string) (amount : Z) : string :=
  join_char ":"%char [name; party; Z_toString amount].
Definition small_decode (name : string) (call : string -> Z -> WriteCall) (data : string) : DecodedCall + ReadFailure :=
  match split_char ":"%char data with
  | [function; party; digits] =>
      if bool_decide (function = name) then
        match BigInt_of_digits digits with
        | Ok amount => inl (decoded_write (call party amount))
        | Throw _ => inr (OtherError "AbiError" "malformed data")
        end
      else inl (decoded_other function)
  | _ => inr (OtherError "AbiError" "malformed data")
  end.

Definition after_write (request : WriteRequest) (w : SmallChain) : SmallChain :=
  let value := default 0 (wr_value request) in
  {| sc_balance := match wr_call request with call_wrap _ amount => sc_balance w - amount | _ => sc_balance w end;
     sc_allowance := match wr_call request with call_approve _ amount => amount | _ => sc_allowance w end;
     sc_credit := match wr_call request with call_depositAutomationBondCredit => sc_credit w + value | _ => sc_credit w end;
     sc_auto := match wr_call request with call_setAutoEntry enabled => enabled | _ => sc_auto w end;
     sc_sent := sc_sent w + 1; sc_simulates := sc_simulates w; sc_receipts := sc_receipts w |}.

Definition unavailable : ReadFailure := OtherError "Error" "connection refused".

#[export] Instance small_runtime : ReadRuntime SmallChain := {
  Date_now w := (0, w); read_timed_out _ _ := false; backoff_sleep _ w := w
}.

#[export] Instance small_chain `{Viem} : ClientEnv SmallChain := {
  walletChainId w := (inl V2_PREVIEW_CHAIN_ID, w);
  publicChainId w := (inl V2_PREVIEW_CHAIN_ID, w);
  getBlockNumber w := (inl 1, w);
  readUint _ call _ w :=
    (inl match call with
         | balanceOf _ => sc_balance w | allowance _ _ => sc_allowance w
         | BOND_AMOUNT => 3 | automationBondCredit _ => sc_credit w
         | activeRoundId => 4 | settlementRewardCredit _ => 9
         end, w);
  readAddress _ call w :=
    (inl match call with
         | ASSET => V2_wrapper | UNDERLYING | underlying | adapter_asset => V2_usdc
         | adapter_vault => V2_vault | COMET => V2_comet
         end, w);
  readHandle _ _ w := (inl ("0xhandle" +:+ Z_toString (sc_sent w)), w);
  readBool _ call w := (inl match call with refundClaimed _ _ => false | isAutoEntryEnabled _ _ => sc_auto w | _ => true end, w);
  readTuple _ call w :=
    (inl match call with
         | autoEntryPreference _ => tuple_array [item_bool false; item_bool (sc_auto w); item_bigint 4]
         | roundInfo _ => tuple_array [item_bigint 0; item_bigint 1; item_number 10]
         end, w);
  simulateContract _ _ w := (if sc_simulates w then inl (Some 21000) else inr unavailable, w);
  writeContract _ request _ w := (inl ("0xhash" +:+ Z_toString (sc_sent w)), after_write request w);
  callContract _ _ _ w := (inl tt, w);
  sendTransaction _ _ _ w := (inl ("0xhash" +:+ Z_toString (sc_sent w)), w);
  waitForTransactionReceipt _ w :=
    (if sc_receipts w then inl {| rc_success := true; rc_logs := [] |} else inr unavailable, w);
  getTransactionReceipt _ w :=
    (if sc_receipts w then inl {| rc_success := true; rc_logs := [] |} else inr unavailable, w);
  getTransaction _ w := (inl {| ct_from := small_account; ct_to := Some V2_wrapper; ct_input := small_encode "wrap" small_account 5 |}, w);
  decodeWrapperData data := small_decode "wrap" call_wrap data;
  decodeErc20Data data := small_decode "approve" call_approve data;
  parseUnwrapRequested _ := ["0xrequest"];
  importSdk w := (inl tt, w);
  sdkEncrypt _ _ _ _ w := (inl {| ei_values := [Some "0xcipher"]; ei_inputProof := Some "0xproof" |}, w);
  sdkDecryptValues _ handle _ w := (inl [(handle, clear_bigint 7)], w);
  sdkDecryptPublicValues _ handles w :=
    (inl {| pd_clearValues := (fun handle => (handle, clear_text "5")) <$> handles;
            pd_abiEncodedClearValues := Some "0x05"; pd_decryptionProof := Some "0xpublicproof" |}, w)
}.

Definition small_clients : ActionClients := {|
  cl_walletClient := 1; cl_walletAccount := Some (account_object small_account);
  cl_ethereum := 2; cl_account := small_account
|}.

Definition empty_session : ZamaCache := {| zc_activeIdentity := ""; zc_cachedSdk := None; zc_cachedSigner := None |}.
Definition on_chain (w : SmallChain) : ClientState SmallChain := ClientStateOf w [] empty_session [].
Definition small_state : ClientState SmallChain :=
  on_chain {| sc_balance := 10; sc_allowance := 0; sc_credit := 2; sc_auto := false; sc_sent := 0;
              sc_simulates := true; sc_receipts := true |}.

(** ** Computations that send nothing *)
Definition silent {W A} (m : io W A) : Prop := adds m (fun _ l => forallb quiet l = true).

Section silent.
Context {W : Type} `{ClientEnv W}.

Lemma silent_ret {A} (a : A) : silent (mret a : io W A).
Proof. by apply adds_ret. Qed.
Lemma silent_raise {A} e : silent (raise e : io W A).
Proof. by apply adds_raise. Qed.
Lemma silent_raise_if c message : silent (raise_if c message : io W unit).
Proof. by apply adds_raise_if. Qed.
Lemma silent_emit event : quiet event = true -> silent (emit event : io W unit).
Proof. intros Hq. apply adds_emit. simpl. by rewrite Hq. Qed.
Lemma silent_emit_if c event : quiet event = true -> silent (emit_if c event : io W unit).
Proof. intros Hq. unfold emit_if. destruct c; [by apply silent_emit|apply silent_ret]. Qed.
Lemma silent_perform {A} (f : W -> (A + ReadFailure) * W) : silent (perform f).
Proof. by apply adds_perform. Qed.
Lemma silent_lift_sum {A} (r : A + ReadFailure) : silent (lift_sum r : io W A).
Proof. by apply adds_lift_sum. Qed.
Lemma silent_reliably {A} (f : W -> (A + ReadFailure) * W) options : silent (reliably f options).
Proof. by apply adds_reliably. Qed.
Lemma silent_rethrow {A} (m : io W A) h : silent m -> silent (rethrow m h).
Proof. intros Hm. apply adds_rethrow. eapply adds_mono; [exact Hm|]. by intros []. Qed.

Lemma silent_bind {A B} (m : io W A) (f : A -> io W B) :
  silent m -> (forall a, silent (f a)) -> silent (m ≫= f).
Proof.
  intros Hm Hf. eapply adds_bind; [exact Hm|done|]. intros a l1 H1. eapply adds_mono; [apply Hf|].
  intros r l2 H2. by rewrite forallb_app, H1, H2.
Qed.

Lemma silent_all2 {A B} (p : io W A) (q : io W B) : silent p -> silent q -> silent (io_all2 p q).
Proof.
  intros Hp Hq. eapply adds_all2; [exact Hp|exact Hq|]. intros r1 l1 r2 l2 H1 H2. by rewrite forallb_app, H1, H2.
Qed.

Lemma silent_get_zama : silent (get_zama : io W ZamaCache).
Proof. intros s r s' [= <- <-]. exists []. by rewrite app_nil_r. Qed.
Lemma silent_set_zama cache : silent (set_zama cache : io W unit).
Proof. intros s r s' [= <- <-]. exists []. by rewrite app_nil_r. Qed.
End silent.

Create HintDb silent.
#[export] Hint Resolve silent_ret silent_raise silent_raise_if silent_perform silent_lift_sum silent_reliably
  silent_get_zama silent_set_zama : silent.
#[export] Hint Extern 1 (silent (emit _)) => by apply silent_emit : silent.
#[export] Hint Extern 1 (silent (emit_if _ _)) => by apply silent_emit_if : silent.

(** Decompose a computation without submissions. *)
Ltac silent :=
  repeat first
    [ solve [auto with silent nocore]
    | apply silent_bind; [|intros ?]
    | apply silent_rethrow
    | apply silent_all2
    | match goal with
      | |- silent (match ?x with _ => _ end) => destruct x
      | |- silent (let _ := _ in _) => cbv zeta
      end ].

Section silent_clients.
Context {W : Type} `{ClientEnv W}.

Lemma silent_read_uint address call block : silent (read_uint address call block).
Proof. unfold read_uint. silent. Qed.
Lemma silent_read_handle address call : silent (read_handle address call).
Proof. unfold read_handle. silent. Qed.
Lemma silent_read_bool address call : silent (read_bool address call).
Proof. unfold read_bool. silent. Qed.
Lemma silent_read_tuple address call : silent (read_tuple address call).
Proof. unfold read_tuple. silent. Qed.
Lemma silent_await_receipt hash : silent (await_receipt hash).
Proof. unfold await_receipt. silent. Qed.
Lemma silent_getZamaSdk e a c : silent (getZamaSdk e a c).
Proof. unfold getZamaSdk. silent. Qed.
#[local] Hint Resolve silent_getZamaSdk : silent.
Lemma silent_encryptPrivateAmount e a t amount c : silent (encryptPrivateAmount e a t amount c).
Proof. unfold encryptPrivateAmount. silent. Qed.
Lemma silent_decryptPrivateValue e a t h c : silent (decryptPrivateValue e a t h c).
Proof. unfold decryptPrivateValue. silent. Qed.
Lemma silent_decryptPublicValue e a h c : silent (decryptPublicValue e a h c).
Proof. unfold decryptPublicValue. silent. Qed.
End silent_clients.

(** ** What the reads leave *)
Section reads_adds.
Context {W : Type} `{ClientEnv W}.

Lemma read_uint_adds address call block :
  adds (read_uint address call block) (fun r l => match r with inl v => l = [ReadUint address call v] | inr _ => l = [] end).
Proof. unfold read_uint. apply adds_perform_bind; [done|]. intros v. by apply adds_emit_bind, adds_ret. Qed.
Lemma read_handle_adds address call :
  adds (read_handle address call) (fun r l => match r with inl v => l = [ReadHandle address call v] | inr _ => l = [] end).
Proof. unfold read_handle. apply adds_perform_bind; [done|]. intros v. by apply adds_emit_bind, adds_ret. Qed.
Lemma read_bool_adds address call :
  adds (read_bool address call) (fun r l => match r with inl v => l = [ReadBool address call v] | inr _ => l = [] end).
Proof. unfold read_bool. apply adds_perform_bind; [done|]. intros v. by apply adds_emit_bind, adds_ret. Qed.
Lemma read_tuple_adds address call :
  adds (read_tuple address call) (fun r l => match r with inl v => l = [ReadTuple address call v] | inr _ => l = [] end).
Proof. unfold read_tuple. apply adds_perform_bind; [done|]. intros v. by apply adds_emit_bind, adds_ret. Qed.
End reads_adds.

(** ** What the calls of the relayer leave *)
Section relayer_adds.
Context {W : Type} `{ClientEnv W}.

Lemma getZamaSdk_adds e a c : adds (getZamaSdk e a c) (fun _ l => l = []).
Proof.
  intros s r s' E. exists []. split; [|done]. rewrite app_nil_r. unfold getZamaSdk in E.
  unfold mbind, io_bind, get_zama, perform in E.
  destruct (zc_cachedSdk (cs_zama s)); [destruct (bool_decide _ && bool_decide _)|].
  - by injection E as <- <-.
  - by destruct (importSdk (cs_world s)) as [[u|f] w]; injection E as <- <-.
  - by destruct (importSdk (cs_world s)) as [[u|f] w]; injection E as <- <-.
Qed.

Lemma encryptPrivateAmount_adds e a t amount c :
  adds (encryptPrivateAmount e a t amount c) (fun r l => match r with
    | inl encrypted => l = [Encrypted t amount encrypted.1 encrypted.2] | inr _ => l = [] end).
Proof.
  unfold encryptPrivateAmount. eapply adds_bind; [apply getZamaSdk_adds|by intros ? ? ->|]. intros sdk l ->.
  apply adds_perform_bind; [done|]. intros [values proof].
  simpl. destruct (hd_error values) as [[v|]|], proof; try by apply adds_raise. by apply adds_emit_bind, adds_ret.
Qed.

Lemma decryptPrivateValue_adds e a t h c :
  adds (decryptPrivateValue e a t h c) (fun r l => match r with
    | inl clear => l = [Decrypted t h clear] | inr _ => l = [] end).
Proof.
  unfold decryptPrivateValue. eapply adds_bind.
  { apply adds_rethrow_const, getZamaSdk_adds. }
  { by intros ? ? ->. }
  intros sdk l ->. apply adds_perform_bind; [done|]. intros values.
  destruct (clear_value _); [by apply adds_emit_bind, adds_ret|by apply adds_raise].
Qed.

Lemma decryptPublicValue_adds e a h c :
  adds (decryptPublicValue e a h c) (fun r l => match r with
    | inl (clear, _, proof) => l = [PublicDecrypted h clear proof] | inr _ => l = [] end).
Proof.
  unfold decryptPublicValue. eapply adds_bind; [apply getZamaSdk_adds|by intros ? ? ->|]. intros sdk l ->.
  apply adds_perform_bind; [done|]. intros result.
  destruct (clear_value _), (pd_abiEncodedClearValues result), (pd_decryptionProof result); try by apply adds_raise.
  by apply adds_emit_bind, adds_ret.
Qed.
End relayer_adds.

Lemma adds_receipt_bind {W} `{ClientEnv W} {B} hash h (f : Receipt -> io W B) (L : B + Thrown -> list Event -> Prop) :
  (forall e, L (inr (h (Failure e))) []) ->
  (forall receipt, adds (f receipt) (fun r l => L r (ReceiptRead hash (rc_success receipt) :: l))) ->
  adds (rethrow (await_receipt hash) h ≫= f) L.
Proof.
  intros He Hf. eapply (adds_bind _ _ (fun r l => match r with
    | inl receipt => l = [ReceiptRead hash (rc_success receipt)] | inr e => l = [] /\ exists e', e = h (Failure e') end)).
  - apply adds_rethrow. unfold await_receipt. apply adds_perform_bind; [eauto|]. intros receipt.
    by apply adds_emit_bind, adds_ret.
  - intros e l (-> & e' & ->). apply He.
  - intros receipt l ->. apply Hf.
Qed.

#[export] Hint Resolve silent_read_uint silent_read_handle silent_read_bool silent_read_tuple silent_await_receipt
  silent_getZamaSdk silent_encryptPrivateAmount silent_decryptPrivateValue silent_decryptPublicValue : silent.

(** ** Submissions of a trace *)

(** Notifications to the interface. *)
Definition note (event : Event) : bool :=
  match event with
  | OnReceipt _ _ | OnV2Stage _ | OnStage _ | OnStep _ | OnRevealStage _ | OnIdentity _ => true
  | _ => false
  end.
(** The trace without them. *)
Definition strip (l : list Event) : list Event := List.filter (fun event => negb (note event)) l.

Fixpoint submissions (l : list Event) : list (WriteRequest * (string + ReadFailure)) :=
  match l with
  | [] => []
  | WriteSubmitted _ request _ outcome :: l' => (request, outcome) :: submissions l'
  | _ :: l' => submissions l'
  end.

Lemma strip_app l1 l2 : strip (l1 ++ l2) = strip l1 ++ strip l2.
Proof. unfold strip. induction l1 as [|e l1 IH]; simpl; [done|]. destruct (note e); simpl; by rewrite IH. Qed.

Lemma strip_quiet l : forallb quiet l = true -> forallb quiet (strip l) = true.
Proof.
  unfold strip. induction l as [|e l IH]; simpl; [done|]. intros [He Hl]%andb_true_iff.
  destruct (note e); simpl; [auto|]. by rewrite He, IH.
Qed.

Lemma submissions_app l1 l2 : submissions (l1 ++ l2) = submissions l1 ++ submissions l2.
Proof. induction l1 as [|[] l1 IH]; simpl; by rewrite ?IH. Qed.

Lemma submissions_strip l : submissions (strip l) = submissions l.
Proof. induction l as [|[] l IH]; simpl; by rewrite ?IH. Qed.

Lemma submissions_quiet l : forallb quiet l = true -> submissions l = [].
Proof. induction l as [|[] l IH]; simpl; done || auto. Qed.

(** The end of a submission: the simulation of the same request, the check of
    the wallet, the call of the wallet. *)
Definition sent (simulated : bool) (account : string) (request : WriteRequest) (gas : option Z) (check : WalletCheck)
    (outcome : string + ReadFailure) : list Event :=
  (if simulated then [Simulated account request gas] else []) ++
  [WalletChecked check; WriteSubmitted account request gas outcome].

(** The checks that let a transaction through.  The first generation accepts a wallet
    client without an account; the second wants the account and both its chains. *)
Definition action_wallet_ok (account : string) (check : WalletCheck) : Prop :=
  (forall signer, wc_signer check = Some signer -> signer = "" \/ toLowerCase signer = toLowerCase account) /\
  wc_chains check = [11155111].
Definition v2_wallet_ok (account : string) (check : WalletCheck) : Prop :=
  (exists signer, wc_signer check = Some signer /\ signer <> "" /\ toLowerCase signer = toLowerCase account) /\
  wc_chains check = [11155111; 11155111].

(** ** Flows: submissions in complete blocks, the last one perhaps cut short

    [block] is what a confirmed submission leaves in the trace, [cut] what a
    submission leaves that ends the action with an error. *)
Section flows.
Context (block : list Event -> Prop) (cut : Thrown -> list Event -> Prop).

Inductive run_of : list Event -> Prop :=
| run_nil : run_of []
| run_quiet event l : quiet event = true -> run_of l -> run_of (event :: l)
| run_block b l : block b -> run_of l -> run_of (b ++ l).

Definition flow_of {A} (r : A + Thrown) (l : list Event) : Prop :=
  match r with
  | inl _ => run_of l
  | inr e => exists a b, l = a ++ b /\ run_of a /\ (b = [] \/ cut e b)
  end.

Lemma run_of_app l1 l2 : run_of l1 -> run_of l2 -> run_of (l1 ++ l2).
Proof.
  intros H1 H2. induction H1; simpl; [done|by constructor|]. rewrite <- app_assoc. by constructor.
Qed.

Lemma run_of_silent l : forallb quiet l = true -> run_of l.
Proof. induction l; simpl; intros; bool_to_prop; constructor; auto. Qed.

Lemma run_of_one b : block b -> run_of b.
Proof. intros Hb. rewrite <- (app_nil_r b). constructor; [done|constructor]. Qed.

(** The same of the trace of a computation, notifications left out. *)
Context {W : Type}.
Definition flow {A} (m : io W A) : Prop := adds m (fun r l => flow_of r (strip l)).

Lemma flow_of_quiet {A} (r : A + Thrown) l : forallb quiet l = true -> flow_of r l.
Proof.
  intros Hl. destruct r; [by apply run_of_silent|]. exists l, []. rewrite app_nil_r.
  split_and!; [done|by apply run_of_silent|by left].
Qed.

Lemma flow_silent {A} (m : io W A) : silent m -> flow m.
Proof. intros Hm. eapply adds_mono; [exact Hm|]. intros r l Hl. by apply flow_of_quiet, strip_quiet. Qed.

Lemma flow_of_prefix {A} l1 (r : A + Thrown) l2 : run_of l1 -> flow_of r l2 -> flow_of r (l1 ++ l2).
Proof.
  intros H1. destruct r; simpl; [by apply run_of_app|].
  intros (a & b & -> & ? & ?). exists (l1 ++ a), b. rewrite app_assoc. split_and!; auto using run_of_app.
Qed.

Lemma flow_bind {A B} (m : io W A) (f : A -> io W B) : flow m -> (forall a, flow (f a)) -> flow (m ≫= f).
Proof.
  intros Hm Hf. eapply adds_bind; [exact Hm|done|]. intros a l1 H1. eapply adds_mono; [apply Hf|].
  intros r l2 H2. rewrite strip_app. by apply flow_of_prefix.
Qed.

(** Where a submission stands in a run: inside a block. *)
Lemma run_of_split l pre event post :
  run_of l -> quiet event = false -> l = pre ++ event :: post ->
  exists p1 b1 b2 p2, pre = p1 ++ b1 /\ post = b2 ++ p2 /\ block (b1 ++ event :: b2).
Proof.
  intros Hl Hq. revert pre; induction Hl as [|event' l Hq' Hl IH|b l Hb Hl IH]; intros pre E.
  - by destruct pre.
  - destruct pre as [|x pre]; [simplify_eq/=; congruence|]. injection E as -> E.
    destruct (IH pre E) as (p1 & b1 & b2 & p2 & -> & -> & ?). by exists (x :: p1), b1, b2, p2.
  - apply app_eq_app in E as (k & [[-> E]|[-> E]]).
    + destruct k as [|x k].
      * destruct (IH []) as (p1 & b1 & b2 & p2 & Ep & -> & ?); [done|].
        symmetry in Ep. apply app_nil in Ep as [-> ->]. exists pre, [], b2, p2. by rewrite !app_nil_r.
      * injection E as -> ->. by exists [], pre, k, l.
    + destruct (IH k E) as (p1 & b1 & b2 & p2 & -> & -> & ?). exists (b ++ p1), b1, b2, p2. by rewrite app_assoc.
Qed.

Lemma flow_of_split {A} (r : A + Thrown) l pre event post :
  flow_of r l -> quiet event = false -> l = pre ++ event :: post ->
  exists p1 b1 b2 p2, pre = p1 ++ b1 /\ post = b2 ++ p2 /\
    (block (b1 ++ event :: b2) \/ exists e, r = inr e /\ cut e (b1 ++ event :: b2) /\ p2 = []).
Proof.
  intros Hf Hq E. destruct r as [v|e].
  - destruct (run_of_split l pre event post Hf Hq E) as (p1 & b1 & b2 & p2 & ? & ? & ?). exists p1, b1, b2, p2. auto.
  - destruct Hf as (a & b & -> & Ha & Hb). apply app_eq_app in E as (k & [[-> E]|[-> E]]).
    + destruct k as [|x k].
      * destruct Hb as [->|Hb]; [done|]. simpl in E. rewrite <- E in Hb. exists pre, [], post, []. rewrite !app_nil_r.
        split_and!; [done..|]. right. by exists e.
      * injection E as -> ->.
        destruct (run_of_split (pre ++ x :: k) pre x k Ha Hq eq_refl) as (p1 & b1 & b2 & p2 & ? & -> & ?).
        exists p1, b1, b2, (p2 ++ b). rewrite app_assoc. auto.
    + destruct Hb as [->|Hb]; [by destruct k|]. subst b. exists a, k, post, []. rewrite app_nil_r.
      split_and!; [done..|]. right. by exists e.
Qed.
End flows.

(** ** What flows of submissions guarantee

    [simulates] says which calls are simulated before they are sent, [explains]
    what an error says of a transaction whose receipt could not be read
    ([false]) or was a failure ([true]), [wallet_ok] what a check of the wallet must have
    found.  The transaction of the faucet is checked as the first generation does. *)
Section well_sent.
Context (simulates : WriteCall -> bool) (account : string) (wallet_ok : WalletCheck -> Prop) (explains : Thrown -> string -> bool -> Prop).

(** A checked, simulated transaction of the faucet, and its outcome. *)
Definition transaction_sent (to data : string) (check : WalletCheck) (outcome : string + ReadFailure) : list Event :=
  [WalletChecked check; CallSimulated account to data; TransactionSent account to data outcome].

Inductive write_block : list Event -> Prop :=
| block_write request gas check hash ts :
    wallet_ok check ->
    write_block (sent (simulates (wr_call request)) account request gas check (inl hash) ++
                 [OnHash hash ts; ReceiptRead hash true])
| block_transaction to data check hash :
    action_wallet_ok account check ->
    write_block (transaction_sent to data check (inl hash) ++ [OnHash hash None; ReceiptRead hash true]).

Inductive write_cut : Thrown -> list Event -> Prop :=
| cut_refused e request gas check failure :
    wallet_ok check ->
    write_cut e (sent (simulates (wr_call request)) account request gas check (inr failure))
| cut_pending e request gas check hash ts :
    wallet_ok check -> explains e hash false ->
    write_cut e (sent (simulates (wr_call request)) account request gas check (inl hash) ++ [OnHash hash ts])
| cut_reverted e request gas check hash ts :
    wallet_ok check -> explains e hash true ->
    write_cut e (sent (simulates (wr_call request)) account request gas check (inl hash) ++
                 [OnHash hash ts; ReceiptRead hash false])
| cut_transaction e to data check outcome rest :
    action_wallet_ok account check ->
    match outcome with inl hash => rest = [OnHash hash None] \/ rest = [OnHash hash None; ReceiptRead hash false] | inr _ => rest = [] end ->
    write_cut e (transaction_sent to data check outcome ++ rest).

(** What follows a transaction: its hash at once, then the receipt that confirms it, or
    the end of the action with an error. *)
Definition followed {A} (r : A + Thrown) (outcome : string + ReadFailure) (says : Thrown -> string -> bool -> Prop) (post : list Event) : Prop :=
  match outcome with
  | inl hash => exists ts rest, post = OnHash hash ts :: rest /\
      ((exists more, rest = ReceiptRead hash true :: more) \/
       (exists e, r = inr e /\ (rest = [] /\ says e hash false \/ rest = [ReceiptRead hash false] /\ says e hash true)))
  | inr _ => post = [] /\ exists e, r = inr e
  end.

Definition well_sent {A} (r : A + Thrown) (l : list Event) : Prop :=
  (forall pre sender request gas outcome post,
    l = pre ++ WriteSubmitted sender request gas outcome :: post ->
    sender = account /\
    (exists before check,
       pre = before ++ (if simulates (wr_call request) then [Simulated account request gas] else []) ++
             [WalletChecked check] /\ wallet_ok check) /\
    followed r outcome explains post) /\
  (forall pre sender to data outcome post,
    l = pre ++ TransactionSent sender to data outcome :: post ->
    sender = account /\
    (exists before check, pre = before ++ [WalletChecked check; CallSimulated account to data] /\ action_wallet_ok account check) /\
    followed r outcome (fun _ _ _ => True) post).

Lemma sent_split simulated request gas check outcome rest b1 sender request' gas' outcome' b2 :
  forallb quiet rest = true ->
  b1 ++ WriteSubmitted sender request' gas' outcome' :: b2 = sent simulated account request gas check outcome ++ rest ->
  sender = account /\ request' = request /\ gas' = gas /\ outcome' = outcome /\ b2 = rest /\
  b1 = (if simulated then [Simulated account request gas] else []) ++ [WalletChecked check].
Proof.
  intros Hq E. unfold sent in E. rewrite <- app_assoc in E.
  assert (Hin : forall k, k ++ WriteSubmitted sender request' gas' outcome' :: b2 = rest -> False).
  { intros k <-. rewrite forallb_app in Hq. simpl in Hq. by rewrite andb_false_r in Hq. }
  destruct simulated; simpl in E.
  - destruct b1 as [|? [|? [|? b1]]]; simplify_eq/=; [done|]. by destruct (Hin b1).
  - destruct b1 as [|? [|? b1]]; simplify_eq/=; [done|]. by destruct (Hin b1).
Qed.

(** No transaction of the one kind inside one of the other. *)
Lemma transaction_no_write to data check outcome rest b1 sender request gas outcome' b2 P :
  forallb quiet rest = true ->
  b1 ++ WriteSubmitted sender request gas outcome' :: b2 = transaction_sent to data check outcome ++ rest -> P.
Proof.
  intros Hq E. unfold transaction_sent in E. destruct b1 as [|? [|? [|? b1]]]; simplify_eq/=.
  rewrite forallb_app in Hq. simpl in Hq. by rewrite andb_false_r in Hq.
Qed.
Lemma write_no_transaction simulated request gas check outcome rest b1 sender to data outcome' b2 P :
  forallb quiet rest = true ->
  b1 ++ TransactionSent sender to data outcome' :: b2 = sent simulated account request gas check outcome ++ rest -> P.
Proof.
  intros Hq E. unfold sent in E. rewrite <- app_assoc in E.
  assert (Hin : forall k, k ++ TransactionSent sender to data outcome' :: b2 = rest -> P).
  { intros k <-. rewrite forallb_app in Hq. simpl in Hq. by rewrite andb_false_r in Hq. }
  destruct simulated; simpl in E.
  - destruct b1 as [|? [|? [|? b1]]]; simplify_eq/=. by apply (Hin b1).
  - destruct b1 as [|? [|? b1]]; simplify_eq/=. by apply (Hin b1).
Qed.
Lemma transaction_split to data check outcome rest b1 sender to' data' outcome' b2 :
  forallb quiet rest = true ->
  b1 ++ TransactionSent sender to' data' outcome' :: b2 = transaction_sent to data check outcome ++ rest ->
  sender = account /\ to' = to /\ data' = data /\ outcome' = outcome /\ b2 = rest /\ b1 = [WalletChecked check; CallSimulated account to data].
Proof.
  intros Hq E. unfold transaction_sent in E. destruct b1 as [|? [|? [|? b1]]]; simplify_eq/=; [done|].
  rewrite forallb_app in Hq. simpl in Hq. by rewrite andb_false_r in Hq.
Qed.

Definition before_write (request : WriteRequest) (gas : option Z) (b1 : list Event) : Prop :=
  exists check, b1 = (if simulates (wr_call request) then [Simulated account request gas] else []) ++ [WalletChecked check] /\ wallet_ok check.
Definition before_transaction (to data : string) (b1 : list Event) : Prop :=
  exists check, b1 = [WalletChecked check; CallSimulated account to data] /\ action_wallet_ok account check.

(** A piece of a flow, a block or a cut, starts as it should and is followed by [b2]. *)
Definition piece {A} (r : A + Thrown) (b : list Event) (more : list Event) : Prop :=
  write_block b \/ exists e, r = inr e /\ write_cut e b /\ more = [].

Lemma cut_rest_quiet (outcome : string + ReadFailure) rest :
  match outcome with inl hash => rest = [OnHash hash None] \/ rest = [OnHash hash None; ReceiptRead hash false] | inr _ => rest = [] end ->
  forallb quiet rest = true.
Proof. destruct outcome; [by intros [-> | ->]|by intros ->]. Qed.

Lemma piece_write {A} (r : A + Thrown) b1 sender request gas outcome b2 more :
  piece r (b1 ++ WriteSubmitted sender request gas outcome :: b2) more ->
  sender = account /\ before_write request gas b1 /\ followed r outcome explains (b2 ++ more).
Proof.
  intros [Hb|(e & -> & Hb & ->)]; [|rewrite app_nil_r]; remember (b1 ++ _) as b eqn:E.
  - destruct Hb as [request' gas' check hash ts Hok|to data check hash Hok]; symmetry in E.
    + apply sent_split in E as (-> & -> & -> & -> & -> & ->); [|done]. split_and!; [done|by exists check|]. eexists _, _. split; [done|]. eauto.
    + by eapply transaction_no_write in E.
  - destruct Hb as [e request' gas' check f Hok|e request' gas' check hash ts Hok Hx|e request' gas' check hash ts Hok Hx
      |e to data check outcome' rest Hok Hr]; symmetry in E.
    + rewrite <- (app_nil_r (sent _ _ _ _ _ _)) in E.
      apply sent_split in E as (-> & -> & -> & -> & -> & ->); [|done]. split_and!; [done|by exists check|]. split; [done|by exists e].
    + apply sent_split in E as (-> & -> & -> & -> & -> & ->); [|done]. split_and!; [done|by exists check|]. eexists _, _. split; [done|]. eauto 8.
    + apply sent_split in E as (-> & -> & -> & -> & -> & ->); [|done]. split_and!; [done|by exists check|]. eexists _, _. split; [done|]. eauto 8.
    + eapply transaction_no_write in E; [exact E|]. by eapply cut_rest_quiet.
Qed.

Lemma piece_transaction {A} (r : A + Thrown) b1 sender to data outcome b2 more :
  piece r (b1 ++ TransactionSent sender to data outcome :: b2) more ->
  sender = account /\ before_transaction to data b1 /\ followed r outcome (fun _ _ _ => True) (b2 ++ more).
Proof.
  intros [Hb|(e & -> & Hb & ->)]; [|rewrite app_nil_r]; remember (b1 ++ _) as b eqn:E.
  - destruct Hb as [request' gas' check hash ts Hok|to' data' check hash Hok]; symmetry in E.
    + by eapply write_no_transaction in E.
    + apply transaction_split in E as (-> & -> & -> & -> & -> & ->); [|done]. split_and!; [done|by exists check|]. eexists _, _. split; [done|]. eauto.
  - destruct Hb as [e request' gas' check f Hok|e request' gas' check hash ts Hok Hx|e request' gas' check hash ts Hok Hx
      |e to' data' check outcome' rest Hok Hr]; symmetry in E.
    + rewrite <- (app_nil_r (sent _ _ _ _ _ _)) in E. by eapply write_no_transaction in E.
    + by eapply write_no_transaction in E.
    + by eapply write_no_transaction in E.
    + apply transaction_split in E as (-> & -> & -> & -> & -> & ->); [|by eapply cut_rest_quiet]. split_and!; [done|by exists check|].
      unfold followed. destruct outcome' as [hash|f]; [|by split; [|exists e]]. exists None. destruct Hr as [-> | ->]; eexists; split; eauto 8.
Qed.

Lemma flow_piece {A} (r : A + Thrown) l pre event post :
  flow_of write_block write_cut r l -> quiet event = false -> l = pre ++ event :: post ->
  exists p1 b1 b2 p2, pre = p1 ++ b1 /\ post = b2 ++ p2 /\ piece r (b1 ++ event :: b2) p2.
Proof. apply flow_of_split. Qed.

Lemma flow_well_sent {A} (r : A + Thrown) l : flow_of write_block write_cut r l -> well_sent r l.
Proof.
  intros Hf. split.
  - intros pre sender request gas outcome post E.
    destruct (flow_piece r l pre _ post Hf (eq_refl : quiet (WriteSubmitted sender request gas outcome) = false) E) as (p1 & b1 & b2 & p2 & -> & -> & Hb).
    apply piece_write in Hb as (-> & (check & -> & Hok) & Hb). split_and!; [done|by exists p1, check|done].
  - intros pre sender to data outcome post E.
    destruct (flow_piece r l pre _ post Hf (eq_refl : quiet (TransactionSent sender to data outcome) = false) E) as (p1 & b1 & b2 & p2 & -> & -> & Hb).
    apply piece_transaction in Hb as (-> & (check & -> & Hok) & Hb). split_and!; [done|by exists p1, check|done].
Qed.
End well_sent.

(** ** Plans: the requests an action sends, in order *)

(** The action that ends well has sent the whole plan and returns its hashes;
    the one that fails has sent a part from the front. *)
Definition along (plan : list WriteRequest) (r : list string + Thrown) (l : list Event) : Prop :=
  match r with
  | inl hashes => length hashes = length plan /\ submissions l = zip_with (fun request hash => (request, inl hash)) plan hashes
  | inr _ => (submissions l).*1 `prefix_of` plan
  end.

Lemma along_silent (r : list string + Thrown) l : submissions l = [] -> (forall hashes, r = inl hashes -> hashes = []) -> along [] r l.
Proof. intros Hl Hr. destruct r as [hashes|e]; simpl; [by rewrite (Hr hashes eq_refl)|by rewrite Hl]. Qed.

Lemma along_stop plan e l : submissions l = [] -> along plan (inr e) l.
Proof. simpl. intros ->. apply prefix_nil. Qed.

Lemma along_fail plan rest e l : along plan (inr e) l -> along (plan ++ rest) (inr e) l.
Proof. simpl. intros Hp. by apply prefix_app_r. Qed.

Lemma zip_with_fst {A B} (l : list A) (k : list B) :
  length k = length l -> (zip_with (fun a b => (a, (inl b : B + ReadFailure))) l k).*1 = l.
Proof. revert k; induction l as [|a l IH]; intros [|b k]; simpl; intros; [done..|]. f_equal. apply IH. lia. Qed.

Lemma along_app plan1 plan2 hashes1 (r : list string + Thrown) l1 l2 :
  along plan1 (inl hashes1) l1 ->
  along plan2 r l2 ->
  along (plan1 ++ plan2) (match r with inl hashes2 => inl (hashes1 ++ hashes2) | inr e => inr e end) (l1 ++ l2).
Proof.
  simpl. intros [Hlen H1] H2. destruct r as [hashes2|e]; simpl in *.
  - destruct H2 as [Hlen2 H2]. rewrite !length_app, submissions_app, H1, H2, zip_with_app by done. split; [lia|done].
  - rewrite submissions_app, H1, fmap_app, zip_with_fst by done. by apply prefix_app.
Qed.

Lemma along_in plan r l request : along plan r l -> request ∈ (submissions l).*1 -> request ∈ plan.
Proof.
  destruct r as [hashes|e]; simpl.
  - intros [Hlen ->]. by rewrite zip_with_fst.
  - intros Hp Hin. by eapply elem_of_prefix.
Qed.

(** A request that is sent only once the last allowance read covers it. *)
Definition allowed_write (token owner spender : string) (amount : Z) (request : WriteRequest) (l : list Event) : Prop :=
  forall pre sender gas outcome post,
    l = pre ++ WriteSubmitted sender request gas outcome :: post ->
    exists a allowed b, pre = a ++ ReadUint token (allowance owner spender) allowed :: b /\
      amount <= allowed /\ forallb quiet b = true.

Lemma submissions_in l pre sender request gas outcome post :
  l = pre ++ WriteSubmitted sender request gas outcome :: post -> request ∈ (submissions l).*1.
Proof. intros ->. rewrite submissions_app, fmap_app. simpl. set_solver. Qed.

Lemma allowed_write_none token owner spender amount request l :
  request ∉ (submissions l).*1 -> allowed_write token owner spender amount request l.
Proof. intros Hn pre sender gas outcome post E. destruct Hn. by eapply submissions_in. Qed.

Lemma allowed_write_app token owner spender amount request l1 l2 :
  request ∉ (submissions l2).*1 ->
  allowed_write token owner spender amount request l1 -> allowed_write token owner spender amount request (l1 ++ l2).
Proof.
  intros Hn H1 pre sender gas outcome post E. apply app_eq_app in E as (k & [[-> E]|[-> E]]).
  - destruct k as [|x k].
    + destruct Hn. simpl in E. rewrite <- E. simpl. set_solver.
    + injection E as <- _. by eapply H1.
  - destruct Hn. by eapply submissions_in.
Qed.

(** The read, nothing sent after it, then the request. *)
Lemma allowed_write_after token owner spender amount request a allowed b l :
  request ∉ (submissions a).*1 -> amount <= allowed -> forallb quiet b = true ->
  (forall pre sender request' gas outcome post,
     l = pre ++ WriteSubmitted sender request' gas outcome :: post -> request' = request -> forallb quiet pre = true) ->
  allowed_write token owner spender amount request
    (a ++ ReadUint token (allowance owner spender) allowed :: b ++ l).
Proof.
  intros Ha Hle Hb Hl pre sender gas outcome post E.
  replace (a ++ ReadUint token (allowance owner spender) allowed :: b ++ l) with
    ((a ++ ReadUint token (allowance owner spender) allowed :: b) ++ l) in E by (by rewrite <- app_assoc).
  assert (Hn : request ∉ (submissions (a ++ ReadUint token (allowance owner spender) allowed :: b)).*1).
  { rewrite submissions_app. simpl. rewrite (submissions_quiet b Hb), app_nil_r. done. }
  apply app_eq_app in E as (k & [[E1 E]|[-> E]]).
  - destruct k as [|x k].
    + exists a, allowed, b. rewrite app_nil_r in E1. by rewrite <- E1.
    + injection E as <- _. destruct Hn. by eapply submissions_in.
  - exists a, allowed, (b ++ k). rewrite <- app_assoc. split_and!; [done..|].
    rewrite forallb_app, Hb. simpl. by eapply Hl.
Qed.

(** ** What one write leaves *)
Section write_adds.
Context (wallet_ok : WalletCheck -> Prop) (explains : Thrown -> string -> bool -> Prop).

(** What is left of a submission that ended the action. *)
Definition cut_write (simulated : bool) (account : string) (request : WriteRequest) (check : WalletCheck) (e : Thrown)
    (b : list Event) : Prop :=
  exists gas outcome rest,
    b = sent simulated account request gas check outcome ++ rest /\ wallet_ok check /\
    match outcome with
    | inl hash => exists ts,
        rest = [OnHash hash ts] /\ explains e hash false \/
        rest = [OnHash hash ts; ReceiptRead hash false] /\ explains e hash true
    | inr _ => rest = []
    end.

Definition confirmed_write (simulated : bool) (account : string) (request : WriteRequest) (check : WalletCheck) (hash : string)
    (b : list Event) : Prop :=
  exists gas ts, b = sent simulated account request gas check (inl hash) ++ [OnHash hash ts; ReceiptRead hash true] /\ wallet_ok check.

(** Its hash and a complete submission, or an error and at most a submission cut
    short. *)
Definition write_adds (simulated : bool) (account : string) (request : WriteRequest) (check : WalletCheck)
    (r : string + Thrown) (l : list Event) : Prop :=
  exists a b, strip l = a ++ b /\ forallb quiet a = true /\
    match r with
    | inl hash => confirmed_write simulated account request check hash b
    | inr e => b = [] \/ cut_write simulated account request check e b
    end.

Lemma cut_write_rest simulated account request check e b :
  cut_write simulated account request check e b ->
  exists gas outcome rest, b = sent simulated account request gas check outcome ++ rest /\ forallb quiet rest = true.
Proof.
  intros (gas & outcome & rest & -> & Hok & Hb). exists gas, outcome, rest. split; [done|].
  destruct outcome; [by destruct Hb as (ts & [[-> _]|[-> _]])|by subst].
Qed.

Lemma write_adds_flow simulates account request check r l :
  write_adds (simulates (wr_call request)) account request check r l ->
  flow_of (write_block simulates account wallet_ok) (write_cut simulates account wallet_ok explains) r (strip l).
Proof.
  intros (a & b & -> & Ha & Hb). apply flow_of_prefix; [by apply run_of_silent|]. destruct r as [hash|e].
  - destruct Hb as (gas & ts & -> & Hok). by apply run_of_one, block_write.
  - exists [], b. split; [done|]. split; [constructor|]. destruct Hb as [->|(gas & outcome & rest & -> & Hok & Hb)]; [by left|].
    right. destruct outcome as [hash|f].
    + destruct Hb as (ts & [[-> Hx]|[-> Hx]]); by constructor.
    + rewrite Hb, app_nil_r. by constructor.
Qed.

Lemma write_adds_along simulated account request check r l :
  write_adds simulated account request check r l ->
  along [request] (match r with inl hash => inl [hash] | inr e => inr e end) (strip l).
Proof.
  intros (a & b & -> & Ha & Hb). unfold along. destruct r as [hash|e].
  - destruct Hb as (gas & ts & -> & _). split; [done|]. rewrite !submissions_app, (submissions_quiet a Ha). by destruct simulated.
  - rewrite submissions_app, (submissions_quiet a Ha). destruct Hb as [->|Hb]; [apply prefix_nil|].
    apply cut_write_rest in Hb as (gas & outcome & rest & -> & Hr).
    rewrite submissions_app, (submissions_quiet rest Hr). by destruct simulated.
Qed.

Lemma write_adds_first simulated account request check r l pre sender request' gas outcome post :
  write_adds simulated account request check r l ->
  strip l = pre ++ WriteSubmitted sender request' gas outcome :: post -> forallb quiet pre = true.
Proof.
  intros (a & b & -> & Ha & Hb) E.
  assert (Hb' : b = [] \/ exists gas outcome rest,
    b = sent simulated account request gas check outcome ++ rest /\ forallb quiet rest = true).
  { destruct r as [hash|e]; [destruct Hb as (g & ts & -> & _); right; by eexists _, _, _|].
    destruct Hb as [->|Hb]; [by left|right; by apply cut_write_rest in Hb]. }
  apply app_eq_app in E as (k & [[-> E]|[-> E]]); [by rewrite forallb_app in Ha; bool_to_prop|].
  rewrite forallb_app, Ha. simpl. destruct Hb' as [->|(g & o & rest & -> & Hr)]; [by destruct k|].
  symmetry in E. apply sent_split in E as (_ & _ & _ & _ & _ & ->); [|done]. by destruct simulated.
Qed.

Lemma write_adds_quiet simulated account request check e l :
  forallb quiet (strip l) = true -> write_adds simulated account request check (inr e) l.
Proof. intros Hl. exists (strip l), []. rewrite app_nil_r. split_and!; [done..|by left]. Qed.

(** A write after the read that allows it. *)
Lemma write_adds_allowed simulated account request check token spender amount plan hashes l1 a allowed r l :
  along plan (inl hashes) (strip l1) -> request ∉ plan ->
  strip l1 = a ++ [ReadUint token (allowance account spender) allowed] -> amount <= allowed ->
  write_adds simulated account request check r l ->
  allowed_write token account spender amount request (strip (l1 ++ l)).
Proof.
  intros [Hlen A1] Hn E1 Hle Hl. rewrite strip_app, E1, <- app_assoc.
  apply (allowed_write_after _ _ _ _ _ a allowed [] (strip l)); [|done..|].
  - assert (Ha : (submissions a).*1 = plan); [|by rewrite Ha].
    rewrite E1, submissions_app in A1. simpl in A1. rewrite app_nil_r in A1. rewrite A1. by apply zip_with_fst.
  - intros pre sender request' gas outcome post E _. by eapply write_adds_first.
Qed.
End write_adds.

(** The allowances an action read, in order. *)
Fixpoint allowance_reads (l : list Event) : list Z :=
  match l with
  | [] => []
  | ReadUint _ (allowance _ _) value :: l' => value :: allowance_reads l'
  | _ :: l' => allowance_reads l'
  end.

Lemma allowance_reads_app l1 l2 : allowance_reads (l1 ++ l2) = allowance_reads l1 ++ allowance_reads l2.
Proof. induction l1 as [|[? |? [] ?|? ? ?|? ? ?|? ? ?|? ? ? ?|? ? ?|? ? ?|? ? ?|? ? ? ?|? ? ?|? ? ? ?|? ?|? ?|? ?|?|?|?|?|?] l1 IH]; simpl; by rewrite ?IH. Qed.

(** ** The private session *)
Section private_session.
Context {W : Type} `{ClientEnv W}.

(** The sessions the module can be in: from its initial variables, any calls. *)
Inductive private_session : ZamaCache -> Prop :=
| session_initial : private_session {| zc_activeIdentity := ""; zc_cachedSdk := None; zc_cachedSigner := None |}
| session_sdk (s : ClientState W) e a c r s' :
    private_session (cs_zama s) -> getZamaSdk e a c s = (r, s') -> private_session (cs_zama s')
| session_clear (s : ClientState W) r s' :
    private_session (cs_zama s) -> clearPrivateSession s = (r, s') -> private_session (cs_zama s').

Definition sdk_bound (sdk : ZamaSDK) (identity : string) (signer : Signer) : Prop :=
  toLowerCase (sdk_account sdk) = identity /\ session_signer (sdk_ethereum sdk) (sdk_walletClient sdk) = signer.

Definition session_bound (cache : ZamaCache) : Prop :=
  forall sdk, zc_cachedSdk cache = Some sdk ->
    exists signer, zc_cachedSigner cache = Some signer /\ sdk_bound sdk (zc_activeIdentity cache) signer.

Lemma getZamaSdk_keeps e a c s r s' :
  getZamaSdk e a c s = (r, s') -> session_bound (cs_zama s) ->
  session_bound (cs_zama s') /\
  forall sdk, r = inl sdk -> sdk_bound sdk (toLowerCase a) (session_signer e c).
Proof.
  intros E Hs.
  assert (Hcreate : forall t t' x,
    (perform importSdk ;;
     set_zama {| zc_activeIdentity := toLowerCase a;
                 zc_cachedSdk := Some {| sdk_walletClient := c; sdk_ethereum := e; sdk_account := a |};
                 zc_cachedSigner := Some (session_signer e c) |} ;;
     mret {| sdk_walletClient := c; sdk_ethereum := e; sdk_account := a |}) t = (x, t') ->
    session_bound (cs_zama t) ->
    session_bound (cs_zama t') /\ forall sdk, x = inl sdk -> sdk_bound sdk (toLowerCase a) (session_signer e c)).
  { intros t t' x Et Ht. unfold mbind, io_bind, perform in Et.
    destruct (importSdk (cs_world t)) as [[u|f] w]; injection Et as <- <-; [|done].
    split; [|by intros ? [= <-]]. intros sdk [= <-]. by eexists. }
  unfold getZamaSdk in E. unfold mbind at 1, io_bind at 1, get_zama in E.
  destruct (zc_cachedSdk (cs_zama s)) as [sdk|] eqn:Ec; [|by apply Hcreate in E].
  destruct (bool_decide _ && bool_decide _) eqn:Eb; [|by apply Hcreate in E].
  injection E as <- <-. split; [done|]. intros ? [= <-]. bool_to_prop.
  destruct (Hs sdk Ec) as (signer & Hsig & Hb). congruence.
Qed.

Lemma private_session_bound cache : private_session cache -> session_bound cache.
Proof.
  induction 1 as [|s e a c r s' _ IH E|s r s' _ IH E]; [done| |].
  - by destruct (getZamaSdk_keeps _ _ _ _ _ _ E IH).
  - injection E as _ <-. by intros sdk.
Qed.

(** A private session is never used for another account or signer.  Whatever
    calls were made before, the SDK an action gets was configured for its own
    account, up to letter case, and for its own wallet client, or its own
    provider when it has no wallet client. *)
Theorem getZamaSdk_bound s e a c sdk s' :
  private_session (cs_zama s) -> getZamaSdk e a c s = (inl sdk, s') ->
  toLowerCase (sdk_account sdk) = toLowerCase a /\
  session_signer (sdk_ethereum sdk) (sdk_walletClient sdk) = session_signer e c.
Proof.
  intros Hs E. apply private_session_bound in Hs.
  destruct (getZamaSdk_keeps _ _ _ _ _ _ E Hs) as [_ Hb]. by apply Hb.
Qed.
End private_session.

Section examples.
#[local] Existing Instance hex_viem.

Example getZamaSdk_bound_witness :
  let s := (getZamaSdk 2 "0xAB" None small_state).2 in
  private_session (W := SmallChain) (cs_zama s) /\
  toLowerCase (sdk_account {| sdk_walletClient := Some 1; sdk_ethereum := 2; sdk_account := small_account |}) =
    toLowerCase small_account /\
  session_signer 2 (Some 1) = session_signer 2 (Some 1).
Proof.
  intros s. assert (Hs : private_session (W := SmallChain) (cs_zama s)).
  { apply (session_sdk small_state 2 "0xAB" None (getZamaSdk 2 "0xAB" None small_state).1); [apply session_initial|].
    apply surjective_pairing. }
  split; [exact Hs|].
  apply (getZamaSdk_bound s 2 small_account (Some 1)
    {| sdk_walletClient := Some 1; sdk_ethereum := 2; sdk_account := small_account |}
    (getZamaSdk 2 small_account (Some 1) s).2 Hs).
  vm_compute. reflexivity.
Defined.
End examples.
