(* ===== verification/FrontendConfig.v ===== *)
(** * Configuration and amounts of the frontend:
    frontend/lib/leopold/config.ts and frontend/lib/leopold/amounts.ts

    The addresses of a contract manifest, checked one by one, the list of what is
    wrong with it, and the amounts a saver may type.  The checksums of viem are
    the class [Viem]; its decimal scaling is the class [Units]. *)
From Stdlib Require Import ZArith Lia Ascii.
From stdpp Require Import base option list sets strings.
From S2P Require Import Prelude WalletAddress.
Local Open Scope Z_scope.

Definition LEOPOLD_CHAIN_ID : Z := 11155111.

Inductive AddressStatus : Type := configured | missing | invalid | wrong_chain.
#[export] Instance AddressStatus_eq_dec : EqDecision AddressStatus.
Proof. solve_decision. Defined.

Definition status_text (status : AddressStatus) : string :=
  match status with
  | configured => "configured" | missing => "missing" | invalid => "invalid" | wrong_chain => "wrong-chain"
  end.

Record CheckedAddress := { ca_status : AddressStatus; ca_address : option string; ca_reason : option string }.

Inductive VaultType : Type := DAILY | WEEKLY | MONTHLY | BOOST.
(** [vault.type.toLowerCase()] *)
Definition VaultId (type : VaultType) : string :=
  match type with DAILY => "daily" | WEEKLY => "weekly" | MONTHLY => "monthly" | BOOST => "boost" end.

Record LeopoldVaultConfig := {
  lv_id : Z; lv_slug : string; lv_type : VaultType; lv_name : string; lv_roundDurationSeconds : Z;
  lv_vault : CheckedAddress; lv_adapter : CheckedAddress; lv_bondEscrow : CheckedAddress
}.

Record LeopoldConfig := {
  lc_chainId : Z; lc_networkName : string; lc_deploymentStatus : string;
  lc_canonicalUsdc : CheckedAddress; lc_lcUsdc : CheckedAddress; lc_registry : CheckedAddress;
  lc_compoundComet : CheckedAddress;
  lc_vaults : list LeopoldVaultConfig; lc_ready : bool; lc_issues : list string
}.

(** The manifest: an address is a text or [null]. *)
Record RawVault := {
  rv_id : Z; rv_type : VaultType; rv_name : string; rv_roundDurationSeconds : Z;
  rv_vault : option string; rv_adapter : option string; rv_bondEscrow : option string
}.
Record RawLeopoldManifest := {
  rm_networkName : string; rm_chainId : Z; rm_deploymentStatus : string;
  rm_canonicalCircleUsdc : option string; rm_lcUsdc : option string; rm_registry : option string;
  rm_compoundComet : option string;
  rm_officialVaults : list RawVault
}.

Section Config.
Context `{Viem}.

Definition CANONICAL_USDC : string := getAddress "0x1c7D4B196Cb0C7B01d743Fbc6116a902379C7238".

Definition classifyAddress (value : option string) (chainId expectedChainId : Z) : CheckedAddress :=
  if negb (chainId =? expectedChainId)
  then {| ca_status := wrong_chain; ca_address := None;
          ca_reason := Some ("Expected chain " +:+ Z_toString expectedChainId) |}
  else match value with
       | None => {| ca_status := missing; ca_address := None; ca_reason := None |}
       | Some text =>
           if bool_decide (trim text = "") then {| ca_status := missing; ca_address := None; ca_reason := None |}
           else if negb (isAddress text) then {| ca_status := invalid; ca_address := None; ca_reason := None |}
           else {| ca_status := configured; ca_address := Some (getAddress text); ca_reason := None |}
       end.

Definition load_vault (chainId : Z) (vault : RawVault) : LeopoldVaultConfig := {|
  lv_id := rv_id vault; lv_slug := VaultId (rv_type vault); lv_type := rv_type vault; lv_name := rv_name vault;
  lv_roundDurationSeconds := rv_roundDurationSeconds vault;
  lv_vault := classifyAddress (rv_vault vault) chainId LEOPOLD_CHAIN_ID;
  lv_adapter := classifyAddress (rv_adapter vault) chainId LEOPOLD_CHAIN_ID;
  lv_bondEscrow := classifyAddress (rv_bondEscrow vault) chainId LEOPOLD_CHAIN_ID
|}.

(** [if (item.status !== "configured") issues.push(`${name}: ${item.status}.`)] *)
Definition address_issues (items : list (string * CheckedAddress)) : list string :=
  omap (fun item => if bool_decide (ca_status item.2 = configured) then None
                    else Some (item.1 +:+ ": " +:+ status_text (ca_status item.2) +:+ ".")) items.

Definition vault_issues (vault : LeopoldVaultConfig) : list string :=
  address_issues [(lv_name vault +:+ " vault", lv_vault vault); (lv_name vault +:+ " adapter", lv_adapter vault);
                  (lv_name vault +:+ " bond escrow", lv_bondEscrow vault)].

Definition loadLeopoldConfig (source : RawLeopoldManifest) : LeopoldConfig :=
  let chainId := rm_chainId source in
  let vaults := load_vault chainId <$> rm_officialVaults source in
  let canonicalUsdc := classifyAddress (rm_canonicalCircleUsdc source) chainId LEOPOLD_CHAIN_ID in
  let lcUsdc := classifyAddress (rm_lcUsdc source) chainId LEOPOLD_CHAIN_ID in
  let registry := classifyAddress (rm_registry source) chainId LEOPOLD_CHAIN_ID in
  let compoundComet := classifyAddress (rm_compoundComet source) chainId LEOPOLD_CHAIN_ID in
  let issues :=
    (if negb (chainId =? LEOPOLD_CHAIN_ID) then ["Contract manifest targets the wrong chain."] else []) ++
    (if negb (bool_decide (ca_address canonicalUsdc = Some CANONICAL_USDC))
     then ["Canonical Circle Sepolia USDC does not match the frozen address."] else []) ++
    address_issues [("Private USDC", lcUsdc); ("Registry", registry); ("Compound Comet", compoundComet)] ++
    mjoin (vault_issues <$> vaults) in
  {| lc_chainId := chainId; lc_networkName := rm_networkName source;
     lc_deploymentStatus := rm_deploymentStatus source;
     lc_canonicalUsdc := canonicalUsdc; lc_lcUsdc := lcUsdc; lc_registry := registry;
     lc_compoundComet := compoundComet; lc_vaults := vaults;
     lc_ready := bool_decide (issues = []); lc_issues := issues |}.
End Config.

Definition requireConfiguredAddress (item : CheckedAddress) (label : string) : result string :=
  match ca_address item with
  | Some address =>
      if bool_decide (ca_status item = configured) then Ok address
      else throw_new ("CONFIGURATION_MISSING:" +:+ label)
  | None => throw_new ("CONFIGURATION_MISSING:" +:+ label)
  end.

Definition getVaultConfig (config : LeopoldConfig) (slug : string) : option LeopoldVaultConfig :=
  List.find (fun vault => bool_decide (lv_slug vault = slug)) (lc_vaults config).

(** ** Amounts *)
Definition USDC_DECIMALS : Z := 6.

Class Units := {
  parseUnits : string -> Z -> Z;
  formatUnits : Z -> Z -> string
}.

(** The pattern of an amount: a whole part without leading zeros, and at most
    one fraction of one to six digits. *)
Definition whole_part (s : string) : bool :=
  match s with
  | String c rest => if Ascii.eqb c "0"%char then negb (string_nonempty rest) else is_digit c && string_forall is_digit rest
  | EmptyString => false
  end.
Definition fraction (s : string) : bool :=
  (1 <=? String.length s)%nat && (String.length s <=? 6)%nat && string_forall is_digit s.
Definition is_amount_text (s : string) : bool :=
  match split_char "."%char s with
  | [whole] => whole_part whole
  | [whole; part] => whole_part whole && fraction part
  | _ => false
  end.

Section Amounts.
Context `{Units}.

Definition parseUsdcAmount (value : string) : result Z :=
  let normalized := trim value in
  fail_if (negb (is_amount_text normalized)) "INVALID_USDC_AMOUNT" ;;
  let amount := parseUnits normalized USDC_DECIMALS in
  fail_if (amount <=? 0) "AMOUNT_MUST_BE_POSITIVE" ;;
  fail_if (0xffffffffffffffff <? amount) "AMOUNT_EXCEEDS_PRIVATE_USDC_LIMIT" ;;
  Ok amount.

Definition formatUsdcAmount (value : Z) : string := formatUnits value USDC_DECIMALS.

Definition parseUsdcAmountWithinBalance (value : string) (balance : Z) : result Z :=
  amount ← parseUsdcAmount value;
  fail_if (balance <? amount) "INSUFFICIENT_USDC" ;;
  Ok amount.
End Amounts.

(** * Properties *)

(** ** Configuration *)
Section config_properties.
Context `{Viem}.

Lemma address_issues_nil items :
  address_issues items = [] <-> Forall (fun item => ca_status item.2 = configured) items.
Proof.
  unfold address_issues. induction items as [|[name item] items IH]; simpl; [split; [constructor|done]|].
  case_bool_decide as E; simpl.
  - rewrite IH. split; [by constructor|]. intros Hf. by inversion Hf.
  - split; [done|]. intros Hf. by inversion Hf.
Qed.

(** An address is configured exactly when the manifest is of the expected chain
    and holds an address, which it then gives in checksummed form. *)
Lemma classifyAddress_configured value chainId expected :
  ca_status (classifyAddress value chainId expected) = configured <->
  chainId = expected /\ exists text, value = Some text /\ trim text <> "" /\ isAddress text = true /\
    ca_address (classifyAddress value chainId expected) = Some (getAddress text).
Proof.
  unfold classifyAddress. destruct (Z.eqb_spec chainId expected) as [->|Hne]; simpl; [|naive_solver].
  destruct value as [text|]; simpl; [|naive_solver].
  case_bool_decide as Et; simpl; [naive_solver|].
  destruct (isAddress text) eqn:Ea; simpl; [|naive_solver].
  split; [|done]. intros _. split; [done|]. by exists text.
Qed.

Lemma requireConfiguredAddress_Ok value chainId expected label :
  ca_status (classifyAddress value chainId expected) = configured ->
  exists text, value = Some text /\ isAddress text = true /\
    requireConfiguredAddress (classifyAddress value chainId expected) label = Ok (getAddress text).
Proof.
  intros Hc. pose proof Hc as (_ & text & -> & _ & Ha & E)%classifyAddress_configured.
  exists text. split_and!; [done..|]. unfold requireConfiguredAddress. rewrite E. by rewrite bool_decide_true.
Qed.

Lemma mjoin_nil {A} (ls : list (list A)) : mjoin ls = [] <-> Forall (fun l => l = []) ls.
Proof.
  induction ls as [|l ls IH]; simpl; [split; [constructor|done]|]. rewrite app_nil, IH.
  split; [intros [? ?]; by constructor|]. intros Hf. by inversion Hf.
Qed.

Definition all_configured (config : LeopoldConfig) : Prop :=
  Forall (fun item => ca_status item = configured)
    ([lc_lcUsdc config; lc_registry config; lc_compoundComet config] ++
     (vault ← lc_vaults config; [lv_vault vault; lv_adapter vault; lv_bondEscrow vault])).

(** A configuration is ready exactly when it can be used.  The manifest is for
    Sepolia, its USDC is the frozen one, and every address of a contract or of
    an official vault is configured. *)
Theorem loadLeopoldConfig_ready source :
  let config := loadLeopoldConfig source in
  lc_ready config = true <->
  rm_chainId source = LEOPOLD_CHAIN_ID /\ ca_address (lc_canonicalUsdc config) = Some CANONICAL_USDC /\
  all_configured config.
Proof.
  intros config. subst config. unfold all_configured. rewrite Forall_app, Forall_bind.
  unfold loadLeopoldConfig.
  cbn [lc_ready lc_issues lc_canonicalUsdc lc_lcUsdc lc_registry lc_compoundComet lc_vaults].
  rewrite bool_decide_eq_true, !app_nil, address_issues_nil, mjoin_nil, !Forall_fmap.
  assert (Hvault : forall vault, (((fun l => l = []) ∘ vault_issues) ∘ load_vault (rm_chainId source)) vault <->
    ((Forall (fun item => ca_status item = configured) ∘
      (fun vault => [lv_vault vault; lv_adapter vault; lv_bondEscrow vault])) ∘ load_vault (rm_chainId source)) vault).
  { intros vault. unfold compose, vault_issues. rewrite address_issues_nil, !Forall_cons, !Forall_nil. simpl. tauto. }
  rewrite (Forall_iff _ _ _ Hvault), !Forall_cons, !Forall_nil. simpl.
  destruct (Z.eqb_spec (rm_chainId source) LEOPOLD_CHAIN_ID); simpl; [|naive_solver].
  case_bool_decide; simpl; [|naive_solver]. tauto.
Qed.
End config_properties.

(** ** Amounts *)
Section amount_properties.
Context `{Units}.

(** An amount that parses fits what it is used for: its text is a decimal with
    at most six places, it is positive, an encrypted 64-bit integer can hold it,
    and within a balance it is at most that balance. *)
Theorem parseUsdcAmountWithinBalance_sound value balance amount :
  parseUsdcAmountWithinBalance value balance = Ok amount ->
  is_amount_text (trim value) = true /\ amount = parseUnits (trim value) USDC_DECIMALS /\
  0 < amount < 2 ^ 64 /\ amount <= balance.
Proof.
  unfold parseUsdcAmountWithinBalance, parseUsdcAmount. intros E.
  apply result_bind_Ok in E as (a & Ea & E). inv_guards Ea. inv_guards E.
  simplify_eq. bool_to_prop. split_and!; [done..| | |]; lia.
Qed.
End amount_properties.

Section examples.
(** Scaling of texts without a fraction. *)
#[local] Instance whole_units : Units := {
  parseUnits text decimals := match BigInt_of_digits text with Ok z => z * 10 ^ decimals | Throw _ => 0 end;
  formatUnits value decimals := Z_toString (value / 10 ^ decimals)
}.

Example parseUsdcAmountWithinBalance_sound_witness :
  let value := " 12 " in
  parseUsdcAmountWithinBalance value 20000000 = Ok 12000000 /\
  is_amount_text (trim value) = true /\ 12000000 = parseUnits (trim value) USDC_DECIMALS /\
  0 < 12000000 < 2 ^ 64 /\ 12000000 <= 20000000.
Proof.
  intros value. assert (E : parseUsdcAmountWithinBalance value 20000000 = Ok 12000000) by reflexivity.
  split; [exact E|]. apply (parseUsdcAmountWithinBalance_sound value 20000000 12000000 E).
Defined.
End examples.
