(* ===== verification/Actions.v ===== *)
(** * First-generation actions: frontend/lib/leopold/actions.ts

    Each transaction of the saver is one call of [writeAndConfirm]: the wallet is
    checked, the request simulated when the caller asks for it, the wallet checked
    again, the request sent once, its hash reported and its receipt awaited. *)
From Stdlib Require Import ZArith Lia Ascii.
From stdpp Require Import base option list sets strings.
From S2P Require Import Prelude WalletAddress Reliability Transactions Clients FrontendConfig.
Local Open Scope Z_scope.

Definition COMPOUND_FAUCET : string := "0x68793eA49297eB75DFB4610B68e076D2A5c7646C".
Definition PROVEN_FAUCET_TRANSACTION : string :=
  "0x63829c8633304e200a62bdd0af068374687b8163afc6673988fbe8f4426357da".

(** [request.functionName] *)
Definition functionName (call : WriteCall) : string :=
  match call with
  | call_approve _ _ => "approve"
  | call_wrap _ _ => "wrap"
  | call_confidentialTransferAndCall _ _ _ _ => "confidentialTransferAndCall"
  | call_unwrap _ _ _ _ => "unwrap"
  | call_finalizeUnwrap _ _ _ => "finalizeUnwrap"
  | call_withdraw _ _ => "withdraw"
  | call_withdrawWinnings _ _ => "withdrawWinnings"
  | call_depositAutomationBondCredit => "depositAutomationBondCredit"
  | call_withdrawAutomationBondCredit _ => "withdrawAutomationBondCredit"
  | call_setAutoEntry _ => "setAutoEntry"
  | call_claimBondRefund _ => "claimBondRefund"
  | call_withdrawSettlementRewards => "withdrawSettlementRewards"
  | call_registerForRound _ => "registerForRound"
  | call_closeRound => "closeRound"
  | call_materializeMyRoundWeight _ => "materializeMyRoundWeight"
  end.

Inductive NotifyPhase : Type := phase_simulating | phase_signature | phase_submitted | phase_confirming.

Definition notified_stages (stage : string) (phase : NotifyPhase) : list TransactionStage :=
  let pick a b c d :=
    match phase with
    | phase_simulating => a | phase_signature => b | phase_submitted => c | phase_confirming => d
    end in
  (if bool_decide (stage = "make-private-approval")
   then [pick approval_simulating approval_signature approval_submitted approval_confirming] else []) ++
  (if bool_decide (stage = "make-private-wrap")
   then [pick wrap_simulating wrap_signature wrap_submitted wrap_confirming] else []) ++
  (if bool_decide (stage = "save-confidential-transfer")
   then [pick save_simulating save_signature save_submitted save_confirming] else []) ++
  (if bool_decide (stage = "withdraw-round-advance")
   then [pick withdraw_round_advance_simulating withdraw_round_advance_signature withdraw_round_advance_submitted
           withdraw_round_advance_confirming] else []) ++
  (if bool_decide (stage = "withdraw")
   then [pick withdraw_simulating withdraw_signature withdraw_submitted withdraw_confirming] else []).

Inductive FailurePhase : Type := SIMULATION | WALLET_SIGNATURE | RECEIPT.

Definition actionFailurePrefix (stage : string) (phase : FailurePhase) : string :=
  let text := match phase with
              | SIMULATION => "SIMULATION" | WALLET_SIGNATURE => "WALLET_SIGNATURE" | RECEIPT => "RECEIPT"
              end in
  if bool_decide (stage = "save-confidential-transfer") then "SAVE:" +:+ text
  else if bool_decide (stage = "withdraw-round-advance") then "WITHDRAW:ROUND_ADVANCE_" +:+ text
  else if bool_decide (stage = "withdraw") then "WITHDRAW:" +:+ text
  else match phase with
       | SIMULATION => "ACTION_SIMULATION_FAILED"
       | WALLET_SIGNATURE => "ACTION_SIGNING_FAILED"
       | RECEIPT => "ACTION_CONFIRMATION_FAILED"
       end +:+ ":" +:+ stage.

Definition actionError (prefix : string) (error : Thrown) : Thrown :=
  plain_error (prefix +:+ ": " +:+ thrown_message error).

(** The address of [walletClient.account], a text or an object. *)
Definition account_address (account : WalletAccount) : string :=
  match account with account_string address => address | account_object address => address end.

Section Actions.
Context `{Viem} {W : Type} `{ClientEnv W}.
Implicit Types (clients : ActionClients).

(** [if (walletAccount && walletAccount.toLowerCase() !== ...) throw] *)
Definition wrong_signer clients : bool :=
  match account_address <$> cl_walletAccount clients with
  | Some walletAccount =>
      string_nonempty walletAccount && negb (bool_decide (toLowerCase walletAccount = toLowerCase (cl_account clients)))
  | None => false
  end.
Definition wallet_account_text clients : string :=
  default "" (account_address <$> cl_walletAccount clients).

Definition assertWalletClient clients (stage : string) : io W unit :=
  raise_if (wrong_signer clients)
    ("WALLET_SIGNER_MISMATCH:" +:+ stage +:+ ":" +:+ wallet_account_text clients +:+ ":" +:+ cl_account clients) ;;
  chainId ← perform walletChainId;
  raise_if (negb (chainId =? 11155111))
    ("WRONG_NETWORK:" +:+ stage +:+ ":wallet-client-" +:+ Z_toString chainId) ;;
  emit (WalletChecked {| wc_stage := stage; wc_signer := account_address <$> cl_walletAccount clients; wc_chains := [chainId] |}).

Fixpoint notify_all (stages : list TransactionStage) : io W unit :=
  match stages with [] => mret tt | stage :: stages' => emit (OnStage stage) ;; notify_all stages' end.
Definition notifyActionStage (stage : string) (phase : NotifyPhase) : io W unit :=
  notify_all (notified_stages stage phase).

(** The simulation, and the gas limit it suggests. *)
Definition simulate_action clients (request : WriteRequest) (stage : string) : io W (option Z) :=
  notifyActionStage stage phase_simulating ;;
  gas ← rethrow (perform (simulateContract (cl_account clients) request))
          (actionError (actionFailurePrefix stage SIMULATION));
  emit (Simulated (cl_account clients) request gas) ;;
  mret gas.

(** From the wallet's signature to the receipt. *)
Definition submit_and_confirm clients (request : WriteRequest) (stage : string) (gas : option Z) : io W string :=
  notifyActionStage stage phase_signature ;;
  hash ← rethrow (submit (writeContract (cl_account clients) request gas)
                    (WriteSubmitted (cl_account clients) request gas))
           (actionError (actionFailurePrefix stage WALLET_SIGNATURE));
  emit (OnHash hash None) ;;
  notifyActionStage stage phase_submitted ;;
  notifyActionStage stage phase_confirming ;;
  receipt ← rethrow (await_receipt hash) (actionError (actionFailurePrefix stage RECEIPT));
  raise_if (negb (rc_success receipt))
    (if bool_decide (stage = "save-confidential-transfer") then "SAVE:RECEIPT:status=reverted"
     else if bool_decide (stage = "withdraw-round-advance") then "WITHDRAW:ROUND_ADVANCE_RECEIPT:status=reverted"
     else if bool_decide (stage = "withdraw") then "WITHDRAW:RECEIPT:status=reverted"
     else "ACTION_REVERTED:" +:+ stage) ;;
  emit_if (bool_decide (stage = "save-confidential-transfer")) (OnStage save_receipt) ;;
  emit_if (bool_decide (stage = "withdraw")) (OnStage withdraw_receipt) ;;
  mret hash.

Definition writeAndConfirm clients (request : WriteRequest) (stage : string) (simulate : bool) : io W string :=
  assertWalletClient clients stage ;;
  gas ← (if simulate then simulate_action clients request stage else mret None);
  assertWalletClient clients stage ;;
  submit_and_confirm clients request stage gas.

(** The historical call of the faucet, simulated before it is sent again. *)
Definition getTestUsdc clients : io W string :=
  proven ← perform (getTransaction PROVEN_FAUCET_TRANSACTION);
  raise_if (negb (bool_decide (toLowerCase <$> ct_to proven = Some (toLowerCase COMPOUND_FAUCET)))
            || negb (string_nonempty (ct_input proven)) || bool_decide (ct_input proven = "0x"))
    "CANONICAL_FAUCET_EVIDENCE_UNAVAILABLE" ;;
  raise_if (wrong_signer clients)
    ("WALLET_SIGNER_MISMATCH:" +:+ wallet_account_text clients +:+ ":" +:+ cl_account clients) ;;
  chainId ← perform walletChainId;
  raise_if (negb (chainId =? 11155111)) ("WRONG_NETWORK:wallet-client-" +:+ Z_toString chainId) ;;
  emit (WalletChecked {| wc_stage := "faucet"; wc_signer := account_address <$> cl_walletAccount clients; wc_chains := [chainId] |}) ;;
  perform (callContract (cl_account clients) COMPOUND_FAUCET (ct_input proven)) ;;
  emit (CallSimulated (cl_account clients) COMPOUND_FAUCET (ct_input proven)) ;;
  hash ← submit (sendTransaction (cl_account clients) COMPOUND_FAUCET (ct_input proven))
           (TransactionSent (cl_account clients) COMPOUND_FAUCET (ct_input proven));
  emit (OnHash hash None) ;;
  receipt ← await_receipt hash;
  raise_if (negb (rc_success receipt)) "CANONICAL_FAUCET_TRANSACTION_FAILED" ;;
  mret hash.

Definition readAllowance clients (lcUsdc : string) (fresh : bool) : io W Z :=
  block ← (if fresh then number ← perform getBlockNumber; mret (Some number) else mret None);
  read_uint CANONICAL_USDC (allowance (cl_account clients) lcUsdc) block.

Definition approve_lcUsdc clients (lcUsdc : string) (amount : Z) : io W (list string) :=
  hash ← writeAndConfirm clients (write_request CANONICAL_USDC (call_approve lcUsdc amount))
           "make-private-approval" true;
  assertWalletClient clients "make-private-allowance-refresh" ;;
  allowanceAfterApproval ← readAllowance clients lcUsdc true;
  raise_if (allowanceAfterApproval <? amount)
    ("ACTION_CONFIRMATION_FAILED:make-private-approval-allowance:" +:+ Z_toString allowanceAfterApproval) ;;
  emit (OnStage allowance_refresh) ;;
  mret [hash].

Definition makePrivate clients (lcUsdc : string) (amount : Z) : io W (list string) :=
  assertWalletClient clients "make-private-start" ;;
  allowance ← readAllowance clients lcUsdc false;
  hashes ← (if allowance <? amount then approve_lcUsdc clients lcUsdc amount else mret []);
  hash ← writeAndConfirm clients (write_request lcUsdc (call_wrap (cl_account clients) amount)) "make-private-wrap" true;
  mret (hashes ++ [hash]).

(** [onStage]: whether the caller passed a callback of its own. *)
Definition savePrivately (leopoldConfig : LeopoldConfig) clients (lcUsdc vault : string) (amount : Z) (onStage : bool)
    : io W string :=
  raise_if (negb (bool_decide (Some (toLowerCase lcUsdc) = toLowerCase <$> ca_address (lc_lcUsdc leopoldConfig))))
    "CONFIGURATION_MISSING:private token target" ;;
  let officialVault :=
    existsb (fun item => bool_decide (toLowerCase <$> ca_address (lv_vault item) = Some (toLowerCase vault)))
      (lc_vaults leopoldConfig) in
  raise_if (negb officialVault) "CONFIGURATION_MISSING:official vault target" ;;
  emit_if onStage (OnStage save_encrypting) ;;
  encrypted ← rethrow (encryptPrivateAmount (cl_ethereum clients) (cl_account clients) lcUsdc amount
                         (Some (cl_walletClient clients)))
                (actionError "SAVE:ENCRYPT_INPUT");
  writeAndConfirm clients
    (write_request lcUsdc (call_confidentialTransferAndCall vault encrypted.1 encrypted.2 "0x"))
    "save-confidential-transfer" true.

(** A call whose stage is its function's name, sent without simulation. *)
Definition write_directly clients (request : WriteRequest) : io W string :=
  writeAndConfirm clients request (functionName (wr_call request)) false.

Definition enterPrizeRound clients (escrow : string) (roundId exactBond : Z) : io W string :=
  write_directly clients
    {| wr_address := escrow; wr_call := call_registerForRound roundId; wr_value := Some exactBond |}.

Definition withdrawSavings clients (vault : string) (amount : Z) : io W string :=
  encrypted ← rethrow (encryptPrivateAmount (cl_ethereum clients) (cl_account clients) vault amount
                         (Some (cl_walletClient clients)))
                (actionError "WITHDRAW:SIMULATION");
  writeAndConfirm clients (write_request vault (call_withdraw encrypted.1 encrypted.2)) "withdraw" true.

Definition closeExpiredRound clients (vault : string) : io W string :=
  writeAndConfirm clients (write_request vault call_closeRound) "withdraw-round-advance" true.

Definition requestMakePublic clients (lcUsdc : string) (amount : Z) : io W string :=
  encrypted ← encryptPrivateAmount (cl_ethereum clients) (cl_account clients) lcUsdc amount
                (Some (cl_walletClient clients));
  requestHash ← write_directly clients
    (write_request lcUsdc (call_unwrap (cl_account clients) (cl_account clients) encrypted.1 encrypted.2));
  receipt ← perform (getTransactionReceipt requestHash);
  match hd_error (parseUnwrapRequested (rc_logs receipt)) with
  | None => raise (plain_error "UNWRAP_REQUEST_ID_UNAVAILABLE")
  | Some requestId =>
      publicDecryption ← decryptPublicValue (cl_ethereum clients) (cl_account clients) requestId
                           (Some (cl_walletClient clients));
      let '(clear, _, decryptionProof) := publicDecryption in
      raise_if (0xffffffffffffffff <? clear) "RELAYER_PUBLIC_CLEAR_OUT_OF_RANGE" ;;
      write_directly clients (write_request lcUsdc (call_finalizeUnwrap requestId clear decryptionProof))
  end.

Definition claimBondRefund clients (escrow : string) (roundId : Z) : io W string :=
  write_directly clients (write_request escrow (call_claimBondRefund roundId)).
Definition claimSettlementRewards clients (escrow : string) : io W string :=
  write_directly clients (write_request escrow call_withdrawSettlementRewards).
Definition materializeEligibility clients (vault : string) (roundId : Z) : io W string :=
  write_directly clients (write_request vault (call_materializeMyRoundWeight roundId)).
End Actions.

(** * Properties *)
Section action_properties.
Context `{Viem} {W : Type} `{ClientEnv W}.
Implicit Types (clients : ActionClients).

(** The check that lets an action go on. *)
Definition action_check clients (stage : string) : WalletCheck :=
  {| wc_stage := stage; wc_signer := account_address <$> cl_walletAccount clients; wc_chains := [11155111] |}.

Lemma right_signer clients stage : wrong_signer clients = false -> action_wallet_ok (cl_account clients) (action_check clients stage).
Proof.
  unfold wrong_signer, action_wallet_ok, action_check. cbn [wc_signer wc_chains]. intros Hs. split; [|done]. intros signer E. rewrite E in Hs.
  apply andb_false_iff in Hs as [Hs|Hs]; [left; by destruct signer|right]. by apply negb_false_iff, bool_decide_eq_true in Hs.
Qed.

Lemma assertWalletClient_checks clients stage :
  adds (assertWalletClient clients stage) (fun r l => match r with
    | inl _ => l = [WalletChecked (action_check clients stage)] /\ action_wallet_ok (cl_account clients) (action_check clients stage)
    | inr _ => l = [] end).
Proof.
  unfold assertWalletClient. apply adds_raise_if_bind; [done|]. intros Hs.
  apply adds_perform_bind; [done|]. intros chainId. apply adds_raise_if_bind; [done|]. intros Hc. bool_to_prop. subst. apply adds_emit.
  split; [done|by apply right_signer].
Qed.
Lemma assertWalletClient_adds clients stage :
  adds (assertWalletClient clients stage) (fun r l =>
    l = match r with inl _ => [WalletChecked (action_check clients stage)] | inr _ => [] end).
Proof. eapply adds_mono; [apply assertWalletClient_checks|]. by intros [] l; [intros [-> _]|]. Qed.

Lemma notify_all_adds stages :
  adds (notify_all stages : io W unit) (fun r l => r = inl tt /\ forallb quiet l = true /\ strip l = []).
Proof.
  induction stages as [|stage stages IH]; simpl; [by apply adds_ret|].
  apply adds_emit_bind. eapply adds_mono; [exact IH|]. by intros r l (-> & Hq & Hl).
Qed.

Lemma simulate_action_adds clients request stage :
  adds (simulate_action clients request stage) (fun r l => forallb quiet l = true /\
    strip l = match r with inl gas => [Simulated (cl_account clients) request gas] | inr _ => [] end).
Proof.
  unfold simulate_action. eapply adds_bind; [apply notify_all_adds|by intros e l (_ & ? & ?)|].
  intros _ l1 (_ & Q1 & E1). eapply (adds_bind _ _ (fun _ l => l = [])).
  - by apply adds_rethrow, adds_perform.
  - intros e l ->. by rewrite app_nil_r.
  - intros gas l2 ->. apply adds_emit_bind, adds_ret. by rewrite app_nil_l, strip_app, forallb_app, E1, Q1.
Qed.

(** An error says nothing of the transaction. *)
Definition no_explanation (e : Thrown) (hash : string) (reverted : bool) : Prop := True.
#[local] Notation write_adds clients := (write_adds (action_wallet_ok (cl_account clients)) no_explanation).

(** From the submission on. *)
Lemma submit_and_confirm_adds clients request stage (simulated : bool) gas a l1 :
  forallb quiet a = true -> action_wallet_ok (cl_account clients) (action_check clients stage) ->
  strip l1 = a ++ (if simulated then [Simulated (cl_account clients) request gas] else []) ++ [WalletChecked (action_check clients stage)] ->
  adds (submit_and_confirm clients request stage gas)
    (fun r l2 => write_adds clients simulated (cl_account clients) request (action_check clients stage) r (l1 ++ l2)).
Proof.
  intros Ha Hok E1.
  assert (Hcut : forall (e : Thrown) (outcome : string + ReadFailure) rest l, strip l = strip (WriteSubmitted (cl_account clients) request gas outcome :: rest) ->
    match outcome with
    | inl hash => rest = [OnHash hash None] \/ rest = [OnHash hash None; ReceiptRead hash false]
    | inr _ => rest = []
    end -> write_adds clients simulated (cl_account clients) request (action_check clients stage) (inr e) (l1 ++ l)).
  { intros e outcome rest l El Hrest.
    exists a, (sent simulated (cl_account clients) request gas (action_check clients stage) outcome ++ rest).
    unfold sent. rewrite strip_app, E1, El, <- !app_assoc. split_and!; [|done|].
    - simpl. f_equal. f_equal. destruct outcome; [by destruct Hrest as [->| ->]|by subst].
    - right. exists gas, outcome, rest. split; [unfold sent; by rewrite <- !app_assoc|split; [done|]].
      destruct outcome; [|done]. exists None. unfold no_explanation. naive_solver. }
  unfold submit_and_confirm. eapply adds_bind; [apply notify_all_adds|by intros e l (? & _)|]. intros _ n0 (_ & _ & N0).
  apply adds_submit_bind; [intros e; eapply (Hcut _ (inr e) []); [by rewrite strip_app, N0|done]|]. intros hash.
  apply adds_emit_bind. eapply adds_bind; [apply notify_all_adds|by intros e l (? & _)|]. intros _ n1 (_ & _ & N1).
  eapply adds_bind; [apply notify_all_adds|by intros e l (? & _)|]. intros _ n2 (_ & _ & N2).
  apply adds_receipt_bind.
  { intros e. eapply (Hcut _ (inl hash) [OnHash hash None]); [|by left].
    by rewrite app_nil_r, !strip_app, N0; simpl; rewrite strip_app, N1, N2. }
  intros receipt. apply adds_raise_if_bind; intros Hs; [apply negb_true_iff in Hs|apply negb_false_iff in Hs].
  { eapply (Hcut _ (inl hash) [OnHash hash None; ReceiptRead hash false]); [|by right].
    rewrite strip_app, N0. simpl. rewrite !strip_app, N1, N2. simpl. by rewrite Hs. }
  eapply (adds_mono _ (fun r l => r = inl hash /\ strip l = [])).
  { unfold emit_if. repeat case_bool_decide.
    all: repeat first [apply adds_emit_bind|apply (adds_ret_bind tt)].
    all: by apply adds_ret. }
  intros r l (-> & Hl). exists a, (sent simulated (cl_account clients) request gas (action_check clients stage) (inl hash) ++ [OnHash hash None; ReceiptRead hash true]).
  unfold sent. rewrite !strip_app, E1, N0. simpl. rewrite !strip_app, N1, N2. simpl. rewrite Hl, Hs, <- !app_assoc.
  split_and!; [done..|]. exists gas, None. split; [unfold sent; by rewrite <- !app_assoc|done].
Qed.

Lemma writeAndConfirm_adds clients request stage simulate :
  adds (writeAndConfirm clients request stage simulate)
    (write_adds clients simulate (cl_account clients) request (action_check clients stage)).
Proof.
  unfold writeAndConfirm. eapply adds_bind; [apply assertWalletClient_adds| |]; cbv beta iota.
  { intros e l ->. by apply write_adds_quiet. }
  intros _ l1 ->. eapply (adds_bind _ _ (fun r l => match r with
    | inl gas => strip l = if simulate then [Simulated (cl_account clients) request gas] else []
    | inr _ => strip l = [] end)).
  { destruct simulate; [|by apply adds_ret]. eapply adds_mono; [apply simulate_action_adds|]. by intros [] l [_ ->]. }
  { intros e l Hl. apply write_adds_quiet. by rewrite strip_app, Hl. }
  intros gas l2 E2. eapply adds_bind; [apply assertWalletClient_checks| |]; cbv beta iota.
  { intros e l ->. apply write_adds_quiet. rewrite app_nil_r, strip_app, E2. by destruct simulate. }
  intros _ l3 [-> Hok]. eapply adds_mono.
  - apply (submit_and_confirm_adds clients request stage simulate gas [WalletChecked (action_check clients stage)]
      ([WalletChecked (action_check clients stage)] ++ l2 ++ [WalletChecked (action_check clients stage)])); [done..|].
    rewrite !strip_app, E2. simpl. done.
  - cbv beta. intros r l. by rewrite <- !app_assoc.
Qed.

(** ** All actions *)
Definition action_simulates (call : WriteCall) : bool :=
  match call with
  | call_approve _ _ | call_wrap _ _ | call_confidentialTransferAndCall _ _ _ _ | call_withdraw _ _ | call_closeRound => true
  | _ => false
  end.

#[local] Notation sends clients := (flow (write_block action_simulates (cl_account clients) (action_wallet_ok (cl_account clients)))
  (write_cut action_simulates (cl_account clients) (action_wallet_ok (cl_account clients)) no_explanation)).

Lemma writeAndConfirm_flow clients request stage simulate :
  simulate = action_simulates (wr_call request) ->
  sends clients (writeAndConfirm clients request stage simulate).
Proof.
  intros ->. eapply adds_mono; [apply writeAndConfirm_adds|]. intros r l. apply write_adds_flow.
Qed.

Lemma silent_assertWalletClient clients stage : silent (assertWalletClient clients stage).
Proof. unfold assertWalletClient. silent. Qed.
Lemma silent_readAllowance clients lcUsdc fresh : silent (readAllowance clients lcUsdc fresh).
Proof. unfold readAllowance. silent. Qed.
#[local] Hint Resolve silent_assertWalletClient silent_readAllowance : silent.

(** The faucet's transaction: complete, or cut short. *)
Lemma getTestUsdc_transaction clients :
  let check := action_check clients "faucet" in
  adds (getTestUsdc clients) (fun r l => exists a b, strip l = a ++ b /\ forallb quiet a = true /\
    match r with
    | inl hash => exists to data,
        b = transaction_sent (cl_account clients) to data check (inl hash) ++ [OnHash hash None; ReceiptRead hash true] /\
        action_wallet_ok (cl_account clients) check
    | inr _ => b = [] \/ exists to data outcome rest,
        b = transaction_sent (cl_account clients) to data check outcome ++ rest /\
        action_wallet_ok (cl_account clients) check /\
        match outcome with
        | inl hash => rest = [OnHash hash None] \/ rest = [OnHash hash None; ReceiptRead hash false]
        | inr _ => rest = []
        end
    end).
Proof.
  intros check. set (L := fun (r : string + Thrown) l => exists a b, strip l = a ++ b /\ _).
  assert (Hquiet : forall (e : Thrown) l, forallb quiet (strip l) = true -> L (inr e) l).
  { intros e l Hl. exists (strip l), []. rewrite app_nil_r. auto. }
  unfold getTestUsdc. apply adds_perform_bind; [intros; by apply Hquiet|]. intros proven.
  apply adds_raise_if_bind; intros _; [by apply Hquiet|]. apply adds_raise_if_bind; intros Hs; [by apply Hquiet|].
  apply adds_perform_bind; [intros; by apply Hquiet|]. intros chainId.
  apply adds_raise_if_bind; intros Hc; [by apply Hquiet|]. bool_to_prop. subst chainId.
  pose proof (right_signer clients "faucet" Hs) as Hok. fold check in Hok.
  apply adds_emit_bind. fold (action_check clients "faucet"). fold check.
  apply adds_perform_bind; [intros; by apply Hquiet|]. intros _.
  set (to := COMPOUND_FAUCET). set (data := ct_input _).
  assert (Hcut : forall (e : Thrown) outcome rest l,
    match outcome with inl hash => rest = [OnHash hash None] \/ rest = [OnHash hash None; ReceiptRead hash false] | inr _ => rest = [] end ->
    strip l = transaction_sent (cl_account clients) to data check outcome ++ rest -> L (inr e) l).
  { intros e outcome rest l Hr Hl. exists [], (strip l). split_and!; [done..|]. right. by exists to, data, outcome, rest. }
  apply adds_emit_bind. eapply (adds_bind _ _ (fun r l => match r with
    | inl hash => l = [TransactionSent (cl_account clients) to data (inl hash)]
    | inr _ => exists f, l = [TransactionSent (cl_account clients) to data (inr f)] end)).
  { apply adds_submit; eauto. }
  { intros e l (f & ->). by eapply (Hcut e (inr f) []). }
  intros hash l ->. apply adds_emit_bind.
  eapply (adds_bind _ _ (fun r l => match r with
    | inl receipt => l = [ReceiptRead hash (rc_success receipt)] | inr _ => l = [] end)).
  { unfold await_receipt. apply adds_perform_bind; [done|]. intros receipt. by apply adds_emit_bind, adds_ret. }
  { intros e l ->. eapply (Hcut e (inl hash) [OnHash hash None]); [by left|done]. }
  intros receipt l ->. apply adds_raise_if_bind; intros Hr; [apply negb_true_iff in Hr|apply negb_false_iff in Hr]; rewrite Hr.
  { eapply (Hcut _ (inl hash) [OnHash hash None; ReceiptRead hash false]); [by right|done]. }
  apply adds_ret. eexists [], _. split_and!; [done..|]. by exists to, data.
Qed.

Lemma getTestUsdc_flow simulates wallet_ok explains clients :
  flow (write_block simulates (cl_account clients) wallet_ok) (write_cut simulates (cl_account clients) wallet_ok explains)
    (getTestUsdc clients).
Proof.
  eapply adds_mono; [apply getTestUsdc_transaction|]. intros r l (a & b & -> & Ha & Hb).
  apply flow_of_prefix; [by apply run_of_silent|]. destruct r as [hash|e].
  - destruct Hb as (to & data & -> & Hok). by apply run_of_one, block_transaction.
  - exists [], b. split; [done|]. split; [constructor|].
    destruct Hb as [->|(to & data & outcome & rest & -> & Hok & Hr)]; [by left|right; by constructor].
Qed.

(** The actions a page offers. *)
Inductive Action : Type :=
| do_getTestUsdc
| do_makePrivate (lcUsdc : string) (amount : Z)
| do_savePrivately (config : LeopoldConfig) (lcUsdc vault : string) (amount : Z) (onStage : bool)
| do_enterPrizeRound (escrow : string) (roundId exactBond : Z)
| do_withdrawSavings (vault : string) (amount : Z)
| do_closeExpiredRound (vault : string)
| do_requestMakePublic (lcUsdc : string) (amount : Z)
| do_claimBondRefund (escrow : string) (roundId : Z)
| do_claimSettlementRewards (escrow : string)
| do_materializeEligibility (vault : string) (roundId : Z).

Definition run_action clients (action : Action) : io W unit :=
  match action with
  | do_getTestUsdc => getTestUsdc clients ;; mret tt
  | do_makePrivate lcUsdc amount => makePrivate clients lcUsdc amount ;; mret tt
  | do_savePrivately config lcUsdc vault amount onStage =>
      savePrivately config clients lcUsdc vault amount onStage ;; mret tt
  | do_enterPrizeRound escrow roundId exactBond => enterPrizeRound clients escrow roundId exactBond ;; mret tt
  | do_withdrawSavings vault amount => withdrawSavings clients vault amount ;; mret tt
  | do_closeExpiredRound vault => closeExpiredRound clients vault ;; mret tt
  | do_requestMakePublic lcUsdc amount => requestMakePublic clients lcUsdc amount ;; mret tt
  | do_claimBondRefund escrow roundId => claimBondRefund clients escrow roundId ;; mret tt
  | do_claimSettlementRewards escrow => claimSettlementRewards clients escrow ;; mret tt
  | do_materializeEligibility vault roundId => materializeEligibility clients vault roundId ;; mret tt
  end.

Ltac action_flow :=
  repeat first
    [ by apply getTestUsdc_flow
    | by apply writeAndConfirm_flow
    | by apply flow_silent; silent
    | apply flow_bind; [|intros ?]
    | match goal with |- flow _ _ (match ?x with _ => _ end) => destruct x end ].

Lemma run_action_flow clients action : sends clients (run_action clients action).
Proof.
  destruct action; simpl; (apply flow_bind; [|intros ?; by apply flow_silent; silent]);
    unfold makePrivate, approve_lcUsdc, savePrivately, enterPrizeRound, withdrawSavings, closeExpiredRound,
      requestMakePublic, claimBondRefund, claimSettlementRewards, materializeEligibility, write_directly;
    cbv zeta; action_flow.
Qed.

(** No transaction of an action leaves unchecked.  Whatever the wallet, the chain
    and the relayer answer, every request an action submits is sent for the
    account of the page right after a check that found no other signer than that
    account and the wallet on Sepolia, the requests that
    move savings (approve, wrap, transfer, withdraw, close) right after the same
    request was simulated with the gas limit that is sent; a refused request
    ends the action, and a hash is reported at once and must be confirmed by its
    receipt before anything else is sent. *)
Theorem run_action_well_sent clients action s r s' :
  run_action clients action s = (r, s') ->
  exists new, cs_trace s' = cs_trace s ++ new /\
    well_sent action_simulates (cl_account clients) (action_wallet_ok (cl_account clients)) no_explanation r (strip new).
Proof.
  intros E. destruct (run_action_flow clients action s r s' E) as (new & Hs & Hf). exists new. split; [done|].
  by apply flow_well_sent.
Qed.

(** ** Making money private *)
Lemma readAllowance_adds clients lcUsdc fresh :
  adds (readAllowance clients lcUsdc fresh) (fun r l => match r with
    | inl value => l = [ReadUint CANONICAL_USDC (allowance (cl_account clients) lcUsdc) value] | inr _ => l = [] end).
Proof.
  unfold readAllowance. eapply (adds_bind _ _ (fun _ l => l = [])); [|by intros e l ->|].
  - destruct fresh; [|by apply adds_ret]. apply adds_perform_bind; [done|]. intros number. by apply adds_ret.
  - intros block l ->. apply read_uint_adds.
Qed.

Definition approve_request (lcUsdc : string) (amount : Z) : WriteRequest :=
  write_request CANONICAL_USDC (call_approve lcUsdc amount).
Definition wrap_request clients (lcUsdc : string) (amount : Z) : WriteRequest :=
  write_request lcUsdc (call_wrap (cl_account clients) amount).

(** After the approval, its allowance was read again and covers the amount. *)
Lemma approve_lcUsdc_adds clients lcUsdc amount :
  adds (approve_lcUsdc clients lcUsdc amount) (fun r l =>
    along [approve_request lcUsdc amount] r (strip l) /\
    (forall hashes, r = inl hashes -> exists a allowed,
       strip l = a ++ [ReadUint CANONICAL_USDC (allowance (cl_account clients) lcUsdc) allowed] /\ amount <= allowed)).
Proof.
  unfold approve_lcUsdc. eapply adds_bind; [apply writeAndConfirm_adds| |].
  { intros e l Hl. split; [by apply write_adds_along in Hl|done]. }
  intros hash l1 H1. pose proof (write_adds_along _ _ _ _ _ _ _ _ H1) as A1. fold (approve_request lcUsdc amount) in A1.
  assert (Hstop : forall (e : Thrown) l, submissions (strip l) = [] ->
    along [approve_request lcUsdc amount] (inr e) (strip (l1 ++ l))).
  { intros e l Hl. rewrite strip_app. rewrite <- (app_nil_r [approve_request lcUsdc amount]).
    apply (along_app _ [] [hash] (inr e)); [exact A1|by apply along_stop]. }
  eapply adds_bind; [apply assertWalletClient_adds|intros e l ->; split; [by apply Hstop|done]|]. intros _ l2 ->.
  eapply adds_bind; [apply readAllowance_adds|intros e l ->; split; [by apply Hstop|done]|]. intros allowed l3 ->.
  apply adds_raise_if_bind; intros Hlt; [split; [by apply Hstop|done]|]. bool_to_prop.
  apply adds_emit_bind, adds_ret. split.
  - rewrite strip_app. rewrite <- (app_nil_r [approve_request lcUsdc amount]).
    apply (along_app _ [] [hash] (inl [])); [exact A1|by apply along_silent; [|intros ? [= <-]]].
  - intros hashes _. rewrite strip_app. simpl.
    exists (strip l1 ++ [WalletChecked (action_check clients "make-private-allowance-refresh")]), allowed. by rewrite <- app_assoc.
Qed.

(** What leads to the wrapping: the plan so far, ended by the allowance. *)
Definition ready_to_wrap clients (lcUsdc : string) (amount : Z) (plan : list WriteRequest) (hashes : list string)
    (l : list Event) : Prop :=
  along plan (inl hashes) (strip l) /\ wrap_request clients lcUsdc amount ∉ plan /\
  exists a allowed, strip l = a ++ [ReadUint CANONICAL_USDC (allowance (cl_account clients) lcUsdc) allowed] /\
    amount <= allowed.

Lemma wrap_adds clients lcUsdc amount plan hashes l1 :
  ready_to_wrap clients lcUsdc amount plan hashes l1 ->
  adds (hash ← writeAndConfirm clients (wrap_request clients lcUsdc amount) "make-private-wrap" true; mret (hashes ++ [hash]))
    (fun r l2 => along (plan ++ [wrap_request clients lcUsdc amount]) r (strip (l1 ++ l2)) /\
       allowed_write CANONICAL_USDC (cl_account clients) lcUsdc amount (wrap_request clients lcUsdc amount) (strip (l1 ++ l2))).
Proof.
  intros (A1 & Hn & a & allowed & E1 & Hle).
  assert (Hallowed : forall r l, write_adds clients true (cl_account clients) (wrap_request clients lcUsdc amount) (action_check clients "make-private-wrap") r l ->
    allowed_write CANONICAL_USDC (cl_account clients) lcUsdc amount (wrap_request clients lcUsdc amount) (strip (l1 ++ l))).
  { intros r l. by eapply write_adds_allowed. }
  eapply adds_bind; [apply writeAndConfirm_adds| |].
  { intros e l Hl. split; [|by eapply Hallowed]. rewrite strip_app.
    apply (along_app _ _ hashes (inr e)); [done|by apply write_adds_along in Hl]. }
  intros hash l2 H2. apply adds_ret. rewrite app_nil_r. split; [|by eapply Hallowed]. rewrite strip_app.
  apply (along_app _ _ hashes (inl [hash])); [done|by apply write_adds_along in H2].
Qed.

(** [makePrivate] wraps exactly what was approved.  Of the plan "approve when
    the allowance first read does not cover the amount, then wrap" a failing run
    sends a part from the front and a successful one everything, each request
    once; and the wrapping is sent only when the allowance read last, after any
    approval and with nothing sent in between, covers the amount. *)
Theorem makePrivate_spec clients lcUsdc amount s r s' :
  makePrivate clients lcUsdc amount s = (r, s') ->
  exists new approval,
    cs_trace s' = cs_trace s ++ new /\
    along ((if approval : bool then [approve_request lcUsdc amount] else []) ++ [wrap_request clients lcUsdc amount])
      r (strip new) /\
    allowed_write CANONICAL_USDC (cl_account clients) lcUsdc amount (wrap_request clients lcUsdc amount) (strip new) /\
    (forall seen rest, allowance_reads new = seen :: rest -> approval = (seen <? amount)).
Proof.
  revert s r s'. enough (Ha : adds (makePrivate clients lcUsdc amount) (fun r new => exists approval,
    along ((if approval : bool then [approve_request lcUsdc amount] else []) ++ [wrap_request clients lcUsdc amount])
      r (strip new) /\
    allowed_write CANONICAL_USDC (cl_account clients) lcUsdc amount (wrap_request clients lcUsdc amount) (strip new) /\
    (forall seen rest, allowance_reads new = seen :: rest -> approval = (seen <? amount)))).
  { intros s r s' E. destruct (Ha s r s' E) as (new & ? & approval & ?). by exists new, approval. }
  unfold makePrivate. eapply adds_bind; [apply assertWalletClient_adds| |]; cbv beta iota.
  { intros e l ->. exists false. split_and!; [by apply along_stop|by apply allowed_write_none, not_elem_of_nil|done]. }
  intros _ l1 ->. eapply adds_bind; [apply readAllowance_adds| |]; cbv beta iota.
  { intros e l ->. exists false. split_and!; [by apply along_stop|by apply allowed_write_none, not_elem_of_nil|done]. }
  intros seen l2 ->. destruct (seen <? amount) eqn:Es; bool_to_prop.
  - eapply adds_bind; [apply approve_lcUsdc_adds| |]; cbv beta.
    { intros e l [Hl _]. exists true. split_and!.
      - rewrite strip_app, strip_app. by apply along_fail.
      - apply allowed_write_none. simpl. intros Hin. apply (elem_of_prefix _ [approve_request lcUsdc amount]) in Hin; [|exact Hl].
        by apply list_elem_of_singleton in Hin.
      - simpl. intros seen' rest [= <- _]. by rewrite (proj2 (Z.ltb_lt _ _)). }
    intros hashes l3 [A3 Hafter]. destruct (Hafter hashes eq_refl) as (a & allowed & E3 & Hle).
    eapply adds_mono.
    + apply (wrap_adds clients lcUsdc amount [approve_request lcUsdc amount] hashes
        ([WalletChecked (action_check clients "make-private-start")] ++
         [ReadUint CANONICAL_USDC (allowance (cl_account clients) lcUsdc) seen] ++ l3)).
      split; [exact A3|]. split; [intros Hin; by apply list_elem_of_singleton in Hin|].
      exists (WalletChecked (action_check clients "make-private-start") ::
              ReadUint CANONICAL_USDC (allowance (cl_account clients) lcUsdc) seen :: a), allowed.
      split; [|done]. simpl. by rewrite E3.
    + cbv beta. intros r l. rewrite <- !app_assoc. intros [HA HB]. exists true. split_and!; [done..|].
      simpl. intros seen' rest [= <- _]. by rewrite (proj2 (Z.ltb_lt _ _)).
  - apply adds_ret_bind. eapply adds_mono.
    + apply (wrap_adds clients lcUsdc amount [] []
        ([WalletChecked (action_check clients "make-private-start")] ++ [ReadUint CANONICAL_USDC (allowance (cl_account clients) lcUsdc) seen])).
      split; [done|]. split; [apply not_elem_of_nil|]. by exists [WalletChecked (action_check clients "make-private-start")], seen.
    + cbv beta. intros r l. rewrite <- !app_assoc. intros [HA HB]. exists false. split_and!; [done..|].
      simpl. intros seen' rest [= <- _]. by rewrite (proj2 (Z.ltb_ge _ _)).
Qed.

(** ** Saving *)

(** Savings go to an official vault only.  [savePrivately] submits at most one
    request: the transfer of the configured private token to a vault of the
    configuration, whose amount is the ciphertext the relayer made of the amount
    given, for that token. *)
Theorem savePrivately_sound config clients lcUsdc vault amount onStage s r s' :
  savePrivately config clients lcUsdc vault amount onStage s = (r, s') ->
  exists new, cs_trace s' = cs_trace s ++ new /\
    (length (submissions new) <= 1)%nat /\
    forall request, request ∈ (submissions new).*1 ->
      toLowerCase <$> ca_address (lc_lcUsdc config) = Some (toLowerCase lcUsdc) /\
      (exists item, item ∈ lc_vaults config /\ toLowerCase <$> ca_address (lv_vault item) = Some (toLowerCase vault)) /\
      exists value proof, Encrypted lcUsdc amount value proof ∈ new /\
        request = write_request lcUsdc (call_confidentialTransferAndCall vault value proof "0x").
Proof.
  revert s r s'. unfold savePrivately.
  assert (Hnone : forall new, submissions new = [] -> (length (submissions new) <= 1)%nat /\ forall request,
    request ∈ (submissions new).*1 -> False).
  { intros new ->. split; [simpl; lia|]. set_solver. }
  apply adds_raise_if_bind; intros Htoken; [split; [simpl; lia|set_solver]|].
  apply adds_raise_if_bind; intros Hvault; [split; [simpl; lia|set_solver]|].
  apply negb_false_iff, bool_decide_eq_true in Htoken.
  apply negb_false_iff, existsb_exists in Hvault as (item & Hin & Hitem%bool_decide_eq_true).
  eapply (adds_bind _ _ (fun _ l => submissions l = [])).
  { unfold emit_if. destruct onStage; [by apply adds_emit|by apply adds_ret]. }
  { intros e l Hl. destruct (Hnone l Hl). naive_solver. }
  intros _ l1 E1. eapply adds_bind.
  { apply adds_rethrow_match, encryptPrivateAmount_adds. }
  { intros e l ->. destruct (Hnone (l1 ++ []) ltac:(by rewrite app_nil_r)). naive_solver. }
  intros [value proof] l2 ->. eapply adds_mono; [apply writeAndConfirm_adds|].
  intros r l Hl. apply write_adds_along in Hl. set (request := write_request _ _) in *. unfold along in Hl.
  assert (Hsub : (submissions (l1 ++ [Encrypted lcUsdc amount value proof] ++ l)).*1 `prefix_of` [request]).
  { rewrite !submissions_app, E1. simpl. destruct r as [hash|e]; [|by rewrite submissions_strip in Hl].
    destruct Hl as [_ Hl]. rewrite submissions_strip in Hl. by rewrite Hl. }
  split; [apply prefix_length in Hsub; by rewrite length_fmap in Hsub|].
  intros request' Hr. apply (elem_of_prefix _ [request]) in Hr; [|done]. apply list_elem_of_singleton in Hr as ->.
  split_and!; [done| |].
  - exists item. split; [by apply list_elem_of_In|done].
  - exists value, proof. split; [set_solver|done].
Qed.
End action_properties.

Section examples.
#[local] Existing Instance hex_viem.

Definition small_token : string := "0x00000000000000000000000000000000000000c1".
Definition small_vault : string := "0x00000000000000000000000000000000000000d1".

Example run_action_well_sent_witness :
  let run := run_action small_clients (do_makePrivate small_token 5) small_state in
  run.1 = inl tt /\
  exists new, cs_trace run.2 = cs_trace small_state ++ new /\
    well_sent action_simulates (cl_account small_clients) (action_wallet_ok (cl_account small_clients)) no_explanation run.1 (strip new).
Proof.
  intros run.
  assert (E : run_action small_clients (do_makePrivate small_token 5) small_state = (run.1, run.2)) by (unfold run; apply surjective_pairing). split; [vm_compute; reflexivity|].
  exact (run_action_well_sent (H := hex_viem) (H0 := small_chain) small_clients (do_makePrivate small_token 5) small_state run.1 run.2 E).
Defined.

Example makePrivate_spec_witness :
  let run := makePrivate small_clients small_token 5 small_state in
  run.1 = inl ["0xhash0"; "0xhash1"] /\
  exists new approval,
    cs_trace run.2 = cs_trace small_state ++ new /\
    along ((if approval : bool then [approve_request small_token 5] else []) ++ [wrap_request small_clients small_token 5])
      run.1 (strip new) /\
    allowed_write CANONICAL_USDC (cl_account small_clients) small_token 5 (wrap_request small_clients small_token 5) (strip new) /\
    (forall seen rest, allowance_reads new = seen :: rest -> approval = (seen <? 5)).
Proof.
  intros run.
  assert (E : makePrivate small_clients small_token 5 small_state = (run.1, run.2)) by (unfold run; apply surjective_pairing). split; [vm_compute; reflexivity|].
  exact (makePrivate_spec (H := hex_viem) (H0 := small_chain) small_clients small_token 5 small_state run.1 run.2 E).
Defined.

(** A manifest of one vault. *)
Definition small_manifest : RawLeopoldManifest := {|
  rm_networkName := "sepolia"; rm_chainId := 11155111; rm_deploymentStatus := "TEST";
  rm_canonicalCircleUsdc := Some "0x1c7D4B196Cb0C7B01d743Fbc6116a902379C7238"; rm_lcUsdc := Some small_token;
  rm_registry := Some small_account; rm_compoundComet := Some small_account;
  rm_officialVaults := [{| rv_id := 1; rv_type := DAILY; rv_name := "Daily"; rv_roundDurationSeconds := 86400;
                           rv_vault := Some small_vault; rv_adapter := Some small_account;
                           rv_bondEscrow := Some small_account |}]
|}.

Example savePrivately_sound_witness :
  let config := loadLeopoldConfig small_manifest in
  let run := savePrivately config small_clients small_token small_vault 5 true small_state in
  run.1 = inl "0xhash0" /\
  exists new, cs_trace run.2 = cs_trace small_state ++ new /\
    (length (submissions new) <= 1)%nat /\
    forall request, request ∈ (submissions new).*1 ->
      toLowerCase <$> ca_address (lc_lcUsdc config) = Some (toLowerCase small_token) /\
      (exists item, item ∈ lc_vaults config /\ toLowerCase <$> ca_address (lv_vault item) = Some (toLowerCase small_vault)) /\
      exists value proof, Encrypted small_token 5 value proof ∈ new /\
        request = write_request small_token (call_confidentialTransferAndCall small_vault value proof "0x").
Proof.
  intros config run.
  assert (E : savePrivately config small_clients small_token small_vault 5 true small_state = (run.1, run.2)) by (unfold run; apply surjective_pairing). split; [vm_compute; reflexivity|].
  exact (savePrivately_sound (H0 := small_chain) config small_clients small_token small_vault 5 true small_state run.1 run.2 E).
Defined.
End examples.
