(* ===== verification/V2Actions.v ===== *)
(** * Second-generation actions: frontend/lib/leopold/v2-actions.ts

    Deposits in two or three transactions, their resumption after an
    interruption, prize savings, withdrawals in three transactions, reveals and
    claims.  Every transaction is one call of [writeV2]; a hash whose receipt
    cannot be read is kept in the error, never taken for a failure. *)
From Stdlib Require Import ZArith Lia Ascii.
From stdpp Require Import base option list sets strings.
From S2P Require Import Prelude WalletAddress Reliability Transactions Clients Actions.
Local Open Scope Z_scope.

Inductive ReconciliationStatus : Type := reconciled_confirmed | reconciled_reverted | reconciled_pending.
Record V2TransactionReconciliation := { vr_hash : string; vr_status : ReconciliationStatus }.

(** [error.readFailureClass === "transient"] *)
Definition readFailureClass_transient (cause : ReadFailure) : bool := isTransientReadFailure cause.

Definition isV2TransactionReconciliationPendingError (error : Thrown) : bool :=
  match error with ReconciliationPending _ _ _ _ => true | Failure _ => false end.

Definition ZERO_HANDLE : string := "0x0000000000000000000000000000000000000000000000000000000000000000".
(** [/^0x0{64}$/iu.test(handle)]: of its characters only [x] has two cases. *)
Definition isZeroHandle (handle : string) : bool := bool_decide (toLowerCase handle = ZERO_HANDLE).

Definition accountOf (account : option WalletAccount) : option string := account_address <$> account.

(** [left] is [None] when it is not a text. *)
Definition equalAddress (left : option string) (right : string) : bool :=
  match left with Some text => bool_decide (toLowerCase text = toLowerCase right) | None => false end.

Definition actionError (stage : string) (error : Thrown) : Thrown :=
  plain_error ("V2_ACTION:" +:+ stage +:+ ": " +:+ thrown_message error).

Definition failure_class_text (category : MetricFailureCategory) : string :=
  match category with
  | C_NONE => "NONE" | C_TIMEOUT => "TIMEOUT" | C_NETWORK => "NETWORK" | C_RATE_LIMIT => "RATE_LIMIT"
  | C_SERVER => "SERVER" | C_INVALID_RESPONSE => "INVALID_RESPONSE" | C_CONFIGURATION => "CONFIGURATION"
  | C_UNKNOWN => "UNKNOWN"
  end.

Definition simulationError (stage : string) (error : Thrown) : Thrown :=
  let kind := if isTransientReadFailure (failure_of error) then "transient" else "deterministic" in
  actionError (stage +:+ ":simulation:" +:+ kind +:+ ":" +:+ failure_class_text (classifyReadFailure (failure_of error)))
    error.

Definition addMoneyStageForWrite (stage : string) : option V2AddMoneyStage :=
  if bool_decide (stage = "add-money-approval") then Some stage_approval
  else if bool_decide (stage = "add-money-wrap") then Some stage_wrap
  else if bool_decide (stage = "add-money-save") then Some stage_save
  else None.

(** [{ operation: "VAULT_READ", shouldRetry: isTransientReadFailure }] *)
Definition vault_read : ReadReliabilityOptions := {|
  ro_operation := VAULT_READ; ro_timeoutMs := None; ro_maxAttempts := None;
  ro_shouldRetry := Some isTransientReadFailure
|}.

(** [tupleValue<T>(value, index)]: [None] is [undefined]. *)
Definition tupleValue (value : TupleAnswer) (index : nat) : option TupleItem + ReadFailure :=
  match value with
  | tuple_array items => inl (items !! index)
  | not_an_array => inr (OtherError "Error" "V2_ACTION:MALFORMED_TUPLE")
  end.

(** An item as a condition, and [Number(item)] where that is a number. *)
Definition item_truthy (item : option TupleItem) : bool :=
  match item with
  | Some (item_bool b) => b
  | Some (item_bigint z) | Some (item_number z) => negb (z =? 0)
  | None => false
  end.
Definition item_Number (item : option TupleItem) : option Z :=
  match item with
  | Some (item_bool b) => Some (if b then 1 else 0)
  | Some (item_bigint z) | Some (item_number z) => Some z
  | None => None
  end.

Section V2Actions.
Context `{Viem} {W : Type} `{ClientEnv W}.
Implicit Types (clients : ActionClients).

Definition wrong_v2_signer clients : bool :=
  match accountOf (cl_walletAccount clients) with
  | Some signer =>
      negb (string_nonempty signer) || negb (bool_decide (toLowerCase signer = toLowerCase (cl_account clients)))
  | None => true
  end.

Definition assertV2Wallet clients (stage : string) : io W unit :=
  raise_if (wrong_v2_signer clients) ("WALLET_SIGNER_MISMATCH:" +:+ stage) ;;
  chains ← io_all2 (perform walletChainId) (perform publicChainId);
  raise_if (negb (chains.1 =? V2_PREVIEW_CHAIN_ID) || negb (chains.2 =? V2_PREVIEW_CHAIN_ID))
    ("WRONG_NETWORK:" +:+ stage) ;;
  emit (WalletChecked {| wc_stage := stage; wc_signer := accountOf (cl_walletAccount clients); wc_chains := [chains.1; chains.2] |}).

Definition readV2Topology : io W unit :=
  answers ← io_all2
    (io_all3 (perform (readAddress V2_vault ASSET)) (perform (readAddress V2_vault UNDERLYING))
       (perform (readAddress V2_wrapper underlying)))
    (io_all3 (perform (readAddress V2_adapter adapter_vault)) (perform (readAddress V2_adapter adapter_asset))
       (perform (readAddress V2_adapter COMET)));
  let '((asset, underlying', wrapperUnderlying), (adapterVault, adapterAsset, adapterComet)) := answers in
  raise_if (negb (equalAddress (Some asset) V2_wrapper)) "V2_TOPOLOGY:ASSET" ;;
  raise_if (negb (equalAddress (Some underlying') V2_usdc)) "V2_TOPOLOGY:UNDERLYING" ;;
  raise_if (negb (equalAddress (Some wrapperUnderlying) V2_usdc)) "V2_TOPOLOGY:WRAPPER_UNDERLYING" ;;
  raise_if (negb (equalAddress (Some adapterVault) V2_vault)) "V2_TOPOLOGY:ADAPTER_VAULT" ;;
  raise_if (negb (equalAddress (Some adapterAsset) V2_usdc)) "V2_TOPOLOGY:ADAPTER_ASSET" ;;
  raise_if (negb (equalAddress (Some adapterComet) V2_comet)) "V2_TOPOLOGY:ADAPTER_COMET".

(** The simulation, and the gas limit it suggests. *)
Definition simulateV2 clients (request : WriteRequest) (stage : string) : io W (option Z) :=
  gas ← rethrow (emit (OnV2Stage precondition_read) ;;
                 reliably (simulateContract (cl_account clients) request) vault_read)
          (simulationError stage);
  emit (Simulated (cl_account clients) request gas) ;;
  mret gas.

(** From the wallet's signature to the receipt. *)
Definition submitV2 clients (request : WriteRequest) (stage : string) (gas : option Z) : io W string :=
  let transactionStage := addMoneyStageForWrite stage in
  hash ← rethrow (submit (writeContract (cl_account clients) request gas)
                    (WriteSubmitted (cl_account clients) request gas))
           (actionError (stage +:+ ":signature"));
  emit (OnHash hash transactionStage) ;;
  emit (OnV2Stage reconcile) ;;
  receipt ← rethrow (await_receipt hash)
              (fun error => ReconciliationPending (stage +:+ ":reconcile") hash (failure_of error) transactionStage);
  raise_if (negb (rc_success receipt)) ("V2_ACTION:" +:+ stage +:+ ":reverted:" +:+ hash) ;;
  emit (OnReceipt hash transactionStage) ;;
  mret hash.

Definition writeV2 clients (request : WriteRequest) (stage : string) : io W string :=
  assertV2Wallet clients stage ;;
  gas ← simulateV2 clients request stage;
  assertV2Wallet clients stage ;;
  submitV2 clients request stage gas.

Definition reconcileV2Transaction (hash : string) : io W V2TransactionReconciliation := fun s =>
  match perform (getTransactionReceipt hash) s with
  | (inl receipt, s') =>
      (inl {| vr_hash := hash; vr_status := if rc_success receipt then reconciled_confirmed else reconciled_reverted |}, s')
  | (inr _, s') => (inl {| vr_hash := hash; vr_status := reconciled_pending |}, s')
  end.

Definition readV2PrincipalHandle clients : io W string :=
  assertV2Wallet clients "read-principal" ;;
  read_handle V2_vault (principalOf (cl_account clients)).

Definition revealV2Savings clients : io W Z :=
  handle ← readV2PrincipalHandle clients;
  if isZeroHandle handle then mret 0
  else
    emit (OnV2Stage reveal) ;;
    value ← decryptPrivateValue (cl_ethereum clients) (cl_account clients) V2_vault handle (Some (cl_walletClient clients));
    assertV2Wallet clients "savings-reveal-revalidate" ;;
    handleAfter ← readV2PrincipalHandle clients;
    raise_if (negb (bool_decide (handleAfter = handle))) "V2_ACTION:SAVINGS_REVEAL:STALE_HANDLE" ;;
    mret value.

Definition getV2TestUsdc clients : io W (option string) :=
  assertV2Wallet clients "get-test-usdc" ;;
  balance ← read_uint V2_usdc (balanceOf (cl_account clients)) None;
  if 0 <? balance then mret None else hash ← getTestUsdc clients; mret (Some hash).

(** ** Deposits *)
Definition saveV2Money clients (amount : Z) : io W string :=
  emit (OnV2Stage adding_to_savings) ;;
  encrypted ← rethrow (encryptPrivateAmount (cl_ethereum clients) (cl_account clients) V2_wrapper amount
                         (Some (cl_walletClient clients)))
                (actionError "add-money:input");
  writeV2 clients (write_request V2_wrapper (call_confidentialTransferAndCall V2_vault encrypted.1 encrypted.2 "0x"))
    "add-money-save".

Definition on_step (current total : Z) (label : string) : io W unit :=
  emit (OnStep {| step_current := current; step_total := total; step_label := label |}).

Definition resumeV2AddMoneySave clients (amount : Z) : io W (list string) :=
  raise_if (amount <=? 0) "V2_ACTION:ADD_MONEY:amount-must-be-positive" ;;
  assertV2Wallet clients "add-money-resume-save" ;;
  readV2Topology ;;
  on_step 2 2 "Add to Leopold savings" ;;
  hash ← saveV2Money clients amount;
  mret [hash].

(** The allowance, read again with retries. *)
Definition allowance_now clients : io W Z :=
  value ← reliably (readUint V2_usdc (allowance (cl_account clients) V2_wrapper) None) vault_read;
  emit (ReadUint V2_usdc (allowance (cl_account clients) V2_wrapper) value) ;;
  mret value.

Definition wrapV2 clients (amount : Z) : io W string :=
  writeV2 clients (write_request V2_wrapper (call_wrap (cl_account clients) amount)) "add-money-wrap".

(** [if (approvalRequired) { ... }]: the hashes so far. *)
Definition approveV2 clients (amount totalSteps : Z) : io W (list string) :=
  on_step 1 totalSteps "Approve USDC" ;;
  emit (OnV2Stage approval) ;;
  hash ← writeV2 clients (write_request V2_usdc (call_approve V2_wrapper amount)) "add-money-approval";
  allowanceAfter ← allowance_now clients;
  raise_if (allowanceAfter <? amount) "V2_ACTION:ADD_MONEY:allowance-not-confirmed" ;;
  mret [hash].

(** The wrapping and the saving, the last two steps of a deposit. *)
Definition wrap_and_save clients (amount current totalSteps : Z) : io W (list string) :=
  on_step current totalSteps "Make savings private" ;;
  wrapHash ← wrapV2 clients amount;
  on_step (current + 1) totalSteps "Add to Leopold savings" ;;
  saveHash ← saveV2Money clients amount;
  mret [wrapHash; saveHash].

Definition addV2Money clients (amount : Z) : io W (list string) :=
  raise_if (amount <=? 0) "V2_ACTION:ADD_MONEY:amount-must-be-positive" ;;
  assertV2Wallet clients "add-money" ;;
  readV2Topology ;;
  emit (OnV2Stage preparing_funds) ;;
  funds ← io_all2 (read_uint V2_usdc (balanceOf (cl_account clients)) None)
                  (read_uint V2_usdc (allowance (cl_account clients) V2_wrapper) None);
  raise_if (funds.1 <? amount) "INSUFFICIENT_USDC" ;;
  let approvalRequired := funds.2 <? amount in
  let totalSteps := if approvalRequired then 3 else 2 in
  hashes ← (if approvalRequired then approveV2 clients amount totalSteps else mret []);
  rest ← wrap_and_save clients amount (if approvalRequired then 2 else 1) totalSteps;
  mret (hashes ++ rest).

Definition resumeV2AddMoneyAfterApproval clients (amount : Z) : io W (list string) :=
  raise_if (amount <=? 0) "V2_ACTION:ADD_MONEY:amount-must-be-positive" ;;
  assertV2Wallet clients "add-money-resume-approval" ;;
  readV2Topology ;;
  allowance ← allowance_now clients;
  if allowance <? amount then addV2Money clients amount
  else wrap_and_save clients amount 1 2.

Record V2RecoveredWrite := { rw_hash : string; rw_amount : Z }.

Definition recover_reads (hash : string) : io W (Z * ChainTransaction * Receipt) :=
  io_all3 (perform publicChainId) (perform (getTransaction hash)) (perform (getTransactionReceipt hash)).

(** The checks both recoveries make, and the data of the transaction. *)
Definition confirmed_input (account hash contract notConfirmed wrongContract : string) : io W string :=
  answers ← recover_reads hash;
  let '(chainId, transaction, receipt) := answers in
  raise_if (negb (chainId =? V2_PREVIEW_CHAIN_ID)) "V2_RECOVERY:WRONG_NETWORK" ;;
  raise_if (negb (rc_success receipt)) notConfirmed ;;
  raise_if (negb (truthy (ct_to transaction)) || negb (equalAddress (ct_to transaction) contract)) wrongContract ;;
  raise_if (negb (equalAddress (Some (ct_from transaction)) account)) "V2_RECOVERY:WRONG_SENDER" ;;
  mret (ct_input transaction).

(** The party and the amount of the decoded call. *)
Definition checked_amount (hash party expected wrongParty : string) (amount : Z) : io W V2RecoveredWrite :=
  raise_if (negb (equalAddress (Some party) expected)) wrongParty ;;
  raise_if (amount <=? 0) "V2_RECOVERY:INVALID_AMOUNT" ;;
  mret {| rw_hash := hash; rw_amount := amount |}.

Definition recoverConfirmedV2Wrap (account hash : string) : io W V2RecoveredWrite :=
  input ← confirmed_input account hash V2_wrapper "V2_RECOVERY:WRAP_NOT_CONFIRMED" "V2_RECOVERY:WRONG_WRAPPER";
  decoded ← lift_sum (decodeWrapperData input);
  match decoded with
  | decoded_write (call_wrap recipient amount) =>
      checked_amount hash recipient account "V2_RECOVERY:WRONG_RECIPIENT" amount
  | _ => raise (plain_error "V2_RECOVERY:WRONG_CALL")
  end.

Definition recoverConfirmedV2Approval (account hash : string) : io W V2RecoveredWrite :=
  input ← confirmed_input account hash V2_usdc "V2_RECOVERY:APPROVAL_NOT_CONFIRMED" "V2_RECOVERY:WRONG_USDC";
  decoded ← lift_sum (decodeErc20Data input);
  match decoded with
  | decoded_write (call_approve spender amount) =>
      checked_amount hash spender V2_wrapper "V2_RECOVERY:WRONG_SPENDER" amount
  | _ => raise (plain_error "V2_RECOVERY:WRONG_APPROVAL_CALL")
  end.

(** ** Prize savings and the entry balance *)
Definition escrow_credit clients : io W Z := read_uint V2_escrow (automationBondCredit (cl_account clients)) None.
Definition entry_preference clients : io W TupleAnswer :=
  read_tuple V2_escrow (autoEntryPreference (cl_account clients)).

Definition depositV2Credit clients (value : Z) (stage : string) : io W string :=
  writeV2 clients
    {| wr_address := V2_escrow; wr_call := call_depositAutomationBondCredit; wr_value := Some value |} stage.

(** The hashes, and whether prize savings were already on. *)
Definition enableV2PrizeSavings clients (draws : Z) : io W (list string * bool) :=
  raise_if ((draws <? 1) || (30 <? draws)) "V2_ACTION:PRIZE_SAVINGS:invalid-draw-count" ;;
  assertV2Wallet clients "prize-savings-enable" ;;
  answers ← io_all3 (read_uint V2_escrow BOND_AMOUNT None) (escrow_credit clients) (entry_preference clients);
  let '(bondAmount, credit, preference) := answers in
  scheduled ← lift_sum (tupleValue preference 1);
  if item_truthy scheduled then mret ([], true)
  else
    let targetCredit := bondAmount * draws in
    hashes ← (if credit <? targetCredit
              then emit (OnV2Stage entry_balance) ;;
                   hash ← depositV2Credit clients (targetCredit - credit) "prize-savings-entry-balance";
                   mret [hash]
              else mret []);
    emit (OnV2Stage prize_savings) ;;
    hash ← writeV2 clients (write_request V2_escrow (call_setAutoEntry true)) "prize-savings-enable";
    after ← entry_preference clients;
    confirmed ← lift_sum (tupleValue after 1);
    raise_if (negb (item_truthy confirmed)) "V2_ACTION:PRIZE_SAVINGS:state-not-confirmed" ;;
    mret (hashes ++ [hash], false).

Definition topUpV2EntryBalance clients (amount : Z) : io W string :=
  raise_if (amount <=? 0) "V2_ACTION:ENTRY_BALANCE:amount-must-be-positive" ;;
  assertV2Wallet clients "entry-balance-top-up" ;;
  hash ← depositV2Credit clients amount "entry-balance-top-up";
  credit ← escrow_credit clients;
  raise_if (credit <? amount) "V2_ACTION:ENTRY_BALANCE:state-not-confirmed" ;;
  mret hash.

Definition withdrawV2EntryBalance clients (amount : Z) : io W string :=
  raise_if (amount <=? 0) "V2_ACTION:ENTRY_BALANCE:amount-must-be-positive" ;;
  assertV2Wallet clients "entry-balance-withdraw" ;;
  credit ← escrow_credit clients;
  raise_if (credit <? amount) "INSUFFICIENT_ENTRY_BALANCE" ;;
  writeV2 clients (write_request V2_escrow (call_withdrawAutomationBondCredit amount)) "entry-balance-withdraw".

(** The hash, if a transaction was needed. *)
Definition disableV2PrizeSavings clients : io W (option string) :=
  assertV2Wallet clients "prize-savings-disable" ;;
  activeRound ← read_uint V2_vault activeRoundId None;
  answers ← io_all2 (entry_preference clients)
                    (read_bool V2_escrow (isAutoEntryEnabled (cl_account clients) activeRound));
  let '(preference, currentEnabled) := answers in
  scheduled ← lift_sum (tupleValue preference 1);
  enabledBefore ← lift_sum (tupleValue preference 0);
  let enabledNow := currentEnabled || item_truthy enabledBefore in
  if negb (item_truthy scheduled) && negb enabledNow then mret None
  else
    hash ← writeV2 clients (write_request V2_escrow (call_setAutoEntry false)) "prize-savings-disable";
    after ← entry_preference clients;
    remaining ← lift_sum (tupleValue after 1);
    raise_if (item_truthy remaining)
      ("V2_ACTION:PRIZE_SAVINGS:disable-not-confirmed:" +:+ Z_toString activeRound) ;;
    mret (Some hash).

(** ** Withdrawals *)
Definition unwrapToUsdc clients (amount : Z) (stage : string) : io W (list string) :=
  emit (OnV2Stage unwrapping) ;;
  encrypted ← encryptPrivateAmount (cl_ethereum clients) (cl_account clients) V2_wrapper amount
                (Some (cl_walletClient clients));
  requestHash ← writeV2 clients
    (write_request V2_wrapper (call_unwrap (cl_account clients) (cl_account clients) encrypted.1 encrypted.2))
    (stage +:+ "-request");
  receipt ← perform (getTransactionReceipt requestHash);
  let requestId := default "" (hd_error (parseUnwrapRequested (rc_logs receipt))) in
  raise_if (negb (string_nonempty requestId)) "V2_ACTION:UNWRAP_REQUEST_ID_MISSING" ;;
  publicResult ← decryptPublicValue (cl_ethereum clients) (cl_account clients) requestId
                   (Some (cl_walletClient clients));
  let '(clear, _, decryptionProof) := publicResult in
  raise_if (negb (clear =? amount)) "V2_ACTION:UNWRAP_AMOUNT_MISMATCH" ;;
  finalizeHash ← writeV2 clients (write_request V2_wrapper (call_finalizeUnwrap requestId clear decryptionProof))
                   (stage +:+ "-finalize");
  mret [requestHash; finalizeHash].

Inductive V2Asset : Type := savings | winnings.
Definition assetFunction (asset : V2Asset) (encryptedAmount inputProof : string) : WriteCall :=
  match asset with
  | savings => call_withdraw encryptedAmount inputProof
  | winnings => call_withdrawWinnings encryptedAmount inputProof
  end.
Definition handleFunction (asset : V2Asset) (account : string) : HandleCall :=
  match asset with savings => principalOf account | winnings => winningsOf account end.

Definition withdrawV2Asset clients (amount : Z) (asset : V2Asset) (stage : string) : io W (list string) :=
  raise_if (amount <=? 0) "V2_ACTION:WITHDRAW:amount-must-be-positive" ;;
  assertV2Wallet clients stage ;;
  readV2Topology ;;
  handle ← read_handle V2_vault (handleFunction asset (cl_account clients));
  raise_if (isZeroHandle handle) "INSUFFICIENT_USDC" ;;
  available ← decryptPrivateValue (cl_ethereum clients) (cl_account clients) V2_vault handle
                (Some (cl_walletClient clients));
  raise_if (available <? amount) "INSUFFICIENT_USDC" ;;
  encrypted ← encryptPrivateAmount (cl_ethereum clients) (cl_account clients) V2_vault amount
                (Some (cl_walletClient clients));
  withdrawalHash ← writeV2 clients (write_request V2_vault (assetFunction asset encrypted.1 encrypted.2)) stage;
  currentHandle ← read_handle V2_vault (handleFunction asset (cl_account clients));
  raise_if (bool_decide (currentHandle = handle)) ("V2_ACTION:" +:+ stage +:+ ":state-not-changed") ;;
  rest ← unwrapToUsdc clients amount stage;
  mret (withdrawalHash :: rest).

Definition withdrawV2Savings clients (amount : Z) : io W (list string) :=
  withdrawV2Asset clients amount savings "withdraw-savings".
Definition withdrawV2Winnings clients (amount : Z) : io W (list string) :=
  withdrawV2Asset clients amount winnings "withdraw-winnings".

(** ** Results and claims *)
Definition revealLatestV2Result clients : io W Z :=
  assertV2Wallet clients "result-reveal" ;;
  activeRound ← read_uint V2_vault activeRoundId None;
  raise_if (activeRound <=? 1) "RESULT_NOT_READY" ;;
  let resultRound := activeRound - 1 in
  answers ← io_all3 (read_tuple V2_vault (roundInfo resultRound))
                    (read_bool V2_escrow (isRegistered resultRound (cl_account clients)))
                    (read_handle V2_vault (winningsOf (cl_account clients)));
  let '(round, registered, handle) := answers in
  state ← lift_sum (tupleValue round 2);
  raise_if (negb (bool_decide (item_Number state = Some 10)) || negb registered) "RESULT_NOT_READY" ;;
  if isZeroHandle handle then mret 0
  else
    emit (OnV2Stage reveal) ;;
    result ← decryptPrivateValue (cl_ethereum clients) (cl_account clients) V2_vault handle
               (Some (cl_walletClient clients));
    assertV2Wallet clients "result-reveal-revalidate" ;;
    handleAfter ← read_handle V2_vault (winningsOf (cl_account clients));
    raise_if (negb (bool_decide (handleAfter = handle))) "V2_ACTION:RESULT_REVEAL:STALE_HANDLE" ;;
    mret result.

Definition claimV2Refund clients (roundId : Z) : io W string :=
  assertV2Wallet clients "claim-refund" ;;
  answers ← io_all2 (read_bool V2_escrow (isRegistered roundId (cl_account clients)))
                    (read_bool V2_escrow (refundClaimed roundId (cl_account clients)));
  raise_if (negb answers.1 || answers.2) "REFUND_UNAVAILABLE" ;;
  writeV2 clients (write_request V2_escrow (call_claimBondRefund roundId)) "claim-refund".

Definition claimV2Reward clients : io W string :=
  assertV2Wallet clients "claim-reward" ;;
  credit ← read_uint V2_escrow (settlementRewardCredit (cl_account clients)) None;
  raise_if (credit =? 0) "REWARD_UNAVAILABLE" ;;
  writeV2 clients (write_request V2_escrow call_withdrawSettlementRewards) "claim-reward".
End V2Actions.

(** * Properties *)
Section v2_properties.
Context `{Viem} {W : Type} `{ClientEnv W}.
Implicit Types (clients : ActionClients).

(** The check that lets an action go on. *)
Definition v2_check clients (stage : string) : WalletCheck :=
  {| wc_stage := stage; wc_signer := accountOf (cl_walletAccount clients); wc_chains := [11155111; 11155111] |}.

Lemma right_v2_signer clients stage :
  wrong_v2_signer clients = false -> v2_wallet_ok (cl_account clients) (v2_check clients stage).
Proof.
  unfold wrong_v2_signer, v2_wallet_ok, v2_check. cbn [wc_signer wc_chains]. intros Hs. split; [|done].
  destruct (accountOf _) as [signer|]; [|done]. apply orb_false_iff in Hs as [Hn He].
  apply negb_false_iff, bool_decide_eq_true in He. exists signer. split_and!; [done| |done]. by destruct signer.
Qed.

Lemma assertV2Wallet_checks clients stage :
  adds (assertV2Wallet clients stage) (fun r l => match r with
    | inl _ => l = [WalletChecked (v2_check clients stage)] /\ v2_wallet_ok (cl_account clients) (v2_check clients stage)
    | inr _ => l = [] end).
Proof.
  unfold assertV2Wallet. apply adds_raise_if_bind; [done|]. intros Hs.
  eapply (adds_bind _ _ (fun _ l => l = [])); [|by intros e l ->|].
  { apply adds_nothing_all2; apply adds_nothing_perform. }
  intros [wallet public] l ->. apply adds_raise_if_bind; [done|]. intros Hc. cbn [fst snd] in *.
  apply orb_false_iff in Hc as [Hw Hp]. apply negb_false_iff, Z.eqb_eq in Hw as ->. apply negb_false_iff, Z.eqb_eq in Hp as ->.
  apply adds_emit. split; [done|by apply right_v2_signer].
Qed.
Lemma assertV2Wallet_adds clients stage :
  adds (assertV2Wallet clients stage) (fun r l =>
    l = match r with inl _ => [WalletChecked (v2_check clients stage)] | inr _ => [] end).
Proof. eapply adds_mono; [apply assertV2Wallet_checks|]. by intros [] l; [intros [-> _]|]. Qed.

Lemma silent_assertV2Wallet clients stage : silent (assertV2Wallet clients stage).
Proof. eapply adds_mono; [apply assertV2Wallet_adds|]. by intros [] l ->. Qed.
Lemma readV2Topology_adds : adds (readV2Topology : io W unit) (fun _ l => l = []).
Proof.
  unfold readV2Topology, io_all3. eapply (adds_bind _ _ (fun _ l => l = [])); [|by intros e l ->|].
  { repeat apply adds_nothing_all2; apply adds_nothing_perform. }
  intros [[[asset underlying'] wrapperUnderlying] [[adapterVault adapterAsset] adapterComet]] l ->.
  repeat (apply adds_raise_if_bind; intros _; [done|]). by apply adds_raise_if.
Qed.
Lemma silent_readV2Topology : silent (readV2Topology : io W unit).
Proof. eapply adds_mono; [apply readV2Topology_adds|]. by intros r l ->. Qed.
Lemma silent_allowance_now clients : silent (allowance_now clients).
Proof. unfold allowance_now. silent. Qed.
Lemma silent_on_step current total label : silent (on_step current total label : io W unit).
Proof. unfold on_step. silent. Qed.
#[local] Hint Resolve silent_assertV2Wallet silent_readV2Topology silent_allowance_now silent_on_step : silent.

Lemma simulateV2_adds clients request stage :
  adds (simulateV2 clients request stage) (fun r l =>
    strip l = match r with inl gas => [Simulated (cl_account clients) request gas] | inr _ => [] end).
Proof.
  unfold simulateV2. eapply (adds_bind _ _ (fun _ l => strip l = [])).
  - apply (adds_rethrow_const _ _ (fun l => strip l = [])). by apply adds_emit_bind, adds_reliably.
  - done.
  - intros gas l Hl. apply adds_emit_bind, adds_ret. by rewrite strip_app, Hl.
Qed.

(** What an error says of its transaction: unknown, with the hash to ask again,
    or reverted. *)
Definition v2_explains (e : Thrown) (hash : string) (reverted : bool) : Prop :=
  if reverted then exists stage, e = plain_error ("V2_ACTION:" +:+ stage +:+ ":reverted:" +:+ hash)
  else exists stage cause transactionStage, e = ReconciliationPending stage hash cause transactionStage.

#[local] Notation v2_write clients request stage :=
  (write_adds (v2_wallet_ok (cl_account clients)) v2_explains true (cl_account clients) request (v2_check clients stage)).

Lemma submitV2_adds clients request stage gas a l1 :
  forallb quiet a = true -> v2_wallet_ok (cl_account clients) (v2_check clients stage) ->
  strip l1 = a ++ [Simulated (cl_account clients) request gas; WalletChecked (v2_check clients stage)] ->
  adds (submitV2 clients request stage gas) (fun r l2 => v2_write clients request stage r (l1 ++ l2)).
Proof.
  intros Ha Hok E1. unfold submitV2. cbv zeta. set (ts := addMoneyStageForWrite stage).
  assert (Hl : forall (r : string + Thrown) outcome rest l,
    strip l = WriteSubmitted (cl_account clients) request gas outcome :: rest ->
    match r with
    | inl hash => outcome = inl hash /\ rest = [OnHash hash ts; ReceiptRead hash true]
    | inr e => match outcome with
               | inl hash => rest = [OnHash hash ts] /\ v2_explains e hash false \/
                             rest = [OnHash hash ts; ReceiptRead hash false] /\ v2_explains e hash true
               | inr _ => rest = []
               end
    end -> v2_write clients request stage r (l1 ++ l)).
  { intros r outcome rest l El Hr. exists a, (sent true (cl_account clients) request gas (v2_check clients stage) outcome ++ rest).
    rewrite strip_app, E1, El, <- app_assoc. split_and!; [done..|]. destruct r as [hash|e].
    - destruct Hr as [-> ->]. by exists gas, ts; split.
    - right. exists gas, outcome, rest. split; [done|split; [done|]]. destruct outcome; [by exists ts|done]. }
  apply adds_submit_bind; [intros e; by eapply (Hl _ (inr e) [])|]. intros hash.
  apply adds_emit_bind, adds_emit_bind. apply adds_receipt_bind.
  { intros e. eapply (Hl _ (inl hash)); [done|]. left. split; [done|]. by eexists _, _, _. }
  intros receipt. apply adds_raise_if_bind; intros Hs.
  { apply negb_true_iff in Hs. eapply (Hl _ (inl hash)); [done|]. rewrite Hs. right. split; [done|]. by exists stage. }
  apply negb_false_iff in Hs. apply adds_emit_bind, adds_ret. eapply (Hl _ (inl hash)); [done|]. by rewrite Hs.
Qed.

Lemma writeV2_adds clients request stage :
  adds (writeV2 clients request stage) (v2_write clients request stage).
Proof.
  unfold writeV2. eapply adds_bind; [apply assertV2Wallet_adds| |]; cbv beta iota.
  { intros e l ->. by apply write_adds_quiet. }
  intros _ l1 ->. eapply adds_bind; [apply simulateV2_adds| |]; cbv beta iota.
  { intros e l Hl. apply write_adds_quiet. by rewrite strip_app, Hl. }
  intros gas l2 E2. eapply adds_bind; [apply assertV2Wallet_checks| |]; cbv beta iota.
  { intros e l ->. apply write_adds_quiet. by rewrite app_nil_r, strip_app, E2. }
  intros _ l3 [-> Hok]. eapply adds_mono.
  - apply (submitV2_adds clients request stage gas [WalletChecked (v2_check clients stage)]
      ([WalletChecked (v2_check clients stage)] ++ l2 ++ [WalletChecked (v2_check clients stage)])); [done..|].
    by rewrite !strip_app, E2.
  - cbv beta. intros r l. by rewrite <- !app_assoc.
Qed.

(** ** All actions *)
Definition v2_simulates (call : WriteCall) : bool := true.

#[local] Notation sends clients := (flow (write_block v2_simulates (cl_account clients) (v2_wallet_ok (cl_account clients)))
  (write_cut v2_simulates (cl_account clients) (v2_wallet_ok (cl_account clients)) v2_explains)).

Lemma writeV2_flow clients request stage : sends clients (writeV2 clients request stage).
Proof. eapply adds_mono; [apply writeV2_adds|]. intros r l. by apply (write_adds_flow _ _ v2_simulates). Qed.

(** The actions a page offers. *)
Inductive V2Action : Type :=
| v2_readPrincipalHandle | v2_revealSavings | v2_getTestUsdc
| v2_addMoney (amount : Z) | v2_resumeSave (amount : Z) | v2_resumeAfterApproval (amount : Z)
| v2_enablePrizeSavings (draws : Z) | v2_disablePrizeSavings
| v2_topUpEntryBalance (amount : Z) | v2_withdrawEntryBalance (amount : Z)
| v2_withdrawSavings (amount : Z) | v2_withdrawWinnings (amount : Z)
| v2_revealLatestResult | v2_claimRefund (roundId : Z) | v2_claimReward.

Definition run_v2_action clients (action : V2Action) : io W unit :=
  match action with
  | v2_readPrincipalHandle => readV2PrincipalHandle clients ;; mret tt
  | v2_revealSavings => revealV2Savings clients ;; mret tt
  | v2_getTestUsdc => getV2TestUsdc clients ;; mret tt
  | v2_addMoney amount => addV2Money clients amount ;; mret tt
  | v2_resumeSave amount => resumeV2AddMoneySave clients amount ;; mret tt
  | v2_resumeAfterApproval amount => resumeV2AddMoneyAfterApproval clients amount ;; mret tt
  | v2_enablePrizeSavings draws => enableV2PrizeSavings clients draws ;; mret tt
  | v2_disablePrizeSavings => disableV2PrizeSavings clients ;; mret tt
  | v2_topUpEntryBalance amount => topUpV2EntryBalance clients amount ;; mret tt
  | v2_withdrawEntryBalance amount => withdrawV2EntryBalance clients amount ;; mret tt
  | v2_withdrawSavings amount => withdrawV2Savings clients amount ;; mret tt
  | v2_withdrawWinnings amount => withdrawV2Winnings clients amount ;; mret tt
  | v2_revealLatestResult => revealLatestV2Result clients ;; mret tt
  | v2_claimRefund roundId => claimV2Refund clients roundId ;; mret tt
  | v2_claimReward => claimV2Reward clients ;; mret tt
  end.

Ltac v2_flow :=
  repeat first
    [ by apply writeV2_flow
    | by apply getTestUsdc_flow
    | by apply flow_silent; silent
    | apply flow_bind; [|intros ?]
    | match goal with |- flow _ _ (match ?x with _ => _ end) => destruct x end ].

Lemma addV2Money_flow clients amount : sends clients (addV2Money clients amount).
Proof. unfold addV2Money, approveV2, wrap_and_save, wrapV2, saveV2Money. cbv zeta. v2_flow. Qed.

Lemma unwrapToUsdc_flow clients amount stage : sends clients (unwrapToUsdc clients amount stage).
Proof. unfold unwrapToUsdc. cbv zeta. v2_flow. Qed.

Lemma withdrawV2Asset_flow clients amount asset stage : sends clients (withdrawV2Asset clients amount asset stage).
Proof. unfold withdrawV2Asset. repeat first [by apply unwrapToUsdc_flow|progress v2_flow]. Qed.

Lemma run_v2_action_flow clients action : sends clients (run_v2_action clients action).
Proof.
  destruct action; simpl; (apply flow_bind; [|intros ?; by apply flow_silent; silent]);
    unfold readV2PrincipalHandle, revealV2Savings, getV2TestUsdc, resumeV2AddMoneySave, resumeV2AddMoneyAfterApproval,
      wrap_and_save, wrapV2, saveV2Money, enableV2PrizeSavings, disableV2PrizeSavings, topUpV2EntryBalance,
      withdrawV2EntryBalance, withdrawV2Savings, withdrawV2Winnings, revealLatestV2Result, claimV2Refund, claimV2Reward,
      escrow_credit, entry_preference, depositV2Credit, readV2PrincipalHandle, io_all3;
    cbv zeta; repeat first [by apply addV2Money_flow|by apply withdrawV2Asset_flow|progress v2_flow].
Qed.


(** ** Deposits *)
Definition v2_approve (amount : Z) : WriteRequest := write_request V2_usdc (call_approve V2_wrapper amount).
Definition v2_wrap clients (amount : Z) : WriteRequest := write_request V2_wrapper (call_wrap (cl_account clients) amount).
Definition v2_save (value proof : string) : WriteRequest :=
  write_request V2_wrapper (call_confidentialTransferAndCall V2_vault value proof "0x").

Lemma allowance_now_adds clients :
  adds (allowance_now clients) (fun r l => match r with
    | inl v => l = [ReadUint V2_usdc (allowance (cl_account clients) V2_wrapper) v] | inr _ => l = [] end).
Proof. unfold allowance_now. apply adds_reliably_bind; [done|]. intros v. by apply adds_emit_bind, adds_ret. Qed.

(** What ends with an allowance that covers the amount. *)
Definition covered clients (amount : Z) (l : list Event) : Prop :=
  exists a allowed, strip l = a ++ [ReadUint V2_usdc (allowance (cl_account clients) V2_wrapper) allowed] /\ amount <= allowed.

Lemma approveV2_adds clients amount total :
  adds (approveV2 clients amount total) (fun r l =>
    along [v2_approve amount] r (strip l) /\ (forall hashes, r = inl hashes -> covered clients amount l)).
Proof.
  unfold approveV2, on_step. apply adds_emit_bind, adds_emit_bind. eapply adds_bind; [apply writeV2_adds| |].
  { intros e l Hl. split; [by apply write_adds_along in Hl|done]. }
  intros hash l1 H1. pose proof (write_adds_along _ _ _ _ _ _ _ _ H1) as A1. fold (v2_approve amount) in A1.
  assert (Hstop : forall (r : list string + Thrown) l, submissions (strip l) = [] -> (forall hashes, r = inl hashes -> hashes = []) ->
    along [v2_approve amount] (match r with inl h => inl ([hash] ++ h) | inr e => inr e end) (strip (l1 ++ l))).
  { intros r l Hl Hr. rewrite strip_app, <- (app_nil_r [v2_approve amount]).
    apply along_app; [exact A1|]. by apply along_silent. }
  eapply adds_bind; [apply allowance_now_adds|intros e l ->; split; [by apply (Hstop (inr e))|done]|]. intros allowed l2 ->.
  apply adds_raise_if_bind; intros Hlt; [split; [by apply (Hstop (inr _))|done]|]. bool_to_prop.
  apply adds_ret. split; [apply (Hstop (inl [])); [done|by intros ? [= <-]]|].
  intros hashes _. exists (strip l1), allowed. split; [|done]. simpl. by rewrite strip_app.
Qed.

Lemma saveV2Money_adds clients amount :
  adds (saveV2Money clients amount) (fun r l => exists value proof,
    along [v2_save value proof] (match r with inl hash => inl [hash] | inr e => inr e end) (strip l) /\
    (submissions l <> [] -> Encrypted V2_wrapper amount value proof ∈ l)).
Proof.
  unfold saveV2Money. apply adds_emit_bind. eapply adds_bind.
  { apply (adds_rethrow_match _ _ (fun encrypted l => l = [Encrypted V2_wrapper amount encrypted.1 encrypted.2]) (fun l => l = [])).
    apply encryptPrivateAmount_adds. }
  { intros e l ->. exists "", "". split; [by apply along_stop|done]. }
  intros [value proof] l ->. eapply adds_mono; [apply writeV2_adds|]. intros r l Hl. exists value, proof.
  apply write_adds_along in Hl. split; [exact Hl|set_solver].
Qed.

(** The steps of a deposit after [l1], which sent [plan]. *)
Definition deposited clients (amount : Z) (plan : list WriteRequest) (value proof : string) (r : list string + Thrown)
    (l : list Event) : Prop :=
  along (plan ++ [v2_wrap clients amount; v2_save value proof]) r (strip l) /\
  allowed_write V2_usdc (cl_account clients) V2_wrapper amount (v2_wrap clients amount) (strip l) /\
  (v2_save value proof ∈ (submissions l).*1 -> Encrypted V2_wrapper amount value proof ∈ l).

Lemma wrap_and_save_adds clients amount current total plan hashes l1 :
  along plan (inl hashes) (strip l1) -> v2_wrap clients amount ∉ plan -> (forall v p, v2_save v p ∉ plan) ->
  covered clients amount l1 ->
  adds (wrap_and_save clients amount current total) (fun r l2 => exists value proof,
    deposited clients amount plan value proof
      (match r with inl rest => inl (hashes ++ rest) | inr e => inr e end) (l1 ++ l2)).
Proof.
  intros A1 Hw Hs (a & allowed & E1 & Hle). unfold wrap_and_save, wrapV2, on_step.
  assert (Hplan : forall v p, plan ++ [v2_wrap clients amount; v2_save v p] =
    (plan ++ [v2_wrap clients amount]) ++ [v2_save v p]) by (intros; by rewrite <- app_assoc).
  set (step := OnStep (Build_V2ActionStep current _ _)). apply adds_emit_bind. eapply adds_bind; [apply writeV2_adds| |].
  { intros e l Hl. exists "", "". cbv beta.
    replace (l1 ++ step :: l) with ((l1 ++ [step]) ++ l) by (by rewrite <- app_assoc).
    assert (E1' : strip (l1 ++ [step]) = strip l1) by (by rewrite strip_app, app_nil_r).
    assert (A2 : along (plan ++ [v2_wrap clients amount]) (inr e) (strip ((l1 ++ [step]) ++ l))).
    { rewrite strip_app, E1'. apply (along_app _ _ hashes (inr e)); [done|]. by apply write_adds_along in Hl. }
    split_and!.
    - rewrite Hplan. by apply along_fail.
    - eapply (write_adds_allowed _ _ _ _ _ _ _ _ _ plan hashes (l1 ++ [step]) a allowed);
        [by rewrite E1'|done|by rewrite E1'|done|exact Hl].
    - intros Hin. exfalso. rewrite <- submissions_strip in Hin. eapply along_in in Hin; [|exact A2].
      apply elem_of_app in Hin as [Hin|Hin%list_elem_of_singleton]; [by destruct (Hs "" "")|done]. }
  intros wrapHash l2 H2. set (step2 := OnStep _). apply adds_emit_bind.
  set (l3 := (l1 ++ [step]) ++ l2 ++ [step2]).
  assert (E3 : strip l3 = strip (l1 ++ l2)).
  { unfold l3. rewrite !strip_app. simpl. by rewrite !app_nil_r. }
  assert (A3 : along (plan ++ [v2_wrap clients amount]) (inl (hashes ++ [wrapHash])) (strip l3)).
  { rewrite E3, strip_app. apply (along_app _ _ hashes (inl [wrapHash])); [done|]. by apply write_adds_along in H2. }
  assert (W3 : allowed_write V2_usdc (cl_account clients) V2_wrapper amount (v2_wrap clients amount) (strip l3)).
  { rewrite E3. by eapply write_adds_allowed. }
  assert (Hdone : forall value proof (r : list string + Thrown) l,
    along [v2_save value proof] r (strip l) -> (submissions l <> [] -> Encrypted V2_wrapper amount value proof ∈ l) ->
    deposited clients amount plan value proof
      (match r with inl rest => inl ((hashes ++ [wrapHash]) ++ rest) | inr e => inr e end) (l3 ++ l)).
  { intros value proof r l Al Hl. unfold deposited. rewrite Hplan, strip_app. split_and!.
    - by apply along_app.
    - apply allowed_write_app; [|done]. intros Hin. eapply along_in in Hin; [|exact Al]. by apply list_elem_of_singleton in Hin.
    - rewrite submissions_app, fmap_app. intros [Hin|Hin]%elem_of_app.
      + exfalso. rewrite <- submissions_strip in Hin. eapply along_in in Hin; [|exact A3].
        apply elem_of_app in Hin as [Hin|Hin%list_elem_of_singleton]; [by destruct (Hs value proof)|done].
      + apply elem_of_app. right. apply Hl. intros El. rewrite El in Hin. by apply elem_of_nil in Hin. }
  assert (Happ : forall l, l1 ++ step :: l2 ++ step2 :: l = l3 ++ l).
  { intros l. unfold l3. by rewrite <- !app_assoc. }
  eapply adds_bind; [apply saveV2Money_adds| |].
  { intros e l (value & proof & Al & Hl). exists value, proof. rewrite Happ. by apply (Hdone _ _ (inr e)). }
  intros saveHash l (value & proof & Al & Hl). apply adds_ret. exists value, proof. rewrite app_nil_r, Happ.
  replace (hashes ++ [wrapHash; saveHash]) with ((hashes ++ [wrapHash]) ++ [saveHash]) by (by rewrite <- app_assoc).
  by apply (Hdone _ _ (inl [saveHash])).
Qed.

Definition deposit_plan (approval : bool) (amount : Z) : list WriteRequest :=
  if approval then [v2_approve amount] else [].

Lemma deposit_plan_wrap clients approval amount : v2_wrap clients amount ∉ deposit_plan approval amount.
Proof. unfold deposit_plan. destruct approval; intros Hin; [by apply list_elem_of_singleton in Hin|by apply elem_of_nil in Hin]. Qed.
Lemma deposit_plan_save approval amount value proof : v2_save value proof ∉ deposit_plan approval amount.
Proof. unfold deposit_plan. destruct approval; intros Hin; [by apply list_elem_of_singleton in Hin|by apply elem_of_nil in Hin]. Qed.

(** What a deposit leaves. *)
Definition deposit_adds clients (amount : Z) (r : list string + Thrown) (l : list Event) : Prop :=
  exists approval value proof,
    deposited clients amount (deposit_plan approval amount) value proof r l /\
    (forall seen rest, allowance_reads l = seen :: rest -> approval = (seen <? amount)) /\
    (submissions l <> [] -> 0 < amount /\
       exists balance, ReadUint V2_usdc (balanceOf (cl_account clients)) balance ∈ l /\ amount <= balance).

Lemma deposit_stopped clients amount e l : submissions l = [] -> deposit_adds clients amount (inr e) l.
Proof.
  intros Hl. exists (match allowance_reads l with seen :: _ => seen <? amount | [] => false end), "", "".
  split_and!; [|by intros seen rest ->|by rewrite Hl]. split_and!.
  - apply along_stop. by rewrite submissions_strip.
  - apply allowed_write_none. rewrite submissions_strip, Hl. by intros ?%elem_of_nil.
  - rewrite Hl. by intros ?%elem_of_nil.
Qed.

Lemma addV2Money_adds clients amount : adds (addV2Money clients amount) (deposit_adds clients amount).
Proof.
  unfold addV2Money. apply adds_raise_if_bind; intros Hpos; [by apply deposit_stopped|].
  eapply adds_bind; [apply assertV2Wallet_adds|intros e l ->; by apply deposit_stopped|]. intros _ l1 ->.
  eapply adds_bind; [apply readV2Topology_adds|intros e l ->; by apply deposit_stopped|]. intros _ l2 ->.
  set (stage := OnV2Stage preparing_funds). apply adds_emit_bind.
  eapply (adds_bind _ _ (fun r l => match r with
    | inl (balance, seen) => l = [ReadUint V2_usdc (balanceOf (cl_account clients)) balance;
                                  ReadUint V2_usdc (allowance (cl_account clients) V2_wrapper) seen]
    | inr _ => submissions l = [] end)).
  { eapply adds_all2; [apply read_uint_adds|apply read_uint_adds|]. by intros [b|e1] k1 [a|e2] k2 -> ->. }
  { intros e l Hl. by apply deposit_stopped. }
  intros [balance seen] l3 ->. cbn [fst snd].
  set (funds := [ReadUint _ _ balance; _]). apply adds_raise_if_bind; intros Hbal; [by apply deposit_stopped|].
  set (before := [WalletChecked (v2_check clients "add-money"); stage] ++ funds).
  assert (Hknown : forall approval value proof (r : list string + Thrown) l,
    approval = (seen <? amount) ->
    deposited clients amount (deposit_plan approval amount) value proof r (before ++ l) ->
    deposit_adds clients amount r (before ++ l)).
  { intros approval value proof r l -> Hd. exists (seen <? amount), value, proof. split_and!; [done| |].
    - by intros seen' rest [= <- _].
    - bool_to_prop. intros _. split; [lia|]. exists balance. split; [|done]. set_solver. }
  assert (Htail : forall approval current total hashes l1, approval = (seen <? amount) ->
    along (deposit_plan approval amount) (inl hashes) (strip (before ++ l1)) -> covered clients amount (before ++ l1) ->
    adds (rest ← wrap_and_save clients amount current total; mret (hashes ++ rest))
      (fun r l => deposit_adds clients amount r (before ++ l1 ++ l))).
  { intros approval current total hashes l1 Ea A1 Hc.
    pose proof (wrap_and_save_adds clients amount current total _ hashes (before ++ l1) A1
      (deposit_plan_wrap _ _ _) (deposit_plan_save _ _) Hc) as Hw.
    eapply adds_bind; [exact Hw| |]; cbv beta.
    - intros e l (value & proof & Hd). rewrite <- app_assoc in Hd. by eapply Hknown.
    - intros rest l (value & proof & Hd). apply adds_ret. rewrite <- app_assoc in Hd. rewrite app_nil_r. by eapply Hknown. }
  destruct (seen <? amount) eqn:Es.
  - eapply (adds_bind _ _ _ _ (approveV2_adds clients amount 3)).
    + intros e l [Al _]. apply (Hknown true "" "" (inr e) l eq_refl). split_and!.
      * rewrite strip_app. by apply (along_fail [v2_approve amount]).
      * apply allowed_write_none. intros Hin. rewrite strip_app in Hin.
        apply (along_in [v2_approve amount] (inr e) (strip l) _ Al), list_elem_of_singleton in Hin. done.
      * intros Hin. rewrite <- submissions_strip, strip_app in Hin.
        apply (along_in [v2_approve amount] (inr e) (strip l) _ Al), list_elem_of_singleton in Hin. done.
    + intros hashes l1 [A1 Hc]. destruct (Hc hashes eq_refl) as (a & allowed & E1 & Hle).
      apply (Htail true 2 3 hashes l1 eq_refl); [by rewrite strip_app|].
      exists (strip before ++ a), allowed. by rewrite strip_app, E1, app_assoc.
  - apply adds_ret_bind. apply (Htail false 1 2 [] [] eq_refl); [done|].
    exists [WalletChecked (v2_check clients "add-money"); ReadUint V2_usdc (balanceOf (cl_account clients)) balance], seen.
    bool_to_prop. done.
Qed.

(** C7: A deposit sends what was asked for, in order, and nothing else.  Of the plan
    "approve the amount when the allowance first read does not cover it, wrap it
    for the account, transfer it to the vault" a failing deposit sends a part
    from the front and a successful one everything, each request once, its
    hashes in that order.  Nothing is sent unless the amount is positive and a
    balance read covers it; the wrapping is sent only when the allowance read
    last, with nothing sent since, covers the amount; and the transfer carries
    the ciphertext the relayer made of the same amount for the wrapper. *)
Theorem addV2Money_spec clients amount s r s' :
  addV2Money clients amount s = (r, s') ->
  exists new approval value proof,
    cs_trace s' = cs_trace s ++ new /\
    along (deposit_plan approval amount ++ [v2_wrap clients amount; v2_save value proof]) r (strip new) /\
    allowed_write V2_usdc (cl_account clients) V2_wrapper amount (v2_wrap clients amount) (strip new) /\
    (v2_save value proof ∈ (submissions new).*1 -> Encrypted V2_wrapper amount value proof ∈ new) /\
    (forall seen rest, allowance_reads new = seen :: rest -> approval = (seen <? amount)) /\
    (submissions new <> [] -> 0 < amount /\
       exists balance, ReadUint V2_usdc (balanceOf (cl_account clients)) balance ∈ new /\ amount <= balance).
Proof.
  intros E. destruct (addV2Money_adds clients amount s r s' E) as (new & Hs & approval & value & proof & Hd & ? & ?).
  destruct Hd as (? & ? & ?). by exists new, approval, value, proof.
Qed.

(** ** Withdrawals *)
Definition v2_unwrap clients (value proof : string) : WriteRequest :=
  write_request V2_wrapper (call_unwrap (cl_account clients) (cl_account clients) value proof).
Definition v2_finalize (requestId : string) (clear : Z) (proof : string) : WriteRequest :=
  write_request V2_wrapper (call_finalizeUnwrap requestId clear proof).

Definition unwrap_adds clients (amount : Z) (r : list string + Thrown) (l : list Event) : Prop :=
  exists value proof requestId decryptionProof,
    along [v2_unwrap clients value proof; v2_finalize requestId amount decryptionProof] r (strip l) /\
    (submissions l <> [] -> Encrypted V2_wrapper amount value proof ∈ l) /\
    (v2_finalize requestId amount decryptionProof ∈ (submissions l).*1 ->
     PublicDecrypted requestId amount decryptionProof ∈ l).

Lemma v2_write_one clients request stage r l :
  v2_write clients request stage r l ->
  along [request] (match r with inl hash => inl [hash] | inr e => inr e end) l.
Proof. intros Hl%write_adds_along. destruct r; simpl in *; by rewrite submissions_strip in Hl. Qed.

(** A first request, then what [r] and [l2] add. *)
Lemma along_cons request hash plan (r : list string + Thrown) l1 l2 :
  along [request] (inl [hash]) l1 -> along plan r l2 ->
  along (request :: plan) (match r with inl hashes => inl (hash :: hashes) | inr e => inr e end) (l1 ++ l2).
Proof. intros H1 H2. exact (along_app [request] plan [hash] r l1 l2 H1 H2). Qed.

Lemma along_strip plan r l : along plan r (strip l) <-> along plan r l.
Proof. unfold along. destruct r; by rewrite submissions_strip. Qed.

Lemma unwrapToUsdc_adds clients amount stage : adds (unwrapToUsdc clients amount stage) (unwrap_adds clients amount).
Proof.
  unfold unwrapToUsdc. apply adds_emit_bind. eapply adds_bind; [apply encryptPrivateAmount_adds| |]; cbv beta iota.
  { intros e l ->. exists "", "", "", "". split_and!; [by apply along_stop|done|by intros ?%elem_of_nil]. }
  intros [value proof] l1 ->. cbn [fst snd].
  assert (Hin : forall l, Encrypted V2_wrapper amount value proof ∈
    OnV2Stage unwrapping :: [Encrypted V2_wrapper amount value proof] ++ l) by set_solver.
  eapply adds_bind; [apply writeV2_adds| |]; cbv beta iota.
  { intros e l Hl%v2_write_one. exists value, proof, "", "". fold (v2_unwrap clients value proof) in Hl.
    split_and!.
    - apply along_strip. by apply (along_fail [v2_unwrap clients value proof]).
    - intros _. apply Hin.
    - simpl. intros Hf. eapply along_in in Hf; [|exact Hl]. by apply list_elem_of_singleton in Hf. }
  intros requestHash l2 H2%v2_write_one. fold (v2_unwrap clients value proof) in H2.
  assert (Hstop : forall e k, submissions k = [] -> unwrap_adds clients amount (inr e)
    (OnV2Stage unwrapping :: [Encrypted V2_wrapper amount value proof] ++ l2 ++ k)).
  { intros e k Hk. exists value, proof, "", "". destruct H2 as [_ H2].
    split_and!; [|intros _; apply Hin|]; simpl; rewrite ?submissions_strip; simpl; rewrite submissions_app, H2, Hk; simpl.
    - by apply prefix_cons, prefix_nil.
    - by intros Hf%list_elem_of_singleton. }
  apply adds_perform_bind; [intros e; by apply Hstop|]. intros receipt. cbv zeta.
  set (requestId := default _ _). apply adds_raise_if_bind; intros _; [by apply Hstop|].
  eapply adds_bind; [apply decryptPublicValue_adds| |]; cbv beta iota.
  { intros e l ->. by apply Hstop. }
  intros [[clear encoded] dproof] l3 ->. apply adds_raise_if_bind; intros Hclear; [by apply Hstop|].
  apply negb_false_iff, Z.eqb_eq in Hclear as ->.
  assert (Hlast : forall (r : string + Thrown) l, v2_write clients (v2_finalize requestId amount dproof)
      (stage +:+ "-finalize") r l ->
    unwrap_adds clients amount (match r with inl hash => inl [requestHash; hash] | inr e => inr e end)
      (OnV2Stage unwrapping :: [Encrypted V2_wrapper amount value proof] ++ l2 ++ [PublicDecrypted requestId amount dproof] ++ l)).
  { intros r l Hl%v2_write_one. exists value, proof, requestId, dproof. split_and!; [|intros _; apply Hin|].
    - apply along_strip. pose proof (along_cons _ requestHash _ _ l2 l H2 Hl) as Hc. unfold along in Hc |- *.
      simpl. rewrite submissions_app in Hc |- *. simpl. by destruct r.
    - intros _. set_solver. }
  eapply adds_bind; [apply writeV2_adds| |]; cbv beta iota.
  { intros e l Hl. exact (Hlast (inr e) l Hl). }
  intros hash l Hl. apply adds_ret. rewrite app_nil_r. exact (Hlast (inl hash) l Hl).
Qed.

Definition v2_withdraw (asset : V2Asset) (value proof : string) : WriteRequest :=
  write_request V2_vault (assetFunction asset value proof).

Lemma v2_withdraw_not_finalize asset value proof requestId amount dproof :
  v2_withdraw asset value proof <> v2_finalize requestId amount dproof.
Proof. by destruct asset. Qed.

(** What a withdrawal leaves. *)
Definition withdraw_adds clients (amount : Z) (asset : V2Asset) (r : list string + Thrown) (l : list Event) : Prop :=
  exists value proof unwrapValue unwrapProof requestId decryptionProof,
    along [v2_withdraw asset value proof; v2_unwrap clients unwrapValue unwrapProof;
           v2_finalize requestId amount decryptionProof] r (strip l) /\
    (submissions l <> [] -> 0 < amount /\ Encrypted V2_vault amount value proof ∈ l /\
       exists handle available, ReadHandle V2_vault (handleFunction asset (cl_account clients)) handle ∈ l /\
         isZeroHandle handle = false /\ Decrypted V2_vault handle available ∈ l /\ amount <= available) /\
    (v2_unwrap clients unwrapValue unwrapProof ∈ (submissions l).*1 ->
       Encrypted V2_wrapper amount unwrapValue unwrapProof ∈ l) /\
    (v2_finalize requestId amount decryptionProof ∈ (submissions l).*1 ->
       PublicDecrypted requestId amount decryptionProof ∈ l).

Lemma withdraw_stopped clients amount asset e l : submissions l = [] -> withdraw_adds clients amount asset (inr e) l.
Proof.
  intros Hl. exists "", "", "", "", "", "". rewrite Hl. split_and!; [|done|by intros ?%elem_of_nil..].
  apply along_stop. by rewrite submissions_strip.
Qed.

Lemma withdrawV2Asset_adds clients amount asset stage :
  adds (withdrawV2Asset clients amount asset stage) (withdraw_adds clients amount asset).
Proof.
  unfold withdrawV2Asset. apply adds_raise_if_bind; intros Hpos; [by apply withdraw_stopped|].
  eapply adds_bind; [apply assertV2Wallet_adds|intros e l ->; by apply withdraw_stopped|]. intros _ l1 ->.
  eapply adds_bind; [apply readV2Topology_adds|intros e l ->; by apply withdraw_stopped|]. intros _ l2 ->.
  eapply adds_bind; [apply read_handle_adds|intros e l ->; by apply withdraw_stopped|]. intros handle l3 ->.
  apply adds_raise_if_bind; intros Hz; [by apply withdraw_stopped|].
  eapply adds_bind; [apply decryptPrivateValue_adds|intros e l ->; by apply withdraw_stopped|]. intros available l4 ->.
  apply adds_raise_if_bind; intros Hav; [by apply withdraw_stopped|].
  eapply adds_bind; [apply encryptPrivateAmount_adds|intros e l ->; by apply withdraw_stopped|]. intros [value proof] l5 ->.
  cbn [fst snd]. bool_to_prop.
  set (before := [WalletChecked (v2_check clients stage); ReadHandle V2_vault (handleFunction asset (cl_account clients)) handle;
    Decrypted V2_vault handle available; Encrypted V2_vault amount value proof]).
  assert (Hknown : forall uv up id dp (r : list string + Thrown) l,
    along [v2_withdraw asset value proof; v2_unwrap clients uv up; v2_finalize id amount dp] r l ->
    (v2_unwrap clients uv up ∈ (submissions l).*1 -> Encrypted V2_wrapper amount uv up ∈ l) ->
    (v2_finalize id amount dp ∈ (submissions l).*1 -> PublicDecrypted id amount dp ∈ l) ->
    withdraw_adds clients amount asset r (before ++ l)).
  { intros uv up id dp r l Ha Hu Hf. exists value, proof, uv, up, id, dp. split_and!.
    - apply along_strip. exact Ha.
    - intros _. split_and!; [lia|set_solver|]. exists handle, available. split_and!; [set_solver|done|set_solver|done].
    - intros Hin. apply elem_of_app. right. by apply Hu.
    - intros Hin. apply elem_of_app. right. by apply Hf. }
  eapply adds_bind; [apply writeV2_adds| |]; cbv beta iota.
  { intros e l Hl%v2_write_one. apply (Hknown "" "" "" "" (inr e) l).
    - by apply (along_fail [v2_withdraw asset value proof]).
    - intros Hin. eapply along_in in Hin; [|exact Hl]. apply list_elem_of_singleton in Hin. by destruct asset.
    - intros Hin. eapply along_in in Hin; [|exact Hl]. apply list_elem_of_singleton in Hin. by destruct asset. }
  intros hash l6 H6%v2_write_one. fold (v2_withdraw asset value proof) in H6.
  assert (Hstop : forall e k, submissions k = [] -> withdraw_adds clients amount asset (inr e) (before ++ l6 ++ k)).
  { intros e k Hk. assert (Hs : (submissions (l6 ++ k)).*1 = [v2_withdraw asset value proof]).
    { rewrite submissions_app, Hk. destruct H6 as [_ ->]. done. }
    apply (Hknown "" "" "" "" (inr e)); unfold along; rewrite Hs.
    - by apply prefix_cons, prefix_nil.
    - intros Hin%list_elem_of_singleton. by destruct asset.
    - intros Hin%list_elem_of_singleton. by destruct asset. }
  eapply adds_bind; [apply read_handle_adds|intros e l ->; by apply Hstop|]. intros current l7 ->.
  apply adds_raise_if_bind; intros Hcur; [by apply Hstop|].
  assert (Hrest : forall (r : list string + Thrown) l, unwrap_adds clients amount r l ->
    withdraw_adds clients amount asset (match r with inl rest => inl (hash :: rest) | inr e => inr e end)
      (before ++ l6 ++ [ReadHandle V2_vault (handleFunction asset (cl_account clients)) current] ++ l)).
  { intros r l (uv & up & id & dp & Ha & Hu & Hf). rewrite along_strip in Ha.
    assert (Hs : submissions (l6 ++ [ReadHandle V2_vault (handleFunction asset (cl_account clients)) current] ++ l) =
      (v2_withdraw asset value proof, inl hash) :: submissions l).
    { rewrite !submissions_app. destruct H6 as [_ ->]. done. }
    apply (Hknown uv up id dp).
    - apply (along_cons _ hash); [exact H6|]. exact Ha.
    - rewrite Hs. intros Hin. assert (submissions l <> []) by (intros E; rewrite E in Hin; simpl in Hin;
        apply list_elem_of_singleton in Hin; by destruct asset). set_solver.
    - rewrite Hs. simpl. intros [E|Hin]%elem_of_cons; [by symmetry in E; apply v2_withdraw_not_finalize in E|]. set_solver. }
  eapply adds_bind; [apply unwrapToUsdc_adds| |]; cbv beta iota.
  { intros e l Hl. exact (Hrest (inr e) l Hl). }
  intros rest l Hl. apply adds_ret. rewrite app_nil_r. exact (Hrest (inl rest) l Hl).
Qed.

(** A withdrawal takes no more than the saver has, and what it takes is what it
    pays out.  Of the plan "withdraw from the vault, request the unwrapping,
    finalize it" a failing run sends a part from the front and a successful one
    everything, each once, its hashes in that order.  Nothing is sent unless the
    amount is positive and at most the clear value of the saver's handle, which
    is not the zero handle; the three requests carry the same amount, as the
    ciphertext made for the vault, the one made for the wrapper, and the clear
    value the relayer proves for the unwrapping. *)
Theorem withdrawV2Asset_sound clients amount asset stage s r s' :
  withdrawV2Asset clients amount asset stage s = (r, s') ->
  exists new value proof unwrapValue unwrapProof requestId decryptionProof,
    cs_trace s' = cs_trace s ++ new /\
    along [v2_withdraw asset value proof; v2_unwrap clients unwrapValue unwrapProof;
           v2_finalize requestId amount decryptionProof] r (strip new) /\
    (submissions new <> [] -> 0 < amount /\ Encrypted V2_vault amount value proof ∈ new /\
       exists handle available, ReadHandle V2_vault (handleFunction asset (cl_account clients)) handle ∈ new /\
         isZeroHandle handle = false /\ Decrypted V2_vault handle available ∈ new /\ amount <= available) /\
    (v2_unwrap clients unwrapValue unwrapProof ∈ (submissions new).*1 ->
       Encrypted V2_wrapper amount unwrapValue unwrapProof ∈ new) /\
    (v2_finalize requestId amount decryptionProof ∈ (submissions new).*1 ->
       PublicDecrypted requestId amount decryptionProof ∈ new).
Proof.
  intros E. destruct (withdrawV2Asset_adds clients amount asset stage s r s' E) as (new & Hs & v & p & uv & up & id & dp & HH).
  by exists new, v, p, uv, up, id, dp.
Qed.

(** ** Recovery of confirmed transactions *)
Lemma recover_reads_run hash s answers s' :
  recover_reads hash s = (inl answers, s') <->
  exists w1 w2 w3, publicChainId (cs_world s) = (inl answers.1.1, w1) /\
    getTransaction hash w1 = (inl answers.1.2, w2) /\ getTransactionReceipt hash w2 = (inl answers.2, w3) /\
    s' = ClientStateOf w3 (cs_metrics s) (cs_zama s) (cs_trace s).
Proof.
  unfold recover_reads, io_all3, io_all2, perform. destruct (publicChainId (cs_world s)) as [r1 w1] eqn:E1.
  cbn [cs_world cs_metrics cs_zama cs_trace]. destruct (getTransaction hash w1) as [r2 w2] eqn:E2.
  cbn [cs_world cs_metrics cs_zama cs_trace]. destruct (getTransactionReceipt hash w2) as [r3 w3] eqn:E3.
  destruct answers as [[a1 a2] a3]. cbn [fst snd]. split.
  - destruct r1, r2, r3; intros [=]; subst. by exists w1, w2, w3.
  - intros (v1 & v2 & v3 & [= -> <-] & F2 & F3 & ->). rewrite E2 in F2. injection F2 as -> <-.
    rewrite E3 in F3. by injection F3 as -> <-.
Qed.

(** What the chain must say of a transaction of the account to a contract. *)
Definition confirmed_call (account hash contract : string) (s s' : ClientState W) (input : string) : Prop :=
  exists transaction receipt w1 w2 w3 to,
    publicChainId (cs_world s) = (inl V2_PREVIEW_CHAIN_ID, w1) /\ getTransaction hash w1 = (inl transaction, w2) /\
    getTransactionReceipt hash w2 = (inl receipt, w3) /\
    s' = ClientStateOf w3 (cs_metrics s) (cs_zama s) (cs_trace s) /\
    rc_success receipt = true /\ ct_to transaction = Some to /\ to <> "" /\
    toLowerCase to = toLowerCase contract /\ toLowerCase (ct_from transaction) = toLowerCase account /\
    ct_input transaction = input.

Lemma raise_if_run {B} c message (f : unit -> io W B) s b s' :
  (raise_if c message ≫= f) s = (inl b, s') <-> c = false /\ f tt s = (inl b, s').
Proof. unfold mbind, io_bind, raise_if. destruct c; naive_solver. Qed.

Lemma equalAddress_true left right :
  negb (equalAddress (Some left) right) = false <-> toLowerCase left = toLowerCase right.
Proof. simpl. by rewrite negb_false_iff, bool_decide_eq_true. Qed.

Lemma bind_run {A B} (m : io W A) (f : A -> io W B) s b s' :
  (m ≫= f) s = (inl b, s') <-> exists a s1, m s = (inl a, s1) /\ f a s1 = (inl b, s').
Proof. unfold mbind, io_bind. destruct (m s) as [[a|e] s1]; naive_solver. Qed.

Lemma confirmed_input_run account hash contract m1 m2 s input s' :
  confirmed_input account hash contract m1 m2 s = (inl input, s') <->
  confirmed_call account hash contract s s' input.
Proof.
  unfold confirmed_input. rewrite bind_run. split.
  - intros ([[chainId tx] receipt] & s1 & Er & E). apply recover_reads_run in Er as (w1 & w2 & w3 & E1 & E2 & E3 & ->).
    cbn [fst snd] in *. rewrite !raise_if_run, equalAddress_true in E. destruct E as (Hc & Hs & Ht & Hf & [= <- <-]).
    apply negb_false_iff, Z.eqb_eq in Hc as ->. apply negb_false_iff in Hs. apply orb_false_iff in Ht as [Ht1 Ht2].
    destruct (ct_to tx) as [to|] eqn:Eto; [|done]. rewrite equalAddress_true in Ht2.
    exists tx, receipt, w1, w2, w3, to. split_and!; try done. intros ->. done.
  - intros (tx & receipt & w1 & w2 & w3 & to & E1 & E2 & E3 & -> & Hs & Et & Hn & Ht & Hf & <-).
    exists (V2_PREVIEW_CHAIN_ID, tx, receipt), (ClientStateOf w3 (cs_metrics s) (cs_zama s) (cs_trace s)). split; [apply recover_reads_run; by exists w1, w2, w3|]. cbn [fst snd].
    rewrite !raise_if_run, equalAddress_true, Hs, Et. split_and!; try done.
    apply orb_false_iff. rewrite equalAddress_true. split; [|done]. by destruct to.
Qed.

Lemma checked_amount_run hash party expected m amount (s : ClientState W) recovered s' :
  checked_amount hash party expected m amount s = (inl recovered, s') <->
  toLowerCase party = toLowerCase expected /\ 0 < amount /\ recovered = {| rw_hash := hash; rw_amount := amount |} /\ s' = s.
Proof.
  unfold checked_amount. rewrite !raise_if_run, equalAddress_true, Z.leb_gt. split.
  - intros (? & ? & [= <- <-]). done.
  - by intros (? & ? & -> & ->).
Qed.

(** A wrapping is recovered exactly when it happened.  [recoverConfirmedV2Wrap]
    accepts a hash if and only if, on the right chain, the transaction of that
    hash is confirmed, was sent by the account to the wrapper, and its data
    decode to the wrapping of a positive amount for the account; the amount
    recovered is the one in the data. *)
Theorem recoverConfirmedV2Wrap_iff account hash s recovered s' :
  recoverConfirmedV2Wrap account hash s = (inl recovered, s') <->
  exists input recipient amount,
    confirmed_call account hash V2_wrapper s s' input /\
    decodeWrapperData input = inl (decoded_write (call_wrap recipient amount)) /\
    toLowerCase recipient = toLowerCase account /\ 0 < amount /\
    recovered = {| rw_hash := hash; rw_amount := amount |}.
Proof.
  unfold recoverConfirmedV2Wrap. rewrite bind_run. split.
  - intros (input & s1 & Ei & (decoded & s2 & Ed & E)%bind_run). apply confirmed_input_run in Ei.
    unfold lift_sum in Ed. destruct (decodeWrapperData input) as [d|f] eqn:Edec; [|done]. injection Ed as -> <-.
    destruct decoded as [[]|]; try done. apply checked_amount_run in E as (? & ? & -> & ->). by exists input, to, amount.
  - intros (input & recipient & amount & Ei & Ed & Hr & Ha & ->). exists input, s'.
    split; [by apply confirmed_input_run|]. apply bind_run. exists (decoded_write (call_wrap recipient amount)), s'.
    split; [unfold lift_sum; by rewrite Ed|]. by apply checked_amount_run.
Qed.

(** An approval is recovered exactly when it happened: the same for the
    approval of the wrapper on the USDC contract. *)
Theorem recoverConfirmedV2Approval_iff account hash s recovered s' :
  recoverConfirmedV2Approval account hash s = (inl recovered, s') <->
  exists input spender amount,
    confirmed_call account hash V2_usdc s s' input /\
    decodeErc20Data input = inl (decoded_write (call_approve spender amount)) /\
    toLowerCase spender = toLowerCase V2_wrapper /\ 0 < amount /\
    recovered = {| rw_hash := hash; rw_amount := amount |}.
Proof.
  unfold recoverConfirmedV2Approval. rewrite bind_run. split.
  - intros (input & s1 & Ei & (decoded & s2 & Ed & E)%bind_run). apply confirmed_input_run in Ei.
    unfold lift_sum in Ed. destruct (decodeErc20Data input) as [d|f] eqn:Edec; [|done]. injection Ed as -> <-.
    destruct decoded as [[]|]; try done. apply checked_amount_run in E as (? & ? & -> & ->). by exists input, spender, amount.
  - intros (input & recipient & amount & Ei & Ed & Hr & Ha & ->). exists input, s'.
    split; [by apply confirmed_input_run|]. apply bind_run. exists (decoded_write (call_approve recipient amount)), s'.
    split; [unfold lift_sum; by rewrite Ed|]. by apply checked_amount_run.
Qed.

(** What was sent is what is recovered.  When data decode to the call they were
    encoded from, and the chain reports the wrapping this module sends, encoded
    and confirmed, the recovery of its hash gives back its amount. *)
Theorem recovered_wrap_roundtrip (encode : WriteCall -> string) clients amount hash s w1 w2 w3 receipt :
  decodeWrapperData (encode (wr_call (v2_wrap clients amount))) = inl (decoded_write (wr_call (v2_wrap clients amount))) ->
  0 < amount -> V2_wrapper <> "" ->
  publicChainId (cs_world s) = (inl V2_PREVIEW_CHAIN_ID, w1) ->
  getTransaction hash w1 =
    (inl {| ct_from := cl_account clients; ct_to := Some (wr_address (v2_wrap clients amount));
            ct_input := encode (wr_call (v2_wrap clients amount)) |}, w2) ->
  getTransactionReceipt hash w2 = (inl receipt, w3) -> rc_success receipt = true ->
  (recoverConfirmedV2Wrap (cl_account clients) hash s).1 = inl {| rw_hash := hash; rw_amount := amount |}.
Proof.
  intros Hcodec Ha Hn E1 E2 E3 Hs.
  enough (E : recoverConfirmedV2Wrap (cl_account clients) hash s =
    (inl {| rw_hash := hash; rw_amount := amount |}, ClientStateOf w3 (cs_metrics s) (cs_zama s) (cs_trace s))) by (by rewrite E).
  unfold recoverConfirmedV2Wrap. apply bind_run. exists (encode (wr_call (v2_wrap clients amount))).
  eexists. split; [apply confirmed_input_run|].
  - eexists _, receipt, w1, w2, w3, _. split_and!; [done..| | | | |done]; try done.
  - apply bind_run. eexists _, _. split; [unfold lift_sum; by rewrite Hcodec|]. simpl. by apply checked_amount_run.
Qed.

(** ** Prize savings *)
Definition enable_plan (bondAmount credit draws : Z) : list WriteRequest :=
  (if credit <? bondAmount * draws
   then [{| wr_address := V2_escrow; wr_call := call_depositAutomationBondCredit;
            wr_value := Some (bondAmount * draws - credit) |}]
   else []) ++ [write_request V2_escrow (call_setAutoEntry true)].

Definition enable_adds clients (draws : Z) (r : (list string * bool) + Thrown) (l : list Event) : Prop :=
  match r with
  | inl (hashes, true) => hashes = [] /\ submissions l = [] /\
      exists items, ReadTuple V2_escrow (autoEntryPreference (cl_account clients)) (tuple_array items) ∈ l /\
        item_truthy (items !! 1%nat) = true
  | inl (hashes, false) => exists bondAmount credit items before,
      1 <= draws <= 30 /\ along (enable_plan bondAmount credit draws) (inl hashes) l /\
      ReadUint V2_escrow BOND_AMOUNT bondAmount ∈ l /\
      ReadUint V2_escrow (automationBondCredit (cl_account clients)) credit ∈ l /\
      l = before ++ [ReadTuple V2_escrow (autoEntryPreference (cl_account clients)) (tuple_array items)] /\
      item_truthy (items !! 1%nat) = true
  | inr e => exists bondAmount credit, along (enable_plan bondAmount credit draws) (inr e) l
  end.

Lemma enable_stopped clients draws e l : submissions l = [] -> enable_adds clients draws (inr e) l.
Proof. intros Hl. exists 0, 0. by apply along_stop. Qed.

Lemma lift_tuple_adds preference (index : nat) :
  adds (lift_sum (tupleValue preference index) : io W _) (fun r l => l = [] /\ match r with
    | inl item => exists items, preference = tuple_array items /\ item = items !! index | inr _ => True end).
Proof.
  intros s r s' E. unfold lift_sum, tupleValue in E. destruct preference as [items|]; injection E as <- <-;
    exists []; rewrite app_nil_r; [|done]. split_and!; [done..|]. by exists items.
Qed.

(** The last write of the action, and the read that confirms it. *)
Lemma enable_last_adds clients bondAmount credit draws hashes l1 :
  1 <= draws <= 30 -> ReadUint V2_escrow BOND_AMOUNT bondAmount ∈ l1 ->
  ReadUint V2_escrow (automationBondCredit (cl_account clients)) credit ∈ l1 ->
  along (if credit <? bondAmount * draws
         then [{| wr_address := V2_escrow; wr_call := call_depositAutomationBondCredit;
                  wr_value := Some (bondAmount * draws - credit) |}] else []) (inl hashes) l1 ->
  adds (emit (OnV2Stage prize_savings) ;;
        hash ← writeV2 clients (write_request V2_escrow (call_setAutoEntry true)) "prize-savings-enable";
        after ← entry_preference clients;
        confirmed ← lift_sum (tupleValue after 1);
        raise_if (negb (item_truthy confirmed)) "V2_ACTION:PRIZE_SAVINGS:state-not-confirmed" ;;
        mret (hashes ++ [hash], false))
    (fun r l2 => enable_adds clients draws r (l1 ++ l2)).
Proof.
  intros Hd Hb Hc A1. set (stage := OnV2Stage prize_savings). apply adds_emit_bind.
  eapply adds_bind; [apply writeV2_adds| |]; cbv beta iota.
  { intros e l Hl%v2_write_one. exists bondAmount, credit. exact (along_app _ _ hashes (inr e) l1 (stage :: l) A1 Hl). }
  intros hash l2 H2%v2_write_one.
  assert (A2 : along (enable_plan bondAmount credit draws) (inl (hashes ++ [hash])) (l1 ++ stage :: l2)).
  { exact (along_app _ _ hashes (inl [hash]) l1 (stage :: l2) A1 H2). }
  assert (Hstop : forall e k, submissions k = [] -> enable_adds clients draws (inr e) (l1 ++ stage :: l2 ++ k)).
  { intros e k Hk. exists bondAmount, credit. unfold along. change (stage :: l2 ++ k) with ((stage :: l2) ++ k).
    rewrite app_assoc, submissions_app, Hk, app_nil_r. destruct A2 as [Hlen ->]. by rewrite zip_with_fst. }
  eapply adds_bind; [apply read_tuple_adds|intros e l ->; by apply Hstop|]. intros after l3 ->.
  eapply adds_bind; [apply lift_tuple_adds|intros e l [-> _]; by apply Hstop|]. cbv beta. intros confirmed l4 (-> & items & -> & ->).
  apply adds_raise_if_bind; intros Hconf; [by apply Hstop|]. apply negb_false_iff in Hconf.
  apply adds_ret. exists bondAmount, credit, items, (l1 ++ stage :: l2).
  set (last := ReadTuple _ _ (tuple_array items)).
  assert (Hl : l1 ++ (stage :: l2 ++ [last] ++ [] ++ []) = (l1 ++ stage :: l2) ++ [last]) by (by rewrite <- app_assoc).
  split_and!; try done; try (apply elem_of_app; by left); try lia.
  rewrite Hl. unfold along. by rewrite submissions_app, app_nil_r.
Qed.

Lemma enableV2PrizeSavings_adds clients draws : adds (enableV2PrizeSavings clients draws) (enable_adds clients draws).
Proof.
  unfold enableV2PrizeSavings. apply adds_raise_if_bind; intros Hd; [by apply enable_stopped|]. bool_to_prop.
  eapply adds_bind; [apply assertV2Wallet_adds|intros e l ->; by apply enable_stopped|]. intros _ l1 ->.
  eapply (adds_bind _ _ (fun r l => match r with
    | inl (bond, credit, preference) => l = [ReadUint V2_escrow BOND_AMOUNT bond;
        ReadUint V2_escrow (automationBondCredit (cl_account clients)) credit;
        ReadTuple V2_escrow (autoEntryPreference (cl_account clients)) preference]
    | inr _ => submissions l = [] end)).
  { unfold io_all3, escrow_credit, entry_preference.
    eapply adds_all2; [eapply adds_all2; [apply read_uint_adds|apply read_uint_adds|]|apply read_tuple_adds|].
    - intros r1 k1 r2 k2 Hk1 Hk2. instantiate (1 := fun r l => match r with
        | inl (bond, credit) => l = [ReadUint V2_escrow BOND_AMOUNT bond;
            ReadUint V2_escrow (automationBondCredit (cl_account clients)) credit] | inr _ => submissions l = [] end).
      by destruct r1, r2; subst.
    - intros [[b c]|e1] k1 [p|e2] k2 Hk ->; simpl in Hk |- *; rewrite ?submissions_app, ?Hk; done. }
  { intros e l Hl. apply enable_stopped. by rewrite submissions_app, Hl. }
  intros [[bond credit] preference] l2 ->.
  eapply adds_bind; [apply lift_tuple_adds|intros e l [-> _]; by apply enable_stopped|]. cbv beta.
  intros scheduled l3 (-> & items & -> & ->). destruct (item_truthy (items !! 1%nat)) eqn:Ei.
  { apply adds_ret. split_and!; [done..|]. exists items. split; [set_solver|done]. }
  cbv zeta.
  set (before := [WalletChecked (v2_check clients "prize-savings-enable")] ++ [ReadUint V2_escrow BOND_AMOUNT bond;
    ReadUint V2_escrow (automationBondCredit (cl_account clients)) credit;
    ReadTuple V2_escrow (autoEntryPreference (cl_account clients)) (tuple_array items)] ++ []).
  set (request := {| wr_address := V2_escrow; wr_call := call_depositAutomationBondCredit;
            wr_value := Some (bond * draws - credit) |}).
  assert (Hplan : credit <? bond * draws = true ->
    enable_plan bond credit draws = [request] ++ [write_request V2_escrow (call_setAutoEntry true)]).
  { unfold enable_plan. by intros ->. }
  eapply (adds_bind _ _ (fun r l => match r with
    | inl hashes => along (if credit <? bond * draws then [request] else []) (inl hashes) l
    | inr e => along (enable_plan bond credit draws) (inr e) l end)).
  - destruct (credit <? bond * draws) eqn:Ec; [|by apply adds_ret].
    apply adds_emit_bind. eapply adds_bind; [apply writeV2_adds| |]; cbv beta iota.
    + intros e l Hl%v2_write_one. rewrite (Hplan eq_refl).
      exact (along_fail [request] [write_request V2_escrow (call_setAutoEntry true)] e l Hl).
    + intros hash l Hl%v2_write_one. apply adds_ret. rewrite app_nil_r. exact Hl.
  - intros e l Hl. exists bond, credit. exact Hl.
  - intros hashes l Hl. eapply adds_mono.
    + apply (enable_last_adds clients bond credit draws hashes (before ++ l)); [lia|set_solver|set_solver|exact Hl].
    + cbv beta. intros r k Hk. by rewrite <- app_assoc in Hk.
Qed.

(** Prize savings are turned on once, for the draws paid for.  When the saver's
    preference is already on, nothing is sent.  Otherwise a successful run has
    sent exactly the missing part of the bond for the draws asked, between 1 and
    30, when the credit does not cover it, then the preference, and ends with a
    read that shows it on; a failing run has sent a part of that from the front. *)
Theorem enableV2PrizeSavings_spec clients draws s r s' :
  enableV2PrizeSavings clients draws s = (r, s') ->
  exists new, cs_trace s' = cs_trace s ++ new /\ enable_adds clients draws r new.
Proof. apply enableV2PrizeSavings_adds. Qed.

(** ** Reveals *)

(** A revealed balance belongs to the handle that is current when it is shown.
    [revealV2Savings] sends nothing; the value it returns is 0 for the zero
    handle, and otherwise what the relayer decrypted of the saver's handle,
    which the last read of the run found unchanged. *)
Theorem revealV2Savings_fresh clients s value s' :
  revealV2Savings clients s = (inl value, s') ->
  exists handle before, cs_trace s' = cs_trace s ++ before ++ [ReadHandle V2_vault (principalOf (cl_account clients)) handle] /\
    submissions before = [] /\
    (isZeroHandle handle = true /\ value = 0 \/
     isZeroHandle handle = false /\ ReadHandle V2_vault (principalOf (cl_account clients)) handle ∈ before /\
       Decrypted V2_vault handle value ∈ before).
Proof.
  assert (Hread : adds (readV2PrincipalHandle clients) (fun r l => match r with
    | inl handle => l = [WalletChecked (v2_check clients "read-principal"); ReadHandle V2_vault (principalOf (cl_account clients)) handle]
    | inr _ => True end)).
  { unfold readV2PrincipalHandle. eapply adds_bind; [apply assertV2Wallet_adds|done|]. intros _ l ->.
    eapply adds_mono; [apply read_handle_adds|]. by intros [] l ->. }
  enough (Ha : adds (revealV2Savings clients) (fun r l => match r with
    | inl value => exists handle before, l = before ++ [ReadHandle V2_vault (principalOf (cl_account clients)) handle] /\
        submissions before = [] /\
        (isZeroHandle handle = true /\ value = 0 \/
         isZeroHandle handle = false /\ ReadHandle V2_vault (principalOf (cl_account clients)) handle ∈ before /\
           Decrypted V2_vault handle value ∈ before)
    | inr _ => True end)).
  { intros E. apply Ha in E as (l & -> & handle & before & -> & HH). by exists handle, before. }
  unfold revealV2Savings. eapply adds_bind; [exact Hread|done|]. intros handle l1 ->.
  destruct (isZeroHandle handle) eqn:Ez.
  { apply adds_ret. exists handle, [WalletChecked (v2_check clients "read-principal")]. rewrite app_nil_r. split_and!; [done..|]. by left. }
  apply adds_emit_bind. eapply adds_bind; [apply decryptPrivateValue_adds|done|]. cbv beta iota. intros v l2 ->.
  eapply adds_bind; [apply assertV2Wallet_adds|done|]. intros _ l3 ->.
  eapply adds_bind; [exact Hread|done|]. intros handleAfter l4 ->.
  apply adds_raise_if_bind; intros Hsame; [done|]. apply negb_false_iff, bool_decide_eq_true in Hsame as ->.
  apply adds_ret. exists handle, [WalletChecked (v2_check clients "read-principal"); ReadHandle V2_vault (principalOf (cl_account clients)) handle;
    OnV2Stage reveal; Decrypted V2_vault handle v; WalletChecked (v2_check clients "savings-reveal-revalidate"); WalletChecked (v2_check clients "read-principal")].
  split_and!; [done..|]. right. split_and!; [done|set_solver|set_solver].
Qed.
End v2_properties.

Section examples.
#[local] Existing Instance hex_viem.


(** A receipt that cannot be read leaves the hash in the error. *)
Example lost_receipt :
  let s := on_chain {| sc_balance := 10; sc_allowance := 9; sc_credit := 0; sc_auto := false; sc_sent := 0;
                       sc_simulates := true; sc_receipts := false |} in
  (addV2Money small_clients 5 s).1 =
    inr (ReconciliationPending "add-money-wrap:reconcile" "0xhash0" unavailable (Some stage_wrap)).
Proof. vm_compute. reflexivity. Qed.

Example addV2Money_spec_witness :
  let run := addV2Money small_clients 5 small_state in
  run.1 = inl ["0xhash0"; "0xhash1"; "0xhash2"] /\
  exists new approval value proof,
    cs_trace run.2 = cs_trace small_state ++ new /\
    along (deposit_plan approval 5 ++ [v2_wrap small_clients 5; v2_save value proof]) run.1 (strip new) /\
    allowed_write V2_usdc (cl_account small_clients) V2_wrapper 5 (v2_wrap small_clients 5) (strip new) /\
    (v2_save value proof ∈ (submissions new).*1 -> Encrypted V2_wrapper 5 value proof ∈ new) /\
    (forall seen rest, allowance_reads new = seen :: rest -> approval = (seen <? 5)) /\
    (submissions new <> [] -> 0 < 5 /\
       exists balance, ReadUint V2_usdc (balanceOf (cl_account small_clients)) balance ∈ new /\ 5 <= balance).
Proof.
  intros run.
  assert (E : addV2Money small_clients 5 small_state = (run.1, run.2)) by (unfold run; apply surjective_pairing). split; [vm_compute; reflexivity|].
  exact (addV2Money_spec (H := hex_viem) (H0 := small_chain) small_clients 5 small_state run.1 run.2 E).
Defined.

Example withdrawV2Asset_sound_witness :
  let run := withdrawV2Asset small_clients 5 savings "withdraw-savings" small_state in
  run.1 = inl ["0xhash0"; "0xhash1"; "0xhash2"] /\
  exists new value proof unwrapValue unwrapProof requestId decryptionProof,
    cs_trace run.2 = cs_trace small_state ++ new /\
    along [v2_withdraw savings value proof; v2_unwrap small_clients unwrapValue unwrapProof;
           v2_finalize requestId 5 decryptionProof] run.1 (strip new) /\
    (submissions new <> [] -> 0 < 5 /\ Encrypted V2_vault 5 value proof ∈ new /\
       exists handle available, ReadHandle V2_vault (handleFunction savings (cl_account small_clients)) handle ∈ new /\
         isZeroHandle handle = false /\ Decrypted V2_vault handle available ∈ new /\ 5 <= available) /\
    (v2_unwrap small_clients unwrapValue unwrapProof ∈ (submissions new).*1 ->
       Encrypted V2_wrapper 5 unwrapValue unwrapProof ∈ new) /\
    (v2_finalize requestId 5 decryptionProof ∈ (submissions new).*1 ->
       PublicDecrypted requestId 5 decryptionProof ∈ new).
Proof.
  intros run.
  assert (E : withdrawV2Asset small_clients 5 savings "withdraw-savings" small_state = (run.1, run.2)) by (unfold run; apply surjective_pairing). split; [vm_compute; reflexivity|].
  exact (withdrawV2Asset_sound (H := hex_viem) (H0 := small_chain) small_clients 5 savings "withdraw-savings" small_state run.1 run.2 E).
Defined.

Example recovered_wrap_roundtrip_witness :
  (recoverConfirmedV2Wrap small_account "0xhash0" small_state).1 = inl {| rw_hash := "0xhash0"; rw_amount := 5 |}.
Proof.
  apply (recovered_wrap_roundtrip (fun call => match call with call_wrap to amount => small_encode "wrap" to amount | _ => "" end)
    small_clients 5 "0xhash0" small_state (cs_world small_state) (cs_world small_state) (cs_world small_state)
    {| rc_success := true; rc_logs := [] |}); vm_compute; first [reflexivity|discriminate].
Defined.

Example enableV2PrizeSavings_spec_witness :
  let run := enableV2PrizeSavings small_clients 2 small_state in
  run.1 = inl (["0xhash0"; "0xhash1"], false) /\
  exists new, cs_trace run.2 = cs_trace small_state ++ new /\ enable_adds small_clients 2 run.1 new.
Proof.
  intros run.
  assert (E : enableV2PrizeSavings small_clients 2 small_state = (run.1, run.2)) by (unfold run; apply surjective_pairing). split; [vm_compute; reflexivity|].
  exact (enableV2PrizeSavings_spec (H := hex_viem) (H0 := small_chain) small_clients 2 small_state run.1 run.2 E).
Defined.

Example revealV2Savings_fresh_witness :
  let s' := (revealV2Savings small_clients small_state).2 in
  revealV2Savings small_clients small_state = (inl 7, s') /\
  exists handle before, cs_trace s' = cs_trace small_state ++ before ++ [ReadHandle V2_vault (principalOf (cl_account small_clients)) handle] /\
    submissions before = [] /\
    (isZeroHandle handle = true /\ 7 = 0 \/
     isZeroHandle handle = false /\ ReadHandle V2_vault (principalOf (cl_account small_clients)) handle ∈ before /\
       Decrypted V2_vault handle 7 ∈ before).
Proof.
  intros s'. assert (E : revealV2Savings small_clients small_state = (inl 7, s')) by (vm_compute; reflexivity).
  split; [exact E|]. apply (revealV2Savings_fresh small_clients small_state 7 s' E).
Defined.
End examples.
