(* ===== verification/AccountState.v ===== *)
(** * The account: frontend/lib/auth/username.ts, account-state.ts and
    account-integrity.ts

    Usernames, the account state derived from a provider profile, the policy the
    provider's settings must satisfy, and the two updates the application makes
    to a profile's metadata.  Unicode normalisation is the class [Unicode], the
    identity on the texts a username can be. *)
From Stdlib Require Import ZArith Lia Ascii.
From stdpp Require Import base option list sets strings.
From S2P Require Import Prelude WalletAddress WalletSession WalletRecovery Reliability.
Local Open Scope Z_scope.

(** ** Usernames *)

(** [s.normalize("NFKC")] *)
Class Unicode := { normalizeNFKC : string -> string }.

Definition is_username_char (c : ascii) : bool :=
  let n := nat_of_ascii c in
  ((97 <=? n) && (n <=? 122) || (48 <=? n) && (n <=? 57) || (n =? 95))%nat.

(** [/^[a-z0-9_]{3,20}$/] *)
Definition USERNAME_PATTERN (s : string) : bool :=
  ((3 <=? String.length s) && (String.length s <=? 20))%nat && string_forall is_username_char s.

(** Texts of letters, digits and underscores are in normal form. *)
Class UnicodeLaws `{Unicode} : Prop := {
  normalizeNFKC_username : forall s, USERNAME_PATTERN s = true -> normalizeNFKC s = s
}.

(** [String.length] counts the bytes of the dash as well; the text is shown, never
    measured. *)
Definition USERNAME_MESSAGE : string := "Use 3–20 lowercase letters, numbers, or underscores.".

Section Username.
Context `{Unicode}.

Definition canonicalizeUsername (value : string) : result string :=
  let normalized := toLowerCase (normalizeNFKC (trim value)) in
  if USERNAME_PATTERN normalized then Ok normalized
  else Throw (JsError true "UsernameValidationError" (Some "INVALID_USERNAME") USERNAME_MESSAGE).

Definition isValidUsername (value : string) : bool := is_ok (canonicalizeUsername value).

Definition usernameValidationMessage (value : string) : option string :=
  match canonicalizeUsername value with Ok _ => None | Throw error => Some (err_message error) end.
End Username.

(** ** The provider's profile *)

(** A metadata value: absent in effect ([null], [undefined]), a text, or another
    value with its [String(value)]. *)
Inductive MetadataValue : Type := meta_nullish | meta_text (s : string) | meta_other (text : string).
Definition Metadata : Type := list (string * MetadataValue).

Definition FINANCIAL_WALLET_METADATA_KEY : string := "leopoldFinancialWallet".
Definition LEOPOLD_USERNAME_METADATA_KEY : string := "Leopold Username".

(** [metadata] is [None] when it is not an object; a credential is its format. *)
Record DynamicAccountProfile := {
  dp_email : option string;
  dp_metadata : option Metadata;
  dp_userId : option string;
  dp_verifiedCredentials : option (list (option string))
}.

Inductive MetadataError : Type := INVALID_FINANCIAL_WALLET_METADATA.
Record FinancialWalletMetadata := {
  fw_status : FinancialWalletMetadataStatus;
  fw_address : option string;
  fw_error : option MetadataError
}.

Inductive AccountAuthenticationStatus : Type := AUTHENTICATION_LOADING | AUTHENTICATION_SIGNED_OUT | AUTHENTICATION_SIGNED_IN.
Inductive AccountProfileStatus : Type := PROFILE_LOADING | INCOMPLETE | COMPLETE | PROFILE_ERROR.

Record AccountState := {
  as_status : AccountStatus;
  as_authentication : AccountAuthenticationStatus;
  as_authenticated : bool;
  as_profileStatus : AccountProfileStatus;
  as_identity : option DynamicAccountProfile;
  as_email : option string;
  as_emailVerified : bool;
  as_username : option string;
  as_providerUserId : option string;
  as_financialWallet : FinancialWalletMetadata
}.

Record AccountStateInputs := {
  in_clientReady : bool;
  in_completedUser : option DynamicAccountProfile;
  in_incompleteUser : option DynamicAccountProfile
}.

Definition metadataOf (identity : DynamicAccountProfile) : Metadata := default [] (dp_metadata identity).

(** [String(value)] of a value that is not nullish, [None] of a nullish or absent
    one. *)
Definition metadata_string (key : string) (metadata : Metadata) : option string :=
  match map_get key metadata with
  | Some (meta_text s) => Some s
  | Some (meta_other text) => Some text
  | Some meta_nullish | None => None
  end.

Section AccountState.
Context `{Viem} `{Unicode}.

Definition usernameOf (identity : DynamicAccountProfile) : option string :=
  match map_get LEOPOLD_USERNAME_METADATA_KEY (metadataOf identity) with
  | Some (meta_text configured) =>
      match canonicalizeUsername configured with Ok username => Some username | Throw _ => None end
  | _ => None
  end.

Definition walletMetadataOf (identity : DynamicAccountProfile) : FinancialWalletMetadata :=
  match metadata_string FINANCIAL_WALLET_METADATA_KEY (metadataOf identity) with
  | None => {| fw_status := NONE; fw_address := None; fw_error := None |}
  | Some value =>
      match normalizeWalletAddress (Some value) with
      | Some address => {| fw_status := PRESENT; fw_address := Some address; fw_error := None |}
      | None => {| fw_status := METADATA_ERROR; fw_address := None; fw_error := Some INVALID_FINANCIAL_WALLET_METADATA |}
      end
  end.

Definition email_verified (identity : DynamicAccountProfile) : bool :=
  match dp_verifiedCredentials identity with
  | Some credentials => existsb (fun format => bool_decide (format = Some "email")) credentials
  | None => false
  end.

Definition deriveAccountState (inputs : AccountStateInputs) : AccountState :=
  if negb (in_clientReady inputs) then
    {| as_status := AUTH_LOADING; as_authentication := AUTHENTICATION_LOADING; as_authenticated := false;
       as_profileStatus := PROFILE_LOADING; as_identity := None; as_email := None; as_emailVerified := false;
       as_username := None; as_providerUserId := None;
       as_financialWallet := {| fw_status := LOADING; fw_address := None; fw_error := None |} |}
  else
    match (match in_completedUser inputs with Some user => Some user | None => in_incompleteUser inputs end) with
    | None =>
        {| as_status := SIGNED_OUT; as_authentication := AUTHENTICATION_SIGNED_OUT; as_authenticated := false;
           as_profileStatus := INCOMPLETE; as_identity := None; as_email := None; as_emailVerified := false;
           as_username := None; as_providerUserId := None;
           as_financialWallet := {| fw_status := UNAVAILABLE; fw_address := None; fw_error := None |} |}
    | Some identity =>
        let emailVerified := email_verified identity in
        let username := usernameOf identity in
        let complete := emailVerified && truthy username && bool_decide (is_Some (in_completedUser inputs)) in
        {| as_status := if complete then SIGNED_IN_READY else SIGNED_IN_PROFILE_INCOMPLETE;
           as_authentication := AUTHENTICATION_SIGNED_IN; as_authenticated := true;
           as_profileStatus := if complete then COMPLETE else INCOMPLETE;
           as_identity := Some identity; as_email := dp_email identity; as_emailVerified := emailVerified;
           as_username := username; as_providerUserId := dp_userId identity;
           as_financialWallet := walletMetadataOf identity |}
    end.
End AccountState.

(** ** The policy of the provider's settings *)
Definition LEOPOLD_USERNAME_PATTERN_SOURCE : string := "^[a-z0-9_]{3,20}$".

Record ValidationRules := { vr_regex : option string; vr_unique : option bool }.
Record DynamicProjectField := {
  df_enabled : option bool; df_name : option string; df_required : option bool; df_unique : option bool;
  df_validationRules : option ValidationRules
}.
Record DynamicProjectSettingsLike := {
  ps_customFields : option (list DynamicProjectField);
  ps_kyc : option (list DynamicProjectField)
}.

Inductive IntegrityFieldStatus : Type := FIELD_LOADING | FIELD_READY | FIELD_ERROR.
#[export] Instance IntegrityFieldStatus_eq_dec : EqDecision IntegrityFieldStatus.
Proof. solve_decision. Defined.

Record AccountIntegrityPolicy := {
  ip_status : IntegrityFieldStatus;
  ip_username : IntegrityFieldStatus;
  ip_financialWallet : IntegrityFieldStatus;
  ip_errors : list string
}.

Inductive AccountIntegrityOperation : Type := AUTH_OPERATION | USERNAME_OPERATION | FINANCIAL_WALLET_OPERATION.

Definition AccountIntegrityError (code message : string) : js_error :=
  JsError true "AccountIntegrityError" (Some code) message.

Definition fieldByName (settings : DynamicProjectSettingsLike) (name : string) : option DynamicProjectField :=
  List.find (fun field => bool_decide (df_name field = Some name))
    (default [] (ps_customFields settings) ++ default [] (ps_kyc settings)).

Definition fieldIsUnique (field : DynamicProjectField) : bool :=
  bool_decide (df_unique field = Some true) || bool_decide ((df_validationRules field ≫= vr_unique) = Some true).

Definition username_field_errors (field : option DynamicProjectField) : list string :=
  match field with
  | None => ["USERNAME_FIELD_MISSING"]
  | Some username =>
      (if negb (bool_decide (df_enabled username = Some true)) then ["USERNAME_FIELD_DISABLED"] else []) ++
      (if negb (bool_decide (df_required username = Some true)) then ["USERNAME_FIELD_NOT_REQUIRED"] else []) ++
      (if negb (fieldIsUnique username) then ["USERNAME_FIELD_NOT_UNIQUE"] else []) ++
      (if negb (bool_decide ((df_validationRules username ≫= vr_regex) = Some LEOPOLD_USERNAME_PATTERN_SOURCE))
       then ["USERNAME_FIELD_PATTERN_MISMATCH"] else [])
  end.

Definition evaluateAccountIntegrityPolicy (settings : option DynamicProjectSettingsLike) : AccountIntegrityPolicy :=
  match settings with
  | None => {| ip_status := FIELD_LOADING; ip_username := FIELD_LOADING; ip_financialWallet := FIELD_READY; ip_errors := [] |}
  | Some present =>
      let errors := username_field_errors (fieldByName present LEOPOLD_USERNAME_METADATA_KEY) in
      let usernameErrors := existsb (startsWith "USERNAME_") errors in
      {| ip_status := if bool_decide (errors = []) then FIELD_READY else FIELD_ERROR;
         ip_username := if usernameErrors then FIELD_ERROR else FIELD_READY;
         ip_financialWallet := FIELD_READY;
         ip_errors := errors |}
  end.

(** ** The updates of a profile's metadata *)
Definition requirePolicyReady (status : IntegrityFieldStatus) (code : string) : result unit :=
  if bool_decide (status = FIELD_READY) then Ok tt
  else Throw (AccountIntegrityError code "Account integrity configuration is not ready.").

Definition requireAccountIdentity (identity : DynamicAccountProfile) : result unit :=
  if truthy (dp_userId identity) then Ok tt
  else Throw (AccountIntegrityError "ACCOUNT_IDENTITY_REQUIRED" "A validated account identity is required.").

Section Updates.
Context `{Viem} `{Unicode}.

Definition createUsernameMetadataUpdate (identity : DynamicAccountProfile) (username : string)
    (policy : AccountIntegrityPolicy) : result Metadata :=
  requireAccountIdentity identity ;;
  requirePolicyReady (ip_username policy) "USERNAME_UNIQUENESS_NOT_ENFORCED" ;;
  canonical ← canonicalizeUsername username;
  Ok (map_set LEOPOLD_USERNAME_METADATA_KEY (meta_text canonical) (metadataOf identity)).

Definition createFinancialWalletMetadataUpdate (identity : DynamicAccountProfile) (candidate : string)
    (policy : AccountIntegrityPolicy) : result Metadata :=
  requireAccountIdentity identity ;;
  requirePolicyReady (ip_financialWallet policy) "FINANCIAL_WALLET_UNIQUENESS_NOT_ENFORCED" ;;
  let metadata := metadataOf identity in
  let existingValue := metadata_string FINANCIAL_WALLET_METADATA_KEY metadata in
  let existing := normalizeWalletAddress existingValue in
  if bool_decide (is_Some existingValue) && negb (bool_decide (is_Some existing)) then
    Throw (AccountIntegrityError "INVALID_FINANCIAL_WALLET_METADATA" "Existing wallet metadata is invalid.")
  else if bool_decide (is_Some existing) && negb (walletsMatch existing (Some candidate)) then
    Throw (AccountIntegrityError "FINANCIAL_WALLET_CHANGE_REQUIRES_REAUTH"
             "The verified financial wallet cannot be replaced automatically.")
  else Ok (map_set FINANCIAL_WALLET_METADATA_KEY (meta_text candidate) metadata).
End Updates.

(** ** What the user is told *)
Definition errorDetail (error : js_error) : string :=
  trim (default "" (err_code error) +:+ " " +:+ err_message error).

Definition accountIntegrityErrorMessage (error : js_error) (operation : AccountIntegrityOperation) : option string :=
  let detail := errorDetail error in
  if regex_test (ilit "username_uniqueness_not_enforced") detail then
    Some "Username creation is paused because uniqueness cannot be verified."
  else if regex_test (ilit "financial_wallet_uniqueness_not_enforced") detail then
    Some "Financial-wallet linking is paused because unique ownership cannot be verified."
  else if test_any [ilit "custom_field_data_not_unique"; ilit "custom_field_not_unique"] detail then
    Some match operation with
         | FINANCIAL_WALLET_OPERATION => "This wallet already belongs to another Leopold account. No account data was changed."
         | _ => "That username is unavailable. Choose another one."
         end
  else None.

(** * Properties *)
Section properties.
Context `{ViemLaws} `{UnicodeLaws}.

Lemma username_char_spec c :
  is_username_char c = true -> ascii_to_lower c = c /\ is_space c = false.
Proof. by destruct c as [[] [] [] [] [] [] [] []]. Qed.

Lemma toLowerCase_username s : string_forall is_username_char s = true -> toLowerCase s = s.
Proof.
  induction s as [|c s IH]; simpl; [done|]. intros [Hc Hs]%andb_true_iff.
  destruct (username_char_spec c Hc) as [-> _]. by rewrite IH.
Qed.

Lemma trim_username s : string_forall is_username_char s = true -> trim s = s.
Proof.
  intros Hs. apply trim_no_space. eapply string_forall_impl; [|exact Hs].
  intros c Hc. by destruct (username_char_spec c Hc) as [_ ->].
Qed.

Lemma canonicalizeUsername_pattern value username :
  canonicalizeUsername value = Ok username -> USERNAME_PATTERN username = true.
Proof. unfold canonicalizeUsername. destruct (USERNAME_PATTERN _) eqn:E; [|done]. by intros [= <-]. Qed.

Lemma canonicalizeUsername_fixed username :
  USERNAME_PATTERN username = true -> canonicalizeUsername username = Ok username.
Proof.
  intros Hp. pose proof Hp as Hc. unfold USERNAME_PATTERN in Hc. apply andb_true_iff in Hc as [_ Hc].
  unfold canonicalizeUsername. rewrite trim_username, normalizeNFKC_username, toLowerCase_username by done. by rewrite Hp.
Qed.

Definition with_metadata (identity : DynamicAccountProfile) (metadata : Metadata) : DynamicAccountProfile :=
  {| dp_email := dp_email identity; dp_metadata := Some metadata; dp_userId := dp_userId identity;
     dp_verifiedCredentials := dp_verifiedCredentials identity |}.

(** A username that is stored is the one that is read.  The update stores the
    canonical form under its own key and leaves every other key alone, and the
    profile with the stored metadata has exactly that username; canonical
    usernames match the pattern the provider enforces and are their own
    canonical form. *)
Theorem username_update_roundtrip identity username policy metadata :
  createUsernameMetadataUpdate identity username policy = Ok metadata ->
  exists canonical,
    canonicalizeUsername username = Ok canonical /\ USERNAME_PATTERN canonical = true /\
    canonicalizeUsername canonical = Ok canonical /\
    usernameOf (with_metadata identity metadata) = Some canonical /\
    forall key, key <> LEOPOLD_USERNAME_METADATA_KEY -> map_get key metadata = map_get key (metadataOf identity).
Proof.
  unfold createUsernameMetadataUpdate. intros (? & _ & (? & _ & (canonical & Ec & [= <-])%result_bind_Ok)%result_bind_Ok)%result_bind_Ok.
  exists canonical. pose proof (canonicalizeUsername_pattern _ _ Ec) as Hp. split_and!; [done|done|by apply canonicalizeUsername_fixed| |].
  - unfold usernameOf. cbn [metadataOf with_metadata dp_metadata default]. unfold metadataOf. cbn [with_metadata dp_metadata default from_option id].
    rewrite map_get_set_eq. by rewrite canonicalizeUsername_fixed.
  - intros key Hkey. by apply map_get_set_ne.
Qed.

Lemma walletsMatch_candidate existing w candidate :
  isAddress candidate = true -> normalizeWalletAddress existing = Some w ->
  walletsMatch (Some w) (Some candidate) = true <-> normalizeWalletAddress existing = normalizeWalletAddress (Some candidate).
Proof.
  intros Hc Ew. rewrite walletsMatch_iff, (normalize_idemp _ _ Ew), Ew. naive_solver.
Qed.

Lemma createFinancialWalletMetadataUpdate_Ok identity candidate policy metadata :
  isAddress candidate = true ->
  createFinancialWalletMetadataUpdate identity candidate policy = Ok metadata <->
  truthy (dp_userId identity) = true /\ ip_financialWallet policy = FIELD_READY /\
  (let existing := metadata_string FINANCIAL_WALLET_METADATA_KEY (metadataOf identity) in
   existing = None \/ normalizeWalletAddress existing = normalizeWalletAddress (Some candidate)) /\
  metadata = map_set FINANCIAL_WALLET_METADATA_KEY (meta_text candidate) (metadataOf identity).
Proof.
  intros Hc. unfold createFinancialWalletMetadataUpdate, requireAccountIdentity, requirePolicyReady.
  destruct (truthy (dp_userId identity)); [|cbn; split; [intros [=]|intros (Hf & _); discriminate]]. cbn [mbind result_bind].
  destruct (decide (ip_financialWallet policy = FIELD_READY)) as [Hp|Hp];
    [rewrite (bool_decide_true _ Hp)|rewrite (bool_decide_false _ Hp); cbn; split; [intros [=]|by intros (_ & Hf & _)]].
  cbn [mbind result_bind].
  destruct (metadata_string FINANCIAL_WALLET_METADATA_KEY (metadataOf identity)) as [value|] eqn:Ev.
  - rewrite (bool_decide_true (is_Some (Some value))) by done. cbn [andb].
    destruct (normalizeWalletAddress (Some value)) as [w|] eqn:Ew.
    + rewrite (bool_decide_true (is_Some (Some w))) by done. cbn [negb andb].
      destruct (walletsMatch (Some w) (Some candidate)) eqn:Em; cbn [negb].
      * apply (walletsMatch_candidate (Some value) w candidate Hc Ew) in Em. rewrite Ew in Em.
        split; [intros [= <-]; by split_and!; [..|right|]|by intros (_ & _ & _ & ->)].
      * split; [done|]. intros (_ & _ & [?|E] & _); [done|]. exfalso.
        enough (walletsMatch (Some w) (Some candidate) = true) by congruence.
        apply (walletsMatch_candidate (Some value) w candidate Hc Ew). by rewrite Ew.
    + rewrite (bool_decide_false (is_Some None)) by (by intros []). cbn [negb]. split; [done|].
      intros (_ & _ & [?|E] & _); [done|]. exfalso.
      assert (Hn : normalizeWalletAddress (Some candidate) = Some (getAddress (toLowerCase candidate))) by (by apply normalize_Some).
      congruence.
  - rewrite (bool_decide_false (is_Some None)) by (by intros []). cbn [andb normalizeWalletAddress].
    rewrite (bool_decide_false (is_Some None)) by (by intros []). cbn [andb].
    split; [intros [= <-]; by split_and!; [..|left|]|by intros (_ & _ & _ & ->)].
Qed.

(** The financial wallet of an account is never replaced.  For an address, an
    update is made exactly when the account has a user id, the policy is ready,
    and the metadata hold no wallet yet or the same one; it then changes that key
    only, and the profile with the stored metadata has the address, in normal
    form, as its wallet. *)
Theorem financial_wallet_update_roundtrip identity candidate policy :
  isAddress candidate = true ->
  let existing := metadata_string FINANCIAL_WALLET_METADATA_KEY (metadataOf identity) in
  (truthy (dp_userId identity) = true /\ ip_financialWallet policy = FIELD_READY /\
   (existing = None \/ normalizeWalletAddress existing = normalizeWalletAddress (Some candidate)) <->
   exists metadata, createFinancialWalletMetadataUpdate identity candidate policy = Ok metadata) /\
  forall metadata, createFinancialWalletMetadataUpdate identity candidate policy = Ok metadata ->
    walletMetadataOf (with_metadata identity metadata) =
      {| fw_status := PRESENT; fw_address := normalizeWalletAddress (Some candidate); fw_error := None |} /\
    (existing <> None -> normalizeWalletAddress existing = normalizeWalletAddress (Some candidate)) /\
    forall key, key <> FINANCIAL_WALLET_METADATA_KEY -> map_get key metadata = map_get key (metadataOf identity).
Proof.
  intros Hc existing. split.
  - split; [|intros (m & E); apply createFinancialWalletMetadataUpdate_Ok in E; naive_solver].
    intros (? & ? & ?). eexists. by apply createFinancialWalletMetadataUpdate_Ok.
  - intros metadata (_ & _ & Hex & ->)%createFinancialWalletMetadataUpdate_Ok; [|done]. split_and!.
    + unfold walletMetadataOf, metadataOf, metadata_string. cbn [with_metadata dp_metadata default from_option id].
      rewrite map_get_set_eq.
      by rewrite (proj2 (normalize_Some candidate _) (conj Hc eq_refl)).
    + intros Hne. by destruct Hex.
    + intros key Hkey. by apply map_get_set_ne.
Qed.

(** An account is ready exactly when nothing is missing.  The derived status is
    ready exactly when the client is, the provider reports the user as complete
    (its own requirements met), an email credential is verified and the metadata
    hold a valid username; the derived wallet is the one of that profile. *)
Theorem deriveAccountState_ready inputs :
  as_status (deriveAccountState inputs) = SIGNED_IN_READY <->
  in_clientReady inputs = true /\ exists identity username,
    in_completedUser inputs = Some identity /\ as_identity (deriveAccountState inputs) = Some identity /\
    email_verified identity = true /\ usernameOf identity = Some username /\ USERNAME_PATTERN username = true /\
    as_financialWallet (deriveAccountState inputs) = walletMetadataOf identity.
Proof.
  unfold deriveAccountState. destruct (in_clientReady inputs); simpl; [|naive_solver].
  destruct (in_completedUser inputs) as [identity|] eqn:Ec; [|by destruct (in_incompleteUser inputs); simpl;
    rewrite ?andb_false_r; naive_solver].
  rewrite (bool_decide_true (is_Some (Some identity))) by done. cbn [as_status as_identity as_financialWallet].
  rewrite andb_true_r. split.
  - destruct (email_verified identity && truthy (usernameOf identity)) eqn:E; [|done]. intros _. bool_to_prop.
    split; [done|]. destruct (usernameOf identity) as [username|] eqn:Eu; [|done].
    exists identity, username. split_and!; try done.
    unfold usernameOf in Eu. destruct (map_get _ _) as [[]|]; try done.
    destruct (canonicalizeUsername s) eqn:Es; [|done]. injection Eu as <-. by eapply canonicalizeUsername_pattern.
  - intros (_ & identity' & username & [= <-] & _ & He & Eu & Hp & _). rewrite He, Eu. by destruct username.
Qed.

Lemma username_errors_prefix field : existsb (startsWith "USERNAME_") (username_field_errors field) =
  negb (bool_decide (username_field_errors field = [])).
Proof.
  unfold username_field_errors. destruct field as [u|]; [|done].
  repeat match goal with |- context [if ?b then _ else _] => destruct b end; done.
Qed.

(** The policy is ready exactly when the provider enforces what the application
    relies on: a first field of that name which is enabled, required, unique and
    restricted by the application's own pattern; then, and only then, usernames
    may be written. *)
Theorem evaluateAccountIntegrityPolicy_ready settings :
  let policy := evaluateAccountIntegrityPolicy settings in
  (ip_status policy = FIELD_READY <->
   exists present field, settings = Some present /\ fieldByName present LEOPOLD_USERNAME_METADATA_KEY = Some field /\
     df_enabled field = Some true /\ df_required field = Some true /\ fieldIsUnique field = true /\
     (df_validationRules field ≫= vr_regex) = Some LEOPOLD_USERNAME_PATTERN_SOURCE) /\
  (ip_username policy = FIELD_READY <-> ip_status policy = FIELD_READY) /\
  (ip_errors policy = [] <-> ip_status policy <> FIELD_ERROR).
Proof.
  intros policy. subst policy. unfold evaluateAccountIntegrityPolicy. destruct settings as [present|]; [|naive_solver].
  cbn [ip_status ip_username ip_errors]. rewrite username_errors_prefix.
  split; [|case_bool_decide; simpl; split; naive_solver].
  case_bool_decide as E; split; try done.
  - intros _. unfold username_field_errors in E. destruct (fieldByName _ _) as [field|] eqn:Ef; [|done].
    exists present, field. apply app_nil in E as [E1 E]. apply app_nil in E as [E2 E]. apply app_nil in E as [E3 E4].
    repeat case_bool_decide; simpl in *; try done. by destruct (fieldIsUnique field).
  - intros (? & field & [= <-] & Ef & He & Hr & Hu & Hp). destruct E. unfold username_field_errors. rewrite Ef.
    rewrite !bool_decide_true by done. by rewrite Hu.
Qed.
End properties.

Section examples.
#[local] Existing Instance hex_viem.
(** Normalisation on texts of one byte per character. *)
#[local] Instance plain_unicode : Unicode := { normalizeNFKC s := s }.
#[local] Instance plain_unicode_laws : UnicodeLaws.
Proof. by split. Qed.

Definition small_profile : DynamicAccountProfile := {|
  dp_email := Some "ada@example.org"; dp_metadata := Some [("theme", meta_text "dark")]; dp_userId := Some "u1";
  dp_verifiedCredentials := Some [Some "email"]
|}.
Definition ready_policy : AccountIntegrityPolicy :=
  {| ip_status := FIELD_READY; ip_username := FIELD_READY; ip_financialWallet := FIELD_READY; ip_errors := [] |}.

Example username_update_roundtrip_witness :
  let metadata := [("theme", meta_text "dark"); (LEOPOLD_USERNAME_METADATA_KEY, meta_text "ada_99")] in
  createUsernameMetadataUpdate small_profile " Ada_99" ready_policy = Ok metadata /\
  exists canonical,
    canonicalizeUsername " Ada_99" = Ok canonical /\ USERNAME_PATTERN canonical = true /\
    canonicalizeUsername canonical = Ok canonical /\
    usernameOf (with_metadata small_profile metadata) = Some canonical /\
    forall key, key <> LEOPOLD_USERNAME_METADATA_KEY -> map_get key metadata = map_get key (metadataOf small_profile).
Proof.
  intros metadata. assert (E : createUsernameMetadataUpdate small_profile " Ada_99" ready_policy = Ok metadata) by (vm_compute; reflexivity).
  split; [exact E|]. exact (username_update_roundtrip small_profile " Ada_99" ready_policy metadata E).
Defined.

Example financial_wallet_update_roundtrip_witness :
  let candidate := "0xABCDEF0000000000000000000000000000000001" in
  let metadata := [("theme", meta_text "dark"); (FINANCIAL_WALLET_METADATA_KEY, meta_text candidate)] in
  walletMetadataOf (with_metadata small_profile metadata) =
    {| fw_status := PRESENT; fw_address := normalizeWalletAddress (Some candidate); fw_error := None |}.
Proof.
  intros candidate metadata.
  destruct (financial_wallet_update_roundtrip (H := hex_viem) small_profile candidate ready_policy ltac:(vm_compute; reflexivity)) as [_ Hw].
  apply (Hw metadata). vm_compute. reflexivity.
Defined.
End examples.
