(* ===== verification/PrivateBalance.v ===== *)
(** * The private balance: frontend/lib/leopold/private-balance.ts

    The reveal of a saver's encrypted balance.  The clear value is accepted only
    for the handle, the account, the token and the chain that are still current
    when it is shown.  The page's present clients are a function of the state,
    read anew at every call, as [getCurrentClients] is. *)
From Stdlib Require Import ZArith Lia Ascii.
From stdpp Require Import base option list sets strings.
From S2P Require Import Prelude WalletAddress Reliability Clients FrontendConfig Actions.
Local Open Scope Z_scope.

Inductive PrivateBalanceStatus : Type :=
| status_UNREAD | status_READING_HANDLE | status_NOT_REVEALED | status_AWAITING_DECRYPT_AUTHORIZATION
| status_DECRYPTING | status_REVEALED | status_REVEAL_FAILED.

Definition ZERO_BALANCE_HANDLE : string := "0x0000000000000000000000000000000000000000000000000000000000000000".
Definition isZeroBalanceHandle (handle : string) : bool := bool_decide (toLowerCase handle = ZERO_BALANCE_HANDLE).

Definition privateBalanceLabel `{Units} (status : PrivateBalanceStatus) (value : option Z) : string :=
  match status, value with
  | status_READING_HANDLE, _ => "Reading private balance…"
  | status_AWAITING_DECRYPT_AUTHORIZATION, _ | status_DECRYPTING, _ => "Revealing…"
  | status_REVEALED, Some amount => formatUsdcAmount amount +:+ " USDC"
  | _, _ => "•••••• USDC"
  end.

Definition walletClientAddress (clients : ActionClients) : option string := account_address <$> cl_walletAccount clients.

(** [s.slice(-n)] *)
Definition slice_last (n : nat) (s : string) : string :=
  String.substring (String.length s - n) (Nat.min n (String.length s)) s.

Definition shortWalletAddress (account : string) : string := slice0 6 account +:+ "…" +:+ slice_last 4 account.

(** The parts of a diagnostic; an empty or absent [error] is left out. *)
Definition privateBalanceDiagnostic (chainId : option Z) (account token handle : option string) (stage : string)
    (error : option string) : string :=
  join_char ":"%char
    (List.filter string_nonempty
       [ "PRIVATE_BALANCE:" +:+ stage;
         "chain=" +:+ default "unknown" (Z_toString <$> chainId);
         "wallet=" +:+ (if truthy account then shortWalletAddress (default "" account) else "unknown");
         "token=" +:+ default "unknown" token;
         "handle=" +:+ default "unknown" handle;
         default "" error ]).

Definition samePrivateBalanceIdentity (left right : PrivateBalanceIdentity) : bool :=
  (pi_chainId left =? pi_chainId right) &&
  bool_decide (toLowerCase (pi_account left) = toLowerCase (pi_account right)) &&
  bool_decide (toLowerCase (pi_token left) = toLowerCase (pi_token right)) &&
  bool_decide (toLowerCase (pi_handle left) = toLowerCase (pi_handle right)).

Section PrivateBalance.
Context {W : Type} `{ClientEnv W} (leopoldConfig : LeopoldConfig).
Implicit Types (clients : ActionClients).

(** [requireConfiguredAddress] in a computation. *)
Definition configured_address (item : CheckedAddress) (label : string) : io W string := fun s =>
  (match requireConfiguredAddress item label with
   | Ok address => inl address
   | Throw e => inr (plain_error (err_message e))
   end, s).

Definition wrong_balance_account clients : bool :=
  match walletClientAddress clients with
  | Some signerAccount =>
      negb (string_nonempty signerAccount) || negb (bool_decide (toLowerCase signerAccount = toLowerCase (cl_account clients)))
  | None => true
  end.

Definition assertConfiguredIdentity clients (token : string) : io W string :=
  officialToken ← configured_address (lc_lcUsdc leopoldConfig) "Private USDC";
  raise_if (negb (bool_decide (toLowerCase token = toLowerCase officialToken))) "PRIVATE_BALANCE:WRONG_TOKEN" ;;
  raise_if (wrong_balance_account clients) "PRIVATE_BALANCE:WRONG_ACCOUNT" ;;
  mret officialToken.

Definition assertSepoliaClients clients : io W Z :=
  signerChainId ← perform walletChainId;
  raise_if (negb (signerChainId =? LEOPOLD_CHAIN_ID))
    ("PRIVATE_BALANCE:WRONG_NETWORK:wallet-client-" +:+ Z_toString signerChainId) ;;
  publicChain ← perform publicChainId;
  raise_if (negb (publicChain =? LEOPOLD_CHAIN_ID))
    ("PRIVATE_BALANCE:WRONG_NETWORK:public-client-" +:+ Z_toString publicChain) ;;
  mret signerChainId.

(** [{ operation: "PRIVATE_HANDLE_READ" }] *)
Definition handle_read : ReadReliabilityOptions := {|
  ro_operation := PRIVATE_HANDLE_READ; ro_timeoutMs := None; ro_maxAttempts := None; ro_shouldRetry := None
|}.

Definition readCurrentPrivateBalanceHandle clients (token : string) : io W PrivateBalanceIdentity :=
  officialToken ← assertConfiguredIdentity clients token;
  chainId ← assertSepoliaClients clients;
  handle ← reliably (readHandle officialToken (confidentialBalanceOf (cl_account clients))) handle_read;
  emit (ReadHandle officialToken (confidentialBalanceOf (cl_account clients)) handle) ;;
  mret {| pi_chainId := chainId; pi_account := cl_account clients; pi_token := officialToken; pi_handle := handle |}.

Definition decryptCurrentPrivateBalance clients (identity : PrivateBalanceIdentity) : io W Z :=
  officialToken ← assertConfiguredIdentity clients (pi_token identity);
  chainId ← assertSepoliaClients clients;
  raise_if (negb (chainId =? pi_chainId identity)
            || negb (bool_decide (toLowerCase (cl_account clients) = toLowerCase (pi_account identity)))
            || negb (bool_decide (toLowerCase officialToken = toLowerCase (pi_token identity))))
    "PRIVATE_BALANCE:IDENTITY_CHANGED" ;;
  decryptPrivateValue (cl_ethereum clients) (cl_account clients) officialToken (pi_handle identity)
    (Some (cl_walletClient clients)).

(** The clients of the page at this moment. *)
Definition current_clients (getCurrentClients : ClientState W -> ActionClients) : io W ActionClients := fun s =>
  (inl (getCurrentClients s), s).

Definition revealPrivateBalanceFromCurrentHandle clients (getCurrentClients : ClientState W -> ActionClients)
    (token : string) : io W (PrivateBalanceIdentity * Z) :=
  emit (OnRevealStage READING_HANDLE) ;;
  requestedIdentity ← readCurrentPrivateBalanceHandle clients token;
  emit (OnIdentity requestedIdentity) ;;
  if isZeroBalanceHandle (pi_handle requestedIdentity) then
    now ← current_clients getCurrentClients;
    currentIdentity ← readCurrentPrivateBalanceHandle now token;
    raise_if (negb (samePrivateBalanceIdentity requestedIdentity currentIdentity)) "PRIVATE_BALANCE:STALE_HANDLE" ;;
    emit (OnRevealStage REVEALED) ;;
    mret (currentIdentity, 0)
  else
    emit (OnRevealStage AWAITING_DECRYPT_AUTHORIZATION) ;;
    emit (OnRevealStage DECRYPTING) ;;
    value ← decryptCurrentPrivateBalance clients requestedIdentity;
    emit (OnRevealStage REVALIDATING_HANDLE) ;;
    now ← current_clients getCurrentClients;
    currentIdentity ← readCurrentPrivateBalanceHandle now token;
    raise_if (negb (samePrivateBalanceIdentity requestedIdentity currentIdentity)) "PRIVATE_BALANCE:STALE_HANDLE" ;;
    emit (OnRevealStage REVEALED) ;;
    mret (currentIdentity, value).
End PrivateBalance.

(** * Properties *)
Section properties.
Context {W : Type} `{ClientEnv W} (leopoldConfig : LeopoldConfig).
Implicit Types (clients : ActionClients).

Lemma samePrivateBalanceIdentity_true left right :
  samePrivateBalanceIdentity left right = true <->
  pi_chainId left = pi_chainId right /\ toLowerCase (pi_account left) = toLowerCase (pi_account right) /\
  toLowerCase (pi_token left) = toLowerCase (pi_token right) /\ toLowerCase (pi_handle left) = toLowerCase (pi_handle right).
Proof. unfold samePrivateBalanceIdentity. rewrite !andb_true_iff, !bool_decide_eq_true, Z.eqb_eq. tauto. Qed.

(** The official token, when a check of it passes. *)
Definition official_token (token officialToken : string) : Prop :=
  ca_address (lc_lcUsdc leopoldConfig) = Some officialToken /\ ca_status (lc_lcUsdc leopoldConfig) = configured /\
  toLowerCase token = toLowerCase officialToken.

Lemma assertConfiguredIdentity_adds clients token :
  adds (assertConfiguredIdentity (W := W) leopoldConfig clients token) (fun r l => l = [] /\
    match r with inl officialToken => official_token token officialToken /\ wrong_balance_account clients = false
               | inr _ => True end).
Proof.
  unfold assertConfiguredIdentity. eapply (adds_bind _ _ (fun r l => l = [] /\ match r with
    | inl officialToken => ca_address (lc_lcUsdc leopoldConfig) = Some officialToken /\ ca_status (lc_lcUsdc leopoldConfig) = configured
    | inr _ => True end)).
  - intros s r s' E. unfold configured_address, requireConfiguredAddress in E. exists [].
    destruct (ca_address (lc_lcUsdc leopoldConfig)) as [address|]; [case_bool_decide|];
      injection E as <- <-; by rewrite app_nil_r.
  - by intros e l [-> _].
  - intros officialToken l (-> & Ha & Hs). apply adds_raise_if_bind; intros Ht; [done|].
    apply adds_raise_if_bind; intros Hw; [done|]. apply adds_ret. bool_to_prop. done.
Qed.

Lemma assertSepoliaClients_adds clients :
  adds (assertSepoliaClients (W := W) clients) (fun r l => l = [] /\
    match r with inl chainId => chainId = LEOPOLD_CHAIN_ID | inr _ => True end).
Proof.
  unfold assertSepoliaClients. apply adds_perform_bind; [done|]. intros signerChain.
  apply adds_raise_if_bind; intros Hs; [done|]. apply adds_perform_bind; [done|]. intros publicChain.
  apply adds_raise_if_bind; intros Hp; [done|]. apply adds_ret. bool_to_prop. done.
Qed.

Lemma readCurrentPrivateBalanceHandle_adds clients token :
  adds (readCurrentPrivateBalanceHandle (W := W) leopoldConfig clients token) (fun r l => match r with
    | inl identity => l = [ReadHandle (pi_token identity) (confidentialBalanceOf (cl_account clients)) (pi_handle identity)] /\
        official_token token (pi_token identity) /\ wrong_balance_account clients = false /\
        pi_account identity = cl_account clients /\ pi_chainId identity = LEOPOLD_CHAIN_ID
    | inr _ => True end).
Proof.
  unfold readCurrentPrivateBalanceHandle. eapply adds_bind; [apply assertConfiguredIdentity_adds|done|].
  cbv beta. intros officialToken l (-> & Ht & Hw). eapply adds_bind; [apply assertSepoliaClients_adds|done|].
  cbv beta. intros chainId l (-> & ->). apply adds_reliably_bind; [done|]. intros handle.
  apply adds_emit_bind, adds_ret. done.
Qed.

Lemma decryptCurrentPrivateBalance_adds clients identity :
  adds (decryptCurrentPrivateBalance (W := W) leopoldConfig clients identity) (fun r l => match r with
    | inl value => exists officialToken, l = [Decrypted officialToken (pi_handle identity) value] /\
        official_token (pi_token identity) officialToken
    | inr _ => True end).
Proof.
  unfold decryptCurrentPrivateBalance. eapply adds_bind; [apply assertConfiguredIdentity_adds|done|].
  cbv beta. intros officialToken l (-> & Ht & Hw). eapply adds_bind; [apply assertSepoliaClients_adds|done|].
  cbv beta. intros chainId l (-> & ->). apply adds_raise_if_bind; intros _; [done|].
  eapply adds_mono; [apply decryptPrivateValue_adds|]. intros [value|e] l; [|done]. intros ->. by exists officialToken.
Qed.

(** What a reveal returns. *)
Definition revealed clients (token : string) (identity : PrivateBalanceIdentity) (value : Z) (l : list Event) : Prop :=
  official_token token (pi_token identity) /\ pi_chainId identity = LEOPOLD_CHAIN_ID /\
  toLowerCase (pi_account identity) = toLowerCase (cl_account clients) /\
  exists before, l = before ++ [ReadHandle (pi_token identity) (confidentialBalanceOf (pi_account identity)) (pi_handle identity);
                                OnRevealStage REVEALED] /\
    (isZeroBalanceHandle (pi_handle identity) = true /\ value = 0 \/
     isZeroBalanceHandle (pi_handle identity) = false /\
     exists handle, toLowerCase handle = toLowerCase (pi_handle identity) /\
       Decrypted (pi_token identity) handle value ∈ before).

(** The end of a reveal: the current handle is read again. *)
Lemma revalidate_adds clients getCurrentClients token requested value before :
  official_token token (pi_token requested) -> pi_account requested = cl_account clients ->
  (isZeroBalanceHandle (pi_handle requested) = true /\ value = 0 \/
   isZeroBalanceHandle (pi_handle requested) = false /\ Decrypted (pi_token requested) (pi_handle requested) value ∈ before) ->
  adds (now ← current_clients getCurrentClients;
        currentIdentity ← readCurrentPrivateBalanceHandle (W := W) leopoldConfig now token;
        raise_if (negb (samePrivateBalanceIdentity requested currentIdentity)) "PRIVATE_BALANCE:STALE_HANDLE" ;;
        emit (OnRevealStage REVEALED) ;;
        mret (currentIdentity, value))
    (fun r l => match r with inl (identity, v) => revealed clients token identity v (before ++ l) | inr _ => True end).
Proof.
  intros Htoken Hacc Hval. eapply (adds_bind _ _ (fun _ l => l = [])); [|done|].
  { intros s r s' [= <- <-]. exists []. by rewrite app_nil_r. }
  intros now l ->. eapply adds_bind; [apply readCurrentPrivateBalanceHandle_adds|done|]. cbv beta iota.
  intros identity l (-> & Ht & Hw & Ha & Hc). apply adds_raise_if_bind; intros Hsame; [done|].
  apply negb_false_iff, samePrivateBalanceIdentity_true in Hsame as (_ & Sa & St & Sh).
  apply adds_emit_bind, adds_ret. split_and!; [done|done|congruence|].
  exists before. rewrite Ha. split; [done|]. unfold isZeroBalanceHandle in Hval |- *. rewrite <- Sh.
  destruct Hval as [?|[Hz Hd]]; [by left|right]. split; [done|]. exists (pi_handle requested). split; [done|].
  destruct Htoken as (E1 & _), Ht as (E2 & _). rewrite E1 in E2. injection E2 as <-. exact Hd.
Qed.

(** A revealed private balance is that of the current handle.  Whatever changes
    while the reveal runs (the account of the page, its wallet, the chain, the
    handle), a value is returned only if the last read, made with the clients of
    that moment, found the handle of the official token unchanged, up to letter
    case, for the account that asked; it is 0 for the zero handle and otherwise
    what the relayer decrypted of that handle for that token. *)
Theorem revealPrivateBalance_current clients getCurrentClients token s identity value s' :
  revealPrivateBalanceFromCurrentHandle (W := W) leopoldConfig clients getCurrentClients token s = (inl (identity, value), s') ->
  exists new, cs_trace s' = cs_trace s ++ new /\ revealed clients token identity value new.
Proof.
  enough (Ha : adds (revealPrivateBalanceFromCurrentHandle (W := W) leopoldConfig clients getCurrentClients token)
    (fun r l => match r with inl (identity, v) => revealed clients token identity v l | inr _ => True end)).
  { intros E. by apply Ha in E. }
  unfold revealPrivateBalanceFromCurrentHandle. apply adds_emit_bind.
  eapply adds_bind; [apply readCurrentPrivateBalanceHandle_adds|done|]. cbv beta iota.
  intros requested l (-> & Ht & _ & Hacc & Hchain). apply adds_emit_bind.
  destruct (isZeroBalanceHandle (pi_handle requested)) eqn:Ez.
  - eapply adds_mono.
    + apply (revalidate_adds clients getCurrentClients token requested 0 [OnRevealStage READING_HANDLE;
        ReadHandle (pi_token requested) (confidentialBalanceOf (cl_account clients)) (pi_handle requested);
        OnIdentity requested]); [done|done|by left].
    + intros r l Hl. exact Hl.
  - apply adds_emit_bind, adds_emit_bind. eapply adds_bind; [apply decryptCurrentPrivateBalance_adds|done|]. cbv beta iota.
    intros v l (officialToken & -> & Hoff). apply adds_emit_bind.
    assert (officialToken = pi_token requested) as ->.
    { destruct Ht as (E1 & _), Hoff as (E2 & _). congruence. }
    eapply adds_mono.
    + apply (revalidate_adds clients getCurrentClients token requested v [OnRevealStage READING_HANDLE;
        ReadHandle (pi_token requested) (confidentialBalanceOf (cl_account clients)) (pi_handle requested);
        OnIdentity requested; OnRevealStage AWAITING_DECRYPT_AUTHORIZATION; OnRevealStage DECRYPTING;
        Decrypted (pi_token requested) (pi_handle requested) v; OnRevealStage REVALIDATING_HANDLE]); [done|done|].
      right. split; [done|set_solver].
    + intros r l Hl. exact Hl.
Qed.
End properties.

Section examples.
#[local] Existing Instance hex_viem.

Example revealPrivateBalance_current_witness :
  let config := loadLeopoldConfig small_manifest in
  let identity := {| pi_chainId := 11155111; pi_account := small_account; pi_token := small_token; pi_handle := "0xhandle0" |} in
  let s' := (revealPrivateBalanceFromCurrentHandle config small_clients (fun _ => small_clients) small_token small_state).2 in
  revealPrivateBalanceFromCurrentHandle config small_clients (fun _ => small_clients) small_token small_state =
    (inl (identity, 7), s') /\
  exists new, cs_trace s' = cs_trace small_state ++ new /\ revealed config small_clients small_token identity 7 new.
Proof.
  intros config identity s'.
  assert (E : revealPrivateBalanceFromCurrentHandle config small_clients (fun _ => small_clients) small_token small_state =
    (inl (identity, 7), s')) by (vm_compute; reflexivity).
  split; [exact E|].
  exact (revealPrivateBalance_current config small_clients (fun _ => small_clients) small_token small_state identity 7 s' E).
Defined.
End examples.
