(* ===== verification/Errors.v ===== *)
(** * Failures as the interface shows them: frontend/lib/leopold/errors.ts

    The texts of a failure and of its causes, what is removed from them before
    they are shown, and the code and message that the texts select.  A thrown
    value is a graph of objects (causes may be shared or cyclic): objects have an
    address, and [seen] is the set of the addresses visited.  Texts are bytes;
    letter case and white space are those of ASCII. *)
From Stdlib Require Import ZArith Lia Ascii.
From stdpp Require Import base option list sets gmap strings.
From S2P Require Import Prelude Reliability Clients Actions.
Local Open Scope Z_scope.

Inductive LeopoldErrorCode : Type :=
| WRONG_NETWORK | INSUFFICIENT_ETH | INSUFFICIENT_USDC | RELAYER_UNAVAILABLE | CONFIGURATION_MISSING | ROUND_CLOSED
| USER_REJECTED | RPC_FAILURE | RPC_CONFIGURATION_ERROR | APP_RPC_UNAVAILABLE | WALLET_RPC_UNAVAILABLE
| WALLET_DISCONNECTED | TRANSACTION_SIMULATION_FAILED | TRANSACTION_SIGNING_FAILED | TRANSACTION_CONFIRMATION_FAILED
| TRANSACTION_REVERTED | UNSUPPORTED_WALLET | PRIVATE_LIQUIDITY_UNAVAILABLE | AUTH_CONFIGURATION_REQUIRED
| AUTH_SESSION_EXPIRED | AUTH_ACCOUNT_CONFLICT | FINANCIAL_IDENTITY_REQUIRED | FINANCIAL_WALLET_CHANGE_REQUIRES_REAUTH
| WALLET_SIGNATURE_REQUIRED | WALLET_SIGNER_MISMATCH | WALLET_MISMATCH | NETWORK_SWITCH_UNAVAILABLE
| ZAMA_AUTHORIZATION_REQUIRED | UNAUTHORIZED_CIPHERTEXT | DECRYPTION_FAILED | WRONG_HANDLE | UNKNOWN.

#[export] Instance LeopoldErrorCode_eq_dec : EqDecision LeopoldErrorCode.
Proof. solve_decision. Defined.

Record LeopoldError := { le_code : LeopoldErrorCode; le_message : string; le_technicalDetail : option string }.

Definition messages (code : LeopoldErrorCode) : string :=
  match code with
  | WRONG_NETWORK => "Switch your wallet to Ethereum Sepolia."
  | INSUFFICIENT_ETH => "You need Sepolia ETH for gas and the refundable bond."
  | INSUFFICIENT_USDC => "Get test USDC first."
  | RELAYER_UNAVAILABLE => "Private operations are temporarily unavailable. Public information may still be available."
  | CONFIGURATION_MISSING => "This Leopold deployment is not configured yet."
  | ROUND_CLOSED => "This prize round has already closed."
  | USER_REJECTED => "The wallet request was declined."
  | RPC_FAILURE | RPC_CONFIGURATION_ERROR | APP_RPC_UNAVAILABLE =>
      "Sepolia is temporarily unavailable. Your funds are unchanged. Try again shortly."
  | WALLET_RPC_UNAVAILABLE => "Your wallet's Sepolia connection isn't working."
  | WALLET_DISCONNECTED => "Connect your verified financial wallet to continue."
  | TRANSACTION_SIMULATION_FAILED => "This transaction could not be simulated. No funds were moved."
  | TRANSACTION_SIGNING_FAILED => "The wallet could not submit this transaction. No funds were moved."
  | TRANSACTION_CONFIRMATION_FAILED => "The transaction confirmation could not be verified. Check your wallet activity."
  | TRANSACTION_REVERTED => "The transaction reverted. No funds were moved."
  | UNSUPPORTED_WALLET => "No compatible browser wallet was found."
  | PRIVATE_LIQUIDITY_UNAVAILABLE =>
      "This withdrawal is temporarily unavailable from the vault’s private liquid balance."
  | AUTH_CONFIGURATION_REQUIRED => "Leopold authentication is not configured in this environment."
  | AUTH_SESSION_EXPIRED => "Your Leopold session expired. Sign in again."
  | AUTH_ACCOUNT_CONFLICT => "Resolve the account credential conflict before continuing."
  | FINANCIAL_IDENTITY_REQUIRED => "Complete your Leopold account and link your financial wallet before continuing."
  | FINANCIAL_WALLET_CHANGE_REQUIRES_REAUTH => "The verified financial wallet cannot be replaced automatically."
  | WALLET_SIGNATURE_REQUIRED => "Sign with your external wallet to verify ownership before continuing."
  | WALLET_SIGNER_MISMATCH => "The connected signer does not match your verified financial wallet."
  | WALLET_MISMATCH => "Switch back to your verified financial wallet to continue."
  | NETWORK_SWITCH_UNAVAILABLE => "Switch your wallet to Ethereum Sepolia."
  | ZAMA_AUTHORIZATION_REQUIRED => "Authorize this wallet again before revealing private financial data."
  | UNAUTHORIZED_CIPHERTEXT => "This private balance is not authorized for the connected wallet."
  | DECRYPTION_FAILED => "Private USDC could not be decrypted. Try revealing again."
  | WRONG_HANDLE => "The private balance handle is invalid or stale. Refresh and try again."
  | UNKNOWN => "Something went wrong. No funds were moved."
  end.

(** ** The texts of a thrown value *)

(** A number stands as the text [String] gives of it; [U_other] is a function, a
    symbol or a bigint. *)
Inductive unknown : Type :=
| U_undefined | U_null
| U_string (s : string)
| U_number (text : string)
| U_boolean (b : bool)
| U_object (address : positive)
| U_other.

(** Objects by address; a property that is absent reads as [undefined]. *)
Definition Objects : Type := gmap positive (gmap string unknown).
Definition property (objects : Objects) (address : positive) (key : string) : unknown :=
  default U_undefined (objects !! address ≫= fun record => record !! key).

Definition ERROR_TEXT_KEYS : list string := ["name"; "code"; "shortMessage"; "message"; "details"; "reason"; "data"].

(** What an object gives under a key: its own text, the value to collect from
    next, or nothing. *)
Definition key_text (key : string) (value : unknown) : option (string + unknown) :=
  match value with
  | U_string text | U_number text => Some (inl (key +:+ ": " +:+ text))
  | _ => if bool_decide (key = "data") || bool_decide (key = "reason") then Some (inr value) else None
  end.

(** The parts of an object, in the order its two loops visit them. *)
Definition object_parts (objects : Objects) (address : positive) : list (string + unknown) :=
  omap (fun key => key_text key (property objects address key)) ERROR_TEXT_KEYS ++
  map (fun key => inr (property objects address key)) ["cause"; "error"].

Fixpoint collect_parts (collect : unknown -> gset positive -> list string * gset positive) (parts : list (string + unknown))
    (seen : gset positive) : list string * gset positive :=
  match parts with
  | [] => ([], seen)
  | inl text :: parts' => let '(texts, seen') := collect_parts collect parts' seen in (text :: texts, seen')
  | inr value :: parts' =>
      let '(texts, seen1) := collect value seen in
      let '(texts', seen2) := collect_parts collect parts' seen1 in
      (texts ++ texts', seen2)
  end.

(** [left] is [5 - depth]: at depth 5 nothing is collected. *)
Fixpoint collectErrorText (left : nat) (objects : Objects) (error : unknown) (seen : gset positive)
    : list string * gset positive :=
  match left with
  | O => ([], seen)
  | S left' =>
      match error with
      | U_undefined | U_null | U_other => ([], seen)
      | U_string s => ([s], seen)
      | U_number text => ([text], seen)
      | U_boolean b => ([if b then "true" else "false"], seen)
      | U_object address =>
          if bool_decide (address ∈ seen) then ([], seen)
          else collect_parts (collectErrorText left' objects) (object_parts objects address) ({[address]} ∪ seen)
      end
  end.

Fixpoint join_text (separator : string) (parts : list string) : string :=
  match parts with
  | [] => EmptyString
  | [part] => part
  | part :: parts' => part +:+ separator +:+ join_text separator parts'
  end.

Definition error_texts (objects : Objects) (error : unknown) : list string := (collectErrorText 5 objects error ∅).1.
Definition errorDetail (objects : Objects) (error : unknown) : string :=
  slice0 3000 (join_text " | " (error_texts objects error)).

(** ** Replacement

    A matcher takes the greedy leftmost choices of a regular expression, with
    backtracking; it returns what is left after the first group and after the
    whole match. *)
Fixpoint greedy {R} (items : list pattern_item) (k : string -> option R) : string -> option R :=
  match items with
  | [] => k
  | one p :: items' =>
      fun s => match s with String c s' => if p c then greedy items' k s' else None | EmptyString => None end
  | maybe p :: items' =>
      fun s => match match s with String c s' => if p c then greedy items' k s' else None | EmptyString => None end with
               | Some r => Some r
               | None => greedy items' k s
               end
  | many p :: items' =>
      fix go s := match match s with String c s' => if p c then go s' else None | EmptyString => None end with
                  | Some r => Some r
                  | None => greedy items' k s
                  end
  end.

(** [(?:a|b|...)] *)
Fixpoint greedy_any {R} (alternatives : list (list pattern_item)) (k : string -> option R) (s : string) : option R :=
  match alternatives with
  | [] => None
  | items :: alternatives' =>
      match greedy items k s with Some r => Some r | None => greedy_any alternatives' k s end
  end.

Definition matcher : Type := string -> option (string * string).

(** [s.replace(/(group).../g, "$1" + replacement)]; [skip] counts the characters
    of the last match that are left. *)
Fixpoint replace_from (find : matcher) (replacement : string) (skip : nat) (s : string) : string :=
  match s with
  | EmptyString => EmptyString
  | String c s' =>
      match skip with
      | S skip' => replace_from find replacement skip' s'
      | O =>
          match find s with
          | Some (after_group, rest) =>
              slice0 (String.length s - String.length after_group) s +:+ replacement +:+
              replace_from find replacement (String.length s' - String.length rest) s'
          | None => String c (replace_from find replacement 0 s')
          end
      end
  end.
Definition replace_all (find : matcher) (replacement s : string) : string := replace_from find replacement 0 s.

Definition lit (s : string) : list pattern_item := map (fun c => one (Ascii.eqb c)) (String.list_ascii_of_string s).
Definition some_of (p : ascii -> bool) : list pattern_item := [one p; many p].
Definition not_space (c : ascii) : bool := negb (is_space c).
(** [[\w-]] *)
Definition is_word_or_dash (c : ascii) : bool :=
  let n := nat_of_ascii c in
  ((48 <=? n) && (n <=? 57) || (65 <=? n) && (n <=? 90) || (97 <=? n) && (n <=? 122) || (n =? 95) || (n =? 45))%nat.

Definition ends_with (items : list pattern_item) (after_group : string) : option (string * string) :=
  greedy items (fun rest => Some (after_group, rest)) after_group.

Definition spaces : matcher := fun s => greedy (some_of is_space) (fun rest => Some (s, rest)) s.
Definition bearer_token : matcher :=
  greedy (ilit "Bearer" ++ some_of is_space) (ends_with (some_of not_space)).
Definition key_words : list (list pattern_item) :=
  [ilit "api" ++ maybe (one_of ["-"; "_"]%char) :: ilit "key"; ilit "token"; ilit "secret"; ilit "password";
   ilit "authorization"; ilit "project" ++ maybe (one_of ["_"; "-"]%char) :: ilit "id"].
Definition secret_assignment : matcher :=
  greedy_any key_words
    (greedy [many is_space; one (one_of [":"; "="]%char); many is_space]
       (ends_with (some_of (fun c => not_space c && negb (one_of [","; ";"]%char c))))).
Definition query_words : list (list pattern_item) :=
  [ilit "api" ++ maybe (one_of ["-"; "_"]%char) :: ilit "key"; ilit "token"; ilit "secret";
   ilit "project" ++ maybe (one_of ["_"; "-"]%char) :: ilit "id"].
Definition secret_query : matcher :=
  greedy [one (one_of ["?"; "&"]%char)]
    (greedy_any query_words
       (greedy (lit "=") (ends_with (some_of (fun c => not_space c && negb (Ascii.eqb "&" c)))))).
Definition jwt_pattern : list pattern_item :=
  lit "eyJ" ++ some_of is_word_or_dash ++ lit "." ++ some_of is_word_or_dash ++ lit "." ++ some_of is_word_or_dash.
Definition jwt : matcher := fun s => greedy jwt_pattern (fun rest => Some (s, rest)) s.

Definition sanitizeTechnicalDetail (objects : Objects) (error : unknown) : string :=
  let raw := trim (replace_all spaces " " (join_text " | " (error_texts objects error))) in
  slice0 500
    (replace_all jwt "[redacted-jwt]"
       (replace_all secret_query "[redacted]"
          (replace_all secret_assignment "[redacted]" (replace_all bearer_token "[redacted]" raw)))).

(** ** Classification *)

(** [/a|b|.../u.test(lower)] of literals. *)
Definition mentions (texts : list string) (lower : string) : bool := test_any (map lit texts) lower.
(** A pattern that starts with a literal. *)
Definition pattern_from (head : string * list pattern_item) : list pattern_item := lit head.1 ++ head.2.
(** [/first.*second/] *)
Definition then_any (first second : string) : string * list pattern_item := (first, many any_char :: lit second).

(** [/not_entitled|unauthorized[_ ]ciphertext|...|ciphertext.*not authorized/u] *)
Definition UNAUTHORIZED_PATTERNS : list (string * list pattern_item) :=
  [("not_entitled", []); ("unauthorized", one (one_of ["_"; " "]%char) :: lit "ciphertext");
   ("handleaccessmanagernotallowed", []); then_any "ciphertext" "not authorized"].
(** [/auth_session_expired|session.*expired|jwt.*expired/u] *)
Definition EXPIRED_PATTERNS : list (string * list pattern_item) :=
  [("auth_session_expired", []); then_any "session" "expired"; then_any "jwt" "expired"].
(** [/withdraw:round_check.*round (?:ended|closed)/u] *)
Definition ROUND_CHECK_PATTERNS : list (string * list pattern_item) :=
  [then_any "withdraw:round_check" "round ended"; then_any "withdraw:round_check" "round closed"].

(** [/status=reverted|reverted/u] *)
Definition REVERTED_TEXTS : list string := ["status=reverted"; "reverted"].

(** The chain of tests, given what the lower-case text mentions, which patterns
    it matches, how it begins, and how the text itself begins. *)
Definition classify_with (mentions : list string -> bool) (matches : list (string * list pattern_item) -> bool)
    (lower_begins begins : string -> bool) : LeopoldErrorCode :=
  if mentions ["wallet_session:user_disconnected"; "wallet_session:account_changed";
               "wallet_session:provider_disconnected"; "wallet_session:no_active_session";
               "wallet_session:connect_cancelled"] then WALLET_DISCONNECTED
  else if mentions ["wallet_session:wrong_network"] then WRONG_NETWORK
  else if mentions ["wallet_session:wallet_rpc_unavailable"] then WALLET_RPC_UNAVAILABLE
  else if mentions ["wallet_session:app_rpc_unavailable"] then APP_RPC_UNAVAILABLE
  else if mentions ["wallet_session:wagmi_"; "wallet_session:walletclient_"; "wallet_session:dynamic_"]
  then WALLET_SIGNER_MISMATCH
  else if mentions ["wallet_disconnected"] then WALLET_DISCONNECTED
  else if mentions ["wallet_mismatch"] then WALLET_MISMATCH
  else if mentions ["wallet_identity:provider_account_unavailable"] then WALLET_DISCONNECTED
  else if mentions ["wallet_identity:provider_account_mismatch"] then WALLET_MISMATCH
  else if mentions ["wallet_identity:wrong_network"; "wallet_identity:provider_network_unavailable"]
  then WRONG_NETWORK
  else if mentions ["wallet_identity:wallet_rpc_unavailable"] then WALLET_RPC_UNAVAILABLE
  else if mentions ["wallet_identity:app_rpc_unavailable"] then APP_RPC_UNAVAILABLE
  else if mentions ["wallet_identity:unknown"] then RPC_FAILURE
  else if lower_begins "wallet_rpc_unavailable" then WALLET_RPC_UNAVAILABLE
  else if lower_begins "app_rpc_unavailable" then APP_RPC_UNAVAILABLE
  else if begins "CONFIGURATION_MISSING" then CONFIGURATION_MISSING
  else if mentions ["user rejected"; "rejected request"; "4001"] then USER_REJECTED
  else if mentions ["wrong_network"; "wrong chain"; "chain mismatch"; "unsupported chain"; "wrong network"]
  then WRONG_NETWORK
  else if mentions ["private_balance:wrong_account"] then WALLET_SIGNER_MISMATCH
  else if mentions ["insufficient funds"; "insufficient eth"] then INSUFFICIENT_ETH
  else if mentions ["insufficient_usdc"; "insufficient usdc"] then INSUFFICIENT_USDC
  else if mentions ["round_closed"; "roundnotopen"; "round closed"] then ROUND_CLOSED
  else if matches UNAUTHORIZED_PATTERNS
  then UNAUTHORIZED_CIPHERTEXT
  else if mentions ["wrong_handle"; "stale_handle"; "no_ciphertext"; "invalid_handle"] then WRONG_HANDLE
  else if mentions ["private_balance:identity_changed"; "private_balance:stale_request"]
  then WALLET_SIGNER_MISMATCH
  else if mentions ["private_balance:sdk_not_ready"; "private_balance:signer_not_ready";
                    "private_balance:decrypt_request"; "private_balance:result_missing"] then DECRYPTION_FAILED
  else if mentions ["decryption_failed"; "relayer_invalid_decryption_result"] then DECRYPTION_FAILED
  else if mentions ["relayer_request_failed"; "relayer"; "kms"; "timeout"; "socket"] then RELAYER_UNAVAILABLE
  else if mentions ["liquid"; "insufficientmanagedassets"] then PRIVATE_LIQUIDITY_UNAVAILABLE
  else if mentions ["auth_configuration_required"] then AUTH_CONFIGURATION_REQUIRED
  else if matches EXPIRED_PATTERNS then AUTH_SESSION_EXPIRED
  else if mentions ["auth_account_conflict"] then AUTH_ACCOUNT_CONFLICT
  else if mentions ["financial_identity_required"] then FINANCIAL_IDENTITY_REQUIRED
  else if mentions ["financial_wallet_change_requires_reauth"] then FINANCIAL_WALLET_CHANGE_REQUIRES_REAUTH
  else if mentions ["wallet_signature_required"] then WALLET_SIGNATURE_REQUIRED
  else if mentions ["wallet_signer_mismatch"] then WALLET_SIGNER_MISMATCH
  else if mentions ["network_switch_unavailable"] then NETWORK_SWITCH_UNAVAILABLE
  else if mentions ["zama_authorization_required"] then ZAMA_AUTHORIZATION_REQUIRED
  else if matches ROUND_CHECK_PATTERNS then ROUND_CLOSED
  else if mentions ["withdraw:round_advance_simulation"; "withdraw:simulation"; "withdraw:refresh"]
  then TRANSACTION_SIMULATION_FAILED
  else if mentions ["withdraw:round_advance_wallet_signature"; "withdraw:wallet_signature"]
  then TRANSACTION_SIGNING_FAILED
  else if mentions ["withdraw:round_advance_receipt"; "withdraw:receipt"]
  then if mentions REVERTED_TEXTS then TRANSACTION_REVERTED else TRANSACTION_CONFIRMATION_FAILED
  else if mentions ["save:simulation"] then TRANSACTION_SIMULATION_FAILED
  else if mentions ["save:wallet_signature"] then TRANSACTION_SIGNING_FAILED
  else if mentions ["save:receipt"]
  then if mentions REVERTED_TEXTS then TRANSACTION_REVERTED else TRANSACTION_CONFIRMATION_FAILED
  else if mentions ["action_simulation_failed"] then TRANSACTION_SIMULATION_FAILED
  else if mentions ["action_signing_failed"] then TRANSACTION_SIGNING_FAILED
  else if mentions ["action_confirmation_failed"] then TRANSACTION_CONFIRMATION_FAILED
  else if mentions ["action_reverted"] then TRANSACTION_REVERTED
  else if mentions ["free plan"; "upgrade to paid"; "chain is not available"; "sepolia.drpc.org"]
  then WALLET_RPC_UNAVAILABLE
  else if mentions ["rpc_configuration_error"] then RPC_CONFIGURATION_ERROR
  else if mentions ["rpc"; "network"; "fetch"] then RPC_FAILURE
  else UNKNOWN.

Definition classify_detail (detail : string) : LeopoldErrorCode :=
  let lower := toLowerCase detail in
  classify_with (fun texts => mentions texts lower) (fun heads => test_any (map pattern_from heads) lower)
    (fun text => match_here (lit text) lower) (fun text => match_here (lit text) detail).

Definition classifyLeopoldError (objects : Objects) (error : unknown) : LeopoldError :=
  let code := classify_detail (errorDetail objects error) in
  {| le_code := code; le_message := messages code;
     le_technicalDetail := Some (sanitizeTechnicalDetail objects error) |}.

(** [new Error(message, { cause })]; its name is read from its prototype. *)
Definition error_record (message : string) (cause : option unknown) : gmap string unknown :=
  let record := <["name" := U_string "Error"]> (<["message" := U_string message]> ∅) in
  match cause with Some value => <["cause" := value]> record | None => record end.
Definition new_Error (message : string) : Objects := {[1%positive := error_record message None]}.
Definition classify_Error (message : string) : LeopoldErrorCode :=
  le_code (classifyLeopoldError (new_Error message) (U_object 1)).

(** * Properties *)

(** ** Collection: every object is read once *)
Definition collects (collect : unknown -> gset positive -> list string * gset positive) : Prop :=
  forall error seen texts seen', collect error seen = (texts, seen') ->
    seen ⊆ seen' /\ (length texts + 9 * size seen <= 9 * size seen' + 1)%nat.

Lemma collect_parts_collects collect parts seen texts seen' :
  collects collect -> collect_parts collect parts seen = (texts, seen') ->
  seen ⊆ seen' /\ (length texts + 9 * size seen <= 9 * size seen' + length parts)%nat.
Proof.
  intros Hc. revert seen texts seen'. induction parts as [|[text|value] parts IH]; simpl; intros seen texts seen'.
  - intros [= <- <-]. split; [done|simpl; lia].
  - destruct (collect_parts collect parts seen) as [texts1 seen1] eqn:E. intros [= <- <-].
    apply IH in E as [? ?]. split; [done|simpl; lia].
  - destruct (collect value seen) as [texts1 seen1] eqn:E1.
    destruct (collect_parts collect parts seen1) as [texts2 seen2] eqn:E2. intros [= <- <-].
    apply Hc in E1 as [? ?]. apply IH in E2 as [? ?]. rewrite length_app. split; [set_solver|lia].
Qed.

Lemma length_object_parts objects address : (length (object_parts objects address) <= 9)%nat.
Proof.
  unfold object_parts. rewrite length_app, length_map.
  assert (H : forall l : list string, (length (omap (fun key => key_text key (property objects address key)) l) <= length l)%nat).
  { induction l as [|key l IH]; csimpl; [lia|]. destruct (key_text _ _); csimpl; lia. }
  specialize (H ERROR_TEXT_KEYS). change (length ERROR_TEXT_KEYS) with 7%nat in H. cbn [length]. lia.
Qed.

Lemma collectErrorText_collects left objects : collects (collectErrorText left objects).
Proof.
  induction left as [|left IH]; intros error seen texts seen'.
  { intros [= <- <-]. split; [done|simpl; lia]. }
  destruct error; cbn [collectErrorText]; try (intros [= <- <-]; split; [done|simpl; lia]).
  case_bool_decide as Hin; [intros [= <- <-]; split; [done|simpl; lia]|].
  intros E. apply collect_parts_collects in E as [Hs Hl]; [|done].
  split; [set_solver|]. rewrite size_union, size_singleton in Hl by set_solver.
  pose proof (length_object_parts objects address). lia.
Qed.

(** Reading a failure terminates with boundedly many texts whatever its graph of
    causes, cyclic ones included: every object is read at most once, and a failure
    gives at most nine texts for each object read and one for a value that is not
    an object. *)
Theorem collectErrorText_bounded objects error texts seen :
  collectErrorText 5 objects error ∅ = (texts, seen) -> (length texts <= 9 * size seen + 1)%nat.
Proof. intros E. apply collectErrorText_collects in E as [_ H]. rewrite size_empty in H. lia. Qed.

(** An error whose cause is itself. *)
Definition cyclic_error : Objects := {[1%positive := error_record "loop" (Some (U_object 1))]}.
Example collectErrorText_bounded_witness :
  collectErrorText 5 cyclic_error (U_object 1) ∅ = (["name: Error"; "message: loop"], {[1%positive]}) /\
  (length ["name: Error"; "message: loop"] <= 9 * size ({[1%positive]} : gset positive) + 1)%nat.
Proof.
  assert (E : collectErrorText 5 cyclic_error (U_object 1) ∅ = (["name: Error"; "message: loop"], {[1%positive]}))
    by (vm_compute; reflexivity).
  split; [exact E|]. exact (collectErrorText_bounded cyclic_error (U_object 1) _ _ E).
Defined.

(** ** Sanitising *)
Lemma greedy_None {R} items (k : string -> option R) s :
  (forall t, k t <> None) -> greedy items k s = None -> match_here items s = false.
Proof.
  intros Hk. revert s. induction items as [|[p|p|p] items IH]; simpl; intros s E.
  - by destruct (Hk s).
  - destruct s as [|c s]; [done|]. destruct (p c); [by apply IH|done].
  - destruct s as [|c s]; [rewrite (IH _ E); done|].
    destruct (p c); simpl.
    + destruct (greedy items k s) eqn:E'; [done|]. by rewrite (IH _ E), (IH _ E').
    + by rewrite (IH _ E).
  - induction s as [|c s IHs]; [by rewrite (IH _ E)|]. destruct (p c); simpl.
    + match type of E with match ?g with _ => _ end = None => destruct g eqn:E'; [done|] end.
      by rewrite (IH _ E), (IHs eq_refl).
    + by rewrite (IH _ E).
Qed.

Lemma greedy_result {R} items (k : string -> option R) s r : greedy items k s = Some r -> exists t, k t = Some r.
Proof.
  revert s. induction items as [|[p|p|p] items IH]; simpl; intros s; [by exists s| | |].
  - destruct s as [|c s]; [done|]. destruct (p c); [apply IH|done].
  - destruct s as [|c s]; [apply IH|]. destruct (p c); [|apply IH].
    destruct (greedy items k s) eqn:E; [|apply IH]. intros [= ->]. by apply (IH s).
  - induction s as [|c s IHs]; [apply IH|]. destruct (p c); [|apply IH].
    match goal with |- match ?g with _ => _ end = _ -> _ => destruct g; [done|apply IH] end.
Qed.

Definition item_class (item : pattern_item) : ascii -> bool :=
  match item with one p | maybe p | many p => p end.
(** No item of the pattern accepts [c]. *)
Definition avoids (c : ascii) (items : list pattern_item) : Prop := Forall (fun item => item_class item c = false) items.

(** A pattern that avoids the first character of a text matches it only by
    taking nothing, so it matches every text. *)
Lemma match_here_avoids c items s t :
  avoids c items -> match_here items (String c s) = true -> match_here items t = true.
Proof.
  induction 1 as [|[p|p|p] items Hp _ IH]; simpl in *; [done|by rewrite Hp| |]; rewrite Hp; simpl; rewrite orb_false_r; intros E;
    destruct t; simpl; by rewrite IH.
Qed.

Lemma replace_from_skip find replacement skip s :
  exists t, replace_from find replacement skip s = replace_all find replacement t /\ (String.length t <= String.length s)%nat.
Proof.
  revert skip. induction s as [|c s IH]; intros skip; [by exists EmptyString|].
  destruct skip as [|skip]; [by exists (String c s)|]. destruct (IH skip) as (t & E & Hl).
  exists t. split; [exact E|]. simpl. lia.
Qed.

(** A step of a replacement that keeps no group: a copied character, or the
    replacement text. *)
Lemma replace_all_step find replacement c s :
  (forall after rest, find (String c s) = Some (after, rest) -> after = String c s) ->
  find (String c s) = None /\ replace_all find replacement (String c s) = String c (replace_all find replacement s) \/
  exists t, replace_all find replacement (String c s) = replacement +:+ replace_all find replacement t /\
    (String.length t <= String.length s)%nat.
Proof.
  intros Hg. unfold replace_all at 1 3. cbn [replace_from]. destruct (find (String c s)) as [[after rest]|] eqn:E; [right|by left].
  rewrite (Hg after rest) by done. rewrite Nat.sub_diag. cbn [slice0].
  destruct (replace_from_skip find replacement (String.length s - String.length rest) s) as (t & Et & Hl).
  exists t. by rewrite Et.
Qed.

Section Redaction.
Context (items : list pattern_item) (mark : string).
Hypothesis mark_avoided : avoids "[" items.
Let find : matcher := fun s => greedy items (fun rest => Some (s, rest)) s.

Lemma find_group c s after rest : find (String c s) = Some (after, rest) -> after = String c s.
Proof. by intros (t & [= <- _])%greedy_result. Qed.

(** What matches the result already matched the text. *)
Lemma match_here_redacted l s :
  avoids "[" l -> match_here l (replace_all find (String "[" mark) s) = true -> match_here l s = true.
Proof.
  intros Hl. revert l Hl. induction s as [|c s IHs]; intros l Hl; [done|].
  destruct (replace_all_step find (String "[" mark) c s (find_group c s)) as [[_ ->]|(t & -> & _)];
    [|by apply match_here_avoids].
  induction Hl as [|[p|p|p] l Hp Hl IH]; simpl; [done| | |].
  - rewrite !andb_true_iff. intros [? ?]. auto.
  - rewrite !orb_true_iff, !andb_true_iff. intros [?|[? ?]]; [left; auto|right; auto].
  - change (match_here l (String c (replace_all find (String "[" mark) s)) ||
      (p c && match_here (many p :: l) (replace_all find (String "[" mark) s)) = true ->
      match_here l (String c s) || (p c && match_here (many p :: l) s) = true).
    rewrite !orb_true_iff, !andb_true_iff. intros [?|[? E]]; [left; auto|right].
    split; [done|]. apply IHs; [by constructor|exact E].
Qed.

Hypothesis mark_clean : forall t, regex_test items t = false -> regex_test items (String "[" mark +:+ t) = false.

Lemma redacted_clean s : match_here items EmptyString = false ->
  regex_test items (replace_all find (String "[" mark) s) = false.
Proof.
  intros He. remember (String.length s) as n eqn:En.
  assert (Hle : (String.length s <= n)%nat) by lia. clear En. revert s Hle.
  induction n as [|n IH]; intros s Hle.
  { destruct s; simpl in *; [by rewrite He|lia]. }
  destruct s as [|c s]; [simpl; by rewrite He|]. simpl in Hle.
  destruct (replace_all_step find (String "[" mark) c s (find_group c s)) as [[Hf Hr]|(t & -> & Hl)].
  - rewrite Hr. simpl. rewrite (IH s) by lia. rewrite orb_false_r. apply not_true_is_false. intros Hm.
    rewrite <- Hr in Hm. apply match_here_redacted in Hm; [|done].
    apply greedy_None in Hf; [congruence|done].
  - apply mark_clean, IH. lia.
Qed.
End Redaction.

Lemma match_here_slice items n s : match_here items (slice0 n s) = true -> match_here items s = true.
Proof.
  revert n s. induction items as [|[p|p|p] items IH]; simpl; intros n s; [done| | |].
  - destruct n, s as [|c s]; simpl; try done. rewrite !andb_true_iff. intros [? ?]. eauto.
  - intros [E|E]%orb_true_iff; [by rewrite (IH _ _ E)|]. destruct n, s as [|c s]; simpl in E; try done.
    apply andb_true_iff in E as [-> E]. rewrite (IH _ _ E). by rewrite orb_true_r.
  - revert n. induction s as [|c s IHs]; intros [|n]; cbn [slice0]; rewrite !orb_true_iff; try done.
    + intros [E|E]; [left; by apply (IH 0%nat)|done].
    + rewrite !andb_true_iff. intros [E|[Hc E]]; [left; by apply (IH (S n))|right; eauto].
Qed.

Lemma regex_test_slice items n s : regex_test items s = false -> regex_test items (slice0 n s) = false.
Proof.
  revert n. induction s as [|c s IH]; intros n; [by destruct n|]. cbn [regex_test]. intros [Hm Hr]%orb_false_iff.
  destruct n; cbn [slice0 regex_test].
  - rewrite orb_false_r. apply not_true_is_false. intros E. by rewrite (match_here_slice items 0 (String c s) E) in Hm.
  - rewrite (IH _ Hr), orb_false_r. apply not_true_is_false. intros E.
    by rewrite (match_here_slice items (S n) (String c s) E) in Hm.
Qed.

(** No token reaches the screen: whatever a failure and its causes say, the
    technical detail shown with it holds nothing of the shape of a JSON web token
    (eyJ..., two dots, three parts), and at most 500 characters. *)
Theorem sanitizeTechnicalDetail_no_jwt objects error :
  regex_test jwt_pattern (sanitizeTechnicalDetail objects error) = false /\
  (String.length (sanitizeTechnicalDetail objects error) <= 500)%nat.
Proof.
  split; [|apply length_slice0]. apply regex_test_slice.
  apply (redacted_clean jwt_pattern "redacted-jwt]"); [repeat constructor| |done].
  intros t Ht. simpl String.append. repeat (cbn [regex_test]; apply orb_false_iff; split; [reflexivity|]). exact Ht.
Qed.

(** ** Classification *)

(** The texts of an object with a name begin with it. *)
Lemma error_texts_name objects address name :
  property objects address "name" = U_string name ->
  exists texts, error_texts objects (U_object address) = ("name: " +:+ name) :: texts.
Proof.
  intros Hn. unfold error_texts. cbn [collectErrorText]. rewrite bool_decide_eq_false_2 by set_solver.
  unfold object_parts, ERROR_TEXT_KEYS. cbn [omap list_omap]. rewrite Hn. cbn [key_text app collect_parts].
  destruct (collect_parts _ _ _) as [texts seen]. by exists texts.
Qed.

Lemma errorDetail_name objects address name :
  property objects address "name" = U_string name ->
  exists rest, errorDetail objects (U_object address) = String "n" rest.
Proof.
  intros (texts & E)%error_texts_name. unfold errorDetail. rewrite E.
  destruct texts; cbn [join_text String.append slice0]; by eexists.
Qed.

(** The code CONFIGURATION_MISSING is never given to an error object: its texts
    begin with its name, so the test that the text starts with that word fails for
    every failure of [requireConfiguredAddress] and of the checks of the
    configuration, and their message (This Leopold deployment is not configured
    yet) is not shown. *)
Theorem classifyLeopoldError_configuration_unreachable objects address name :
  property objects address "name" = U_string name ->
  le_code (classifyLeopoldError objects (U_object address)) <> CONFIGURATION_MISSING.
Proof.
  intros (rest & E)%errorDetail_name. unfold classifyLeopoldError. cbn [le_code]. rewrite E. unfold classify_detail.
  assert (Hb : (fun text => match_here (lit text) (String "n" rest)) "CONFIGURATION_MISSING" = false) by reflexivity.
  revert Hb. generalize (fun text => match_here (lit text) (String "n" rest)). intros begins Hb.
  generalize (toLowerCase (String "n" rest)). intros lower. unfold classify_with. rewrite Hb.
  repeat match goal with |- (if ?b then _ else _) <> _ => destruct b; [discriminate|] end.
  all: repeat match goal with |- (if ?b then _ else _) <> _ => destruct b end; discriminate.
Qed.

(** A wallet target that the configuration does not name. *)
Example classifyLeopoldError_configuration_unreachable_witness :
  property (new_Error "CONFIGURATION_MISSING:private token target") 1 "name" = U_string "Error" /\
  classify_Error "CONFIGURATION_MISSING:private token target" = UNKNOWN /\
  le_code (classifyLeopoldError (new_Error "CONFIGURATION_MISSING:private token target") (U_object 1)) <> CONFIGURATION_MISSING.
Proof.
  split; [reflexivity|]. split; [vm_compute; reflexivity|].
  apply (classifyLeopoldError_configuration_unreachable _ 1%positive "Error"). reflexivity.
Defined.

(** ** A literal in a text made of two parts *)
Lemma match_here_lit l items s :
  match_here (lit l ++ items) s = true <-> exists t, s = l +:+ t /\ match_here items t = true.
Proof.
  unfold lit. revert s. induction l as [|c l IH]; intros s; simpl.
  - split; [by exists s|by intros (t & -> & ?)].
  - destruct s as [|d s]; [split; [done|by intros (t & ? & _)]|]. rewrite andb_true_iff, IH, Ascii.eqb_eq. split.
    + intros (-> & t & -> & ?). by exists t.
    + intros (t & [= <- ->] & ?). split; [done|]. by exists t.
Qed.

Lemma regex_test_iff items s :
  regex_test items s = true <-> exists before after, s = before +:+ after /\ match_here items after = true.
Proof.
  split.
  - induction s as [|c s IH]; cbn [regex_test]; rewrite orb_true_iff.
    + intros [E|?]; [|done]. by exists EmptyString, EmptyString.
    + intros [E|E]; [by exists EmptyString, (String c s)|]. destruct (IH E) as (before & after & -> & ?).
      by exists (String c before), after.
  - intros (before & after & -> & E). induction before as [|c before IH]; cbn [String.append].
    + destruct after; cbn [regex_test]; apply orb_true_iff; by left.
    + cbn [regex_test]. apply orb_true_iff. by right.
Qed.

(** A literal that neither starts with a space nor holds a colon followed by a
    space lies on one side of such a pair. *)
Definition one_sided (l : string) : bool :=
  match l with EmptyString => false | String c _ => negb (Ascii.eqb c " ") end && negb (regex_test (lit ": ") l).

Lemma string_app_split (a b c d : string) :
  a +:+ b = c +:+ d -> (exists t, c = a +:+ t /\ b = t +:+ d) \/ (exists t, a = c +:+ t /\ d = t +:+ b).
Proof.
  revert c. induction a as [|x a IH]; intros c E; simpl in E.
  - left. by exists c.
  - destruct c as [|y c]; simpl in E; [right; by exists (String x a)|]. injection E as -> E.
    destruct (IH c E) as [(t & -> & ->)|(t & -> & ->)]; [left|right]; by exists t.
Qed.

Lemma append_assoc (a b c : string) : (a +:+ b) +:+ c = a +:+ (b +:+ c).
Proof.
  induction a as [|x a IH]; [done|].
  change (String x ((a +:+ b) +:+ c) = String x (a +:+ (b +:+ c))). by rewrite IH.
Qed.
(** A literal occurs where it was written. *)
Lemma lit_found l before after : regex_test (lit l) (before +:+ (l +:+ after)) = true.
Proof.
  apply regex_test_iff. exists before, (l +:+ after). split; [done|].
  rewrite <- (app_nil_r (lit l)). apply match_here_lit. by exists after.
Qed.

Lemma suffix_of_separator (first before t : string) :
  first +:+ ": " = before +:+ t -> t = EmptyString \/ (t = " " \/ exists t', t = t' +:+ ": ").
Proof.
  intros [(v & -> & E)|(v & -> & ->)]%string_app_split; [|right; right; by exists v].
  destruct v as [|c v]; simpl in E; [right; right; exists EmptyString; exact (eq_sym E)|]. injection E as <- E.
  destruct v as [|d v]; simpl in E; [by right; left|]. injection E as <- E.
  destruct v; [|done]. by left.
Qed.

(** The match of a pattern that starts with a one-sided literal, in a text cut
    after a colon and a space, when the literal is not in the first part. *)
Lemma regex_test_second_part l items first second :
  one_sided l = true -> regex_test (lit l) (first +:+ ": ") = false ->
  regex_test (lit l ++ items) (first +:+ (": " +:+ second)) = true -> regex_test (lit l ++ items) second = true.
Proof.
  unfold one_sided. rewrite andb_true_iff, negb_true_iff. intros (Hspace & Hcolon) Hfirst.
  apply not_true_iff_false in Hfirst, Hcolon.
  rewrite (regex_test_iff _ (_ +:+ _)). intros (before & after & E & Hm). rewrite <- append_assoc in E.
  apply string_app_split in E as [(t & -> & ->)|(t & E1 & ->)]; [apply regex_test_iff; by exists t, after|].
  destruct (suffix_of_separator _ _ _ E1) as [->|Ht]; [apply regex_test_iff; by exists EmptyString, second|]. exfalso.
  apply match_here_lit in Hm as (rest & E2 & _). apply string_app_split in E2 as [(u & -> & ->)|(u & -> & ->)].
  - destruct Ht as [->|(t' & ->)]; [done|]. apply Hcolon. rewrite append_assoc. apply lit_found.
  - apply Hfirst. rewrite E1. apply lit_found.
Qed.

(** A rule that the second part does not satisfy, and none of whose words occurs
    in the first. *)
Lemma rule_second_part heads first second n :
  forallb (fun l => one_sided l && negb (regex_test (lit l) (first +:+ ": "))) (map fst heads) = true ->
  test_any (map pattern_from heads) second = false ->
  test_any (map pattern_from heads) (first +:+ (": " +:+ slice0 n second)) = false.
Proof.
  unfold test_any. induction heads as [|[l items] heads IH]; [done|]. simpl.
  rewrite !andb_true_iff, !orb_false_iff, negb_true_iff. intros [[Hs Hf] Hh] [E Es]. split; [|by apply IH].
  apply not_true_is_false. intros Ht. apply (regex_test_second_part l items) in Ht; [|done|done].
  apply (regex_test_slice _ n) in E. unfold pattern_from in E. simpl in E. congruence.
Qed.

Lemma mentions_second_part texts first second n :
  forallb (fun l => one_sided l && negb (regex_test (lit l) (first +:+ ": "))) texts = true ->
  mentions texts second = false -> mentions texts (first +:+ (": " +:+ slice0 n second)) = false.
Proof.
  intros Ht Hs. assert (E : map lit texts = map pattern_from (map (fun l => (l, [])) texts)).
  { rewrite map_map. apply map_ext. intros l. unfold pattern_from. simpl. by rewrite app_nil_r. }
  unfold mentions in *. rewrite E in Hs |- *. apply rule_second_part; [|done]. by rewrite map_map, map_id.
Qed.

Lemma mentions_first_part texts first rest : mentions texts first = true -> mentions texts (first +:+ rest) = true.
Proof.
  unfold mentions, test_any. rewrite !existsb_exists. intros (items & [l [<- Hl]]%in_map_iff & Ht).
  exists (lit l). split; [by apply in_map|]. apply regex_test_iff in Ht as (before & after & -> & Hm).
  rewrite <- (app_nil_r (lit l)) in Hm. apply match_here_lit in Hm as (t & -> & _).
  rewrite !append_assoc. apply lit_found.
Qed.

Lemma toLowerCase_app s t : toLowerCase (s +:+ t) = toLowerCase s +:+ toLowerCase t.
Proof.
  induction s as [|c s IH]; [done|].
  change (String (ascii_to_lower c) (toLowerCase (s +:+ t)) = String (ascii_to_lower c) (toLowerCase s +:+ toLowerCase t)).
  by rewrite IH.
Qed.
Lemma toLowerCase_slice n s : toLowerCase (slice0 n s) = slice0 n (toLowerCase s).
Proof. revert n. induction s as [|c s IH]; intros [|n]; simpl; [done..|]. by rewrite IH. Qed.
Lemma slice0_app n s t :
  (String.length s <= n)%nat -> slice0 n (s +:+ t) = s +:+ slice0 (n - String.length s) t.
Proof.
  revert n. induction s as [|c s IH]; intros n Hn; [by rewrite Nat.sub_0_r|]. destruct n as [|n]; simpl in Hn; [lia|].
  change (String c (slice0 n (s +:+ t)) = String c (s +:+ slice0 (n - String.length s) t)). by rewrite IH by lia.
Qed.

(** ** The failures of a first-generation action *)

(** The stages of the actions of Actions.v. *)
Definition action_stages : list string :=
  ["make-private-approval"; "make-private-wrap"; "save-confidential-transfer"; "withdraw"; "withdraw-round-advance";
   "registerForRound"; "claimBondRefund"; "withdrawSettlementRewards"; "materializeMyRoundWeight"; "unwrap";
   "finalizeUnwrap"].

Definition phase_code (phase : FailurePhase) : LeopoldErrorCode :=
  match phase with
  | SIMULATION => TRANSACTION_SIMULATION_FAILED
  | WALLET_SIGNATURE => TRANSACTION_SIGNING_FAILED
  | RECEIPT => TRANSACTION_CONFIRMATION_FAILED
  end.

(** A text that no rule recognises. *)
Definition unrecognised (text : string) : Prop :=
  classify_detail text = UNKNOWN /\ mentions REVERTED_TEXTS (toLowerCase text) = false.

Lemma detail_cut first rest :
  (String.length first <= 2998)%nat ->
  slice0 3000 (first +:+ (": " +:+ rest)) = first +:+ (": " +:+ slice0 (2998 - String.length first) rest).
Proof.
  intros Hl. rewrite slice0_app by lia.
  replace (3000 - String.length first)%nat with (S (S (2998 - String.length first))) by lia. reflexivity.
Qed.

Lemma lower_cut first n rest :
  toLowerCase (first +:+ (": " +:+ slice0 n rest)) = toLowerCase first +:+ (": " +:+ slice0 n (toLowerCase rest)).
Proof. rewrite !toLowerCase_app, toLowerCase_slice. reflexivity. Qed.

(** A rule is as it is on the first part, for a second part that it does not
    recognise. *)
Lemma mentions_cut texts first n second :
  forallb one_sided texts = true -> mentions texts second = false ->
  mentions texts (first +:+ (": " +:+ slice0 n second)) = mentions texts (first +:+ ": ").
Proof.
  intros Ht Hs. destruct (mentions texts (first +:+ ": ")) eqn:E.
  - change (": " +:+ slice0 n second) with (": " +:+ slice0 n second). rewrite <- append_assoc. by apply mentions_first_part.
  - apply mentions_second_part; [|done]. unfold mentions, test_any in E. revert Ht E. clear.
    induction texts as [|l texts IH]; [done|]. simpl. rewrite !andb_true_iff, orb_false_iff, negb_true_iff.
    intros [??] [??]. auto.
Qed.

(** The chain decides the same on two texts whose tests agree wherever a third
    text, which no rule recognises, fails them. *)
Lemma classify_with_agree m t m1 t1 m2 t2 lower_begins begins lower_begins1 begins1 lower_begins2 begins2 :
  classify_with m t lower_begins begins = UNKNOWN -> m REVERTED_TEXTS = false ->
  (forall texts, forallb one_sided texts = true -> m texts = false -> m1 texts = m2 texts) ->
  (forall heads, In heads [UNAUTHORIZED_PATTERNS; EXPIRED_PATTERNS; ROUND_CHECK_PATTERNS] -> t heads = false -> t1 heads = t2 heads) ->
  lower_begins1 "wallet_rpc_unavailable" = lower_begins2 "wallet_rpc_unavailable" ->
  lower_begins1 "app_rpc_unavailable" = lower_begins2 "app_rpc_unavailable" ->
  begins1 "CONFIGURATION_MISSING" = begins2 "CONFIGURATION_MISSING" ->
  classify_with m1 t1 lower_begins1 begins1 = classify_with m2 t2 lower_begins2 begins2.
Proof.
  intros Hu Hr Hm Ht Hw Ha Hc. unfold classify_with in Hu.
  repeat match type of Hu with (if ?b then _ else _) = _ =>
    destruct b eqn:?; [first [discriminate Hu | rewrite Hr in Hu; discriminate Hu]|] end.
  unfold classify_with. rewrite Hw, Ha, Hc. clear Hu.
  repeat match goal with
  | |- (if m1 ?X then _ else _) = _ => rewrite (Hm X) by (reflexivity || assumption); destruct (m2 X)
  | |- (if t1 ?X then _ else _) = _ => rewrite (Ht X) by (simpl; tauto || assumption); destruct (t2 X)
  | |- (if ?b then _ else _) = _ => destruct b
  | |- ?x = ?x => reflexivity
  end.
Qed.

(** A text that a second one may follow without changing its class: it begins as
    an error's texts do, and holds no first word of a pattern of two words. *)
Definition first_part (first : string) : bool :=
  match first with String c _ => Ascii.eqb c "n" | EmptyString => false end &&
  forallb (fun heads => forallb (fun l => one_sided l && negb (regex_test (lit l) (toLowerCase first +:+ ": "))) (map fst heads)
                        && negb (test_any (map pattern_from heads) (toLowerCase first +:+ ": ")))
    [UNAUTHORIZED_PATTERNS; EXPIRED_PATTERNS; ROUND_CHECK_PATTERNS].

Lemma classify_cut first rest n :
  first_part first = true -> unrecognised rest ->
  classify_detail (first +:+ (": " +:+ slice0 n rest)) = classify_detail (first +:+ ": ").
Proof.
  intros [Hn Hh]%andb_true_iff [Hu Hr]. unfold classify_detail in *. rewrite lower_cut, (toLowerCase_app first).
  apply (classify_with_agree _ _ _ _ _ _ _ _ _ _ _ _ Hu Hr).
  - intros texts H1 H2. by apply mentions_cut.
  - intros heads Hin Hrest. rewrite forallb_forall in Hh. apply Hh in Hin as [H1 H2%negb_true_iff]%andb_true_iff.
    etransitivity; [by apply rule_second_part|exact (eq_sym H2)].
  - destruct first as [|c first]; [done|]. by apply Ascii.eqb_eq in Hn as ->.
  - destruct first as [|c first]; [done|]. by apply Ascii.eqb_eq in Hn as ->.
  - destruct first as [|c first]; [done|]. by apply Ascii.eqb_eq in Hn as ->.
Qed.

Lemma action_failure_first_part stage phase :
  In stage action_stages ->
  let first := "name: Error | message: " +:+ actionFailurePrefix stage phase in
  first_part first = true /\ (String.length first <= 2998)%nat /\ classify_detail (first +:+ ": ") = phase_code phase.
Proof.
  intros Hstage. repeat destruct Hstage as [<-|Hstage]; [..|destruct Hstage]; destruct phase;
    (split; [vm_compute; reflexivity|]; split; [apply Nat.leb_le; vm_compute; reflexivity|vm_compute; reflexivity]).
Qed.

Lemma join_text_head separator first part parts :
  join_text separator ((first +:+ part) :: parts) = first +:+ join_text separator (part :: parts).
Proof. destruct parts; cbn [join_text]; [done|]. by rewrite append_assoc. Qed.

Lemma join_failure_texts prefix cause more :
  join_text " | " ("name: Error" :: ("message: " +:+ thrown_message (actionError prefix cause)) :: more)%list =
  ("name: Error | message: " +:+ prefix) +:+ (": " +:+ join_text " | " (thrown_message cause :: more)).
Proof.
  change (thrown_message (actionError prefix cause)) with (prefix +:+ (": " +:+ thrown_message cause)).
  set (text := "message: " +:+ (prefix +:+ (": " +:+ thrown_message cause))).
  change (join_text " | " ("name: Error" :: text :: more)%list) with ("name: Error | " +:+ join_text " | " (text :: more)%list).
  unfold text. by rewrite !join_text_head, append_assoc.
Qed.

(** What the user reads when an action fails.  Whatever stage of whatever
    first-generation action fails, an error built by [actionError] around a cause
    whose own texts, and those of the causes below it, no rule recognises, is
    classified by its phase: a failed simulation or signature says that no funds
    were moved, and a receipt that could not be read asks to check the wallet's
    activity.  Nothing in the name of a stage disturbs this. *)
Theorem action_failures_classified objects address stage phase cause more :
  In stage action_stages ->
  error_texts objects (U_object address) =
    ("name: Error" :: ("message: " +:+ thrown_message (actionError (actionFailurePrefix stage phase) cause)) :: more)%list ->
  unrecognised (join_text " | " (thrown_message cause :: more)) ->
  le_code (classifyLeopoldError objects (U_object address)) = phase_code phase /\
  le_message (classifyLeopoldError objects (U_object address)) = messages (phase_code phase).
Proof.
  intros Hstage Htexts Hrest. destruct (action_failure_first_part stage phase Hstage) as (Hf & Hl & Hc).
  enough (E : classify_detail (errorDetail objects (U_object address)) = phase_code phase).
  { unfold classifyLeopoldError. cbn [le_code le_message]. by rewrite E. }
  unfold errorDetail. rewrite Htexts, <- Hc, <- (classify_cut _ _ (2998 - String.length ("name: Error | message: " +:+ actionFailurePrefix stage phase)) Hf Hrest).
  f_equal. rewrite <- detail_cut by done. f_equal. by apply join_failure_texts.
Qed.

(** A saving refused by its simulation. *)
Definition refused_saving : Objects :=
  <[1%positive := error_record "SAVE:SIMULATION: execution refused" (Some (U_object 2))]>
    {[2%positive := <["name" := U_string "CallExecutionError"]> (<["message" := U_string "execution refused"]> ∅)]}.
Example action_failures_classified_witness :
  let cause := Failure (OtherError "CallExecutionError" "execution refused") in
  let more := ["name: CallExecutionError"; "message: execution refused"] in
  In "save-confidential-transfer" action_stages /\
  error_texts refused_saving (U_object 1) =
    ("name: Error" :: ("message: " +:+ thrown_message (actionError (actionFailurePrefix "save-confidential-transfer" SIMULATION) cause)) :: more)%list /\
  unrecognised (join_text " | " (thrown_message cause :: more)) /\
  le_code (classifyLeopoldError refused_saving (U_object 1)) = TRANSACTION_SIMULATION_FAILED.
Proof.
  intros cause more.
  assert (H1 : In "save-confidential-transfer" action_stages) by (simpl; tauto).
  assert (H2 : error_texts refused_saving (U_object 1) =
    ("name: Error" :: ("message: " +:+ thrown_message (actionError (actionFailurePrefix "save-confidential-transfer" SIMULATION) cause)) :: more)%list)
    by (vm_compute; reflexivity).
  assert (H3 : unrecognised (join_text " | " (thrown_message cause :: more))) by (split; vm_compute; reflexivity).
  split; [exact H1|]. split; [exact H2|]. split; [exact H3|].
  exact (proj1 (action_failures_classified refused_saving 1 "save-confidential-transfer" SIMULATION cause more H1 H2 H3)).
Defined.

(** A receipt that says the transaction was reverted is shown as such, at every
    stage. *)
Lemma reverted_receipts_classified :
  Forall (fun text => classify_Error text = TRANSACTION_REVERTED)
    ("SAVE:RECEIPT:status=reverted" :: "WITHDRAW:ROUND_ADVANCE_RECEIPT:status=reverted" :: "WITHDRAW:RECEIPT:status=reverted" ::
     map (fun stage => "ACTION_REVERTED:" +:+ stage) action_stages)%list.
Proof. repeat constructor; vm_compute; reflexivity. Qed.

(** A wait for a receipt that fails names the transaction; when its hash happens to
    hold the digits 4001 the user is told that the request was declined. *)
Example receipt_failure_with_4001 :
  classify_Error "ACTION_CONFIRMATION_FAILED:make-private-wrap: no receipt for 0x7d14001e" = USER_REJECTED /\
  classify_Error "ACTION_CONFIRMATION_FAILED:make-private-wrap: no receipt for 0x7d1400ee" = TRANSACTION_CONFIRMATION_FAILED.
Proof. split; vm_compute; reflexivity. Qed.
