(* ===== verification/Reading.v ===== *)
(** * Reads that record their answers

    The computations inside [withReadReliability]: a read may throw, and what was
    answered, in order, is kept beside the environment.  The rules at the end say
    which answers a success rests on; Reads.v and Health.v use them. *)
From Stdlib Require Import ZArith Lia Ascii.
From stdpp Require Import base option list sets strings.
From S2P Require Import Prelude Reliability.
Local Open Scope Z_scope.

(** A read may throw; it leaves what was answered. *)
Definition reading (W E A : Type) : Type := W * list E -> (A + ReadFailure) * (W * list E).

#[export] Instance reading_ret W E : MRet (reading W E) := fun A a s => (inl a, s).
#[export] Instance reading_bind W E : MBind (reading W E) := fun A B f m s =>
  match m s with (inl a, s') => f a s' | (inr e, s') => (inr e, s') end.

(** The clock and the timers run on the environment. *)
#[export] Instance reading_runtime {W E} `{ReadRuntime W} : ReadRuntime (W * list E) := {
  Date_now s := let '(now, w) := Date_now s.1 in (now, (w, s.2));
  read_timed_out timeoutMs s := read_timed_out timeoutMs s.1;
  backoff_sleep attempt s := (backoff_sleep attempt s.1, s.2)
}.

Section Reading.
Context {W Ev : Type}.
Local Notation reading := (reading W Ev).

Definition throw_reading {A} (message : string) : reading A := fun s => (inr (OtherError "Error" message), s).
Definition throw_reading_if (c : bool) (message : string) : reading unit := if c then throw_reading message else mret tt.
Definition of_result {A} (r : result A) : reading A :=
  match r with Ok a => mret a | Throw e => throw_reading (err_message e) end.
(** [Promise.all([p, q])] *)
Definition reading_all2 {A B} (p : reading A) (q : reading B) : reading (A * B) := fun s =>
  let '(r1, s1) := p s in
  let '(r2, s2) := q s1 in
  (match r1, r2 with
   | inl a, inl b => inl (a, b)
   | inl _, inr e => inr e
   | inr e, _ => inr e
   end, s2).
(** [Promise.all(items.map(f))] *)
Fixpoint reading_all {A B} (f : A -> reading B) (items : list A) : reading (list B) :=
  match items with
  | [] => mret []
  | item :: items' => pair ← reading_all2 (f item) (reading_all f items'); mret (pair.1 :: pair.2)
  end.
Fixpoint reading_each {A} (f : A -> reading unit) (items : list A) : reading unit :=
  match items with [] => mret tt | item :: items' => f item ;; reading_each f items' end.

Definition ask {A} (call : W -> (A + ReadFailure) * W) (event : A -> Ev) : reading A := fun s =>
  let '(r, w) := call s.1 in
  match r with inl a => (inl a, (w, s.2 ++ [event a])) | inr e => (inr e, (w, s.2)) end.
Context `{ReadRuntime W}.
(** [withReadReliability(() => read, options)] *)
Definition reliable_with {A} (options : ReadReliabilityOptions) (read : reading A)
    (s : ReadState (W * list Ev) A) : (A + ReadFailure) * ReadState (W * list Ev) A :=
  withReadReliability (fun _ => read) options s.
Definition operation_options (operation : MetricOperation) : ReadReliabilityOptions :=
  {| ro_operation := operation; ro_timeoutMs := None; ro_maxAttempts := None; ro_shouldRetry := None |}.

(** ** What a read that succeeds rests on *)

(** Answers are only added, and a success returns [a] after the answers [new]
    only when [Q a new]. *)
Definition rests {A} (m : reading A) (Q : A -> list Ev -> Prop) : Prop :=
  forall s r s', m s = (r, s') ->
    exists new, s'.2 = s.2 ++ new /\ match r with inl a => Q a new | inr _ => True end.

Lemma rests_ret {A} (a : A) (Q : A -> list Ev -> Prop) : Q a [] -> rests (mret a) Q.
Proof. intros HQ s r s' [= <- <-]. exists []. by rewrite app_nil_r. Qed.

Lemma rests_throw {A} (e : ReadFailure) (Q : A -> list Ev -> Prop) : rests (fun s => (inr e, s)) Q.
Proof. intros s r s' [= <- <-]. exists []. by rewrite app_nil_r. Qed.

Lemma rests_bind {A B} (m : reading A) (f : A -> reading B) (P : A -> list Ev -> Prop) (Q : B -> list Ev -> Prop) :
  rests m P -> (forall a l, P a l -> rests (f a) (fun b new => Q b (l ++ new))) -> rests (m ≫= f) Q.
Proof.
  intros Hm Hf s r s' Er. unfold mbind, reading_bind in Er. destruct (m s) as [[a|e] s1] eqn:Em;
    apply Hm in Em as (l & E1 & HP).
  - apply (Hf a l HP) in Er as (new & E2 & HQ). exists (l ++ new). by rewrite E2, E1, app_assoc.
  - injection Er as <- <-. by exists l.
Qed.

Lemma rests_mono {A} (m : reading A) (P Q : A -> list Ev -> Prop) :
  rests m P -> (forall a l, P a l -> Q a l) -> rests m Q.
Proof. intros Hm HPQ s r s' E. apply Hm in E as (new & ? & ?). exists new. split; [done|]. destruct r; auto. Qed.

Lemma rests_assoc {A B C} (m : reading A) (f : A -> reading B) (g : B -> reading C) Q :
  rests ((m ≫= f) ≫= g) Q -> rests (m ≫= fun a => f a ≫= g) Q.
Proof.
  intros Hm s c s' E. apply Hm. unfold mbind, reading_bind in *. by destruct (m s) as [[a|e] s1].
Qed.

Lemma rests_of_result {A} (r : result A) : rests (of_result r) (fun a new => r = Ok a /\ new = []).
Proof. destruct r; [by apply rests_ret|apply rests_throw]. Qed.

Lemma rests_throw_if (c : bool) message : rests (throw_reading_if c message) (fun _ new => c = false /\ new = []).
Proof. destruct c; [apply rests_throw|by apply rests_ret]. Qed.

Lemma rests_ask {A} (call : W -> (A + ReadFailure) * W) event : rests (ask call event) (fun a new => new = [event a]).
Proof.
  intros s r s' E. unfold ask in E. destruct (call s.1) as [[b|e] w]; injection E as <- <-; [by exists [event b]|].
  exists []. by rewrite app_nil_r.
Qed.

Lemma rests_all2 {A B} (p : reading A) (q : reading B) P Q :
  rests p P -> rests q Q -> rests (reading_all2 p q) (fun ab new => exists l1 l2, new = l1 ++ l2 /\ P ab.1 l1 /\ Q ab.2 l2).
Proof.
  intros Hp Hq s r s' E. unfold reading_all2 in E. destruct (p s) as [r1 s1] eqn:E1, (q s1) as [r2 s2] eqn:E2.
  injection E as <- <-. apply Hp in E1 as (l1 & F1 & ?). apply Hq in E2 as (l2 & F2 & ?). exists (l1 ++ l2).
  rewrite F2, F1, app_assoc. split; [done|]. destruct r1 as [a|]; [|done]. destruct r2 as [b|]; [|done].
  by exists l1, l2.
Qed.

Lemma rests_all {A B} (f : A -> reading B) P items :
  (forall item, rests (f item) (P item)) ->
  rests (reading_all f items) (fun bs new =>
    Forall2 (fun item b => exists l, P item b l /\ l ⊆ new) items bs).
Proof.
  intros Hf. induction items as [|item items IH]; [by apply rests_ret|].
  eapply rests_bind; [by apply rests_all2|]. cbv beta. intros [b bs] l (l1 & l2 & -> & Hb & Hbs). apply rests_ret.
  rewrite app_nil_r. cbn [fst snd] in *. constructor; [exists l1; split; [done|set_solver]|].
  eapply Forall2_impl; [exact Hbs|]. intros ? ? (l & ? & ?). exists l. split; [done|set_solver].
Qed.

Lemma rests_each {A} (f : A -> reading unit) P items :
  (forall item, rests (f item) (fun _ => P item)) ->
  rests (reading_each f items) (fun _ new => Forall (fun item => exists l, P item l /\ l ⊆ new) items).
Proof.
  intros Hf. induction items as [|item items IH]; [by apply rests_ret|].
  eapply rests_bind; [apply Hf|]. cbv beta. intros [] l1 Hl. eapply rests_mono; [apply IH|]. cbv beta. intros [] l2 Hl2.
  constructor; [exists l1; split; [done|set_solver]|]. eapply Forall_impl; [exact Hl2|].
  intros ? (l & ? & ?). exists l. split; [done|set_solver].
Qed.

(** One attempt answers what the read answered. *)
Lemma readAttempt_rests {A} (read : reading A) operation timeoutMs attempt Q s outcome s' :
  rests read Q -> readAttempt (fun _ => read) operation timeoutMs attempt s = (outcome, s') ->
  exists new, (rs_world s').2 = (rs_world s).2 ++ new /\ match outcome with inl a => Q a new | inr _ => True end.
Proof.
  intros Hr Eo. unfold readAttempt in Eo. cbn in Eo.
  destruct (Date_now (rs_world s).1) as [t1 w1]. destruct (read (w1, (rs_world s).2)) as [r s2] eqn:Er.
  destruct (Date_now s2.1) as [t2 w2]. apply Hr in Er as (new & En & HQ). cbn in En.
  injection Eo as <- <-. exists new. split; [exact En|]. by destruct (read_timed_out timeoutMs s2.1).
Qed.

(** A reliable read adds answers, and one that succeeds ends with an attempt that
    succeeded. *)
Lemma readLoop_rests {A} left (read : reading A) operation timeoutMs maxAttempts shouldRetry attempt Q s r s' :
  rests read Q ->
  readLoop left (fun _ => read) operation timeoutMs maxAttempts shouldRetry attempt s = (r, s') ->
  exists before new, (rs_world s').2 = (rs_world s).2 ++ before ++ new /\ match r with inl a => Q a new | inr _ => True end.
Proof.
  intros Hr. revert attempt s. induction left as [|left IH]; intros attempt s; cbn [readLoop].
  { intros [= <- <-]. exists [], []. by rewrite app_nil_r. }
  destruct (readAttempt _ _ _ _ s) as [[v|e] s1] eqn:E; apply (readAttempt_rests _ _ _ _ _ _ _ _ Hr) in E as (new & En & HQ).
  - intros [= <- <-]. by exists [], new.
  - destruct (_ || _).
    + intros [= <- <-]. by exists [], new.
    + intros (before & new' & E' & HQ')%IH. exists (new ++ before), new'. split; [|done].
      rewrite E'. cbn. by rewrite En, <- !app_assoc.
Qed.

Lemma reliable_rests {A} options (read : reading A) Q s r s' :
  rests read Q -> reliable_with options read s = (r, s') ->
  exists before new, (rs_world s').2 = (rs_world s).2 ++ before ++ new /\ match r with inl a => Q a new | inr _ => True end.
Proof.
  intros Hr Hrun. unfold reliable_with, withReadReliability in Hrun.
  destruct (default _ (ro_maxAttempts options)) as [maxAttempts|].
  2: { injection Hrun as <- <-. exists [], []. by rewrite app_nil_r. }
  destruct (_ || _); [|by eapply readLoop_rests]. injection Hrun as <- <-. exists [], []. by rewrite app_nil_r.
Qed.

Lemma reliable_success {A} options (read : reading A) Q s value s' :
  rests read Q -> reliable_with options read s = (inl value, s') ->
  exists before new, (rs_world s').2 = before ++ new /\ Q value new.
Proof.
  intros Hr (before & new & E & HQ)%(reliable_rests _ _ _ _ _ _ Hr). exists ((rs_world s).2 ++ before), new.
  by rewrite E, app_assoc.
Qed.
End Reading.
