(* ===== verification/Reads.v ===== *)
(** * Reads of the first-generation deployment: frontend/lib/leopold/reads.ts

    The check of a configured deployment against the chain, the public state of a
    vault, and whether its round takes deposits.  A read of a contract is a value
    of [ContractRead], indexed by what it answers; every answer is recorded, so
    the theorems say which answers a result rests on. *)
From Stdlib Require Import ZArith Lia Ascii.
From stdpp Require Import base option list sets strings.
From S2P Require Import Prelude Lifecycle WalletAddress Reliability FrontendConfig Reading.
Local Open Scope Z_scope.

Definition ROUND_STATE_LABELS : list string :=
  ["Unavailable"; "Open"; "Preparing draw"; "No eligible savings"; "Draw ready"; "Checking ticket"; "Checking ticket";
   "Finalizing private draw"; "Finalizing private draw"; "Finalizing private draw"; "Finalizing private draw";
   "Finalizing private draw"; "Finalizing private draw"; "Finalizing private draw"; "Settled"].

(** [ROUND_STATE_LABELS[state] ?? "Finalizing private draw"]; a state is a [uint8]. *)
Definition round_state_label (state : Z) : string :=
  default "Finalizing private draw" (ROUND_STATE_LABELS !! Z.to_nat state).

Record VaultPublicState := {
  vp_roundId : Z; vp_opensAt : Z; vp_closesAt : Z; vp_state : Z; vp_stateLabel : string; vp_publicPrize : Z;
  vp_participantCount : Z; vp_selectionCursor : Z; vp_allocationCursor : Z; vp_entered : bool;
  vp_eligibilityStart : Z; vp_bondAmount : Z; vp_refundAmount : Z; vp_refundClaimed : bool; vp_settlementReward : Z
}.

Inductive RoundStatusCode : Type := OPEN | NOT_STARTED | ENDED | SETTLEMENT | UNAVAILABLE.
#[export] Instance RoundStatusCode_eq_dec : EqDecision RoundStatusCode.
Proof. solve_decision. Defined.

Record EffectiveVaultRoundStatus := { rs_code : RoundStatusCode; rs_label : string; rs_depositOpen : bool }.

(** [Pick<VaultPublicState, "state" | "stateLabel" | "opensAt" | "closesAt">] *)
Record RoundWindow := { rw_state : Z; rw_stateLabel : string; rw_opensAt : Z; rw_closesAt : Z }.
Definition round_window (state : VaultPublicState) : RoundWindow :=
  {| rw_state := vp_state state; rw_stateLabel := vp_stateLabel state; rw_opensAt := vp_opensAt state;
     rw_closesAt := vp_closesAt state |}.

Definition getEffectiveVaultRoundStatus (state : option RoundWindow) (blockTimestamp : option Z)
    : EffectiveVaultRoundStatus :=
  match state with
  | None => {| rs_code := UNAVAILABLE; rs_label := "Round unavailable"; rs_depositOpen := false |}
  | Some state =>
      if negb (rw_state state =? 1)
      then {| rs_code := SETTLEMENT; rs_label := rw_stateLabel state; rs_depositOpen := false |}
      else match blockTimestamp with
           | None => {| rs_code := UNAVAILABLE; rs_label := "Checking round"; rs_depositOpen := false |}
           | Some timestamp =>
               if timestamp <? rw_opensAt state
               then {| rs_code := NOT_STARTED; rs_label := "Round not started"; rs_depositOpen := false |}
               else if rw_closesAt state <=? timestamp
               then {| rs_code := ENDED; rs_label := "Round ended"; rs_depositOpen := false |}
               else {| rs_code := OPEN; rs_label := "Open"; rs_depositOpen := true |}
           end
  end.

Definition isVaultRoundOpen (state opensAt closesAt blockTimestamp : Z) : bool :=
  rs_depositOpen
    (getEffectiveVaultRoundStatus
       (Some {| rw_state := state; rw_stateLabel := ""; rw_opensAt := opensAt; rw_closesAt := closesAt |})
       (Some blockTimestamp)).

Definition canPrepareVaultWithdrawal (state : option RoundWindow) (blockTimestamp : option Z) : bool :=
  let code := rs_code (getEffectiveVaultRoundStatus state blockTimestamp) in
  bool_decide (code = OPEN) || bool_decide (code = ENDED).

(** ** Reads of the contracts *)
Record OfficialVault := {
  ov_vault : string; ov_asset : string; ov_strategy : string; ov_comet : string; ov_bondEscrow : string;
  ov_vaultType : Z; ov_roundDuration : Z; ov_active : bool
}.

(** The components 0, 1, 2, 4, 5, 6 and 7 of the tuple that [roundInfo] answers. *)
Record RoundInfo := {
  ri_opensAt : Z; ri_closesAt : Z; ri_state : Z; ri_publicPrize : Z; ri_participantCount : Z;
  ri_selectionCursor : Z; ri_allocationCursor : Z
}.

Inductive ContractRead : Type -> Type :=
| read_balanceOf (account : string) : ContractRead Z
| read_underlying : ContractRead string
| read_officialVault (id : Z) : ContractRead OfficialVault
| read_ASSET : ContractRead string
| read_UNDERLYING : ContractRead string
| read_STRATEGY : ContractRead string
| read_SETTLEMENT_BOND_ESCROW : ContractRead string
| read_ROUND_DURATION : ContractRead Z
| read_vault : ContractRead string
| read_asset : ContractRead string
| read_COMET : ContractRead string
| read_activeRoundId : ContractRead Z
| read_roundInfo (roundId : Z) : ContractRead RoundInfo
| read_isRegistered (roundId : Z) (account : string) : ContractRead bool
| read_eligibilityStart (roundId : Z) (account : string) : ContractRead Z
| read_BOND_AMOUNT : ContractRead Z
| read_REFUND_PER_COMPLETED_PARTICIPANT : ContractRead Z
| read_refundClaimed (roundId : Z) (account : string) : ContractRead bool
| read_settlementRewardCredit (account : string) : ContractRead Z
| read_principalOf (account : string) : ContractRead string
| read_winningsOf (account : string) : ContractRead string.

(** The public client.  [readContract address read block] reads at the block, or
    at the latest one. *)
Class PublicClient (W : Type) := {
  pc_runtime :: ReadRuntime W;
  getChainId : W -> (Z + ReadFailure) * W;
  getCode : string -> W -> (option string + ReadFailure) * W;
  readContract : forall {A}, string -> ContractRead A -> option Z -> W -> (A + ReadFailure) * W;
  getBlock : W -> (Z * Z + ReadFailure) * W
}.

Inductive ReadEvent : Type :=
| chain_answered (chainId : Z)
| code_answered (address : string) (code : option string)
| answered {A : Type} (address : string) (read : ContractRead A) (block : option Z) (value : A).

Section Reads.
Context {W : Type} `{PublicClient W}.
Local Notation reading := (reading W ReadEvent).
Local Notation reliable_read operation := (reliable_with (operation_options operation)).

Definition chain_id : reading Z := ask getChainId chain_answered.
Definition code_at (address : string) : reading (option string) := ask (getCode address) (code_answered address).
Definition contract {A} (address : string) (read : ContractRead A) (block : option Z) : reading A :=
  ask (readContract address read block) (answered address read block).

Definition readUsdcBalance (token account : string) :=
  reliable_read PUBLIC_BALANCE_READ (contract token (read_balanceOf account) None).

(** [!item || item === "0x"] *)
Definition no_code (code : option string) : bool :=
  match code with Some text => negb (string_nonempty text) || bool_decide (text = "0x") | None => true end.

Definition vault_addresses (vault : LeopoldVaultConfig) : reading (list string) :=
  v ← of_result (requireConfiguredAddress (lv_vault vault) (lv_name vault +:+ " vault"));
  a ← of_result (requireConfiguredAddress (lv_adapter vault) (lv_name vault +:+ " adapter"));
  e ← of_result (requireConfiguredAddress (lv_bondEscrow vault) (lv_name vault +:+ " escrow"));
  mret [v; a; e].

(** [config.vaults.flatMap(...)] *)
Fixpoint all_vault_addresses (vaults : list LeopoldVaultConfig) : reading (list string) :=
  match vaults with
  | [] => mret []
  | vault :: vaults' =>
      addresses ← vault_addresses vault; others ← all_vault_addresses vaults'; mret (addresses ++ others)
  end.

Record VaultWiring := {
  vw_asset : string; vw_underlying : string; vw_strategy : string; vw_escrow : string; vw_duration : Z;
  vw_adapterVault : string; vw_adapterAsset : string; vw_comet : string
}.
(** The eight reads of a vault and of its adapter, taken together. *)
Definition read_wiring (vault adapter : string) : reading VaultWiring :=
  '(asset, (vaultUnderlying, (strategy, (vaultEscrow, (duration, (adapterVault, (adapterAsset, comet))))))) ←
    reading_all2 (contract vault read_ASSET None)
      (reading_all2 (contract vault read_UNDERLYING None)
         (reading_all2 (contract vault read_STRATEGY None)
            (reading_all2 (contract vault read_SETTLEMENT_BOND_ESCROW None)
               (reading_all2 (contract vault read_ROUND_DURATION None)
                  (reading_all2 (contract adapter read_vault None)
                     (reading_all2 (contract adapter read_asset None) (contract adapter read_COMET None)))))));
  mret {| vw_asset := asset; vw_underlying := vaultUnderlying; vw_strategy := strategy; vw_escrow := vaultEscrow;
          vw_duration := duration; vw_adapterVault := adapterVault; vw_adapterAsset := adapterAsset; vw_comet := comet |}.

(** [left[index] !== right[index]] for some index, up to letter case. *)
Definition any_differs (values expected : list string) : bool :=
  negb (bool_decide (map toLowerCase values = map toLowerCase expected)).

(** One turn of the loop over the vaults. *)
Definition validate_vault (config : LeopoldConfig) (registry lcUsdc canonicalUsdc : string) (vaultConfig : LeopoldVaultConfig)
    : reading unit :=
  vault ← of_result (requireConfiguredAddress (lv_vault vaultConfig) (lv_name vaultConfig +:+ " vault"));
  adapter ← of_result (requireConfiguredAddress (lv_adapter vaultConfig) (lv_name vaultConfig +:+ " adapter"));
  escrow ← of_result (requireConfiguredAddress (lv_bondEscrow vaultConfig) (lv_name vaultConfig +:+ " escrow"));
  official ← contract registry (read_officialVault (lv_id vaultConfig)) None;
  wiring ← read_wiring vault adapter;
  expectedComet ← of_result (requireConfiguredAddress (lc_compoundComet config) "Compound Comet");
  throw_reading_if
    (negb (ov_active official)
     || negb (ov_vaultType official =? lv_id vaultConfig - 1)
     || negb (ov_roundDuration official =? lv_roundDurationSeconds vaultConfig)
     || negb (vw_duration wiring =? lv_roundDurationSeconds vaultConfig)
     || any_differs
          [ov_vault official; ov_asset official; ov_strategy official; ov_comet official; ov_bondEscrow official;
           vw_asset wiring; vw_underlying wiring; vw_strategy wiring; vw_escrow wiring;
           vw_adapterVault wiring; vw_adapterAsset wiring; vw_comet wiring]
          [vault; lcUsdc; adapter; expectedComet; escrow; lcUsdc; canonicalUsdc; adapter; escrow; vault; canonicalUsdc;
           expectedComet])
    ("CONFIGURATION_MISSING:" +:+ lv_name vaultConfig +:+ " deployment integrity mismatch").

Definition validateConfiguredDeploymentOnce `{Viem} (config : LeopoldConfig) : reading unit :=
  throw_reading_if (negb (lc_ready config)) "CONFIGURATION_MISSING:manifest" ;;
  chainId ← chain_id;
  throw_reading_if (negb (chainId =? LEOPOLD_CHAIN_ID)) "WRONG_NETWORK:rpc" ;;
  registry ← of_result (requireConfiguredAddress (lc_registry config) "Registry");
  lcUsdc ← of_result (requireConfiguredAddress (lc_lcUsdc config) "Private USDC");
  vaults ← all_vault_addresses (lc_vaults config);
  code ← reading_all code_at (registry :: lcUsdc :: vaults);
  throw_reading_if (existsb no_code code) "CONFIGURATION_MISSING:contract bytecode" ;;
  underlying ← contract lcUsdc read_underlying None;
  throw_reading_if (negb (bool_decide (toLowerCase underlying = toLowerCase CANONICAL_USDC)))
    "CONFIGURATION_MISSING:wrapper underlying mismatch" ;;
  reading_each (validate_vault config registry lcUsdc CANONICAL_USDC) (lc_vaults config).

Definition validateConfiguredDeployment `{Viem} (config : LeopoldConfig) :=
  reliable_read DEPLOYMENT_READ (validateConfiguredDeploymentOnce config).

Definition readVaultPublicStateOnce (vaultConfig : LeopoldVaultConfig) (account : string) (blockNumber : option Z)
    : reading VaultPublicState :=
  vault ← of_result (requireConfiguredAddress (lv_vault vaultConfig) (lv_name vaultConfig +:+ " vault"));
  escrow ← of_result (requireConfiguredAddress (lv_bondEscrow vaultConfig) (lv_name vaultConfig +:+ " bond escrow"));
  roundId ← contract vault read_activeRoundId blockNumber;
  '(round, (entered, (eligibilityStart, (bondAmount, (refundAmount, (refundClaimed, settlementReward)))))) ←
    reading_all2 (contract vault (read_roundInfo roundId) blockNumber)
      (reading_all2 (contract escrow (read_isRegistered roundId account) blockNumber)
         (reading_all2 (contract vault (read_eligibilityStart roundId account) blockNumber)
            (reading_all2 (contract escrow read_BOND_AMOUNT blockNumber)
               (reading_all2 (contract escrow read_REFUND_PER_COMPLETED_PARTICIPANT blockNumber)
                  (reading_all2 (contract escrow (read_refundClaimed roundId account) blockNumber)
                     (contract escrow (read_settlementRewardCredit account) blockNumber))))));
  mret {| vp_roundId := roundId; vp_opensAt := ri_opensAt round; vp_closesAt := ri_closesAt round;
          vp_state := ri_state round; vp_stateLabel := round_state_label (ri_state round);
          vp_publicPrize := ri_publicPrize round; vp_participantCount := ri_participantCount round;
          vp_selectionCursor := ri_selectionCursor round; vp_allocationCursor := ri_allocationCursor round;
          vp_entered := entered; vp_eligibilityStart := eligibilityStart; vp_bondAmount := bondAmount;
          vp_refundAmount := refundAmount; vp_refundClaimed := refundClaimed; vp_settlementReward := settlementReward |}.

Definition readVaultPublicState (vaultConfig : LeopoldVaultConfig) (account : string) (blockNumber : option Z) :=
  reliable_read VAULT_READ (readVaultPublicStateOnce vaultConfig account blockNumber).

Inductive PrivateHandleKind : Type := principal | winnings.
Definition readPrivateHandle (vault account : string) (kind : PrivateHandleKind) :=
  reliable_read PRIVATE_HANDLE_READ
    (contract vault (match kind with principal => read_principalOf account | winnings => read_winningsOf account end) None).

Definition readLatestBlock (s : ReadState (W * list ReadEvent) (Z * Z)) :=
  reliable_read VAULT_READ (fun s => let '(r, w) := getBlock s.1 in (r, (w, s.2))) s.
End Reads.

(** * Properties *)

(** Deposits are open exactly when the stored state is OPEN and the block's time
    lies in the half-open interval from the opening to the closing of the round: a
    block at the closing time is too late.  A round in any other state, or whose
    block time is not known, takes no deposit. *)
Theorem getEffectiveVaultRoundStatus_open state blockTimestamp :
  rs_depositOpen (getEffectiveVaultRoundStatus state blockTimestamp) = true <->
  exists round timestamp, state = Some round /\ blockTimestamp = Some timestamp /\
    RoundState_of_number (rw_state round) = Lifecycle.OPEN /\ rw_opensAt round <= timestamp < rw_closesAt round.
Proof.
  assert (Hopen : forall n, RoundState_of_number n = Lifecycle.OPEN <-> n = 1).
  { intros n. split; [|by intros ->]. destruct n as [|p|p]; [done| |done].
    do 4 (destruct p as [p|p|]; try done). }
  unfold getEffectiveVaultRoundStatus. destruct state as [round|]; [|split; [done|by intros (?&?&?&_)]].
  destruct (Z.eqb_spec (rw_state round) 1) as [Es|Es]; cbn [negb].
  2: { split; [done|]. intros (? & ? & [= <-] & _ & E%Hopen & _). done. }
  destruct blockTimestamp as [timestamp|]; [|split; [done|by intros (?&?&_&?&_)]].
  destruct (Z.ltb_spec timestamp (rw_opensAt round)); [split; [done|intros (? & ? & [= <-] & [= <-] & _ & ?); lia]|].
  destruct (Z.leb_spec (rw_closesAt round) timestamp); [split; [done|intros (? & ? & [= <-] & [= <-] & _ & ?); lia]|].
  split; [|done]. intros _. exists round, timestamp. rewrite Hopen. done.
Qed.

(** The withdrawal may be prepared on an open round and on one that has ended. *)
Lemma canPrepareVaultWithdrawal_iff state blockTimestamp :
  canPrepareVaultWithdrawal state blockTimestamp = true <->
  exists round timestamp, state = Some round /\ blockTimestamp = Some timestamp /\ rw_state round = 1 /\
    rw_opensAt round <= timestamp.
Proof.
  unfold canPrepareVaultWithdrawal, getEffectiveVaultRoundStatus.
  destruct state as [round|]; [|split; [done|by intros (?&?&?&_)]].
  destruct (Z.eqb_spec (rw_state round) 1) as [Es|Es]; cbn [negb].
  2: { split; [done|]. by intros (? & ? & [= <-] & _ & E & _). }
  destruct blockTimestamp as [timestamp|]; [|split; [done|by intros (?&?&_&?&_)]].
  destruct (Z.ltb_spec timestamp (rw_opensAt round)); [split; [done|intros (? & ? & [= <-] & [= <-] & _ & ?); lia]|].
  destruct (Z.leb_spec (rw_closesAt round) timestamp); (split; [by exists round, timestamp|done]).
Qed.

(** The label of a settled round, and the round that is labelled settled. *)
Lemma round_state_labels_disagree :
  round_state_label (RoundState_number SETTLED) = "Finalizing private draw" /\
  round_state_label (RoundState_number ALLOCATION_PROCESSING) = "Settled" /\
  round_state_label (RoundState_number EMPTY) = "Draw ready" /\
  round_state_label (RoundState_number AGGREGATE_FINALIZED) = "No eligible savings".
Proof. done. Qed.

Section deployment.
Context `{Viem} {W : Type} `{PublicClient W}.

Definition configured_as (item : CheckedAddress) (address : string) : Prop :=
  ca_status item = configured /\ ca_address item = Some address.

Lemma requireConfigured_Ok item label address :
  requireConfiguredAddress item label = Ok address -> configured_as item address.
Proof.
  unfold requireConfiguredAddress, configured_as. destruct (ca_address item) as [a|]; [|done].
  case_bool_decide; [|done]. by intros [= ->].
Qed.

Definition has_code (answers : list ReadEvent) (address : string) : Prop :=
  exists text, code_answered address (Some text) ∈ answers /\ text <> "" /\ text <> "0x".

(** A contract answered the expected address, up to letter case. *)
Definition names (answers : list ReadEvent) (address : string) (read : ContractRead string) (expected : string) : Prop :=
  exists value, answered address read None value ∈ answers /\ toLowerCase value = toLowerCase expected.

(** A vault, its adapter and its escrow are wired to each other, to the private
    token and to USDC, by their own answers and by those of the registry. *)
Definition wired (config : LeopoldConfig) (registry lcUsdc : string) (vaultConfig : LeopoldVaultConfig)
    (answers : list ReadEvent) : Prop :=
  exists vault adapter escrow comet official,
    configured_as (lv_vault vaultConfig) vault /\ configured_as (lv_adapter vaultConfig) adapter /\
    configured_as (lv_bondEscrow vaultConfig) escrow /\ configured_as (lc_compoundComet config) comet /\
    answered registry (read_officialVault (lv_id vaultConfig)) None official ∈ answers /\
    ov_active official = true /\ ov_vaultType official = lv_id vaultConfig - 1 /\
    ov_roundDuration official = lv_roundDurationSeconds vaultConfig /\
    answered vault read_ROUND_DURATION None (lv_roundDurationSeconds vaultConfig) ∈ answers /\
    map toLowerCase [ov_vault official; ov_asset official; ov_strategy official; ov_comet official; ov_bondEscrow official] =
      map toLowerCase [vault; lcUsdc; adapter; comet; escrow] /\
    names answers vault read_ASSET lcUsdc /\ names answers vault read_UNDERLYING CANONICAL_USDC /\
    names answers vault read_STRATEGY adapter /\ names answers vault read_SETTLEMENT_BOND_ESCROW escrow /\
    names answers adapter read_vault vault /\ names answers adapter read_asset CANONICAL_USDC /\
    names answers adapter read_COMET comet.

Lemma read_wiring_rests vault adapter :
  rests (read_wiring (W := W) vault adapter) (fun wiring l =>
    answered vault read_ASSET None (vw_asset wiring) ∈ l /\ answered vault read_UNDERLYING None (vw_underlying wiring) ∈ l /\
    answered vault read_STRATEGY None (vw_strategy wiring) ∈ l /\
    answered vault read_SETTLEMENT_BOND_ESCROW None (vw_escrow wiring) ∈ l /\
    answered vault read_ROUND_DURATION None (vw_duration wiring) ∈ l /\
    answered adapter read_vault None (vw_adapterVault wiring) ∈ l /\
    answered adapter read_asset None (vw_adapterAsset wiring) ∈ l /\
    answered adapter read_COMET None (vw_comet wiring) ∈ l).
Proof.
  unfold read_wiring. eapply rests_bind.
  { repeat (apply rests_all2; [apply rests_ask|]). apply rests_ask. }
  cbv beta. intros (a & u & st & e & d & av & aa & c) l Hl. apply rests_ret. cbn in *.
  rewrite app_nil_r. decompose [ex and] Hl. subst. set_solver.
Qed.

Lemma validate_vault_rests config registry lcUsdc vaultConfig :
  rests (validate_vault (W := W) config registry lcUsdc CANONICAL_USDC vaultConfig)
    (fun _ l => wired config registry lcUsdc vaultConfig l).
Proof.
  unfold validate_vault.
  eapply rests_bind; [apply rests_of_result|]. intros vault l1 [Hv%requireConfigured_Ok ->].
  eapply rests_bind; [apply rests_of_result|]. intros adapter l2 [Ha%requireConfigured_Ok ->].
  eapply rests_bind; [apply rests_of_result|]. intros escrow l3 [He%requireConfigured_Ok ->].
  eapply rests_bind; [apply rests_ask|]. intros official l4 ->.
  eapply rests_bind; [apply read_wiring_rests|]. intros wiring l5 Hw.
  eapply rests_bind; [apply rests_of_result|]. intros comet l6 [Hc%requireConfigured_Ok ->].
  eapply rests_mono; [apply rests_throw_if|]. intros [] l7 [Hok ->]. cbn [app]. rewrite app_nil_r.
  unfold any_differs in Hok. rewrite !orb_false_iff, !negb_false_iff, !Z.eqb_eq, bool_decide_eq_true in Hok.
  destruct Hok as ((((H1 & H2) & H3) & H4) & H5). injection H5 as E1 E2 E3 E4 E5 E6 E7 E8 E9 E10 E11 E12.
  destruct Hw as (W1 & W2 & W3 & W4 & W5 & W6 & W7 & W8). rewrite H4 in W5.
  assert (Hin : forall e, e ∈ l5 -> e ∈ answered registry (read_officialVault (lv_id vaultConfig)) None official :: l5)
    by (intros; by right).
  exists vault, adapter, escrow, comet, official.
  split_and!; try done; [by left|by apply Hin|cbn; congruence|..]; (eexists; split; [apply Hin; eassumption|done]).
Qed.

Lemma all_vault_addresses_rests vaults :
  rests (all_vault_addresses (W := W) vaults) (fun addresses l => l = [] /\
    forall item address, (exists vault, vault ∈ vaults /\ item ∈ [lv_vault vault; lv_adapter vault; lv_bondEscrow vault]) ->
      configured_as item address -> address ∈ addresses).
Proof.
  induction vaults as [|vault vaults IH]; cbn [all_vault_addresses].
  { apply rests_ret. split; [done|]. intros item address (vault & Hv & _). by apply elem_of_nil in Hv. }
  eapply (rests_bind _ _ (fun addresses l => l = [] /\ forall item address,
    item ∈ [lv_vault vault; lv_adapter vault; lv_bondEscrow vault] -> configured_as item address -> address ∈ addresses)).
  { unfold vault_addresses.
    eapply rests_bind; [apply rests_of_result|]. intros v l1 [[_ Hv]%requireConfigured_Ok ->].
    eapply rests_bind; [apply rests_of_result|]. intros a l2 [[_ Ha]%requireConfigured_Ok ->].
    eapply rests_bind; [apply rests_of_result|]. intros e l3 [[_ He]%requireConfigured_Ok ->].
    apply rests_ret. split; [done|]. intros item address Hin [_ Hx].
    rewrite !elem_of_cons in Hin. destruct Hin as [->|[->|[->|[]%elem_of_nil]]];
      match goal with Ha : _ = Some ?x, Hb : _ = Some address |- _ => rewrite Ha in Hb; injection Hb as -> end; set_solver. }
  intros addresses l [-> Ha]. eapply rests_bind; [apply IH|]. intros others l [-> Ho]. apply rests_ret.
  split; [done|]. intros item address (v & Hv & Hin) Hx. apply elem_of_app.
  apply elem_of_cons in Hv as [->|Hv]; [left; eauto|right; eapply Ho; eauto].
Qed.
End deployment.

Section read_properties.
Context `{Viem} {W : Type} `{PublicClient W}.

(** The code of every address, when none is missing. *)
Lemma reading_codes_rests addresses :
  rests (codes ← reading_all (code_at (W := W)) addresses;
         throw_reading_if (existsb no_code codes) "CONFIGURATION_MISSING:contract bytecode")
    (fun _ l => forall address, address ∈ addresses -> has_code l address).
Proof.
  eapply rests_bind; [apply (rests_all _ (fun address code l => l = [code_answered address code])); intros; apply rests_ask|].
  intros codes l Hcodes. eapply rests_mono; [apply rests_throw_if|]. intros [] l' [Hcode ->] address Hin.
  rewrite app_nil_r. apply list_elem_of_lookup in Hin as (i & Hi).
  destruct (Forall2_lookup_l _ _ _ _ _ Hcodes Hi) as (code & Hc & ? & -> & Hsub).
  assert (Hno : no_code code = false).
  { apply not_true_is_false. intros Hno. apply not_true_iff_false in Hcode. apply Hcode, existsb_exists.
    exists code. split; [by eapply list_elem_of_In, list_elem_of_lookup_2|done]. }
  destruct code as [text|]; [|done]. apply orb_false_iff in Hno as [E1 E2%bool_decide_eq_false].
  exists text. split; [set_solver|]. split; [by intros ->|done].
Qed.

(** What a deployment is checked for. *)
Definition deployment_checked (config : LeopoldConfig) (answers : list ReadEvent) : Prop :=
  lc_ready config = true /\ chain_answered LEOPOLD_CHAIN_ID ∈ answers /\
  exists registry lcUsdc,
    configured_as (lc_registry config) registry /\ configured_as (lc_lcUsdc config) lcUsdc /\
    has_code answers registry /\ has_code answers lcUsdc /\
    (forall vault item address, vault ∈ lc_vaults config ->
       item ∈ [lv_vault vault; lv_adapter vault; lv_bondEscrow vault] -> configured_as item address ->
       has_code answers address) /\
    names answers lcUsdc read_underlying CANONICAL_USDC /\
    forall vault, vault ∈ lc_vaults config -> wired config registry lcUsdc vault answers.

(** What was answered stays answered. *)
Lemma has_code_mono l l' address : l ⊆ l' -> has_code l address -> has_code l' address.
Proof. intros Hs (text & ? & ?). exists text. split; [set_solver|done]. Qed.
Lemma names_mono l l' address read expected : l ⊆ l' -> names l address read expected -> names l' address read expected.
Proof. intros Hs (value & ? & ?). exists value. split; [set_solver|done]. Qed.
Lemma wired_mono config registry lcUsdc vault l l' :
  l ⊆ l' -> wired config registry lcUsdc vault l -> wired config registry lcUsdc vault l'.
Proof.
  intros Hs (v & a & e & c & o & Hw). exists v, a, e, c, o. decompose [and] Hw.
  split_and!; try done; eauto using names_mono; set_solver.
Qed.

Lemma validateConfiguredDeploymentOnce_rests config :
  rests (validateConfiguredDeploymentOnce (W := W) config) (fun _ l => deployment_checked config l).
Proof.
  unfold validateConfiguredDeploymentOnce.
  eapply rests_bind; [apply rests_throw_if|]. intros [] l1 [Hready%negb_false_iff ->].
  eapply rests_bind; [apply rests_ask|]. intros chainId l2 ->.
  eapply rests_bind; [apply rests_throw_if|]. intros [] l3 [Hchain%negb_false_iff%Z.eqb_eq ->]. subst chainId.
  eapply rests_bind; [apply rests_of_result|]. intros registry l4 [Hr%requireConfigured_Ok ->].
  eapply rests_bind; [apply rests_of_result|]. intros lcUsdc l5 [Hl%requireConfigured_Ok ->].
  eapply rests_bind; [apply all_vault_addresses_rests|]. intros vaults l6 [-> Hvaults].
  apply rests_assoc. eapply rests_bind; [apply reading_codes_rests|]. intros [] l7 Hcodes.
  eapply rests_bind; [apply rests_ask|]. intros value l9 ->.
  eapply rests_bind; [apply rests_throw_if|]. intros [] l10 [Hund%negb_false_iff%bool_decide_eq_true ->].
  eapply rests_mono; [apply rests_each; intros; apply validate_vault_rests|]. intros [] l11 Hwired.
  cbn [app]. set (answers := chain_answered LEOPOLD_CHAIN_ID :: _).
  assert (Hs7 : l7 ⊆ answers) by (unfold answers; set_solver).
  assert (Hs11 : l11 ⊆ answers) by (unfold answers; set_solver).
  split; [done|]. split; [unfold answers; set_solver|]. exists registry, lcUsdc. split_and!; try done.
  - eapply has_code_mono, Hcodes; [done|set_solver].
  - eapply has_code_mono, Hcodes; [done|set_solver].
  - intros vault item address Hv Hi Ha. eapply has_code_mono, Hcodes; [done|].
    do 2 right. eapply Hvaults; [by exists vault|exact Ha].
  - exists value. split; [unfold answers; set_solver|done].
  - intros vault Hv. rewrite Forall_forall in Hwired. destruct (Hwired vault Hv) as (l & Hw & Hl11).
    eapply wired_mono, Hw. set_solver.
Qed.

(** A deployment passes the check only if it is wired as configured.  When the
    check returns, its last attempt read all of this, and nothing was assumed: the
    chain is Sepolia; the registry, the private token and every vault, adapter and
    escrow have code; the private token wraps USDC; and for every vault the
    registry lists it as active with its type, duration, token, strategy, market
    and escrow, and the vault and its adapter name each other, the token, USDC,
    the escrow and the market. *)
Theorem validateConfiguredDeployment_sound config s s' :
  validateConfiguredDeployment (W := W) config s = (inl tt, s') ->
  exists before answers, (rs_world s').2 = before ++ answers /\ deployment_checked config answers.
Proof.
  apply (reliable_success _ _ (fun _ answers => deployment_checked config answers)).
  apply validateConfiguredDeploymentOnce_rests.
Qed.

(** The reads that a vault's public state is made of, all of one block. *)
Definition state_read (vaultConfig : LeopoldVaultConfig) (account : string) (block : option Z) (state : VaultPublicState)
    (answers : list ReadEvent) : Prop :=
  exists vault escrow round,
    configured_as (lv_vault vaultConfig) vault /\ configured_as (lv_bondEscrow vaultConfig) escrow /\
    let roundId := vp_roundId state in
    answers =
      [answered vault read_activeRoundId block roundId; answered vault (read_roundInfo roundId) block round;
       answered escrow (read_isRegistered roundId account) block (vp_entered state);
       answered vault (read_eligibilityStart roundId account) block (vp_eligibilityStart state);
       answered escrow read_BOND_AMOUNT block (vp_bondAmount state);
       answered escrow read_REFUND_PER_COMPLETED_PARTICIPANT block (vp_refundAmount state);
       answered escrow (read_refundClaimed roundId account) block (vp_refundClaimed state);
       answered escrow (read_settlementRewardCredit account) block (vp_settlementReward state)] /\
    vp_opensAt state = ri_opensAt round /\ vp_closesAt state = ri_closesAt round /\ vp_state state = ri_state round /\
    vp_publicPrize state = ri_publicPrize round /\ vp_participantCount state = ri_participantCount round /\
    vp_selectionCursor state = ri_selectionCursor round /\ vp_allocationCursor state = ri_allocationCursor round /\
    vp_stateLabel state = round_state_label (vp_state state).

(** The public state shown for a vault is that of its active round: every field
    is the answer of the configured vault or escrow, asked for the round that the
    vault called active in the same attempt and for the account given, and every
    one of the eight reads is at the block asked for. *)
Theorem readVaultPublicState_sound vaultConfig account block s state s' :
  readVaultPublicState (W := W) vaultConfig account block s = (inl state, s') ->
  exists before answers, (rs_world s').2 = before ++ answers /\ state_read vaultConfig account block state answers.
Proof.
  apply (reliable_success _ _ (state_read vaultConfig account block)). unfold readVaultPublicStateOnce.
  eapply rests_bind; [apply rests_of_result|]. intros vault l1 [Hv%requireConfigured_Ok ->].
  eapply rests_bind; [apply rests_of_result|]. intros escrow l2 [He%requireConfigured_Ok ->].
  eapply rests_bind; [apply rests_ask|]. intros roundId l3 ->.
  eapply rests_bind.
  { repeat (apply rests_all2; [apply rests_ask|]). apply rests_ask. }
  cbv beta. intros (round & en & es & b & r & rc & sr) l Hl. apply rests_ret. cbn in *. rewrite app_nil_r.
  decompose [ex and] Hl. subst. by exists vault, escrow, round.
Qed.
End read_properties.

(** ** A small deployment *)
Section examples.
#[local] Existing Instance hex_viem.

Definition daily_vault : string := "0x00000000000000000000000000000000000000A1".
Definition daily_adapter : string := "0x00000000000000000000000000000000000000a2".
Definition daily_escrow : string := "0x00000000000000000000000000000000000000a3".
Definition private_usdc : string := "0x00000000000000000000000000000000000000b1".
Definition vault_registry : string := "0x00000000000000000000000000000000000000b2".
Definition compound_comet : string := "0x00000000000000000000000000000000000000b3".

Definition daily_manifest : RawLeopoldManifest := {|
  rm_networkName := "sepolia"; rm_chainId := 11155111; rm_deploymentStatus := "TEST";
  rm_canonicalCircleUsdc := Some "0x1c7D4B196Cb0C7B01d743Fbc6116a902379C7238"; rm_lcUsdc := Some private_usdc;
  rm_registry := Some vault_registry; rm_compoundComet := Some compound_comet;
  rm_officialVaults := [{| rv_id := 1; rv_type := DAILY; rv_name := "Daily"; rv_roundDurationSeconds := 86400;
                           rv_vault := Some daily_vault; rv_adapter := Some daily_adapter;
                           rv_bondEscrow := Some daily_escrow |}]
|}.

(** The answers of a chain on which that deployment is live; the first read of
    each run fails, so that it is retried. *)
Definition daily_answer {A} (read : ContractRead A) : A :=
  match read in ContractRead A return A with
  | read_balanceOf _ => 25
  | read_underlying => "0x1c7d4b196cb0c7b01d743fbc6116a902379c7238"
  | read_officialVault _ =>
      {| ov_vault := daily_vault; ov_asset := private_usdc; ov_strategy := daily_adapter; ov_comet := compound_comet;
         ov_bondEscrow := daily_escrow; ov_vaultType := 0; ov_roundDuration := 86400; ov_active := true |}
  | read_ASSET => private_usdc
  | read_UNDERLYING | read_asset => "0x1c7D4B196Cb0C7B01d743Fbc6116a902379C7238"
  | read_STRATEGY => daily_adapter
  | read_SETTLEMENT_BOND_ESCROW => daily_escrow
  | read_ROUND_DURATION => 86400
  | read_vault => daily_vault
  | read_COMET => compound_comet
  | read_activeRoundId => 3
  | read_roundInfo _ =>
      {| ri_opensAt := 100; ri_closesAt := 200; ri_state := 1; ri_publicPrize := 7; ri_participantCount := 2;
         ri_selectionCursor := 0; ri_allocationCursor := 0 |}
  | read_isRegistered _ _ => true
  | read_eligibilityStart _ _ => 120
  | read_BOND_AMOUNT => 5
  | read_REFUND_PER_COMPLETED_PARTICIPANT => 4
  | read_refundClaimed _ _ => false
  | read_settlementRewardCredit _ => 0
  | read_principalOf _ | read_winningsOf _ => "0xhandle"
  end.

#[local] Instance daily_chain : PublicClient nat := {
  pc_runtime := {| Date_now w := (0, w); read_timed_out _ _ := false; backoff_sleep _ w := w |};
  getChainId w := (inl 11155111, w);
  getCode _ w := (inl (Some "0x60"), w);
  readContract A _ read _ w :=
    match w with O => (inr (OtherError "Error" "socket closed"), 1%nat) | S _ => (inl (daily_answer read), w) end;
  getBlock w := (inl (1, 150), w)
}.
Definition daily_start {A} : ReadState (nat * list ReadEvent) A := ReadStateOf (0%nat, []) [] [].

Example validateConfiguredDeployment_sound_witness :
  let config := loadLeopoldConfig daily_manifest in
  let run := validateConfiguredDeployment config daily_start in
  run.1 = inl tt /\ length (rs_outcomes run.2) = 2%nat /\
  exists before answers, (rs_world run.2).2 = before ++ answers /\ deployment_checked config answers.
Proof.
  intros config run. split; [vm_compute; reflexivity|]. split; [vm_compute; reflexivity|].
  assert (E : validateConfiguredDeployment config daily_start = (inl tt, run.2)) by (vm_compute; reflexivity).
  exact (validateConfiguredDeployment_sound (H := hex_viem) (H0 := daily_chain) config daily_start run.2 E).
Defined.

Example readVaultPublicState_sound_witness :
  let vaultConfig := load_vault 11155111 {| rv_id := 1; rv_type := DAILY; rv_name := "Daily"; rv_roundDurationSeconds := 86400;
    rv_vault := Some daily_vault; rv_adapter := Some daily_adapter; rv_bondEscrow := Some daily_escrow |} in
  let state := {| vp_roundId := 3; vp_opensAt := 100; vp_closesAt := 200; vp_state := 1; vp_stateLabel := "Open";
    vp_publicPrize := 7; vp_participantCount := 2; vp_selectionCursor := 0; vp_allocationCursor := 0; vp_entered := true;
    vp_eligibilityStart := 120; vp_bondAmount := 5; vp_refundAmount := 4; vp_refundClaimed := false;
    vp_settlementReward := 0 |} in
  let run := readVaultPublicState vaultConfig "0xaa" (Some 42) daily_start in
  run.1 = inl state /\
  exists before answers, (rs_world run.2).2 = before ++ answers /\ state_read vaultConfig "0xaa" (Some 42) state answers.
Proof.
  intros vaultConfig state run. split; [vm_compute; reflexivity|].
  assert (E : readVaultPublicState vaultConfig "0xaa" (Some 42) daily_start = (inl state, run.2)) by (vm_compute; reflexivity).
  exact (readVaultPublicState_sound (H0 := daily_chain) vaultConfig "0xaa" (Some 42) daily_start state run.2 E).
Defined.
End examples.
