(* ===== verification/Health.v ===== *)
(** * The public health of a deployment: frontend/lib/ops/health.ts

    Four checks over public endpoints (a node of the chain, the key metadata of
    the relayer, the settings of the authentication service, the deployed
    contracts), each with bounded retries and its failures caught, and their
    combination.  Network answers, the parsing of URLs and the codec of viem are
    the class [HealthEnv]; the checks run one after the other in the order they
    are started. *)
From Stdlib Require Import ZArith Lia Ascii.
From stdpp Require Import base option list sets strings.
From S2P Require Import Prelude WalletAddress Reliability NetworkHealth FrontendConfig Reading Reads.
Local Open Scope Z_scope.

Definition ZAMA_RELAYER_KEY_METADATA_URL : string := "https://relayer.testnet.zama.org/v2/keyurl".
Definition DYNAMIC_DEFAULT_API_BASE_URL : string := "https://app.dynamicauth.com/api/v0".
Definition HEALTH_BLOCK_FRESHNESS_SECONDS : Z := 180.
Definition LEOPOLD_SEPOLIA_RPC_URLS : list string :=
  ["https://ethereum-sepolia-rpc.publicnode.com"; "https://1rpc.io/sepolia"].

Inductive HealthState : Type := HEALTHY | DEGRADED | UNAVAILABLE | UNKNOWN.
#[export] Instance HealthState_eq_dec : EqDecision HealthState.
Proof. solve_decision. Defined.

Record HealthCheck := {
  hc_state : HealthState; hc_durationMs : Z; hc_message : string; hc_failureCategory : option MetricFailureCategory
}.
Record NetworkCheck := {
  nc_check : HealthCheck; nc_latestBlock : option string; nc_latestBlockTimestamp : option string;
  nc_blockAgeSeconds : option Z
}.
Inductive DynamicSignal : Type := PUBLIC_ENVIRONMENT_SETTINGS | CONFIGURATION_ONLY.
Record DynamicCheck := { dc_check : HealthCheck; dc_signal : DynamicSignal }.
Record VaultCode := { vc_name : string; vc_address : option string; vc_hasCode : bool }.
Record DeploymentCheck := {
  dp_check : HealthCheck; dp_registry : option string; dp_lcUsdc : option string; dp_vaults : list VaultCode
}.
Inductive ServiceCondition : Type := OPERATIONAL | service_DEGRADED | service_UNAVAILABLE | service_UNKNOWN.

(** The frozen release (release.ts reads it from the evidence of the release). *)
Record ProductionRelease := {
  pr_registry : string; pr_lcUsdc : string; pr_vaults : list (string * string);
  pr_manifestSha256 : string; pr_p01Status : string; pr_unresolvedCritical : Z; pr_unresolvedHigh : Z;
  pr_unresolvedMedium : Z; pr_runtimeBytes : Z; pr_eip170Headroom : Z
}.

Record PublicHealth := {
  ph_state : HealthState; ph_checkedAt : Z; ph_serviceCondition : ServiceCondition;
  ph_network : NetworkCheck; ph_zama : HealthCheck; ph_dynamic : DynamicCheck; ph_deployment : DeploymentCheck;
  ph_release : ProductionRelease
}.

Record HealthOptions := {
  ho_dynamicConfigured : bool; ho_dynamicEnvironment : string; ho_dynamicApiBase : string;
  ho_timeoutMs : option Z; ho_maxAttempts : option js_number
}.

(** ** Network answers *)
Inductive json : Type :=
| JNull | JBool (b : bool) | JNumber | JString (s : string) | JArray (items : list json)
| JObject (fields : list (string * json)).

(** A property of a parsed document; arrays have none of those asked for. *)
Definition json_get (field : string) (document : json) : option json :=
  match document with JObject fields => map_get field fields | _ => None end.
Definition is_record (value : json) : bool :=
  match value with JArray _ | JObject _ => true | _ => false end.
Definition record_field (field : string) (document : json) : option json :=
  value ← json_get field document; if is_record value then Some value else None.

Record HttpResponse := { hr_status : Z; hr_body : json + ReadFailure }.
(** [response.ok] *)
Definition hr_ok (response : HttpResponse) : bool := (200 <=? hr_status response) && (hr_status response <=? 299).

Inductive RpcCall : Type :=
| eth_chainId
| eth_getBlockByNumber_latest
| eth_getCode (address : string)
| eth_call_officialVault (registry : string) (id : Z).
Definition rpc_method (call : RpcCall) : string :=
  match call with
  | eth_chainId => "eth_chainId" | eth_getBlockByNumber_latest => "eth_getBlockByNumber"
  | eth_getCode _ => "eth_getCode" | eth_call_officialVault _ _ => "eth_call"
  end.

(** [signal_aborted] is the reason of the caller's signal once it has aborted;
    [post_rpc url call timeout] posts a request under a timer of its own. *)
Class HealthEnv (W : Type) := {
  he_runtime :: ReadRuntime W;
  he_now : W -> Z * W;
  signal_aborted : W -> option ReadFailure;
  post_rpc : string -> RpcCall -> Z -> W -> (HttpResponse + ReadFailure) * W;
  get_url : string -> W -> (HttpResponse + ReadFailure) * W;
  decodeOfficialVault : json -> OfficialVault + ReadFailure;
  parse_url : string -> option (string * string);
  resolve_url : string -> string -> string;
  encodeURIComponent : string -> string
}.

Inductive HealthEvent : Type :=
| rpc_answered (url : string) (call : RpcCall) (result : json)
| url_answered (url : string) (body : option json).

(** [BigInt(text)]: an optional sign and decimal digits, or a prefix and digits
    of its base; a blank text is 0. *)
Definition digit_below (base : Z) (c : ascii) : bool := is_hex_digit c && (hex_digit_value c <? base).
Definition based_value (base : Z) (s : string) : option Z :=
  if string_nonempty s && string_forall (digit_below base) s
  then Some (foldl (fun acc c => acc * base + hex_digit_value c) 0 (String.list_ascii_of_string s)) else None.
Definition BigInt_text (text : string) : option Z :=
  match trim text with
  | EmptyString => Some 0
  | String "0" (String "x" body) | String "0" (String "X" body) => based_value 16 body
  | String "0" (String "o" body) | String "0" (String "O" body) => based_value 8 body
  | String "0" (String "b" body) | String "0" (String "B" body) => based_value 2 body
  | String "-" body => Z.opp <$> based_value 10 body
  | String "+" body => based_value 10 body
  | body => based_value 10 body
  end.

Section Health.
Context {W : Type} `{HealthEnv W} (leopoldConfig : LeopoldConfig) (productionRelease : ProductionRelease).
Local Notation reading := (reading W HealthEvent).

(** The [try] block of one endpoint. *)
Definition rpc_at (url : string) (call : RpcCall) (endpointTimeoutMs : Z) : reading json := fun s =>
  let '(r, w) := post_rpc url call endpointTimeoutMs s.1 in
  match r with
  | inr error => (inr error, (w, s.2))
  | inl response =>
      if negb (hr_ok response) then (inr (HttpReadError (hr_status response)), (w, s.2))
      else match hr_body response with
           | inr error => (inr error, (w, s.2))
           | inl payload =>
               match json_get "error" payload, json_get "result" payload with
               | None, Some result =>
                   if is_record payload then (inl result, (w, s.2 ++ [rpc_answered url call result]))
                   else (inr (OtherError "Error" ("INVALID_RPC_RESPONSE:" +:+ rpc_method call)), (w, s.2))
               | _, _ => (inr (OtherError "Error" ("INVALID_RPC_RESPONSE:" +:+ rpc_method call)), (w, s.2))
               end
           end
  end.

Fixpoint rpc_endpoints (urls : list string) (call : RpcCall) (endpointTimeoutMs : Z) (lastError : ReadFailure)
    : reading json := fun s =>
  match urls with
  | [] => (inr lastError, s)
  | url :: urls' =>
      match signal_aborted s.1 with
      | Some reason => (inr reason, s)
      | None =>
          match rpc_at url call endpointTimeoutMs s with
          | (inl result, s') => (inl result, s')
          | (inr error, s') =>
              match signal_aborted s'.1 with
              | Some _ => (inr error, s')
              | None => rpc_endpoints urls' call endpointTimeoutMs error s'
              end
          end
      end
  end.

Definition rpcCall (call : RpcCall) (timeoutMs : option Z) : reading json :=
  rpc_endpoints LEOPOLD_SEPOLIA_RPC_URLS call
    (Z.max 1 (default DEFAULT_READ_TIMEOUT_MS timeoutMs / Z.of_nat (length LEOPOLD_SEPOLIA_RPC_URLS)))
    (OtherError "Error" ("APP_RPC_UNAVAILABLE:" +:+ rpc_method call)).

(** A [GET] that must be answered with success; its body is read when [parse]. *)
Definition fetch_url (url : string) (parse : bool) : reading (option json) := fun s =>
  let '(r, w) := get_url url s.1 in
  match r with
  | inr error => (inr error, (w, s.2))
  | inl response =>
      if negb (hr_ok response) then (inr (HttpReadError (hr_status response)), (w, s.2))
      else if parse
      then match hr_body response with
           | inr error => (inr error, (w, s.2))
           | inl payload => (inl (Some payload), (w, s.2 ++ [url_answered url (Some payload)]))
           end
      else (inl None, (w, s.2 ++ [url_answered url None]))
  end.

(** ** The checks *)
Definition checkFailure (error : ReadFailure) (durationMs : Z) (fallback : string) : HealthCheck :=
  let failureCategory := classifyReadFailure error in
  {| hc_state := if bool_decide (failureCategory = C_CONFIGURATION) || bool_decide (failureCategory = C_INVALID_RESPONSE)
                 then DEGRADED else UNAVAILABLE;
     hc_durationMs := durationMs; hc_message := fallback;
     hc_failureCategory := Some (if bool_decide (failureCategory = C_NONE) then C_UNKNOWN else failureCategory) |}.
Definition check_ok (state : HealthState) (durationMs : Z) (message : string) : HealthCheck :=
  {| hc_state := state; hc_durationMs := durationMs; hc_message := message; hc_failureCategory := None |}.

(** The environment, the metrics and the answers so far. *)
Record HealthRun := HealthRunOf { hn_world : W; hn_metrics : MetricsState; hn_answers : list HealthEvent }.

Definition now_ms (s : HealthRun) : Z * HealthRun :=
  let '(t, w) := he_now (hn_world s) in (t, HealthRunOf w (hn_metrics s) (hn_answers s)).
(** [reliable(operation, read, options.retry)] *)
Definition reliable {A} (operation : MetricOperation) (options : HealthOptions) (read : reading A) (s : HealthRun)
    : (A + ReadFailure) * HealthRun :=
  let '(r, rs) := reliable_with
    {| ro_operation := operation; ro_timeoutMs := ho_timeoutMs options; ro_maxAttempts := ho_maxAttempts options;
       ro_shouldRetry := None |}
    read (ReadStateOf (hn_world s, hn_answers s) (hn_metrics s) []) in
  (r, HealthRunOf (rs_world rs).1 (rs_metrics rs) (rs_world rs).2).

Definition invalid_response (what : string) {A} : reading A := throw_reading ("INVALID_RPC_RESPONSE:" +:+ what).

(** The text of a block's field, as a number. *)
Definition block_number (field : string) (block : json) : reading Z :=
  match json_get field block with
  | Some (JString text) =>
      match BigInt_text text with
      | Some z => mret z
      | None => fun s => (inr (OtherError "SyntaxError" ("Cannot convert " +:+ text +:+ " to a BigInt")), s)
      end
  | _ => invalid_response "latest-block"
  end.

Definition is_text (value : option json) : bool := match value with Some (JString _) => true | _ => false end.

Definition read_head (timeoutMs : option Z) : reading (Z * Z) :=
  '(chainHex, block) ← reading_all2 (rpcCall eth_chainId timeoutMs) (rpcCall eth_getBlockByNumber_latest timeoutMs);
  throw_reading_if
    (negb (match chainHex with JString text => matches_0x text && (Number_of_quantity text =? LEOPOLD_CHAIN_ID) | _ => false end))
    "WRONG_CHAIN_ID:rpc" ;;
  throw_reading_if (negb (is_record block) || negb (is_text (json_get "number" block)) || negb (is_text (json_get "timestamp" block)))
    "INVALID_RPC_RESPONSE:latest-block" ;;
  number ← block_number "number" block;
  timestamp ← block_number "timestamp" block;
  mret (number, timestamp).

Definition checkRpc (options : HealthOptions) (s : HealthRun) : NetworkCheck * HealthRun :=
  let '(startedAt, s0) := now_ms s in
  let '(result, s1) := reliable RPC_HEALTH options (read_head (ho_timeoutMs options)) s0 in
  match result with
  | inl (number, timestamp) =>
      let '(now, s2) := now_ms s1 in
      let age := Z.max 0 (now / 1000 - timestamp) in
      let '(ended, s3) := now_ms s2 in
      let stale := HEALTH_BLOCK_FRESHNESS_SECONDS <? age in
      ({| nc_check := check_ok (if stale then DEGRADED else HEALTHY) (ended - startedAt)
                        (if stale then "The latest Sepolia block is stale." else "Sepolia RPC is responding.");
          nc_latestBlock := Some (Z_toString number); nc_latestBlockTimestamp := Some (Z_toString timestamp);
          nc_blockAgeSeconds := Some age |}, s3)
  | inr error =>
      let '(ended, s2) := now_ms s1 in
      ({| nc_check := checkFailure error (ended - startedAt) "Sepolia RPC is temporarily unavailable.";
          nc_latestBlock := None; nc_latestBlockTimestamp := None; nc_blockAgeSeconds := None |}, s2)
  end.

(** [configuredAddressesMatchFrozenRelease()]: it throws on an address that is not
    configured; an index beyond the frozen vaults is no match. *)
Fixpoint vaults_match (vaults : list LeopoldVaultConfig) (frozen : list (string * string)) : reading bool :=
  match vaults with
  | [] => mret true
  | vault :: vaults' =>
      match frozen with
      | (name, address) :: frozen' =>
          if bool_decide (name = lv_name vault)
          then configuredVault ← of_result (requireConfiguredAddress (lv_vault vault) (lv_name vault +:+ " vault"));
               if bool_decide (toLowerCase configuredVault = toLowerCase address) then vaults_match vaults' frozen'
               else mret false
          else mret false
      | [] => mret false
      end
  end.
Definition configuredAddressesMatchFrozenRelease : reading bool :=
  registry ← of_result (requireConfiguredAddress (lc_registry leopoldConfig) "Registry");
  lcUsdc ← of_result (requireConfiguredAddress (lc_lcUsdc leopoldConfig) "Private USDC");
  if negb (bool_decide (toLowerCase registry = toLowerCase (pr_registry productionRelease)))
     || negb (bool_decide (toLowerCase lcUsdc = toLowerCase (pr_lcUsdc productionRelease)))
  then mret false
  else vaults_match (lc_vaults leopoldConfig) (pr_vaults productionRelease).

Definition of_sum {A} (r : A + ReadFailure) : reading A := fun s => (r, s).

Definition read_official (registry : string) (timeoutMs : option Z) (vault : LeopoldVaultConfig) : reading OfficialVault :=
  result ← rpcCall (eth_call_officialVault registry (lv_id vault)) timeoutMs;
  of_sum (decodeOfficialVault result).
Definition read_code (timeoutMs : option Z) (address : option string) : reading json :=
  rpcCall (eth_getCode (default "null" address)) timeoutMs.

(** Whether the registry's entry is that of the configured vault. *)
Definition is_member (pair : OfficialVault * LeopoldVaultConfig) : bool :=
  ov_active pair.1 &&
  match ca_address (lv_vault pair.2) with
  | Some expected => string_nonempty expected && bool_decide (toLowerCase (ov_vault pair.1) = toLowerCase expected)
  | None => false
  end.
Definition is_0x (code : json) : bool := match code with JString text => bool_decide (text = "0x") | _ => false end.

Definition read_deployment (registry lcUsdc : string) (timeoutMs : option Z) : reading unit :=
  '(codes, officialVaults) ←
    reading_all2
      (reading_all (read_code timeoutMs)
         (Some registry :: Some lcUsdc :: map (fun vault => ca_address (lv_vault vault)) (lc_vaults leopoldConfig)))
      (reading_all (read_official registry timeoutMs) (lc_vaults leopoldConfig));
  throw_reading_if (existsb is_0x codes) "CONFIGURATION_MISMATCH:missing-contract-code" ;;
  throw_reading_if (negb (forallb is_member (combine officialVaults (lc_vaults leopoldConfig))))
    "CONFIGURATION_MISMATCH:registry-membership".

Definition vault_codes (hasCode : bool) : list VaultCode :=
  map (fun vault => {| vc_name := lv_name vault; vc_address := ca_address (lv_vault vault); vc_hasCode := hasCode |})
    (lc_vaults leopoldConfig).

(** The body of the [try] of [checkDeployment]: the configuration is compared once,
    only the reads are retried. *)
Definition deployment_reads (options : HealthOptions) (s : HealthRun) : (unit + ReadFailure) * HealthRun :=
  let mismatch := OtherError "Error" "CONFIGURATION_MISMATCH:frozen-production-release" in
  if negb (lc_ready leopoldConfig) then (inr mismatch, s)
  else
    match configuredAddressesMatchFrozenRelease (hn_world s, hn_answers s) with
    | (inr error, _) => (inr error, s)
    | (inl false, _) => (inr mismatch, s)
    | (inl true, _) =>
        match ca_address (lc_registry leopoldConfig), ca_address (lc_lcUsdc leopoldConfig) with
        | Some registry, Some lcUsdc =>
            if string_nonempty registry && string_nonempty lcUsdc
            then reliable DEPLOYMENT_HEALTH options (read_deployment registry lcUsdc (ho_timeoutMs options)) s
            else (inr mismatch, s)
        | _, _ => (inr mismatch, s)
        end
    end.

Definition checkDeployment (options : HealthOptions) (s : HealthRun) : DeploymentCheck * HealthRun :=
  let '(startedAt, s0) := now_ms s in
  let '(result, s1) := deployment_reads options s0 in
  let '(ended, s2) := now_ms s1 in
  ({| dp_check := match result with
                  | inl _ => check_ok HEALTHY (ended - startedAt)
                               "The frozen registry, private asset, and four official vaults are available."
                  | inr error => checkFailure error (ended - startedAt)
                                   "Production deployment checks are temporarily unavailable."
                  end;
      dp_registry := ca_address (lc_registry leopoldConfig); dp_lcUsdc := ca_address (lc_lcUsdc leopoldConfig);
      dp_vaults := vault_codes (match result with inl _ => true | inr _ => false end) |}, s2).

Definition read_zama : reading unit :=
  payload ← fetch_url ZAMA_RELAYER_KEY_METADATA_URL true;
  let metadata := payload ≫= record_field "response" in
  throw_reading_if
    (negb (match metadata with
           | Some metadata =>
               match json_get "fheKeyInfo" metadata with Some (JArray _) => true | _ => false end &&
               match record_field "crs" metadata with Some _ => true | None => false end
           | None => false
           end)) "INVALID_ZAMA_READINESS_RESPONSE".

Definition checkZama (options : HealthOptions) (s : HealthRun) : HealthCheck * HealthRun :=
  let '(startedAt, s0) := now_ms s in
  let '(result, s1) := reliable ZAMA_HEALTH options read_zama s0 in
  let '(ended, s2) := now_ms s1 in
  (match result with
   | inl _ => check_ok HEALTHY (ended - startedAt) "Zama public encryption-key metadata is available."
   | inr error => checkFailure error (ended - startedAt) "Private operations are temporarily unavailable."
   end, s2).

(** [path.replace(/\/$/u, "")] *)
Fixpoint without_last_slash (path : string) : string :=
  match path with
  | EmptyString => EmptyString
  | String c EmptyString => if Ascii.eqb c "/" then EmptyString else path
  | String c path' => String c (without_last_slash path')
  end.

(** The address of the settings, over https only. *)
Definition settings_url (options : HealthOptions) : string + ReadFailure :=
  let base := if string_nonempty (ho_dynamicApiBase options) then ho_dynamicApiBase options else DYNAMIC_DEFAULT_API_BASE_URL in
  match parse_url base with
  | None => inr (OtherError "TypeError" "Invalid URL")
  | Some (protocol, pathname) =>
      if negb (bool_decide (protocol = "https:")) then inr (OtherError "Error" "CONFIGURATION_MISMATCH:dynamic-api-origin")
      else inl (resolve_url (without_last_slash pathname +:+ "/sdk/" +:+ encodeURIComponent (ho_dynamicEnvironment options)
                               +:+ "/settings") base)
  end.

Definition checkDynamic (options : HealthOptions) (s : HealthRun) : DynamicCheck * HealthRun :=
  let '(startedAt, s0) := now_ms s in
  if negb (ho_dynamicConfigured options) || negb (string_nonempty (ho_dynamicEnvironment options)) then
    let '(ended, s1) := now_ms s0 in
    ({| dc_check := check_ok UNKNOWN (ended - startedAt) "Dynamic is not configured in this runtime.";
        dc_signal := CONFIGURATION_ONLY |}, s1)
  else
    let '(result, s1) := match settings_url options with
                         | inr error => (inr error, s0)
                         | inl url => reliable DYNAMIC_HEALTH options (fetch_url url false) s0
                         end in
    let '(ended, s2) := now_ms s1 in
    ({| dc_check := match result with
                    | inl _ => check_ok HEALTHY (ended - startedAt) "Dynamic public environment settings are available."
                    | inr error => checkFailure error (ended - startedAt)
                                     "Authentication configuration is temporarily unavailable."
                    end;
        dc_signal := PUBLIC_ENVIRONMENT_SETTINGS |}, s2).

Definition combineHealthStates (states : list HealthState) : HealthState :=
  if forallb (fun state => bool_decide (state = UNKNOWN)) states then UNKNOWN
  else if bool_decide (head states = Some UNAVAILABLE) then UNAVAILABLE
  else if existsb (fun state => negb (bool_decide (state = HEALTHY))) states then DEGRADED
  else HEALTHY.

Definition serviceCondition (state : HealthState) : ServiceCondition :=
  match state with
  | HEALTHY => OPERATIONAL | DEGRADED => service_DEGRADED | UNAVAILABLE => service_UNAVAILABLE | UNKNOWN => service_UNKNOWN
  end.

(** [checkedAt] is the time of [new Date(now()).toISOString()]. *)
Definition getPublicHealth (options : HealthOptions) (s : HealthRun) : PublicHealth * HealthRun :=
  let '(startedAt, s0) := now_ms s in
  let '(network, s1) := checkRpc options s0 in
  let '(zama, s2) := checkZama options s1 in
  let '(dynamic, s3) := checkDynamic options s2 in
  let '(deployment, s4) := checkDeployment options s3 in
  let state := combineHealthStates [hc_state (nc_check network); hc_state zama; hc_state (dc_check dynamic);
                                    hc_state (dp_check deployment)] in
  let '(ended, s5) := now_ms s4 in
  let metrics := recordMetric HEALTH_CHECK SUCCESS (Some (ended - startedAt)) C_NONE (hn_metrics s5) in
  let '(checkedAt, s6) := now_ms (HealthRunOf (hn_world s5) metrics (hn_answers s5)) in
  ({| ph_state := state; ph_checkedAt := checkedAt; ph_serviceCondition := serviceCondition state;
      ph_network := network; ph_zama := zama; ph_dynamic := dynamic; ph_deployment := deployment;
      ph_release := productionRelease |}, s6).
End Health.

(** * Properties *)
Section health_properties.
Context {W : Type} `{HealthEnv W} (leopoldConfig : LeopoldConfig) (productionRelease : ProductionRelease).
Implicit Types (answers new : list HealthEvent).

(** ** What the reads rest on *)
(** Only an answer that is returned is recorded. *)
Lemma rpc_at_answers url call timeout s r s' :
  rpc_at (W := W) url call timeout s = (r, s') ->
  s'.2 = s.2 ++ match r with inl result => [rpc_answered url call result] | inr _ => [] end.
Proof.
  unfold rpc_at. destruct (post_rpc url call timeout s.1) as [[response|e] w]; [|intros [= <- <-]; by rewrite app_nil_r].
  destruct (hr_ok response); [|intros [= <- <-]; by rewrite app_nil_r].
  destruct (hr_body response) as [payload|e]; [|intros [= <- <-]; by rewrite app_nil_r].
  destruct (json_get "error" payload) as [x|], (json_get "result" payload) as [result|];
    try destruct (is_record payload); intros [= <- <-]; by rewrite ?app_nil_r.
Qed.

Lemma rpcCall_rests call timeoutMs :
  rests (rpcCall (W := W) call timeoutMs)
    (fun result new => exists url, url ∈ LEOPOLD_SEPOLIA_RPC_URLS /\ new = [rpc_answered url call result]).
Proof.
  unfold rpcCall. generalize (Z.max 1 (default DEFAULT_READ_TIMEOUT_MS timeoutMs / Z.of_nat (length LEOPOLD_SEPOLIA_RPC_URLS))).
  intros timeout. generalize (OtherError "Error" ("APP_RPC_UNAVAILABLE:" +:+ rpc_method call)).
  induction LEOPOLD_SEPOLIA_RPC_URLS as [|url urls IH]; intros lastError s r s' E; cbn [rpc_endpoints] in E.
  { injection E as <- <-. exists []. by rewrite app_nil_r. }
  destruct (signal_aborted s.1); [injection E as <- <-; exists []; by rewrite app_nil_r|].
  destruct (rpc_at url call timeout s) as [[result|e] s1] eqn:E1; apply rpc_at_answers in E1.
  - injection E as <- <-. exists [rpc_answered url call result]. split; [done|]. exists url. split; [by left|done].
  - rewrite app_nil_r in E1. destruct (signal_aborted s1.1).
    + injection E as <- <-. exists []. by rewrite app_nil_r.
    + apply IH in E as (l & E & Hl). exists l. rewrite E, E1. split; [done|].
      destruct r as [result|]; [|done]. destruct Hl as (u & Hu & ->). exists u. split; [by right|done].
Qed.

Lemma fetch_url_rests url parse :
  rests (fetch_url (W := W) url parse) (fun body new => new = [url_answered url body] /\ (parse = true -> is_Some body) /\ (parse = false -> body = None)).
Proof.
  intros s r s' E. unfold fetch_url in E. destruct (get_url url s.1) as [[response|e] w];
    [|injection E as <- <-; exists []; by rewrite app_nil_r].
  destruct (hr_ok response); [|injection E as <- <-; exists []; by rewrite app_nil_r].
  destruct parse; [|injection E as <- <-; by eexists].
  destruct (hr_body response) as [payload|e]; injection E as <- <-; [by eexists|exists []; by rewrite app_nil_r].
Qed.

(** An endpoint of the chain answered this call so that [P]. *)
Definition rpc_said answers (call : RpcCall) (P : json -> Prop) : Prop :=
  exists url result, url ∈ LEOPOLD_SEPOLIA_RPC_URLS /\ rpc_answered url call result ∈ answers /\ P result.

Lemma rpc_said_mono answers new call (P : json -> Prop) : answers ⊆ new -> rpc_said answers call P -> rpc_said new call P.
Proof. intros Hs (url & result & ? & ? & ?). exists url, result. split; [done|]. split; [set_solver|done]. Qed.

Definition is_sepolia (result : json) : Prop :=
  exists text, result = JString text /\ matches_0x text = true /\ Number_of_quantity text = LEOPOLD_CHAIN_ID.
(** The latest block has this number and this time. *)
Definition is_block (number timestamp : Z) (result : json) : Prop :=
  exists number_text timestamp_text,
    json_get "number" result = Some (JString number_text) /\ BigInt_text number_text = Some number /\
    json_get "timestamp" result = Some (JString timestamp_text) /\ BigInt_text timestamp_text = Some timestamp.

Lemma block_number_rests field block :
  rests (block_number (W := W) field block) (fun z new => new = [] /\
    exists text, json_get field block = Some (JString text) /\ BigInt_text text = Some z).
Proof.
  unfold block_number. destruct (json_get field block) as [[]|]; try apply rests_throw.
  destruct (BigInt_text s) as [z|] eqn:E; [|apply rests_throw]. apply rests_ret. split; [done|]. by exists s.
Qed.

Lemma read_head_rests timeoutMs :
  rests (read_head (W := W) timeoutMs) (fun head new => rpc_said new eth_chainId is_sepolia /\
    rpc_said new eth_getBlockByNumber_latest (is_block head.1 head.2)).
Proof.
  unfold read_head. eapply rests_bind; [apply rests_all2; apply rpcCall_rests|]. cbv beta.
  intros [chainHex block] l (l1 & l2 & -> & (url1 & Hu1 & ->) & (url2 & Hu2 & ->)). cbn [fst snd].
  eapply rests_bind; [apply rests_throw_if|]. intros [] l [Hc%negb_false_iff ->].
  eapply rests_bind; [apply rests_throw_if|]. intros [] l [_ ->].
  eapply rests_bind; [apply block_number_rests|]. intros number l [-> (nt & Hn & Hnz)].
  eapply rests_bind; [apply block_number_rests|]. intros timestamp l [-> (tt' & Ht & Htz)]. apply rests_ret. cbn [app fst snd].
  split.
  - exists url1, chainHex. split; [done|]. split; [set_solver|]. destruct chainHex as [| | |text| |]; try done.
    apply andb_true_iff in Hc as [? ?%Z.eqb_eq]. by exists text.
  - exists url2, block. split; [done|]. split; [set_solver|]. by exists nt, tt'.
Qed.

(** ** The checks *)
Lemma now_ms_answers s t s' : now_ms (W := W) s = (t, s') -> hn_answers s' = hn_answers s.
Proof. unfold now_ms. destruct (he_now (hn_world s)). by intros [= <- <-]. Qed.

(** A check adds answers, and what it rests on is among those it adds. *)
Definition checks {A} (m : HealthRun (W := W) -> A * HealthRun (W := W)) (Q : A -> list HealthEvent -> Prop) : Prop :=
  forall s a s', m s = (a, s') -> exists new, hn_answers s' = hn_answers s ++ new /\ Q a new.

Lemma reliable_checks {A} operation options (read : reading W HealthEvent A) (Q : A -> list HealthEvent -> Prop) :
  rests read Q -> (forall a l l', Q a l -> Q a (l' ++ l)) ->
  checks (reliable operation options read) (fun r new => match r with inl a => Q a new | inr _ => True end).
Proof.
  intros Hr Hmono s r s' E. unfold reliable in E.
  destruct (reliable_with _ read _) as [r' rs] eqn:Er. injection E as <- <-.
  apply (reliable_rests _ _ _ _ _ _ Hr) in Er as (before & new & E & HQ). exists (before ++ new).
  split; [exact E|]. destruct r'; auto.
Qed.

Lemma checkRpc_checks options :
  checks (checkRpc (W := W) options) (fun network new =>
    hc_state (nc_check network) <> UNKNOWN /\
    (hc_state (nc_check network) = HEALTHY -> rpc_said new eth_chainId is_sepolia /\
       exists number timestamp age, rpc_said new eth_getBlockByNumber_latest (is_block number timestamp) /\
         nc_latestBlock network = Some (Z_toString number) /\
         nc_blockAgeSeconds network = Some age /\ 0 <= age <= HEALTH_BLOCK_FRESHNESS_SECONDS)).
Proof.
  intros s network s' E. unfold checkRpc in E.
  destruct (now_ms s) as [startedAt s0] eqn:E0. destruct (reliable RPC_HEALTH options _ s0) as [r s1] eqn:E1.
  apply now_ms_answers in E0. eapply (reliable_checks _ _ _ _ (read_head_rests (ho_timeoutMs options))) in E1 as (new & Ea & HQ).
  2: { intros [n t] l l' [H1 H2]. split; (eapply rpc_said_mono; [|eassumption]); set_solver. }
  exists new. destruct r as [[number timestamp]|error].
  - destruct (now_ms s1) as [now s2] eqn:E2. destruct (now_ms s2) as [ended s3] eqn:E3.
    apply now_ms_answers in E2, E3. injection E as <- <-. cbn [nc_check check_ok hc_state nc_blockAgeSeconds nc_latestBlock fst snd] in *.
    split; [congruence|]. destruct (Z.ltb_spec HEALTH_BLOCK_FRESHNESS_SECONDS (Z.max 0 (now / 1000 - timestamp))); [done|].
    split; [done|]. intros _. destruct HQ as [H1 H2]. split; [done|].
    exists number, timestamp, (Z.max 0 (now / 1000 - timestamp)). split_and!; try done; lia.
  - destruct (now_ms s1) as [ended s2] eqn:E2. apply now_ms_answers in E2. injection E as <- <-.
    split; [congruence|]. unfold checkFailure. cbn [nc_check hc_state]. by destruct (_ || _).
Qed.

Lemma checkZama_checks options :
  checks (checkZama (W := W) options) (fun zama new =>
    hc_state zama = HEALTHY -> exists payload, url_answered ZAMA_RELAYER_KEY_METADATA_URL (Some payload) ∈ new).
Proof.
  intros s zama s' E. unfold checkZama in E. destruct (now_ms s) as [startedAt s0] eqn:E0.
  destruct (reliable ZAMA_HEALTH options _ s0) as [r s1] eqn:E1. destruct (now_ms s1) as [ended s2] eqn:E2.
  apply now_ms_answers in E0, E2. injection E as <- <-.
  eapply (reliable_checks _ _ _ (fun _ new => exists payload, url_answered ZAMA_RELAYER_KEY_METADATA_URL (Some payload) ∈ new)) in E1 as (new & Ea & HQ).
  - exists new. split; [congruence|]. destruct r; [done|]. unfold checkFailure. cbn [hc_state]. by destruct (_ || _).
  - unfold read_zama. eapply rests_bind; [apply fetch_url_rests|]. intros payload l (-> & Hp & _).
    eapply rests_mono; [apply rests_throw_if|]. intros [] l [_ ->]. destruct Hp as [p ->]; [done|]. exists p. set_solver.
  - intros [] l l' (payload & ?). exists payload. set_solver.
Qed.

Lemma checkDynamic_checks options :
  checks (checkDynamic (W := W) options) (fun dynamic new =>
    hc_state (dc_check dynamic) = HEALTHY -> ho_dynamicConfigured options = true /\
      exists url, settings_url options = inl url /\ url_answered url None ∈ new).
Proof.
  intros s dynamic s' E. unfold checkDynamic in E. destruct (now_ms s) as [startedAt s0] eqn:E0. apply now_ms_answers in E0.
  destruct (ho_dynamicConfigured options); cbn [negb orb] in E.
  2: { destruct (now_ms s0) as [ended s1] eqn:E1. apply now_ms_answers in E1. injection E as <- <-.
       exists []. split; [by rewrite app_nil_r, E1|done]. }
  destruct (negb (string_nonempty (ho_dynamicEnvironment options))).
  { destruct (now_ms s0) as [ended s1] eqn:E1. apply now_ms_answers in E1. injection E as <- <-.
    exists []. split; [by rewrite app_nil_r, E1|done]. }
  destruct (settings_url options) as [url|e].
  - destruct (reliable DYNAMIC_HEALTH options _ s0) as [r s1] eqn:E1. destruct (now_ms s1) as [ended s2] eqn:E2.
    apply now_ms_answers in E2. injection E as <- <-.
    eapply (reliable_checks _ _ _ (fun _ new => url_answered url None ∈ new)) in E1 as (new & Ea & HQ).
    + exists new. split; [congruence|]. destruct r; [by eauto|]. unfold checkFailure. cbn [dc_check hc_state]. by destruct (_ || _).
    + eapply rests_mono; [apply fetch_url_rests|]. intros body l (-> & _ & Hb). rewrite Hb by done. set_solver.
    + set_solver.
  - destruct (now_ms s0) as [ended s2] eqn:E2. apply now_ms_answers in E2. injection E as <- <-.
    exists []. split; [by rewrite app_nil_r, E2|]. unfold checkFailure. cbn [dc_check hc_state]. by destruct (_ || _).
Qed.

Definition has_bytecode answers (address : string) : Prop := rpc_said answers (eth_getCode address) (fun code => code <> JString "0x").
(** The registry lists the vault, active, under its configured address. *)
Definition listed answers (registry : string) (vault : LeopoldVaultConfig) : Prop :=
  rpc_said answers (eth_call_officialVault registry (lv_id vault)) (fun result =>
    exists official expected, decodeOfficialVault (W := W) result = inl official /\ ov_active official = true /\
      ca_address (lv_vault vault) = Some expected /\ toLowerCase (ov_vault official) = toLowerCase expected).

(** The deployment that answers is the configured one, which is the frozen one. *)
Definition deployed answers : Prop :=
  exists registry lcUsdc,
    lc_ready leopoldConfig = true /\
    ca_address (lc_registry leopoldConfig) = Some registry /\ ca_address (lc_lcUsdc leopoldConfig) = Some lcUsdc /\
    toLowerCase registry = toLowerCase (pr_registry productionRelease) /\
    toLowerCase lcUsdc = toLowerCase (pr_lcUsdc productionRelease) /\
    has_bytecode answers registry /\ has_bytecode answers lcUsdc /\
    forall vault, vault ∈ lc_vaults leopoldConfig ->
      listed answers registry vault /\
      exists address frozen, ca_address (lv_vault vault) = Some address /\ has_bytecode answers address /\
        (lv_name vault, frozen) ∈ pr_vaults productionRelease /\ toLowerCase address = toLowerCase frozen.

Lemma deployed_mono answers new : answers ⊆ new -> deployed answers -> deployed new.
Proof.
  intros Hs (registry & lcUsdc & ? & ? & ? & ? & ? & H1 & H2 & Hv). exists registry, lcUsdc.
  split_and!; try done; [by eapply rpc_said_mono|by eapply rpc_said_mono|].
  intros vault Hin. destruct (Hv vault Hin) as (Hl & address & frozen & ? & Hc & ? & ?).
  split; [by eapply rpc_said_mono|]. exists address, frozen. split_and!; try done. by eapply rpc_said_mono.
Qed.

(** Which vaults [vaults_match] accepts. *)
Lemma vaults_match_true vaults frozen s s' :
  vaults_match (W := W) vaults frozen s = (inl true, s') ->
  forall vault, vault ∈ vaults -> exists address text, ca_address (lv_vault vault) = Some address /\
    (lv_name vault, text) ∈ frozen /\ toLowerCase address = toLowerCase text.
Proof.
  revert frozen s. induction vaults as [|vault vaults IH]; intros frozen s E v Hv; [by apply elem_of_nil in Hv|].
  cbn [vaults_match] in E. destruct frozen as [|[name text] frozen]; [done|].
  destruct (decide (name = lv_name vault)) as [->|]; [rewrite bool_decide_true in E by done|by rewrite bool_decide_false in E by done].
  unfold mbind, reading_bind, of_result in E.
  destruct (requireConfiguredAddress (lv_vault vault) _) as [address|e] eqn:Ea; [|done]. cbn in E.
  case_bool_decide as Eq; [|done]. apply requireConfigured_Ok in Ea as [_ Ea].
  apply elem_of_cons in Hv as [->|Hv].
  - exists address, text. split_and!; [done|by left|done].
  - destruct (IH _ _ E v Hv) as (a & t & ? & ? & ?). exists a, t. split_and!; [done|by right|done].
Qed.

Lemma configuredAddressesMatchFrozenRelease_true s s' :
  configuredAddressesMatchFrozenRelease (W := W) leopoldConfig productionRelease s = (inl true, s') ->
  exists registry lcUsdc, ca_address (lc_registry leopoldConfig) = Some registry /\
    ca_address (lc_lcUsdc leopoldConfig) = Some lcUsdc /\
    toLowerCase registry = toLowerCase (pr_registry productionRelease) /\
    toLowerCase lcUsdc = toLowerCase (pr_lcUsdc productionRelease) /\
    forall vault, vault ∈ lc_vaults leopoldConfig -> exists address text, ca_address (lv_vault vault) = Some address /\
      (lv_name vault, text) ∈ pr_vaults productionRelease /\ toLowerCase address = toLowerCase text.
Proof.
  unfold configuredAddressesMatchFrozenRelease, mbind, reading_bind, of_result. intros E.
  destruct (requireConfiguredAddress (lc_registry leopoldConfig) _) as [registry|] eqn:Er; [|done]. cbn in E.
  destruct (requireConfiguredAddress (lc_lcUsdc leopoldConfig) _) as [lcUsdc|] eqn:El; [|done]. cbn in E.
  apply requireConfigured_Ok in Er as [_ Er], El as [_ El]. exists registry, lcUsdc.
  destruct (decide (toLowerCase registry = toLowerCase (pr_registry productionRelease))) as [Hr|];
    [rewrite bool_decide_true in E by done|by rewrite bool_decide_false in E by done].
  destruct (decide (toLowerCase lcUsdc = toLowerCase (pr_lcUsdc productionRelease))) as [Hl|];
    [rewrite bool_decide_true in E by done|by rewrite bool_decide_false in E by done].
  cbn in E. split_and!; try done. by eapply vaults_match_true.
Qed.

Lemma read_official_rests registry timeoutMs vault :
  rests (read_official (W := W) registry timeoutMs vault) (fun official new =>
    rpc_said new (eth_call_officialVault registry (lv_id vault)) (fun result => decodeOfficialVault (W := W) result = inl official)).
Proof.
  unfold read_official. eapply rests_bind; [apply rpcCall_rests|]. cbv beta. intros result l (url & Hu & ->).
  unfold of_sum. destruct (decodeOfficialVault result) as [official|e] eqn:E; [|apply rests_throw].
  apply (rests_ret official). exists url, result. split; [done|]. split; [set_solver|done].
Qed.

(** The reads of the deployment: every address has code, every vault is listed. *)
Definition codes_read (registry lcUsdc : string) (addresses : list (option string)) answers : Prop :=
  (forall address, Some address ∈ addresses -> has_bytecode answers address) /\
  forall vault, vault ∈ lc_vaults leopoldConfig -> listed answers registry vault.

Lemma read_deployment_rests registry lcUsdc timeoutMs :
  rests (read_deployment (W := W) leopoldConfig registry lcUsdc timeoutMs) (fun _ new =>
    codes_read registry lcUsdc
      (Some registry :: Some lcUsdc :: map (fun vault => ca_address (lv_vault vault)) (lc_vaults leopoldConfig)) new).
Proof.
  unfold read_deployment. set (addresses := Some registry :: _).
  eapply rests_bind.
  { apply rests_all2; [apply rests_all; intros; apply rpcCall_rests|apply rests_all; intros; apply read_official_rests]. }
  cbv beta. intros [codes officials] l (l1 & l2 & -> & Hcodes & Hofficials). cbn [fst snd] in *.
  eapply rests_bind; [apply rests_throw_if|]. intros [] l [Hno ->].
  eapply rests_mono; [apply rests_throw_if|]. intros [] l [Hmem%negb_false_iff ->]. rewrite !app_nil_r. split.
  - intros address Hin. apply list_elem_of_lookup in Hin as (i & Hi).
    destruct (Forall2_lookup_l _ _ _ _ _ Hcodes Hi) as (code & Hc & lc & (url & Hu & ->) & Hsub).
    exists url, code. split; [done|]. split; [set_solver|]. intros ->.
    apply not_true_iff_false in Hno. apply Hno, existsb_exists. exists (JString "0x").
    split; [by eapply list_elem_of_In, list_elem_of_lookup_2|done].
  - intros vault Hin. apply list_elem_of_lookup in Hin as (i & Hi).
    destruct (Forall2_lookup_l _ _ _ _ _ Hofficials Hi) as (official & Ho & lo & Hsaid & Hsub).
    rewrite forallb_forall in Hmem.
    assert (Hm : is_member (official, vault) = true).
    { apply Hmem, list_elem_of_In. apply list_elem_of_lookup. exists i. by apply lookup_zip_Some. }
    unfold is_member in Hm. cbn [fst snd] in Hm. apply andb_true_iff in Hm as [Hactive Hm].
    destruct (ca_address (lv_vault vault)) as [expected|] eqn:Ee; [|done].
    apply andb_true_iff in Hm as [_ Hm%bool_decide_eq_true].
    destruct Hsaid as (url & result & Hu & Hin & Hd). exists url, result.
    split; [done|]. split; [set_solver|]. by exists official, expected.
Qed.

Lemma checkDeployment_checks options :
  checks (checkDeployment (W := W) leopoldConfig productionRelease options) (fun deployment new =>
    hc_state (dp_check deployment) = HEALTHY -> deployed new).
Proof.
  intros s deployment s' E. unfold checkDeployment in E. destruct (now_ms s) as [startedAt s0] eqn:E0.
  destruct (deployment_reads _ _ options s0) as [r s1] eqn:E1. destruct (now_ms s1) as [ended s2] eqn:E2.
  apply now_ms_answers in E0, E2. injection E as <- <-.
  enough (exists new, hn_answers s1 = hn_answers s0 ++ new /\ match r with inl _ => deployed new | inr _ => True end) as (new & Ea & HQ).
  { exists new. split; [congruence|]. destruct r; [done|]. unfold checkFailure. cbn [dp_check hc_state]. by destruct (_ || _). }
  assert (Hnone : forall e : ReadFailure, (inr e, s0) = (r, s1) ->
    exists new, hn_answers s1 = hn_answers s0 ++ new /\ match r with inl _ => deployed new | inr _ => True end).
  { intros e [= <- <-]. exists []. by rewrite app_nil_r. }
  unfold deployment_reads in E1. destruct (lc_ready leopoldConfig) eqn:Hready; cbn [negb] in E1; [|by eapply Hnone].
  destruct (configuredAddressesMatchFrozenRelease _ _ _) as [[[]|e] st] eqn:Em; [|by eapply Hnone|by eapply Hnone].
  apply configuredAddressesMatchFrozenRelease_true in Em as (registry & lcUsdc & Er & El & Hr & Hl & Hv).
  rewrite Er, El in E1. destruct (_ && _); [|by eapply Hnone].
  eapply (reliable_checks _ _ _ (fun _ new => deployed new)) in E1; [exact E1| |].
  - eapply rests_mono; [apply read_deployment_rests|]. cbv beta. intros [] new [Hcodes Hlisted]. exists registry, lcUsdc.
    split_and!; try done; [apply Hcodes; by left|apply Hcodes; right; by left|].
    intros vault Hin. split; [by apply Hlisted|]. destruct (Hv vault Hin) as (address & text & Ha & ? & ?).
    exists address, text. split_and!; try done. apply Hcodes. rewrite !elem_of_cons. right; right.
    apply list_elem_of_In, in_map_iff. exists vault. split; [done|by apply list_elem_of_In].
  - intros [] l l'. apply deployed_mono. set_solver.
Qed.

(** ** The combination *)
Lemma combineHealthStates_spec network zama dynamic deployment :
  network <> UNKNOWN ->
  let states := [network; zama; dynamic; deployment] in
  combineHealthStates states <> UNKNOWN /\
  (combineHealthStates states = HEALTHY <-> Forall (fun state => state = HEALTHY) states) /\
  (combineHealthStates states = UNAVAILABLE <-> network = UNAVAILABLE).
Proof.
  intros Hn states. unfold states, combineHealthStates. rewrite !Forall_cons, Forall_nil.
  destruct network; try done; destruct zama, dynamic, deployment; cbn; repeat split; try done; intros; tauto || intuition discriminate.
Qed.

(** The four checks of a report, and what they rest on. *)
Lemma getPublicHealth_checks options s health s' :
  getPublicHealth (W := W) leopoldConfig productionRelease options s = (health, s') ->
  exists new, hn_answers s' = hn_answers s ++ new /\
    ph_state health = combineHealthStates [hc_state (nc_check (ph_network health)); hc_state (ph_zama health);
                                           hc_state (dc_check (ph_dynamic health)); hc_state (dp_check (ph_deployment health))] /\
    ph_serviceCondition health = serviceCondition (ph_state health) /\
    hc_state (nc_check (ph_network health)) <> UNKNOWN /\
    (hc_state (nc_check (ph_network health)) = HEALTHY -> rpc_said new eth_chainId is_sepolia /\
       exists number timestamp age, rpc_said new eth_getBlockByNumber_latest (is_block number timestamp) /\
         nc_latestBlock (ph_network health) = Some (Z_toString number) /\
         nc_blockAgeSeconds (ph_network health) = Some age /\ 0 <= age <= HEALTH_BLOCK_FRESHNESS_SECONDS) /\
    (hc_state (ph_zama health) = HEALTHY -> exists payload, url_answered ZAMA_RELAYER_KEY_METADATA_URL (Some payload) ∈ new) /\
    (hc_state (dc_check (ph_dynamic health)) = HEALTHY -> ho_dynamicConfigured options = true /\
       exists url, settings_url options = inl url /\ url_answered url None ∈ new) /\
    (hc_state (dp_check (ph_deployment health)) = HEALTHY -> deployed new).
Proof.
  unfold getPublicHealth. intros E.
  destruct (now_ms s) as [startedAt s0] eqn:E0. destruct (checkRpc options s0) as [network s1] eqn:E1.
  destruct (checkZama options s1) as [zama s2] eqn:E2. destruct (checkDynamic options s2) as [dynamic s3] eqn:E3.
  destruct (checkDeployment _ _ options s3) as [deployment s4] eqn:E4. destruct (now_ms s4) as [ended s5] eqn:E5.
  destruct (now_ms (HealthRunOf _ _ _)) as [checkedAt s6] eqn:E6. injection E as <- <-.
  apply now_ms_answers in E0, E5, E6. cbn [hn_answers] in E6.
  apply checkRpc_checks in E1 as (n1 & A1 & Hn & H1). apply checkZama_checks in E2 as (n2 & A2 & H2).
  apply checkDynamic_checks in E3 as (n3 & A3 & H3). apply checkDeployment_checks in E4 as (n4 & A4 & H4).
  exists (n1 ++ n2 ++ n3 ++ n4). cbn [ph_state ph_serviceCondition ph_network ph_zama ph_dynamic ph_deployment].
  split; [by rewrite E6, E5, A4, A3, A2, A1, E0, !app_assoc|]. split; [done|]. split; [done|]. split; [done|].
  split_and!.
  - intros Hs. destruct (H1 Hs) as [Hc (number & timestamp & age & Hb & ? & ? & ?)].
    split; [eapply rpc_said_mono; [|exact Hc]; set_solver|]. exists number, timestamp, age.
    split; [eapply rpc_said_mono; [|exact Hb]; set_solver|done].
  - intros Hs. destruct (H2 Hs) as (payload & ?). exists payload. set_solver.
  - intros Hs. destruct (H3 Hs) as (? & url & ? & ?). split; [done|]. exists url. split; [done|set_solver].
  - intros Hs. eapply deployed_mono; [|by apply H4]. set_solver.
Qed.

(** The service is reported operational only on evidence gathered by that very
    report: an endpoint answered that the chain is Sepolia, and a latest block at
    most three minutes old; the relayer gave its key metadata; the settings of the
    authentication service answered over https; and the deployment that the frozen
    release names has code at every address and is listed, active, by the registry
    that answered.  Answers of earlier reports do not count. *)
Theorem getPublicHealth_operational options s health s' :
  getPublicHealth (W := W) leopoldConfig productionRelease options s = (health, s') ->
  ph_serviceCondition health = OPERATIONAL ->
  exists new, hn_answers s' = hn_answers s ++ new /\
    rpc_said new eth_chainId is_sepolia /\
    (exists number timestamp age, rpc_said new eth_getBlockByNumber_latest (is_block number timestamp) /\
       nc_latestBlock (ph_network health) = Some (Z_toString number) /\
       nc_blockAgeSeconds (ph_network health) = Some age /\ 0 <= age <= HEALTH_BLOCK_FRESHNESS_SECONDS) /\
    (exists payload, url_answered ZAMA_RELAYER_KEY_METADATA_URL (Some payload) ∈ new) /\
    (exists url, settings_url options = inl url /\ url_answered url None ∈ new) /\
    deployed new.
Proof.
  intros (new & Ea & Hst & Hsc & Hn & H1 & H2 & H3 & H4)%getPublicHealth_checks Hop. exists new.
  destruct (combineHealthStates_spec _ (hc_state (ph_zama health)) (hc_state (dc_check (ph_dynamic health)))
    (hc_state (dp_check (ph_deployment health))) Hn) as (_ & Hhealthy & _).
  rewrite Hsc, Hst in Hop. destruct (combineHealthStates _) eqn:Ec; try discriminate Hop.
  apply proj1 in Hhealthy. specialize (Hhealthy eq_refl). rewrite !Forall_cons in Hhealthy.
  destruct Hhealthy as (S1 & S2 & S3 & S4 & _). destruct (H1 S1), (H3 S3). auto 10.
Qed.

(** How the four checks combine in any report: it is operational exactly when all
    four are healthy; unavailable exactly when the chain's endpoints are, whatever
    the other three say; and never of unknown condition, since the chain's check
    always has an outcome. *)
Theorem getPublicHealth_condition options s health s' :
  getPublicHealth (W := W) leopoldConfig productionRelease options s = (health, s') ->
  (ph_serviceCondition health = OPERATIONAL <->
     hc_state (nc_check (ph_network health)) = HEALTHY /\ hc_state (ph_zama health) = HEALTHY /\
     hc_state (dc_check (ph_dynamic health)) = HEALTHY /\ hc_state (dp_check (ph_deployment health)) = HEALTHY) /\
  (ph_serviceCondition health = service_UNAVAILABLE <-> hc_state (nc_check (ph_network health)) = UNAVAILABLE) /\
  ph_serviceCondition health <> service_UNKNOWN.
Proof.
  intros (new & _ & Hst & Hsc & Hn & _)%getPublicHealth_checks.
  destruct (combineHealthStates_spec _ (hc_state (ph_zama health)) (hc_state (dc_check (ph_dynamic health)))
    (hc_state (dp_check (ph_deployment health))) Hn) as (Hu & Hh & Ha).
  rewrite !Forall_cons, Forall_nil in Hh. rewrite <- Hst in Hu, Hh, Ha. rewrite Hsc, <- Ha.
  split; [transitivity (ph_state health = HEALTHY); [|tauto]|split]; [| |];
    destruct (ph_state health); cbn; first [by split|done].
Qed.
End health_properties.

(** ** A healthy deployment *)
Section examples.
#[local] Existing Instance hex_viem.

Definition daily_release : ProductionRelease := {|
  pr_registry := vault_registry; pr_lcUsdc := private_usdc; pr_vaults := [("Daily", daily_vault)];
  pr_manifestSha256 := "438e"; pr_p01Status := "CLOSED"; pr_unresolvedCritical := 0; pr_unresolvedHigh := 0;
  pr_unresolvedMedium := 0; pr_runtimeBytes := 23531; pr_eip170Headroom := 1045
|}.
Definition daily_options : HealthOptions := {|
  ho_dynamicConfigured := true; ho_dynamicEnvironment := "env"; ho_dynamicApiBase := "";
  ho_timeoutMs := None; ho_maxAttempts := None
|}.

Definition rpc_result (call : RpcCall) : json :=
  match call with
  | eth_chainId => JString "0xaa36a7"
  | eth_getBlockByNumber_latest => JObject [("number", JString "0x1234"); ("timestamp", JString "0x64")]
  | eth_getCode _ => JString "0x6000"
  | eth_call_officialVault _ _ => JString daily_vault
  end.

(** The first endpoint is down; the second answers. *)
#[local] Instance daily_world : HealthEnv unit := {
  he_runtime := {| Date_now w := (0, w); read_timed_out _ _ := false; backoff_sleep _ w := w |};
  he_now w := (160000, w);
  signal_aborted _ := None;
  post_rpc url call _ w :=
    (if bool_decide (url = "https://1rpc.io/sepolia")
     then inl {| hr_status := 200; hr_body := inl (JObject [("result", rpc_result call)]) |}
     else inr (OtherError "TypeError" "fetch failed"), w);
  get_url _ w :=
    (inl {| hr_status := 200; hr_body := inl (JObject [("response", JObject [("fheKeyInfo", JArray []); ("crs", JObject [])])]) |}, w);
  decodeOfficialVault answer :=
    match answer with
    | JString vault => inl {| ov_vault := vault; ov_asset := private_usdc; ov_strategy := daily_adapter; ov_comet := compound_comet;
        ov_bondEscrow := daily_escrow; ov_vaultType := 0; ov_roundDuration := 86400; ov_active := true |}
    | _ => inr (OtherError "Error" "no data")
    end;
  parse_url _ := Some ("https:", "/api/v0/");
  resolve_url path _ := "https://app.dynamicauth.com" +:+ path;
  encodeURIComponent text := text
}.
Definition first_report : PublicHealth * HealthRun (W := unit) :=
  getPublicHealth (loadLeopoldConfig daily_manifest) daily_release daily_options (HealthRunOf tt [] []).

Example getPublicHealth_operational_witness :
  let config := loadLeopoldConfig daily_manifest in
  ph_serviceCondition first_report.1 = OPERATIONAL /\
  exists new, hn_answers first_report.2 = [] ++ new /\
    rpc_said new eth_chainId is_sepolia /\
    (exists number timestamp age, rpc_said new eth_getBlockByNumber_latest (is_block number timestamp) /\
       nc_latestBlock (ph_network first_report.1) = Some (Z_toString number) /\
       nc_blockAgeSeconds (ph_network first_report.1) = Some age /\ 0 <= age <= HEALTH_BLOCK_FRESHNESS_SECONDS) /\
    (exists payload, url_answered ZAMA_RELAYER_KEY_METADATA_URL (Some payload) ∈ new) /\
    (exists url, settings_url daily_options = inl url /\ url_answered url None ∈ new) /\
    deployed config daily_release new.
Proof.
  intros config. assert (Hop : ph_serviceCondition first_report.1 = OPERATIONAL) by (vm_compute; reflexivity).
  split; [exact Hop|].
  assert (E : getPublicHealth config daily_release daily_options (HealthRunOf tt [] []) = (first_report.1, first_report.2))
    by (unfold first_report; apply surjective_pairing).
  exact (getPublicHealth_operational (H := daily_world) config daily_release daily_options (HealthRunOf tt [] [])
    first_report.1 first_report.2 E Hop).
Defined.

Example getPublicHealth_condition_witness :
  let config := loadLeopoldConfig daily_manifest in
  ph_serviceCondition first_report.1 = OPERATIONAL /\
  (ph_serviceCondition first_report.1 = OPERATIONAL <->
     hc_state (nc_check (ph_network first_report.1)) = HEALTHY /\ hc_state (ph_zama first_report.1) = HEALTHY /\
     hc_state (dc_check (ph_dynamic first_report.1)) = HEALTHY /\ hc_state (dp_check (ph_deployment first_report.1)) = HEALTHY).
Proof.
  intros config. split; [vm_compute; reflexivity|].
  assert (E : getPublicHealth config daily_release daily_options (HealthRunOf tt [] []) = (first_report.1, first_report.2))
    by (unfold first_report; apply surjective_pairing).
  exact (proj1 (getPublicHealth_condition (H := daily_world) config daily_release daily_options (HealthRunOf tt [] [])
    first_report.1 first_report.2 E)).
Defined.
End examples.
