(* ===== verification/UiState.v ===== *)
(** * What the interface shows: frontend/lib/ui/controller.ts, experience.ts,
    v2-entry-status.ts, and the gates frontend/lib/auth/hydration.ts,
    onboarding-surface.ts and email.ts

    The maps from the states of the other components to the states of the
    interface, the guard that keeps internal fields out of what is rendered, and
    the choice between the two products. *)
From Stdlib Require Import ZArith Lia Ascii.
From stdpp Require Import base option list sets strings.
From S2P Require Import Prelude Lifecycle WalletAddress WalletRecovery WalletSession Reliability Transactions AccountState Reading Reads PrivateBalance Health.
Local Open Scope Z_scope.

Inductive UiAccountState : Type := ui_loading | ui_signed_out | ui_profile_incomplete | ui_ready.
Inductive UiWalletState : Type := ui_disconnected | ui_connecting | ui_connected | ui_wrong_network | ui_error.
Inductive UiPrivateValueState : Type := ui_hidden | ui_revealing | ui_revealed | ui_reveal_failed.
Inductive UiTransactionState : Type :=
| ui_idle | ui_awaiting_signature | ui_submitted | ui_confirming | ui_private_processing | ui_success | ui_failure.
Inductive UiVaultState : Type := ui_open | ui_entered | ui_closed | ui_settling | ui_settled | ui_vault_unavailable.
Inductive UiServiceState : Type := ui_healthy | ui_degraded | ui_unavailable | ui_unknown.

#[export] Instance UiTransactionState_eq_dec : EqDecision UiTransactionState.
Proof. solve_decision. Defined.

Definition LEOPOLD_RECOMMENDED_VAULT : string := "weekly".
Definition isRecommendedVault (vault : string) : bool := bool_decide (vault = LEOPOLD_RECOMMENDED_VAULT).

(** ** The guard of the rendered values *)
Definition INTERNAL_ONLY_UI_KEYS : list string :=
  ["authToken"; "accessToken"; "refreshToken"; "ciphertext"; "ciphertextHandle"; "decryptionKey"; "decryptionMaterial";
   "dynamicConnector"; "dynamicUser"; "encryptedHandle"; "fheProof"; "privateBalanceDiagnostic"; "privateBalanceHandle";
   "privateEligibility"; "providerUserId"; "rawProof"; "technicalDetail"; "wagmiConnector"].

(** A value to render: a value that is not an object, a function, an array, or the
    own entries of an object, in order. *)
Inductive UiValue : Type :=
| ui_scalar
| ui_function
| ui_array (items : list UiValue)
| ui_object (fields : list (string * UiValue)).

Definition is_function (value : UiValue) : bool := match value with ui_function => true | _ => false end.

Fixpoint assertUiControllerSafety (value : UiValue) (path : string) : result unit :=
  match value with
  | ui_scalar | ui_function => Ok tt
  | ui_array items =>
      (fix each (index : Z) (items : list UiValue) : result unit :=
         match items with
         | [] => Ok tt
         | item :: items' =>
             assertUiControllerSafety item (path +:+ "[" +:+ Z_toString index +:+ "]") ;; each (index + 1) items'
         end) 0 items
  | ui_object fields =>
      (fix each (fields : list (string * UiValue)) : result unit :=
         match fields with
         | [] => Ok tt
         | (key, item) :: fields' =>
             fail_if (bool_decide (key ∈ INTERNAL_ONLY_UI_KEYS)) ("INTERNAL_ONLY_UI_FIELD:" +:+ path +:+ "." +:+ key) ;;
             (if is_function item then Ok tt else assertUiControllerSafety item (path +:+ "." +:+ key)) ;;
             each fields'
         end) fields
  end.

(** ** Maps of states *)
Definition mapAccountState (status : AccountStatus) : UiAccountState :=
  match status with
  | AUTH_LOADING => ui_loading
  | SIGNED_OUT => ui_signed_out
  | SIGNED_IN_PROFILE_INCOMPLETE => ui_profile_incomplete
  | _ => ui_ready
  end.

Definition mapWalletState (status : WalletSessionState) : UiWalletState :=
  match status with
  | BOOTSTRAPPING | CONNECTING => ui_connecting
  | CONNECTED => ui_connected
  | WRONG_NETWORK => ui_wrong_network
  | ERROR => ui_error
  | DISCONNECTED => ui_disconnected
  end.

Definition mapPrivateValueState (status : PrivateBalanceStatus) (revealed : bool) : UiPrivateValueState :=
  match status with
  | status_READING_HANDLE | status_AWAITING_DECRYPT_AUTHORIZATION | status_DECRYPTING => ui_revealing
  | status_REVEAL_FAILED => ui_reveal_failed
  | status_REVEALED => if revealed then ui_revealed else ui_hidden
  | _ => ui_hidden
  end.

Definition SIGNATURE_STAGES : list TransactionStage :=
  [wallet; approval_signature; wrap_signature; save_signature; withdraw_round_advance_signature; withdraw_signature].
Definition SUBMITTED_STAGES : list TransactionStage :=
  [submitted; approval_submitted; wrap_submitted; save_submitted; withdraw_round_advance_submitted; withdraw_submitted].

Definition mapTransactionState (stage : TransactionStage) : UiTransactionState :=
  if bool_decide (stage = ready) then ui_idle
  else if bool_decide (stage = complete) then ui_success
  else if bool_decide (stage = failed) then ui_failure
  else if bool_decide (stage = private_processing) || bool_decide (stage = save_encrypting) then ui_private_processing
  else if bool_decide (stage ∈ SIGNATURE_STAGES) then ui_awaiting_signature
  else if bool_decide (stage ∈ SUBMITTED_STAGES) then ui_submitted
  else ui_confirming.

Definition mapVaultState (contractState : option Z) (depositOpen entered : bool) : UiVaultState :=
  match contractState with
  | None => ui_vault_unavailable
  | Some state =>
      if state =? 14 then ui_settled
      else if (2 <=? state) && (state <? 14) then ui_settling
      else if (state =? 1) && depositOpen then (if entered then ui_entered else ui_open)
      else ui_closed
  end.

Definition mapServiceState (state : HealthState) : UiServiceState :=
  match state with HEALTHY => ui_healthy | DEGRADED => ui_degraded | UNAVAILABLE => ui_unavailable | UNKNOWN => ui_unknown end.

Record UiHealthSnapshot := {
  uh_state : UiServiceState; uh_checkedAt : Z;
  uh_network : UiServiceState * option string * string;
  uh_zama : UiServiceState * string;
  uh_dynamic : UiServiceState * string;
  uh_deployment : UiServiceState * option string * option string * list VaultCode;
  uh_release : ProductionRelease
}.

Definition mapPublicHealth (health : PublicHealth) : UiHealthSnapshot := {|
  uh_state := mapServiceState (ph_state health);
  uh_checkedAt := ph_checkedAt health;
  uh_network := (mapServiceState (hc_state (nc_check (ph_network health))), nc_latestBlock (ph_network health),
                 hc_message (nc_check (ph_network health)));
  uh_zama := (mapServiceState (hc_state (ph_zama health)), hc_message (ph_zama health));
  uh_dynamic := (mapServiceState (hc_state (dc_check (ph_dynamic health))), hc_message (dc_check (ph_dynamic health)));
  uh_deployment := (mapServiceState (hc_state (dp_check (ph_deployment health))), dp_registry (ph_deployment health),
                    dp_lcUsdc (ph_deployment health), dp_vaults (ph_deployment health));
  uh_release := ph_release health
|}.

(** [readUiHealth]; the page's own endpoint answers with a status and a report. *)
Definition readUiHealth {W} `{ReadRuntime W} (fetch_health : W -> (Z * (PublicHealth + ReadFailure) + ReadFailure) * W)
    (s : ReadState W UiHealthSnapshot) : (UiHealthSnapshot + ReadFailure) * ReadState W UiHealthSnapshot :=
  withReadReliability (fun _ w =>
    let '(response, w') := fetch_health w in
    (match response with
     | inr error => inr error
     | inl (status, body) =>
         if negb ((200 <=? status) && (status <=? 299)) then inr (HttpReadError status)
         else match body with inl health => inl (mapPublicHealth health) | inr error => inr error end
     end, w'))
    {| ro_operation := HEALTH_CHECK; ro_timeoutMs := None; ro_maxAttempts := None; ro_shouldRetry := None |} s.

(** ** The two products: experience.ts *)
Inductive AppExperience : Type := v2 | v1.
#[export] Instance AppExperience_eq_dec : EqDecision AppExperience.
Proof. solve_decision. Defined.

Definition EXPERIENCE_STORAGE_KEY : string := "leopold.app-experience.v1".
Definition V2_NAVIGATION : list (string * string) :=
  [("Home", "/app"); ("Draws / Results", "/app/v2/draws"); ("Activity", "/app/v2/activity");
   ("Rewards / Returns", "/app/v2/rewards"); ("Profile", "/app/profile")].
Definition V1_NAVIGATION : list (string * string) :=
  [("Home", "/app/classic"); ("Vaults", "/app/classic/vaults"); ("Prizes", "/app/classic/prizes");
   ("Activity", "/app/classic/activity"); ("Rewards", "/app/classic/rewards"); ("Profile", "/app/profile")].

Definition is_path (pathname path : string) : bool := bool_decide (pathname = path).
Definition experienceForPath (pathname : string) : option AppExperience :=
  if is_path pathname "/app" || is_path pathname "/app/prize-savings" || is_path pathname "/app/v2"
     || startsWith "/app/v2/" pathname
  then Some v2
  else if is_path pathname "/app/classic" || startsWith "/app/classic/" pathname
     || is_path pathname "/app/vaults" || startsWith "/app/vaults/" pathname
     || is_path pathname "/app/prizes" || startsWith "/app/prizes/" pathname
     || is_path pathname "/app/activity" || is_path pathname "/app/rewards"
  then Some v1
  else None.

(** The browser's storage: none, one whose calls throw, or its items. *)
Inductive ExperienceStorage : Type := no_storage | blocked_storage | storage_items (items : list (string * string)).

Definition experience_text (experience : AppExperience) : string := match experience with v1 => "v1" | v2 => "v2" end.
Definition readStoredExperience (storage : ExperienceStorage) : AppExperience :=
  match storage with
  | storage_items items => if bool_decide (map_get EXPERIENCE_STORAGE_KEY items = Some "v1") then v1 else v2
  | no_storage | blocked_storage => v2
  end.
Definition persistExperience (storage : ExperienceStorage) (experience : AppExperience) : ExperienceStorage :=
  match storage with
  | storage_items items => storage_items (map_set EXPERIENCE_STORAGE_KEY (experience_text experience) items)
  | no_storage | blocked_storage => storage
  end.

(** ** The status of an entry: v2-entry-status.ts *)
Inductive V2EntryStatusKind : Type := entry_registered | entry_scheduled | entry_off | entry_unknown.
Record V2EntryStatus := { es_kind : V2EntryStatusKind; es_label : string; es_message : string }.

Definition getV2EntryStatus (registered autoEntryEnabled : option bool) : V2EntryStatus :=
  match registered, autoEntryEnabled with
  | Some true, _ =>
      {| es_kind := entry_registered; es_label := "You're entered"; es_message := "You're entered in the current draw." |}
  | Some false, Some true =>
      {| es_kind := entry_scheduled; es_label := "Starts next eligible draw"; es_message := "Starts next eligible draw." |}
  | Some false, Some false =>
      {| es_kind := entry_off; es_label := "Prize Savings is off"; es_message := "Prize Savings is off." |}
  | _, _ => {| es_kind := entry_unknown; es_label := "Checking"; es_message := "Checking your Prize Savings status." |}
  end.

(** ** Gates *)
Inductive AuthHydrationPhase : Type := AUTH_INITIALIZING | READY.
Definition getAuthHydrationPhase (clientReady : bool) : AuthHydrationPhase := if clientReady then READY else AUTH_INITIALIZING.
Definition financialControlsEnabled (clientReady authorized : bool) : bool := clientReady && authorized.
Definition addMoneyButtonDisabled (clientReady accountReady fixture : bool) : bool :=
  negb clientReady || (negb accountReady && negb fixture).
Inductive OnboardingSurface : Type := authenticated_surface | walkthrough.
Definition onboardingSurface (loading authenticated : bool) : OnboardingSurface :=
  if authenticated then authenticated_surface else walkthrough.

(** [/^[^\s@]+@[^\s@]+\.[^\s@]+$/u] *)
Definition local_char (c : ascii) : bool := negb (is_space c) && negb (Ascii.eqb c "@").
(** A dot with a character before it and one after it. *)
Fixpoint inner_dot (seen : bool) (s : string) : bool :=
  match s with
  | EmptyString => false
  | String c s' => (seen && Ascii.eqb c "." && string_nonempty s') || inner_dot true s'
  end.
Definition is_email (s : string) : bool :=
  match split_char "@" s with
  | [name; domain] =>
      string_nonempty name && string_forall local_char name && string_forall local_char domain && inner_dot false domain
  | _ => false
  end.
Definition normalizeEmail (value : string) : result string :=
  let normalized := trim value in
  if is_email normalized then Ok normalized
  else Throw (JsError true "EmailValidationError" (Some "INVALID_EMAIL") "Enter a valid email address.").
Definition isValidEmail (value : string) : bool := match normalizeEmail value with Ok _ => true | Throw _ => false end.

(** * Properties *)

(** ** What may be rendered *)

(** A field of the value, at any depth below its objects and arrays. *)
Inductive holds_field : UiValue -> string -> Prop :=
| field_here fields key item : (key, item) ∈ fields -> holds_field (ui_object fields) key
| field_below fields key item key' : (key, item) ∈ fields -> holds_field item key' -> holds_field (ui_object fields) key'
| field_in_array items item key : item ∈ items -> holds_field item key -> holds_field (ui_array items) key.

Section UiValue_induction.
Variable P : UiValue -> Prop.
Hypothesis P_scalar : P ui_scalar.
Hypothesis P_function : P ui_function.
Hypothesis P_array : forall items, Forall P items -> P (ui_array items).
Hypothesis P_object : forall fields, Forall (fun field => P field.2) fields -> P (ui_object fields).
Fixpoint UiValue_nested_ind (value : UiValue) : P value :=
  match value with
  | ui_scalar => P_scalar
  | ui_function => P_function
  | ui_array items =>
      P_array items ((fix go items : Forall P items :=
        match items with [] => Forall_nil_2 _ | item :: items' => Forall_cons_2 _ _ _ (UiValue_nested_ind item) (go items') end) items)
  | ui_object fields =>
      P_object fields ((fix go fields : Forall (fun field => P field.2) fields :=
        match fields with
        | [] => Forall_nil_2 _
        | (key, item) :: fields' => Forall_cons_2 _ (key, item) _ (UiValue_nested_ind item) (go fields')
        end) fields)
  end.
End UiValue_induction.

Lemma holds_field_leaf value key : is_function value = true -> ~ holds_field value key.
Proof. destruct value; try done. intros _ Hf. inversion Hf. Qed.

Lemma bind_Ok_iff {A B} (m : result A) (k : A -> result B) b :
  (x ← m; k x) = Ok b <-> exists a, m = Ok a /\ k a = Ok b.
Proof.
  destruct m as [a|e]; [split; [by exists a|by intros (? & [= <-] & ?)]|].
  split; [done|by intros (? & ? & _)].
Qed.

Lemma fail_if_Ok_iff c message u : fail_if c message = Ok u <-> c = false.
Proof. destruct u, c; done. Qed.

(** Nothing internal is rendered.  The guard accepts a value exactly when none of
    the internal fields (tokens, ciphertexts and their handles, proofs, decryption
    material, provider objects, diagnostics) occurs in it at any depth of its
    objects and arrays. *)
Theorem assertUiControllerSafety_iff value path :
  assertUiControllerSafety value path = Ok tt <-> forall key, holds_field value key -> key ∉ INTERNAL_ONLY_UI_KEYS.
Proof.
  revert path. induction value as [| |items IH|fields IH] using UiValue_nested_ind; intros path.
  - split; [intros _ key Hf; inversion Hf|done].
  - split; [intros _ key Hf; inversion Hf|done].
  - transitivity (forall item, item ∈ items -> forall key, holds_field item key -> key ∉ INTERNAL_ONLY_UI_KEYS).
    2: { split; [intros Hi key Hf; inversion Hf; eauto|intros Hk item Hin key Hf; eapply Hk, field_in_array; eauto]. }
    cbn [assertUiControllerSafety]. generalize 0. induction IH as [|item items Hitem _ IHitems]; intros index.
    { split; [intros _ item Hin; by apply elem_of_nil in Hin|done]. }
    rewrite bind_Ok_iff. split.
    + intros ([] & H1 & H2) x Hx. pose proof (proj1 (Hitem _) H1). pose proof (proj1 (IHitems _) H2).
      apply elem_of_cons in Hx as [->|Hx]; eauto.
    + intros Hall. exists tt. split; [exact (proj2 (Hitem _) (Hall item (list_elem_of_here _ _)))|]. refine (proj2 (IHitems _) _). intros x Hx. refine (Hall x _). by right.
  - transitivity (forall key item, (key, item) ∈ fields -> key ∉ INTERNAL_ONLY_UI_KEYS /\
      forall key', holds_field item key' -> key' ∉ INTERNAL_ONLY_UI_KEYS).
    2: { split.
         - intros Hi key Hf. inversion Hf as [? ? item Hin|? k item ? Hin Hb|]; subst;
             destruct (Hi _ _ Hin) as [Hkey Hbelow]; [exact Hkey|exact (Hbelow key Hb)].
         - intros Hk key item Hin. split; [exact (Hk _ (field_here _ _ _ Hin))|].
           intros key' Hf. exact (Hk _ (field_below _ _ _ _ Hin Hf)). }
    cbn [assertUiControllerSafety]. induction IH as [|[key item] fields Hitem _ IHfields].
    { split; [intros _ key item Hin; by apply elem_of_nil in Hin|done]. }
    cbn [snd] in Hitem.
    assert (Hbelow : (if is_function item then Ok tt else assertUiControllerSafety item (path +:+ "." +:+ key)) = Ok tt <->
      forall key', holds_field item key' -> key' ∉ INTERNAL_ONLY_UI_KEYS).
    { destruct (is_function item) eqn:Ef; [|exact (Hitem _)]. split; [|done].
      intros _ key' Hf. by apply holds_field_leaf in Hf. }
    rewrite bind_Ok_iff. setoid_rewrite bind_Ok_iff. setoid_rewrite fail_if_Ok_iff. setoid_rewrite bool_decide_eq_false. split.
    + intros (_ & Hkey & [] & H1 & H2). pose proof (proj1 Hbelow H1). pose proof (proj1 IHfields H2).
      intros k x [[= -> ->]|Hx]%elem_of_cons; [done|eauto].
    + intros Hall. destruct (Hall key item) as [Hkey Hb]; [by left|]. exists tt. split; [done|]. exists tt.
      split; [exact (proj2 Hbelow Hb)|]. refine (proj2 IHfields _). intros k x Hx. refine (Hall k x _). by right.
Qed.

(** ** Maps *)

(** A transaction is busy exactly while the interface shows neither an idle, nor a
    successful, nor a failed one, and it waits for a signature or shows a submitted
    transaction only then. *)
Theorem mapTransactionState_busy stage :
  transactionIsBusy stage = true <-> mapTransactionState stage ∉ [ui_idle; ui_success; ui_failure].
Proof. destruct stage; vm_compute; split; intros H; try done; set_solver. Qed.

(** A round that is settled is shown as settling, and one under allocation as
    settled. *)
Lemma mapVaultState_settled depositOpen entered :
  mapVaultState (Some (RoundState_number SETTLED)) depositOpen entered = ui_settling /\
  mapVaultState (Some (RoundState_number ALLOCATION_PROCESSING)) depositOpen entered = ui_settled.
Proof. done. Qed.

(** The page shows deposits as open only when they are: with the round's status as
    [getEffectiveVaultRoundStatus] computes it, a vault is shown open or entered
    exactly when its round is OPEN and the block's time is within its window. *)
Theorem mapVaultState_open (state : VaultPublicState) blockTimestamp :
  let status := getEffectiveVaultRoundStatus (Some (round_window state)) (Some blockTimestamp) in
  mapVaultState (Some (vp_state state)) (rs_depositOpen status) (vp_entered state) =
    (if vp_entered state then ui_entered else ui_open) <->
  vp_state state = 1 /\ vp_opensAt state <= blockTimestamp < vp_closesAt state.
Proof.
  cbv zeta. unfold mapVaultState, getEffectiveVaultRoundStatus, round_window. cbn [rw_state rw_opensAt rw_closesAt].
  destruct (Z.eqb_spec (vp_state state) 1) as [->|Hs]; cbn [negb].
  - destruct (Z.ltb_spec blockTimestamp (vp_opensAt state)); [cbn; split; [by destruct (vp_entered state)|lia]|].
    destruct (Z.leb_spec (vp_closesAt state) blockTimestamp); [cbn; split; [by destruct (vp_entered state)|lia]|].
    cbn. split; [lia|done].
  - split; [|lia]. cbn [rs_depositOpen]. rewrite andb_false_r.
    destruct (vp_state state =? 14), ((2 <=? vp_state state) && (vp_state state <? 14)), (vp_entered state); done.
Qed.

(** The chosen product is remembered: what a page stores is what the next page
    reads, over whatever was stored before and beside any other item; a browser
    without storage, or whose storage throws, always reads the second generation. *)
Theorem persistExperience_roundtrip storage experience :
  readStoredExperience (persistExperience storage experience) =
    match storage with storage_items _ => experience | _ => v2 end /\
  forall items key, storage = storage_items items -> key <> EXPERIENCE_STORAGE_KEY ->
    exists items', persistExperience storage experience = storage_items items' /\ map_get key items' = map_get key items.
Proof.
  split.
  - destruct storage as [| |items]; [done..|]. unfold persistExperience, readStoredExperience.
    rewrite map_get_set_eq. by destruct experience.
  - intros items key -> Hkey. eexists. split; [done|]. by apply map_get_set_ne.
Qed.

(** Every page of a product's navigation belongs to the product, but for the profile
    that both share. *)
Lemma navigation_experience :
  Forall (fun item => item.2 = "/app/profile" \/ experienceForPath item.2 = Some v2) V2_NAVIGATION /\
  Forall (fun item => item.2 = "/app/profile" \/ experienceForPath item.2 = Some v1) V1_NAVIGATION /\
  experienceForPath "/app/profile" = None.
Proof.
  split_and!; [..|done]; repeat (apply Forall_cons; split; [first [by left|by right]|]); apply Forall_nil; done.
Qed.

