(* ===== verification/Sg4Protocol.v ===== *)
(** * The benchmark protocol: scripts/sg4-protocol.ts

    The preregistration of the homomorphic-operation benchmarks, as the file
    builds it when it is loaded: the two limits on homomorphic work and the
    verdict of a sample, the exact statistics, the circuits with the operations
    they execute, and the manifest of priced operations derived from them.  A
    constant whose initialiser may throw is a [result].  Winner instances and
    the run plan are in Sg4Winner.v and Sg4RunPlan.v. *)
From Stdlib Require Import ZArith Lia Ascii.
From stdpp Require Import base option list sets strings.
From S2P Require Import Prelude Draw.
Local Open Scope Z_scope.

(** ** The limits on homomorphic work *)
Definition HCU_TRANSACTION_TOTAL_CEILING : Z := 20000000.
Definition HCU_TRANSACTION_DEPTH_CEILING : Z := 5000000.
Definition HCU_TOTAL_SAFETY_THRESHOLD : Z := Z.quot (HCU_TRANSACTION_TOTAL_CEILING * 3) 4.
Definition HCU_DEPTH_SAFETY_THRESHOLD : Z := Z.quot (HCU_TRANSACTION_DEPTH_CEILING * 3) 4.

(** A field that is not a bigint is absent. *)
Record SampleHcuMeasurements := { globalHCU : option Z; maxHCUDepth : option Z }.

Inductive SafetyResult : Type := PASS | FAIL.
Inductive HcuVerdict : Type := GO | NO_GO.
#[export] Instance SafetyResult_eq_dec : EqDecision SafetyResult.
Proof. solve_decision. Defined.
#[export] Instance HcuVerdict_eq_dec : EqDecision HcuVerdict.
Proof. solve_decision. Defined.

Record SampleHcuAssessment := {
  totalSafetyResult : SafetyResult; depthSafetyResult : SafetyResult; combinedHcuVerdict : HcuVerdict;
  missing : list string
}.

Definition below_threshold (measured : option Z) (threshold : Z) : SafetyResult :=
  match measured with Some z => if z <? threshold then PASS else FAIL | None => FAIL end.

Definition assessSampleHcu (measurements : SampleHcuMeasurements) : SampleHcuAssessment :=
  let missing :=
    (match globalHCU measurements with Some _ => [] | None => ["globalHCU"] end)
    ++ (match maxHCUDepth measurements with Some _ => [] | None => ["maxHCUDepth"] end) in
  let total := below_threshold (globalHCU measurements) HCU_TOTAL_SAFETY_THRESHOLD in
  let depth := below_threshold (maxHCUDepth measurements) HCU_DEPTH_SAFETY_THRESHOLD in
  {| totalSafetyResult := total; depthSafetyResult := depth;
     combinedHcuVerdict := if bool_decide (total = PASS) && bool_decide (depth = PASS) then GO else NO_GO;
     missing := missing |}.

(** ** The domain *)
Definition PROTOCOL_VERSION : string := "sg4-benchmark-protocol/v2".
Definition TOKEN_SCALE : Z := 1000000.
Definition MAX_POOL_WHOLE_TOKENS : Z := 1000000000.
Definition BALANCE_MAX_BASE_UNITS : Z := MAX_POOL_WHOLE_TOKENS * TOKEN_SCALE.
Definition ELAPSED_MAX_SECONDS : Z := 365 * 24 * 60 * 60.
Definition TWAB_MAX : Z := BALANCE_MAX_BASE_UNITS * ELAPSED_MAX_SECONDS.
Definition T_MAX : Z := TWAB_MAX.
Definition T_DIVIDES_DOMAIN : Z := Z.shiftl 1 74.
Definition T_POWER_MINUS_ONE : Z := T_DIVIDES_DOMAIN - 1.
Definition T_POWER_PLUS_ONE : Z := T_DIVIDES_DOMAIN + 1.
Definition CANDIDATE_DOMAIN_SIZE : Z := Z.shiftl 1 128.
Definition CHUNK_WEIGHT : Z := Z.quot T_MAX 64.

Definition invariant (condition : bool) (message : string) : result unit :=
  fail_if (negb condition) ("SG4 protocol invariant failed: " +:+ message).

Definition decimal (value : Z) : string := Z_toString value.

(** [factory] is called with 1, 2, ..., [count]. *)
Definition repeated {T : Type} (count : Z) (factory : Z -> T) : list T :=
  map (fun k => factory (Z.of_nat k)) (seq 1 (Z.to_nat count)).

(** ** Exact statistics *)
Record RejectionPlanView := {
  rv_total : string; rv_noDraw : bool; rv_quotient : option string; rv_remainder : option string;
  rv_rejectionLimit : option string; rv_allCandidatesValid : bool
}.

Definition rejectionPlan (total : Z) : result RejectionPlanView :=
  invariant ((0 <=? total) && (total <=? T_MAX)) "rejection total outside locked domain" ;;
  if total =? 0 then
    Ok {| rv_total := "0"; rv_noDraw := true; rv_quotient := None; rv_remainder := None; rv_rejectionLimit := None;
          rv_allCandidatesValid := false |}
  else
    let quotient := Z.quot CANDIDATE_DOMAIN_SIZE total in
    let remainder := Z.rem CANDIDATE_DOMAIN_SIZE total in
    Ok {| rv_total := decimal total; rv_noDraw := false; rv_quotient := Some (decimal quotient);
          rv_remainder := Some (decimal remainder); rv_rejectionLimit := Some (decimal (quotient * total));
          rv_allCandidatesValid := remainder =? 0 |}.

Definition nearestRankP90Index (sampleCount : Z) : result Z :=
  invariant (0 <? sampleCount) "p90 requires a sample" ;;
  Ok (Z.quot (9 * sampleCount + 9) 10 - 1).

Record ExactMean := { numerator : string; denominator : string }.

Fixpoint sum_nonnegative (sum : Z) (values : list Z) : result Z :=
  match values with
  | [] => Ok sum
  | value :: values' =>
      invariant (0 <=? value) "metric samples must be non-negative" ;;
      sum_nonnegative (sum + value) values'
  end.

Definition exactMean (values : list Z) : result ExactMean :=
  invariant (0 <? Z.of_nat (length values)) "mean requires a sample" ;;
  sum ← sum_nonnegative 0 values;
  Ok {| numerator := decimal sum; denominator := decimal (Z.of_nat (length values)) |}.

Record SequentialProjection := { sp_participants : string; sp_transactions : string; sp_projectedMilliseconds : string }.

Definition projectSequentialCompletion (participants chunkSize p90ChunkLatencyMilliseconds : Z)
    : result SequentialProjection :=
  invariant ((0 <? participants) && (0 <? chunkSize) && (0 <=? p90ChunkLatencyMilliseconds)) "invalid projection input" ;;
  let transactions := Z.quot (participants + chunkSize - 1) chunkSize in
  Ok {| sp_participants := decimal participants; sp_transactions := decimal transactions;
        sp_projectedMilliseconds := decimal (transactions * p90ChunkLatencyMilliseconds) |}.

(** ** The operations *)
Inductive OperandMode : Type := scalar | nonScalar | types.
#[export] Instance OperandMode_eq_dec : EqDecision OperandMode.
Proof. solve_decision. Defined.
Definition operandMode_text (mode : OperandMode) : string :=
  match mode with scalar => "scalar" | nonScalar => "nonScalar" | types => "types" end.

Module OP.
Definition allowBool : string := "FHE.allowThis(ebool)".
Definition allow64 : string := "FHE.allowThis(euint64)".
Definition allow128 : string := "FHE.allowThis(euint128)".
Definition allow256 : string := "FHE.allowThis(euint256)".
Definition rand64 : string := "FHE.randEuint64()".
Definition rand128 : string := "FHE.randEuint128()".
Definition rand256 : string := "FHE.randEuint256()".
Definition as128From64 : string := "FHE.asEuint128(euint64)".
Definition as128Public : string := "FHE.asEuint128(uint128)".
Definition as128Zero : string := "FHE.asEuint128(0)".
Definition mul128Public : string := "FHE.mul(euint128,uint128)".
Definition add128 : string := "FHE.add(euint128,euint128)".
Definition lt128Public : string := "FHE.lt(euint128,uint128)".
Definition lt128 : string := "FHE.lt(euint128,euint128)".
Definition rem128Public : string := "FHE.rem(euint128,uint128)".
Definition notBool : string := "FHE.not(ebool)".
Definition andBool : string := "FHE.and(ebool,ebool)".
Definition orBool : string := "FHE.or(ebool,ebool)".
Definition select128 : string := "FHE.select(ebool,euint128,euint128)".
Definition select64 : string := "FHE.select(ebool,euint64,euint64)".
Definition public128 : string := "FHE.makePubliclyDecryptable(euint128)".
Definition publicBool : string := "FHE.makePubliclyDecryptable(ebool)".
End OP.

(** [null] is [None]. *)
Record FheOperationSemantics := {
  solidityCall : string; canonicalOperation : option string; enforcementOperation : option string;
  operandMode : option OperandMode; operandTypes : list string; resultType : option string;
  costKeyType : option string; arity : Z; hcuPriced : bool; overloadResolution : string
}.

Definition FHE_OPERATION_SEMANTICS : list (string * FheOperationSemantics) := [
  (OP.allowBool,
   {| solidityCall := OP.allowBool; canonicalOperation := None;
      enforcementOperation := None; operandMode := None; operandTypes := ["ebool"];
      resultType := None; costKeyType := None; arity := 1; hcuPriced := false;
      overloadResolution := "ACL grant; no homomorphic work and no cost-table entry" |});
  (OP.allow64,
   {| solidityCall := OP.allow64; canonicalOperation := None;
      enforcementOperation := None; operandMode := None; operandTypes := ["euint64"];
      resultType := None; costKeyType := None; arity := 1; hcuPriced := false;
      overloadResolution := "ACL grant; no homomorphic work and no cost-table entry" |});
  (OP.allow128,
   {| solidityCall := OP.allow128; canonicalOperation := None;
      enforcementOperation := None; operandMode := None; operandTypes := ["euint128"];
      resultType := None; costKeyType := None; arity := 1; hcuPriced := false;
      overloadResolution := "ACL grant; no homomorphic work and no cost-table entry" |});
  (OP.allow256,
   {| solidityCall := OP.allow256; canonicalOperation := None;
      enforcementOperation := None; operandMode := None; operandTypes := ["euint256"];
      resultType := None; costKeyType := None; arity := 1; hcuPriced := false;
      overloadResolution := "ACL grant; no homomorphic work and no cost-table entry" |});
  (OP.public128,
   {| solidityCall := OP.public128; canonicalOperation := None;
      enforcementOperation := None; operandMode := None; operandTypes := ["euint128"];
      resultType := None; costKeyType := None; arity := 1; hcuPriced := false;
      overloadResolution := "public-decryption request; no homomorphic work and no cost-table entry" |});
  (OP.publicBool,
   {| solidityCall := OP.publicBool; canonicalOperation := None;
      enforcementOperation := None; operandMode := None; operandTypes := ["ebool"];
      resultType := None; costKeyType := None; arity := 1; hcuPriced := false;
      overloadResolution := "public-decryption request; no homomorphic work and no cost-table entry" |});
  (OP.rand64,
   {| solidityCall := OP.rand64; canonicalOperation := Some "FheRand";
      enforcementOperation := Some "FheRand"; operandMode := Some types; operandTypes := [];
      resultType := Some "euint64"; costKeyType := Some "Uint64"; arity := 0; hcuPriced := true;
      overloadResolution := "nullary width-selecting overload; the width is the result type" |});
  (OP.rand128,
   {| solidityCall := OP.rand128; canonicalOperation := Some "FheRand";
      enforcementOperation := Some "FheRand"; operandMode := Some types; operandTypes := [];
      resultType := Some "euint128"; costKeyType := Some "Uint128"; arity := 0; hcuPriced := true;
      overloadResolution := "nullary width-selecting overload; the width is the result type" |});
  (OP.rand256,
   {| solidityCall := OP.rand256; canonicalOperation := Some "FheRand";
      enforcementOperation := Some "FheRand"; operandMode := Some types; operandTypes := [];
      resultType := Some "euint256"; costKeyType := Some "Uint256"; arity := 0; hcuPriced := true;
      overloadResolution := "nullary width-selecting overload; the width is the result type" |});
  (OP.as128From64,
   {| solidityCall := OP.as128From64; canonicalOperation := Some "Cast";
      enforcementOperation := Some "Cast"; operandMode := Some types; operandTypes := ["euint64"];
      resultType := Some "euint128"; costKeyType := Some "Uint128"; arity := 1; hcuPriced := true;
      overloadResolution := "ciphertext operand selects the Cast overload; priced at the RESULT width" |});
  (OP.as128Public,
   {| solidityCall := OP.as128Public; canonicalOperation := Some "TrivialEncrypt";
      enforcementOperation := Some "TrivialEncrypt"; operandMode := Some types; operandTypes := ["uint128"];
      resultType := Some "euint128"; costKeyType := Some "Uint128"; arity := 1; hcuPriced := true;
      overloadResolution := "plaintext operand selects the TrivialEncrypt overload, not Cast" |});
  (OP.as128Zero,
   {| solidityCall := OP.as128Zero; canonicalOperation := Some "TrivialEncrypt";
      enforcementOperation := Some "TrivialEncrypt"; operandMode := Some types; operandTypes := ["uint128"];
      resultType := Some "euint128"; costKeyType := Some "Uint128"; arity := 1; hcuPriced := true;
      overloadResolution := "the integer literal 0 is resolved to the uint128 TrivialEncrypt overload by the euint128 assignment target; it is NOT a Cast and NOT a bool" |});
  (OP.mul128Public,
   {| solidityCall := OP.mul128Public; canonicalOperation := Some "FheMul";
      enforcementOperation := Some "FheMul"; operandMode := Some scalar; operandTypes := ["euint128"; "uint128"];
      resultType := Some "euint128"; costKeyType := Some "Uint128"; arity := 2; hcuPriced := true;
      overloadResolution := "plaintext second operand selects the scalar cost group" |});
  (OP.add128,
   {| solidityCall := OP.add128; canonicalOperation := Some "FheAdd";
      enforcementOperation := Some "FheAdd"; operandMode := Some nonScalar; operandTypes := ["euint128"; "euint128"];
      resultType := Some "euint128"; costKeyType := Some "Uint128"; arity := 2; hcuPriced := true;
      overloadResolution := "two ciphertext operands select the non-scalar cost group" |});
  (OP.lt128Public,
   {| solidityCall := OP.lt128Public; canonicalOperation := Some "FheLt";
      enforcementOperation := Some "FheLt"; operandMode := Some scalar; operandTypes := ["euint128"; "uint128"];
      resultType := Some "ebool"; costKeyType := Some "Uint128"; arity := 2; hcuPriced := true;
      overloadResolution := "plaintext second operand selects the scalar cost group; priced at the OPERAND width" |});
  (OP.lt128,
   {| solidityCall := OP.lt128; canonicalOperation := Some "FheLt";
      enforcementOperation := Some "FheLt"; operandMode := Some nonScalar; operandTypes := ["euint128"; "euint128"];
      resultType := Some "ebool"; costKeyType := Some "Uint128"; arity := 2; hcuPriced := true;
      overloadResolution := "two ciphertext operands select the non-scalar cost group; priced at the OPERAND width" |});
  (OP.rem128Public,
   {| solidityCall := OP.rem128Public; canonicalOperation := Some "FheRem";
      enforcementOperation := Some "FheRem"; operandMode := Some scalar; operandTypes := ["euint128"; "uint128"];
      resultType := Some "euint128"; costKeyType := Some "Uint128"; arity := 2; hcuPriced := true;
      overloadResolution := "plaintext divisor selects the scalar cost group" |});
  (OP.notBool,
   {| solidityCall := OP.notBool; canonicalOperation := Some "FheNot";
      enforcementOperation := Some "FheNot"; operandMode := Some types; operandTypes := ["ebool"];
      resultType := Some "ebool"; costKeyType := Some "Bool"; arity := 1; hcuPriced := true;
      overloadResolution := "unary boolean negation; the single cost group is keyed by type" |});
  (OP.andBool,
   {| solidityCall := OP.andBool; canonicalOperation := Some "FheBitAnd";
      enforcementOperation := Some "FheBitAnd"; operandMode := Some nonScalar; operandTypes := ["ebool"; "ebool"];
      resultType := Some "ebool"; costKeyType := Some "Bool"; arity := 2; hcuPriced := true;
      overloadResolution := "two ciphertext operands select the non-scalar cost group" |});
  (OP.orBool,
   {| solidityCall := OP.orBool; canonicalOperation := Some "FheBitOr";
      enforcementOperation := Some "FheBitOr"; operandMode := Some nonScalar; operandTypes := ["ebool"; "ebool"];
      resultType := Some "ebool"; costKeyType := Some "Bool"; arity := 2; hcuPriced := true;
      overloadResolution := "two ciphertext operands select the non-scalar cost group" |});
  (OP.select128,
   {| solidityCall := OP.select128; canonicalOperation := Some "FheIfThenElse";
      enforcementOperation := Some "IfThenElse"; operandMode := Some types; operandTypes := ["ebool"; "euint128"; "euint128"];
      resultType := Some "euint128"; costKeyType := Some "Uint128"; arity := 3; hcuPriced := true;
      overloadResolution := "ternary select; the branch width is the result type and the cost key" |});
  (OP.select64,
   {| solidityCall := OP.select64; canonicalOperation := Some "FheIfThenElse";
      enforcementOperation := Some "IfThenElse"; operandMode := Some types; operandTypes := ["ebool"; "euint64"; "euint64"];
      resultType := Some "euint64"; costKeyType := Some "Uint64"; arity := 3; hcuPriced := true;
      overloadResolution := "ternary select; the branch width is the result type and the cost key" |})
].

Inductive CircuitClass : Type := primitive | composite | winner_chunk | public_decryption.
#[export] Instance CircuitClass_eq_dec : EqDecision CircuitClass.
Proof. solve_decision. Defined.

Record CircuitDefinition := {
  cd_id : string; cd_family : string; cd_classification : CircuitClass; cd_operations : list string;
  cd_productionCritical : bool; cd_widthRole : string; cd_vectorIds : list string
}.
#[export] Instance CircuitDefinition_eq_dec : EqDecision CircuitDefinition.
Proof. solve_decision. Defined.

(** ** The manifest of priced operations *)
Record CanonicalOperationVariant := {
  cv_variantId : string; cv_canonicalOperation : option string; cv_enforcementOperation : option string;
  cv_operandMode : option OperandMode; cv_operandTypes : list string; cv_resultType : option string;
  cv_costKeyType : option string; cv_arity : Z; cv_solidityCalls : list string; cv_circuits : list string
}.

(** A nullable field in a template literal. *)
Definition nullable_text (value : option string) : string := default "null" value.

Definition canonicalVariantId (canonicalOperation : option string) (mode : option OperandMode)
    (costKeyType : option string) : string :=
  nullable_text canonicalOperation +:+ "." +:+ nullable_text (operandMode_text <$> mode) +:+ "."
    +:+ nullable_text costKeyType.

(** The collation of the host: a consistent order of texts. *)
Class Locale := {
  localeCompare : string -> string -> Z;
  locale_order :: Comparator localeCompare
}.

Definition variant_of (semantics : FheOperationSemantics) (call circuitId : string) : CanonicalOperationVariant :=
  {| cv_variantId := canonicalVariantId (canonicalOperation semantics) (operandMode semantics) (costKeyType semantics);
     cv_canonicalOperation := canonicalOperation semantics; cv_enforcementOperation := enforcementOperation semantics;
     cv_operandMode := operandMode semantics; cv_operandTypes := operandTypes semantics;
     cv_resultType := resultType semantics; cv_costKeyType := costKeyType semantics; cv_arity := arity semantics;
     cv_solidityCalls := [call]; cv_circuits := [circuitId] |}.

Definition compatible (existing variant : CanonicalOperationVariant) : bool :=
  bool_decide (cv_resultType existing = cv_resultType variant) && (cv_arity existing =? cv_arity variant)
  && bool_decide (cv_enforcementOperation existing = cv_enforcementOperation variant)
  && bool_decide (cv_operandTypes existing = cv_operandTypes variant).

(** One more member of a sorted list without duplicates. *)
Definition with_member (members : list string) (member : string) : list string :=
  js_sort compare_code_units (js_set (members ++ [member])).

Definition with_call (existing : CanonicalOperationVariant) (call circuitId : string) : CanonicalOperationVariant :=
  {| cv_variantId := cv_variantId existing; cv_canonicalOperation := cv_canonicalOperation existing;
     cv_enforcementOperation := cv_enforcementOperation existing; cv_operandMode := cv_operandMode existing;
     cv_operandTypes := cv_operandTypes existing; cv_resultType := cv_resultType existing;
     cv_costKeyType := cv_costKeyType existing; cv_arity := cv_arity existing;
     cv_solidityCalls := with_member (cv_solidityCalls existing) call;
     cv_circuits := with_member (cv_circuits existing) circuitId |}.

Definition VariantMap : Type := list (string * CanonicalOperationVariant).

(** The body of the inner loop. *)
Definition add_call (semantics : list (string * FheOperationSemantics)) (circuit : CircuitDefinition)
    (byVariant : VariantMap) (call : string) : result VariantMap :=
  if negb (startsWith "FHE." call) then Ok byVariant
  else match map_get call semantics with
  | None => throw_new ("SG4 circuit " +:+ cd_id circuit +:+ " executes " +:+ call
                         +:+ ", which has no declared operation semantics")
  | Some declared =>
      if negb (hcuPriced declared) then Ok byVariant
      else
        let variant := variant_of declared call (cd_id circuit) in
        match map_get (cv_variantId variant) byVariant with
        | None => Ok (map_set (cv_variantId variant) variant byVariant)
        | Some existing =>
            if compatible existing variant then
              Ok (map_set (cv_variantId variant) (with_call existing call (cd_id circuit)) byVariant)
            else throw_new ("SG4 operation semantics describe " +:+ cv_variantId variant +:+ " two incompatible ways")
        end
  end.

Fixpoint add_calls (semantics : list (string * FheOperationSemantics)) (circuit : CircuitDefinition)
    (byVariant : VariantMap) (calls : list string) : result VariantMap :=
  match calls with
  | [] => Ok byVariant
  | call :: calls' =>
      byVariant' ← add_call semantics circuit byVariant call;
      add_calls semantics circuit byVariant' calls'
  end.

Fixpoint add_circuits (semantics : list (string * FheOperationSemantics)) (byVariant : VariantMap)
    (circuits : list CircuitDefinition) : result VariantMap :=
  match circuits with
  | [] => Ok byVariant
  | circuit :: circuits' =>
      byVariant' ← add_calls semantics circuit byVariant (cd_operations circuit);
      add_circuits semantics byVariant' circuits'
  end.

Definition deriveCanonicalOperationManifest `{Locale} (circuits : list CircuitDefinition)
    (semantics : list (string * FheOperationSemantics)) : result (list CanonicalOperationVariant) :=
  byVariant ← add_circuits semantics [] circuits;
  Ok (js_sort (fun left right => localeCompare (cv_variantId left) (cv_variantId right)) byVariant.*2).

(** ** The circuits *)
Definition store (name : string) : string := "STORE." +:+ name.

Definition WINNER_STEP_OPERATIONS : list string :=
  [OP.add128; OP.lt128; OP.notBool; OP.andBool; OP.as128Public; OP.select128; OP.orBool].
Definition WINNER_PERSIST_OPERATIONS : list string :=
  [store "_winnerPrefix"; store "_winnerFound"; store "_winnerIndex"; store "winnerCursor";
   OP.allow128; OP.allowBool; OP.allow128].
Definition winnerOperations (size : Z) : list string :=
  concat (repeated size (fun _ => WINNER_STEP_OPERATIONS)) ++ WINNER_PERSIST_OPERATIONS.
Definition ALL_VALID_INITIALIZATION_OPERATIONS : list string :=
  [OP.rand128; OP.rem128Public; store "_acceptedTicket"; store "_winnerPrefix"; store "winnerCursor";
   store "acceptedTicketReady"; OP.allow128].
Definition GENERAL_PIPELINE_OPERATIONS : list string :=
  [OP.rand128; OP.lt128Public; store "_candidateValidity"; OP.rem128Public; store "_candidateRemainder";
   OP.allowBool; OP.allow128; store "generalCandidatePending"].

Inductive WinnerSemanticId : Type :=
| FIRST_MATCH | MIDDLE_MATCH | LAST_MATCH | NO_MATCH_BEFORE_CHUNK_BOUNDARY | ALREADY_FOUND_BEFORE_CHUNK
| CONTINUATION_MATCH_IN_LATER_CHUNK.
#[export] Instance WinnerSemanticId_eq_dec : EqDecision WinnerSemanticId.
Proof. solve_decision. Defined.

Definition WINNER_SEMANTIC_IDS : list WinnerSemanticId :=
  [FIRST_MATCH; MIDDLE_MATCH; LAST_MATCH; NO_MATCH_BEFORE_CHUNK_BOUNDARY; ALREADY_FOUND_BEFORE_CHUNK;
   CONTINUATION_MATCH_IN_LATER_CHUNK].

Definition semantic_text (semanticId : WinnerSemanticId) : string :=
  match semanticId with
  | FIRST_MATCH => "FIRST_MATCH"
  | MIDDLE_MATCH => "MIDDLE_MATCH"
  | LAST_MATCH => "LAST_MATCH"
  | NO_MATCH_BEFORE_CHUNK_BOUNDARY => "NO_MATCH_BEFORE_CHUNK_BOUNDARY"
  | ALREADY_FOUND_BEFORE_CHUNK => "ALREADY_FOUND_BEFORE_CHUNK"
  | CONTINUATION_MATCH_IN_LATER_CHUNK => "CONTINUATION_MATCH_IN_LATER_CHUNK"
  end.

Record WinnerCircuitSpec := { ws_circuitId : string; ws_circuitCode : Z; ws_chunkSize : Z }.
Definition WINNER_CIRCUIT_SPECS : list WinnerCircuitSpec := [
  {| ws_circuitId := "WINNER_STEP_128"; ws_circuitCode := 1; ws_chunkSize := 1 |};
  {| ws_circuitId := "WINNER_CHUNK_1"; ws_circuitCode := 2; ws_chunkSize := 1 |};
  {| ws_circuitId := "WINNER_CHUNK_4"; ws_circuitCode := 3; ws_chunkSize := 4 |};
  {| ws_circuitId := "WINNER_CHUNK_8"; ws_circuitCode := 4; ws_chunkSize := 8 |};
  {| ws_circuitId := "WINNER_CHUNK_16"; ws_circuitCode := 5; ws_chunkSize := 16 |};
  {| ws_circuitId := "WINNER_CHUNK_32"; ws_circuitCode := 6; ws_chunkSize := 32 |}
].
Definition SINGLE_STEP_SEMANTICS : list WinnerSemanticId :=
  [FIRST_MATCH; NO_MATCH_BEFORE_CHUNK_BOUNDARY; ALREADY_FOUND_BEFORE_CHUNK; CONTINUATION_MATCH_IN_LATER_CHUNK].

Definition CLOSED_WINNER_APPLICABILITY : list (string * list WinnerSemanticId) :=
  map (fun spec => (ws_circuitId spec, if ws_chunkSize spec =? 1 then SINGLE_STEP_SEMANTICS else WINNER_SEMANTIC_IDS))
    WINNER_CIRCUIT_SPECS.

Definition winnerInstanceId (circuitId : string) (semanticId : WinnerSemanticId) : string :=
  semantic_text semanticId +:+ "__" +:+ circuitId.

(** [CLOSED_WINNER_APPLICABILITY[circuitId].map(...)]: a [TypeError] for another key. *)
Definition applicability_map {T : Type} (circuitId : string) (f : WinnerSemanticId -> T) : result (list T) :=
  match map_get circuitId CLOSED_WINNER_APPLICABILITY with
  | Some ids => Ok (map f ids)
  | None => Throw (JsError true "TypeError" None "Cannot read properties of undefined (reading 'map')")
  end.
Definition winnerInstanceIds (circuitId : string) : result (list string) :=
  applicability_map circuitId (winnerInstanceId circuitId).

Definition GENERAL_VECTOR_IDS : list string := ["T_MAX"; "T_POWER_MINUS_ONE"; "T_POWER_PLUS_ONE"].
Definition PRIZE_VECTOR_IDS : list string := ["WINNER_TRUE"; "WINNER_FALSE"].
Definition COMPOSITE_CHUNK_8_INSTANCE : string := "ALL_VALID_FIXED_WINNER__COMPOSITE_DRAW_AND_CHUNK_8".
Definition COMPOSITE_CHUNK_32_INSTANCE : string := "ALL_VALID_FIXED_WINNER__COMPOSITE_DRAW_AND_CHUNK_32".

Definition circuit (id family : string) (classification : CircuitClass) (operations : list string)
    (productionCritical : bool) (widthRole : string) (vectorIds : list string) : CircuitDefinition :=
  {| cd_id := id; cd_family := family; cd_classification := classification; cd_operations := operations;
     cd_productionCritical := productionCritical; cd_widthRole := widthRole; cd_vectorIds := vectorIds |}.
Definition SINGLE : list string := ["FIXED"].

Definition BUILDER_CIRCUITS : result (list CircuitDefinition) :=
  ids_WINNER_STEP_128 ← winnerInstanceIds "WINNER_STEP_128";
  ids_WINNER_CHUNK_1 ← winnerInstanceIds "WINNER_CHUNK_1";
  ids_WINNER_CHUNK_4 ← winnerInstanceIds "WINNER_CHUNK_4";
  ids_WINNER_CHUNK_8 ← winnerInstanceIds "WINNER_CHUNK_8";
  ids_WINNER_CHUNK_16 ← winnerInstanceIds "WINNER_CHUNK_16";
  ids_WINNER_CHUNK_32 ← winnerInstanceIds "WINNER_CHUNK_32";
  Ok [
    circuit "RNG_64" "randomness-width" primitive [OP.rand64; store "_result64"; OP.allow64] false "comparison-only"
      SINGLE;
    circuit "RNG_128" "randomness-width" primitive [OP.rand128; store "_result128"; OP.allow128] true "production"
      SINGLE;
    circuit "RNG_256" "randomness-width" primitive [OP.rand256; store "_last256"; OP.allow256] false
      "comparison-only-api-limited" SINGLE;
    circuit "TWAB_CAST_64_TO_128" "twab" primitive [OP.as128From64; store "_result128"; OP.allow128] true "production"
      ["BALANCE_MAX"];
    circuit "TWAB_DELTA_128" "twab" primitive [OP.as128From64; OP.mul128Public; store "_result128"; OP.allow128] true
      "production" ["BALANCE_MAX_ELAPSED_MAX"];
    circuit "TWAB_ACCUMULATE_128" "twab" primitive [OP.as128From64; OP.mul128Public; OP.add128; store "_result128";
      OP.allow128] true "production" ["TWAB_ACCUMULATION_SAFE_MAX"];
    circuit "AGGREGATE_ADD_128" "twab" primitive [OP.add128; store "_result128"; OP.allow128] true "production"
      ["AGGREGATE_SAFE_MAX"];
    circuit "PREFIX_ADD_128" "twab" primitive [OP.add128; store "_result128"; OP.allow128] true "production"
      ["PREFIX_SAFE_MAX"];
    circuit "DRAW_ZERO_TOTAL_NOOP" "rejection" primitive [store "_result128"] true "production" ["T_ZERO"];
    circuit "DRAW_TOTAL_ONE" "rejection" primitive [OP.as128Zero; store "_result128"; OP.allow128] true "production"
      ["T_ONE"];
    circuit "REJECTION_VALID_GENERAL_128" "rejection" primitive [OP.lt128Public; store "_resultBool"; OP.allowBool]
      true "production" GENERAL_VECTOR_IDS;
    circuit "TICKET_REMAINDER_GENERAL_128" "rejection" primitive [OP.rem128Public; store "_result128"; OP.allow128]
      true "production" GENERAL_VECTOR_IDS;
    circuit "REJECTION_PIPELINE_GENERAL_128" "rejection" composite GENERAL_PIPELINE_OPERATIONS true
      "production-candidate-only" GENERAL_VECTOR_IDS;
    circuit "REJECTION_PIPELINE_ALL_VALID_128" "rejection" composite [OP.rand128; OP.rem128Public; store "_result128";
      store "_resultBool"; OP.allow128] true "production" ["T_DIVIDES_DOMAIN"];
    circuit "WINNER_STEP_128" "winner-selection" primitive (winnerOperations 1) true "production" ids_WINNER_STEP_128;
    circuit "WINNER_CHUNK_1" "winner-chunk" winner_chunk (winnerOperations 1) true "production" ids_WINNER_CHUNK_1;
    circuit "WINNER_CHUNK_4" "winner-chunk" winner_chunk (winnerOperations 4) true "production" ids_WINNER_CHUNK_4;
    circuit "WINNER_CHUNK_8" "winner-chunk" winner_chunk (winnerOperations 8) true "production" ids_WINNER_CHUNK_8;
    circuit "WINNER_CHUNK_16" "winner-chunk" winner_chunk (winnerOperations 16) true "production" ids_WINNER_CHUNK_16;
    circuit "WINNER_CHUNK_32" "winner-chunk" winner_chunk (winnerOperations 32) true "production" ids_WINNER_CHUNK_32;
    circuit "PRIZE_OR_ZERO" "prize-masking" primitive [OP.select64; store "_result64"; OP.allow64] true "production"
      PRIZE_VECTOR_IDS;
    circuit "COMPOSITE_TWAB_UPDATE" "composite" composite [OP.as128From64; OP.mul128Public; OP.add128; store
      "_result128"; OP.allow128] true "production" ["TWAB_ACCUMULATION_SAFE_MAX"];
    circuit "COMPOSITE_DRAW_GENERAL" "composite" composite GENERAL_PIPELINE_OPERATIONS true
      "production-candidate-only" GENERAL_VECTOR_IDS;
    circuit "COMPOSITE_DRAW_ALL_VALID" "composite" composite [OP.rand128; OP.rem128Public; store "_result128"; store
      "_resultBool"; OP.allow128] true "production" ["T_DIVIDES_DOMAIN"];
    circuit "COMPOSITE_DRAW_AND_CHUNK_8" "composite" composite (ALL_VALID_INITIALIZATION_OPERATIONS ++
      winnerOperations 8) true "resource-envelope-guaranteed-valid" [COMPOSITE_CHUNK_8_INSTANCE];
    circuit "COMPOSITE_DRAW_AND_CHUNK_32" "composite" composite (ALL_VALID_INITIALIZATION_OPERATIONS ++
      winnerOperations 32) true "resource-envelope-guaranteed-valid" [COMPOSITE_CHUNK_32_INSTANCE];
    circuit "PUBLIC_DECRYPT_AGGREGATE_128" "public-decryption" public_decryption [OP.add128; store "_publicAggregate";
      OP.allow128; OP.public128] true "production" ["T_MAX"];
    circuit "PUBLIC_DECRYPT_VALID_BOOL" "public-decryption" public_decryption [OP.orBool; store "_publicValidity";
      OP.allowBool; OP.publicBool] true "production" ["VALID_TRUE"]
  ].

Definition SG4_CANONICAL_OPERATION_VARIANTS `{Locale} : result (list CanonicalOperationVariant) :=
  circuits ← BUILDER_CIRCUITS;
  deriveCanonicalOperationManifest circuits FHE_OPERATION_SEMANTICS.

(** * Theorems *)

(** ** Statistics *)

(** A sample passes when both of its measurements are there and below three
    quarters of their ceilings: neither control can stand for the other. *)
Lemma assessSampleHcu_GO measurements :
  combinedHcuVerdict (assessSampleHcu measurements) = GO <->
  exists total depth, globalHCU measurements = Some total /\ maxHCUDepth measurements = Some depth /\
    4 * total < 3 * HCU_TRANSACTION_TOTAL_CEILING /\ 4 * depth < 3 * HCU_TRANSACTION_DEPTH_CEILING.
Proof.
  unfold assessSampleHcu, below_threshold. change HCU_TOTAL_SAFETY_THRESHOLD with 15000000.
  change HCU_DEPTH_SAFETY_THRESHOLD with 3750000. change HCU_TRANSACTION_TOTAL_CEILING with 20000000.
  change HCU_TRANSACTION_DEPTH_CEILING with 5000000. destruct measurements as [[t|] [d|]]; cbn.
  - destruct (Z.ltb_spec t 15000000), (Z.ltb_spec d 3750000); cbn; split; try done;
      try (intros (? & ? & [= <-] & [= <-] & ? & ?); lia).
    intros _. exists t, d. repeat split; lia.
  - split; [by destruct (t <? 15000000)|naive_solver].
  - split; [done|naive_solver].
  - split; [done|naive_solver].
Qed.

(** The index of the nearest rank: the least that leaves nine tenths of the
    samples at or below it. *)
Lemma nearestRankP90Index_least count k :
  nearestRankP90Index count = Ok k ->
  0 <= k < count /\ 9 * count <= 10 * (k + 1) /\ (forall j, 9 * count <= 10 * (j + 1) -> k <= j).
Proof.
  unfold nearestRankP90Index, invariant. intros E. apply result_bind_Ok in E as ([] & Hc & [= <-]).
  apply fail_if_Ok in Hc. apply negb_false_iff, Z.ltb_lt in Hc. rewrite Z.quot_div_nonneg by lia.
  pose proof (Z.div_mod (9 * count + 9) 10 ltac:(lia)). pose proof (Z.mod_pos_bound (9 * count + 9) 10 ltac:(lia)).
  repeat split; intros; lia.
Qed.

(** The plan of a drawable total is the one the reference draw uses. *)
Lemma rejectionPlan_reference total :
  0 < total <= T_MAX ->
  exists parameters, rejectionParameters total = Ok parameters /\
    rejectionPlan total = Ok
      {| rv_total := decimal total; rv_noDraw := false; rv_quotient := Some (decimal (rp_quotient parameters));
         rv_remainder := Some (decimal (UINT128_DOMAIN - rp_limit parameters));
         rv_rejectionLimit := Some (decimal (rp_limit parameters));
         rv_allCandidatesValid := rp_acceptsAll parameters |}.
Proof.
  intros Ht. assert (T_MAX < UINT128_DOMAIN) by reflexivity.
  eexists. split; [apply rejectionParameters_Ok; lia|]. unfold rejectionPlan, invariant. cbn [rp_quotient rp_limit rp_acceptsAll].
  replace ((0 <=? total) && (total <=? T_MAX)) with true by (symmetry; apply andb_true_iff; rewrite !Z.leb_le; lia).
  replace (total =? 0) with false by (symmetry; apply Z.eqb_neq; lia).
  change CANDIDATE_DOMAIN_SIZE with UINT128_DOMAIN. cbn -[UINT128_DOMAIN decimal].
  assert (0 <= UINT128_DOMAIN) by done. rewrite Z.quot_div_nonneg, Z.rem_mod_nonneg by lia.
  assert (Em : UINT128_DOMAIN mod total = UINT128_DOMAIN - UINT128_DOMAIN / total * total).
  { pose proof (Z.div_mod UINT128_DOMAIN total ltac:(lia)). lia. }
  rewrite Em. do 2 f_equal. apply eq_true_iff_eq. rewrite !Z.eqb_eq. lia.
Qed.

(** ** The manifest *)

(** A priced call of a circuit. *)
Record Execution := { ex_circuit : string; ex_call : string; ex_semantics : FheOperationSemantics }.

Definition executed_call (semantics : list (string * FheOperationSemantics)) (circuit : CircuitDefinition) (call : string)
    : list Execution :=
  if startsWith "FHE." call then
    match map_get call semantics with
    | Some declared =>
        if hcuPriced declared then [{| ex_circuit := cd_id circuit; ex_call := call; ex_semantics := declared |}] else []
    | None => []
    end
  else [].

(** The priced calls of the circuits, in order. *)
Definition executions (semantics : list (string * FheOperationSemantics)) (circuits : list CircuitDefinition)
    : list Execution :=
  concat (map (fun circuit => concat (map (executed_call semantics circuit) (cd_operations circuit))) circuits).

Definition execution_variant (e : Execution) : string :=
  canonicalVariantId (canonicalOperation (ex_semantics e)) (operandMode (ex_semantics e)) (costKeyType (ex_semantics e)).

Definition describes (v : CanonicalOperationVariant) (e : Execution) : Prop :=
  cv_variantId v = execution_variant e /\ cv_resultType v = resultType (ex_semantics e) /\
  cv_arity v = arity (ex_semantics e) /\ cv_enforcementOperation v = enforcementOperation (ex_semantics e) /\
  cv_operandTypes v = operandTypes (ex_semantics e).

(** The lists [members] of the variants hold what [source] says of their calls. *)
Definition collects (M : VariantMap) (es : list Execution) (members : CanonicalOperationVariant -> list string)
    (source : Execution -> string) : Prop :=
  forall k v c, (k, v) ∈ M -> (c ∈ members v <-> exists e, e ∈ es /\ execution_variant e = k /\ source e = c).

(** The map after the calls [es]. *)
Record records (M : VariantMap) (es : list Execution) : Prop := {
  rec_keys : NoDup M.*1;
  rec_ids : forall k v, (k, v) ∈ M -> cv_variantId v = k /\ exists e, e ∈ es /\ execution_variant e = k;
  rec_described : forall e, e ∈ es -> exists v, map_get (execution_variant e) M = Some v /\ describes v e;
  rec_circuits : collects M es cv_circuits ex_circuit;
  rec_calls : collects M es cv_solidityCalls ex_call
}.

Lemma elem_of_with_member x members member : x ∈ with_member members member <-> x ∈ members \/ x = member.
Proof. unfold with_member. rewrite elem_of_js_sort, elem_of_js_set. set_solver. Qed.

Lemma compatible_true existing variant :
  compatible existing variant = true <->
  cv_resultType existing = cv_resultType variant /\ cv_arity existing = cv_arity variant /\
  cv_enforcementOperation existing = cv_enforcementOperation variant /\
  cv_operandTypes existing = cv_operandTypes variant.
Proof. unfold compatible. rewrite !andb_true_iff, !bool_decide_eq_true, Z.eqb_eq. naive_solver. Qed.

Lemma elem_of_map_set_NoDup (M : VariantMap) k v k' v' :
  NoDup M.*1 -> (k', v') ∈ map_set k v M <-> (k' = k /\ v' = v) \/ (k' <> k /\ (k', v') ∈ M).
Proof.
  intros HM. split.
  - intros Hin. apply (map_get_elem _ _ _ (map_set_NoDup k v M HM)) in Hin. rewrite map_get_set in Hin.
    case_decide as Hk; [by simplify_eq; left|]. right. split; [done|]. by apply map_get_Some_elem.
  - intros [[-> ->]|[Hk Hin]]; apply map_get_Some_elem; [apply map_get_set_eq|].
    rewrite map_get_set_ne by done. by apply map_get_elem.
Qed.

Lemma collects_new M es e v members source :
  NoDup M.*1 -> collects M es members source -> (forall e', e' ∈ es -> execution_variant e' <> execution_variant e) ->
  members v = [source e] -> collects (map_set (execution_variant e) v M) (es ++ [e]) members source.
Proof.
  intros HM Hc Hfresh Hv k v' c [[-> ->]|[Hne Hin]]%(elem_of_map_set_NoDup _ _ _ _ _ HM).
  - rewrite Hv, list_elem_of_singleton. split; [intros ->; exists e; set_solver|].
    intros (e' & [He'|He'%list_elem_of_singleton]%elem_of_app & E & <-); [by apply Hfresh in E|by subst].
  - rewrite (Hc _ _ _ Hin). split; intros (e' & He' & E & <-); exists e'; [set_solver|].
    apply elem_of_app in He' as [?|He'%list_elem_of_singleton]; [done|by subst].
Qed.

Lemma collects_again M es e v v' members source :
  NoDup M.*1 -> collects M es members source -> map_get (execution_variant e) M = Some v ->
  members v' = with_member (members v) (source e) ->
  collects (map_set (execution_variant e) v' M) (es ++ [e]) members source.
Proof.
  intros HM Hc Hv Hv' k w c [[-> ->]|[Hne Hin]]%(elem_of_map_set_NoDup _ _ _ _ _ HM).
  - rewrite Hv', elem_of_with_member, (Hc _ _ _ (map_get_Some_elem _ _ _ Hv)). split.
    + intros [(e' & ? & ? & <-)| ->]; [exists e'; set_solver|exists e; set_solver].
    + intros (e' & [He'| ->%list_elem_of_singleton]%elem_of_app & E & <-); [left; by exists e'|by right].
  - rewrite (Hc _ _ _ Hin). split; intros (e' & He' & E & <-); exists e'; [set_solver|].
    apply elem_of_app in He' as [?|He'%list_elem_of_singleton]; [done|by subst].
Qed.

(** A variant seen for the first time. *)
Lemma records_new M es e :
  records M es -> map_get (execution_variant e) M = None ->
  records (map_set (execution_variant e) (variant_of (ex_semantics e) (ex_call e) (ex_circuit e)) M) (es ++ [e]).
Proof.
  intros [Hk Hi Hd Hc Hs] Hn.
  assert (Hfresh : forall e', e' ∈ es -> execution_variant e' <> execution_variant e).
  { intros e' He' E. destruct (Hd e' He') as (v & Hv & _). rewrite E in Hv. by rewrite Hv in Hn. }
  split; [by apply map_set_NoDup| | |by apply collects_new|by apply collects_new].
  - intros k v [[-> ->]|[_ Hin]]%(elem_of_map_set_NoDup _ _ _ _ _ Hk); [split; [done|]; exists e; set_solver|].
    destruct (Hi _ _ Hin) as (? & e' & ? & ?). split; [done|]. exists e'. set_solver.
  - intros e' [He'| ->%list_elem_of_singleton]%elem_of_app.
    + rewrite map_get_set_ne by (by apply Hfresh). by apply Hd.
    + eexists. split; [apply map_get_set_eq|done].
Qed.

(** A variant seen again, by a call that agrees with it. *)
Lemma records_again M es e v :
  records M es -> map_get (execution_variant e) M = Some v -> describes v e ->
  records (map_set (execution_variant e) (with_call v (ex_call e) (ex_circuit e)) M) (es ++ [e]).
Proof.
  intros [Hk Hi Hd Hc Hs] Hv Hdesc.
  split; [by apply map_set_NoDup| | |by eapply collects_again|by eapply collects_again].
  - intros k w [[-> ->]|[_ Hin]]%(elem_of_map_set_NoDup _ _ _ _ _ Hk); [split; [apply Hdesc|]; exists e; set_solver|].
    destruct (Hi _ _ Hin) as (? & e' & ? & ?). split; [done|]. exists e'. set_solver.
  - intros e' [He'| ->%list_elem_of_singleton]%elem_of_app; [|eexists; split; [apply map_get_set_eq|done]].
    rewrite map_get_set. destruct (Hd e' He') as (w & Hw & Hdw). case_decide as E; [|by exists w].
    eexists. split; [done|]. rewrite E, Hv in Hw. injection Hw as <-. exact Hdw.
Qed.

Lemma add_call_records semantics circuit M es call M' :
  records M es -> add_call semantics circuit M call = Ok M' ->
  records M' (es ++ executed_call semantics circuit call) /\
  (startsWith "FHE." call = true -> is_Some (map_get call semantics)).
Proof.
  intros HM E. unfold add_call, executed_call in *. destruct (startsWith "FHE." call); cbn [negb] in E;
    [|injection E as <-; by rewrite app_nil_r].
  destruct (map_get call semantics) as [declared|]; [|done]. split; [|by eexists].
  destruct (hcuPriced declared); cbn [negb] in E; [|injection E as <-; by rewrite app_nil_r].
  set (e := {| ex_circuit := cd_id circuit; ex_call := call; ex_semantics := declared |}).
  change (cv_variantId (variant_of declared call (cd_id circuit))) with (execution_variant e) in E.
  destruct (map_get (execution_variant e) M) as [v|] eqn:Ev; [|injection E as <-; by apply (records_new M es e)].
  destruct (compatible v _) eqn:Ecomp; [|done]. injection E as <-. apply (records_again M es e); [done..|].
  apply compatible_true in Ecomp as (? & ? & ? & ?). repeat split; try done.
  by destruct (rec_ids _ _ HM _ _ (map_get_Some_elem _ _ _ Ev)).
Qed.

Lemma add_calls_records semantics circuit calls M es M' :
  records M es -> add_calls semantics circuit M calls = Ok M' ->
  records M' (es ++ concat (map (executed_call semantics circuit) calls)) /\
  Forall (fun call => startsWith "FHE." call = true -> is_Some (map_get call semantics)) calls.
Proof.
  revert M es. induction calls as [|call calls IH]; intros M es HM E; cbn [add_calls map concat] in *.
  - injection E as <-. by rewrite app_nil_r.
  - apply result_bind_Ok in E as (M1 & E1 & E). apply (add_call_records _ _ _ _ _ _ HM) in E1 as [H1 Hs].
    apply (IH _ _ H1) in E as [H2 ?]. rewrite app_assoc. split; [done|by constructor].
Qed.

Lemma add_circuits_records semantics circuits M es M' :
  records M es -> add_circuits semantics M circuits = Ok M' ->
  records M' (es ++ executions semantics circuits) /\
  Forall (fun circuit => Forall (fun call => startsWith "FHE." call = true -> is_Some (map_get call semantics))
                           (cd_operations circuit)) circuits.
Proof.
  unfold executions. revert M es. induction circuits as [|circuit circuits IH]; intros M es HM E; cbn [add_circuits map concat] in *.
  - injection E as <-. by rewrite app_nil_r.
  - apply result_bind_Ok in E as (M1 & E1 & E). apply (add_calls_records _ _ _ _ _ _ HM) in E1 as [H1 Hs].
    apply (IH _ _ H1) in E as [H2 ?]. rewrite app_assoc. split; [done|by constructor].
Qed.

(** the manifest of priced operations is exactly what the circuits execute: one entry
    per variant, each executed by some circuit; every priced call of every circuit is
    described by its entry; the circuits and the calls an entry lists are those that
    reach it; and every homomorphic call of every circuit has a declared meaning. *)
Theorem deriveCanonicalOperationManifest_exact `{Locale} circuits semantics manifest :
  deriveCanonicalOperationManifest circuits semantics = Ok manifest ->
  NoDup (cv_variantId <$> manifest) /\
  (forall e, e ∈ executions semantics circuits -> exists v, v ∈ manifest /\ describes v e) /\
  (forall v, v ∈ manifest ->
     (exists e, e ∈ executions semantics circuits /\ describes v e) /\
     (forall c, c ∈ cv_circuits v <->
        exists e, e ∈ executions semantics circuits /\ execution_variant e = cv_variantId v /\ ex_circuit e = c) /\
     (forall c, c ∈ cv_solidityCalls v <->
        exists e, e ∈ executions semantics circuits /\ execution_variant e = cv_variantId v /\ ex_call e = c)) /\
  Forall (fun circuit => Forall (fun call => startsWith "FHE." call = true -> is_Some (map_get call semantics))
                           (cd_operations circuit)) circuits.
Proof.
  intros E. unfold deriveCanonicalOperationManifest in E. apply result_bind_Ok in E as (M & E & [= <-]).
  apply (add_circuits_records _ _ [] []) in E as [[Hk Hi Hd Hc Hs] Hdecl].
  2: { split; [constructor|..]; unfold collects; set_solver. }
  cbn [app] in *. set (es := executions semantics circuits) in *.
  assert (Hin : forall v, v ∈ js_sort (fun left right => localeCompare (cv_variantId left) (cv_variantId right)) M.*2 <->
                          (cv_variantId v, v) ∈ M).
  { intros v. rewrite elem_of_js_sort, list_elem_of_fmap. split; [|intros; by exists (cv_variantId v, v)].
    intros ([k w] & -> & Hkw). cbn. by destruct (Hi _ _ Hkw) as [-> _]. }
  split; [|split; [|split; [|done]]].
  - rewrite js_sort_Permutation, <- list_fmap_compose. cbn. replace (_ <$> M) with M.*1; [done|].
    apply list_fmap_ext. intros i [k v] Hkv. cbn. symmetry. by apply (Hi k v), (list_elem_of_lookup_2 _ i).
  - intros e (v & Hv & Hdesc)%Hd. exists v. split; [|done]. apply Hin. destruct Hdesc as [-> _].
    by apply map_get_Some_elem.
  - intros v Hv%Hin. split; [|split; intros c; [apply (Hc _ _ _ Hv)|apply (Hs _ _ _ Hv)]].
    destruct (Hi _ _ Hv) as (_ & e & He & Ee). exists e. split; [done|]. destruct (Hd e He) as (w & Hw & Hdw).
    rewrite Ee in Hw. apply map_get_elem in Hv; [|done]. rewrite Hv in Hw. by injection Hw as ->.
Qed.

(** A collation for examples: the order of the bytes. *)
Section examples.
#[local] Instance byte_locale : Locale := {| localeCompare := compare_code_units |}.

(** The file loads: the manifest of its circuits has one entry per priced variant. *)
Example manifest_of_circuits :
  exists manifest, SG4_CANONICAL_OPERATION_VARIANTS = Ok manifest /\
    (cv_variantId <$> manifest) =
      ["Cast.types.Uint128"; "FheAdd.nonScalar.Uint128"; "FheBitAnd.nonScalar.Bool"; "FheBitOr.nonScalar.Bool";
       "FheIfThenElse.types.Uint128"; "FheIfThenElse.types.Uint64"; "FheLt.nonScalar.Uint128"; "FheLt.scalar.Uint128";
       "FheMul.scalar.Uint128"; "FheNot.types.Bool"; "FheRand.types.Uint128"; "FheRand.types.Uint256";
       "FheRand.types.Uint64"; "FheRem.scalar.Uint128"; "TrivialEncrypt.types.Uint128"].
Proof. eexists. split; [vm_compute; reflexivity|reflexivity]. Qed.
End examples.

Definition demo_circuits : list CircuitDefinition :=
  [circuit "A" "demo" primitive [OP.add128; store "_r"; OP.allow128] true "production" SINGLE;
   circuit "B" "demo" primitive [OP.as128Zero; OP.as128Public; OP.add128] true "production" SINGLE].

Lemma deriveCanonicalOperationManifest_exact_witness :
  exists manifest, NoDup (cv_variantId <$> manifest) /\ length manifest = 2%nat.
Proof.
  destruct (deriveCanonicalOperationManifest (H := {| localeCompare := compare_code_units |}) demo_circuits
              FHE_OPERATION_SEMANTICS) as [manifest|e] eqn:E; [|vm_compute in E; discriminate].
  exists manifest. split.
  - exact (proj1 (deriveCanonicalOperationManifest_exact (H := {| localeCompare := compare_code_units |}) _ _ _ E)).
  - vm_compute in E. injection E as <-. reflexivity.
Defined.
