(* ===== verification/Sg4Winner.v ===== *)
(** * Winner selection in chunks: scripts/sg4-protocol.ts

    The encrypted winner selection runs over the participants chunk by chunk; the
    benchmark's vectors state for each chunk the state before and the state after.
    [winnerStateTransition] is the checked oracle of a chunk, [buildWinnerPostState]
    the builder of the expected states, and the instances are those of every
    registered circuit.  Numbers are carried as decimal texts. *)
From Stdlib Require Import ZArith Lia Ascii.
From stdpp Require Import base option list sets strings.
From S2P Require Import Prelude Sg4Protocol.
Local Open Scope Z_scope.

Record WinnerState := {
  ws_acceptedTicket : string; ws_prefix : string; ws_found : bool; ws_winnerIndex : string; ws_cursor : string;
  ws_readiness : bool; ws_acceptedTicketReady : bool; ws_vectorIdentity : string
}.

(** [Omit<WinnerState, "acceptedTicket">] *)
Record WinnerPostState := {
  wp_prefix : string; wp_found : bool; wp_winnerIndex : string; wp_cursor : string; wp_readiness : bool;
  wp_acceptedTicketReady : bool; wp_vectorIdentity : string
}.
#[export] Instance WinnerState_eq_dec : EqDecision WinnerState.
Proof. solve_decision. Defined.
#[export] Instance WinnerPostState_eq_dec : EqDecision WinnerPostState.
Proof. solve_decision. Defined.

Inductive SemanticVectorId : Type := semantic (id : WinnerSemanticId) | ALL_VALID_FIXED_WINNER.
#[export] Instance SemanticVectorId_eq_dec : EqDecision SemanticVectorId.
Proof. solve_decision. Defined.
Definition semanticVector_text (id : SemanticVectorId) : string :=
  match id with semantic id => semantic_text id | ALL_VALID_FIXED_WINNER => "ALL_VALID_FIXED_WINNER" end.

Record WinnerInstance := {
  wi_id : string; wi_circuitId : string; wi_semanticVectorId : SemanticVectorId; wi_setupId : string;
  wi_chunkSize : string; wi_preStateId : string; wi_expectedPostStateId : string;
  wi_participantVectorInstanceId : string; wi_preState : WinnerState; wi_participantIndices : list string;
  wi_participantWeights : list string; wi_participantEntryCount : string; wi_expectedPostState : WinnerPostState;
  wi_expectedMatchPosition : option string
}.

Record WinnerOracleDomain := {
  od_chunkSize : string; od_participantSliceStart : string; od_participantUniverseSize : string;
  od_exclusiveUpperBound : string
}.

Definition nonNegativeDecimal (value label : string) : result Z :=
  invariant (matches_decimal value) (label +:+ " must be a non-negative decimal integer") ;;
  BigInt_of_string value.

(** The variables of the loops. *)
Record Selection := { se_prefix : Z; se_found : bool; se_winnerIndex : Z; se_cursor : Z }.

Definition undefined_BigInt : result Z :=
  Throw (JsError true "TypeError" None "Cannot convert undefined to a BigInt").

Definition post_state (preState : WinnerState) (s : Selection) : WinnerPostState :=
  {| wp_prefix := decimal (se_prefix s); wp_found := se_found s; wp_winnerIndex := decimal (se_winnerIndex s);
     wp_cursor := decimal (se_cursor s); wp_readiness := ws_readiness preState;
     wp_acceptedTicketReady := ws_acceptedTicketReady preState; wp_vectorIdentity := ws_vectorIdentity preState |}.

(** The loop of the oracle; [prior] is [participantIndices[index - 1]]. *)
Fixpoint oracle_loop (universeSize ticket : Z) (prior : option string) (indices weights : list string) (s : Selection)
    : result Selection :=
  match indices with
  | [] => Ok s
  | index :: indices' =>
      participantIndex ← nonNegativeDecimal index "winner oracle participant index";
      invariant (participantIndex <? universeSize) "winner oracle participant index outside registered universe" ;;
      invariant (participantIndex =? se_cursor s) "winner oracle participant index drift" ;;
      match prior with
      | Some prior =>
          priorIndex ← nonNegativeDecimal prior "winner oracle prior index";
          invariant (participantIndex =? priorIndex + 1) "winner oracle participant indices are not contiguous"
      | None => Ok tt
      end ;;
      weight ← match weights with weight :: _ => BigInt_of_string weight | [] => undefined_BigInt end;
      invariant (0 <? weight) "implicit or zero winner participant" ;;
      let prefix := se_prefix s + weight in
      invariant (prefix <=? T_MAX) "winner prefix exceeds SG-3 total" ;;
      let matches := negb (se_found s) && (ticket <? prefix) in
      oracle_loop universeSize ticket (Some index) indices' (tail weights)
        {| se_prefix := prefix; se_found := if matches then true else se_found s;
           se_winnerIndex := if matches then se_cursor s else se_winnerIndex s; se_cursor := se_cursor s + 1 |}
  end.

Definition winnerStateTransition (preState : WinnerState) (participantIndices participantWeights : list string)
    (domain : WinnerOracleDomain) : result WinnerPostState :=
  chunkSize ← nonNegativeDecimal (od_chunkSize domain) "winner oracle chunk size";
  sliceStart ← nonNegativeDecimal (od_participantSliceStart domain) "winner oracle slice start";
  universeSize ← nonNegativeDecimal (od_participantUniverseSize domain) "winner oracle universe size";
  exclusiveUpperBound ← nonNegativeDecimal (od_exclusiveUpperBound domain) "winner oracle exclusive bound";
  invariant (0 <? chunkSize) "winner oracle requires a non-empty participant slice" ;;
  invariant (exclusiveUpperBound <=? universeSize) "winner oracle exclusive bound exceeds participant universe" ;;
  invariant ((Z.of_nat (length participantIndices) =? chunkSize) && (Z.of_nat (length participantWeights) =? chunkSize))
    "winner oracle participant length differs from chunk size" ;;
  invariant (Z.of_nat (length participantIndices) =? Z.of_nat (length participantWeights))
    "winner oracle participant length mismatch" ;;
  prefix ← BigInt_of_string (ws_prefix preState);
  winnerIndex ← BigInt_of_string (ws_winnerIndex preState);
  cursor ← nonNegativeDecimal (ws_cursor preState) "winner oracle cursor";
  invariant (cursor =? sliceStart) "winner oracle cursor differs from registered slice start" ;;
  invariant (cursor <? exclusiveUpperBound) "winner oracle cursor is outside the participant universe" ;;
  invariant (cursor + chunkSize <=? exclusiveUpperBound) "winner oracle participant slice exceeds exclusive bound" ;;
  ticket ← BigInt_of_string (ws_acceptedTicket preState);
  s ← oracle_loop universeSize ticket None participantIndices participantWeights
        {| se_prefix := prefix; se_found := ws_found preState; se_winnerIndex := winnerIndex; se_cursor := cursor |};
  invariant (se_cursor s =? sliceStart + chunkSize) "winner oracle final cursor drift" ;;
  invariant (se_cursor s <=? exclusiveUpperBound) "winner oracle final cursor exceeds exclusive bound" ;;
  Ok (post_state preState s).

(** The loop of the builder. *)
Fixpoint builder_loop (ticket : Z) (indices weights : list string) (s : Selection) : result Selection :=
  match weights with
  | [] => Ok s
  | weight :: weights' =>
      weight ← BigInt_of_string weight;
      let prefix := se_prefix s + weight in
      let matches := ticket <? prefix in
      winnerIndex ← (if negb (se_found s) && matches
                     then match indices with index :: _ => BigInt_of_string index | [] => undefined_BigInt end
                     else Ok (se_winnerIndex s));
      builder_loop ticket (tail indices) weights'
        {| se_prefix := prefix; se_found := if negb (se_found s) && matches then true else se_found s;
           se_winnerIndex := winnerIndex; se_cursor := se_cursor s + 1 |}
  end.

Definition buildWinnerPostState (preState : WinnerState) (participantIndices participantWeights : list string)
    : result WinnerPostState :=
  prefix ← BigInt_of_string (ws_prefix preState);
  winnerIndex ← BigInt_of_string (ws_winnerIndex preState);
  cursor ← BigInt_of_string (ws_cursor preState);
  ticket ← BigInt_of_string (ws_acceptedTicket preState);
  s ← builder_loop ticket participantIndices participantWeights
        {| se_prefix := prefix; se_found := ws_found preState; se_winnerIndex := winnerIndex; se_cursor := cursor |};
  Ok (post_state preState s).

(** ** The instances *)
Definition WINNER_SEMANTIC_CODE (semanticId : WinnerSemanticId) : Z :=
  match semanticId with
  | FIRST_MATCH => 1 | MIDDLE_MATCH => 2 | LAST_MATCH => 3 | NO_MATCH_BEFORE_CHUNK_BOUNDARY => 4
  | ALREADY_FOUND_BEFORE_CHUNK => 5 | CONTINUATION_MATCH_IN_LATER_CHUNK => 6
  end.

Definition createWinnerInstance (spec : WinnerCircuitSpec) (semanticVectorId : WinnerSemanticId) : result WinnerInstance :=
  let circuitId := ws_circuitId spec in
  let chunkSize := ws_chunkSize spec in
  let id := winnerInstanceId circuitId semanticVectorId in
  let ticket :=
    match semanticVectorId with
    | MIDDLE_MATCH => Z.quot chunkSize 2 * CHUNK_WEIGHT
    | LAST_MATCH => (chunkSize - 1) * CHUNK_WEIGHT
    | NO_MATCH_BEFORE_CHUNK_BOUNDARY => chunkSize * CHUNK_WEIGHT
    | CONTINUATION_MATCH_IN_LATER_CHUNK => (chunkSize + Z.quot chunkSize 2) * CHUNK_WEIGHT
    | FIRST_MATCH | ALREADY_FOUND_BEFORE_CHUNK => 0
    end in
  let later := bool_decide (semanticVectorId = ALREADY_FOUND_BEFORE_CHUNK)
               || bool_decide (semanticVectorId = CONTINUATION_MATCH_IN_LATER_CHUNK) in
  let prefix := if later then chunkSize * CHUNK_WEIGHT else 0 in
  let cursor := if later then chunkSize else 0 in
  let found := bool_decide (semanticVectorId = ALREADY_FOUND_BEFORE_CHUNK) in
  let winnerIndex := if found then (if 2 <? chunkSize then 2 else 0) else 0 in
  let preState := {| ws_acceptedTicket := decimal ticket; ws_prefix := decimal prefix; ws_found := found;
                     ws_winnerIndex := decimal winnerIndex; ws_cursor := decimal cursor; ws_readiness := true;
                     ws_acceptedTicketReady := true; ws_vectorIdentity := id |} in
  let participantIndices := repeated chunkSize (fun index => decimal (cursor + index - 1)) in
  let participantWeights := repeated chunkSize (fun _ => decimal CHUNK_WEIGHT) in
  expectedPostState ← buildWinnerPostState preState participantIndices participantWeights;
  let expectedMatchPosition :=
    if bool_decide (semanticVectorId = NO_MATCH_BEFORE_CHUNK_BOUNDARY)
       || bool_decide (semanticVectorId = ALREADY_FOUND_BEFORE_CHUNK)
    then None else Some (wp_winnerIndex expectedPostState) in
  Ok {| wi_id := id; wi_circuitId := circuitId; wi_semanticVectorId := semantic semanticVectorId;
        wi_setupId := decimal (ws_circuitCode spec * 10 + WINNER_SEMANTIC_CODE semanticVectorId);
        wi_chunkSize := decimal chunkSize; wi_preStateId := "pre:" +:+ id; wi_expectedPostStateId := "post:" +:+ id;
        wi_participantVectorInstanceId := "participants:" +:+ id; wi_preState := preState;
        wi_participantIndices := participantIndices; wi_participantWeights := participantWeights;
        wi_participantEntryCount := decimal chunkSize; wi_expectedPostState := expectedPostState;
        wi_expectedMatchPosition := expectedMatchPosition |}.

Definition createCompositeWinnerInstance (circuitId : string) (circuitCode chunkSize : Z) : result WinnerInstance :=
  let id := if bool_decide (circuitId = "COMPOSITE_DRAW_AND_CHUNK_8") then COMPOSITE_CHUNK_8_INSTANCE
            else COMPOSITE_CHUNK_32_INSTANCE in
  let preState := {| ws_acceptedTicket := "0"; ws_prefix := "0"; ws_found := true; ws_winnerIndex := "0";
                     ws_cursor := "0"; ws_readiness := true; ws_acceptedTicketReady := false;
                     ws_vectorIdentity := id |} in
  let participantIndices := repeated chunkSize (fun index => decimal (index - 1)) in
  let participantWeights := repeated chunkSize (fun _ => decimal CHUNK_WEIGHT) in
  let oraclePreState := {| ws_acceptedTicket := "0"; ws_prefix := "0"; ws_found := true; ws_winnerIndex := "0";
                           ws_cursor := "0"; ws_readiness := true; ws_acceptedTicketReady := true;
                           ws_vectorIdentity := id |} in
  expectedPostState ← buildWinnerPostState oraclePreState participantIndices participantWeights;
  Ok {| wi_id := id; wi_circuitId := circuitId; wi_semanticVectorId := ALL_VALID_FIXED_WINNER;
        wi_setupId := decimal (circuitCode * 10 + 1); wi_chunkSize := decimal chunkSize;
        wi_preStateId := "pre:" +:+ id; wi_expectedPostStateId := "post:" +:+ id;
        wi_participantVectorInstanceId := "participants:" +:+ id; wi_preState := preState;
        wi_participantIndices := participantIndices; wi_participantWeights := participantWeights;
        wi_participantEntryCount := decimal chunkSize; wi_expectedPostState := expectedPostState;
        wi_expectedMatchPosition := None |}.

Definition BUILDER_WINNER_INSTANCES : result (list WinnerInstance) :=
  registered ← result_map (fun spec =>
    created ← applicability_map (ws_circuitId spec) (createWinnerInstance spec);
    result_map id created) WINNER_CIRCUIT_SPECS;
  chunk8 ← createCompositeWinnerInstance "COMPOSITE_DRAW_AND_CHUNK_8" 7 8;
  chunk32 ← createCompositeWinnerInstance "COMPOSITE_DRAW_AND_CHUNK_32" 8 32;
  Ok (concat registered ++ [chunk8; chunk32]).

(** [{ ...post, acceptedTicket }] *)
Definition carry (post : WinnerPostState) (acceptedTicket : string) : WinnerState :=
  {| ws_acceptedTicket := acceptedTicket; ws_prefix := wp_prefix post; ws_found := wp_found post;
     ws_winnerIndex := wp_winnerIndex post; ws_cursor := wp_cursor post; ws_readiness := wp_readiness post;
     ws_acceptedTicketReady := wp_acceptedTicketReady post; ws_vectorIdentity := wp_vectorIdentity post |}.

Record ContinuationSequence := {
  cs_id : string; cs_circuitId : string; cs_participantVectorInstanceId : string; cs_setupId : string;
  cs_sequenceClassification : string; cs_excludedFromStatisticalSamples : bool; cs_noResetBetweenCalls : bool;
  cs_initial : WinnerState; cs_firstParticipantIndices : list string; cs_firstParticipantWeights : list string;
  cs_firstPost : WinnerPostState; cs_secondPre : WinnerState; cs_secondParticipantIndices : list string;
  cs_secondParticipantWeights : list string; cs_secondPost : WinnerPostState
}.
#[export] Instance ContinuationSequence_eq_dec : EqDecision ContinuationSequence.
Proof. solve_decision. Defined.

Definition CONTINUATION_SEMANTIC_SEQUENCE : result ContinuationSequence :=
  let id := "CONTINUATION_TWO_CALL_CHUNK_8" in
  let initial := {| ws_acceptedTicket := decimal (12 * CHUNK_WEIGHT); ws_prefix := "0"; ws_found := false;
                    ws_winnerIndex := "0"; ws_cursor := "0"; ws_readiness := true; ws_acceptedTicketReady := true;
                    ws_vectorIdentity := id |} in
  let firstIndices := repeated 8 (fun index => decimal (index - 1)) in
  let weights := repeated 8 (fun _ => decimal CHUNK_WEIGHT) in
  firstPost ← buildWinnerPostState initial firstIndices weights;
  let secondPre := carry firstPost (ws_acceptedTicket initial) in
  let secondIndices := repeated 8 (fun index => decimal (8 + index - 1)) in
  secondPost ← buildWinnerPostState secondPre secondIndices weights;
  Ok {| cs_id := id; cs_circuitId := "WINNER_CHUNK_8"; cs_participantVectorInstanceId := "participants:" +:+ id;
        cs_setupId := "9008"; cs_sequenceClassification := "SEMANTIC_CONTINUATION_VALIDATION";
        cs_excludedFromStatisticalSamples := true; cs_noResetBetweenCalls := true; cs_initial := initial;
        cs_firstParticipantIndices := firstIndices; cs_firstParticipantWeights := weights; cs_firstPost := firstPost;
        cs_secondPre := secondPre; cs_secondParticipantIndices := secondIndices;
        cs_secondParticipantWeights := weights; cs_secondPost := secondPost |}.

(** * Theorems *)

(** ** Decimals *)
Lemma trim_head_no_space c s : is_space c = false -> string_forall is_digit s = true -> s <> EmptyString ->
  trim (String c s) = String c s.
Proof.
  intros Hc Hs Hn. unfold trim. cbn [trimStart]. rewrite Hc. cbn [trimEnd].
  assert (E : trimEnd s = s); [|rewrite E; by destruct s].
  assert (Hns : string_forall (fun c => negb (is_space c)) s = true).
  { revert Hs. apply string_forall_impl. intros d Hd.
    destruct d as [[] [] [] [] [] [] [] []]; try reflexivity; vm_compute in Hd; discriminate. }
  pose proof (trim_no_space s Hns) as Ht. unfold trim in Ht. destruct s as [|d s]; [done|].
  cbn [string_forall] in Hns. apply andb_true_iff in Hns as [Hd _]. apply negb_true_iff in Hd.
  cbn [trimStart] in Ht. by rewrite Hd in Ht.
Qed.

(** Every integer is read back from its decimal text. *)
Lemma BigInt_decimal z : BigInt_of_string (decimal z) = Ok z.
Proof.
  destruct (Z.le_gt_cases 0 z) as [Hz|Hz]; [by apply BigInt_of_string_toString|].
  assert (E : decimal z = String "-" (decimal (- z))).
  { unfold decimal, Z_toString. by destruct z. }
  assert (Hd : matches_digits (decimal (- z)) = true) by (apply Z_toString_digits; lia).
  assert (Hds : string_forall is_digit (decimal (- z)) = true /\ decimal (- z) <> EmptyString).
  { unfold matches_digits in Hd. apply andb_true_iff in Hd as [? ?]. split; [done|]. by destruct (decimal (- z)). }
  rewrite E. unfold BigInt_of_string. rewrite trim_head_no_space by (done || apply Hds). rewrite Hd.
  unfold decimal. rewrite BigInt_toString by lia. cbn. f_equal. lia.
Qed.

Lemma nonNegativeDecimal_Ok value label z :
  nonNegativeDecimal value label = Ok z <-> matches_decimal value = true /\ BigInt_of_string value = Ok z.
Proof.
  unfold nonNegativeDecimal, invariant. destruct (matches_decimal value); cbn; [naive_solver|].
  split; [done|]. by intros [? _].
Qed.

Lemma nonNegativeDecimal_decimal z label : 0 <= z -> nonNegativeDecimal (decimal z) label = Ok z.
Proof.
  intros Hz. apply nonNegativeDecimal_Ok. split; [by apply matches_decimal_toString|apply BigInt_decimal].
Qed.

Lemma sg4_invariant_Ok c message u : invariant c message = Ok u <-> c = true.
Proof. unfold invariant. rewrite fail_if_Ok. destruct u. apply negb_false_iff. Qed.

Lemma sg4_invariant_pass {B} c message (k : unit -> result B) : c = true -> (invariant c message ≫= k) = k tt.
Proof. intros ->. done. Qed.

(** Each statement of a run that succeeds, succeeded. *)
Ltac inv_bind E :=
  lazymatch type of E with
  | (invariant _ _ ≫= _) = Ok _ => apply result_bind_Ok in E as ([] & ?%sg4_invariant_Ok & E)
  | (_ ≫= _) = Ok _ => apply result_bind_Ok in E as (? & ? & E)
  end.

(** A statement of a run that succeeds, rewritten with its outcome. *)
Ltac step_bind E := apply result_bind_Ok in E as (? & -> & E); cbn [mbind result_bind].

(** ** The selection on numbers *)
Definition select_one (ticket : Z) (s : Selection) (weight : Z) : Selection :=
  let matches := negb (se_found s) && (ticket <? se_prefix s + weight) in
  {| se_prefix := se_prefix s + weight; se_found := if matches then true else se_found s;
     se_winnerIndex := if matches then se_cursor s else se_winnerIndex s; se_cursor := se_cursor s + 1 |}.
Definition select (ticket : Z) (s : Selection) (weights : list Z) : Selection := fold_left (select_one ticket) weights s.
Fixpoint weight_sum (weights : list Z) : Z := match weights with [] => 0 | w :: weights' => w + weight_sum weights' end.

Lemma select_cons ticket s w weights : select ticket s (w :: weights) = select ticket (select_one ticket s w) weights.
Proof. done. Qed.

Lemma select_app ticket s ws1 ws2 : select ticket s (ws1 ++ ws2) = select ticket (select ticket s ws1) ws2.
Proof. apply fold_left_app. Qed.

Lemma select_prefix ticket s weights : se_prefix (select ticket s weights) = se_prefix s + weight_sum weights.
Proof. revert s. induction weights as [|w weights IH]; intros s; [cbn; lia|]. rewrite select_cons, IH. cbn. lia. Qed.

Lemma select_cursor ticket s weights : se_cursor (select ticket s weights) = se_cursor s + Z.of_nat (length weights).
Proof. revert s. induction weights as [|w weights IH]; intros s; [cbn; lia|]. rewrite select_cons, IH. cbn -[Z.of_nat]. lia. Qed.

Lemma select_found ticket s weights :
  se_found s = true ->
  se_found (select ticket s weights) = true /\ se_winnerIndex (select ticket s weights) = se_winnerIndex s.
Proof.
  revert s. induction weights as [|w weights IH]; intros s Hs; [done|]. rewrite select_cons.
  destruct (IH (select_one ticket s w)) as [-> ->]; unfold select_one; cbn; by rewrite Hs.
Qed.

Lemma weight_sum_nonneg weights : Forall (fun w => 0 < w) weights -> 0 <= weight_sum weights.
Proof. induction 1; cbn; lia. Qed.

(** The first participant whose prefix passes the ticket is the winner. *)
Lemma select_spec ticket s weights :
  se_found s = false -> Forall (fun w => 0 < w) weights ->
  if decide (weights <> [] /\ ticket < se_prefix s + weight_sum weights) then
    se_found (select ticket s weights) = true /\
    exists k, (k < length weights)%nat /\ se_winnerIndex (select ticket s weights) = se_cursor s + Z.of_nat k /\
      ticket < se_prefix s + weight_sum (take (S k) weights) /\
      (forall j, (0 < j <= k)%nat -> se_prefix s + weight_sum (take j weights) <= ticket)
  else se_found (select ticket s weights) = false /\ se_winnerIndex (select ticket s weights) = se_winnerIndex s.
Proof.
  intros Hs Hw. revert s Hs. induction Hw as [|w weights Hw Hws IH]; intros s Hs.
  { rewrite decide_False by naive_solver. done. }
  rewrite select_cons. pose proof (weight_sum_nonneg weights Hws) as Hsum.
  destruct (Z.ltb_spec ticket (se_prefix s + w)) as [Hlt|Hge].
  - rewrite decide_True by (cbn; split; [done|lia]).
    destruct (select_found ticket (select_one ticket s w) weights) as [E1 E2].
    { unfold select_one. cbn. rewrite Hs. cbn. by rewrite (proj2 (Z.ltb_lt _ _) Hlt). }
    split; [done|]. exists 0%nat. rewrite E2. cbn. rewrite Hs, (proj2 (Z.ltb_lt _ _) Hlt). cbn. repeat split; try lia.
    destruct weights; cbn; lia.
  - assert (E : se_prefix (select_one ticket s w) = se_prefix s + w /\ se_cursor (select_one ticket s w) = se_cursor s + 1 /\
                se_winnerIndex (select_one ticket s w) = se_winnerIndex s /\ se_found (select_one ticket s w) = false).
    { unfold select_one. cbn. by rewrite Hs, (proj2 (Z.ltb_ge _ _) Hge). }
    destruct E as (E1 & E2 & E3 & E4). specialize (IH _ E4). rewrite E1, E2, E3 in IH. cbn [weight_sum].
    case_decide as Hd; case_decide as Hd'; [|naive_solver lia| |done].
    + destruct IH as (Hf & k & Hk & Hidx & Hlt & Hbefore). split; [done|]. exists (S k). cbn [length]. repeat split; [lia|lia| |].
      * change (take (S (S k)) (w :: weights)) with (w :: take (S k) weights). cbn [weight_sum]. lia.
      * intros [|[|j]] Hj; [lia|change (take 1 (w :: weights)) with [w]; cbn [weight_sum]; lia|]. specialize (Hbefore (S j) ltac:(lia)).
        change (take (S (S j)) (w :: weights)) with (w :: take (S j) weights). cbn [weight_sum]. lia.
    + exfalso. apply Hd. destruct Hd' as [_ Hd']. destruct weights; [cbn in Hd'; lia|]. split; [done|lia].
Qed.

(** ** The loops *)

(** One turn of the oracle's loop that passes its checks. *)
Lemma oracle_loop_cons universeSize ticket prior index indices weights s s' :
  oracle_loop universeSize ticket prior (index :: indices) weights s = Ok s' ->
  exists weight weights' w, weights = weight :: weights' /\ BigInt_of_string weight = Ok w /\ 0 < w /\
    matches_decimal index = true /\ BigInt_of_string index = Ok (se_cursor s) /\ se_cursor s < universeSize /\
    oracle_loop universeSize ticket (Some index) indices weights' (select_one ticket s w) = Ok s'.
Proof.
  cbn [oracle_loop]. intros E.
  apply result_bind_Ok in E as (participantIndex & [Hm Hi]%nonNegativeDecimal_Ok & E).
  apply result_bind_Ok in E as ([] & HU%sg4_invariant_Ok & E).
  apply result_bind_Ok in E as ([] & Hc%sg4_invariant_Ok & E). inv_bind E.
  apply result_bind_Ok in E as (w & Hw & E). apply result_bind_Ok in E as ([] & Hpos%sg4_invariant_Ok & E). inv_bind E.
  destruct weights as [|weight weights']; [done|]. apply Z.ltb_lt in HU, Hpos. apply Z.eqb_eq in Hc as ->.
  exists weight, weights', w. repeat split; done.
Qed.

Lemma oracle_loop_select universeSize ticket prior indices weights s s' :
  oracle_loop universeSize ticket prior indices weights s = Ok s' -> length weights = length indices ->
  exists ws, result_map BigInt_of_string weights = Ok ws /\ Forall (fun w => 0 < w) ws /\ s' = select ticket s ws.
Proof.
  revert prior weights s. induction indices as [|index indices IH]; intros prior weights s E Hlen.
  - destruct weights; [|done]. injection E as <-. by exists [].
  - apply oracle_loop_cons in E as (weight & weights' & w & -> & Hw & Hpos & _ & _ & _ & E).
    apply IH in E as (ws & Hws & Hall & ->); [|by injection Hlen]. exists (w :: ws). cbn [result_map]. rewrite Hw. cbn.
    rewrite Hws. split; [done|]. split; [by constructor|done].
Qed.

(** The oracle and the builder take the same turns. *)
Lemma oracle_loop_builder universeSize ticket prior indices weights s s' :
  oracle_loop universeSize ticket prior indices weights s = Ok s' -> length weights = length indices ->
  builder_loop ticket indices weights s = Ok s'.
Proof.
  revert prior weights s. induction indices as [|index indices IH]; intros prior weights s E Hlen.
  - destruct weights; [|done]. injection E as <-. done.
  - apply oracle_loop_cons in E as (weight & weights' & w & -> & Hw & _ & _ & Hi & _ & E).
    apply IH in E; [|by injection Hlen]. cbn [builder_loop tail]. rewrite Hw, Hi. cbn [mbind result_bind].
    unfold select_one in E. by destruct (negb (se_found s) && (ticket <? se_prefix s + w)).
Qed.

Lemma oracle_loop_no_prior universeSize ticket prior indices weights s s' :
  oracle_loop universeSize ticket prior indices weights s = Ok s' ->
  oracle_loop universeSize ticket None indices weights s = Ok s'.
Proof.
  destruct indices as [|index indices]; [done|]. cbn [oracle_loop]. intros E.
  do 3 step_bind E. by apply result_bind_Ok in E as ([] & _ & E).
Qed.

Lemma oracle_loop_app universeSize ticket prior i1 i2 w1 w2 s s' :
  oracle_loop universeSize ticket prior (i1 ++ i2) (w1 ++ w2) s = Ok s' -> length w1 = length i1 ->
  exists s1, oracle_loop universeSize ticket prior i1 w1 s = Ok s1 /\
    oracle_loop universeSize ticket None i2 w2 s1 = Ok s'.
Proof.
  revert prior w1 s. induction i1 as [|index i1 IH]; intros prior w1 s E Hlen.
  - destruct w1; [|done]. exists s. split; [done|]. by eapply oracle_loop_no_prior.
  - destruct w1 as [|weight w1]; [done|]. cbn [oracle_loop app tail] in *.
    do 7 step_bind E.
    apply IH in E as (s1 & -> & E); [|by injection Hlen]. by exists s1.
Qed.

(** What the oracle checked before the loop and after it. *)
Lemma winnerStateTransition_Ok preState indices weights domain post :
  winnerStateTransition preState indices weights domain = Ok post <->
  exists chunkSize universeSize bound prefix winnerIndex cursor ticket s,
    (nonNegativeDecimal (od_chunkSize domain) "winner oracle chunk size" = Ok chunkSize /\
     nonNegativeDecimal (od_participantSliceStart domain) "winner oracle slice start" = Ok cursor /\
     nonNegativeDecimal (od_participantUniverseSize domain) "winner oracle universe size" = Ok universeSize /\
     nonNegativeDecimal (od_exclusiveUpperBound domain) "winner oracle exclusive bound" = Ok bound) /\
    (0 < chunkSize /\ bound <= universeSize /\ Z.of_nat (length indices) = chunkSize /\
     Z.of_nat (length weights) = chunkSize /\ cursor + chunkSize <= bound) /\
    (BigInt_of_string (ws_prefix preState) = Ok prefix /\ BigInt_of_string (ws_winnerIndex preState) = Ok winnerIndex /\
     nonNegativeDecimal (ws_cursor preState) "winner oracle cursor" = Ok cursor /\
     BigInt_of_string (ws_acceptedTicket preState) = Ok ticket) /\
    oracle_loop universeSize ticket None indices weights
      {| se_prefix := prefix; se_found := ws_found preState; se_winnerIndex := winnerIndex; se_cursor := cursor |} = Ok s /\
    se_cursor s = cursor + chunkSize /\ post = post_state preState s.
Proof.
  unfold winnerStateTransition. split.
  - intros E. repeat inv_bind E. injection E as <-.
    repeat match goal with H : _ && _ = true |- _ => apply andb_true_iff in H as [? ?] end.
    repeat match goal with
    | H : (_ =? _) = true |- _ => apply Z.eqb_eq in H
    | H : (_ <=? _) = true |- _ => apply Z.leb_le in H
    | H : (_ <? _) = true |- _ => apply Z.ltb_lt in H end.
    subst. repeat eexists; eauto; lia.
  - intros (chunkSize & U & bound & prefix & winnerIndex & cursor & ticket & s & (-> & -> & -> & ->) &
            (? & ? & Hi & Hw & ?) & (-> & -> & -> & ->) & Hloop & Hc & ->).
    cbn [mbind result_bind].
    rewrite !sg4_invariant_pass by (rewrite ?andb_true_iff, ?Z.eqb_eq, ?Z.leb_le, ?Z.ltb_lt; lia).
    rewrite Hloop. cbn [mbind result_bind].
    by rewrite !sg4_invariant_pass by (rewrite ?Z.eqb_eq, ?Z.leb_le; lia).
Qed.

Lemma result_map_length {A B} (f : A -> result B) xs ys : result_map f xs = Ok ys -> length ys = length xs.
Proof. intros H%result_map_Ok. symmetry. by eapply Forall2_length. Qed.

(** the winner of a chunk.  When the oracle accepts a chunk, the prefix grows by the
    weights of its participants and the cursor by their number; a winner found earlier is
    kept; otherwise a winner is found exactly when the ticket is below the new prefix, and
    it is the first participant whose prefix passes the ticket. *)
Theorem winnerStateTransition_selects preState indices weights domain post :
  winnerStateTransition preState indices weights domain = Ok post ->
  exists prefix cursor ticket ws,
    BigInt_of_string (ws_prefix preState) = Ok prefix /\ BigInt_of_string (ws_cursor preState) = Ok cursor /\
    BigInt_of_string (ws_acceptedTicket preState) = Ok ticket /\ result_map BigInt_of_string weights = Ok ws /\
    Forall (fun w => 0 < w) ws /\ ws <> [] /\
    wp_prefix post = decimal (prefix + weight_sum ws) /\ wp_cursor post = decimal (cursor + Z.of_nat (length ws)) /\
    (ws_found preState = true ->
       wp_found post = true /\ BigInt_of_string (wp_winnerIndex post) = BigInt_of_string (ws_winnerIndex preState)) /\
    (ws_found preState = false ->
       (wp_found post = true <-> ticket < prefix + weight_sum ws) /\
       (wp_found post = true ->
          exists k, (k < length ws)%nat /\ wp_winnerIndex post = decimal (cursor + Z.of_nat k) /\
            ticket < prefix + weight_sum (take (S k) ws) /\
            (forall j, (0 < j <= k)%nat -> prefix + weight_sum (take j ws) <= ticket))).
Proof.
  intros (chunkSize & U & bound & prefix & winnerIndex & cursor & ticket & s & _ & (Hn & _ & Hi & Hw & _) &
          (Hp & Hx & [_ Hc]%nonNegativeDecimal_Ok & Ht) & Hloop & _ & ->)%winnerStateTransition_Ok.
  apply oracle_loop_select in Hloop as (ws & Hws & Hpos & ->); [|lia].
  assert (Hne : ws <> []). { intros ->. apply result_map_length in Hws. cbn in Hws. lia. }
  exists prefix, cursor, ticket, ws. do 6 (split; [done|]). cbn [post_state wp_prefix wp_cursor wp_found wp_winnerIndex].
  rewrite select_prefix, select_cursor. do 2 (split; [done|]). split.
  - intros Hf. destruct (select_found ticket {| se_prefix := prefix; se_found := ws_found preState;
      se_winnerIndex := winnerIndex; se_cursor := cursor |} ws) as [-> ->]; [done|]. cbn [se_winnerIndex].
    by rewrite BigInt_decimal, Hx.
  - intros Hf. rewrite Hf. epose proof (select_spec ticket {| se_prefix := prefix; se_found := false;
      se_winnerIndex := winnerIndex; se_cursor := cursor |} ws eq_refl Hpos) as H. cbn [se_prefix se_cursor se_winnerIndex] in H.
    case_decide as Hd.
    + destruct H as (-> & k & Hk & -> & Hlt & Hbefore). split; [naive_solver|]. intros _. by exists k.
    + destruct H as (-> & _). split; [|done]. split; [done|]. intros Hlt. by destruct Hd.
Qed.

(** the two descriptions of a chunk agree: whatever the checked oracle accepts, the
    builder of the expected states computes. *)
Theorem winnerStateTransition_builder preState indices weights domain post :
  winnerStateTransition preState indices weights domain = Ok post ->
  buildWinnerPostState preState indices weights = Ok post.
Proof.
  intros (chunkSize & U & bound & prefix & winnerIndex & cursor & ticket & s & _ & (_ & _ & Hi & Hw & _) &
          (Hp & Hx & [_ Hc]%nonNegativeDecimal_Ok & Ht) & Hloop & _ & ->)%winnerStateTransition_Ok.
  unfold buildWinnerPostState. rewrite Hp, Hx, Hc, Ht. cbn [mbind result_bind].
  by rewrite (oracle_loop_builder _ _ _ _ _ _ _ Hloop) by lia.
Qed.

(** The domain of a chunk of [size] participants from [cursor]. *)
Definition chunk_domain (domain : WinnerOracleDomain) (size : nat) (cursor : string) : WinnerOracleDomain :=
  {| od_chunkSize := decimal (Z.of_nat size); od_participantSliceStart := cursor;
     od_participantUniverseSize := od_participantUniverseSize domain;
     od_exclusiveUpperBound := od_exclusiveUpperBound domain |}.

(** C11: the winner does not depend on the chunks.  A chunk the oracle accepts can be cut
    anywhere: the oracle accepts the first part, then the second from the state the first
    left with the ticket carried over, and ends in the same state. *)
Theorem winner_chunks_compose preState i1 i2 w1 w2 domain post :
  winnerStateTransition preState (i1 ++ i2) (w1 ++ w2) domain = Ok post ->
  length w1 = length i1 -> i1 <> [] -> i2 <> [] ->
  exists mid,
    winnerStateTransition preState i1 w1 (chunk_domain domain (length i1) (od_participantSliceStart domain)) = Ok mid /\
    winnerStateTransition (carry mid (ws_acceptedTicket preState)) i2 w2
      (chunk_domain domain (length i2) (wp_cursor mid)) = Ok post.
Proof.
  intros (chunkSize & U & bound & prefix & winnerIndex & cursor & ticket & s & (Hn & Hs & HU & HB) &
          (Hpos & Hle & Hi & Hw & Hfit) & (Hp & Hx & Hc & Ht) & Hloop & Hcur & ->)%winnerStateTransition_Ok Hlen H1 H2.
  rewrite !length_app in *. apply oracle_loop_app in Hloop as (s1 & Hloop1 & Hloop2); [|done].
  destruct (oracle_loop_select _ _ _ _ _ _ _ Hloop1 Hlen) as (ws & Hws & _ & Es1).
  assert (Hc1 : se_cursor s1 = cursor + Z.of_nat (length i1)).
  { rewrite Es1, select_cursor. apply result_map_length in Hws. cbn [se_cursor]. lia. }
  assert (Hn1 : 0 < Z.of_nat (length i1) /\ 0 < Z.of_nat (length i2)) by (destruct i1, i2; try done; cbn; lia).
  assert (H0 : 0 <= cursor).
  { apply nonNegativeDecimal_Ok in Hs as [Hm Hz]. apply matches_decimal_digits in Hm.
    rewrite BigInt_of_string_digits in Hz by done. destruct (BigInt_of_digits_total _ Hm) as (z & ? & Ez). congruence. }
  exists (post_state preState s1). split.
  - apply winnerStateTransition_Ok. exists (Z.of_nat (length i1)), U, bound, prefix, winnerIndex, cursor, ticket, s1.
    cbn [chunk_domain od_chunkSize od_participantSliceStart od_participantUniverseSize od_exclusiveUpperBound].
    rewrite nonNegativeDecimal_decimal by lia. repeat split; try done; lia.
  - apply winnerStateTransition_Ok.
    exists (Z.of_nat (length i2)), U, bound, (se_prefix s1), (se_winnerIndex s1), (se_cursor s1), ticket, s.
    cbn [chunk_domain od_chunkSize od_participantSliceStart od_participantUniverseSize od_exclusiveUpperBound carry
         post_state wp_prefix wp_found wp_winnerIndex wp_cursor ws_prefix ws_found ws_winnerIndex ws_cursor ws_acceptedTicket].
    rewrite !nonNegativeDecimal_decimal, !BigInt_decimal by lia. repeat split; try done; try lia. by destruct s1.
Qed.

(** ** A draw over sixteen participants, cut after eight *)
Definition demo_state : WinnerState :=
  {| ws_acceptedTicket := decimal (12 * CHUNK_WEIGHT); ws_prefix := "0"; ws_found := false; ws_winnerIndex := "0";
     ws_cursor := "0"; ws_readiness := true; ws_acceptedTicketReady := true; ws_vectorIdentity := "demo" |}.
Definition demo_domain : WinnerOracleDomain :=
  {| od_chunkSize := "16"; od_participantSliceStart := "0"; od_participantUniverseSize := "64";
     od_exclusiveUpperBound := "64" |}.
Definition demo_indices (first : Z) : list string := repeated 8 (fun index => decimal (first + index - 1)).
Definition demo_weights : list string := repeated 8 (fun _ => decimal CHUNK_WEIGHT).
Definition demo_post : WinnerPostState :=
  {| wp_prefix := decimal (16 * CHUNK_WEIGHT); wp_found := true; wp_winnerIndex := "12"; wp_cursor := "16";
     wp_readiness := true; wp_acceptedTicketReady := true; wp_vectorIdentity := "demo" |}.

Lemma demo_draw_run :
  winnerStateTransition demo_state (demo_indices 0 ++ demo_indices 8) (demo_weights ++ demo_weights) demo_domain
    = Ok demo_post.
Proof. vm_compute. reflexivity. Qed.

Lemma winnerStateTransition_selects_witness :
  exists prefix ws, BigInt_of_string (ws_prefix demo_state) = Ok prefix /\ length ws = 16%nat /\
    wp_prefix demo_post = decimal (prefix + weight_sum ws).
Proof.
  destruct (winnerStateTransition_selects _ _ _ _ _ demo_draw_run) as (prefix & cursor & ticket & ws & Hp & _ & _ & Hws & _ & _ & E & _).
  exists prefix, ws. split; [exact Hp|]. split; [exact (result_map_length _ _ _ Hws)|exact E].
Defined.

Lemma winnerStateTransition_builder_witness :
  buildWinnerPostState demo_state (demo_indices 0 ++ demo_indices 8) (demo_weights ++ demo_weights) = Ok demo_post.
Proof. exact (winnerStateTransition_builder _ _ _ _ _ demo_draw_run). Defined.

Lemma winner_chunks_compose_witness :
  exists mid,
    winnerStateTransition demo_state (demo_indices 0) demo_weights (chunk_domain demo_domain 8 "0") = Ok mid /\
    winnerStateTransition (carry mid (ws_acceptedTicket demo_state)) (demo_indices 8) demo_weights
      (chunk_domain demo_domain 8 (wp_cursor mid)) = Ok demo_post.
Proof. apply (winner_chunks_compose _ _ _ _ _ _ _ demo_draw_run); [reflexivity|discriminate|discriminate]. Defined.
