(* ===== verification/Sg4Expected.v ===== *)
(** * The preregistered tables: scripts/sg4-protocol.ts

    The closed literals that the protocol is validated against: the circuits with
    their operations and vectors, the pairs of circuit and vector of each
    category, the winner instances and the two-call sequence, entry by entry. *)
From Stdlib Require Import ZArith.
From stdpp Require Import base option list strings.
From S2P Require Import Prelude Sg4Protocol Sg4Winner.
Local Open Scope Z_scope.

Inductive RepetitionCategory : Type := PRIMITIVE_OR_SINGLE_STEP | COMPOSITE_OR_WINNER_CHUNK | PUBLIC_DECRYPTION.
Inductive LatencyCategory : Type :=
| NO_LOCKED_P90_CATEGORY | USER_TWAB_KERNEL | CANDIDATE_REJECTION_PIPELINE | WINNER_SELECTION_CHUNK
| COMPOSITE_DRAW_AND_CHUNK | PUBLIC_DECRYPTION_LATENCY.
Inductive PublicDecryptionClassification : Type := IS_PUBLIC_DECRYPTION | NOT_PUBLIC_DECRYPTION.

Record ExpectedCircuitDefinition := {
  ec_circuit : CircuitDefinition; ec_repetitionCategory : RepetitionCategory; ec_latencyCategory : LatencyCategory;
  ec_publicDecryptionClassification : PublicDecryptionClassification
}.
Record ExpectedWinnerInstance := {
  ei_instance : WinnerInstance; ei_participantUniverseSize : string; ei_exclusiveUpperBound : string;
  ei_stateEquivalenceClass : string
}.

Definition EXPECTED_VECTOR_APPLICABILITY : list (string * list string) := [
  ("RNG_64", ["FIXED"]);
  ("RNG_128", ["FIXED"]);
  ("RNG_256", ["FIXED"]);
  ("TWAB_CAST_64_TO_128", ["BALANCE_MAX"]);
  ("TWAB_DELTA_128", ["BALANCE_MAX_ELAPSED_MAX"]);
  ("TWAB_ACCUMULATE_128", ["TWAB_ACCUMULATION_SAFE_MAX"]);
  ("AGGREGATE_ADD_128", ["AGGREGATE_SAFE_MAX"]);
  ("PREFIX_ADD_128", ["PREFIX_SAFE_MAX"]);
  ("DRAW_ZERO_TOTAL_NOOP", ["T_ZERO"]);
  ("DRAW_TOTAL_ONE", ["T_ONE"]);
  ("REJECTION_VALID_GENERAL_128", ["T_MAX"; "T_POWER_MINUS_ONE"; "T_POWER_PLUS_ONE"]);
  ("TICKET_REMAINDER_GENERAL_128", ["T_MAX"; "T_POWER_MINUS_ONE"; "T_POWER_PLUS_ONE"]);
  ("REJECTION_PIPELINE_GENERAL_128", ["T_MAX"; "T_POWER_MINUS_ONE"; "T_POWER_PLUS_ONE"]);
  ("REJECTION_PIPELINE_ALL_VALID_128", ["T_DIVIDES_DOMAIN"]);
  ("WINNER_STEP_128", ["FIRST_MATCH__WINNER_STEP_128"; "NO_MATCH_BEFORE_CHUNK_BOUNDARY__WINNER_STEP_128";
    "ALREADY_FOUND_BEFORE_CHUNK__WINNER_STEP_128"; "CONTINUATION_MATCH_IN_LATER_CHUNK__WINNER_STEP_128"]);
  ("WINNER_CHUNK_1", ["FIRST_MATCH__WINNER_CHUNK_1"; "NO_MATCH_BEFORE_CHUNK_BOUNDARY__WINNER_CHUNK_1";
    "ALREADY_FOUND_BEFORE_CHUNK__WINNER_CHUNK_1"; "CONTINUATION_MATCH_IN_LATER_CHUNK__WINNER_CHUNK_1"]);
  ("WINNER_CHUNK_4", ["FIRST_MATCH__WINNER_CHUNK_4"; "MIDDLE_MATCH__WINNER_CHUNK_4"; "LAST_MATCH__WINNER_CHUNK_4";
    "NO_MATCH_BEFORE_CHUNK_BOUNDARY__WINNER_CHUNK_4"; "ALREADY_FOUND_BEFORE_CHUNK__WINNER_CHUNK_4";
    "CONTINUATION_MATCH_IN_LATER_CHUNK__WINNER_CHUNK_4"]);
  ("WINNER_CHUNK_8", ["FIRST_MATCH__WINNER_CHUNK_8"; "MIDDLE_MATCH__WINNER_CHUNK_8"; "LAST_MATCH__WINNER_CHUNK_8";
    "NO_MATCH_BEFORE_CHUNK_BOUNDARY__WINNER_CHUNK_8"; "ALREADY_FOUND_BEFORE_CHUNK__WINNER_CHUNK_8";
    "CONTINUATION_MATCH_IN_LATER_CHUNK__WINNER_CHUNK_8"]);
  ("WINNER_CHUNK_16", ["FIRST_MATCH__WINNER_CHUNK_16"; "MIDDLE_MATCH__WINNER_CHUNK_16"; "LAST_MATCH__WINNER_CHUNK_16";
    "NO_MATCH_BEFORE_CHUNK_BOUNDARY__WINNER_CHUNK_16"; "ALREADY_FOUND_BEFORE_CHUNK__WINNER_CHUNK_16";
    "CONTINUATION_MATCH_IN_LATER_CHUNK__WINNER_CHUNK_16"]);
  ("WINNER_CHUNK_32", ["FIRST_MATCH__WINNER_CHUNK_32"; "MIDDLE_MATCH__WINNER_CHUNK_32"; "LAST_MATCH__WINNER_CHUNK_32";
    "NO_MATCH_BEFORE_CHUNK_BOUNDARY__WINNER_CHUNK_32"; "ALREADY_FOUND_BEFORE_CHUNK__WINNER_CHUNK_32";
    "CONTINUATION_MATCH_IN_LATER_CHUNK__WINNER_CHUNK_32"]);
  ("PRIZE_OR_ZERO", ["WINNER_TRUE"; "WINNER_FALSE"]);
  ("COMPOSITE_TWAB_UPDATE", ["TWAB_ACCUMULATION_SAFE_MAX"]);
  ("COMPOSITE_DRAW_GENERAL", ["T_MAX"; "T_POWER_MINUS_ONE"; "T_POWER_PLUS_ONE"]);
  ("COMPOSITE_DRAW_ALL_VALID", ["T_DIVIDES_DOMAIN"]);
  ("COMPOSITE_DRAW_AND_CHUNK_8", ["ALL_VALID_FIXED_WINNER__COMPOSITE_DRAW_AND_CHUNK_8"]);
  ("COMPOSITE_DRAW_AND_CHUNK_32", ["ALL_VALID_FIXED_WINNER__COMPOSITE_DRAW_AND_CHUNK_32"]);
  ("PUBLIC_DECRYPT_AGGREGATE_128", ["T_MAX"]);
  ("PUBLIC_DECRYPT_VALID_BOOL", ["VALID_TRUE"])
].

Definition circuit_RNG_64 : ExpectedCircuitDefinition :=
  {| ec_circuit := {| cd_id := "RNG_64"; cd_family := "randomness-width"; cd_classification := primitive;
    cd_operations := ["FHE.randEuint64()"; "STORE._result64"; "FHE.allowThis(euint64)"];
    cd_productionCritical := false; cd_widthRole := "comparison-only"; cd_vectorIds := ["FIXED"] |};
    ec_repetitionCategory := PRIMITIVE_OR_SINGLE_STEP; ec_latencyCategory := NO_LOCKED_P90_CATEGORY;
    ec_publicDecryptionClassification := NOT_PUBLIC_DECRYPTION |}.

Definition circuit_RNG_128 : ExpectedCircuitDefinition :=
  {| ec_circuit := {| cd_id := "RNG_128"; cd_family := "randomness-width"; cd_classification := primitive;
    cd_operations := ["FHE.randEuint128()"; "STORE._result128"; "FHE.allowThis(euint128)"];
    cd_productionCritical := true; cd_widthRole := "production"; cd_vectorIds := ["FIXED"] |};
    ec_repetitionCategory := PRIMITIVE_OR_SINGLE_STEP; ec_latencyCategory := NO_LOCKED_P90_CATEGORY;
    ec_publicDecryptionClassification := NOT_PUBLIC_DECRYPTION |}.

Definition circuit_RNG_256 : ExpectedCircuitDefinition :=
  {| ec_circuit := {| cd_id := "RNG_256"; cd_family := "randomness-width"; cd_classification := primitive;
    cd_operations := ["FHE.randEuint256()"; "STORE._last256"; "FHE.allowThis(euint256)"];
    cd_productionCritical := false; cd_widthRole := "comparison-only-api-limited"; cd_vectorIds := ["FIXED"] |};
    ec_repetitionCategory := PRIMITIVE_OR_SINGLE_STEP; ec_latencyCategory := NO_LOCKED_P90_CATEGORY;
    ec_publicDecryptionClassification := NOT_PUBLIC_DECRYPTION |}.

Definition circuit_TWAB_CAST_64_TO_128 : ExpectedCircuitDefinition :=
  {| ec_circuit := {| cd_id := "TWAB_CAST_64_TO_128"; cd_family := "twab"; cd_classification := primitive;
    cd_operations := ["FHE.asEuint128(euint64)"; "STORE._result128"; "FHE.allowThis(euint128)"];
    cd_productionCritical := true; cd_widthRole := "production"; cd_vectorIds := ["BALANCE_MAX"] |};
    ec_repetitionCategory := PRIMITIVE_OR_SINGLE_STEP; ec_latencyCategory := USER_TWAB_KERNEL;
    ec_publicDecryptionClassification := NOT_PUBLIC_DECRYPTION |}.

Definition circuit_TWAB_DELTA_128 : ExpectedCircuitDefinition :=
  {| ec_circuit := {| cd_id := "TWAB_DELTA_128"; cd_family := "twab"; cd_classification := primitive;
    cd_operations := ["FHE.asEuint128(euint64)"; "FHE.mul(euint128,uint128)"; "STORE._result128";
    "FHE.allowThis(euint128)"]; cd_productionCritical := true; cd_widthRole := "production";
    cd_vectorIds := ["BALANCE_MAX_ELAPSED_MAX"] |}; ec_repetitionCategory := PRIMITIVE_OR_SINGLE_STEP;
    ec_latencyCategory := USER_TWAB_KERNEL; ec_publicDecryptionClassification := NOT_PUBLIC_DECRYPTION |}.

Definition circuit_TWAB_ACCUMULATE_128 : ExpectedCircuitDefinition :=
  {| ec_circuit := {| cd_id := "TWAB_ACCUMULATE_128"; cd_family := "twab"; cd_classification := primitive;
    cd_operations := ["FHE.asEuint128(euint64)"; "FHE.mul(euint128,uint128)"; "FHE.add(euint128,euint128)";
    "STORE._result128"; "FHE.allowThis(euint128)"]; cd_productionCritical := true; cd_widthRole := "production";
    cd_vectorIds := ["TWAB_ACCUMULATION_SAFE_MAX"] |}; ec_repetitionCategory := PRIMITIVE_OR_SINGLE_STEP;
    ec_latencyCategory := USER_TWAB_KERNEL; ec_publicDecryptionClassification := NOT_PUBLIC_DECRYPTION |}.

Definition circuit_AGGREGATE_ADD_128 : ExpectedCircuitDefinition :=
  {| ec_circuit := {| cd_id := "AGGREGATE_ADD_128"; cd_family := "twab"; cd_classification := primitive;
    cd_operations := ["FHE.add(euint128,euint128)"; "STORE._result128"; "FHE.allowThis(euint128)"];
    cd_productionCritical := true; cd_widthRole := "production"; cd_vectorIds := ["AGGREGATE_SAFE_MAX"] |};
    ec_repetitionCategory := PRIMITIVE_OR_SINGLE_STEP; ec_latencyCategory := USER_TWAB_KERNEL;
    ec_publicDecryptionClassification := NOT_PUBLIC_DECRYPTION |}.

Definition circuit_PREFIX_ADD_128 : ExpectedCircuitDefinition :=
  {| ec_circuit := {| cd_id := "PREFIX_ADD_128"; cd_family := "twab"; cd_classification := primitive;
    cd_operations := ["FHE.add(euint128,euint128)"; "STORE._result128"; "FHE.allowThis(euint128)"];
    cd_productionCritical := true; cd_widthRole := "production"; cd_vectorIds := ["PREFIX_SAFE_MAX"] |};
    ec_repetitionCategory := PRIMITIVE_OR_SINGLE_STEP; ec_latencyCategory := USER_TWAB_KERNEL;
    ec_publicDecryptionClassification := NOT_PUBLIC_DECRYPTION |}.

Definition circuit_DRAW_ZERO_TOTAL_NOOP : ExpectedCircuitDefinition :=
  {| ec_circuit := {| cd_id := "DRAW_ZERO_TOTAL_NOOP"; cd_family := "rejection"; cd_classification := primitive;
    cd_operations := ["STORE._result128"]; cd_productionCritical := true; cd_widthRole := "production";
    cd_vectorIds := ["T_ZERO"] |}; ec_repetitionCategory := PRIMITIVE_OR_SINGLE_STEP;
    ec_latencyCategory := NO_LOCKED_P90_CATEGORY; ec_publicDecryptionClassification := NOT_PUBLIC_DECRYPTION |}.

Definition circuit_DRAW_TOTAL_ONE : ExpectedCircuitDefinition :=
  {| ec_circuit := {| cd_id := "DRAW_TOTAL_ONE"; cd_family := "rejection"; cd_classification := primitive;
    cd_operations := ["FHE.asEuint128(0)"; "STORE._result128"; "FHE.allowThis(euint128)"];
    cd_productionCritical := true; cd_widthRole := "production"; cd_vectorIds := ["T_ONE"] |};
    ec_repetitionCategory := PRIMITIVE_OR_SINGLE_STEP; ec_latencyCategory := NO_LOCKED_P90_CATEGORY;
    ec_publicDecryptionClassification := NOT_PUBLIC_DECRYPTION |}.

Definition circuit_REJECTION_VALID_GENERAL_128 : ExpectedCircuitDefinition :=
  {| ec_circuit := {| cd_id := "REJECTION_VALID_GENERAL_128"; cd_family := "rejection";
    cd_classification := primitive; cd_operations := ["FHE.lt(euint128,uint128)"; "STORE._resultBool";
    "FHE.allowThis(ebool)"]; cd_productionCritical := true; cd_widthRole := "production"; cd_vectorIds := ["T_MAX";
    "T_POWER_MINUS_ONE"; "T_POWER_PLUS_ONE"] |}; ec_repetitionCategory := PRIMITIVE_OR_SINGLE_STEP;
    ec_latencyCategory := CANDIDATE_REJECTION_PIPELINE; ec_publicDecryptionClassification := NOT_PUBLIC_DECRYPTION |}.

Definition circuit_TICKET_REMAINDER_GENERAL_128 : ExpectedCircuitDefinition :=
  {| ec_circuit := {| cd_id := "TICKET_REMAINDER_GENERAL_128"; cd_family := "rejection";
    cd_classification := primitive; cd_operations := ["FHE.rem(euint128,uint128)"; "STORE._result128";
    "FHE.allowThis(euint128)"]; cd_productionCritical := true; cd_widthRole := "production"; cd_vectorIds := ["T_MAX";
    "T_POWER_MINUS_ONE"; "T_POWER_PLUS_ONE"] |}; ec_repetitionCategory := PRIMITIVE_OR_SINGLE_STEP;
    ec_latencyCategory := CANDIDATE_REJECTION_PIPELINE; ec_publicDecryptionClassification := NOT_PUBLIC_DECRYPTION |}.

Definition circuit_REJECTION_PIPELINE_GENERAL_128 : ExpectedCircuitDefinition :=
  {| ec_circuit := {| cd_id := "REJECTION_PIPELINE_GENERAL_128"; cd_family := "rejection";
    cd_classification := composite; cd_operations := ["FHE.randEuint128()"; "FHE.lt(euint128,uint128)";
    "STORE._candidateValidity"; "FHE.rem(euint128,uint128)"; "STORE._candidateRemainder"; "FHE.allowThis(ebool)";
    "FHE.allowThis(euint128)"; "STORE.generalCandidatePending"]; cd_productionCritical := true;
    cd_widthRole := "production-candidate-only"; cd_vectorIds := ["T_MAX"; "T_POWER_MINUS_ONE"; "T_POWER_PLUS_ONE"]
    |}; ec_repetitionCategory := COMPOSITE_OR_WINNER_CHUNK; ec_latencyCategory := CANDIDATE_REJECTION_PIPELINE;
    ec_publicDecryptionClassification := NOT_PUBLIC_DECRYPTION |}.

Definition circuit_REJECTION_PIPELINE_ALL_VALID_128 : ExpectedCircuitDefinition :=
  {| ec_circuit := {| cd_id := "REJECTION_PIPELINE_ALL_VALID_128"; cd_family := "rejection";
    cd_classification := composite; cd_operations := ["FHE.randEuint128()"; "FHE.rem(euint128,uint128)";
    "STORE._result128"; "STORE._resultBool"; "FHE.allowThis(euint128)"]; cd_productionCritical := true;
    cd_widthRole := "production"; cd_vectorIds := ["T_DIVIDES_DOMAIN"] |};
    ec_repetitionCategory := COMPOSITE_OR_WINNER_CHUNK; ec_latencyCategory := CANDIDATE_REJECTION_PIPELINE;
    ec_publicDecryptionClassification := NOT_PUBLIC_DECRYPTION |}.

Definition circuit_WINNER_STEP_128 : ExpectedCircuitDefinition :=
  {| ec_circuit := {| cd_id := "WINNER_STEP_128"; cd_family := "winner-selection"; cd_classification := primitive;
    cd_operations := ["FHE.add(euint128,euint128)"; "FHE.lt(euint128,euint128)"; "FHE.not(ebool)";
    "FHE.and(ebool,ebool)"; "FHE.asEuint128(uint128)"; "FHE.select(ebool,euint128,euint128)"; "FHE.or(ebool,ebool)";
    "STORE._winnerPrefix"; "STORE._winnerFound"; "STORE._winnerIndex"; "STORE.winnerCursor";
    "FHE.allowThis(euint128)"; "FHE.allowThis(ebool)"; "FHE.allowThis(euint128)"]; cd_productionCritical := true;
    cd_widthRole := "production"; cd_vectorIds := ["FIRST_MATCH__WINNER_STEP_128";
    "NO_MATCH_BEFORE_CHUNK_BOUNDARY__WINNER_STEP_128"; "ALREADY_FOUND_BEFORE_CHUNK__WINNER_STEP_128";
    "CONTINUATION_MATCH_IN_LATER_CHUNK__WINNER_STEP_128"] |}; ec_repetitionCategory := PRIMITIVE_OR_SINGLE_STEP;
    ec_latencyCategory := WINNER_SELECTION_CHUNK; ec_publicDecryptionClassification := NOT_PUBLIC_DECRYPTION |}.

Definition circuit_WINNER_CHUNK_1 : ExpectedCircuitDefinition :=
  {| ec_circuit := {| cd_id := "WINNER_CHUNK_1"; cd_family := "winner-chunk"; cd_classification := winner_chunk;
    cd_operations := ["FHE.add(euint128,euint128)"; "FHE.lt(euint128,euint128)"; "FHE.not(ebool)";
    "FHE.and(ebool,ebool)"; "FHE.asEuint128(uint128)"; "FHE.select(ebool,euint128,euint128)"; "FHE.or(ebool,ebool)";
    "STORE._winnerPrefix"; "STORE._winnerFound"; "STORE._winnerIndex"; "STORE.winnerCursor";
    "FHE.allowThis(euint128)"; "FHE.allowThis(ebool)"; "FHE.allowThis(euint128)"]; cd_productionCritical := true;
    cd_widthRole := "production"; cd_vectorIds := ["FIRST_MATCH__WINNER_CHUNK_1";
    "NO_MATCH_BEFORE_CHUNK_BOUNDARY__WINNER_CHUNK_1"; "ALREADY_FOUND_BEFORE_CHUNK__WINNER_CHUNK_1";
    "CONTINUATION_MATCH_IN_LATER_CHUNK__WINNER_CHUNK_1"] |}; ec_repetitionCategory := COMPOSITE_OR_WINNER_CHUNK;
    ec_latencyCategory := WINNER_SELECTION_CHUNK; ec_publicDecryptionClassification := NOT_PUBLIC_DECRYPTION |}.

Definition circuit_WINNER_CHUNK_4 : ExpectedCircuitDefinition :=
  {| ec_circuit := {| cd_id := "WINNER_CHUNK_4"; cd_family := "winner-chunk"; cd_classification := winner_chunk;
    cd_operations := ["FHE.add(euint128,euint128)"; "FHE.lt(euint128,euint128)"; "FHE.not(ebool)";
    "FHE.and(ebool,ebool)"; "FHE.asEuint128(uint128)"; "FHE.select(ebool,euint128,euint128)"; "FHE.or(ebool,ebool)";
    "FHE.add(euint128,euint128)"; "FHE.lt(euint128,euint128)"; "FHE.not(ebool)"; "FHE.and(ebool,ebool)";
    "FHE.asEuint128(uint128)"; "FHE.select(ebool,euint128,euint128)"; "FHE.or(ebool,ebool)";
    "FHE.add(euint128,euint128)"; "FHE.lt(euint128,euint128)"; "FHE.not(ebool)"; "FHE.and(ebool,ebool)";
    "FHE.asEuint128(uint128)"; "FHE.select(ebool,euint128,euint128)"; "FHE.or(ebool,ebool)";
    "FHE.add(euint128,euint128)"; "FHE.lt(euint128,euint128)"; "FHE.not(ebool)"; "FHE.and(ebool,ebool)";
    "FHE.asEuint128(uint128)"; "FHE.select(ebool,euint128,euint128)"; "FHE.or(ebool,ebool)"; "STORE._winnerPrefix";
    "STORE._winnerFound"; "STORE._winnerIndex"; "STORE.winnerCursor"; "FHE.allowThis(euint128)";
    "FHE.allowThis(ebool)"; "FHE.allowThis(euint128)"]; cd_productionCritical := true; cd_widthRole := "production";
    cd_vectorIds := ["FIRST_MATCH__WINNER_CHUNK_4"; "MIDDLE_MATCH__WINNER_CHUNK_4"; "LAST_MATCH__WINNER_CHUNK_4";
    "NO_MATCH_BEFORE_CHUNK_BOUNDARY__WINNER_CHUNK_4"; "ALREADY_FOUND_BEFORE_CHUNK__WINNER_CHUNK_4";
    "CONTINUATION_MATCH_IN_LATER_CHUNK__WINNER_CHUNK_4"] |}; ec_repetitionCategory := COMPOSITE_OR_WINNER_CHUNK;
    ec_latencyCategory := WINNER_SELECTION_CHUNK; ec_publicDecryptionClassification := NOT_PUBLIC_DECRYPTION |}.

Definition circuit_WINNER_CHUNK_8 : ExpectedCircuitDefinition :=
  {| ec_circuit := {| cd_id := "WINNER_CHUNK_8"; cd_family := "winner-chunk"; cd_classification := winner_chunk;
    cd_operations := ["FHE.add(euint128,euint128)"; "FHE.lt(euint128,euint128)"; "FHE.not(ebool)";
    "FHE.and(ebool,ebool)"; "FHE.asEuint128(uint128)"; "FHE.select(ebool,euint128,euint128)"; "FHE.or(ebool,ebool)";
    "FHE.add(euint128,euint128)"; "FHE.lt(euint128,euint128)"; "FHE.not(ebool)"; "FHE.and(ebool,ebool)";
    "FHE.asEuint128(uint128)"; "FHE.select(ebool,euint128,euint128)"; "FHE.or(ebool,ebool)";
    "FHE.add(euint128,euint128)"; "FHE.lt(euint128,euint128)"; "FHE.not(ebool)"; "FHE.and(ebool,ebool)";
    "FHE.asEuint128(uint128)"; "FHE.select(ebool,euint128,euint128)"; "FHE.or(ebool,ebool)";
    "FHE.add(euint128,euint128)"; "FHE.lt(euint128,euint128)"; "FHE.not(ebool)"; "FHE.and(ebool,ebool)";
    "FHE.asEuint128(uint128)"; "FHE.select(ebool,euint128,euint128)"; "FHE.or(ebool,ebool)";
    "FHE.add(euint128,euint128)"; "FHE.lt(euint128,euint128)"; "FHE.not(ebool)"; "FHE.and(ebool,ebool)";
    "FHE.asEuint128(uint128)"; "FHE.select(ebool,euint128,euint128)"; "FHE.or(ebool,ebool)";
    "FHE.add(euint128,euint128)"; "FHE.lt(euint128,euint128)"; "FHE.not(ebool)"; "FHE.and(ebool,ebool)";
    "FHE.asEuint128(uint128)"; "FHE.select(ebool,euint128,euint128)"; "FHE.or(ebool,ebool)";
    "FHE.add(euint128,euint128)"; "FHE.lt(euint128,euint128)"; "FHE.not(ebool)"; "FHE.and(ebool,ebool)";
    "FHE.asEuint128(uint128)"; "FHE.select(ebool,euint128,euint128)"; "FHE.or(ebool,ebool)";
    "FHE.add(euint128,euint128)"; "FHE.lt(euint128,euint128)"; "FHE.not(ebool)"; "FHE.and(ebool,ebool)";
    "FHE.asEuint128(uint128)"; "FHE.select(ebool,euint128,euint128)"; "FHE.or(ebool,ebool)"; "STORE._winnerPrefix";
    "STORE._winnerFound"; "STORE._winnerIndex"; "STORE.winnerCursor"; "FHE.allowThis(euint128)";
    "FHE.allowThis(ebool)"; "FHE.allowThis(euint128)"]; cd_productionCritical := true; cd_widthRole := "production";
    cd_vectorIds := ["FIRST_MATCH__WINNER_CHUNK_8"; "MIDDLE_MATCH__WINNER_CHUNK_8"; "LAST_MATCH__WINNER_CHUNK_8";
    "NO_MATCH_BEFORE_CHUNK_BOUNDARY__WINNER_CHUNK_8"; "ALREADY_FOUND_BEFORE_CHUNK__WINNER_CHUNK_8";
    "CONTINUATION_MATCH_IN_LATER_CHUNK__WINNER_CHUNK_8"] |}; ec_repetitionCategory := COMPOSITE_OR_WINNER_CHUNK;
    ec_latencyCategory := WINNER_SELECTION_CHUNK; ec_publicDecryptionClassification := NOT_PUBLIC_DECRYPTION |}.

Definition circuit_WINNER_CHUNK_16 : ExpectedCircuitDefinition :=
  {| ec_circuit := {| cd_id := "WINNER_CHUNK_16"; cd_family := "winner-chunk"; cd_classification := winner_chunk;
    cd_operations := ["FHE.add(euint128,euint128)"; "FHE.lt(euint128,euint128)"; "FHE.not(ebool)";
    "FHE.and(ebool,ebool)"; "FHE.asEuint128(uint128)"; "FHE.select(ebool,euint128,euint128)"; "FHE.or(ebool,ebool)";
    "FHE.add(euint128,euint128)"; "FHE.lt(euint128,euint128)"; "FHE.not(ebool)"; "FHE.and(ebool,ebool)";
    "FHE.asEuint128(uint128)"; "FHE.select(ebool,euint128,euint128)"; "FHE.or(ebool,ebool)";
    "FHE.add(euint128,euint128)"; "FHE.lt(euint128,euint128)"; "FHE.not(ebool)"; "FHE.and(ebool,ebool)";
    "FHE.asEuint128(uint128)"; "FHE.select(ebool,euint128,euint128)"; "FHE.or(ebool,ebool)";
    "FHE.add(euint128,euint128)"; "FHE.lt(euint128,euint128)"; "FHE.not(ebool)"; "FHE.and(ebool,ebool)";
    "FHE.asEuint128(uint128)"; "FHE.select(ebool,euint128,euint128)"; "FHE.or(ebool,ebool)";
    "FHE.add(euint128,euint128)"; "FHE.lt(euint128,euint128)"; "FHE.not(ebool)"; "FHE.and(ebool,ebool)";
    "FHE.asEuint128(uint128)"; "FHE.select(ebool,euint128,euint128)"; "FHE.or(ebool,ebool)";
    "FHE.add(euint128,euint128)"; "FHE.lt(euint128,euint128)"; "FHE.not(ebool)"; "FHE.and(ebool,ebool)";
    "FHE.asEuint128(uint128)"; "FHE.select(ebool,euint128,euint128)"; "FHE.or(ebool,ebool)";
    "FHE.add(euint128,euint128)"; "FHE.lt(euint128,euint128)"; "FHE.not(ebool)"; "FHE.and(ebool,ebool)";
    "FHE.asEuint128(uint128)"; "FHE.select(ebool,euint128,euint128)"; "FHE.or(ebool,ebool)";
    "FHE.add(euint128,euint128)"; "FHE.lt(euint128,euint128)"; "FHE.not(ebool)"; "FHE.and(ebool,ebool)";
    "FHE.asEuint128(uint128)"; "FHE.select(ebool,euint128,euint128)"; "FHE.or(ebool,ebool)";
    "FHE.add(euint128,euint128)"; "FHE.lt(euint128,euint128)"; "FHE.not(ebool)"; "FHE.and(ebool,ebool)";
    "FHE.asEuint128(uint128)"; "FHE.select(ebool,euint128,euint128)"; "FHE.or(ebool,ebool)";
    "FHE.add(euint128,euint128)"; "FHE.lt(euint128,euint128)"; "FHE.not(ebool)"; "FHE.and(ebool,ebool)";
    "FHE.asEuint128(uint128)"; "FHE.select(ebool,euint128,euint128)"; "FHE.or(ebool,ebool)";
    "FHE.add(euint128,euint128)"; "FHE.lt(euint128,euint128)"; "FHE.not(ebool)"; "FHE.and(ebool,ebool)";
    "FHE.asEuint128(uint128)"; "FHE.select(ebool,euint128,euint128)"; "FHE.or(ebool,ebool)";
    "FHE.add(euint128,euint128)"; "FHE.lt(euint128,euint128)"; "FHE.not(ebool)"; "FHE.and(ebool,ebool)";
    "FHE.asEuint128(uint128)"; "FHE.select(ebool,euint128,euint128)"; "FHE.or(ebool,ebool)";
    "FHE.add(euint128,euint128)"; "FHE.lt(euint128,euint128)"; "FHE.not(ebool)"; "FHE.and(ebool,ebool)";
    "FHE.asEuint128(uint128)"; "FHE.select(ebool,euint128,euint128)"; "FHE.or(ebool,ebool)";
    "FHE.add(euint128,euint128)"; "FHE.lt(euint128,euint128)"; "FHE.not(ebool)"; "FHE.and(ebool,ebool)";
    "FHE.asEuint128(uint128)"; "FHE.select(ebool,euint128,euint128)"; "FHE.or(ebool,ebool)";
    "FHE.add(euint128,euint128)"; "FHE.lt(euint128,euint128)"; "FHE.not(ebool)"; "FHE.and(ebool,ebool)";
    "FHE.asEuint128(uint128)"; "FHE.select(ebool,euint128,euint128)"; "FHE.or(ebool,ebool)";
    "FHE.add(euint128,euint128)"; "FHE.lt(euint128,euint128)"; "FHE.not(ebool)"; "FHE.and(ebool,ebool)";
    "FHE.asEuint128(uint128)"; "FHE.select(ebool,euint128,euint128)"; "FHE.or(ebool,ebool)"; "STORE._winnerPrefix";
    "STORE._winnerFound"; "STORE._winnerIndex"; "STORE.winnerCursor"; "FHE.allowThis(euint128)";
    "FHE.allowThis(ebool)"; "FHE.allowThis(euint128)"]; cd_productionCritical := true; cd_widthRole := "production";
    cd_vectorIds := ["FIRST_MATCH__WINNER_CHUNK_16"; "MIDDLE_MATCH__WINNER_CHUNK_16"; "LAST_MATCH__WINNER_CHUNK_16";
    "NO_MATCH_BEFORE_CHUNK_BOUNDARY__WINNER_CHUNK_16"; "ALREADY_FOUND_BEFORE_CHUNK__WINNER_CHUNK_16";
    "CONTINUATION_MATCH_IN_LATER_CHUNK__WINNER_CHUNK_16"] |}; ec_repetitionCategory := COMPOSITE_OR_WINNER_CHUNK;
    ec_latencyCategory := WINNER_SELECTION_CHUNK; ec_publicDecryptionClassification := NOT_PUBLIC_DECRYPTION |}.

Definition circuit_WINNER_CHUNK_32 : ExpectedCircuitDefinition :=
  {| ec_circuit := {| cd_id := "WINNER_CHUNK_32"; cd_family := "winner-chunk"; cd_classification := winner_chunk;
    cd_operations := ["FHE.add(euint128,euint128)"; "FHE.lt(euint128,euint128)"; "FHE.not(ebool)";
    "FHE.and(ebool,ebool)"; "FHE.asEuint128(uint128)"; "FHE.select(ebool,euint128,euint128)"; "FHE.or(ebool,ebool)";
    "FHE.add(euint128,euint128)"; "FHE.lt(euint128,euint128)"; "FHE.not(ebool)"; "FHE.and(ebool,ebool)";
    "FHE.asEuint128(uint128)"; "FHE.select(ebool,euint128,euint128)"; "FHE.or(ebool,ebool)";
    "FHE.add(euint128,euint128)"; "FHE.lt(euint128,euint128)"; "FHE.not(ebool)"; "FHE.and(ebool,ebool)";
    "FHE.asEuint128(uint128)"; "FHE.select(ebool,euint128,euint128)"; "FHE.or(ebool,ebool)";
    "FHE.add(euint128,euint128)"; "FHE.lt(euint128,euint128)"; "FHE.not(ebool)"; "FHE.and(ebool,ebool)";
    "FHE.asEuint128(uint128)"; "FHE.select(ebool,euint128,euint128)"; "FHE.or(ebool,ebool)";
    "FHE.add(euint128,euint128)"; "FHE.lt(euint128,euint128)"; "FHE.not(ebool)"; "FHE.and(ebool,ebool)";
    "FHE.asEuint128(uint128)"; "FHE.select(ebool,euint128,euint128)"; "FHE.or(ebool,ebool)";
    "FHE.add(euint128,euint128)"; "FHE.lt(euint128,euint128)"; "FHE.not(ebool)"; "FHE.and(ebool,ebool)";
    "FHE.asEuint128(uint128)"; "FHE.select(ebool,euint128,euint128)"; "FHE.or(ebool,ebool)";
    "FHE.add(euint128,euint128)"; "FHE.lt(euint128,euint128)"; "FHE.not(ebool)"; "FHE.and(ebool,ebool)";
    "FHE.asEuint128(uint128)"; "FHE.select(ebool,euint128,euint128)"; "FHE.or(ebool,ebool)";
    "FHE.add(euint128,euint128)"; "FHE.lt(euint128,euint128)"; "FHE.not(ebool)"; "FHE.and(ebool,ebool)";
    "FHE.asEuint128(uint128)"; "FHE.select(ebool,euint128,euint128)"; "FHE.or(ebool,ebool)";
    "FHE.add(euint128,euint128)"; "FHE.lt(euint128,euint128)"; "FHE.not(ebool)"; "FHE.and(ebool,ebool)";
    "FHE.asEuint128(uint128)"; "FHE.select(ebool,euint128,euint128)"; "FHE.or(ebool,ebool)";
    "FHE.add(euint128,euint128)"; "FHE.lt(euint128,euint128)"; "FHE.not(ebool)"; "FHE.and(ebool,ebool)";
    "FHE.asEuint128(uint128)"; "FHE.select(ebool,euint128,euint128)"; "FHE.or(ebool,ebool)";
    "FHE.add(euint128,euint128)"; "FHE.lt(euint128,euint128)"; "FHE.not(ebool)"; "FHE.and(ebool,ebool)";
    "FHE.asEuint128(uint128)"; "FHE.select(ebool,euint128,euint128)"; "FHE.or(ebool,ebool)";
    "FHE.add(euint128,euint128)"; "FHE.lt(euint128,euint128)"; "FHE.not(ebool)"; "FHE.and(ebool,ebool)";
    "FHE.asEuint128(uint128)"; "FHE.select(ebool,euint128,euint128)"; "FHE.or(ebool,ebool)";
    "FHE.add(euint128,euint128)"; "FHE.lt(euint128,euint128)"; "FHE.not(ebool)"; "FHE.and(ebool,ebool)";
    "FHE.asEuint128(uint128)"; "FHE.select(ebool,euint128,euint128)"; "FHE.or(ebool,ebool)";
    "FHE.add(euint128,euint128)"; "FHE.lt(euint128,euint128)"; "FHE.not(ebool)"; "FHE.and(ebool,ebool)";
    "FHE.asEuint128(uint128)"; "FHE.select(ebool,euint128,euint128)"; "FHE.or(ebool,ebool)";
    "FHE.add(euint128,euint128)"; "FHE.lt(euint128,euint128)"; "FHE.not(ebool)"; "FHE.and(ebool,ebool)";
    "FHE.asEuint128(uint128)"; "FHE.select(ebool,euint128,euint128)"; "FHE.or(ebool,ebool)";
    "FHE.add(euint128,euint128)"; "FHE.lt(euint128,euint128)"; "FHE.not(ebool)"; "FHE.and(ebool,ebool)";
    "FHE.asEuint128(uint128)"; "FHE.select(ebool,euint128,euint128)"; "FHE.or(ebool,ebool)";
    "FHE.add(euint128,euint128)"; "FHE.lt(euint128,euint128)"; "FHE.not(ebool)"; "FHE.and(ebool,ebool)";
    "FHE.asEuint128(uint128)"; "FHE.select(ebool,euint128,euint128)"; "FHE.or(ebool,ebool)";
    "FHE.add(euint128,euint128)"; "FHE.lt(euint128,euint128)"; "FHE.not(ebool)"; "FHE.and(ebool,ebool)";
    "FHE.asEuint128(uint128)"; "FHE.select(ebool,euint128,euint128)"; "FHE.or(ebool,ebool)";
    "FHE.add(euint128,euint128)"; "FHE.lt(euint128,euint128)"; "FHE.not(ebool)"; "FHE.and(ebool,ebool)";
    "FHE.asEuint128(uint128)"; "FHE.select(ebool,euint128,euint128)"; "FHE.or(ebool,ebool)";
    "FHE.add(euint128,euint128)"; "FHE.lt(euint128,euint128)"; "FHE.not(ebool)"; "FHE.and(ebool,ebool)";
    "FHE.asEuint128(uint128)"; "FHE.select(ebool,euint128,euint128)"; "FHE.or(ebool,ebool)";
    "FHE.add(euint128,euint128)"; "FHE.lt(euint128,euint128)"; "FHE.not(ebool)"; "FHE.and(ebool,ebool)";
    "FHE.asEuint128(uint128)"; "FHE.select(ebool,euint128,euint128)"; "FHE.or(ebool,ebool)";
    "FHE.add(euint128,euint128)"; "FHE.lt(euint128,euint128)"; "FHE.not(ebool)"; "FHE.and(ebool,ebool)";
    "FHE.asEuint128(uint128)"; "FHE.select(ebool,euint128,euint128)"; "FHE.or(ebool,ebool)";
    "FHE.add(euint128,euint128)"; "FHE.lt(euint128,euint128)"; "FHE.not(ebool)"; "FHE.and(ebool,ebool)";
    "FHE.asEuint128(uint128)"; "FHE.select(ebool,euint128,euint128)"; "FHE.or(ebool,ebool)";
    "FHE.add(euint128,euint128)"; "FHE.lt(euint128,euint128)"; "FHE.not(ebool)"; "FHE.and(ebool,ebool)";
    "FHE.asEuint128(uint128)"; "FHE.select(ebool,euint128,euint128)"; "FHE.or(ebool,ebool)";
    "FHE.add(euint128,euint128)"; "FHE.lt(euint128,euint128)"; "FHE.not(ebool)"; "FHE.and(ebool,ebool)";
    "FHE.asEuint128(uint128)"; "FHE.select(ebool,euint128,euint128)"; "FHE.or(ebool,ebool)";
    "FHE.add(euint128,euint128)"; "FHE.lt(euint128,euint128)"; "FHE.not(ebool)"; "FHE.and(ebool,ebool)";
    "FHE.asEuint128(uint128)"; "FHE.select(ebool,euint128,euint128)"; "FHE.or(ebool,ebool)";
    "FHE.add(euint128,euint128)"; "FHE.lt(euint128,euint128)"; "FHE.not(ebool)"; "FHE.and(ebool,ebool)";
    "FHE.asEuint128(uint128)"; "FHE.select(ebool,euint128,euint128)"; "FHE.or(ebool,ebool)";
    "FHE.add(euint128,euint128)"; "FHE.lt(euint128,euint128)"; "FHE.not(ebool)"; "FHE.and(ebool,ebool)";
    "FHE.asEuint128(uint128)"; "FHE.select(ebool,euint128,euint128)"; "FHE.or(ebool,ebool)";
    "FHE.add(euint128,euint128)"; "FHE.lt(euint128,euint128)"; "FHE.not(ebool)"; "FHE.and(ebool,ebool)";
    "FHE.asEuint128(uint128)"; "FHE.select(ebool,euint128,euint128)"; "FHE.or(ebool,ebool)";
    "FHE.add(euint128,euint128)"; "FHE.lt(euint128,euint128)"; "FHE.not(ebool)"; "FHE.and(ebool,ebool)";
    "FHE.asEuint128(uint128)"; "FHE.select(ebool,euint128,euint128)"; "FHE.or(ebool,ebool)";
    "FHE.add(euint128,euint128)"; "FHE.lt(euint128,euint128)"; "FHE.not(ebool)"; "FHE.and(ebool,ebool)";
    "FHE.asEuint128(uint128)"; "FHE.select(ebool,euint128,euint128)"; "FHE.or(ebool,ebool)";
    "FHE.add(euint128,euint128)"; "FHE.lt(euint128,euint128)"; "FHE.not(ebool)"; "FHE.and(ebool,ebool)";
    "FHE.asEuint128(uint128)"; "FHE.select(ebool,euint128,euint128)"; "FHE.or(ebool,ebool)"; "STORE._winnerPrefix";
    "STORE._winnerFound"; "STORE._winnerIndex"; "STORE.winnerCursor"; "FHE.allowThis(euint128)";
    "FHE.allowThis(ebool)"; "FHE.allowThis(euint128)"]; cd_productionCritical := true; cd_widthRole := "production";
    cd_vectorIds := ["FIRST_MATCH__WINNER_CHUNK_32"; "MIDDLE_MATCH__WINNER_CHUNK_32"; "LAST_MATCH__WINNER_CHUNK_32";
    "NO_MATCH_BEFORE_CHUNK_BOUNDARY__WINNER_CHUNK_32"; "ALREADY_FOUND_BEFORE_CHUNK__WINNER_CHUNK_32";
    "CONTINUATION_MATCH_IN_LATER_CHUNK__WINNER_CHUNK_32"] |}; ec_repetitionCategory := COMPOSITE_OR_WINNER_CHUNK;
    ec_latencyCategory := WINNER_SELECTION_CHUNK; ec_publicDecryptionClassification := NOT_PUBLIC_DECRYPTION |}.

Definition circuit_PRIZE_OR_ZERO : ExpectedCircuitDefinition :=
  {| ec_circuit := {| cd_id := "PRIZE_OR_ZERO"; cd_family := "prize-masking"; cd_classification := primitive;
    cd_operations := ["FHE.select(ebool,euint64,euint64)"; "STORE._result64"; "FHE.allowThis(euint64)"];
    cd_productionCritical := true; cd_widthRole := "production"; cd_vectorIds := ["WINNER_TRUE"; "WINNER_FALSE"] |};
    ec_repetitionCategory := PRIMITIVE_OR_SINGLE_STEP; ec_latencyCategory := NO_LOCKED_P90_CATEGORY;
    ec_publicDecryptionClassification := NOT_PUBLIC_DECRYPTION |}.

Definition circuit_COMPOSITE_TWAB_UPDATE : ExpectedCircuitDefinition :=
  {| ec_circuit := {| cd_id := "COMPOSITE_TWAB_UPDATE"; cd_family := "composite"; cd_classification := composite;
    cd_operations := ["FHE.asEuint128(euint64)"; "FHE.mul(euint128,uint128)"; "FHE.add(euint128,euint128)";
    "STORE._result128"; "FHE.allowThis(euint128)"]; cd_productionCritical := true; cd_widthRole := "production";
    cd_vectorIds := ["TWAB_ACCUMULATION_SAFE_MAX"] |}; ec_repetitionCategory := COMPOSITE_OR_WINNER_CHUNK;
    ec_latencyCategory := USER_TWAB_KERNEL; ec_publicDecryptionClassification := NOT_PUBLIC_DECRYPTION |}.

Definition circuit_COMPOSITE_DRAW_GENERAL : ExpectedCircuitDefinition :=
  {| ec_circuit := {| cd_id := "COMPOSITE_DRAW_GENERAL"; cd_family := "composite"; cd_classification := composite;
    cd_operations := ["FHE.randEuint128()"; "FHE.lt(euint128,uint128)"; "STORE._candidateValidity";
    "FHE.rem(euint128,uint128)"; "STORE._candidateRemainder"; "FHE.allowThis(ebool)"; "FHE.allowThis(euint128)";
    "STORE.generalCandidatePending"]; cd_productionCritical := true; cd_widthRole := "production-candidate-only";
    cd_vectorIds := ["T_MAX"; "T_POWER_MINUS_ONE"; "T_POWER_PLUS_ONE"] |};
    ec_repetitionCategory := COMPOSITE_OR_WINNER_CHUNK; ec_latencyCategory := CANDIDATE_REJECTION_PIPELINE;
    ec_publicDecryptionClassification := NOT_PUBLIC_DECRYPTION |}.

Definition circuit_COMPOSITE_DRAW_ALL_VALID : ExpectedCircuitDefinition :=
  {| ec_circuit := {| cd_id := "COMPOSITE_DRAW_ALL_VALID"; cd_family := "composite"; cd_classification := composite;
    cd_operations := ["FHE.randEuint128()"; "FHE.rem(euint128,uint128)"; "STORE._result128"; "STORE._resultBool";
    "FHE.allowThis(euint128)"]; cd_productionCritical := true; cd_widthRole := "production";
    cd_vectorIds := ["T_DIVIDES_DOMAIN"] |}; ec_repetitionCategory := COMPOSITE_OR_WINNER_CHUNK;
    ec_latencyCategory := CANDIDATE_REJECTION_PIPELINE; ec_publicDecryptionClassification := NOT_PUBLIC_DECRYPTION |}.

Definition circuit_COMPOSITE_DRAW_AND_CHUNK_8 : ExpectedCircuitDefinition :=
  {| ec_circuit := {| cd_id := "COMPOSITE_DRAW_AND_CHUNK_8"; cd_family := "composite"; cd_classification := composite;
    cd_operations := ["FHE.randEuint128()"; "FHE.rem(euint128,uint128)"; "STORE._acceptedTicket";
    "STORE._winnerPrefix"; "STORE.winnerCursor"; "STORE.acceptedTicketReady"; "FHE.allowThis(euint128)";
    "FHE.add(euint128,euint128)"; "FHE.lt(euint128,euint128)"; "FHE.not(ebool)"; "FHE.and(ebool,ebool)";
    "FHE.asEuint128(uint128)"; "FHE.select(ebool,euint128,euint128)"; "FHE.or(ebool,ebool)";
    "FHE.add(euint128,euint128)"; "FHE.lt(euint128,euint128)"; "FHE.not(ebool)"; "FHE.and(ebool,ebool)";
    "FHE.asEuint128(uint128)"; "FHE.select(ebool,euint128,euint128)"; "FHE.or(ebool,ebool)";
    "FHE.add(euint128,euint128)"; "FHE.lt(euint128,euint128)"; "FHE.not(ebool)"; "FHE.and(ebool,ebool)";
    "FHE.asEuint128(uint128)"; "FHE.select(ebool,euint128,euint128)"; "FHE.or(ebool,ebool)";
    "FHE.add(euint128,euint128)"; "FHE.lt(euint128,euint128)"; "FHE.not(ebool)"; "FHE.and(ebool,ebool)";
    "FHE.asEuint128(uint128)"; "FHE.select(ebool,euint128,euint128)"; "FHE.or(ebool,ebool)";
    "FHE.add(euint128,euint128)"; "FHE.lt(euint128,euint128)"; "FHE.not(ebool)"; "FHE.and(ebool,ebool)";
    "FHE.asEuint128(uint128)"; "FHE.select(ebool,euint128,euint128)"; "FHE.or(ebool,ebool)";
    "FHE.add(euint128,euint128)"; "FHE.lt(euint128,euint128)"; "FHE.not(ebool)"; "FHE.and(ebool,ebool)";
    "FHE.asEuint128(uint128)"; "FHE.select(ebool,euint128,euint128)"; "FHE.or(ebool,ebool)";
    "FHE.add(euint128,euint128)"; "FHE.lt(euint128,euint128)"; "FHE.not(ebool)"; "FHE.and(ebool,ebool)";
    "FHE.asEuint128(uint128)"; "FHE.select(ebool,euint128,euint128)"; "FHE.or(ebool,ebool)";
    "FHE.add(euint128,euint128)"; "FHE.lt(euint128,euint128)"; "FHE.not(ebool)"; "FHE.and(ebool,ebool)";
    "FHE.asEuint128(uint128)"; "FHE.select(ebool,euint128,euint128)"; "FHE.or(ebool,ebool)"; "STORE._winnerPrefix";
    "STORE._winnerFound"; "STORE._winnerIndex"; "STORE.winnerCursor"; "FHE.allowThis(euint128)";
    "FHE.allowThis(ebool)"; "FHE.allowThis(euint128)"]; cd_productionCritical := true;
    cd_widthRole := "resource-envelope-guaranteed-valid";
    cd_vectorIds := ["ALL_VALID_FIXED_WINNER__COMPOSITE_DRAW_AND_CHUNK_8"] |};
    ec_repetitionCategory := COMPOSITE_OR_WINNER_CHUNK; ec_latencyCategory := COMPOSITE_DRAW_AND_CHUNK;
    ec_publicDecryptionClassification := NOT_PUBLIC_DECRYPTION |}.

Definition circuit_COMPOSITE_DRAW_AND_CHUNK_32 : ExpectedCircuitDefinition :=
  {| ec_circuit := {| cd_id := "COMPOSITE_DRAW_AND_CHUNK_32"; cd_family := "composite";
    cd_classification := composite; cd_operations := ["FHE.randEuint128()"; "FHE.rem(euint128,uint128)";
    "STORE._acceptedTicket"; "STORE._winnerPrefix"; "STORE.winnerCursor"; "STORE.acceptedTicketReady";
    "FHE.allowThis(euint128)"; "FHE.add(euint128,euint128)"; "FHE.lt(euint128,euint128)"; "FHE.not(ebool)";
    "FHE.and(ebool,ebool)"; "FHE.asEuint128(uint128)"; "FHE.select(ebool,euint128,euint128)"; "FHE.or(ebool,ebool)";
    "FHE.add(euint128,euint128)"; "FHE.lt(euint128,euint128)"; "FHE.not(ebool)"; "FHE.and(ebool,ebool)";
    "FHE.asEuint128(uint128)"; "FHE.select(ebool,euint128,euint128)"; "FHE.or(ebool,ebool)";
    "FHE.add(euint128,euint128)"; "FHE.lt(euint128,euint128)"; "FHE.not(ebool)"; "FHE.and(ebool,ebool)";
    "FHE.asEuint128(uint128)"; "FHE.select(ebool,euint128,euint128)"; "FHE.or(ebool,ebool)";
    "FHE.add(euint128,euint128)"; "FHE.lt(euint128,euint128)"; "FHE.not(ebool)"; "FHE.and(ebool,ebool)";
    "FHE.asEuint128(uint128)"; "FHE.select(ebool,euint128,euint128)"; "FHE.or(ebool,ebool)";
    "FHE.add(euint128,euint128)"; "FHE.lt(euint128,euint128)"; "FHE.not(ebool)"; "FHE.and(ebool,ebool)";
    "FHE.asEuint128(uint128)"; "FHE.select(ebool,euint128,euint128)"; "FHE.or(ebool,ebool)";
    "FHE.add(euint128,euint128)"; "FHE.lt(euint128,euint128)"; "FHE.not(ebool)"; "FHE.and(ebool,ebool)";
    "FHE.asEuint128(uint128)"; "FHE.select(ebool,euint128,euint128)"; "FHE.or(ebool,ebool)";
    "FHE.add(euint128,euint128)"; "FHE.lt(euint128,euint128)"; "FHE.not(ebool)"; "FHE.and(ebool,ebool)";
    "FHE.asEuint128(uint128)"; "FHE.select(ebool,euint128,euint128)"; "FHE.or(ebool,ebool)";
    "FHE.add(euint128,euint128)"; "FHE.lt(euint128,euint128)"; "FHE.not(ebool)"; "FHE.and(ebool,ebool)";
    "FHE.asEuint128(uint128)"; "FHE.select(ebool,euint128,euint128)"; "FHE.or(ebool,ebool)";
    "FHE.add(euint128,euint128)"; "FHE.lt(euint128,euint128)"; "FHE.not(ebool)"; "FHE.and(ebool,ebool)";
    "FHE.asEuint128(uint128)"; "FHE.select(ebool,euint128,euint128)"; "FHE.or(ebool,ebool)";
    "FHE.add(euint128,euint128)"; "FHE.lt(euint128,euint128)"; "FHE.not(ebool)"; "FHE.and(ebool,ebool)";
    "FHE.asEuint128(uint128)"; "FHE.select(ebool,euint128,euint128)"; "FHE.or(ebool,ebool)";
    "FHE.add(euint128,euint128)"; "FHE.lt(euint128,euint128)"; "FHE.not(ebool)"; "FHE.and(ebool,ebool)";
    "FHE.asEuint128(uint128)"; "FHE.select(ebool,euint128,euint128)"; "FHE.or(ebool,ebool)";
    "FHE.add(euint128,euint128)"; "FHE.lt(euint128,euint128)"; "FHE.not(ebool)"; "FHE.and(ebool,ebool)";
    "FHE.asEuint128(uint128)"; "FHE.select(ebool,euint128,euint128)"; "FHE.or(ebool,ebool)";
    "FHE.add(euint128,euint128)"; "FHE.lt(euint128,euint128)"; "FHE.not(ebool)"; "FHE.and(ebool,ebool)";
    "FHE.asEuint128(uint128)"; "FHE.select(ebool,euint128,euint128)"; "FHE.or(ebool,ebool)";
    "FHE.add(euint128,euint128)"; "FHE.lt(euint128,euint128)"; "FHE.not(ebool)"; "FHE.and(ebool,ebool)";
    "FHE.asEuint128(uint128)"; "FHE.select(ebool,euint128,euint128)"; "FHE.or(ebool,ebool)";
    "FHE.add(euint128,euint128)"; "FHE.lt(euint128,euint128)"; "FHE.not(ebool)"; "FHE.and(ebool,ebool)";
    "FHE.asEuint128(uint128)"; "FHE.select(ebool,euint128,euint128)"; "FHE.or(ebool,ebool)";
    "FHE.add(euint128,euint128)"; "FHE.lt(euint128,euint128)"; "FHE.not(ebool)"; "FHE.and(ebool,ebool)";
    "FHE.asEuint128(uint128)"; "FHE.select(ebool,euint128,euint128)"; "FHE.or(ebool,ebool)";
    "FHE.add(euint128,euint128)"; "FHE.lt(euint128,euint128)"; "FHE.not(ebool)"; "FHE.and(ebool,ebool)";
    "FHE.asEuint128(uint128)"; "FHE.select(ebool,euint128,euint128)"; "FHE.or(ebool,ebool)";
    "FHE.add(euint128,euint128)"; "FHE.lt(euint128,euint128)"; "FHE.not(ebool)"; "FHE.and(ebool,ebool)";
    "FHE.asEuint128(uint128)"; "FHE.select(ebool,euint128,euint128)"; "FHE.or(ebool,ebool)";
    "FHE.add(euint128,euint128)"; "FHE.lt(euint128,euint128)"; "FHE.not(ebool)"; "FHE.and(ebool,ebool)";
    "FHE.asEuint128(uint128)"; "FHE.select(ebool,euint128,euint128)"; "FHE.or(ebool,ebool)";
    "FHE.add(euint128,euint128)"; "FHE.lt(euint128,euint128)"; "FHE.not(ebool)"; "FHE.and(ebool,ebool)";
    "FHE.asEuint128(uint128)"; "FHE.select(ebool,euint128,euint128)"; "FHE.or(ebool,ebool)";
    "FHE.add(euint128,euint128)"; "FHE.lt(euint128,euint128)"; "FHE.not(ebool)"; "FHE.and(ebool,ebool)";
    "FHE.asEuint128(uint128)"; "FHE.select(ebool,euint128,euint128)"; "FHE.or(ebool,ebool)";
    "FHE.add(euint128,euint128)"; "FHE.lt(euint128,euint128)"; "FHE.not(ebool)"; "FHE.and(ebool,ebool)";
    "FHE.asEuint128(uint128)"; "FHE.select(ebool,euint128,euint128)"; "FHE.or(ebool,ebool)";
    "FHE.add(euint128,euint128)"; "FHE.lt(euint128,euint128)"; "FHE.not(ebool)"; "FHE.and(ebool,ebool)";
    "FHE.asEuint128(uint128)"; "FHE.select(ebool,euint128,euint128)"; "FHE.or(ebool,ebool)";
    "FHE.add(euint128,euint128)"; "FHE.lt(euint128,euint128)"; "FHE.not(ebool)"; "FHE.and(ebool,ebool)";
    "FHE.asEuint128(uint128)"; "FHE.select(ebool,euint128,euint128)"; "FHE.or(ebool,ebool)";
    "FHE.add(euint128,euint128)"; "FHE.lt(euint128,euint128)"; "FHE.not(ebool)"; "FHE.and(ebool,ebool)";
    "FHE.asEuint128(uint128)"; "FHE.select(ebool,euint128,euint128)"; "FHE.or(ebool,ebool)";
    "FHE.add(euint128,euint128)"; "FHE.lt(euint128,euint128)"; "FHE.not(ebool)"; "FHE.and(ebool,ebool)";
    "FHE.asEuint128(uint128)"; "FHE.select(ebool,euint128,euint128)"; "FHE.or(ebool,ebool)";
    "FHE.add(euint128,euint128)"; "FHE.lt(euint128,euint128)"; "FHE.not(ebool)"; "FHE.and(ebool,ebool)";
    "FHE.asEuint128(uint128)"; "FHE.select(ebool,euint128,euint128)"; "FHE.or(ebool,ebool)";
    "FHE.add(euint128,euint128)"; "FHE.lt(euint128,euint128)"; "FHE.not(ebool)"; "FHE.and(ebool,ebool)";
    "FHE.asEuint128(uint128)"; "FHE.select(ebool,euint128,euint128)"; "FHE.or(ebool,ebool)";
    "FHE.add(euint128,euint128)"; "FHE.lt(euint128,euint128)"; "FHE.not(ebool)"; "FHE.and(ebool,ebool)";
    "FHE.asEuint128(uint128)"; "FHE.select(ebool,euint128,euint128)"; "FHE.or(ebool,ebool)";
    "FHE.add(euint128,euint128)"; "FHE.lt(euint128,euint128)"; "FHE.not(ebool)"; "FHE.and(ebool,ebool)";
    "FHE.asEuint128(uint128)"; "FHE.select(ebool,euint128,euint128)"; "FHE.or(ebool,ebool)";
    "FHE.add(euint128,euint128)"; "FHE.lt(euint128,euint128)"; "FHE.not(ebool)"; "FHE.and(ebool,ebool)";
    "FHE.asEuint128(uint128)"; "FHE.select(ebool,euint128,euint128)"; "FHE.or(ebool,ebool)";
    "FHE.add(euint128,euint128)"; "FHE.lt(euint128,euint128)"; "FHE.not(ebool)"; "FHE.and(ebool,ebool)";
    "FHE.asEuint128(uint128)"; "FHE.select(ebool,euint128,euint128)"; "FHE.or(ebool,ebool)"; "STORE._winnerPrefix";
    "STORE._winnerFound"; "STORE._winnerIndex"; "STORE.winnerCursor"; "FHE.allowThis(euint128)";
    "FHE.allowThis(ebool)"; "FHE.allowThis(euint128)"]; cd_productionCritical := true;
    cd_widthRole := "resource-envelope-guaranteed-valid";
    cd_vectorIds := ["ALL_VALID_FIXED_WINNER__COMPOSITE_DRAW_AND_CHUNK_32"] |};
    ec_repetitionCategory := COMPOSITE_OR_WINNER_CHUNK; ec_latencyCategory := COMPOSITE_DRAW_AND_CHUNK;
    ec_publicDecryptionClassification := NOT_PUBLIC_DECRYPTION |}.

Definition circuit_PUBLIC_DECRYPT_AGGREGATE_128 : ExpectedCircuitDefinition :=
  {| ec_circuit := {| cd_id := "PUBLIC_DECRYPT_AGGREGATE_128"; cd_family := "public-decryption";
    cd_classification := public_decryption; cd_operations := ["FHE.add(euint128,euint128)"; "STORE._publicAggregate";
    "FHE.allowThis(euint128)"; "FHE.makePubliclyDecryptable(euint128)"]; cd_productionCritical := true;
    cd_widthRole := "production"; cd_vectorIds := ["T_MAX"] |}; ec_repetitionCategory := PUBLIC_DECRYPTION;
    ec_latencyCategory := PUBLIC_DECRYPTION_LATENCY; ec_publicDecryptionClassification := IS_PUBLIC_DECRYPTION |}.

Definition circuit_PUBLIC_DECRYPT_VALID_BOOL : ExpectedCircuitDefinition :=
  {| ec_circuit := {| cd_id := "PUBLIC_DECRYPT_VALID_BOOL"; cd_family := "public-decryption";
    cd_classification := public_decryption; cd_operations := ["FHE.or(ebool,ebool)"; "STORE._publicValidity";
    "FHE.allowThis(ebool)"; "FHE.makePubliclyDecryptable(ebool)"]; cd_productionCritical := true;
    cd_widthRole := "production"; cd_vectorIds := ["VALID_TRUE"] |}; ec_repetitionCategory := PUBLIC_DECRYPTION;
    ec_latencyCategory := PUBLIC_DECRYPTION_LATENCY; ec_publicDecryptionClassification := IS_PUBLIC_DECRYPTION |}.

Definition EXPECTED_CIRCUITS : list ExpectedCircuitDefinition := [
  circuit_RNG_64; circuit_RNG_128; circuit_RNG_256; circuit_TWAB_CAST_64_TO_128; circuit_TWAB_DELTA_128;
    circuit_TWAB_ACCUMULATE_128; circuit_AGGREGATE_ADD_128; circuit_PREFIX_ADD_128; circuit_DRAW_ZERO_TOTAL_NOOP;
    circuit_DRAW_TOTAL_ONE; circuit_REJECTION_VALID_GENERAL_128; circuit_TICKET_REMAINDER_GENERAL_128;
    circuit_REJECTION_PIPELINE_GENERAL_128; circuit_REJECTION_PIPELINE_ALL_VALID_128; circuit_WINNER_STEP_128;
    circuit_WINNER_CHUNK_1; circuit_WINNER_CHUNK_4; circuit_WINNER_CHUNK_8; circuit_WINNER_CHUNK_16;
    circuit_WINNER_CHUNK_32; circuit_PRIZE_OR_ZERO; circuit_COMPOSITE_TWAB_UPDATE; circuit_COMPOSITE_DRAW_GENERAL;
    circuit_COMPOSITE_DRAW_ALL_VALID; circuit_COMPOSITE_DRAW_AND_CHUNK_8; circuit_COMPOSITE_DRAW_AND_CHUNK_32;
    circuit_PUBLIC_DECRYPT_AGGREGATE_128; circuit_PUBLIC_DECRYPT_VALID_BOOL
].

Definition EXPECTED_PRIMITIVE_PAIRS : list (string * string) := [
  ("RNG_64", "FIXED"); ("RNG_128", "FIXED"); ("RNG_256", "FIXED"); ("TWAB_CAST_64_TO_128", "BALANCE_MAX");
    ("TWAB_DELTA_128", "BALANCE_MAX_ELAPSED_MAX"); ("TWAB_ACCUMULATE_128", "TWAB_ACCUMULATION_SAFE_MAX");
    ("AGGREGATE_ADD_128", "AGGREGATE_SAFE_MAX"); ("PREFIX_ADD_128", "PREFIX_SAFE_MAX"); ("DRAW_ZERO_TOTAL_NOOP",
    "T_ZERO"); ("DRAW_TOTAL_ONE", "T_ONE"); ("REJECTION_VALID_GENERAL_128", "T_MAX"); ("REJECTION_VALID_GENERAL_128",
    "T_POWER_MINUS_ONE"); ("REJECTION_VALID_GENERAL_128", "T_POWER_PLUS_ONE"); ("TICKET_REMAINDER_GENERAL_128",
    "T_MAX"); ("TICKET_REMAINDER_GENERAL_128", "T_POWER_MINUS_ONE"); ("TICKET_REMAINDER_GENERAL_128",
    "T_POWER_PLUS_ONE"); ("WINNER_STEP_128", "FIRST_MATCH__WINNER_STEP_128"); ("WINNER_STEP_128",
    "NO_MATCH_BEFORE_CHUNK_BOUNDARY__WINNER_STEP_128"); ("WINNER_STEP_128",
    "ALREADY_FOUND_BEFORE_CHUNK__WINNER_STEP_128"); ("WINNER_STEP_128",
    "CONTINUATION_MATCH_IN_LATER_CHUNK__WINNER_STEP_128"); ("PRIZE_OR_ZERO", "WINNER_TRUE"); ("PRIZE_OR_ZERO",
    "WINNER_FALSE")
].

Definition EXPECTED_COMPOSITE_CHUNK_PAIRS : list (string * string) := [
  ("REJECTION_PIPELINE_GENERAL_128", "T_MAX"); ("REJECTION_PIPELINE_GENERAL_128", "T_POWER_MINUS_ONE");
    ("REJECTION_PIPELINE_GENERAL_128", "T_POWER_PLUS_ONE"); ("REJECTION_PIPELINE_ALL_VALID_128", "T_DIVIDES_DOMAIN");
    ("WINNER_CHUNK_1", "FIRST_MATCH__WINNER_CHUNK_1"); ("WINNER_CHUNK_1",
    "NO_MATCH_BEFORE_CHUNK_BOUNDARY__WINNER_CHUNK_1"); ("WINNER_CHUNK_1",
    "ALREADY_FOUND_BEFORE_CHUNK__WINNER_CHUNK_1"); ("WINNER_CHUNK_1",
    "CONTINUATION_MATCH_IN_LATER_CHUNK__WINNER_CHUNK_1"); ("WINNER_CHUNK_4", "FIRST_MATCH__WINNER_CHUNK_4");
    ("WINNER_CHUNK_4", "MIDDLE_MATCH__WINNER_CHUNK_4"); ("WINNER_CHUNK_4", "LAST_MATCH__WINNER_CHUNK_4");
    ("WINNER_CHUNK_4", "NO_MATCH_BEFORE_CHUNK_BOUNDARY__WINNER_CHUNK_4"); ("WINNER_CHUNK_4",
    "ALREADY_FOUND_BEFORE_CHUNK__WINNER_CHUNK_4"); ("WINNER_CHUNK_4",
    "CONTINUATION_MATCH_IN_LATER_CHUNK__WINNER_CHUNK_4"); ("WINNER_CHUNK_8", "FIRST_MATCH__WINNER_CHUNK_8");
    ("WINNER_CHUNK_8", "MIDDLE_MATCH__WINNER_CHUNK_8"); ("WINNER_CHUNK_8", "LAST_MATCH__WINNER_CHUNK_8");
    ("WINNER_CHUNK_8", "NO_MATCH_BEFORE_CHUNK_BOUNDARY__WINNER_CHUNK_8"); ("WINNER_CHUNK_8",
    "ALREADY_FOUND_BEFORE_CHUNK__WINNER_CHUNK_8"); ("WINNER_CHUNK_8",
    "CONTINUATION_MATCH_IN_LATER_CHUNK__WINNER_CHUNK_8"); ("WINNER_CHUNK_16", "FIRST_MATCH__WINNER_CHUNK_16");
    ("WINNER_CHUNK_16", "MIDDLE_MATCH__WINNER_CHUNK_16"); ("WINNER_CHUNK_16", "LAST_MATCH__WINNER_CHUNK_16");
    ("WINNER_CHUNK_16", "NO_MATCH_BEFORE_CHUNK_BOUNDARY__WINNER_CHUNK_16"); ("WINNER_CHUNK_16",
    "ALREADY_FOUND_BEFORE_CHUNK__WINNER_CHUNK_16"); ("WINNER_CHUNK_16",
    "CONTINUATION_MATCH_IN_LATER_CHUNK__WINNER_CHUNK_16"); ("WINNER_CHUNK_32", "FIRST_MATCH__WINNER_CHUNK_32");
    ("WINNER_CHUNK_32", "MIDDLE_MATCH__WINNER_CHUNK_32"); ("WINNER_CHUNK_32", "LAST_MATCH__WINNER_CHUNK_32");
    ("WINNER_CHUNK_32", "NO_MATCH_BEFORE_CHUNK_BOUNDARY__WINNER_CHUNK_32"); ("WINNER_CHUNK_32",
    "ALREADY_FOUND_BEFORE_CHUNK__WINNER_CHUNK_32"); ("WINNER_CHUNK_32",
    "CONTINUATION_MATCH_IN_LATER_CHUNK__WINNER_CHUNK_32"); ("COMPOSITE_TWAB_UPDATE", "TWAB_ACCUMULATION_SAFE_MAX");
    ("COMPOSITE_DRAW_GENERAL", "T_MAX"); ("COMPOSITE_DRAW_GENERAL", "T_POWER_MINUS_ONE"); ("COMPOSITE_DRAW_GENERAL",
    "T_POWER_PLUS_ONE"); ("COMPOSITE_DRAW_ALL_VALID", "T_DIVIDES_DOMAIN"); ("COMPOSITE_DRAW_AND_CHUNK_8",
    "ALL_VALID_FIXED_WINNER__COMPOSITE_DRAW_AND_CHUNK_8"); ("COMPOSITE_DRAW_AND_CHUNK_32",
    "ALL_VALID_FIXED_WINNER__COMPOSITE_DRAW_AND_CHUNK_32")
].

Definition EXPECTED_PUBLIC_DECRYPTION_PAIRS : list (string * string) := [
  ("PUBLIC_DECRYPT_AGGREGATE_128", "T_MAX"); ("PUBLIC_DECRYPT_VALID_BOOL", "VALID_TRUE")
].

Definition instance_FIRST_MATCH__WINNER_STEP_128 : ExpectedWinnerInstance :=
  {| ei_instance := {| wi_id := "FIRST_MATCH__WINNER_STEP_128"; wi_circuitId := "WINNER_STEP_128";
    wi_semanticVectorId := semantic FIRST_MATCH; wi_setupId := "11"; wi_chunkSize := "1";
    wi_preStateId := "pre:FIRST_MATCH__WINNER_STEP_128";
    wi_expectedPostStateId := "post:FIRST_MATCH__WINNER_STEP_128";
    wi_participantVectorInstanceId := "participants:FIRST_MATCH__WINNER_STEP_128"; wi_preState := {|
    ws_acceptedTicket := "0"; ws_prefix := "0"; ws_found := false; ws_winnerIndex := "0"; ws_cursor := "0";
    ws_readiness := true; ws_acceptedTicketReady := true; ws_vectorIdentity := "FIRST_MATCH__WINNER_STEP_128" |};
    wi_participantIndices := ["0"]; wi_participantWeights := ["492750000000000000000"];
    wi_participantEntryCount := "1"; wi_expectedPostState := {| wp_prefix := "492750000000000000000";
    wp_found := true; wp_winnerIndex := "0"; wp_cursor := "1"; wp_readiness := true; wp_acceptedTicketReady := true;
    wp_vectorIdentity := "FIRST_MATCH__WINNER_STEP_128" |}; wi_expectedMatchPosition := Some "0" |};
    ei_participantUniverseSize := "64"; ei_exclusiveUpperBound := "64";
    ei_stateEquivalenceClass := "FIRST_MATCH__WINNER_STEP_128" |}.

Definition instance_NO_MATCH_BEFORE_CHUNK_BOUNDARY__WINNER_STEP_128 : ExpectedWinnerInstance :=
  {| ei_instance := {| wi_id := "NO_MATCH_BEFORE_CHUNK_BOUNDARY__WINNER_STEP_128"; wi_circuitId := "WINNER_STEP_128";
    wi_semanticVectorId := semantic NO_MATCH_BEFORE_CHUNK_BOUNDARY; wi_setupId := "14"; wi_chunkSize := "1";
    wi_preStateId := "pre:NO_MATCH_BEFORE_CHUNK_BOUNDARY__WINNER_STEP_128";
    wi_expectedPostStateId := "post:NO_MATCH_BEFORE_CHUNK_BOUNDARY__WINNER_STEP_128";
    wi_participantVectorInstanceId := "participants:NO_MATCH_BEFORE_CHUNK_BOUNDARY__WINNER_STEP_128";
    wi_preState := {| ws_acceptedTicket := "492750000000000000000"; ws_prefix := "0"; ws_found := false;
    ws_winnerIndex := "0"; ws_cursor := "0"; ws_readiness := true; ws_acceptedTicketReady := true;
    ws_vectorIdentity := "NO_MATCH_BEFORE_CHUNK_BOUNDARY__WINNER_STEP_128" |}; wi_participantIndices := ["0"];
    wi_participantWeights := ["492750000000000000000"]; wi_participantEntryCount := "1"; wi_expectedPostState := {|
    wp_prefix := "492750000000000000000"; wp_found := false; wp_winnerIndex := "0"; wp_cursor := "1";
    wp_readiness := true; wp_acceptedTicketReady := true;
    wp_vectorIdentity := "NO_MATCH_BEFORE_CHUNK_BOUNDARY__WINNER_STEP_128" |}; wi_expectedMatchPosition := None |};
    ei_participantUniverseSize := "64"; ei_exclusiveUpperBound := "64";
    ei_stateEquivalenceClass := "NO_MATCH_BEFORE_CHUNK_BOUNDARY__WINNER_STEP_128" |}.

Definition instance_ALREADY_FOUND_BEFORE_CHUNK__WINNER_STEP_128 : ExpectedWinnerInstance :=
  {| ei_instance := {| wi_id := "ALREADY_FOUND_BEFORE_CHUNK__WINNER_STEP_128"; wi_circuitId := "WINNER_STEP_128";
    wi_semanticVectorId := semantic ALREADY_FOUND_BEFORE_CHUNK; wi_setupId := "15"; wi_chunkSize := "1";
    wi_preStateId := "pre:ALREADY_FOUND_BEFORE_CHUNK__WINNER_STEP_128";
    wi_expectedPostStateId := "post:ALREADY_FOUND_BEFORE_CHUNK__WINNER_STEP_128";
    wi_participantVectorInstanceId := "participants:ALREADY_FOUND_BEFORE_CHUNK__WINNER_STEP_128"; wi_preState := {|
    ws_acceptedTicket := "0"; ws_prefix := "492750000000000000000"; ws_found := true; ws_winnerIndex := "0";
    ws_cursor := "1"; ws_readiness := true; ws_acceptedTicketReady := true;
    ws_vectorIdentity := "ALREADY_FOUND_BEFORE_CHUNK__WINNER_STEP_128" |}; wi_participantIndices := ["1"];
    wi_participantWeights := ["492750000000000000000"]; wi_participantEntryCount := "1"; wi_expectedPostState := {|
    wp_prefix := "985500000000000000000"; wp_found := true; wp_winnerIndex := "0"; wp_cursor := "2";
    wp_readiness := true; wp_acceptedTicketReady := true;
    wp_vectorIdentity := "ALREADY_FOUND_BEFORE_CHUNK__WINNER_STEP_128" |}; wi_expectedMatchPosition := None |};
    ei_participantUniverseSize := "64"; ei_exclusiveUpperBound := "64";
    ei_stateEquivalenceClass := "ALREADY_FOUND_BEFORE_CHUNK__WINNER_STEP_128" |}.

Definition instance_CONTINUATION_MATCH_IN_LATER_CHUNK__WINNER_STEP_128 : ExpectedWinnerInstance :=
  {| ei_instance := {| wi_id := "CONTINUATION_MATCH_IN_LATER_CHUNK__WINNER_STEP_128";
    wi_circuitId := "WINNER_STEP_128"; wi_semanticVectorId := semantic CONTINUATION_MATCH_IN_LATER_CHUNK;
    wi_setupId := "16"; wi_chunkSize := "1";
    wi_preStateId := "pre:CONTINUATION_MATCH_IN_LATER_CHUNK__WINNER_STEP_128";
    wi_expectedPostStateId := "post:CONTINUATION_MATCH_IN_LATER_CHUNK__WINNER_STEP_128";
    wi_participantVectorInstanceId := "participants:CONTINUATION_MATCH_IN_LATER_CHUNK__WINNER_STEP_128";
    wi_preState := {| ws_acceptedTicket := "492750000000000000000"; ws_prefix := "492750000000000000000";
    ws_found := false; ws_winnerIndex := "0"; ws_cursor := "1"; ws_readiness := true; ws_acceptedTicketReady := true;
    ws_vectorIdentity := "CONTINUATION_MATCH_IN_LATER_CHUNK__WINNER_STEP_128" |}; wi_participantIndices := ["1"];
    wi_participantWeights := ["492750000000000000000"]; wi_participantEntryCount := "1"; wi_expectedPostState := {|
    wp_prefix := "985500000000000000000"; wp_found := true; wp_winnerIndex := "1"; wp_cursor := "2";
    wp_readiness := true; wp_acceptedTicketReady := true;
    wp_vectorIdentity := "CONTINUATION_MATCH_IN_LATER_CHUNK__WINNER_STEP_128" |}; wi_expectedMatchPosition := Some "1"
    |}; ei_participantUniverseSize := "64"; ei_exclusiveUpperBound := "64";
    ei_stateEquivalenceClass := "CONTINUATION_MATCH_IN_LATER_CHUNK__WINNER_STEP_128" |}.

Definition instance_FIRST_MATCH__WINNER_CHUNK_1 : ExpectedWinnerInstance :=
  {| ei_instance := {| wi_id := "FIRST_MATCH__WINNER_CHUNK_1"; wi_circuitId := "WINNER_CHUNK_1";
    wi_semanticVectorId := semantic FIRST_MATCH; wi_setupId := "21"; wi_chunkSize := "1";
    wi_preStateId := "pre:FIRST_MATCH__WINNER_CHUNK_1"; wi_expectedPostStateId := "post:FIRST_MATCH__WINNER_CHUNK_1";
    wi_participantVectorInstanceId := "participants:FIRST_MATCH__WINNER_CHUNK_1"; wi_preState := {|
    ws_acceptedTicket := "0"; ws_prefix := "0"; ws_found := false; ws_winnerIndex := "0"; ws_cursor := "0";
    ws_readiness := true; ws_acceptedTicketReady := true; ws_vectorIdentity := "FIRST_MATCH__WINNER_CHUNK_1" |};
    wi_participantIndices := ["0"]; wi_participantWeights := ["492750000000000000000"];
    wi_participantEntryCount := "1"; wi_expectedPostState := {| wp_prefix := "492750000000000000000";
    wp_found := true; wp_winnerIndex := "0"; wp_cursor := "1"; wp_readiness := true; wp_acceptedTicketReady := true;
    wp_vectorIdentity := "FIRST_MATCH__WINNER_CHUNK_1" |}; wi_expectedMatchPosition := Some "0" |};
    ei_participantUniverseSize := "64"; ei_exclusiveUpperBound := "64";
    ei_stateEquivalenceClass := "FIRST_MATCH__WINNER_CHUNK_1" |}.

Definition instance_NO_MATCH_BEFORE_CHUNK_BOUNDARY__WINNER_CHUNK_1 : ExpectedWinnerInstance :=
  {| ei_instance := {| wi_id := "NO_MATCH_BEFORE_CHUNK_BOUNDARY__WINNER_CHUNK_1"; wi_circuitId := "WINNER_CHUNK_1";
    wi_semanticVectorId := semantic NO_MATCH_BEFORE_CHUNK_BOUNDARY; wi_setupId := "24"; wi_chunkSize := "1";
    wi_preStateId := "pre:NO_MATCH_BEFORE_CHUNK_BOUNDARY__WINNER_CHUNK_1";
    wi_expectedPostStateId := "post:NO_MATCH_BEFORE_CHUNK_BOUNDARY__WINNER_CHUNK_1";
    wi_participantVectorInstanceId := "participants:NO_MATCH_BEFORE_CHUNK_BOUNDARY__WINNER_CHUNK_1"; wi_preState := {|
    ws_acceptedTicket := "492750000000000000000"; ws_prefix := "0"; ws_found := false; ws_winnerIndex := "0";
    ws_cursor := "0"; ws_readiness := true; ws_acceptedTicketReady := true;
    ws_vectorIdentity := "NO_MATCH_BEFORE_CHUNK_BOUNDARY__WINNER_CHUNK_1" |}; wi_participantIndices := ["0"];
    wi_participantWeights := ["492750000000000000000"]; wi_participantEntryCount := "1"; wi_expectedPostState := {|
    wp_prefix := "492750000000000000000"; wp_found := false; wp_winnerIndex := "0"; wp_cursor := "1";
    wp_readiness := true; wp_acceptedTicketReady := true;
    wp_vectorIdentity := "NO_MATCH_BEFORE_CHUNK_BOUNDARY__WINNER_CHUNK_1" |}; wi_expectedMatchPosition := None |};
    ei_participantUniverseSize := "64"; ei_exclusiveUpperBound := "64";
    ei_stateEquivalenceClass := "NO_MATCH_BEFORE_CHUNK_BOUNDARY__WINNER_CHUNK_1" |}.

Definition instance_ALREADY_FOUND_BEFORE_CHUNK__WINNER_CHUNK_1 : ExpectedWinnerInstance :=
  {| ei_instance := {| wi_id := "ALREADY_FOUND_BEFORE_CHUNK__WINNER_CHUNK_1"; wi_circuitId := "WINNER_CHUNK_1";
    wi_semanticVectorId := semantic ALREADY_FOUND_BEFORE_CHUNK; wi_setupId := "25"; wi_chunkSize := "1";
    wi_preStateId := "pre:ALREADY_FOUND_BEFORE_CHUNK__WINNER_CHUNK_1";
    wi_expectedPostStateId := "post:ALREADY_FOUND_BEFORE_CHUNK__WINNER_CHUNK_1";
    wi_participantVectorInstanceId := "participants:ALREADY_FOUND_BEFORE_CHUNK__WINNER_CHUNK_1"; wi_preState := {|
    ws_acceptedTicket := "0"; ws_prefix := "492750000000000000000"; ws_found := true; ws_winnerIndex := "0";
    ws_cursor := "1"; ws_readiness := true; ws_acceptedTicketReady := true;
    ws_vectorIdentity := "ALREADY_FOUND_BEFORE_CHUNK__WINNER_CHUNK_1" |}; wi_participantIndices := ["1"];
    wi_participantWeights := ["492750000000000000000"]; wi_participantEntryCount := "1"; wi_expectedPostState := {|
    wp_prefix := "985500000000000000000"; wp_found := true; wp_winnerIndex := "0"; wp_cursor := "2";
    wp_readiness := true; wp_acceptedTicketReady := true;
    wp_vectorIdentity := "ALREADY_FOUND_BEFORE_CHUNK__WINNER_CHUNK_1" |}; wi_expectedMatchPosition := None |};
    ei_participantUniverseSize := "64"; ei_exclusiveUpperBound := "64";
    ei_stateEquivalenceClass := "ALREADY_FOUND_BEFORE_CHUNK__WINNER_CHUNK_1" |}.

Definition instance_CONTINUATION_MATCH_IN_LATER_CHUNK__WINNER_CHUNK_1 : ExpectedWinnerInstance :=
  {| ei_instance := {| wi_id := "CONTINUATION_MATCH_IN_LATER_CHUNK__WINNER_CHUNK_1"; wi_circuitId := "WINNER_CHUNK_1";
    wi_semanticVectorId := semantic CONTINUATION_MATCH_IN_LATER_CHUNK; wi_setupId := "26"; wi_chunkSize := "1";
    wi_preStateId := "pre:CONTINUATION_MATCH_IN_LATER_CHUNK__WINNER_CHUNK_1";
    wi_expectedPostStateId := "post:CONTINUATION_MATCH_IN_LATER_CHUNK__WINNER_CHUNK_1";
    wi_participantVectorInstanceId := "participants:CONTINUATION_MATCH_IN_LATER_CHUNK__WINNER_CHUNK_1";
    wi_preState := {| ws_acceptedTicket := "492750000000000000000"; ws_prefix := "492750000000000000000";
    ws_found := false; ws_winnerIndex := "0"; ws_cursor := "1"; ws_readiness := true; ws_acceptedTicketReady := true;
    ws_vectorIdentity := "CONTINUATION_MATCH_IN_LATER_CHUNK__WINNER_CHUNK_1" |}; wi_participantIndices := ["1"];
    wi_participantWeights := ["492750000000000000000"]; wi_participantEntryCount := "1"; wi_expectedPostState := {|
    wp_prefix := "985500000000000000000"; wp_found := true; wp_winnerIndex := "1"; wp_cursor := "2";
    wp_readiness := true; wp_acceptedTicketReady := true;
    wp_vectorIdentity := "CONTINUATION_MATCH_IN_LATER_CHUNK__WINNER_CHUNK_1" |}; wi_expectedMatchPosition := Some "1"
    |}; ei_participantUniverseSize := "64"; ei_exclusiveUpperBound := "64";
    ei_stateEquivalenceClass := "CONTINUATION_MATCH_IN_LATER_CHUNK__WINNER_CHUNK_1" |}.

Definition instance_FIRST_MATCH__WINNER_CHUNK_4 : ExpectedWinnerInstance :=
  {| ei_instance := {| wi_id := "FIRST_MATCH__WINNER_CHUNK_4"; wi_circuitId := "WINNER_CHUNK_4";
    wi_semanticVectorId := semantic FIRST_MATCH; wi_setupId := "31"; wi_chunkSize := "4";
    wi_preStateId := "pre:FIRST_MATCH__WINNER_CHUNK_4"; wi_expectedPostStateId := "post:FIRST_MATCH__WINNER_CHUNK_4";
    wi_participantVectorInstanceId := "participants:FIRST_MATCH__WINNER_CHUNK_4"; wi_preState := {|
    ws_acceptedTicket := "0"; ws_prefix := "0"; ws_found := false; ws_winnerIndex := "0"; ws_cursor := "0";
    ws_readiness := true; ws_acceptedTicketReady := true; ws_vectorIdentity := "FIRST_MATCH__WINNER_CHUNK_4" |};
    wi_participantIndices := ["0"; "1"; "2"; "3"]; wi_participantWeights := ["492750000000000000000";
    "492750000000000000000"; "492750000000000000000"; "492750000000000000000"]; wi_participantEntryCount := "4";
    wi_expectedPostState := {| wp_prefix := "1971000000000000000000"; wp_found := true; wp_winnerIndex := "0";
    wp_cursor := "4"; wp_readiness := true; wp_acceptedTicketReady := true;
    wp_vectorIdentity := "FIRST_MATCH__WINNER_CHUNK_4" |}; wi_expectedMatchPosition := Some "0" |};
    ei_participantUniverseSize := "64"; ei_exclusiveUpperBound := "64";
    ei_stateEquivalenceClass := "FIRST_MATCH__WINNER_CHUNK_4" |}.

Definition instance_MIDDLE_MATCH__WINNER_CHUNK_4 : ExpectedWinnerInstance :=
  {| ei_instance := {| wi_id := "MIDDLE_MATCH__WINNER_CHUNK_4"; wi_circuitId := "WINNER_CHUNK_4";
    wi_semanticVectorId := semantic MIDDLE_MATCH; wi_setupId := "32"; wi_chunkSize := "4";
    wi_preStateId := "pre:MIDDLE_MATCH__WINNER_CHUNK_4";
    wi_expectedPostStateId := "post:MIDDLE_MATCH__WINNER_CHUNK_4";
    wi_participantVectorInstanceId := "participants:MIDDLE_MATCH__WINNER_CHUNK_4"; wi_preState := {|
    ws_acceptedTicket := "985500000000000000000"; ws_prefix := "0"; ws_found := false; ws_winnerIndex := "0";
    ws_cursor := "0"; ws_readiness := true; ws_acceptedTicketReady := true;
    ws_vectorIdentity := "MIDDLE_MATCH__WINNER_CHUNK_4" |}; wi_participantIndices := ["0"; "1"; "2"; "3"];
    wi_participantWeights := ["492750000000000000000"; "492750000000000000000"; "492750000000000000000";
    "492750000000000000000"]; wi_participantEntryCount := "4"; wi_expectedPostState := {|
    wp_prefix := "1971000000000000000000"; wp_found := true; wp_winnerIndex := "2"; wp_cursor := "4";
    wp_readiness := true; wp_acceptedTicketReady := true; wp_vectorIdentity := "MIDDLE_MATCH__WINNER_CHUNK_4" |};
    wi_expectedMatchPosition := Some "2" |}; ei_participantUniverseSize := "64"; ei_exclusiveUpperBound := "64";
    ei_stateEquivalenceClass := "MIDDLE_MATCH__WINNER_CHUNK_4" |}.

Definition instance_LAST_MATCH__WINNER_CHUNK_4 : ExpectedWinnerInstance :=
  {| ei_instance := {| wi_id := "LAST_MATCH__WINNER_CHUNK_4"; wi_circuitId := "WINNER_CHUNK_4";
    wi_semanticVectorId := semantic LAST_MATCH; wi_setupId := "33"; wi_chunkSize := "4";
    wi_preStateId := "pre:LAST_MATCH__WINNER_CHUNK_4"; wi_expectedPostStateId := "post:LAST_MATCH__WINNER_CHUNK_4";
    wi_participantVectorInstanceId := "participants:LAST_MATCH__WINNER_CHUNK_4"; wi_preState := {|
    ws_acceptedTicket := "1478250000000000000000"; ws_prefix := "0"; ws_found := false; ws_winnerIndex := "0";
    ws_cursor := "0"; ws_readiness := true; ws_acceptedTicketReady := true;
    ws_vectorIdentity := "LAST_MATCH__WINNER_CHUNK_4" |}; wi_participantIndices := ["0"; "1"; "2"; "3"];
    wi_participantWeights := ["492750000000000000000"; "492750000000000000000"; "492750000000000000000";
    "492750000000000000000"]; wi_participantEntryCount := "4"; wi_expectedPostState := {|
    wp_prefix := "1971000000000000000000"; wp_found := true; wp_winnerIndex := "3"; wp_cursor := "4";
    wp_readiness := true; wp_acceptedTicketReady := true; wp_vectorIdentity := "LAST_MATCH__WINNER_CHUNK_4" |};
    wi_expectedMatchPosition := Some "3" |}; ei_participantUniverseSize := "64"; ei_exclusiveUpperBound := "64";
    ei_stateEquivalenceClass := "LAST_MATCH__WINNER_CHUNK_4" |}.

Definition instance_NO_MATCH_BEFORE_CHUNK_BOUNDARY__WINNER_CHUNK_4 : ExpectedWinnerInstance :=
  {| ei_instance := {| wi_id := "NO_MATCH_BEFORE_CHUNK_BOUNDARY__WINNER_CHUNK_4"; wi_circuitId := "WINNER_CHUNK_4";
    wi_semanticVectorId := semantic NO_MATCH_BEFORE_CHUNK_BOUNDARY; wi_setupId := "34"; wi_chunkSize := "4";
    wi_preStateId := "pre:NO_MATCH_BEFORE_CHUNK_BOUNDARY__WINNER_CHUNK_4";
    wi_expectedPostStateId := "post:NO_MATCH_BEFORE_CHUNK_BOUNDARY__WINNER_CHUNK_4";
    wi_participantVectorInstanceId := "participants:NO_MATCH_BEFORE_CHUNK_BOUNDARY__WINNER_CHUNK_4"; wi_preState := {|
    ws_acceptedTicket := "1971000000000000000000"; ws_prefix := "0"; ws_found := false; ws_winnerIndex := "0";
    ws_cursor := "0"; ws_readiness := true; ws_acceptedTicketReady := true;
    ws_vectorIdentity := "NO_MATCH_BEFORE_CHUNK_BOUNDARY__WINNER_CHUNK_4" |}; wi_participantIndices := ["0"; "1"; "2";
    "3"]; wi_participantWeights := ["492750000000000000000"; "492750000000000000000"; "492750000000000000000";
    "492750000000000000000"]; wi_participantEntryCount := "4"; wi_expectedPostState := {|
    wp_prefix := "1971000000000000000000"; wp_found := false; wp_winnerIndex := "0"; wp_cursor := "4";
    wp_readiness := true; wp_acceptedTicketReady := true;
    wp_vectorIdentity := "NO_MATCH_BEFORE_CHUNK_BOUNDARY__WINNER_CHUNK_4" |}; wi_expectedMatchPosition := None |};
    ei_participantUniverseSize := "64"; ei_exclusiveUpperBound := "64";
    ei_stateEquivalenceClass := "NO_MATCH_BEFORE_CHUNK_BOUNDARY__WINNER_CHUNK_4" |}.

Definition instance_ALREADY_FOUND_BEFORE_CHUNK__WINNER_CHUNK_4 : ExpectedWinnerInstance :=
  {| ei_instance := {| wi_id := "ALREADY_FOUND_BEFORE_CHUNK__WINNER_CHUNK_4"; wi_circuitId := "WINNER_CHUNK_4";
    wi_semanticVectorId := semantic ALREADY_FOUND_BEFORE_CHUNK; wi_setupId := "35"; wi_chunkSize := "4";
    wi_preStateId := "pre:ALREADY_FOUND_BEFORE_CHUNK__WINNER_CHUNK_4";
    wi_expectedPostStateId := "post:ALREADY_FOUND_BEFORE_CHUNK__WINNER_CHUNK_4";
    wi_participantVectorInstanceId := "participants:ALREADY_FOUND_BEFORE_CHUNK__WINNER_CHUNK_4"; wi_preState := {|
    ws_acceptedTicket := "0"; ws_prefix := "1971000000000000000000"; ws_found := true; ws_winnerIndex := "2";
    ws_cursor := "4"; ws_readiness := true; ws_acceptedTicketReady := true;
    ws_vectorIdentity := "ALREADY_FOUND_BEFORE_CHUNK__WINNER_CHUNK_4" |}; wi_participantIndices := ["4"; "5"; "6";
    "7"]; wi_participantWeights := ["492750000000000000000"; "492750000000000000000"; "492750000000000000000";
    "492750000000000000000"]; wi_participantEntryCount := "4"; wi_expectedPostState := {|
    wp_prefix := "3942000000000000000000"; wp_found := true; wp_winnerIndex := "2"; wp_cursor := "8";
    wp_readiness := true; wp_acceptedTicketReady := true;
    wp_vectorIdentity := "ALREADY_FOUND_BEFORE_CHUNK__WINNER_CHUNK_4" |}; wi_expectedMatchPosition := None |};
    ei_participantUniverseSize := "64"; ei_exclusiveUpperBound := "64";
    ei_stateEquivalenceClass := "ALREADY_FOUND_BEFORE_CHUNK__WINNER_CHUNK_4" |}.

Definition instance_CONTINUATION_MATCH_IN_LATER_CHUNK__WINNER_CHUNK_4 : ExpectedWinnerInstance :=
  {| ei_instance := {| wi_id := "CONTINUATION_MATCH_IN_LATER_CHUNK__WINNER_CHUNK_4"; wi_circuitId := "WINNER_CHUNK_4";
    wi_semanticVectorId := semantic CONTINUATION_MATCH_IN_LATER_CHUNK; wi_setupId := "36"; wi_chunkSize := "4";
    wi_preStateId := "pre:CONTINUATION_MATCH_IN_LATER_CHUNK__WINNER_CHUNK_4";
    wi_expectedPostStateId := "post:CONTINUATION_MATCH_IN_LATER_CHUNK__WINNER_CHUNK_4";
    wi_participantVectorInstanceId := "participants:CONTINUATION_MATCH_IN_LATER_CHUNK__WINNER_CHUNK_4";
    wi_preState := {| ws_acceptedTicket := "2956500000000000000000"; ws_prefix := "1971000000000000000000";
    ws_found := false; ws_winnerIndex := "0"; ws_cursor := "4"; ws_readiness := true; ws_acceptedTicketReady := true;
    ws_vectorIdentity := "CONTINUATION_MATCH_IN_LATER_CHUNK__WINNER_CHUNK_4" |}; wi_participantIndices := ["4"; "5";
    "6"; "7"]; wi_participantWeights := ["492750000000000000000"; "492750000000000000000"; "492750000000000000000";
    "492750000000000000000"]; wi_participantEntryCount := "4"; wi_expectedPostState := {|
    wp_prefix := "3942000000000000000000"; wp_found := true; wp_winnerIndex := "6"; wp_cursor := "8";
    wp_readiness := true; wp_acceptedTicketReady := true;
    wp_vectorIdentity := "CONTINUATION_MATCH_IN_LATER_CHUNK__WINNER_CHUNK_4" |}; wi_expectedMatchPosition := Some "6"
    |}; ei_participantUniverseSize := "64"; ei_exclusiveUpperBound := "64";
    ei_stateEquivalenceClass := "CONTINUATION_MATCH_IN_LATER_CHUNK__WINNER_CHUNK_4" |}.

Definition instance_FIRST_MATCH__WINNER_CHUNK_8 : ExpectedWinnerInstance :=
  {| ei_instance := {| wi_id := "FIRST_MATCH__WINNER_CHUNK_8"; wi_circuitId := "WINNER_CHUNK_8";
    wi_semanticVectorId := semantic FIRST_MATCH; wi_setupId := "41"; wi_chunkSize := "8";
    wi_preStateId := "pre:FIRST_MATCH__WINNER_CHUNK_8"; wi_expectedPostStateId := "post:FIRST_MATCH__WINNER_CHUNK_8";
    wi_participantVectorInstanceId := "participants:FIRST_MATCH__WINNER_CHUNK_8"; wi_preState := {|
    ws_acceptedTicket := "0"; ws_prefix := "0"; ws_found := false; ws_winnerIndex := "0"; ws_cursor := "0";
    ws_readiness := true; ws_acceptedTicketReady := true; ws_vectorIdentity := "FIRST_MATCH__WINNER_CHUNK_8" |};
    wi_participantIndices := ["0"; "1"; "2"; "3"; "4"; "5"; "6"; "7"];
    wi_participantWeights := ["492750000000000000000"; "492750000000000000000"; "492750000000000000000";
    "492750000000000000000"; "492750000000000000000"; "492750000000000000000"; "492750000000000000000";
    "492750000000000000000"]; wi_participantEntryCount := "8"; wi_expectedPostState := {|
    wp_prefix := "3942000000000000000000"; wp_found := true; wp_winnerIndex := "0"; wp_cursor := "8";
    wp_readiness := true; wp_acceptedTicketReady := true; wp_vectorIdentity := "FIRST_MATCH__WINNER_CHUNK_8" |};
    wi_expectedMatchPosition := Some "0" |}; ei_participantUniverseSize := "64"; ei_exclusiveUpperBound := "64";
    ei_stateEquivalenceClass := "FIRST_MATCH__WINNER_CHUNK_8" |}.

Definition instance_MIDDLE_MATCH__WINNER_CHUNK_8 : ExpectedWinnerInstance :=
  {| ei_instance := {| wi_id := "MIDDLE_MATCH__WINNER_CHUNK_8"; wi_circuitId := "WINNER_CHUNK_8";
    wi_semanticVectorId := semantic MIDDLE_MATCH; wi_setupId := "42"; wi_chunkSize := "8";
    wi_preStateId := "pre:MIDDLE_MATCH__WINNER_CHUNK_8";
    wi_expectedPostStateId := "post:MIDDLE_MATCH__WINNER_CHUNK_8";
    wi_participantVectorInstanceId := "participants:MIDDLE_MATCH__WINNER_CHUNK_8"; wi_preState := {|
    ws_acceptedTicket := "1971000000000000000000"; ws_prefix := "0"; ws_found := false; ws_winnerIndex := "0";
    ws_cursor := "0"; ws_readiness := true; ws_acceptedTicketReady := true;
    ws_vectorIdentity := "MIDDLE_MATCH__WINNER_CHUNK_8" |}; wi_participantIndices := ["0"; "1"; "2"; "3"; "4"; "5";
    "6"; "7"]; wi_participantWeights := ["492750000000000000000"; "492750000000000000000"; "492750000000000000000";
    "492750000000000000000"; "492750000000000000000"; "492750000000000000000"; "492750000000000000000";
    "492750000000000000000"]; wi_participantEntryCount := "8"; wi_expectedPostState := {|
    wp_prefix := "3942000000000000000000"; wp_found := true; wp_winnerIndex := "4"; wp_cursor := "8";
    wp_readiness := true; wp_acceptedTicketReady := true; wp_vectorIdentity := "MIDDLE_MATCH__WINNER_CHUNK_8" |};
    wi_expectedMatchPosition := Some "4" |}; ei_participantUniverseSize := "64"; ei_exclusiveUpperBound := "64";
    ei_stateEquivalenceClass := "MIDDLE_MATCH__WINNER_CHUNK_8" |}.

Definition instance_LAST_MATCH__WINNER_CHUNK_8 : ExpectedWinnerInstance :=
  {| ei_instance := {| wi_id := "LAST_MATCH__WINNER_CHUNK_8"; wi_circuitId := "WINNER_CHUNK_8";
    wi_semanticVectorId := semantic LAST_MATCH; wi_setupId := "43"; wi_chunkSize := "8";
    wi_preStateId := "pre:LAST_MATCH__WINNER_CHUNK_8"; wi_expectedPostStateId := "post:LAST_MATCH__WINNER_CHUNK_8";
    wi_participantVectorInstanceId := "participants:LAST_MATCH__WINNER_CHUNK_8"; wi_preState := {|
    ws_acceptedTicket := "3449250000000000000000"; ws_prefix := "0"; ws_found := false; ws_winnerIndex := "0";
    ws_cursor := "0"; ws_readiness := true; ws_acceptedTicketReady := true;
    ws_vectorIdentity := "LAST_MATCH__WINNER_CHUNK_8" |}; wi_participantIndices := ["0"; "1"; "2"; "3"; "4"; "5"; "6";
    "7"]; wi_participantWeights := ["492750000000000000000"; "492750000000000000000"; "492750000000000000000";
    "492750000000000000000"; "492750000000000000000"; "492750000000000000000"; "492750000000000000000";
    "492750000000000000000"]; wi_participantEntryCount := "8"; wi_expectedPostState := {|
    wp_prefix := "3942000000000000000000"; wp_found := true; wp_winnerIndex := "7"; wp_cursor := "8";
    wp_readiness := true; wp_acceptedTicketReady := true; wp_vectorIdentity := "LAST_MATCH__WINNER_CHUNK_8" |};
    wi_expectedMatchPosition := Some "7" |}; ei_participantUniverseSize := "64"; ei_exclusiveUpperBound := "64";
    ei_stateEquivalenceClass := "LAST_MATCH__WINNER_CHUNK_8" |}.

Definition instance_NO_MATCH_BEFORE_CHUNK_BOUNDARY__WINNER_CHUNK_8 : ExpectedWinnerInstance :=
  {| ei_instance := {| wi_id := "NO_MATCH_BEFORE_CHUNK_BOUNDARY__WINNER_CHUNK_8"; wi_circuitId := "WINNER_CHUNK_8";
    wi_semanticVectorId := semantic NO_MATCH_BEFORE_CHUNK_BOUNDARY; wi_setupId := "44"; wi_chunkSize := "8";
    wi_preStateId := "pre:NO_MATCH_BEFORE_CHUNK_BOUNDARY__WINNER_CHUNK_8";
    wi_expectedPostStateId := "post:NO_MATCH_BEFORE_CHUNK_BOUNDARY__WINNER_CHUNK_8";
    wi_participantVectorInstanceId := "participants:NO_MATCH_BEFORE_CHUNK_BOUNDARY__WINNER_CHUNK_8"; wi_preState := {|
    ws_acceptedTicket := "3942000000000000000000"; ws_prefix := "0"; ws_found := false; ws_winnerIndex := "0";
    ws_cursor := "0"; ws_readiness := true; ws_acceptedTicketReady := true;
    ws_vectorIdentity := "NO_MATCH_BEFORE_CHUNK_BOUNDARY__WINNER_CHUNK_8" |}; wi_participantIndices := ["0"; "1"; "2";
    "3"; "4"; "5"; "6"; "7"]; wi_participantWeights := ["492750000000000000000"; "492750000000000000000";
    "492750000000000000000"; "492750000000000000000"; "492750000000000000000"; "492750000000000000000";
    "492750000000000000000"; "492750000000000000000"]; wi_participantEntryCount := "8"; wi_expectedPostState := {|
    wp_prefix := "3942000000000000000000"; wp_found := false; wp_winnerIndex := "0"; wp_cursor := "8";
    wp_readiness := true; wp_acceptedTicketReady := true;
    wp_vectorIdentity := "NO_MATCH_BEFORE_CHUNK_BOUNDARY__WINNER_CHUNK_8" |}; wi_expectedMatchPosition := None |};
    ei_participantUniverseSize := "64"; ei_exclusiveUpperBound := "64";
    ei_stateEquivalenceClass := "NO_MATCH_BEFORE_CHUNK_BOUNDARY__WINNER_CHUNK_8" |}.

Definition instance_ALREADY_FOUND_BEFORE_CHUNK__WINNER_CHUNK_8 : ExpectedWinnerInstance :=
  {| ei_instance := {| wi_id := "ALREADY_FOUND_BEFORE_CHUNK__WINNER_CHUNK_8"; wi_circuitId := "WINNER_CHUNK_8";
    wi_semanticVectorId := semantic ALREADY_FOUND_BEFORE_CHUNK; wi_setupId := "45"; wi_chunkSize := "8";
    wi_preStateId := "pre:ALREADY_FOUND_BEFORE_CHUNK__WINNER_CHUNK_8";
    wi_expectedPostStateId := "post:ALREADY_FOUND_BEFORE_CHUNK__WINNER_CHUNK_8";
    wi_participantVectorInstanceId := "participants:ALREADY_FOUND_BEFORE_CHUNK__WINNER_CHUNK_8"; wi_preState := {|
    ws_acceptedTicket := "0"; ws_prefix := "3942000000000000000000"; ws_found := true; ws_winnerIndex := "2";
    ws_cursor := "8"; ws_readiness := true; ws_acceptedTicketReady := true;
    ws_vectorIdentity := "ALREADY_FOUND_BEFORE_CHUNK__WINNER_CHUNK_8" |}; wi_participantIndices := ["8"; "9"; "10";
    "11"; "12"; "13"; "14"; "15"]; wi_participantWeights := ["492750000000000000000"; "492750000000000000000";
    "492750000000000000000"; "492750000000000000000"; "492750000000000000000"; "492750000000000000000";
    "492750000000000000000"; "492750000000000000000"]; wi_participantEntryCount := "8"; wi_expectedPostState := {|
    wp_prefix := "7884000000000000000000"; wp_found := true; wp_winnerIndex := "2"; wp_cursor := "16";
    wp_readiness := true; wp_acceptedTicketReady := true;
    wp_vectorIdentity := "ALREADY_FOUND_BEFORE_CHUNK__WINNER_CHUNK_8" |}; wi_expectedMatchPosition := None |};
    ei_participantUniverseSize := "64"; ei_exclusiveUpperBound := "64";
    ei_stateEquivalenceClass := "ALREADY_FOUND_BEFORE_CHUNK__WINNER_CHUNK_8" |}.

Definition instance_CONTINUATION_MATCH_IN_LATER_CHUNK__WINNER_CHUNK_8 : ExpectedWinnerInstance :=
  {| ei_instance := {| wi_id := "CONTINUATION_MATCH_IN_LATER_CHUNK__WINNER_CHUNK_8"; wi_circuitId := "WINNER_CHUNK_8";
    wi_semanticVectorId := semantic CONTINUATION_MATCH_IN_LATER_CHUNK; wi_setupId := "46"; wi_chunkSize := "8";
    wi_preStateId := "pre:CONTINUATION_MATCH_IN_LATER_CHUNK__WINNER_CHUNK_8";
    wi_expectedPostStateId := "post:CONTINUATION_MATCH_IN_LATER_CHUNK__WINNER_CHUNK_8";
    wi_participantVectorInstanceId := "participants:CONTINUATION_MATCH_IN_LATER_CHUNK__WINNER_CHUNK_8";
    wi_preState := {| ws_acceptedTicket := "5913000000000000000000"; ws_prefix := "3942000000000000000000";
    ws_found := false; ws_winnerIndex := "0"; ws_cursor := "8"; ws_readiness := true; ws_acceptedTicketReady := true;
    ws_vectorIdentity := "CONTINUATION_MATCH_IN_LATER_CHUNK__WINNER_CHUNK_8" |}; wi_participantIndices := ["8"; "9";
    "10"; "11"; "12"; "13"; "14"; "15"]; wi_participantWeights := ["492750000000000000000"; "492750000000000000000";
    "492750000000000000000"; "492750000000000000000"; "492750000000000000000"; "492750000000000000000";
    "492750000000000000000"; "492750000000000000000"]; wi_participantEntryCount := "8"; wi_expectedPostState := {|
    wp_prefix := "7884000000000000000000"; wp_found := true; wp_winnerIndex := "12"; wp_cursor := "16";
    wp_readiness := true; wp_acceptedTicketReady := true;
    wp_vectorIdentity := "CONTINUATION_MATCH_IN_LATER_CHUNK__WINNER_CHUNK_8" |}; wi_expectedMatchPosition := Some "12"
    |}; ei_participantUniverseSize := "64"; ei_exclusiveUpperBound := "64";
    ei_stateEquivalenceClass := "CONTINUATION_MATCH_IN_LATER_CHUNK__WINNER_CHUNK_8" |}.

Definition instance_FIRST_MATCH__WINNER_CHUNK_16 : ExpectedWinnerInstance :=
  {| ei_instance := {| wi_id := "FIRST_MATCH__WINNER_CHUNK_16"; wi_circuitId := "WINNER_CHUNK_16";
    wi_semanticVectorId := semantic FIRST_MATCH; wi_setupId := "51"; wi_chunkSize := "16";
    wi_preStateId := "pre:FIRST_MATCH__WINNER_CHUNK_16";
    wi_expectedPostStateId := "post:FIRST_MATCH__WINNER_CHUNK_16";
    wi_participantVectorInstanceId := "participants:FIRST_MATCH__WINNER_CHUNK_16"; wi_preState := {|
    ws_acceptedTicket := "0"; ws_prefix := "0"; ws_found := false; ws_winnerIndex := "0"; ws_cursor := "0";
    ws_readiness := true; ws_acceptedTicketReady := true; ws_vectorIdentity := "FIRST_MATCH__WINNER_CHUNK_16" |};
    wi_participantIndices := ["0"; "1"; "2"; "3"; "4"; "5"; "6"; "7"; "8"; "9"; "10"; "11"; "12"; "13"; "14"; "15"];
    wi_participantWeights := ["492750000000000000000"; "492750000000000000000"; "492750000000000000000";
    "492750000000000000000"; "492750000000000000000"; "492750000000000000000"; "492750000000000000000";
    "492750000000000000000"; "492750000000000000000"; "492750000000000000000"; "492750000000000000000";
    "492750000000000000000"; "492750000000000000000"; "492750000000000000000"; "492750000000000000000";
    "492750000000000000000"]; wi_participantEntryCount := "16"; wi_expectedPostState := {|
    wp_prefix := "7884000000000000000000"; wp_found := true; wp_winnerIndex := "0"; wp_cursor := "16";
    wp_readiness := true; wp_acceptedTicketReady := true; wp_vectorIdentity := "FIRST_MATCH__WINNER_CHUNK_16" |};
    wi_expectedMatchPosition := Some "0" |}; ei_participantUniverseSize := "64"; ei_exclusiveUpperBound := "64";
    ei_stateEquivalenceClass := "FIRST_MATCH__WINNER_CHUNK_16" |}.

Definition instance_MIDDLE_MATCH__WINNER_CHUNK_16 : ExpectedWinnerInstance :=
  {| ei_instance := {| wi_id := "MIDDLE_MATCH__WINNER_CHUNK_16"; wi_circuitId := "WINNER_CHUNK_16";
    wi_semanticVectorId := semantic MIDDLE_MATCH; wi_setupId := "52"; wi_chunkSize := "16";
    wi_preStateId := "pre:MIDDLE_MATCH__WINNER_CHUNK_16";
    wi_expectedPostStateId := "post:MIDDLE_MATCH__WINNER_CHUNK_16";
    wi_participantVectorInstanceId := "participants:MIDDLE_MATCH__WINNER_CHUNK_16"; wi_preState := {|
    ws_acceptedTicket := "3942000000000000000000"; ws_prefix := "0"; ws_found := false; ws_winnerIndex := "0";
    ws_cursor := "0"; ws_readiness := true; ws_acceptedTicketReady := true;
    ws_vectorIdentity := "MIDDLE_MATCH__WINNER_CHUNK_16" |}; wi_participantIndices := ["0"; "1"; "2"; "3"; "4"; "5";
    "6"; "7"; "8"; "9"; "10"; "11"; "12"; "13"; "14"; "15"]; wi_participantWeights := ["492750000000000000000";
    "492750000000000000000"; "492750000000000000000"; "492750000000000000000"; "492750000000000000000";
    "492750000000000000000"; "492750000000000000000"; "492750000000000000000"; "492750000000000000000";
    "492750000000000000000"; "492750000000000000000"; "492750000000000000000"; "492750000000000000000";
    "492750000000000000000"; "492750000000000000000"; "492750000000000000000"]; wi_participantEntryCount := "16";
    wi_expectedPostState := {| wp_prefix := "7884000000000000000000"; wp_found := true; wp_winnerIndex := "8";
    wp_cursor := "16"; wp_readiness := true; wp_acceptedTicketReady := true;
    wp_vectorIdentity := "MIDDLE_MATCH__WINNER_CHUNK_16" |}; wi_expectedMatchPosition := Some "8" |};
    ei_participantUniverseSize := "64"; ei_exclusiveUpperBound := "64";
    ei_stateEquivalenceClass := "MIDDLE_MATCH__WINNER_CHUNK_16" |}.

Definition instance_LAST_MATCH__WINNER_CHUNK_16 : ExpectedWinnerInstance :=
  {| ei_instance := {| wi_id := "LAST_MATCH__WINNER_CHUNK_16"; wi_circuitId := "WINNER_CHUNK_16";
    wi_semanticVectorId := semantic LAST_MATCH; wi_setupId := "53"; wi_chunkSize := "16";
    wi_preStateId := "pre:LAST_MATCH__WINNER_CHUNK_16"; wi_expectedPostStateId := "post:LAST_MATCH__WINNER_CHUNK_16";
    wi_participantVectorInstanceId := "participants:LAST_MATCH__WINNER_CHUNK_16"; wi_preState := {|
    ws_acceptedTicket := "7391250000000000000000"; ws_prefix := "0"; ws_found := false; ws_winnerIndex := "0";
    ws_cursor := "0"; ws_readiness := true; ws_acceptedTicketReady := true;
    ws_vectorIdentity := "LAST_MATCH__WINNER_CHUNK_16" |}; wi_participantIndices := ["0"; "1"; "2"; "3"; "4"; "5";
    "6"; "7"; "8"; "9"; "10"; "11"; "12"; "13"; "14"; "15"]; wi_participantWeights := ["492750000000000000000";
    "492750000000000000000"; "492750000000000000000"; "492750000000000000000"; "492750000000000000000";
    "492750000000000000000"; "492750000000000000000"; "492750000000000000000"; "492750000000000000000";
    "492750000000000000000"; "492750000000000000000"; "492750000000000000000"; "492750000000000000000";
    "492750000000000000000"; "492750000000000000000"; "492750000000000000000"]; wi_participantEntryCount := "16";
    wi_expectedPostState := {| wp_prefix := "7884000000000000000000"; wp_found := true; wp_winnerIndex := "15";
    wp_cursor := "16"; wp_readiness := true; wp_acceptedTicketReady := true;
    wp_vectorIdentity := "LAST_MATCH__WINNER_CHUNK_16" |}; wi_expectedMatchPosition := Some "15" |};
    ei_participantUniverseSize := "64"; ei_exclusiveUpperBound := "64";
    ei_stateEquivalenceClass := "LAST_MATCH__WINNER_CHUNK_16" |}.

Definition instance_NO_MATCH_BEFORE_CHUNK_BOUNDARY__WINNER_CHUNK_16 : ExpectedWinnerInstance :=
  {| ei_instance := {| wi_id := "NO_MATCH_BEFORE_CHUNK_BOUNDARY__WINNER_CHUNK_16"; wi_circuitId := "WINNER_CHUNK_16";
    wi_semanticVectorId := semantic NO_MATCH_BEFORE_CHUNK_BOUNDARY; wi_setupId := "54"; wi_chunkSize := "16";
    wi_preStateId := "pre:NO_MATCH_BEFORE_CHUNK_BOUNDARY__WINNER_CHUNK_16";
    wi_expectedPostStateId := "post:NO_MATCH_BEFORE_CHUNK_BOUNDARY__WINNER_CHUNK_16";
    wi_participantVectorInstanceId := "participants:NO_MATCH_BEFORE_CHUNK_BOUNDARY__WINNER_CHUNK_16";
    wi_preState := {| ws_acceptedTicket := "7884000000000000000000"; ws_prefix := "0"; ws_found := false;
    ws_winnerIndex := "0"; ws_cursor := "0"; ws_readiness := true; ws_acceptedTicketReady := true;
    ws_vectorIdentity := "NO_MATCH_BEFORE_CHUNK_BOUNDARY__WINNER_CHUNK_16" |}; wi_participantIndices := ["0"; "1";
    "2"; "3"; "4"; "5"; "6"; "7"; "8"; "9"; "10"; "11"; "12"; "13"; "14"; "15"];
    wi_participantWeights := ["492750000000000000000"; "492750000000000000000"; "492750000000000000000";
    "492750000000000000000"; "492750000000000000000"; "492750000000000000000"; "492750000000000000000";
    "492750000000000000000"; "492750000000000000000"; "492750000000000000000"; "492750000000000000000";
    "492750000000000000000"; "492750000000000000000"; "492750000000000000000"; "492750000000000000000";
    "492750000000000000000"]; wi_participantEntryCount := "16"; wi_expectedPostState := {|
    wp_prefix := "7884000000000000000000"; wp_found := false; wp_winnerIndex := "0"; wp_cursor := "16";
    wp_readiness := true; wp_acceptedTicketReady := true;
    wp_vectorIdentity := "NO_MATCH_BEFORE_CHUNK_BOUNDARY__WINNER_CHUNK_16" |}; wi_expectedMatchPosition := None |};
    ei_participantUniverseSize := "64"; ei_exclusiveUpperBound := "64";
    ei_stateEquivalenceClass := "NO_MATCH_BEFORE_CHUNK_BOUNDARY__WINNER_CHUNK_16" |}.

Definition instance_ALREADY_FOUND_BEFORE_CHUNK__WINNER_CHUNK_16 : ExpectedWinnerInstance :=
  {| ei_instance := {| wi_id := "ALREADY_FOUND_BEFORE_CHUNK__WINNER_CHUNK_16"; wi_circuitId := "WINNER_CHUNK_16";
    wi_semanticVectorId := semantic ALREADY_FOUND_BEFORE_CHUNK; wi_setupId := "55"; wi_chunkSize := "16";
    wi_preStateId := "pre:ALREADY_FOUND_BEFORE_CHUNK__WINNER_CHUNK_16";
    wi_expectedPostStateId := "post:ALREADY_FOUND_BEFORE_CHUNK__WINNER_CHUNK_16";
    wi_participantVectorInstanceId := "participants:ALREADY_FOUND_BEFORE_CHUNK__WINNER_CHUNK_16"; wi_preState := {|
    ws_acceptedTicket := "0"; ws_prefix := "7884000000000000000000"; ws_found := true; ws_winnerIndex := "2";
    ws_cursor := "16"; ws_readiness := true; ws_acceptedTicketReady := true;
    ws_vectorIdentity := "ALREADY_FOUND_BEFORE_CHUNK__WINNER_CHUNK_16" |}; wi_participantIndices := ["16"; "17"; "18";
    "19"; "20"; "21"; "22"; "23"; "24"; "25"; "26"; "27"; "28"; "29"; "30"; "31"];
    wi_participantWeights := ["492750000000000000000"; "492750000000000000000"; "492750000000000000000";
    "492750000000000000000"; "492750000000000000000"; "492750000000000000000"; "492750000000000000000";
    "492750000000000000000"; "492750000000000000000"; "492750000000000000000"; "492750000000000000000";
    "492750000000000000000"; "492750000000000000000"; "492750000000000000000"; "492750000000000000000";
    "492750000000000000000"]; wi_participantEntryCount := "16"; wi_expectedPostState := {|
    wp_prefix := "15768000000000000000000"; wp_found := true; wp_winnerIndex := "2"; wp_cursor := "32";
    wp_readiness := true; wp_acceptedTicketReady := true;
    wp_vectorIdentity := "ALREADY_FOUND_BEFORE_CHUNK__WINNER_CHUNK_16" |}; wi_expectedMatchPosition := None |};
    ei_participantUniverseSize := "64"; ei_exclusiveUpperBound := "64";
    ei_stateEquivalenceClass := "ALREADY_FOUND_BEFORE_CHUNK__WINNER_CHUNK_16" |}.

Definition instance_CONTINUATION_MATCH_IN_LATER_CHUNK__WINNER_CHUNK_16 : ExpectedWinnerInstance :=
  {| ei_instance := {| wi_id := "CONTINUATION_MATCH_IN_LATER_CHUNK__WINNER_CHUNK_16";
    wi_circuitId := "WINNER_CHUNK_16"; wi_semanticVectorId := semantic CONTINUATION_MATCH_IN_LATER_CHUNK;
    wi_setupId := "56"; wi_chunkSize := "16";
    wi_preStateId := "pre:CONTINUATION_MATCH_IN_LATER_CHUNK__WINNER_CHUNK_16";
    wi_expectedPostStateId := "post:CONTINUATION_MATCH_IN_LATER_CHUNK__WINNER_CHUNK_16";
    wi_participantVectorInstanceId := "participants:CONTINUATION_MATCH_IN_LATER_CHUNK__WINNER_CHUNK_16";
    wi_preState := {| ws_acceptedTicket := "11826000000000000000000"; ws_prefix := "7884000000000000000000";
    ws_found := false; ws_winnerIndex := "0"; ws_cursor := "16"; ws_readiness := true; ws_acceptedTicketReady := true;
    ws_vectorIdentity := "CONTINUATION_MATCH_IN_LATER_CHUNK__WINNER_CHUNK_16" |}; wi_participantIndices := ["16";
    "17"; "18"; "19"; "20"; "21"; "22"; "23"; "24"; "25"; "26"; "27"; "28"; "29"; "30"; "31"];
    wi_participantWeights := ["492750000000000000000"; "492750000000000000000"; "492750000000000000000";
    "492750000000000000000"; "492750000000000000000"; "492750000000000000000"; "492750000000000000000";
    "492750000000000000000"; "492750000000000000000"; "492750000000000000000"; "492750000000000000000";
    "492750000000000000000"; "492750000000000000000"; "492750000000000000000"; "492750000000000000000";
    "492750000000000000000"]; wi_participantEntryCount := "16"; wi_expectedPostState := {|
    wp_prefix := "15768000000000000000000"; wp_found := true; wp_winnerIndex := "24"; wp_cursor := "32";
    wp_readiness := true; wp_acceptedTicketReady := true;
    wp_vectorIdentity := "CONTINUATION_MATCH_IN_LATER_CHUNK__WINNER_CHUNK_16" |}; wi_expectedMatchPosition := Some
    "24" |}; ei_participantUniverseSize := "64"; ei_exclusiveUpperBound := "64";
    ei_stateEquivalenceClass := "CONTINUATION_MATCH_IN_LATER_CHUNK__WINNER_CHUNK_16" |}.

Definition instance_FIRST_MATCH__WINNER_CHUNK_32 : ExpectedWinnerInstance :=
  {| ei_instance := {| wi_id := "FIRST_MATCH__WINNER_CHUNK_32"; wi_circuitId := "WINNER_CHUNK_32";
    wi_semanticVectorId := semantic FIRST_MATCH; wi_setupId := "61"; wi_chunkSize := "32";
    wi_preStateId := "pre:FIRST_MATCH__WINNER_CHUNK_32";
    wi_expectedPostStateId := "post:FIRST_MATCH__WINNER_CHUNK_32";
    wi_participantVectorInstanceId := "participants:FIRST_MATCH__WINNER_CHUNK_32"; wi_preState := {|
    ws_acceptedTicket := "0"; ws_prefix := "0"; ws_found := false; ws_winnerIndex := "0"; ws_cursor := "0";
    ws_readiness := true; ws_acceptedTicketReady := true; ws_vectorIdentity := "FIRST_MATCH__WINNER_CHUNK_32" |};
    wi_participantIndices := ["0"; "1"; "2"; "3"; "4"; "5"; "6"; "7"; "8"; "9"; "10"; "11"; "12"; "13"; "14"; "15";
    "16"; "17"; "18"; "19"; "20"; "21"; "22"; "23"; "24"; "25"; "26"; "27"; "28"; "29"; "30"; "31"];
    wi_participantWeights := ["492750000000000000000"; "492750000000000000000"; "492750000000000000000";
    "492750000000000000000"; "492750000000000000000"; "492750000000000000000"; "492750000000000000000";
    "492750000000000000000"; "492750000000000000000"; "492750000000000000000"; "492750000000000000000";
    "492750000000000000000"; "492750000000000000000"; "492750000000000000000"; "492750000000000000000";
    "492750000000000000000"; "492750000000000000000"; "492750000000000000000"; "492750000000000000000";
    "492750000000000000000"; "492750000000000000000"; "492750000000000000000"; "492750000000000000000";
    "492750000000000000000"; "492750000000000000000"; "492750000000000000000"; "492750000000000000000";
    "492750000000000000000"; "492750000000000000000"; "492750000000000000000"; "492750000000000000000";
    "492750000000000000000"]; wi_participantEntryCount := "32"; wi_expectedPostState := {|
    wp_prefix := "15768000000000000000000"; wp_found := true; wp_winnerIndex := "0"; wp_cursor := "32";
    wp_readiness := true; wp_acceptedTicketReady := true; wp_vectorIdentity := "FIRST_MATCH__WINNER_CHUNK_32" |};
    wi_expectedMatchPosition := Some "0" |}; ei_participantUniverseSize := "64"; ei_exclusiveUpperBound := "64";
    ei_stateEquivalenceClass := "FIRST_MATCH__WINNER_CHUNK_32" |}.

Definition instance_MIDDLE_MATCH__WINNER_CHUNK_32 : ExpectedWinnerInstance :=
  {| ei_instance := {| wi_id := "MIDDLE_MATCH__WINNER_CHUNK_32"; wi_circuitId := "WINNER_CHUNK_32";
    wi_semanticVectorId := semantic MIDDLE_MATCH; wi_setupId := "62"; wi_chunkSize := "32";
    wi_preStateId := "pre:MIDDLE_MATCH__WINNER_CHUNK_32";
    wi_expectedPostStateId := "post:MIDDLE_MATCH__WINNER_CHUNK_32";
    wi_participantVectorInstanceId := "participants:MIDDLE_MATCH__WINNER_CHUNK_32"; wi_preState := {|
    ws_acceptedTicket := "7884000000000000000000"; ws_prefix := "0"; ws_found := false; ws_winnerIndex := "0";
    ws_cursor := "0"; ws_readiness := true; ws_acceptedTicketReady := true;
    ws_vectorIdentity := "MIDDLE_MATCH__WINNER_CHUNK_32" |}; wi_participantIndices := ["0"; "1"; "2"; "3"; "4"; "5";
    "6"; "7"; "8"; "9"; "10"; "11"; "12"; "13"; "14"; "15"; "16"; "17"; "18"; "19"; "20"; "21"; "22"; "23"; "24";
    "25"; "26"; "27"; "28"; "29"; "30"; "31"]; wi_participantWeights := ["492750000000000000000";
    "492750000000000000000"; "492750000000000000000"; "492750000000000000000"; "492750000000000000000";
    "492750000000000000000"; "492750000000000000000"; "492750000000000000000"; "492750000000000000000";
    "492750000000000000000"; "492750000000000000000"; "492750000000000000000"; "492750000000000000000";
    "492750000000000000000"; "492750000000000000000"; "492750000000000000000"; "492750000000000000000";
    "492750000000000000000"; "492750000000000000000"; "492750000000000000000"; "492750000000000000000";
    "492750000000000000000"; "492750000000000000000"; "492750000000000000000"; "492750000000000000000";
    "492750000000000000000"; "492750000000000000000"; "492750000000000000000"; "492750000000000000000";
    "492750000000000000000"; "492750000000000000000"; "492750000000000000000"]; wi_participantEntryCount := "32";
    wi_expectedPostState := {| wp_prefix := "15768000000000000000000"; wp_found := true; wp_winnerIndex := "16";
    wp_cursor := "32"; wp_readiness := true; wp_acceptedTicketReady := true;
    wp_vectorIdentity := "MIDDLE_MATCH__WINNER_CHUNK_32" |}; wi_expectedMatchPosition := Some "16" |};
    ei_participantUniverseSize := "64"; ei_exclusiveUpperBound := "64";
    ei_stateEquivalenceClass := "MIDDLE_MATCH__WINNER_CHUNK_32" |}.

Definition instance_LAST_MATCH__WINNER_CHUNK_32 : ExpectedWinnerInstance :=
  {| ei_instance := {| wi_id := "LAST_MATCH__WINNER_CHUNK_32"; wi_circuitId := "WINNER_CHUNK_32";
    wi_semanticVectorId := semantic LAST_MATCH; wi_setupId := "63"; wi_chunkSize := "32";
    wi_preStateId := "pre:LAST_MATCH__WINNER_CHUNK_32"; wi_expectedPostStateId := "post:LAST_MATCH__WINNER_CHUNK_32";
    wi_participantVectorInstanceId := "participants:LAST_MATCH__WINNER_CHUNK_32"; wi_preState := {|
    ws_acceptedTicket := "15275250000000000000000"; ws_prefix := "0"; ws_found := false; ws_winnerIndex := "0";
    ws_cursor := "0"; ws_readiness := true; ws_acceptedTicketReady := true;
    ws_vectorIdentity := "LAST_MATCH__WINNER_CHUNK_32" |}; wi_participantIndices := ["0"; "1"; "2"; "3"; "4"; "5";
    "6"; "7"; "8"; "9"; "10"; "11"; "12"; "13"; "14"; "15"; "16"; "17"; "18"; "19"; "20"; "21"; "22"; "23"; "24";
    "25"; "26"; "27"; "28"; "29"; "30"; "31"]; wi_participantWeights := ["492750000000000000000";
    "492750000000000000000"; "492750000000000000000"; "492750000000000000000"; "492750000000000000000";
    "492750000000000000000"; "492750000000000000000"; "492750000000000000000"; "492750000000000000000";
    "492750000000000000000"; "492750000000000000000"; "492750000000000000000"; "492750000000000000000";
    "492750000000000000000"; "492750000000000000000"; "492750000000000000000"; "492750000000000000000";
    "492750000000000000000"; "492750000000000000000"; "492750000000000000000"; "492750000000000000000";
    "492750000000000000000"; "492750000000000000000"; "492750000000000000000"; "492750000000000000000";
    "492750000000000000000"; "492750000000000000000"; "492750000000000000000"; "492750000000000000000";
    "492750000000000000000"; "492750000000000000000"; "492750000000000000000"]; wi_participantEntryCount := "32";
    wi_expectedPostState := {| wp_prefix := "15768000000000000000000"; wp_found := true; wp_winnerIndex := "31";
    wp_cursor := "32"; wp_readiness := true; wp_acceptedTicketReady := true;
    wp_vectorIdentity := "LAST_MATCH__WINNER_CHUNK_32" |}; wi_expectedMatchPosition := Some "31" |};
    ei_participantUniverseSize := "64"; ei_exclusiveUpperBound := "64";
    ei_stateEquivalenceClass := "LAST_MATCH__WINNER_CHUNK_32" |}.

Definition instance_NO_MATCH_BEFORE_CHUNK_BOUNDARY__WINNER_CHUNK_32 : ExpectedWinnerInstance :=
  {| ei_instance := {| wi_id := "NO_MATCH_BEFORE_CHUNK_BOUNDARY__WINNER_CHUNK_32"; wi_circuitId := "WINNER_CHUNK_32";
    wi_semanticVectorId := semantic NO_MATCH_BEFORE_CHUNK_BOUNDARY; wi_setupId := "64"; wi_chunkSize := "32";
    wi_preStateId := "pre:NO_MATCH_BEFORE_CHUNK_BOUNDARY__WINNER_CHUNK_32";
    wi_expectedPostStateId := "post:NO_MATCH_BEFORE_CHUNK_BOUNDARY__WINNER_CHUNK_32";
    wi_participantVectorInstanceId := "participants:NO_MATCH_BEFORE_CHUNK_BOUNDARY__WINNER_CHUNK_32";
    wi_preState := {| ws_acceptedTicket := "15768000000000000000000"; ws_prefix := "0"; ws_found := false;
    ws_winnerIndex := "0"; ws_cursor := "0"; ws_readiness := true; ws_acceptedTicketReady := true;
    ws_vectorIdentity := "NO_MATCH_BEFORE_CHUNK_BOUNDARY__WINNER_CHUNK_32" |}; wi_participantIndices := ["0"; "1";
    "2"; "3"; "4"; "5"; "6"; "7"; "8"; "9"; "10"; "11"; "12"; "13"; "14"; "15"; "16"; "17"; "18"; "19"; "20"; "21";
    "22"; "23"; "24"; "25"; "26"; "27"; "28"; "29"; "30"; "31"]; wi_participantWeights := ["492750000000000000000";
    "492750000000000000000"; "492750000000000000000"; "492750000000000000000"; "492750000000000000000";
    "492750000000000000000"; "492750000000000000000"; "492750000000000000000"; "492750000000000000000";
    "492750000000000000000"; "492750000000000000000"; "492750000000000000000"; "492750000000000000000";
    "492750000000000000000"; "492750000000000000000"; "492750000000000000000"; "492750000000000000000";
    "492750000000000000000"; "492750000000000000000"; "492750000000000000000"; "492750000000000000000";
    "492750000000000000000"; "492750000000000000000"; "492750000000000000000"; "492750000000000000000";
    "492750000000000000000"; "492750000000000000000"; "492750000000000000000"; "492750000000000000000";
    "492750000000000000000"; "492750000000000000000"; "492750000000000000000"]; wi_participantEntryCount := "32";
    wi_expectedPostState := {| wp_prefix := "15768000000000000000000"; wp_found := false; wp_winnerIndex := "0";
    wp_cursor := "32"; wp_readiness := true; wp_acceptedTicketReady := true;
    wp_vectorIdentity := "NO_MATCH_BEFORE_CHUNK_BOUNDARY__WINNER_CHUNK_32" |}; wi_expectedMatchPosition := None |};
    ei_participantUniverseSize := "64"; ei_exclusiveUpperBound := "64";
    ei_stateEquivalenceClass := "NO_MATCH_BEFORE_CHUNK_BOUNDARY__WINNER_CHUNK_32" |}.

Definition instance_ALREADY_FOUND_BEFORE_CHUNK__WINNER_CHUNK_32 : ExpectedWinnerInstance :=
  {| ei_instance := {| wi_id := "ALREADY_FOUND_BEFORE_CHUNK__WINNER_CHUNK_32"; wi_circuitId := "WINNER_CHUNK_32";
    wi_semanticVectorId := semantic ALREADY_FOUND_BEFORE_CHUNK; wi_setupId := "65"; wi_chunkSize := "32";
    wi_preStateId := "pre:ALREADY_FOUND_BEFORE_CHUNK__WINNER_CHUNK_32";
    wi_expectedPostStateId := "post:ALREADY_FOUND_BEFORE_CHUNK__WINNER_CHUNK_32";
    wi_participantVectorInstanceId := "participants:ALREADY_FOUND_BEFORE_CHUNK__WINNER_CHUNK_32"; wi_preState := {|
    ws_acceptedTicket := "0"; ws_prefix := "15768000000000000000000"; ws_found := true; ws_winnerIndex := "2";
    ws_cursor := "32"; ws_readiness := true; ws_acceptedTicketReady := true;
    ws_vectorIdentity := "ALREADY_FOUND_BEFORE_CHUNK__WINNER_CHUNK_32" |}; wi_participantIndices := ["32"; "33"; "34";
    "35"; "36"; "37"; "38"; "39"; "40"; "41"; "42"; "43"; "44"; "45"; "46"; "47"; "48"; "49"; "50"; "51"; "52"; "53";
    "54"; "55"; "56"; "57"; "58"; "59"; "60"; "61"; "62"; "63"]; wi_participantWeights := ["492750000000000000000";
    "492750000000000000000"; "492750000000000000000"; "492750000000000000000"; "492750000000000000000";
    "492750000000000000000"; "492750000000000000000"; "492750000000000000000"; "492750000000000000000";
    "492750000000000000000"; "492750000000000000000"; "492750000000000000000"; "492750000000000000000";
    "492750000000000000000"; "492750000000000000000"; "492750000000000000000"; "492750000000000000000";
    "492750000000000000000"; "492750000000000000000"; "492750000000000000000"; "492750000000000000000";
    "492750000000000000000"; "492750000000000000000"; "492750000000000000000"; "492750000000000000000";
    "492750000000000000000"; "492750000000000000000"; "492750000000000000000"; "492750000000000000000";
    "492750000000000000000"; "492750000000000000000"; "492750000000000000000"]; wi_participantEntryCount := "32";
    wi_expectedPostState := {| wp_prefix := "31536000000000000000000"; wp_found := true; wp_winnerIndex := "2";
    wp_cursor := "64"; wp_readiness := true; wp_acceptedTicketReady := true;
    wp_vectorIdentity := "ALREADY_FOUND_BEFORE_CHUNK__WINNER_CHUNK_32" |}; wi_expectedMatchPosition := None |};
    ei_participantUniverseSize := "64"; ei_exclusiveUpperBound := "64";
    ei_stateEquivalenceClass := "ALREADY_FOUND_BEFORE_CHUNK__WINNER_CHUNK_32" |}.

Definition instance_CONTINUATION_MATCH_IN_LATER_CHUNK__WINNER_CHUNK_32 : ExpectedWinnerInstance :=
  {| ei_instance := {| wi_id := "CONTINUATION_MATCH_IN_LATER_CHUNK__WINNER_CHUNK_32";
    wi_circuitId := "WINNER_CHUNK_32"; wi_semanticVectorId := semantic CONTINUATION_MATCH_IN_LATER_CHUNK;
    wi_setupId := "66"; wi_chunkSize := "32";
    wi_preStateId := "pre:CONTINUATION_MATCH_IN_LATER_CHUNK__WINNER_CHUNK_32";
    wi_expectedPostStateId := "post:CONTINUATION_MATCH_IN_LATER_CHUNK__WINNER_CHUNK_32";
    wi_participantVectorInstanceId := "participants:CONTINUATION_MATCH_IN_LATER_CHUNK__WINNER_CHUNK_32";
    wi_preState := {| ws_acceptedTicket := "23652000000000000000000"; ws_prefix := "15768000000000000000000";
    ws_found := false; ws_winnerIndex := "0"; ws_cursor := "32"; ws_readiness := true; ws_acceptedTicketReady := true;
    ws_vectorIdentity := "CONTINUATION_MATCH_IN_LATER_CHUNK__WINNER_CHUNK_32" |}; wi_participantIndices := ["32";
    "33"; "34"; "35"; "36"; "37"; "38"; "39"; "40"; "41"; "42"; "43"; "44"; "45"; "46"; "47"; "48"; "49"; "50"; "51";
    "52"; "53"; "54"; "55"; "56"; "57"; "58"; "59"; "60"; "61"; "62"; "63"];
    wi_participantWeights := ["492750000000000000000"; "492750000000000000000"; "492750000000000000000";
    "492750000000000000000"; "492750000000000000000"; "492750000000000000000"; "492750000000000000000";
    "492750000000000000000"; "492750000000000000000"; "492750000000000000000"; "492750000000000000000";
    "492750000000000000000"; "492750000000000000000"; "492750000000000000000"; "492750000000000000000";
    "492750000000000000000"; "492750000000000000000"; "492750000000000000000"; "492750000000000000000";
    "492750000000000000000"; "492750000000000000000"; "492750000000000000000"; "492750000000000000000";
    "492750000000000000000"; "492750000000000000000"; "492750000000000000000"; "492750000000000000000";
    "492750000000000000000"; "492750000000000000000"; "492750000000000000000"; "492750000000000000000";
    "492750000000000000000"]; wi_participantEntryCount := "32"; wi_expectedPostState := {|
    wp_prefix := "31536000000000000000000"; wp_found := true; wp_winnerIndex := "48"; wp_cursor := "64";
    wp_readiness := true; wp_acceptedTicketReady := true;
    wp_vectorIdentity := "CONTINUATION_MATCH_IN_LATER_CHUNK__WINNER_CHUNK_32" |}; wi_expectedMatchPosition := Some
    "48" |}; ei_participantUniverseSize := "64"; ei_exclusiveUpperBound := "64";
    ei_stateEquivalenceClass := "CONTINUATION_MATCH_IN_LATER_CHUNK__WINNER_CHUNK_32" |}.

Definition instance_ALL_VALID_FIXED_WINNER__COMPOSITE_DRAW_AND_CHUNK_8 : ExpectedWinnerInstance :=
  {| ei_instance := {| wi_id := "ALL_VALID_FIXED_WINNER__COMPOSITE_DRAW_AND_CHUNK_8";
    wi_circuitId := "COMPOSITE_DRAW_AND_CHUNK_8"; wi_semanticVectorId := ALL_VALID_FIXED_WINNER; wi_setupId := "71";
    wi_chunkSize := "8"; wi_preStateId := "pre:ALL_VALID_FIXED_WINNER__COMPOSITE_DRAW_AND_CHUNK_8";
    wi_expectedPostStateId := "post:ALL_VALID_FIXED_WINNER__COMPOSITE_DRAW_AND_CHUNK_8";
    wi_participantVectorInstanceId := "participants:ALL_VALID_FIXED_WINNER__COMPOSITE_DRAW_AND_CHUNK_8";
    wi_preState := {| ws_acceptedTicket := "0"; ws_prefix := "0"; ws_found := true; ws_winnerIndex := "0";
    ws_cursor := "0"; ws_readiness := true; ws_acceptedTicketReady := false;
    ws_vectorIdentity := "ALL_VALID_FIXED_WINNER__COMPOSITE_DRAW_AND_CHUNK_8" |}; wi_participantIndices := ["0"; "1";
    "2"; "3"; "4"; "5"; "6"; "7"]; wi_participantWeights := ["492750000000000000000"; "492750000000000000000";
    "492750000000000000000"; "492750000000000000000"; "492750000000000000000"; "492750000000000000000";
    "492750000000000000000"; "492750000000000000000"]; wi_participantEntryCount := "8"; wi_expectedPostState := {|
    wp_prefix := "3942000000000000000000"; wp_found := true; wp_winnerIndex := "0"; wp_cursor := "8";
    wp_readiness := true; wp_acceptedTicketReady := true;
    wp_vectorIdentity := "ALL_VALID_FIXED_WINNER__COMPOSITE_DRAW_AND_CHUNK_8" |}; wi_expectedMatchPosition := None |};
    ei_participantUniverseSize := "64"; ei_exclusiveUpperBound := "64";
    ei_stateEquivalenceClass := "ALL_VALID_FIXED_WINNER__COMPOSITE_DRAW_AND_CHUNK_8" |}.

Definition instance_ALL_VALID_FIXED_WINNER__COMPOSITE_DRAW_AND_CHUNK_32 : ExpectedWinnerInstance :=
  {| ei_instance := {| wi_id := "ALL_VALID_FIXED_WINNER__COMPOSITE_DRAW_AND_CHUNK_32";
    wi_circuitId := "COMPOSITE_DRAW_AND_CHUNK_32"; wi_semanticVectorId := ALL_VALID_FIXED_WINNER; wi_setupId := "81";
    wi_chunkSize := "32"; wi_preStateId := "pre:ALL_VALID_FIXED_WINNER__COMPOSITE_DRAW_AND_CHUNK_32";
    wi_expectedPostStateId := "post:ALL_VALID_FIXED_WINNER__COMPOSITE_DRAW_AND_CHUNK_32";
    wi_participantVectorInstanceId := "participants:ALL_VALID_FIXED_WINNER__COMPOSITE_DRAW_AND_CHUNK_32";
    wi_preState := {| ws_acceptedTicket := "0"; ws_prefix := "0"; ws_found := true; ws_winnerIndex := "0";
    ws_cursor := "0"; ws_readiness := true; ws_acceptedTicketReady := false;
    ws_vectorIdentity := "ALL_VALID_FIXED_WINNER__COMPOSITE_DRAW_AND_CHUNK_32" |}; wi_participantIndices := ["0"; "1";
    "2"; "3"; "4"; "5"; "6"; "7"; "8"; "9"; "10"; "11"; "12"; "13"; "14"; "15"; "16"; "17"; "18"; "19"; "20"; "21";
    "22"; "23"; "24"; "25"; "26"; "27"; "28"; "29"; "30"; "31"]; wi_participantWeights := ["492750000000000000000";
    "492750000000000000000"; "492750000000000000000"; "492750000000000000000"; "492750000000000000000";
    "492750000000000000000"; "492750000000000000000"; "492750000000000000000"; "492750000000000000000";
    "492750000000000000000"; "492750000000000000000"; "492750000000000000000"; "492750000000000000000";
    "492750000000000000000"; "492750000000000000000"; "492750000000000000000"; "492750000000000000000";
    "492750000000000000000"; "492750000000000000000"; "492750000000000000000"; "492750000000000000000";
    "492750000000000000000"; "492750000000000000000"; "492750000000000000000"; "492750000000000000000";
    "492750000000000000000"; "492750000000000000000"; "492750000000000000000"; "492750000000000000000";
    "492750000000000000000"; "492750000000000000000"; "492750000000000000000"]; wi_participantEntryCount := "32";
    wi_expectedPostState := {| wp_prefix := "15768000000000000000000"; wp_found := true; wp_winnerIndex := "0";
    wp_cursor := "32"; wp_readiness := true; wp_acceptedTicketReady := true;
    wp_vectorIdentity := "ALL_VALID_FIXED_WINNER__COMPOSITE_DRAW_AND_CHUNK_32" |}; wi_expectedMatchPosition := None
    |}; ei_participantUniverseSize := "64"; ei_exclusiveUpperBound := "64";
    ei_stateEquivalenceClass := "ALL_VALID_FIXED_WINNER__COMPOSITE_DRAW_AND_CHUNK_32" |}.

Definition EXPECTED_WINNER_INSTANCES : list ExpectedWinnerInstance := [
  instance_FIRST_MATCH__WINNER_STEP_128; instance_NO_MATCH_BEFORE_CHUNK_BOUNDARY__WINNER_STEP_128;
    instance_ALREADY_FOUND_BEFORE_CHUNK__WINNER_STEP_128; instance_CONTINUATION_MATCH_IN_LATER_CHUNK__WINNER_STEP_128;
    instance_FIRST_MATCH__WINNER_CHUNK_1; instance_NO_MATCH_BEFORE_CHUNK_BOUNDARY__WINNER_CHUNK_1;
    instance_ALREADY_FOUND_BEFORE_CHUNK__WINNER_CHUNK_1; instance_CONTINUATION_MATCH_IN_LATER_CHUNK__WINNER_CHUNK_1;
    instance_FIRST_MATCH__WINNER_CHUNK_4; instance_MIDDLE_MATCH__WINNER_CHUNK_4; instance_LAST_MATCH__WINNER_CHUNK_4;
    instance_NO_MATCH_BEFORE_CHUNK_BOUNDARY__WINNER_CHUNK_4; instance_ALREADY_FOUND_BEFORE_CHUNK__WINNER_CHUNK_4;
    instance_CONTINUATION_MATCH_IN_LATER_CHUNK__WINNER_CHUNK_4; instance_FIRST_MATCH__WINNER_CHUNK_8;
    instance_MIDDLE_MATCH__WINNER_CHUNK_8; instance_LAST_MATCH__WINNER_CHUNK_8;
    instance_NO_MATCH_BEFORE_CHUNK_BOUNDARY__WINNER_CHUNK_8; instance_ALREADY_FOUND_BEFORE_CHUNK__WINNER_CHUNK_8;
    instance_CONTINUATION_MATCH_IN_LATER_CHUNK__WINNER_CHUNK_8; instance_FIRST_MATCH__WINNER_CHUNK_16;
    instance_MIDDLE_MATCH__WINNER_CHUNK_16; instance_LAST_MATCH__WINNER_CHUNK_16;
    instance_NO_MATCH_BEFORE_CHUNK_BOUNDARY__WINNER_CHUNK_16; instance_ALREADY_FOUND_BEFORE_CHUNK__WINNER_CHUNK_16;
    instance_CONTINUATION_MATCH_IN_LATER_CHUNK__WINNER_CHUNK_16; instance_FIRST_MATCH__WINNER_CHUNK_32;
    instance_MIDDLE_MATCH__WINNER_CHUNK_32; instance_LAST_MATCH__WINNER_CHUNK_32;
    instance_NO_MATCH_BEFORE_CHUNK_BOUNDARY__WINNER_CHUNK_32; instance_ALREADY_FOUND_BEFORE_CHUNK__WINNER_CHUNK_32;
    instance_CONTINUATION_MATCH_IN_LATER_CHUNK__WINNER_CHUNK_32;
    instance_ALL_VALID_FIXED_WINNER__COMPOSITE_DRAW_AND_CHUNK_8;
    instance_ALL_VALID_FIXED_WINNER__COMPOSITE_DRAW_AND_CHUNK_32
].

Definition EXPECTED_CONTINUATION_SEMANTIC_SEQUENCE : ContinuationSequence :=
  {| cs_id := "CONTINUATION_TWO_CALL_CHUNK_8"; cs_circuitId := "WINNER_CHUNK_8";
    cs_participantVectorInstanceId := "participants:CONTINUATION_TWO_CALL_CHUNK_8"; cs_setupId := "9008";
    cs_sequenceClassification := "SEMANTIC_CONTINUATION_VALIDATION"; cs_excludedFromStatisticalSamples := true;
    cs_noResetBetweenCalls := true; cs_initial := {| ws_acceptedTicket := "5913000000000000000000"; ws_prefix := "0";
    ws_found := false; ws_winnerIndex := "0"; ws_cursor := "0"; ws_readiness := true; ws_acceptedTicketReady := true;
    ws_vectorIdentity := "CONTINUATION_TWO_CALL_CHUNK_8" |}; cs_firstParticipantIndices := ["0"; "1"; "2"; "3"; "4";
    "5"; "6"; "7"]; cs_firstParticipantWeights := ["492750000000000000000"; "492750000000000000000";
    "492750000000000000000"; "492750000000000000000"; "492750000000000000000"; "492750000000000000000";
    "492750000000000000000"; "492750000000000000000"]; cs_firstPost := {| wp_prefix := "3942000000000000000000";
    wp_found := false; wp_winnerIndex := "0"; wp_cursor := "8"; wp_readiness := true; wp_acceptedTicketReady := true;
    wp_vectorIdentity := "CONTINUATION_TWO_CALL_CHUNK_8" |}; cs_secondPre := {|
    ws_acceptedTicket := "5913000000000000000000"; ws_prefix := "3942000000000000000000"; ws_found := false;
    ws_winnerIndex := "0"; ws_cursor := "8"; ws_readiness := true; ws_acceptedTicketReady := true;
    ws_vectorIdentity := "CONTINUATION_TWO_CALL_CHUNK_8" |}; cs_secondParticipantIndices := ["8"; "9"; "10"; "11";
    "12"; "13"; "14"; "15"]; cs_secondParticipantWeights := ["492750000000000000000"; "492750000000000000000";
    "492750000000000000000"; "492750000000000000000"; "492750000000000000000"; "492750000000000000000";
    "492750000000000000000"; "492750000000000000000"]; cs_secondPost := {| wp_prefix := "7884000000000000000000";
    wp_found := true; wp_winnerIndex := "12"; wp_cursor := "16"; wp_readiness := true; wp_acceptedTicketReady := true;
    wp_vectorIdentity := "CONTINUATION_TWO_CALL_CHUNK_8" |} |}.
