(* ===== verification/Sg4RunPlan.v ===== *)
(** * The run plan: scripts/sg4-protocol.ts

    Every run of the benchmark is preregistered: for each window, circuit and
    vector its warm-ups and its measured runs.  The plan is built from the circuits
    and derived a second time from the closed tables; the checks of
    [validateProtocol] that concern circuits, winner instances and runs compare the
    two.  [stable(a) === stable(b)] compares JSON texts: here the equality of values
    whose keys are in the declared order. *)
From Stdlib Require Import ZArith Lia Ascii.
From stdpp Require Import base option list sets gmap strings.
From S2P Require Import Prelude Sg4Protocol Sg4Winner Sg4Expected.
Local Open Scope Z_scope.

Record Allocation := { al_windowId : string; al_warmups : Z; al_measured : Z }.
Definition allocation (windowId : string) (warmups measured : Z) : Allocation :=
  {| al_windowId := windowId; al_warmups := warmups; al_measured := measured |}.
Record Allocations := { al_primitive : list Allocation; al_composite : list Allocation; al_public : list Allocation }.

Definition BUILDER_ALLOCATIONS : Allocations :=
  {| al_primitive := [allocation "WINDOW_1" 2 4; allocation "WINDOW_2" 0 3; allocation "WINDOW_3" 0 3];
     al_composite := [allocation "WINDOW_1" 1 3; allocation "WINDOW_2" 0 2; allocation "WINDOW_3" 0 2];
     al_public := [allocation "WINDOW_1" 1 2; allocation "WINDOW_2" 0 2; allocation "WINDOW_3" 0 1] |}.
Definition EXPECTED_WINDOWS : list string := ["WINDOW_1"; "WINDOW_2"; "WINDOW_3"].
Definition EXPECTED_ALLOCATIONS : Allocations :=
  {| al_primitive := [allocation "WINDOW_1" 2 4; allocation "WINDOW_2" 0 3; allocation "WINDOW_3" 0 3];
     al_composite := [allocation "WINDOW_1" 1 3; allocation "WINDOW_2" 0 2; allocation "WINDOW_3" 0 2];
     al_public := [allocation "WINDOW_1" 1 2; allocation "WINDOW_2" 0 2; allocation "WINDOW_3" 0 1] |}.

Definition allocationFor (circuit : CircuitDefinition) : list Allocation :=
  match cd_classification circuit with
  | public_decryption => al_public BUILDER_ALLOCATIONS
  | composite | winner_chunk => al_composite BUILDER_ALLOCATIONS
  | primitive => al_primitive BUILDER_ALLOCATIONS
  end.

Definition requiresSetup (circuitId : string) : bool :=
  bool_decide (circuitId = "PRIZE_OR_ZERO") || bool_decide (circuitId = "WINNER_STEP_128")
  || startsWith "WINNER_CHUNK_" circuitId || startsWith "COMPOSITE_DRAW_AND_CHUNK_" circuitId.

Inductive RunClassification : Type := WARMUP | MEASURED.
#[export] Instance RunClassification_eq_dec : EqDecision RunClassification.
Proof. solve_decision. Defined.
Definition classification_text (classification : RunClassification) : string :=
  match classification with WARMUP => "WARMUP" | MEASURED => "MEASURED" end.

Record RunRecord := {
  rr_protocolVersion : string; rr_circuitId : string; rr_vectorId : string; rr_semanticVectorId : string;
  rr_windowId : string; rr_classification : RunClassification; rr_repetitionIndex : string; rr_runId : string;
  rr_setupBefore : bool; rr_setupRecordId : option string; rr_setupDefinitionId : option string;
  rr_preStateId : option string; rr_preStateDefinitionId : option string; rr_expectedPostStateId : option string;
  rr_expectedPostStateDefinitionId : option string; rr_participantVectorInstanceId : option string;
  rr_chunkSize : option string; rr_stateEquivalenceClass : option string; rr_sequenceClassification : string;
  rr_inheritsPriorRunId : option string; rr_includedInVerdictStatistics : bool
}.
#[export] Instance RunRecord_eq_dec : EqDecision RunRecord.
Proof. solve_decision. Defined.

(** [a ?? b] *)
Definition or_else {A : Type} (a b : option A) : option A := match a with Some _ => a | None => b end.

Definition find_instance (instances : list WinnerInstance) (circuitId vectorId : string) : option WinnerInstance :=
  List.find (fun instance => bool_decide (wi_circuitId instance = circuitId) && bool_decide (wi_id instance = vectorId))
    instances.

(** The record of a run, as the builder makes it. *)
Definition make (instances : list WinnerInstance) (entry : CircuitDefinition) (vectorId windowId : string)
    (classification : RunClassification) (index : Z) : RunRecord :=
  let runId := PROTOCOL_VERSION +:+ ":" +:+ windowId +:+ ":" +:+ cd_id entry +:+ ":" +:+ vectorId +:+ ":"
                 +:+ classification_text classification +:+ ":" +:+ decimal index in
  let winnerInstance := find_instance instances (cd_id entry) vectorId in
  let prizeSetupId :=
    if bool_decide (cd_id entry = "PRIZE_OR_ZERO")
    then Some (if bool_decide (vectorId = "WINNER_TRUE") then "7" else "8") else None in
  let setupRequired := requiresSetup (cd_id entry) in
  {| rr_protocolVersion := PROTOCOL_VERSION; rr_circuitId := cd_id entry; rr_vectorId := vectorId;
     rr_semanticVectorId := default vectorId (semanticVector_text ∘ wi_semanticVectorId <$> winnerInstance);
     rr_windowId := windowId; rr_classification := classification; rr_repetitionIndex := decimal index;
     rr_runId := runId; rr_setupBefore := setupRequired;
     rr_setupRecordId :=
       if setupRequired
       then Some ("setup-" +:+ windowId +:+ ":" +:+ cd_id entry +:+ ":" +:+ vectorId +:+ ":"
                    +:+ classification_text classification +:+ ":" +:+ decimal index) else None;
     rr_setupDefinitionId := or_else (wi_setupId <$> winnerInstance) prizeSetupId;
     rr_preStateId := wi_preStateId <$> winnerInstance; rr_preStateDefinitionId := wi_preStateId <$> winnerInstance;
     rr_expectedPostStateId := wi_expectedPostStateId <$> winnerInstance;
     rr_expectedPostStateDefinitionId := wi_expectedPostStateId <$> winnerInstance;
     rr_participantVectorInstanceId := wi_participantVectorInstanceId <$> winnerInstance;
     rr_chunkSize := wi_chunkSize <$> winnerInstance;
     rr_stateEquivalenceClass :=
       or_else (wi_id <$> winnerInstance) (if bool_decide (cd_id entry = "PRIZE_OR_ZERO") then Some vectorId else None);
     rr_sequenceClassification := "INDEPENDENT_PERFORMANCE_SAMPLE"; rr_inheritsPriorRunId := None;
     rr_includedInVerdictStatistics := bool_decide (classification = MEASURED) |}.

(** [table[index].windowId] of an index outside the table. *)
Definition undefined_window : result Allocation :=
  Throw (JsError true "TypeError" None "Cannot read properties of undefined (reading 'windowId')").
Definition allocation_at (table : list Allocation) (index : nat) : result Allocation :=
  match table !! index with Some allocation => Ok allocation | None => undefined_window end.

Definition buildRunPlan : result (list RunRecord) :=
  circuits ← BUILDER_CIRCUITS;
  instances ← BUILDER_WINNER_INSTANCES;
  windows ← result_map (fun allocationIndex =>
    entries ← result_map (fun entry =>
      allocation ← allocation_at (allocationFor entry) allocationIndex;
      Ok (concat (map (fun vectorId =>
        let make := make instances entry vectorId (al_windowId allocation) in
        repeated (al_warmups allocation) (make WARMUP) ++ repeated (al_measured allocation) (make MEASURED))
        (cd_vectorIds entry)))) circuits;
    Ok (concat entries)) [0%nat; 1%nat; 2%nat];
  Ok (concat windows).

(** ** The independent derivation *)
(** The record of a run, as the derivation makes it from the closed instances. *)
Definition expectedRunFields (entry : CircuitDefinition) (vectorId windowId : string)
    (classification : RunClassification) (repetitionIndex : Z) : RunRecord :=
  let runId := PROTOCOL_VERSION +:+ ":" +:+ windowId +:+ ":" +:+ cd_id entry +:+ ":" +:+ vectorId +:+ ":"
                 +:+ classification_text classification +:+ ":" +:+ decimal repetitionIndex in
  let winnerInstance := find_instance (map ei_instance EXPECTED_WINNER_INSTANCES) (cd_id entry) vectorId in
  let prizeSetupId :=
    if bool_decide (cd_id entry = "PRIZE_OR_ZERO")
    then Some (if bool_decide (vectorId = "WINNER_TRUE") then "7" else "8") else None in
  let setupRequired :=
    bool_decide (cd_id entry = "PRIZE_OR_ZERO") || bool_decide (cd_id entry = "WINNER_STEP_128")
    || bool_decide (cd_id entry = "WINNER_CHUNK_1") || bool_decide (cd_id entry = "WINNER_CHUNK_4")
    || bool_decide (cd_id entry = "WINNER_CHUNK_8") || bool_decide (cd_id entry = "WINNER_CHUNK_16")
    || bool_decide (cd_id entry = "WINNER_CHUNK_32") || bool_decide (cd_id entry = "COMPOSITE_DRAW_AND_CHUNK_8")
    || bool_decide (cd_id entry = "COMPOSITE_DRAW_AND_CHUNK_32") in
  {| rr_protocolVersion := PROTOCOL_VERSION; rr_circuitId := cd_id entry; rr_vectorId := vectorId;
     rr_semanticVectorId := default vectorId (semanticVector_text ∘ wi_semanticVectorId <$> winnerInstance);
     rr_windowId := windowId; rr_classification := classification; rr_repetitionIndex := decimal repetitionIndex;
     rr_runId := runId; rr_setupBefore := setupRequired;
     rr_setupRecordId :=
       if setupRequired
       then Some ("setup-" +:+ windowId +:+ ":" +:+ cd_id entry +:+ ":" +:+ vectorId +:+ ":"
                    +:+ classification_text classification +:+ ":" +:+ decimal repetitionIndex) else None;
     rr_setupDefinitionId := or_else (wi_setupId <$> winnerInstance) prizeSetupId;
     rr_preStateId := wi_preStateId <$> winnerInstance; rr_preStateDefinitionId := wi_preStateId <$> winnerInstance;
     rr_expectedPostStateId := wi_expectedPostStateId <$> winnerInstance;
     rr_expectedPostStateDefinitionId := wi_expectedPostStateId <$> winnerInstance;
     rr_participantVectorInstanceId := wi_participantVectorInstanceId <$> winnerInstance;
     rr_chunkSize := wi_chunkSize <$> winnerInstance;
     rr_stateEquivalenceClass :=
       or_else (wi_id <$> winnerInstance) (if bool_decide (cd_id entry = "PRIZE_OR_ZERO") then Some vectorId else None);
     rr_sequenceClassification := "INDEPENDENT_PERFORMANCE_SAMPLE"; rr_inheritsPriorRunId := None;
     rr_includedInVerdictStatistics := bool_decide (classification = MEASURED) |}.

Definition allocation_table (category : RepetitionCategory) : list Allocation :=
  match category with
  | PUBLIC_DECRYPTION => al_public EXPECTED_ALLOCATIONS
  | COMPOSITE_OR_WINNER_CHUNK => al_composite EXPECTED_ALLOCATIONS
  | PRIMITIVE_OR_SINGLE_STEP => al_primitive EXPECTED_ALLOCATIONS
  end.
Definition pair_table (category : RepetitionCategory) : list (string * string) :=
  match category with
  | PUBLIC_DECRYPTION => EXPECTED_PUBLIC_DECRYPTION_PAIRS
  | COMPOSITE_OR_WINNER_CHUNK => EXPECTED_COMPOSITE_CHUNK_PAIRS
  | PRIMITIVE_OR_SINGLE_STEP => EXPECTED_PRIMITIVE_PAIRS
  end.

(** The vectors that a table of pairs gives a circuit. *)
Definition pairs_of (table : list (string * string)) (circuitId : string) : list string :=
  map snd (List.filter (fun pair => bool_decide (pair.1 = circuitId)) table).

(** The inner loops, for one circuit in one window. *)
Definition expected_entry (windowIndex : nat) (windowId : string) (entry : ExpectedCircuitDefinition)
    : result (list RunRecord) :=
  let table := allocation_table (ec_repetitionCategory entry) in
  allocation ← allocation_at table windowIndex;
  invariant (bool_decide (al_windowId allocation = windowId)) "closed allocation window drift" ;;
  Ok (concat (map (fun vectorId =>
    repeated (al_warmups allocation) (expectedRunFields (ec_circuit entry) vectorId (al_windowId allocation) WARMUP)
    ++ repeated (al_measured allocation) (expectedRunFields (ec_circuit entry) vectorId (al_windowId allocation) MEASURED))
    (pairs_of (pair_table (ec_repetitionCategory entry)) (cd_id (ec_circuit entry))))).

Definition independentlyDeriveExpectedRunPlan : result (list RunRecord) :=
  windows ← result_map (fun window =>
    entries ← result_map (expected_entry window.1 window.2) EXPECTED_CIRCUITS; Ok (concat entries))
    (imap pair EXPECTED_WINDOWS);
  Ok (concat windows).

(** ** The protocol and its validation *)

(** The part of the protocol that its runs rest on. *)
Record Protocol := {
  pr_protocolVersion : string; pr_circuits : list CircuitDefinition; pr_executionOrder : list string;
  pr_maximumParticipantWeightSum : string; pr_winnerInstances : list WinnerInstance;
  pr_continuationSemanticSequence : ContinuationSequence; pr_runPlan : list RunRecord
}.

Definition buildProtocol : result Protocol :=
  circuits ← BUILDER_CIRCUITS;
  instances ← BUILDER_WINNER_INSTANCES;
  continuation ← CONTINUATION_SEMANTIC_SEQUENCE;
  runPlan ← buildRunPlan;
  Ok {| pr_protocolVersion := PROTOCOL_VERSION; pr_circuits := circuits; pr_executionOrder := map cd_id circuits;
        pr_maximumParticipantWeightSum := decimal (64 * CHUNK_WEIGHT); pr_winnerInstances := instances;
        pr_continuationSemanticSequence := continuation; pr_runPlan := runPlan |}.

Definition exactIds : list string :=
  ["RNG_64"; "RNG_128"; "RNG_256"; "TWAB_CAST_64_TO_128"; "TWAB_DELTA_128"; "TWAB_ACCUMULATE_128"; "AGGREGATE_ADD_128";
   "PREFIX_ADD_128"; "DRAW_ZERO_TOTAL_NOOP"; "DRAW_TOTAL_ONE"; "REJECTION_VALID_GENERAL_128";
   "TICKET_REMAINDER_GENERAL_128"; "REJECTION_PIPELINE_GENERAL_128"; "REJECTION_PIPELINE_ALL_VALID_128";
   "WINNER_STEP_128"; "WINNER_CHUNK_1"; "WINNER_CHUNK_4"; "WINNER_CHUNK_8"; "WINNER_CHUNK_16"; "WINNER_CHUNK_32";
   "PRIZE_OR_ZERO"; "COMPOSITE_TWAB_UPDATE"; "COMPOSITE_DRAW_GENERAL"; "COMPOSITE_DRAW_ALL_VALID";
   "COMPOSITE_DRAW_AND_CHUNK_8"; "COMPOSITE_DRAW_AND_CHUNK_32"; "PUBLIC_DECRYPT_AGGREGATE_128";
   "PUBLIC_DECRYPT_VALID_BOOL"].

(** [new Set(xs).size] *)
Definition set_size (xs : list string) : nat := length (js_set xs).

Definition validate_catalogue (p : Protocol) : result unit :=
  invariant (bool_decide (length (pr_circuits p) = 28%nat) && bool_decide (set_size (pr_executionOrder p) = 28%nat))
    "circuit catalogue drift" ;;
  invariant (bool_decide (join_char "|" (pr_executionOrder p) = join_char "|" exactIds)) "circuit order drift" ;;
  invariant (bool_decide (join_char "|" (map cd_id (pr_circuits p)) = join_char "|" exactIds)) "circuit ID drift".

(** The loop over a closed table and the entries at the same indices. *)
Fixpoint each_closed {A C : Type} (check : A -> C -> result unit) (actual : list A) (closed : list C) : result unit :=
  match closed with
  | [] => Ok tt
  | c :: closed' =>
      match actual with
      | a :: actual' => check a c ;; each_closed check actual' closed'
      | [] => Throw (JsError true "TypeError" None "Cannot read properties of undefined (reading 'id')")
      end
  end.

Definition validate_circuit (actual : CircuitDefinition) (expected : ExpectedCircuitDefinition) : result unit :=
  let closed := ec_circuit expected in
  invariant (bool_decide (cd_id actual = cd_id closed) && bool_decide (cd_family actual = cd_family closed))
    ("circuit identity drift: " +:+ cd_id closed) ;;
  invariant (bool_decide (cd_classification actual = cd_classification closed)) ("circuit class drift: " +:+ cd_id closed) ;;
  invariant (bool_decide (cd_operations actual = cd_operations closed)) ("operation manifest drift: " +:+ cd_id closed) ;;
  invariant (bool_decide (cd_vectorIds actual = cd_vectorIds closed)) ("vector applicability drift: " +:+ cd_id closed) ;;
  invariant (bool_decide (cd_productionCritical actual = cd_productionCritical closed))
    ("production role drift: " +:+ cd_id closed) ;;
  invariant (bool_decide (cd_widthRole actual = cd_widthRole closed)) ("width role drift: " +:+ cd_id closed) ;;
  invariant (bool_decide (map_get (cd_id closed) EXPECTED_VECTOR_APPLICABILITY = Some (cd_vectorIds closed)))
    ("closed vector applicability drift: " +:+ cd_id closed) ;;
  invariant (bool_decide (cd_vectorIds closed = pairs_of (pair_table (ec_repetitionCategory expected)) (cd_id closed)))
    ("closed pair applicability drift: " +:+ cd_id closed).

Definition validate_authorities : result unit :=
  invariant (bool_decide (length EXPECTED_PRIMITIVE_PAIRS = 22%nat)) "primitive pair authority drift" ;;
  invariant (bool_decide (length EXPECTED_COMPOSITE_CHUNK_PAIRS = 39%nat)) "composite pair authority drift" ;;
  invariant (bool_decide (length EXPECTED_PUBLIC_DECRYPTION_PAIRS = 2%nat)) "public-decryption pair authority drift" ;;
  invariant (BALANCE_MAX_BASE_UNITS =? 1000000000000000) "SG-3 balance drift" ;;
  invariant (ELAPSED_MAX_SECONDS =? 31536000) "SG-3 duration drift" ;;
  invariant (TWAB_MAX =? 31536000000000000000000) "SG-3 TWAB drift" ;;
  invariant (CHUNK_WEIGHT =? 492750000000000000000) "winner chunk weight drift".

Definition with_ticket_ready (state : WinnerState) : WinnerState :=
  {| ws_acceptedTicket := ws_acceptedTicket state; ws_prefix := ws_prefix state; ws_found := ws_found state;
     ws_winnerIndex := ws_winnerIndex state; ws_cursor := ws_cursor state; ws_readiness := ws_readiness state;
     ws_acceptedTicketReady := true; ws_vectorIdentity := ws_vectorIdentity state |}.
Definition oracle_pre_state (instance : WinnerInstance) : WinnerState :=
  if bool_decide (wi_semanticVectorId instance = ALL_VALID_FIXED_WINNER) then with_ticket_ready (wi_preState instance)
  else wi_preState instance.

Definition validate_winner_instance (actual : WinnerInstance) (expected : ExpectedWinnerInstance) : result unit :=
  let closed := ei_instance expected in
  invariant (bool_decide (wi_id actual = wi_id closed) && bool_decide (wi_circuitId actual = wi_circuitId closed))
    "winner instance identity drift" ;;
  invariant (bool_decide (wi_semanticVectorId actual = wi_semanticVectorId closed)) "winner semantic vector drift" ;;
  invariant (bool_decide (wi_setupId actual = wi_setupId closed) && bool_decide (wi_chunkSize actual = wi_chunkSize closed))
    "winner setup drift" ;;
  invariant (bool_decide (wi_preStateId actual = wi_preStateId closed)) "winner pre-state definition drift" ;;
  invariant (bool_decide (wi_expectedPostStateId actual = wi_expectedPostStateId closed))
    "winner post-state definition drift" ;;
  invariant (bool_decide (wi_participantVectorInstanceId actual = wi_participantVectorInstanceId closed))
    "winner participant definition drift" ;;
  invariant (bool_decide (wi_preState actual = wi_preState closed)) "winner pre-state drift" ;;
  invariant (bool_decide (wi_participantIndices actual = wi_participantIndices closed))
    "winner participant index drift" ;;
  invariant (bool_decide (wi_participantWeights actual = wi_participantWeights closed))
    "winner participant weight drift" ;;
  invariant (bool_decide (wi_participantEntryCount actual = wi_participantEntryCount closed))
    "winner participant count drift" ;;
  invariant (bool_decide (wi_expectedPostState actual = wi_expectedPostState closed)) "winner expected post-state drift" ;;
  invariant (bool_decide (wi_expectedMatchPosition actual = wi_expectedMatchPosition closed))
    "winner match-position drift" ;;
  invariant (bool_decide (ei_stateEquivalenceClass expected = wi_id closed)) "winner expected equivalence-class drift" ;;
  closedOracle ← winnerStateTransition (oracle_pre_state closed) (wi_participantIndices closed)
    (wi_participantWeights closed)
    {| od_chunkSize := wi_chunkSize closed; od_participantSliceStart := ws_cursor (wi_preState closed);
       od_participantUniverseSize := ei_participantUniverseSize expected;
       od_exclusiveUpperBound := ei_exclusiveUpperBound expected |};
  invariant (bool_decide (closedOracle = wi_expectedPostState closed)) ("closed winner oracle mismatch: " +:+ wi_id closed).

Definition validate_winner_catalogue (p : Protocol) : result unit :=
  invariant (bool_decide (pr_maximumParticipantWeightSum p = decimal T_MAX)) "participant envelope drift" ;;
  invariant (bool_decide (length (pr_winnerInstances p) = length EXPECTED_WINNER_INSTANCES))
    "winner instance catalogue length drift" ;;
  each_closed validate_winner_instance (pr_winnerInstances p) EXPECTED_WINNER_INSTANCES.

Definition validate_continuation (sequence : ContinuationSequence) : result unit :=
  invariant (bool_decide (sequence = EXPECTED_CONTINUATION_SEMANTIC_SEQUENCE)) "continuation semantic sequence drift" ;;
  invariant (bool_decide (cs_sequenceClassification sequence = "SEMANTIC_CONTINUATION_VALIDATION"))
    "continuation semantic classification drift" ;;
  invariant (cs_excludedFromStatisticalSamples sequence) "continuation semantic sequence entered statistics" ;;
  invariant (cs_noResetBetweenCalls sequence
             && bool_decide (cs_secondPre sequence
                             = carry (cs_firstPost sequence) (ws_acceptedTicket (cs_initial sequence))))
    "continuation second call was reset".

(** [weights.every((weight) => BigInt(weight) > 0n)] *)
Fixpoint every_positive (weights : list string) : result bool :=
  match weights with
  | [] => Ok true
  | weight :: weights' =>
      value ← BigInt_of_string weight;
      if 0 <? value then every_positive weights' else Ok false
  end.

Fixpoint validate_setups (setupDefinitions : list (string * WinnerState)) (instances : list WinnerInstance)
    : result unit :=
  match instances with
  | [] => Ok tt
  | instance :: instances' =>
      size ← BigInt_of_string (wi_chunkSize instance);
      invariant ((0 <? size) && (Z.of_nat (length (wi_participantIndices instance)) =? size))
        "participant count differs from chunk" ;;
      invariant (bool_decide (length (wi_participantWeights instance) = length (wi_participantIndices instance)))
        "participant array mismatch" ;;
      invariant (bool_decide (wi_participantEntryCount instance = wi_chunkSize instance)) "participant entry count drift" ;;
      positive ← every_positive (wi_participantWeights instance);
      invariant positive "implicit zero participant" ;;
      cursor ← BigInt_of_string (ws_cursor (wi_preState instance));
      invariant (cursor + size <=? 64) "registered winner cursor exceeds the explicit participant envelope" ;;
      oracle ← winnerStateTransition (oracle_pre_state instance) (wi_participantIndices instance)
        (wi_participantWeights instance)
        {| od_chunkSize := wi_chunkSize instance; od_participantSliceStart := ws_cursor (wi_preState instance);
           od_participantUniverseSize := "64"; od_exclusiveUpperBound := "64" |};
      invariant (bool_decide (oracle = wi_expectedPostState instance)) ("winner oracle mismatch: " +:+ wi_id instance) ;;
      invariant (match map_get (wi_setupId instance) setupDefinitions with
                 | None => true | Some prior => bool_decide (prior = wi_preState instance) end)
        "setup ID reused for incompatible state" ;;
      validate_setups (map_set (wi_setupId instance) (wi_preState instance) setupDefinitions) instances'
  end.

Definition validate_run_linkage (instances : list WinnerInstance) (record : RunRecord) : result unit :=
  match List.find (fun instance => bool_decide (wi_id instance = rr_vectorId record)) instances with
  | None => Ok tt
  | Some instance =>
      invariant (rr_setupBefore record && bool_decide (is_Some (rr_setupRecordId record))) "winner setup linkage missing" ;;
      invariant (bool_decide (rr_setupDefinitionId record = Some (wi_setupId instance))) "winner setup definition drift" ;;
      invariant (bool_decide (rr_preStateId record = Some (wi_preStateId instance))) "winner pre-state linkage drift" ;;
      invariant (bool_decide (rr_preStateDefinitionId record = Some (wi_preStateId instance)))
        "winner pre-state definition drift" ;;
      invariant (bool_decide (rr_expectedPostStateId record = Some (wi_expectedPostStateId instance)))
        "winner post-state linkage drift" ;;
      invariant (bool_decide (rr_expectedPostStateDefinitionId record = Some (wi_expectedPostStateId instance)))
        "winner expected post-state definition drift" ;;
      invariant (bool_decide (rr_participantVectorInstanceId record = Some (wi_participantVectorInstanceId instance)))
        "winner participant linkage drift" ;;
      invariant (bool_decide (rr_stateEquivalenceClass record = Some (wi_id instance)))
        "winner workload equivalence drift" ;;
      invariant (bool_decide (rr_sequenceClassification record = "INDEPENDENT_PERFORMANCE_SAMPLE"))
        "statistical inheritance introduced" ;;
      invariant (bool_decide (rr_inheritsPriorRunId record = None)) "cross-repetition state dependency introduced" ;;
      invariant (bool_decide (rr_includedInVerdictStatistics record = bool_decide (rr_classification record = MEASURED)))
        "verdict-statistics classification drift"
  end.

Fixpoint each_run (check : RunRecord -> result unit) (records : list RunRecord) : result unit :=
  match records with [] => Ok tt | record :: records' => check record ;; each_run check records' end.

(** The groups of the runs, by circuit and vector. *)
Definition group_key (record : RunRecord) : string := rr_circuitId record +:+ "|" +:+ rr_vectorId record.
Definition runGroups (records : list RunRecord) : list (string * list RunRecord) :=
  fold_left (fun groups record =>
    map_set (group_key record) (default [] (map_get (group_key record) groups) ++ [record]) groups) records [].

Definition state_equivalence (record : RunRecord) : string :=
  nullable_text (rr_preStateId record) +:+ "|" +:+ nullable_text (rr_expectedPostStateId record) +:+ "|"
    +:+ nullable_text (rr_participantVectorInstanceId record) +:+ "|" +:+ nullable_text (rr_stateEquivalenceClass record).

Definition validate_group (group : list RunRecord) : result unit :=
  let stateful := List.filter (fun record => bool_decide (is_Some (rr_preStateId record))) group in
  invariant ((length stateful =? 0)%nat || bool_decide (set_size (map state_equivalence stateful) = 1%nat))
    "materially different pre-state across equivalent repetitions".

Fixpoint validate_groups (groups : list (string * list RunRecord)) : result unit :=
  match groups with [] => Ok tt | group :: groups' => validate_group group.2 ;; validate_groups groups' end.

Definition validate_run_plan (p : Protocol) : result unit :=
  independentlyExpected ← independentlyDeriveExpectedRunPlan;
  invariant (bool_decide (length (pr_runPlan p) = 588%nat)) "run plan length drift" ;;
  invariant (bool_decide (length (pr_runPlan p) = length independentlyExpected)) "independent run plan total drift" ;;
  invariant (bool_decide (pr_runPlan p = independentlyExpected)) "run plan differs from independent derivation" ;;
  invariant (bool_decide (set_size (map rr_runId (pr_runPlan p)) = length (pr_runPlan p))) "run plan IDs drift" ;;
  each_run (validate_run_linkage (pr_winnerInstances p)) (pr_runPlan p) ;;
  validate_groups (runGroups (pr_runPlan p)).

Definition validateProtocol (p : Protocol) : result unit :=
  invariant (bool_decide (pr_protocolVersion p = "sg4-benchmark-protocol/v2")) "protocol version drift" ;;
  validate_catalogue p ;;
  each_closed validate_circuit (pr_circuits p) EXPECTED_CIRCUITS ;;
  validate_authorities ;;
  validate_winner_catalogue p ;;
  validate_continuation (pr_continuationSemanticSequence p) ;;
  validate_setups [] (pr_winnerInstances p) ;;
  validate_run_plan p.

Definition deriveProtocol : result Protocol :=
  protocol ← buildProtocol;
  validateProtocol protocol ;;
  Ok protocol.

(** * Theorems *)

(** ** Sets of texts *)
Lemma js_set_NoDup_id {A} `{EqDecision A} (xs : list A) : NoDup xs -> js_set xs = xs.
Proof.
  unfold js_set. enough (H : forall s, NoDup (s ++ xs) ->
    fold_left (fun s x => if bool_decide (x ∈ s) then s else s ++ [x]) xs s = s ++ xs) by (intros; by apply (H [])).
  induction xs as [|x xs IH]; intros s Hs; cbn [fold_left]; [by rewrite app_nil_r|].
  rewrite bool_decide_eq_false_2.
  - rewrite IH; rewrite <- app_assoc; done.
  - apply NoDup_app in Hs as (_ & Hs & _). intros Hx. apply (Hs x Hx). set_solver.
Qed.

Lemma js_set_length_le {A} `{EqDecision A} (xs : list A) : (length (js_set xs) <= length xs)%nat.
Proof.
  apply submseteq_length, NoDup_submseteq; [apply NoDup_js_set|]. intros x. by rewrite elem_of_js_set.
Qed.

Lemma js_set_snoc {A} `{EqDecision A} (xs : list A) x :
  js_set (xs ++ [x]) = if bool_decide (x ∈ xs) then js_set xs else js_set xs ++ [x].
Proof.
  unfold js_set. rewrite fold_left_app. cbn. pose proof (elem_of_js_set x xs) as H. unfold js_set in H.
  by rewrite (bool_decide_ext _ _ H).
Qed.

(** The set is as large as the list only when nothing is repeated. *)
Lemma set_size_NoDup xs : set_size xs = length xs <-> NoDup xs.
Proof.
  unfold set_size. split; [|intros; by rewrite js_set_NoDup_id].
  induction xs as [|x xs IH] using rev_ind; [constructor|]. rewrite js_set_snoc, length_app. cbn.
  pose proof (js_set_length_le xs). case_bool_decide as Hx; [lia|]. rewrite length_app. cbn. intros E.
  apply NoDup_app. split; [apply IH; lia|]. split; [set_solver|apply NoDup_singleton].
Qed.

(** A list is without repetitions when the map of its members is as large. *)
Lemma map_size_NoDup (xs : list string) :
  size (list_to_map (map (fun x => (x, tt)) xs) : gmap string unit) = length xs -> NoDup xs.
Proof.
  induction xs as [|x xs IH]; [constructor|]. cbn [map list_to_map foldr length fst snd]. intros E.
  change (foldr _ ∅ (map _ xs)) with (list_to_map (map (fun x => (x, tt)) xs) : gmap string unit) in E.
  set (m := list_to_map (map (fun x => (x, tt)) xs) : gmap string unit) in *.
  assert (Hle : (size m <= length xs)%nat).
  { unfold m. clear. induction xs as [|x xs IH]; [done|]. cbn [map list_to_map foldr length].
    change (foldr _ ∅ (map _ xs)) with (list_to_map (map (fun x => (x, tt)) xs) : gmap string unit).
    rewrite map_size_insert. case_match; unfold id; lia. }
  assert (Hx : m !! x = None).
  { destruct (m !! x) eqn:Em; [|done]. rewrite map_size_insert, Em in E. unfold id in E. lia. }
  constructor; [|apply IH; rewrite map_size_insert, Hx in E; lia].
  intros Hin. apply not_elem_of_list_to_map in Hx. apply Hx. rewrite <- list_fmap_compose. by rewrite list_fmap_id.
Qed.

(** ** A protocol that passes its validation *)
Ltac inv_checks E :=
  lazymatch type of E with
  | (invariant _ _ ≫= _) = Ok _ => apply result_bind_Ok in E as ([] & ?%sg4_invariant_Ok & E); inv_checks E
  | (_ ≫= _) = Ok _ => apply result_bind_Ok in E as (? & ? & E); inv_checks E
  | invariant _ _ = Ok _ => apply sg4_invariant_Ok in E
  | _ => idtac
  end.
Ltac bool_facts :=
  repeat match goal with
  | H : _ && _ = true |- _ => apply andb_true_iff in H as [? ?]
  | H : bool_decide _ = true |- _ => apply bool_decide_eq_true in H
  end.

Lemma validate_circuit_equal actual expected :
  validate_circuit actual expected = Ok tt -> actual = ec_circuit expected.
Proof. unfold validate_circuit. intros E. inv_checks E. bool_facts. destruct actual, (ec_circuit expected). cbn in *. by subst. Qed.

Lemma validate_winner_instance_equal actual expected :
  validate_winner_instance actual expected = Ok tt ->
  actual = ei_instance expected /\
  exists domain, winnerStateTransition (oracle_pre_state actual) (wi_participantIndices actual) (wi_participantWeights actual) domain
    = Ok (wi_expectedPostState actual).
Proof.
  unfold validate_winner_instance. intros E. inv_checks E. bool_facts.
  assert (Ea : actual = ei_instance expected).
  { destruct actual, (ei_instance expected). cbn in *. by subst. }
  split; [done|]. rewrite Ea. eexists. by subst.
Qed.

Lemma each_closed_equal {A C} (check : A -> C -> result unit) (entry : C -> A) (P : A -> Prop) actual closed :
  (forall a c, check a c = Ok tt -> a = entry c /\ P a) -> length actual = length closed ->
  each_closed check actual closed = Ok tt -> actual = map entry closed /\ Forall P actual.
Proof.
  intros Hc. revert actual. induction closed as [|c closed IH]; intros [|a actual] Hlen E; try done.
  cbn [each_closed map] in *. apply result_bind_Ok in E as ([] & [-> Hp]%Hc & E).
  destruct (IH actual) as [-> ?]; [by injection Hlen|done|]. split; [done|by constructor].
Qed.

(** An instance that can be set up: as many participants as its chunk takes, each of a
    positive weight, inside the 64 registered; the state it expects is the one the oracle
    computes from its own. *)
Definition set_up (instance : WinnerInstance) : Prop :=
  exists size cursor, BigInt_of_string (wi_chunkSize instance) = Ok size /\
    BigInt_of_string (ws_cursor (wi_preState instance)) = Ok cursor /\
    0 < size /\ Z.of_nat (length (wi_participantIndices instance)) = size /\ cursor + size <= 64 /\
    length (wi_participantWeights instance) = length (wi_participantIndices instance) /\
    Forall (fun weight => exists value, BigInt_of_string weight = Ok value /\ 0 < value) (wi_participantWeights instance) /\
    winnerStateTransition (oracle_pre_state instance) (wi_participantIndices instance) (wi_participantWeights instance)
      {| od_chunkSize := wi_chunkSize instance; od_participantSliceStart := ws_cursor (wi_preState instance);
         od_participantUniverseSize := "64"; od_exclusiveUpperBound := "64" |} = Ok (wi_expectedPostState instance).

Lemma every_positive_true weights :
  every_positive weights = Ok true ->
  Forall (fun weight => exists value, BigInt_of_string weight = Ok value /\ 0 < value) weights.
Proof.
  induction weights as [|weight weights IH]; [constructor|]. cbn [every_positive]. intros E.
  apply result_bind_Ok in E as (value & Ev & E). destruct (0 <? value) eqn:Hv; [|discriminate E].
  constructor; [exists value; split; [exact Ev|lia]|by apply IH].
Qed.

(** No identifier of a setup names two states: none of the table so far, none of the rest. *)
Lemma validate_setups_Ok definitions instances :
  validate_setups definitions instances = Ok tt ->
  Forall set_up instances /\
  (forall instance state, instance ∈ instances -> map_get (wi_setupId instance) definitions = Some state ->
     state = wi_preState instance) /\
  (forall a b, a ∈ instances -> b ∈ instances -> wi_setupId a = wi_setupId b -> wi_preState a = wi_preState b).
Proof.
  revert definitions. induction instances as [|instance instances IH]; intros definitions E.
  { split_and!; [constructor|set_solver..]. }
  cbn [validate_setups] in E. apply result_bind_Ok in E as (size & Esize & E). inv_checks E. bool_facts. subst.
  destruct (IH _ E) as (Hset & Hdefs & Hsame).
  assert (Hhead : forall state, map_get (wi_setupId instance) definitions = Some state -> state = wi_preState instance).
  { intros state Hs. match goal with H : context [map_get] |- _ => rewrite Hs in H; by apply bool_decide_eq_true in H end. }
  assert (Hnew : forall other, other ∈ instances -> wi_setupId other = wi_setupId instance ->
    wi_preState instance = wi_preState other).
  { intros other Hin Hid. apply (Hdefs other); [done|]. by rewrite Hid, map_get_set_eq. }
  split_and!.
  - constructor; [|done]. eexists size, _. split_and!; eauto using every_positive_true; lia.
  - intros other state [->|Hin]%elem_of_cons Hs; [by apply Hhead|].
    destruct (decide (wi_setupId other = wi_setupId instance)) as [Hid|Hid].
    + rewrite <- (Hnew other Hin Hid). apply Hhead. by rewrite <- Hid.
    + apply (Hdefs other); [done|]. by rewrite map_get_set_ne.
  - intros a b [->|Ha]%elem_of_cons [->|Hb]%elem_of_cons Hid; [done|by apply Hnew|symmetry; by apply Hnew|by apply Hsame].
Qed.

(** A run of an instance tells its setup and its states, and carries nothing over. *)
Definition linked (instances : list WinnerInstance) (record : RunRecord) : Prop :=
  forall instance, List.find (fun instance => bool_decide (wi_id instance = rr_vectorId record)) instances = Some instance ->
    rr_setupBefore record = true /\ is_Some (rr_setupRecordId record) /\
    rr_setupDefinitionId record = Some (wi_setupId instance) /\
    rr_preStateId record = Some (wi_preStateId instance) /\ rr_preStateDefinitionId record = Some (wi_preStateId instance) /\
    rr_expectedPostStateId record = Some (wi_expectedPostStateId instance) /\
    rr_expectedPostStateDefinitionId record = Some (wi_expectedPostStateId instance) /\
    rr_participantVectorInstanceId record = Some (wi_participantVectorInstanceId instance) /\
    rr_stateEquivalenceClass record = Some (wi_id instance) /\
    rr_inheritsPriorRunId record = None /\
    (rr_includedInVerdictStatistics record = true <-> rr_classification record = MEASURED).

Lemma validate_run_linkage_Ok instances record : validate_run_linkage instances record = Ok tt -> linked instances record.
Proof.
  unfold validate_run_linkage, linked. intros E instance Hf. rewrite Hf in E. inv_checks E. bool_facts.
  split_and!; try done. match goal with H : rr_includedInVerdictStatistics _ = _ |- _ => rewrite H end.
  by rewrite bool_decide_eq_true.
Qed.

Lemma each_run_Ok check (P : RunRecord -> Prop) records :
  (forall record, check record = Ok tt -> P record) -> each_run check records = Ok tt -> Forall P records.
Proof.
  intros Hc. induction records as [|record records IH]; [constructor|]. cbn [each_run]. intros E.
  apply result_bind_Ok in E as ([] & ?%Hc & E). constructor; auto.
Qed.

Lemma runGroups_get records key :
  default [] (map_get key (runGroups records)) = List.filter (fun record => bool_decide (group_key record = key)) records.
Proof.
  unfold runGroups. induction records as [|record records IH] using rev_ind; [done|].
  rewrite fold_left_app, List.filter_app. cbn [fold_left List.filter].
  set (groups := fold_left _ _ _) in *. case_bool_decide as Hk.
  - rewrite Hk, map_get_set_eq. cbn [default]. by rewrite IH.
  - by rewrite map_get_set_ne, IH, app_nil_r.
Qed.

Lemma validate_groups_Ok groups : validate_groups groups = Ok tt -> Forall (fun group => validate_group group.2 = Ok tt) groups.
Proof.
  induction groups as [|group groups IH]; [constructor|]. cbn [validate_groups]. intros E.
  apply result_bind_Ok in E as ([] & ? & E). constructor; auto.
Qed.

Lemma set_size_one xs x y : set_size xs = 1%nat -> x ∈ xs -> y ∈ xs -> x = y.
Proof.
  unfold set_size. intros E Hx%elem_of_js_set Hy%elem_of_js_set. destruct (js_set xs) as [|z [|? ?]]; try done.
  apply list_elem_of_singleton in Hx as ->. by apply list_elem_of_singleton in Hy as ->.
Qed.

(** Repetitions of one circuit and vector that have a state start from the same one. *)
Lemma validate_groups_same records a b :
  validate_groups (runGroups records) = Ok tt -> a ∈ records -> b ∈ records -> group_key a = group_key b ->
  is_Some (rr_preStateId a) -> is_Some (rr_preStateId b) -> state_equivalence a = state_equivalence b.
Proof.
  intros E%validate_groups_Ok Ha Hb Hk Sa Sb. rewrite Forall_forall in E.
  pose proof (runGroups_get records (group_key a)) as Hg. set (group := List.filter _ _) in Hg.
  assert (Hin : forall r, r ∈ records -> group_key r = group_key a -> r ∈ group).
  { intros r Hr Hkr. apply list_elem_of_In, List.filter_In. split; [by apply list_elem_of_In|by apply bool_decide_eq_true]. }
  destruct (map_get (group_key a) (runGroups records)) as [group'|] eqn:Eg; cbn [default] in Hg.
  2: { specialize (Hin a Ha eq_refl). rewrite <- Hg in Hin. by apply elem_of_nil in Hin. }
  apply map_get_Some_elem, E in Eg. unfold id in Hg. cbn [snd] in Eg. subst group'. unfold validate_group in Eg. cbv zeta in Eg.
  apply sg4_invariant_Ok in Eg. set (stateful := List.filter _ group) in Eg.
  assert (Hst : forall r, r ∈ records -> group_key r = group_key a -> is_Some (rr_preStateId r) -> r ∈ stateful).
  { intros r Hr Hkr Hs. apply list_elem_of_In, List.filter_In. split; [by apply list_elem_of_In, Hin|by apply bool_decide_eq_true]. }
  pose proof (Hst a Ha eq_refl Sa) as Ia. pose proof (Hst b Hb (eq_sym Hk) Sb) as Ib.
  apply orb_true_iff in Eg as [Eg|Eg]; [destruct stateful; [by apply elem_of_nil in Ia|discriminate Eg]|].
  apply bool_decide_eq_true in Eg. eapply set_size_one; [exact Eg| |]; by apply list_elem_of_fmap_2.
Qed.

(** C12: Validation pins the protocol.  Whatever object passes these checks, and so whatever
    passes them and the others of [validateProtocol], has the version, the circuits, the
    order, the winner instances and the two-call sequence that were preregistered, entry by
    entry; every instance can be set up, and the state it expects is the one the oracle
    computes; no setup stands for two states; its runs are those the independent
    derivation gives, in that order, 588 of them, no identifier used twice, each linked to
    the instance of its vector; the repetitions of a circuit and vector start from the same state. *)
Theorem validateProtocol_pins p :
  validateProtocol p = Ok tt ->
  pr_protocolVersion p = "sg4-benchmark-protocol/v2" /\
  join_char "|" (pr_executionOrder p) = join_char "|" exactIds /\
  pr_circuits p = map ec_circuit EXPECTED_CIRCUITS /\
  pr_maximumParticipantWeightSum p = decimal T_MAX /\
  pr_winnerInstances p = map ei_instance EXPECTED_WINNER_INSTANCES /\
  pr_continuationSemanticSequence p = EXPECTED_CONTINUATION_SEMANTIC_SEQUENCE /\
  Forall set_up (pr_winnerInstances p) /\
  (forall a b, a ∈ pr_winnerInstances p -> b ∈ pr_winnerInstances p -> wi_setupId a = wi_setupId b ->
     wi_preState a = wi_preState b) /\
  independentlyDeriveExpectedRunPlan = Ok (pr_runPlan p) /\
  length (pr_runPlan p) = 588%nat /\
  NoDup (map rr_runId (pr_runPlan p)) /\
  Forall (linked (pr_winnerInstances p)) (pr_runPlan p) /\
  (forall a b, a ∈ pr_runPlan p -> b ∈ pr_runPlan p -> group_key a = group_key b ->
     is_Some (rr_preStateId a) -> is_Some (rr_preStateId b) -> state_equivalence a = state_equivalence b).
Proof.
  unfold validateProtocol, validate_catalogue, validate_winner_catalogue, validate_continuation, validate_run_plan.
  intros E. apply result_bind_Ok in E as ([] & Hver%sg4_invariant_Ok & E). apply result_bind_Ok in E as ([] & Hcat & E).
  apply result_bind_Ok in E as ([] & Hcir & E). apply result_bind_Ok in E as ([] & _ & E).
  apply result_bind_Ok in E as ([] & Hwin & E). apply result_bind_Ok in E as ([] & Hcon & E).
  apply result_bind_Ok in E as ([] & Hset & E). inv_checks Hcat. inv_checks Hwin. inv_checks Hcon.
  apply result_bind_Ok in E as (plan & Hplan & E). inv_checks E. bool_facts.
  repeat match goal with x : unit |- _ => destruct x end.
  destruct (each_closed_equal validate_circuit ec_circuit (fun _ => True) (pr_circuits p) EXPECTED_CIRCUITS) as [Hc _];
    [intros a c Hac; split; [by apply validate_circuit_equal|done]|done|done|].
  destruct (each_closed_equal _ ei_instance _ (pr_winnerInstances p) EXPECTED_WINNER_INSTANCES
              validate_winner_instance_equal) as [Hw _]; [done|done|].
  apply validate_setups_Ok in Hset as (Hset & _ & Hsame).
  split; [done|]. split; [done|]. split; [done|]. split; [done|]. split; [done|]. split; [done|]. split; [done|].
  split; [done|]. split; [rewrite Hplan; congruence|]. split; [done|].
  split; [apply set_size_NoDup; rewrite length_map; done|]. split.
  - eapply each_run_Ok; [apply validate_run_linkage_Ok|eassumption].
  - intros a b. by apply validate_groups_same.
Qed.

(** ** The protocol that is built *)
Lemma run_plans_agree : buildRunPlan = independentlyDeriveExpectedRunPlan.
Proof. vm_compute. reflexivity. Qed.

Definition plan_ids_distinct (plan : result (list RunRecord)) : bool :=
  match plan with
  | Ok plan =>
      bool_decide (length plan = 588%nat)
      && bool_decide (size (list_to_map (map (fun x => (x, tt)) (map rr_runId plan)) : gmap string unit)
                      = length (map rr_runId plan))
  | Throw _ => false
  end.

Lemma run_plan_ids : exists plan, buildRunPlan = Ok plan /\ length plan = 588%nat /\ NoDup (map rr_runId plan).
Proof.
  assert (E : plan_ids_distinct buildRunPlan = true) by (vm_compute; reflexivity).
  destruct buildRunPlan as [plan|]; [|discriminate E]. cbn [plan_ids_distinct] in E. bool_facts.
  exists plan. split; [reflexivity|]. split; [assumption|]. apply map_size_NoDup. assumption.
Qed.

(** The checks that look at the built protocol only through evaluation. *)
Definition validated_parts (p : Protocol) : result unit :=
  invariant (bool_decide (pr_protocolVersion p = "sg4-benchmark-protocol/v2")) "protocol version drift" ;;
  validate_catalogue p ;;
  each_closed validate_circuit (pr_circuits p) EXPECTED_CIRCUITS ;;
  validate_authorities ;;
  validate_winner_catalogue p ;;
  validate_continuation (pr_continuationSemanticSequence p) ;;
  validate_setups [] (pr_winnerInstances p) ;;
  each_run (validate_run_linkage (pr_winnerInstances p)) (pr_runPlan p) ;;
  validate_groups (runGroups (pr_runPlan p)).

#[local] Opaque BUILDER_CIRCUITS BUILDER_WINNER_INSTANCES CONTINUATION_SEMANTIC_SEQUENCE buildRunPlan
  independentlyDeriveExpectedRunPlan.

Lemma built_parts : exists p, buildProtocol = Ok p /\ buildRunPlan = Ok (pr_runPlan p) /\ validated_parts p = Ok tt.
Proof.
  assert (E : match buildProtocol with Ok p => validated_parts p | Throw e => Throw e end = Ok tt) by (vm_compute; reflexivity).
  destruct buildProtocol as [p|] eqn:Ep; [|discriminate E]. exists p. split; [reflexivity|]. split; [|exact E].
  unfold buildProtocol in Ep. do 4 (apply result_bind_Ok in Ep as (? & ? & Ep)). injection Ep as <-. assumption.
Qed.

Ltac next_check E := apply result_bind_Ok in E as ([] & -> & E); cbn [mbind result_bind].

Lemma validate_of_parts p plan :
  validated_parts p = Ok tt -> independentlyDeriveExpectedRunPlan = Ok plan -> pr_runPlan p = plan ->
  length plan = 588%nat -> NoDup (map rr_runId plan) -> validateProtocol p = Ok tt.
Proof.
  intros E Hplan <- Hlen Hnd. unfold validateProtocol, validate_run_plan. rewrite Hplan. unfold validated_parts in E.
  do 7 next_check E. rewrite !sg4_invariant_pass.
  - next_check E. exact E.
  - apply bool_decide_eq_true. apply set_size_NoDup in Hnd. rewrite Hnd. apply length_map.
  - apply bool_decide_eq_true. reflexivity.
  - apply bool_decide_eq_true. reflexivity.
  - apply bool_decide_eq_true. exact Hlen.
Qed.

(** the protocol that the file builds passes its own validation: the plan made from the
    circuits, the winner instances and the allocations is, run for run, the one derived
    from the closed tables; 588 runs, each with its own identifier. *)
Theorem deriveProtocol_valid :
  exists p, deriveProtocol = Ok p /\ buildRunPlan = Ok (pr_runPlan p) /\
    independentlyDeriveExpectedRunPlan = Ok (pr_runPlan p) /\ length (pr_runPlan p) = 588%nat /\
    NoDup (map rr_runId (pr_runPlan p)).
Proof.
  destruct built_parts as (p & Ep & Eplan & E). destruct run_plan_ids as (plan & Eplan' & Hlen & Hnd).
  rewrite Eplan in Eplan'. injection Eplan' as <-. pose proof run_plans_agree as Hagree. rewrite Eplan in Hagree.
  exists p. split; [|split; [exact Eplan|split; [symmetry; exact Hagree|split; [exact Hlen|exact Hnd]]]].
  unfold deriveProtocol. rewrite Ep. cbn [mbind result_bind].
  rewrite (validate_of_parts p _ E (eq_sym Hagree) eq_refl Hlen Hnd). reflexivity.
Qed.

Lemma validateProtocol_pins_witness :
  exists p, validateProtocol p = Ok tt /\ pr_protocolVersion p = "sg4-benchmark-protocol/v2".
Proof.
  destruct built_parts as (p & Ep & Eplan & E). destruct run_plan_ids as (plan & Eplan' & Hlen & Hnd).
  rewrite Eplan in Eplan'. injection Eplan' as <-. pose proof run_plans_agree as Hagree. rewrite Eplan in Hagree.
  pose proof (validate_of_parts p _ E (eq_sym Hagree) eq_refl Hlen Hnd) as Hv.
  exists p. split; [exact Hv|]. exact (proj1 (validateProtocol_pins p Hv)).
Defined.
