(* ===== verification/Sg5Graph.v ===== *)
(** * Values as a program meets them: frontend/lib/sg5/protocol.ts, [assertSafeGraph]

    A value of unknown origin is a graph: objects have addresses, may be shared and may
    be cyclic, their properties may be accessors and their keys symbols.  The heap lists
    the objects by address.  The guard [assertSafeGraph] walks the graph; the theorem
    says that it accepts exactly the finite trees of plain data, and that it answers what the
    source's recursion, which has no bound, answers: the recursion ends.  Proxies, sparse arrays and arrays that carry further properties
    are left out. *)
From Stdlib Require Import ZArith Lia Ascii.
From stdpp Require Import base option list relations strings.
From S2P Require Import Prelude.

(** ** The heap *)
Inductive Value : Type :=
| VNull
| VUndefined
| VBoolean (b : bool)
| VString (s : string)
| VOther  (* a number, a bigint, a symbol, a function *)
| VObject (address : nat).
#[export] Instance Value_eq_dec : EqDecision Value.
Proof. solve_decision. Defined.

Inductive Key : Type := key_string (name : string) | key_symbol (id : nat).
#[export] Instance Key_eq_dec : EqDecision Key.
Proof. solve_decision. Defined.

(** An own property: a value, enumerable or not, or an accessor. *)
Inductive Descriptor : Type := data_property (enumerable : bool) (value : Value) | accessor_property.

(** What the guard asks of an object: whether it is an [ArrayBuffer], a view, a [Map],
    a [Set], an [Error] or a [Promise]; whether it is an array; whether its prototype
    is the built-in one. *)
Inductive Node : Type :=
| raw_object
| array_object (built_in : bool) (items : list Value)
| other_object (built_in : bool) (properties : list (Key * Descriptor)).
Notation heap := (list Node) (only parsing).

(** [for (const x of xs) check(x)] *)
Fixpoint each {A} (check : A -> result unit) (xs : list A) : result unit :=
  match xs with
  | [] => Ok tt
  | x :: xs' => check x ;; each check xs'
  end.

(** [assert] of the file. *)
Definition assert (condition : bool) (message : string) : result unit := fail_if (negb condition) message.

(** ** The guard

    The set [seen] holds the objects on the path from the root: an object is deleted
    from it when its walk returns. *)
Definition safe_property (walk : Value -> string -> result unit) (path : string) (property : Key * Descriptor) : result unit :=
  match property.1 with
  | key_symbol _ => throw_new (path +:+ " has symbol")
  | key_string key =>
      match property.2 with
      | data_property true value => walk value (path +:+ "." +:+ key)
      | _ => throw_new (path +:+ "." +:+ key +:+ " accessor")
      end
  end.

Fixpoint safe_at (fuel : nat) (h : heap) (value : Value) (path : string) (seen : list nat) : result unit :=
  match value with
  | VNull | VString _ | VBoolean _ => Ok tt
  | VUndefined | VOther => throw_new (path +:+ " contains forbidden type")
  | VObject a =>
      match fuel, h !! a with
      | S fuel', Some node =>
          assert (bool_decide (a ∉ seen)) (path +:+ " contains a cycle") ;;
          match node with
          | raw_object => throw_new (path +:+ " contains raw material")
          | array_object built_in items =>
              assert built_in (path +:+ " array prototype") ;;
              each (fun item => safe_at fuel' h item (path +:+ "[]") (a :: seen)) items
          | other_object built_in properties =>
              assert built_in (path +:+ " must be plain") ;;
              each (safe_property (fun v p => safe_at fuel' h v p (a :: seen)) path) properties
          end
      | _, _ => throw_new "unreachable"
      end
  end.

(** No path visits more objects than the heap has. *)
Definition assertSafeGraph (h : heap) (value : Value) : result unit := safe_at (S (length h)) h value "$" [].

(** * Properties *)
Lemma each_Ok {A} (check : A -> result unit) xs : each check xs = Ok tt <-> forall x, x ∈ xs -> check x = Ok tt.
Proof.
  induction xs as [|x xs IH]; cbn [each]; [split; [by intros _ x []%elem_of_nil|done]|].
  split.
  - intros ([] & Hx & H)%result_bind_Ok y [->|Hy]%elem_of_cons; [done|by apply IH].
  - intros H. rewrite (H x (list_elem_of_here _ _)). cbn. apply IH. intros y Hy. apply H. by right.
Qed.

Lemma assert_Ok c message u : assert c message = Ok u <-> c = true.
Proof. unfold assert. rewrite fail_if_Ok. by destruct c. Qed.

Lemma assert_true {B} c message (k : unit -> result B) : c = true -> (assert c message ≫= k) = k tt.
Proof. by intros ->. Qed.

(** A finite tree of plain data: null, texts, booleans, and arrays and objects of the
    built-in prototypes whose properties are enumerable values under text keys. *)
Inductive plain (h : heap) : Value -> Prop :=
| plain_null : plain h VNull
| plain_boolean b : plain h (VBoolean b)
| plain_string s : plain h (VString s)
| plain_array a items :
    h !! a = Some (array_object true items) -> (forall v, v ∈ items -> plain h v) -> plain h (VObject a)
| plain_object a properties :
    h !! a = Some (other_object true properties) ->
    (forall key d, (key, d) ∈ properties -> exists name v, key = key_string name /\ d = data_property true v) ->
    (forall key v, (key, data_property true v) ∈ properties -> plain h v) -> plain h (VObject a).

(** The objects an object holds. *)
Definition holds (h : heap) (a b : nat) : Prop :=
  (exists p items, h !! a = Some (array_object p items) /\ VObject b ∈ items) \/
  (exists p properties key, h !! a = Some (other_object p properties) /\ (key, data_property true (VObject b)) ∈ properties).

Lemma safe_property_Ok walk path key d :
  safe_property walk path (key, d) = Ok tt <->
  exists name v, key = key_string name /\ d = data_property true v /\ walk v (path +:+ "." +:+ name) = Ok tt.
Proof.
  unfold safe_property. cbn. destruct key as [name|]; [|split; [done|naive_solver]].
  destruct d as [[] v|]; split; naive_solver.
Qed.

Lemma safe_at_plain fuel h value path seen : safe_at fuel h value path seen = Ok tt -> plain h value.
Proof.
  revert value path seen. induction fuel as [|fuel IH]; intros value path seen E;
    destruct value as [| |b|s| |a]; try done; try (by constructor); cbn [safe_at] in E.
  destruct (h !! a) as [node|] eqn:Ea; [|done]. apply result_bind_Ok in E as ([] & _ & E).
  destruct node as [|p items|p properties]; [done| |]; apply result_bind_Ok in E as ([] & ->%assert_Ok & E).
  - eapply plain_array; [done|]. intros v Hv. eapply IH. by apply (proj1 (each_Ok _ _) E).
  - pose proof (proj1 (each_Ok _ _) E) as H. eapply plain_object; [done| |].
    + intros key d Hin. apply H, safe_property_Ok in Hin. naive_solver.
    + intros key v Hin. apply H, safe_property_Ok in Hin as (name & w & _ & [= <-] & Hw). by eapply IH.
Qed.

Lemma plain_acyclic h a : plain h (VObject a) -> Acc (fun b a => holds h a b) a.
Proof.
  intros H. remember (VObject a) as v eqn:Ev. revert a Ev.
  induction H as [| | |a items Ha _ IH|a properties Ha _ _ IH]; intros a' [= <-]; constructor; intros b Hb.
  - destruct Hb as [(p & items' & Ha' & Hin)|(p & props & key & Ha' & _)]; simplify_eq. by eapply IH.
  - destruct Hb as [(p & items' & Ha' & _)|(p & props & key & Ha' & Hin)]; simplify_eq. by eapply IH.
Qed.

Lemma acyclic_path h a : Acc (fun b a => holds h a b) a -> ~ tc (holds h) a a.
Proof.
  induction 1 as [a _ IH]. intros H. inversion H as [? b Hb|? b ? Hab Hba]; simplify_eq.
  - by eapply (IH a), H.
  - eapply (IH b Hab), tc_r; done.
Qed.

(** The objects on a path from the root: all different, all in the heap. *)
Definition on_path (h : heap) (seen : list nat) : Prop := NoDup seen /\ forall a, a ∈ seen -> (a < length h)%nat.

Lemma on_path_cons h a seen : on_path h seen -> a ∉ seen -> (a < length h)%nat -> on_path h (a :: seen).
Proof. intros [Hnd Hlt] Ha Hl. split; [by constructor|]. intros b [->|Hb]%elem_of_cons; auto. Qed.

Lemma on_path_length h seen : on_path h seen -> (length seen <= length h)%nat.
Proof.
  intros [Hnd Hlt]. replace (length h) with (length (seq 0 (length h))) by apply length_seq. apply submseteq_length, NoDup_submseteq; [done|].
  intros b Hb. apply elem_of_seq. apply Hlt in Hb. lia.
Qed.

(** The walk from an object on a path of [holds] steps. *)
Lemma plain_safe_at fuel h value path seen :
  plain h value -> (fuel + length seen = S (length h))%nat -> on_path h seen ->
  (forall a b, a ∈ seen -> value = VObject b -> tc (holds h) a b) ->
  safe_at fuel h value path seen = Ok tt.
Proof.
  intros Hp. revert fuel path seen. induction Hp as [|b|s|a items Ha Hall IH|a properties Ha Hkeys Hall IH];
    intros fuel path seen Hf Hseen Hpath; try by destruct fuel.
  all: assert (Hnew : a ∉ seen) by (intros Hin; refine (acyclic_path h a (plain_acyclic h a _) (Hpath a a Hin eq_refl));
    first [by apply (plain_array h a items)|by apply (plain_object h a properties)]).
  all: assert (Hnext : on_path h (a :: seen)) by (apply on_path_cons; [done|done|by eapply lookup_lt_Some]).
  all: destruct fuel as [|fuel]; [pose proof (on_path_length _ _ Hseen); lia|].
  all: cbn [safe_at]; rewrite Ha, assert_true by (by apply bool_decide_eq_true); cbn [assert fail_if negb mbind result_bind];
    apply each_Ok.
  - intros v Hv. apply IH; [done|cbn; lia|done|]. intros b c Hb ->.
    assert (Hc : holds h a c) by (left; by exists true, items).
    apply elem_of_cons in Hb as [->|Hb]; [by apply tc_once|eapply tc_r; [by apply Hpath|done]].
  - intros [key d] Hin. destruct (Hkeys key d Hin) as (name & v & -> & ->). apply safe_property_Ok.
    exists name, v. split; [done|]. split; [done|]. eapply IH; [done|cbn; lia|done|]. intros b c Hb ->.
    assert (Hc : holds h a c) by (right; by exists true, properties, (key_string name)).
    apply elem_of_cons in Hb as [->|Hb]; [by apply tc_once|eapply tc_r; [by apply Hpath|done]].
Qed.

Lemma assertSafeGraph_plain h value : assertSafeGraph h value = Ok tt <-> plain h value.
Proof.
  split; [apply safe_at_plain|]. intros Hp. apply plain_safe_at; [done|cbn; lia| |by intros a b ?%elem_of_nil].
  split; [constructor|by intros a ?%elem_of_nil].
Qed.

(** ** The recursion without a bound

    [assertSafeGraph] as the source writes it, as a relation between the arguments and what
    the call returns or throws: a call that never returns is related to nothing. *)
Inductive each_run {A} (check : A -> result unit -> Prop) : list A -> result unit -> Prop :=
| each_done : each_run check [] (Ok tt)
| each_throws x xs e : check x (Throw e) -> each_run check (x :: xs) (Throw e)
| each_goes_on x xs r : check x (Ok tt) -> each_run check xs r -> each_run check (x :: xs) r.

Inductive property_run (walk : Value -> string -> result unit -> Prop) (path : string) : Key * Descriptor -> result unit -> Prop :=
| property_symbol id d : property_run walk path (key_symbol id, d) (throw_new (path +:+ " has symbol"))
| property_accessor key d :
    (forall v, d <> data_property true v) -> property_run walk path (key_string key, d) (throw_new (path +:+ "." +:+ key +:+ " accessor"))
| property_value key v r :
    walk v (path +:+ "." +:+ key) r -> property_run walk path (key_string key, data_property true v) r.

Inductive safe_run (h : heap) : Value -> string -> list nat -> result unit -> Prop :=
| run_leaf value path seen :
    value = VNull \/ (exists s, value = VString s) \/ (exists b, value = VBoolean b) -> safe_run h value path seen (Ok tt)
| run_type value path seen :
    value = VUndefined \/ value = VOther -> safe_run h value path seen (throw_new (path +:+ " contains forbidden type"))
| run_cycle a path seen : a ∈ seen -> safe_run h (VObject a) path seen (throw_new (path +:+ " contains a cycle"))
| run_raw a path seen :
    a ∉ seen -> h !! a = Some raw_object -> safe_run h (VObject a) path seen (throw_new (path +:+ " contains raw material"))
| run_array_prototype a items path seen :
    a ∉ seen -> h !! a = Some (array_object false items) ->
    safe_run h (VObject a) path seen (throw_new (path +:+ " array prototype"))
| run_array a items path seen r :
    a ∉ seen -> h !! a = Some (array_object true items) ->
    each_run (fun item => safe_run h item (path +:+ "[]") (a :: seen)) items r -> safe_run h (VObject a) path seen r
| run_prototype a properties path seen :
    a ∉ seen -> h !! a = Some (other_object false properties) ->
    safe_run h (VObject a) path seen (throw_new (path +:+ " must be plain"))
| run_object a properties path seen r :
    a ∉ seen -> h !! a = Some (other_object true properties) ->
    each_run (property_run (fun v p => safe_run h v p (a :: seen)) path) properties r -> safe_run h (VObject a) path seen r.

(** Every address is that of an object. *)
Definition allocated (h : heap) (value : Value) : Prop := match value with VObject a => (a < length h)%nat | _ => True end.
Definition node_allocated (h : heap) (node : Node) : Prop :=
  match node with
  | raw_object => True
  | array_object _ items => forall v, v ∈ items -> allocated h v
  | other_object _ properties => forall key v, (key, data_property true v) ∈ properties -> allocated h v
  end.
Definition well_formed (h : heap) : Prop := forall a node, h !! a = Some node -> node_allocated h node.

Lemma each_run_iff {A} (run : A -> result unit -> Prop) (check : A -> result unit) xs :
  (forall x, x ∈ xs -> forall r, run x r <-> r = check x) -> forall r, each_run run xs r <-> r = each check xs.
Proof.
  induction xs as [|x xs IH]; intros Hx r; cbn [each]; [split; [by inversion 1|intros ->; constructor]|].
  assert (Hhead := Hx x (list_elem_of_here _ _)). assert (Htail := IH (fun y Hy => Hx y (list_elem_of_further _ _ _ Hy))). split.
  - inversion 1 as [|? ? e He|? ? ? Hok Hrest]; subst; [apply Hhead in He; by rewrite <- He|].
    apply Hhead in Hok. rewrite <- Hok. by apply Htail.
  - intros ->. destruct (check x) as [[]|e]; cbn; [apply each_goes_on; [by apply Hhead|by apply Htail]|].
    apply each_throws. by apply Hhead.
Qed.

Lemma property_run_iff (run : Value -> string -> result unit -> Prop) (walk : Value -> string -> result unit) path property :
  (forall v, property.2 = data_property true v -> forall p r, run v p r <-> r = walk v p) ->
  forall r, property_run run path property r <-> r = safe_property walk path property.
Proof.
  intros Hv r. destruct property as [[key|id] d]; cbn in *.
  - destruct d as [[] v|].
    + split; [inversion 1 as [|? ? Hn|? ? ? Hw]; subst; [by destruct (Hn v)|by apply Hv]|]. intros ->. constructor. by apply Hv.
    + split; [by inversion 1|]. intros ->. by constructor.
    + split; [by inversion 1|]. intros ->. by constructor.
  - split; [by inversion 1|]. intros ->. constructor.
Qed.

Lemma safe_run_seen h a path seen r : a ∈ seen -> safe_run h (VObject a) path seen r <-> r = throw_new (path +:+ " contains a cycle").
Proof. intros Ha. split; [inversion 1; naive_solver|]. intros ->. by constructor. Qed.

Lemma safe_run_object h a node path seen r :
  h !! a = Some node -> a ∉ seen ->
  safe_run h (VObject a) path seen r <->
  match node with
  | raw_object => r = throw_new (path +:+ " contains raw material")
  | array_object false _ => r = throw_new (path +:+ " array prototype")
  | array_object true items => each_run (fun item => safe_run h item (path +:+ "[]") (a :: seen)) items r
  | other_object false _ => r = throw_new (path +:+ " must be plain")
  | other_object true properties => each_run (property_run (fun v p => safe_run h v p (a :: seen)) path) properties r
  end.
Proof.
  intros En Ha. split.
  - inversion 1 as [? ? ? [?|[[? ?]|[? ?]]]|? ? ? [?|?]| | | | | | ]; by simplify_eq.
  - destruct node as [|[] items|[] properties]; try intros ->; eauto using safe_run.
Qed.

Lemma safe_at_run h fuel value path seen :
  well_formed h -> allocated h value -> (fuel + length seen = S (length h))%nat -> on_path h seen ->
  forall r, safe_run h value path seen r <-> r = safe_at fuel h value path seen.
Proof.
  intros Hwf. revert value path seen. induction fuel as [|fuel IH]; intros value path seen Hv Hf Hseen r.
  { pose proof (on_path_length _ _ Hseen). lia. }
  destruct value as [| |b|s| |a]; cbn [safe_at];
    try (split; [inversion 1; naive_solver|intros ->; constructor; naive_solver]).
  destruct (lookup_lt_is_Some_2 h a Hv) as [node En]. rewrite En. specialize (Hwf a node En) as Hnode.
  case_bool_decide as Ha; [|by rewrite safe_run_seen].
  assert (Hnext : on_path h (a :: seen)) by (by apply on_path_cons).
  assert (Hwalk : forall v p r, allocated h v -> safe_run h v p (a :: seen) r <-> r = safe_at fuel h v p (a :: seen)).
  { intros v p r' Hal. apply IH; [done|cbn; lia|done]. }
  rewrite (safe_run_object _ _ _ _ _ _ En Ha). cbn [assert negb fail_if mbind result_bind].
  destruct node as [|[] items|[] properties]; cbn [assert negb fail_if mbind result_bind]; try done.
  - apply each_run_iff. intros v Hin r'. by apply Hwalk, Hnode.
  - apply each_run_iff. intros [key d] Hin r'. apply property_run_iff. cbn. intros v -> p r''. by eapply Hwalk, Hnode.
Qed.

(** C34: the guard of values of unknown origin decides plain data, and ends.  It accepts
    exactly the finite trees of texts, booleans, nulls, built-in arrays and built-in
    objects without symbols, accessors or hidden properties.  And on every graph of
    objects, shared or cyclic, what it answers is what the source's recursion, which has
    no bound, returns or throws: the recursion ends, and the bound is never met. *)
Theorem assertSafeGraph_iff h value :
  (assertSafeGraph h value = Ok tt <-> plain h value) /\
  (well_formed h -> allocated h value -> forall r, safe_run h value "$" [] r <-> r = assertSafeGraph h value).
Proof.
  split; [apply assertSafeGraph_plain|]. intros Hwf Hv. apply safe_at_run; [done|done|cbn; lia|].
  split; [constructor|by intros a ?%elem_of_nil].
Qed.

(** A cyclic graph: the recursion ends on it. *)
Definition sample_cycle : heap :=
  [other_object true [(key_string "a", data_property true (VObject 1))]; array_object true [VObject 0]].

(** A shared object is accepted, a cycle is not. *)
Example safe_shared :
  assertSafeGraph [other_object true [(key_string "a", data_property true (VObject 1));
                                      (key_string "b", data_property true (VObject 1))];
                   array_object true [VString "x"]] (VObject 0) = Ok tt.
Proof. reflexivity. Qed.
Example safe_cycle :
  assertSafeGraph sample_cycle (VObject 0) = throw_new "$.a[] contains a cycle".
Proof. reflexivity. Qed.

Lemma assertSafeGraph_iff_witness : safe_run sample_cycle (VObject 0) "$" [] (throw_new "$.a[] contains a cycle").
Proof.
  apply (proj2 (assertSafeGraph_iff sample_cycle (VObject 0))); [|cbn; lia|reflexivity].
  intros [|[|a]] node E; [| |discriminate E]; injection E as <-; cbn.
  - intros key v [[= _ ->]|[]%elem_of_nil]%elem_of_cons. cbn. lia.
  - intros v [->|[]%elem_of_nil]%elem_of_cons. cbn. lia.
Defined.
