(* ===== verification/Sg5Protocol.v ===== *)
(** * The browser capability probe: frontend/lib/sg5/protocol.ts

    The results of the probe of the encryption SDK in a browser: which network
    addresses it may contact and how each exchange is classified, the sanitised result
    built from an observation, its validation field by field, the observations of the
    test harness attached to it, and the aggregate of several runs.  Results are objects
    of a heap ([Sg5Graph]): validation reads what is there, whatever its type.  The URL
    parser of the platform is a class. *)
From Stdlib Require Import ZArith Lia Ascii QArith Qround.
From stdpp Require Import base option list sets strings.
From S2P Require Import Prelude Sg5Graph.
Local Open Scope Z_scope.

Definition SG5_PROTOCOL_VERSION : string := "sg5-browser-capability-v2".
Definition SG5_LIVE_ACK : string := "I_UNDERSTAND_THIS_CONTACTS_SEPOLIA".
Definition SG5_PAGE_ENABLE : string := "ENABLED_LOCAL_ONLY".

Record AssetOriginAuthority := {
  dynamicAssetOriginsResolved : bool;
  publicKeyAssetOrigin : option string; publicKeyAssetPathPrefix : option string;
  crsAssetOrigin : option string; crsAssetPathPrefix : option string; crsAssetRequired : bool
}.

Definition SG5_ASSET_ORIGIN_AUTHORITY : AssetOriginAuthority := {|
  dynamicAssetOriginsResolved := true;
  publicKeyAssetOrigin := Some "https://zama-mpc-testnet-public-efd88e2b.s3.eu-west-1.amazonaws.com";
  publicKeyAssetPathPrefix := Some "/PUB-p1/PublicKey/";
  crsAssetOrigin := Some "https://zama-mpc-testnet-public-efd88e2b.s3.eu-west-1.amazonaws.com";
  crsAssetPathPrefix := Some "/PUB-p1/CRS/";
  crsAssetRequired := true
|}.

(** The fields of [SG5_LOCKED] and [SG5_ORIGINS] that the code reads. *)
Definition SG5_chainId : Z := 11155111.
Definition SG5_contractAddress : string := "0xfc672ca5846896A7A135943E79dd11283c38FE78".
Definition origin_localhost : string := "http://localhost:3000".
Definition origin_relayer : string := "https://relayer.testnet.zama.org".
Definition origin_chainRpc : string := "https://ethereum-sepolia-rpc.publicnode.com".

Definition probeRouteEnabled (nodeEnvironment pageFlag : option string) (productionGate : string) : bool :=
  bool_decide (pageFlag = Some SG5_PAGE_ENABLE) &&
  (negb (bool_decide (nodeEnvironment = Some "production")) || bool_decide (productionGate = "1")).

Definition liveModeAcknowledged (value : option string) : bool := bool_decide (value = Some SG5_LIVE_ACK).

Inductive ProbeExecutionMode : Type := OFFLINE_STRUCTURAL | LIVE_SEPOLIA.
Definition mode_text (m : ProbeExecutionMode) : string :=
  match m with OFFLINE_STRUCTURAL => "OFFLINE_STRUCTURAL" | LIVE_SEPOLIA => "LIVE_SEPOLIA" end.

Inductive OriginClassification : Type :=
  LOCALHOST | OFFICIAL_RELAYER | OFFICIAL_CHAIN_RPC | OFFICIAL_PUBLIC_KEY_ASSET | OFFICIAL_CRS_ASSET.
Inductive RequestCategory : Type :=
  LOCAL_FRONTEND_ASSET | SEPOLIA_RPC | RELAYER_KEYURL_METADATA | RELAYER_RUNTIME | PUBLIC_KEY_ASSET | CRS_ASSET.
Inductive StatusCategory : Type := SUCCESS_2XX | REDIRECT_3XX | CLIENT_ERROR_4XX | SERVER_ERROR_5XX | NETWORK_FAILURE.
Inductive RedirectClassification : Type :=
  redirect_NONE | ALLOWED_SAME_ORIGIN | ALLOWED_REGISTERED_ORIGIN | redirect_FORBIDDEN.
#[export] Instance OriginClassification_eq_dec : EqDecision OriginClassification.
Proof. solve_decision. Defined.
#[export] Instance StatusCategory_eq_dec : EqDecision StatusCategory.
Proof. solve_decision. Defined.
#[export] Instance RedirectClassification_eq_dec : EqDecision RedirectClassification.
Proof. solve_decision. Defined.

Definition origin_text (o : OriginClassification) : string :=
  match o with
  | LOCALHOST => "LOCALHOST" | OFFICIAL_RELAYER => "OFFICIAL_RELAYER" | OFFICIAL_CHAIN_RPC => "OFFICIAL_CHAIN_RPC"
  | OFFICIAL_PUBLIC_KEY_ASSET => "OFFICIAL_PUBLIC_KEY_ASSET" | OFFICIAL_CRS_ASSET => "OFFICIAL_CRS_ASSET"
  end.
Definition category_text (c : RequestCategory) : string :=
  match c with
  | LOCAL_FRONTEND_ASSET => "LOCAL_FRONTEND_ASSET" | SEPOLIA_RPC => "SEPOLIA_RPC"
  | RELAYER_KEYURL_METADATA => "RELAYER_KEYURL_METADATA" | RELAYER_RUNTIME => "RELAYER_RUNTIME"
  | PUBLIC_KEY_ASSET => "PUBLIC_KEY_ASSET" | CRS_ASSET => "CRS_ASSET"
  end.

Record SafeNetworkObservation := {
  no_originClassification : OriginClassification; no_requestCategory : RequestCategory;
  no_statusCategory : StatusCategory; no_durationMilliseconds : string;
  no_redirectClassification : RedirectClassification; no_success : bool
}.

(** A duration is a floating-point number. *)
Inductive Duration : Type := finite (q : Q) | not_a_number | infinite (negative : bool).

Record NetworkResponseObservationInput := {
  ni_requestUrl : string; ni_status : js_number; ni_durationMilliseconds : Duration;
  ni_redirectedToUrl : option string; ni_redirectedFromUrl : option string
}.

(** ** Assertions *)
Definition nonnegativeInteger (value : js_number) : result string :=
  match value with
  | JInt z => assert (Number_isSafeInteger value && (0 <=? z)) "unsafe integer" ;; Ok (Z_toString z)
  | JNonInteger => throw_new "unsafe integer"
  end.
Definition is_decimal (value : Value) : bool := match value with VString s => matches_decimal s | _ => false end.
Definition is_hex32 (value : Value) : bool := match value with VString s => matches_hex 64 s | _ => false end.
Definition assertDecimal (value : Value) (field : string) : result unit :=
  assert (is_decimal value) ("invalid decimal: " +:+ field).
Definition is_boolean (value : Value) : bool := match value with VBoolean _ => true | _ => false end.
Definition assertBoolean (value : Value) (field : string) : result unit :=
  assert (is_boolean value) ("invalid boolean: " +:+ field).
Definition is_enum (value : Value) (allowed : list string) : bool :=
  match value with VString s => bool_decide (s ∈ allowed) | _ => false end.
Definition assertEnum (value : Value) (allowed : list string) (field : string) : result unit :=
  assert (is_enum value allowed) ("invalid " +:+ field).

(** ** Reading the heap *)
(** [Reflect.ownKeys(value)] *)
Definition ownKeys (h : heap) (value : Value) : result (list Key) :=
  match value with
  | VObject a =>
      match h !! a with
      | Some (array_object _ items) =>
          Ok (map (fun i => key_string (Z_toString (Z.of_nat i))) (seq 0 (length items)) ++ [key_string "length"])
      | Some (other_object _ properties) => Ok (map fst properties)
      | _ => Ok []
      end
  | _ => Throw (JsError true "TypeError" None "Reflect.ownKeys called on non-object")
  end.

Definition is_text_key (key : Key) : bool := match key with key_string _ => true | key_symbol _ => false end.

Definition assertExactKeys (h : heap) (value : Value) (expected : list string) (field : string) : result unit :=
  keys ← ownKeys h value;
  assert (forallb is_text_key keys) (field +:+ " has symbols") ;;
  assert ((length keys =? length expected)%nat && forallb (fun key => bool_decide (key_string key ∈ keys)) expected)
    (field +:+ " fields drifted").

(** [value[key]] where [key] is an own property that holds a value. *)
Definition own (properties : list (Key * Descriptor)) (key : string) : Value :=
  match map_get (key_string key) properties with Some (data_property _ v) => v | _ => VUndefined end.
Definition get (h : heap) (value : Value) (key : string) : Value :=
  match value with
  | VObject a => match h !! a with Some (other_object _ properties) => own properties key | _ => VUndefined end
  | _ => VUndefined
  end.

(** [Array.isArray(value)] and its elements. *)
Definition items_of (h : heap) (value : Value) : option (list Value) :=
  match value with
  | VObject a => match h !! a with Some (array_object _ items) => Some items | _ => None end
  | _ => None
  end.
Definition is_object (h : heap) (value : Value) : bool :=
  match value with
  | VObject a => match h !! a with Some (array_object _ _) => false | Some _ => true | None => false end
  | _ => false
  end.

Definition is_true (value : Value) : bool := bool_decide (value = VBoolean true).
Definition is_text (value : Value) (text : string) : bool := bool_decide (value = VString text).
Definition truthy (value : Value) : bool :=
  match value with
  | VNull | VUndefined | VBoolean false | VString EmptyString => false
  | _ => true
  end.

(** ** The fields *)
Definition RESULT_KEYS : list string := [
  "schema"; "protocolVersion"; "status"; "executionMode"; "adapterClassification"; "blockerClassification";
  "failureClassification"; "browserEngine"; "browserVersion"; "chainId"; "observedChainId"; "sdkPackage";
  "sdkVersion"; "reactSdkPackage"; "reactSdkVersion"; "providerReady"; "walletConnected"; "wasmRuntimeInitialized";
  "wasmProofMechanism"; "wasmInstantiationCount"; "wasmCriticalSections"; "sdkInstanceCreated";
  "publicKeyRetrieved"; "publicKeySourceClassification"; "encryptedInputBuilderCreated"; "encryptedWidth";
  "plaintextClassification"; "encryptionCompleted"; "encryptedPayloadCount"; "encryptedPayloadNonempty";
  "inputProofPresent"; "transactionSubmitted"; "transactionConfirmed"; "transactionStatus"; "transactionHash";
  "transactionBlockNumber"; "resultHandleRead"; "authorizedDecryptionCompleted"; "authorizedPlaintextMatched";
  "unauthorizedDecryptionAttempted"; "unauthorizedDecryptionRejected"; "forbiddenMaterialRetained";
  "consoleErrorCount"; "pageErrorCount"; "unhandledRejectionCount"; "forbiddenNetworkRequestCount";
  "durationMilliseconds"; "networkObservations"; "finalVerdict"].
Definition AGGREGATE_KEYS : list string := [
  "schema"; "protocolVersion"; "status"; "executionMode"; "requiredColdContexts"; "passedColdContexts";
  "excludedMockContexts"; "wrongNetworkScenarioPassed"; "productionBuildPassed"; "contexts"; "repeatContexts"].
Definition NETWORK_KEYS : list string := [
  "originClassification"; "requestCategory"; "statusCategory"; "durationMilliseconds"; "redirectClassification";
  "success"].
Definition WASM_KEYS : list string := [
  "criticalSectionClassification"; "successfulInstantiateCount"; "successfulInstantiateStreamingCount";
  "failedCallCount"].
Definition BOOLEAN_KEYS : list string := [
  "providerReady"; "walletConnected"; "wasmRuntimeInitialized"; "sdkInstanceCreated"; "publicKeyRetrieved";
  "encryptedInputBuilderCreated"; "encryptionCompleted"; "encryptedPayloadNonempty"; "inputProofPresent";
  "transactionSubmitted"; "transactionConfirmed"; "resultHandleRead"; "authorizedDecryptionCompleted";
  "authorizedPlaintextMatched"; "unauthorizedDecryptionAttempted"; "unauthorizedDecryptionRejected";
  "forbiddenMaterialRetained"].
Definition DECIMAL_KEYS : list string := [
  "wasmInstantiationCount"; "encryptedPayloadCount"; "consoleErrorCount"; "pageErrorCount";
  "unhandledRejectionCount"; "forbiddenNetworkRequestCount"; "durationMilliseconds"].

(** ** Verdicts on a result *)
Definition capabilityComplete (h : heap) (result : Value) : bool :=
  let at_ := get h result in
  is_text (at_ "observedChainId") "11155111" &&
  is_true (at_ "providerReady") &&
  is_true (at_ "walletConnected") &&
  is_true (at_ "wasmRuntimeInitialized") &&
  is_true (at_ "sdkInstanceCreated") &&
  is_true (at_ "publicKeyRetrieved") &&
  is_true (at_ "encryptedInputBuilderCreated") &&
  is_true (at_ "encryptionCompleted") &&
  is_text (at_ "encryptedPayloadCount") "1" &&
  is_true (at_ "encryptedPayloadNonempty") &&
  is_true (at_ "inputProofPresent") &&
  is_true (at_ "transactionSubmitted") &&
  is_true (at_ "transactionConfirmed") &&
  is_text (at_ "transactionStatus") "SUCCESS" &&
  is_hex32 (at_ "transactionHash") &&
  is_decimal (at_ "transactionBlockNumber") &&
  is_true (at_ "resultHandleRead") &&
  is_true (at_ "authorizedDecryptionCompleted") &&
  is_true (at_ "authorizedPlaintextMatched") &&
  is_true (at_ "unauthorizedDecryptionAttempted") &&
  is_true (at_ "unauthorizedDecryptionRejected").

Definition errorFree (h : heap) (result : Value) : bool :=
  let at_ := get h result in
  is_text (at_ "consoleErrorCount") "0" && is_text (at_ "pageErrorCount") "0" && is_text (at_ "unhandledRejectionCount") "0" &&
  is_text (at_ "forbiddenNetworkRequestCount") "0" && bool_decide (at_ "forbiddenMaterialRetained" = VBoolean false).

(** ** Network addresses *)
Record URL := {
  url_protocol : string; url_origin : string; url_host : string; url_port : string; url_pathname : string;
  url_username : string; url_password : string; url_search : string; url_hash : string
}.

(** [new URL(text)], which throws on a text that is no address. *)
Class UrlParser := { parse_URL : string -> option URL }.

Definition new_URL `{UrlParser} (text : string) : result URL :=
  match parse_URL text with Some u => Ok u | None => Throw (JsError true "TypeError" None "Invalid URL") end.

Definition empty (text : string) : bool := bool_decide (text = "").

Definition exactOrigin `{UrlParser} (value : option string) : result bool :=
  match value with
  | None => Ok true
  | Some value =>
      u ← new_URL value;
      Ok (bool_decide (url_protocol u = "https:") && bool_decide (url_origin u = value) && bool_decide (url_pathname u = "/") &&
          empty (url_username u) && empty (url_password u) && empty (url_port u) && empty (url_search u) && empty (url_hash u))
  end.

Definition pathMatches (path prefix : string) : bool :=
  bool_decide (path = prefix) || startsWith (if endsWith "/" prefix then prefix else prefix +:+ "/") path.

Definition valid_prefix (prefix : option string) : bool :=
  match prefix with
  | Some prefix => startsWith "/" prefix && negb (includes "?" prefix) && negb (includes "#" prefix)
  | None => false
  end.

Definition validateAuthority `{UrlParser} (authority : AssetOriginAuthority) : result unit :=
  publicKey ← exactOrigin (publicKeyAssetOrigin authority);
  both ← (if (publicKey : bool) then exactOrigin (crsAssetOrigin authority) else Ok false);
  assert both "invalid asset origin" ;;
  each (fun prefix => assert (valid_prefix prefix) "invalid asset prefix")
    [publicKeyAssetPathPrefix authority; crsAssetPathPrefix authority] ;;
  assert (dynamicAssetOriginsResolved authority) "asset origins are unresolved".

(** The pattern of [rawAuthority]: a scheme, a colon and two slashes, then the text up to
    the next slash, question mark or hash sign. *)
Definition is_letter (c : ascii) : bool :=
  let n := nat_of_ascii c in ((65 <=? n) && (n <=? 90) || (97 <=? n) && (n <=? 122))%nat.
Definition scheme_char (c : ascii) : bool :=
  is_letter c || is_digit c || Ascii.eqb c "+" || Ascii.eqb c "." || Ascii.eqb c "-".
Fixpoint authority_text (s : string) : string :=
  match s with
  | String c s' => if Ascii.eqb c "/" || Ascii.eqb c "?" || Ascii.eqb c "#" then "" else String c (authority_text s')
  | EmptyString => ""
  end.
Fixpoint after_scheme (s : string) : option string :=
  match s with
  | String ":" (String "/" (String "/" rest)) => Some (authority_text rest)
  | String c s' => if scheme_char c then after_scheme s' else None
  | EmptyString => None
  end.
Definition rawAuthority (urlText : string) : result string :=
  let match_ := match urlText with String c s => if is_letter c then after_scheme s else None | EmptyString => None end in
  match match_ with Some text => Ok text | None => throw_new "URL authority missing" end.

Record Classification := { cl_origin : OriginClassification; cl_category : RequestCategory }.

Definition classifyNetworkUrl `{UrlParser} (urlText : string) (authority : AssetOriginAuthority) : result Classification :=
  validateAuthority authority ;;
  url ← new_URL urlText;
  assert (empty (url_username url) && empty (url_password url) && empty (url_hash url)) "URL credentials/fragments forbidden" ;;
  asset ← new_URL (default "null" (publicKeyAssetOrigin authority));
  let registered := ["localhost:3000"; "relayer.testnet.zama.org"; "ethereum-sepolia-rpc.publicnode.com"; url_host asset] in
  raw ← rawAuthority urlText;
  assert (bool_decide (raw ∈ registered)) "unregistered network authority" ;;
  assert ((bool_decide (url_origin url = origin_localhost) && bool_decide (url_protocol url = "http:"))
          || (bool_decide (url_protocol url = "https:") && empty (url_port url))) "unsupported URL scheme" ;;
  if bool_decide (url_origin url = origin_localhost) then
    assert (bool_decide (url_port url = "3000")) "localhost port" ;;
    Ok {| cl_origin := LOCALHOST; cl_category := LOCAL_FRONTEND_ASSET |}
  else if bool_decide (url_origin url = origin_relayer) then
    assert (startsWith "/v2/" (url_pathname url) && empty (url_search url)) "unregistered relayer path" ;;
    Ok {| cl_origin := OFFICIAL_RELAYER;
          cl_category := if bool_decide (url_pathname url = "/v2/keyurl") then RELAYER_KEYURL_METADATA else RELAYER_RUNTIME |}
  else if bool_decide (url_origin url = origin_chainRpc) then
    assert (bool_decide (url_pathname url = "/") && empty (url_search url)) "unregistered RPC path" ;;
    Ok {| cl_origin := OFFICIAL_CHAIN_RPC; cl_category := SEPOLIA_RPC |}
  else if bool_decide (Some (url_origin url) = publicKeyAssetOrigin authority) then
    assert (empty (url_search url)) "asset query forbidden" ;;
    if pathMatches (url_pathname url) (default "" (publicKeyAssetPathPrefix authority)) then
      Ok {| cl_origin := OFFICIAL_PUBLIC_KEY_ASSET; cl_category := PUBLIC_KEY_ASSET |}
    else if pathMatches (url_pathname url) (default "" (crsAssetPathPrefix authority)) then
      Ok {| cl_origin := OFFICIAL_CRS_ASSET; cl_category := CRS_ASSET |}
    else throw_new "unregistered asset path"
  else throw_new "forbidden network origin".

Definition statusCategory (status : js_number) : result StatusCategory :=
  match status with
  | JInt z =>
      assert ((200 <=? z) && (z <=? 599)) "invalid status" ;;
      Ok (if z <? 300 then SUCCESS_2XX else if z <? 400 then REDIRECT_3XX else if z <? 500 then CLIENT_ERROR_4XX
          else SERVER_ERROR_5XX)
  | JNonInteger => throw_new "invalid status"
  end.

(** [Math.max(0, Math.round(duration))] *)
Definition rounded (duration : Duration) : js_number :=
  match duration with
  | finite q => JInt (Z.max 0 (Qfloor (q + (1 # 2))))
  | infinite true => JInt 0
  | infinite false | not_a_number => JNonInteger
  end.

(** The [try] around the classification of both ends of a redirect. *)
Definition redirect_between `{UrlParser} (from to : string) (authority : AssetOriginAuthority) : RedirectClassification :=
  match (from ← classifyNetworkUrl from authority; to ← classifyNetworkUrl to authority; Ok (from, to)) with
  | Ok (from, to) => if bool_decide (cl_origin from = cl_origin to) then ALLOWED_SAME_ORIGIN else ALLOWED_REGISTERED_ORIGIN
  | Throw _ => redirect_FORBIDDEN
  end.

Definition present (text : option string) : option string :=
  match text with Some EmptyString | None => None | Some t => Some t end.

Definition buildResponseNetworkObservation `{UrlParser} (input : NetworkResponseObservationInput)
    (authority : AssetOriginAuthority) : result SafeNetworkObservation :=
  classification ← classifyNetworkUrl (ni_requestUrl input) authority;
  category ← statusCategory (ni_status input);
  let redirect := redirect_NONE in
  let redirect := match present (ni_redirectedToUrl input) with
                  | Some to => redirect_between (ni_requestUrl input) to authority | None => redirect end in
  let redirect := match present (ni_redirectedFromUrl input) with
                  | Some from => redirect_between from (ni_requestUrl input) authority | None => redirect end in
  let success := bool_decide (category = SUCCESS_2XX)
                 || (bool_decide (category = REDIRECT_3XX) && negb (bool_decide (redirect = redirect_FORBIDDEN))) in
  duration ← nonnegativeInteger (rounded (ni_durationMilliseconds input));
  Ok {| no_originClassification := cl_origin classification; no_requestCategory := cl_category classification;
        no_statusCategory := category; no_durationMilliseconds := duration; no_redirectClassification := redirect;
        no_success := success |}.

Definition buildNetworkFailureObservation `{UrlParser} (requestUrl : string) (durationMilliseconds : Duration)
    (redirectedFromUrl : option string) (authority : AssetOriginAuthority) : result SafeNetworkObservation :=
  classification ← classifyNetworkUrl requestUrl authority;
  let redirect :=
    match present redirectedFromUrl with
    | Some from =>
        match classifyNetworkUrl from authority with
        | Ok from => if bool_decide (cl_origin from = cl_origin classification) then ALLOWED_SAME_ORIGIN else ALLOWED_REGISTERED_ORIGIN
        | Throw _ => redirect_FORBIDDEN
        end
    | None => redirect_NONE
    end in
  duration ← nonnegativeInteger (rounded durationMilliseconds);
  Ok {| no_originClassification := cl_origin classification; no_requestCategory := cl_category classification;
        no_statusCategory := NETWORK_FAILURE; no_durationMilliseconds := duration; no_redirectClassification := redirect;
        no_success := false |}.

Definition REQUIRED_NETWORK_PROOF : list (OriginClassification * RequestCategory) :=
  [(OFFICIAL_RELAYER, RELAYER_KEYURL_METADATA); (OFFICIAL_RELAYER, RELAYER_RUNTIME);
   (OFFICIAL_PUBLIC_KEY_ASSET, PUBLIC_KEY_ASSET); (OFFICIAL_CRS_ASSET, CRS_ASSET); (OFFICIAL_CHAIN_RPC, SEPOLIA_RPC)].

Definition hasRequiredNetworkProof (h : heap) (result : Value) : bool :=
  let entries := default [] (items_of h (get h result "networkObservations")) in
  forallb (fun entry => truthy (get h entry "success") && negb (is_text (get h entry "redirectClassification") "FORBIDDEN")) entries &&
  forallb (fun '(origin, category) =>
    existsb (fun entry => is_text (get h entry "originClassification") (origin_text origin) &&
                          is_text (get h entry "requestCategory") (category_text category) &&
                          truthy (get h entry "success")) entries) REQUIRED_NETWORK_PROOF.

(** ** Validation of a result *)
Definition FIXED_FIELDS : list (string * string) := [
  ("schema", "zama-szn4.sg5-browser-probe-result.v2"); ("protocolVersion", SG5_PROTOCOL_VERSION);
  ("browserVersion", "RECORDED_BY_PLAYWRIGHT"); ("chainId", "11155111"); ("sdkPackage", "@zama-fhe/sdk");
  ("sdkVersion", "3.4.0"); ("reactSdkPackage", "@zama-fhe/react-sdk"); ("reactSdkVersion", "3.4.0");
  ("wasmProofMechanism", "ATTRIBUTED_SUCCESSFUL_WASM_INSTANTIATION_AND_REAL_SDK_ENCRYPTION");
  ("publicKeySourceClassification", "INSTALLED_SEPOLIA_RELAYER_CONFIGURATION"); ("encryptedWidth", "euint64");
  ("plaintextClassification", "FIXED_TEST_VALUE_ONE")].
Definition STATUSES : list string := ["STRUCTURAL_PASS_NOT_LIVE"; "CAPABILITY_COMPLETE"; "FAIL"].
Definition FAILURES : list string := [
  "NONE"; "CAPABILITY_INCOMPLETE"; "BROWSER_ERROR"; "CONSOLE_ERROR"; "UNHANDLED_REJECTION"; "FORBIDDEN_ORIGIN";
  "TRANSACTION_FAILED"; "DECRYPTION_FAILED"; "UNAUTHORIZED_DECRYPTION_ACCEPTED"; "FORBIDDEN_MATERIAL"].
Definition CRITICAL_SECTIONS : list string := ["SDK_INITIALIZATION"; "SDK_ENCRYPTION"; "SDK_DECRYPTION"].
Definition ORIGINS : list string :=
  ["LOCALHOST"; "OFFICIAL_RELAYER"; "OFFICIAL_CHAIN_RPC"; "OFFICIAL_PUBLIC_KEY_ASSET"; "OFFICIAL_CRS_ASSET"].
Definition CATEGORIES : list string := [
  "LOCAL_FRONTEND_ASSET"; "SEPOLIA_RPC"; "RELAYER_KEYURL_METADATA"; "RELAYER_RUNTIME"; "PUBLIC_KEY_ASSET"; "CRS_ASSET"].
Definition STATUS_CATEGORIES : list string :=
  ["SUCCESS_2XX"; "REDIRECT_3XX"; "CLIENT_ERROR_4XX"; "SERVER_ERROR_5XX"; "NETWORK_FAILURE"].
Definition REDIRECTS : list string := ["NONE"; "ALLOWED_SAME_ORIGIN"; "ALLOWED_REGISTERED_ORIGIN"; "FORBIDDEN"].

Fixpoint assert_sections (h : heap) (seen : list Value) (sections : list Value) : result unit :=
  match sections with
  | [] => Ok tt
  | section :: sections' =>
      assertExactKeys h section WASM_KEYS "WASM section" ;;
      let classification := get h section "criticalSectionClassification" in
      assertEnum classification CRITICAL_SECTIONS "WASM section" ;;
      assert (bool_decide (classification ∉ seen)) "duplicate WASM section" ;;
      assertDecimal (get h section "successfulInstantiateCount") "WASM success" ;;
      assertDecimal (get h section "successfulInstantiateStreamingCount") "WASM streaming" ;;
      assertDecimal (get h section "failedCallCount") "WASM failure" ;;
      assert_sections h (classification :: seen) sections'
  end.

Definition assert_observation (h : heap) (observation : Value) : result unit :=
  assertExactKeys h observation NETWORK_KEYS "network observation" ;;
  assertEnum (get h observation "originClassification") ORIGINS "origin" ;;
  assertEnum (get h observation "requestCategory") CATEGORIES "category" ;;
  assertEnum (get h observation "statusCategory") STATUS_CATEGORIES "status" ;;
  assertDecimal (get h observation "durationMilliseconds") "network duration" ;;
  assertEnum (get h observation "redirectClassification") REDIRECTS "redirect" ;;
  assertBoolean (get h observation "success") "network success".

(** The types of the fields. *)
Definition assert_fields (h : heap) (result : Value) : Prelude.result unit :=
  let at_ := get h result in
  each (fun '(key, expected) => assert (is_text (at_ key) expected) ("invalid " +:+ key)) FIXED_FIELDS ;;
  assertEnum (at_ "status") STATUSES "status" ;;
  assertEnum (at_ "executionMode") ["OFFLINE_STRUCTURAL"; "LIVE_SEPOLIA"] "execution mode" ;;
  assertEnum (at_ "adapterClassification") ["REAL_INSTALLED_SDK"; "CONTROLLED_TEST_FAKE"] "adapter" ;;
  assertEnum (at_ "blockerClassification") ["NONE"; "BROWSER_UNAVAILABLE"; "WRONG_NETWORK"] "blocker" ;;
  assertEnum (at_ "failureClassification") FAILURES "failure" ;;
  assertEnum (at_ "browserEngine") ["CHROMIUM_FAMILY"; "UNKNOWN_BROWSER"] "browser" ;;
  assertEnum (at_ "transactionStatus") ["SUCCESS"; "NOT_RUN"] "transaction status" ;;
  assertEnum (at_ "finalVerdict") ["NOT_LIVE"; "PASS_PENDING_HARNESS"; "FAIL"] "verdict" ;;
  assertDecimal (at_ "observedChainId") "observedChainId" ;;
  assert (bool_decide (at_ "transactionHash" = VNull) || is_hex32 (at_ "transactionHash")) "transaction hash" ;;
  assert (bool_decide (at_ "transactionBlockNumber" = VNull) || is_decimal (at_ "transactionBlockNumber")) "transaction block" ;;
  each (fun key => assertBoolean (at_ key) key) BOOLEAN_KEYS ;;
  each (fun key => assertDecimal (at_ key) key) DECIMAL_KEYS.

(** The contradictions between the fields. *)
Definition assert_status (h : heap) (result : Value) : Prelude.result unit :=
  let at_ := get h result in
  (if is_text (at_ "status") "STRUCTURAL_PASS_NOT_LIVE" then
     assert (is_text (at_ "executionMode") "OFFLINE_STRUCTURAL" && is_text (at_ "adapterClassification") "CONTROLLED_TEST_FAKE" &&
             is_text (at_ "finalVerdict") "NOT_LIVE") "structural contradiction"
   else Ok tt) ;;
  (if is_text (at_ "status") "CAPABILITY_COMPLETE" then
     assert (is_text (at_ "executionMode") "LIVE_SEPOLIA" && is_text (at_ "adapterClassification") "REAL_INSTALLED_SDK" &&
             is_text (at_ "failureClassification") "NONE" && is_text (at_ "finalVerdict") "PASS_PENDING_HARNESS") "live contradiction" ;;
     assert (capabilityComplete h result) "live capability incomplete"
   else Ok tt) ;;
  if is_text (at_ "status") "FAIL" then
    assert (is_text (at_ "finalVerdict") "FAIL" && negb (is_text (at_ "failureClassification") "NONE")) "failure contradiction"
  else Ok tt.

Definition assertSanitizedResult (h : heap) (value : Value) : result unit :=
  assertSafeGraph h value ;;
  assert (is_object h value) "result object required" ;;
  assertExactKeys h value RESULT_KEYS "result" ;;
  assert_fields h value ;;
  let sections := items_of h (get h value "wasmCriticalSections") in
  assert (bool_decide (length <$> sections = Some 3%nat)) "WASM section count" ;;
  assert_sections h [] (default [] sections) ;;
  let observations := items_of h (get h value "networkObservations") in
  assert (match observations with Some items => (length items <=? 512)%nat | None => false end) "network observations" ;;
  each (assert_observation h) (default [] observations) ;;
  assert_status h value.

(** ** Validation of an aggregate *)
Definition context_passes (h : heap) (context : Value) : bool :=
  is_text (get h context "status") "CAPABILITY_COMPLETE" && errorFree h context && hasRequiredNetworkProof h context.

Definition assertSanitizedAggregateResult (h : heap) (value : Value) : result unit :=
  assertSafeGraph h value ;;
  assert (is_object h value) "aggregate object required" ;;
  assertExactKeys h value AGGREGATE_KEYS "aggregate" ;;
  let at_ := get h value in
  assert (is_text (at_ "schema") "zama-szn4.sg5-browser-probe-aggregate.v2" && is_text (at_ "protocolVersion") SG5_PROTOCOL_VERSION)
    "aggregate identity" ;;
  assert (is_text (at_ "status") "PASS" || is_text (at_ "status") "FAIL") "aggregate status" ;;
  assert (is_text (at_ "executionMode") "LIVE_SEPOLIA") "aggregate mode" ;;
  assert (is_text (at_ "requiredColdContexts") "2") "aggregate context count" ;;
  assertDecimal (at_ "passedColdContexts") "passed contexts" ;;
  assertDecimal (at_ "excludedMockContexts") "mock contexts" ;;
  assertBoolean (at_ "wrongNetworkScenarioPassed") "wrong network" ;;
  assertBoolean (at_ "productionBuildPassed") "production build" ;;
  let contexts := items_of h (at_ "contexts") in
  assert (bool_decide (length <$> contexts = Some 2%nat)) "aggregate contexts" ;;
  let repeatContexts := items_of h (at_ "repeatContexts") in
  assert (bool_decide (length <$> repeatContexts = Some 2%nat)) "aggregate repeat contexts" ;;
  each (assertSanitizedResult h) (default [] contexts) ;;
  each (assertSanitizedResult h) (default [] repeatContexts) ;;
  let passing := length (List.filter (context_passes h) (default [] contexts)) in
  let repeatPassing := length (List.filter (context_passes h) (default [] repeatContexts)) in
  assert (is_text (at_ "passedColdContexts") (Z_toString (Z.of_nat passing))) "aggregate pass count" ;;
  assert (is_text (at_ "excludedMockContexts") "0") "mock context present" ;;
  if is_text (at_ "status") "PASS" then
    assert ((passing =? 2)%nat && (repeatPassing =? 2)%nat && truthy (at_ "wrongNetworkScenarioPassed") &&
            truthy (at_ "productionBuildPassed")) "aggregate PASS contradiction"
  else Ok tt.

(** ** The sanitised result of an observation *)
Inductive Adapter : Type := REAL_INSTALLED_SDK | CONTROLLED_TEST_FAKE.
#[export] Instance Adapter_eq_dec : EqDecision Adapter.
Proof. solve_decision. Defined.
Definition adapter_text (a : Adapter) : string :=
  match a with REAL_INSTALLED_SDK => "REAL_INSTALLED_SDK" | CONTROLLED_TEST_FAKE => "CONTROLLED_TEST_FAKE" end.
Inductive WasmCriticalSectionClassification : Type := SDK_INITIALIZATION | SDK_ENCRYPTION | SDK_DECRYPTION.
#[export] Instance WasmCriticalSectionClassification_eq_dec : EqDecision WasmCriticalSectionClassification.
Proof. solve_decision. Defined.
Definition section_text (c : WasmCriticalSectionClassification) : string :=
  match c with
  | SDK_INITIALIZATION => "SDK_INITIALIZATION" | SDK_ENCRYPTION => "SDK_ENCRYPTION" | SDK_DECRYPTION => "SDK_DECRYPTION"
  end.

Record SafeWasmCriticalSectionObservation := {
  ws_criticalSectionClassification : WasmCriticalSectionClassification;
  ws_successfulInstantiateCount : js_number; ws_successfulInstantiateStreamingCount : js_number;
  ws_failedCallCount : js_number
}.

(** [transactionStatus] is "SUCCESS" or "NOT_RUN"; the chain id is an integer. *)
Record SafeProbeObservation := {
  po_adapterClassification : Adapter; po_browserEnvironmentValidated : bool; po_observedChainId : Z;
  po_providerReady : bool; po_walletConnected : bool; po_wasmInstantiationCount : js_number;
  po_wasmCriticalSections : list SafeWasmCriticalSectionObservation; po_wasmRuntimeInitialized : bool;
  po_sdkInstanceCreated : bool; po_publicKeyRetrieved : bool; po_encryptedInputBuilderCreated : bool;
  po_encryptionCompleted : bool; po_encryptedPayloadCount : js_number; po_encryptedPayloadNonempty : bool;
  po_inputProofPresent : bool; po_transactionSubmitted : bool; po_transactionConfirmed : bool;
  po_transactionStatus : bool; po_transactionHash : option string; po_transactionBlockNumber : option string;
  po_resultHandleRead : bool; po_authorizedDecryptionCompleted : bool; po_authorizedPlaintextMatched : bool;
  po_unauthorizedDecryptionAttempted : bool; po_unauthorizedDecryptionRejected : bool;
  po_forbiddenMaterialRetained : bool; po_durationMilliseconds : js_number
}.
Definition transaction_status_text (success : bool) : string := if success then "SUCCESS" else "NOT_RUN".

(** The object an object literal makes: own enumerable values under text keys. *)
Definition literal (fields : list (string * Value)) : Node :=
  other_object true (map (fun '(key, v) => (key_string key, data_property true v)) fields).
Definition nullable (text : option string) : Value := match text with Some t => VString t | None => VNull end.

Definition section_node (section : SafeWasmCriticalSectionObservation) : result Node :=
  instantiate ← nonnegativeInteger (ws_successfulInstantiateCount section);
  streaming ← nonnegativeInteger (ws_successfulInstantiateStreamingCount section);
  failed ← nonnegativeInteger (ws_failedCallCount section);
  Ok (literal [("criticalSectionClassification", VString (section_text (ws_criticalSectionClassification section)));
               ("successfulInstantiateCount", VString instantiate);
               ("successfulInstantiateStreamingCount", VString streaming); ("failedCallCount", VString failed)]).

(** The fields of the object [result], with the addresses of its two arrays. *)
Definition result_fields (observation : SafeProbeObservation) (executionMode : ProbeExecutionMode) (chromium : bool)
    (wasmInstantiationCount encryptedPayloadCount durationMilliseconds : string) (sections network : nat) : list (string * Value) :=
  let offline := match executionMode with OFFLINE_STRUCTURAL => true | LIVE_SEPOLIA => false end in [
  ("schema", VString "zama-szn4.sg5-browser-probe-result.v2"); ("protocolVersion", VString SG5_PROTOCOL_VERSION);
  ("status", VString (if offline then "STRUCTURAL_PASS_NOT_LIVE" else "CAPABILITY_COMPLETE"));
  ("executionMode", VString (mode_text executionMode));
  ("adapterClassification", VString (adapter_text (po_adapterClassification observation)));
  ("blockerClassification", VString "NONE"); ("failureClassification", VString "NONE");
  ("browserEngine", VString (if chromium then "CHROMIUM_FAMILY" else "UNKNOWN_BROWSER"));
  ("browserVersion", VString "RECORDED_BY_PLAYWRIGHT"); ("chainId", VString "11155111");
  ("observedChainId", VString (Z_toString (po_observedChainId observation))); ("sdkPackage", VString "@zama-fhe/sdk");
  ("sdkVersion", VString "3.4.0"); ("reactSdkPackage", VString "@zama-fhe/react-sdk"); ("reactSdkVersion", VString "3.4.0");
  ("providerReady", VBoolean (po_providerReady observation)); ("walletConnected", VBoolean (po_walletConnected observation));
  ("wasmRuntimeInitialized", VBoolean (po_wasmRuntimeInitialized observation));
  ("wasmProofMechanism", VString "ATTRIBUTED_SUCCESSFUL_WASM_INSTANTIATION_AND_REAL_SDK_ENCRYPTION");
  ("wasmInstantiationCount", VString wasmInstantiationCount); ("wasmCriticalSections", VObject sections);
  ("sdkInstanceCreated", VBoolean (po_sdkInstanceCreated observation));
  ("publicKeyRetrieved", VBoolean (po_publicKeyRetrieved observation));
  ("publicKeySourceClassification", VString "INSTALLED_SEPOLIA_RELAYER_CONFIGURATION");
  ("encryptedInputBuilderCreated", VBoolean (po_encryptedInputBuilderCreated observation));
  ("encryptedWidth", VString "euint64"); ("plaintextClassification", VString "FIXED_TEST_VALUE_ONE");
  ("encryptionCompleted", VBoolean (po_encryptionCompleted observation));
  ("encryptedPayloadCount", VString encryptedPayloadCount);
  ("encryptedPayloadNonempty", VBoolean (po_encryptedPayloadNonempty observation));
  ("inputProofPresent", VBoolean (po_inputProofPresent observation));
  ("transactionSubmitted", VBoolean (po_transactionSubmitted observation));
  ("transactionConfirmed", VBoolean (po_transactionConfirmed observation));
  ("transactionStatus", VString (transaction_status_text (po_transactionStatus observation)));
  ("transactionHash", nullable (po_transactionHash observation));
  ("transactionBlockNumber", nullable (po_transactionBlockNumber observation));
  ("resultHandleRead", VBoolean (po_resultHandleRead observation));
  ("authorizedDecryptionCompleted", VBoolean (po_authorizedDecryptionCompleted observation));
  ("authorizedPlaintextMatched", VBoolean (po_authorizedPlaintextMatched observation));
  ("unauthorizedDecryptionAttempted", VBoolean (po_unauthorizedDecryptionAttempted observation));
  ("unauthorizedDecryptionRejected", VBoolean (po_unauthorizedDecryptionRejected observation));
  ("forbiddenMaterialRetained", VBoolean false); ("consoleErrorCount", VString "0"); ("pageErrorCount", VString "0");
  ("unhandledRejectionCount", VString "0"); ("forbiddenNetworkRequestCount", VString "0");
  ("durationMilliseconds", VString durationMilliseconds); ("networkObservations", VObject network);
  ("finalVerdict", VString (if offline then "NOT_LIVE" else "PASS_PENDING_HARNESS"))].

(** [result.status = "FAIL"] and the two assignments that go with it. *)
Definition fail_fields (failure : string) (fields : list (string * Value)) : list (string * Value) :=
  map_set "finalVerdict" (VString "FAIL")
    (map_set "failureClassification" (VString failure) (map_set "status" (VString "FAIL") fields)).

(** The heap of the new result: the object, its two arrays, and the sections. *)
Definition result_heap (fields : list (string * Value)) (sections : list Node) : heap :=
  [literal fields; array_object true (map VObject (seq 3 (length sections))); array_object true []] ++ sections.

Definition sanitizeObservation (observation : SafeProbeObservation) (executionMode : ProbeExecutionMode) (userAgent : string)
    : result (heap * Value) :=
  let chromium := includes "Chrome/" userAgent || includes "Chromium/" userAgent in
  let real := bool_decide (po_adapterClassification observation = REAL_INSTALLED_SDK) in
  instantiations ← nonnegativeInteger (po_wasmInstantiationCount observation);
  sections ← result_map section_node (po_wasmCriticalSections observation);
  payloads ← nonnegativeInteger (po_encryptedPayloadCount observation);
  duration ← nonnegativeInteger (po_durationMilliseconds observation);
  let fields := result_fields observation executionMode chromium instantiations payloads duration 1 2 in
  let live := match executionMode with LIVE_SEPOLIA => true | OFFLINE_STRUCTURAL => false end in
  let fields :=
    if live && (negb real || negb (capabilityComplete (result_heap fields sections) (VObject 0)))
    then fail_fields "CAPABILITY_INCOMPLETE" fields else fields in
  let h := result_heap fields sections in
  assertSanitizedResult h (VObject 0) ;;
  Ok (h, VObject 0).

(** ** The observations of the harness *)
Record HarnessObservationCounters := {
  hc_console : js_number; hc_page : js_number; hc_unhandled : js_number; hc_forbiddenNetwork : js_number
}.
Definition is_counter (value : js_number) : bool :=
  match value with JInt z => Number_isSafeInteger value && (0 <=? z) | JNonInteger => false end.
Definition positive (value : js_number) : bool := match value with JInt z => 0 <? z | JNonInteger => false end.

(** [{ ...value }]: the own enumerable values, the elements of an array and the
    characters of a text under their indices. *)
Definition indexed {A} (f : A -> Value) (xs : list A) : list (string * Value) :=
  imap (fun i x => (Z_toString (Z.of_nat i), f x)) xs.
Definition spread (h : heap) (value : Value) : list (string * Value) :=
  match value with
  | VObject a =>
      match h !! a with
      | Some (other_object _ properties) =>
          omap (fun '(key, d) => match key, d with key_string k, data_property true v => Some (k, v) | _, _ => None end) properties
      | Some (array_object _ items) => indexed id items
      | _ => []
      end
  | VString s => indexed (fun c => VString (String c "")) (String.list_ascii_of_string s)
  | _ => []
  end.

Definition failure_of (counters : HarnessObservationCounters) : string :=
  if positive (hc_forbiddenNetwork counters) then "FORBIDDEN_ORIGIN"
  else if positive (hc_unhandled counters) then "UNHANDLED_REJECTION"
  else if positive (hc_page counters) then "BROWSER_ERROR" else "CONSOLE_ERROR".

Definition harness_failed (counters : HarnessObservationCounters) : bool :=
  positive (hc_console counters) || positive (hc_page counters) || positive (hc_unhandled counters)
  || positive (hc_forbiddenNetwork counters).

Definition attachHarnessObservations (h : heap) (source observations : Value) (counters : HarnessObservationCounters)
    : result (heap * Value) :=
  assertSanitizedResult h source ;;
  assertSafeGraph h observations ;;
  each (fun value => assert (is_counter value) "unsafe harness counter")
    [hc_console counters; hc_page counters; hc_unhandled counters; hc_forbiddenNetwork counters] ;;
  console ← nonnegativeInteger (hc_console counters);
  page ← nonnegativeInteger (hc_page counters);
  unhandled ← nonnegativeInteger (hc_unhandled counters);
  forbidden ← nonnegativeInteger (hc_forbiddenNetwork counters);
  items ← match items_of h observations with
          | Some items => Ok items
          | None => Throw (JsError true "TypeError" None "observations.map is not a function")
          end;
  let network := (length h + length items)%nat in
  let fields :=
    map_set "networkObservations" (VObject network)
      (map_set "forbiddenNetworkRequestCount" (VString forbidden)
        (map_set "unhandledRejectionCount" (VString unhandled)
          (map_set "pageErrorCount" (VString page) (map_set "consoleErrorCount" (VString console) (spread h source))))) in
  let fields := if harness_failed counters then fail_fields (failure_of counters) fields else fields in
  let h' := h ++ map (fun item => literal (spread h item)) items
              ++ [array_object true (map VObject (seq (length h) (length items))); literal fields] in
  assertSanitizedResult h' (VObject (S network)) ;;
  Ok (h', VObject (S network)).

Definition no_calls (c : WasmCriticalSectionClassification) : SafeWasmCriticalSectionObservation :=
  {| ws_criticalSectionClassification := c; ws_successfulInstantiateCount := JInt 0;
     ws_successfulInstantiateStreamingCount := JInt 0; ws_failedCallCount := JInt 0 |}.

Definition controlledStructuralObservation : SafeProbeObservation := {|
  po_adapterClassification := CONTROLLED_TEST_FAKE; po_browserEnvironmentValidated := true; po_observedChainId := 0;
  po_providerReady := false; po_walletConnected := false; po_wasmInstantiationCount := JInt 0;
  po_wasmCriticalSections := map no_calls [SDK_INITIALIZATION; SDK_ENCRYPTION; SDK_DECRYPTION];
  po_wasmRuntimeInitialized := false;
  po_sdkInstanceCreated := false; po_publicKeyRetrieved := false; po_encryptedInputBuilderCreated := false;
  po_encryptionCompleted := false; po_encryptedPayloadCount := JInt 0; po_encryptedPayloadNonempty := false;
  po_inputProofPresent := false; po_transactionSubmitted := false; po_transactionConfirmed := false;
  po_transactionStatus := false; po_transactionHash := None; po_transactionBlockNumber := None;
  po_resultHandleRead := false; po_authorizedDecryptionCompleted := false; po_authorizedPlaintextMatched := false;
  po_unauthorizedDecryptionAttempted := false; po_unauthorizedDecryptionRejected := false;
  po_forbiddenMaterialRetained := false; po_durationMilliseconds := JInt 0
|}.

Example structural_run :
  is_ok (sanitizeObservation controlledStructuralObservation OFFLINE_STRUCTURAL "Chrome/1") = true.
Proof. vm_compute. reflexivity. Qed.
Example structural_live_fails :
  ('(h, v) ← sanitizeObservation controlledStructuralObservation LIVE_SEPOLIA ""; Ok (get h v "status")) = Ok (VString "FAIL").
Proof. vm_compute. reflexivity. Qed.

(** * Properties *)
Ltac peel H :=
  repeat match type of H with
  | mbind _ (assert _ _) = Ok _ => let E := fresh "Hc" in apply result_bind_Ok in H as ([] & E%assert_Ok & H)
  | mbind _ _ = Ok _ => let E := fresh "E" in apply result_bind_Ok in H as (? & E & H)
  end.

Lemma andb_decide (P : Prop) `{Decision P} b : bool_decide P && b = true <-> P /\ b = true.
Proof. rewrite andb_true_iff, bool_decide_eq_true. done. Qed.

Lemma is_text_true v s : is_text v s = true <-> v = VString s.
Proof. apply bool_decide_eq_true. Qed.
Lemma is_true_true v : is_true v = true <-> v = VBoolean true.
Proof. apply bool_decide_eq_true. Qed.

(** ** Addresses *)
Lemma new_URL_Ok `{UrlParser} text u : new_URL text = Ok u <-> parse_URL text = Some u.
Proof. unfold new_URL. destruct (parse_URL text); split; congruence. Qed.

(** The address [url], reached over TLS at the default port of the origin [origin]. *)
Definition secure_at (url : URL) (origin : option string) : Prop :=
  Some (url_origin url) = origin /\ url_protocol url = "https:" /\ url_port url = "".

(** What a classification says of the address. *)
Definition classified (url : URL) (authority : AssetOriginAuthority) (c : Classification) : Prop :=
  match cl_origin c, cl_category c with
  | LOCALHOST, LOCAL_FRONTEND_ASSET => url_origin url = origin_localhost /\ url_port url = "3000"
  | OFFICIAL_RELAYER, RELAYER_KEYURL_METADATA =>
      secure_at url (Some origin_relayer) /\ url_pathname url = "/v2/keyurl" /\ url_search url = ""
  | OFFICIAL_RELAYER, RELAYER_RUNTIME =>
      secure_at url (Some origin_relayer) /\ startsWith "/v2/" (url_pathname url) = true /\
      url_pathname url <> "/v2/keyurl" /\ url_search url = ""
  | OFFICIAL_CHAIN_RPC, SEPOLIA_RPC => secure_at url (Some origin_chainRpc) /\ url_pathname url = "/" /\ url_search url = ""
  | OFFICIAL_PUBLIC_KEY_ASSET, PUBLIC_KEY_ASSET =>
      secure_at url (publicKeyAssetOrigin authority) /\ url_search url = "" /\
      exists prefix, publicKeyAssetPathPrefix authority = Some prefix /\ pathMatches (url_pathname url) prefix = true
  | OFFICIAL_CRS_ASSET, CRS_ASSET =>
      secure_at url (publicKeyAssetOrigin authority) /\ url_search url = "" /\
      exists prefix, crsAssetPathPrefix authority = Some prefix /\ pathMatches (url_pathname url) prefix = true
  | _, _ => False
  end.

Lemma validateAuthority_prefixes `{UrlParser} authority :
  validateAuthority authority = Ok tt ->
  is_Some (publicKeyAssetPathPrefix authority) /\ is_Some (crsAssetPathPrefix authority).
Proof.
  unfold validateAuthority. intros H'. apply result_bind_Ok in H' as (? & _ & H'). apply result_bind_Ok in H' as (? & _ & H').
  apply result_bind_Ok in H' as ([] & _ & H'). apply result_bind_Ok in H' as ([] & Heach & _).
  pose proof (proj1 (each_Ok _ _) Heach) as Hall.
  assert (Hp : forall p, valid_prefix p = true -> is_Some p) by (by intros []).
  split; apply Hp; eapply (assert_Ok _ "invalid asset prefix" tt), Hall; [left|right; left].
Qed.

(** whatever address is classified is a registered one: its authority, as written,
    is one of the four registered hosts; it carries no credentials and no fragment; it
    is reached over TLS unless it is the local page; and its class states its origin
    and path. *)
Theorem classifyNetworkUrl_registered `{UrlParser} text authority c :
  classifyNetworkUrl text authority = Ok c ->
  exists url asset raw,
    parse_URL text = Some url /\ parse_URL (default "null" (publicKeyAssetOrigin authority)) = Some asset /\
    rawAuthority text = Ok raw /\
    raw ∈ ["localhost:3000"; "relayer.testnet.zama.org"; "ethereum-sepolia-rpc.publicnode.com"; url_host asset] /\
    url_username url = "" /\ url_password url = "" /\ url_hash url = "" /\ classified url authority c.
Proof.
  unfold classifyNetworkUrl. intros E. apply result_bind_Ok in E as ([] & Hv & E).
  apply validateAuthority_prefixes in Hv as [[key Hkey] [crs Hcrs]]. rewrite Hkey, Hcrs in E.
  apply result_bind_Ok in E as (url & Hurl%new_URL_Ok & E). apply result_bind_Ok in E as ([] & Hcred%assert_Ok & E).
  apply result_bind_Ok in E as (asset & Hasset%new_URL_Ok & E). apply result_bind_Ok in E as (raw & Hraw & E).
  apply result_bind_Ok in E as ([] & Hreg%assert_Ok%bool_decide_eq_true & E).
  apply result_bind_Ok in E as ([] & Hscheme%assert_Ok & E).
  unfold empty in *. rewrite !andb_true_iff, !bool_decide_eq_true in Hcred. destruct Hcred as [[Hu Hp] Hh].
  exists url, asset, raw. do 7 (split; [done|]).
  rewrite orb_true_iff, !andb_true_iff, !bool_decide_eq_true in Hscheme.
  assert (Hsec : url_origin url <> origin_localhost -> url_protocol url = "https:" /\ url_port url = "") by tauto.
  destruct (decide (url_origin url = origin_localhost)) as [El|Nl];
    [rewrite bool_decide_eq_true_2 in E by done|rewrite (bool_decide_eq_false_2 (_ = origin_localhost)) in E by done].
  { apply result_bind_Ok in E as ([] & Hport%assert_Ok%bool_decide_eq_true & [= <-]). done. }
  destruct (Hsec Nl) as [Htls Hport]. clear Hsec Hscheme. unfold classified, secure_at.
  destruct (decide (url_origin url = origin_relayer)) as [Er|Nr];
    [rewrite bool_decide_eq_true_2 in E by done|rewrite (bool_decide_eq_false_2 (_ = origin_relayer)) in E by done].
  { apply result_bind_Ok in E as ([] & Hpath%assert_Ok & [= <-]). rewrite andb_true_iff, bool_decide_eq_true in Hpath.
    cbn. rewrite Er. case_bool_decide; tauto. }
  destruct (decide (url_origin url = origin_chainRpc)) as [Ec|Nc];
    [rewrite bool_decide_eq_true_2 in E by done|rewrite (bool_decide_eq_false_2 (_ = origin_chainRpc)) in E by done].
  { apply result_bind_Ok in E as ([] & Hpath%assert_Ok & [= <-]). rewrite andb_true_iff, !bool_decide_eq_true in Hpath.
    cbn. rewrite Ec. tauto. }
  case_bool_decide as Hpk; [|done]. apply result_bind_Ok in E as ([] & Hsearch%assert_Ok%bool_decide_eq_true & E).
  rewrite Hkey, Hcrs, Hpk.
  change (default "" (Some key)) with key in E. change (default "" (Some crs)) with crs in E.
  destruct (pathMatches (url_pathname url) key) eqn:Ek; [injection E as <-; cbn; eauto 10|].
  destruct (pathMatches (url_pathname url) crs) eqn:Ecr; [injection E as <-; cbn; eauto 10|done].
Qed.

(** ** Objects of the heap *)
Definition field (fields : list (string * Value)) (key : string) : Value := default VUndefined (map_get key fields).

Lemma own_literal fields key :
  own (map (fun '(k, v) => (key_string k, data_property true v)) fields) key = field fields key.
Proof.
  unfold own, field. induction fields as [|[k v] fields IH]; [done|]. cbn [map map_get].
  destruct (decide (key = k)) as [->|Hne]; [by rewrite decide_True by done|].
  by rewrite decide_False by congruence.
Qed.

Lemma get_literal h a fields key : h !! a = Some (literal fields) -> get h (VObject a) key = field fields key.
Proof. unfold get, literal. intros ->. apply own_literal. Qed.

Lemma field_set fields key v : field (map_set key v fields) key = v.
Proof. unfold field. by rewrite map_get_set_eq. Qed.
Lemma field_set_ne fields key key' v : key' <> key -> field (map_set key v fields) key' = field fields key'.
Proof. intros. unfold field. by rewrite map_get_set_ne. Qed.

(** The fields an accepted object spreads are those it has. *)
Lemma spread_fields h value key : plain h value -> is_object h value = true -> field (spread h value) key = get h value key.
Proof.
  intros Hp Ho. destruct Hp as [|b|s|a items Ha _|a properties Ha Hkeys _]; try done; cbn in Ho; rewrite Ha in Ho; [done|].
  unfold spread, get, field, own. rewrite Ha. clear Ha Ho.
  assert (Hk : forall k d, (k, d) ∈ properties -> exists name v, k = key_string name /\ d = data_property true v) by exact Hkeys.
  clear Hkeys. induction properties as [|[k d] properties IH]; [done|].
  destruct (Hk k d) as (name & v & -> & ->); [by left|]. cbn. destruct (decide (key = name)) as [->|Hne].
  - by rewrite decide_True by done.
  - rewrite decide_False by congruence. apply IH. intros k d Hin. apply Hk. by right.
Qed.

Lemma assertSanitizedResult_object h value :
  assertSanitizedResult h value = Ok tt -> plain h value /\ is_object h value = true.
Proof.
  unfold assertSanitizedResult. intros E. apply result_bind_Ok in E as ([] & Hs%assertSafeGraph_plain & E).
  apply result_bind_Ok in E as ([] & Ho%assert_Ok & _). done.
Qed.

(** ** Results *)
Lemma assert_status_live h result :
  assert_status h result = Ok tt -> get h result "status" = VString "CAPABILITY_COMPLETE" ->
  get h result "executionMode" = VString "LIVE_SEPOLIA" /\ get h result "adapterClassification" = VString "REAL_INSTALLED_SDK" /\
  get h result "failureClassification" = VString "NONE" /\ capabilityComplete h result = true.
Proof.
  unfold assert_status. intros E Hst. rewrite Hst in E. change (is_text (VString "CAPABILITY_COMPLETE") "STRUCTURAL_PASS_NOT_LIVE") with false in E.
  change (is_text (VString "CAPABILITY_COMPLETE") "CAPABILITY_COMPLETE") with true in E.
  cbn [mbind result_bind] in E. apply result_bind_Ok in E as ([] & E & _).
  apply result_bind_Ok in E as ([] & Hc%assert_Ok & Hk%assert_Ok).
  rewrite !andb_true_iff, !is_text_true in Hc. naive_solver.
Qed.

Lemma assertSanitizedResult_status h result : assertSanitizedResult h result = Ok tt -> assert_status h result = Ok tt.
Proof. unfold assertSanitizedResult. intros E. do 8 (apply result_bind_Ok in E as ([] & _ & E)). exact E. Qed.

(** What stands behind a context that counts: a live run of the installed SDK with every
    capability, no error of any kind, every exchange successful, and each required kind
    of exchange among them. *)
Record evidence (h : heap) (context : Value) : Prop := {
  ev_accepted : assertSanitizedResult h context = Ok tt;
  ev_live : get h context "executionMode" = VString "LIVE_SEPOLIA";
  ev_real : get h context "adapterClassification" = VString "REAL_INSTALLED_SDK";
  ev_complete : capabilityComplete h context = true;
  ev_no_errors : forall key, key ∈ ["consoleErrorCount"; "pageErrorCount"; "unhandledRejectionCount"; "forbiddenNetworkRequestCount"] ->
                 get h context key = VString "0";
  ev_nothing_kept : get h context "forbiddenMaterialRetained" = VBoolean false;
  ev_exchanges : forall entries entry, items_of h (get h context "networkObservations") = Some entries -> entry ∈ entries ->
                 truthy (get h entry "success") = true /\ get h entry "redirectClassification" <> VString "FORBIDDEN";
  ev_proof : forall origin category, (origin, category) ∈ REQUIRED_NETWORK_PROOF ->
             exists entries entry, items_of h (get h context "networkObservations") = Some entries /\ entry ∈ entries /\
               get h entry "originClassification" = VString (origin_text origin) /\
               get h entry "requestCategory" = VString (category_text category) /\ truthy (get h entry "success") = true
}.

Lemma context_evidence h context :
  assertSanitizedResult h context = Ok tt -> context_passes h context = true -> evidence h context.
Proof.
  intros Ha Hp. unfold context_passes, errorFree, hasRequiredNetworkProof in Hp.
  rewrite !andb_true_iff, !is_text_true, bool_decide_eq_true in Hp.
  destruct Hp as [[Hst [[[[H1 H2] H3] H4] H5]] [Hall Hreq]].
  destruct (assert_status_live _ _ (assertSanitizedResult_status _ _ Ha) Hst) as (Hm & Hr & _ & Hc).
  rewrite forallb_forall in Hall. rewrite forallb_forall in Hreq.
  constructor; try done.
  - intros key Hk. repeat (apply elem_of_cons in Hk as [->|Hk]; [done|]). by apply elem_of_nil in Hk.
  - intros entries entry He Hin. rewrite He in Hall. specialize (Hall entry (proj1 (list_elem_of_In _ _) Hin)).
    rewrite andb_true_iff, negb_true_iff in Hall. destruct Hall as [? Hf]. split; [done|]. intros Heq. by rewrite Heq in Hf.
  - intros origin category Hin%list_elem_of_In. apply Hreq in Hin. apply existsb_exists in Hin as (entry & Hin & Hc').
    rewrite !andb_true_iff, !is_text_true in Hc'. destruct (items_of _ _) as [entries|] eqn:He; [|done].
    exists entries, entry. rewrite list_elem_of_In. naive_solver.
Qed.

Lemma filter_all {A} (p : A -> bool) l : length (List.filter p l) = length l -> forall x, x ∈ l -> p x = true.
Proof.
  induction l as [|x l IH]; [by intros _ x []%elem_of_nil|]. cbn. destruct (p x) eqn:Ep; cbn; intros E y Hy.
  - apply elem_of_cons in Hy as [->|Hy]; [done|]. apply IH; [lia|done].
  - pose proof (filter_length_le p l). lia.
Qed.

(** a passing aggregate rests on complete evidence.  When an aggregate is accepted and
    its status is PASS, it holds two contexts and two repetitions, and behind each of
    the four stands a live run of the installed SDK with every capability, without any
    error, and with every required exchange; the two other scenarios passed too. *)
Theorem assertSanitizedAggregateResult_pass h value :
  assertSanitizedAggregateResult h value = Ok tt -> get h value "status" = VString "PASS" ->
  exists c1 c2 r1 r2,
    items_of h (get h value "contexts") = Some [c1; c2] /\ items_of h (get h value "repeatContexts") = Some [r1; r2] /\
    Forall (evidence h) [c1; c2; r1; r2] /\ get h value "passedColdContexts" = VString "2" /\
    get h value "wrongNetworkScenarioPassed" = VBoolean true /\ get h value "productionBuildPassed" = VBoolean true.
Proof.
  unfold assertSanitizedAggregateResult. intros E Hpass.
  do 8 (apply result_bind_Ok in E as ([] & _ & E)).
  apply result_bind_Ok in E as ([] & Hdec & E). apply result_bind_Ok in E as ([] & Hw%assert_Ok & E).
  apply result_bind_Ok in E as ([] & Hb%assert_Ok & E).
  apply result_bind_Ok in E as ([] & Hlc%assert_Ok%bool_decide_eq_true & E).
  apply result_bind_Ok in E as ([] & Hlr%assert_Ok%bool_decide_eq_true & E).
  apply result_bind_Ok in E as ([] & Hac & E). apply result_bind_Ok in E as ([] & Har & E).
  apply result_bind_Ok in E as ([] & Hcount%assert_Ok%is_text_true & E). apply result_bind_Ok in E as ([] & _ & E).
  rewrite Hpass in E. change (is_text (VString "PASS") "PASS") with true in E. apply assert_Ok in E.
  rewrite !andb_true_iff, !Nat.eqb_eq in E. destruct E as [[[Hn Hm] Htw] Htb].
  destruct (items_of h (get h value "contexts")) as [[|c1 [|c2 [|]]]|] eqn:Ec; try done.
  destruct (items_of h (get h value "repeatContexts")) as [[|r1 [|r2 [|]]]|] eqn:Er; try done.
  exists c1, c2, r1, r2. split; [done|]. split; [done|]. split; [|split; [by rewrite Hcount, Hn|]].
  - pose proof (proj1 (each_Ok _ _) Hac) as Hac'. pose proof (proj1 (each_Ok _ _) Har) as Har'.
    pose proof (filter_all _ [c1; c2] Hn) as Hpc. pose proof (filter_all _ [r1; r2] Hm) as Hpr.
    apply (Forall_app_2 _ [c1; c2]); apply Forall_forall; intros x Hx; apply context_evidence; auto.
  - split; [destruct (get h value "wrongNetworkScenarioPassed") as [| |[]| | |]|
            destruct (get h value "productionBuildPassed") as [| |[]| | |]]; done.
Qed.

(** ** The harness *)
Lemma nonnegativeInteger_Ok n text : nonnegativeInteger n = Ok text -> exists z, n = JInt z /\ 0 <= z /\ text = Z_toString z.
Proof.
  destruct n as [z|]; [|done]. cbn [nonnegativeInteger]. intros E. apply result_bind_Ok in E as ([] & Hc%assert_Ok & [= <-]).
  rewrite andb_true_iff, Z.leb_le in Hc. naive_solver.
Qed.

Lemma text_zero z : VString (Z_toString z) = VString "0" -> z = 0.
Proof. intros [= E]. by apply (Z_toString_inj z 0). Qed.

(** The fields the harness writes. *)
Definition HARNESS_KEYS : list string := [
  "consoleErrorCount"; "pageErrorCount"; "unhandledRejectionCount"; "forbiddenNetworkRequestCount"; "networkObservations";
  "status"; "failureClassification"; "finalVerdict"].

Lemma field_fail failure fields :
  field (fail_fields failure fields) "status" = VString "FAIL" /\ field (fail_fields failure fields) "finalVerdict" = VString "FAIL" /\
  field (fail_fields failure fields) "failureClassification" = VString failure /\
  forall key, key ∉ HARNESS_KEYS -> field (fail_fields failure fields) key = field fields key.
Proof.
  unfold fail_fields. split; [by rewrite !field_set_ne, field_set by done|]. split; [by rewrite field_set|].
  split; [by rewrite field_set_ne, field_set by done|].
  intros key Hk. rewrite !field_set_ne; [done|intros ->; apply Hk; unfold HARNESS_KEYS; set_solver..].
Qed.

(** What [attachHarnessObservations] builds. *)
Lemma attachHarnessObservations_built h source observations counters h' r :
  attachHarnessObservations h source observations counters = Ok (h', r) ->
  exists c p u f network fields,
    counters = {| hc_console := JInt c; hc_page := JInt p; hc_unhandled := JInt u; hc_forbiddenNetwork := JInt f |} /\
    0 <= c /\ 0 <= p /\ 0 <= u /\ 0 <= f /\ assertSanitizedResult h source = Ok tt /\ assertSanitizedResult h' r = Ok tt /\
    (forall key, get h' r key = field fields key) /\
    let counted := map_set "networkObservations" (VObject network)
      (map_set "forbiddenNetworkRequestCount" (VString (Z_toString f))
        (map_set "unhandledRejectionCount" (VString (Z_toString u))
          (map_set "pageErrorCount" (VString (Z_toString p))
            (map_set "consoleErrorCount" (VString (Z_toString c)) (spread h source))))) in
    fields = if harness_failed counters then fail_fields (failure_of counters) counted else counted.
Proof.
  unfold attachHarnessObservations. intros E. apply result_bind_Ok in E as ([] & Hsrc & E).
  apply result_bind_Ok in E as ([] & _ & E). apply result_bind_Ok in E as ([] & _ & E).
  apply result_bind_Ok in E as (tc & (c & Hc & ? & ->)%nonnegativeInteger_Ok & E).
  apply result_bind_Ok in E as (tp & (p & Hp & ? & ->)%nonnegativeInteger_Ok & E).
  apply result_bind_Ok in E as (tu & (u & Hu & ? & ->)%nonnegativeInteger_Ok & E).
  apply result_bind_Ok in E as (tf & (f & Hf & ? & ->)%nonnegativeInteger_Ok & E).
  apply result_bind_Ok in E as (items & _ & E). apply result_bind_Ok in E as ([] & Hres & [= <- <-]).
  exists c, p, u, f, (length h + length items)%nat. eexists.
  split; [by destruct counters; cbn in *; subst|]. do 4 (split; [done|]). split; [exact Hsrc|]. split; [exact Hres|].
  split; [|reflexivity]. intros key. apply get_literal.
  rewrite lookup_app_r, lookup_app_r by (rewrite ?length_map; lia). rewrite length_map.
  by replace (S (length h + length items) - length h - length items)%nat with 1%nat by lia.
Qed.

(** an error that the harness saw cannot pass.  The result with the observations
    attached is accepted by the validation; when any counter is positive its status and
    its verdict are FAIL, classified by the gravest counter; it counts as a passing
    context only if every counter is zero and the source was complete; and the fields
    the harness does not write are those of the source. *)
Theorem attachHarnessObservations_verdict h source observations counters h' r :
  attachHarnessObservations h source observations counters = Ok (h', r) ->
  assertSanitizedResult h' r = Ok tt /\
  (existsb positive [hc_console counters; hc_page counters; hc_unhandled counters; hc_forbiddenNetwork counters] = true ->
     get h' r "status" = VString "FAIL" /\ get h' r "finalVerdict" = VString "FAIL" /\
     get h' r "failureClassification" = VString (failure_of counters)) /\
  (context_passes h' r = true ->
     counters = {| hc_console := JInt 0; hc_page := JInt 0; hc_unhandled := JInt 0; hc_forbiddenNetwork := JInt 0 |} /\
     get h source "status" = VString "CAPABILITY_COMPLETE" /\ capabilityComplete h source = true) /\
  (forall key, key ∉ HARNESS_KEYS -> get h' r key = get h source key).
Proof.
  intros (c & p & u & f & network & fields & Hcs & H1 & H2 & H3 & H4 & Hsrc & Hres & Hget & Hf)%attachHarnessObservations_built.
  destruct (assertSanitizedResult_object _ _ Hsrc) as [Hplain Hobj].
  destruct (field_fail (failure_of counters) (map_set "networkObservations" (VObject network)
      (map_set "forbiddenNetworkRequestCount" (VString (Z_toString f))
        (map_set "unhandledRejectionCount" (VString (Z_toString u))
          (map_set "pageErrorCount" (VString (Z_toString p))
            (map_set "consoleErrorCount" (VString (Z_toString c)) (spread h source))))))) as (Hs & Hv & Hc & Hrest).
  assert (Hothers : forall key, key ∉ HARNESS_KEYS -> get h' r key = get h source key).
  { intros key Hk. rewrite Hget, Hf. destruct (harness_failed counters); [rewrite Hrest by done|];
      rewrite !field_set_ne by (intros ->; apply Hk; unfold HARNESS_KEYS; set_solver); by apply spread_fields. }
  split; [done|]. split; [|split; [|done]].
  - intros Hfailed. assert (harness_failed counters = true) as Hany.
    { unfold harness_failed. cbn [existsb] in Hfailed. by rewrite orb_false_r, !orb_assoc in Hfailed. }
    rewrite !Hget, Hf, Hany. done.
  - intros Hpass. unfold context_passes in Hpass. rewrite !andb_true_iff, is_text_true in Hpass.
    destruct Hpass as [[Hst Herr] _]. rewrite Hget, Hf in Hst.
    destruct (harness_failed counters) eqn:Hfailed; [congruence|].
    rewrite !field_set_ne, (spread_fields h source "status") in Hst by done.
    unfold errorFree in Herr. rewrite !andb_true_iff, !is_text_true, !Hget, Hf in Herr.
    destruct Herr as [[[[Hc0 Hp0] Hu0] Hf0] _].
    rewrite !field_set_ne, field_set in Hc0 by done. rewrite !field_set_ne, field_set in Hp0 by done.
    rewrite !field_set_ne, field_set in Hu0 by done. rewrite !field_set_ne, field_set in Hf0 by done.
    apply text_zero in Hc0, Hp0, Hu0, Hf0. subst c p u f. split; [done|]. split; [done|].
    by destruct (assert_status_live _ _ (assertSanitizedResult_status _ _ Hsrc) Hst) as (_ & _ & _ & ?).
Qed.

(** ** The sanitised result *)
Definition observation_complete (o : SafeProbeObservation) : bool :=
  (po_observedChainId o =? SG5_chainId) && po_providerReady o && po_walletConnected o && po_wasmRuntimeInitialized o &&
  po_sdkInstanceCreated o && po_publicKeyRetrieved o && po_encryptedInputBuilderCreated o && po_encryptionCompleted o &&
  match po_encryptedPayloadCount o with JInt n => n =? 1 | JNonInteger => false end &&
  po_encryptedPayloadNonempty o && po_inputProofPresent o && po_transactionSubmitted o && po_transactionConfirmed o &&
  po_transactionStatus o &&
  match po_transactionHash o with Some hash => matches_hex 64 hash | None => false end &&
  match po_transactionBlockNumber o with Some number => matches_decimal number | None => false end &&
  po_resultHandleRead o && po_authorizedDecryptionCompleted o && po_authorizedPlaintextMatched o &&
  po_unauthorizedDecryptionAttempted o && po_unauthorizedDecryptionRejected o.

Lemma is_text_number z n : is_text (VString (Z_toString z)) (Z_toString n) = (z =? n).
Proof.
  unfold is_text. destruct (Z.eqb_spec z n) as [->|Hne]; [by apply bool_decide_eq_true_2|].
  apply bool_decide_eq_false_2. intros [= E%Z_toString_inj]. done.
Qed.

Lemma is_true_boolean b : is_true (VBoolean b) = b.
Proof. by destruct b. Qed.

(** Evaluates the reads of the fields of a literal. *)
Ltac read_fields :=
  repeat match goal with |- context [field (result_fields ?o ?m ?c ?w ?p ?d ?i ?j) ?k] =>
    let v := eval cbv -[Z_toString transaction_status_text nullable adapter_text mode_text] in
      (field (result_fields o m c w p d i j) k) in
    change (field (result_fields o m c w p d i j) k) with v end.

Lemma capabilityComplete_observation o mode chromium wasm n text duration sections :
  po_encryptedPayloadCount o = JInt n -> text = Z_toString n ->
  capabilityComplete (result_heap (result_fields o mode chromium wasm text duration 1 2) sections) (VObject 0) =
  observation_complete o.
Proof.
  destruct o as [ad be chain pr wc wi ws wr sc pk eb ec pc pn ip ts tc success hash block rh adc apm ua ur fm dm].
  cbn [po_encryptedPayloadCount]. intros -> ->. set (o := Build_SafeProbeObservation _ _ _ _ _ _ _ _ _ _ _ _ _ _ _ _ _ _ _ _ _ _ _ _ _ _ _).
  unfold capabilityComplete.
  assert (Hg : forall key, get (result_heap (result_fields o mode chromium wasm (Z_toString n) duration 1 2) sections) (VObject 0) key =
                           field (result_fields o mode chromium wasm (Z_toString n) duration 1 2) key)
    by (intros; by apply get_literal).
  rewrite !Hg. read_fields. change "11155111" with (Z_toString SG5_chainId). change "1" with (Z_toString 1).
  rewrite !is_text_number, !is_true_boolean.
  by destruct success, hash, block.
Qed.

(** What [sanitizeObservation] builds. *)
Lemma sanitizeObservation_built o mode userAgent h r :
  sanitizeObservation o mode userAgent = Ok (h, r) ->
  exists chromium wasm payloads duration fields,
    let literal_fields := result_fields o mode chromium wasm payloads duration 1 2 in
    assertSanitizedResult h r = Ok tt /\ (forall key, get h r key = field fields key) /\
    items_of h (field literal_fields "networkObservations") = Some [] /\
    fields = match mode with
             | OFFLINE_STRUCTURAL => literal_fields
             | LIVE_SEPOLIA =>
                 if bool_decide (po_adapterClassification o = REAL_INSTALLED_SDK) && observation_complete o
                 then literal_fields else fail_fields "CAPABILITY_INCOMPLETE" literal_fields
             end.
Proof.
  unfold sanitizeObservation. intros E. apply result_bind_Ok in E as (wasm & _ & E).
  apply result_bind_Ok in E as (sections & _ & E).
  apply result_bind_Ok in E as (payloads & (n & Hn & _ & Hp)%nonnegativeInteger_Ok & E).
  apply result_bind_Ok in E as (duration & _ & E).
  set (chromium := includes "Chrome/" userAgent || includes "Chromium/" userAgent) in E.
  rewrite (capabilityComplete_observation o mode chromium wasm n payloads duration sections Hn Hp) in E.
  apply result_bind_Ok in E as ([] & Hres & [= <- <-]). exists chromium, wasm, payloads, duration. eexists.
  split; [exact Hres|]. split; [intros key; by apply get_literal|]. split; [reflexivity|].
  destruct mode; [reflexivity|]. by destruct (bool_decide _), (observation_complete o).
Qed.

(** the verdict on an observation.  A live observation is CAPABILITY_COMPLETE exactly
    when the installed SDK was used and every capability was observed, and FAIL
    otherwise; an offline one comes from the controlled fake and is NOT_LIVE; and no
    result counts as passing before the harness has attached its network exchanges. *)
Theorem sanitizeObservation_verdict o mode userAgent h r :
  sanitizeObservation o mode userAgent = Ok (h, r) ->
  match mode with
  | OFFLINE_STRUCTURAL =>
      po_adapterClassification o = CONTROLLED_TEST_FAKE /\ get h r "status" = VString "STRUCTURAL_PASS_NOT_LIVE" /\
      get h r "finalVerdict" = VString "NOT_LIVE"
  | LIVE_SEPOLIA =>
      if bool_decide (po_adapterClassification o = REAL_INSTALLED_SDK) && observation_complete o
      then get h r "status" = VString "CAPABILITY_COMPLETE" /\ get h r "finalVerdict" = VString "PASS_PENDING_HARNESS"
      else get h r "status" = VString "FAIL" /\ get h r "finalVerdict" = VString "FAIL" /\
           get h r "failureClassification" = VString "CAPABILITY_INCOMPLETE"
  end /\ context_passes h r = false.
Proof.
  intros (chromium & wasm & payloads & duration & fields & Hres & Hget & Hitems & Hf)%sanitizeObservation_built.
  destruct (field_fail "CAPABILITY_INCOMPLETE" (result_fields o mode chromium wasm payloads duration 1 2)) as (Hs & Hv & Hc & _).
  split.
  - destruct mode.
    + apply assertSanitizedResult_status in Hres. unfold assert_status in Hres.
      apply result_bind_Ok in Hres as ([] & H & _). rewrite !Hget, Hf in H. rewrite !Hget, Hf.
      change (field _ "status") with (VString "STRUCTURAL_PASS_NOT_LIVE") in H. apply assert_Ok in H.
      rewrite !andb_true_iff, !is_text_true in H. destruct H as [[_ H] _].
      change (field _ "adapterClassification") with (VString (adapter_text (po_adapterClassification o))) in H.
      by destruct (po_adapterClassification o).
    + rewrite !Hget, Hf. by destruct (bool_decide _ && _).
  - unfold context_passes, hasRequiredNetworkProof. destruct (is_text (get h r "status") "CAPABILITY_COMPLETE") eqn:Est; [|done].
    apply is_text_true in Est. rewrite Hget, Hf in Est.
    assert (Hn : get h r "networkObservations" = field (result_fields o mode chromium wasm payloads duration 1 2) "networkObservations").
    { rewrite Hget, Hf. destruct mode; [done|]. destruct (bool_decide _ && _); [done|congruence]. }
    rewrite Hn, Hitems. by rewrite andb_false_r.
Qed.

(** * Runs on concrete inputs *)
Definition hash_of_ones : string := "0x1111111111111111111111111111111111111111111111111111111111111111".
Definition one_call (c : WasmCriticalSectionClassification) : SafeWasmCriticalSectionObservation :=
  {| ws_criticalSectionClassification := c; ws_successfulInstantiateCount := JInt 1;
     ws_successfulInstantiateStreamingCount := JInt 0; ws_failedCallCount := JInt 0 |}.
Definition live_observation : SafeProbeObservation := {|
  po_adapterClassification := REAL_INSTALLED_SDK; po_browserEnvironmentValidated := true; po_observedChainId := 11155111;
  po_providerReady := true; po_walletConnected := true; po_wasmInstantiationCount := JInt 3;
  po_wasmCriticalSections := map one_call [SDK_INITIALIZATION; SDK_ENCRYPTION; SDK_DECRYPTION]; po_wasmRuntimeInitialized := true;
  po_sdkInstanceCreated := true; po_publicKeyRetrieved := true; po_encryptedInputBuilderCreated := true;
  po_encryptionCompleted := true; po_encryptedPayloadCount := JInt 1; po_encryptedPayloadNonempty := true;
  po_inputProofPresent := true; po_transactionSubmitted := true; po_transactionConfirmed := true;
  po_transactionStatus := true; po_transactionHash := Some hash_of_ones; po_transactionBlockNumber := Some "7";
  po_resultHandleRead := true; po_authorizedDecryptionCompleted := true; po_authorizedPlaintextMatched := true;
  po_unauthorizedDecryptionAttempted := true; po_unauthorizedDecryptionRejected := true;
  po_forbiddenMaterialRetained := false; po_durationMilliseconds := JInt 12
|}.

Definition exchange_node (entry : OriginClassification * RequestCategory) : Node :=
  literal [("originClassification", VString (origin_text entry.1)); ("requestCategory", VString (category_text entry.2));
           ("statusCategory", VString "SUCCESS_2XX"); ("durationMilliseconds", VString "1");
           ("redirectClassification", VString "NONE"); ("success", VBoolean true)].

(** The live result with its exchanges attached. *)
Definition live_heap : list Node :=
  match sanitizeObservation live_observation LIVE_SEPOLIA "Chrome/1" with Ok (h, _) => h | Throw _ => [] end.
Definition observed_heap : list Node :=
  live_heap ++ map exchange_node REQUIRED_NETWORK_PROOF ++ [array_object true (map VObject (seq (length live_heap) 5))].
Definition counters_of (console : Z) : HarnessObservationCounters :=
  {| hc_console := JInt console; hc_page := JInt 0; hc_unhandled := JInt 0; hc_forbiddenNetwork := JInt 0 |}.
Definition attached (console : Z) : result (list Node * Value) :=
  attachHarnessObservations observed_heap (VObject 0) (VObject (length live_heap + 5)) (counters_of console).

Definition aggregate_heap : list Node :=
  match attached 0 with
  | Ok (h, r) =>
      h ++ [array_object true [r; r];
            literal [("schema", VString "zama-szn4.sg5-browser-probe-aggregate.v2"); ("protocolVersion", VString SG5_PROTOCOL_VERSION);
                     ("status", VString "PASS"); ("executionMode", VString "LIVE_SEPOLIA"); ("requiredColdContexts", VString "2");
                     ("passedColdContexts", VString "2"); ("excludedMockContexts", VString "0");
                     ("wrongNetworkScenarioPassed", VBoolean true); ("productionBuildPassed", VBoolean true);
                     ("contexts", VObject (length h)); ("repeatContexts", VObject (length h))]]
  | Throw _ => []
  end.
Definition aggregate_value : Value := VObject (pred (length aggregate_heap)).

Lemma sanitizeObservation_verdict_witness :
  exists h r, sanitizeObservation live_observation LIVE_SEPOLIA "Chrome/1" = Ok (h, r) /\
    get h r "status" = VString "CAPABILITY_COMPLETE" /\ context_passes h r = false.
Proof.
  destruct (sanitizeObservation live_observation LIVE_SEPOLIA "Chrome/1") as [[h r]|e] eqn:E; [|vm_compute in E; discriminate].
  exists h, r. split; [reflexivity|]. destruct (sanitizeObservation_verdict _ _ _ _ _ E) as [[H _] Hp]. exact (conj H Hp).
Defined.

Lemma attachHarnessObservations_verdict_witness :
  exists h r, attached 2 = Ok (h, r) /\ get h r "status" = VString "FAIL" /\
    get h r "failureClassification" = VString "CONSOLE_ERROR".
Proof.
  destruct (attached 2) as [[h r]|e] eqn:E; [|vm_compute in E; discriminate].
  exists h, r. split; [reflexivity|].
  destruct (attachHarnessObservations_verdict observed_heap (VObject 0) (VObject (length live_heap + 5)) (counters_of 2) h r E)
    as (_ & H & _). destruct (H eq_refl) as (Hs & _ & Hf). exact (conj Hs Hf).
Defined.

Lemma assertSanitizedAggregateResult_pass_witness :
  assertSanitizedAggregateResult aggregate_heap aggregate_value = Ok tt /\
  get aggregate_heap aggregate_value "passedColdContexts" = VString "2".
Proof.
  assert (E : assertSanitizedAggregateResult aggregate_heap aggregate_value = Ok tt) by (vm_compute; reflexivity).
  split; [exact E|].
  destruct (assertSanitizedAggregateResult_pass _ _ E ltac:(vm_compute; reflexivity)) as (? & ? & ? & ? & _ & _ & _ & H & _).
  exact H.
Defined.

(** A parser that knows three addresses. *)
Definition known_URL (origin host path : string) : URL :=
  {| url_protocol := "https:"; url_origin := origin; url_host := host; url_port := ""; url_pathname := path;
     url_username := ""; url_password := ""; url_search := ""; url_hash := "" |}.
Definition asset_host : string := "zama-mpc-testnet-public-efd88e2b.s3.eu-west-1.amazonaws.com".
Definition known_parser : UrlParser := {| parse_URL := fun text =>
  if bool_decide (text = origin_relayer +:+ "/v2/keyurl") then Some (known_URL origin_relayer "relayer.testnet.zama.org" "/v2/keyurl")
  else if bool_decide (text = "https://" +:+ asset_host) then Some (known_URL ("https://" +:+ asset_host) asset_host "/")
  else None |}.

Lemma classifyNetworkUrl_registered_witness :
  @classifyNetworkUrl known_parser (origin_relayer +:+ "/v2/keyurl") SG5_ASSET_ORIGIN_AUTHORITY =
    Ok {| cl_origin := OFFICIAL_RELAYER; cl_category := RELAYER_KEYURL_METADATA |} /\
  exists url, secure_at url (Some origin_relayer).
Proof.
  assert (E : @classifyNetworkUrl known_parser (origin_relayer +:+ "/v2/keyurl") SG5_ASSET_ORIGIN_AUTHORITY =
    Ok {| cl_origin := OFFICIAL_RELAYER; cl_category := RELAYER_KEYURL_METADATA |}) by (vm_compute; reflexivity).
  split; [exact E|]. destruct (@classifyNetworkUrl_registered known_parser _ _ _ E) as (url & _ & _ & _ & _ & _ & _ & _ & _ & _ & H & _).
  exists url. exact H.
Defined.
