(* ===== verification/HcuJson.v ===== *)
(** * JSON values and their canonical text: scripts/sg4-hcu-authority-protocol.ts, [canonicalJson]

    The evidence about the limits on homomorphic computation is JSON.  Its digests are
    taken over the canonical text: keys in order, no blanks.  The theorem says that the
    text determines the value up to the order of keys, so a digest stands for one value.
    Numbers are integers, texts are UTF-8, and keys are compared by their bytes, which
    for the keys of the evidence (ASCII) is the order of code units. *)
From Stdlib Require Import ZArith Lia DecimalString Ascii.
From stdpp Require Import base option list sorting strings.
From S2P Require Import Prelude.
Local Open Scope Z_scope.

Inductive Json : Type :=
| jnull
| jbool (b : bool)
| jnumber (z : Z)
| jstring (s : string)
| jarray (items : list Json)
| jobject (fields : list (string * Json)).

Section Json_induction.
Variable P : Json -> Prop.
Hypothesis P_null : P jnull.
Hypothesis P_bool : forall b, P (jbool b).
Hypothesis P_number : forall z, P (jnumber z).
Hypothesis P_string : forall s, P (jstring s).
Hypothesis P_array : forall items, Forall P items -> P (jarray items).
Hypothesis P_object : forall fields, Forall (fun field => P field.2) fields -> P (jobject fields).
Fixpoint Json_nested_ind (value : Json) : P value :=
  match value with
  | jnull => P_null
  | jbool b => P_bool b
  | jnumber z => P_number z
  | jstring s => P_string s
  | jarray items =>
      P_array items ((fix go items : Forall P items :=
        match items with [] => Forall_nil_2 _ | item :: items' => Forall_cons_2 _ _ _ (Json_nested_ind item) (go items') end) items)
  | jobject fields =>
      P_object fields ((fix go fields : Forall (fun field => P field.2) fields :=
        match fields with
        | [] => Forall_nil_2 _
        | (key, item) :: fields' => Forall_cons_2 _ (key, item) _ (Json_nested_ind item) (go fields')
        end) fields)
  end.
End Json_induction.

(** ** Texts *)
Definition hex_char (n : Z) : ascii := ascii_of_nat (Z.to_nat (if n <? 10 then 48 + n else 87 + n)).
Definition quotation : ascii := ascii_of_nat 34.

(** The characters of a text between quotation marks. *)
Definition escape_char (c : ascii) : string :=
  let n := nat_of_ascii c in
  if (n =? 34)%nat then String "\" (String quotation "")
  else if (n =? 92)%nat then "\\"
  else if (n =? 8)%nat then "\b" else if (n =? 9)%nat then "\t" else if (n =? 10)%nat then "\n"
  else if (n =? 12)%nat then "\f" else if (n =? 13)%nat then "\r"
  else if (n <? 32)%nat then
    "\u00" +:+ String (hex_char (Z.of_nat n / 16)) (String (hex_char (Z.of_nat n mod 16)) "")
  else String c "".
Fixpoint escape (s : string) : string :=
  match s with EmptyString => "" | String c s' => escape_char c +:+ escape s' end.

(** [JSON.stringify] of a text. *)
Definition stringify_text (s : string) : string := String quotation (escape s +:+ String quotation "").

(** [parts.join(",")] *)
Fixpoint commas (parts : list string) : string :=
  match parts with
  | [] => ""
  | [part] => part
  | part :: parts' => part +:+ "," +:+ commas parts'
  end.

(** ** The canonical text *)
Definition compare_keys {A} (f g : string * A) : Z := compare_code_units f.1 g.1.

Fixpoint canonicalJson (value : Json) : string :=
  match value with
  | jnull => "null"
  | jbool true => "true"
  | jbool false => "false"
  | jnumber z => Z_toString z
  | jstring s => stringify_text s
  | jarray items => "[" +:+ commas (map canonicalJson items) +:+ "]"
  | jobject fields =>
      "{" +:+ commas (map (fun field => stringify_text field.1 +:+ ":" +:+ field.2)
                          (js_sort compare_keys (map (fun field => (field.1, canonicalJson field.2)) fields))) +:+ "}"
  end.

(** ** Access *)
(** [key in value], [value[key]] on a plain object. *)
Definition json_field (value : Json) (key : string) : option Json :=
  match value with jobject fields => map_get key fields | _ => None end.
Definition json_items (value : Json) : option (list Json) :=
  match value with jarray items => Some items | _ => None end.
Definition isObject (value : Json) : bool := match value with jobject _ => true | _ => false end.

(** * Properties *)

(** ** The text is unambiguous *)
Definition unescape (s : string) : option (ascii * string) :=
  match s with
  | String a rest =>
      if (nat_of_ascii a =? 92)%nat then
        match rest with
        | String b rest' =>
            let n := nat_of_ascii b in
            if (n =? 34)%nat then Some (quotation, rest') else if (n =? 92)%nat then Some (b, rest')
            else if (n =? 98)%nat then Some (ascii_of_nat 8, rest') else if (n =? 116)%nat then Some (ascii_of_nat 9, rest')
            else if (n =? 110)%nat then Some (ascii_of_nat 10, rest') else if (n =? 102)%nat then Some (ascii_of_nat 12, rest')
            else if (n =? 114)%nat then Some (ascii_of_nat 13, rest')
            else match rest' with
                 | String _ (String _ (String h (String l rest''))) =>
                     Some (ascii_of_nat (Z.to_nat (16 * hex_digit_value h + hex_digit_value l)), rest'')
                 | _ => None
                 end
        | EmptyString => None
        end
      else if (nat_of_ascii a =? 34)%nat then None else Some (a, rest)
  | EmptyString => None
  end.

Lemma unescape_char c rest : unescape (escape_char c +:+ rest) = Some (c, rest).
Proof. destruct c as [[] [] [] [] [] [] [] []]; reflexivity. Qed.

Lemma escape_inj s t r r' :
  escape s +:+ String quotation r = escape t +:+ String quotation r' -> s = t /\ r = r'.
Proof.
  revert t. induction s as [|c s IH]; intros [|d t]; cbn [escape]; rewrite ?string_app_assoc; intros E.
  - by injection E as ->.
  - apply (f_equal unescape) in E. by rewrite unescape_char in E.
  - apply (f_equal unescape) in E. by rewrite unescape_char in E.
  - apply (f_equal unescape) in E. rewrite !unescape_char in E. injection E as -> E. by destruct (IH t E) as [-> ->].
Qed.

Lemma stringify_text_inj s t r r' : stringify_text s +:+ r = stringify_text t +:+ r' -> s = t /\ r = r'.
Proof.
  unfold stringify_text. rewrite !append_cons, !string_app_assoc, !append_cons. intros [= E]. by apply escape_inj.
Qed.

(** A text that begins with a character outside [p], or is empty. *)
Definition stops (p : ascii -> bool) (s : string) : Prop :=
  match s with String c _ => p c = false | EmptyString => True end.

Lemma prefix_inj p a b r r' :
  string_forall p a = true -> string_forall p b = true -> stops p r -> stops p r' -> a +:+ r = b +:+ r' -> a = b /\ r = r'.
Proof.
  revert b. induction a as [|c a IH]; intros [|d b] Ha Hb Hr Hr' E.
  - done.
  - rewrite append_cons in E. change ("" +:+ r) with r in E. subst r. cbn in Hr, Hb. bool_to_prop. congruence.
  - rewrite append_cons in E. change ("" +:+ r') with r' in E. subst r'. cbn in Hr', Ha. bool_to_prop. congruence.
  - rewrite !append_cons in E. injection E as -> E. cbn in Ha, Hb. bool_to_prop. destruct (IH b) as [-> ->]; done.
Qed.

Definition is_number_char (c : ascii) : bool := is_digit c || Ascii.eqb c "-".

Lemma Z_toString_chars z : string_forall is_number_char (Z_toString z) = true /\ Z_toString z <> "".
Proof.
  assert (H : forall w, 0 <= w -> string_forall is_number_char (Z_toString w) = true /\ Z_toString w <> "").
  { intros w Hw. pose proof (Z_toString_digits w Hw) as Hd. unfold matches_digits in Hd. bool_to_prop. split.
    - eapply string_forall_impl; [|done]. intros c Hc. unfold is_number_char. by rewrite Hc.
    - by intros E; rewrite E in *. }
  destruct (Z.le_gt_cases 0 z) as [Hz|Hz]; [by apply H|].
  destruct z as [|p|p]; try lia. destruct (H (Z.pos p) ltac:(lia)) as [Hf _].
  change (Z_toString (Z.neg p)) with (String "-" (NilZero.string_of_uint (Pos.to_uint p))). split; [|done].
  change (Z_toString (Z.pos p)) with (NilZero.string_of_uint (Pos.to_uint p)) in Hf. cbn [string_forall]. by rewrite Hf.
Qed.

(** ** Printing without sorting *)
Definition print_field (print : Json -> string) (field : string * Json) : string :=
  stringify_text field.1 +:+ ":" +:+ print field.2.

Fixpoint print (value : Json) : string :=
  match value with
  | jarray items => "[" +:+ commas (map print items) +:+ "]"
  | jobject fields => "{" +:+ commas (map (print_field print) fields) +:+ "}"
  | _ => canonicalJson value
  end.

(** What may follow a value. *)
Definition ends (r : string) : Prop := stops is_number_char r.

Definition unambiguous {A} (p : A -> string) (x : A) : Prop :=
  forall y r r', ends r -> ends r' -> p x +:+ r = p y +:+ r' -> x = y /\ r = r'.

(** A printed element never begins like the end of its list. *)
Definition starts_not {A} (p : A -> string) (c : ascii) : Prop := forall x, exists d s, p x = String d s /\ d <> c.

Lemma commas_cons part parts : commas (part :: parts) = part +:+ match parts with [] => "" | _ => "," +:+ commas parts end.
Proof. destruct parts as [|q parts]; cbn [commas]; [|done]. induction part as [|c part IH]; [done|]. by rewrite append_cons, <- IH. Qed.

Lemma commas_inj {A} (p : A -> string) c xs ys r r' :
  is_number_char c = false -> c <> ","%char -> starts_not p c -> Forall (unambiguous p) xs ->
  commas (map p xs) +:+ String c r = commas (map p ys) +:+ String c r' -> xs = ys /\ r = r'.
Proof.
  intros Hc Hcomma Hstart Hxs. revert ys. induction Hxs as [|x xs Hx Hxs IH]; intros [|y ys] E.
  - by injection E as ->.
  - exfalso. destruct (Hstart y) as (d & s & Hd & Hne). cbn [map] in E. rewrite commas_cons, Hd, !append_cons in E.
    injection E as ->. done.
  - exfalso. destruct (Hstart x) as (d & s & Hd & Hne). cbn [map] in E. rewrite commas_cons, Hd, !append_cons in E.
    injection E as ->. done.
  - cbn [map] in E. rewrite !commas_cons, !string_app_assoc in E.
    apply Hx in E as [-> E]; [|by destruct xs|by destruct ys].
    destruct xs as [|x' xs], ys as [|y' ys].
    + by injection E as ->.
    + exfalso. injection E as Ec _. done.
    + exfalso. injection E as Ec _. done.
    + cbn [map] in E. rewrite !string_app_assoc in E. injection E as E. by destruct (IH (y' :: ys) E) as [[= -> ->] ->].
Qed.

(** The first character tells the constructors apart. *)
Definition head_of (value : Json) : ascii :=
  match value with
  | jnull => "n" | jbool true => "t" | jbool false => "f" | jnumber _ => "0" | jstring _ => quotation
  | jarray _ => "[" | jobject _ => "{"
  end.
Definition head_char (c : ascii) : ascii := if is_number_char c then "0"%char else c.

Lemma print_head value : exists c s, print value = String c s /\ head_char c = head_of value.
Proof.
  destruct value as [|[]|z|s|items|fields]; cbn [print canonicalJson]; try (by do 2 eexists).
  destruct (Z_toString_chars z) as [Hz Hn]. destruct (Z_toString z) as [|c s]; [done|].
  exists c, s. split; [done|]. cbn in Hz. unfold head_char. apply andb_prop in Hz as [Hz _]. by rewrite Hz.
Qed.

Lemma print_starts c : c ∈ ["]"%char; "}"%char] -> starts_not print c.
Proof.
  intros Hc value. destruct (print_head value) as (d & s & Hs & Hd). exists d, s. split; [done|]. intros ->.
  rewrite !elem_of_cons in Hc. destruct Hc as [->|[->|[]%elem_of_nil]]; destruct value as [|[]| | | |]; done.
Qed.

Lemma print_unambiguous value : unambiguous print value.
Proof.
  induction value as [|b|z|s|items IH|fields IH] using Json_nested_ind; intros other r r' Hr Hr' E.
  all: assert (Hh := E); destruct (print_head other) as (d & t & Ht & Hd); rewrite Ht, append_cons in Hh.
  - injection Hh as <- _. destruct other as [|[]| | | |]; try done. injection E as E. exact (conj eq_refl E).
  - destruct b; injection Hh as <- _; destruct other as [|[]| | | |]; try done; injection E as E; exact (conj eq_refl E).
  - destruct (Z_toString_chars z) as [Hz Hn]. cbn [print canonicalJson] in E, Hh.
    destruct (Z_toString z) as [|c s] eqn:Ez; [done|]. rewrite append_cons in Hh. injection Hh as <- _.
    cbn in Hz. apply andb_prop in Hz as [Hz _]. destruct other as [|[]|w| | |]; unfold head_char in Hd; try (rewrite Hz in Hd; done).
    destruct (prefix_inj is_number_char (Z_toString z) (Z_toString w) r r') as [Hzw ->];
      [by apply Z_toString_chars|by apply Z_toString_chars|done|done|by rewrite Ez|].
    by apply Z_toString_inj in Hzw as ->.
  - injection Hh as <- _. destruct other as [|[]| |u| |]; try done. cbn [print canonicalJson] in E.
    by apply stringify_text_inj in E as [-> ->].
  - injection Hh as <- _. destruct other as [|[]| | |others|]; try done. cbn [print] in E.
    rewrite !append_cons, !string_app_assoc in E. injection E as E.
    apply (commas_inj print "]" items others) in E as [-> ->]; [done..|apply print_starts; by left|done].
  - injection Hh as <- _. destruct other as [|[]| | | |others]; try done. cbn [print] in E.
    rewrite !append_cons, !string_app_assoc in E. injection E as E.
    apply (commas_inj (print_field print) "}" fields others) in E as [-> ->]; [done..|by do 2 eexists|].
    eapply Forall_impl; [exact IH|]. intros [k v] Hv [k' v'] q q' Hq Hq' Ef. unfold print_field in Ef. cbn in Ef, Hv.
    rewrite !string_app_assoc in Ef. apply stringify_text_inj in Ef as [-> Ef]. injection Ef as Ef.
    by destruct (Hv _ _ _ Hq Hq' Ef) as [-> ->].
Qed.

(** ** Up to the order of keys *)
Inductive well_formed : Json -> Prop :=
| wf_null : well_formed jnull
| wf_bool b : well_formed (jbool b)
| wf_number z : well_formed (jnumber z)
| wf_string s : well_formed (jstring s)
| wf_array items : (forall v, v ∈ items -> well_formed v) -> well_formed (jarray items)
| wf_object fields :
    NoDup fields.*1 -> (forall k v, (k, v) ∈ fields -> well_formed v) -> well_formed (jobject fields).

(** The same value: arrays element by element, objects key by key. *)
Inductive same : Json -> Json -> Prop :=
| same_null : same jnull jnull
| same_bool b : same (jbool b) (jbool b)
| same_number z : same (jnumber z) (jnumber z)
| same_string s : same (jstring s) (jstring s)
| same_array items others : Forall2 same items others -> same (jarray items) (jarray others)
| same_object fields others :
    (forall k, is_Some (map_get k fields) <-> is_Some (map_get k others)) ->
    (forall k v w, map_get k fields = Some v -> map_get k others = Some w -> same v w) ->
    same (jobject fields) (jobject others).

Fixpoint sort_keys (value : Json) : Json :=
  match value with
  | jarray items => jarray (map sort_keys items)
  | jobject fields => jobject (js_sort compare_keys (map (fun field => (field.1, sort_keys field.2)) fields))
  | _ => value
  end.

Lemma js_sort_map {A B} (f : A -> B) (cmp : A -> A -> Z) (cmp' : B -> B -> Z) l :
  (forall x y, cmp' (f x) (f y) = cmp x y) -> js_sort cmp' (map f l) = map f (js_sort cmp l).
Proof.
  intros Hf. induction l as [|x l IH]; [done|]. cbn [map js_sort]. rewrite IH. generalize (js_sort cmp l). clear IH.
  intros k. induction k as [|y k IH]; [done|]. cbn [map js_insert]. rewrite Hf. destruct (_ <=? 0); [done|]. cbn. by rewrite IH.
Qed.

Lemma canonicalJson_print value : canonicalJson value = print (sort_keys value).
Proof.
  induction value as [| | | |items IH|fields IH] using Json_nested_ind; try done; cbn [canonicalJson sort_keys print].
  - do 3 f_equal. rewrite map_map. by apply map_ext_Forall.
  - f_equal. f_equal. f_equal.
    assert (Hm : map (fun field => (field.1, canonicalJson field.2)) fields =
                 map (fun field => (field.1, print field.2)) (map (fun field => (field.1, sort_keys field.2)) fields)).
    { rewrite map_map. apply map_ext_Forall. eapply Forall_impl; [exact IH|]. intros [k v] Hv. cbn in *. by rewrite Hv. }
    rewrite Hm, (js_sort_map (fun field => (field.1, print field.2)) compare_keys) by done. by rewrite map_map.
Qed.

Lemma map_get_Permutation {A} (l l' : list (string * A)) k : NoDup l.*1 -> l ≡ₚ l' -> map_get k l = map_get k l'.
Proof.
  intros Hnd Hp. assert (Hnd' : NoDup l'.*1) by (by rewrite <- Hp).
  destruct (map_get k l) as [v|] eqn:E.
  - symmetry. apply map_get_elem; [done|]. rewrite <- Hp. by apply map_get_Some_elem.
  - destruct (map_get k l') as [v|] eqn:E'; [|done]. apply map_get_Some_elem in E'. rewrite <- Hp in E'.
    apply map_get_elem in E'; [congruence|done].
Qed.

Lemma map_get_map {A B} (f : A -> B) (l : list (string * A)) k :
  map_get k (map (fun field => (field.1, f field.2)) l) = f <$> map_get k l.
Proof. induction l as [|[k' v] l IH]; [done|]. cbn. by case_decide. Qed.

Lemma map_keys {A B} (f : A -> B) (l : list (string * A)) : (map (fun field => (field.1, f field.2)) l).*1 = l.*1.
Proof. induction l as [|[k v] l IH]; [done|]. cbn. by f_equal. Qed.

Lemma compare_code_units_antisym s t : compare_code_units s t <= 0 -> compare_code_units t s <= 0 -> s = t.
Proof.
  unfold compare_code_units. rewrite (String.compare_antisym s t). destruct (String.compare t s) eqn:E; intros H1 H2; [|by destruct H1|by destruct H2].
  symmetry. by apply String.compare_eq_iff.
Qed.

#[export] Instance compare_keys_order {A} : Comparator (@compare_keys A).
Proof. split; unfold compare_keys; intros x y; [apply cmp_total|intros z; apply cmp_trans]. Qed.

(** Sorting objects of the same keys and values gives the same list. *)
Lemma sort_fields_eq {A} (l l' : list (string * A)) :
  NoDup l.*1 -> NoDup l'.*1 -> (forall k, map_get k l = map_get k l') -> js_sort compare_keys l = js_sort compare_keys l'.
Proof.
  intros Hnd Hnd' Hget.
  assert (Hp : l ≡ₚ l').
  { apply NoDup_Permutation; [by eapply NoDup_fmap_1|by eapply NoDup_fmap_1|]. intros [k v]. split; intros Hin.
    - apply map_get_Some_elem. rewrite <- Hget. by apply map_get_elem.
    - apply map_get_Some_elem. rewrite Hget. by apply map_get_elem. }
  eapply StronglySorted_unique_strong; [|apply (js_sort_sorted compare_keys)|apply (js_sort_sorted compare_keys)|].
  - intros [k v] [k' v'] Hx Hy H1 H2. rewrite elem_of_js_sort in Hx, Hy. rewrite <- Hp in Hy. cbn in H1, H2.
    assert (k = k') as <- by (by apply compare_code_units_antisym).
    apply map_get_elem in Hx, Hy; [|done..]. congruence.
  - by rewrite !js_sort_Permutation.
Qed.

Lemma sort_keys_get fields k :
  NoDup fields.*1 ->
  map_get k (js_sort compare_keys (map (fun field => (field.1, sort_keys field.2)) fields)) = sort_keys <$> map_get k fields.
Proof.
  intros Hnd. rewrite (map_get_Permutation _ (map (fun field => (field.1, sort_keys field.2)) fields)).
  - apply map_get_map.
  - rewrite js_sort_Permutation. by rewrite map_keys.
  - apply js_sort_Permutation.
Qed.

Lemma sort_keys_same a b : well_formed a -> well_formed b -> sort_keys a = sort_keys b -> same a b.
Proof.
  revert b. induction a as [|x|z|s|items IH|fields IH] using Json_nested_ind; intros b Ha Hb E;
    destruct b as [|y|w|t|others|others]; try discriminate E; cbn in E; simplify_eq; try constructor.
  - inversion Ha as [| | | |? Hi|]; inversion Hb as [| | | |? Ho|]; subst. clear Ha Hb. revert others E Ho.
    induction IH as [|x xs Hx Hxs IHxs]; intros [|y ys] E Ho; try discriminate E; constructor; injection E as E1 E2.
    + apply Hx; [apply Hi; by left|apply Ho; by left|done].
    + apply IHxs; [intros v Hv; apply Hi; by right|done|intros v Hv; apply Ho; by right].
  - inversion Ha as [| | | | |? Hnf]; inversion Hb as [| | | | |? Hno]; subst.
    intros k. pose proof (sort_keys_get fields k Hnf) as G1. pose proof (sort_keys_get others k Hno) as G2.
    rewrite E, G2 in G1. destruct (map_get k fields), (map_get k others); try done; split; intros [? [=]]; eauto.
  - inversion Ha as [| | | | |? Hnf Hif]; inversion Hb as [| | | | |? Hno Hio]; subst. intros k v w Hv Hw.
    pose proof (sort_keys_get fields k Hnf) as G1. pose proof (sort_keys_get others k Hno) as G2.
    rewrite E, G2, Hv, Hw in G1. injection G1 as G1. apply map_get_Some_elem in Hv, Hw.
    rewrite Forall_forall in IH. apply (IH (k, v)); eauto.
Qed.

Lemma same_sort_keys a b : well_formed a -> well_formed b -> same a b -> sort_keys a = sort_keys b.
Proof.
  revert b. induction a as [|x|z|s|items IH|fields IH] using Json_nested_ind; intros b Ha Hb E;
    inversion E as [| | | |? others Hs|? others Hk Hv]; subst; try done; cbn.
  - f_equal. inversion Ha as [| | | |? Hi|]; inversion Hb as [| | | |? Ho|]; subst. clear Ha Hb E.
    revert IH Hi Ho. induction Hs as [|x y xs ys Hxy _ IHs]; intros IH Hi Ho; [done|].
    inversion IH as [|?? Hx Hxs]; subst. cbn. f_equal.
    + apply Hx; [apply Hi; by left|apply Ho; by left|done].
    + apply IHs; [done|intros v Hv; apply Hi; by right|intros v Hv; apply Ho; by right].
  - f_equal. inversion Ha as [| | | | |? Hnf Hif]; inversion Hb as [| | | | |? Hno Hio]; subst.
    apply sort_fields_eq; [by rewrite map_keys..|]. intros k. rewrite !map_get_map. specialize (Hk k).
    destruct (map_get k fields) as [v|] eqn:Ev, (map_get k others) as [w|] eqn:Ew; cbn.
    + f_equal. specialize (Hv k v w Ev Ew). apply map_get_Some_elem in Ev, Ew. rewrite Forall_forall in IH.
      apply (IH (k, v)); eauto.
    + destruct (proj1 Hk) as [? [=]]; eauto.
    + destruct (proj2 Hk) as [? [=]]; eauto.
    + done.
Qed.

(** C32: the canonical text stands for the value.  Two values (whose objects have distinct
    keys, as in any program) have the same canonical text exactly when they are the same
    up to the order of keys; so a digest of the text covers every field. *)
Theorem canonicalJson_same a b : well_formed a -> well_formed b -> (canonicalJson a = canonicalJson b <-> same a b).
Proof.
  intros Ha Hb. rewrite !canonicalJson_print. split.
  - intros E. apply sort_keys_same; [done|done|].
    apply (f_equal (fun s => s +:+ "")) in E. by apply print_unambiguous in E as [? _].
  - intros Hs. f_equal. by apply same_sort_keys.
Qed.

Example canonical_text :
  canonicalJson (jobject [("b", jarray [jnumber 1; jnull]); ("a", jstring "x y")]) =
  canonicalJson (jobject [("a", jstring "x y"); ("b", jarray [jnumber 1; jnull])]).
Proof. reflexivity. Qed.

Lemma canonicalJson_same_witness :
  let a := jobject [("b", jnumber (-1)); ("a", jstring "x")] in
  let b := jobject [("a", jstring "x"); ("b", jnumber (-1))] in
  well_formed a /\ well_formed b /\ same a b.
Proof.
  assert (H : forall k v l, (k, v) ∈ l -> l = [("b", jnumber (-1)); ("a", jstring "x")] \/ l = [("a", jstring "x"); ("b", jnumber (-1))] ->
              well_formed v).
  { intros k v l Hin [->| ->]; rewrite !elem_of_cons in Hin; destruct Hin as [[= _ ->]|[[= _ ->]|[]%elem_of_nil]]; constructor. }
  assert (Ha : well_formed (jobject [("b", jnumber (-1)); ("a", jstring "x")])).
  { constructor; [apply (bool_decide_unpack _); vm_compute; exact I|intros k v Hin; eapply H; [exact Hin|by left]]. }
  assert (Hb : well_formed (jobject [("a", jstring "x"); ("b", jnumber (-1))])).
  { constructor; [apply (bool_decide_unpack _); vm_compute; exact I|intros k v Hin; eapply H; [exact Hin|by right]]. }
  split; [exact Ha|]. split; [exact Hb|]. apply (canonicalJson_same _ _ Ha Hb). reflexivity.
Defined.
