(* ===== verification/HcuAbi.v ===== *)
(** * Words of the chain: scripts/sg4-hcu-authority.ts

    The verifier of the limits encodes the arguments of its read-only calls and decodes
    their answers without a contract library: arguments and single-word returns of the
    types [address], [bool] and [uint256], addresses, [uint48] and the packed storage
    word of the limits.  A word is 32 bytes, written as 64 hexadecimal digits. *)
From Stdlib Require Import ZArith Lia Ascii.
From stdpp Require Import base option list strings.
From S2P Require Import Prelude HcuJson.
Local Open Scope Z_scope.

(** ** Hexadecimal texts *)
Fixpoint hex_loop (fuel : nat) (z : Z) (acc : string) : string :=
  match fuel with
  | O => acc
  | S fuel' =>
      let acc := String (hex_char (z mod 16)) acc in
      if z <? 16 then acc else hex_loop fuel' (z / 16) acc
  end.

(** [z.toString(16)] for a non-negative [z]; the digits of [z] are at most its bits. *)
Definition Z_toHex (z : Z) : string := hex_loop (S (Z.to_nat (Z.log2 z))) z "".

Fixpoint repeat_char (n : nat) (c : ascii) : string :=
  match n with O => "" | S n' => String c (repeat_char n' c) end.

(** [s.padStart(64, "0")] *)
Definition pad_word (s : string) : string := repeat_char (64 - String.length s) "0" +:+ s.

(** [s.replace(/^0x/u, "")] *)
Definition strip_0x (s : string) : string :=
  match s with String "0" (String "x" rest) => rest | _ => s end.

Definition is_lower_hex (c : ascii) : bool :=
  let n := nat_of_ascii c in is_digit c || ((97 <=? n) && (n <=? 102))%nat.
(** The pattern of exactly [n] lower-case hexadecimal digits. *)
Definition lower_hex (n : nat) (s : string) : bool := (String.length s =? n)%nat && string_forall is_lower_hex s.

(** [s.slice(n)] *)
Fixpoint drop_chars (n : nat) (s : string) : string :=
  match n, s with S n', String _ s' => drop_chars n' s' | _, _ => s end.

(** ** Arguments and returns *)
Definition encode_argument (type : string) (value : Json) : result string :=
  if bool_decide (type = "address") then
    match value with
    | jstring s => if matches_hex 40 s then Ok (pad_word (strip_0x (toLowerCase s)))
                   else throw_new "ABI encoding: malformed address argument"
    | _ => throw_new "ABI encoding: malformed address argument"
    end
  else if bool_decide (type = "uint256") then
    match value with
    | jstring s => if matches_digits s then z ← BigInt_of_digits s; Ok (pad_word (Z_toHex z))
                   else throw_new "ABI encoding: uint256 argument must be a decimal string"
    | _ => throw_new "ABI encoding: uint256 argument must be a decimal string"
    end
  else if bool_decide (type = "bool") then
    match value with
    | jbool b => Ok (pad_word (Z_toHex (if b then 1 else 0)))
    | _ => throw_new "ABI encoding: bool argument must be a boolean"
    end
  else throw_new ("ABI encoding: unsupported argument type " +:+ type).

Fixpoint encode_arguments (types : list string) (values : list Json) (encoded : string) : result string :=
  match types, values with
  | type :: types', value :: values' =>
      word ← encode_argument type value;
      encode_arguments types' values' (encoded +:+ word)
  | _, _ => Ok encoded
  end.

Definition encodeAbiArguments (types : list string) (values : list Json) : result string :=
  fail_if (negb (length types =? length values)%nat) "ABI encoding: argument count mismatch" ;;
  encode_arguments types values "".

(** [{ ok: true, value }] or [{ ok: false }] *)
Definition decodeAbiReturn (type : string) (returnData : Json) : option Json :=
  match returnData with
  | jstring text =>
      let hex := strip_0x (toLowerCase text) in
      if negb (lower_hex 64 hex) then None
      else if bool_decide (type = "bool") then
        if bool_decide (hex = repeat_char 63 "0" +:+ "0") || bool_decide (hex = repeat_char 63 "0" +:+ "1")
        then Some (jbool (endsWith "1" hex)) else None
      else if bool_decide (type = "address") then
        if startsWith (repeat_char 24 "0") hex then Some (jstring ("0x" +:+ drop_chars 24 hex)) else None
      else if bool_decide (type = "uint256") then Some (jstring (Z_toString (hex_value 0 hex)))
      else None
  | _ => None
  end.

(** ** Words *)
Definition decodeAddressWord (word : Json) : option string :=
  match word with
  | jstring text =>
      let hex := strip_0x (toLowerCase text) in
      if negb (lower_hex 64 hex) then None
      else if negb (startsWith (repeat_char 24 "0") hex) then None
      else let address := drop_chars 24 hex in
           if bool_decide (address = repeat_char 40 "0") then None else Some ("0x" +:+ address)
  | _ => None
  end.

Definition decodeUint256 (returnData : Json) : option Z :=
  match returnData with
  | jstring text =>
      let hex := strip_0x (toLowerCase text) in if lower_hex 64 hex then Some (hex_value 0 hex) else None
  | _ => None
  end.

Definition decodeUint48 (returnData : Json) : option Z :=
  match decodeUint256 returnData with
  | Some decoded => if 2 ^ 48 <=? decoded then None else Some decoded
  | None => None
  end.

Definition PACKED_FIELDS : list string :=
  ["globalHCUCapPerBlock"; "usedBlockHCU"; "lastSeenBlockNumber"; "maxHCUDepthPerTx"; "maxHCUPerTx"].

Definition decodePackedHcuStorageWord (returnData : Json) : option (list (string * Z)) :=
  match returnData with
  | jstring text =>
      if negb (matches_hex 64 text) then None
      else
        let word := BigInt_of_hex text in
        if negb (Z.shiftr word 240 =? 0) then None
        else
          let mask := Z.shiftl 1 48 - 1 in
          Some (imap (fun index name => (name, Z.land (Z.shiftr word (Z.of_nat index * 48)) mask)) PACKED_FIELDS)
  | _ => None
  end.

(** [hexCodeToBuffer]: the bytes of a text of code. *)
Fixpoint hex_bytes (s : string) : list Z :=
  match s with
  | String h (String l rest) => (16 * hex_digit_value h + hex_digit_value l) :: hex_bytes rest
  | _ => []
  end.
Definition hexCodeToBuffer (code : Json) : option (list Z) :=
  match code with
  | jstring text =>
      let hex := strip_0x (toLowerCase text) in
      if (String.length hex =? 0)%nat || negb (Nat.even (String.length hex)) || negb (string_forall is_lower_hex hex)
      then None else Some (hex_bytes hex)
  | _ => None
  end.

(** * Properties *)

(** ** Digits *)
Lemma hex_char_value n : 0 <= n < 16 -> hex_digit_value (hex_char n) = n /\ is_lower_hex (hex_char n) = true.
Proof.
  intros Hn. assert (H : forall k : nat, (k < 16)%nat -> hex_digit_value (hex_char (Z.of_nat k)) = Z.of_nat k /\
    is_lower_hex (hex_char (Z.of_nat k)) = true) by (intros k Hk; do 16 (destruct k as [|k]; [done|]); lia).
  specialize (H (Z.to_nat n)). rewrite Z2Nat.id in H by lia. apply H. lia.
Qed.

Lemma hex_value_app acc s t : hex_value acc (s +:+ t) = hex_value (hex_value acc s) t.
Proof. revert acc. induction s as [|c s IH]; intros acc; [done|]. rewrite append_cons. cbn [hex_value]. apply IH. Qed.

Lemma hex_value_zeros n s : hex_value 0 (repeat_char n "0" +:+ s) = hex_value 0 s.
Proof. induction n as [|n IH]; [done|]. cbn [repeat_char]. rewrite append_cons. cbn [hex_value]. exact IH. Qed.

Lemma length_repeat n c : String.length (repeat_char n c) = n.
Proof. induction n as [|n IH]; [done|]. cbn. by rewrite IH. Qed.

Lemma lower_repeat n : string_forall is_lower_hex (repeat_char n "0") = true.
Proof. induction n as [|n IH]; [done|]. exact IH. Qed.

(** The digits of a number: lower case, of its value, and as many as it needs. *)
Lemma hex_loop_digits fuel z acc :
  0 <= z < 2 ^ Z.of_nat fuel -> (0 < fuel)%nat ->
  exists digits, hex_loop fuel z acc = digits +:+ acc /\ string_forall is_lower_hex digits = true /\ hex_value 0 digits = z /\
    forall n, (0 < n)%nat -> (z < 16 ^ Z.of_nat n <-> (String.length digits <= n)%nat).
Proof.
  revert z acc. induction fuel as [|fuel IH]; intros z acc Hz Hf; [lia|]. cbn [hex_loop].
  pose proof (Z.mod_pos_bound z 16 ltac:(lia)) as Hm. destruct (hex_char_value (z mod 16) Hm) as [Hv Hl].
  destruct (Z.ltb_spec z 16) as [Hs|Hs].
  - exists (String (hex_char (z mod 16)) ""). split; [done|]. rewrite Z.mod_small in * by lia.
    split; [cbn; by rewrite Hl|]. split; [cbn; lia|]. intros n Hn. cbn [String.length]. split; [lia|intros _].
    apply Z.lt_le_trans with 16; [lia|]. change 16 with (16 ^ 1) at 1. apply Z.pow_le_mono_r; lia.
  - pose proof (Z.div_mod z 16 ltac:(lia)) as Hd.
    assert (Hq : 0 <= z / 16 < 2 ^ Z.of_nat fuel).
    { split; [apply Z.div_pos; lia|]. apply Z.div_lt_upper_bound; [lia|].
      rewrite Nat2Z.inj_succ, Z.pow_succ_r in Hz by lia. lia. }
    assert (Hf' : (0 < fuel)%nat).
    { destruct fuel; [|lia]. cbn in Hq. assert (1 <= z / 16) by (apply Z.div_le_lower_bound; lia). lia. }
    destruct (IH (z / 16) (String (hex_char (z mod 16)) acc) Hq Hf') as (digits & -> & Hlow & Hval & Hlen).
    exists (digits +:+ String (hex_char (z mod 16)) ""). split; [by rewrite string_app_assoc|].
    split; [rewrite string_forall_app, Hlow; cbn; by rewrite Hl|].
    split; [rewrite hex_value_app, Hval; cbn [hex_value]; lia|].
    intros n Hn. rewrite length_append. cbn [String.length]. destruct n as [|[|n]]; [lia| |].
    + change (16 ^ Z.of_nat 1) with 16. split; [lia|]. intros Hle. exfalso.
      assert (Hz0 : z / 16 < 1); [|assert (1 <= z / 16) by (apply Z.div_le_lower_bound; lia); lia].
      destruct digits as [|c digits]; [cbn in Hval; lia|cbn in Hle; lia].
    + rewrite Nat2Z.inj_succ, Z.pow_succ_r by lia.
      assert (He : z < 16 * 16 ^ Z.of_nat (S n) <-> z / 16 < 16 ^ Z.of_nat (S n)).
      { split; [intros; apply Z.div_lt_upper_bound; lia|intros Hlt]. pose proof (Z.mul_div_le z 16 ltac:(lia)). lia. }
      rewrite He, (Hlen (S n)) by lia. lia.
Qed.

Lemma append_nil_r (s : string) : s +:+ "" = s.
Proof. induction s as [|c s IH]; [done|]. by rewrite append_cons, IH. Qed.

Lemma Z_toHex_digits z :
  0 <= z -> string_forall is_lower_hex (Z_toHex z) = true /\ hex_value 0 (Z_toHex z) = z /\
  forall n, (0 < n)%nat -> (z < 16 ^ Z.of_nat n <-> (String.length (Z_toHex z) <= n)%nat).
Proof.
  intros Hz. destruct (hex_loop_digits (S (Z.to_nat (Z.log2 z))) z "") as (digits & E & H); [|lia|].
  - split; [done|]. rewrite Nat2Z.inj_succ, Z2Nat.id by apply Z.log2_nonneg.
    destruct (Z.eq_dec z 0) as [->|]; [done|]. apply Z.log2_spec. lia.
  - unfold Z_toHex. rewrite E, append_nil_r. exact H.
Qed.

(** ** Words *)
Lemma length_pad_word s : String.length (pad_word s) = Nat.max 64 (String.length s).
Proof. unfold pad_word. rewrite length_append, length_repeat. lia. Qed.

Lemma lower_pad_word s :
  string_forall is_lower_hex s = true -> (String.length s <= 64)%nat -> lower_hex 64 (pad_word s) = true.
Proof.
  intros Hs Hl. unfold lower_hex. rewrite length_pad_word, Nat.max_l by done. cbn [Nat.eqb andb].
  unfold pad_word. by rewrite string_forall_app, lower_repeat, Hs.
Qed.

Lemma lower_hex_fixed s : string_forall is_lower_hex s = true -> toLowerCase s = s.
Proof.
  induction s as [|c s IH]; [done|]. cbn. intros [Hc Hs]%andb_prop. rewrite (IH Hs). f_equal.
  destruct c as [[] [] [] [] [] [] [] []]; by vm_compute in Hc.
Qed.

Lemma strip_lower_word w : lower_hex 64 w = true -> strip_0x (toLowerCase ("0x" +:+ w)) = w.
Proof.
  intros [_ Hw]%andb_prop. change (toLowerCase ("0x" +:+ w)) with (String "0" (String "x" (toLowerCase w))).
  cbn [strip_0x]. by apply lower_hex_fixed.
Qed.

Lemma startsWith_app p s : startsWith p (p +:+ s) = true.
Proof. unfold startsWith. induction p as [|c p IH]; [by destruct s|]. rewrite append_cons. cbn. by destruct (ascii_dec c c). Qed.

Lemma drop_chars_app p s : drop_chars (String.length p) (p +:+ s) = s.
Proof. induction p as [|c p IH]; [by destruct s|]. rewrite append_cons. exact IH. Qed.

(** ** Addresses *)
Lemma is_hex_digit_lower_hex c : is_hex_digit c = true -> is_lower_hex (ascii_to_lower c) = true.
Proof. by destruct c as [[] [] [] [] [] [] [] []]. Qed.

(** One bit of a character at a time, dropping the cases that are false. *)
Ltac char_cases c H :=
  let b0 := fresh in let b1 := fresh in let b2 := fresh in let b3 := fresh in
  let b4 := fresh in let b5 := fresh in let b6 := fresh in let b7 := fresh in
  destruct c as [b0 b1 b2 b3 b4 b5 b6 b7];
  destruct b0; try discriminate H; destruct b1; try discriminate H; destruct b2; try discriminate H;
  destruct b3; try discriminate H; destruct b4; try discriminate H; destruct b5; try discriminate H;
  destruct b6; try discriminate H; destruct b7; try discriminate H.

Lemma matches_hex_0x n s :
  matches_hex n s = true -> exists body, s = "0x" +:+ body /\ String.length body = n /\ string_forall is_hex_digit body = true.
Proof.
  destruct s as [|c s]; intros H; [discriminate|]. char_cases c H.
  destruct s as [|c s]; [discriminate|]. char_cases c H. exists s. split; [done|].
  apply andb_prop in H as [Hl Hb]. apply Nat.eqb_eq in Hl. done.
Qed.

Lemma lower_address s :
  matches_hex 40 s = true ->
  exists body, toLowerCase s = "0x" +:+ body /\ String.length body = 40%nat /\ string_forall is_lower_hex body = true.
Proof.
  intros (body & -> & Hl & Hb)%matches_hex_0x. exists (toLowerCase body). split; [done|].
  revert Hl Hb. generalize 40%nat. induction body as [|c body IH]; intros n Hl Hb; [done|].
  cbn in Hb. apply andb_prop in Hb as [Hc Hb]. cbn [String.length] in Hl. destruct (IH (pred n)) as [H1 H2]; [lia|done|].
  cbn [toLowerCase String.length string_forall]. rewrite is_hex_digit_lower_hex by done. split; [lia|done].
Qed.

Definition zeros (n : nat) : string := repeat_char n "0".

Lemma pad_address body : String.length body = 40%nat -> pad_word body = zeros 24 +:+ body.
Proof. intros Hl. unfold pad_word. by rewrite Hl. Qed.

(** ** Arguments *)
(** A [uint256] argument that fits its word. *)
Definition fits (type : string) (value : Json) : Prop :=
  type = "uint256" -> forall s z, value = jstring s -> BigInt_of_digits s = Ok z -> z < 2 ^ 256.

(** The canonical spelling of an argument: addresses in lower case, numbers without
    leading zeros. *)
Definition canonical_argument (type : string) (value : Json) : Json :=
  match value with
  | jstring s =>
      if bool_decide (type = "address") then jstring (toLowerCase s)
      else match BigInt_of_digits s with Ok z => jstring (Z_toString z) | Throw _ => value end
  | _ => value
  end.

(** An argument, by its type. *)
Lemma encode_argument_Ok type value word :
  encode_argument type value = Ok word ->
  (exists s body, type = "address" /\ value = jstring s /\ toLowerCase s = "0x" +:+ body /\ String.length body = 40%nat /\
     string_forall is_lower_hex body = true /\ word = zeros 24 +:+ body) \/
  (exists s z, type = "uint256" /\ value = jstring s /\ BigInt_of_digits s = Ok z /\ 0 <= z /\ word = pad_word (Z_toHex z)) \/
  (exists b : bool, type = "bool" /\ value = jbool b /\ word = zeros 63 +:+ (if b then "1" else "0")).
Proof.
  unfold encode_argument. case_bool_decide as Ha.
  { destruct value as [| | |s| |]; try done. destruct (matches_hex 40 s) eqn:Hm; [|done]. intros [= <-]. left.
    destruct (lower_address s Hm) as (body & E & Hl & Hb). exists s, body. rewrite E. cbn [strip_0x]. by rewrite pad_address. }
  case_bool_decide as Hu.
  { destruct value as [| | |s| |]; try done. destruct (matches_digits s) eqn:Hm; [|done]. right. left.
    destruct (BigInt_of_digits_total s Hm) as (z & Hz & Ez). rewrite Ez in H. injection H as <-. by exists s, z. }
  case_bool_decide as Hb; [|done]. destruct value as [|b| | | |]; try done. intros [= <-]. right. right. exists b.
  split; [done|]. split; [done|]. by destruct b.
Qed.

Lemma lower_zeros n s : string_forall is_lower_hex s = true -> lower_hex (n + String.length s) (zeros n +:+ s) = true.
Proof.
  intros Hs. unfold lower_hex, zeros. rewrite length_append, length_repeat, Nat.eqb_refl. cbn [andb].
  by rewrite string_forall_app, lower_repeat, Hs.
Qed.

Lemma word_of_encoding type value text : encodeAbiArguments [type] [value] = Ok text -> encode_argument type value = Ok text.
Proof.
  intros E. apply result_bind_Ok in E as ([] & _ & E). cbn [encode_arguments] in E.
  apply result_bind_Ok in E as (word & Hw & [= <-]). exact Hw.
Qed.

(** C33: a word reads back.  The encoding of one argument, read as a return of the same
    type, is the argument in its canonical spelling: an address in lower case, a boolean,
    a number without leading zeros, provided that the number fits in 256 bits. *)
Theorem decode_encode type value text :
  encodeAbiArguments [type] [value] = Ok text -> fits type value ->
  decodeAbiReturn type (jstring ("0x" +:+ text)) = Some (canonical_argument type value).
Proof.
  intros E Hfits. apply word_of_encoding in E.
  apply encode_argument_Ok in E as [(s & body & -> & -> & Es & Hl & Hb & ->)|[(s & z & -> & -> & Ez & Hz & ->)|(b & -> & -> & ->)]].
  - unfold decodeAbiReturn. assert (Hw : lower_hex 64 (zeros 24 +:+ body) = true).
    { pose proof (lower_zeros 24 body Hb) as H. by rewrite Hl in H. }
    rewrite strip_lower_word, Hw by done. cbn [negb].
    change (bool_decide ("address" = "bool")) with false. change (bool_decide ("address" = "address")) with true. cbn iota.
    unfold zeros. rewrite startsWith_app. cbn [canonical_argument]. change (bool_decide ("address" = "address")) with true. cbn iota.
    by rewrite Es.
  - specialize (Hfits eq_refl s z eq_refl Ez). destruct (Z_toHex_digits z Hz) as (Hlow & Hval & Hlen).
    assert (Hw : lower_hex 64 (pad_word (Z_toHex z)) = true).
    { apply lower_pad_word; [done|]. apply (Hlen 64%nat); [lia|]. change (16 ^ Z.of_nat 64) with (2 ^ 256). done. }
    unfold decodeAbiReturn. rewrite strip_lower_word, Hw by done. cbn [negb].
    change (bool_decide ("uint256" = "bool")) with false. change (bool_decide ("uint256" = "address")) with false.
    change (bool_decide ("uint256" = "uint256")) with true. cbn iota. unfold pad_word. rewrite hex_value_zeros, Hval.
    cbn [canonical_argument]. change (bool_decide ("uint256" = "address")) with false. cbn iota. by rewrite Ez.
  - destruct b; vm_compute; reflexivity.
Qed.

(** The lengths of the words of an encoding. *)
Lemma encode_argument_length type value word :
  encode_argument type value = Ok word -> (64 <= String.length word)%nat /\ (String.length word = 64%nat <-> fits type value).
Proof.
  intros [(s & body & -> & -> & Es & Hl & Hb & ->)|[(s & z & -> & -> & Ez & Hz & ->)|(b & -> & -> & ->)]]%encode_argument_Ok.
  - unfold zeros. rewrite length_append, length_repeat, Hl. split; [lia|]. by split.
  - rewrite length_pad_word. split; [lia|]. destruct (Z_toHex_digits z Hz) as (_ & _ & Hlen).
    specialize (Hlen 64%nat ltac:(lia)). change (16 ^ Z.of_nat 64) with (2 ^ 256) in Hlen. split.
    + intros Hmax _ s' z' [= <-] Ez'. rewrite Ez in Ez'. injection Ez' as <-. apply Hlen. lia.
    + intros Hfits. specialize (Hfits eq_refl s z eq_refl Ez). apply Hlen in Hfits. lia.
  - split; [by destruct b; apply Nat.leb_le|]. split; [by intros _ H|by destruct b].
Qed.

Lemma encode_arguments_length types values encoded text :
  encode_arguments types values encoded = Ok text -> length types = length values ->
  (64 * length types + String.length encoded <= String.length text)%nat /\
  (String.length text = (64 * length types + String.length encoded)%nat <-> Forall2 fits types values).
Proof.
  revert values encoded. induction types as [|type types IH]; intros [|value values] encoded E Hlen; try done.
  - injection E as <-. cbn. split; [lia|]. split; [constructor|lia].
  - cbn [encode_arguments] in E. apply result_bind_Ok in E as (word & Hw & E). apply encode_argument_length in Hw as [Hge Hfit].
    apply IH in E as [Hle Heq]; [|by injection Hlen]. rewrite length_append in *. cbn [length]. split; [lia|].
    rewrite Forall2_cons, <- Hfit, <- Heq. lia.
Qed.

(** the width of an encoding.  Arguments that are accepted take at least one word
    each, and exactly one each when every number fits in 256 bits; a larger number is
    not refused but spills over its word. *)
Theorem encodeAbiArguments_width types values text :
  encodeAbiArguments types values = Ok text ->
  length types = length values /\ (64 * length types <= String.length text)%nat /\
  (String.length text = (64 * length types)%nat <-> Forall2 fits types values).
Proof.
  unfold encodeAbiArguments. intros E. apply result_bind_Ok in E as ([] & Hl%fail_if_Ok & E).
  rewrite negb_false_iff, Nat.eqb_eq in Hl. apply encode_arguments_length in E as [H1 H2]; [|done].
  cbn [String.length] in *. rewrite Nat.add_0_r in *. done.
Qed.

Example width_overflow :
  String.length <$> match encodeAbiArguments ["uint256"] [jstring (Z_toString (2 ^ 256))] with Ok t => Some t | Throw _ => None end
  = Some 65%nat.
Proof. vm_compute. reflexivity. Qed.

(** ** The packed limits *)
Lemma shift_step w k : 0 <= k -> Z.shiftr w ((k + 1) * 48) = Z.shiftr w (k * 48) / 2 ^ 48.
Proof. intros. rewrite Z.mul_add_distr_r, Z.mul_1_l, <- Z.shiftr_shiftr, Z.shiftr_div_pow2 by lia. done. Qed.

(** the storage word of the limits.  A word is decoded exactly when it is 32 bytes
    below 2^240, and then into the five fields in order, each of 48 bits, whose
    positions make up the word. *)
Theorem decodePackedHcuStorageWord_exact text :
  (is_Some (decodePackedHcuStorageWord (jstring text)) <->
     matches_hex 64 text = true /\ Z.shiftr (BigInt_of_hex text) 240 = 0) /\
  (forall fields, decodePackedHcuStorageWord (jstring text) = Some fields ->
     exists a b c d e,
       fields = [("globalHCUCapPerBlock", a); ("usedBlockHCU", b); ("lastSeenBlockNumber", c); ("maxHCUDepthPerTx", d); ("maxHCUPerTx", e)] /\
       Forall (fun v => 0 <= v < 2 ^ 48) [a; b; c; d; e] /\
       BigInt_of_hex text = a + 2 ^ 48 * (b + 2 ^ 48 * (c + 2 ^ 48 * (d + 2 ^ 48 * e)))).
Proof.
  unfold decodePackedHcuStorageWord. destruct (matches_hex 64 text); cbn [negb]; [|split; [split; [by intros [? [=]]|naive_solver]|done]].
  destruct (Z.eqb_spec (Z.shiftr (BigInt_of_hex text) 240) 0) as [H0|Hne]; cbn [negb];
    [|split; [split; [by intros [? [=]]|naive_solver]|done]].
  split; [split; [by intros _|by eexists]|]. intros fields [= <-]. cbn [imap PACKED_FIELDS].
  change (Z.shiftl 1 48 - 1) with (Z.ones 48). unfold compose. set (w := BigInt_of_hex text) in *.
  rewrite !Z.land_ones by lia.
  pose proof (shift_step w 0 ltac:(lia)) as E1. pose proof (shift_step w 1 ltac:(lia)) as E2.
  pose proof (shift_step w 2 ltac:(lia)) as E3. pose proof (shift_step w 3 ltac:(lia)) as E4.
  pose proof (shift_step w 4 ltac:(lia)) as E5. cbn [Z.add Z.mul Pos.add Pos.mul] in *. rewrite Z.shiftr_0_r in *.
  change ((4 + 1) * 48) with 240 in *. rewrite H0 in E5.
  do 5 eexists. split; [reflexivity|]. split; [repeat constructor; apply Z.mod_pos_bound; lia|].
  change (Z.of_nat 1) with (0 + 1). change (Z.of_nat 2) with (1 + 1). change (Z.of_nat 3) with (2 + 1).
  change (Z.of_nat 4) with (3 + 1). change (4 * 48) with ((3 + 1) * 48) in E5. change (3 * 48) with ((2 + 1) * 48) in E4.
  change (2 * 48) with ((1 + 1) * 48) in E3. change (1 * 48) with ((0 + 1) * 48) in E2.
  generalize dependent (Z.shiftr w ((3 + 1) * 48)). generalize dependent (Z.shiftr w ((2 + 1) * 48)).
  generalize dependent (Z.shiftr w ((1 + 1) * 48)). generalize dependent (Z.shiftr w ((0 + 1) * 48)).
  clear H0. intros w1 E1 w2 E2 w3 E3 w4 E4 E5.
  pose proof (Z.div_mod w (2 ^ 48) ltac:(lia)) as D0. pose proof (Z.div_mod w1 (2 ^ 48) ltac:(lia)) as D1.
  pose proof (Z.div_mod w2 (2 ^ 48) ltac:(lia)) as D2. pose proof (Z.div_mod w3 (2 ^ 48) ltac:(lia)) as D3.
  pose proof (Z.div_mod w4 (2 ^ 48) ltac:(lia)) as D4.
  rewrite <- E1 in D0. rewrite <- E2 in D1. rewrite <- E3 in D2. rewrite <- E4 in D3. rewrite <- E5 in D4. lia.
Qed.

Definition sample_address : string := "0xFc672ca5846896A7A135943E79dd11283c38FE78".

Lemma decode_encode_witness :
  exists text, encodeAbiArguments ["uint256"] [jstring "007"] = Ok text /\
    decodeAbiReturn "uint256" (jstring ("0x" +:+ text)) = Some (jstring "7").
Proof.
  destruct (encodeAbiArguments ["uint256"] [jstring "007"]) as [text|e] eqn:E; [|vm_compute in E; discriminate].
  exists text. split; [reflexivity|]. apply (decode_encode _ _ _ E).
  intros _ s z [= <-] Ez. vm_compute in Ez. injection Ez as <-. reflexivity.
Defined.

Lemma encodeAbiArguments_width_witness :
  exists text, encodeAbiArguments ["address"; "bool"] [jstring sample_address; jbool true] = Ok text /\
    (64 * 2 <= String.length text)%nat.
Proof.
  destruct (encodeAbiArguments ["address"; "bool"] [jstring sample_address; jbool true]) as [text|e] eqn:E;
    [|vm_compute in E; discriminate].
  exists text. split; [reflexivity|]. exact (proj1 (proj2 (encodeAbiArguments_width _ _ _ E))).
Defined.

Lemma decodePackedHcuStorageWord_exact_witness :
  let text := "0x000000000000000000000000000000000000000000000000000000000000002a" in
  exists a b, decodePackedHcuStorageWord (jstring text) =
    Some [("globalHCUCapPerBlock", a); ("usedBlockHCU", b); ("lastSeenBlockNumber", 0); ("maxHCUDepthPerTx", 0); ("maxHCUPerTx", 0)] /\
    BigInt_of_hex text = a + 2 ^ 48 * b /\ a = 42.
Proof.
  cbv zeta. set (text := "0x000000000000000000000000000000000000000000000000000000000000002a").
  destruct (decodePackedHcuStorageWord (jstring text)) as [fields|] eqn:E; [|vm_compute in E; discriminate].
  destruct (proj2 (decodePackedHcuStorageWord_exact text) fields E) as (a & b & c & d & e & Hf & _ & Hw).
  vm_compute in E. injection E as Ef. rewrite <- Ef in Hf. injection Hf as <- <- <- <- <-.
  exists 42, 0. rewrite <- Ef. split; [reflexivity|]. split; [exact Hw|reflexivity].
Defined.
