(* ===== verification/HcuPlan.v ===== *)
(** * The plan of read-only calls: scripts/sg4-hcu-authority.ts

    Before it contacts the chain, the verifier of the limits writes down every call it
    will make: which contract, with which data, at which block.  [generateLiveCallPlan]
    builds the plan from the reviewed record, two checks judge it, and
    [resolvePlannedRequest] with [requestsAreIdentical] compares a call with its planned
    form.  A record is JSON; a field that is absent is [None].  The hash of signatures is
    the class [Keccak]. *)
From Stdlib Require Import ZArith Lia Ascii.
From stdpp Require Import base option list strings.
From S2P Require Import Prelude HcuJson HcuAbi.
Local Open Scope Z_scope.

(** [keccak256] of the UTF-8 text, as [id] of the library gives it. *)
Class Keccak := { keccak_id : string -> string }.
Definition keccakSelector `{Keccak} (signature : string) : string := slice0 10 (keccak_id signature).

Inductive TargetRole : Type := AUTHORITY | AUTHORITY_IMPLEMENTATION | EXECUTOR | EXECUTOR_IMPLEMENTATION | NO_TARGET.
#[export] Instance TargetRole_eq_dec : EqDecision TargetRole.
Proof. solve_decision. Defined.
Definition role_text (role : TargetRole) : string :=
  match role with
  | AUTHORITY => "AUTHORITY" | AUTHORITY_IMPLEMENTATION => "AUTHORITY_IMPLEMENTATION"
  | EXECUTOR => "EXECUTOR" | EXECUTOR_IMPLEMENTATION => "EXECUTOR_IMPLEMENTATION" | NO_TARGET => "NONE"
  end.
Inductive ExpectedResponse : Type :=
  ADDRESS_WORD | BLOCK_OR_NULL | CHAIN_ID_HEX | HEX_CODE | STORAGE_WORD | ABI_STRING | UINT48_WORD | UINT256_WORD | ABI_BOOL.

Record LiveCall := {
  lc_step : Z; lc_callId : string; lc_method : string; lc_targetRole : TargetRole; lc_data : option string;
  lc_purpose : string; lc_boundToPinnedBlock : bool; lc_params : list Json; lc_parameterCount : Z;
  lc_callObjectKeys : option (list string); lc_expectedResponse : ExpectedResponse
}.

Definition PLAN_TARGET_PLACEHOLDER : string := "$TARGET".
Definition PLAN_PINNED_BLOCK_PLACEHOLDER : string := "$PINNED_BLOCK".
Definition PERMITTED_CALL_OBJECT_KEYS : list string := ["data"; "to"].
Definition ERC1967_IMPLEMENTATION_SLOT : string := "0x360894a13ba1a3210667c828492db98dca3e2076cc3735a920a3ca505d382bbc".
Definition HCU_LIMIT_STORAGE_SLOT : string := "0xc13af6c514bff8997f30c90003baa82bd02aad978179d1ce58d85c4319ad6500".
Definition SG4_APPLICABILITY_SUBJECTS : list string := ["BENCHMARK_HARNESS"; "FHEVM_EXECUTOR"; "TRANSACTION_SENDER"].
Definition callerApplicabilityCallId (subject : string) : string := "CALLER_APPLICABILITY:" +:+ subject.
Definition LIVE_RPC_ALLOWED_METHODS : list string :=
  ["eth_call"; "eth_chainId"; "eth_getBlockByNumber"; "eth_getCode"; "eth_getStorageAt"].
Definition LIVE_RPC_FORBIDDEN_METHOD_PREFIXES : list string :=
  ["debug_"; "eth_accounts"; "eth_getBalance"; "eth_sendRawTransaction"; "eth_sendTransaction"; "eth_sign"; "personal_";
   "trace_"; "wallet_"].

(** ** Reading a record *)
Definition type_error {A} : result A := Throw (JsError true "TypeError" None "Cannot read properties of undefined").

(** [value.key]: fails on [undefined] and [null]. *)
Definition member (value : option Json) (key : string) : result (option Json) :=
  match value with None | Some jnull => type_error | Some v => Ok (json_field v key) end.
(** [value?.key] *)
Definition optional_member (value : option Json) (key : string) : option Json := v ← value; json_field v key.
Definition items_or_nil (value : option Json) : list Json := match value with Some (jarray items) => items | _ => [] end.
(** [value === text] *)
Definition equals_text (value : option Json) (text : string) : bool :=
  match value with Some (jstring s) => bool_decide (s = text) | _ => false end.

(** [String(value)]: an array is its elements with commas. *)
Fixpoint Json_toString (value : Json) : string :=
  match value with
  | jnull => "null" | jbool b => if b then "true" else "false"
  | jnumber z => Z_toString z | jstring s => s
  | jarray items => commas (map (fun item => match item with jnull => "" | _ => Json_toString item end) items)
  | jobject _ => "[object Object]"
  end.
Definition String_of (value : option Json) : string := match value with None => "undefined" | Some v => Json_toString v end.

(** [entries.find((entry) => entry.key === text)], reading each entry up to the match. *)
Fixpoint find_by (entries : list Json) (key text : string) : result (option Json) :=
  match entries with
  | [] => Ok None
  | entry :: entries' =>
      v ← member (Some entry) key;
      if equals_text v text then Ok (Some entry) else find_by entries' key text
  end.

Definition interfaceCall (record : Json) (callId : string) : option Json :=
  let iface := json_field record "onChainInterface" in
  let manifest := match optional_member iface "interfaceManifest" with
                  | Some m => if isObject m then Some m else None | None => None end in
  let entries := items_or_nil (optional_member manifest "entries") in
  List.find (fun entry => isObject entry && equals_text (json_field entry "callId") callId) entries.

(** A type that is no text is not supported, like the empty one. *)
Definition type_text (value : Json) : string := match value with jstring s => s | _ => "" end.

Definition interfaceCalldata `{Keccak} (entry : Json) : result string :=
  let selector := keccakSelector (String_of (json_field entry "signature")) in
  let types := items_or_nil (json_field entry "argumentTypes") in
  let values := items_or_nil (json_field entry "argumentValues") in
  if (length types =? 0)%nat then Ok selector
  else encoded ← encodeAbiArguments (map type_text types) values; Ok (selector +:+ encoded).

Definition fieldToControlId (field : string) : string :=
  if bool_decide (field = "transactionTotal") then "TRANSACTION_TOTAL_HCU"
  else if bool_decide (field = "transactionDepth") then "TRANSACTION_DEPTH_HCU" else "BLOCK_OR_BATCH_HCU".

(** ** The plan *)
Definition declared `{Keccak} (record : Json) (callId : string) : option string :=
  match interfaceCall record callId with
  | Some entry => match interfaceCalldata entry with Ok data => Some data | Throw _ => None end
  | None => None
  end.

Definition codeCall (callId : string) (role : TargetRole) (purpose : string) (step : Z) : LiveCall := {|
  lc_step := step; lc_callId := callId; lc_method := "eth_getCode"; lc_targetRole := role; lc_data := None;
  lc_purpose := purpose; lc_boundToPinnedBlock := true;
  lc_params := [jstring PLAN_TARGET_PLACEHOLDER; jstring PLAN_PINNED_BLOCK_PLACEHOLDER]; lc_parameterCount := 2;
  lc_callObjectKeys := None; lc_expectedResponse := HEX_CODE |}.

Definition nullable_text (text : option string) : Json := match text with Some t => jstring t | None => jnull end.

Definition ethCall (callId : string) (role : TargetRole) (data : option string) (purpose : string)
    (expectedResponse : ExpectedResponse) (step : Z) : LiveCall := {|
  lc_step := step; lc_callId := callId; lc_method := "eth_call"; lc_targetRole := role; lc_data := data;
  lc_purpose := purpose; lc_boundToPinnedBlock := true;
  lc_params := [jobject [("to", jstring PLAN_TARGET_PLACEHOLDER); ("data", nullable_text data)];
                jstring PLAN_PINNED_BLOCK_PLACEHOLDER]; lc_parameterCount := 2;
  lc_callObjectKeys := Some PERMITTED_CALL_OBJECT_KEYS; lc_expectedResponse := expectedResponse |}.

(** The three literals of the plan that read a storage slot. *)
Definition storageCall (callId : string) (role : TargetRole) (slot purpose : string) (step : Z) : LiveCall := {|
  lc_step := step; lc_callId := callId; lc_method := "eth_getStorageAt"; lc_targetRole := role; lc_data := None;
  lc_purpose := purpose; lc_boundToPinnedBlock := true;
  lc_params := [jstring PLAN_TARGET_PLACEHOLDER; jstring slot; jstring PLAN_PINNED_BLOCK_PLACEHOLDER]; lc_parameterCount := 3;
  lc_callObjectKeys := None; lc_expectedResponse := STORAGE_WORD |}.

Definition chainIdCall : LiveCall := {|
  lc_step := 1; lc_callId := "CHAIN_ID"; lc_method := "eth_chainId"; lc_targetRole := NO_TARGET; lc_data := None;
  lc_purpose := "confirm chain 11155111"; lc_boundToPinnedBlock := false; lc_params := []; lc_parameterCount := 0;
  lc_callObjectKeys := None; lc_expectedResponse := CHAIN_ID_HEX |}.

Definition pinnedBlockCall (blockNumberHex : Json) : LiveCall := {|
  lc_step := 2; lc_callId := "PINNED_BLOCK"; lc_method := "eth_getBlockByNumber"; lc_targetRole := NO_TARGET; lc_data := None;
  lc_purpose := "replay the exact finalized block bound by the record"; lc_boundToPinnedBlock := false;
  lc_params := [blockNumberHex; jbool false]; lc_parameterCount := 2;
  lc_callObjectKeys := None; lc_expectedResponse := BLOCK_OR_NULL |}.

(** [plan] and the counter [step]; [push] is [plan.push(call(step++))]. *)
Definition Planned : Type := list LiveCall * Z.
Definition push (make : Z -> LiveCall) (s : Planned) : Planned := (s.1 ++ [make s.2], s.2 + 1).

Definition LIMIT_FIELDS : list (string * string) :=
  [("transactionTotal", "TRANSACTION_TOTAL_HCU_GETTER"); ("transactionDepth", "TRANSACTION_DEPTH_HCU_GETTER");
   ("blockOrBatchCap", "BLOCK_OR_BATCH_HCU_GETTER")].

Definition plan_limit `{Keccak} (record : Json) (iface : option Json) (availability : Json) (limit : string * string)
    (s : Planned) : result Planned :=
  let '(field, callId) := limit in
  if negb (equals_text (json_field availability field) "AVAILABLE_AND_READ_ON_CHAIN") then Ok s
  else
    specs ← member iface "limitGetterSpecs";
    getterSpec ← find_by (items_or_nil specs) "controlId" (fieldToControlId field);
    Ok (push (ethCall callId AUTHORITY (declared record callId) (field +:+ " HCU limit getter")
                (if equals_text (optional_member getterSpec "returnType") "uint48" then UINT48_WORD else UINT256_WORD)) s).

Definition plan_subject `{Keccak} (record : Json) (applicability : list Json) (subject : string) (s : Planned) : result Planned :=
  spec ← find_by applicability "subject" subject;
  match spec with
  | Some spec =>
      if negb (equals_text (json_field spec "state") "AVAILABLE") then Ok s
      else
        let callId := callerApplicabilityCallId subject in
        let entry := interfaceCall record callId in
        let returnType := (fun entry => String_of (json_field entry "returnType")) <$> entry in
        let role := match entry with
                    | Some entry => if equals_text (json_field entry "targetRole") "EXECUTOR" then EXECUTOR else AUTHORITY
                    | None => AUTHORITY end in
        Ok (push (ethCall callId role (declared record callId) ("caller applicability for " +:+ subject)
                    (if bool_decide (returnType = Some "bool") then ABI_BOOL
                     else if bool_decide (returnType = Some "address") then ADDRESS_WORD else UINT256_WORD)) s)
  | None => Ok s
  end.

Fixpoint fold_planned {A} (f : A -> Planned -> result Planned) (xs : list A) (s : Planned) : result Planned :=
  match xs with [] => Ok s | x :: xs' => s ← f x s; fold_planned f xs' s end.

Definition is_proxy (model : option Json) : bool := equals_text model "ERC1967_PROXY".

(** The calls every plan has, with those of the proxies. *)
Definition plan_deployment `{Keccak} (record : Json) (blockNumberHex : Json) (executorProxy authorityProxy : bool) : Planned :=
  let s := ([chainIdCall; pinnedBlockCall blockNumberHex;
             codeCall "EXECUTOR_CODE" EXECUTOR "executor proxy or direct runtime code identity" 3], 4) in
  let s := if executorProxy then
      push (codeCall "EXECUTOR_IMPLEMENTATION_CODE" EXECUTOR_IMPLEMENTATION "executor implementation code")
        (push (storageCall "EXECUTOR_ERC1967_IMPLEMENTATION_SLOT" EXECUTOR ERC1967_IMPLEMENTATION_SLOT
                 "ERC-1967 implementation slot of the executor proxy") s)
    else s in
  let s := push (ethCall "EXECUTOR_VERSION" EXECUTOR (declared record "EXECUTOR_VERSION") "executor version" ABI_STRING) s in
  let s := push (ethCall "EXECUTOR_AUTHORITY_GETTER" EXECUTOR (declared record "EXECUTOR_AUTHORITY_GETTER")
                   "derive the authority address from the verified executor" ADDRESS_WORD) s in
  let s := push (codeCall "AUTHORITY_CODE" AUTHORITY "authority runtime code identity") s in
  let s := if authorityProxy then
      push (codeCall "AUTHORITY_IMPLEMENTATION_CODE" AUTHORITY_IMPLEMENTATION "authority implementation code")
        (push (storageCall "AUTHORITY_ERC1967_IMPLEMENTATION_SLOT" AUTHORITY ERC1967_IMPLEMENTATION_SLOT
                 "ERC-1967 implementation slot of the authority proxy") s)
    else s in
  let s := push (storageCall "AUTHORITY_HCU_PACKED_STORAGE" AUTHORITY HCU_LIMIT_STORAGE_SLOT
                   "read the exact packed HCULimit uint48 storage fields") s in
  let s := push (ethCall "AUTHORITY_RECIPROCAL_EXECUTOR_GETTER" AUTHORITY (declared record "AUTHORITY_RECIPROCAL_EXECUTOR_GETTER")
                   "reciprocal linkage back to the configured executor" ADDRESS_WORD) s in
  push (ethCall "AUTHORITY_VERSION" AUTHORITY (declared record "AUTHORITY_VERSION") "authority version" ABI_STRING) s.

(** An absent block number, which no validated record has, is read as [null]. *)
Definition generateLiveCallPlan `{Keccak} (record : Json) : result (list LiveCall) :=
  let executor := json_field record "executor" in
  let authority := json_field record "authority" in
  let iface := json_field record "onChainInterface" in
  availability ← member (json_field record "limits") "getterAvailability";
  blockNumberHex ← member (json_field record "snapshot") "blockNumberHex";
  executorModel ← member executor "deploymentModel";
  authorityModel ← member authority "deploymentModel";
  let s := plan_deployment record (default jnull blockNumberHex) (is_proxy executorModel) (is_proxy authorityModel) in
  s ← fold_planned (plan_limit record iface (match availability with None | Some jnull => jobject [] | Some v => v end)) LIMIT_FIELDS s;
  applicability ← member iface "callerApplicability";
  s ← fold_planned (plan_subject record (items_or_nil applicability)) SG4_APPLICABILITY_SUBJECTS s;
  Ok s.1.

(** ** The reference record *)
(** What every critical call of the interface must be. *)
Record InterfaceCallSpec := {
  ic_callId : string; ic_targetRole : string; ic_signature : string; ic_returnType : string; ic_mandatory : bool
}.
Definition interface_call callId targetRole signature returnType mandatory : InterfaceCallSpec :=
  {| ic_callId := callId; ic_targetRole := targetRole; ic_signature := signature; ic_returnType := returnType;
     ic_mandatory := mandatory |}.
Definition INTERFACE_CALL_SPECS : list InterfaceCallSpec := [
  interface_call "AUTHORITY_RECIPROCAL_EXECUTOR_GETTER" "AUTHORITY" "getFHEVMExecutorAddress()" "address" true;
  interface_call "AUTHORITY_VERSION" "AUTHORITY" "getVersion()" "string" true;
  interface_call "BLOCK_OR_BATCH_HCU_GETTER" "AUTHORITY" "" "uint256" false;
  interface_call "EXECUTOR_AUTHORITY_GETTER" "EXECUTOR" "getHCULimitAddress()" "address" true;
  interface_call "EXECUTOR_VERSION" "EXECUTOR" "getVersion()" "string" true;
  interface_call "TRANSACTION_DEPTH_HCU_GETTER" "AUTHORITY" "" "uint256" false;
  interface_call "TRANSACTION_TOTAL_HCU_GETTER" "AUTHORITY" "" "uint256" false].
Definition MANDATORY_INTERFACE_CALL_IDS : list string := map ic_callId (List.filter ic_mandatory INTERFACE_CALL_SPECS).
Definition INTERFACE_MANIFEST_SCHEMA : string := "zama-szn4.sg4-onchain-interface-manifest.v1".

Definition reference_call `{Keccak} (callId signature : string) : Json :=
  let spec := List.find (fun candidate => bool_decide (ic_callId candidate = callId)) INTERFACE_CALL_SPECS in
  jobject [("argumentTypes", jarray []); ("argumentValues", jarray []); ("callId", jstring callId);
           ("returnType", jstring (match spec with Some spec => ic_returnType spec | None => "uint256" end));
           ("selector", jstring (keccakSelector signature)); ("signature", jstring signature);
           ("targetRole", jstring (match spec with Some spec => ic_targetRole spec | None => "AUTHORITY" end))].

Definition offlinePlanReferenceRecord `{Keccak} : Json :=
  jobject [
    ("snapshot", jobject [("blockNumberHex", jstring "0x1")]);
    ("executor", jobject [("deploymentModel", jstring "ERC1967_PROXY")]);
    ("authority", jobject [("deploymentModel", jstring "ERC1967_PROXY")]);
    ("limits", jobject [("getterAvailability", jobject [
       ("blockOrBatchCap", jstring "UNRESOLVED"); ("transactionDepth", jstring "UNRESOLVED");
       ("transactionTotal", jstring "UNRESOLVED")])]);
    ("onChainInterface", jobject [
       ("callerApplicability", jarray []);
       ("interfaceManifest", jobject [
          ("entries", jarray [
             reference_call "AUTHORITY_RECIPROCAL_EXECUTOR_GETTER" "getFHEVMExecutorAddress()";
             reference_call "AUTHORITY_VERSION" "getVersion()";
             reference_call "EXECUTOR_AUTHORITY_GETTER" "getHCULimitAddress()";
             reference_call "EXECUTOR_VERSION" "getVersion()"]);
          ("provenanceSubject", jstring "CURRENT_OFFICIAL_AUTHORITY_SOURCE");
          ("schema", jstring INTERFACE_MANIFEST_SCHEMA); ("version", jnumber 1)]);
       ("limitGetterSpecs", jarray [])])].

(** ** The checks of a plan *)
Definition calls_named (callId : string) (plan : list LiveCall) : list LiveCall :=
  List.filter (fun call => bool_decide (lc_callId call = callId)) plan.

Definition text_at (params : list Json) (index : nat) (text : string) : bool := equals_text (params !! index) text.

Definition assert_method_read_only (call : LiveCall) : result unit :=
  fail_if (negb (bool_decide (lc_method call ∈ LIVE_RPC_ALLOWED_METHODS)))
    ("live plan contains a method outside the read-only allow-list: " +:+ lc_method call) ;;
  fail_if (existsb (fun prefix => startsWith prefix (lc_method call)) LIVE_RPC_FORBIDDEN_METHOD_PREFIXES)
    ("live plan contains a forbidden method: " +:+ lc_method call).

Definition assert_slot_read (plan : list LiveCall) (expected : string * TargetRole) : result unit :=
  let '(callId, targetRole) := expected in
  let matches := calls_named callId plan in
  fail_if (1 <? length matches)%nat (callId +:+ " appears more than once") ;;
  match matches with
  | [] => Ok tt
  | resolution :: _ =>
      fail_if (negb (bool_decide (lc_method resolution = "eth_getStorageAt")) ||
               negb (bool_decide (lc_targetRole resolution = targetRole)) ||
               negb (lc_parameterCount resolution =? 3) ||
               negb (text_at (lc_params resolution) 1 ERC1967_IMPLEMENTATION_SLOT) ||
               negb (text_at (lc_params resolution) 2 PLAN_PINNED_BLOCK_PLACEHOLDER))
        (callId +:+ " must be the exact pinned ERC-1967 eth_getStorageAt request")
  end.

Fixpoint check_all {A} (check : A -> result unit) (xs : list A) : result unit :=
  match xs with [] => Ok tt | x :: xs' => check x ;; check_all check xs' end.

Definition assertLiveCallPlanIsReadOnly (plan : list LiveCall) : result unit :=
  check_all assert_method_read_only plan ;;
  check_all (assert_slot_read plan)
    [("EXECUTOR_ERC1967_IMPLEMENTATION_SLOT", EXECUTOR); ("AUTHORITY_ERC1967_IMPLEMENTATION_SLOT", AUTHORITY)].

(** [plan.findIndex((call) => call.callId === callId)] *)
Definition index_of (callId : string) (plan : list LiveCall) : Z :=
  match list_find (fun call => lc_callId call = callId) plan with Some (i, _) => Z.of_nat i | None => -1 end.
Definition count_of (callId : string) (plan : list LiveCall) : Z := Z.of_nat (length (calls_named callId plan)).

Definition requiredFor (plan : list LiveCall) (deploymentModel : option Json) (slotCallId codeCallId : string) : result unit :=
  let slotCount := count_of slotCallId plan in
  let codeCount := count_of codeCallId plan in
  if is_proxy deploymentModel then
    fail_if (negb (slotCount =? 1) || negb (codeCount =? 1))
      ("proxied deployment requires exactly one " +:+ slotCallId +:+ " and " +:+ codeCallId) ;;
    fail_if ((index_of slotCallId plan <? 0) || negb (index_of codeCallId plan =? index_of slotCallId plan + 1))
      (slotCallId +:+ " must immediately precede " +:+ codeCallId)
  else if equals_text deploymentModel "DIRECT" then
    fail_if (negb (slotCount =? 0) || negb (codeCount =? 0))
      ("direct deployment may not plan " +:+ slotCallId +:+ " or " +:+ codeCallId)
  else throw_new "live plan has an unsupported deployment model".

Definition assertLiveCallPlanMatchesDeploymentModels (plan : list LiveCall) (record : Json) : result unit :=
  requiredFor plan (optional_member (json_field record "executor") "deploymentModel")
    "EXECUTOR_ERC1967_IMPLEMENTATION_SLOT" "EXECUTOR_IMPLEMENTATION_CODE" ;;
  requiredFor plan (optional_member (json_field record "authority") "deploymentModel")
    "AUTHORITY_ERC1967_IMPLEMENTATION_SLOT" "AUTHORITY_IMPLEMENTATION_CODE" ;;
  let executorCode := index_of "EXECUTOR_CODE" plan in
  let executorVersion := index_of "EXECUTOR_VERSION" plan in
  let executorAuthorityGetter := index_of "EXECUTOR_AUTHORITY_GETTER" plan in
  let executorImplementationCode := index_of "EXECUTOR_IMPLEMENTATION_CODE" plan in
  let executorIdentityIndex := if 0 <=? executorImplementationCode then executorImplementationCode else executorCode in
  fail_if ((executorCode <? 0) || (executorVersion <=? executorIdentityIndex) || (executorAuthorityGetter <=? executorVersion))
    "executor version and authority getter must follow the authenticated executor implementation chain".

(** ** A call against its planned form *)
Fixpoint substitute (target pinned : Json) (value : Json) : Json :=
  match value with
  | jstring s =>
      if bool_decide (s = PLAN_TARGET_PLACEHOLDER) then target
      else if bool_decide (s = PLAN_PINNED_BLOCK_PLACEHOLDER) then pinned else value
  | jobject fields => jobject (map (fun field => (field.1, substitute target pinned field.2)) fields)
  | _ => value
  end.

Definition RoleResolver : Type := string -> option string.

Definition resolvePlannedRequest (call : LiveCall) (resolveRole : RoleResolver) (pinnedBlockHex : option string)
    : list Json + string :=
  let has_target := negb (bool_decide (lc_targetRole call = NO_TARGET)) in
  let target := if has_target then resolveRole (role_text (lc_targetRole call)) else None in
  if has_target && bool_decide (target = None) then
    inr ("target role " +:+ role_text (lc_targetRole call) +:+ " is not resolved")
  else if lc_boundToPinnedBlock call && bool_decide (pinnedBlockHex = None) then
    inr "the planned call requires a pinned block before one was pinned"
  else inl (map (substitute (nullable_text target) (nullable_text pinnedBlockHex)) (lc_params call)).

(** The pattern of hexadecimal texts, the empty one included. *)
Definition is_hex_text (s : string) : bool :=
  match s with String "0" (String "x" body) => string_forall is_hex_digit body | _ => false end.

Fixpoint requestsAreIdentical (planned issued : Json) : bool :=
  match planned, issued with
  | jstring p, jstring i => if is_hex_text p then bool_decide (toLowerCase p = toLowerCase i) else bool_decide (p = i)
  | jarray ps, jarray is_ =>
      (length ps =? length is_)%nat &&
      (fix every (ps is_ : list Json) : bool :=
         match ps, is_ with p :: ps', i :: is' => requestsAreIdentical p i && every ps' is' | _, _ => true end) ps is_
  | jobject pf, jobject if_ =>
      bool_decide (js_sort compare_code_units pf.*1 = js_sort compare_code_units if_.*1) &&
      (fix every (pf : list (string * Json)) : bool :=
         match pf with
         | (key, p) :: pf' => match map_get key if_ with Some i => requestsAreIdentical p i | None => false end && every pf'
         | [] => true
         end) pf
  | jnull, jnull => true
  | jbool p, jbool i => eqb p i
  | jnumber p, jnumber i => p =? i
  | _, _ => false
  end.

(** The comparison of whole parameter vectors. *)
Definition params_identical (planned issued : list Json) : bool := requestsAreIdentical (jarray planned) (jarray issued).

(** * Properties *)

(** ** The plan that is generated *)
Definition EXTRA_CALL_IDS : list string := LIMIT_FIELDS.*2 ++ map callerApplicabilityCallId SG4_APPLICABILITY_SUBJECTS.

(** A call to a getter, which the record may or may not have. *)
Definition is_extra (call : LiveCall) : Prop :=
  exists callId role data purpose response step,
    call = ethCall callId role data purpose response step /\ callId ∈ EXTRA_CALL_IDS.

(** The steps are numbered in order, and the counter is the next. *)
Definition numbered (s : Planned) : Prop :=
  (forall i call, s.1 !! i = Some call -> lc_step call = Z.of_nat i + 1) /\ s.2 = Z.of_nat (length s.1) + 1.

Lemma push_numbered make s : (forall n, lc_step (make n) = n) -> numbered s -> numbered (push make s).
Proof.
  intros Hm [Hs Hn]. split; cbn [push fst snd]; [|rewrite length_app; cbn; lia].
  intros i call [H|[Hle H]]%lookup_app_Some; [by apply Hs|].
  apply list_lookup_singleton_Some in H as [Hi <-]. rewrite Hm, Hn. lia.
Qed.

(** What the loops add to a plan. *)
Definition extends (s s' : Planned) : Prop :=
  (numbered s -> numbered s') /\ exists extras, s'.1 = s.1 ++ extras /\ Forall is_extra extras.

Lemma extends_refl s : extends s s.
Proof. split; [done|]. exists []. by rewrite app_nil_r. Qed.

Lemma extends_trans s1 s2 s3 : extends s1 s2 -> extends s2 s3 -> extends s1 s3.
Proof.
  intros [H1 (e1 & E1 & F1)] [H2 (e2 & E2 & F2)]. split; [auto|]. exists (e1 ++ e2). rewrite E2, E1, app_assoc.
  split; [done|by apply Forall_app].
Qed.

Lemma extends_push callId role data purpose response s :
  callId ∈ EXTRA_CALL_IDS -> extends s (push (ethCall callId role data purpose response) s).
Proof.
  intros Hin. split; [by apply push_numbered|]. eexists. split; [reflexivity|]. apply Forall_singleton. by do 6 eexists.
Qed.

Lemma fold_planned_extends {A} (f : A -> Planned -> result Planned) xs s s' :
  (forall x s s', x ∈ xs -> f x s = Ok s' -> extends s s') -> fold_planned f xs s = Ok s' -> extends s s'.
Proof.
  revert s. induction xs as [|x xs IH]; intros s Hf E; [injection E as <-; apply extends_refl|].
  cbn in E. apply result_bind_Ok in E as (s1 & E1 & E). eapply extends_trans; [eapply Hf; [by left|exact E1]|].
  apply IH; [|done]. intros y t t' Hy. apply Hf. by right.
Qed.

Lemma plan_limit_extends `{Keccak} record iface availability limit s s' :
  limit ∈ LIMIT_FIELDS -> plan_limit record iface availability limit s = Ok s' -> extends s s'.
Proof.
  destruct limit as [field callId]. intros Hin E. unfold plan_limit in E.
  destruct (negb _); [injection E as <-; apply extends_refl|].
  apply result_bind_Ok in E as (specs & _ & E). apply result_bind_Ok in E as (spec & _ & [= <-]).
  apply extends_push. unfold EXTRA_CALL_IDS. apply elem_of_app. left. apply list_elem_of_fmap. by exists (field, callId).
Qed.

Lemma plan_subject_extends `{Keccak} record applicability subject s s' :
  subject ∈ SG4_APPLICABILITY_SUBJECTS -> plan_subject record applicability subject s = Ok s' -> extends s s'.
Proof.
  intros Hin E. unfold plan_subject in E. apply result_bind_Ok in E as ([spec|] & _ & E); [|injection E as <-; apply extends_refl].
  destruct (negb _); [injection E as <-; apply extends_refl|]. injection E as <-.
  apply extends_push. unfold EXTRA_CALL_IDS. apply elem_of_app. right. apply list_elem_of_fmap. by exists subject.
Qed.

(** The deployment part of a generated plan, then getters. *)
Lemma generated_plan `{Keccak} record plan :
  generateLiveCallPlan record = Ok plan ->
  exists blockNumberHex extras,
    let s := plan_deployment record (default jnull blockNumberHex)
      (is_proxy (optional_member (json_field record "executor") "deploymentModel"))
      (is_proxy (optional_member (json_field record "authority") "deploymentModel")) in
    optional_member (json_field record "snapshot") "blockNumberHex" = blockNumberHex /\
    plan = s.1 ++ extras /\ Forall is_extra extras /\
    (numbered s -> forall i call, plan !! i = Some call -> lc_step call = Z.of_nat i + 1).
Proof.
  assert (Hm : forall value key v, member value key = Ok v -> optional_member value key = v).
  { intros [[]|] key v E; try discriminate E; by injection E as <-. }
  unfold generateLiveCallPlan. intros E. apply result_bind_Ok in E as (availability & _ & E).
  apply result_bind_Ok in E as (hex & Hhex%Hm & E). apply result_bind_Ok in E as (em & Hem%Hm & E).
  apply result_bind_Ok in E as (am & Ham%Hm & E). rewrite Hem, Ham.
  apply result_bind_Ok in E as (s1 & E1 & E). apply result_bind_Ok in E as (applicability & _ & E).
  apply result_bind_Ok in E as (s2 & E2 & [= <-]).
  apply fold_planned_extends in E1; [|intros x s s'; apply plan_limit_extends].
  apply fold_planned_extends in E2; [|intros x s s'; apply plan_subject_extends].
  destruct (extends_trans _ _ _ E1 E2) as [Hn (extras & Eq & Hx)].
  exists hex, extras. split; [done|]. split; [done|]. split; [done|]. intros Hs. by apply Hn.
Qed.

Lemma plan_deployment_numbered `{Keccak} record hex b1 b2 : numbered (plan_deployment record hex b1 b2).
Proof.
  unfold plan_deployment. repeat first [apply push_numbered; [done|]|destruct b1|destruct b2].
  all: split; [|done]; intros [|[|[|i]]] call; cbn; try (by intros [= <-]); by destruct i.
Qed.

Lemma extra_not_named callId extras : callId ∉ EXTRA_CALL_IDS -> Forall is_extra extras -> calls_named callId extras = [].
Proof.
  intros Hn. induction 1 as [|call extras (id & role & data & purpose & response & step & -> & Hin) _ IH]; [done|].
  cbn [calls_named List.filter lc_callId ethCall]. rewrite bool_decide_eq_false_2 by congruence. exact IH.
Qed.

Lemma calls_named_app callId xs ys : calls_named callId (xs ++ ys) = calls_named callId xs ++ calls_named callId ys.
Proof. apply List.filter_app. Qed.

Lemma calls_named_base callId base extras :
  callId ∉ EXTRA_CALL_IDS -> Forall is_extra extras -> calls_named callId (base ++ extras) = calls_named callId base.
Proof. intros Hn Hx. by rewrite calls_named_app, (extra_not_named _ extras), app_nil_r. Qed.

Lemma index_of_base callId base extras :
  callId ∉ EXTRA_CALL_IDS -> Forall is_extra extras -> index_of callId (base ++ extras) = index_of callId base.
Proof.
  intros Hn Hx. unfold index_of. destruct (list_find _ base) as [[i call]|] eqn:E.
  - by rewrite (list_find_app_l _ base extras i call).
  - rewrite list_find_app_r by done. assert (list_find (fun call => lc_callId call = callId) extras = None) as ->; [|done].
    apply list_find_None. eapply Forall_impl; [exact Hx|]. intros ? (id & ? & ? & ? & ? & ? & -> & Hin) <-. done.
Qed.

Lemma extras_read_only extras : Forall is_extra extras -> check_all assert_method_read_only extras = Ok tt.
Proof. induction 1 as [|? ? (id & ? & ? & ? & ? & ? & -> & _) _ IH]; [done|]. cbn [check_all]. exact IH. Qed.

Lemma check_all_app {A} (check : A -> result unit) xs ys :
  check_all check xs = Ok tt -> check_all check ys = Ok tt -> check_all check (xs ++ ys) = Ok tt.
Proof.
  intros Hx Hy. induction xs as [|x xs IH]; [done|]. cbn in *. apply result_bind_Ok in Hx as ([] & Hx & Hxs).
  rewrite Hx. by apply IH.
Qed.

Ltac not_extra := apply (bool_decide_unpack _); vm_compute; exact I.

(** the plan that is generated is one its own checks accept.  Whatever the record, if
    both deployment models are supported, the plan reads only, has exactly the calls of
    the two deployment models in the order that authenticates them, and its steps are
    numbered from one in the order of the calls. *)
Theorem generateLiveCallPlan_checked `{Keccak} record plan :
  generateLiveCallPlan record = Ok plan ->
  (forall part, part ∈ ["executor"; "authority"] ->
     exists model, model ∈ ["ERC1967_PROXY"; "DIRECT"] /\
       optional_member (json_field record part) "deploymentModel" = Some (jstring model)) ->
  assertLiveCallPlanIsReadOnly plan = Ok tt /\ assertLiveCallPlanMatchesDeploymentModels plan record = Ok tt /\
  forall i call, plan !! i = Some call -> lc_step call = Z.of_nat i + 1.
Proof.
  intros (hex & extras & _ & -> & Hx & Hn)%generated_plan Hmodels.
  split; [|split; [|apply Hn, plan_deployment_numbered]].
  - unfold assertLiveCallPlanIsReadOnly. rewrite check_all_app; [|by destruct (is_proxy _), (is_proxy _)|by apply extras_read_only].
    cbn [mbind result_bind check_all assert_slot_read]. rewrite !calls_named_base by (done || not_extra).
    by destruct (is_proxy _), (is_proxy _).
  - unfold assertLiveCallPlanMatchesDeploymentModels, requiredFor, count_of.
    rewrite !calls_named_base, !index_of_base by (done || not_extra).
    destruct (Hmodels "executor") as (m1 & H1 & E1); [by left|]. destruct (Hmodels "authority") as (m2 & H2 & E2); [by right; left|].
    rewrite E1, E2. rewrite !elem_of_cons in H1, H2.
    destruct H1 as [->|[->|[]%elem_of_nil]], H2 as [->|[->|[]%elem_of_nil]]; reflexivity.
Qed.

(** A hash of the right shape, for examples. *)
#[local] Instance example_keccak : Keccak := {| keccak_id signature := "0x" +:+ stringify_text signature |}.

Lemma generateLiveCallPlan_checked_witness :
  exists plan, generateLiveCallPlan offlinePlanReferenceRecord = Ok plan /\ length plan = 13%nat /\
    assertLiveCallPlanIsReadOnly plan = Ok tt.
Proof.
  destruct (generateLiveCallPlan offlinePlanReferenceRecord) as [plan|] eqn:E; [|vm_compute in E; discriminate].
  exists plan. split; [reflexivity|]. split; [vm_compute in E; injection E as <-; reflexivity|].
  destruct (generateLiveCallPlan_checked offlinePlanReferenceRecord plan E) as [H _]; [|exact H].
  intros part Hp. exists "ERC1967_PROXY". split; [by left|]. rewrite !elem_of_cons in Hp.
  destruct Hp as [->|[->|[]%elem_of_nil]]; reflexivity.
Defined.
