(* ===== verification/HcuTransport.v ===== *)
(** * The guarded transport: scripts/sg4-hcu-authority.ts

    Every request of the verifier passes [createGuardedTransport]: methods that could
    write are refused, a request about a block must name the pinned one, and once a plan
    is installed every request must be the next of the plan.  A request that passes the
    guard is in flight until the transport answers; requests may overlap, and the guard
    may be used in any order, so its behaviour is a step relation over its operations.
    [parseJsonRpcResponse] judges an answer. *)
From Stdlib Require Import ZArith Lia Ascii.
From stdpp Require Import base option list relations strings.
From S2P Require Import Prelude HcuJson HcuAbi HcuPlan.
Local Open Scope Z_scope.

Record JsonRpcCall := { rc_method : string; rc_params : list Json }.

Definition ForbiddenRpcMethodError (method : string) : js_error :=
  JsError true "ForbiddenRpcMethodError" None ("forbidden RPC method refused by the read-only guard: " +:+ method).
Definition LiveCallPlanViolationError (detail : string) : js_error :=
  JsError true "LiveCallPlanViolationError" None ("live call plan violated: " +:+ detail).
(** [JSON.stringify(found)] of the parameter found, which may be missing. *)
Definition PinnedBlockBindingError (method : string) (found : option Json) (pinned : string) : js_error :=
  JsError true "PinnedBlockBindingError" None
    (method +:+ " was not bound to the pinned block (found " +:+
     match found with Some v => print v | None => "undefined" end +:+ ", expected " +:+ pinned +:+ ")").

Definition assertMethodAllowed (method : string) : result unit :=
  if existsb (fun prefix => startsWith prefix method) LIVE_RPC_FORBIDDEN_METHOD_PREFIXES then Throw (ForbiddenRpcMethodError method)
  else if negb (bool_decide (method ∈ LIVE_RPC_ALLOWED_METHODS)) then Throw (ForbiddenRpcMethodError method)
  else Ok tt.

Definition PINNED_BLOCK_PARAMETER_INDEX (method : string) : option nat :=
  if bool_decide (method = "eth_call") then Some 1%nat else if bool_decide (method = "eth_getCode") then Some 1%nat
  else if bool_decide (method = "eth_getStorageAt") then Some 2%nat else None.

Definition assertBoundToPinnedBlock (call : JsonRpcCall) (pinnedBlockHex : string) : result unit :=
  match PINNED_BLOCK_PARAMETER_INDEX (rc_method call) with
  | None => Ok tt
  | Some index =>
      let found := rc_params call !! index in
      if equals_text found pinnedBlockHex then Ok tt else Throw (PinnedBlockBindingError (rc_method call) found pinnedBlockHex)
  end.

(** The variables of [createGuardedTransport].  The resolver installed with the plan
    reads what the verifier knows at the moment it is asked. *)
Record Guard := {
  gd_log : list JsonRpcCall; gd_pinned : option string; gd_plan : option (list LiveCall); gd_resolveRole : RoleResolver;
  gd_cursor : nat; gd_violations : list string
}.
Definition createGuardedTransport : Guard :=
  {| gd_log := []; gd_pinned := None; gd_plan := None; gd_resolveRole := fun _ => None; gd_cursor := 0; gd_violations := [] |}.

Definition with_log (f : list JsonRpcCall -> list JsonRpcCall) (g : Guard) : Guard :=
  {| gd_log := f (gd_log g); gd_pinned := gd_pinned g; gd_plan := gd_plan g; gd_resolveRole := gd_resolveRole g;
     gd_cursor := gd_cursor g; gd_violations := gd_violations g |}.
Definition with_cursor (cursor : nat) (g : Guard) : Guard :=
  {| gd_log := gd_log g; gd_pinned := gd_pinned g; gd_plan := gd_plan g; gd_resolveRole := gd_resolveRole g;
     gd_cursor := cursor; gd_violations := gd_violations g |}.
Definition with_violation (detail : string) (g : Guard) : Guard :=
  {| gd_log := gd_log g; gd_pinned := gd_pinned g; gd_plan := gd_plan g; gd_resolveRole := gd_resolveRole g;
     gd_cursor := gd_cursor g; gd_violations := gd_violations g ++ [detail] |}.
Definition bindToPinnedBlock (pinnedBlockHex : string) (g : Guard) : Guard :=
  {| gd_log := gd_log g; gd_pinned := Some pinnedBlockHex; gd_plan := gd_plan g; gd_resolveRole := gd_resolveRole g;
     gd_cursor := gd_cursor g; gd_violations := gd_violations g |}.
Definition with_resolver (resolver : RoleResolver) (g : Guard) : Guard :=
  {| gd_log := gd_log g; gd_pinned := gd_pinned g; gd_plan := gd_plan g; gd_resolveRole := resolver;
     gd_cursor := gd_cursor g; gd_violations := gd_violations g |}.

(** What is wrong with a call at its place in the plan, if anything. *)
Definition divergence (planned : LiveCall) (call : JsonRpcCall) (resolveRole : RoleResolver) (pinned : option string) : option string :=
  if negb (bool_decide (rc_method call = lc_method planned)) then
    Some ("expected " +:+ lc_method planned +:+ ", issued " +:+ rc_method call)
  else if negb (Z.of_nat (length (rc_params call)) =? lc_parameterCount planned) then
    Some ("expected " +:+ Z_toString (lc_parameterCount planned) +:+ " parameters, issued " +:+
          Z_toString (Z.of_nat (length (rc_params call))))
  else match resolvePlannedRequest planned resolveRole pinned with
       | inr reason => Some reason
       | inl params =>
           if params_identical params (rc_params call) then None
           else Some ("expected params " +:+ print (jarray params) +:+ ", issued " +:+ print (jarray (rc_params call)))
       end.

Definition violate (detail : string) : method Guard unit :=
  fun g => (Throw (LiveCallPlanViolationError detail), with_violation detail g).

Definition enforce (call : JsonRpcCall) : method Guard unit := fun g =>
  match gd_plan g with
  | None => (Ok tt, g)
  | Some plan =>
      match plan !! gd_cursor g with
      | None => violate ("unplanned extra call " +:+ rc_method call +:+ " at position " +:+ Z_toString (Z.of_nat (gd_cursor g))) g
      | Some planned =>
          match divergence planned call (gd_resolveRole g) (gd_pinned g) with
          | Some reason =>
              violate ("step " +:+ Z_toString (lc_step planned) +:+ " (" +:+ lc_callId planned +:+ "): " +:+ reason) g
          | None => (Ok tt, with_cursor (S (gd_cursor g)) g)
          end
      end
  end.

(** [send] up to the call of the inner transport, and after its answer. *)
Definition begin_send (call : JsonRpcCall) : method Guard unit :=
  _ ← lift (assertMethodAllowed (rc_method call));
  g ← get;
  _ ← lift (match gd_pinned g with Some hex => assertBoundToPinnedBlock call hex | None => Ok tt end);
  enforce call.
Definition complete_send (call : JsonRpcCall) : Guard -> Guard := with_log (fun log => log ++ [call]).

(** [send] on a transport that answers before the next call. *)
Class ReadOnlyTransport (W : Type) := { inner_send : JsonRpcCall -> method W Json }.
Definition send {W} `{ReadOnlyTransport W} (call : JsonRpcCall) : method (Guard * W) Json := fun '(g, w) =>
  match begin_send call g with
  | (Ok _, g') =>
      match inner_send call w with
      | (Ok response, w') => (Ok response, (complete_send call g', w'))
      | (Throw e, w') => (Throw e, (g', w'))
      end
  | (Throw e, g') => (Throw e, (g', w))
  end.

Definition enforcePlan (installed : list LiveCall) (resolver : RoleResolver) : method Guard unit := fun g =>
  for_each (gd_log g) enforce
    {| gd_log := gd_log g; gd_pinned := gd_pinned g; gd_plan := Some installed; gd_resolveRole := resolver;
       gd_cursor := 0; gd_violations := gd_violations g |}.

Definition methodsUsed (g : Guard) : list string := js_sort compare_code_units (js_set (map rc_method (gd_log g))).

(** The public parts of the log: hexadecimal texts in lower case. *)
Definition sanitize_param (param : Json) : Json :=
  match param with jstring s => if is_hex_text s then jstring (toLowerCase s) else param | _ => param end.
Definition sanitizeCallLog (log : list JsonRpcCall) : list Json :=
  imap (fun index call =>
    jobject [("index", jnumber (Z.of_nat index)); ("method", jstring (rc_method call));
             ("parameterCount", jnumber (Z.of_nat (length (rc_params call)))); ("params", jarray (map sanitize_param (rc_params call)))]) log.

(** ** Responses *)
Definition maximumResponseBytes : Z := 8 * 1024 * 1024.

(** [JSON.parse] of the body, or nothing when it throws. *)
Class JsonParser := { parse_JSON : string -> option Json }.

Definition parseJsonRpcResponse `{JsonParser} (method : string) (expectedId statusCode : Z) (body : string) : Json + string :=
  if (statusCode <? 200) || (299 <? statusCode) then
    inr ("RPC HTTP status " +:+ Z_toString statusCode +:+ " for " +:+ method)
  else if maximumResponseBytes <? Z.of_nat (String.length body) then inr ("RPC response exceeded the maximum size for " +:+ method)
  else match parse_JSON body with
       | None => inr ("unparseable RPC response for " +:+ method)
       | Some parsed =>
           if negb (isObject parsed) then inr ("RPC response was not a JSON object for " +:+ method)
           else if negb (equals_text (json_field parsed "jsonrpc") "2.0") then
             inr ("RPC response carried the wrong jsonrpc version for " +:+ method)
           else if negb (match json_field parsed "id" with Some (jnumber id) => id =? expectedId | _ => false end) then
             inr ("RPC response id did not match the request for " +:+ method)
           else
             match json_field parsed "result", json_field parsed "error" with
             | Some _, Some _ => inr ("RPC response carried both result and error for " +:+ method)
             | None, None => inr ("RPC response carried neither result nor error for " +:+ method)
             | None, Some _ => inr ("RPC error for " +:+ method)
             | Some value, None => inl value
             end
       end.

(** ** The runs of a guard *)
(** What a run records: the guard, the calls whose answer is awaited, the calls that
    reached the transport with the guard that let them through, and the calls that have
    taken a place in the plan with the guard that gave it to them. *)
Record Run := {
  rn_guard : Guard; rn_inflight : list JsonRpcCall; rn_issued : list (JsonRpcCall * Guard);
  rn_followed : list (JsonRpcCall * Guard)
}.
Definition start : Run := {| rn_guard := createGuardedTransport; rn_inflight := []; rn_issued := []; rn_followed := [] |}.
Definition on_guard (g : Guard) (r : Run) : Run :=
  {| rn_guard := g; rn_inflight := rn_inflight r; rn_issued := rn_issued r; rn_followed := rn_followed r |}.

Inductive guard_step (r : Run) : Run -> Prop :=
| step_issued call g :
    begin_send call (rn_guard r) = (Ok tt, g) ->
    guard_step r {| rn_guard := g; rn_inflight := rn_inflight r ++ [call]; rn_issued := rn_issued r ++ [(call, rn_guard r)];
                    rn_followed := match gd_plan g with Some _ => rn_followed r ++ [(call, g)] | None => rn_followed r end |}
| step_refused call e g : begin_send call (rn_guard r) = (Throw e, g) -> guard_step r (on_guard g r)
| step_answered before call after :
    rn_inflight r = before ++ call :: after ->
    guard_step r {| rn_guard := complete_send call (rn_guard r); rn_inflight := before ++ after; rn_issued := rn_issued r;
                    rn_followed := rn_followed r |}
| step_failed before call after :
    rn_inflight r = before ++ call :: after ->
    guard_step r {| rn_guard := rn_guard r; rn_inflight := before ++ after; rn_issued := rn_issued r; rn_followed := rn_followed r |}
| step_bound hex : guard_step r (on_guard (bindToPinnedBlock hex (rn_guard r)) r)
| step_resolved resolver : guard_step r (on_guard (with_resolver resolver (rn_guard r)) r)
| step_installed plan resolver answer g :
    enforcePlan plan resolver (rn_guard r) = (answer, g) ->
    guard_step r {| rn_guard := g; rn_inflight := rn_inflight r; rn_issued := rn_issued r;
                    rn_followed := map (fun call => (call, g)) (take (gd_cursor g) (gd_log g)) |}.

(** * Properties *)

(** ** What passes the guard *)
Definition allowed (method : string) : Prop :=
  method ∈ LIVE_RPC_ALLOWED_METHODS /\ forall prefix, prefix ∈ LIVE_RPC_FORBIDDEN_METHOD_PREFIXES -> startsWith prefix method = false.

(** The text issued is the text planned; of a hexadecimal text, up to the case of its digits. *)
Definition same_text (planned issued : string) : Prop :=
  planned = issued \/ is_hex_text planned = true /\ toLowerCase planned = toLowerCase issued.

(** The value issued is the value planned: of an object no field more and none less. *)
Inductive same_value : Json -> Json -> Prop :=
| same_null : same_value jnull jnull
| same_bool b : same_value (jbool b) (jbool b)
| same_number z : same_value (jnumber z) (jnumber z)
| same_string planned issued : same_text planned issued -> same_value (jstring planned) (jstring issued)
| same_array planned issued : Forall2 same_value planned issued -> same_value (jarray planned) (jarray issued)
| same_object planned issued :
    planned.*1 ≡ₚ issued.*1 ->
    (forall key v, (key, v) ∈ planned -> exists w, map_get key issued = Some w /\ same_value v w) ->
    same_value (jobject planned) (jobject issued).

(** The value issued is what a template of the plan asks for: the target where it says
    [$TARGET], the pinned block where it says [$PINNED_BLOCK], and elsewhere what it says. *)
Inductive asks_for (target block : option string) : Json -> Json -> Prop :=
| asks_target issued : same_value (nullable_text target) issued -> asks_for target block (jstring PLAN_TARGET_PLACEHOLDER) issued
| asks_block issued : same_value (nullable_text block) issued -> asks_for target block (jstring PLAN_PINNED_BLOCK_PLACEHOLDER) issued
| asks_object template issued :
    template.*1 ≡ₚ issued.*1 ->
    (forall key v, (key, v) ∈ template -> exists w, map_get key issued = Some w /\ asks_for target block v w) ->
    asks_for target block (jobject template) (jobject issued)
| asks_literal template issued :
    (forall fields, template <> jobject fields) -> template <> jstring PLAN_TARGET_PLACEHOLDER ->
    template <> jstring PLAN_PINNED_BLOCK_PLACEHOLDER -> same_value template issued -> asks_for target block template issued.

(** The call takes its place in the plan: the planned method, as many parameters, and each
    what its template asks for with the target of the planned role, which must be known,
    and the block pinned, which must be when the call is bound to it. *)
Definition takes_place (planned : LiveCall) (call : JsonRpcCall) (resolver : RoleResolver) (block : option string) : Prop :=
  rc_method call = lc_method planned /\ Z.of_nat (length (rc_params call)) = lc_parameterCount planned /\
  (lc_boundToPinnedBlock planned = true -> is_Some block) /\
  exists target,
    (lc_targetRole planned = NO_TARGET /\ target = None \/
     lc_targetRole planned <> NO_TARGET /\ is_Some target /\ resolver (role_text (lc_targetRole planned)) = target) /\
    Forall2 (asks_for target block) (lc_params planned) (rc_params call).
Definition follows (plan : list LiveCall) (calls : list (JsonRpcCall * Guard)) : Prop :=
  forall i call g, calls !! i = Some (call, g) ->
    exists planned, plan !! i = Some planned /\ takes_place planned call (gd_resolveRole g) (gd_pinned g).

(** The block parameter of a call, when the method has one, is the pinned block. *)
Definition at_block (call : JsonRpcCall) (hex : string) : Prop :=
  forall index, PINNED_BLOCK_PARAMETER_INDEX (rc_method call) = Some index -> rc_params call !! index = Some (jstring hex).

Lemma assertMethodAllowed_Ok method u : assertMethodAllowed method = Ok u <-> allowed method.
Proof.
  unfold assertMethodAllowed, allowed. destruct (existsb _ _) eqn:Ef.
  - split; [done|]. intros [_ Hn]. apply existsb_exists in Ef as (prefix & Hin%list_elem_of_In & Hp). rewrite Hn in Hp; done.
  - destruct (decide (method ∈ LIVE_RPC_ALLOWED_METHODS)) as [Hm|Hm];
      [rewrite bool_decide_eq_true_2 by done|rewrite bool_decide_eq_false_2 by done]; cbn [negb]; [|split; [done|by intros [? _]]].
    destruct u. split; [|done]. intros _. split; [done|]. intros prefix Hin.
    destruct (startsWith prefix method) eqn:Ep; [|done]. rewrite <- Ef. symmetry. apply existsb_exists. exists prefix.
    by rewrite <- list_elem_of_In.
Qed.

Lemma equals_text_true v text : equals_text v text = true <-> v = Some (jstring text).
Proof.
  destruct v as [[]|]; cbn; try (split; [done|congruence]). rewrite bool_decide_eq_true. split; [by intros ->|by intros [= ->]].
Qed.

Lemma assertBoundToPinnedBlock_Ok call hex u : assertBoundToPinnedBlock call hex = Ok u <-> at_block call hex.
Proof.
  unfold assertBoundToPinnedBlock, at_block. destruct (PINNED_BLOCK_PARAMETER_INDEX _) as [index|]; [|by destruct u].
  destruct (equals_text _ hex) eqn:E.
  - apply equals_text_true in E. destruct u. split; [by intros _ ? [= <-]|done].
  - split; [done|]. intros H. specialize (H index eq_refl). apply equals_text_true in H. congruence.
Qed.

(** ** What the comparison decides *)
Lemma requestsAreIdentical_same planned issued : requestsAreIdentical planned issued = true -> same_value planned issued.
Proof.
  revert issued. induction planned as [|b|z|s|items IH|fields IH] using Json_nested_ind; intros [| | | |is_|if_] E;
    cbn [requestsAreIdentical] in E; try discriminate E.
  - constructor.
  - apply eqb_prop in E as ->. constructor.
  - apply Z.eqb_eq in E as ->. constructor.
  - constructor. destruct (is_hex_text s) eqn:Eh; apply bool_decide_eq_true in E; [by right|by left].
  - apply andb_true_iff in E as [Hlen%Nat.eqb_eq E]. constructor. revert is_ Hlen E.
    induction IH as [|v items Hv _ IHi]; intros [|w is_] Hlen E; try discriminate Hlen; [constructor|].
    apply andb_true_iff in E as [E1 E2]. constructor; [by apply Hv|]. apply IHi; [by injection Hlen|done].
  - apply andb_true_iff in E as [Hk%bool_decide_eq_true E]. constructor.
    { rewrite <- (js_sort_Permutation compare_code_units fields.*1), Hk. apply js_sort_Permutation. }
    clear Hk. induction IH as [|[k v] fields Hv _ IHf]; [by intros ? ? ?%elem_of_nil|].
    apply andb_true_iff in E as [E1 E2]. intros key w [[= -> ->]|Hin]%elem_of_cons; [|by apply IHf].
    destruct (map_get k if_) as [i|]; [|discriminate E1]. exists i. split; [done|by apply Hv].
Qed.

Lemma substitute_asks target block value issued :
  requestsAreIdentical (substitute (nullable_text target) (nullable_text block) value) issued = true ->
  asks_for target block value issued.
Proof.
  revert issued. induction value as [|b|z|s|items IH|fields IH] using Json_nested_ind; intros issued E;
    try (by apply asks_literal; [done..|apply requestsAreIdentical_same]).
  - cbn [substitute] in E. case_bool_decide as Ht; [subst; by apply asks_target, requestsAreIdentical_same|].
    case_bool_decide as Hb; [subst; by apply asks_block, requestsAreIdentical_same|].
    apply asks_literal; [done|congruence..|by apply requestsAreIdentical_same].
  - cbn [substitute] in E. destruct issued as [| | | | |if_]; try discriminate E. cbn [requestsAreIdentical] in E.
    apply andb_true_iff in E as [Hk%bool_decide_eq_true E]. apply asks_object.
    { rewrite <- (map_keys (fun field => substitute (nullable_text target) (nullable_text block) field) fields).
      rewrite <- (js_sort_Permutation compare_code_units (map _ fields).*1), Hk. apply js_sort_Permutation. }
    clear Hk. induction IH as [|[k v] fields Hv _ IHf]; [by intros ? ? ?%elem_of_nil|].
    cbn [map fst snd] in E. apply andb_true_iff in E as [E1 E2].
    intros key w [[= -> ->]|Hin]%elem_of_cons; [|by apply IHf].
    destruct (map_get k if_) as [i|]; [|discriminate E1]. exists i. split; [done|by apply Hv].
Qed.

Lemma params_identical_asks target block params issued :
  params_identical (map (substitute (nullable_text target) (nullable_text block)) params) issued = true ->
  Forall2 (asks_for target block) params issued.
Proof.
  unfold params_identical. cbn [requestsAreIdentical]. intros [Hlen%Nat.eqb_eq E]%andb_true_iff.
  revert issued Hlen E. induction params as [|v params IH]; intros [|w issued] Hlen E; try discriminate Hlen; [constructor|].
  cbn [map] in E. apply andb_true_iff in E as [E1 E2]. constructor; [by apply substitute_asks|].
  apply IH; [by injection Hlen|done].
Qed.

Lemma divergence_None planned call resolver block :
  divergence planned call resolver block = None -> takes_place planned call resolver block.
Proof.
  unfold divergence. case_bool_decide as Hm; [|done]. cbn [negb].
  destruct (_ =? lc_parameterCount planned) eqn:Hc; [|done]. apply Z.eqb_eq in Hc. cbn [negb].
  destruct (resolvePlannedRequest planned resolver block) as [params|] eqn:Er; [|done].
  destruct (params_identical params (rc_params call)) eqn:Ei; [|done]. intros _.
  unfold resolvePlannedRequest in Er. split; [done|]. split; [done|].
  destruct (negb (bool_decide (lc_targetRole planned = NO_TARGET))) eqn:Hr; cbn [andb] in Er.
  - case_bool_decide as Ht; [done|]. destruct (lc_boundToPinnedBlock planned && bool_decide (block = None)) eqn:Hb; [done|].
    injection Er as <-. apply negb_true_iff, bool_decide_eq_false in Hr. split.
    { intros E. rewrite E in Hb. apply bool_decide_eq_false in Hb. by apply not_eq_None_Some. }
    eexists. split; [right; split; [done|]; split; [by apply not_eq_None_Some|done]|by apply params_identical_asks].
  - destruct (lc_boundToPinnedBlock planned && bool_decide (block = None)) eqn:Hb; [done|].
    injection Er as <-. apply negb_false_iff, bool_decide_eq_true in Hr. split.
    { intros E. rewrite E in Hb. apply bool_decide_eq_false in Hb. by apply not_eq_None_Some. }
    exists None. split; [by left|by apply params_identical_asks].
Qed.

Lemma enforce_cases call g answer g' :
  enforce call g = (answer, g') ->
  match gd_plan g with
  | None => answer = Ok tt /\ g' = g
  | Some plan =>
      (exists planned, plan !! gd_cursor g = Some planned /\ divergence planned call (gd_resolveRole g) (gd_pinned g) = None /\
         answer = Ok tt /\ g' = with_cursor (S (gd_cursor g)) g) \/
      (exists detail, answer = Throw (LiveCallPlanViolationError detail) /\ g' = with_violation detail g)
  end.
Proof.
  unfold enforce, violate. destruct (gd_plan g) as [plan|]; [|by intros [= <- <-]].
  destruct (plan !! gd_cursor g) as [planned|]; [|intros [= <- <-]; right; by eexists].
  destruct (divergence _ _ _ _) eqn:Ed; intros [= <- <-]; [right; by eexists|left; by exists planned].
Qed.

(** The calls that are let through, with the state they leave. *)
Lemma begin_send_Ok call g g' :
  begin_send call g = (Ok tt, g') ->
  allowed (rc_method call) /\ (forall hex, gd_pinned g = Some hex -> at_block call hex) /\ enforce call g = (Ok tt, g').
Proof.
  unfold begin_send, lift, get. unfold_method. destruct (assertMethodAllowed _) as [[]|] eqn:Em; [|done].
  apply assertMethodAllowed_Ok in Em. destruct (gd_pinned g) as [hex|] eqn:Ep.
  - destruct (assertBoundToPinnedBlock call hex) as [[]|] eqn:Eb; [|done]. apply assertBoundToPinnedBlock_Ok in Eb.
    intros E. split; [done|]. split; [by intros ? [= <-]|done].
  - intros E. split; [done|]. by split.
Qed.

Lemma begin_send_Throw call g e g' :
  begin_send call g = (Throw e, g') -> g' = g \/ exists detail, g' = with_violation detail g.
Proof.
  unfold begin_send, lift, get. unfold_method. destruct (assertMethodAllowed _) as [[]|]; [|intros [= _ <-]; by left].
  destruct (match gd_pinned g with Some _ => _ | None => _ end) as [[]|]; [|intros [= _ <-]; by left].
  intros E%enforce_cases. destruct (gd_plan g); [|naive_solver]. destruct E as [(? & _ & _ & [=] & _)|(detail & _ & ->)].
  right. by exists detail.
Qed.

(** The replay of a log against a plan. *)
Lemma replay calls plan g answer g' :
  for_each calls enforce g = (answer, g') -> gd_plan g = Some plan ->
  gd_plan g' = Some plan /\ gd_log g' = gd_log g /\
  exists k, (k <= length calls)%nat /\ gd_cursor g' = (gd_cursor g + k)%nat /\
    gd_resolveRole g' = gd_resolveRole g /\ gd_pinned g' = gd_pinned g /\
    forall i call, (i < k)%nat -> calls !! i = Some call ->
      exists planned, plan !! (gd_cursor g + i)%nat = Some planned /\ takes_place planned call (gd_resolveRole g) (gd_pinned g).
Proof.
  revert g. induction calls as [|call calls IH]; intros g E Hp.
  { injection E as _ <-. split; [done|]. split; [done|]. exists 0%nat. split_and!; [lia|lia|done|done|]. intros; lia. }
  cbn [for_each] in E. unfold mbind, method_bind in E. destruct (enforce call g) as [r g1] eqn:Ee.
  apply enforce_cases in Ee. rewrite Hp in Ee. destruct Ee as [(planned & Hl & Hd & -> & ->)|(detail & -> & ->)].
  - destruct (IH (with_cursor (S (gd_cursor g)) g) E Hp) as (H1 & H2 & k & Hk & Hc & Hr & Hb & Hall). split; [done|]. split; [done|].
    exists (S k). cbn [gd_cursor with_cursor length] in *. split_and!; [lia|lia|done|done|]. intros [|i] c Hi Hci.
    + injection Hci as <-. exists planned. rewrite Nat.add_0_r. split; [done|by apply divergence_None].
    + destruct (Hall i c) as (p & Hp' & Ht); [lia|done|]. exists p. by replace (gd_cursor g + S i)%nat with (S (gd_cursor g) + i)%nat by lia.
  - injection E as _ <-. split; [done|]. split; [done|]. exists 0%nat. split_and!; [lia|cbn; lia|done|done|]. intros; lia.
Qed.

(** ** The invariant *)
Record guarded (r : Run) : Prop := {
  iv_issued : forall call g, (call, g) ∈ rn_issued r -> allowed (rc_method call) /\ forall hex, gd_pinned g = Some hex -> at_block call hex;
  iv_followed : forall plan, gd_plan (rn_guard r) = Some plan ->
    gd_cursor (rn_guard r) = length (rn_followed r) /\ follows plan (rn_followed r);
  iv_log : gd_log (rn_guard r) ++ rn_inflight r ⊆+ (rn_issued r).*1
}.

Lemma guarded_same_places r g :
  guarded r -> gd_plan g = gd_plan (rn_guard r) -> gd_cursor g = gd_cursor (rn_guard r) -> gd_log g = gd_log (rn_guard r) ->
  guarded (on_guard g r).
Proof. intros [H1 H2 H3] Hp Hc Hl. constructor; cbn [rn_issued rn_guard rn_followed rn_inflight on_guard]; rewrite ?Hp, ?Hc, ?Hl; auto. Qed.

Lemma enforce_keeps call g answer g' : enforce call g = (answer, g') -> gd_plan g' = gd_plan g /\ gd_log g' = gd_log g.
Proof.
  intros E%enforce_cases. destruct (gd_plan g) as [plan|] eqn:Ep; [|by destruct E as [_ ->]].
  by destruct E as [(? & _ & _ & _ & ->)|(? & _ & ->)].
Qed.

Lemma guarded_issued r call g :
  guarded r -> begin_send call (rn_guard r) = (Ok tt, g) ->
  guarded {| rn_guard := g; rn_inflight := rn_inflight r ++ [call]; rn_issued := rn_issued r ++ [(call, rn_guard r)];
             rn_followed := match gd_plan g with Some _ => rn_followed r ++ [(call, g)] | None => rn_followed r end |}.
Proof.
  intros [H1 H2 H3] (Ha & Hb & He)%begin_send_Ok. destruct (enforce_keeps _ _ _ _ He) as [Hp Hl].
  constructor; cbn [rn_issued rn_guard rn_followed rn_inflight].
  - intros c g0 [Hin|Hin]%elem_of_app; [by apply H1|]. apply list_elem_of_singleton in Hin as [= -> ->]. done.
  - intros plan Hplan. rewrite Hplan. rewrite Hp in Hplan. destruct (H2 plan Hplan) as [Hc Hf].
    apply enforce_cases in He. rewrite Hplan in He. destruct He as [(planned & Hlk & Hd & _ & ->)|(? & [=] & _)].
    cbn [gd_cursor with_cursor]. rewrite length_app, Hc. split; [cbn; lia|].
    intros i c g0 [Hi|[Hle Hi]]%lookup_app_Some; [by apply Hf|]. apply list_lookup_singleton_Some in Hi as [Hi [= <- <-]].
    exists planned. split; [|by apply divergence_None in Hd]. rewrite <- Hlk. f_equal. lia.
  - rewrite Hl, app_assoc, fmap_app. by apply submseteq_app.
Qed.

Lemma guarded_step r r' : guarded r -> guard_step r r' -> guarded r'.
Proof.
  intros Hg Hs. destruct Hs as [call g E|call e g E|before call after E|before call after E|hex|resolver|plan resolver answer g E].
  - by apply guarded_issued.
  - apply begin_send_Throw in E as [->|(detail & ->)]; by apply guarded_same_places.
  - destruct Hg as [H1 H2 H3]. constructor; cbn [rn_issued rn_guard rn_followed rn_inflight complete_send with_log gd_log gd_plan gd_cursor]; [done|done|].
    rewrite E in H3. etrans; [|exact H3]. rewrite <- app_assoc. cbn. apply submseteq_app; [done|].
    by rewrite Permutation_middle.
  - destruct Hg as [H1 H2 H3]. constructor; cbn [rn_issued rn_guard rn_followed rn_inflight]; [done|done|].
    rewrite E in H3. etrans; [|exact H3]. apply submseteq_app; [done|]. apply submseteq_app; [done|]. by apply submseteq_cons.
  - by apply guarded_same_places.
  - by apply guarded_same_places.
  - unfold enforcePlan in E. apply (replay _ plan) in E as (Hp & Hl & k & Hk & Hc & Hr & Hb & Hall); [|done].
    cbn [gd_log gd_cursor gd_resolveRole gd_pinned] in *. destruct Hg as [H1 H2 H3].
    constructor; cbn [rn_issued rn_guard rn_followed rn_inflight]; [done| |by rewrite Hl].
    intros plan' Hp'. rewrite Hp in Hp'. injection Hp' as <-. rewrite Hl, Hc, length_map, length_take_le by lia. split; [done|].
    intros i c g0 Hi. apply list_lookup_fmap_Some in Hi as (c' & [= -> ->] & Hi).
    apply lookup_take_Some in Hi as [Hi Hlt]. rewrite Hr, Hb. by apply (Hall i).
Qed.

(** C13: nothing passes the guard but what it should.  In every run of the guarded
    transport, with requests overlapping and failing in any order: every request that
    reached the network used an allowed method, with no forbidden prefix, and named the
    block pinned at that moment; while a plan is installed, the requests that took a
    place in it are as many as its cursor says, and each is the request planned for its
    place: its method, its number of parameters, and in every parameter what the plan
    says, with the target and the block that were known when it passed; and the log
    holds only requests that were made. *)
Theorem guard_run_safe r :
  rtc guard_step start r ->
  (forall call g, (call, g) ∈ rn_issued r -> allowed (rc_method call) /\ forall hex, gd_pinned g = Some hex -> at_block call hex) /\
  (forall plan, gd_plan (rn_guard r) = Some plan ->
     gd_cursor (rn_guard r) = length (rn_followed r) /\ (length (rn_followed r) <= length plan)%nat /\ follows plan (rn_followed r)) /\
  gd_log (rn_guard r) ++ rn_inflight r ⊆+ (rn_issued r).*1.
Proof.
  intros Hrun. assert (Hg : guarded r).
  { eapply (rtc_ind_r guarded); [|intros; by eapply guarded_step|exact Hrun].
    constructor; cbn; [by intros ? ? ?%elem_of_nil|done|done]. }
  destruct Hg as [H1 H2 H3]. split; [done|]. split; [|done]. intros plan Hp. destruct (H2 plan Hp) as [Hc Hf].
  split; [done|]. split; [|done]. destruct (Nat.le_gt_cases (length (rn_followed r)) (length plan)) as [|Hgt]; [done|].
  destruct (lookup_lt_is_Some_2 (rn_followed r) (length plan)) as [call Hcall]; [lia|].
  destruct call as [call g]. destruct (Hf _ _ _ Hcall) as (planned & Hl & _). apply lookup_lt_Some in Hl. lia.
Qed.

Lemma guard_run_safe_witness :
  let call := {| rc_method := "eth_chainId"; rc_params := [] |} in
  exists r, rtc guard_step start r /\ (call, createGuardedTransport) ∈ rn_issued r /\ allowed (rc_method call).
Proof.
  set (call := {| rc_method := "eth_chainId"; rc_params := [] |}).
  set (r := {| rn_guard := createGuardedTransport; rn_inflight := [call]; rn_issued := [(call, createGuardedTransport)];
               rn_followed := [] |}).
  assert (Hrun : rtc guard_step start r) by (apply rtc_once, (step_issued start call createGuardedTransport); reflexivity).
  exists r. split; [exact Hrun|]. split; [apply list_elem_of_here|].
  destruct (guard_run_safe r Hrun) as [H _]. apply (H call createGuardedTransport). apply list_elem_of_here.
Defined.

(** ** Following a generated plan *)
(** What the calls of a generated plan have in common. *)
Record plan_call (call : LiveCall) : Prop := {
  pc_allowed : assertMethodAllowed (lc_method call) = Ok tt;
  pc_count : Z.of_nat (length (lc_params call)) = lc_parameterCount call;
  pc_pinned : forall index, PINNED_BLOCK_PARAMETER_INDEX (lc_method call) = Some index ->
    lc_params call !! index = Some (jstring PLAN_PINNED_BLOCK_PLACEHOLDER);
  pc_params : forall v, v ∈ lc_params call -> well_formed v
}.

Lemma requestsAreIdentical_refl value : well_formed value -> requestsAreIdentical value value = true.
Proof.
  induction value as [|b|z|s|items IH|fields IH] using Json_nested_ind; intros Hw; cbn [requestsAreIdentical].
  - done.
  - by destruct b.
  - apply Z.eqb_refl.
  - destruct (is_hex_text s); by apply bool_decide_eq_true.
  - rewrite Nat.eqb_refl. inversion Hw as [| | | |? Hi|]; subst. clear Hw. cbn [andb].
    induction IH as [|v items Hv _ IHi]; [done|]. rewrite Hv by (apply Hi; by left). apply IHi. intros w Hw. apply Hi. by right.
  - inversion Hw as [| | | | |? Hnd Hi]; subst. clear Hw. rewrite bool_decide_eq_true_2 by done. cbn [andb].
    assert (Hget : forall k v, (k, v) ∈ fields -> map_get k fields = Some v) by (intros; by apply map_get_elem).
    revert Hget. generalize fields at 2 3. intros all Hget.
    induction IH as [|[k v] fields Hv _ IHf]; [done|]. rewrite (Hget k v) by (by left). cbn in Hv.
    rewrite Hv by (eapply Hi; by left). inversion Hnd; subst. apply IHf; [done|intros; eapply Hi; by right|intros; apply Hget; by right].
Qed.

Lemma substitute_well_formed target pinned value :
  well_formed target -> well_formed pinned -> well_formed value -> well_formed (substitute target pinned value).
Proof.
  intros Ht Hp. induction value as [|b|z|s|items IH|fields IH] using Json_nested_ind; intros Hw; cbn [substitute]; try done.
  - by repeat case_bool_decide.
  - inversion Hw as [| | | | |? Hnd Hi]; subst. constructor; [by rewrite map_keys|].
    intros k v Hin. apply list_elem_of_fmap in Hin as ([k' w] & [= -> ->] & Hin). rewrite Forall_forall in IH.
    by apply (IH (k', w)); [|eapply Hi].
Qed.

Lemma nullable_well_formed text : well_formed (nullable_text text).
Proof. destruct text; constructor. Qed.
#[local] Hint Resolve nullable_well_formed : core.

Lemma well_formed_items values : Forall well_formed values -> forall v, v ∈ values -> well_formed v.
Proof. rewrite Forall_forall. auto. Qed.

Lemma codeCall_plan_call callId role purpose step : plan_call (codeCall callId role purpose step).
Proof.
  constructor; [done|done|by intros index [= <-]|]. apply well_formed_items. repeat constructor.
Qed.
Lemma storageCall_plan_call callId role slot purpose step : plan_call (storageCall callId role slot purpose step).
Proof.
  constructor; [done|done|by intros index [= <-]|]. apply well_formed_items. repeat constructor.
Qed.
Lemma ethCall_plan_call callId role data purpose response step : plan_call (ethCall callId role data purpose response step).
Proof.
  constructor; [done|done|by intros index [= <-]|]. apply well_formed_items. constructor; [|repeat constructor].
  constructor; [apply (bool_decide_unpack _); vm_compute; exact I|].
  intros k v Hin. rewrite !elem_of_cons in Hin. destruct Hin as [[= _ ->]|[[= _ ->]|[]%elem_of_nil]]; auto using well_formed.
Qed.
#[local] Hint Resolve codeCall_plan_call storageCall_plan_call ethCall_plan_call : core.

Lemma push_plan_call make s : (forall n, plan_call (make n)) -> Forall plan_call s.1 -> Forall plan_call (push make s).1.
Proof. intros Hm Hs. apply Forall_app. split; [done|by apply Forall_singleton]. Qed.

Lemma plan_deployment_plan_calls `{Keccak} record hex b1 b2 :
  well_formed hex -> Forall plan_call (plan_deployment record hex b1 b2).1.
Proof.
  intros Hhex. assert (Hb : plan_call (pinnedBlockCall hex)).
  { constructor; [done|done|done|]. apply well_formed_items. repeat constructor. done. }
  assert (Hc : plan_call chainIdCall) by (constructor; [done|done|done|by intros v ?%elem_of_nil]).
  unfold plan_deployment. repeat first [apply push_plan_call; [by intros; auto|]|destruct b1|destruct b2].
  all: apply Forall_cons; split; [done|]; apply Forall_cons; split; [done|]; apply Forall_singleton; auto.
Qed.

Lemma generated_plan_calls `{Keccak} record plan :
  well_formed record -> generateLiveCallPlan record = Ok plan -> Forall plan_call plan.
Proof.
  intros Hw (hex & extras & Hhex & -> & Hx & _)%generated_plan. apply Forall_app. split.
  - apply plan_deployment_plan_calls. assert (Hsub : forall v key w, well_formed v -> json_field v key = Some w -> well_formed w).
    { intros v key w Hv E. destruct v; try discriminate. inversion Hv; subst. eapply H2, map_get_Some_elem, E. }
    unfold optional_member in Hhex. destruct (json_field record "snapshot") as [snapshot|] eqn:Es; cbn in Hhex; [|subst hex; constructor].
    destruct hex as [hex|]; [|constructor]. cbn. eauto.
  - eapply Forall_impl; [exact Hx|]. intros ? (id & role & data & purpose & response & step & -> & _). auto.
Qed.

(** The call the plan asks for. *)
Definition request_of (resolver : RoleResolver) (hex : string) (planned : LiveCall) : JsonRpcCall :=
  {| rc_method := lc_method planned;
     rc_params := match resolvePlannedRequest planned resolver (Some hex) with inl params => params | inr _ => [] end |}.

Lemma resolved_request planned resolver hex :
  (forall role, role <> NO_TARGET -> is_Some (resolver (role_text role))) ->
  exists target, resolvePlannedRequest planned resolver (Some hex) =
    inl (map (substitute (nullable_text target) (jstring hex)) (lc_params planned)).
Proof.
  intros Hr. unfold resolvePlannedRequest. rewrite andb_false_r. case_bool_decide as Hn; cbn [negb andb]; [by eexists|].
  destruct (Hr _ Hn) as [target E]. rewrite E, bool_decide_eq_false_2 by done. by eexists.
Qed.

Lemma begin_send_planned g plan planned resolver hex :
  (forall role, role <> NO_TARGET -> is_Some (resolver (role_text role))) -> plan_call planned ->
  gd_plan g = Some plan -> plan !! gd_cursor g = Some planned -> gd_resolveRole g = resolver -> gd_pinned g = Some hex ->
  begin_send (request_of resolver hex planned) g = (Ok tt, with_cursor (S (gd_cursor g)) g).
Proof.
  intros Hr [Ha Hc Hp Hw] Eg El Er Eh. destruct (resolved_request planned resolver hex Hr) as (target & Et).
  assert (Hb : assertBoundToPinnedBlock (request_of resolver hex planned) hex = Ok tt).
  { apply assertBoundToPinnedBlock_Ok. intros index Hi. cbn [request_of rc_params rc_method] in *. rewrite Et, list_lookup_fmap.
    rewrite (Hp index Hi). reflexivity. }
  assert (Hd : divergence planned (request_of resolver hex planned) resolver (Some hex) = None).
  { unfold divergence. cbn [request_of rc_params rc_method]. rewrite Et, bool_decide_eq_true_2, length_map, Hc, Z.eqb_refl by done.
    cbn [negb]. unfold params_identical. rewrite requestsAreIdentical_refl; [done|]. constructor.
    intros v (w & -> & Hin)%list_elem_of_fmap. apply substitute_well_formed; [auto|constructor|auto]. }
  unfold begin_send, lift, get. unfold_method. cbn [request_of rc_method]. rewrite Ha, Eh.
  fold (request_of resolver hex planned). rewrite Hb. unfold enforce. by rewrite Eg, El, Er, Eh, Hd.
Qed.

(** C14: the plan can be followed, and ends.  With the plan generated from a record installed,
    the block pinned and every target known, the requests the plan asks for all pass the
    guard, one after the other and without a violation; once the last has passed, every
    further request is refused. *)
Theorem generated_plan_can_be_followed `{Keccak} record plan resolver hex g :
  well_formed record -> generateLiveCallPlan record = Ok plan ->
  (forall role, role <> NO_TARGET -> is_Some (resolver (role_text role))) ->
  gd_plan g = Some plan -> gd_resolveRole g = resolver -> gd_pinned g = Some hex -> gd_cursor g = 0%nat ->
  exists g', for_each (map (request_of resolver hex) plan) begin_send g = (Ok tt, g') /\
    gd_cursor g' = length plan /\ gd_violations g' = gd_violations g /\
    forall call, exists e g'', begin_send call g' = (Throw e, g'') /\ gd_cursor g'' = length plan.
Proof.
  intros Hw Hplan Hr Eg Er Eh Hc0. apply generated_plan_calls in Hplan; [|done].
  assert (Hrun : forall calls done, plan = done ++ calls ->
    for_each (map (request_of resolver hex) calls) begin_send (with_cursor (length done) g) = (Ok tt, with_cursor (length plan) g)).
  { intros calls. induction calls as [|planned calls IH]; intros done E; cbn [map for_each].
    - by rewrite E, app_nil_r.
    - unfold mbind, method_bind. rewrite (begin_send_planned (with_cursor (length done) g) plan planned resolver hex); try done.
      + cbn [with_cursor gd_cursor]. specialize (IH (done ++ [planned])). rewrite length_app, Nat.add_1_r in IH.
        apply IH. by rewrite <- app_assoc.
      + eapply Forall_forall; [exact Hplan|]. rewrite E. apply elem_of_app. right. by left.
      + cbn [with_cursor gd_cursor]. rewrite E. apply list_lookup_middle. done. }
  exists (with_cursor (length plan) g). split; [|split; [done|split; [done|]]].
  { rewrite <- (Hrun plan []) by done. f_equal. destruct g. cbn in *. by subst. }
  intros call. destruct (begin_send call (with_cursor (length plan) g)) as [[[]|e] g''] eqn:E.
  - apply begin_send_Ok in E as (_ & _ & E%enforce_cases). cbn [gd_plan with_cursor gd_cursor] in E. rewrite Eg in E.
    destruct E as [(planned & Hl & _)|(? & [=] & _)]. apply lookup_lt_Some in Hl. lia.
  - exists e, g''. split; [done|]. by apply begin_send_Throw in E as [->|(? & ->)].
Qed.

(** Objects have distinct keys, as a boolean. *)
Fixpoint well_formedb (value : Json) : bool :=
  match value with
  | jarray items => forallb well_formedb items
  | jobject fields => bool_decide (NoDup fields.*1) && forallb (fun field => well_formedb field.2) fields
  | _ => true
  end.
Lemma well_formedb_sound value : well_formedb value = true -> well_formed value.
Proof.
  induction value as [|b|z|s|items IH|fields IH] using Json_nested_ind; cbn; intros Hw; try constructor.
  - intros v Hv. rewrite Forall_forall in IH. apply (IH v Hv). rewrite forallb_forall in Hw. by apply Hw, list_elem_of_In.
  - apply andb_prop in Hw as [Hw _]. by apply bool_decide_eq_true in Hw.
  - intros k v Hv. apply andb_prop in Hw as [_ Hw]. rewrite Forall_forall in IH. apply (IH (k, v) Hv).
    rewrite forallb_forall in Hw. by apply (Hw (k, v)), list_elem_of_In.
Qed.

#[local] Instance reference_keccak : Keccak := {| keccak_id signature := "0x" +:+ stringify_text signature |}.

Lemma generated_plan_can_be_followed_witness :
  exists plan g g', generateLiveCallPlan offlinePlanReferenceRecord = Ok plan /\ gd_plan g = Some plan /\
    for_each (map (request_of (fun _ => Some "0xaa") "0x1") plan) begin_send g = (Ok tt, g') /\ gd_cursor g' = 13%nat.
Proof.
  destruct (generateLiveCallPlan offlinePlanReferenceRecord) as [plan|] eqn:E; [|vm_compute in E; discriminate].
  assert (Hl : length plan = 13%nat) by (vm_compute in E; injection E as <-; reflexivity).
  set (g := {| gd_log := []; gd_pinned := Some "0x1"; gd_plan := Some plan; gd_resolveRole := fun _ => Some "0xaa";
               gd_cursor := 0; gd_violations := [] |}).
  destruct (generated_plan_can_be_followed offlinePlanReferenceRecord plan (fun _ => Some "0xaa") "0x1" g) as (g' & H1 & H2 & _).
  - apply well_formedb_sound. vm_compute. reflexivity.
  - exact E.
  - intros role _. exists "0xaa". reflexivity.
  - reflexivity.
  - reflexivity.
  - reflexivity.
  - reflexivity.
  - exists plan, g, g'. rewrite <- Hl. exact (conj eq_refl (conj eq_refl (conj H1 H2))).
Defined.
