(* ===== verification/HcuBytecode.v ===== *)
(** * The identity of deployed code: scripts/sg4-hcu-authority.ts

    The code that is deployed carries addresses that no compiler output has.  Before it
    is compared with the official artifact, [normalizeRuntimeBytecodeFromManifest] writes
    the placeholders of the artifact over exactly the ranges a reviewed manifest names,
    each after its present content was checked; [classifyCodeIdentity] compares digests.
    [normalizeRuntimeBytecode] is the same for the installed fixture.  The theorems say
    that nothing is hidden by this.  A buffer is a list of bytes; the hash is the class
    [Sha256]. *)
From Stdlib Require Import ZArith Lia Ascii.
From stdpp Require Import base option list strings.
From S2P Require Import Prelude HcuJson HcuAbi.
Local Open Scope Z_scope.

(** [sha256(data)], in hexadecimal. *)
Class Sha256 := { sha256 : list Z -> string }.

(** ** Buffers *)
(** [buffer.toString("hex")] *)
Definition byte_hex (b : Z) : string := String (hex_char (b / 16)) (String (hex_char (b mod 16)) "").
Fixpoint to_hex (bytes : list Z) : string := match bytes with [] => "" | b :: bytes' => byte_hex b +:+ to_hex bytes' end.

(** [Buffer.from(text, "hex")]: up to the first pair that is not hexadecimal. *)
Fixpoint from_hex (s : string) : list Z :=
  match s with
  | String h (String l rest) =>
      if is_hex_digit h && is_hex_digit l then (16 * hex_digit_value h + hex_digit_value l) :: from_hex rest else []
  | _ => []
  end.

Definition size {A} (bytes : list A) : Z := Z.of_nat (length bytes).
(** A bound of [subarray]: counted from the end when negative. *)
Definition relative (length index : Z) : Z := if index <? 0 then Z.max 0 (length + index) else Z.min index length.
(** [buffer.subarray(start, end)] *)
Definition subarray (start stop : Z) (bytes : list Z) : list Z :=
  let first := relative (size bytes) start in
  take (Z.to_nat (relative (size bytes) stop - first)) (drop (Z.to_nat first) bytes).
(** [buffer[index]] *)
Definition byte_at (bytes : list Z) (index : Z) : option Z := if index <? 0 then None else bytes !! Z.to_nat index.
(** [source.copy(target, offset)] at an offset inside the target: what does not fit is not written. *)
Definition copy (source : list Z) (offset : Z) (target : list Z) : list Z := list_inserts (Z.to_nat offset) source target.
(** [target.fill(value, offset, stop)]: the value is repeated; an empty one is refused,
    and so are bounds outside the buffer. *)
Definition repeated (value : list Z) (count : Z) : list Z :=
  take (Z.to_nat count) (concat (replicate (Z.to_nat count) value)).
Definition fill (value : list Z) (offset stop : Z) (target : list Z) : result (list Z) :=
  if (offset <? 0) || (stop <? 0) || (size target <? stop) then
    Throw (JsError true "RangeError" (Some "ERR_OUT_OF_RANGE") "The value is out of range")
  else if stop <=? offset then Ok target
  else match value with
       | [] => Throw (JsError true "TypeError" (Some "ERR_INVALID_ARG_VALUE") "The argument 'value' is invalid")
       | _ => Ok (copy (repeated value (stop - offset)) offset target)
       end.

(** ** The metadata at the end of code *)
Record MetadataInspection := {
  mi_valid : bool; mi_cborByteLength : Z; mi_hex : string; mi_solcVersion : option string; mi_carriesSourceHash : bool;
  mi_codeSectionLength : Z
}.

(** The three bytes of the version, when the trailer has no other entry. *)
Definition solc_match (hex : string) : option string :=
  if startsWith "a164736f6c6343" hex && lower_hex 6 (drop_chars 14 hex) then Some (drop_chars 14 hex) else None.
Definition hex_pair (index : nat) (s : string) : string := Z_toString (hex_value 0 (slice0 2 (drop_chars (2 * index) s))).

Definition inspectMetadataTrailer (runtime : list Z) : result MetadataInspection :=
  fail_if (size runtime <? 4) "metadata: runtime too short" ;;
  let cborByteLength := 256 * default 0 (byte_at runtime (size runtime - 2)) + default 0 (byte_at runtime (size runtime - 1)) in
  let start := size runtime - 2 - cborByteLength in
  fail_if (start <? 0) "metadata: declared trailer length exceeds runtime length" ;;
  let hex := to_hex (subarray start (size runtime - 2) runtime) in
  let solcMatch := solc_match hex in
  let carriesSourceHash := includes "69706673" hex || includes "627a7a72" hex in
  Ok {| mi_valid := bool_decide (is_Some solcMatch) && negb carriesSourceHash; mi_cborByteLength := cborByteLength; mi_hex := hex;
        mi_solcVersion := (fun v => hex_pair 0 v +:+ "." +:+ hex_pair 1 v +:+ "." +:+ hex_pair 2 v) <$> solcMatch;
        mi_carriesSourceHash := carriesSourceHash; mi_codeSectionLength := start |}.

(** ** The installed fixture *)
Definition EXPECTED_RUNTIME_BYTE_LENGTH : Z := 14832.
Definition EXPECTED_METADATA_solcVersion : string := "0.8.24".
Definition EXECUTOR_IMMEDIATE_OFFSETS : list Z := [
  783; 1580; 1905; 2339; 2788; 3336; 3825; 4176; 4528; 5147; 5571; 5852; 6264; 6688; 7176; 7562; 7879; 8300; 8725; 9352;
  9615; 10039; 10099; 10450; 10692; 10966; 11593; 11876].
Definition EXECUTOR_IMMEDIATE_COUNT : Z := 28.
Definition ADDRESS_BYTE_LENGTH : Z := 20.
Definition PUSH20_OPCODE : Z := 115.

Record NormalizationResult := {
  nr_ok : bool; nr_failures : list string; nr_replacements : Z; nr_replacedOffsets : list Z; nr_normalizedSha256 : string;
  nr_embeddedAddress : option string
}.

(** What the loops over the offsets keep: the failures, the copy of the code, the offsets
    that were written. *)
Record Normalizing := { nz_failures : list string; nz_bytes : list Z; nz_replaced : list Z }.
Definition failed (failure : string) (s : Normalizing) : Normalizing :=
  {| nz_failures := nz_failures s ++ [failure]; nz_bytes := nz_bytes s; nz_replaced := nz_replaced s |}.
Definition failed_if (c : bool) (failure : string) (s : Normalizing) : Normalizing := if c then failed failure s else s.
Definition written (bytes : list Z) (s : Normalizing) : Normalizing :=
  {| nz_failures := nz_failures s; nz_bytes := bytes; nz_replaced := nz_replaced s |}.
Definition replaced_at (offset : Z) (s : Normalizing) : Normalizing :=
  {| nz_failures := nz_failures s; nz_bytes := nz_bytes s; nz_replaced := nz_replaced s ++ [offset] |}.

(** [`${x}`] of an optional text. *)
Definition text_or_null (text : option string) : string := match text with Some t => t | None => "null" end.

Definition normalize_offset (runtime : list Z) (address : string) (offset : Z) (s : Normalizing) : result Normalizing :=
  if (offset <? 0) || (size runtime <? offset + ADDRESS_BYTE_LENGTH) then Ok (failed ("UNKNOWN_OFFSET:" +:+ Z_toString offset) s)
  else if negb (bool_decide (byte_at runtime (offset - 1) = Some PUSH20_OPCODE)) then
    Ok (failed ("OPCODE_MISMATCH:" +:+ Z_toString offset) s)
  else
    let found := to_hex (subarray offset (offset + ADDRESS_BYTE_LENGTH) runtime) in
    if negb (bool_decide (found = address)) then Ok (failed ("MISSING_REPLACEMENT:" +:+ Z_toString offset +:+ ":" +:+ found) s)
    else
      bytes ← fill [0] offset (offset + ADDRESS_BYTE_LENGTH) (nz_bytes s);
      Ok (replaced_at offset (written bytes s)).

Fixpoint fold_result {A S} (step : A -> S -> result S) (xs : list A) (s : S) : result S :=
  match xs with [] => Ok s | x :: xs' => s' ← step x s; fold_result step xs' s' end.

(** The positions of a text in another, from [indexOf] to [indexOf]. *)
Fixpoint occurrences (needle hay : string) (index : Z) : list Z :=
  (if startsWith needle hay then [index] else []) ++
  match hay with String _ rest => occurrences needle rest (index + 1) | EmptyString => [] end.

(** Occurrences of the bytes that no declared offset explains. *)
Definition extra_replacements (needle : string) (runtime declared : list Z) : list string :=
  flat_map (fun index =>
    if negb (index mod 2 =? 0) then []
    else if bool_decide (index / 2 ∈ declared) then [] else ["EXTRA_REPLACEMENT:" +:+ Z_toString (index / 2)])
    (occurrences needle (to_hex runtime) 0).

Definition normalizeRuntimeBytecode `{Sha256} (runtime : list Z) (expectedAddress : string) (offsets : list Z)
    : result NormalizationResult :=
  let address := strip_0x (toLowerCase expectedAddress) in
  fail_if (negb (lower_hex 40 address)) "normalization: expected address is malformed" ;;
  metadata ← inspectMetadataTrailer runtime;
  let s := {| nz_failures := []; nz_bytes := runtime; nz_replaced := [] |} in
  let s := failed_if (negb (size runtime =? EXPECTED_RUNTIME_BYTE_LENGTH))
             ("LENGTH_MISMATCH:" +:+ Z_toString (size runtime) +:+ "!=" +:+ Z_toString EXPECTED_RUNTIME_BYTE_LENGTH) s in
  let s := failed_if (negb (mi_valid metadata)) "UNRECOGNIZED_METADATA" s in
  let s := failed_if (negb (bool_decide (mi_solcVersion metadata = Some EXPECTED_METADATA_solcVersion)))
             ("UNRECOGNIZED_METADATA:solc=" +:+ text_or_null (mi_solcVersion metadata)) s in
  s ← fold_result (normalize_offset runtime address) offsets s;
  let failures := nz_failures s ++ extra_replacements address runtime offsets in
  let count := size (nz_replaced s) in
  let failures := if negb (count =? EXECUTOR_IMMEDIATE_COUNT) then failures ++ ["MISSING_REPLACEMENT:count=" +:+ Z_toString count]
                  else failures in
  Ok {| nr_ok := bool_decide (failures = []); nr_failures := js_sort compare_code_units failures; nr_replacements := count;
        nr_replacedOffsets := nz_replaced s; nr_normalizedSha256 := sha256 (nz_bytes s);
        nr_embeddedAddress := if 0 <? count then Some ("0x" +:+ address) else None |}.

(** ** The authoritative artifact *)
Record ImmutableReference := {
  ir_id : string; ir_kind : string; ir_offset : Z; ir_byteLength : Z; ir_expectedArtifactPlaceholderBytes : string;
  ir_compilerReferenceId : string
}.
Record SupplementaryReference := {
  sr_id : string; sr_kind : string; sr_offset : Z; sr_byteLength : Z; sr_expectedDeployedBytes : string;
  sr_expectedArtifactPlaceholderBytes : string; sr_compilerReferenceId : string
}.
Record NormalizationManifest := {
  nm_schema : string; nm_version : Z; nm_runtimeByteLength : Z; nm_compilerVersion : string; nm_metadataModel : string;
  nm_acceptedMetadataStructure : string; nm_immutableReferenceKind : string; nm_wordByteLength : Z;
  nm_deploymentValueShape : string; nm_primaryImmutableReferences : list ImmutableReference;
  nm_requiredPrecedingOpcode : string; nm_expectedReplacementCount : Z; nm_metadataTrailerByteLength : Z;
  nm_metadataTrailerSha256 : string; nm_supplementaryImmutableReferences : list SupplementaryReference
}.
Record ManifestNormalizationResult := {
  mr_ok : bool; mr_failures : list string; mr_replacements : Z; mr_normalizedSha256 : string
}.

Definition LEADING_ZERO_BYTE_LENGTH : nat := 12.
Definition deploymentValueWord (implementationAddress : string) : option (list Z) :=
  let address := strip_0x (toLowerCase implementationAddress) in
  if negb (lower_hex 40 address) then None
  else Some (from_hex (repeat_char (2 * LEADING_ZERO_BYTE_LENGTH) "0" +:+ address)).

(** [Number.parseInt(text, 16)]: an optional sign and prefix, then the leading digits. *)
Fixpoint leading_hex (s : string) : string :=
  match s with String c s' => if is_hex_digit c then String c (leading_hex s') else "" | EmptyString => "" end.
Definition parse_hex_digits (s : string) : option Z :=
  let body := match s with String "0" (String "x" rest) | String "0" (String "X" rest) => rest | _ => s end in
  match leading_hex body with EmptyString => None | digits => Some (hex_value 0 digits) end.
Definition parseInt_hex (text : string) : option Z :=
  match trimStart text with
  | String "-" body => Z.opp <$> parse_hex_digits body
  | String "+" body => parse_hex_digits body
  | body => parse_hex_digits body
  end.

Definition normalize_primary (runtime : list Z) (wordByteLength : Z) (opcode : option Z) (deployedWordHex : string)
    (reference : ImmutableReference) (s : Normalizing) : result Normalizing :=
  let offset := ir_offset reference in
  if (offset <? 1) || (size runtime <? offset + wordByteLength) then Ok (failed ("UNKNOWN_OFFSET:" +:+ Z_toString offset) s)
  else if negb (ir_byteLength reference =? wordByteLength) then Ok (failed ("PRIMARY_LENGTH_MISMATCH:" +:+ ir_id reference) s)
  else if negb (bool_decide (is_Some opcode) && bool_decide (byte_at runtime (offset - 1) = opcode)) then
    Ok (failed ("OPCODE_MISMATCH:" +:+ Z_toString offset) s)
  else
    let found := to_hex (subarray offset (offset + wordByteLength) runtime) in
    if negb (bool_decide (found = deployedWordHex)) then
      Ok (failed ("MISSING_REPLACEMENT:" +:+ Z_toString offset +:+ ":" +:+ found) s)
    else
      let placeholder := strip_0x (toLowerCase (ir_expectedArtifactPlaceholderBytes reference)) in
      if negb (Z.of_nat (String.length placeholder) =? wordByteLength * 2) || negb (string_nonempty placeholder && string_forall is_lower_hex placeholder) then
        Ok (failed ("ARTIFACT_PLACEHOLDER_MISMATCH:" +:+ ir_id reference) s)
      else Ok (replaced_at offset (written (copy (from_hex placeholder) offset (nz_bytes s)) s)).

Definition normalize_supplementary (runtime : list Z) (entry : SupplementaryReference) (s : Normalizing) : result Normalizing :=
  let offset := sr_offset entry in
  if size runtime <? offset + sr_byteLength entry then Ok (failed ("UNKNOWN_OFFSET:supplementary:" +:+ Z_toString offset) s)
  else
    let present := to_hex (subarray offset (offset + sr_byteLength entry) runtime) in
    let expected := strip_0x (toLowerCase (sr_expectedDeployedBytes entry)) in
    if negb (bool_decide (present = expected)) then
      Ok (failed ("SUPPLEMENTARY_VALUE_MISMATCH:" +:+ sr_id entry +:+ ":" +:+ Z_toString offset) s)
    else
      let placeholder := from_hex (strip_0x (sr_expectedArtifactPlaceholderBytes entry)) in
      if negb (size placeholder =? sr_byteLength entry) then Ok (failed ("ARTIFACT_PLACEHOLDER_MISMATCH:" +:+ sr_id entry) s)
      else bytes ← fill placeholder offset (offset + sr_byteLength entry) (nz_bytes s); Ok (written bytes s).

(** The checks of the metadata against the manifest. *)
Definition check_metadata `{Sha256} (runtime : list Z) (manifest : NormalizationManifest) (s : Normalizing) : Normalizing :=
  match inspectMetadataTrailer runtime with
  | Throw _ => failed "UNRECOGNIZED_METADATA:unreadable" s
  | Ok metadata =>
      let s := failed_if (mi_carriesSourceHash metadata) "UNRECOGNIZED_METADATA:structure=withSourceHash" s in
      let s := failed_if (negb (mi_valid metadata)) "UNRECOGNIZED_METADATA:invalid" s in
      let s := failed_if (negb (bool_decide (mi_solcVersion metadata = Some (nm_compilerVersion manifest))))
                 ("UNRECOGNIZED_METADATA:solc=" +:+ text_or_null (mi_solcVersion metadata)) s in
      let trailerLength := size runtime - mi_codeSectionLength metadata in
      if negb (trailerLength =? nm_metadataTrailerByteLength manifest) then
        failed ("UNRECOGNIZED_METADATA:trailerLength=" +:+ Z_toString trailerLength) s
      else failed_if (negb (bool_decide (sha256 (subarray (mi_codeSectionLength metadata) (size runtime) runtime) = nm_metadataTrailerSha256 manifest)))
             "UNRECOGNIZED_METADATA:trailerDigest" s
  end.

Definition refused `{Sha256} (failure : string) (runtime : list Z) : ManifestNormalizationResult :=
  {| mr_ok := false; mr_failures := [failure]; mr_replacements := 0; mr_normalizedSha256 := sha256 runtime |}.

(** The copy of the code, with what failed on the way. *)
Definition normalize_run `{Sha256} (runtime : list Z) (manifest : NormalizationManifest) (expectedWord : list Z) : result Normalizing :=
  let opcode := parseInt_hex (drop_chars 2 (nm_requiredPrecedingOpcode manifest)) in
  let s := failed_if (negb (size runtime =? nm_runtimeByteLength manifest))
             ("LENGTH_MISMATCH:" +:+ Z_toString (size runtime) +:+ "!=" +:+ Z_toString (nm_runtimeByteLength manifest))
             {| nz_failures := []; nz_bytes := runtime; nz_replaced := [] |} in
  let s := check_metadata runtime manifest s in
  s ← fold_result (normalize_primary runtime (nm_wordByteLength manifest) opcode (to_hex expectedWord))
        (nm_primaryImmutableReferences manifest) s;
  fold_result (normalize_supplementary runtime) (nm_supplementaryImmutableReferences manifest) s.

Definition normalizeRuntimeBytecodeFromManifest `{Sha256} (runtime : list Z) (manifest : NormalizationManifest)
    (implementationAddress : string) : result ManifestNormalizationResult :=
  if negb (bool_decide (nm_deploymentValueShape manifest = "LEFT_PADDED_IMPLEMENTATION_ADDRESS_WORD")) then
    Ok (refused ("UNSUPPORTED_DEPLOYMENT_VALUE_SHAPE:" +:+ nm_deploymentValueShape manifest) runtime)
  else match deploymentValueWord implementationAddress with
  | None => Ok (refused "DEPLOYMENT_VALUE_LENGTH_MISMATCH" runtime)
  | Some expectedWord =>
      if negb (size expectedWord =? nm_wordByteLength manifest) then Ok (refused "DEPLOYMENT_VALUE_LENGTH_MISMATCH" runtime)
      else
        s ← normalize_run runtime manifest expectedWord;
        let declared := map ir_offset (nm_primaryImmutableReferences manifest) in
        let failures := nz_failures s ++ extra_replacements (to_hex expectedWord) runtime declared in
        let count := size (nz_replaced s) in
        let failures := if negb (count =? nm_expectedReplacementCount manifest)
                        then failures ++ ["MISSING_REPLACEMENT:count=" +:+ Z_toString count] else failures in
        Ok {| mr_ok := bool_decide (failures = []); mr_failures := js_sort compare_code_units (js_set failures);
              mr_replacements := count; mr_normalizedSha256 := sha256 (nz_bytes s) |}
  end.

(** ** The verdict *)
Inductive CodeIdentityResult : Type := VERIFIED | MISMATCH | BLOCKED_AUTHORITATIVE_ARTIFACT_UNRESOLVED.
Definition LOCAL_FIXTURE_SHA256 : string := "83350c6350999e2edad550d0541911100d63ffd4eb8f45d9a6e97ab165c1662b".

Definition classifyCodeIdentity (normalizedSha256 : string) (normalizationOk : bool) (expectedAuthoritativeSha256 : option string)
    : CodeIdentityResult :=
  match expectedAuthoritativeSha256 with
  | None => BLOCKED_AUTHORITATIVE_ARTIFACT_UNRESOLVED
  | Some expected =>
      if bool_decide (expected = LOCAL_FIXTURE_SHA256) then BLOCKED_AUTHORITATIVE_ARTIFACT_UNRESOLVED
      else if negb normalizationOk then MISMATCH
      else if bool_decide (normalizedSha256 = expected) then VERIFIED else MISMATCH
  end.

(** * Properties *)

(** ** Bytes *)
Definition is_byte (b : Z) : Prop := 0 <= b < 256.

Lemma byte_hex_inj a b s t : is_byte a -> is_byte b -> byte_hex a +:+ s = byte_hex b +:+ t -> a = b /\ s = t.
Proof.
  unfold is_byte, byte_hex. intros Ha Hb. rewrite !append_cons. intros E. injection E as E1 E2 E.
  apply (f_equal hex_digit_value) in E1, E2.
  rewrite !(fun n H => proj1 (hex_char_value n H)) in E1, E2 by (try apply Z.mod_pos_bound; try (split; [apply Z.div_pos|apply Z.div_lt_upper_bound]); lia).
  pose proof (Z.div_mod a 16). pose proof (Z.div_mod b 16). split; [lia|done].
Qed.

Lemma to_hex_inj xs ys : Forall is_byte xs -> Forall is_byte ys -> to_hex xs = to_hex ys -> xs = ys.
Proof.
  intros Hx. revert ys. induction Hx as [|x xs Hx _ IH]; intros ys Hy E; destruct Hy as [|y ys Hy Hys]; try done.
  apply byte_hex_inj in E as [-> E]; [|done..]. f_equal. by apply IH.
Qed.

Lemma from_hex_length s : (2 * length (from_hex s) <= String.length s)%nat.
Proof.
  assert (H : forall n s, (String.length s <= n)%nat -> (2 * length (from_hex s) <= String.length s)%nat); [|by apply (H (String.length s))].
  clear s. intros n. induction n as [|n IH]; intros [|h [|l s]] Hn; cbn in *; try lia.
  destruct (_ && _); cbn; [|lia]. specialize (IH s). lia.
Qed.

Lemma subarray_lookup start stop bytes i :
  0 <= start -> stop <= size bytes -> start <= Z.of_nat i < stop ->
  subarray start stop bytes !! (i - Z.to_nat start)%nat = bytes !! i.
Proof.
  unfold subarray, relative, size. intros H0 H1 Hi. rewrite !(proj2 (Z.ltb_ge _ _)) by lia.
  rewrite !Z.min_l by lia. rewrite lookup_take_lt by lia. rewrite lookup_drop. f_equal. lia.
Qed.

Lemma subarray_bytes start stop bytes : Forall is_byte bytes -> Forall is_byte (subarray start stop bytes).
Proof. intros H. unfold subarray. by apply Forall_take, Forall_drop. Qed.

(** ** What the loops leave *)
Definition in_range (offset width : Z) (i : nat) : Prop := offset <= Z.of_nat i < offset + width.

(** A step that succeeded: nothing failed, its check held, and bytes outside its range are kept. *)
Definition keeps {A} (check : A -> Prop) (range : A -> nat -> Prop) (step : A -> Normalizing -> result Normalizing) : Prop :=
  forall x s s', step x s = Ok s' -> nz_failures s' = [] ->
    nz_failures s = [] /\ check x /\ length (nz_bytes s') = length (nz_bytes s) /\
    forall i, ~ range x i -> nz_bytes s' !! i = nz_bytes s !! i.

Lemma fold_keeps {A} (check : A -> Prop) range step xs s s' :
  keeps check range step -> fold_result step xs s = Ok s' -> nz_failures s' = [] ->
  nz_failures s = [] /\ Forall check xs /\ length (nz_bytes s') = length (nz_bytes s) /\
  forall i, (forall x, x ∈ xs -> ~ range x i) -> nz_bytes s' !! i = nz_bytes s !! i.
Proof.
  intros Hk. revert s. induction xs as [|x xs IH]; intros s E Hf; cbn [fold_result] in E.
  - injection E as <-. by repeat split.
  - apply result_bind_Ok in E as (s1 & E1 & E). destruct (IH s1 E Hf) as (Hf1 & Hc & Hl & Hb).
    destruct (Hk _ _ _ E1 Hf1) as (Hf0 & Hx & Hl1 & Hb1). split; [done|]. split; [by constructor|]. split; [congruence|].
    intros i Hi. rewrite Hb by (intros y Hy; apply Hi; by right). apply Hb1, Hi. by left.
Qed.

Lemma failed_not_nil failure s : nz_failures (failed failure s) <> [].
Proof. cbn. by destruct (nz_failures s). Qed.

Lemma copy_outside source offset target i :
  0 <= offset -> ~ in_range offset (size source) i -> copy source offset target !! i = target !! i.
Proof.
  unfold in_range, copy, size. intros H0 Hi. destruct (decide (i < Z.to_nat offset)%nat).
  - by rewrite list_lookup_inserts_lt.
  - rewrite list_lookup_inserts_ge; [done|]. lia.
Qed.

(** The present content of a primary reference: the word of the deployment, after the opcode. *)
Definition holds_word (runtime : list Z) (word : list Z) (opcode : option Z) (reference : ImmutableReference) : Prop :=
  let offset := ir_offset reference in
  1 <= offset /\ offset + size word <= size runtime /\ is_Some opcode /\ byte_at runtime (offset - 1) = opcode /\
  ir_byteLength reference = size word /\ to_hex (subarray offset (offset + size word) runtime) = to_hex word.

Lemma primary_keeps runtime word opcode :
  keeps (holds_word runtime word opcode) (fun reference => in_range (ir_offset reference) (size word))
    (normalize_primary runtime (size word) opcode (to_hex word)).
Proof.
  intros reference s s' E Hf. unfold normalize_primary in E.
  destruct ((_ <? _) || _) eqn:E1; [injection E as <-; by apply failed_not_nil in Hf|].
  destruct (negb (_ =? _)) eqn:E2; [injection E as <-; by apply failed_not_nil in Hf|].
  destruct (negb (_ && _)) eqn:E3; [injection E as <-; by apply failed_not_nil in Hf|].
  destruct (negb (bool_decide (_ = to_hex word))) eqn:E4; [injection E as <-; by apply failed_not_nil in Hf|].
  destruct (negb (Z.of_nat (String.length _) =? _) || _) eqn:E5; [injection E as <-; by apply failed_not_nil in Hf|].
  injection E as <-. cbn [nz_failures nz_bytes replaced_at written] in *. bool_to_prop. split; [done|]. split.
  - unfold holds_word. cbv zeta.
    repeat match goal with H : bool_decide _ = true |- _ => apply bool_decide_eq_true in H end. repeat split; auto; lia.
  - split; [unfold copy; apply length_inserts|]. intros i Hi. apply copy_outside; [lia|]. intros Hin. apply Hi.
    pose proof (from_hex_length (strip_0x (toLowerCase (ir_expectedArtifactPlaceholderBytes reference)))).
    unfold in_range, size in *. lia.
Qed.

(** The present content of a supplementary reference. *)
Definition holds_expected (runtime : list Z) (entry : SupplementaryReference) : Prop :=
  let offset := sr_offset entry in
  0 <= offset /\ offset + sr_byteLength entry <= size runtime /\
  to_hex (subarray offset (offset + sr_byteLength entry) runtime) = strip_0x (toLowerCase (sr_expectedDeployedBytes entry)).

Lemma fill_spec value offset stop target target' :
  fill value offset stop target = Ok target' ->
  0 <= offset /\ length target' = length target /\ forall i, ~ in_range offset (stop - offset) i -> target' !! i = target !! i.
Proof.
  unfold fill. destruct (_ || _ || _) eqn:E1; [done|]. bool_to_prop.
  destruct (stop <=? offset) eqn:E2; [intros [= <-]; split; [lia|done]|]. destruct value as [|v value]; [done|].
  intros [= <-]. split; [lia|]. split; [apply length_inserts|]. intros i Hi. apply copy_outside; [lia|]. intros Hin. apply Hi.
  unfold in_range, repeated, size in *. rewrite length_take in Hin. lia.
Qed.

Lemma supplementary_keeps runtime :
  keeps (holds_expected runtime) (fun entry => in_range (sr_offset entry) (sr_byteLength entry)) (normalize_supplementary runtime).
Proof.
  intros entry s s' E Hf. unfold normalize_supplementary in E.
  destruct (size runtime <? _) eqn:E1; [injection E as <-; by apply failed_not_nil in Hf|].
  destruct (negb (bool_decide _)) eqn:E2; [injection E as <-; by apply failed_not_nil in Hf|].
  destruct (negb (_ =? _)) eqn:E3; [injection E as <-; by apply failed_not_nil in Hf|].
  apply result_bind_Ok in E as (bytes & (H0 & Hl & Hb)%fill_spec & [= <-]). cbn [nz_failures nz_bytes written] in *.
  bool_to_prop. split; [done|]. split; [|split; [done|]].
  - split; [lia|]. by split; [lia|].
  - intros i Hi. apply Hb. unfold in_range in *. lia.
Qed.

(** ** A normalisation without failures *)
(** The bytes a manifest lets differ from the artifact. *)
Definition declared_range (manifest : NormalizationManifest) (i : nat) : Prop :=
  (exists reference, reference ∈ nm_primaryImmutableReferences manifest /\ in_range (ir_offset reference) (nm_wordByteLength manifest) i) \/
  (exists entry, entry ∈ nm_supplementaryImmutableReferences manifest /\ in_range (sr_offset entry) (sr_byteLength entry) i).

(** What the code is when its normalisation succeeded, and what was hashed. *)
Record normalised (runtime : list Z) (manifest : NormalizationManifest) (word bytes : list Z) : Prop := {
  nd_length : size runtime = nm_runtimeByteLength manifest;
  nd_word : size word = nm_wordByteLength manifest;
  nd_primary : Forall (holds_word runtime word (parseInt_hex (drop_chars 2 (nm_requiredPrecedingOpcode manifest))))
    (nm_primaryImmutableReferences manifest);
  nd_supplementary : Forall (holds_expected runtime) (nm_supplementaryImmutableReferences manifest);
  nd_bytes_length : length bytes = length runtime;
  nd_bytes : forall i, ~ declared_range manifest i -> bytes !! i = runtime !! i
}.

Lemma failed_if_nil c failure s : nz_failures (failed_if c failure s) = [] -> c = false /\ nz_failures s = [].
Proof. unfold failed_if. destruct c; [|done]. intros H. by apply failed_not_nil in H. Qed.

Lemma check_metadata_nil `{Sha256} runtime manifest s :
  nz_failures (check_metadata runtime manifest s) = [] -> nz_failures s = [].
Proof.
  unfold check_metadata. destruct (inspectMetadataTrailer runtime) as [metadata|]; [|intros Hf; by apply failed_not_nil in Hf].
  destruct (negb (_ =? _)); [intros Hf; by apply failed_not_nil in Hf|].
  intros Hf. by repeat apply failed_if_nil in Hf as [_ Hf].
Qed.

Lemma check_metadata_bytes `{Sha256} runtime manifest s : nz_bytes (check_metadata runtime manifest s) = nz_bytes s.
Proof.
  unfold check_metadata, failed_if. destruct (inspectMetadataTrailer runtime); [|done]. by repeat case_match.
Qed.

(** The bytes whose digest is compared. *)
Definition hashed `{Sha256} (runtime : list Z) (manifest : NormalizationManifest) (word bytes : list Z) : Prop :=
  exists s, normalize_run runtime manifest word = Ok s /\ bytes = nz_bytes s.

Lemma normalize_run_normalised `{Sha256} runtime manifest word s :
  normalize_run runtime manifest word = Ok s -> size word = nm_wordByteLength manifest -> nz_failures s = [] ->
  normalised runtime manifest word (nz_bytes s).
Proof.
  unfold normalize_run. intros E Hw Hf. rewrite <- Hw in E. apply result_bind_Ok in E as (s1 & E1 & E2).
  apply (fold_keeps _ _ _ _ _ _ (supplementary_keeps runtime)) in E2 as (Hf1 & Hs & Hl2 & Hb2); [|done].
  apply (fold_keeps _ _ _ _ _ _ (primary_keeps runtime word _)) in E1 as (Hf0 & Hp & Hl1 & Hb1); [|done].
  apply check_metadata_nil, failed_if_nil in Hf0 as [Hlen _]. rewrite check_metadata_bytes in Hl1, Hb1.
  constructor; [bool_to_prop; lia|done|done|done| |].
  - rewrite Hl2, Hl1. unfold failed_if. by destruct (negb _).
  - intros i Hi. rewrite Hb2, Hb1.
    + unfold failed_if. by destruct (negb _).
    + intros x Hx Hr. apply Hi. left. exists x. by rewrite <- Hw.
    + intros x Hx Hr. apply Hi. right. by exists x.
Qed.

Lemma normalisation_ok `{Sha256} runtime manifest address r :
  normalizeRuntimeBytecodeFromManifest runtime manifest address = Ok r -> mr_ok r = true ->
  exists word bytes, deploymentValueWord address = Some word /\ hashed runtime manifest word bytes /\
    mr_normalizedSha256 r = sha256 bytes /\ normalised runtime manifest word bytes.
Proof.
  unfold normalizeRuntimeBytecodeFromManifest. destruct (negb _); [by intros [= <-]|].
  destruct (deploymentValueWord address) as [word|]; [|by intros [= <-]].
  destruct (Z.eqb_spec (size word) (nm_wordByteLength manifest)) as [Hw|]; [|by intros [= <-]]. cbn [negb].
  intros E Hok. apply result_bind_Ok in E as (s & E & [= <-]).
  cbn [mr_ok mr_normalizedSha256] in *. apply bool_decide_eq_true in Hok.
  assert (Hf : nz_failures s = []).
  { destruct (size (nz_replaced s) =? _); cbn [negb] in Hok; [by apply app_nil in Hok as [Hok _]|].
    by apply app_nil in Hok as [_ [=]]. }
  exists word, (nz_bytes s). split; [done|]. split; [by exists s|]. split; [done|]. by apply normalize_run_normalised.
Qed.

Lemma classifyCodeIdentity_verified digest ok expected :
  classifyCodeIdentity digest ok expected = VERIFIED -> ok = true /\ expected = Some digest /\ digest <> LOCAL_FIXTURE_SHA256.
Proof.
  unfold classifyCodeIdentity. destruct expected as [expected|]; [|done]. case_bool_decide as Hl; [done|].
  destruct ok; [|done]. cbn [negb]. case_bool_decide as He; [|done]. subst. done.
Qed.

(** Bytes of code that satisfy the same check are the same. *)
Lemma subarray_eq runtime1 runtime2 start stop i :
  Forall is_byte runtime1 -> Forall is_byte runtime2 -> size runtime1 = size runtime2 ->
  0 <= start -> stop <= size runtime1 -> start <= Z.of_nat i < stop ->
  to_hex (subarray start stop runtime1) = to_hex (subarray start stop runtime2) -> runtime1 !! i = runtime2 !! i.
Proof.
  intros Hb1 Hb2 Hl H0 H1 Hi E. apply to_hex_inj in E; [|by apply subarray_bytes..].
  rewrite <- (subarray_lookup start stop runtime1 i), <- (subarray_lookup start stop runtime2 i) by lia. by rewrite E.
Qed.

Lemma declared_range_eq runtime1 runtime2 manifest word bytes1 bytes2 i :
  Forall is_byte runtime1 -> Forall is_byte runtime2 ->
  normalised runtime1 manifest word bytes1 -> normalised runtime2 manifest word bytes2 ->
  declared_range manifest i -> runtime1 !! i = runtime2 !! i.
Proof.
  intros Hb1 Hb2 [L1 W1 P1 S1 _ _] [L2 W2 P2 S2 _ _] [(reference & Hin & Hr)|(entry & Hin & Hr)]; unfold in_range in Hr.
  - rewrite Forall_forall in P1, P2. destruct (P1 _ Hin) as (A1 & A2 & _ & _ & _ & A3). destruct (P2 _ Hin) as (_ & _ & _ & _ & _ & B3).
    eapply (subarray_eq _ _ (ir_offset reference) (ir_offset reference + size word)); try done; try congruence; lia.
  - rewrite Forall_forall in S1, S2. destruct (S1 _ Hin) as (A1 & A2 & A3). destruct (S2 _ Hin) as (_ & _ & B3).
    eapply (subarray_eq _ _ (sr_offset entry) (sr_offset entry + sr_byteLength entry)); try done; try congruence; lia.
Qed.

Lemma declared_range_dec manifest i : declared_range manifest i \/ ~ declared_range manifest i.
Proof.
  unfold declared_range, in_range.
  destruct (decide (Exists (fun reference => ir_offset reference <= Z.of_nat i < ir_offset reference + nm_wordByteLength manifest)
                      (nm_primaryImmutableReferences manifest))) as [H|H].
  { left. left. by apply Exists_exists in H. }
  destruct (decide (Exists (fun entry => sr_offset entry <= Z.of_nat i < sr_offset entry + sr_byteLength entry)
                      (nm_supplementaryImmutableReferences manifest))) as [H'|H'].
  { left. right. by apply Exists_exists in H'. }
  right. intros [Hp|Hs]; [apply H|apply H']; by apply Exists_exists.
Qed.

Definition collide `{Sha256} (a b : list Z) : Prop := a <> b /\ sha256 a = sha256 b.

(** C15: verification accepts one code only.  For a manifest, an implementation address and
    an expected digest, two runtime codes that are both verified are equal, unless the two
    texts that were hashed collide: the normalisation itself hides nothing. *)
Theorem verified_code_unique `{Sha256} runtime1 runtime2 manifest address expected r1 r2 :
  Forall is_byte runtime1 -> Forall is_byte runtime2 ->
  normalizeRuntimeBytecodeFromManifest runtime1 manifest address = Ok r1 ->
  normalizeRuntimeBytecodeFromManifest runtime2 manifest address = Ok r2 ->
  classifyCodeIdentity (mr_normalizedSha256 r1) (mr_ok r1) expected = VERIFIED ->
  classifyCodeIdentity (mr_normalizedSha256 r2) (mr_ok r2) expected = VERIFIED ->
  runtime1 = runtime2 \/
  exists word a b, hashed runtime1 manifest word a /\ hashed runtime2 manifest word b /\ collide a b.
Proof.
  intros Hb1 Hb2 E1 E2 (Ok1 & -> & _)%classifyCodeIdentity_verified (Ok2 & [= Hd] & _)%classifyCodeIdentity_verified.
  destruct (normalisation_ok _ _ _ _ E1 Ok1) as (word & bytes1 & Hw & R1 & D1 & N1).
  destruct (normalisation_ok _ _ _ _ E2 Ok2) as (word' & bytes2 & Hw' & R2 & D2 & N2).
  rewrite Hw in Hw'. injection Hw' as <-.
  destruct (decide (bytes1 = bytes2)) as [<-|Hne]; [left|right; exists word, bytes1, bytes2; repeat split; congruence].
  apply list_eq. intros i. destruct (declared_range_dec manifest i) as [Hi|Hi].
  - by eapply (declared_range_eq _ _ manifest word).
  - by rewrite <- (nd_bytes _ _ _ _ N1), <- (nd_bytes _ _ _ _ N2).
Qed.

(** C16: what is verified is the artifact.  When the digest of an artifact is expected,
    verified code has the artifact's length and the artifact's bytes at every position
    outside the declared references; each primary reference holds the implementation
    address in a word, and each supplementary one its declared bytes; unless the artifact
    collides with the text that was hashed. *)
Theorem verified_code_is_artifact `{Sha256} runtime artifact manifest address r :
  normalizeRuntimeBytecodeFromManifest runtime manifest address = Ok r ->
  classifyCodeIdentity (mr_normalizedSha256 r) (mr_ok r) (Some (sha256 artifact)) = VERIFIED ->
  exists word, deploymentValueWord address = Some word /\
     ((exists bytes, hashed runtime manifest word bytes /\ collide artifact bytes) \/
     length artifact = length runtime /\ size runtime = nm_runtimeByteLength manifest /\
     (forall i, ~ declared_range manifest i -> artifact !! i = runtime !! i) /\
     Forall (holds_word runtime word (parseInt_hex (drop_chars 2 (nm_requiredPrecedingOpcode manifest))))
       (nm_primaryImmutableReferences manifest) /\
     Forall (holds_expected runtime) (nm_supplementaryImmutableReferences manifest)).
Proof.
  intros E (Hok & [= Hd] & _)%classifyCodeIdentity_verified. destruct (normalisation_ok _ _ _ _ E Hok) as (word & bytes & Hw & R & D & N).
  exists word. split; [done|]. destruct (decide (artifact = bytes)) as [->|Hne]; [right|left; exists bytes; repeat split; congruence].
  destruct N. done.
Qed.

(** ** A small deployment *)
#[local] Instance example_sha256 : Sha256 := {| sha256 := to_hex |}.
Definition sample_implementation : string := "0x" +:+ repeat_char 40 "a".
Definition sample_runtime : list Z :=
  96 :: 127 :: from_hex (repeat_char 24 "0" +:+ repeat_char 40 "a") ++ from_hex "a164736f6c6343000818000a".
Definition sample_artifact : list Z := 0 :: 127 :: repeat 0 32 ++ from_hex "a164736f6c6343000818000a".
Definition sample_manifest : NormalizationManifest := {|
  nm_schema := ""; nm_version := 2; nm_runtimeByteLength := 46; nm_compilerVersion := "0.8.24";
  nm_metadataModel := "CBOR_SOLC_ONLY_NO_SOURCE_HASH"; nm_acceptedMetadataStructure := "CBOR_SOLC_ONLY_NO_SOURCE_HASH";
  nm_immutableReferenceKind := "PUSH32_WORD_IMMUTABLE"; nm_wordByteLength := 32;
  nm_deploymentValueShape := "LEFT_PADDED_IMPLEMENTATION_ADDRESS_WORD";
  nm_primaryImmutableReferences := [
    {| ir_id := "self"; ir_kind := "PUSH32_WORD_IMMUTABLE"; ir_offset := 2; ir_byteLength := 32;
       ir_expectedArtifactPlaceholderBytes := "0x" +:+ repeat_char 64 "0"; ir_compilerReferenceId := "605" |}];
  nm_requiredPrecedingOpcode := "0x7f"; nm_expectedReplacementCount := 1; nm_metadataTrailerByteLength := 12;
  nm_metadataTrailerSha256 := "a164736f6c6343000818000a";
  nm_supplementaryImmutableReferences := [
    {| sr_id := "first"; sr_kind := "EXACT_BYTES_REPLACEMENT"; sr_offset := 0; sr_byteLength := 1; sr_expectedDeployedBytes := "0x60";
       sr_expectedArtifactPlaceholderBytes := "0x00"; sr_compilerReferenceId := "606" |}] |}.

Lemma verified_code_unique_witness :
  exists r, normalizeRuntimeBytecodeFromManifest sample_runtime sample_manifest sample_implementation = Ok r /\
    classifyCodeIdentity (mr_normalizedSha256 r) (mr_ok r) (Some (to_hex sample_artifact)) = VERIFIED /\
    (sample_runtime = sample_runtime \/
     exists word a b, hashed sample_runtime sample_manifest word a /\ hashed sample_runtime sample_manifest word b /\ collide a b).
Proof.
  destruct (normalizeRuntimeBytecodeFromManifest sample_runtime sample_manifest sample_implementation) as [r|e] eqn:E;
    [|vm_compute in E; discriminate].
  assert (Hv : classifyCodeIdentity (mr_normalizedSha256 r) (mr_ok r) (Some (to_hex sample_artifact)) = VERIFIED)
    by (vm_compute in E; injection E as <-; vm_compute; reflexivity).
  assert (Hb : Forall is_byte sample_runtime) by (vm_compute; repeat constructor; discriminate).
  exists r. split; [reflexivity|]. split; [exact Hv|].
  exact (verified_code_unique sample_runtime sample_runtime sample_manifest sample_implementation _ r r Hb Hb E E Hv Hv).
Defined.

Lemma verified_code_is_artifact_witness :
  exists word, deploymentValueWord sample_implementation = Some word /\
    ((exists bytes, hashed sample_runtime sample_manifest word bytes /\ collide sample_artifact bytes) \/
     length sample_artifact = length sample_runtime).
Proof.
  destruct (normalizeRuntimeBytecodeFromManifest sample_runtime sample_manifest sample_implementation) as [r|e] eqn:E;
    [|vm_compute in E; discriminate].
  assert (Hv : classifyCodeIdentity (mr_normalizedSha256 r) (mr_ok r) (Some (sha256 sample_artifact)) = VERIFIED)
    by (vm_compute in E; injection E as <-; vm_compute; reflexivity).
  destruct (verified_code_is_artifact sample_runtime sample_artifact sample_manifest sample_implementation r E Hv)
    as (word & Hw & [Hc|(Hl & _)]); exists word; split; [exact Hw|left; exact Hc|exact Hw|right; exact Hl].
Defined.
