(* ===== verification/HcuManifest.v ===== *)
(** * The reviewed manifests: scripts/sg4-hcu-authority.ts

    The ranges that are normalised in deployed code come from a record of JSON, which is
    validated field by field before it is used: [validateCompilerReferenceManifest],
    [validateNormalizationManifest], and [crossLinkImmutableReferences] between the two.
    Each collects its errors.  The theorems say what a manifest without errors is, and
    that the normalisation it is used for cannot fail on it.  Numbers of JSON are
    integers here, as everywhere in the records. *)
From Stdlib Require Import ZArith Lia Ascii.
From stdpp Require Import base option list sorting strings.
From S2P Require Import Prelude HcuJson HcuAbi HcuPlan HcuBytecode.
Local Open Scope Z_scope.

(** ** Errors and fields *)
Definition error_if (c : bool) (message : string) : list string := if c then [message] else [].
Definition has (key : string) (value : Json) : bool := bool_decide (is_Some (json_field value key)).
Definition object_keys (value : Json) : list string := match value with jobject fields => fields.*1 | _ => [] end.
Definition is_text_where (p : string -> bool) (value : option Json) : bool :=
  match value with Some (jstring s) => p s | _ => false end.
Definition is_one_of (texts : list string) : option Json -> bool := is_text_where (fun s => bool_decide (s ∈ texts)).
Definition equals_number (value : option Json) (n : Z) : bool := match value with Some (jnumber z) => z =? n | _ => false end.
Definition same_scalar (a b : option Json) : bool :=
  match a, b with
  | None, None => true
  | Some jnull, Some jnull => true
  | Some (jbool x), Some (jbool y) => eqb x y
  | Some (jnumber x), Some (jnumber y) => x =? y
  | Some (jstring x), Some (jstring y) => bool_decide (x = y)
  | _, _ => false
  end.

(** The pattern of a version of three numbers. *)
Definition is_version (s : string) : bool :=
  match split_char "." s with [a; b; c] => matches_digits a && matches_digits b && matches_digits c | _ => false end.
(** [/^0x[0-9a-f]{n}$/u] *)
Definition lower_0x (n : nat) (s : string) : bool :=
  match s with String "0" (String "x" body) => lower_hex n body | _ => false end.
(** [/^0x[0-9a-f]*$/u] *)
Definition lower_0x_any (s : string) : bool :=
  match s with String "0" (String "x" body) => string_forall is_lower_hex body | _ => false end.

Definition missing_fields (fields : list string) (value : Json) (message : string -> string) : list string :=
  flat_map (fun field => error_if (negb (has field value)) (message field)) fields.
Definition extra_fields (fields : list string) (value : Json) (message : string -> string) : list string :=
  flat_map (fun key => error_if (negb (bool_decide (key ∈ fields))) (message key)) (object_keys value).

(** An id that must be a new text: the error, and the ids after it. *)
Definition check_id (value : option Json) (ids : list string) (prefix : string) : list string * list string :=
  match value with
  | Some (jstring id) =>
      if bool_decide (id = "") then ([prefix +:+ " requires an id"], ids)
      else if bool_decide (id ∈ ids) then ([prefix +:+ " duplicates id " +:+ id], ids) else ([], ids ++ [id])
  | _ => ([prefix +:+ " requires an id"], ids)
  end.

(** ** The references of the compiler *)
Definition COMPILER_REFERENCE_MANIFEST_SCHEMA : string := "zama-szn4.sg4-compiler-immutable-reference-manifest.v2".
Definition COMPILER_REFERENCE_MANIFEST_FIELDS : list string :=
  ["buildId"; "compilerVersion"; "entries"; "immutableDeclarations"; "provenanceSubject"; "referencesComplete"; "schema";
   "solcLongVersion"; "sourceContentSha256"; "version"].
Definition COMPILER_IMMUTABLE_DECLARATION_FIELDS : list string :=
  ["astId"; "declarationSource"; "mutability"; "name"; "nodeType"; "stateVariable"; "typeString"].
Definition COMPILER_REFERENCE_ENTRY_FIELDS : list string :=
  ["artifactPlaceholderBytes"; "astId"; "byteLength"; "id"; "offset"; "referenceKind"].

Definition check_declaration (index : nat) (declaration : Json) : list string :=
  let prefix := "compiler immutable declaration " +:+ Z_toString (Z.of_nat index) in
  if negb (isObject declaration) then [prefix +:+ " must be an object"]
  else
    missing_fields COMPILER_IMMUTABLE_DECLARATION_FIELDS declaration (fun field => prefix +:+ " is missing " +:+ field) ++
    error_if (negb (equals_text (json_field declaration "mutability") "immutable")) (prefix +:+ " is not an immutable").

(** An entry, after the ids and the offset of those before it. *)
Definition check_entry (index : nat) (entry : Json) (ids : list string) (previous : Z) : list string * list string * Z :=
  let prefix := "compiler reference entry " +:+ Z_toString (Z.of_nat index) in
  if negb (isObject entry) then ([prefix +:+ " must be an object"], ids, previous)
  else
    let '(id_errors, ids') := check_id (json_field entry "id") ids prefix in
    let '(offset_errors, previous') :=
      match json_field entry "offset" with
      | Some (jnumber offset) =>
          if offset <? 0 then ([prefix +:+ " offset must be a non-negative integer"], previous)
          else (error_if (offset <=? previous) "compiler reference entries must be strictly ascending by offset", offset)
      | _ => ([prefix +:+ " offset must be a non-negative integer"], previous)
      end in
    let byteLength := json_field entry "byteLength" in
    let length_errors :=
      error_if (negb (match byteLength with Some (jnumber n) => 0 <? n | _ => false end))
        (prefix +:+ " byteLength must be a positive integer") in
    let placeholder_errors :=
      match json_field entry "artifactPlaceholderBytes" with
      | Some (jstring bytes) =>
          if negb (lower_0x_any bytes) then [prefix +:+ " requires artifact placeholder bytes"]
          else error_if (match byteLength with
                         | Some (jnumber n) => negb (Z.of_nat (String.length bytes) =? n * 2 + 2) | _ => false end)
                 (prefix +:+ " placeholder length disagrees with its byteLength")
      | _ => [prefix +:+ " requires artifact placeholder bytes"]
      end in
    (missing_fields COMPILER_REFERENCE_ENTRY_FIELDS entry (fun field => prefix +:+ " is missing " +:+ field) ++
     extra_fields COMPILER_REFERENCE_ENTRY_FIELDS entry (fun key => prefix +:+ " has an unpermitted field " +:+ key) ++
     id_errors ++ offset_errors ++ length_errors ++ placeholder_errors ++
     error_if (negb (is_text_where string_nonempty (json_field entry "referenceKind"))) (prefix +:+ " requires a reference kind"),
     ids', previous').

Fixpoint check_entries (index : nat) (entries : list Json) (ids : list string) (previous : Z) : list string :=
  match entries with
  | [] => []
  | entry :: entries' =>
      let '(errors, ids', previous') := check_entry index entry ids previous in
      errors ++ check_entries (S index) entries' ids' previous'
  end.

Definition validateCompilerReferenceManifest (manifest : Json) : list string :=
  if negb (isObject manifest) then ["compiler reference manifest must be an object"]
  else
    let field := json_field manifest in
    missing_fields COMPILER_REFERENCE_MANIFEST_FIELDS manifest (fun f => "compiler reference manifest is missing " +:+ f) ++
    extra_fields COMPILER_REFERENCE_MANIFEST_FIELDS manifest (fun f => "compiler reference manifest has an unpermitted field " +:+ f) ++
    error_if (negb (equals_text (field "schema") COMPILER_REFERENCE_MANIFEST_SCHEMA)) "compiler reference manifest schema mismatch" ++
    error_if (negb (equals_number (field "version") 2)) "compiler reference manifest version must be 2" ++
    error_if (negb (is_text_where string_nonempty (field "solcLongVersion")))
      "compiler reference manifest requires the exact long compiler version" ++
    match field "immutableDeclarations" with
    | Some (jarray ((_ :: _) as declarations)) => concat (imap check_declaration declarations)
    | _ => ["compiler reference manifest requires its immutable declarations"]
    end ++
    error_if (negb (equals_text (field "provenanceSubject") "CURRENT_OFFICIAL_ARTIFACT_BUILD"))
      "compiler reference manifest must cite the current official artifact build" ++
    error_if (negb (match field "referencesComplete" with Some (jbool b) => b | _ => false end))
      "compiler reference manifest must record a COMPLETE reference set" ++
    error_if (negb (is_text_where string_nonempty (field "buildId")))
      "compiler reference manifest requires the build identity it was emitted for" ++
    error_if (negb (is_text_where is_version (field "compilerVersion")))
      "compiler reference manifest compilerVersion must be a semantic version" ++
    error_if (negb (is_text_where (lower_hex 64) (field "sourceContentSha256")))
      "compiler reference manifest requires its source content hash" ++
    match field "entries" with
    | Some (jarray entries) => check_entries 0 entries [] (-1)
    | _ => ["compiler reference manifest entries must be an array"]
    end.

(** ** The cross-link *)
Definition objects (value : option Json) : list Json := List.filter isObject (items_or_nil value).
(** [new Map(entries.map((entry) => [key(entry), entry])).get(k)]: the last entry of the key. *)
Definition last_by (key : Json -> string) (k : string) (entries : list Json) : option Json :=
  List.find (fun entry => bool_decide (key entry = k)) (rev entries).

Definition check_link (compilerEntries : list Json) (reference : Json) : list string :=
  let compilerId := String_of (json_field reference "compilerReferenceId") in
  let prefix := "immutable reference " +:+ String_of (json_field reference "id") in
  match last_by (fun entry => String_of (json_field entry "id")) compilerId compilerEntries with
  | None => [prefix +:+ " names a compiler reference " +:+ compilerId +:+ " that the compiler manifest does not contain"]
  | Some entry =>
      error_if (negb (same_scalar (json_field entry "offset") (json_field reference "offset")))
        (prefix +:+ " offset disagrees with compiler reference " +:+ compilerId) ++
      error_if (negb (same_scalar (json_field entry "byteLength") (json_field reference "byteLength")))
        (prefix +:+ " byteLength disagrees with compiler reference " +:+ compilerId) ++
      error_if (negb (bool_decide (toLowerCase (String_of (json_field entry "artifactPlaceholderBytes")) =
                                   toLowerCase (String_of (json_field reference "expectedArtifactPlaceholderBytes")))))
        (prefix +:+ " artifact placeholder disagrees with compiler reference " +:+ compilerId)
  end.

Definition crossLinkImmutableReferences (normalization compilerManifest : Json) : list string :=
  if negb (isObject normalization && isObject compilerManifest) then ["immutable reference cross-link requires both manifests"]
  else
    let compilerEntries := objects (json_field compilerManifest "entries") in
    let declared := objects (json_field normalization "primaryImmutableReferences") ++
                    objects (json_field normalization "supplementaryImmutableReferences") in
    flat_map (check_link compilerEntries) declared.

(** ** The ranges to normalise *)
Definition NORMALIZATION_MANIFEST_SCHEMA : string := "zama-szn4.sg4-normalization-manifest.v2".
Definition NORMALIZATION_MANIFEST_FIELDS : list string :=
  ["acceptedMetadataStructure"; "compilerVersion"; "deploymentValueShape"; "expectedReplacementCount"; "immutableReferenceKind";
   "metadataModel"; "metadataTrailerByteLength"; "metadataTrailerSha256"; "primaryImmutableReferences"; "requiredPrecedingOpcode";
   "runtimeByteLength"; "schema"; "supplementaryImmutableReferences"; "version"; "wordByteLength"].
Definition UUPS_wordByteLength : Z := 32.
Definition DEPLOYMENT_VALUE_SHAPES : list string := ["LEFT_PADDED_IMPLEMENTATION_ADDRESS_WORD"].
Definition ACCEPTED_METADATA_STRUCTURES : list string := ["CBOR_SOLC_ONLY_NO_SOURCE_HASH"].
Definition IMMUTABLE_REFERENCE_KINDS : list string := ["PUSH32_WORD_IMMUTABLE"].
Definition SUPPLEMENTARY_REFERENCE_KINDS : list string := ["EXACT_BYTES_REPLACEMENT"].
Definition PRIMARY_IMMUTABLE_REFERENCE_FIELDS : list string :=
  ["byteLength"; "compilerReferenceId"; "expectedArtifactPlaceholderBytes"; "id"; "kind"; "offset"].
Definition IMMUTABLE_REFERENCE_ENTRY_FIELDS : list string :=
  ["byteLength"; "compilerReferenceId"; "expectedArtifactPlaceholderBytes"; "expectedDeployedBytes"; "id"; "kind"; "offset"].
Definition MAX_SAFE_INTEGER : Z := 2 ^ 53 - 1.

Definition positive_integer (value : option Json) : option Z :=
  match value with Some (jnumber n) => if 0 <? n then Some n else None | _ => None end.
Definition any_number (value : option Json) : option Z := match value with Some (jnumber n) => Some n | _ => None end.

(** What the loop over the primary references is given. *)
Record Widths := { wd_runtime : option Z; wd_word : option Z }.

Definition exceeds (widths : Widths) (offset width : Z) : bool :=
  match wd_runtime widths with Some runtime => runtime <? offset + width | None => false end.

(** A primary reference, after the ids and the offsets of those before it: its errors,
    the ids, and its offset. *)
Definition check_primary (widths : Widths) (index : nat) (reference : Json) (ids : list string) (offsets : list Z)
    : list string * list string * option Z :=
  let prefix := "primary immutable reference " +:+ Z_toString (Z.of_nat index) in
  if negb (isObject reference) then ([prefix +:+ " must be an object"], ids, None)
  else
    let field := json_field reference in
    let '(id_errors, ids') := check_id (field "id") ids prefix in
    let errors :=
      missing_fields PRIMARY_IMMUTABLE_REFERENCE_FIELDS reference (fun f => prefix +:+ " is missing " +:+ f) ++
      extra_fields PRIMARY_IMMUTABLE_REFERENCE_FIELDS reference (fun f => prefix +:+ " has an unpermitted field " +:+ f) ++
      id_errors ++
      error_if (negb (is_one_of IMMUTABLE_REFERENCE_KINDS (field "kind"))) (prefix +:+ " must declare a supported kind") ++
      error_if (negb (is_text_where string_nonempty (field "compilerReferenceId"))) (prefix +:+ " requires a compiler reference id") in
    match any_number (field "offset") with
    | None => (errors ++ [prefix +:+ " offset must be an integer"], ids', None)
    | Some offset =>
        (errors ++
         error_if (offset <=? 0) (prefix +:+ " leaves no room for the preceding opcode") ++
         error_if ((0 <? index)%nat && match last offsets with Some previous => offset <=? previous | None => false end)
           "normalization manifest primary references must be strictly ascending and unique" ++
         error_if (match wd_word widths with Some word => exceeds widths offset word | None => false end)
           (prefix +:+ " exceeds the declared runtime length") ++
         error_if (match wd_word widths with Some word => negb (equals_number (field "byteLength") word) | None => false end)
           (prefix +:+ " byteLength must equal the address length") ++
         error_if (negb (match wd_word widths with
                         | Some word => (is_text_where (lower_0x (Z.to_nat (word * 2))) (field "expectedArtifactPlaceholderBytes"))
                         | None => false end))
           (prefix +:+ " requires the exact artifact placeholder bytes"), ids', Some offset)
    end.

Fixpoint check_primaries (widths : Widths) (index : nat) (references : list Json) (ids : list string) (offsets : list Z)
    : list string * list Z :=
  match references with
  | [] => ([], offsets)
  | reference :: references' =>
      let '(errors, ids', offset) := check_primary widths index reference ids offsets in
      let '(errors', offsets') := check_primaries widths (S index) references' ids' (offsets ++ option_list offset) in
      (errors ++ errors', offsets')
  end.

(** A range that is taken: from, up to, its name. *)
Definition Region : Type := Z * Z * string.
Definition overlaps (offset byteLength : Z) (region : Region) : bool :=
  let '(start, stop, _) := region in (offset <? stop) && (start <? offset + byteLength).

(** A supplementary reference: its errors, the ids, and its range. *)
Definition check_supplementary (widths : Widths) (index : nat) (entry : Json) (ids : list string) (previous : Z)
    (occupied : list Region) : list string * list string * option (Z * Z) :=
  let prefix := "supplementary immutable reference " +:+ Z_toString (Z.of_nat index) in
  if negb (isObject entry) then ([prefix +:+ " must be an object"], ids, None)
  else
    let field := json_field entry in
    let '(id_errors, ids') :=
      match field "id" with
      | Some (jstring id) =>
          if bool_decide (id = "") then ([prefix +:+ " requires an id"], ids)
          else (error_if (bool_decide (id ∈ ids)) (prefix +:+ " duplicates id " +:+ id), ids ++ [id])
      | _ => ([prefix +:+ " requires an id"], ids)
      end in
    let errors :=
      missing_fields IMMUTABLE_REFERENCE_ENTRY_FIELDS entry (fun f => prefix +:+ " is missing " +:+ f) ++
      extra_fields IMMUTABLE_REFERENCE_ENTRY_FIELDS entry (fun f => prefix +:+ " has an unpermitted field " +:+ f) ++
      id_errors ++
      error_if (negb (is_one_of SUPPLEMENTARY_REFERENCE_KINDS (field "kind"))) (prefix +:+ " declares an unimplemented kind") ++
      error_if (negb (is_text_where string_nonempty (field "compilerReferenceId")))
        (prefix +:+ " requires its compiler reference identity") in
    match any_number (field "offset") with
    | Some offset =>
        if (offset <? 0) || (MAX_SAFE_INTEGER <? offset) then
          (errors ++ [prefix +:+ " offset must be a safe non-negative integer"], ids', None)
        else
          match any_number (field "byteLength") with
          | Some byteLength =>
              if (byteLength <=? 0) || (MAX_SAFE_INTEGER <? byteLength) then
                (errors ++ [prefix +:+ " byteLength must be a safe positive integer"], ids', None)
              else
                (errors ++
                 error_if (offset <=? previous) "supplementary immutable references must be strictly ascending and unique" ++
                 error_if (exceeds widths offset byteLength) (prefix +:+ " exceeds the declared runtime length") ++
                 flat_map (fun bytesField =>
                   error_if (negb (is_text_where (lower_0x (Z.to_nat (byteLength * 2))) (field bytesField)))
                     (prefix +:+ " " +:+ bytesField +:+ " must be exactly " +:+ Z_toString byteLength +:+ " bytes"))
                   ["expectedDeployedBytes"; "expectedArtifactPlaceholderBytes"] ++
                 flat_map (fun region =>
                   error_if (overlaps offset byteLength region) (prefix +:+ " overlaps the " +:+ region.2 +:+ " region")) occupied,
                 ids', Some (offset, byteLength))
          | None => (errors ++ [prefix +:+ " byteLength must be a safe positive integer"], ids', None)
          end
    | None => (errors ++ [prefix +:+ " offset must be a safe non-negative integer"], ids', None)
    end.

Fixpoint check_supplementaries (widths : Widths) (index : nat) (entries : list Json) (ids : list string) (previous : Z)
    (occupied : list Region) : list string :=
  match entries with
  | [] => []
  | entry :: entries' =>
      let '(errors, ids', range) := check_supplementary widths index entry ids previous occupied in
      errors ++
      match range with
      | Some (offset, byteLength) =>
          check_supplementaries widths (S index) entries' ids' offset
            (occupied ++ [(offset, offset + byteLength, "supplementary:" +:+ Z_toString (Z.of_nat index))])
      | None => check_supplementaries widths (S index) entries' ids' previous occupied
      end
  end.

(** The list of primary references, with the number of replacements that is expected. *)
Definition check_primary_list (widths : Widths) (count : option Z) (value : option Json) : list string * list Z :=
  match value with
  | Some (jarray references) =>
      let '(errors, offsets) := check_primaries widths 0 references [] [] in
      (errors ++
       error_if (match count with Some n => negb (Z.of_nat (length references) =? n) | None => false end)
         "normalization manifest expectedReplacementCount disagrees with the primary reference count", offsets)
  | _ => (["normalization manifest primaryImmutableReferences must be an array"], [])
  end.

Definition occupied_by (widths : Widths) (primaryOffsets : list Z) (metadataLength : option Z) : list Region :=
  match wd_word widths with Some word => map (fun offset => (offset, offset + word, "primary")) primaryOffsets | None => [] end ++
  match metadataLength, wd_runtime widths with Some n, Some runtime => [(runtime - n, runtime, "metadata")] | _, _ => [] end.

Definition check_supplementary_list (widths : Widths) (occupied : list Region) (value : option Json) : list string :=
  match value with
  | Some (jarray entries) => check_supplementaries widths 0 entries [] (-1) occupied
  | _ => ["normalization manifest supplementaryImmutableReferences must be an array"]
  end.

Definition natural (value : option Json) : option Z :=
  match value with Some (jnumber n) => if 0 <=? n then Some n else None | _ => None end.

Definition validateNormalizationManifest (manifest : Json) : list string :=
  if negb (isObject manifest) then ["normalization manifest must be an object"]
  else
    let field := json_field manifest in
    let prefix := "normalization manifest " in
    let widths := {| wd_runtime := positive_integer (field "runtimeByteLength"); wd_word := positive_integer (field "wordByteLength") |} in
    let count := natural (field "expectedReplacementCount") in
    let metadataLength := any_number (field "metadataTrailerByteLength") in
    let primary := check_primary_list widths count (field "primaryImmutableReferences") in
    let supplementary_errors :=
      check_supplementary_list widths (occupied_by widths primary.2 metadataLength) (field "supplementaryImmutableReferences") in
    let errors :=
      missing_fields NORMALIZATION_MANIFEST_FIELDS manifest (fun f => prefix +:+ "is missing " +:+ f) ++
      extra_fields NORMALIZATION_MANIFEST_FIELDS manifest (fun f => prefix +:+ "has an unpermitted field " +:+ f) ++
      error_if (negb (equals_text (field "schema") NORMALIZATION_MANIFEST_SCHEMA)) (prefix +:+ "schema mismatch") ++
      error_if (negb (equals_number (field "version") 2)) (prefix +:+ "version mismatch") ++
      error_if (bool_decide (wd_runtime widths = None)) (prefix +:+ "runtimeByteLength must be a positive integer") ++
      error_if (bool_decide (wd_word widths = None)) (prefix +:+ "wordByteLength must be a positive integer") ++
      error_if (match wd_word widths with Some word => negb (word =? UUPS_wordByteLength) | None => false end)
        (prefix +:+ "wordByteLength must be " +:+ Z_toString UUPS_wordByteLength) ++
      error_if (negb (is_one_of DEPLOYMENT_VALUE_SHAPES (field "deploymentValueShape")))
        (prefix +:+ "deploymentValueShape must be a declared shape") ++
      error_if (bool_decide (count = None)) (prefix +:+ "expectedReplacementCount must be a non-negative integer") ++
      error_if (negb (is_text_where is_version (field "compilerVersion"))) (prefix +:+ "compilerVersion must be a semantic version") ++
      error_if (negb (is_text_where string_nonempty (field "metadataModel"))) (prefix +:+ "metadataModel must be a non-empty string") ++
      error_if (negb (is_one_of ACCEPTED_METADATA_STRUCTURES (field "acceptedMetadataStructure")))
        (prefix +:+ "acceptedMetadataStructure must be a declared structure") ++
      error_if (negb (same_scalar (field "metadataModel") (field "acceptedMetadataStructure")))
        (prefix +:+ "metadataModel and acceptedMetadataStructure disagree") ++
      error_if (negb (is_one_of IMMUTABLE_REFERENCE_KINDS (field "immutableReferenceKind")))
        (prefix +:+ "immutableReferenceKind must be a declared kind") ++
      error_if (negb (is_text_where (lower_0x 2) (field "requiredPrecedingOpcode")))
        (prefix +:+ "requiredPrecedingOpcode must be a single 0x-prefixed byte") ++
      primary.1 ++
      error_if (negb (match metadataLength with Some n => 0 <? n | None => false end))
        (prefix +:+ "metadataTrailerByteLength must be a positive integer") ++
      error_if (negb (is_text_where (lower_hex 64) (field "metadataTrailerSha256")))
        (prefix +:+ "metadataTrailerSha256 must be a 64-hex digest") ++
      supplementary_errors in
    js_sort compare_code_units (js_set errors).

(** ** The manifest that is used *)
(** [manifest as NormalizationManifest]: the fields of the record; none when one is not
    there or has another type. *)
Definition the_text (value : option Json) : option string := match value with Some (jstring s) => Some s | _ => None end.
Definition the_items (value : option Json) : option (list Json) := match value with Some (jarray items) => Some items | _ => None end.

Definition reference_of_json (value : Json) : option ImmutableReference :=
  id ← the_text (json_field value "id"); kind ← the_text (json_field value "kind");
  offset ← any_number (json_field value "offset"); byteLength ← any_number (json_field value "byteLength");
  placeholder ← the_text (json_field value "expectedArtifactPlaceholderBytes");
  compilerId ← the_text (json_field value "compilerReferenceId");
  Some {| ir_id := id; ir_kind := kind; ir_offset := offset; ir_byteLength := byteLength;
          ir_expectedArtifactPlaceholderBytes := placeholder; ir_compilerReferenceId := compilerId |}.

Definition supplementary_of_json (value : Json) : option SupplementaryReference :=
  id ← the_text (json_field value "id"); kind ← the_text (json_field value "kind");
  offset ← any_number (json_field value "offset"); byteLength ← any_number (json_field value "byteLength");
  deployed ← the_text (json_field value "expectedDeployedBytes");
  placeholder ← the_text (json_field value "expectedArtifactPlaceholderBytes");
  compilerId ← the_text (json_field value "compilerReferenceId");
  Some {| sr_id := id; sr_kind := kind; sr_offset := offset; sr_byteLength := byteLength; sr_expectedDeployedBytes := deployed;
          sr_expectedArtifactPlaceholderBytes := placeholder; sr_compilerReferenceId := compilerId |}.

Definition manifest_of_json (value : Json) : option NormalizationManifest :=
  schema ← the_text (json_field value "schema"); version ← any_number (json_field value "version");
  runtime ← any_number (json_field value "runtimeByteLength"); compiler ← the_text (json_field value "compilerVersion");
  model ← the_text (json_field value "metadataModel"); structure ← the_text (json_field value "acceptedMetadataStructure");
  kind ← the_text (json_field value "immutableReferenceKind"); word ← any_number (json_field value "wordByteLength");
  shape ← the_text (json_field value "deploymentValueShape");
  primaries ← the_items (json_field value "primaryImmutableReferences"); primary ← mapM reference_of_json primaries;
  opcode ← the_text (json_field value "requiredPrecedingOpcode"); count ← any_number (json_field value "expectedReplacementCount");
  trailer ← any_number (json_field value "metadataTrailerByteLength"); digest ← the_text (json_field value "metadataTrailerSha256");
  supplementaries ← the_items (json_field value "supplementaryImmutableReferences");
  supplementary ← mapM supplementary_of_json supplementaries;
  Some {| nm_schema := schema; nm_version := version; nm_runtimeByteLength := runtime; nm_compilerVersion := compiler;
          nm_metadataModel := model; nm_acceptedMetadataStructure := structure; nm_immutableReferenceKind := kind;
          nm_wordByteLength := word; nm_deploymentValueShape := shape; nm_primaryImmutableReferences := primary;
          nm_requiredPrecedingOpcode := opcode; nm_expectedReplacementCount := count; nm_metadataTrailerByteLength := trailer;
          nm_metadataTrailerSha256 := digest; nm_supplementaryImmutableReferences := supplementary |}.

(** * Properties *)

(** ** No errors *)
Lemma error_if_nil c message : error_if c message = [] <-> c = false.
Proof. by destruct c. Qed.
Lemma flat_map_nil {A B} (f : A -> list B) xs : flat_map f xs = [] <-> Forall (fun x => f x = []) xs.
Proof.
  induction xs as [|x xs IH]; cbn; [split; [constructor|done]|]. rewrite app_nil, IH. split.
  - intros [H1 H2]. by constructor.
  - by inversion 1.
Qed.

(** A validation without errors, taken apart. *)
Ltac no_errors :=
  repeat match goal with
  | H : _ ++ _ = [] |- _ => apply app_nil in H as [? H]
  | H : error_if _ _ = [] |- _ => apply error_if_nil in H
  | H : negb _ = false |- _ => apply negb_false_iff in H
  end.

Lemma is_text_where_true p value : is_text_where p value = true -> exists s, value = Some (jstring s) /\ p s = true.
Proof. destruct value as [[]|]; cbn; try done. by eexists. Qed.

Lemma equals_number_true value n : equals_number value n = true -> value = Some (jnumber n).
Proof. destruct value as [[]|]; cbn; try done. by intros ->%Z.eqb_eq. Qed.

Lemma equals_text_Some value text : equals_text value text = true -> value = Some (jstring text).
Proof. destruct value as [[]|]; cbn; try done. by intros ->%bool_decide_eq_true. Qed.

Lemma check_id_ok value ids prefix ids' :
  check_id value ids prefix = ([], ids') -> exists id, value = Some (jstring id) /\ id <> "" /\ id ∉ ids /\ ids' = ids ++ [id].
Proof.
  unfold check_id. destruct value as [[]|]; try done. repeat case_bool_decide; try done. intros [= <-]. by eexists.
Qed.

(** What the checks of single fields say of the fields. *)
Ltac read_fields :=
  repeat match goal with
  | H : is_text_where _ _ = true |- _ => apply is_text_where_true in H as (? & ? & ?)
  | H : is_one_of _ _ = true |- _ => apply is_text_where_true in H as (? & ? & ?)
  | H : equals_number _ _ = true |- _ => apply equals_number_true in H
  | H : equals_text _ _ = true |- _ => apply equals_text_Some in H
  end.
Ltac rewrite_fields := repeat match goal with H : json_field _ _ = Some _ |- _ => rewrite H end.

(** ** A manifest without errors *)
Definition primary_ok (runtime : Z) (reference : ImmutableReference) : Prop :=
  1 <= ir_offset reference /\ ir_offset reference + UUPS_wordByteLength <= runtime /\ ir_byteLength reference = UUPS_wordByteLength /\
  lower_0x (Z.to_nat (UUPS_wordByteLength * 2)) (ir_expectedArtifactPlaceholderBytes reference) = true.

Definition supplementary_ok (runtime : Z) (entry : SupplementaryReference) : Prop :=
  let width := Z.to_nat (sr_byteLength entry * 2) in
  0 <= sr_offset entry /\ 0 < sr_byteLength entry /\ sr_offset entry + sr_byteLength entry <= runtime /\
  lower_0x width (sr_expectedDeployedBytes entry) = true /\ lower_0x width (sr_expectedArtifactPlaceholderBytes entry) = true.

Definition primary_widths (runtime : Z) : Widths := {| wd_runtime := Some runtime; wd_word := Some UUPS_wordByteLength |}.

Lemma check_primary_ok runtime index reference ids offsets ids' offset :
  check_primary (primary_widths runtime) index reference ids offsets = ([], ids', offset) ->
  exists r, reference_of_json reference = Some r /\ primary_ok runtime r /\ offset = Some (ir_offset r) /\
    ((0 < index)%nat -> forall previous, last offsets = Some previous -> previous < ir_offset r).
Proof.
  unfold check_primary. destruct (negb (isObject reference)); [done|]. destruct (check_id _ _ _) as [id_errors new_ids] eqn:Eid.
  destruct (any_number (json_field reference "offset")) as [o|] eqn:Eo; [|intros [= E _ _]; by apply app_nil in E as [_ [=]]].
  intros [= E _ <-]. no_errors. unfold exceeds in *. cbn [wd_word wd_runtime primary_widths] in *. subst id_errors.
  apply check_id_ok in Eid as (id & Eid & _).
  read_fields. eexists. split.
  { unfold reference_of_json. rewrite Eid, Eo. rewrite_fields. reflexivity. }
  cbn [ir_offset]. split; [|split; [done|]].
  - unfold primary_ok. cbn. bool_to_prop. repeat split; try lia. done.
  - intros Hi%Nat.ltb_lt previous Hp. rewrite Hi, Hp in *. cbn [andb] in *. bool_to_prop. lia.
Qed.

Definition ascending (offsets : list Z) : Prop := Sorted Z.lt offsets.

Lemma ascending_snoc offsets offset :
  ascending offsets -> (forall previous, last offsets = Some previous -> previous < offset) -> ascending (offsets ++ [offset]).
Proof.
  intros Hs Hl. apply Sorted_snoc; [done|]. destruct (last offsets) as [previous|] eqn:E.
  - apply last_Some in E as [l' ->]. constructor. by apply Hl.
  - apply last_None in E as ->. constructor.
Qed.

Lemma check_primaries_ok runtime references : forall index ids offsets offsets',
  check_primaries (primary_widths runtime) index references ids offsets = ([], offsets') ->
  (index = 0%nat -> offsets = []) -> ascending offsets ->
  exists rs, mapM reference_of_json references = Some rs /\ Forall (primary_ok runtime) rs /\
    offsets' = offsets ++ map ir_offset rs /\ ascending offsets'.
Proof.
  induction references as [|reference references IH]; intros index ids offsets offsets' E Hi Hs; cbn [check_primaries] in E.
  - injection E as <-. exists []. by rewrite app_nil_r.
  - destruct (check_primary _ _ _ _ _) as [[errors ids'] offset] eqn:Ec.
    destruct (check_primaries _ _ _ _ _) as [errors' offsets1] eqn:El. injection E as E <-. apply app_nil in E as [-> ->].
    apply check_primary_ok in Ec as (r & Er & Hr & -> & Hlast). cbn [option_list] in El.
    apply IH in El as (rs & Ers & Hrs & -> & Hs'); [|done|].
    + exists (r :: rs). split; [apply mapM_Some in Ers; apply mapM_Some; by constructor|]. split; [by constructor|].
      rewrite <- app_assoc in *. done.
    + apply ascending_snoc; [done|]. intros previous Hp. destruct index as [|index]; [by rewrite Hi in Hp|]. apply Hlast; [lia|done].
Qed.

(** Two ranges without a common position. *)
Definition apart (offset width offset' width' : Z) : Prop := offset + width <= offset' \/ offset' + width' <= offset.

Lemma check_supplementary_ok runtime index entry ids previous occupied ids' range :
  check_supplementary (primary_widths runtime) index entry ids previous occupied = ([], ids', range) ->
  exists e, supplementary_of_json entry = Some e /\ supplementary_ok runtime e /\ range = Some (sr_offset e, sr_byteLength e) /\
    forall region, region ∈ occupied -> overlaps (sr_offset e) (sr_byteLength e) region = false.
Proof.
  unfold check_supplementary. destruct (negb (isObject entry)); [done|]. destruct (match json_field entry "id" with Some _ => _ | None => _ end) as [id_errors new_ids] eqn:Eid.
  destruct (any_number (json_field entry "offset")) as [o|] eqn:Eo; [|intros [= E _ _]; by apply app_nil in E as [_ [=]]].
  destruct (_ || _) eqn:E1; [intros [= E _ _]; by apply app_nil in E as [_ [=]]|].
  destruct (any_number (json_field entry "byteLength")) as [n|] eqn:En; [|intros [= E _ _]; by apply app_nil in E as [_ [=]]].
  destruct ((n <=? 0) || _) eqn:E2; [intros [= E _ _]; by apply app_nil in E as [_ [=]]|].
  intros [= E _ <-]. no_errors. unfold exceeds in *. cbn [wd_word wd_runtime primary_widths] in *. subst id_errors.
  assert (Hid : exists id, json_field entry "id" = Some (jstring id)).
  { destruct (json_field entry "id") as [[]|]; try done. by eexists. }
  destruct Hid as (id & Hid). apply flat_map_nil in E.
  read_fields. eexists. split.
  { unfold supplementary_of_json. rewrite Eo, En. rewrite_fields. reflexivity. }
  cbn [sr_offset sr_byteLength]. split; [|split; [done|]].
  - unfold supplementary_ok. cbn. bool_to_prop. repeat split; (done || lia).
  - intros region Hr. rewrite Forall_forall in E. by eapply error_if_nil, E.
Qed.

(** Supplementary references: within the code, and apart from what is taken. *)
Lemma check_supplementaries_ok runtime entries : forall index ids previous occupied,
  check_supplementaries (primary_widths runtime) index entries ids previous occupied = [] ->
  exists es, mapM supplementary_of_json entries = Some es /\ Forall (supplementary_ok runtime) es /\
    (forall e region, e ∈ es -> region ∈ occupied -> overlaps (sr_offset e) (sr_byteLength e) region = false) /\
    (forall i j e e', es !! i = Some e -> es !! j = Some e' -> (i < j)%nat -> apart (sr_offset e) (sr_byteLength e) (sr_offset e') (sr_byteLength e')).
Proof.
  induction entries as [|entry entries IH]; intros index ids previous occupied E; cbn [check_supplementaries] in E.
  - exists []. split; [done|]. split; [done|]. split; [by intros ? ? ?%elem_of_nil|done].
  - destruct (check_supplementary _ _ _ _ _ _) as [[errors ids'] range] eqn:Ec. apply app_nil in E as [-> E].
    apply check_supplementary_ok in Ec as (e & Ee & He & -> & Hfree). apply IH in E as (es & Ees & Hes & Hocc & Hdis).
    exists (e :: es). split; [apply mapM_Some in Ees; apply mapM_Some; by constructor|]. split; [by constructor|]. split.
    + intros e' region [->|Hin]%elem_of_cons Hr; [by apply Hfree|]. apply Hocc; [done|]. apply elem_of_app. by left.
    + intros [|i] [|j] e1 e2 H1 H2 Hij; cbn in H1, H2; [lia| |lia|apply (Hdis i j); [done|done|lia]]. injection H1 as <-.
      specialize (Hocc e2 (sr_offset e, sr_offset e + sr_byteLength e, "supplementary:" +:+ Z_toString (Z.of_nat index))).
      unfold apart. cbn in Hocc. destruct (_ && _) eqn:Eo in Hocc; [|bool_to_prop; lia].
      assert (true = false) by (apply Hocc; [by eapply list_elem_of_lookup_2|apply elem_of_app; right; by left]). done.
Qed.

(** ** The manifest *)
Record manifest_ok (m : NormalizationManifest) : Prop := {
  mo_runtime : 0 < nm_runtimeByteLength m;
  mo_word : nm_wordByteLength m = UUPS_wordByteLength;
  mo_shape : nm_deploymentValueShape m ∈ DEPLOYMENT_VALUE_SHAPES;
  mo_trailer : 0 < nm_metadataTrailerByteLength m;
  mo_count : nm_expectedReplacementCount m = size (nm_primaryImmutableReferences m);
  mo_primary : Forall (primary_ok (nm_runtimeByteLength m)) (nm_primaryImmutableReferences m);
  mo_ascending : ascending (map ir_offset (nm_primaryImmutableReferences m));
  mo_supplementary : Forall (supplementary_ok (nm_runtimeByteLength m)) (nm_supplementaryImmutableReferences m);
  mo_apart : forall e r, e ∈ nm_supplementaryImmutableReferences m -> r ∈ nm_primaryImmutableReferences m ->
    apart (sr_offset e) (sr_byteLength e) (ir_offset r) UUPS_wordByteLength;
  mo_code : forall e, e ∈ nm_supplementaryImmutableReferences m ->
    sr_offset e + sr_byteLength e <= nm_runtimeByteLength m - nm_metadataTrailerByteLength m;
  mo_pairwise : forall i j e e', nm_supplementaryImmutableReferences m !! i = Some e ->
    nm_supplementaryImmutableReferences m !! j = Some e' -> (i < j)%nat ->
    apart (sr_offset e) (sr_byteLength e) (sr_offset e') (sr_byteLength e')
}.

Lemma sorted_set_nil errors : js_sort compare_code_units (js_set errors) = [] -> errors = [].
Proof.
  intros E. destruct errors as [|e errors]; [done|]. exfalso.
  assert (H : e ∈ js_sort compare_code_units (js_set (e :: errors))) by (rewrite elem_of_js_sort, elem_of_js_set; by left).
  rewrite E in H. by apply elem_of_nil in H.
Qed.

Lemma positive_integer_some value n : positive_integer value = Some n -> value = Some (jnumber n) /\ 0 < n.
Proof. destruct value as [[]|]; cbn; try done. destruct (Z.ltb_spec 0 z); [|done]. by intros [= <-]. Qed.
Lemma any_number_some value n : any_number value = Some n -> value = Some (jnumber n).
Proof. destruct value as [[]|]; cbn; try done. by intros [= <-]. Qed.

Lemma length_mapM {A B} (f : A -> option B) xs ys : mapM f xs = Some ys -> length ys = length xs.
Proof. intros H%mapM_Some. symmetry. by eapply Forall2_length. Qed.

(** What the fields of a manifest without errors are. *)
Lemma check_primary_list_ok runtime count value offsets :
  check_primary_list (primary_widths runtime) (Some count) value = ([], offsets) ->
  exists references rs, value = Some (jarray references) /\ mapM reference_of_json references = Some rs /\
    Forall (primary_ok runtime) rs /\ offsets = map ir_offset rs /\ ascending offsets /\ count = size rs.
Proof.
  unfold check_primary_list. destruct value as [[| | | |references|]|]; try done.
  destruct (check_primaries _ _ _ _ _) as [errors offsets1] eqn:Ep. intros [= E <-]. no_errors. subst errors.
  apply check_primaries_ok in Ep as (rs & Ers & Hrs & -> & Hs); [|done|constructor].
  exists references, rs. split; [done|]. split; [done|]. split; [done|]. split; [done|]. split; [done|].
  unfold size. rewrite (length_mapM _ _ _ Ers). bool_to_prop. done.
Qed.

Lemma check_supplementary_list_ok runtime occupied value :
  check_supplementary_list (primary_widths runtime) occupied value = [] ->
  exists entries es, value = Some (jarray entries) /\ mapM supplementary_of_json entries = Some es /\
    Forall (supplementary_ok runtime) es /\
    (forall e region, e ∈ es -> region ∈ occupied -> overlaps (sr_offset e) (sr_byteLength e) region = false) /\
    (forall i j e e', es !! i = Some e -> es !! j = Some e' -> (i < j)%nat ->
       apart (sr_offset e) (sr_byteLength e) (sr_offset e') (sr_byteLength e')).
Proof.
  unfold check_supplementary_list. destruct value as [[| | | |entries|]|]; try done. intros E.
  apply check_supplementaries_ok in E as (es & H). by exists entries, es.
Qed.

Lemma overlaps_false offset width start stop label :
  overlaps offset width (start, stop, label) = false -> stop <= offset \/ offset + width <= start.
Proof. cbn. intros H. bool_to_prop. destruct H; bool_to_prop; lia. Qed.

Lemma some_or_error {A} (o : option A) message : error_if (bool_decide (o = None)) message = [] -> is_Some o.
Proof. rewrite error_if_nil, bool_decide_eq_false. by destruct o. Qed.

(** A manifest without errors can be read, and is what [manifest_ok] says. *)
Lemma validated_manifest manifest :
  validateNormalizationManifest manifest = [] -> exists m, manifest_of_json manifest = Some m /\ manifest_ok m.
Proof.
  unfold validateNormalizationManifest. destruct (negb (isObject manifest)); [done|]. intros E%sorted_set_nil.
  repeat match goal with H : _ ++ _ = [] |- _ => apply app_nil in H as [? H] end.
  repeat match goal with H : error_if (bool_decide _) _ = [] |- _ => apply some_or_error in H as [? H] end.
  no_errors. cbn [wd_word wd_runtime] in *.
  destruct (positive_integer (json_field manifest "runtimeByteLength")) as [runtime|] eqn:Er; [|by simplify_eq].
  destruct (positive_integer (json_field manifest "wordByteLength")) as [word|] eqn:Ew; [|by simplify_eq].
  destruct (natural (json_field manifest "expectedReplacementCount")) as [count|] eqn:Ec; [|by simplify_eq].
  destruct (any_number (json_field manifest "metadataTrailerByteLength")) as [trailer|] eqn:Et; [|done]. bool_to_prop. subst word.
  fold (primary_widths runtime) in *.
  destruct (check_primary_list _ _ _) as [errors offsets] eqn:Ep. cbn [fst snd] in *. subst errors.
  apply check_primary_list_ok in Ep as (references & rs & Eprim & Ers & Hrs & -> & Hasc & ->).
  apply check_supplementary_list_ok in E as (entries & es & Esupp & Ees & Hes & Hocc & Hpair).
  apply positive_integer_some in Er as [Er Hr]. apply positive_integer_some in Ew as [Ew _]. read_fields.
  assert (Ecount : any_number (json_field manifest "expectedReplacementCount") = Some (size rs)).
  { unfold natural in Ec. destruct (json_field manifest "expectedReplacementCount") as [[]|]; try done. by destruct (_ <=? _). }
  eexists. split.
  { unfold manifest_of_json. rewrite Ecount, Et. rewrite_fields. cbn [mbind option_bind the_text the_items any_number].
    rewrite Ers. cbn [mbind option_bind]. rewrite Ees. reflexivity. }
  constructor; cbn [nm_runtimeByteLength nm_wordByteLength nm_deploymentValueShape nm_metadataTrailerByteLength
    nm_expectedReplacementCount nm_primaryImmutableReferences nm_supplementaryImmutableReferences]; try done.
  - by eapply bool_decide_eq_true_1.
  - intros e r He Hin. specialize (Hocc e (ir_offset r, ir_offset r + UUPS_wordByteLength, "primary") He).
    apply or_comm, overlaps_false with (label := "primary"), Hocc. apply elem_of_app. left. cbn [wd_word primary_widths].
    apply list_elem_of_fmap. exists (ir_offset r). split; [done|]. apply list_elem_of_fmap. by exists r.
  - intros e He. specialize (Hocc e (runtime - trailer, runtime, "metadata") He). rewrite Forall_forall in Hes.
    destruct (Hes e He) as (_ & Hlen & Hin & _). apply overlaps_false in Hocc as [Hlt|]; [lia|lia|].
    apply elem_of_app. right. by left.
Qed.

(** ** The normalisation with such a manifest *)
Definition same_length (runtime : list Z) (s : Normalizing) : Prop := length (nz_bytes s) = length runtime.

Lemma fold_result_total {A} (runtime : list Z) (step : A -> Normalizing -> result Normalizing) xs s :
  (forall x s, x ∈ xs -> same_length runtime s -> exists s', step x s = Ok s' /\ same_length runtime s') ->
  same_length runtime s -> exists s', fold_result step xs s = Ok s' /\ same_length runtime s'.
Proof.
  revert s. induction xs as [|x xs IH]; intros s Hstep Hs; [by exists s|]. cbn [fold_result].
  destruct (Hstep x s) as (s1 & -> & Hs1); [by left|done|]. cbn. apply IH; [|done]. intros y t Hy. apply Hstep. by right.
Qed.

Lemma normalize_primary_total runtime word opcode hex reference s :
  same_length runtime s -> exists s', normalize_primary runtime word opcode hex reference s = Ok s' /\ same_length runtime s'.
Proof.
  intros Hs. unfold normalize_primary. repeat case_match; eexists; (split; [reflexivity|]); try done.
  unfold same_length. cbn [nz_bytes replaced_at written]. unfold copy. by rewrite length_inserts.
Qed.

Lemma normalize_supplementary_total runtime limit entry s :
  supplementary_ok limit entry -> same_length runtime s ->
  exists s', normalize_supplementary runtime entry s = Ok s' /\ same_length runtime s'.
Proof.
  intros (H0 & Hlen & _) Hs. unfold normalize_supplementary.
  destruct (Z.ltb_spec (size runtime) (sr_offset entry + sr_byteLength entry)) as [|Hin]; [by eexists|].
  destruct (negb (bool_decide _)); [by eexists|]. destruct (Z.eqb_spec (size (from_hex (strip_0x (sr_expectedArtifactPlaceholderBytes entry)))) (sr_byteLength entry))
    as [Hsize|]; [|by eexists]. cbn [negb].
  assert (Hf : exists bytes, fill (from_hex (strip_0x (sr_expectedArtifactPlaceholderBytes entry))) (sr_offset entry)
      (sr_offset entry + sr_byteLength entry) (nz_bytes s) = Ok bytes).
  { unfold fill. replace (size (nz_bytes s)) with (size runtime) by (unfold size; by rewrite Hs).
    rewrite !(proj2 (Z.ltb_ge _ _)) by lia. cbn [orb]. rewrite (proj2 (Z.leb_gt _ _)) by lia.
    revert Hsize. destruct (from_hex _) as [|b bytes]; intros Hsize; [|by eexists]. unfold size in Hsize. cbn [length] in Hsize. lia. }
  destruct Hf as [bytes Hf]. rewrite Hf. eexists. split; [reflexivity|]. apply fill_spec in Hf as (_ & Hl & _).
  unfold same_length. cbn. congruence.
Qed.

Lemma normalisation_total `{Sha256} m runtime address :
  manifest_ok m -> exists r, normalizeRuntimeBytecodeFromManifest runtime m address = Ok r.
Proof.
  intros Hm. unfold normalizeRuntimeBytecodeFromManifest. destruct (negb _); [by eexists|].
  destruct (deploymentValueWord address) as [word|]; [|by eexists]. destruct (negb _); [by eexists|].
  assert (Hr : exists s, normalize_run runtime m word = Ok s).
  { unfold normalize_run.
    match goal with |- context [fold_result ?step (nm_primaryImmutableReferences m) ?s0] =>
      destruct (fold_result_total runtime step (nm_primaryImmutableReferences m) s0) as (s1 & E1 & H1) end.
    - intros reference s _. apply normalize_primary_total.
    - unfold same_length. rewrite check_metadata_bytes. unfold failed_if. by destruct (negb _).
    - rewrite E1. cbn. destruct (fold_result_total runtime (normalize_supplementary runtime) (nm_supplementaryImmutableReferences m) s1)
        as (s2 & E2 & _); [|exact H1|by exists s2].
      intros entry s Hin. eapply normalize_supplementary_total. eapply Forall_forall; [apply (mo_supplementary _ Hm)|done]. }
  destruct Hr as [s ->]. cbn. by eexists.
Qed.

(** C18: a manifest without errors is one that can be used.  It can be read as a manifest;
    its references lie within the code, the primary ones at ascending offsets, the
    supplementary ones apart from each other, from the primary ones and from the metadata;
    there are as many replacements as expected; and the normalisation never throws on it,
    whatever the code and the address.  Primary references may overlap each other and the
    metadata: [overlapping_primaries_accepted]. *)
Theorem validateNormalizationManifest_sound `{Sha256} manifest :
  validateNormalizationManifest manifest = [] ->
  exists m, manifest_of_json manifest = Some m /\ manifest_ok m /\
    forall runtime address, exists r, normalizeRuntimeBytecodeFromManifest runtime m address = Ok r.
Proof.
  intros (m & Em & Hm)%validated_manifest. exists m. split; [done|]. split; [done|]. intros runtime address. by apply normalisation_total.
Qed.

#[local] Instance example_sha256 : Sha256 := {| sha256 := to_hex |}.
Definition sample_json : Json := jobject [
  ("acceptedMetadataStructure", jstring "CBOR_SOLC_ONLY_NO_SOURCE_HASH"); ("compilerVersion", jstring "0.8.24");
  ("deploymentValueShape", jstring "LEFT_PADDED_IMPLEMENTATION_ADDRESS_WORD"); ("expectedReplacementCount", jnumber 1);
  ("immutableReferenceKind", jstring "PUSH32_WORD_IMMUTABLE"); ("metadataModel", jstring "CBOR_SOLC_ONLY_NO_SOURCE_HASH");
  ("metadataTrailerByteLength", jnumber 12); ("metadataTrailerSha256", jstring (repeat_char 64 "a"));
  ("primaryImmutableReferences", jarray [jobject [
     ("byteLength", jnumber 32); ("compilerReferenceId", jstring "605");
     ("expectedArtifactPlaceholderBytes", jstring ("0x" +:+ repeat_char 64 "0")); ("id", jstring "self");
     ("kind", jstring "PUSH32_WORD_IMMUTABLE"); ("offset", jnumber 2)]]);
  ("requiredPrecedingOpcode", jstring "0x7f"); ("runtimeByteLength", jnumber 46);
  ("schema", jstring NORMALIZATION_MANIFEST_SCHEMA);
  ("supplementaryImmutableReferences", jarray [jobject [
     ("byteLength", jnumber 1); ("compilerReferenceId", jstring "606"); ("expectedArtifactPlaceholderBytes", jstring "0x00");
     ("expectedDeployedBytes", jstring "0x60"); ("id", jstring "first"); ("kind", jstring "EXACT_BYTES_REPLACEMENT");
     ("offset", jnumber 0)]]);
  ("version", jnumber 2); ("wordByteLength", jnumber 32)].

Example overlapping_reference_refused :
  check_supplementary (primary_widths 46) 0 (jobject [
     ("byteLength", jnumber 1); ("compilerReferenceId", jstring "606"); ("expectedArtifactPlaceholderBytes", jstring "0x00");
     ("expectedDeployedBytes", jstring "0x60"); ("id", jstring "first"); ("kind", jstring "EXACT_BYTES_REPLACEMENT");
     ("offset", jnumber 33)]) [] (-1) [(2, 34, "primary"); (34, 46, "metadata")] =
  (["supplementary immutable reference 0 overlaps the primary region"], ["first"], Some (33, 1)).
Proof. vm_compute. reflexivity. Qed.

(** Only the offsets of primary references are compared: two that share 14 bytes with each
    other, and 4 with the metadata, are accepted. *)
Definition overlapping_primary (id : string) (offset : Z) : Json := jobject [
  ("byteLength", jnumber 32); ("compilerReferenceId", jstring "605");
  ("expectedArtifactPlaceholderBytes", jstring ("0x" +:+ repeat_char 64 "0")); ("id", jstring id);
  ("kind", jstring "PUSH32_WORD_IMMUTABLE"); ("offset", jnumber offset)].
Definition overlapping_json : Json :=
  match sample_json with
  | jobject fields =>
      jobject (map_set "primaryImmutableReferences" (jarray [overlapping_primary "first" 2; overlapping_primary "second" 20])
        (map_set "expectedReplacementCount" (jnumber 2) (map_set "runtimeByteLength" (jnumber 60) fields)))
  | _ => jnull
  end.
Example overlapping_primaries_accepted :
  validateNormalizationManifest overlapping_json = [] /\
  option_map (fun m => (map ir_offset (nm_primaryImmutableReferences m), nm_runtimeByteLength m, nm_metadataTrailerByteLength m))
    (manifest_of_json overlapping_json) = Some ([2; 20], 60, 12).
Proof. vm_compute. split; reflexivity. Qed.

Lemma validateNormalizationManifest_sound_witness :
  exists m, manifest_of_json sample_json = Some m /\ manifest_ok m /\ nm_runtimeByteLength m = 46.
Proof.
  assert (E : validateNormalizationManifest sample_json = []) by (vm_compute; reflexivity).
  destruct (validateNormalizationManifest_sound sample_json E) as (m & Em & Hm & _).
  exists m. split; [exact Em|]. split; [exact Hm|]. vm_compute in Em. injection Em as <-. reflexivity.
Defined.
