(* ===== verification/HcuSource.v ===== *)
(** * Reading installed sources: scripts/sg4-hcu-authority.ts

    The cost table of the calculator and the costs enforced by the authority are parsed
    from source text and compared; the surface of a contract is enumerated from its text
    without comments, statement by statement.  The functions that do this on texts alone
    are here: [parseInstalledCostTable], [compareOperationTables],
    [stripSolidityComments], [splitDeclarationScope] and [matchingBrace].  The theorems:
    the comparison finds every difference, the stripped text has no comment, and no text
    is lost between statements.  A [Map] is a list in the order of insertion; costs are
    integers. *)
From Stdlib Require Import ZArith Lia Ascii.
From stdpp Require Import base option list strings.
From S2P Require Import Prelude HcuJson HcuAbi.
Local Open Scope Z_scope.

(** ** Cost tables *)
(** A cost group is one of the texts [scalar], [nonScalar], [types]. *)
Definition CostGroups : Type := list (string * list (string * Z)).
Definition CostTable : Type := list (string * CostGroups).

Definition setCost (table : CostTable) (operation group type : string) (cost : Z) : CostTable :=
  let groups := default [] (map_get operation table) in
  let costs := default [] (map_get group groups) in
  map_set operation (map_set group (map_set type cost costs) groups) table.

Definition is_letter (c : ascii) : bool :=
  let n := nat_of_ascii c in ((65 <=? n) && (n <=? 90))%nat || ((97 <=? n) && (n <=? 122))%nat.
Definition is_alphanumeric (c : ascii) : bool := is_letter c || is_digit c.
(** [[A-Za-z][A-Za-z0-9]*] *)
Definition is_name (s : string) : bool := match s with String c rest => is_letter c && string_forall is_alphanumeric rest | _ => false end.

(** A line [<indentation><key>: <rest>]: the key and the rest. *)
Fixpoint split_key (s : string) : option (string * string) :=
  match s with
  | String ":" (String " " rest) => Some ("", rest)
  | String c s' => if is_alphanumeric c then (fun '(key, rest) => (String c key, rest)) <$> split_key s' else None
  | EmptyString => None
  end.
Definition match_key (indentation : nat) (line : string) : option (string * string) :=
  if startsWith (repeat_char indentation " ") line then
    match split_key (drop_chars indentation line) with
    | Some (key, rest) => if is_name key then Some (key, rest) else None
    | None => None
    end
  else None.

Inductive CostLine : Type :=
| line_operation (operation : string)
| line_group (group : string)
| line_cost (type : string) (cost : Z)
| line_group_end
| line_end
| line_other.

(** The number before the comma, when the text is digits and a comma. *)
Fixpoint digits_comma (s : string) : option string :=
  match s with
  | String "," EmptyString => Some ""
  | String c s' => if is_digit c then String c <$> digits_comma s' else None
  | EmptyString => None
  end.
Definition cost_of (rest : string) : option Z :=
  match digits_comma rest with
  | Some digits => if string_nonempty digits then match BigInt_of_digits digits with Ok z => Some z | Throw _ => None end else None
  | None => None
  end.

(** The patterns of a line, in the order they are tried; the second and the third are
    tried only inside an operation, and inside a group. *)
Definition classify_line (line : string) (in_operation in_group : bool) : CostLine :=
  match match_key 2 line with
  | Some (operation, "{") => line_operation operation
  | _ =>
      match (if in_operation then match_key 4 line else None) with
      | Some (group, rest) =>
          if bool_decide (group ∈ ["scalar"; "nonScalar"; "types"]) && bool_decide (rest ∈ ["{"; "Object.freeze({"])
          then line_group group else line_other
      | None =>
          match (if in_group then match_key 6 line else None) with
          | Some (type, rest) => match cost_of rest with Some cost => line_cost type cost | None => line_other end
          | None =>
              if bool_decide (line ∈ ["    },"; "    }),"]) then line_group_end
              else if startsWith "}" line then line_end else line_other
          end
      end
  end.

Fixpoint parse_lines (lines : list string) (table : CostTable) (operation group : option string) : CostTable :=
  match lines with
  | [] => table
  | line :: lines' =>
      match classify_line line (bool_decide (is_Some operation)) (bool_decide (is_Some operation /\ is_Some group)) with
      | line_operation name =>
          parse_lines lines' (match map_get name table with Some _ => table | None => map_set name [] table end) (Some name) None
      | line_group name => parse_lines lines' table operation (Some name)
      | line_cost type cost =>
          parse_lines lines' (setCost table (default "" operation) (default "" group) type cost) operation group
      | line_group_end => parse_lines lines' table operation None
      | line_end => table
      | line_other => parse_lines lines' table operation group
      end
  end.

(** [source.slice(source.indexOf(text))] *)
Fixpoint from_index_of (text source : string) : option string :=
  if startsWith text source then Some source
  else match source with String _ rest => from_index_of text rest | EmptyString => None end.

Definition newline : ascii := ascii_of_nat 10.

Definition parseInstalledCostTable (source : string) : result CostTable :=
  match from_index_of "export const HCUByOperator = {" source with
  | None => throw_new "installed cost table: HCUByOperator declaration not found"
  | Some text =>
      match parse_lines (split_char newline text) [] None None with
      | [] => throw_new "installed cost table: no operations parsed"
      | table => Ok table
      end
  end.

(** ** The comparison of two tables *)
Definition OPERATION_NAME_TRANSLATIONS : list (string * string) := [("IfThenElse", "FheIfThenElse")].

Record TableComparison := {
  tc_shared : list string; tc_installedOnly : list string; tc_authorityOnly : list string; tc_costMismatches : list string;
  tc_operandMismatches : list string; tc_translationsApplied : list string; tc_ambiguousTranslation : bool
}.

Definition target_of (translations : list (string * string)) (name : string) : string := default name (map_get name translations).

(** The authority's table under the names of the installed one. *)
Fixpoint translate (translations : list (string * string)) (authority translated : CostTable) : result CostTable :=
  match authority with
  | [] => Ok translated
  | (name, groups) :: authority' =>
      let target := target_of translations name in
      fail_if (bool_decide (is_Some (map_get target translated))) ("ambiguous operation translation collides on " +:+ target) ;;
      translate translations authority' (map_set target groups translated)
  end.

Definition has_key {A} (m : list (string * A)) (k : string) : bool := bool_decide (is_Some (map_get k m)).
Definition sorted_keys {A} (m : list (string * A)) : list string := js_sort compare_code_units m.*1.
Definition all_keys {A B} (m : list (string * A)) (m' : list (string * B)) : list string :=
  js_sort compare_code_units (js_set (m.*1 ++ m'.*1)).

(** The two lists of mismatches: of operands, of costs. *)
Definition Mismatches : Type := list string * list string.
Definition both (a b : Mismatches) : Mismatches := (a.1 ++ b.1, a.2 ++ b.2).
Definition every {A} (f : A -> Mismatches) (xs : list A) : Mismatches := foldr (fun x => both (f x)) ([], []) xs.

Definition compare_type (left_ right_ : list (string * Z)) (path : string) (type : string) : Mismatches :=
  match map_get type left_, map_get type right_ with
  | Some leftCost, Some rightCost =>
      if leftCost =? rightCost then ([], [])
      else ([], [path +:+ "." +:+ type +:+ ":" +:+ Z_toString leftCost +:+ "!=" +:+ Z_toString rightCost])
  | _, _ => ([path +:+ "." +:+ type +:+ ":present_on_one_side_only"], [])
  end.
Definition compare_group (left_ right_ : CostGroups) (path : string) (group : string) : Mismatches :=
  match map_get group left_, map_get group right_ with
  | Some leftGroup, Some rightGroup =>
      every (compare_type leftGroup rightGroup (path +:+ "." +:+ group)) (all_keys leftGroup rightGroup)
  | _, _ => ([path +:+ "." +:+ group +:+ ":present_on_one_side_only"], [])
  end.
(** [name] is an operation of both tables. *)
Definition compare_operation (installed translated : CostTable) (name : string) : Mismatches :=
  let left_ := default [] (map_get name installed) in
  let right_ := default [] (map_get name translated) in
  every (compare_group left_ right_ name) (all_keys left_ right_).

Definition compareOperationTables (installed authority : CostTable) (translations : list (string * string)) : result TableComparison :=
  let targets := translations.*2 in
  translated ← translate translations authority [];
  let shared := List.filter (has_key translated) (sorted_keys installed) in
  let mismatches := every (compare_operation installed translated) shared in
  Ok {| tc_shared := shared;
        tc_installedOnly := List.filter (fun name => negb (has_key translated name)) (sorted_keys installed);
        tc_authorityOnly := List.filter (fun name => negb (has_key installed name)) (sorted_keys translated);
        tc_costMismatches := js_sort compare_code_units mismatches.2;
        tc_operandMismatches := js_sort compare_code_units mismatches.1;
        tc_translationsApplied := js_sort compare_code_units
          (flat_map (fun entry => let target := target_of translations entry.1 in
                                  if bool_decide (target = entry.1) then [] else [entry.1 +:+ "->" +:+ target]) authority);
        tc_ambiguousTranslation := negb (length (js_set targets) =? length targets)%nat |}.

(** ** The text of a contract *)
Inductive Mode : Type := in_code | in_line | in_block | in_string (quote : ascii).

Definition is_quote (c : ascii) : bool := Ascii.eqb c quotation || Ascii.eqb c "'".
Fixpoint strip (mode : Mode) (source : string) : string :=
  match source with
  | EmptyString => ""
  | String c rest =>
      match mode with
      | in_line => if Ascii.eqb c newline then String c (strip in_code rest) else strip in_line rest
      | in_block =>
          match rest with
          | String d rest' =>
              if Ascii.eqb c "*" && Ascii.eqb d "/" then strip in_code rest'
              else if Ascii.eqb c newline then String c (strip in_block rest) else strip in_block rest
          | EmptyString => if Ascii.eqb c newline then String c "" else ""
          end
      | in_string quote =>
          if Ascii.eqb c "\" then
            match rest with String d rest' => String c (String d (strip mode rest')) | EmptyString => String c "" end
          else String c (strip (if Ascii.eqb c quote then in_code else mode) rest)
      | in_code =>
          match rest with
          | String d rest' =>
              if Ascii.eqb c "/" && Ascii.eqb d "/" then strip in_line rest'
              else if Ascii.eqb c "/" && Ascii.eqb d "*" then strip in_block rest'
              else String c (strip (if is_quote c then in_string c else in_code) rest)
          | EmptyString => String c ""
          end
      end
  end.
Definition stripSolidityComments (source : string) : string := strip in_code source.

(** The statements of the text, with the statement so far, the depth of braces and the
    quotation mark of an open string. *)
Fixpoint split_scope (body current : string) (depth : Z) (quote : option ascii) : list string :=
  match body with
  | EmptyString => if bool_decide (trim current = "") then [] else [trim current]
  | String c rest =>
      let current := current +:+ String c "" in
      match quote with
      | Some q =>
          if Ascii.eqb c "\" then
            match rest with
            | String d rest' => split_scope rest' (current +:+ String d "") depth quote
            | EmptyString => split_scope rest current depth quote
            end
          else split_scope rest current depth (if Ascii.eqb c q then None else quote)
      | None =>
          if is_quote c then split_scope rest current depth (Some c)
          else if Ascii.eqb c "{" then split_scope rest current (depth + 1) None
          else if Ascii.eqb c "}" then
            if depth - 1 =? 0 then trim current :: split_scope rest "" (depth - 1) None
            else split_scope rest current (depth - 1) None
          else if Ascii.eqb c ";" && (depth =? 0) then trim current :: split_scope rest "" depth None
          else split_scope rest current depth None
      end
  end.
Definition splitDeclarationScope (body : string) : list string :=
  List.filter string_nonempty (split_scope body "" 0 None).

(** The position of the brace that closes the one at the start of [text]. *)
Fixpoint closing_brace (text : string) (depth index : Z) : result Z :=
  match text with
  | EmptyString => throw_new "unbalanced braces while parsing the authority implementation"
  | String c rest =>
      if Ascii.eqb c "{" then closing_brace rest (depth + 1) (index + 1)
      else if Ascii.eqb c "}" then
        if depth - 1 =? 0 then Ok index else closing_brace rest (depth - 1) (index + 1)
      else closing_brace rest depth (index + 1)
  end.
Definition matchingBrace (source : string) (openIndex : Z) : result Z :=
  closing_brace (drop_chars (Z.to_nat openIndex) source) 0 openIndex.

(** * Properties *)

(** ** The comparison *)
Lemma map_get_is_Some {A} (m : list (string * A)) k : is_Some (map_get k m) <-> k ∈ m.*1.
Proof.
  induction m as [|[k' v] m IH]; cbn [map_get fmap list_fmap]; [split; [by intros []|by intros ?%elem_of_nil]|].
  rewrite elem_of_cons. case_decide as Hk; [|rewrite IH; naive_solver]. cbn. split; [by left|done].
Qed.

Lemma elem_of_all_keys {A B} (m : list (string * A)) (m' : list (string * B)) k :
  k ∈ all_keys m m' <-> is_Some (map_get k m) \/ is_Some (map_get k m').
Proof. unfold all_keys. by rewrite elem_of_js_sort, elem_of_js_set, elem_of_app, !map_get_is_Some. Qed.

Lemma elem_of_sorted_keys {A} (m : list (string * A)) k : k ∈ sorted_keys m <-> is_Some (map_get k m).
Proof. unfold sorted_keys. by rewrite elem_of_js_sort, map_get_is_Some. Qed.

Lemma has_key_true {A} (m : list (string * A)) k : has_key m k = true <-> is_Some (map_get k m).
Proof. unfold has_key. by rewrite bool_decide_eq_true. Qed.

Lemma every_nil {A} (f : A -> Mismatches) xs : every f xs = ([], []) <-> forall x, x ∈ xs -> f x = ([], []).
Proof.
  induction xs as [|x xs IH]; [split; [by intros _ ? ?%elem_of_nil|done]|].
  change (every f (x :: xs)) with (both (f x) (every f xs)).
  assert (Hb : both (f x) (every f xs) = ([], []) <-> f x = ([], []) /\ every f xs = ([], [])).
  { unfold both. destruct (f x) as [a b], (every f xs) as [a' b']; cbn. split; [|by intros [[= -> ->] [= -> ->]]].
    intros [= Ha Hb]. apply app_nil in Ha as [-> ->]. by apply app_nil in Hb as [-> ->]. }
  rewrite Hb, IH. split.
  - intros [H1 H2] y [->|Hy]%elem_of_cons; auto.
  - intros H. split; [apply H; by left|]. intros y Hy. apply H. by right.
Qed.

Lemma filter_nil {A} (p : A -> bool) xs : List.filter p xs = [] <-> forall x, x ∈ xs -> p x = false.
Proof.
  induction xs as [|x xs IH]; cbn; [split; [by intros _ ? ?%elem_of_nil|done]|]. destruct (p x) eqn:Ex.
  - split; [done|]. intros H. specialize (H x (list_elem_of_here _ _)). congruence.
  - rewrite IH. split; [intros H y [->|Hy]%elem_of_cons; auto|]. intros H y Hy. apply H. by right.
Qed.

(** Tables with the same operations, groups, types and costs. *)
Definition same_costs (a b : list (string * Z)) : Prop := forall type, map_get type a = map_get type b.
Definition same_keys {A B} (a : list (string * A)) (b : list (string * B)) : Prop :=
  forall k, is_Some (map_get k a) <-> is_Some (map_get k b).
Definition same_groups (a b : CostGroups) : Prop :=
  same_keys a b /\ forall group x y, map_get group a = Some x -> map_get group b = Some y -> same_costs x y.
Definition same_table (a b : CostTable) : Prop :=
  same_keys a b /\ forall operation x y, map_get operation a = Some x -> map_get operation b = Some y -> same_groups x y.

Lemma compare_group_nil a b path group :
  compare_group a b path group = ([], []) <->
  exists x y, map_get group a = Some x /\ map_get group b = Some y /\ same_costs x y.
Proof.
  unfold compare_group. destruct (map_get group a) as [x|], (map_get group b) as [y|]; try (split; [done|naive_solver]).
  rewrite every_nil. unfold compare_type. split.
  - intros H. exists x, y. split; [done|]. split; [done|]. intros type. specialize (H type). rewrite elem_of_all_keys in H.
    destruct (map_get type x) as [c|] eqn:Ex, (map_get type y) as [d|] eqn:Ey; try done.
    + destruct (Z.eqb_spec c d) as [->|]; [done|]. assert (([], [_]) = ([], [])) by (apply H; by left; eexists). done.
    + assert (([_], []) = ([], [])) by (apply H; by left; eexists). done.
    + assert (([_], []) = ([], [])) by (apply H; by right; eexists). done.
  - intros (x' & y' & [= <-] & [= <-] & Hs) type Hin%elem_of_all_keys. rewrite <- Hs in Hin |- *.
    destruct (map_get type x) as [c|]; [by rewrite Z.eqb_refl|]. by destruct Hin as [[]|[]].
Qed.

Lemma compare_operation_nil installed translated name x y :
  map_get name installed = Some x -> map_get name translated = Some y ->
  (compare_operation installed translated name = ([], []) <-> same_groups x y).
Proof.
  intros Ex Ey. unfold compare_operation. rewrite Ex, Ey. cbn [default from_option id]. rewrite every_nil. split.
  - intros H. split.
    + intros group. split; intros Hg.
      * assert (Hin : group ∈ all_keys x y) by (apply elem_of_all_keys; by left).
        apply H, compare_group_nil in Hin as (? & ? & _ & E & _). by eexists.
      * assert (Hin : group ∈ all_keys x y) by (apply elem_of_all_keys; by right).
        apply H, compare_group_nil in Hin as (? & ? & E & _ & _). by eexists.
    + intros group a b Ea Eb. assert (Hin : group ∈ all_keys x y) by (apply elem_of_all_keys; left; by eexists).
      apply H, compare_group_nil in Hin as (? & ? & Ea' & Eb' & Hs). congruence.
  - intros [Hk Hs] group Hin%elem_of_all_keys. apply compare_group_nil. rewrite <- (Hk group) in Hin.
    destruct Hin as [[a Ea]|[a Ea]]; (destruct (proj1 (Hk group)) as [b Eb]; [by eexists|]); exists a, b; eauto.
Qed.

Definition renamed (translations : list (string * string)) (table : CostTable) : CostTable :=
  map (fun entry => (target_of translations entry.1, entry.2)) table.

Lemma map_set_fresh {A} k (v : A) (m : list (string * A)) : map_get k m = None -> map_set k v m = m ++ [(k, v)].
Proof. induction m as [|[k1 v1] m IH]; cbn; [done|]. case_decide; [done|]. intros E. by rewrite IH. Qed.

Lemma translate_spec translations authority : forall translated result_table,
  translate translations authority translated = Ok result_table -> result_table = translated ++ renamed translations authority.
Proof.
  induction authority as [|[name groups] authority IH]; intros translated result_table E; cbn [translate] in E.
  - injection E as <-. by rewrite app_nil_r.
  - apply result_bind_Ok in E as ([] & Hf%fail_if_Ok & E). apply IH in E as ->. apply bool_decide_eq_false in Hf.
    rewrite map_set_fresh by (by apply eq_None_not_Some). by rewrite <- app_assoc.
Qed.

(** C31: the comparison misses nothing.  When it returns, it reports no operation of one
    side only, no operand of one side only and no difference of costs exactly when the
    two tables are the same, the authority's under the translated names. *)
Theorem compareOperationTables_exact installed authority translations c :
  compareOperationTables installed authority translations = Ok c ->
  (tc_installedOnly c = [] /\ tc_authorityOnly c = [] /\ tc_costMismatches c = [] /\ tc_operandMismatches c = [] <->
   same_table installed (renamed translations authority)).
Proof.
  unfold compareOperationTables. intros E. apply result_bind_Ok in E as (translated & Et & [= <-]).
  apply translate_spec in Et. cbn [app] in Et. subst translated.
  set (table := renamed translations authority). cbn [tc_installedOnly tc_authorityOnly tc_costMismatches tc_operandMismatches].
  set (shared := List.filter (has_key table) (sorted_keys installed)).
  assert (Hshared : forall k, k ∈ shared <-> is_Some (map_get k installed) /\ is_Some (map_get k table)).
  { intros k. unfold shared. rewrite list_elem_of_In, filter_In, <- list_elem_of_In, elem_of_sorted_keys, has_key_true. done. }
  assert (Hevery : (js_sort compare_code_units (every (compare_operation installed table) shared).2 = [] /\
                    js_sort compare_code_units (every (compare_operation installed table) shared).1 = []) <->
                   forall k, k ∈ shared -> compare_operation installed table k = ([], [])).
  { rewrite <- every_nil. destruct (every _ shared) as [a b]. cbn. split; [|by intros [= -> ->]].
    intros [Hb%js_sort_nil_inv Ha%js_sort_nil_inv]. congruence. }
  rewrite !filter_nil, Hevery. split.
  - intros (Hi & Ha & Hm). assert (Hk : same_keys installed table).
    { intros k. split; intros Hk.
      - specialize (Hi k). rewrite elem_of_sorted_keys, negb_false_iff, has_key_true in Hi. by apply Hi.
      - specialize (Ha k). rewrite elem_of_sorted_keys, negb_false_iff, has_key_true in Ha. by apply Ha. }
    split; [done|]. intros k x y Ex Ey. eapply compare_operation_nil; [exact Ex|exact Ey|]. apply Hm, Hshared.
    by split; eexists.
  - intros [Hk Hs]. split; [|split].
    + intros k Hin%elem_of_sorted_keys. rewrite negb_false_iff, has_key_true. by apply Hk.
    + intros k Hin%elem_of_sorted_keys. rewrite negb_false_iff, has_key_true. by apply Hk.
    + intros k [[x Ex] [y Ey]]%Hshared. eapply compare_operation_nil; [exact Ex|exact Ey|]. by eapply Hs.
Qed.

(** ** Comments *)
(** A comment begins outside the strings of a text; [quote] is the mark of an open one. *)
Fixpoint has_comment (quote : option ascii) (s : string) : bool :=
  match s with
  | EmptyString => false
  | String c rest =>
      match quote with
      | Some q =>
          if Ascii.eqb c "\" then match rest with String _ rest' => has_comment quote rest' | EmptyString => false end
          else has_comment (if Ascii.eqb c q then None else quote) rest
      | None =>
          (Ascii.eqb c "/" && match rest with String d _ => Ascii.eqb d "/" || Ascii.eqb d "*" | EmptyString => false end) ||
          has_comment (if is_quote c then Some c else None) rest
      end
  end.

Definition mode_of (quote : option ascii) : Mode := match quote with Some q => in_string q | None => in_code end.

Lemma string_length_ind (P : string -> Prop) :
  (forall s, (forall t, (String.length t < String.length s)%nat -> P t) -> P s) -> forall s, P s.
Proof.
  intros H s. assert (Hn : forall n t, (String.length t < n)%nat -> P t); [|by apply (Hn (S (String.length s))); lia].
  induction n as [|n IH]; intros t Ht; [lia|]. apply H. intros u Hu. apply IH. lia.
Qed.

Lemma strip_no_comment s : forall quote, has_comment quote s = false -> strip (mode_of quote) s = s.
Proof.
  induction s as [s IH] using string_length_ind. intros quote Hc. destruct s as [|c rest]; [by destruct quote|].
  destruct quote as [q|]; cbn [mode_of strip has_comment] in *.
  - destruct (Ascii.eqb c "\").
    + destruct rest as [|d rest]; [done|]. do 2 f_equal. apply (IH rest ltac:(cbn; lia) (Some q) Hc).
    + f_equal. destruct (Ascii.eqb c q); [apply (IH rest ltac:(cbn; lia) None Hc)|apply (IH rest ltac:(cbn; lia) (Some q) Hc)].
  - apply orb_false_elim in Hc as [Hd Hc]. assert (Hrest : strip (if is_quote c then in_string c else in_code) rest = rest).
    { destruct (is_quote c); [apply (IH rest ltac:(cbn; lia) (Some c) Hc)|apply (IH rest ltac:(cbn; lia) None Hc)]. }
    destruct rest as [|d rest]; [done|]. destruct (Ascii.eqb c "/"); cbn [andb] in *; [|by rewrite Hrest].
    apply orb_false_elim in Hd as [-> ->]. by rewrite Hrest.
Qed.

(** The first character of a stripped text that begins no comment. *)
Lemma strip_head d rest : Ascii.eqb d "/" = false -> exists t, strip in_code (String d rest) = String d t.
Proof. intros Hd. cbn [strip]. rewrite Hd. cbn [andb]. destruct rest; by eexists. Qed.

Lemma strip_has_no_comment s :
  (forall quote, has_comment quote (strip (mode_of quote) s) = false) /\
  has_comment None (strip in_line s) = false /\ has_comment None (strip in_block s) = false.
Proof.
  induction s as [s IH] using string_length_ind. destruct s as [|c rest]; [split; [by intros []|done]|].
  assert (Hrest : (String.length rest < String.length (String c rest))%nat) by (cbn; lia).
  destruct (IH rest Hrest) as (IHq & IHl & IHb). split; [|split].
  - intros [q|]; cbn [mode_of strip].
    + destruct (Ascii.eqb c "\") eqn:Ec; [destruct rest as [|d rest]|].
      * cbn. by rewrite Ec.
      * cbn [has_comment]. rewrite Ec. apply (proj1 (IH rest ltac:(cbn; lia)) (Some q)).
      * cbn [has_comment]. rewrite Ec. destruct (Ascii.eqb c q); [apply (IHq None)|apply (IHq (Some q))].
    + destruct rest as [|d rest]; [cbn; rewrite andb_false_r; by destruct (is_quote c)|].
      destruct (IH rest ltac:(cbn; lia)) as (_ & IHl' & IHb').
      destruct (Ascii.eqb c "/" && Ascii.eqb d "/") eqn:E1; [exact IHl'|]. destruct (Ascii.eqb c "/" && Ascii.eqb d "*") eqn:E2; [exact IHb'|].
      cbn [has_comment]. apply orb_false_intro.
      * destruct (Ascii.eqb c "/") eqn:Ec; [|done]. apply Ascii.eqb_eq in Ec. subst c. cbn [andb] in *. change (is_quote "/") with false.
        destruct (strip_head d rest E1) as [t ->]. by rewrite E1, E2.
      * destruct (is_quote c); [apply (IHq (Some c))|apply (IHq None)].
  - cbn [strip]. destruct (Ascii.eqb c newline) eqn:Ec; [|exact IHl]. apply Ascii.eqb_eq in Ec as ->. exact (IHq None).
  - cbn [strip]. destruct rest as [|d rest].
    + destruct (Ascii.eqb c newline) eqn:Ec; [|done]. by apply Ascii.eqb_eq in Ec as ->.
    + destruct (_ && _); [apply (proj1 (IH rest ltac:(cbn; lia)) None)|].
      destruct (Ascii.eqb c newline) eqn:Ec; [|exact IHb]. apply Ascii.eqb_eq in Ec as ->. exact IHb.
Qed.

(** no prose is left.  What [stripSolidityComments] returns has no comment outside its
    strings, whatever the source; a text without comments is returned as it is, so that
    stripping twice is stripping once. *)
Theorem stripSolidityComments_spec source :
  has_comment None (stripSolidityComments source) = false /\
  (has_comment None source = false -> stripSolidityComments source = source) /\
  stripSolidityComments (stripSolidityComments source) = stripSolidityComments source.
Proof.
  unfold stripSolidityComments. destruct (strip_has_no_comment source) as [H _]. specialize (H None). cbn [mode_of] in H.
  split; [done|]. split; [intros Hc; by apply (strip_no_comment _ None)|by apply (strip_no_comment _ None)].
Qed.

(** ** Statements *)
(** A text without its white space. *)
Fixpoint squeeze (s : string) : string :=
  match s with String c s' => if is_space c then squeeze s' else String c (squeeze s') | EmptyString => "" end.
Definition join_all (parts : list string) : string := foldr String.append "" parts.

Lemma squeeze_app s t : squeeze (s +:+ t) = squeeze s +:+ squeeze t.
Proof. induction s as [|c s IH]; [done|]. rewrite append_cons. cbn [squeeze]. destruct (is_space c); [done|]. by rewrite append_cons, IH. Qed.

Lemma squeeze_trimStart s : squeeze (trimStart s) = squeeze s.
Proof. induction s as [|c s IH]; [done|]. cbn. destruct (is_space c) eqn:Ec; [done|]. cbn. by rewrite Ec. Qed.
Lemma squeeze_trimEnd s : squeeze (trimEnd s) = squeeze s.
Proof.
  induction s as [|c s IH]; [done|]. cbn. destruct (trimEnd s) as [|d t].
  - rewrite <- IH. destruct (is_space c) eqn:Ec; cbn; by rewrite ?Ec.
  - rewrite <- IH. cbn. by destruct (is_space c), (is_space d).
Qed.
Lemma squeeze_trim s : squeeze (trim s) = squeeze s.
Proof. unfold trim. by rewrite squeeze_trimEnd, squeeze_trimStart. Qed.

Lemma join_all_cons part parts : join_all (part :: parts) = part +:+ join_all parts.
Proof. done. Qed.

Lemma split_scope_squeeze body : forall current depth quote,
  squeeze (join_all (split_scope body current depth quote)) = squeeze current +:+ squeeze body.
Proof.
  induction body as [body IH] using string_length_ind. intros current depth quote.
  assert (Hnil : forall s, s +:+ "" = s) by (intros s; induction s as [|x s IHs]; [done|]; by rewrite append_cons, IHs).
  destruct body as [|c rest]; cbn [split_scope].
  - rewrite Hnil. case_bool_decide as Ht; [rewrite <- (squeeze_trim current), Ht; done|].
    rewrite join_all_cons. cbn [join_all foldr]. by rewrite Hnil, squeeze_trim.
  - assert (Hgo : forall d q, squeeze (join_all (split_scope rest (current +:+ String c "") d q)) = squeeze current +:+ squeeze (String c rest)).
    { intros d q. rewrite IH by (cbn; lia). rewrite squeeze_app, string_app_assoc, <- squeeze_app. done. }
    assert (Hcut : forall d q, squeeze (join_all (trim (current +:+ String c "") :: split_scope rest "" d q)) =
              squeeze current +:+ squeeze (String c rest)).
    { intros d q. rewrite join_all_cons, squeeze_app, squeeze_trim, IH by (cbn; lia). rewrite squeeze_app, string_app_assoc.
      change (squeeze "" +:+ squeeze rest) with (squeeze rest). by rewrite <- squeeze_app. }
    destruct quote as [q|].
    + destruct (Ascii.eqb c "\"); [|apply Hgo]. destruct rest as [|d rest]; [apply Hgo|].
      rewrite IH by (cbn; lia). rewrite !squeeze_app, !string_app_assoc, <- !squeeze_app. done.
    + repeat case_match; first [apply Hgo | apply Hcut].
Qed.

Lemma join_nonempty parts : join_all (List.filter string_nonempty parts) = join_all parts.
Proof. induction parts as [|[|c part] parts IH]; [done|exact IH|]. cbn [List.filter string_nonempty]. by rewrite !join_all_cons, IH. Qed.

(** no text of a contract is lost.  The statements of [splitDeclarationScope], put
    together, are the body up to white space, and none of them is empty. *)
Theorem splitDeclarationScope_covers body :
  squeeze (join_all (splitDeclarationScope body)) = squeeze body /\ forall statement, statement ∈ splitDeclarationScope body -> statement <> "".
Proof.
  unfold splitDeclarationScope. rewrite join_nonempty, split_scope_squeeze. split; [done|].
  intros statement Hin ->. apply list_elem_of_In, filter_In in Hin as [_ [=]].
Qed.

Definition sample_source : string :=
  join_char newline ["import x;"; "export const HCUByOperator = {"; "  FheAdd: {"; "    scalar: Object.freeze({"; "      Uint8: 84000,"; "    }),";
    "    nonScalar: {"; "      Uint8: 88000,"; "    },"; "  },"; "  FheIfThenElse: {"; "    types: {"; "      Bool: 55000,"; "    },"; "  },"; "};"].
Definition sample_table : CostTable :=
  [("FheAdd", [("scalar", [("Uint8", 84000)]); ("nonScalar", [("Uint8", 88000)])]); ("FheIfThenElse", [("types", [("Bool", 55000)])])].
Definition sample_authority : CostTable :=
  [("IfThenElse", [("types", [("Bool", 55000)])]); ("FheAdd", [("nonScalar", [("Uint8", 88000)]); ("scalar", [("Uint8", 84000)])])].

Example parse_sample : parseInstalledCostTable sample_source = Ok sample_table.
Proof. vm_compute. reflexivity. Qed.
Example strip_sample : stripSolidityComments "a /* b */ + '/* c */' // d" = "a  + '/* c */' ".
Proof. vm_compute. reflexivity. Qed.
Example split_sample : splitDeclarationScope " uint x = 1; function f() { g(); } event E(); " = ["uint x = 1;"; "function f() { g(); }"; "event E();"].
Proof. vm_compute. reflexivity. Qed.
Example brace_sample : matchingBrace "a { b { c } }" 2 = Ok 12.
Proof. vm_compute. reflexivity. Qed.

Lemma compareOperationTables_exact_witness :
  exists c, compareOperationTables sample_table sample_authority OPERATION_NAME_TRANSLATIONS = Ok c /\
    same_table sample_table (renamed OPERATION_NAME_TRANSLATIONS sample_authority).
Proof.
  destruct (compareOperationTables sample_table sample_authority OPERATION_NAME_TRANSLATIONS) as [c|e] eqn:E; [|vm_compute in E; discriminate].
  exists c. split; [reflexivity|]. apply (compareOperationTables_exact sample_table sample_authority OPERATION_NAME_TRANSLATIONS c E).
  vm_compute in E. injection E as <-. repeat split.
Defined.
