(* ===== verification/HcuPricing.v ===== *)
(** * The prices of operations: scripts/sg4-hcu-authority.ts

    The schedule of prices is a reviewed manifest, one entry for each variant of an
    operation.  [validatePricingManifest] checks it,
    [compareCalculatorAgainstPricingManifest] compares the prices of the installed
    calculator with it over the variants that are used, and [pricingComparisonBlockers]
    lists what blocks.  The theorems: a manifest without errors is a schedule in order,
    with one price for each variant and a one-to-one translation; and nothing blocks
    exactly when every used variant has the same price on both sides. *)
From Stdlib Require Import ZArith Lia Ascii.
From stdpp Require Import base option list sorting strings.
From S2P Require Import Prelude HcuJson HcuAbi HcuPlan HcuBytecode HcuManifest HcuSource.
Local Open Scope Z_scope.

Record PricingEntry := {
  pe_canonicalName : string; pe_enforcementName : string; pe_operandMode : string; pe_operandTypes : list string;
  pe_costKeyType : string; pe_resultType : string; pe_arity : Z; pe_cost : Z; pe_sourceReference : string
}.
Record PricingManifest := { pm_schema : string; pm_version : Z; pm_provenanceSubject : string; pm_entries : list PricingEntry }.
Record PricingVariant := {
  pv_canonicalOperation : string; pv_enforcementOperation : string; pv_operandMode : string; pv_costKeyType : string;
  pv_operandTypes : list string; pv_resultType : string; pv_arity : Z
}.

Definition PRICING_MANIFEST_FIELDS : list string := ["entries"; "provenanceSubject"; "schema"; "version"].
Definition PRICING_MANIFEST_SCHEMA : string := "zama-szn4.sg4-authoritative-pricing-manifest.v1".
Definition PRICING_ENTRY_FIELDS : list string :=
  ["arity"; "canonicalName"; "cost"; "costKeyType"; "enforcementName"; "operandMode"; "operandTypes"; "resultType";
   "sourceReference"].
Definition OPERAND_MODES : list string := ["nonScalar"; "scalar"; "types"].

Definition dotted (a b c : string) : string := a +:+ "." +:+ b +:+ "." +:+ c.
Definition entry_id (entry : PricingEntry) : string := dotted (pe_canonicalName entry) (pe_operandMode entry) (pe_costKeyType entry).
Definition variantId (variant : PricingVariant) : string :=
  dotted (pv_canonicalOperation variant) (pv_operandMode variant) (pv_costKeyType variant).

(** ** The validation *)
Definition check_operand_types (prefix : string) (entry : Json) : list string :=
  match json_field entry "operandTypes" with
  | Some (jarray types) =>
      if existsb (fun type => negb (is_text_where string_nonempty (Some type))) types then
        [prefix +:+ " operandTypes must be non-empty type names"]
      else error_if (match json_field entry "arity" with Some (jnumber n) => negb (Z.of_nat (length types) =? n) | _ => false end)
             (prefix +:+ " arity disagrees with its operand type list")
  | _ => [prefix +:+ " operandTypes must be an array"]
  end.

(** The name of the enforcement, after the names given before. *)
Definition check_translation (entry : Json) (translation : list (string * string)) : list string * list (string * string) :=
  match json_field entry "canonicalName", json_field entry "enforcementName" with
  | Some (jstring canonical), Some (jstring enforcement) =>
      (error_if (match map_get canonical translation with Some known => negb (bool_decide (known = enforcement)) | None => false end)
         ("pricing manifest gives " +:+ canonical +:+ " two different enforcement names"), map_set canonical enforcement translation)
  | _, _ => ([], translation)
  end.

Definition check_variant (entry : Json) (variantIds : list string) : list string * list string :=
  match json_field entry "canonicalName", json_field entry "operandMode", json_field entry "costKeyType" with
  | Some (jstring name), Some (jstring mode), Some (jstring key) =>
      let id := dotted name mode key in
      (error_if (bool_decide (id ∈ variantIds)) ("pricing manifest duplicates the variant " +:+ id), variantIds ++ [id])
  | _, _, _ => ([], variantIds)
  end.

Definition check_price (index : nat) (entry : Json) : list string :=
  let prefix := "pricing entry " +:+ Z_toString (Z.of_nat index) in
  missing_fields PRICING_ENTRY_FIELDS entry (fun f => prefix +:+ " is missing " +:+ f) ++
  extra_fields PRICING_ENTRY_FIELDS entry (fun f => prefix +:+ " has an unpermitted field " +:+ f) ++
  flat_map (fun f => error_if (negb (is_text_where string_nonempty (json_field entry f))) (prefix +:+ " " +:+ f +:+ " must be a non-empty string"))
    ["canonicalName"; "enforcementName"; "sourceReference"; "costKeyType"; "resultType"] ++
  error_if (is_text_where (includes "|") (json_field entry "resultType"))
    (prefix +:+ " resultType must be a single type, not a compound description") ++
  error_if (negb (is_one_of OPERAND_MODES (json_field entry "operandMode"))) (prefix +:+ " declares an unknown operand mode") ++
  check_operand_types prefix entry ++
  error_if (bool_decide (natural (json_field entry "arity") = None)) (prefix +:+ " arity must be a non-negative integer") ++
  error_if (negb (match json_field entry "cost" with Some (jnumber n) => (0 <=? n) && (n <=? MAX_SAFE_INTEGER) | _ => false end))
    (prefix +:+ " cost must be a safe non-negative integer").

(** The entries, with the ids and the translation they give. *)
Fixpoint check_prices (index : nat) (entries : list Json) (variantIds : list string) (translation : list (string * string))
    : list string * list string * list (string * string) :=
  match entries with
  | [] => ([], variantIds, translation)
  | entry :: entries' =>
      if negb (isObject entry) then
        let '(errors, ids, names) := check_prices (S index) entries' variantIds translation in
        (["pricing entry " +:+ Z_toString (Z.of_nat index) +:+ " must be an object"] ++ errors, ids, names)
      else
        let '(translation_errors, translation') := check_translation entry translation in
        let '(variant_errors, variantIds') := check_variant entry variantIds in
        let '(errors, ids, names) := check_prices (S index) entries' variantIds' translation' in
        (check_price index entry ++ translation_errors ++ variant_errors ++ errors, ids, names)
  end.

Fixpoint check_injective (translation seen : list (string * string)) : list string :=
  match translation with
  | [] => []
  | (canonical, enforcement) :: translation' =>
      error_if (match map_get enforcement seen with Some previous => negb (bool_decide (previous = canonical)) | None => false end)
        ("pricing manifest translation is not injective on " +:+ enforcement) ++
      check_injective translation' (map_set enforcement canonical seen)
  end.

(** [JSON.stringify] of a list of texts. *)
Definition stringify_texts (texts : list string) : string := print (jarray (map jstring texts)).

Definition validatePricingManifest (manifest : Json) : list string :=
  if negb (isObject manifest) then ["pricing manifest must be an object"]
  else
    let head :=
      missing_fields PRICING_MANIFEST_FIELDS manifest (fun f => "pricing manifest is missing " +:+ f) ++
      extra_fields PRICING_MANIFEST_FIELDS manifest (fun f => "pricing manifest has an unpermitted field " +:+ f) ++
      error_if (negb (equals_text (json_field manifest "schema") PRICING_MANIFEST_SCHEMA)) "pricing manifest schema mismatch" ++
      error_if (negb (equals_number (json_field manifest "version") 1)) "pricing manifest version mismatch" ++
      error_if (negb (equals_text (json_field manifest "provenanceSubject") "CURRENT_OFFICIAL_OPERATION_PRICE_SCHEDULE"))
        "pricing manifest must cite the current official operation price schedule" in
    let errors :=
      match json_field manifest "entries" with
      | Some (jarray ((_ :: _) as entries)) =>
          let '(entry_errors, variantIds, translation) := check_prices 0 entries [] [] in
          head ++ entry_errors ++ check_injective translation [] ++
          error_if (negb (bool_decide (stringify_texts (js_sort compare_code_units variantIds) = stringify_texts variantIds)))
            "pricing manifest entries must be in canonical variant order"
      | _ => head ++ ["pricing manifest entries must be a non-empty array"]
      end in
    js_sort compare_code_units (js_set errors).

(** [manifest as PricingManifest] *)
Definition the_texts (value : option Json) : option (list string) := items ← the_items value; mapM (fun item => the_text (Some item)) items.
Definition price_of_json (value : Json) : option PricingEntry :=
  canonicalName ← the_text (json_field value "canonicalName"); enforcementName ← the_text (json_field value "enforcementName");
  operandMode ← the_text (json_field value "operandMode"); operandTypes ← the_texts (json_field value "operandTypes");
  costKeyType ← the_text (json_field value "costKeyType"); resultType ← the_text (json_field value "resultType");
  arity ← any_number (json_field value "arity"); cost ← any_number (json_field value "cost");
  sourceReference ← the_text (json_field value "sourceReference");
  Some {| pe_canonicalName := canonicalName; pe_enforcementName := enforcementName; pe_operandMode := operandMode;
          pe_operandTypes := operandTypes; pe_costKeyType := costKeyType; pe_resultType := resultType; pe_arity := arity;
          pe_cost := cost; pe_sourceReference := sourceReference |}.
Definition pricing_of_json (value : Json) : option PricingManifest :=
  schema ← the_text (json_field value "schema"); version ← any_number (json_field value "version");
  subject ← the_text (json_field value "provenanceSubject"); items ← the_items (json_field value "entries");
  entries ← mapM price_of_json items;
  Some {| pm_schema := schema; pm_version := version; pm_provenanceSubject := subject; pm_entries := entries |}.

(** ** The comparison *)
Record PricingComparison := {
  pc_usedVariants : list string; pc_missingFromManifest : list string; pc_missingFromCalculator : list string;
  pc_costMismatches : list string; pc_operandMismatches : list string; pc_operandTypeMismatches : list string;
  pc_arityMismatches : list string; pc_resultTypeMismatches : list string; pc_translationMismatches : list string;
  pc_officialOnlyUnusedBySg4 : list string
}.

(** [new Map(entries.map((entry) => [id, entry])).get(id)] *)
Definition by_variant (entries : list PricingEntry) (id : string) : option PricingEntry :=
  List.find (fun entry => bool_decide (entry_id entry = id)) (rev entries).

Definition installed_cost (installed : CostTable) (variant : PricingVariant) : option Z :=
  groups ← map_get (pv_canonicalOperation variant) installed; costs ← map_get (pv_operandMode variant) groups;
  map_get (pv_costKeyType variant) costs.

(** What one used variant adds to the lists, in the order of the record. *)
Record VariantFindings := {
  vf_missingFromManifest : list string; vf_missingFromCalculator : list string; vf_costMismatches : list string;
  vf_operandMismatches : list string; vf_operandTypeMismatches : list string; vf_arityMismatches : list string;
  vf_resultTypeMismatches : list string; vf_translationMismatches : list string
}.

Definition differ (id a b : string) : string := id +:+ ":" +:+ a +:+ "!=" +:+ b.
Definition bracketed (texts : list string) : string := "[" +:+ commas texts +:+ "]".

Definition judge_variant (installed : CostTable) (entries : list PricingEntry) (variant : PricingVariant) : VariantFindings :=
  let id := variantId variant in
  match by_variant entries id with
  | None =>
      let sameOperation := existsb (fun entry => bool_decide (pe_canonicalName entry = pv_canonicalOperation variant)) entries in
      {| vf_missingFromManifest := error_if (negb sameOperation) id; vf_missingFromCalculator := []; vf_costMismatches := [];
         vf_operandMismatches := error_if sameOperation (id +:+ ":variant_absent_from_authoritative_schedule");
         vf_operandTypeMismatches := []; vf_arityMismatches := []; vf_resultTypeMismatches := []; vf_translationMismatches := [] |}
  | Some entry =>
      {| vf_missingFromManifest := [];
         vf_missingFromCalculator := error_if (bool_decide (installed_cost installed variant = None)) id;
         vf_costMismatches :=
           match installed_cost installed variant with
           | Some cost => error_if (negb (cost =? pe_cost entry)) (differ id (Z_toString cost) (Z_toString (pe_cost entry)))
           | None => [] end;
         vf_operandMismatches := [];
         vf_operandTypeMismatches :=
           error_if (negb (bool_decide (stringify_texts (pe_operandTypes entry) = stringify_texts (pv_operandTypes variant))))
             (differ id (bracketed (pe_operandTypes entry)) (bracketed (pv_operandTypes variant)));
         vf_arityMismatches := error_if (negb (pe_arity entry =? pv_arity variant)) (differ id (Z_toString (pe_arity entry)) (Z_toString (pv_arity variant)));
         vf_resultTypeMismatches := error_if (negb (bool_decide (pe_resultType entry = pv_resultType variant))) (differ id (pe_resultType entry) (pv_resultType variant));
         vf_translationMismatches := error_if (negb (bool_decide (pe_enforcementName entry = pv_enforcementOperation variant)))
           (differ id (pe_enforcementName entry) (pv_enforcementOperation variant)) |}
  end.

Definition compareCalculatorAgainstPricingManifest (installed : CostTable) (manifest : PricingManifest) (closure : list PricingVariant)
    : PricingComparison :=
  let entries := pm_entries manifest in
  let findings := map (judge_variant installed entries) closure in
  let sorted := js_sort compare_code_units in
  let used := List.filter (fun id => bool_decide (is_Some (by_variant entries id))) (map variantId closure) in
  {| pc_usedVariants := sorted (map variantId closure);
     pc_missingFromManifest := sorted (js_set (flat_map vf_missingFromManifest findings));
     pc_missingFromCalculator := sorted (js_set (flat_map vf_missingFromCalculator findings));
     pc_costMismatches := sorted (flat_map vf_costMismatches findings);
     pc_operandMismatches := sorted (flat_map vf_operandMismatches findings);
     pc_operandTypeMismatches := sorted (flat_map vf_operandTypeMismatches findings);
     pc_arityMismatches := sorted (flat_map vf_arityMismatches findings);
     pc_resultTypeMismatches := sorted (flat_map vf_resultTypeMismatches findings);
     pc_translationMismatches := sorted (flat_map vf_translationMismatches findings);
     pc_officialOnlyUnusedBySg4 := sorted (List.filter (fun id => negb (bool_decide (id ∈ used))) (map entry_id entries)) |}.

Definition tagged (tag : string) (ids : list string) : list string := map (fun id => tag +:+ ":" +:+ id) ids.
Definition pricingComparisonBlockers (comparison : PricingComparison) : list string :=
  js_sort compare_code_units
    (tagged "MISSING_AUTHORITATIVE_PRICE" (pc_missingFromManifest comparison) ++
     tagged "MISSING_CALCULATOR_PRICE" (pc_missingFromCalculator comparison) ++
     tagged "COST_MISMATCH" (pc_costMismatches comparison) ++
     tagged "OPERAND_MISMATCH" (pc_operandMismatches comparison) ++
     tagged "OPERAND_TYPE_MISMATCH" (pc_operandTypeMismatches comparison) ++
     tagged "ARITY_MISMATCH" (pc_arityMismatches comparison) ++
     tagged "RESULT_TYPE_MISMATCH" (pc_resultTypeMismatches comparison) ++
     tagged "TRANSLATION_MISMATCH" (pc_translationMismatches comparison)).

(** * Properties *)

(** ** The comparison *)
Lemma stringify_texts_inj a b : stringify_texts a = stringify_texts b -> a = b.
Proof.
  intros E. assert (H : jarray (map jstring a) = jarray (map jstring b)).
  { apply (f_equal (fun s => s +:+ "")) in E. apply print_unambiguous in E as [E _]; done. }
  injection H as H. clear E. revert b H. induction a as [|x a IH]; intros [|y b] H; try done. injection H as -> H. f_equal. by apply IH.
Qed.

Lemma sorted_nil l : js_sort compare_code_units l = [] <-> l = [].
Proof. split; [apply js_sort_nil_inv|by intros ->]. Qed.
Lemma js_set_nil (l : list string) : js_set l = [] <-> l = [].
Proof. split; [|by intros ->]. intros E. apply sorted_set_nil. by rewrite E. Qed.
Lemma tagged_nil tag l : tagged tag l = [] <-> l = [].
Proof. by destruct l. Qed.
Lemma findings_nil {A} (f : VariantFindings -> list string) (g : A -> VariantFindings) xs :
  flat_map f (map g xs) = [] <-> Forall (fun x => f (g x) = []) xs.
Proof. induction xs as [|x xs IH]; cbn; [split; [constructor|done]|]. rewrite app_nil, IH, Forall_cons. done. Qed.

(** A variant has one price, the same in the schedule and in the calculator. *)
Definition priced (installed : CostTable) (entries : list PricingEntry) (variant : PricingVariant) : Prop :=
  exists entry, by_variant entries (variantId variant) = Some entry /\
    pe_enforcementName entry = pv_enforcementOperation variant /\ pe_arity entry = pv_arity variant /\
    pe_resultType entry = pv_resultType variant /\ pe_operandTypes entry = pv_operandTypes variant /\
    installed_cost installed variant = Some (pe_cost entry).

Definition no_findings (f : VariantFindings) : Prop :=
  vf_missingFromManifest f = [] /\ vf_missingFromCalculator f = [] /\ vf_costMismatches f = [] /\ vf_operandMismatches f = [] /\
  vf_operandTypeMismatches f = [] /\ vf_arityMismatches f = [] /\ vf_resultTypeMismatches f = [] /\ vf_translationMismatches f = [].

Lemma judge_variant_nil installed entries variant :
  no_findings (judge_variant installed entries variant) <-> priced installed entries variant.
Proof.
  unfold no_findings, judge_variant, priced. destruct (by_variant entries (variantId variant)) as [entry|].
  - cbn. rewrite !error_if_nil, !negb_false_iff, !bool_decide_eq_true, bool_decide_eq_false, Z.eqb_eq. split.
    + intros (_ & Hi & Hc & _ & Ht & Ha & Hr & Hn). exists entry. apply stringify_texts_inj in Ht.
      destruct (installed_cost installed variant) as [cost|]; [|done]. apply error_if_nil in Hc. bool_to_prop. subst. by split_and!.
    + intros (? & [= <-] & Hn & Ha & Hr & Ht & Hi). rewrite Hi, Ht. rewrite Z.eqb_refl. done.
  - cbn. rewrite !error_if_nil. split; [|naive_solver]. intros (H1 & _ & _ & H2 & _). by rewrite H2 in H1.
Qed.

(** C19: nothing blocks exactly when every used variant is priced.  The comparison of the
    calculator with the schedule yields no blocker if and only if each variant of the
    closure has an entry under its id, with the same enforcement name, arity, result type
    and operand types, and the calculator charges the cost of that entry. *)
Theorem pricingComparisonBlockers_exact installed manifest closure :
  pricingComparisonBlockers (compareCalculatorAgainstPricingManifest installed manifest closure) = [] <->
  forall variant, variant ∈ closure -> priced installed (pm_entries manifest) variant.
Proof.
  unfold pricingComparisonBlockers. rewrite sorted_nil, !app_nil, !tagged_nil. cbn -[js_sort js_set].
  rewrite !sorted_nil, !js_set_nil, !findings_nil, !Forall_forall. split.
  - intros H variant Hin. apply judge_variant_nil. unfold no_findings. naive_solver.
  - intros H. assert (Hn : forall variant, variant ∈ closure -> no_findings (judge_variant installed (pm_entries manifest) variant))
      by (intros variant Hin; by apply judge_variant_nil, H).
    unfold no_findings in Hn. repeat split; intros variant Hin; by apply Hn.
Qed.

(** ** A schedule without errors *)
Definition price_ok (entry : PricingEntry) : Prop :=
  0 <= pe_cost entry <= MAX_SAFE_INTEGER /\ pe_arity entry = Z.of_nat (length (pe_operandTypes entry)) /\
  pe_operandMode entry ∈ OPERAND_MODES /\ includes "|" (pe_resultType entry) = false.

Lemma check_operand_types_ok prefix entry arity :
  check_operand_types prefix entry = [] -> natural (json_field entry "arity") = Some arity ->
  exists types, the_texts (json_field entry "operandTypes") = Some types /\ arity = Z.of_nat (length types).
Proof.
  unfold check_operand_types, the_texts. destruct (json_field entry "operandTypes") as [[| | | |types|]|]; try done.
  destruct (existsb _ types) eqn:Ee; [done|]. intros E Ha. apply error_if_nil in E. cbn [the_items mbind option_bind].
  assert (Hall : exists texts, mapM (fun item => the_text (Some item)) types = Some texts).
  { clear E. induction types as [|type types IH]; [by eexists|]. cbn in Ee. apply orb_false_elim in Ee as [Et Ee].
    destruct (IH Ee) as [texts Htexts]. destruct type; try done. exists (s :: texts). apply mapM_Some in Htexts.
    apply mapM_Some. by constructor. }
  destruct Hall as [texts Htexts]. exists texts. split; [done|]. rewrite (length_mapM _ _ _ Htexts).
  unfold natural in Ha. destruct (json_field entry "arity") as [[]|]; try done. destruct (_ <=? _); [|done].
  injection Ha as ->. by bool_to_prop.
Qed.

Lemma natural_number value n : natural value = Some n -> any_number value = Some n.
Proof. destruct value as [[]|]; cbn; try done. by destruct (_ <=? _). Qed.

Lemma check_price_ok index entry :
  check_price index entry = [] -> exists p, price_of_json entry = Some p /\ price_ok p.
Proof.
  unfold check_price. intros E. repeat match goal with H : _ ++ _ = [] |- _ => apply app_nil in H as [? H] end.
  match goal with H : error_if (bool_decide (natural _ = None)) _ = [] |- _ => apply some_or_error in H as [arity Ha] end.
  match goal with H : check_operand_types _ _ = [] |- _ => destruct (check_operand_types_ok _ _ arity H Ha) as (types & Htypes & Hl); clear H end.
  apply natural_number in Ha. cbn [flat_map] in *. no_errors. read_fields.
  match goal with H : match json_field entry "cost" with _ => _ end = true |- _ =>
    destruct (json_field entry "cost") as [[]|] eqn:Ecost; try done; bool_to_prop end.
  eexists. split; [unfold price_of_json; rewrite Htypes, Ha, Ecost; rewrite_fields; reflexivity|].
  unfold price_ok. cbn. split; [lia|]. split; [done|].
  match goal with H : is_text_where (includes "|") (json_field entry "resultType") = false, E : json_field entry "resultType" = _ |- _ =>
    rewrite E in H; cbn in H end.
  by split.
Qed.

(** What the loop over the entries keeps of the names. *)
Definition translates (translation : list (string * string)) (entry : PricingEntry) : Prop :=
  map_get (pe_canonicalName entry) translation = Some (pe_enforcementName entry).

Lemma the_text_some value s : the_text value = Some s -> value = Some (jstring s).
Proof. destruct value as [[]|]; cbn; try done. by intros [= <-]. Qed.

Lemma price_fields entry p :
  price_of_json entry = Some p ->
  json_field entry "canonicalName" = Some (jstring (pe_canonicalName p)) /\
  json_field entry "enforcementName" = Some (jstring (pe_enforcementName p)) /\
  json_field entry "operandMode" = Some (jstring (pe_operandMode p)) /\
  json_field entry "costKeyType" = Some (jstring (pe_costKeyType p)).
Proof.
  unfold price_of_json. intros E. repeat (apply bind_Some in E as (? & ? & E)). injection E as <-. cbn.
  by split_and!; apply the_text_some.
Qed.

Lemma check_translation_ok entry p translation translation' :
  price_of_json entry = Some p -> check_translation entry translation = ([], translation') ->
  translation' = map_set (pe_canonicalName p) (pe_enforcementName p) translation /\
  forall known, map_get (pe_canonicalName p) translation = Some known -> known = pe_enforcementName p.
Proof.
  intros (Ec & Ee & _)%price_fields. unfold check_translation. rewrite Ec, Ee. intros [= E <-]. split; [done|].
  intros known Hk. rewrite Hk in E. apply error_if_nil in E. by bool_to_prop.
Qed.

Lemma check_variant_ok entry p ids ids' :
  price_of_json entry = Some p -> check_variant entry ids = ([], ids') -> entry_id p ∉ ids /\ ids' = ids ++ [entry_id p].
Proof.
  intros (Ec & _ & Em & Ek)%price_fields. unfold check_variant. rewrite Ec, Em, Ek. intros [= E <-].
  apply error_if_nil, bool_decide_eq_false in E. by split.
Qed.

Lemma check_prices_ok entries : forall index ids translation ids' names,
  check_prices index entries ids translation = ([], ids', names) -> NoDup ids -> NoDup translation.*1 ->
  exists ps, mapM price_of_json entries = Some ps /\ Forall price_ok ps /\ ids' = ids ++ map entry_id ps /\ NoDup ids' /\
    NoDup names.*1 /\ Forall (translates names) ps /\
    forall k v, map_get k translation = Some v -> map_get k names = Some v.
Proof.
  induction entries as [|entry entries IH]; intros index ids translation ids' names E Hids Hn; cbn [check_prices] in E.
  { injection E as <- <-. exists []. rewrite app_nil_r. by split_and!. }
  destruct (negb (isObject entry)).
  { destruct (check_prices _ _ _ _) as [[errors i] n]. by injection E. }
  destruct (check_translation entry translation) as [translation_errors translation'] eqn:Et.
  destruct (check_variant entry ids) as [variant_errors ids1] eqn:Ev.
  destruct (check_prices (S index) entries ids1 translation') as [[errors i] n] eqn:Er. injection E as E <- <-.
  apply app_nil in E as [Ep E]. apply app_nil in E as [-> E]. apply app_nil in E as [-> ->].
  apply check_price_ok in Ep as (p & Ep & Hp). apply (check_translation_ok entry p) in Et as [-> Hknown]; [|done].
  apply (check_variant_ok entry p) in Ev as [Hfresh ->]; [|done].
  apply IH in Er as (ps & Eps & Hps & -> & Hnd & Hnames & Htr & Hkeep);
    [|apply NoDup_app; split; [done|split; [by intros x Hx ->%list_elem_of_singleton|apply NoDup_singleton]]|by apply map_set_NoDup].
  exists (p :: ps). cbn [map]. rewrite <- app_assoc in *. cbn [app] in *. split_and!; try done.
  - apply mapM_Some in Eps. apply mapM_Some. by constructor.
  - by constructor.
  - constructor; [|done]. apply Hkeep, map_get_set_eq.
  - intros k v Hk. apply Hkeep. rewrite map_get_set. case_decide as Hd; [|done]. subst k. f_equal. symmetry. by apply Hknown.
Qed.

Lemma check_injective_ok translation : forall seen,
  check_injective translation seen = [] ->
  (forall c e p, (c, e) ∈ translation -> map_get e seen = Some p -> p = c) /\
  (forall c c' e, (c, e) ∈ translation -> (c', e) ∈ translation -> c = c').
Proof.
  induction translation as [|[c0 e0] translation IH]; intros seen E; [split; by intros ? ? ? ?%elem_of_nil|].
  cbn [check_injective] in E. apply app_nil in E as [E0%error_if_nil E]. apply IH in E as [Hseen Hinj].
  assert (H0 : forall p, map_get e0 seen = Some p -> p = c0) by (intros p Hp; rewrite Hp in E0; by bool_to_prop).
  assert (Htail : forall c, (c, e0) ∈ translation -> c0 = c) by (intros c Hc; apply (Hseen c e0); [done|apply map_get_set_eq]).
  split.
  - intros c e p [[= -> ->]|Hin]%elem_of_cons Hp; [by apply H0|]. destruct (decide (e = e0)) as [->|Hne].
    + rewrite (H0 p Hp). by apply Htail.
    + apply (Hseen c e); [done|]. by rewrite map_get_set_ne.
  - intros c c' e [[= -> ->]|Hc]%elem_of_cons [[= ->]|Hc']%elem_of_cons; subst; auto.
    + symmetry. by apply Htail.
    + by eapply Hinj.
Qed.

Record pricing_ok (m : PricingManifest) : Prop := {
  po_entries : pm_entries m <> [];
  po_prices : Forall price_ok (pm_entries m);
  po_unique : NoDup (map entry_id (pm_entries m));
  po_ordered : StronglySorted (fun a b => compare_code_units a b <= 0) (map entry_id (pm_entries m));
  po_translation : forall e e', e ∈ pm_entries m -> e' ∈ pm_entries m ->
    (pe_canonicalName e = pe_canonicalName e' <-> pe_enforcementName e = pe_enforcementName e')
}.

(** a manifest of prices without errors is a schedule.  It can be read; it has entries,
    in canonical order and at most one for each variant, each with a safe cost, an arity
    that fits its operands and a single result type; and operations correspond one to one
    to the names of their enforcement. *)
Theorem validatePricingManifest_sound manifest :
  validatePricingManifest manifest = [] -> exists m, pricing_of_json manifest = Some m /\ pricing_ok m.
Proof.
  unfold validatePricingManifest. destruct (negb (isObject manifest)); [done|]. intros E%sorted_set_nil.
  destruct (json_field manifest "entries") as [[| | | |[|entry entries]|]|] eqn:Ee; try (by apply app_nil in E as [_ [=]]).
  destruct (check_prices 0 (entry :: entries) [] []) as [[errors ids] names] eqn:Ep.
  repeat match goal with H : _ ++ _ = [] |- _ => apply app_nil in H as [? H] end. no_errors. read_fields. subst errors.
  apply check_prices_ok in Ep as (ps & Eps & Hps & Hids & Hnd & Hnames & Htr & _); [|apply NoDup_nil_2|apply NoDup_nil_2].
  cbn [app] in Hids. subst ids.
  match goal with H : bool_decide (stringify_texts _ = _) = true |- _ => apply bool_decide_eq_true in H; rename H into Hsort
    | H : stringify_texts _ = _ |- _ => rename H into Hsort end.
  apply stringify_texts_inj in Hsort.
  match goal with H : check_injective names [] = [] |- _ => apply check_injective_ok in H as [_ Hinj] end.
  exists {| pm_schema := PRICING_MANIFEST_SCHEMA; pm_version := 1; pm_provenanceSubject := "CURRENT_OFFICIAL_OPERATION_PRICE_SCHEDULE"; pm_entries := ps |}.
  split; [unfold pricing_of_json; rewrite_fields; cbn [mbind option_bind the_text the_items any_number]; by rewrite Eps|].
  constructor; cbn [pm_entries]; [|done|done| |].
  - intros ->. apply length_mapM in Eps. done.
  - rewrite <- Hsort. apply (js_sort_sorted compare_code_units).
  - rewrite Forall_forall in Htr. intros e e' He He'. pose proof (Htr e He) as T1. pose proof (Htr e' He') as T2.
    unfold translates in T1, T2. split; intros Heq.
    + rewrite Heq, T2 in T1. congruence.
    + apply map_get_Some_elem in T1, T2. rewrite Heq in T1. by eapply Hinj.
Qed.

Definition sample_price : Json := jobject [
  ("arity", jnumber 2); ("canonicalName", jstring "FheAdd"); ("cost", jnumber 84000); ("costKeyType", jstring "Uint8");
  ("enforcementName", jstring "checkHCUForFheAdd"); ("operandMode", jstring "scalar");
  ("operandTypes", jarray [jstring "euint8"; jstring "uint8"]); ("resultType", jstring "euint8"); ("sourceReference", jstring "HCULimit.sol")].
Definition sample_pricing : Json := jobject [
  ("entries", jarray [sample_price]); ("provenanceSubject", jstring "CURRENT_OFFICIAL_OPERATION_PRICE_SCHEDULE");
  ("schema", jstring PRICING_MANIFEST_SCHEMA); ("version", jnumber 1)].
Definition sample_variant : PricingVariant := {|
  pv_canonicalOperation := "FheAdd"; pv_enforcementOperation := "checkHCUForFheAdd"; pv_operandMode := "scalar";
  pv_costKeyType := "Uint8"; pv_operandTypes := ["euint8"; "uint8"]; pv_resultType := "euint8"; pv_arity := 2 |}.

Example sample_blockers :
  pricingComparisonBlockers <$> ((fun m => compareCalculatorAgainstPricingManifest sample_table m [sample_variant]) <$> pricing_of_json sample_pricing)
  = Some [].
Proof. vm_compute. reflexivity. Qed.
Example sample_mismatch :
  pricingComparisonBlockers <$> ((fun m => compareCalculatorAgainstPricingManifest [] m [sample_variant]) <$> pricing_of_json sample_pricing)
  = Some ["MISSING_CALCULATOR_PRICE:FheAdd.scalar.Uint8"].
Proof. vm_compute. reflexivity. Qed.

Lemma validatePricingManifest_sound_witness :
  exists m, pricing_of_json sample_pricing = Some m /\ pricing_ok m /\ length (pm_entries m) = 1%nat.
Proof.
  assert (E : validatePricingManifest sample_pricing = []) by (vm_compute; reflexivity).
  destruct (validatePricingManifest_sound sample_pricing E) as (m & Em & Hm). exists m. split; [exact Em|]. split; [exact Hm|].
  vm_compute in Em. injection Em as <-. reflexivity.
Defined.
