(* ===== verification/HcuSchedule.v ===== *)
(** * The schedule of prices, read from its source: scripts/sg4-hcu-authority.ts, [extractPriceSchedule]

    The official prices are a table in a TypeScript file.  [extractPriceSchedule] reads it
    line by line: an automaton over the position in the table (outside, in an operation, in
    a group, in a bucket map), each line tried against the patterns its position allows,
    every other line inside an operation a failure.  [derivePriceOperationIdentities] maps
    the names of the operations to those of the contract.
    [extractPriceSchedule_sound]: without failures the operations are the known ones, each
    once, with their metadata, and the prices are those the metadata lists, each once.
    [extractPriceSchedule_print]: a table printed in the layout of the official file is
    read back as it was (HcuScheduleText.v).  Lines end with a line feed, with a carriage return before it or
    not; blanks are those of ASCII. *)
From Stdlib Require Import ZArith Lia Ascii.
From stdpp Require Import base option list sets strings sorting.
From S2P Require Import Prelude HcuJson HcuAbi HcuSource HcuPricing.
Local Open Scope Z_scope.

(** ** Names of operations *)
Definition KNOWN_HCU_OPERATION_FUNCTIONS : list string :=
  ["checkHCUForCast"; "checkHCUForFheAdd"; "checkHCUForFheBitAnd"; "checkHCUForFheBitOr"; "checkHCUForFheBitXor";
   "checkHCUForFheDiv"; "checkHCUForFheEq"; "checkHCUForFheGe"; "checkHCUForFheGt"; "checkHCUForFheIsIn";
   "checkHCUForFheLe"; "checkHCUForFheLt"; "checkHCUForFheMax"; "checkHCUForFheMin"; "checkHCUForFheMul";
   "checkHCUForFheNe"; "checkHCUForFheNeg"; "checkHCUForFheNot"; "checkHCUForFheRand"; "checkHCUForFheRandBounded";
   "checkHCUForFheRem"; "checkHCUForFheRotl"; "checkHCUForFheRotr"; "checkHCUForFheShl"; "checkHCUForFheShr";
   "checkHCUForFheSub"; "checkHCUForFheSum"; "checkHCUForIfThenElse"; "checkHCUForTrivialEncrypt"].
Definition HCU_OPERATION_FUNCTION_PREFIX : string := "checkHCUFor".

Definition HCU_OPERATION_CANONICAL_NAMES : list string :=
  js_sort compare_code_units (js_set (map (drop_chars (String.length HCU_OPERATION_FUNCTION_PREFIX))
    (List.filter (startsWith HCU_OPERATION_FUNCTION_PREFIX) KNOWN_HCU_OPERATION_FUNCTIONS))).

Definition ascii_to_upper (c : ascii) : ascii :=
  let n := nat_of_ascii c in if ((97 <=? n) && (n <=? 122))%nat then ascii_of_nat (n - 32) else c.
(** [name.charAt(0).toUpperCase() + name.slice(1)], and the same with lower case. *)
Definition capitalised (name : string) : string := match name with String c rest => String (ascii_to_upper c) rest | EmptyString => "" end.
Definition uncapitalised (name : string) : string := match name with String c rest => String (ascii_to_lower c) rest | EmptyString => "" end.

Definition PRICE_SOURCE_OPERATION_NAMES : list string := map uncapitalised HCU_OPERATION_CANONICAL_NAMES.

Definition is_word (c : ascii) : bool := is_alphanumeric c || Ascii.eqb c "_".
(** [/^[a-z][A-Za-z0-9_]*$/u] *)
Definition PRICE_SOURCE_OPERATION_NAME (name : string) : bool :=
  match name with
  | String c rest => let n := nat_of_ascii c in ((97 <=? n) && (n <=? 122))%nat && string_forall is_word rest
  | EmptyString => false
  end.

Definition canonicalizePriceOperationName (sourceOperationName : string) : result string :=
  fail_if (negb (PRICE_SOURCE_OPERATION_NAME sourceOperationName) || negb (bool_decide (sourceOperationName ∈ PRICE_SOURCE_OPERATION_NAMES)))
    ("UNKNOWN_SOURCE_OPERATION:" +:+ sourceOperationName) ;;
  let canonicalOperationName := capitalised sourceOperationName in
  fail_if (negb (bool_decide (canonicalOperationName ∈ HCU_OPERATION_CANONICAL_NAMES)))
    ("UNKNOWN_CANONICAL_OPERATION:" +:+ canonicalOperationName) ;;
  Ok canonicalOperationName.

Definition hcuFunctionNameForCanonicalOperation (canonicalOperationName : string) : result string :=
  fail_if (negb (bool_decide (canonicalOperationName ∈ HCU_OPERATION_CANONICAL_NAMES)))
    ("UNKNOWN_CANONICAL_OPERATION:" +:+ canonicalOperationName) ;;
  Ok (HCU_OPERATION_FUNCTION_PREFIX +:+ canonicalOperationName).

Definition sg4CanonicalOperationName (canonicalOperationName : string) : result string :=
  fail_if (negb (bool_decide (canonicalOperationName ∈ HCU_OPERATION_CANONICAL_NAMES)))
    ("UNKNOWN_CANONICAL_OPERATION:" +:+ canonicalOperationName) ;;
  Ok (target_of OPERATION_NAME_TRANSLATIONS canonicalOperationName).

Record PriceOperationIdentity := { pi_sourceOperationName : string; pi_canonicalOperationName : string }.

Record Identifying := {
  id_seenSources : list string; id_seenCanonicals : list (string * string);
  id_identities : list PriceOperationIdentity; id_failures : list string
}.
Definition id_failed (s : Identifying) (failure : string) : Identifying :=
  {| id_seenSources := id_seenSources s; id_seenCanonicals := id_seenCanonicals s; id_identities := id_identities s;
     id_failures := id_failures s ++ [failure] |}.
Definition id_seen (s : Identifying) (source : string) : Identifying :=
  {| id_seenSources := source :: id_seenSources s; id_seenCanonicals := id_seenCanonicals s; id_identities := id_identities s;
     id_failures := id_failures s |}.

Definition identify (s : Identifying) (sourceOperationName : string) : Identifying :=
  if bool_decide (sourceOperationName ∈ id_seenSources s) then id_failed s ("DUPLICATE_SOURCE_OPERATION:" +:+ sourceOperationName)
  else
    let s := id_seen s sourceOperationName in
    match canonicalizePriceOperationName sourceOperationName with
    | Throw error => id_failed s (err_message error)
    | Ok canonicalOperationName =>
        let collides := match map_get canonicalOperationName (id_seenCanonicals s) with
          | Some previousSource => if bool_decide (previousSource = sourceOperationName) then None else Some previousSource
          | None => None
          end in
        match collides with
        | Some previousSource => id_failed s ("CANONICAL_OPERATION_COLLISION:" +:+ previousSource +:+ "," +:+ sourceOperationName +:+ "->" +:+ canonicalOperationName)
        | None => {| id_seenSources := id_seenSources s; id_seenCanonicals := map_set canonicalOperationName sourceOperationName (id_seenCanonicals s);
            id_identities := id_identities s ++ [{| pi_sourceOperationName := sourceOperationName; pi_canonicalOperationName := canonicalOperationName |}];
            id_failures := id_failures s |}
        end
    end.

(** A failure when the condition holds. *)
Definition failure_if (condition : bool) (failure : string) : list string := if condition then [failure] else [].
Definition count_text {A} (xs : list A) : string := Z_toString (Z.of_nat (length xs)).

Definition derivePriceOperationIdentities (sourceOperationNames : list string) : list PriceOperationIdentity * list string :=
  let s := fold_left identify sourceOperationNames {| id_seenSources := []; id_seenCanonicals := []; id_identities := []; id_failures := [] |} in
  let known := count_text HCU_OPERATION_CANONICAL_NAMES in
  let failures := id_failures s ++
    failure_if (negb (bool_decide (length sourceOperationNames = length HCU_OPERATION_CANONICAL_NAMES)))
      ("OPERATION_CARDINALITY:" +:+ count_text sourceOperationNames +:+ "!=" +:+ known) ++
    failure_if (negb (bool_decide (length (id_identities s) = length HCU_OPERATION_CANONICAL_NAMES)))
      ("CANONICAL_OPERATION_CARDINALITY:" +:+ count_text (id_identities s) +:+ "!=" +:+ known) ++
    failure_if (negb (bool_decide (js_sort compare_code_units (map pi_canonicalOperationName (id_identities s)) = HCU_OPERATION_CANONICAL_NAMES)))
      "CANONICAL_OPERATION_CLOSURE_MISMATCH" in
  (id_identities s, js_sort compare_code_units (js_set failures)).

(** ** The patterns of a line *)
Fixpoint span_word (s : string) : string * string :=
  match s with
  | String c rest => if is_word c then let '(word, rest) := span_word rest in (String c word, rest) else ("", s)
  | EmptyString => ("", "")
  end.
(** A prefix [[A-Za-z][A-Za-z0-9_]*] and the rest: what may follow a name is no word character. *)
Definition leading_name (s : string) : option (string * string) :=
  match s with String c _ => if is_letter c then Some (span_word s) else None | EmptyString => None end.

Fixpoint without_last (c : ascii) (s : string) : option string :=
  match s with
  | String d EmptyString => if Ascii.eqb d c then Some "" else None
  | String d rest => String d <$> without_last c rest
  | EmptyString => None
  end.
(** What precedes [\s*,?\s*$], of a text without blanks at its end. *)
Definition drop_comma (value : string) : string := match without_last "," value with Some before => trimEnd before | None => value end.

(** [<name> : <value>], blanks around. *)
Definition field (line : string) : option (string * string) :=
  match leading_name (trimStart line) with
  | Some (name, rest) => match trimStart rest with String ":" value => Some (name, trim value) | _ => None end
  | None => None
  end.
(** [[0-9][0-9_]*] *)
Definition is_number_text (s : string) : bool :=
  match s with String c rest => is_digit c && string_forall (fun d => is_digit d || Ascii.eqb d "_") rest | EmptyString => false end.

(** [PRICE_OPERATION_BLOCK] and [PRICE_TYPED_BLOCK] are the same pattern. *)
Definition PRICE_OPERATION_BLOCK (line : string) : option string :=
  match field line with Some (name, value) => if bool_decide (value = "{") then Some name else None | None => None end.
Definition PRICE_GROUPS : list string := ["scalar"; "nonScalar"; "types"; "nBucketed"].
Definition PRICE_GROUP_BLOCK (line : string) : option string :=
  match PRICE_OPERATION_BLOCK line with Some name => if bool_decide (name ∈ PRICE_GROUPS) then Some name else None | None => None end.
Definition PRICE_ENTRY (line : string) : option (string * string) :=
  match field line with
  | Some (name, value) => if is_number_text (drop_comma value) then Some (name, drop_comma value) else None
  | None => None
  end.
Definition PRICE_BOOLEAN_FIELD (line : string) : option bool :=
  match field line with
  | Some ("supportScalar", value) => let text := drop_comma value in
      if bool_decide (text = "true") then Some true else if bool_decide (text = "false") then Some false else None
  | _ => None
  end.
Definition PRICE_NUMBER_INPUTS_FIELD (line : string) : option string :=
  match field line with
  | Some ("numberInputs", value) => let text := drop_comma value in
      if is_number_text (match text with String "-" rest => rest | _ => text end) then Some text else None
  | _ => None
  end.
Definition PRICE_CLOSE (line : string) : bool := bool_decide (drop_comma (trim line) = "}").
(** The pattern's dot does not match a carriage return. *)
Definition carriage_return : ascii := ascii_of_nat 13.
Definition PRICE_INLINE_TYPED_BLOCK (line : string) : option (string * string) :=
  match field line with
  | Some (name, value) =>
      match without_last "}" (drop_comma value) with
      | Some (String "{" content) => let content := trim content in if lacks carriage_return content then Some (name, content) else None
      | _ => None
      end
  | None => None
  end.
Definition BUCKET_FIELD (text : string) : option (string * string) :=
  match leading_name text with
  | Some (name, rest) =>
      match trimStart rest with
      | String ":" value => let digits := trimStart value in if is_number_text digits then Some (name, digits) else None
      | _ => None
      end
  | None => None
  end.

(** A word and at least one blank: what follows the blanks. *)
Definition after_word (word s : string) : option string :=
  if startsWith word s then
    match drop_chars (String.length word) s with String c rest => if is_space c then Some (trimStart rest) else None | EmptyString => None end
  else None.
(** [:[^=]+] is optional: what follows the sign of equality. *)
Fixpoint after_type (s : string) : option string :=
  match s with String "=" rest => Some rest | String _ rest => after_type rest | EmptyString => None end.
Definition PRICE_ROOT_BLOCK (line : string) : bool :=
  let text := trim line in
  match after_word "const" (default text (after_word "export" text)) with
  | None => false
  | Some text =>
      match leading_name text with
      | None => false
      | Some (_, rest) =>
          let value := match trimStart rest with
            | String "=" value => Some value
            | String ":" (String c type) => if Ascii.eqb c "=" then None else after_type type
            | _ => None
            end in
          bool_decide (trimStart <$> value = Some "{")
      end
  end.

Definition PRICE_TYPE_NAMES : list string :=
  ["Bool"; "Uint2"; "Uint4"; "Uint6"; "Uint8"; "Uint10"; "Uint12"; "Uint14"; "Uint16"; "Uint24"; "Uint32"; "Uint40";
   "Uint48"; "Uint56"; "Uint64"; "Uint72"; "Uint80"; "Uint88"; "Uint96"; "Uint104"; "Uint112"; "Uint120"; "Uint128";
   "Uint136"; "Uint144"; "Uint152"; "Uint160"; "Uint168"; "Uint176"; "Uint184"; "Uint192"; "Uint200"; "Uint208";
   "Uint216"; "Uint224"; "Uint232"; "Uint240"; "Uint248"; "Uint256"; "Uint512"; "Uint1024"; "Uint2048"; "Int2"; "Int4";
   "Int6"; "Int8"; "Int10"; "Int12"; "Int14"; "Int16"; "Int24"; "Int32"; "Int40"; "Int48"; "Int56"; "Int64"; "Int72";
   "Int80"; "Int88"; "Int96"; "Int104"; "Int112"; "Int120"; "Int128"; "Int136"; "Int144"; "Int152"; "Int160"; "Int168";
   "Int176"; "Int184"; "Int192"; "Int200"; "Int208"; "Int216"; "Int224"; "Int232"; "Int240"; "Int248"; "Int256"; "Int512";
   "Int1024"; "Int2048"; "AsciiString"].
Definition PRICE_BUCKET_NAMES : list string := ["le10"; "le30"; "le60"; "le100"; "le128"].

Fixpoint without_underscores (s : string) : string :=
  match s with String c rest => if Ascii.eqb c "_" then without_underscores rest else String c (without_underscores rest) | EmptyString => "" end.
(** [Number.parseInt(text.replace(/_/gu, ""), 10)] on a text the patterns let through, when
    it is a safe integer. *)
Definition safe_integer (text : string) : option Z :=
  match BigInt_of_string (without_underscores text) with Ok z => if Z.abs z <=? MAX_SAFE_INTEGER then Some z else None | Throw _ => None end.

(** ** What is extracted *)
Record ExtractedPriceVariant := {
  pv_sourceOperationName : string; pv_canonicalOperationName : string; pv_operandMode : string; pv_costKeyType : string; pv_cost : Z
}.
Record ExtractedPriceBucketVariant := { pb_variant : ExtractedPriceVariant; pb_bucketName : string }.

(** Objects whose values are lists of texts. *)
Definition Lists : Type := list (string * list string).
Definition listed (key : string) (lists : Lists) : list string := default [] (map_get key lists).
Definition push (key value : string) (lists : Lists) : Lists := map_set key (listed key lists ++ [value]) lists.

(** [numberInputs] is [None] for an integer that no number represents exactly, for which a
    failure is recorded. *)
Record ExtractedPriceOperator := {
  xo_supportScalar : bool; xo_numberInputs : option Z; xo_groups : list string; xo_typedKeys : Lists; xo_bucketNames : Lists
}.

Record ExtractedPriceSchedule := {
  xs_extractorId : string; xs_extractorVersion : Z; xs_sourceContentSha256 : string;
  xs_operations : list string; xs_canonicalOperations : list string;
  xs_variants : list ExtractedPriceVariant; xs_bucketedVariants : list ExtractedPriceBucketVariant;
  xs_operatorMetadata : list (string * ExtractedPriceOperator); xs_failures : list string
}.

Record AuthenticatedMaterial := { am_subject : string; am_text : string; am_contentSha256 : string }.

(** ** The automaton

    The operation being read: the variables that [resetOperation] resets. *)
Record Operator := {
  op_operation : string; op_canonicalOperationName : option string; op_group : option string; op_nestedType : option string;
  op_seenFields : list string; op_supportScalar : option bool; op_numberInputs : option (option Z);
  op_typedKeys : Lists; op_bucketNames : Lists
}.
Definition opened (operation : string) (canonicalOperationName : option string) : Operator :=
  {| op_operation := operation; op_canonicalOperationName := canonicalOperationName; op_group := None; op_nestedType := None; op_seenFields := [];
     op_supportScalar := None; op_numberInputs := None; op_typedKeys := []; op_bucketNames := [] |}.
Definition in_group (o : Operator) (group : option string) : Operator :=
  {| op_operation := op_operation o; op_canonicalOperationName := op_canonicalOperationName o; op_group := group; op_nestedType := op_nestedType o;
     op_seenFields := op_seenFields o; op_supportScalar := op_supportScalar o; op_numberInputs := op_numberInputs o;
     op_typedKeys := op_typedKeys o; op_bucketNames := op_bucketNames o |}.
Definition in_type (o : Operator) (nestedType : option string) : Operator :=
  {| op_operation := op_operation o; op_canonicalOperationName := op_canonicalOperationName o; op_group := op_group o; op_nestedType := nestedType;
     op_seenFields := op_seenFields o; op_supportScalar := op_supportScalar o; op_numberInputs := op_numberInputs o;
     op_typedKeys := op_typedKeys o; op_bucketNames := op_bucketNames o |}.
Definition saw (o : Operator) (field : string) : Operator :=
  {| op_operation := op_operation o; op_canonicalOperationName := op_canonicalOperationName o; op_group := op_group o; op_nestedType := op_nestedType o;
     op_seenFields := op_seenFields o ++ [field]; op_supportScalar := op_supportScalar o; op_numberInputs := op_numberInputs o;
     op_typedKeys := op_typedKeys o; op_bucketNames := op_bucketNames o |}.
Definition with_supportScalar (o : Operator) (value : bool) : Operator :=
  {| op_operation := op_operation o; op_canonicalOperationName := op_canonicalOperationName o; op_group := op_group o; op_nestedType := op_nestedType o;
     op_seenFields := op_seenFields o; op_supportScalar := Some value; op_numberInputs := op_numberInputs o;
     op_typedKeys := op_typedKeys o; op_bucketNames := op_bucketNames o |}.
Definition with_numberInputs (o : Operator) (value : option Z) : Operator :=
  {| op_operation := op_operation o; op_canonicalOperationName := op_canonicalOperationName o; op_group := op_group o; op_nestedType := op_nestedType o;
     op_seenFields := op_seenFields o; op_supportScalar := op_supportScalar o; op_numberInputs := Some value;
     op_typedKeys := op_typedKeys o; op_bucketNames := op_bucketNames o |}.
Definition with_lists (o : Operator) (typedKeys bucketNames : Lists) : Operator :=
  {| op_operation := op_operation o; op_canonicalOperationName := op_canonicalOperationName o; op_group := op_group o; op_nestedType := op_nestedType o;
     op_seenFields := op_seenFields o; op_supportScalar := op_supportScalar o; op_numberInputs := op_numberInputs o;
     op_typedKeys := typedKeys; op_bucketNames := bucketNames |}.

(** What was found so far. *)
Record Found := {
  fd_failures : list string; fd_variants : list ExtractedPriceVariant; fd_bucketedVariants : list ExtractedPriceBucketVariant;
  fd_operations : list string; fd_operatorMetadata : list (string * ExtractedPriceOperator)
}.
Definition nothing_found : Found :=
  {| fd_failures := []; fd_variants := []; fd_bucketedVariants := []; fd_operations := []; fd_operatorMetadata := [] |}.
Definition failed_with (f : Found) (failures : list string) : Found :=
  {| fd_failures := fd_failures f ++ failures; fd_variants := fd_variants f; fd_bucketedVariants := fd_bucketedVariants f;
     fd_operations := fd_operations f; fd_operatorMetadata := fd_operatorMetadata f |}.
Definition with_variant (f : Found) (variant : ExtractedPriceVariant) : Found :=
  {| fd_failures := fd_failures f; fd_variants := fd_variants f ++ [variant]; fd_bucketedVariants := fd_bucketedVariants f;
     fd_operations := fd_operations f; fd_operatorMetadata := fd_operatorMetadata f |}.
Definition with_bucketed (f : Found) (variant : ExtractedPriceBucketVariant) : Found :=
  {| fd_failures := fd_failures f; fd_variants := fd_variants f; fd_bucketedVariants := fd_bucketedVariants f ++ [variant];
     fd_operations := fd_operations f; fd_operatorMetadata := fd_operatorMetadata f |}.
Definition with_operation (f : Found) (operation : string) : Found :=
  {| fd_failures := fd_failures f; fd_variants := fd_variants f; fd_bucketedVariants := fd_bucketedVariants f;
     fd_operations := fd_operations f ++ [operation]; fd_operatorMetadata := fd_operatorMetadata f |}.
Definition with_metadata (f : Found) (operation : string) (metadata : ExtractedPriceOperator) : Found :=
  {| fd_failures := fd_failures f; fd_variants := fd_variants f; fd_bucketedVariants := fd_bucketedVariants f;
     fd_operations := fd_operations f; fd_operatorMetadata := map_set operation metadata (fd_operatorMetadata f) |}.

(** [<kind>:<parts joined by dots>:line<index + 1>] *)
Definition failure_at (index : nat) (kind : string) (parts : list string) : string :=
  kind +:+ ":" +:+ join_char "." parts +:+ ":line" +:+ Z_toString (Z.of_nat index + 1).

Definition sorted_set (values : list string) : list string := js_sort compare_code_units (js_set values).
Definition sorted_lists (lists : Lists) : Lists := map (fun '(key, values) => (key, sorted_set values)) lists.

Definition finishOperation (index : nat) (o : Operator) (f : Found) : Found :=
  let missing := failed_with f (failure_if (bool_decide (op_supportScalar o = None)) (failure_at index "MISSING_OPERATOR_FIELD" [op_operation o; "supportScalar"])
    ++ failure_if (bool_decide (op_numberInputs o = None)) (failure_at index "MISSING_OPERATOR_FIELD" [op_operation o; "numberInputs"])) in
  match op_supportScalar o, op_numberInputs o with
  | Some supportScalar, Some numberInputs =>
      with_metadata missing (op_operation o) {| xo_supportScalar := supportScalar; xo_numberInputs := numberInputs;
        xo_groups := js_sort compare_code_units (op_typedKeys o).*1;
        xo_typedKeys := sorted_lists (op_typedKeys o); xo_bucketNames := sorted_lists (op_bucketNames o) |}
  | _, _ => missing
  end.

(** A line of an operation leaves it in a state, or ends it. *)
Definition Reading : Type := option Operator * Found.
Definition fails (index : nat) (kind : string) (parts : list string) (o : Operator) (f : Found) : Reading :=
  (Some o, failed_with f [failure_at index kind parts]).
Definition variant_of (o : Operator) (operandMode costKeyType : string) (cost : Z) : ExtractedPriceVariant :=
  {| pv_sourceOperationName := op_operation o; pv_canonicalOperationName := default "UNRESOLVED" (op_canonicalOperationName o);
     pv_operandMode := operandMode; pv_costKeyType := costKeyType; pv_cost := cost |}.

(** A line outside every operation. *)
Definition outside_line (index : nat) (line : string) (f : Found) : Reading :=
  if PRICE_ROOT_BLOCK line then (None, f)
  else
    match PRICE_OPERATION_BLOCK line with
    | None => (None, f)
    | Some operation =>
        let '(canonicalOperationName, failures) := match canonicalizePriceOperationName operation with
          | Ok name => (Some name, [])
          | Throw error => (None, [err_message error +:+ ":line" +:+ Z_toString (Z.of_nat index + 1)])
          end in
        (Some (opened operation canonicalOperationName),
         with_operation (failed_with f (failures ++
           failure_if (bool_decide (operation ∈ fd_operations f)) (failure_at index "DUPLICATE_OPERATION" [operation]))) operation)
    end.

(** An entry of the bucket map of [type]. *)
Definition bucket_entry (index : nat) (type bucket digits : string) (o : Operator) (f : Found) : Operator * Found :=
  if negb (bool_decide (bucket ∈ PRICE_BUCKET_NAMES)) then
    (o, failed_with f [failure_at index "UNKNOWN_BUCKET_NAME" [op_operation o; type; bucket]])
  else
    match safe_integer digits with
    | None => (o, failed_with f [failure_at index "UNSAFE_COST" [op_operation o; "nBucketed"; type; bucket]])
    | Some cost =>
        (with_lists o (op_typedKeys o) (push type bucket (op_bucketNames o)),
         with_bucketed (failed_with f (failure_if (bool_decide (bucket ∈ listed type (op_bucketNames o)))
             (failure_at index "DUPLICATE_BUCKET" [op_operation o; type; bucket])))
           {| pb_variant := variant_of o "nBucketed" type cost; pb_bucketName := bucket |})
    end.

(** A line of the bucket map of [nestedType]. *)
Definition bucket_line (index : nat) (line nestedType : string) (o : Operator) (f : Found) : Reading :=
  match PRICE_ENTRY line with
  | Some (bucket, digits) => let '(o, f) := bucket_entry index nestedType bucket digits o f in (Some o, f)
  | None => if PRICE_CLOSE line then (Some (in_type o None), f) else fails index "UNRECOGNIZED_BUCKET_MEMBER" [op_operation o; nestedType] o f
  end.

Definition add_type (index : nat) (group type : string) (o : Operator) (f : Found) : Operator * Found :=
  (with_lists o (push group type (op_typedKeys o)) (op_bucketNames o),
   failed_with f (failure_if (bool_decide (type ∈ listed group (op_typedKeys o)))
     (failure_at index "DUPLICATE_PRICE_TYPE" [op_operation o; group; type]))).

(** The entries of a bucket map written on one line. *)
Fixpoint inline_entries (index : nat) (type : string) (fields : list string) (o : Operator) (f : Found) : Operator * Found :=
  match fields with
  | [] => (o, f)
  | field :: fields =>
      let '(o, f) := match BUCKET_FIELD field with
        | Some (bucket, digits) => bucket_entry index type bucket digits o f
        | None => (o, failed_with f [failure_at index "UNRECOGNIZED_BUCKET_MEMBER" [op_operation o; type]])
        end in
      inline_entries index type fields o f
  end.

(** A line of the group [nBucketed], between its bucket maps. *)
Definition nBucketed_line (index : nat) (line : string) (o : Operator) (f : Found) : Reading :=
  let unknown (type : string) := fails index "UNKNOWN_PRICE_TYPE" [op_operation o; "nBucketed"; type] o f in
  match PRICE_INLINE_TYPED_BLOCK line with
  | Some (type, content) =>
      if negb (bool_decide (type ∈ PRICE_TYPE_NAMES)) then unknown type
      else
        let '(o, f) := add_type index "nBucketed" type o f in
        match List.filter string_nonempty (map trim (split_char "," content)) with
        | [] => fails index "EMPTY_BUCKET_MAP" [op_operation o; type] o f
        | fields => let '(o, f) := inline_entries index type fields o f in (Some o, f)
        end
  | None =>
      match PRICE_OPERATION_BLOCK line with
      | Some type =>
          if negb (bool_decide (type ∈ PRICE_TYPE_NAMES)) then unknown type
          else let '(o, f) := add_type index "nBucketed" type o f in (Some (in_type o (Some type)), f)
      | None =>
          if PRICE_CLOSE line then (Some (in_group o None), f) else fails index "UNRECOGNIZED_NBUCKETED_LINE" [op_operation o] o f
      end
  end.

(** A line of one of the other groups. *)
Definition group_line (index : nat) (line group : string) (o : Operator) (f : Found) : Reading :=
  let f := failed_with f (failure_if (bool_decide (is_Some (PRICE_GROUP_BLOCK line))) (failure_at index "UNEXPECTED_NESTED_GROUP" [op_operation o; group])) in
  match PRICE_ENTRY line with
  | Some (type, digits) =>
      if negb (bool_decide (type ∈ PRICE_TYPE_NAMES)) then fails index "UNKNOWN_PRICE_TYPE" [op_operation o; group; type] o f
      else
        match safe_integer digits with
        | None => fails index "UNSAFE_COST" [op_operation o; group; type] o f
        | Some cost => let '(o', f) := add_type index group type o f in (Some o', with_variant f (variant_of o group type cost))
        end
  | None => if PRICE_CLOSE line then (Some (in_group o None), f) else fails index "UNRECOGNIZED_COST_LINE" [op_operation o; group] o f
  end.

(** A line of an operation, between its groups. *)
Definition duplicate_field (index : nat) (field : string) (o : Operator) : list string :=
  failure_if (bool_decide (field ∈ op_seenFields o)) (failure_at index "DUPLICATE_OPERATOR_FIELD" [op_operation o; field]).
Definition operator_line (index : nat) (line : string) (o : Operator) (f : Found) : Reading :=
  match PRICE_BOOLEAN_FIELD line with
  | Some value => (Some (with_supportScalar (saw o "supportScalar") value), failed_with f (duplicate_field index "supportScalar" o))
  | None =>
      match PRICE_NUMBER_INPUTS_FIELD line with
      | Some digits =>
          let value := safe_integer digits in
          (Some (with_numberInputs (saw o "numberInputs") value),
           failed_with f (duplicate_field index "numberInputs" o ++
             failure_if (bool_decide (value = None)) (failure_at index "UNSAFE_NUMBER_INPUTS" [op_operation o])))
      | None =>
          match PRICE_GROUP_BLOCK line with
          | Some group => (Some (in_group (saw o group) (Some group)), failed_with f (duplicate_field index group o))
          | None =>
              if PRICE_CLOSE line then (None, finishOperation index o f)
              else fails index "UNRECOGNIZED_OPERATION_MEMBER" [op_operation o] o f
          end
      end
  end.

Definition skipped (line : string) : bool :=
  let trimmed := trim line in negb (string_nonempty trimmed) || startsWith "//" trimmed || startsWith "*" trimmed.

Definition read_line (index : nat) (line : string) (state : Reading) : Reading :=
  if skipped line then state
  else
    match state with
    | (None, f) => outside_line index line f
    | (Some o, f) =>
        match op_group o with
        | None => operator_line index line o f
        | Some group =>
            if bool_decide (group = "nBucketed") then
              match op_nestedType o with
              | Some nestedType => bucket_line index line nestedType o f
              | None => nBucketed_line index line o f
              end
            else group_line index line group o f
        end
    end.
Fixpoint read_lines (index : nat) (lines : list string) (state : Reading) : Reading :=
  match lines with [] => state | line :: lines => read_lines (S index) lines (read_line index line state) end.

(** [text.split(/\r?\n/u)] *)
Definition without_return (line : string) : string := default line (without_last carriage_return line).
Fixpoint without_returns (lines : list string) : list string :=
  match lines with [] => [] | [last_line] => [last_line] | line :: lines => without_return line :: without_returns lines end.
Definition split_lines (text : string) : list string := without_returns (split_char newline text).

Definition variant_text (variant : ExtractedPriceVariant) : string :=
  join_char "." [pv_canonicalOperationName variant; pv_operandMode variant; pv_costKeyType variant].
Definition bucketed_text (variant : ExtractedPriceBucketVariant) : string :=
  join_char "." [pv_canonicalOperationName (pb_variant variant); pv_costKeyType (pb_variant variant); pb_bucketName variant].

Definition PRICE_SCHEDULE_EXTRACTOR_id : string := "sg4-price-schedule-extractor".
Definition PRICE_SCHEDULE_EXTRACTOR_version : Z := 1.

(** [localeCompare] is the collation of the host. *)
Definition extractPriceSchedule (localeCompare : string -> string -> Z) (material : AuthenticatedMaterial) : ExtractedPriceSchedule :=
  let lines := split_lines (am_text material) in
  let '(operation, found) := read_lines 0 lines (None, nothing_found) in
  let found := match operation with
    | None => found
    | Some o => finishOperation (length lines - 1) o (failed_with found ["UNTERMINATED_SCHEDULE_BLOCK"])
    end in
  let identities := derivePriceOperationIdentities (fd_operations found) in
  let failures := fd_failures found ++ failure_if (bool_decide (fd_variants found = [])) "EMPTY_SCHEDULE" ++ identities.2 in
  {| xs_extractorId := PRICE_SCHEDULE_EXTRACTOR_id; xs_extractorVersion := PRICE_SCHEDULE_EXTRACTOR_version;
     xs_sourceContentSha256 := am_contentSha256 material;
     xs_operations := js_sort compare_code_units (fd_operations found);
     xs_canonicalOperations := js_sort compare_code_units (map pi_canonicalOperationName identities.1);
     xs_variants := js_sort (fun left right => localeCompare (variant_text left) (variant_text right)) (fd_variants found);
     xs_bucketedVariants := js_sort (fun left right => localeCompare (bucketed_text left) (bucketed_text right)) (fd_bucketedVariants found);
     xs_operatorMetadata := fd_operatorMetadata found; xs_failures := js_sort compare_code_units (js_set failures) |}.

(** ** A printed table

    The layout of the official file: one line for a price, one for the buckets of a type. *)
Record PricedOperation := {
  po_operation : string; po_supportScalar : bool; po_numberInputs : Z;
  po_groups : list (string * list (string * Z)); po_buckets : list (string * list (string * Z))
}.

Definition price_text (price : string * Z) : string := price.1 +:+ ": " +:+ Z_toString price.2.
Definition price_line (price : string * Z) : string := "      " +:+ price_text price +:+ ",".
Definition group_lines (group : string * list (string * Z)) : list string :=
  ("    " +:+ group.1 +:+ ": {") :: map price_line group.2 ++ ["    },"].
Definition buckets_text (prices : list (string * Z)) : string := join_char "," (map (fun price => " " +:+ price_text price) prices).
Definition inline_line (entry : string * list (string * Z)) : string := "      " +:+ entry.1 +:+ ": {" +:+ buckets_text entry.2 +:+ " },".
Definition bucket_lines (entries : list (string * list (string * Z))) : list string :=
  match entries with [] => [] | _ => "    nBucketed: {" :: map inline_line entries ++ ["    },"] end.
Definition operation_lines (o : PricedOperation) : list string :=
  ("  " +:+ po_operation o +:+ ": {") :: ("    supportScalar: " +:+ (if po_supportScalar o then "true" else "false") +:+ ",") ::
  ("    numberInputs: " +:+ Z_toString (po_numberInputs o) +:+ ",") ::
  concat (map group_lines (po_groups o)) ++ bucket_lines (po_buckets o) ++ ["  },"].
Definition table_lines (table : list PricedOperation) : list string :=
  "export const ALL_OPERATORS_PRICES: PriceData = {" :: concat (map operation_lines table) ++ ["};"; ""].
Definition print_table (table : list PricedOperation) : string := join_char newline (table_lines table).

(** What a table is made of. *)
Record price_ok (names : list string) (prices : list (string * Z)) : Prop := {
  pp_some : prices <> []; pp_names : Forall (fun price => price.1 ∈ names /\ 0 <= price.2 <= MAX_SAFE_INTEGER) prices; pp_NoDup : NoDup prices.*1
}.
Definition PLAIN_GROUPS : list string := ["scalar"; "nonScalar"; "types"].
Record operation_ok (o : PricedOperation) : Prop := {
  op_inputs : Z.abs (po_numberInputs o) <= MAX_SAFE_INTEGER;
  op_groups : Forall (fun group => group.1 ∈ PLAIN_GROUPS /\ price_ok PRICE_TYPE_NAMES group.2) (po_groups o);
  op_groups_NoDup : NoDup (po_groups o).*1;
  op_buckets : Forall (fun entry => entry.1 ∈ PRICE_TYPE_NAMES /\ price_ok PRICE_BUCKET_NAMES entry.2) (po_buckets o);
  op_buckets_NoDup : NoDup (po_buckets o).*1
}.

(** What the table says. *)
Definition said_nBucketed (entries : list (string * list (string * Z))) : Lists := match entries with [] => [] | _ => [("nBucketed", entries.*1)] end.
Definition said_typed (o : PricedOperation) : Lists :=
  map (fun group => (group.1, group.2.*1)) (po_groups o) ++ said_nBucketed (po_buckets o).
Definition said_buckets (o : PricedOperation) : Lists := map (fun entry => (entry.1, entry.2.*1)) (po_buckets o).
Definition said_metadata (o : PricedOperation) : ExtractedPriceOperator := {|
  xo_supportScalar := po_supportScalar o; xo_numberInputs := Some (po_numberInputs o); xo_groups := js_sort compare_code_units (said_typed o).*1;
  xo_typedKeys := sorted_lists (said_typed o); xo_bucketNames := sorted_lists (said_buckets o) |}.
Definition said_variant (operation group : string) (price : string * Z) : ExtractedPriceVariant := {|
  pv_sourceOperationName := operation; pv_canonicalOperationName := capitalised operation; pv_operandMode := group;
  pv_costKeyType := price.1; pv_cost := price.2 |}.
Definition said_variants (o : PricedOperation) : list ExtractedPriceVariant :=
  concat (map (fun group => map (said_variant (po_operation o) group.1) group.2) (po_groups o)).
Definition said_bucket (operation type : string) (price : string * Z) : ExtractedPriceBucketVariant := {|
  pb_variant := said_variant operation "nBucketed" (type, price.2); pb_bucketName := price.1 |}.
Definition said_bucketed (o : PricedOperation) : list ExtractedPriceBucketVariant :=
  concat (map (fun entry => map (said_bucket (po_operation o) entry.1) entry.2) (po_buckets o)).


(** ** The official table *)
Definition price_row (operation : string) (supportScalar : bool) (numberInputs : Z) (groups buckets : list (string * list (string * Z))) : PricedOperation :=
  {| po_operation := operation; po_supportScalar := supportScalar; po_numberInputs := numberInputs; po_groups := groups; po_buckets := buckets |}.

(** The prices of test/fixtures/fhevm-v0.13.2-operatorsPrices.ts.txt. *)
Definition official_prices : list PricedOperation := [
  price_row "fheAdd" true 2
    [("scalar", [("Uint8", 84000); ("Uint16", 93000); ("Uint32", 95000); ("Uint64", 133000); ("Uint128", 172000)]);
     ("nonScalar", [("Uint8", 88000); ("Uint16", 93000); ("Uint32", 125000); ("Uint64", 162000); ("Uint128", 259000)])]
    [];
  price_row "fheSub" true 2
    [("scalar", [("Uint8", 84000); ("Uint16", 93000); ("Uint32", 95000); ("Uint64", 133000); ("Uint128", 172000)]);
     ("nonScalar", [("Uint8", 91000); ("Uint16", 93000); ("Uint32", 125000); ("Uint64", 162000); ("Uint128", 260000)])]
    [];
  price_row "fheMul" true 2
    [("scalar", [("Uint8", 122000); ("Uint16", 193000); ("Uint32", 265000); ("Uint64", 365000); ("Uint128", 696000)]);
     ("nonScalar", [("Uint8", 150000); ("Uint16", 222000); ("Uint32", 328000); ("Uint64", 596000); ("Uint128", 1686000)])]
    [];
  price_row "fheDiv" true 2
    [("scalar", [("Uint8", 210000); ("Uint16", 302000); ("Uint32", 438000); ("Uint64", 715000); ("Uint128", 1225000)])]
    [];
  price_row "fheRem" true 2
    [("scalar", [("Uint8", 440000); ("Uint16", 580000); ("Uint32", 792000); ("Uint64", 1153000); ("Uint128", 1943000)])]
    [];
  price_row "fheBitAnd" true 2
    [("scalar", [("Bool", 22000); ("Uint8", 31000); ("Uint16", 31000); ("Uint32", 32000); ("Uint64", 34000); ("Uint128", 37000); ("Uint256", 38000)]);
     ("nonScalar", [("Bool", 25000); ("Uint8", 31000); ("Uint16", 31000); ("Uint32", 32000); ("Uint64", 34000); ("Uint128", 37000); ("Uint256", 38000)])]
    [];
  price_row "fheBitOr" true 2
    [("scalar", [("Bool", 22000); ("Uint8", 30000); ("Uint16", 30000); ("Uint32", 32000); ("Uint64", 34000); ("Uint128", 37000); ("Uint256", 38000)]);
     ("nonScalar", [("Bool", 24000); ("Uint8", 30000); ("Uint16", 31000); ("Uint32", 32000); ("Uint64", 34000); ("Uint128", 37000); ("Uint256", 38000)])]
    [];
  price_row "fheBitXor" true 2
    [("scalar", [("Bool", 22000); ("Uint8", 31000); ("Uint16", 31000); ("Uint32", 32000); ("Uint64", 34000); ("Uint128", 37000); ("Uint256", 39000)]);
     ("nonScalar", [("Bool", 22000); ("Uint8", 31000); ("Uint16", 31000); ("Uint32", 32000); ("Uint64", 34000); ("Uint128", 37000); ("Uint256", 39000)])]
    [];
  price_row "fheShl" true 2
    [("scalar", [("Uint8", 32000); ("Uint16", 32000); ("Uint32", 32000); ("Uint64", 34000); ("Uint128", 37000); ("Uint256", 39000)]);
     ("nonScalar", [("Uint8", 92000); ("Uint16", 125000); ("Uint32", 162000); ("Uint64", 208000); ("Uint128", 272000); ("Uint256", 378000)])]
    [];
  price_row "fheShr" true 2
    [("scalar", [("Uint8", 32000); ("Uint16", 32000); ("Uint32", 32000); ("Uint64", 34000); ("Uint128", 37000); ("Uint256", 38000)]);
     ("nonScalar", [("Uint8", 91000); ("Uint16", 123000); ("Uint32", 163000); ("Uint64", 209000); ("Uint128", 272000); ("Uint256", 369000)])]
    [];
  price_row "fheRotl" true 2
    [("scalar", [("Uint8", 31000); ("Uint16", 31000); ("Uint32", 32000); ("Uint64", 34000); ("Uint128", 37000); ("Uint256", 38000)]);
     ("nonScalar", [("Uint8", 91000); ("Uint16", 125000); ("Uint32", 163000); ("Uint64", 209000); ("Uint128", 278000); ("Uint256", 378000)])]
    [];
  price_row "fheRotr" true 2
    [("scalar", [("Uint8", 31000); ("Uint16", 31000); ("Uint32", 32000); ("Uint64", 34000); ("Uint128", 37000); ("Uint256", 40000)]);
     ("nonScalar", [("Uint8", 93000); ("Uint16", 125000); ("Uint32", 160000); ("Uint64", 209000); ("Uint128", 283000); ("Uint256", 375000)])]
    [];
  price_row "fheEq" true 2
    [("scalar", [("Bool", 25000); ("Uint8", 55000); ("Uint16", 55000); ("Uint32", 82000); ("Uint64", 83000); ("Uint128", 117000); ("Uint160", 117000); ("Uint256", 118000)]);
     ("nonScalar", [("Bool", 26000); ("Uint8", 55000); ("Uint16", 83000); ("Uint32", 86000); ("Uint64", 120000); ("Uint128", 122000); ("Uint160", 137000); ("Uint256", 152000)])]
    [];
  price_row "fheNe" true 2
    [("scalar", [("Bool", 23000); ("Uint8", 55000); ("Uint16", 55000); ("Uint32", 83000); ("Uint64", 84000); ("Uint128", 117000); ("Uint160", 117000); ("Uint256", 117000)]);
     ("nonScalar", [("Bool", 23000); ("Uint8", 55000); ("Uint16", 83000); ("Uint32", 85000); ("Uint64", 118000); ("Uint128", 122000); ("Uint160", 136000); ("Uint256", 150000)])]
    [];
  price_row "fheGe" true 2
    [("scalar", [("Uint8", 52000); ("Uint16", 55000); ("Uint32", 84000); ("Uint64", 116000); ("Uint128", 149000)]);
     ("nonScalar", [("Uint8", 63000); ("Uint16", 84000); ("Uint32", 118000); ("Uint64", 152000); ("Uint128", 210000)])]
    [];
  price_row "fheGt" true 2
    [("scalar", [("Uint8", 52000); ("Uint16", 55000); ("Uint32", 84000); ("Uint64", 117000); ("Uint128", 150000)]);
     ("nonScalar", [("Uint8", 59000); ("Uint16", 84000); ("Uint32", 118000); ("Uint64", 152000); ("Uint128", 218000)])]
    [];
  price_row "fheLe" true 2
    [("scalar", [("Uint8", 58000); ("Uint16", 58000); ("Uint32", 84000); ("Uint64", 119000); ("Uint128", 150000)]);
     ("nonScalar", [("Uint8", 58000); ("Uint16", 83000); ("Uint32", 117000); ("Uint64", 149000); ("Uint128", 218000)])]
    [];
  price_row "fheLt" true 2
    [("scalar", [("Uint8", 52000); ("Uint16", 58000); ("Uint32", 83000); ("Uint64", 118000); ("Uint128", 149000)]);
     ("nonScalar", [("Uint8", 59000); ("Uint16", 84000); ("Uint32", 117000); ("Uint64", 146000); ("Uint128", 215000)])]
    [];
  price_row "fheMin" true 2
    [("scalar", [("Uint8", 84000); ("Uint16", 88000); ("Uint32", 117000); ("Uint64", 150000); ("Uint128", 186000)]);
     ("nonScalar", [("Uint8", 119000); ("Uint16", 146000); ("Uint32", 182000); ("Uint64", 219000); ("Uint128", 289000)])]
    [];
  price_row "fheMax" true 2
    [("scalar", [("Uint8", 89000); ("Uint16", 89000); ("Uint32", 117000); ("Uint64", 149000); ("Uint128", 180000)]);
     ("nonScalar", [("Uint8", 121000); ("Uint16", 145000); ("Uint32", 180000); ("Uint64", 218000); ("Uint128", 290000)])]
    [];
  price_row "fheNeg" false 1
    [("types", [("Uint8", 79000); ("Uint16", 93000); ("Uint32", 95000); ("Uint64", 131000); ("Uint128", 168000); ("Uint256", 269000)])]
    [];
  price_row "fheNot" false 1
    [("types", [("Bool", 2); ("Uint8", 9); ("Uint16", 16); ("Uint32", 32); ("Uint64", 63); ("Uint128", 130); ("Uint256", 130)])]
    [];
  price_row "cast" false 1
    [("types", [("Bool", 32); ("Uint8", 32); ("Uint16", 32); ("Uint32", 32); ("Uint64", 32); ("Uint128", 32); ("Uint256", 32)])]
    [];
  price_row "trivialEncrypt" false 0
    [("types", [("Bool", 32); ("Uint8", 32); ("Uint16", 32); ("Uint32", 32); ("Uint64", 32); ("Uint128", 32); ("Uint160", 32); ("Uint256", 32)])]
    [];
  price_row "ifThenElse" false 3
    [("types", [("Bool", 55000); ("Uint8", 55000); ("Uint16", 55000); ("Uint32", 55000); ("Uint64", 55000); ("Uint128", 57000); ("Uint160", 83000); ("Uint256", 108000)])]
    [];
  price_row "fheRand" false 0
    [("types", [("Bool", 19000); ("Uint8", 23000); ("Uint16", 23000); ("Uint32", 24000); ("Uint64", 24000); ("Uint128", 25000); ("Uint256", 30000)])]
    [];
  price_row "fheRandBounded" false 0
    [("types", [("Uint8", 23000); ("Uint16", 23000); ("Uint32", 24000); ("Uint64", 24000); ("Uint128", 25000); ("Uint256", 30000)])]
    [];
  price_row "fheSum" false (-1)
    []
    [("Uint8", [("le10", 90900); ("le30", 127000); ("le60", 148000); ("le100", 159000)]);
     ("Uint16", [("le10", 95000); ("le30", 136000); ("le60", 162000); ("le100", 184000)]);
     ("Uint32", [("le10", 116000); ("le30", 164000); ("le60", 205000); ("le100", 281000)]);
     ("Uint64", [("le10", 139000); ("le30", 216000); ("le60", 306000)]);
     ("Uint128", [("le10", 219000); ("le30", 355000); ("le60", 552000)])];
  price_row "fheIsIn" false (-2)
    []
    [("Uint8", [("le10", 71300); ("le30", 148000); ("le60", 247000); ("le100", 374000)]);
     ("Uint16", [("le10", 103000); ("le30", 218000); ("le60", 378000); ("le100", 605000)]);
     ("Uint32", [("le10", 137000); ("le30", 300000); ("le60", 531000); ("le100", 827000)]);
     ("Uint64", [("le10", 218000); ("le30", 492000); ("le60", 879000)]);
     ("Uint128", [("le10", 256000); ("le30", 535000); ("le60", 921000)]);
     ("Uint160", [("le10", 286000); ("le30", 584000); ("le60", 885000)]);
     ("Uint256", [("le10", 321000); ("le30", 586000); ("le60", 943000)])]].
(** The official table, as it is printed, is extracted without a failure. *)
Definition official_material : AuthenticatedMaterial :=
  {| am_subject := "operationSchedule"; am_text := print_table official_prices; am_contentSha256 := "" |}.


(** * Properties *)
Lemma failure_if_nil c m : failure_if c m = [] <-> c = false.
Proof. by destruct c. Qed.

(** ** Names *)
Lemma source_names_ok : forallb (fun name => is_ok (canonicalizePriceOperationName name)) PRICE_SOURCE_OPERATION_NAMES = true.
Proof. by vm_compute. Qed.

Lemma canonicalize_Ok name canonical :
  canonicalizePriceOperationName name = Ok canonical <-> name ∈ PRICE_SOURCE_OPERATION_NAMES /\ canonical = capitalised name.
Proof.
  split.
  - unfold canonicalizePriceOperationName. intros H. apply result_bind_Ok in H as ([] & H1 & H). apply fail_if_Ok in H1.
    apply result_bind_Ok in H as ([] & H2 & [= <-]). bool_to_prop. split; [|done]. by destruct (bool_decide_reflect (name ∈ PRICE_SOURCE_OPERATION_NAMES)).
  - intros [Hn ->]. pose proof source_names_ok as H. rewrite forallb_forall in H. specialize (H name (proj1 (list_elem_of_In _ _) Hn)). cbv beta in H.
    destruct (canonicalizePriceOperationName name) as [c|e] eqn:E; [|done]. f_equal.
    unfold canonicalizePriceOperationName in E. apply result_bind_Ok in E as ([] & _ & E). by apply result_bind_Ok in E as ([] & _ & [= <-]).
Qed.

Lemma capitalised_sources : map capitalised PRICE_SOURCE_OPERATION_NAMES = HCU_OPERATION_CANONICAL_NAMES.
Proof. by vm_compute. Qed.
Lemma source_names_NoDup : NoDup PRICE_SOURCE_OPERATION_NAMES.
Proof. refine (bool_decide_eq_true_1 (NoDup _) _). by vm_compute. Qed.
Lemma canonical_names_NoDup : NoDup HCU_OPERATION_CANONICAL_NAMES.
Proof. refine (bool_decide_eq_true_1 (NoDup _) _). by vm_compute. Qed.

Lemma capitalised_inj a b : a ∈ PRICE_SOURCE_OPERATION_NAMES -> b ∈ PRICE_SOURCE_OPERATION_NAMES -> capitalised a = capitalised b -> a = b.
Proof.
  apply NoDup_fmap_inj_on. change (capitalised <$> PRICE_SOURCE_OPERATION_NAMES) with (map capitalised PRICE_SOURCE_OPERATION_NAMES).
  rewrite capitalised_sources. exact canonical_names_NoDup.
Qed.

#[local] Opaque PRICE_SOURCE_OPERATION_NAMES HCU_OPERATION_CANONICAL_NAMES PRICE_TYPE_NAMES.

Definition identity_of (source : string) : PriceOperationIdentity :=
  {| pi_sourceOperationName := source; pi_canonicalOperationName := capitalised source |}.

(** Without a failure every name was known and new. *)
Lemma identify_extends s name : exists fs, id_failures (identify s name) = id_failures s ++ fs.
Proof.
  unfold identify. case_bool_decide; [by eexists|]. destruct (canonicalizePriceOperationName name) as [c|e]; cbn; [|by eexists].
  destruct (map_get c (id_seenCanonicals s)) as [p|]; [case_bool_decide|]; cbn; eexists; try done; by rewrite app_nil_r.
Qed.

Lemma fold_identify_extends names : forall s, exists fs, id_failures (fold_left identify names s) = id_failures s ++ fs.
Proof.
  induction names as [|name names IH]; intros s; cbn; [exists []; by rewrite app_nil_r|].
  destruct (identify_extends s name) as [fs E], (IH (identify s name)) as [fs' ->]. rewrite E. exists (fs ++ fs'). by rewrite app_assoc.
Qed.

Record identified (s : Identifying) (names : list string) : Prop := {
  idd_sources : forall name, name ∈ id_seenSources s <-> name ∈ names;
  idd_canonicals : forall c, is_Some (map_get c (id_seenCanonicals s)) -> exists name, name ∈ names /\ c = capitalised name;
  idd_known : Forall (fun name => name ∈ PRICE_SOURCE_OPERATION_NAMES) names;
  idd_NoDup : NoDup names;
  idd_identities : id_identities s = map identity_of names
}.

Lemma identify_identified s names name :
  identified s names -> id_failures (identify s name) = [] -> identified (identify s name) (names ++ [name]).
Proof.
  intros [Hs Hc Hk Hn Hi]. unfold identify. case_bool_decide as Hseen; [by intros [? [=]]%app_nil|].
  destruct (canonicalizePriceOperationName name) as [c|e] eqn:Ec; cbn; [|by intros [? [=]]%app_nil].
  apply canonicalize_Ok in Ec as [Hkn ->]. rewrite Hs in Hseen.
  assert (Hfree : map_get (capitalised name) (id_seenCanonicals s) = None).
  { destruct (map_get _ _) as [p|] eqn:E; [|done]. destruct (Hc (capitalised name)) as (other & Ho & Eo); [by rewrite E|].
    destruct Hseen. rewrite Forall_forall in Hk. by rewrite (capitalised_inj name other Hkn (Hk _ Ho) Eo). }
  rewrite Hfree. cbn. intros _. split; cbn.
  - intros x. rewrite elem_of_cons, elem_of_app, list_elem_of_singleton, Hs. tauto.
  - intros c. destruct (decide (c = capitalised name)) as [->|Hne].
    + intros _. exists name. split; [set_solver|done].
    + rewrite map_get_set_ne by done. intros H. destruct (Hc c H) as (x & ? & ?). exists x. split; [set_solver|done].
  - apply Forall_app. split; [done|]. by apply Forall_singleton.
  - apply NoDup_app. split; [done|]. split; [|apply NoDup_singleton]. intros x Hx ->%list_elem_of_singleton. done.
  - by rewrite map_app, Hi.
Qed.

Lemma fold_identified names : forall s before,
  identified s before -> id_failures (fold_left identify names s) = [] -> identified (fold_left identify names s) (before ++ names).
Proof.
  induction names as [|name names IH]; intros s before Hs Hf; cbn in *; [by rewrite app_nil_r|].
  destruct (fold_identify_extends names (identify s name)) as [fs E]. rewrite E in Hf. apply app_nil in Hf as [Hf ->].
  rewrite app_nil_r in E. rewrite (cons_middle name before names), app_assoc. apply IH; [by apply identify_identified|by rewrite E].
Qed.

Lemma sort_permutation l l' : l ≡ₚ l' -> js_sort compare_code_units l = js_sort compare_code_units l'.
Proof.
  intros Hp. eapply StronglySorted_unique_strong; [|apply (js_sort_sorted compare_code_units)|apply (js_sort_sorted compare_code_units)|].
  - intros s t _ _ H1 H2. by apply compare_code_units_antisym.
  - by rewrite !js_sort_Permutation.
Qed.

(** Known names, each once, all pass. *)
Lemma fold_no_failure names : forall s before,
  identified s before -> id_failures s = [] -> Forall (fun name => name ∈ PRICE_SOURCE_OPERATION_NAMES) names -> NoDup (before ++ names) ->
  id_failures (fold_left identify names s) = [].
Proof.
  induction names as [|name names IH]; intros s before Hs Hf Hk Hn; cbn; [done|]. apply Forall_cons in Hk as [Hkn Hk].
  assert (E : id_failures (identify s name) = []).
  { rewrite NoDup_app in Hn. destruct Hn as (_ & Hd & _). destruct Hs as [H1 H2 H3 _ _]. unfold identify.
    assert (Hnew : name ∉ before) by (intros Hin; apply (Hd name Hin); by left).
    rewrite bool_decide_eq_false_2 by (by rewrite H1). pose proof (proj2 (canonicalize_Ok name _) (conj Hkn eq_refl)) as Ec. rewrite Ec. cbn.
    destruct (map_get (capitalised name) (id_seenCanonicals s)) as [p|] eqn:E; [|done].
    destruct (H2 (capitalised name)) as (other & Ho & Eo); [by rewrite E|]. destruct Hnew. rewrite Forall_forall in H3.
    by rewrite (capitalised_inj name other Hkn (H3 _ Ho) Eo). }
  apply (IH _ (before ++ [name])); [by apply identify_identified|exact E|exact Hk|]. by rewrite <- app_assoc.
Qed.

Lemma nothing_identified : identified {| id_seenSources := []; id_seenCanonicals := []; id_identities := []; id_failures := [] |} [].
Proof. split; cbn; [done|by intros c [? [=]]|constructor|constructor|done]. Qed.

Lemma identities_spec names :
  id_failures (fold_left identify names {| id_seenSources := []; id_seenCanonicals := []; id_identities := []; id_failures := [] |}) = [] ->
  Forall (fun name => name ∈ PRICE_SOURCE_OPERATION_NAMES) names /\ NoDup names /\
  (derivePriceOperationIdentities names).1 = map identity_of names.
Proof. intros Hf. by destruct (fold_identified names _ [] nothing_identified Hf) as [_ _ Hk Hn Hi]. Qed.

Lemma canonical_of_identities names : map pi_canonicalOperationName (map identity_of names) = map capitalised names.
Proof. rewrite map_map. by apply map_ext. Qed.

Lemma sources_length : length PRICE_SOURCE_OPERATION_NAMES = length HCU_OPERATION_CANONICAL_NAMES.
Proof. by rewrite <- capitalised_sources, length_map. Qed.

(** No failure exactly when the names are the known ones in some order. *)
Theorem derivePriceOperationIdentities_exact names :
  (derivePriceOperationIdentities names).2 = [] <-> names ≡ₚ PRICE_SOURCE_OPERATION_NAMES.
Proof.
  unfold derivePriceOperationIdentities. cbn [snd]. rewrite sorted_nil, js_set_nil. split.
  - intros [Hf [Hl _]%app_nil]%app_nil. apply failure_if_nil, negb_false_iff, bool_decide_eq_true in Hl.
    destruct (identities_spec names Hf) as (Hk & Hn & _). rewrite Forall_forall in Hk.
    apply submseteq_length_Permutation; [by apply NoDup_submseteq|].
    rewrite sources_length, <- Hl. apply Nat.le_refl.
  - intros Hp. assert (Hk : Forall (fun name => name ∈ PRICE_SOURCE_OPERATION_NAMES) names) by (apply Forall_forall; intros x; by rewrite Hp).
    assert (Hn : NoDup names) by (rewrite Hp; exact source_names_NoDup).
    pose proof (fold_no_failure names _ [] nothing_identified eq_refl Hk Hn) as Hf. destruct (identities_spec names Hf) as (_ & _ & Hi).
    unfold derivePriceOperationIdentities in Hi. cbn [fst] in Hi. rewrite Hf, Hi, canonical_of_identities, !length_map.
    rewrite (Permutation_length Hp), sources_length, bool_decide_eq_true_2 by done. cbn [negb failure_if app].
    rewrite bool_decide_eq_true_2; [done|]. rewrite (sort_permutation (map capitalised names) HCU_OPERATION_CANONICAL_NAMES).
    + by vm_compute.
    + by rewrite Hp, capitalised_sources.
Qed.

(** ** Failures only grow *)
Definition extends (f f' : Found) : Prop := exists fs, fd_failures f' = fd_failures f ++ fs.
#[local] Instance extends_preorder : PreOrder extends.
Proof.
  split; [intros f; exists []; by rewrite app_nil_r|]. intros f g h [x Ex] [y Ey]. exists (x ++ y). by rewrite Ey, Ex, app_assoc.
Qed.
Lemma extends_failed f fs : extends f (failed_with f fs).
Proof. by exists fs. Qed.
Lemma extends_nil f f' : extends f f' -> fd_failures f' = [] -> fd_failures f = [].
Proof. intros [fs ->] H. by apply app_nil in H as [H _]. Qed.
Lemma extends_same f f' : fd_failures f' = fd_failures f -> extends f f'.
Proof. intros E. exists []. by rewrite app_nil_r. Qed.

Lemma extends_finish index o f : extends f (finishOperation index o f).
Proof.
  unfold finishOperation. destruct (op_supportScalar o), (op_numberInputs o); apply extends_failed.
Qed.
Lemma extends_bucket_entry index type bucket digits o f : extends f (bucket_entry index type bucket digits o f).2.
Proof.
  unfold bucket_entry. destruct (negb _); [apply extends_failed|]. destruct (safe_integer digits); [|apply extends_failed]. cbn.
  etransitivity; [apply extends_failed|]. by apply extends_same.
Qed.
Lemma extends_inline index type fields : forall o f, extends f (inline_entries index type fields o f).2.
Proof.
  induction fields as [|text fields IH]; intros o f; cbn [inline_entries]; [reflexivity|].
  destruct (BUCKET_FIELD text) as [[bucket digits]|]; [|etransitivity; [|apply IH]; apply extends_failed].
  pose proof (extends_bucket_entry index type bucket digits o f) as H. destruct (bucket_entry _ _ _ _ _ _) as [o' f']. etransitivity; [exact H|apply IH].
Qed.

Lemma extends_operator_line index line o f : extends f (operator_line index line o f).2.
Proof.
  unfold operator_line. destruct (PRICE_BOOLEAN_FIELD line); [apply extends_failed|]. destruct (PRICE_NUMBER_INPUTS_FIELD line); [apply extends_failed|].
  destruct (PRICE_GROUP_BLOCK line); [apply extends_failed|]. destruct (PRICE_CLOSE line); [apply extends_finish|apply extends_failed].
Qed.
Lemma extends_group_line index line group o f : extends f (group_line index line group o f).2.
Proof.
  unfold group_line. cbv zeta. etransitivity; [apply extends_failed|]. destruct (PRICE_ENTRY line) as [[type digits]|].
  - destruct (negb _); [apply extends_failed|]. destruct (safe_integer digits); [|apply extends_failed]. cbn.
    etransitivity; [apply extends_failed|]. by apply extends_same.
  - destruct (PRICE_CLOSE line); [reflexivity|apply extends_failed].
Qed.
Lemma extends_nBucketed_line index line o f : extends f (nBucketed_line index line o f).2.
Proof.
  unfold nBucketed_line. cbv zeta. destruct (PRICE_INLINE_TYPED_BLOCK line) as [[type content]|].
  - destruct (negb _); [apply extends_failed|]. cbn [add_type]. etransitivity; [apply extends_failed|].
    destruct (List.filter _ _) as [|text fields]; [apply extends_failed|]. pose proof (extends_inline index type (text :: fields)) as H.
    match goal with |- context [inline_entries _ _ _ ?o ?f] => specialize (H o f); destruct (inline_entries index type (text :: fields) o f) end. exact H.
  - destruct (PRICE_OPERATION_BLOCK line) as [type|].
    + destruct (negb _); apply extends_failed.
    + destruct (PRICE_CLOSE line); [reflexivity|apply extends_failed].
Qed.
Lemma extends_bucket_line index line type o f : extends f (bucket_line index line type o f).2.
Proof.
  unfold bucket_line. destruct (PRICE_ENTRY line) as [[bucket digits]|].
  - pose proof (extends_bucket_entry index type bucket digits o f) as H. by destruct (bucket_entry _ _ _ _ _ _).
  - destruct (PRICE_CLOSE line); [reflexivity|apply extends_failed].
Qed.
Lemma extends_outside_line index line f : extends f (outside_line index line f).2.
Proof.
  unfold outside_line. destruct (PRICE_ROOT_BLOCK line); [reflexivity|]. destruct (PRICE_OPERATION_BLOCK line); [|reflexivity].
  destruct (canonicalizePriceOperationName _); cbn; (etransitivity; [apply extends_failed|by apply extends_same]).
Qed.

Lemma extends_read_line index line cur f : extends f (read_line index line (cur, f)).2.
Proof.
  unfold read_line. destruct (skipped line); [reflexivity|]. destruct cur as [o|]; [|apply extends_outside_line].
  destruct (op_group o) as [group|]; [|apply extends_operator_line]. case_bool_decide; [|apply extends_group_line].
  destruct (op_nestedType o); [apply extends_bucket_line|apply extends_nBucketed_line].
Qed.
Lemma extends_read_lines lines : forall index state, extends state.2 (read_lines index lines state).2.
Proof.
  induction lines as [|line lines IH]; intros index [cur f]; cbn [read_lines]; [reflexivity|].
  etransitivity; [apply (extends_read_line index line cur)|apply IH].
Qed.

(** ** The state between two lines *)
Definition variant_key (v : ExtractedPriceVariant) : string * string * string := (pv_sourceOperationName v, pv_operandMode v, pv_costKeyType v).
Definition bucket_key (v : ExtractedPriceBucketVariant) : string * string * string :=
  (pv_sourceOperationName (pb_variant v), pv_costKeyType (pb_variant v), pb_bucketName v).

Record variant_ok (v : ExtractedPriceVariant) : Prop := {
  vo_source : pv_sourceOperationName v ∈ PRICE_SOURCE_OPERATION_NAMES;
  vo_canonical : pv_canonicalOperationName v = capitalised (pv_sourceOperationName v);
  vo_type : pv_costKeyType v ∈ PRICE_TYPE_NAMES;
  vo_mode : pv_operandMode v ∈ PRICE_GROUPS;
  vo_cost : 0 <= pv_cost v <= MAX_SAFE_INTEGER
}.

(** The types of the groups and the buckets of the types, of an operation that was read or is
    being read. *)
Definition lists_of (cur : option Operator) (f : Found) (operation : string) : Lists * Lists :=
  match map_get operation (fd_operatorMetadata f) with
  | Some metadata => (xo_typedKeys metadata, xo_bucketNames metadata)
  | None =>
      match cur with
      | Some o => if bool_decide (op_operation o = operation) then (op_typedKeys o, op_bucketNames o) else ([], [])
      | None => ([], [])
      end
  end.
Definition current_name (cur : option Operator) : list string := match cur with Some o => [op_operation o] | None => [] end.

Record operator_ok (o : Operator) : Prop := {
  oo_known : op_operation o ∈ PRICE_SOURCE_OPERATION_NAMES;
  oo_canonical : op_canonicalOperationName o = Some (capitalised (op_operation o));
  oo_group : forall group, op_group o = Some group -> group ∈ PRICE_GROUPS;
  oo_nested : forall type, op_nestedType o = Some type ->
    op_group o = Some "nBucketed" /\ type ∈ listed "nBucketed" (op_typedKeys o) /\ type ∈ PRICE_TYPE_NAMES
}.

Record good (cur : option Operator) (f : Found) : Prop := {
  g_operations : fd_operations f = (fd_operatorMetadata f).*1 ++ current_name cur;
  g_NoDup : NoDup (fd_operations f);
  g_current : forall o, cur = Some o -> operator_ok o;
  g_variants : Forall (fun v => variant_ok v /\ pv_operandMode v <> "nBucketed") (fd_variants f);
  g_bucketed : Forall (fun v => variant_ok (pb_variant v) /\ pv_operandMode (pb_variant v) = "nBucketed" /\ pb_bucketName v ∈ PRICE_BUCKET_NAMES) (fd_bucketedVariants f);
  g_variant_keys : NoDup (map variant_key (fd_variants f));
  g_bucket_keys : NoDup (map bucket_key (fd_bucketedVariants f));
  g_types : forall operation group type, (operation, group, type) ∈ map variant_key (fd_variants f) <->
    group <> "nBucketed" /\ type ∈ listed group (lists_of cur f operation).1;
  g_buckets : forall operation type bucket, (operation, type, bucket) ∈ map bucket_key (fd_bucketedVariants f) <->
    bucket ∈ listed type (lists_of cur f operation).2;
  g_nested : forall operation type bucket, bucket ∈ listed type (lists_of cur f operation).2 ->
    type ∈ listed "nBucketed" (lists_of cur f operation).1
}.

Lemma listed_push key key' value lists :
  listed key' (push key value lists) = if bool_decide (key' = key) then listed key lists ++ [value] else listed key' lists.
Proof. unfold listed at 1, push. case_bool_decide as E; [subst; by rewrite map_get_set_eq|by rewrite map_get_set_ne]. Qed.

Lemma elem_of_push key key' value x lists :
  x ∈ listed key' (push key value lists) <-> x ∈ listed key' lists \/ (key' = key /\ x = value).
Proof.
  rewrite listed_push. case_bool_decide as E; [|naive_solver]. subst. rewrite elem_of_app, list_elem_of_singleton. naive_solver.
Qed.

Lemma good_nothing : good None nothing_found.
Proof.
  split; unfold listed; cbn; [done|constructor|done|constructor|constructor|constructor|constructor|..].
  - intros operation group type. split; [by intros ?%elem_of_nil|by intros [_ ?%elem_of_nil]].
  - intros operation type bucket. split; by intros ?%elem_of_nil.
  - by intros operation type bucket ?%elem_of_nil.
Qed.

(** Only the lists, the name and the position of the current operation matter. *)
Lemma good_failed cur f fs : good cur f -> good cur (failed_with f fs).
Proof. by intros [? ? ? ? ? ? ? ? ? ?]; split. Qed.

Lemma good_same o o' f :
  good (Some o) f -> op_operation o' = op_operation o -> op_typedKeys o' = op_typedKeys o -> op_bucketNames o' = op_bucketNames o -> operator_ok o' ->
  good (Some o') f.
Proof.
  intros [Ho Hn Hc Hv Hb Hk Hk' Ht Hbs Hne] En Et Eb Ho'.
  assert (El : forall operation, lists_of (Some o') f operation = lists_of (Some o) f operation) by (intros operation; unfold lists_of; by rewrite En, Et, Eb).
  split; try done.
  - cbn in *. rewrite En. exact Ho.
  - by intros ? [= <-].
  - intros operation group type. rewrite El. apply Ht.
  - intros operation type bucket. rewrite El. apply Hbs.
  - intros operation type bucket. rewrite El. apply Hne.
Qed.

Lemma lists_of_current o f : good (Some o) f -> lists_of (Some o) f (op_operation o) = (op_typedKeys o, op_bucketNames o).
Proof.
  intros Hg. pose proof (g_NoDup _ _ Hg) as Hn. rewrite (g_operations _ _ Hg) in Hn. unfold lists_of. destruct (map_get _ _) as [m|] eqn:E.
  - apply map_get_Some_elem in E. apply NoDup_app in Hn as (_ & Hn & _). destruct (Hn (op_operation o)); [|by left].
    by apply (list_elem_of_fmap_2 fst) in E.
  - by rewrite bool_decide_eq_true_2.
Qed.

(** The lists of the current operation change: those of the others stay. *)
Lemma lists_of_with o f typedKeys bucketNames operation :
  good (Some o) f ->
  lists_of (Some (with_lists o typedKeys bucketNames)) f operation =
    if bool_decide (op_operation o = operation) then (typedKeys, bucketNames) else lists_of (Some o) f operation.
Proof.
  intros Hg. unfold lists_of at 1. change (op_operation (with_lists o typedKeys bucketNames)) with (op_operation o). case_bool_decide as E.
  - pose proof (lists_of_current o f Hg) as El. unfold lists_of in El. rewrite <- E. destruct (map_get _ _) as [m|] eqn:Em; [|done].
    exfalso. pose proof (g_NoDup _ _ Hg) as Hn. rewrite (g_operations _ _ Hg) in Hn. apply NoDup_app in Hn as (_ & Hn & _).
    apply map_get_Some_elem, (list_elem_of_fmap_2 fst) in Em. apply (Hn _ Em). apply list_elem_of_here.
  - unfold lists_of. destruct (map_get _ _); [done|]. by rewrite bool_decide_eq_false_2.
Qed.

(** ** What each change keeps *)
Lemma good_price o f group type cost :
  good (Some o) f -> op_group o = Some group -> group <> "nBucketed" -> type ∈ PRICE_TYPE_NAMES -> type ∉ listed group (op_typedKeys o) ->
  0 <= cost <= MAX_SAFE_INTEGER ->
  good (Some (with_lists o (push group type (op_typedKeys o)) (op_bucketNames o))) (with_variant f (variant_of o group type cost)).
Proof.
  intros Hg Hgroup Hne Htype Hnew Hcost. pose proof (lists_of_current o f Hg) as Hl.
  destruct (g_current _ _ Hg o eq_refl) as [Hk Hc Hgr Hnest]. split.
  - apply Hg.
  - apply Hg.
  - intros ? [= <-]. split; [exact Hk|exact Hc|exact Hgr|]. intros t Ht. destruct (Hnest t Ht) as [Hx _]. congruence.
  - cbn. apply Forall_app. split; [apply Hg|]. apply Forall_singleton. split; [|done]. split; cbn; try done; [by rewrite Hc|by apply Hgr].
  - apply Hg.
  - cbn. rewrite map_app. apply NoDup_app. split; [apply Hg|]. split; [|apply NoDup_singleton].
    intros x Hx ->%list_elem_of_singleton. apply (g_types _ _ Hg) in Hx as [_ Hx]. cbn in Hx. by rewrite Hl in Hx.
  - apply Hg.
  - intros operation group' type'. cbn [fd_variants with_variant]. rewrite map_app. cbn [map]. rewrite elem_of_app, (g_types _ _ Hg), list_elem_of_singleton.
    change (lists_of ?c (with_variant f ?v) operation) with (lists_of c f operation). rewrite lists_of_with by done. cbn [variant_of variant_key].
    case_bool_decide as E; cbn [fst snd].
    + subst. rewrite Hl, elem_of_push. cbn [fst]. split; [intros [[? ?]|[= -> ->]]; split; auto|]. intros [? [?|[-> ->]]]; [by left|by right].
    + split; [|tauto]. intros [?|[= -> -> ->]]; done.
  - intros operation type' bucket. cbn [fd_bucketedVariants with_variant]. rewrite (g_buckets _ _ Hg).
    change (lists_of ?c (with_variant f ?v) operation) with (lists_of c f operation). rewrite lists_of_with by done.
    case_bool_decide; [subst; by rewrite Hl|done].
  - intros operation type' bucket. change (lists_of ?c (with_variant f ?v) operation) with (lists_of c f operation). rewrite lists_of_with by done.
    case_bool_decide; [|apply (g_nested _ _ Hg)]. subst. cbn [fst snd]. rewrite elem_of_push. intros Hb. left.
    pose proof (g_nested _ _ Hg (op_operation o) type' bucket) as H. rewrite Hl in H. by apply H.
Qed.

Lemma good_type o f type :
  good (Some o) f -> op_group o = Some "nBucketed" ->
  good (Some (with_lists o (push "nBucketed" type (op_typedKeys o)) (op_bucketNames o))) f.
Proof.
  intros Hg Hgroup. pose proof (lists_of_current o f Hg) as Hl. destruct (g_current _ _ Hg o eq_refl) as [Hk Hc Hgr Hnest].
  split; try apply Hg.
  - intros ? [= <-]. split; [exact Hk|exact Hc|exact Hgr|]. intros t Ht. destruct (Hnest t Ht) as (? & ? & ?). split; [done|]. split; [|done]. apply elem_of_push. by left.
  - intros operation group' type'. rewrite (g_types _ _ Hg), lists_of_with by done. case_bool_decide as E; [|done]. subst. rewrite Hl. cbn [fst].
    rewrite elem_of_push. split; [intros [? ?]; split; auto|]. intros [? [?|[-> ->]]]; done.
  - intros operation type' bucket. rewrite (g_buckets _ _ Hg), lists_of_with by done. case_bool_decide; [subst; by rewrite Hl|done].
  - intros operation type' bucket. rewrite lists_of_with by done. case_bool_decide; [|apply (g_nested _ _ Hg)]. subst. cbn [fst snd].
    rewrite elem_of_push. intros Hb. left. pose proof (g_nested _ _ Hg (op_operation o) type' bucket) as H. rewrite Hl in H. by apply H.
Qed.

Lemma good_bucket o f type bucket cost :
  good (Some o) f -> type ∈ listed "nBucketed" (op_typedKeys o) -> type ∈ PRICE_TYPE_NAMES -> bucket ∈ PRICE_BUCKET_NAMES ->
  bucket ∉ listed type (op_bucketNames o) -> 0 <= cost <= MAX_SAFE_INTEGER ->
  good (Some (with_lists o (op_typedKeys o) (push type bucket (op_bucketNames o))))
    (with_bucketed f {| pb_variant := variant_of o "nBucketed" type cost; pb_bucketName := bucket |}).
Proof.
  intros Hg Hin Htype Hbucket Hnew Hcost. pose proof (lists_of_current o f Hg) as Hl. destruct (g_current _ _ Hg o eq_refl) as [Hk Hc Hgr Hnest].
  split; try apply Hg.
  - intros ? [= <-]. by split.
  - cbn. apply Forall_app. split; [apply Hg|]. apply Forall_singleton. split; [|done]. split; cbn; try done; [by rewrite Hc|]. unfold PRICE_GROUPS. set_solver.
  - cbn. rewrite map_app. apply NoDup_app. split; [apply Hg|]. split; [|apply NoDup_singleton].
    intros x Hx ->%list_elem_of_singleton. apply (g_buckets _ _ Hg) in Hx. cbn in Hx. by rewrite Hl in Hx.
  - intros operation group' type'. cbn [fd_variants with_bucketed]. rewrite (g_types _ _ Hg).
    change (lists_of ?c (with_bucketed f ?v) operation) with (lists_of c f operation). rewrite lists_of_with by done.
    case_bool_decide; [subst; by rewrite Hl|done].
  - intros operation type' bucket'. cbn [fd_bucketedVariants with_bucketed]. rewrite map_app. cbn [map]. rewrite elem_of_app, (g_buckets _ _ Hg), list_elem_of_singleton.
    change (lists_of ?c (with_bucketed f ?v) operation) with (lists_of c f operation). rewrite lists_of_with by done.
    case_bool_decide as E; cbn [fst snd].
    + subst. rewrite Hl, elem_of_push. cbn [snd]. split; [intros [?|[= -> ->]]; auto|]. intros [?|[-> ->]]; [by left|by right].
    + split; [|tauto]. intros [?|[= -> -> ->]]; done.
  - intros operation type' bucket'. change (lists_of ?c (with_bucketed f ?v) operation) with (lists_of c f operation). rewrite lists_of_with by done.
    case_bool_decide; [|apply (g_nested _ _ Hg)]. subst. cbn [fst snd]. rewrite elem_of_push. intros [Hb|[-> ->]]; [|done].
    pose proof (g_nested _ _ Hg (op_operation o) type' bucket') as H. rewrite Hl in H. by apply H.
Qed.

Lemma listed_sorted key value lists : value ∈ listed key (sorted_lists lists) <-> value ∈ listed key lists.
Proof.
  unfold listed, sorted_lists. induction lists as [|[k values] lists IH]; cbn; [done|]. case_decide; [|exact IH]. cbn.
  unfold sorted_set. by rewrite elem_of_js_sort, elem_of_js_set.
Qed.

Lemma good_finish index o f :
  good (Some o) f -> fd_failures (finishOperation index o f) = [] -> good None (finishOperation index o f).
Proof.
  intros Hg Hf. unfold finishOperation in *. destruct (op_supportScalar o) as [supportScalar|] eqn:Es.
  2: { apply app_nil in Hf as [_ [Hf _]%app_nil]. by apply failure_if_nil, bool_decide_eq_false in Hf. }
  destruct (op_numberInputs o) as [numberInputs|] eqn:En.
  2: { apply app_nil in Hf as [_ [_ Hf]%app_nil]. by apply failure_if_nil, bool_decide_eq_false in Hf. }
  match goal with |- good None (with_metadata (failed_with f ?fs) _ ?m) => set (metadata := m); apply (good_failed _ _ fs) in Hg; revert Hg; generalize (failed_with f fs) end.
  clear f Hf. intros f Hg. pose proof (lists_of_current o f Hg) as Hl. pose proof (g_operations _ _ Hg) as Ho. pose proof (g_NoDup _ _ Hg) as Hn.
  assert (Hfresh : map_get (op_operation o) (fd_operatorMetadata f) = None).
  { destruct (map_get _ _) as [m|] eqn:E; [|done]. rewrite Ho in Hn. apply NoDup_app in Hn as (_ & Hn & _).
    apply map_get_Some_elem, (list_elem_of_fmap_2 fst) in E. destruct (Hn _ E). apply list_elem_of_here. }
  assert (El : forall operation, lists_of None (with_metadata f (op_operation o) metadata) operation =
    if bool_decide (op_operation o = operation) then (sorted_lists (op_typedKeys o), sorted_lists (op_bucketNames o)) else lists_of (Some o) f operation).
  { intros operation. unfold lists_of. cbn [fd_operatorMetadata with_metadata]. rewrite map_get_set. case_bool_decide as E; case_decide; by subst. }
  split; try apply Hg.
  - cbn. rewrite map_set_fresh by done. rewrite fmap_app, app_nil_r. exact Ho.
  - done.
  - intros operation group type. cbn [fd_variants with_metadata]. rewrite (g_types _ _ Hg), El. case_bool_decide; [|done]. subst. rewrite Hl. cbn [fst].
    by rewrite listed_sorted.
  - intros operation type bucket. cbn [fd_bucketedVariants with_metadata]. rewrite (g_buckets _ _ Hg), El. case_bool_decide; [|done]. subst. rewrite Hl. cbn [snd].
    by rewrite listed_sorted.
  - intros operation type bucket. rewrite El. case_bool_decide; [|apply (g_nested _ _ Hg)]. subst. cbn [fst snd]. rewrite !listed_sorted.
    pose proof (g_nested _ _ Hg (op_operation o) type bucket) as H. by rewrite Hl in H.
Qed.

Lemma good_open f operation :
  good None f -> operation ∈ PRICE_SOURCE_OPERATION_NAMES -> operation ∉ fd_operations f ->
  good (Some (opened operation (Some (capitalised operation)))) (with_operation f operation).
Proof.
  intros Hg Hk Hnew. pose proof (g_operations _ _ Hg) as Ho. cbn in Ho. rewrite app_nil_r in Ho.
  assert (El : forall name, lists_of (Some (opened operation (Some (capitalised operation)))) (with_operation f operation) name = lists_of None f name).
  { intros name. unfold lists_of. cbn. destruct (map_get name _); [done|]. by case_bool_decide. }
  split; try apply Hg.
  - cbn. by rewrite Ho.
  - cbn. apply NoDup_app. split; [apply Hg|]. split; [|apply NoDup_singleton]. by intros x Hx ->%list_elem_of_singleton.
  - intros ? [= <-]. by split.
  - intros name group type. rewrite El. apply (g_types _ _ Hg).
  - intros name type bucket. rewrite El. apply (g_buckets _ _ Hg).
  - intros name type bucket. rewrite El. apply (g_nested _ _ Hg).
Qed.

(** ** The lines *)
Definition keeps (f : Found) (next : Reading) : Prop := fd_failures next.2 = [] -> good next.1 next.2.

Lemma keeps_fails index kind parts o f : keeps f (fails index kind parts o f).
Proof. by intros [_ [=]]%app_nil. Qed.

Lemma without_underscores_digits s :
  string_forall (fun d => is_digit d || Ascii.eqb d "_") s = true -> string_forall is_digit (without_underscores s) = true.
Proof.
  induction s as [|c s IH]; cbn; [done|]. intros [Hc Hs]%andb_true_iff. destruct (Ascii.eqb c "_"); [by apply IH|]. rewrite orb_false_r in Hc.
  cbn. by rewrite Hc, IH.
Qed.

Lemma safe_integer_bounds digits cost : is_number_text digits = true -> safe_integer digits = Some cost -> 0 <= cost <= MAX_SAFE_INTEGER.
Proof.
  intros Hd. assert (Hm : matches_digits (without_underscores digits) = true).
  { destruct digits as [|c digits]; [done|]. apply andb_true_iff in Hd as [Hc Hd]. unfold matches_digits. cbn.
    destruct (Ascii.eqb_spec c "_") as [->|_]; [done|]. cbn. by rewrite Hc, without_underscores_digits. }
  unfold safe_integer. rewrite BigInt_of_string_digits by done. destruct (BigInt_of_digits_total _ Hm) as (z & Hz & ->).
  destruct (Z.leb_spec (Z.abs z) MAX_SAFE_INTEGER); [|done]. intros [= <-]. lia.
Qed.

Lemma PRICE_ENTRY_digits line name digits : PRICE_ENTRY line = Some (name, digits) -> is_number_text digits = true.
Proof. unfold PRICE_ENTRY. destruct (field line) as [[n v]|]; [|done]. destruct (is_number_text _) eqn:E; [|done]. by intros [= <- <-]. Qed.
Lemma BUCKET_FIELD_digits text name digits : BUCKET_FIELD text = Some (name, digits) -> is_number_text digits = true.
Proof.
  unfold BUCKET_FIELD. destruct (leading_name text) as [[n rest]|]; [|done]. destruct (trimStart rest) as [|c value]; [done|].
  destruct (is_number_text (trimStart value)) eqn:E; repeat case_match; try done; by intros [= <- <-].
Qed.
Lemma PRICE_GROUP_BLOCK_known line group : PRICE_GROUP_BLOCK line = Some group -> group ∈ PRICE_GROUPS.
Proof. unfold PRICE_GROUP_BLOCK. destruct (PRICE_OPERATION_BLOCK line); [|done]. case_bool_decide; [|done]. by intros [= <-]. Qed.

Lemma keeps_bucket_entry index type bucket digits o f :
  good (Some o) f -> type ∈ listed "nBucketed" (op_typedKeys o) -> type ∈ PRICE_TYPE_NAMES -> is_number_text digits = true ->
  fd_failures (bucket_entry index type bucket digits o f).2 = [] ->
  let next := bucket_entry index type bucket digits o f in
  good (Some next.1) next.2 /\ op_typedKeys next.1 = op_typedKeys o.
Proof.
  intros Hg Hin Htype Hd. unfold bucket_entry. destruct (bool_decide (bucket ∈ PRICE_BUCKET_NAMES)) eqn:Eb; cbn [negb]; [|by intros [_ [=]]%app_nil].
  apply bool_decide_eq_true in Eb. destruct (safe_integer digits) as [cost|] eqn:Ec; [|by intros [_ [=]]%app_nil].
  intros [_ H]%app_nil. apply failure_if_nil, bool_decide_eq_false in H. cbn [fst snd]. split; [|done].
  match goal with |- good _ (with_bucketed (failed_with f ?fs) _) => apply (good_failed _ _ fs) in Hg end.
  apply good_bucket; try done. by eapply safe_integer_bounds.
Qed.

Lemma keeps_inline index type fields : forall o f,
  good (Some o) f -> type ∈ listed "nBucketed" (op_typedKeys o) -> type ∈ PRICE_TYPE_NAMES ->
  fd_failures (inline_entries index type fields o f).2 = [] ->
  good (Some (inline_entries index type fields o f).1) (inline_entries index type fields o f).2.
Proof.
  induction fields as [|text fields IH]; intros o f Hg Hin Htype Hf; cbn [inline_entries] in *; [done|].
  destruct (BUCKET_FIELD text) as [[bucket digits]|] eqn:E.
  - pose proof (keeps_bucket_entry index type bucket digits o f Hg Hin Htype (BUCKET_FIELD_digits _ _ _ E)) as H.
    destruct (bucket_entry index type bucket digits o f) as [o' f'].
    destruct H as [Hg' Et]; [exact (extends_nil _ _ (extends_inline index type fields o' f') Hf)|]. cbn [fst snd] in *.
    apply IH; [done| |done|done]. by rewrite Et.
  - pose proof (extends_nil _ _ (extends_inline index type fields o _) Hf) as H. by apply app_nil in H as [_ [=]].
Qed.

Lemma keeps_outside_line index line f : good None f -> keeps f (outside_line index line f).
Proof.
  intros Hg. unfold keeps, outside_line. destruct (PRICE_ROOT_BLOCK line); [done|]. destruct (PRICE_OPERATION_BLOCK line) as [operation|]; [|done].
  destruct (canonicalizePriceOperationName operation) as [c|e] eqn:Ec; cbn [fst snd]; [|by intros [_ [=]]%app_nil].
  intros [_ H]%app_nil. apply failure_if_nil, bool_decide_eq_false in H. apply canonicalize_Ok in Ec as [Hk ->].
  apply good_open; [by apply good_failed|done|done].
Qed.

(** A position of an operation at which no bucket map is open. *)
Lemma operator_ok_position o o' :
  operator_ok o -> op_operation o' = op_operation o -> op_canonicalOperationName o' = op_canonicalOperationName o ->
  op_nestedType o' = None -> (forall group, op_group o' = Some group -> group ∈ PRICE_GROUPS) -> operator_ok o'.
Proof. intros [Hk Hc _ _] En Ec Et Hgr. split; [by rewrite En|by rewrite Ec, En|done|]. by rewrite Et. Qed.

Lemma keeps_position o o' f fs :
  good (Some o) f -> op_operation o' = op_operation o -> op_canonicalOperationName o' = op_canonicalOperationName o ->
  op_nestedType o' = None -> (forall group, op_group o' = Some group -> group ∈ PRICE_GROUPS) ->
  op_typedKeys o' = op_typedKeys o -> op_bucketNames o' = op_bucketNames o -> keeps f (Some o', failed_with f fs).
Proof.
  intros Hg En Ec Et Hgr E1 E2 _. apply good_failed. apply (good_same o); try done. eapply operator_ok_position; try done. by apply (g_current _ _ Hg).
Qed.

Lemma keeps_operator_line index line o f : good (Some o) f -> op_group o = None -> keeps f (operator_line index line o f).
Proof.
  intros Hg Hgroup. destruct (g_current _ _ Hg o eq_refl) as [_ _ _ Hnest].
  assert (Hn : op_nestedType o = None) by (destruct (op_nestedType o) as [t|]; [|done]; destruct (Hnest t eq_refl) as [? _]; congruence).
  assert (H0 : forall group, op_group o = Some group -> group ∈ PRICE_GROUPS) by (by rewrite Hgroup).
  unfold operator_line. destruct (PRICE_BOOLEAN_FIELD line); [by eapply keeps_position|]. destruct (PRICE_NUMBER_INPUTS_FIELD line); [by eapply keeps_position|].
  destruct (PRICE_GROUP_BLOCK line) as [group|] eqn:Eg.
  - eapply keeps_position; try done. intros ? [= <-]. by eapply PRICE_GROUP_BLOCK_known.
  - destruct (PRICE_CLOSE line); [|apply keeps_fails]. intros Hf. by apply good_finish.
Qed.

Lemma keeps_group_line index line group o f :
  good (Some o) f -> op_group o = Some group -> group <> "nBucketed" -> keeps f (group_line index line group o f).
Proof.
  intros Hg Hgroup Hne. destruct (g_current _ _ Hg o eq_refl) as [_ _ _ Hnest]. unfold group_line. cbv zeta.
  match goal with |- keeps f (match _ with _ => _ end) => idtac end.
  set (f' := failed_with f _). assert (Hg' : good (Some o) f') by (by apply good_failed). clearbody f'. clear Hg. unfold keeps.
  destruct (PRICE_ENTRY line) as [[type digits]|] eqn:Ee.
  - destruct (bool_decide (type ∈ PRICE_TYPE_NAMES)) eqn:Et; cbn [negb]; [|apply (keeps_fails _ _ _ _ f')]. apply bool_decide_eq_true in Et.
    destruct (safe_integer digits) as [cost|] eqn:Ec; [|apply (keeps_fails _ _ _ _ f')]. cbn [add_type fst snd].
    intros [_ H]%app_nil. apply failure_if_nil, bool_decide_eq_false in H.
    apply good_price; try done; [by apply good_failed|]. eapply safe_integer_bounds; [by eapply PRICE_ENTRY_digits|done].
  - destruct (PRICE_CLOSE line); [|apply (keeps_fails _ _ _ _ f')]. intros _. apply (good_same o); try done.
    apply (operator_ok_position o); [by apply (g_current _ _ Hg')|done|done| |done]. cbn. destruct (op_nestedType o) as [t|]; [|done].
    destruct (Hnest t eq_refl) as [? _]. congruence.
Qed.

Lemma keeps_nBucketed_line index line o f :
  good (Some o) f -> op_group o = Some "nBucketed" -> op_nestedType o = None -> keeps f (nBucketed_line index line o f).
Proof.
  intros Hg Hgroup Hn. pose proof (g_current _ _ Hg o eq_refl) as Ho. unfold nBucketed_line. cbv zeta.
  destruct (PRICE_INLINE_TYPED_BLOCK line) as [[type content]|]; [|destruct (PRICE_OPERATION_BLOCK line) as [type|]].
  - destruct (bool_decide (type ∈ PRICE_TYPE_NAMES)) eqn:Et; cbn [negb]; [|apply keeps_fails]. apply bool_decide_eq_true in Et. cbn [add_type].
    destruct (List.filter _ _) as [|text fields]; [apply (keeps_fails _ _ _ _ (failed_with f _))|].
    match goal with |- context [inline_entries _ _ _ ?o ?f] => set (o' := o); set (f' := f) end.
    assert (Hg' : good (Some o') f') by (apply good_type; [by apply good_failed|done]).
    pose proof (keeps_inline index type (text :: fields) o' f' Hg') as H. destruct (inline_entries index type (text :: fields) o' f') as [o2 f2].
    intros Hf. apply H; [|done|done]. apply elem_of_push. by right.
  - destruct (bool_decide (type ∈ PRICE_TYPE_NAMES)) eqn:Et; cbn [negb]; [|apply keeps_fails]. apply bool_decide_eq_true in Et. cbn [add_type].
    intros _. cbn [fst snd]. apply good_failed. eapply good_same; [by apply good_type|done|done|done|]. destruct Ho as [Hk Hc Hgr Hnest].
    split; [done|done|done|]. intros t [= <-]. split; [done|]. split; [|done]. apply elem_of_push. by right.
  - destruct (PRICE_CLOSE line); [|apply keeps_fails]. intros _. apply (good_same o); try done. by apply (operator_ok_position o).
Qed.

Lemma keeps_bucket_line index line type o f :
  good (Some o) f -> op_group o = Some "nBucketed" -> op_nestedType o = Some type -> keeps f (bucket_line index line type o f).
Proof.
  intros Hg Hgroup Hn. pose proof (g_current _ _ Hg o eq_refl) as Ho. destruct (oo_nested _ Ho type Hn) as (_ & Hin & Ht). unfold bucket_line.
  destruct (PRICE_ENTRY line) as [[bucket digits]|] eqn:Ee.
  - pose proof (keeps_bucket_entry index type bucket digits o f Hg Hin Ht (PRICE_ENTRY_digits _ _ _ Ee)) as H.
    destruct (bucket_entry index type bucket digits o f) as [o' f']. intros Hf. by apply H.
  - destruct (PRICE_CLOSE line); [|apply keeps_fails]. intros _. apply (good_same o); try done.
    by apply (operator_ok_position o); [..|apply (oo_group _ Ho)].
Qed.

Lemma keeps_read_line index line cur f : good cur f -> keeps f (read_line index line (cur, f)).
Proof.
  intros Hg. unfold read_line. destruct (skipped line); [by intros _|]. destruct cur as [o|]; [|by apply keeps_outside_line].
  destruct (op_group o) as [group|] eqn:Eg; [|by apply keeps_operator_line]. case_bool_decide as En; [|by apply keeps_group_line]. subst group.
  destruct (op_nestedType o) as [type|] eqn:Et; [by apply keeps_bucket_line|by apply keeps_nBucketed_line].
Qed.

Lemma read_lines_good lines : forall index cur f, good cur f -> keeps f (read_lines index lines (cur, f)).
Proof.
  induction lines as [|line lines IH]; intros index cur f Hg; cbn [read_lines]; [by intros _|]. intros Hf.
  pose proof (keeps_read_line index line cur f Hg) as H. destruct (read_line index line (cur, f)) as [cur' f'] eqn:E.
  apply IH; [|done]. apply H. exact (extends_nil _ _ (extends_read_lines lines (S index) (cur', f')) Hf).
Qed.

(** ** The schedule *)
Record schedule_ok (s : ExtractedPriceSchedule) : Prop := {
  so_operations : xs_operations s ≡ₚ PRICE_SOURCE_OPERATION_NAMES;
  so_canonical : xs_canonicalOperations s = HCU_OPERATION_CANONICAL_NAMES;
  so_metadata : (xs_operatorMetadata s).*1 ≡ₚ PRICE_SOURCE_OPERATION_NAMES;
  so_variants : xs_variants s <> [] /\ Forall (fun v => variant_ok v /\ pv_operandMode v <> "nBucketed") (xs_variants s);
  so_bucketed : Forall (fun v => variant_ok (pb_variant v) /\ pv_operandMode (pb_variant v) = "nBucketed" /\ pb_bucketName v ∈ PRICE_BUCKET_NAMES)
    (xs_bucketedVariants s);
  so_variant_keys : NoDup (map variant_key (xs_variants s));
  so_bucket_keys : NoDup (map bucket_key (xs_bucketedVariants s));
  so_types : forall operation metadata group type, map_get operation (xs_operatorMetadata s) = Some metadata ->
    ((operation, group, type) ∈ map variant_key (xs_variants s) <-> group <> "nBucketed" /\ type ∈ listed group (xo_typedKeys metadata));
  so_buckets : forall operation metadata type bucket, map_get operation (xs_operatorMetadata s) = Some metadata ->
    ((operation, type, bucket) ∈ map bucket_key (xs_bucketedVariants s) <-> bucket ∈ listed type (xo_bucketNames metadata)) /\
    (bucket ∈ listed type (xo_bucketNames metadata) -> type ∈ listed "nBucketed" (xo_typedKeys metadata))
}.

(** C20: a schedule without failures has the known operations, each once and with its
    metadata; its prices are safe integers of known types, one for each operation, group and
    type, and exactly those that the metadata lists; likewise the buckets. *)
Theorem extractPriceSchedule_sound localeCompare material :
  xs_failures (extractPriceSchedule localeCompare material) = [] -> schedule_ok (extractPriceSchedule localeCompare material).
Proof.
  unfold extractPriceSchedule. pose proof (read_lines_good (split_lines (am_text material)) 0 None nothing_found good_nothing) as Hk.
  destruct (read_lines 0 (split_lines (am_text material)) (None, nothing_found)) as [[o|] f].
  - intros H. exfalso. cbn [xs_failures] in H. rewrite sorted_nil, js_set_nil in H. apply app_nil in H as [H _].
    apply (extends_nil _ _ (extends_finish _ _ _)) in H. by apply app_nil in H as [_ [=]].
  - intros H. cbn [xs_failures] in H. rewrite sorted_nil, js_set_nil in H. apply app_nil in H as [Hf [He Hi]%app_nil].
    apply failure_if_nil, bool_decide_eq_false in He. specialize (Hk Hf). cbn [fst snd] in Hk. pose proof (proj1 (derivePriceOperationIdentities_exact _) Hi) as Hp.
    pose proof (g_operations _ _ Hk) as Ho. cbn in Ho. rewrite app_nil_r in Ho.
    split; cbn [xs_operations xs_canonicalOperations xs_variants xs_bucketedVariants xs_operatorMetadata].
    + by rewrite js_sort_Permutation.
    + pose proof Hi as Hd. unfold derivePriceOperationIdentities in Hd. cbn [snd] in Hd. rewrite sorted_nil, js_set_nil in Hd. apply app_nil in Hd as [Hd _].
      destruct (identities_spec _ Hd) as (_ & _ & ->). rewrite canonical_of_identities, (sort_permutation _ HCU_OPERATION_CANONICAL_NAMES).
      * by vm_compute.
      * by rewrite Hp, capitalised_sources.
    + by rewrite <- Ho.
    + split; [by intros ?%js_sort_nil_inv|]. rewrite js_sort_Permutation. apply Hk.
    + rewrite js_sort_Permutation. apply Hk.
    + rewrite js_sort_Permutation. apply Hk.
    + rewrite js_sort_Permutation. apply Hk.
    + intros operation metadata group type E. rewrite js_sort_Permutation, (g_types _ _ Hk). unfold lists_of. by rewrite E.
    + intros operation metadata type bucket E. rewrite js_sort_Permutation, (g_buckets _ _ Hk). pose proof (g_nested _ _ Hk operation type bucket) as Hn.
      unfold lists_of in *. by rewrite E in *.
Qed.

Lemma extractPriceSchedule_sound_witness :
  xs_failures (extractPriceSchedule compare_code_units official_material) = [] /\ schedule_ok (extractPriceSchedule compare_code_units official_material).
Proof.
  assert (H : xs_failures (extractPriceSchedule compare_code_units official_material) = []) by (vm_compute; reflexivity).
  split; [exact H|exact (extractPriceSchedule_sound compare_code_units official_material H)].
Defined.

