(* ===== verification/HcuScheduleText.v ===== *)
(** * A printed table of prices is read back: scripts/sg4-hcu-authority.ts, [extractPriceSchedule]

    The reader of [HcuSchedule] on the text of a table in the layout of the official file,
    line by line: what it says is found, and nothing else.  The table [official_prices]
    printed is the text of test/fixtures/fhevm-v0.13.2-operatorsPrices.ts.txt after its
    import. *)
From Stdlib Require Import ZArith Lia Ascii.
From stdpp Require Import base option list sets strings sorting.
From S2P Require Import Prelude HcuJson HcuAbi HcuSource HcuPricing HcuSchedule.
Local Open Scope Z_scope.
#[local] Opaque PRICE_SOURCE_OPERATION_NAMES HCU_OPERATION_CANONICAL_NAMES PRICE_TYPE_NAMES.

(** *** Texts *)
Lemma span_word_name name rest :
  string_forall is_word name = true -> (match rest with String c _ => is_word c | EmptyString => false end = false) -> span_word (name +:+ rest) = (name, rest).
Proof.
  induction name as [|c name IH]; intros Hn Hr.
  - destruct rest as [|c rest]; [done|]. change ("" +:+ String c rest) with (String c rest). cbn [span_word]. by rewrite Hr.
  - apply andb_true_iff in Hn as [Hc Hn]. rewrite append_cons. cbn [span_word]. by rewrite Hc, IH.
Qed.

(** A name the patterns accept. *)
Definition is_key (name : string) : bool := match name with String c _ => is_letter c && string_forall is_word name | EmptyString => false end.
Lemma known_keys : forallb is_key (PRICE_TYPE_NAMES ++ PRICE_BUCKET_NAMES ++ ["numberInputs"]) = true.
Proof. by vm_compute. Qed.
Lemma key_of_type name : name ∈ PRICE_TYPE_NAMES -> is_key name = true.
Proof. intros H. pose proof known_keys as Hk. rewrite forallb_forall in Hk. apply Hk. apply list_elem_of_In, elem_of_app. by left. Qed.
Lemma key_of_bucket name : name ∈ PRICE_BUCKET_NAMES -> is_key name = true.
Proof. intros H. pose proof known_keys as Hk. rewrite forallb_forall in Hk. apply Hk. apply list_elem_of_In, elem_of_app. right. apply elem_of_app. by left. Qed.

Lemma leading_name_key name rest :
  is_key name = true -> (match rest with String c _ => is_word c | EmptyString => false end = false) -> leading_name (name +:+ rest) = Some (name, rest).
Proof.
  intros Hk Hr. destruct name as [|c name]; [done|]. cbn [is_key] in Hk. apply andb_true_iff in Hk as [Hc Hn].
  unfold leading_name. rewrite append_cons, Hc, <- append_cons. by rewrite span_word_name.
Qed.

Lemma letter_visible c : is_letter c = true -> is_space c = false.
Proof. destruct c as [[] [] [] [] [] [] [] []]; vm_compute; congruence. Qed.
Lemma trimStart_key name rest : is_key name = true -> trimStart (name +:+ rest) = name +:+ rest.
Proof. destruct name as [|c name]; [done|]. intros [Hc _]%andb_true_iff. rewrite append_cons. cbn. by rewrite letter_visible. Qed.

Definition ends_visible (s : string) : Prop := s <> "" /\ trimEnd s = s.
Lemma trimEnd_app a b : ends_visible b -> trimEnd (a +:+ b) = a +:+ b.
Proof.
  intros [Hne Hb]. induction a as [|c a IH]; [done|]. rewrite append_cons. cbn [trimEnd]. rewrite IH.
  destruct (a +:+ b) eqn:E; [|done]. destruct a; cbn in E; [by subst|done].
Qed.
Lemma ends_visible_app a b : ends_visible b -> ends_visible (a +:+ b).
Proof. intros Hb. split; [|by apply trimEnd_app]. destruct a; [apply Hb|done]. Qed.

Lemma without_last_app c s : without_last c (s +:+ String c "") = Some s.
Proof.
  induction s as [|d s IH]; [change ("" +:+ String c "") with (String c ""); cbn [without_last]; by rewrite Ascii.eqb_refl|]. rewrite append_cons. cbn [without_last]. rewrite IH.
  by destruct s.
Qed.

Lemma field_key indentation name value :
  string_forall is_space indentation = true -> is_key name = true -> field (indentation +:+ name +:+ ": " +:+ value) = Some (name, trim value).
Proof.
  intros Hi Hk. assert (E : trimStart (indentation +:+ name +:+ ": " +:+ value) = name +:+ ": " +:+ value).
  { induction indentation as [|c i IH]; [exact (trimStart_key name _ Hk)|]. apply andb_true_iff in Hi as [Hc Hi]. rewrite append_cons. cbn [trimStart]. by rewrite Hc, IH. }
  unfold field. rewrite E. by rewrite leading_name_key.
Qed.

(** *** Lines *)
Lemma digits_visible s : matches_digits s = true -> ends_visible s /\ string_forall (fun c => negb (is_space c)) s = true.
Proof.
  intros H. unfold matches_digits in H. apply andb_true_iff in H as [Hne Hd].
  assert (Hv : string_forall (fun c => negb (is_space c)) s = true).
  { apply (string_forall_impl is_digit); [|done]. intros c. destruct c as [[] [] [] [] [] [] [] []]; vm_compute; congruence. }
  split; [|done]. split; [by destruct s|]. clear Hne Hd. induction s as [|c s IH]; [done|]. apply andb_true_iff in Hv as [Hc Hv].
  cbn [trimEnd]. rewrite IH by done. apply negb_true_iff in Hc. destruct s; [by rewrite Hc|done].
Qed.

Lemma trim_number text : matches_digits text = true -> trim (text +:+ ",") = text +:+ ",".
Proof.
  intros H. apply trim_no_space. rewrite string_forall_app. destruct (digits_visible text H) as [_ ->]. done.
Qed.
Lemma drop_comma_app value : drop_comma (value +:+ ",") = trimEnd value.
Proof. unfold drop_comma. by rewrite without_last_app. Qed.

Lemma number_text_digits text : matches_digits text = true -> is_number_text text = true.
Proof.
  unfold matches_digits, is_number_text. destruct text as [|c text]; [done|]. cbn [string_nonempty andb string_forall]. intros [-> Hd]%andb_true_iff. cbn.
  apply (string_forall_impl is_digit); [|done]. by intros d ->.
Qed.
Lemma digits_without_underscores text : string_forall is_digit text = true -> without_underscores text = text.
Proof.
  induction text as [|c text IH]; [done|]. intros [Hc Ht]%andb_true_iff. cbn [without_underscores]. rewrite IH by done.
  destruct (Ascii.eqb_spec c "_") as [->|_]; [by vm_compute in Hc|done].
Qed.
Lemma safe_integer_text z : 0 <= z <= MAX_SAFE_INTEGER -> safe_integer (Z_toString z) = Some z.
Proof.
  intros Hz. pose proof (Z_toString_digits z (proj1 Hz)) as Hd. unfold safe_integer. unfold matches_digits in Hd. apply andb_true_iff in Hd as [_ Hd].
  rewrite digits_without_underscores by done. rewrite BigInt_of_string_toString by lia. rewrite (proj2 (Z.leb_le _ _)); [done|lia].
Qed.

Lemma price_line_field price :
  price.1 ∈ PRICE_TYPE_NAMES -> 0 <= price.2 -> field (price_line price) = Some (price.1, Z_toString price.2 +:+ ",").
Proof.
  intros Hn Hz. unfold price_line, price_text. rewrite !string_app_assoc. rewrite field_key; [|done|by apply key_of_type].
  rewrite trim_number; [done|]. by apply Z_toString_digits.
Qed.
Lemma price_line_entry price :
  price.1 ∈ PRICE_TYPE_NAMES -> 0 <= price.2 -> PRICE_ENTRY (price_line price) = Some (price.1, Z_toString price.2).
Proof.
  intros Hn Hz. pose proof (Z_toString_digits _ Hz) as Hd. unfold PRICE_ENTRY. rewrite price_line_field, drop_comma_app by done.
  destruct (digits_visible _ Hd) as [[_ ->] _]. by rewrite number_text_digits.
Qed.
Lemma price_line_no_group price : price.1 ∈ PRICE_TYPE_NAMES -> 0 <= price.2 -> PRICE_GROUP_BLOCK (price_line price) = None.
Proof.
  intros Hn Hz. pose proof (Z_toString_digits _ Hz) as Hd. unfold PRICE_GROUP_BLOCK, PRICE_OPERATION_BLOCK. rewrite price_line_field by done.
  rewrite bool_decide_eq_false_2; [done|]. intros E. destruct (Z_toString price.2) as [|c s]; [done|]. unfold matches_digits in Hd.
  rewrite append_cons in E. injection E as -> _. done.
Qed.

Lemma letter_head c s : is_letter c = true -> startsWith "//" (String c s) = false /\ startsWith "*" (String c s) = false.
Proof.
  intros Hc. unfold startsWith. cbn [String.prefix].
  destruct (ascii_dec "/" c) as [<-|_]; [by vm_compute in Hc|]. destruct (ascii_dec "*" c) as [<-|_]; [by vm_compute in Hc|done].
Qed.

(** A line with a name at its start is not skipped. *)
Lemma key_line_read indentation name rest :
  string_forall is_space indentation = true -> is_key name = true -> skipped (indentation +:+ name +:+ rest) = false.
Proof.
  intros Hi Hk. assert (E : trimStart (indentation +:+ name +:+ rest) = name +:+ rest).
  { induction indentation as [|c i IH]; [exact (trimStart_key name _ Hk)|]. apply andb_true_iff in Hi as [Hc Hi]. rewrite append_cons. cbn [trimStart]. by rewrite Hc, IH. }
  unfold skipped, trim. rewrite E. destruct name as [|c name]; [done|]. apply andb_true_iff in Hk as [Hc _]. rewrite append_cons. cbn [trimEnd].
  destruct (trimEnd (name +:+ rest)) as [|d s]; [rewrite letter_visible by done|]; cbn [string_nonempty negb orb];
    match goal with |- context [startsWith "//" (String c ?s)] => by destruct (letter_head c s Hc) as [-> ->] end.
Qed.

(** *** The state in the middle of an operation *)
Definition reading (operation : string) (group : option string) (seen : list string) (support : option bool) (inputs : option (option Z)) (typed buckets : Lists) : Operator :=
  {| op_operation := operation; op_canonicalOperationName := Some (capitalised operation); op_group := group; op_nestedType := None; op_seenFields := seen;
     op_supportScalar := support; op_numberInputs := inputs; op_typedKeys := typed; op_bucketNames := buckets |}.
Definition found (variants : list ExtractedPriceVariant) (bucketed : list ExtractedPriceBucketVariant) (operations : list string)
    (metadata : list (string * ExtractedPriceOperator)) : Found :=
  {| fd_failures := []; fd_variants := variants; fd_bucketedVariants := bucketed; fd_operations := operations; fd_operatorMetadata := metadata |}.

(** The lists with the values read so far at a key that is new: nothing before the first. *)
Definition with_values (lists : Lists) (key : string) (values : list string) : Lists :=
  match values with [] => lists | _ => lists ++ [(key, values)] end.

Lemma map_get_fresh {A} (key : string) (m : list (string * A)) : key ∉ m.*1 -> map_get key m = None.
Proof. intros H. destruct (map_get key m) eqn:E; [|done]. apply map_get_Some_elem, (list_elem_of_fmap_2 fst) in E. done. Qed.

Lemma map_get_app_fresh {A} (key : string) (v : A) m : key ∉ m.*1 -> map_get key (m ++ [(key, v)]) = Some v.
Proof. intros H. rewrite <- map_set_fresh by (by apply map_get_fresh). apply map_get_set_eq. Qed.

Lemma map_set_last {A} (key : string) (v w : A) m : key ∉ m.*1 -> map_set key w (m ++ [(key, v)]) = m ++ [(key, w)].
Proof.
  induction m as [|[k x] m IH]; cbn; intros H; [by rewrite decide_True|]. rewrite decide_False by (intros ->; apply H; by left).
  rewrite IH; [done|]. intros Hin. apply H. by right.
Qed.

Lemma listed_with_values lists key values : key ∉ lists.*1 -> listed key (with_values lists key values) = values.
Proof. intros H. unfold listed, with_values. destruct values; [by rewrite map_get_fresh|by rewrite map_get_app_fresh]. Qed.

Lemma push_with_values lists key values value :
  key ∉ lists.*1 -> push key value (with_values lists key values) = with_values lists key (values ++ [value]).
Proof.
  intros H. unfold push. rewrite listed_with_values by done. unfold with_values. destruct values as [|v values]; cbn [app].
  - by rewrite map_set_fresh by (by apply map_get_fresh).
  - by rewrite map_set_last.
Qed.

Lemma read_lines_app lines lines' : forall index state,
  read_lines index (lines ++ lines') state = read_lines (index + length lines) lines' (read_lines index lines state).
Proof.
  induction lines as [|line lines IH]; intros index state; cbn [read_lines app length]; [by rewrite Nat.add_0_r|].
  rewrite IH. f_equal. lia.
Qed.

Lemma failed_nothing f : failed_with f [] = f.
Proof. destruct f. unfold failed_with. cbn. by rewrite app_nil_r. Qed.

(** *** A group *)
Lemma group_open_line group : group ∈ PRICE_GROUPS ->
  let line := "    " +:+ group +:+ ": {" in
  skipped line = false /\ PRICE_BOOLEAN_FIELD line = None /\ PRICE_NUMBER_INPUTS_FIELD line = None /\ PRICE_GROUP_BLOCK line = Some group.
Proof.
  unfold PRICE_GROUPS. intros H. repeat (apply elem_of_cons in H as [->|H]; [repeat split; by vm_compute|]). by apply elem_of_nil in H.
Qed.

Lemma group_close_line : skipped "    }," = false /\ PRICE_GROUP_BLOCK "    }," = None /\ PRICE_ENTRY "    }," = None /\ PRICE_CLOSE "    }," = true /\
  PRICE_INLINE_TYPED_BLOCK "    }," = None /\ PRICE_OPERATION_BLOCK "    }," = None.
Proof. repeat split; by vm_compute. Qed.

Lemma read_open index group operation seen s i typed buckets f :
  group ∈ PRICE_GROUPS -> group ∉ seen ->
  read_line index ("    " +:+ group +:+ ": {") (Some (reading operation None seen s i typed buckets), f) =
    (Some (reading operation (Some group) (seen ++ [group]) s i typed buckets), f).
Proof.
  intros Hg Hn. destruct (group_open_line group Hg) as (E1 & E2 & E3 & E4). unfold read_line. rewrite E1. cbn [op_group reading].
  unfold operator_line. rewrite E2, E3, E4. unfold duplicate_field. cbn [op_seenFields reading]. rewrite bool_decide_eq_false_2 by done.
  cbn [failure_if]. by rewrite failed_nothing.
Qed.

Lemma read_close index group operation seen s i typed buckets f :
  read_line index "    }," (Some (reading operation (Some group) seen s i typed buckets), f) = (Some (reading operation None seen s i typed buckets), f).
Proof.
  destruct group_close_line as (E1 & E2 & E3 & E4 & E5 & E6). unfold read_line. rewrite E1. cbn [op_group op_nestedType reading]. case_bool_decide.
  - unfold nBucketed_line. by rewrite E5, E6, E4.
  - unfold group_line. rewrite E2, E3, E4, bool_decide_eq_false_2 by (by intros [? [=]]). cbn [failure_if]. by rewrite failed_nothing.
Qed.

Lemma read_price index price operation group seen s i typed values buckets variants bucketed operations metadata :
  group <> "nBucketed" -> group ∉ typed.*1 -> price.1 ∈ PRICE_TYPE_NAMES -> 0 <= price.2 <= MAX_SAFE_INTEGER -> price.1 ∉ values ->
  read_line index (price_line price)
    (Some (reading operation (Some group) seen s i (with_values typed group values) buckets), found variants bucketed operations metadata) =
    (Some (reading operation (Some group) seen s i (with_values typed group (values ++ [price.1])) buckets),
     found (variants ++ [said_variant operation group price]) bucketed operations metadata).
Proof.
  intros Hg Hfresh Ht Hc Hn. unfold read_line.
  assert (E : skipped (price_line price) = false).
  { unfold price_line, price_text. rewrite !string_app_assoc. apply key_line_read; [done|by apply key_of_type]. }
  rewrite E. cbn [op_group reading]. rewrite bool_decide_eq_false_2 by done. unfold group_line. rewrite price_line_no_group, price_line_entry by (done || lia).
  rewrite (bool_decide_eq_false_2 (is_Some None)) by (by intros [? [=]]). rewrite bool_decide_eq_true_2 by done. cbn [negb failure_if]. rewrite failed_nothing.
  rewrite safe_integer_text by done. unfold add_type. cbn [op_typedKeys reading]. rewrite listed_with_values, push_with_values by done.
  rewrite bool_decide_eq_false_2 by done. cbn [failure_if]. by rewrite failed_nothing.
Qed.

Lemma read_prices prices operation group seen s i typed buckets bucketed operations metadata :
  group <> "nBucketed" -> group ∉ typed.*1 -> forall index values variants,
  Forall (fun price => price.1 ∈ PRICE_TYPE_NAMES /\ 0 <= price.2 <= MAX_SAFE_INTEGER) prices -> NoDup (values ++ prices.*1) ->
  read_lines index (map price_line prices)
    (Some (reading operation (Some group) seen s i (with_values typed group values) buckets), found variants bucketed operations metadata) =
    (Some (reading operation (Some group) seen s i (with_values typed group (values ++ prices.*1)) buckets),
     found (variants ++ map (said_variant operation group) prices) bucketed operations metadata).
Proof.
  intros Hg Hfresh. induction prices as [|price prices IH]; intros index values variants Hp Hn; cbn [map read_lines].
  - change (@nil (string * Z)).*1 with (@nil string). by rewrite !app_nil_r.
  - apply Forall_cons in Hp as [[Ht Hc] Hp]. rewrite fmap_cons in Hn |- *. rewrite read_price; try done.
    + rewrite IH; [|done|by rewrite <- app_assoc]. by rewrite <- !app_assoc.
    + intros Hin. apply NoDup_app in Hn as (_ & Hn & _). apply (Hn _ Hin). by left.
Qed.

Lemma with_values_all typed key (prices : list (string * Z)) : prices <> [] -> with_values typed key prices.*1 = typed ++ [(key, prices.*1)].
Proof. by destruct prices. Qed.

Lemma read_group index group operation seen s i typed buckets variants bucketed operations metadata :
  group.1 ∈ PLAIN_GROUPS -> price_ok PRICE_TYPE_NAMES group.2 -> group.1 ∉ seen -> group.1 ∉ typed.*1 ->
  read_lines index (group_lines group) (Some (reading operation None seen s i typed buckets), found variants bucketed operations metadata) =
    (Some (reading operation None (seen ++ [group.1]) s i (typed ++ [(group.1, group.2.*1)]) buckets),
     found (variants ++ map (said_variant operation group.1) group.2) bucketed operations metadata).
Proof.
  intros Hg [Hs Hp Hn] Hseen Hfresh. unfold group_lines. cbn [read_lines].
  assert (Hin : group.1 ∈ PRICE_GROUPS) by (unfold PLAIN_GROUPS, PRICE_GROUPS in *; set_solver).
  assert (Hne : group.1 <> "nBucketed") by (intros E; rewrite E in Hg; unfold PLAIN_GROUPS in Hg; set_solver).
  rewrite read_open by done. rewrite read_lines_app. change typed with (with_values typed group.1 []) at 1.
  rewrite read_prices by done. cbn [read_lines app]. by rewrite read_close, with_values_all.
Qed.

Lemma read_groups groups operation s i buckets bucketed operations metadata : forall index seen typed variants,
  Forall (fun group => group.1 ∈ PLAIN_GROUPS /\ price_ok PRICE_TYPE_NAMES group.2) groups -> NoDup (seen ++ groups.*1) -> NoDup (typed.*1 ++ groups.*1) ->
  read_lines index (concat (map group_lines groups)) (Some (reading operation None seen s i typed buckets), found variants bucketed operations metadata) =
    (Some (reading operation None (seen ++ groups.*1) s i (typed ++ map (fun group => (group.1, group.2.*1)) groups) buckets),
     found (variants ++ concat (map (fun group => map (said_variant operation group.1) group.2) groups)) bucketed operations metadata).
Proof.
  induction groups as [|group groups IH]; intros index seen typed variants Hg Hn Hn'; cbn [map concat].
  - cbn [read_lines]. change (@nil (string * list (string * Z))).*1 with (@nil string). by rewrite !app_nil_r.
  - apply Forall_cons in Hg as [[Hin Hok] Hg]. rewrite fmap_cons in Hn, Hn' |- *. rewrite read_lines_app.
    assert (Hseen : group.1 ∉ seen) by (intros Hx; apply NoDup_app in Hn as (_ & Hn & _); apply (Hn _ Hx); by left).
    assert (Hfresh : group.1 ∉ typed.*1) by (intros Hx; apply NoDup_app in Hn' as (_ & Hn' & _); apply (Hn' _ Hx); by left).
    rewrite read_group by done. rewrite IH; [by rewrite <- !app_assoc|done|by rewrite <- app_assoc|].
    rewrite fmap_app, <- app_assoc. exact Hn'.
Qed.

(** *** The buckets *)
Lemma price_text_digits price : 0 <= price.2 -> ends_visible (price_text price).
Proof.
  intros H. unfold price_text. rewrite <- string_app_assoc. apply ends_visible_app. by destruct (digits_visible _ (Z_toString_digits _ H)).
Qed.

Lemma bucket_field_text price :
  price.1 ∈ PRICE_BUCKET_NAMES -> 0 <= price.2 -> BUCKET_FIELD (price_text price) = Some (price.1, Z_toString price.2).
Proof.
  intros Hn Hz. pose proof (Z_toString_digits _ Hz) as Hd. unfold BUCKET_FIELD, price_text. rewrite leading_name_key; [|by apply key_of_bucket|done].
  change (trimStart (": " +:+ Z_toString price.2)) with (String ":" (" " +:+ Z_toString price.2)). cbn iota beta.
  change (trimStart (" " +:+ Z_toString price.2)) with (trimStart (Z_toString price.2)).
  assert (E : trimStart (Z_toString price.2) = Z_toString price.2).
  { destruct (digits_visible _ Hd) as [_ Hv]. destruct (Z_toString price.2) as [|c s]; [done|]. apply andb_true_iff in Hv as [Hc _].
    cbn. by rewrite (proj1 (negb_true_iff _) Hc). }
  rewrite E. by rewrite number_text_digits.
Qed.

(** What stands between the braces, without the blanks around it. *)
Definition inner_text (prices : list (string * Z)) : list string :=
  match prices with [] => [] | price :: prices => price_text price :: map (fun price => " " +:+ price_text price) prices end.

Lemma ends_visible_join parts : parts <> [] -> Forall ends_visible parts -> ends_visible (join_char "," parts).
Proof.
  intros Hne Hp. induction Hp as [|part parts Hv Hp IH]; [done|]. destruct parts as [|part' parts]; [done|].
  change (join_char "," (part :: part' :: parts)) with (part +:+ String "," (join_char "," (part' :: parts))).
  change (String "," ?rest) with ("," +:+ rest). rewrite <- string_app_assoc. by apply ends_visible_app, IH.
Qed.

Lemma inner_visible prices : Forall (fun price => price.1 ∈ PRICE_BUCKET_NAMES /\ 0 <= price.2) prices -> Forall ends_visible (inner_text prices).
Proof.
  intros Hp. destruct Hp as [|price prices [_ Hz] Hp]; [constructor|]. constructor; [by apply price_text_digits|].
  apply Forall_map. eapply Forall_impl; [exact Hp|]. intros p [_ Hz']. by apply (ends_visible_app " "), price_text_digits.
Qed.

Lemma trimEnd_blank s : ends_visible s -> trimEnd (s +:+ " ") = s.
Proof.
  intros [Hne Hv]. revert Hne Hv. induction s as [|c s IH]; [done|]. intros _. rewrite append_cons. cbn [trimEnd]. destruct s as [|d s].
  - change (trimEnd ("" +:+ " ")) with "". cbn. destruct (is_space c); [done|done].
  - intros Hv. change (match trimEnd (String d s) with EmptyString => if is_space c then EmptyString else String c EmptyString | t => String c t end =
      String c (String d s)) in Hv. assert (Hv' : trimEnd (String d s) = String d s).
    { destruct (trimEnd (String d s)) as [|e t] eqn:E; [destruct (is_space c); congruence|congruence]. }
    rewrite IH by done. done.
Qed.

Lemma trim_inner prices :
  prices <> [] -> Forall (fun price => price.1 ∈ PRICE_BUCKET_NAMES /\ 0 <= price.2) prices ->
  trim (buckets_text prices +:+ " ") = join_char "," (inner_text prices).
Proof.
  intros Hne Hp. destruct prices as [|price prices]; [done|]. pose proof (inner_visible _ Hp) as Hv. apply Forall_cons in Hp as [[Hn Hz] Hp].
  assert (E : buckets_text (price :: prices) = " " +:+ join_char "," (inner_text (price :: prices))).
  { unfold buckets_text, inner_text. cbn [map]. by destruct (map _ prices). }
  rewrite E. unfold trim. rewrite string_app_assoc. change (trimStart (" " +:+ ?x)) with (trimStart x).
  assert (Et : trimStart (join_char "," (inner_text (price :: prices)) +:+ " ") = join_char "," (inner_text (price :: prices)) +:+ " ").
  { unfold inner_text. destruct (map _ prices) as [|part parts]; cbn [join_char]; unfold price_text; rewrite !string_app_assoc; apply trimStart_key, key_of_bucket, Hn. }
  rewrite Et. apply trimEnd_blank, ends_visible_join; [done|exact Hv].
Qed.

Definition price_char (c : ascii) : bool := is_word c || Ascii.eqb c ":" || Ascii.eqb c " ".
Lemma price_text_chars price : price.1 ∈ PRICE_BUCKET_NAMES \/ price.1 ∈ PRICE_TYPE_NAMES -> 0 <= price.2 -> string_forall price_char (price_text price) = true.
Proof.
  intros Hn Hz. assert (Hk : is_key price.1 = true) by (destruct Hn; [by apply key_of_bucket|by apply key_of_type]).
  unfold price_text. rewrite !string_forall_app, !andb_true_iff. split; [|split; [by vm_compute|]].
  - destruct price.1 as [|c name]; [done|]. apply andb_true_iff in Hk as [_ Hk]. apply (string_forall_impl is_word); [|done].
    intros d Hd. unfold price_char. by rewrite Hd.
  - pose proof (Z_toString_digits _ Hz) as Hd. unfold matches_digits in Hd. apply andb_true_iff in Hd as [_ Hd]. apply (string_forall_impl is_digit); [|done].
    intros d Hd'. unfold price_char, is_word, is_alphanumeric. by rewrite Hd', orb_true_r.
Qed.
Lemma price_char_lacks sep s : price_char sep = false -> string_forall price_char s = true -> lacks sep s = true.
Proof. intros Hs. unfold lacks. apply string_forall_impl. intros c Hc. apply negb_true_iff, Ascii.eqb_neq. intros ->. congruence. Qed.

Lemma inner_chars prices :
  Forall (fun price => price.1 ∈ PRICE_BUCKET_NAMES /\ 0 <= price.2) prices -> Forall (fun part => string_forall price_char part = true) (inner_text prices).
Proof.
  intros Hp. destruct Hp as [|price prices [Hn Hz] Hp]; [constructor|]. constructor; [by apply price_text_chars; [left|]|].
  apply Forall_map. eapply Forall_impl; [exact Hp|]. intros p [Hn' Hz']. rewrite string_forall_app. by rewrite price_text_chars by auto.
Qed.

Lemma join_lacks sep parts : Ascii.eqb "," sep = false -> Forall (fun part => lacks sep part = true) parts -> lacks sep (join_char "," parts) = true.
Proof.
  intros Hs Hp. induction Hp as [|part parts Hv Hp IH]; [done|]. destruct parts as [|part' parts]; [done|].
  change (join_char "," (part :: part' :: parts)) with (part +:+ "," +:+ join_char "," (part' :: parts)).
  unfold lacks in *. rewrite !string_forall_app, Hv, IH. cbn [string_forall]. by rewrite Hs.
Qed.

Lemma buckets_inline entry :
  entry.1 ∈ PRICE_TYPE_NAMES -> entry.2 <> [] -> Forall (fun price => price.1 ∈ PRICE_BUCKET_NAMES /\ 0 <= price.2) entry.2 ->
  PRICE_INLINE_TYPED_BLOCK (inline_line entry) = Some (entry.1, join_char "," (inner_text entry.2)).
Proof.
  intros Ht Hne Hp. unfold PRICE_INLINE_TYPED_BLOCK, inline_line. set (B := buckets_text entry.2).
  change ("      " +:+ entry.1 +:+ ": {" +:+ B +:+ " },") with ("      " +:+ entry.1 +:+ ": " +:+ "{" +:+ B +:+ " },").
  rewrite field_key; [|done|by apply key_of_type].
  assert (E : "{" +:+ B +:+ " }," = (("{" +:+ B +:+ " ") +:+ "}") +:+ ",") by (by rewrite !string_app_assoc).
  assert (Et : trim ("{" +:+ B +:+ " },") = "{" +:+ B +:+ " },").
  { change (trim ("{" +:+ B +:+ " },")) with (trimEnd ("{" +:+ B +:+ " },")). rewrite E. by apply trimEnd_app. }
  rewrite Et, E, drop_comma_app, trimEnd_app by done. rewrite without_last_app.
  change ("{" +:+ B +:+ " ") with (String "{" (B +:+ " ")). cbn iota beta. unfold B. rewrite trim_inner by done.
  rewrite join_lacks; [done|done|]. eapply Forall_impl; [by apply inner_chars|]. intros part Hpart. by apply price_char_lacks.
Qed.

Lemma trim_price price : price.1 ∈ PRICE_BUCKET_NAMES -> 0 <= price.2 -> trim (price_text price) = price_text price /\ trim (" " +:+ price_text price) = price_text price.
Proof.
  intros Hn Hz. assert (E : trimStart (price_text price) = price_text price) by (unfold price_text; by apply trimStart_key, key_of_bucket).
  unfold trim. change (trimStart (" " +:+ price_text price)) with (trimStart (price_text price)). rewrite E.
  by destruct (price_text_digits price Hz) as [_ ->].
Qed.

Lemma inner_split prices :
  prices <> [] -> Forall (fun price => price.1 ∈ PRICE_BUCKET_NAMES /\ 0 <= price.2) prices ->
  List.filter string_nonempty (map trim (split_char "," (join_char "," (inner_text prices)))) = map price_text prices.
Proof.
  intros Hne Hp. rewrite split_join.
  - assert (E : map trim (inner_text prices) = map price_text prices).
    { destruct Hp as [|price prices [Hn Hz] Hp]; [done|]. cbn [inner_text map]. destruct (trim_price price Hn Hz) as [-> _]. f_equal.
      clear Hne. induction Hp as [|p prices [Hn' Hz'] Hp IH]; [done|]. cbn [map]. destruct (trim_price p Hn' Hz') as [_ ->]. by rewrite IH. }
    rewrite E. clear E Hne. induction Hp as [|price prices [Hn Hz] Hp IH]; [done|]. cbn [map List.filter]. rewrite IH.
    by destruct (price_text_digits price Hz) as [Hx _]; destruct (price_text price).
  - by destruct prices.
  - eapply Forall_impl; [by apply inner_chars|]. intros part Hpart. by apply price_char_lacks.
Qed.

Lemma read_inline_entries index type prices operation seen s i typed buckets variants operations metadata :
  type ∉ buckets.*1 -> forall values bucketed,
  Forall (fun price => price.1 ∈ PRICE_BUCKET_NAMES /\ 0 <= price.2 <= MAX_SAFE_INTEGER) prices -> NoDup (values ++ prices.*1) ->
  inline_entries index type (map price_text prices)
    (reading operation (Some "nBucketed") seen s i typed (with_values buckets type values)) (found variants bucketed operations metadata) =
    (reading operation (Some "nBucketed") seen s i typed (with_values buckets type (values ++ prices.*1)),
     found variants (bucketed ++ map (said_bucket operation type) prices) operations metadata).
Proof.
  intros Hfresh. induction prices as [|price prices IH]; intros values bucketed Hp Hn; cbn [map inline_entries].
  - change (@nil (string * Z)).*1 with (@nil string). by rewrite !app_nil_r.
  - apply Forall_cons in Hp as [[Hk Hc] Hp]. rewrite fmap_cons in Hn |- *. rewrite bucket_field_text by (done || lia). unfold bucket_entry.
    rewrite bool_decide_eq_true_2 by done. cbn [negb]. rewrite safe_integer_text by done. cbn [op_bucketNames op_typedKeys reading].
    rewrite listed_with_values, push_with_values by done. rewrite bool_decide_eq_false_2.
    2: { intros Hin. apply NoDup_app in Hn as (_ & Hn & _). apply (Hn _ Hin). by left. }
    cbn [failure_if]. rewrite failed_nothing.
    change (inline_entries index type (map price_text prices) (reading operation (Some "nBucketed") seen s i typed (with_values buckets type (values ++ [price.1])))
      (found variants (bucketed ++ [said_bucket operation type price]) operations metadata) =
      (reading operation (Some "nBucketed") seen s i typed (with_values buckets type (values ++ price.1 :: prices.*1)),
       found variants (bucketed ++ said_bucket operation type price :: map (said_bucket operation type) prices) operations metadata)).
    rewrite IH; [by rewrite <- !app_assoc|done|by rewrite <- app_assoc].
Qed.

Lemma read_inline index entry operation seen s i typed types buckets variants bucketed operations metadata :
  entry.1 ∈ PRICE_TYPE_NAMES -> price_ok PRICE_BUCKET_NAMES entry.2 -> "nBucketed" ∉ typed.*1 -> entry.1 ∉ types -> entry.1 ∉ buckets.*1 ->
  read_line index (inline_line entry)
    (Some (reading operation (Some "nBucketed") seen s i (with_values typed "nBucketed" types) buckets), found variants bucketed operations metadata) =
    (Some (reading operation (Some "nBucketed") seen s i (with_values typed "nBucketed" (types ++ [entry.1])) (buckets ++ [(entry.1, entry.2.*1)])),
     found variants (bucketed ++ map (said_bucket operation entry.1) entry.2) operations metadata).
Proof.
  intros Ht [Hs Hp Hn] Hfresh Hnew Hnew'. unfold read_line.
  assert (E : skipped (inline_line entry) = false) by (unfold inline_line; apply key_line_read; [done|by apply key_of_type]).
  assert (Hp' : Forall (fun price => price.1 ∈ PRICE_BUCKET_NAMES /\ 0 <= price.2) entry.2) by (eapply Forall_impl; [exact Hp|]; intros p [? [? ?]]; by split).
  rewrite E. cbn [op_group op_nestedType reading]. rewrite bool_decide_eq_true_2 by done. unfold nBucketed_line. rewrite buckets_inline by done.
  rewrite bool_decide_eq_true_2 by done. cbn [negb]. rewrite inner_split by done. unfold add_type. cbn [op_typedKeys reading].
  rewrite listed_with_values, push_with_values by done. rewrite bool_decide_eq_false_2 by done. cbn [failure_if]. rewrite failed_nothing.
  pose proof (read_inline_entries index entry.1 entry.2 operation seen s i (with_values typed "nBucketed" (types ++ [entry.1])) buckets variants operations metadata
    Hnew' [] bucketed Hp Hn) as H. cbn [app] in H. rewrite with_values_all in H by done. change (with_values buckets entry.1 []) with buckets in H.
  destruct (map price_text entry.2) as [|text texts] eqn:Et; [by destruct entry.2|]. unfold with_lists. cbn [op_operation op_canonicalOperationName op_group op_nestedType
    op_seenFields op_supportScalar op_numberInputs op_bucketNames reading]. fold (reading operation (Some "nBucketed") seen s i (with_values typed "nBucketed" (types ++ [entry.1])) buckets).
  by rewrite H.
Qed.

Lemma read_inlines entries operation seen s i typed variants operations metadata : forall index types buckets bucketed,
  Forall (fun entry => entry.1 ∈ PRICE_TYPE_NAMES /\ price_ok PRICE_BUCKET_NAMES entry.2) entries ->
  "nBucketed" ∉ typed.*1 -> NoDup (types ++ entries.*1) -> NoDup (buckets.*1 ++ entries.*1) ->
  read_lines index (map inline_line entries)
    (Some (reading operation (Some "nBucketed") seen s i (with_values typed "nBucketed" types) buckets), found variants bucketed operations metadata) =
    (Some (reading operation (Some "nBucketed") seen s i (with_values typed "nBucketed" (types ++ entries.*1)) (buckets ++ map (fun entry => (entry.1, entry.2.*1)) entries)),
     found variants (bucketed ++ concat (map (fun entry => map (said_bucket operation entry.1) entry.2) entries)) operations metadata).
Proof.
  induction entries as [|entry entries IH]; intros index types buckets bucketed He Hfresh Hn Hn'; cbn [map concat read_lines].
  - change (@nil (string * list (string * Z))).*1 with (@nil string). by rewrite !app_nil_r.
  - apply Forall_cons in He as [[Ht Hok] He]. rewrite fmap_cons in Hn, Hn' |- *.
    assert (H1 : entry.1 ∉ types) by (intros Hx; apply NoDup_app in Hn as (_ & Hn & _); apply (Hn _ Hx); by left).
    assert (H2 : entry.1 ∉ buckets.*1) by (intros Hx; apply NoDup_app in Hn' as (_ & Hn' & _); apply (Hn' _ Hx); by left).
    rewrite read_inline by done. rewrite IH; [by rewrite <- !app_assoc|done|done|by rewrite <- app_assoc|].
    rewrite fmap_app, <- app_assoc. exact Hn'.
Qed.

Lemma read_buckets entries operation seen s i typed variants bucketed operations metadata index :
  Forall (fun entry => entry.1 ∈ PRICE_TYPE_NAMES /\ price_ok PRICE_BUCKET_NAMES entry.2) entries -> NoDup entries.*1 ->
  "nBucketed" ∉ typed.*1 -> "nBucketed" ∉ seen ->
  exists seen', read_lines index (bucket_lines entries) (Some (reading operation None seen s i typed []), found variants bucketed operations metadata) =
    (Some (reading operation None seen' s i (typed ++ said_nBucketed entries) (map (fun entry => (entry.1, entry.2.*1)) entries)),
     found variants (bucketed ++ concat (map (fun entry => map (said_bucket operation entry.1) entry.2) entries)) operations metadata).
Proof.
  intros He Hn Ht Hs. destruct entries as [|entry entries].
  - exists seen. cbn. by rewrite !app_nil_r.
  - exists (seen ++ ["nBucketed"]). unfold bucket_lines. cbn [read_lines]. change "    nBucketed: {" with ("    " +:+ "nBucketed" +:+ ": {").
    rewrite read_open; [|unfold PRICE_GROUPS; set_solver|done]. rewrite read_lines_app. change typed with (with_values typed "nBucketed" []) at 1.
    rewrite read_inlines; [|done|done|done|exact Hn]. cbn [read_lines]. by rewrite read_close.
Qed.

(** *** An operation *)
Lemma Z_toString_opposite z : 0 < z -> Z_toString (- z) = String "-" (Z_toString z).
Proof. by destruct z. Qed.

Record integer_text (text : string) (z : Z) : Prop := {
  it_visible : ends_visible text; it_solid : string_forall (fun c => negb (is_space c)) text = true;
  it_number : is_number_text (match text with String "-" rest => rest | _ => text end) = true; it_value : safe_integer text = Some z
}.
Lemma toString_integer z : Z.abs z <= MAX_SAFE_INTEGER -> integer_text (Z_toString z) z.
Proof.
  intros Hz. destruct (Z.le_gt_cases 0 z) as [Hp|Hn].
  - pose proof (Z_toString_digits z Hp) as Hd. destruct (digits_visible _ Hd) as [Hv Hs]. split; [done|done| |apply safe_integer_text; lia].
    pose proof (number_text_digits _ Hd) as Ht. destruct (Z_toString z) as [|c text]; [done|]. unfold matches_digits in Hd. cbn in Hd. apply andb_true_iff in Hd as [Hc _].
    repeat case_match; done.
  - pose proof (Z_toString_opposite (- z) ltac:(lia)) as E. rewrite Z.opp_involutive in E. rewrite E.
    pose proof (Z_toString_digits (- z) ltac:(lia)) as Hd. destruct (digits_visible _ Hd) as [Hv Hs]. split.
    + by apply (ends_visible_app "-").
    + cbn [string_forall]. by rewrite Hs.
    + by apply number_text_digits.
    + unfold safe_integer. cbn [without_underscores]. change (Ascii.eqb "-" "_") with false. cbn iota.
      pose proof Hd as Hd'. unfold matches_digits in Hd'. apply andb_true_iff in Hd' as [_ Hd']. rewrite digits_without_underscores by done.
      unfold BigInt_of_string. rewrite trim_no_space by (cbn [string_forall]; by rewrite Hs). cbn iota beta. rewrite Hd, BigInt_toString by lia.
      cbn [mbind result_bind]. change (Z.neg 1 * - z) with (-1 * - z). replace (-1 * - z) with z by lia. by rewrite (proj2 (Z.leb_le _ _)).
Qed.

Definition inputs_line (z : Z) : string := "    numberInputs: " +:+ Z_toString z +:+ ",".
Lemma read_inputs index z operation seen support typed buckets f :
  Z.abs z <= MAX_SAFE_INTEGER -> "numberInputs" ∉ seen ->
  read_line index (inputs_line z) (Some (reading operation None seen support None typed buckets), f) =
    (Some (reading operation None (seen ++ ["numberInputs"]) support (Some (Some z)) typed buckets), f).
Proof.
  intros Hz Hn. destruct (toString_integer z Hz) as [[_ Hv] Hs Hd Hi]. unfold inputs_line, read_line.
  change ("    numberInputs: " +:+ Z_toString z +:+ ",") with ("    " +:+ "numberInputs" +:+ ": " +:+ Z_toString z +:+ ",").
  rewrite key_line_read by done. cbn [op_group reading].
  assert (E : field ("    " +:+ "numberInputs" +:+ ": " +:+ Z_toString z +:+ ",") = Some ("numberInputs", Z_toString z +:+ ",")).
  { rewrite field_key by done. rewrite trim_no_space; [done|]. by rewrite string_forall_app, Hs. }
  unfold operator_line, PRICE_BOOLEAN_FIELD, PRICE_NUMBER_INPUTS_FIELD. rewrite E. cbn iota beta. rewrite drop_comma_app, Hv, Hd, Hi.
  unfold duplicate_field. cbn [op_seenFields reading]. rewrite !bool_decide_eq_false_2 by done. cbn [failure_if app]. by rewrite failed_nothing.
Qed.

Lemma read_support index (support : bool) operation f :
  read_line index ("    supportScalar: " +:+ (if support then "true" else "false") +:+ ",") (Some (opened operation (Some (capitalised operation))), f) =
    (Some (reading operation None ["supportScalar"] (Some support) None [] []), f).
Proof.
  assert (E : skipped ("    supportScalar: " +:+ (if support then "true" else "false") +:+ ",") = false /\
    PRICE_BOOLEAN_FIELD ("    supportScalar: " +:+ (if support then "true" else "false") +:+ ",") = Some support) by (destruct support; split; by vm_compute).
  destruct E as [E1 E2]. unfold read_line. rewrite E1. cbn [op_group opened]. unfold operator_line. rewrite E2.
  change (duplicate_field index "supportScalar" (opened operation (Some (capitalised operation)))) with (@nil string). by rewrite failed_nothing.
Qed.

Lemma operation_open_lines :
  forallb (fun name => let line := "  " +:+ name +:+ ": {" in
    negb (skipped line) && negb (PRICE_ROOT_BLOCK line) && bool_decide (PRICE_OPERATION_BLOCK line = Some name)) PRICE_SOURCE_OPERATION_NAMES = true.
Proof. by vm_compute. Qed.

Lemma read_operation_open index operation variants bucketed operations metadata :
  operation ∈ PRICE_SOURCE_OPERATION_NAMES -> operation ∉ operations ->
  read_line index ("  " +:+ operation +:+ ": {") (None, found variants bucketed operations metadata) =
    (Some (opened operation (Some (capitalised operation))), found variants bucketed (operations ++ [operation]) metadata).
Proof.
  intros Hk Hn. pose proof operation_open_lines as H. rewrite forallb_forall in H. specialize (H operation (proj1 (list_elem_of_In _ _) Hk)). cbv zeta beta in H.
  apply andb_true_iff in H as [[H1%negb_true_iff H2%negb_true_iff]%andb_true_iff H3%bool_decide_eq_true]. unfold read_line. rewrite H1.
  unfold outside_line. rewrite H2, H3. rewrite (proj2 (canonicalize_Ok operation _) (conj Hk eq_refl)). cbn [app fd_operations found].
  rewrite bool_decide_eq_false_2 by done. cbn [failure_if]. by rewrite failed_nothing.
Qed.

Lemma read_operation_close index operation seen support inputs typed buckets variants bucketed operations metadata :
  operation ∉ metadata.*1 ->
  read_line index "  }," (Some (reading operation None seen (Some support) (Some inputs) typed buckets), found variants bucketed operations metadata) =
    (None, found variants bucketed operations (metadata ++ [(operation, {| xo_supportScalar := support; xo_numberInputs := inputs;
       xo_groups := js_sort compare_code_units typed.*1; xo_typedKeys := sorted_lists typed; xo_bucketNames := sorted_lists buckets |})])).
Proof.
  intros Hn. assert (E : skipped "  }," = false /\ PRICE_BOOLEAN_FIELD "  }," = None /\ PRICE_NUMBER_INPUTS_FIELD "  }," = None /\
    PRICE_GROUP_BLOCK "  }," = None /\ PRICE_CLOSE "  }," = true) by (repeat split; by vm_compute).
  destruct E as (E1 & E2 & E3 & E4 & E5). unfold read_line. rewrite E1. cbn [op_group reading]. unfold operator_line. rewrite E2, E3, E4, E5.
  unfold finishOperation. cbn [op_supportScalar op_numberInputs op_operation op_typedKeys op_bucketNames reading].
  rewrite !bool_decide_eq_false_2 by done. cbn [failure_if app]. rewrite failed_nothing. unfold with_metadata, found. cbn. by rewrite map_set_fresh by (by apply map_get_fresh).
Qed.

Lemma read_operation o index variants bucketed operations metadata :
  operation_ok o -> po_operation o ∈ PRICE_SOURCE_OPERATION_NAMES -> po_operation o ∉ operations -> po_operation o ∉ metadata.*1 ->
  read_lines index (operation_lines o) (None, found variants bucketed operations metadata) =
    (None, found (variants ++ said_variants o) (bucketed ++ said_bucketed o) (operations ++ [po_operation o]) (metadata ++ [(po_operation o, said_metadata o)])).
Proof.
  intros [Hi Hg Hgn Hb Hbn] Hk Hn Hm. unfold operation_lines. cbn [read_lines]. rewrite read_operation_open by done. rewrite read_support.
  fold (inputs_line (po_numberInputs o)). rewrite read_inputs; [|done|by intros [=]%list_elem_of_singleton].
  assert (Hplain : forall name, name ∈ (po_groups o).*1 -> name ∈ PLAIN_GROUPS).
  { intros name Hin. apply list_elem_of_fmap in Hin as (g & -> & Hin). rewrite Forall_forall in Hg. by destruct (Hg _ Hin). }
  assert (Hnb : "nBucketed" ∉ (po_groups o).*1) by (intros H%Hplain; unfold PLAIN_GROUPS in H; set_solver).
  assert (Hnd : NoDup (["supportScalar"; "numberInputs"] ++ (po_groups o).*1)).
  { apply NoDup_app. split; [repeat constructor; set_solver|]. split; [|done]. intros x Hx Hin%Hplain. unfold PLAIN_GROUPS in Hin. set_solver. }
  rewrite read_lines_app, read_groups; [|done|exact Hnd|exact Hgn]. rewrite read_lines_app.
  match goal with |- context [read_lines ?n (bucket_lines (po_buckets o)) (Some (reading ?a None ?b ?c ?d ?e []), found ?g ?h ?j ?k)] =>
    destruct (read_buckets (po_buckets o) a b c d e g h j k n) as [seen' Eb] end; [done|done| | |].
  - cbn [app]. change ((map (fun group => (group.1, group.2.*1)) (po_groups o)).*1) with (fst <$> ((fun group : string * list (string * Z) => (group.1, group.2.*1)) <$> po_groups o)).
    rewrite <- list_fmap_compose. exact Hnb.
  - rewrite !not_elem_of_app. split; [|exact Hnb]. set_solver.
  - rewrite Eb. cbn [read_lines app]. by rewrite read_operation_close.
Qed.

(** *** The table *)
Record table_ok (table : list PricedOperation) : Prop := {
  tk_operations : Forall operation_ok table;
  tk_names : map po_operation table ≡ₚ PRICE_SOURCE_OPERATION_NAMES;
  tk_some : concat (map said_variants table) <> []
}.

Lemma read_operations table : forall index variants bucketed operations metadata,
  Forall operation_ok table -> Forall (fun o => po_operation o ∈ PRICE_SOURCE_OPERATION_NAMES) table ->
  NoDup (operations ++ map po_operation table) -> metadata.*1 = operations ->
  read_lines index (concat (map operation_lines table)) (None, found variants bucketed operations metadata) =
    (None, found (variants ++ concat (map said_variants table)) (bucketed ++ concat (map said_bucketed table)) (operations ++ map po_operation table)
       (metadata ++ map (fun o => (po_operation o, said_metadata o)) table)).
Proof.
  induction table as [|o table IH]; intros index variants bucketed operations metadata Ho Hk Hn Hm; cbn [map concat].
  - cbn [read_lines]. by rewrite !app_nil_r.
  - apply Forall_cons in Ho as [Hok Ho]. apply Forall_cons in Hk as [Hko Hk]. cbn [map] in Hn.
    assert (Hnew : po_operation o ∉ operations) by (intros Hx; apply NoDup_app in Hn as (_ & Hn & _); apply (Hn _ Hx); by left).
    rewrite read_lines_app, read_operation; [|done|done|done|by rewrite Hm]. rewrite IH; [by rewrite <- !app_assoc|done|done|by rewrite <- app_assoc|].
    by rewrite fmap_app, Hm.
Qed.

(** No line holds a line feed or a carriage return. *)
Definition line_char (c : ascii) : bool := negb (Ascii.eqb c newline) && negb (Ascii.eqb c carriage_return).
Definition one_line (line : string) : Prop := string_forall line_char line = true.
Lemma one_line_app a b : one_line a -> one_line b -> one_line (a +:+ b).
Proof. unfold one_line. rewrite string_forall_app. by intros -> ->. Qed.
Lemma one_line_name name : is_key name = true -> one_line name.
Proof.
  unfold is_key. destruct name as [|c name]; [done|]. intros [_ H]%andb_true_iff. apply (string_forall_impl is_word); [|done].
  intros d. destruct d as [[] [] [] [] [] [] [] []]; vm_compute; congruence.
Qed.
Lemma one_line_solid text : string_forall (fun c => negb (is_space c)) text = true -> one_line text.
Proof. apply string_forall_impl. intros c. destruct c as [[] [] [] [] [] [] [] []]; vm_compute; congruence. Qed.
Lemma one_line_number z : Z.abs z <= MAX_SAFE_INTEGER -> one_line (Z_toString z).
Proof. intros Hz. apply one_line_solid. by destruct (toString_integer z Hz). Qed.

Lemma one_line_price price (names : list string) :
  (forall name, name ∈ names -> is_key name = true) -> price.1 ∈ names /\ 0 <= price.2 <= MAX_SAFE_INTEGER -> one_line (price_text price).
Proof. intros Hk [Hn Hz]. unfold price_text. apply one_line_app; [by apply one_line_name, Hk|]. apply one_line_app; [done|]. apply one_line_number. lia. Qed.

Lemma one_line_join parts : Forall one_line parts -> one_line (join_char "," parts).
Proof.
  induction 1 as [|part parts Hp Hps IH]; [done|]. destruct parts as [|part' parts]; [done|].
  change (join_char "," (part :: part' :: parts)) with (part +:+ "," +:+ join_char "," (part' :: parts)). apply one_line_app; [done|]. by apply one_line_app.
Qed.

Lemma one_line_group group : group.1 ∈ PLAIN_GROUPS -> price_ok PRICE_TYPE_NAMES group.2 -> Forall one_line (group_lines group).
Proof.
  intros Hg [_ Hp _]. constructor.
  - unfold PLAIN_GROUPS in Hg. repeat (apply elem_of_cons in Hg as [->|Hg]; [done|]). by apply elem_of_nil in Hg.
  - apply Forall_app. split; [|by repeat constructor]. apply Forall_map. eapply Forall_impl; [exact Hp|]. intros price H.
    unfold price_line. cbv beta. apply one_line_app; [done|]. apply one_line_app; [|done]. by apply (one_line_price _ PRICE_TYPE_NAMES key_of_type).
Qed.
Lemma one_line_buckets entries :
  Forall (fun entry => entry.1 ∈ PRICE_TYPE_NAMES /\ price_ok PRICE_BUCKET_NAMES entry.2) entries -> Forall one_line (bucket_lines entries).
Proof.
  intros He. destruct entries as [|entry entries]; [constructor|]. unfold bucket_lines. constructor; [done|]. apply Forall_app. split; [|by repeat constructor].
  apply Forall_map. eapply Forall_impl; [exact He|]. intros e [Ht [_ Hp _]]. unfold inline_line. cbv beta. apply one_line_app; [done|]. apply one_line_app; [by apply one_line_name, key_of_type|].
  apply one_line_app; [done|]. apply one_line_app; [|done]. apply one_line_join, Forall_map. eapply Forall_impl; [exact Hp|]. intros price H. cbv beta.
  apply one_line_app; [done|]. by apply (one_line_price _ PRICE_BUCKET_NAMES key_of_bucket).
Qed.

Lemma one_line_operation o : operation_ok o -> po_operation o ∈ PRICE_SOURCE_OPERATION_NAMES -> Forall one_line (operation_lines o).
Proof.
  intros [Hi Hg _ Hb _] Hk. unfold operation_lines. constructor; [|constructor; [by destruct (po_supportScalar o)|constructor]].
  - apply one_line_app; [done|]. apply one_line_app; [|done].
    assert (Hs : forallb (fun name => string_forall line_char name) PRICE_SOURCE_OPERATION_NAMES = true) by (vm_compute; reflexivity).
    rewrite forallb_forall in Hs. exact (Hs _ (proj1 (list_elem_of_In _ _) Hk)).
  - apply one_line_app; [done|]. apply one_line_app; [by apply one_line_number|done].
  - apply Forall_app. split; [|apply Forall_app; split; [by apply one_line_buckets|by repeat constructor]].
    apply Forall_concat, Forall_map. eapply Forall_impl; [exact Hg|]. intros group [? ?]. by apply one_line_group.
Qed.

Lemma without_returns_same lines : Forall one_line lines -> without_returns lines = lines.
Proof.
  induction 1 as [|line lines Hl Hls IH]; [done|]. cbn [without_returns]. destruct lines as [|line' lines]; [done|]. rewrite IH. f_equal.
  unfold without_return. assert (E : without_last carriage_return line = None); [|by rewrite E]. clear -Hl. unfold one_line in Hl.
  induction line as [|c line IH]; [done|]. cbn [string_forall] in Hl. apply andb_true_iff in Hl as [[_ Hc]%andb_true_iff Hl]. cbn [without_last].
  destruct line; [by rewrite (proj1 (negb_true_iff _) Hc)|]. by rewrite IH.
Qed.

Lemma split_table table :
  Forall operation_ok table -> Forall (fun o => po_operation o ∈ PRICE_SOURCE_OPERATION_NAMES) table -> split_lines (print_table table) = table_lines table.
Proof.
  intros Ho Hk. assert (Hl : Forall one_line (table_lines table)).
  { constructor; [done|]. apply Forall_app. split; [|by repeat constructor]. apply Forall_concat, Forall_map. apply Forall_forall. intros o Hin.
    rewrite Forall_forall in Ho, Hk. apply one_line_operation; auto. }
  unfold split_lines, print_table. rewrite split_join; [by apply without_returns_same|done|]. eapply Forall_impl; [exact Hl|]. intros line. unfold one_line, lacks.
  apply string_forall_impl. intros c. unfold line_char. by intros [? _]%andb_true_iff.
Qed.

(** C21: a table with the known operations, printed in the layout of the official file, is
    read back: its prices, its buckets and its metadata, and no failure. *)
Theorem extractPriceSchedule_print localeCompare subject sha256 table :
  table_ok table ->
  extractPriceSchedule localeCompare {| am_subject := subject; am_text := print_table table; am_contentSha256 := sha256 |} = {|
    xs_extractorId := PRICE_SCHEDULE_EXTRACTOR_id; xs_extractorVersion := PRICE_SCHEDULE_EXTRACTOR_version; xs_sourceContentSha256 := sha256;
    xs_operations := js_sort compare_code_units (map po_operation table); xs_canonicalOperations := HCU_OPERATION_CANONICAL_NAMES;
    xs_variants := js_sort (fun left right => localeCompare (variant_text left) (variant_text right)) (concat (map said_variants table));
    xs_bucketedVariants := js_sort (fun left right => localeCompare (bucketed_text left) (bucketed_text right)) (concat (map said_bucketed table));
    xs_operatorMetadata := map (fun o => (po_operation o, said_metadata o)) table; xs_failures := [] |}.
Proof.
  intros [Ho Hp Hs]. assert (Hk : Forall (fun o => po_operation o ∈ PRICE_SOURCE_OPERATION_NAMES) table).
  { apply Forall_forall. intros o Hin. rewrite <- Hp. by apply (list_elem_of_fmap_2 po_operation). }
  assert (Hn : NoDup (map po_operation table)) by (rewrite Hp; exact source_names_NoDup).
  unfold extractPriceSchedule. cbn [am_text am_contentSha256]. rewrite split_table by done. unfold table_lines. cbn [read_lines].
  assert (E0 : read_line 0 "export const ALL_OPERATORS_PRICES: PriceData = {" (None, nothing_found) = (None, found [] [] [] [])) by by vm_compute.
  rewrite E0, read_lines_app, read_operations; [|done|done|done|done]. cbn [app read_lines].
  assert (E1 : forall index f, read_line index "};" (None, f) = (None, f)).
  { intros index f. unfold read_line, outside_line. assert (E : skipped "};" = false /\ PRICE_ROOT_BLOCK "};" = false /\ PRICE_OPERATION_BLOCK "};" = None) by (repeat split; by vm_compute).
    by destruct E as (-> & -> & ->). }
  assert (E2 : forall index state, read_line index "" state = state) by done.
  rewrite E1, E2. cbn [fd_operations fd_failures fd_variants fd_bucketedVariants fd_operatorMetadata found app].
  pose proof (proj2 (derivePriceOperationIdentities_exact _) Hp) as Hi. pose proof Hi as Hd. unfold derivePriceOperationIdentities in Hd. cbn [snd] in Hd.
  rewrite sorted_nil, js_set_nil in Hd. apply app_nil in Hd as [Hd _]. destruct (identities_spec _ Hd) as (_ & _ & Hid).
  rewrite Hi, Hid, canonical_of_identities. rewrite bool_decide_eq_false_2 by done. cbn [failure_if app].
  rewrite (sort_permutation (map capitalised (map po_operation table)) HCU_OPERATION_CANONICAL_NAMES); [|by rewrite Hp, capitalised_sources]. f_equal; by vm_compute.
Qed.

(** The checks of [table_ok] as a program. *)
Definition price_ok_b (names : list string) (prices : list (string * Z)) : bool :=
  negb (bool_decide (prices = [])) && forallb (fun price => bool_decide (price.1 ∈ names) && (0 <=? price.2) && (price.2 <=? MAX_SAFE_INTEGER)) prices
    && bool_decide (NoDup prices.*1).
Definition operation_ok_b (o : PricedOperation) : bool :=
  (Z.abs (po_numberInputs o) <=? MAX_SAFE_INTEGER) &&
  forallb (fun group => bool_decide (group.1 ∈ PLAIN_GROUPS) && price_ok_b PRICE_TYPE_NAMES group.2) (po_groups o) && bool_decide (NoDup (po_groups o).*1) &&
  forallb (fun entry => bool_decide (entry.1 ∈ PRICE_TYPE_NAMES) && price_ok_b PRICE_BUCKET_NAMES entry.2) (po_buckets o) && bool_decide (NoDup (po_buckets o).*1).
Definition table_ok_b (table : list PricedOperation) : bool :=
  forallb operation_ok_b table && bool_decide (map po_operation table ≡ₚ PRICE_SOURCE_OPERATION_NAMES) && negb (bool_decide (length (concat (map said_variants table)) = O)).

Lemma price_ok_true names prices : price_ok_b names prices = true -> price_ok names prices.
Proof.
  intros [[H1 H2]%andb_true_iff H3%bool_decide_eq_true]%andb_true_iff. split; [by apply negb_true_iff, bool_decide_eq_false in H1| |done].
  apply Forall_forall. intros price Hin. rewrite forallb_forall in H2. specialize (H2 price (proj1 (list_elem_of_In _ _) Hin)). cbv beta in H2.
  apply andb_true_iff in H2 as [[Hn%bool_decide_eq_true H%Z.leb_le]%andb_true_iff H'%Z.leb_le]. by split.
Qed.

Lemma entries_ok_true (keys names : list string) entries :
  forallb (fun entry : string * list (string * Z) => bool_decide (entry.1 ∈ keys) && price_ok_b names entry.2) entries = true ->
  Forall (fun entry => entry.1 ∈ keys /\ price_ok names entry.2) entries.
Proof.
  intros H. apply Forall_forall. intros entry Hin. rewrite forallb_forall in H. specialize (H entry (proj1 (list_elem_of_In _ _) Hin)). cbv beta in H.
  apply andb_true_iff in H as [Hk%bool_decide_eq_true Hp]. split; [done|]. by apply price_ok_true.
Qed.

Lemma table_ok_true table : table_ok_b table = true -> table_ok table.
Proof.
  unfold table_ok_b. intros [[Ho Hp%bool_decide_eq_true]%andb_true_iff Hs%negb_true_iff%bool_decide_eq_false]%andb_true_iff. split; [|done|by intros E; rewrite E in Hs].
  apply Forall_forall. intros o Hin. rewrite forallb_forall in Ho. specialize (Ho o (proj1 (list_elem_of_In _ _) Hin)). unfold operation_ok_b in Ho.
  rewrite !andb_true_iff in Ho. destruct Ho as [[[[Hi%Z.leb_le Hg] Hgn%bool_decide_eq_true] Hb] Hbn%bool_decide_eq_true].
  split; [done|by apply entries_ok_true|done|by apply entries_ok_true|done].
Qed.

Lemma official_prices_ok : table_ok_b official_prices = true.
Proof. by vm_compute. Qed.


Lemma extractPriceSchedule_print_witness :
  table_ok official_prices /\
  xs_operatorMetadata (extractPriceSchedule compare_code_units official_material) = map (fun o => (po_operation o, said_metadata o)) official_prices.
Proof.
  pose proof (table_ok_true official_prices official_prices_ok) as H. split; [exact H|].
  unfold official_material. rewrite (extractPriceSchedule_print compare_code_units "operationSchedule" "" official_prices H). reflexivity.
Defined.

(** The official table with other lines for the buckets of [fheSum] at [Uint8]. *)
Definition with_sum_buckets (lines : list string) : AuthenticatedMaterial := {|
  am_subject := "operationSchedule"; am_contentSha256 := "";
  am_text := join_char newline (concat (map (fun line => if startsWith "      Uint8: { le10: 90900" line then lines else [line]) (table_lines official_prices))) |}.

(** A bucket map without an entry is a failure on one line, and none on two: the type is
    then listed without a price. *)
Theorem empty_bucket_map_read :
  xs_failures (extractPriceSchedule compare_code_units (with_sum_buckets ["      Uint8: { },"])) = ["EMPTY_BUCKET_MAP:fheSum.Uint8:line475"] /\
  let schedule := extractPriceSchedule compare_code_units (with_sum_buckets ["      Uint8: {"; "      },"]) in
  xs_failures schedule = [] /\
  exists metadata, map_get "fheSum" (xs_operatorMetadata schedule) = Some metadata /\
    "Uint8" ∈ listed "nBucketed" (xo_typedKeys metadata) /\ listed "Uint8" (xo_bucketNames metadata) = [].
Proof.
  split; [vm_compute; reflexivity|]. cbv zeta. split; [vm_compute; reflexivity|].
  destruct (map_get "fheSum" _) as [metadata|] eqn:E; [|vm_compute in E; discriminate]. exists metadata. split; [reflexivity|].
  vm_compute in E. injection E as <-. split; [|vm_compute; reflexivity]. refine (bool_decide_eq_true_1 (_ ∈ _) _). vm_compute. reflexivity.
Qed.
