(* ===== verification/HcuControls.v ===== *)
(** * The controls of the authority: scripts/sg4-hcu-authority-protocol.ts, sg4-hcu-authority.ts

    Three controls bound a transaction: its total, its depth, and what a block may hold.
    Each is declared with the state of what is known of it; [validateControl] says which
    declarations are coherent.  [buildPreparedControls] declares them before any contact
    with the chain, and [classifyBlockOrBatchControl] judges the third from the surface of
    the contract.  The safety gate compares measurements with three quarters of the
    limits, exclusively. *)
From Stdlib Require Import ZArith Lia Ascii.
From stdpp Require Import base option list strings.
From S2P Require Import Prelude Sg4Protocol HcuJson HcuAbi HcuSource.
Local Open Scope Z_scope.

(** ** The limits *)
Inductive LiveLimitSemantics : Type :=
  CONFIGURED_CEILING_INCLUSIVE_REVERT_ON_GREATER_THAN | CONFIGURED_CEILING_EXCLUSIVE_REVERT_ON_GREATER_THAN_OR_EQUAL
| SEMANTICS_UNRESOLVED.
Definition greatestAcceptedValue (semantics : LiveLimitSemantics) (ceiling : Z) : option Z :=
  match semantics with
  | CONFIGURED_CEILING_INCLUSIVE_REVERT_ON_GREATER_THAN => Some ceiling
  | CONFIGURED_CEILING_EXCLUSIVE_REVERT_ON_GREATER_THAN_OR_EQUAL => Some (ceiling - 1)
  | SEMANTICS_UNRESOLVED => None
  end.

Definition TRANSACTION_TOTAL_HCU_LIMIT : Z := HCU_TRANSACTION_TOTAL_CEILING.
Definition TRANSACTION_DEPTH_HCU_LIMIT : Z := HCU_TRANSACTION_DEPTH_CEILING.
Definition TOTAL_SAFETY_THRESHOLD : Z := HCU_TOTAL_SAFETY_THRESHOLD.
Definition DEPTH_SAFETY_THRESHOLD : Z := HCU_DEPTH_SAFETY_THRESHOLD.

(** ** The safety gate *)
Inductive Metric : Type := metric_globalHCU | metric_maxHCUDepth.
Definition metric_text (metric : Metric) : string := match metric with metric_globalHCU => "globalHCU" | metric_maxHCUDepth => "maxHCUDepth" end.
Definition MEASUREMENT_MAPPING (metric : Metric) : string :=
  match metric with metric_globalHCU => "TRANSACTION_TOTAL_HCU" | metric_maxHCUDepth => "TRANSACTION_DEPTH_HCU" end.

Record SafetyEvaluation := { se_metric : string; se_control : string; se_threshold : string; se_value : string; se_pass : bool }.
Definition evaluateSafety (metric : Metric) (value : Z) : SafetyEvaluation :=
  let threshold := match metric with metric_globalHCU => TOTAL_SAFETY_THRESHOLD | metric_maxHCUDepth => DEPTH_SAFETY_THRESHOLD end in
  {| se_metric := metric_text metric; se_control := MEASUREMENT_MAPPING metric; se_threshold := Z_toString threshold;
     se_value := Z_toString value; se_pass := value <? threshold |}.

Record CombinedHcuInput := { ci_globalHCU : option Z; ci_maxHCUDepth : option Z }.
Record CombinedHcu := {
  ch_totalPresent : bool; ch_depthPresent : bool; ch_totalSafetyPass : bool; ch_depthSafetyPass : bool; ch_go : bool;
  ch_reasons : list string
}.
Definition present_below (value : option Z) (threshold : Z) : bool := match value with Some v => v <? threshold | None => false end.
Definition evaluateCombinedHcu (input : CombinedHcuInput) : CombinedHcu :=
  let totalPresent := bool_decide (is_Some (ci_globalHCU input)) in
  let depthPresent := bool_decide (is_Some (ci_maxHCUDepth input)) in
  let totalSafetyPass := totalPresent && present_below (ci_globalHCU input) TOTAL_SAFETY_THRESHOLD in
  let depthSafetyPass := depthPresent && present_below (ci_maxHCUDepth input) DEPTH_SAFETY_THRESHOLD in
  {| ch_totalPresent := totalPresent; ch_depthPresent := depthPresent; ch_totalSafetyPass := totalSafetyPass;
     ch_depthSafetyPass := depthSafetyPass; ch_go := totalSafetyPass && depthSafetyPass;
     ch_reasons :=
       (if negb totalPresent then ["MISSING_GLOBAL_HCU"] else []) ++ (if negb depthPresent then ["MISSING_MAX_HCU_DEPTH"] else []) ++
       (if totalPresent && negb totalSafetyPass then ["TOTAL_SAFETY_BOUNDARY_EXCEEDED_OR_EQUALLED"] else []) ++
       (if depthPresent && negb depthSafetyPass then ["DEPTH_SAFETY_BOUNDARY_EXCEEDED_OR_EQUALLED"] else []) |}.

(** ** Controls *)
Inductive AuthorityState : Type :=
  PROVEN_PRESENT | PROVEN_ABSENT_IN_VERIFIED_IMPLEMENTATION | LOCAL_EXPECTED_PENDING_LIVE_BINDING | UNRESOLVED | NOT_APPLICABLE.
#[export] Instance AuthorityState_eq_dec : EqDecision AuthorityState.
Proof. solve_decision. Defined.
Inductive LiveDeploymentBinding : Type := BOUND_TO_VERIFIED_DEPLOYED_IMPLEMENTATION | PENDING_LIVE_DEPLOYMENT_BINDING.
#[export] Instance LiveDeploymentBinding_eq_dec : EqDecision LiveDeploymentBinding.
Proof. solve_decision. Defined.

Record ControlDeclaration := {
  cd_metricId : string; cd_scope : string; cd_unit : string; cd_authorityState : AuthorityState; cd_value : option string;
  cd_absenceReason : option string; cd_verificationMethod : string; cd_sourceImplementation : string;
  cd_applicabilityConclusion : string; cd_liveDeploymentBinding : LiveDeploymentBinding; cd_blocking : bool
}.

Definition controlIsBlocking (state : AuthorityState) : bool :=
  bool_decide (state = UNRESOLVED) || bool_decide (state = LOCAL_EXPECTED_PENDING_LIVE_BINDING).

Definition authority_invariant (condition : bool) (message : string) : result unit :=
  fail_if (negb condition) ("SG4 HCU-authority protocol invariant failed: " +:+ message).

Definition validateControl (control : ControlDeclaration) : result unit :=
  let id := cd_metricId control in
  let bound := bool_decide (cd_liveDeploymentBinding control = BOUND_TO_VERIFIED_DEPLOYED_IMPLEMENTATION) in
  let valued := bool_decide (is_Some (cd_value control)) in
  match cd_authorityState control with
  | PROVEN_PRESENT =>
      authority_invariant valued (id +:+ ": PROVEN_PRESENT requires a numeric value") ;;
      authority_invariant (string_nonempty (cd_unit control) && string_nonempty (cd_scope control)) (id +:+ ": unit and scope required") ;;
      authority_invariant (string_nonempty (cd_verificationMethod control)) (id +:+ ": verified enforcement path required for PROVEN_PRESENT") ;;
      authority_invariant bound (id +:+ ": PROVEN_PRESENT requires a live deployment binding")
  | LOCAL_EXPECTED_PENDING_LIVE_BINDING =>
      authority_invariant valued (id +:+ ": local expected value required") ;;
      authority_invariant (cd_blocking control) (id +:+ ": an unbound local expectation must be blocking") ;;
      authority_invariant (negb bound) (id +:+ ": local expectation must declare a pending live binding")
  | PROVEN_ABSENT_IN_VERIFIED_IMPLEMENTATION =>
      authority_invariant (negb valued) (id +:+ ": PROVEN_ABSENT forbids a numeric value") ;;
      authority_invariant (includes "ENUMERAT" (cd_verificationMethod control)) (id +:+ ": PROVEN_ABSENT requires exhaustive enumeration") ;;
      authority_invariant (string_nonempty (cd_sourceImplementation control)) (id +:+ ": PROVEN_ABSENT requires implementation identity") ;;
      authority_invariant bound (id +:+ ": PROVEN_ABSENT requires a verified deployed implementation")
  | UNRESOLVED => authority_invariant (cd_blocking control) (id +:+ ": UNRESOLVED must be blocking")
  | NOT_APPLICABLE =>
      authority_invariant (match cd_absenceReason control with Some reason => string_nonempty reason | None => false end)
        (id +:+ ": NOT_APPLICABLE requires an explicit reason")
  end ;;
  authority_invariant (eqb (cd_blocking control) (controlIsBlocking (cd_authorityState control)))
    (id +:+ ": blocking flag inconsistent with authority state").

Definition buildPreparedControls : list ControlDeclaration :=
  [{| cd_metricId := "TRANSACTION_TOTAL_HCU"; cd_scope := "PER_TRANSACTION"; cd_unit := "HCU"; cd_authorityState := LOCAL_EXPECTED_PENDING_LIVE_BINDING; cd_value := Some (Z_toString TRANSACTION_TOTAL_HCU_LIMIT);
     cd_absenceReason := None;
     cd_verificationMethod := "Constant MAX_HOMOMORPHIC_COMPUTE_UNITS_PER_TX read from the installed, integrity-pinned implementation and confirmed by its enforcement path _updateAndVerifyHCUTransactionLimit, which reverts HCUTransactionLimitExceeded when the accumulated transaction total is greater than or equal to the constant. This is a local expectation: it is not yet bound to the implementation deployed behind the authority proxy at a pinned block.";
     cd_sourceImplementation := "@fhevm/host-contracts@0.10.0 contracts/HCULimit.sol";
     cd_applicabilityConclusion := "EXPECTED_APPLICABLE_TO_EVERY_SG4_MEASURED_TRANSACTION_PENDING_LIVE_BINDING";
     cd_liveDeploymentBinding := PENDING_LIVE_DEPLOYMENT_BINDING; cd_blocking := true |};
   {| cd_metricId := "TRANSACTION_DEPTH_HCU"; cd_scope := "PER_TRANSACTION"; cd_unit := "HCU"; cd_authorityState := LOCAL_EXPECTED_PENDING_LIVE_BINDING; cd_value := Some (Z_toString TRANSACTION_DEPTH_HCU_LIMIT);
     cd_absenceReason := None;
     cd_verificationMethod := "Constant MAX_HOMOMORPHIC_COMPUTE_UNITS_DEPTH_PER_TX read from the installed, integrity-pinned implementation and confirmed by its three enforcement paths _adjustAndCheckFheTransactionLimitOneOp/TwoOps/ThreeOps, which revert HCUTransactionDepthLimitExceeded when opHCU plus the maximum operand depth is greater than or equal to the constant. Operand depth is held in transient storage (tload/tstore), which establishes per-transaction rather than per-block scope. This is a local expectation: it is not yet bound to the implementation deployed behind the authority proxy at a pinned block.";
     cd_sourceImplementation := "@fhevm/host-contracts@0.10.0 contracts/HCULimit.sol";
     cd_applicabilityConclusion := "EXPECTED_APPLICABLE_TO_EVERY_SG4_MEASURED_TRANSACTION_PENDING_LIVE_BINDING";
     cd_liveDeploymentBinding := PENDING_LIVE_DEPLOYMENT_BINDING; cd_blocking := true |};
   {| cd_metricId := "BLOCK_OR_BATCH_HCU"; cd_scope := "PER_BLOCK_OR_BATCH"; cd_unit := "HCU"; cd_authorityState := UNRESOLVED; cd_value := None;
     cd_absenceReason := None;
     cd_verificationMethod := "Not established. Absence of a block-scoped or batch-scoped control may only be concluded after the exact deployed implementation is identified by address-normalized code identity at a pinned block and its complete relevant surface is enumerated: every state and constant variable of every width including uint48, every public, external, and internal function, every getter, mapping, accumulator, storage slot, error, event, and enforcement path. A pattern scan for `uint256 private constant MAX_*` is not exhaustive and cannot establish absence.";
     cd_sourceImplementation := "NOT_YET_IDENTIFIED_PENDING_LIVE_CODE_IDENTITY";
     cd_applicabilityConclusion := "UNRESOLVED_THEREFORE_BLOCKING";
     cd_liveDeploymentBinding := PENDING_LIVE_DEPLOYMENT_BINDING; cd_blocking := true |}].

(** ** The control of blocks *)
(** A declaration of the contract, and what an enumeration of its declarations found. *)
Record SurfaceDeclaration := {
  sd_kind : string; sd_name : string; sd_declaredType : option string; sd_visibility : option string; sd_statement : string
}.
Record AuthoritySurface := {
  as_contractName : option string; as_declarations : list SurfaceDeclaration; as_enumerationComplete : bool;
  as_parseFailures : list string; as_numericDeclarations : list SurfaceDeclaration; as_callableFunctions : list string;
  as_getters : list string; as_errors : list string; as_events : list string; as_mappings : list string;
  as_structFields : list string; as_blockOrBatchCandidates : list string; as_storagePrimitivesUsed : list string
}.

(** The names that speak of blocks, in any case; the longer alternatives of the pattern
    contain the first. *)
Definition BLOCK_OR_BATCH_NAME (name : string) : bool :=
  existsb (fun word => includes word (toLowerCase name)) ["block"; "batch"; "epoch"; "window"].

Definition is_value_char (c : ascii) : bool := is_digit c || Ascii.eqb c "_".
Fixpoint span_value (s : string) : string * string :=
  match s with
  | String c rest => if is_value_char c then let '(value, after) := span_value rest in (String c value, after) else ("", s)
  | EmptyString => ("", "")
  end.
(** The number between the last equals sign and the semicolon at the end. *)
Definition value_after (s : string) : option string :=
  let '(value, after) := span_value (trimStart s) in
  if string_nonempty value && bool_decide (trimStart after = ";") then Some value else None.
Fixpoint assigned_value (statement : string) : option string :=
  match statement with
  | String c rest =>
      if Ascii.eqb c "=" then match value_after rest with Some value => Some value | None => assigned_value rest end
      else assigned_value rest
  | EmptyString => None
  end.
Fixpoint without_underscores (s : string) : string :=
  match s with String c rest => if Ascii.eqb c "_" then without_underscores rest else String c (without_underscores rest) | EmptyString => "" end.

(** [parts.join(", ")] *)
Fixpoint comma_space (parts : list string) : string :=
  match parts with [] => "" | [part] => part | part :: parts' => part +:+ ", " +:+ comma_space parts' end.
Definition count_text {A} (xs : list A) : string := Z_toString (Z.of_nat (length xs)).

Definition block_control (state : AuthorityState) (value absenceReason : option string) (verificationMethod sourceImplementation conclusion : string)
    (binding : LiveDeploymentBinding) (blocking : bool) : ControlDeclaration :=
  {| cd_metricId := "BLOCK_OR_BATCH_HCU"; cd_scope := "PER_BLOCK_OR_BATCH"; cd_unit := "HCU"; cd_authorityState := state;
     cd_value := value; cd_absenceReason := absenceReason; cd_verificationMethod := verificationMethod;
     cd_sourceImplementation := sourceImplementation; cd_applicabilityConclusion := conclusion;
     cd_liveDeploymentBinding := binding; cd_blocking := blocking |}.

Definition classifyBlockOrBatchControl (surface : AuthoritySurface) (codeIdentityVerified : bool) (implementationIdentity : string)
    : ControlDeclaration :=
  if negb codeIdentityVerified then
    block_control UNRESOLVED None None
      "Not established: the deployed implementation was not identified by address-normalized code identity, so no enumeration describes the authority."
      "NOT_YET_IDENTIFIED_PENDING_LIVE_CODE_IDENTITY" "UNRESOLVED_THEREFORE_BLOCKING" PENDING_LIVE_DEPLOYMENT_BINDING true
  else if negb (as_enumerationComplete surface) then
    block_control UNRESOLVED None None
      ("Not established: ENUMERATION of the verified implementation was incomplete (" +:+ comma_space (as_parseFailures surface) +:+ ").")
      implementationIdentity "UNRESOLVED_THEREFORE_BLOCKING" BOUND_TO_VERIFIED_DEPLOYED_IMPLEMENTATION true
  else if bool_decide (as_blockOrBatchCandidates surface <> []) then
    match List.find (fun entry => BLOCK_OR_BATCH_NAME (sd_name entry) && bool_decide (is_Some (assigned_value (sd_statement entry))))
            (as_numericDeclarations surface) with
    | None =>
        block_control UNRESOLVED None None
          ("ENUMERATION of the verified implementation found block/batch-scoped surface (" +:+
           comma_space (as_blockOrBatchCandidates surface) +:+ ") but no extractable numeric ceiling.")
          implementationIdentity "UNRESOLVED_THEREFORE_BLOCKING" BOUND_TO_VERIFIED_DEPLOYED_IMPLEMENTATION true
    | Some valued =>
        block_control PROVEN_PRESENT (without_underscores <$> assigned_value (sd_statement valued)) None
          ("ENUMERATION of the verified deployed implementation resolved a block/batch-scoped ceiling from declaration " +:+ sd_name valued +:+ ".")
          implementationIdentity "APPLICABLE_TO_EVERY_SG4_MEASURED_BLOCK_OR_BATCH" BOUND_TO_VERIFIED_DEPLOYED_IMPLEMENTATION false
    end
  else
    block_control PROVEN_ABSENT_IN_VERIFIED_IMPLEMENTATION None
      (Some ("Exhaustive ENUMERATION of the verified deployed implementation classified all " +:+ count_text (as_declarations surface) +:+
             " declaration-scope declarations and found no block-scoped or batch-scoped constant, state variable, immutable, mapping, storage-struct field, getter, accumulator, or enforcement path of any width."))
      ("Complete ENUMERATION of every declaration-scope statement in the implementation identified by address-normalized code identity: " +:+
       count_text (as_declarations surface) +:+ " declarations, " +:+ count_text (as_callableFunctions surface) +:+
       " externally callable functions, " +:+ count_text (as_errors surface) +:+ " errors, " +:+ count_text (as_mappings surface) +:+
       " mappings, " +:+ count_text (as_structFields surface) +:+ " storage-struct fields, storage primitives [" +:+
       commas (as_storagePrimitivesUsed surface) +:+ "].")
      implementationIdentity "NOT_ENFORCED_BY_THE_VERIFIED_IMPLEMENTATION_THEREFORE_NOT_BLOCKING"
      BOUND_TO_VERIFIED_DEPLOYED_IMPLEMENTATION false.

(** * Properties *)

(** The gate is open exactly when both measurements are there and below three quarters of
    their limits; it states a reason exactly when it is closed. *)
Lemma evaluateCombinedHcu_exact input :
  (ch_go (evaluateCombinedHcu input) = true <->
     exists total depth, ci_globalHCU input = Some total /\ ci_maxHCUDepth input = Some depth /\
       4 * total < 3 * TRANSACTION_TOTAL_HCU_LIMIT /\ 4 * depth < 3 * TRANSACTION_DEPTH_HCU_LIMIT) /\
  (ch_reasons (evaluateCombinedHcu input) = [] <-> ch_go (evaluateCombinedHcu input) = true).
Proof.
  unfold evaluateCombinedHcu, present_below. change TOTAL_SAFETY_THRESHOLD with 15000000. change DEPTH_SAFETY_THRESHOLD with 3750000.
  change TRANSACTION_TOTAL_HCU_LIMIT with 20000000. change TRANSACTION_DEPTH_HCU_LIMIT with 5000000.
  destruct input as [[t|] [d|]]; cbn.
  - destruct (Z.ltb_spec t 15000000), (Z.ltb_spec d 3750000); cbn; (split; split; try done).
    all: try (intros _; exists t, d; split_and!; (done || lia)).
    all: intros (? & ? & [= <-] & [= <-] & ? & ?); lia.
  - destruct (t <? 15000000); cbn; split; split; try done; naive_solver.
  - destruct (d <? 3750000); cbn; split; split; try done; naive_solver.
  - split; split; try done; naive_solver.
Qed.

Example prepared_controls_block :
  forallb (fun control => is_ok (validateControl control) && cd_blocking control) buildPreparedControls = true.
Proof. vm_compute. reflexivity. Qed.

(** the control of blocks is judged coherently.  Every declaration that is returned
    passes its own validation; it does not block only for an implementation identified by
    its code whose enumeration completed; and absence is concluded exactly when, besides,
    no declaration speaks of blocks. *)
Theorem classifyBlockOrBatchControl_coherent surface verified identity :
  identity <> "" ->
  let control := classifyBlockOrBatchControl surface verified identity in
  validateControl control = Ok tt /\
  (cd_blocking control = false ->
     verified = true /\ as_enumerationComplete surface = true /\
     (cd_authorityState control = PROVEN_PRESENT /\ is_Some (cd_value control) \/
      cd_authorityState control = PROVEN_ABSENT_IN_VERIFIED_IMPLEMENTATION)) /\
  (cd_authorityState control = PROVEN_ABSENT_IN_VERIFIED_IMPLEMENTATION <->
     verified = true /\ as_enumerationComplete surface = true /\ as_blockOrBatchCandidates surface = []).
Proof.
  intros Hid. cbv zeta. unfold classifyBlockOrBatchControl. destruct verified; cbn [negb]; [|split; [done|split; [done|naive_solver]]].
  destruct (as_enumerationComplete surface); cbn [negb]; [|split; [done|split; [done|naive_solver]]].
  case_bool_decide as Hc.
  - destruct (List.find _ _) as [valued|] eqn:Ef.
    + apply find_some in Ef as [_ Ef]. apply andb_prop in Ef as [_ [value Ev]%bool_decide_eq_true]. rewrite Ev. cbn [fmap option_fmap option_map].
      split; [done|]. split; [|naive_solver]. intros _. split_and!; [done|done|]. left. split; [done|by eexists].
    + split; [done|]. split; [done|naive_solver].
  - assert (as_blockOrBatchCandidates surface = []) as Hnil by (by destruct (as_blockOrBatchCandidates surface); [|destruct Hc]).
    rewrite Hnil. split; [|split; [by auto|naive_solver]].
    unfold validateControl, block_control. cbn [cd_authorityState cd_value cd_sourceImplementation].
    replace (string_nonempty identity) with true by (by destruct identity). vm_compute. reflexivity.
Qed.

Lemma classifyBlockOrBatchControl_coherent_witness :
  let surface := {| as_contractName := Some "HCULimit"; as_declarations := []; as_enumerationComplete := true; as_parseFailures := [];
                    as_numericDeclarations := []; as_callableFunctions := []; as_getters := []; as_errors := []; as_events := [];
                    as_mappings := []; as_structFields := []; as_blockOrBatchCandidates := []; as_storagePrimitivesUsed := [] |} in
  "implementation" <> "" /\ validateControl (classifyBlockOrBatchControl surface true "implementation") = Ok tt.
Proof.
  cbv zeta. assert (H : "implementation" <> "") by discriminate. split; [exact H|].
  exact (proj1 (classifyBlockOrBatchControl_coherent _ true "implementation" H)).
Defined.
