(* ===== verification/HcuSchema.v ===== *)
(** * The schema of an authority result: scripts/sg4-hcu-authority-protocol.ts, sg4-hcu-authority.ts

    What the verifier reports is an object with a closed set of fields.  [validateNode]
    judges a value by a schema, field by field; [buildResultSchema] is the schema of the
    report.  [conforms] is what a schema means: an object has its required fields and, when
    it is closed, no others, an integer is one and not less than its minimum.  What the code
    accepts is wider, [admits]: a field with the name of an inherited property passes the
    closed set, and the kind "integer" is not checked.  [validateNode_conforms] tells how far the two
    agree, and [accepted_report] what an accepted report is.  A schema is an inductive type, a
    pattern the list of its alternatives; the numbers of a report are integers. *)
From Stdlib Require Import ZArith Lia Ascii.
From stdpp Require Import base option list strings.
From S2P Require Import Prelude Lifecycle GasPolicy HcuJson HcuPlan HcuSource HcuPricing HcuControls.
Local Open Scope Z_scope.

(** ** Patterns *)
Inductive Alternative : Type :=
| one_or_more_digits
| lower_hex (digits : nat)
| prefixed_lower_hex (digits : nat)
| prefixed_hex (digits : nat)
| the_word (word : string).
(** [^(a|b|...)$], and without parentheses when there is one alternative. *)
Definition Pattern : Type := list Alternative.

Definition is_lower_hex (c : ascii) : bool := is_digit c || bool_decide (c ∈ ["a"; "b"; "c"; "d"; "e"; "f"]%char).
Definition alternative_text (alternative : Alternative) : string :=
  let repeated (digits : nat) := "{" +:+ Z_toString (Z.of_nat digits) +:+ "}" in
  match alternative with
  | one_or_more_digits => "[0-9]+"
  | lower_hex digits => "[0-9a-f]" +:+ repeated digits
  | prefixed_lower_hex digits => "0x[0-9a-f]" +:+ repeated digits
  | prefixed_hex digits => "0x[0-9a-fA-F]" +:+ repeated digits
  | the_word word => word
  end.
Definition pattern_text (pattern : Pattern) : string :=
  match pattern with
  | [alternative] => "^" +:+ alternative_text alternative +:+ "$"
  | _ => "^(" +:+ join_char "|" (map alternative_text pattern) +:+ ")$"
  end.
Definition after_0x (test : string -> bool) (s : string) : bool := match s with String "0" (String "x" digits) => test digits | _ => false end.
Definition of_length (digits : nat) (p : ascii -> bool) (s : string) : bool := (String.length s =? digits)%nat && string_forall p s.
Definition alternative_test (alternative : Alternative) (s : string) : bool :=
  match alternative with
  | one_or_more_digits => matches_digits s
  | lower_hex digits => of_length digits is_lower_hex s
  | prefixed_lower_hex digits => after_0x (of_length digits is_lower_hex) s
  | prefixed_hex digits => after_0x (of_length digits is_hex_digit) s
  | the_word word => bool_decide (s = word)
  end.
Definition pattern_test (pattern : Pattern) (s : string) : bool := existsb (fun alternative => alternative_test alternative s) pattern.

(** ** Schemas *)
Inductive Schema : Type :=
| s_const (value : Json)
| s_enum (values : list string)
| s_object (properties : list (string * Schema)) (required : list string) (closed : bool)
| s_array (items : Schema)
| s_string (pattern : option Pattern)
| s_boolean
| s_integer (minimum : Z).

(** [value === constant], for the constants of a schema: a text, a boolean, a number or null. *)
Definition identical (constant value : Json) : bool :=
  match constant, value with
  | jstring s, jstring t => bool_decide (s = t)
  | jbool b, jbool c => Bool.eqb b c
  | jnumber y, jnumber z => y =? z
  | jnull, jnull => true
  | _, _ => false
  end.

(** [key in object] *)
Definition has_property {A} (fields : list (string * A)) (key : string) : bool :=
  bool_decide (key ∈ fields.*1) || bool_decide (key ∈ objectPrototypeKeys).
Definition error_if (condition : bool) (error : string) : list string := if condition then [error] else [].

Fixpoint validateNode (node : Schema) (value : Json) (path : string) {struct node} : list string :=
  match node with
  | s_const constant => error_if (negb (identical constant value)) (path +:+ " must equal " +:+ print constant)
  | s_enum allowed =>
      error_if (negb (match value with jstring s => bool_decide (s ∈ allowed) | _ => false end)) (path +:+ " must be one of " +:+ stringify_texts allowed)
  | s_object properties required closed =>
      match value with
      | jobject fields =>
          concat (map (fun field => error_if (negb (has_property fields field)) (path +:+ "." +:+ field +:+ " is required")) required) ++
          (if closed then concat (map (fun key => error_if (negb (has_property properties key)) (path +:+ "." +:+ key +:+ " is not a permitted property")) fields.*1) else []) ++
          (fix go (properties : list (string * Schema)) : list string :=
             match properties with
             | [] => []
             | (key, child) :: properties =>
                 match json_field value key with Some item => validateNode child item (path +:+ "." +:+ key) | None => [] end ++ go properties
             end) properties
      | _ => [path +:+ " must be an object"]
      end
  | s_array items =>
      match value with
      | jarray entries => concat (imap (fun index entry => validateNode items entry (path +:+ "[" +:+ Z_toString (Z.of_nat index) +:+ "]")) entries)
      | _ => [path +:+ " must be an array"]
      end
  | s_string pattern =>
      match value with
      | jstring s => match pattern with Some pattern => error_if (negb (pattern_test pattern s)) (path +:+ " must match " +:+ pattern_text pattern) | None => [] end
      | _ => [path +:+ " must be a string"]
      end
  | s_boolean => match value with jbool _ => [] | _ => [path +:+ " must be a boolean"] end
  | s_integer _ => []
  end.

(** ** The schema of the report *)
Definition AUTHORITY_PROTOCOL_VERSION : string := "sg4-hcu-authority-protocol/v3".
Definition AUTHORITY_RESULT_SCHEMA : string := "urn:zama-szn4:sg4-hcu-authority-result:v3".
Definition SEPOLIA_EXECUTOR_ADDRESS : string := "0x92C920834Ec8941d2C77D188936E1f7A6f49c127".
Definition MEASUREMENT_TOOLCHAIN_ROOT_package : string := "@fhevm/mock-utils".
Definition MEASUREMENT_TOOLCHAIN_ROOT_version : string := "0.4.2".
Definition MEASUREMENT_TOOLCHAIN_ROOT_integrity : string :=
  "sha512-Rojeqr5tC7Vie2JrSjhs4kl7y6K+wElme9z9W0h9yH0IcBX37ZzQxBuMwa5ogKEd4auBLBDXxDFIxsVj0HkGIg==".
Definition MEASUREMENT_TOOLCHAIN_ROOT_calculatorPath : string := "fhevm/coprocessor/hcu.ts".
Definition MEASUREMENT_TOOLCHAIN_ROOT_costTablePath : string := "fhevm/coprocessor/HCUByOperator.ts".
Definition MEASUREMENT_ROOT_VERIFICATION_results : list string := ["MISMATCH"; "UNRESOLVED"; "VERIFIED"].
Definition DEPLOYED_AUTHORITY_ROOT_POLICY_fields : list string := ["artifactId"; "commit"; "contentSha256"; "path"; "repository"; "tag"].
Definition LIVE_LIMIT_SEMANTICS_VALUES : list string :=
  ["CONFIGURED_CEILING_EXCLUSIVE_REVERT_ON_GREATER_THAN_OR_EQUAL"; "CONFIGURED_CEILING_INCLUSIVE_REVERT_ON_GREATER_THAN"; "UNRESOLVED"].
Definition FACET_ORIGINS : list string :=
  ["AUTHORITATIVE_BINDING_RECORD"; "AUTHORITATIVE_BINDING_RECORD_ON_CHAIN_CORROBORATED"; "LOCAL_INSTALLED_FIXTURE"; "UNRESOLVED"].
Definition DEPLOYMENT_MODELS : list string := ["DIRECT"; "ERC1967_PROXY"].
Definition EXECUTOR_DEPLOYMENT_MODELS : list string := ["DIRECT"; "ERC1967_PROXY"].
Definition MANDATORY_LIMIT_AVAILABILITY : list string :=
  ["ABSENT_FROM_INTERFACE_BUT_PROVEN_FROM_THE_CODE_IDENTIFIED_ARTIFACT"; "AVAILABLE_AND_READ_ON_CHAIN"].
Definition OPTIONAL_LIMIT_AVAILABILITY : list string := MANDATORY_LIMIT_AVAILABILITY ++ ["NOT_APPLICABLE_WITH_ARTIFACT_PROOF"].
Definition LIMIT_READING_RESULTS : list string :=
  ["MATCHES_BINDING_RECORD_ON_CHAIN"; "MISMATCH"; "NOT_APPLICABLE_WITH_ARTIFACT_PROOF"; "UNRESOLVED"; "VERIFIED_FROM_CODE_IDENTIFIED_ARTIFACT_NO_GETTER"].
Definition CALLER_APPLICABILITY_STATES : list string := ["ABSENT_DOCUMENTED"; "AVAILABLE"; "NOT_APPLICABLE_WITH_PROOF"].
Definition IMPLEMENTATION_RESOLUTION_RESULTS : list string := ["NOT_APPLICABLE_DIRECT_DEPLOYMENT"; "UNRESOLVED"; "VERIFIED_ERC1967_STORAGE_SLOT"].
Definition IMPLEMENTATION_ADDRESS_POLICY_RESULTS : list string :=
  ["EXACT_MATCH"; "MISMATCH"; "NOT_APPLICABLE_DIRECT_DEPLOYMENT"; "PERMITTED_CODE_IDENTICAL_CHANGE"; "UNRESOLVED"].
Definition AUTHORITY_STATES : list string :=
  ["LOCAL_EXPECTED_PENDING_LIVE_BINDING"; "NOT_APPLICABLE"; "PROVEN_ABSENT_IN_VERIFIED_IMPLEMENTATION"; "PROVEN_PRESENT"; "UNRESOLVED"].
Definition LIVE_DEPLOYMENT_BINDINGS : list string := ["BOUND_TO_VERIFIED_DEPLOYED_IMPLEMENTATION"; "PENDING_LIVE_DEPLOYMENT_BINDING"].

Definition HASH_OR_UNRESOLVED : Schema := s_string (Some [lower_hex 64; the_word "UNRESOLVED"]).
Definition ADDRESS_OR_UNRESOLVED : Schema := s_string (Some [prefixed_hex 40; the_word "UNRESOLVED"]).
Definition STRING_ARRAY : Schema := s_array (s_string None).
Definition facetBindingSchema : Schema :=
  s_object [("artifactId", s_string None); ("origin", s_enum FACET_ORIGINS)] ["artifactId"; "origin"] true.
Definition onChainLimitReadingSchema : Schema :=
  s_object [("getterAvailability", s_enum (OPTIONAL_LIMIT_AVAILABILITY ++ ["UNRESOLVED"]));
      ("onChainValue", s_string (Some [one_or_more_digits; the_word "UNRESOLVED"; the_word "NOT_READ_NO_GETTER"; the_word "NOT_APPLICABLE"]));
      ("result", s_enum LIMIT_READING_RESULTS)]
    ["getterAvailability"; "onChainValue"; "result"] true.
Definition callerApplicabilityResultSchema : Schema :=
  s_object [("result", s_enum ["EXEMPT"; "MALFORMED"; "NOT_APPLICABLE_WITH_PROOF"; "NOT_EXEMPT"; "UNKNOWN_EXEMPTION"; "UNRESOLVED"]);
      ("state", s_enum (CALLER_APPLICABILITY_STATES ++ ["UNRESOLVED"])); ("subject", s_enum SG4_APPLICABILITY_SUBJECTS); ("subjectAddress", s_string None)]
    ["result"; "state"; "subject"; "subjectAddress"] true.
Definition controlStateSchema : Schema :=
  s_object [("authorityState", s_enum AUTHORITY_STATES); ("blocking", s_boolean); ("liveDeploymentBinding", s_enum LIVE_DEPLOYMENT_BINDINGS);
      ("value", s_string (Some [one_or_more_digits])); ("scope", s_string None); ("reason", s_string None)]
    ["authorityState"; "blocking"; "liveDeploymentBinding"] true.

Definition result_properties_1 : list (string * Schema) := [
  ("accountAuthorizationRequested", s_const (jbool false));
  ("authoritativeArtifactId", s_string None);
  ("authorityAddress", ADDRESS_OR_UNRESOLVED);
  ("authorityBindingRecordResult", s_enum ["ABSENT"; "INVALID"; "UNRESOLVED"; "VALID"]);
  ("authorityCodeHash", HASH_OR_UNRESOLVED);
  ("authorityCodeIdentityResult", s_enum ["MISMATCH"; "UNRESOLVED"; "VERIFIED"]);
  ("authorityDeploymentModel", s_enum (DEPLOYMENT_MODELS ++ ["UNRESOLVED"]));
  ("authorityImplementationAddress", ADDRESS_OR_UNRESOLVED);
  ("authorityProtocolDigest", HASH_OR_UNRESOLVED);
  ("measurementToolchainRoot", s_object ([("calculatorPath", s_const (jstring MEASUREMENT_TOOLCHAIN_ROOT_calculatorPath));
      ("executionRelevantFiles", STRING_ARRAY);
      ("verificationResult", s_enum MEASUREMENT_ROOT_VERIFICATION_results);
      ("costTablePath", s_const (jstring MEASUREMENT_TOOLCHAIN_ROOT_costTablePath));
      ("integrity", s_const (jstring MEASUREMENT_TOOLCHAIN_ROOT_integrity));
      ("package", s_const (jstring MEASUREMENT_TOOLCHAIN_ROOT_package));
      ("version", s_const (jstring MEASUREMENT_TOOLCHAIN_ROOT_version))])
    (["calculatorPath"; "costTablePath"; "executionRelevantFiles"; "integrity"; "package"; "verificationResult"; "version"]) true);
  ("deployedAuthorityRoot", s_object (map (fun field => (field, s_string None)) DEPLOYED_AUTHORITY_ROOT_POLICY_fields)
    (DEPLOYED_AUTHORITY_ROOT_POLICY_fields) true);
  ("localAuthorityFixtureRoot", s_object ([("integrity", s_string None);
      ("package", s_string None);
      ("passRelevant", s_const (jbool false));
      ("version", s_string None)])
    (["integrity"; "package"; "passRelevant"; "version"]) true);
  ("authorityTableHash", HASH_OR_UNRESOLVED);
  ("reproducedBuildResult", s_enum ["MATCHES_PINNED_REPRODUCED_BUILD"; "MISMATCH"; "UNRESOLVED"]);
  ("reproducedBuildInfoSha256", HASH_OR_UNRESOLVED);
  ("livePlanDigest", HASH_OR_UNRESOLVED);
  ("livePlanCallCount", s_integer 0);
  ("liveCallLogDigest", HASH_OR_UNRESOLVED);
  ("liveCallCount", s_integer 0);
  ("planEnforcementResult", s_enum ["ENFORCED_EXACT"; "NOT_APPLICABLE_PLAN_UNRESOLVED"; "UNRESOLVED"; "VIOLATED"]);
  ("authorityVersion", s_string None);
  ("authorityVersionResult", s_enum ["MATCHES_BINDING_RECORD"; "MISMATCH"; "UNRESOLVED"]);
  ("benchmarkProtocolDigest", HASH_OR_UNRESOLVED);
  ("blockOrBatchControlState", controlStateSchema);
  ("blockOrBatchOnChainReading", onChainLimitReadingSchema);
  ("callerApplicabilityResults", s_array (callerApplicabilityResultSchema));
  ("callerExemptionResult", s_enum ["EXEMPT"; "NOT_APPLICABLE_WITH_PROOF"; "NOT_EXEMPT"; "UNKNOWN_EXEMPTION"; "UNRESOLVED"]);
  ("depthHcuOnChainReading", onChainLimitReadingSchema);
  ("calculatorHash", HASH_OR_UNRESOLVED);
  ("chainId", s_const (jstring (Z_toString SEPOLIA_CHAIN_ID)));
  ("codeIdentityResult", s_enum ["BLOCKED_AUTHORITATIVE_ARTIFACT_UNRESOLVED"; "MISMATCH"; "UNRESOLVED"; "VERIFIED"]);
  ("depthHcuLimit", s_const (jstring (Z_toString TRANSACTION_DEPTH_HCU_LIMIT)));
  ("depthSafetyThreshold", s_const (jstring (Z_toString DEPTH_SAFETY_THRESHOLD)));
  ("implementationResolutionResult", s_enum IMPLEMENTATION_RESOLUTION_RESULTS);
  ("implementationAddressPolicyResult", s_enum IMPLEMENTATION_ADDRESS_POLICY_RESULTS);
  ("executorAddress", s_const (jstring SEPOLIA_EXECUTOR_ADDRESS));
  ("executorCodeHash", HASH_OR_UNRESOLVED);
  ("erc1967SlotReadCount", s_integer 0);
  ("executorProxyCodeHash", HASH_OR_UNRESOLVED);
  ("executorProxyCodeIdentityResult", s_enum ["MISMATCH"; "UNRESOLVED"; "VERIFIED"]);
  ("executorImplementationAddress", ADDRESS_OR_UNRESOLVED);
  ("executorExpectedImplementationAddress", ADDRESS_OR_UNRESOLVED);
  ("executorExpectedImplementationCodeHash", HASH_OR_UNRESOLVED);
  ("executorImplementationResolutionResult", s_enum IMPLEMENTATION_RESOLUTION_RESULTS);
  ("executorImplementationAddressPolicyResult", s_enum IMPLEMENTATION_ADDRESS_POLICY_RESULTS);
  ("executorImplementationCodeHash", HASH_OR_UNRESOLVED)].
Definition result_properties_2 : list (string * Schema) := [
  ("executorNormalizedImplementationHash", HASH_OR_UNRESOLVED);
  ("executorExpectedNormalizedImplementationHash", HASH_OR_UNRESOLVED);
  ("executorExpectedVersion", s_string None);
  ("executorImplementationCodeIdentityResult", s_enum ["MISMATCH"; "UNRESOLVED"; "VERIFIED"]);
  ("executorReproducedBuildInfoSha256", HASH_OR_UNRESOLVED);
  ("executorReproducedBuildResult", s_enum ["MATCHES_PINNED_REPRODUCED_BUILD"; "MISMATCH"; "UNRESOLVED"]);
  ("executorAuthorityDerivationResult", s_enum ["MISMATCH"; "UNRESOLVED"; "VERIFIED"]);
  ("executorCodeIdentityResult", s_enum ["MISMATCH"; "UNRESOLVED"; "VERIFIED"]);
  ("executorDeploymentModel", s_enum (EXECUTOR_DEPLOYMENT_MODELS ++ ["UNRESOLVED"]));
  ("executorVersion", s_string None);
  ("executorVersionResult", s_enum ["MATCHES_BINDING_RECORD"; "MISMATCH"; "UNRESOLVED"]);
  ("expectedDeployedNormalizedHash", HASH_OR_UNRESOLVED);
  ("facetArtifactBinding", s_object ([("blockOrBatch", facetBindingSchema);
      ("codeIdentity", facetBindingSchema);
      ("limitSemantics", facetBindingSchema);
      ("limitValues", facetBindingSchema);
      ("operationSchedule", facetBindingSchema)])
    (["blockOrBatch"; "codeIdentity"; "limitSemantics"; "limitValues"; "operationSchedule"]) true);
  ("finalVerdict", s_enum ["BLOCKED"; "FAIL"; "PASS"]);
  ("gate", s_const (jstring "SG-4"));
  ("greatestAcceptedDepthHcu", s_string (Some [one_or_more_digits; the_word "UNRESOLVED"]));
  ("greatestAcceptedTotalHcu", s_string (Some [one_or_more_digits; the_word "UNRESOLVED"]));
  ("immutableProvenanceState", s_enum ["EXPECTED_FROM_PRIOR_REVIEW_PENDING_REVERIFICATION"; "RESOLVED"; "UNRESOLVED"]);
  ("installedSourceHashesResult", s_enum ["MATCH"; "MISMATCH"; "UNRESOLVED"]);
  ("localFixtureSelfTestResult", s_enum ["MATCH"; "MISMATCH"; "UNRESOLVED"]);
  ("installedTableHash", HASH_OR_UNRESOLVED);
  ("liveLimitSemantics", s_enum LIVE_LIMIT_SEMANTICS_VALUES);
  ("normalizedImplementationHash", HASH_OR_UNRESOLVED);
  ("operationCompatibilityResult", s_object ([("arityMismatches", STRING_ARRAY);
      ("authorityOnly", STRING_ARRAY);
      ("costMismatches", STRING_ARRAY);
      ("installedOnly", STRING_ARRAY);
      ("operandMismatches", STRING_ARRAY);
      ("operandTypeMismatches", STRING_ARRAY);
      ("resultTypeMismatches", STRING_ARRAY);
      ("shared", STRING_ARRAY);
      ("translationMismatches", STRING_ARRAY);
      ("unsupportedByCalculator", STRING_ARRAY)])
    (["arityMismatches"; "authorityOnly"; "costMismatches"; "installedOnly"; "operandMismatches"; "operandTypeMismatches"; "resultTypeMismatches"; "shared"; "translationMismatches"; "unsupportedByCalculator"]) true);
  ("operationScheduleAuthorityState", s_enum ["RESOLVED"; "UNRESOLVED"]);
  ("pinnedBlockFinality", s_enum ["FINALIZED"; "UNRESOLVED"]);
  ("pinnedBlockHash", s_string (Some [prefixed_lower_hex 64; the_word "UNRESOLVED"]));
  ("pinnedBlockNumber", s_string (Some [one_or_more_digits; the_word "UNRESOLVED"]));
  ("preparationLineageResult", s_enum ["BROKEN"; "UNRESOLVED"; "VERIFIED"]);
  ("protocolVersion", s_const (jstring AUTHORITY_PROTOCOL_VERSION));
  ("reciprocalLinkageResult", s_enum ["BROKEN"; "UNRESOLVED"; "VERIFIED"]);
  ("rpcMethodsUsed", s_array (s_enum LIVE_RPC_ALLOWED_METHODS));
  ("safetyBoundExclusivity", s_const (jstring "EXCLUSIVE"));
  ("schema", s_const (jstring AUTHORITY_RESULT_SCHEMA));
  ("sg4CoverageResult", s_enum ["COMPLETE"; "INCOMPLETE"; "UNRESOLVED"]);
  ("signingRequested", s_const (jbool false));
  ("staleAddressGuardResult", s_enum ["NOT_USED"; "REJECTED"; "UNRESOLVED"]);
  ("status", s_string None);
  ("totalHcuLimit", s_const (jstring (Z_toString TRANSACTION_TOTAL_HCU_LIMIT)));
  ("totalHcuOnChainReading", onChainLimitReadingSchema);
  ("totalSafetyThreshold", s_const (jstring (Z_toString TOTAL_SAFETY_THRESHOLD)));
  ("transactionDepthControlState", controlStateSchema);
  ("transactionSubmitted", s_const (jbool false));
  ("transactionTotalControlState", controlStateSchema);
  ("unsupportedOperations", STRING_ARRAY);
  ("walletRequested", s_const (jbool false))].
Definition result_required : list string :=
  ["accountAuthorizationRequested"; "authoritativeArtifactId"; "authorityAddress"; "authorityBindingRecordResult";
   "authorityCodeHash"; "authorityCodeIdentityResult"; "authorityDeploymentModel"; "authorityImplementationAddress";
   "authorityProtocolDigest"; "authorityTableHash"; "authorityVersion"; "authorityVersionResult"; "benchmarkProtocolDigest";
   "blockOrBatchControlState"; "blockOrBatchOnChainReading"; "calculatorHash"; "callerApplicabilityResults";
   "callerExemptionResult"; "chainId"; "codeIdentityResult"; "deployedAuthorityRoot"; "depthHcuLimit"; "depthHcuOnChainReading";
   "depthSafetyThreshold"; "erc1967SlotReadCount"; "executorAddress"; "executorAuthorityDerivationResult"; "executorCodeHash";
   "executorCodeIdentityResult"; "executorDeploymentModel"; "executorExpectedImplementationAddress";
   "executorExpectedImplementationCodeHash"; "executorExpectedNormalizedImplementationHash"; "executorExpectedVersion";
   "executorImplementationAddress"; "executorImplementationAddressPolicyResult"; "executorImplementationCodeHash";
   "executorImplementationCodeIdentityResult"; "executorImplementationResolutionResult"; "executorNormalizedImplementationHash";
   "executorProxyCodeHash"; "executorProxyCodeIdentityResult"; "executorReproducedBuildInfoSha256"; "executorReproducedBuildResult";
   "executorVersion"; "executorVersionResult"; "expectedDeployedNormalizedHash"; "facetArtifactBinding"; "finalVerdict"; "gate";
   "greatestAcceptedDepthHcu"; "greatestAcceptedTotalHcu"; "immutableProvenanceState"; "implementationAddressPolicyResult";
   "implementationResolutionResult"; "installedSourceHashesResult"; "installedTableHash"; "liveCallCount"; "liveCallLogDigest";
   "liveLimitSemantics"; "livePlanCallCount"; "livePlanDigest"; "localAuthorityFixtureRoot"; "localFixtureSelfTestResult";
   "measurementToolchainRoot"; "normalizedImplementationHash"; "operationCompatibilityResult"; "operationScheduleAuthorityState";
   "pinnedBlockFinality"; "pinnedBlockHash"; "pinnedBlockNumber"; "planEnforcementResult"; "preparationLineageResult";
   "protocolVersion"; "reciprocalLinkageResult"; "reproducedBuildInfoSha256"; "reproducedBuildResult"; "rpcMethodsUsed";
   "safetyBoundExclusivity"; "schema"; "sg4CoverageResult"; "signingRequested"; "staleAddressGuardResult"; "status";
   "totalHcuLimit"; "totalHcuOnChainReading"; "totalSafetyThreshold"; "transactionDepthControlState"; "transactionSubmitted";
   "transactionTotalControlState"; "unsupportedOperations"; "walletRequested"].
Definition forbiddenProperties : list string :=
  ["credentials"; "env"; "environment"; "headers"; "privateKey"; "provider"; "receipt"; "rpcResponses"; "rpcUrl"; "trace"].
Definition buildResultSchema : Schema := s_object (result_properties_1 ++ result_properties_2) result_required true.

Definition validateResultAgainstSchema (result : Json) : list string := js_sort compare_code_units (validateNode buildResultSchema result "result").

(** * Properties *)
Section Schema_induction.
Variable P : Schema -> Prop.
Hypothesis P_const : forall value, P (s_const value).
Hypothesis P_enum : forall values, P (s_enum values).
Hypothesis P_object : forall properties required closed, Forall (fun property => P property.2) properties -> P (s_object properties required closed).
Hypothesis P_array : forall items, P items -> P (s_array items).
Hypothesis P_string : forall pattern, P (s_string pattern).
Hypothesis P_boolean : P s_boolean.
Hypothesis P_integer : forall minimum, P (s_integer minimum).
Fixpoint Schema_nested_ind (node : Schema) : P node :=
  match node with
  | s_const value => P_const value
  | s_enum values => P_enum values
  | s_object properties required closed =>
      P_object properties required closed ((fix go properties : Forall (fun property => P property.2) properties :=
        match properties with
        | [] => Forall_nil_2 _
        | (key, child) :: properties' => Forall_cons_2 _ (key, child) _ (Schema_nested_ind child) (go properties')
        end) properties)
  | s_array items => P_array items (Schema_nested_ind items)
  | s_string pattern => P_string pattern
  | s_boolean => P_boolean
  | s_integer minimum => P_integer minimum
  end.
End Schema_induction.

(** ** What a schema means *)

(** A value conforms to a schema.  [tolerated] are names a closed object may have besides
    its properties: the schema means none. *)
Inductive conforms (tolerated : list string) : Schema -> Json -> Prop :=
| conforms_const constant : conforms tolerated (s_const constant) constant
| conforms_enum values s : s ∈ values -> conforms tolerated (s_enum values) (jstring s)
| conforms_object properties required closed fields :
    (forall field, field ∈ required -> field ∈ fields.*1) ->
    (closed = true -> forall key, key ∈ fields.*1 -> key ∈ properties.*1 \/ key ∈ tolerated) ->
    (forall key child item, (key, child) ∈ properties -> json_field (jobject fields) key = Some item -> conforms tolerated child item) ->
    conforms tolerated (s_object properties required closed) (jobject fields)
| conforms_array items entries :
    (forall entry, entry ∈ entries -> conforms tolerated items entry) -> conforms tolerated (s_array items) (jarray entries)
| conforms_string pattern s : (forall p, pattern = Some p -> pattern_test p s = true) -> conforms tolerated (s_string pattern) (jstring s)
| conforms_boolean b : conforms tolerated s_boolean (jbool b)
| conforms_integer minimum z : minimum <= z -> conforms tolerated (s_integer minimum) (jnumber z).

(** What the code accepts: required fields and permitted ones are looked for among the
    inherited names too, and an integer may be anything. *)
Inductive admits : Schema -> Json -> Prop :=
| admits_const constant value : identical constant value = true -> admits (s_const constant) value
| admits_enum values s : s ∈ values -> admits (s_enum values) (jstring s)
| admits_object properties required closed fields :
    (forall field, field ∈ required -> has_property fields field = true) ->
    (closed = true -> forall key, key ∈ fields.*1 -> has_property properties key = true) ->
    (forall key child item, (key, child) ∈ properties -> json_field (jobject fields) key = Some item -> admits child item) ->
    admits (s_object properties required closed) (jobject fields)
| admits_array items entries : (forall entry, entry ∈ entries -> admits items entry) -> admits (s_array items) (jarray entries)
| admits_string pattern s : (forall p, pattern = Some p -> pattern_test p s = true) -> admits (s_string pattern) (jstring s)
| admits_boolean b : admits s_boolean (jbool b)
| admits_integer minimum value : admits (s_integer minimum) value.

Lemma no_error_if_nil condition error : error_if condition error = [] <-> condition = false.
Proof. by destruct condition. Qed.
Lemma error_unless_nil condition error : error_if (negb condition) error = [] <-> condition = true.
Proof. by destruct condition. Qed.

Lemma concat_nil {A B} (f : A -> list B) xs : concat (map f xs) = [] <-> forall x, x ∈ xs -> f x = [].
Proof.
  induction xs as [|x xs IH]; cbn; [split; [by intros _ ? ?%elem_of_nil|done]|]. rewrite app_nil, IH. split.
  - intros [H1 H2] y [->|Hy]%elem_of_cons; auto.
  - intros H. split; [apply H; by left|]. intros y Hy. apply H. by right.
Qed.

Lemma concat_imap_nil {A B} (f : nat -> A -> list B) xs : concat (imap f xs) = [] <-> forall i x, xs !! i = Some x -> f i x = [].
Proof.
  revert f. induction xs as [|x xs IH]; intros f; cbn; [done|]. rewrite app_nil, IH. split.
  - intros [H1 H2] [|i] y; cbn; [by intros [= <-]|]. apply (H2 i).
  - intros H. split; [by apply (H 0%nat)|]. intros i y. apply (H (S i)).
Qed.

Definition validate_properties (properties : list (string * Schema)) (value : Json) (path : string) : list string :=
  concat (map (fun '(key, child) => match json_field value key with Some item => validateNode child item (path +:+ "." +:+ key) | None => [] end) properties).
Lemma validate_object properties required closed fields path :
  validateNode (s_object properties required closed) (jobject fields) path =
    concat (map (fun field => error_if (negb (has_property fields field)) (path +:+ "." +:+ field +:+ " is required")) required) ++
    (if closed then concat (map (fun key => error_if (negb (has_property properties key)) (path +:+ "." +:+ key +:+ " is not a permitted property")) fields.*1) else []) ++
    validate_properties properties (jobject fields) path.
Proof.
  cbn [validateNode]. do 2 f_equal. unfold validate_properties. generalize (jobject fields) as value. intros value.
  induction properties as [|[key child] properties IH]; cbn; [done|]. by rewrite IH.
Qed.

(** Nothing is reported exactly when the value is admitted. *)
Theorem validateNode_exact node : forall value path, validateNode node value path = [] <-> admits node value.
Proof.
  induction node as [constant|values|properties required closed IH|items IH|pattern| |minimum] using Schema_nested_ind; intros value path.
  - cbn. rewrite error_unless_nil. split; [by constructor|by inversion 1].
  - cbn. rewrite error_unless_nil. split.
    + destruct value; try done. intros H%bool_decide_eq_true. by constructor.
    + inversion 1; subst. by apply bool_decide_eq_true.
  - split.
    + destruct value as [| | | | |fields]; try done. rewrite validate_object. intros [Hr [Hc Hp]%app_nil]%app_nil. constructor.
      * intros field Hf. rewrite concat_nil in Hr. by apply Hr, error_unless_nil in Hf.
      * intros -> key Hk. rewrite concat_nil in Hc. by apply Hc, error_unless_nil in Hk.
      * intros key child item Hin Hi. unfold validate_properties in Hp. rewrite concat_nil in Hp. specialize (Hp _ Hin). cbn beta iota in Hp. rewrite Hi in Hp.
        rewrite Forall_forall in IH. by apply (IH _ Hin) in Hp.
    + inversion 1 as [| |? ? ? fields Hr Hc Hp| | | |]; subst. rewrite validate_object, !app_nil. split; [|split].
      * apply concat_nil. intros field Hf. by apply error_unless_nil, Hr.
      * destruct closed; [|done]. apply concat_nil. intros key Hk. by apply error_unless_nil, Hc.
      * unfold validate_properties. apply concat_nil. intros [key child] Hin. destruct (json_field _ key) as [item|] eqn:Ei; [|done].
        rewrite Forall_forall in IH. apply (IH _ Hin). by eapply Hp.
  - split.
    + destruct value as [| | | |entries|]; try done. cbn. rewrite concat_imap_nil. intros H. constructor. intros entry [i Hi]%list_elem_of_lookup. exact (proj1 (IH _ _) (H i entry Hi)).
    + inversion 1 as [| | |? entries He| | |]; subst. cbn. apply concat_imap_nil. intros i entry Hi. apply IH, He. by eapply list_elem_of_lookup_2.
  - split.
    + destruct value; try done. cbn. intros H. constructor. intros p ->. by apply error_unless_nil in H.
    + inversion 1 as [| | | |? s Hs| |]; subst. cbn. destruct pattern as [p|]; [|done]. by apply error_unless_nil, Hs.
  - split; [|by inversion 1]. destruct value; try done. by intros _; constructor.
  - split; [by intros _; constructor|done].
Qed.

(** ** How far the two agree *)

(** A schema without integers, whose constants are scalars, and whose names are not inherited. *)
Definition scalar (constant : Json) : bool := match constant with jarray _ | jobject _ => false | _ => true end.
Definition own (names : list string) : bool := forallb (fun name => negb (bool_decide (name ∈ objectPrototypeKeys))) names.
Fixpoint plain_schema (node : Schema) : bool :=
  match node with
  | s_const constant => scalar constant
  | s_object properties required _ =>
      own required && (fix go properties := match properties with [] => true | (_, child) :: properties => plain_schema child && go properties end) properties
  | s_array items => plain_schema items
  | s_integer _ => false
  | _ => true
  end.

Lemma identical_equal constant value : identical constant value = true -> value = constant.
Proof.
  destruct constant, value; cbn; try done; [by intros ->%Bool.eqb_prop|by intros ->%Z.eqb_eq|by intros ->%bool_decide_eq_true].
Qed.
Lemma identical_scalar constant : scalar constant = true -> identical constant constant = true.
Proof. destruct constant; cbn; try done; intros _; [apply Bool.eqb_reflx|apply Z.eqb_refl|by apply bool_decide_eq_true]. Qed.

Lemma own_elem names name : own names = true -> name ∈ names -> name ∉ objectPrototypeKeys.
Proof. unfold own. rewrite forallb_forall. intros H Hin%list_elem_of_In%H. by apply negb_true_iff, bool_decide_eq_false in Hin. Qed.

Lemma has_property_iff {A} (fields : list (string * A)) key :
  has_property fields key = true <-> key ∈ fields.*1 \/ key ∈ objectPrototypeKeys.
Proof. unfold has_property. by rewrite orb_true_iff, !bool_decide_eq_true. Qed.

Lemma plain_properties required properties closed :
  plain_schema (s_object properties required closed) = true ->
  own required = true /\ forall key child, (key, child) ∈ properties -> plain_schema child = true.
Proof.
  cbn [plain_schema]. intros [Ho Hp]%andb_true_iff. split; [done|]. induction properties as [|[k c] properties IH]; [by intros ? ? ?%elem_of_nil|].
  apply andb_true_iff in Hp as [Hc Hp]. intros key child [[= -> ->]|Hin]%elem_of_cons; [done|by apply (IH Hp key)].
Qed.

(** The intended object from the accepted one, when its fields are as intended. *)
Lemma admits_object_conforms properties required closed fields :
  own required = true ->
  (forall key child item, (key, child) ∈ properties -> json_field (jobject fields) key = Some item -> admits child item ->
     conforms objectPrototypeKeys child item) ->
  admits (s_object properties required closed) (jobject fields) ->
  conforms objectPrototypeKeys (s_object properties required closed) (jobject fields).
Proof.
  intros Ho Hf Ha. inversion Ha as [| |? ? ? ? Hr Hc Hp| | | |]; subst. constructor.
  - intros field Hin. pose proof (own_elem _ _ Ho Hin). apply Hr, has_property_iff in Hin. naive_solver.
  - intros E key Hk. by apply has_property_iff, Hc.
  - intros key child item Hin Hi. eapply Hf; [done..|]. by eapply Hp.
Qed.

Lemma admits_conforms node : plain_schema node = true -> forall value, admits node value <-> conforms objectPrototypeKeys node value.
Proof.
  induction node as [constant|values|properties required closed IH|items IH|pattern| |minimum] using Schema_nested_ind; intros Hp value.
  - split; [inversion 1 as [? ? E| | | | | |]; subst; apply identical_equal in E as ->; constructor|].
    inversion 1; subst. constructor. by apply identical_scalar.
  - split; inversion 1; subst; by constructor.
  - apply plain_properties in Hp as [Ho Hp]. rewrite Forall_forall in IH. split.
    + intros Ha. inversion Ha; subst. apply admits_object_conforms; [done| |done]. intros key child item Hin _ Hi.
      apply (IH _ Hin); [by eapply Hp|done].
    + inversion 1 as [| |? ? ? fields Hr Hc Hf| | | |]; subst. constructor.
      * intros field Hin. apply has_property_iff. left. by apply Hr.
      * intros E key Hk. apply has_property_iff. by apply Hc.
      * intros key child item Hin Hi. apply (IH _ Hin); [by eapply Hp|by eapply Hf].
  - cbn in Hp. split; inversion 1 as [| | |? entries He| | |]; subst; constructor; intros entry Hin; apply (IH Hp); by apply He.
  - split; inversion 1; subst; by constructor.
  - split; inversion 1; subst; by constructor.
  - discriminate Hp.
Qed.

(** For a schema without integers the code decides conformance, with the inherited names
    tolerated in closed objects. *)
Theorem validateNode_conforms node value path :
  plain_schema node = true -> validateNode node value path = [] <-> conforms objectPrototypeKeys node value.
Proof. intros Hp. rewrite validateNode_exact. by apply admits_conforms. Qed.

(** No object of the value, at any depth, has a field with an inherited name. *)
Inductive plain_value : Json -> Prop :=
| plain_scalar value : scalar value = true -> plain_value value
| plain_array items : (forall item, item ∈ items -> plain_value item) -> plain_value (jarray items)
| plain_object fields :
    (forall key item, (key, item) ∈ fields -> key ∉ objectPrototypeKeys /\ plain_value item) -> plain_value (jobject fields).

(** Where no field has an inherited name, nothing is tolerated. *)
Lemma plain_conforms node : forall value, conforms objectPrototypeKeys node value -> plain_value value -> conforms [] node value.
Proof.
  induction node as [constant|values|properties required closed IH|items IH|pattern| |minimum] using Schema_nested_ind; intros value Hc Hv.
  - inversion Hc; subst. constructor.
  - inversion Hc; subst. by constructor.
  - inversion Hc as [| |? ? ? fields Hr Hcl Hf| | | |]; subst. inversion Hv as [? E| |? Hfields]; subst; [discriminate E|].
    rewrite Forall_forall in IH. constructor; [done| |].
    + intros E key Hk. destruct (Hcl E key Hk) as [?|Hin]; [by left|].
      apply list_elem_of_fmap in Hk as ([k item] & -> & Hk). by destruct (Hfields k item Hk) as [Hn _].
    + intros key child item Hin Hi. apply (IH _ Hin); [by eapply Hf|]. by apply (Hfields key), map_get_Some_elem.
  - inversion Hc as [| | |? entries He| | |]; subst. inversion Hv as [? E|? Hi|]; subst; [discriminate E|].
    constructor. intros entry Hin. apply IH; auto.
  - inversion Hc; subst. by constructor.
  - inversion Hc; subst. by constructor.
  - inversion Hc; subst. by constructor.
Qed.

(** ** The report *)
Lemma json_field_some fields key : key ∈ fields.*1 -> exists item, json_field (jobject fields) key = Some item.
Proof. intros H. cbn. destruct (map_get_is_Some fields key) as [_ [item Hi]]; [done|]. by exists item. Qed.

Definition own_names : bool :=
  forallb (fun name => negb (bool_decide (name ∈ objectPrototypeKeys)) && bool_decide (name ∈ result_required)) (result_properties_1 ++ result_properties_2).*1.
Lemma own_names_true : own_names = true.
Proof. by vm_compute. Qed.

Lemma has_own_property {A} (fields : list (string * A)) key : key ∉ objectPrototypeKeys -> has_property fields key = true -> key ∈ fields.*1.
Proof. unfold has_property. intros Hn. rewrite orb_true_iff, !bool_decide_eq_true. by intros [?|?]. Qed.

(** Every field of the schema is there, and is as the schema says. *)
Lemma report_field fields key child :
  admits buildResultSchema (jobject fields) -> (key, child) ∈ result_properties_1 ++ result_properties_2 ->
  exists item, json_field (jobject fields) key = Some item /\ admits child item.
Proof.
  intros Hc Hin. inversion Hc as [| |? ? ? ? Hr _ Hp| | | |]; subst. pose proof own_names_true as Ho. unfold own_names in Ho. rewrite forallb_forall in Ho.
  specialize (Ho key (proj1 (list_elem_of_In _ _) (list_elem_of_fmap_2 fst _ _ Hin))). cbv beta in Ho.
  apply andb_true_iff in Ho as [Hn%negb_true_iff%bool_decide_eq_false Hreq%bool_decide_eq_true].
  destruct (json_field_some fields key) as [item Hi]; [by apply has_own_property, Hr|]. exists item. split; [done|]. by eapply Hp.
Qed.

Lemma report_at fields i key child :
  admits buildResultSchema (jobject fields) -> (result_properties_1 ++ result_properties_2) !! i = Some (key, child) ->
  exists item, json_field (jobject fields) key = Some item /\ admits child item.
Proof. intros Hc Hi. apply report_field; [done|]. by eapply list_elem_of_lookup_2. Qed.

Lemma admitted_boolean b value : identical (jbool b) value = true -> value = jbool b.
Proof. destruct value; try done. by intros ->%Bool.eqb_prop. Qed.
Lemma admitted_text s value : identical (jstring s) value = true -> value = jstring s.
Proof. destruct value; try done. by intros ->%bool_decide_eq_true. Qed.

(** The counts of the report are the only integers of its schema. *)
Definition COUNTS : list string := ["livePlanCallCount"; "liveCallCount"; "erc1967SlotReadCount"].
Definition plain_report_schema : bool :=
  own result_required &&
  forallb (fun '(key, child) => plain_schema child || bool_decide (key ∈ COUNTS) && match child with s_integer 0 => true | _ => false end)
    (result_properties_1 ++ result_properties_2).
Lemma plain_report_schema_true : plain_report_schema = true.
Proof. by vm_compute. Qed.

(** An accepted report whose counts are counts conforms. *)
Lemma report_conforms fields :
  admits buildResultSchema (jobject fields) ->
  (forall key, key ∈ COUNTS -> exists z, json_field (jobject fields) key = Some (jnumber z) /\ 0 <= z) ->
  conforms objectPrototypeKeys buildResultSchema (jobject fields).
Proof.
  intros Ha Hcount. pose proof plain_report_schema_true as [Ho Hs]%andb_true_iff. rewrite forallb_forall in Hs.
  apply admits_object_conforms; [done| |done]. intros key child item Hin Hi Had.
  specialize (Hs _ (proj1 (list_elem_of_In _ _) Hin)). cbv beta iota in Hs. apply orb_true_iff in Hs as [Hs|[Hk%bool_decide_eq_true Hs]%andb_true_iff].
  - by apply admits_conforms.
  - destruct child as [| | | | | |[]]; try discriminate Hs. destruct (Hcount key Hk) as (z & Ez & Hz). rewrite Ez in Hi. injection Hi as <-. by constructor.
Qed.

(** A report the schema accepts asked for no wallet, no account, no signature and no
    transaction, is about Sepolia and this gate, has one of three verdicts, used methods
    that only read, and has no other field than those of the schema, names that every
    object inherits apart. *)
Theorem accepted_report fields :
  validateResultAgainstSchema (jobject fields) = [] ->
  (forall flag, flag ∈ ["walletRequested"; "accountAuthorizationRequested"; "signingRequested"; "transactionSubmitted"] ->
    json_field (jobject fields) flag = Some (jbool false)) /\
  json_field (jobject fields) "chainId" = Some (jstring "11155111") /\ json_field (jobject fields) "gate" = Some (jstring "SG-4") /\
  (exists verdict, json_field (jobject fields) "finalVerdict" = Some (jstring verdict) /\ verdict ∈ ["BLOCKED"; "FAIL"; "PASS"]) /\
  (exists methods, json_field (jobject fields) "rpcMethodsUsed" = Some (jarray methods) /\
    forall method, method ∈ methods -> exists name, method = jstring name /\ name ∈ LIVE_RPC_ALLOWED_METHODS) /\
  forall key, key ∈ fields.*1 -> key ∈ result_required \/ key ∈ objectPrototypeKeys.
Proof.
  unfold validateResultAgainstSchema. intros Hc%sorted_nil%validateNode_exact.
  assert (Hflag : forall i flag, (result_properties_1 ++ result_properties_2) !! i = Some (flag, s_const (jbool false)) ->
    json_field (jobject fields) flag = Some (jbool false)).
  { intros i flag Hi. destruct (report_at _ _ _ _ Hc Hi) as (item & -> & Hx). inversion Hx; subst. by rewrite (admitted_boolean false item). }
  assert (Htext : forall i key s, (result_properties_1 ++ result_properties_2) !! i = Some (key, s_const (jstring s)) ->
    json_field (jobject fields) key = Some (jstring s)).
  { intros i key s Hi. destruct (report_at _ _ _ _ Hc Hi) as (item & -> & Hx). inversion Hx; subst. by rewrite (admitted_text s item). }
  split; [|split; [|split; [|split; [|split]]]].
  - intros flag Hf. repeat (apply elem_of_cons in Hf as [->|Hf]); [apply (Hflag 91%nat)|apply (Hflag 0%nat)|apply (Hflag 81%nat)|apply (Hflag 88%nat)|by apply elem_of_nil in Hf];
      vm_compute; reflexivity.
  - apply (Htext 29%nat). vm_compute. reflexivity.
  - apply (Htext 60%nat). vm_compute. reflexivity.
  - destruct (report_at fields 59 "finalVerdict" (s_enum ["BLOCKED"; "FAIL"; "PASS"]) Hc) as (item & -> & Hx); [vm_compute; reflexivity|].
    inversion Hx; subst. by eexists.
  - destruct (report_at fields 77 "rpcMethodsUsed" (s_array (s_enum LIVE_RPC_ALLOWED_METHODS)) Hc) as (item & -> & Hx); [vm_compute; reflexivity|].
    inversion Hx as [| | |? entries He| | |]; subst. exists entries. split; [done|]. intros method Hm. specialize (He method Hm). inversion He; subst. by eexists.
  - intros key Hk. inversion Hc as [| |? ? ? ? _ Hcl _| | | |]; subst. specialize (Hcl eq_refl key Hk). unfold has_property in Hcl.
    apply orb_true_iff in Hcl as [H%bool_decide_eq_true|H%bool_decide_eq_true]; [left|by right]. pose proof own_names_true as Ho. unfold own_names in Ho.
    rewrite forallb_forall in Ho. specialize (Ho key (proj1 (list_elem_of_In _ _) H)). cbv beta in Ho. by apply andb_true_iff in Ho as [_ Ho%bool_decide_eq_true].
Qed.

Lemma map_get_app_other {A} (fields : list (string * A)) key other item : key <> other -> map_get key (fields ++ [(other, item)]) = map_get key fields.
Proof. intros Hne. induction fields as [|[k v] fields IH]; cbn; [by rewrite decide_False|]. by case_decide. Qed.

(** A field with an inherited name is admitted beside the fields of the schema, whatever it
    holds. *)
Theorem inherited_field_accepted fields key item :
  key ∈ objectPrototypeKeys ->
  validateResultAgainstSchema (jobject fields) = [] -> validateResultAgainstSchema (jobject (fields ++ [(key, item)])) = [].
Proof.
  unfold validateResultAgainstSchema. intros Hk Hc%sorted_nil%validateNode_exact. apply sorted_nil, validateNode_exact.
  inversion Hc as [| |? ? ? ? Hr Hcl Hp| | | |]; subst. constructor.
  - intros field Hf%Hr. unfold has_property in *. rewrite fmap_app. apply orb_true_iff in Hf as [H%bool_decide_eq_true|H]; apply orb_true_iff; [left|by right].
    apply bool_decide_eq_true, elem_of_app. by left.
  - intros Ht key'. rewrite fmap_app, elem_of_app. intros [Hin|Hin%list_elem_of_singleton]; [by apply Hcl|]. cbn in Hin. subst. unfold has_property.
    by rewrite (bool_decide_eq_true_2 (key ∈ objectPrototypeKeys)), orb_true_r.
  - intros key' child item' Hin. cbn [json_field]. rewrite map_get_app_other; [by apply Hp|]. intros ->.
    pose proof own_names_true as Ho. unfold own_names in Ho. rewrite forallb_forall in Ho.
    specialize (Ho key (proj1 (list_elem_of_In _ _) (list_elem_of_fmap_2 fst _ _ Hin))). cbv beta in Ho.
    by apply andb_true_iff in Ho as [Hn%negb_true_iff%bool_decide_eq_false _].
Qed.
