(* ===== verification/HcuLineage.v ===== *)
(** * The lineage of the reviewed record: scripts/sg4-hcu-authority.ts

    The record that binds the verifier is committed alone, on top of the implementation it
    was reviewed against.  [checkPreparationLineage] establishes this from git, before
    anything is read from the record; [checkPreparationState] judges the state in which
    the record may be generated.  Git is the function [git] of its arguments, one answer
    for each question during a check; the validation of the record's two hundred fields
    is the class [RecordValidator]. *)
From Stdlib Require Import ZArith Lia Ascii.
From stdpp Require Import base option list strings.
From S2P Require Import Prelude HcuJson HcuAbi HcuPlan HcuSource.
Local Open Scope Z_scope.

(** [validateAuthorityBindingRecord] *)
Class RecordValidator := { validateAuthorityBindingRecord : Json -> list string }.

Definition BINDING_RECORD_PATH : string := "scripts/sg4-hcu-authority-binding.json".
Definition SG4_IMPLEMENTATION_PATHS : list string := [
  "contracts/benchmarks/SG4FheBenchmarkHarness.sol"; "docs/security/SG4_BENCHMARK_PROTOCOL.md";
  "docs/security/SG4_HCU_AUTHORITY_PROTOCOL.md"; "package.json"; "pnpm-lock.yaml";
  "scripts/sg4-hcu-authority-binding-generator.ts"; "scripts/sg4-hcu-authority-launcher.cjs";
  "scripts/sg4-hcu-authority-protocol.ts"; "scripts/sg4-hcu-authority.ts"; "scripts/sg4-protocol.ts";
  "test/SG4BenchmarkProtocol.ts"; "test/SG4HcuAuthority.ts"].
Definition branchRequired : string := "main".

(** The three methods that a probe may lack are options; a record that is absent is [jnull]. *)
Record LineageProbe := {
  lp_branch : string; lp_worktreeClean : bool; lp_trackedWorktreeClean : option bool; lp_indexClean : bool;
  lp_untrackedPaths : option (list string); lp_bindingTracked : option bool; lp_revParse : string -> string;
  lp_parentCount : string -> Z; lp_changedPaths : string -> string -> list string; lp_blobAt : string -> string -> option string;
  lp_readBindingRecord : Json
}.

(** ** The probe of git *)
(** The non-empty lines, without the blanks around them, in order. *)
Definition output_lines (output : string) : list string :=
  js_sort compare_code_units (List.filter string_nonempty (map trim (split_char newline output))).

(** The number of words of a text without blanks around it. *)
Fixpoint words (s : string) (in_word : bool) : Z :=
  match s with
  | EmptyString => if in_word then 1 else 0
  | String c rest => if is_space c then (if in_word then 1 else 0) + words rest false else words rest true
  end.
(** [text.split(/\s+/u).length]: the empty text has one part. *)
Definition split_count (text : string) : Z := match text with EmptyString => 1 | _ => words text false end.

Definition createGitLineageProbe (git : list string -> string) (record : Json) : LineageProbe := {|
  lp_branch := git ["branch"; "--show-current"];
  lp_worktreeClean := bool_decide (git ["status"; "--porcelain"] = "");
  lp_trackedWorktreeClean := Some (bool_decide (git ["diff"; "--name-only"] = ""));
  lp_indexClean := bool_decide (git ["diff"; "--cached"; "--name-only"] = "");
  lp_untrackedPaths := Some (output_lines (git ["ls-files"; "--others"; "--exclude-standard"]));
  lp_bindingTracked := Some (bool_decide (git ["ls-files"; "--"; BINDING_RECORD_PATH] = BINDING_RECORD_PATH));
  lp_revParse rev := git ["rev-parse"; rev];
  lp_parentCount rev :=
    let parents := git ["rev-list"; "--parents"; "-n"; "1"; rev] in
    if bool_decide (parents = "UNRESOLVED") then -1 else split_count (trim parents) - 1;
  lp_changedPaths from to := output_lines (git ["diff"; "--name-only"; from +:+ ".." +:+ to]);
  lp_blobAt commit path :=
    let value := git ["rev-parse"; commit +:+ ":" +:+ path] in if bool_decide (value = "UNRESOLVED") then None else Some value;
  lp_readBindingRecord := record |}.

(** ** The checks *)
Inductive Lineage : Type := LINEAGE_VERIFIED | LINEAGE_BROKEN | LINEAGE_UNRESOLVED.
Record LineageResult := { lr_result : Lineage; lr_blockers : list string; lr_record : option Json }.
Inductive VerificationMode : Type := CANDIDATE | POST_COMMIT.

Definition blocker_if (c : bool) (reason : string) : list string := if c then [reason] else [].

Definition checkPreparationState (probe : LineageProbe) : LineageResult :=
  let blockers :=
    blocker_if (negb (bool_decide (lp_branch probe = branchRequired))) "BRANCH_IS_NOT_MAIN" ++
    blocker_if (negb (lp_worktreeClean probe)) "WORKTREE_IS_NOT_CLEAN" ++
    blocker_if (negb (lp_indexClean probe)) "INDEX_IS_NOT_CLEAN" ++
    blocker_if (match lp_readBindingRecord probe with jnull => false | _ => true end) "PREPARATION_BINDING_RECORD_MUST_BE_ABSENT" in
  {| lr_result := match blockers with [] => LINEAGE_VERIFIED | _ => LINEAGE_BROKEN end;
     lr_blockers := js_sort compare_code_units blockers; lr_record := None |}.

(** What the working tree must be, for the mode. *)
Definition tree_blockers (probe : LineageProbe) (mode : VerificationMode) : list string :=
  blocker_if (negb (bool_decide (lp_branch probe = branchRequired))) "BRANCH_IS_NOT_MAIN" ++
  match mode with
  | POST_COMMIT => blocker_if (negb (lp_worktreeClean probe)) "WORKTREE_IS_NOT_CLEAN"
  | CANDIDATE =>
      blocker_if (negb (match lp_trackedWorktreeClean probe with Some clean => clean | None => lp_worktreeClean probe end))
        "TRACKED_WORKTREE_IS_NOT_CLEAN"
  end ++
  blocker_if (negb (lp_indexClean probe)) "INDEX_IS_NOT_CLEAN".

Definition joined_or_nothing (paths : list string) : string := match commas paths with EmptyString => "nothing" | text => text end.
Definition only_the_record (paths : list string) : bool := bool_decide (paths = [BINDING_RECORD_PATH]).

(** The failures of a candidate, whose record is not committed yet; [commit] and [tree]
    are those the record names. *)
Definition candidate_failures (probe : LineageProbe) (commit tree : option Json) : list string :=
  let untracked := default [] (lp_untrackedPaths probe) in
  blocker_if (default false (lp_bindingTracked probe)) "CANDIDATE_BINDING_MUST_BE_UNTRACKED" ++
  blocker_if (negb (only_the_record untracked)) ("CANDIDATE_UNTRACKED_SET_INVALID:" +:+ joined_or_nothing untracked) ++
  blocker_if (negb (equals_text commit (lp_revParse probe "HEAD"))) "CANDIDATE_HEAD_IS_NOT_IMPLEMENTATION_COMMIT" ++
  blocker_if (negb (equals_text tree (lp_revParse probe "HEAD^{tree}"))) "CANDIDATE_HEAD_TREE_MISMATCH" ++
  blocker_if (negb (equals_text tree (lp_revParse probe (String_of commit +:+ "^{tree}")))) "RECORDED_IMPLEMENTATION_TREE_MISMATCH".

(** The paths whose content is not the same at both commits. *)
Definition drifted_paths (probe : LineageProbe) (commit head : string) : list string :=
  List.filter (fun path =>
    match lp_blobAt probe commit path, lp_blobAt probe head path with
    | Some atA, Some atB => negb (bool_decide (atA = atB))
    | _, _ => true
    end) SG4_IMPLEMENTATION_PATHS.

Definition commit_failures (probe : LineageProbe) (commit tree : option Json) : list string :=
  let headCommit := lp_revParse probe "HEAD" in
  let parents := lp_parentCount probe "HEAD" in
  let changed := lp_changedPaths probe (String_of commit) headCommit in
  let drifted := drifted_paths probe (String_of commit) headCommit in
  blocker_if (negb (parents =? 1)) ("BINDING_COMMIT_MUST_HAVE_EXACTLY_ONE_PARENT:" +:+ Z_toString parents) ++
  blocker_if (equals_text commit headCommit) "BINDING_RECORD_IS_SELF_REFERENTIAL" ++
  blocker_if (equals_text tree (lp_revParse probe "HEAD^{tree}")) "BINDING_TREE_FALSELY_EQUALS_IMPLEMENTATION_TREE" ++
  blocker_if (negb (equals_text commit (lp_revParse probe "HEAD^"))) "HEAD_PARENT_IS_NOT_THE_IMPLEMENTATION_COMMIT" ++
  blocker_if (negb (equals_text tree (lp_revParse probe (String_of commit +:+ "^{tree}")))) "RECORDED_IMPLEMENTATION_TREE_MISMATCH" ++
  blocker_if (negb (only_the_record changed)) ("BINDING_COMMIT_CHANGED_MORE_THAN_THE_BINDING_RECORD:" +:+ joined_or_nothing changed) ++
  blocker_if (bool_decide (drifted <> [])) ("IMPLEMENTATION_BLOB_DRIFT:" +:+ commas (js_sort compare_code_units drifted)).

(** The rest of the check, once there is a record. *)
Definition check_record `{RecordValidator} (probe : LineageProbe) (mode : VerificationMode) (blockers : list string) (record : Json) : result LineageResult :=
  let sorted := js_sort compare_code_units in
  match validateAuthorityBindingRecord record with
  | _ :: _ as errors =>
      Ok {| lr_result := LINEAGE_BROKEN;
            lr_blockers := sorted (blockers ++ map (fun error => "BINDING_RECORD_INVALID:" +:+ error) errors); lr_record := None |}
  | [] =>
      lineage ← member (Some record) "lineage";
      commit ← member lineage "implementationCommit";
      tree ← member lineage "implementationTree";
      let failures := match mode with CANDIDATE => candidate_failures probe commit tree
                                    | POST_COMMIT => commit_failures probe commit tree end in
      Ok (match failures, blockers with
          | _ :: _, _ => {| lr_result := LINEAGE_BROKEN; lr_blockers := sorted (blockers ++ failures); lr_record := None |}
          | [], _ :: _ => {| lr_result := LINEAGE_UNRESOLVED; lr_blockers := sorted blockers; lr_record := None |}
          | [], [] => {| lr_result := LINEAGE_VERIFIED; lr_blockers := []; lr_record := Some record |}
          end)
  end.

Definition checkPreparationLineage `{RecordValidator} (probe : LineageProbe) (mode : VerificationMode) : result LineageResult :=
  let blockers := tree_blockers probe mode in
  match lp_readBindingRecord probe with
  | jnull =>
      Ok {| lr_result := LINEAGE_UNRESOLVED;
            lr_blockers := js_sort compare_code_units (blockers ++ ["PREPARATION_BINDING_RECORD_ABSENT"]); lr_record := None |}
  | record => check_record probe mode blockers record
  end.

(** * Properties *)

(** What the record says of the implementation it was reviewed against. *)
Definition recorded `{RecordValidator} (probe : LineageProbe) (record : Json) (commit tree : string) : Prop :=
  lp_readBindingRecord probe = record /\ record <> jnull /\ validateAuthorityBindingRecord record = [] /\
  exists lineage, member (Some record) "lineage" = Ok lineage /\
    member lineage "implementationCommit" = Ok (Some (jstring commit)) /\
    member lineage "implementationTree" = Ok (Some (jstring tree)).

(** The working tree, the candidate state and the committed state, in terms of git. *)
Definition tree_is_clean (probe : LineageProbe) (mode : VerificationMode) : Prop :=
  lp_branch probe = "main" /\ lp_indexClean probe = true /\
  match mode with
  | POST_COMMIT => lp_worktreeClean probe = true
  | CANDIDATE => default (lp_worktreeClean probe) (lp_trackedWorktreeClean probe) = true
  end.

Definition lineage_established (probe : LineageProbe) (mode : VerificationMode) (commit tree : string) : Prop :=
  let head := lp_revParse probe "HEAD" in
  let head_tree := lp_revParse probe "HEAD^{tree}" in
  lp_revParse probe (commit +:+ "^{tree}") = tree /\
  match mode with
  | CANDIDATE =>
      head = commit /\ head_tree = tree /\ default false (lp_bindingTracked probe) = false /\
      lp_untrackedPaths probe = Some [BINDING_RECORD_PATH]
  | POST_COMMIT =>
      head <> commit /\ head_tree <> tree /\ lp_parentCount probe "HEAD" = 1 /\ lp_revParse probe "HEAD^" = commit /\
      lp_changedPaths probe commit head = [BINDING_RECORD_PATH] /\
      forall path, path ∈ SG4_IMPLEMENTATION_PATHS ->
        exists blob, lp_blobAt probe commit path = Some blob /\ lp_blobAt probe head path = Some blob
  end.

Lemma blocker_if_nil c reason : blocker_if c reason = [] <-> c = false.
Proof. by destruct c. Qed.

Lemma equals_text_iff value text : equals_text value text = true <-> value = Some (jstring text).
Proof.
  destruct value as [[]|]; cbn; try (split; congruence).
  rewrite bool_decide_eq_true. split; congruence.
Qed.

Lemma equals_text_string s text : equals_text (Some (jstring s)) text = bool_decide (s = text).
Proof. done. Qed.

Lemma tree_blockers_nil probe mode : tree_blockers probe mode = [] <-> tree_is_clean probe mode.
Proof.
  unfold tree_blockers, tree_is_clean, branchRequired.
  rewrite !app_nil, !blocker_if_nil, !negb_false_iff, bool_decide_eq_true.
  destruct mode; rewrite blocker_if_nil, negb_false_iff; destruct (lp_trackedWorktreeClean probe); tauto.
Qed.

Lemma drifted_paths_nil probe commit head :
  drifted_paths probe commit head = [] <->
  forall path, path ∈ SG4_IMPLEMENTATION_PATHS ->
    exists blob, lp_blobAt probe commit path = Some blob /\ lp_blobAt probe head path = Some blob.
Proof.
  unfold drifted_paths. rewrite filter_nil. apply base.forall_proper. intros path.
  destruct (lp_blobAt probe commit path) as [a|], (lp_blobAt probe head path) as [b|];
    [rewrite negb_false_iff, bool_decide_eq_true| | |]; split; try naive_solver congruence.
Qed.

Lemma candidate_failures_nil probe commit tree :
  candidate_failures probe commit tree = [] <->
  exists c t, commit = Some (jstring c) /\ tree = Some (jstring t) /\ lineage_established probe CANDIDATE c t.
Proof.
  unfold candidate_failures, only_the_record.
  rewrite !app_nil, !blocker_if_nil, !negb_false_iff, !equals_text_iff, bool_decide_eq_true. split.
  - intros (Ht & Hu & -> & -> & E). injection E as E. eexists _, _. split_and!; try done.
    unfold lineage_established. split_and!; try done. by destruct (lp_untrackedPaths probe) as [paths|]; [f_equal|].
  - intros (c & t & -> & -> & E & <- & <- & Ht & Hu). rewrite Hu. cbn [String_of Json_toString]. by rewrite E.
Qed.

Lemma commit_failures_nil probe commit tree :
  commit_failures probe commit tree = [] <->
  exists c t, commit = Some (jstring c) /\ tree = Some (jstring t) /\ lineage_established probe POST_COMMIT c t.
Proof.
  unfold commit_failures, only_the_record. cbv zeta. unfold lineage_established.
  setoid_rewrite <- drifted_paths_nil.
  rewrite !app_nil, !blocker_if_nil, !negb_false_iff, Z.eqb_eq, bool_decide_eq_true, bool_decide_eq_false. split.
  - intros (Hp & Hc & Ht & Eh & Et & Hch & Hd).
    apply equals_text_iff in Eh as ->. apply equals_text_iff in Et as ->.
    rewrite equals_text_string, bool_decide_eq_false in Hc, Ht. cbn [String_of Json_toString] in *.
    eexists _, _. split_and!; try done; try congruence. by apply dec_stable.
  - intros (c & t & -> & -> & <- & Hc & Ht & Hp & Eh & Hch & Hd). cbn [String_of Json_toString].
    rewrite !equals_text_string, !bool_decide_eq_false, !bool_decide_eq_true. naive_solver.
Qed.

Lemma failures_nil probe mode commit tree :
  match mode with CANDIDATE => candidate_failures probe commit tree | POST_COMMIT => commit_failures probe commit tree end = [] <->
  exists c t, commit = Some (jstring c) /\ tree = Some (jstring t) /\ lineage_established probe mode c t.
Proof. destruct mode; [apply candidate_failures_nil|apply commit_failures_nil]. Qed.

Lemma check_record_verified `{RecordValidator} probe mode read record :
  (exists outcome, check_record probe mode (tree_blockers probe mode) read = Ok outcome /\
     lr_result outcome = LINEAGE_VERIFIED /\ lr_record outcome = Some record) <->
  read = record /\ validateAuthorityBindingRecord read = [] /\ tree_blockers probe mode = [] /\
  exists lineage commit tree, member (Some read) "lineage" = Ok lineage /\
    member lineage "implementationCommit" = Ok (Some (jstring commit)) /\
    member lineage "implementationTree" = Ok (Some (jstring tree)) /\ lineage_established probe mode commit tree.
Proof.
  unfold check_record. destruct (validateAuthorityBindingRecord read) as [|e es] eqn:Ev.
  2: { split; [by intros (? & [= <-] & ? & _)|intros (_ & ? & _); done]. }
  split.
  - intros (outcome & E & Hv & Hr).
    apply result_bind_Ok in E as (lineage & El & E). apply result_bind_Ok in E as (commit & Ec & E).
    apply result_bind_Ok in E as (tree & Et & E). injection E as <-.
    destruct (match mode with CANDIDATE => _ | POST_COMMIT => _ end) eqn:Ef; [|done].
    apply failures_nil in Ef as (c & t & -> & -> & Hl).
    destruct (tree_blockers probe mode); [|done]. injection Hr as ->. split_and!; [done..|]. by exists lineage, c, t.
  - intros (-> & _ & Hb & lineage & c & t & El & Ec & Et & Hl). rewrite El. cbn. rewrite Ec. cbn. rewrite Et. cbn.
    eexists. split; [done|].
    rewrite (proj2 (failures_nil probe mode (Some (jstring c)) (Some (jstring t)))), Hb by eauto. done.
Qed.

(** C17: the lineage check verifies exactly the reviewed history, in both of its modes: the
    record exists and is valid, the branch is main with nothing staged or modified, the
    commit it names has the tree it names, and either (candidate) HEAD is that commit and
    the record is the one untracked path, or (committed) HEAD is another commit with
    exactly that one parent, which changed the record's path alone and left every
    implementation path with the blob it had. *)
Theorem checkPreparationLineage_exact `{RecordValidator} probe mode record :
  (exists outcome, checkPreparationLineage probe mode = Ok outcome /\
     lr_result outcome = LINEAGE_VERIFIED /\ lr_record outcome = Some record) <->
  exists commit tree, recorded probe record commit tree /\ tree_is_clean probe mode /\
    lineage_established probe mode commit tree.
Proof.
  unfold checkPreparationLineage, recorded.
  transitivity (lp_readBindingRecord probe <> jnull /\
    exists outcome, check_record probe mode (tree_blockers probe mode) (lp_readBindingRecord probe) = Ok outcome /\
      lr_result outcome = LINEAGE_VERIFIED /\ lr_record outcome = Some record).
  - destruct (lp_readBindingRecord probe); [split; [by intros (? & [= <-] & ? & _)|by intros [? _]]|..];
      (split; [intros E; split; [done|exact E]|intros [_ E]; exact E]).
  - rewrite check_record_verified, tree_blockers_nil. split.
    + intros (Hn & -> & Hv & Hb & lineage & c & t & Hl). exists c, t. naive_solver.
    + intros (c & t & (<- & Hn & Hv & lineage & El & Ec & Et) & Hb & Hl). split_and!; [done..|]. by exists lineage, c, t.
Qed.


(** The check at the commit of the record: the record names commit [a] with tree [ta]; the
    head is [b], whose tree is [tb]. *)
#[local] Instance accept_records : RecordValidator := { validateAuthorityBindingRecord _ := [] }.
Definition sample_record : Json :=
  jobject [("lineage", jobject [("implementationCommit", jstring "a"); ("implementationTree", jstring "ta")])].
Definition sample_git (args : list string) : string :=
  match args with
  | ["branch"; _] => "main"
  | ["rev-parse"; rev] =>
      if bool_decide (rev = "HEAD") then "b" else if bool_decide (rev = "HEAD^") then "a"
      else if bool_decide (rev = "HEAD^{tree}") then "tb" else if bool_decide (rev = "a^{tree}") then "ta" else "blob"
  | "rev-list" :: _ => "b a"
  | ["diff"; flag; _] => if bool_decide (flag = "--name-only") then BINDING_RECORD_PATH else ""
  | _ => ""
  end.
Definition sample_probe : LineageProbe := createGitLineageProbe sample_git sample_record.
Example sample_lineage :
  checkPreparationLineage sample_probe POST_COMMIT =
  Ok {| lr_result := LINEAGE_VERIFIED; lr_blockers := []; lr_record := Some sample_record |}.
Proof. vm_compute. reflexivity. Qed.
