(* ===== verification/HcuResult.v ===== *)
(** * What a reported PASS must say: scripts/sg4-hcu-authority.ts, [validateAuthorityResult]

    A report is judged by its schema ([HcuSchema]), by the rules on the states of the
    controls, and, when its verdict is PASS, by its agreement with the reviewed binding
    record and with what is derived again from the source material of that record.
    [pass_report_sound]: what an accepted PASS establishes.  The validation of the record
    and the derivations from its material are the class [Derivations]; the closure of
    priced variants is an argument.  A field of a report that has to be an array and is
    not, or that holds [null] where a property is read, makes the validation throw, as it
    does in the code.  The length of an object counts when it is a number. *)
From Stdlib Require Import ZArith Lia Ascii.
From stdpp Require Import base option list sets strings.
From S2P Require Import Prelude Lifecycle GasPolicy HcuJson HcuPlan HcuSource HcuPricing HcuControls HcuLineage HcuSchema.
Local Open Scope Z_scope.

(** ** Constants *)
Definition EXPECTED_SG4_PROTOCOL_SHA256 : string := "88d6f8c1522a0668d769f34ddafaf3e71134cbc9434a1b9676f78d5bdeb0968e".
Definition EXPECTED_AUTHORITY_PROTOCOL_SHA256 : string := "53fabb080c608c1224faa8435a1fbd548ca316806d554fcc8e92b730d8cfea2b".
Definition EXPECTED_CALCULATOR_HASH : string := "9baddc2fdd7c4d6423928b5b9ac568aed9d80b03913df9a1ca166cc51d1896ba".
Definition EXPECTED_COST_TABLE_HASH : string := "dbe4e9cc500544a8750a37f5526e0e9907427b78ac17d3c49f079d9d21314aa1".
Definition EXECUTOR_BUILD_INFO_SHA256 : string := "50ed161472e207da6462aa180856d0047aa52396abdba05e9bf566f5ccfd63dd".
Definition EXECUTOR_NORMALIZED_RUNTIME_SHA256 : string := "23ab0dc924c946764c63383ae7c0e17f6b2e9c57d2ac9e2822f30b4c63f0158a".
Definition OFFICIAL_BUILD_INFO_SHA256 : string := "b0d9caeb6c3d0747b0889a6d231877d475a4f1ae57c0f7352a6a3eb1ad844396".
Definition REPRODUCED_EXECUTOR_VERSION : string := "FHEVMExecutor v0.4.0".
Definition LOCAL_INSTALLED_FIXTURE_id : string := "LOCAL_INSTALLED_FIXTURE@fhevm/host-contracts@0.10.0".
Definition LOCAL_AUTHORITY_FIXTURE_ROOT_package : string := "@fhevm/host-contracts".
Definition ARTIFACT_FACETS : list string := ["blockOrBatch"; "codeIdentity"; "limitSemantics"; "limitValues"; "operationSchedule"].
Definition FACET_ORIGINS_FORBIDDEN_FOR_PASS : list string := ["LOCAL_INSTALLED_FIXTURE"; "UNRESOLVED"].
Definition PROMOTING_LIMIT_RESULTS : list string := ["MATCHES_BINDING_RECORD_ON_CHAIN"; "VERIFIED_FROM_CODE_IDENTIFIED_ARTIFACT_NO_GETTER"].
Definition MEASUREMENT_EXECUTION_RELEVANT_FILES : list string :=
  ["@fhevm/mock-utils:fhevm/coprocessor/HCUByOperator.ts"; "@fhevm/mock-utils:fhevm/coprocessor/hcu.ts"].

(** ** What is derived again from the reviewed record *)
Record ArtifactBuild := {
  ab_sourceContentSha256 : string; ab_expectedDeployedRuntimeSha256 : string; ab_expectedNormalizedRuntimeSha256 : string; ab_failures : list string
}.
(** Each derivation returns its blockers and what it derived. *)
Class Derivations := {
  deriveExecutorFromSourceMaterial : Json -> option string -> list string * option ArtifactBuild;
  deriveExecutorAuthorityAddressFromSourceMaterial : Json -> list string * option string;
  deriveAuthorityFromSourceMaterial : Json -> option string -> list string * option ArtifactBuild
}.

(** ** Access to a report *)
(** [left === right]; objects and arrays of different fields are never identical. *)
Definition strictly_equal (left right : option Json) : bool :=
  match left, right with None, None => true | Some x, Some y => identical x y | _, _ => false end.
(** [typeof value === "string" ? value : ...] *)
Definition text_value (value : option Json) : option string := match value with Some (jstring s) => Some s | _ => None end.
Definition is_true (value : option Json) : bool := strictly_equal value (Some (jbool true)).
Definition is_false (value : option Json) : bool := strictly_equal value (Some (jbool false)).
Definition truthy (value : option Json) : bool :=
  match value with
  | None | Some jnull | Some (jbool false) => false
  | Some (jnumber z) => negb (z =? 0)
  | Some (jstring s) => string_nonempty s
  | _ => true
  end.
Definition is_hash (value : option Json) : bool := of_length 64 is_lower_hex (String_of value).
Definition is_address (s : string) : bool := matches_hex 40 s.
Definition is_empty_array (value : option Json) : bool := match value with Some (jarray []) => true | _ => false end.
(** [value.length], of a value that is not [undefined] or [null]. *)
Definition js_length (value : Json) : option Z :=
  match value with
  | jarray items => Some (Z.of_nat (length items))
  | jstring s => Some (Z.of_nat (String.length s))
  | jobject _ => match json_field value "length" with Some (jnumber z) => Some z | _ => None end
  | _ => None
  end.
(** [(value ?? []).length] *)
Definition length_or_zero (value : option Json) : option Z := match value with None | Some jnull => Some 0 | Some v => js_length v end.

(** [(value ?? []).every], [.find], [.includes]: only arrays have the methods. *)
Definition array_or_nil (value : option Json) : result (list Json) :=
  match value with None | Some jnull => Ok [] | Some (jarray items) => Ok items | _ => Throw (JsError true "TypeError" None "not a function") end.
Fixpoint every_result {A} (p : A -> result bool) (xs : list A) : result bool :=
  match xs with [] => Ok true | x :: xs => match p x with Ok true => every_result p xs | other => other end end.

(** [require(condition, message)] *)
Definition require (condition : bool) (message : string) : list string := error_if (negb condition) message.
Definition only_if (condition : bool) (errors : list string) : list string := if condition then errors else [].

Section Report.
Context `{RecordValidator} `{Derivations}.
Variable closure : list PricingVariant.
Variable report : Json.
Definition at_field (key : string) : option Json := json_field report key.
Definition tells (key text : string) : bool := equals_text (at_field key) text.

(** ** Every verdict *)
Definition CONTROL_STATE_FIELDS : list string := ["blockOrBatchControlState"; "transactionTotalControlState"; "transactionDepthControlState"].
Definition control_state_errors (field : string) : list string :=
  let state := at_field field in
  if negb (truthy state) then []
  else
    let authorityState := optional_member state "authorityState" in
    let value := optional_member state "value" in
    let carriesValue := equals_text authorityState "PROVEN_PRESENT" || equals_text authorityState "LOCAL_EXPECTED_PENDING_LIVE_BINDING" in
    error_if (negb carriesValue && bool_decide (is_Some value)) (field +:+ ": only a PROVEN_PRESENT control may carry a value") ++
    error_if (carriesValue && negb (bool_decide (is_Some value))) (field +:+ ": a PROVEN_PRESENT control requires a value") ++
    error_if (equals_text authorityState "UNRESOLVED" && negb (is_true (optional_member state "blocking"))) (field +:+ ": an UNRESOLVED control must be blocking") ++
    error_if (equals_text authorityState "PROVEN_ABSENT_IN_VERIFIED_IMPLEMENTATION" &&
        negb (equals_text (optional_member state "liveDeploymentBinding") "BOUND_TO_VERIFIED_DEPLOYED_IMPLEMENTATION"))
      (field +:+ ": proven absence requires a verified deployed implementation").

Definition every_verdict_errors : list string :=
  validateResultAgainstSchema report ++
  concat (map (fun forbidden => error_if (bool_decide (is_Some (at_field forbidden))) ("forbidden sensitive field " +:+ forbidden)) forbiddenProperties) ++
  concat (map control_state_errors CONTROL_STATE_FIELDS) ++
  error_if (equals_text (optional_member (at_field "blockOrBatchControlState") "authorityState") "UNRESOLVED") "unresolved block/batch control is blocking" ++
  error_if (tells "staleAddressGuardResult" "REJECTED") "authority result derived from the stale HCULimit constant is rejected".

(** ** What the reviewed record gives *)
Variable reviewedBinding : option Json.
Definition reviewedBindingErrors : list string :=
  match reviewedBinding with
  | None => ["PASS requires the reviewed authority-binding record"]
  | Some record => validateAuthorityBindingRecord record
  end.
Definition reviewed (role : string) : option Json := optional_member reviewedBinding role.
Definition reviewed_policy (role : string) : option Json :=
  match optional_member (reviewed role) "implementationAddressPolicy" with Some policy => if isObject policy then Some policy else None | None => None end.
Definition reviewed_model (role : string) : option Json := optional_member (reviewed role) "deploymentModel".
Definition policy_address (role : string) : option string := text_value (optional_member (reviewed_policy role) "expectedImplementationAddress").

(** A build without blockers and failures. *)
Definition ready_build (derived : list string * option ArtifactBuild) : option ArtifactBuild :=
  match derived with ([], Some build) => match ab_failures build with [] => Some build | _ => None end | _ => None end.

Definition reviewedExecutorBuild : option ArtifactBuild :=
  match reviewedBinding, reviewedBindingErrors with
  | Some record, [] =>
      let address := if equals_text (reviewed_model "executor") "DIRECT" then Some (String_of (optional_member (reviewed "executor") "address"))
        else policy_address "executor" in
      ready_build (deriveExecutorFromSourceMaterial record address)
  | _, _ => None
  end.
Definition reviewedExecutorAuthorityAddress : option string :=
  match reviewedBinding, reviewedExecutorBuild with
  | Some record, Some _ => match deriveExecutorAuthorityAddressFromSourceMaterial record with ([], address) => address | _ => None end
  | _, _ => None
  end.
Definition reviewedAuthorityBuild : option ArtifactBuild :=
  match reviewedBinding, reviewedBindingErrors with
  | Some record, [] =>
      let reported := match text_value (at_field "authorityImplementationAddress") with Some address => if is_address address then Some address else None | None => None end in
      let address :=
        if equals_text (reviewed_model "authority") "ERC1967_PROXY" && equals_text (optional_member (reviewed_policy "authority") "kind") "EXACT_PINNED_ADDRESS"
        then match policy_address "authority" with Some pinned => Some pinned | None => reported end
        else reported in
      ready_build (deriveAuthorityFromSourceMaterial record address)
  | _, _ => None
  end.
(** A digest of the report that equals one of the build, when the build is ready. *)
Definition matches_build (build : option ArtifactBuild) (field : string) (digest : ArtifactBuild -> string) (message : string) : list string :=
  match build with Some b => require (tells field (digest b)) message | None => [] end.

(** ** PASS: identity of the artifacts *)
Definition executor_expected_address : option string :=
  if equals_text (reviewed_model "executor") "DIRECT"
  then Some (toLowerCase (default SEPOLIA_EXECUTOR_ADDRESS (text_value (optional_member (reviewed "executor") "address"))))
  else toLowerCase <$> policy_address "executor".
Definition executor_expected_version : string := default REPRODUCED_EXECUTOR_VERSION (text_value (optional_member (reviewed "executor") "expectedVersion")).

Definition derivation_errors : list string :=
  map (fun error => "PASS requires an independently valid reviewed binding: " +:+ error) reviewedBindingErrors ++
  require (bool_decide (is_Some reviewedExecutorBuild)) "PASS requires executor identity derived from the authenticated reviewed executor source/build material" ++
  require (bool_decide (is_Some reviewedAuthorityBuild)) "PASS requires authority identity derived from the authenticated reviewed authority source/build material" ++
  require (bool_decide (is_Some reviewedExecutorAuthorityAddress)) "PASS requires the authority address derived from authenticated executor build provenance".

(** Properties of [facetArtifactBinding], which must not be [null]. *)
Definition facet_field (facet key : string) : option Json := optional_member (optional_member (at_field "facetArtifactBinding") facet) key.
Definition origin_forbidden (origin : option Json) : bool :=
  match origin with None | Some jnull => true | Some (jstring s) => bool_decide (s ∈ FACET_ORIGINS_FORBIDDEN_FOR_PASS) | _ => false end.
Definition has_facets : bool := bool_decide (is_Some (at_field "facetArtifactBinding")).
Definition artifact_errors : result (list string) :=
  (if strictly_equal (at_field "facetArtifactBinding") (Some jnull) then type_error else Ok tt) ;;
  Ok (
    require (tells "codeIdentityResult" "VERIFIED") "PASS requires verified executor/authority code identity" ++
    require (match text_value (at_field "expectedDeployedNormalizedHash") with Some hash => of_length 64 is_lower_hex hash | None => false end)
      "PASS requires a resolved current official artifact hash; the local fixture cannot stand in" ++
    require (strictly_equal (at_field "normalizedImplementationHash") (at_field "expectedDeployedNormalizedHash"))
      "PASS requires the deployed normalized hash to equal the resolved official artifact hash" ++
    require (negb (tells "authoritativeArtifactId" LOCAL_INSTALLED_FIXTURE_id)) "PASS may not name the local installed fixture as the authoritative artifact" ++
    require (match text_value (at_field "authoritativeArtifactId") with Some id => negb (bool_decide (id = "UNRESOLVED")) | None => false end)
      "PASS requires a resolved authoritative artifact identity" ++
    require (has_facets && forallb (fun facet => strictly_equal (facet_field facet "artifactId") (at_field "authoritativeArtifactId")) ARTIFACT_FACETS)
      "PASS requires code identity, limit values, limit semantics, operation schedule, and block/batch to be bound to the same artifact" ++
    require (has_facets && forallb (fun facet => negb (origin_forbidden (facet_field facet "origin"))) ARTIFACT_FACETS)
      "PASS requires every facet to originate from the authoritative binding record, never from the local installed fixture" ++
    require (tells "authorityBindingRecordResult" "VALID") "PASS requires a valid authority-binding record").

(** ** PASS: the executor *)
Definition executor_build_errors : list string :=
  require (tells "executorCodeIdentityResult" "VERIFIED") "PASS requires verified executor code identity against the binding record" ++
  require (tells "executorImplementationCodeIdentityResult" "VERIFIED") "PASS requires executor implementation identity from the authenticated reproduced build" ++
  require (tells "executorReproducedBuildResult" "MATCHES_PINNED_REPRODUCED_BUILD") "PASS requires the executor build to match its pinned reproduced build" ++
  require (is_hash (at_field "executorReproducedBuildInfoSha256")) "PASS requires a resolved executor reproduced build-info digest" ++
  require (tells "executorReproducedBuildInfoSha256" EXECUTOR_BUILD_INFO_SHA256) "PASS requires the pinned executor reproduced build-info digest" ++
  require (tells "executorReproducedBuildResult" "MATCHES_PINNED_REPRODUCED_BUILD") "PASS requires the executor reproduced-build result to match the reviewed provenance" ++
  matches_build reviewedExecutorBuild "executorReproducedBuildInfoSha256" ab_sourceContentSha256 "PASS requires the executor build-info digest to equal authenticated source material" ++
  require (match text_value (at_field "executorImplementationAddress") with Some address => is_address address | None => false end)
    "PASS requires a resolved executor implementation address" ++
  require (is_hash (at_field "executorImplementationCodeHash")) "PASS requires a resolved executor implementation code hash" ++
  require (is_hash (at_field "executorExpectedImplementationCodeHash")) "PASS requires a recomputed expected executor implementation code hash" ++
  matches_build reviewedExecutorBuild "executorExpectedImplementationCodeHash" ab_expectedDeployedRuntimeSha256
    "PASS requires the executor expected implementation hash to equal the independently derived artifact hash" ++
  matches_build reviewedExecutorBuild "executorImplementationCodeHash" ab_expectedDeployedRuntimeSha256
    "PASS requires the executor implementation hash to equal the independently derived artifact hash" ++
  require (tells "executorExpectedNormalizedImplementationHash" EXECUTOR_NORMALIZED_RUNTIME_SHA256) "PASS requires the pinned executor artifact normalized hash" ++
  matches_build reviewedExecutorBuild "executorExpectedNormalizedImplementationHash" ab_expectedNormalizedRuntimeSha256
    "PASS requires the executor expected normalized hash to equal the authenticated artifact hash" ++
  matches_build reviewedExecutorBuild "executorNormalizedImplementationHash" ab_expectedNormalizedRuntimeSha256
    "PASS requires the normalized executor implementation hash to equal the authenticated artifact hash" ++
  require (tells "executorExpectedNormalizedImplementationHash" EXECUTOR_NORMALIZED_RUNTIME_SHA256)
    "PASS requires the expected executor normalized hash to be the pinned artifact hash".

(** [reviewed?.field] of the record as a field of the report. *)
Definition is_reviewed (field role key : string) : bool := strictly_equal (at_field field) (optional_member (reviewed role) key).
Definition is_reviewed_text (field role key : string) : bool :=
  match text_value (optional_member (reviewed role) key) with Some text => tells field text | None => false end.
Definition executor_address_errors : list string :=
  require (tells "executorAddress" (default SEPOLIA_EXECUTOR_ADDRESS (text_value (optional_member (reviewed "executor") "address"))))
    "PASS requires the configured executor address to equal the reviewed executor address" ++
  require (is_reviewed "executorDeploymentModel" "executor" "deploymentModel") "PASS requires the executor deployment model to equal the reviewed binding" ++
  require (match text_value (at_field "executorExpectedImplementationAddress") with Some address => is_address address | None => false end)
    "PASS requires reviewed executor implementation-address evidence" ++
  require (bool_decide (is_Some executor_expected_address)) "PASS requires reviewed executor implementation-address policy evidence" ++
  require (bool_decide (toLowerCase <$> text_value (at_field "executorExpectedImplementationAddress") = executor_expected_address))
    "PASS requires executor implementation-address evidence to equal the reviewed policy" ++
  require (bool_decide (Some (toLowerCase (String_of (at_field "executorImplementationAddress"))) = executor_expected_address))
    "PASS requires the resolved executor implementation address to equal the reviewed policy" ++
  require (tells "executorExpectedVersion" executor_expected_version) "PASS requires the expected executor version to equal the reviewed reproduced-build version" ++
  only_if (tells "executorVersionResult" "MATCHES_BINDING_RECORD")
    (require (strictly_equal (at_field "executorVersion") (at_field "executorExpectedVersion"))
      "PASS requires executorVersion to equal the reviewed expected version when marked MATCHES_BINDING_RECORD").
Definition executor_deployment_errors : list string :=
  if tells "executorDeploymentModel" "ERC1967_PROXY" then
    require (bool_decide (is_Some reviewedBinding)) "PASS requires the reviewed executor binding for a proxied executor" ++
    require (is_hash (at_field "executorProxyCodeHash")) "PASS requires a resolved executor proxy-shell code hash" ++
    require (strictly_equal (at_field "executorProxyCodeHash") (at_field "executorCodeHash"))
      "PASS requires executor proxy code hash to equal the verified executor proxy identity hash" ++
    require (is_reviewed_text "executorProxyCodeHash" "executor" "expectedProxyRuntimeSha256") "PASS requires executor proxy code hash to equal the reviewed proxy identity" ++
    require (tells "executorProxyCodeIdentityResult" "VERIFIED") "PASS requires verified executor proxy-shell identity" ++
    require (tells "executorImplementationResolutionResult" "VERIFIED_ERC1967_STORAGE_SLOT") "PASS requires role-specific executor ERC-1967 implementation resolution" ++
    require (tells "executorImplementationAddressPolicyResult" "EXACT_MATCH") "PASS requires the executor implementation address to match its exact pinned policy"
  else
    require (tells "executorDeploymentModel" "DIRECT") "PASS requires a supported executor deployment model" ++
    require (bool_decide (toLowerCase (String_of (at_field "executorImplementationAddress")) = toLowerCase SEPOLIA_EXECUTOR_ADDRESS))
      "PASS requires a direct executor implementation address equal to the configured executor address" ++
    require (tells "executorProxyCodeHash" "UNRESOLVED" && tells "executorProxyCodeIdentityResult" "UNRESOLVED")
      "PASS requires proxy-only executor evidence to be NOT_APPLICABLE on the direct path" ++
    require (tells "executorImplementationResolutionResult" "NOT_APPLICABLE_DIRECT_DEPLOYMENT") "PASS requires a direct executor to avoid ERC-1967 resolution" ++
    require (tells "executorImplementationAddressPolicyResult" "NOT_APPLICABLE_DIRECT_DEPLOYMENT") "PASS requires a direct executor to avoid an implementation-address policy" ++
    require (strictly_equal (at_field "executorCodeHash") (at_field "executorImplementationCodeHash"))
      "PASS requires direct executor code hash to equal its authenticated implementation code hash".
Definition executorIdentityChainVerified : bool :=
  tells "executorCodeIdentityResult" "VERIFIED" && tells "executorImplementationCodeIdentityResult" "VERIFIED" &&
  tells "executorReproducedBuildResult" "MATCHES_PINNED_REPRODUCED_BUILD" && tells "executorReproducedBuildInfoSha256" EXECUTOR_BUILD_INFO_SHA256 &&
  strictly_equal (at_field "executorImplementationCodeHash") (at_field "executorExpectedImplementationCodeHash") &&
  tells "executorNormalizedImplementationHash" EXECUTOR_NORMALIZED_RUNTIME_SHA256 && tells "executorVersionResult" "MATCHES_BINDING_RECORD" &&
  strictly_equal (at_field "executorVersion") (at_field "executorExpectedVersion").
Definition executor_version_errors : list string :=
  require (tells "executorVersionResult" "MATCHES_BINDING_RECORD") "PASS requires the executor version to match the binding record" ++
  require (tells "executorExpectedVersion" executor_expected_version) "PASS requires the expected executor version to equal the reviewed version" ++
  require (tells "executorVersion" executor_expected_version) "PASS requires the executor version to equal the reviewed version" ++
  require (negb (tells "executorAuthorityDerivationResult" "VERIFIED") || executorIdentityChainVerified)
    "executor authority derivation may be VERIFIED only after every executor identity step is verified" ++
  require (tells "executorAuthorityDerivationResult" "VERIFIED") "PASS requires authority derivation only after the verified executor implementation chain".

(** ** PASS: the authority *)
Definition authority_errors : list string :=
  require (tells "authorityCodeIdentityResult" "VERIFIED") "PASS requires verified authority code identity against the binding record" ++
  require (tells "authorityVersionResult" "MATCHES_BINDING_RECORD") "PASS requires the authority version to match the binding record" ++
  require (is_reviewed "authorityDeploymentModel" "authority" "deploymentModel") "PASS requires the authority deployment model to equal the reviewed binding" ++
  require (is_reviewed "authorityVersion" "authority" "expectedImplementationVersion") "PASS requires the authority version to equal the reviewed version" ++
  require (match text_value (at_field "authorityAddress") with Some address => bool_decide (Some (toLowerCase address) = reviewedExecutorAuthorityAddress) | None => false end)
    "PASS requires the authority address to equal the authenticated executor-derived authority address" ++
  require (bool_decide (String_of (at_field "executorDeploymentModel") ∈ DEPLOYMENT_MODELS)) "PASS requires a reviewed executor deployment model" ++
  require (bool_decide (String_of (at_field "authorityDeploymentModel") ∈ DEPLOYMENT_MODELS)) "PASS requires a reviewed authority deployment model".

(** ** PASS: the limits *)
Definition reading_result (field : string) : option Json := optional_member (at_field field) "result".
Definition promotes (field : string) : bool := bool_decide (String_of (reading_result field) ∈ PROMOTING_LIMIT_RESULTS).
Definition reading_errors : list string :=
  concat (map (fun '(field, label) => require (promotes field)
    ("PASS requires the " +:+ label +:+ " HCU limit read on chain or proven from the code-identified artifact; NOT_APPLICABLE may not stand in"))
    [("totalHcuOnChainReading", "total"); ("depthHcuOnChainReading", "depth")]) ++
  require (promotes "blockOrBatchOnChainReading" || equals_text (reading_result "blockOrBatchOnChainReading") "NOT_APPLICABLE_WITH_ARTIFACT_PROOF")
    "PASS requires the block/batch reading to match the binding record or be not applicable with an artifact proof".

Definition subject_resolved (entries : list Json) (subject : string) : result bool :=
  match find_by entries "subject" subject with
  | Ok (Some entry) => Ok (negb (equals_text (json_field entry "result") "UNRESOLVED") && negb (equals_text (json_field entry "result") "MALFORMED"))
  | Ok None => Ok false
  | Throw e => Throw e
  end.
Definition applicability_errors : result (list string) :=
  entries ← array_or_nil (at_field "callerApplicabilityResults");
  resolved ← every_result (subject_resolved entries) SG4_APPLICABILITY_SUBJECTS;
  Ok (require resolved "PASS requires resolved caller applicability for every SG-4 subject" ++
    require (negb (tells "callerExemptionResult" "UNKNOWN_EXEMPTION") && negb (tells "callerExemptionResult" "UNRESOLVED"))
      "PASS requires resolved caller applicability; an unknown exemption fails closed").

Definition live_semantics : LiveLimitSemantics :=
  if tells "liveLimitSemantics" "CONFIGURED_CEILING_INCLUSIVE_REVERT_ON_GREATER_THAN" then CONFIGURED_CEILING_INCLUSIVE_REVERT_ON_GREATER_THAN
  else if tells "liveLimitSemantics" "CONFIGURED_CEILING_EXCLUSIVE_REVERT_ON_GREATER_THAN_OR_EQUAL" then CONFIGURED_CEILING_EXCLUSIVE_REVERT_ON_GREATER_THAN_OR_EQUAL
  else SEMANTICS_UNRESOLVED.
Definition is_greatest (field : string) (ceiling : Z) : bool :=
  match greatestAcceptedValue live_semantics ceiling with Some greatest => tells field (Z_toString greatest) | None => false end.
Definition semantics_errors : list string :=
  require (tells "pinnedBlockFinality" "FINALIZED") "PASS requires a finalized pinned block" ++
  require (negb (tells "liveLimitSemantics" "UNRESOLVED")) "PASS requires resolved network limit semantics" ++
  require (is_greatest "greatestAcceptedTotalHcu" TRANSACTION_TOTAL_HCU_LIMIT) "PASS requires the greatest accepted total to be coherent with the resolved semantics" ++
  require (is_greatest "greatestAcceptedDepthHcu" TRANSACTION_DEPTH_HCU_LIMIT) "PASS requires the greatest accepted depth to be coherent with the resolved semantics".

(** ** PASS: provenance and resolution *)
Definition provenance_errors : list string :=
  require (tells "preparationLineageResult" "VERIFIED") "PASS requires a verified preparation A->B lineage" ++
  require (tells "reciprocalLinkageResult" "VERIFIED") "reciprocal linkage must be VERIFIED for a PASS result" ++
  require (tells "staleAddressGuardResult" "NOT_USED") "PASS requires the stale-address guard to report NOT_USED" ++
  require (tells "installedSourceHashesResult" "MATCH") "PASS requires matching installed source hashes" ++
  require (tells "sg4CoverageResult" "COMPLETE") "PASS requires complete SG-4 coverage" ++
  require (tells "operationScheduleAuthorityState" "RESOLVED") "PASS requires the operation-schedule authority to be resolved" ++
  require (tells "immutableProvenanceState" "RESOLVED") "PASS requires resolved immutable provenance" ++
  require (tells "authorityProtocolDigest" EXPECTED_AUTHORITY_PROTOCOL_SHA256) "PASS requires the committed authority protocol digest" ++
  require (tells "benchmarkProtocolDigest" EXPECTED_SG4_PROTOCOL_SHA256) "PASS requires the committed benchmark protocol digest" ++
  require (tells "calculatorHash" EXPECTED_CALCULATOR_HASH) "PASS requires the expected calculator hash" ++
  require (tells "installedTableHash" EXPECTED_COST_TABLE_HASH) "PASS requires the expected installed table hash".
Definition authority_proxy : bool := tells "authorityDeploymentModel" "ERC1967_PROXY".
Definition resolution_errors : list string :=
  require (if authority_proxy then tells "implementationResolutionResult" "VERIFIED_ERC1967_STORAGE_SLOT"
      else tells "implementationResolutionResult" "NOT_APPLICABLE_DIRECT_DEPLOYMENT")
    "PASS requires an implementation-resolution result matching the reviewed deployment model" ++
  require (bool_decide (String_of (at_field "executorDeploymentModel") ∈ EXECUTOR_DEPLOYMENT_MODELS)) "PASS requires a supported executor deployment model" ++
  require (matches_digits (String_of (at_field "pinnedBlockNumber"))) "PASS requires a resolved pinned block number" ++
  require (after_0x (of_length 64 is_lower_hex) (String_of (at_field "pinnedBlockHash"))) "PASS requires a resolved pinned block hash" ++
  require (is_hash (at_field "executorCodeHash")) "PASS requires a resolved executor code hash" ++
  require (is_hash (at_field "authorityCodeHash")) "PASS requires a resolved authority code hash" ++
  require (is_address (String_of (at_field "authorityAddress"))) "PASS requires an authority address derived from the verified executor" ++
  require (is_address (String_of (at_field "authorityImplementationAddress"))) "PASS requires a resolved authority implementation address" ++
  matches_build reviewedAuthorityBuild "expectedDeployedNormalizedHash" ab_expectedNormalizedRuntimeSha256
    "PASS requires the expected authority normalized hash to equal the authenticated artifact derivation" ++
  matches_build reviewedAuthorityBuild "normalizedImplementationHash" ab_expectedNormalizedRuntimeSha256
    "PASS requires the authority normalized hash to equal the authenticated artifact derivation" ++
  (if equals_text (reviewed_model "authority") "ERC1967_PROXY" then
     require (is_reviewed_text "authorityCodeHash" "authority" "expectedProxyRuntimeSha256") "PASS requires the authority proxy hash to equal the reviewed proxy identity"
   else if equals_text (reviewed_model "authority") "DIRECT" then
     matches_build reviewedAuthorityBuild "authorityCodeHash" ab_expectedDeployedRuntimeSha256
       "PASS requires the direct authority hash to equal the independently derived artifact hash"
   else []).

(** ** PASS: the toolchain, the roots and the prices *)
Definition toolchain (key : string) : option Json := optional_member (at_field "measurementToolchainRoot") key.
Definition deployed (key : string) : option Json := optional_member (at_field "deployedAuthorityRoot") key.
Definition compatibility (key : string) : option Json := optional_member (at_field "operationCompatibilityResult") key.
Definition root_errors : list string :=
  require (equals_text (toolchain "package") MEASUREMENT_TOOLCHAIN_ROOT_package) "PASS requires the exact measurement-toolchain package" ++
  require (equals_text (toolchain "version") MEASUREMENT_TOOLCHAIN_ROOT_version) "PASS requires the exact measurement-toolchain version" ++
  require (equals_text (toolchain "integrity") MEASUREMENT_TOOLCHAIN_ROOT_integrity) "PASS requires the exact measurement-toolchain integrity" ++
  require (equals_text (toolchain "verificationResult") "VERIFIED") "PASS requires the measurement toolchain root to have been independently verified" ++
  require (match toolchain "executionRelevantFiles" with Some (jarray files) => bool_decide (length files = length MEASUREMENT_EXECUTION_RELEVANT_FILES) | _ => false end)
    "PASS requires every execution-relevant measurement file to be reported" ++
  concat (map (fun field => require (match text_value (deployed field) with Some text => string_nonempty text && negb (bool_decide (text = "UNRESOLVED")) | None => false end)
    ("PASS requires a resolved deployed-authority-root " +:+ field)) DEPLOYED_AUTHORITY_ROOT_POLICY_fields) ++
  require (of_length 40 is_lower_hex (String_of (deployed "commit"))) "PASS requires a deployed-authority-root commit naming an exact upstream revision" ++
  require (is_hash (deployed "contentSha256")) "PASS requires a deployed-authority-root content digest" ++
  require (bool_decide (String_of (deployed "artifactId") = String_of (at_field "authoritativeArtifactId")))
    "PASS requires the deployed authority root to name the same artifact the result verified" ++
  require (negb (includes LOCAL_AUTHORITY_FIXTURE_ROOT_package (String_of (deployed "repository"))))
    "PASS may not derive the deployed authority root from the local fixture package".

Definition COMPATIBILITY_CLASSES : list string :=
  ["arityMismatches"; "costMismatches"; "installedOnly"; "operandMismatches"; "operandTypeMismatches"; "resultTypeMismatches"; "translationMismatches";
   "unsupportedByCalculator"].
Definition compatibility_errors : list string :=
  concat (map (fun field => require (is_empty_array (compatibility field)) ("PASS requires an empty " +:+ field +:+ " in the operation compatibility result"))
    COMPATIBILITY_CLASSES) ++
  require (match compatibility "shared" with
      | Some (jarray shared) => bool_decide (print (jarray shared) = stringify_texts (js_sort compare_code_units (map variantId closure)))
      | _ => false end)
    "PASS requires the serialized used-variant closure to be the exact SG-4 closure".

(** ** PASS: the policy on the implementation address *)
Definition policy_errors : list string :=
  let policyResult := "implementationAddressPolicyResult" in
  require (bool_decide (String_of (at_field policyResult) ∈ ["EXACT_MATCH"; "NOT_APPLICABLE_DIRECT_DEPLOYMENT"; "PERMITTED_CODE_IDENTICAL_CHANGE"]))
    "PASS requires the authority implementation address to satisfy its reviewed policy" ++
  require (if authority_proxy then negb (tells policyResult "NOT_APPLICABLE_DIRECT_DEPLOYMENT") else tells policyResult "NOT_APPLICABLE_DIRECT_DEPLOYMENT")
    "PASS requires the implementation-address policy result to match the reviewed deployment model" ++
  let implementation := toLowerCase (String_of (at_field "authorityImplementationAddress")) in
  if equals_text (reviewed_model "authority") "ERC1967_PROXY" then
    let kind := optional_member (reviewed_policy "authority") "kind" in
    if equals_text kind "EXACT_PINNED_ADDRESS" then
      require (tells policyResult "EXACT_MATCH") "PASS requires the result policy to equal the reviewed exact-address policy" ++
      require (match policy_address "authority" with Some pinned => bool_decide (implementation = toLowerCase pinned) | None => false end)
        "PASS requires the authority implementation address to equal the reviewed exact pin"
    else if equals_text kind "REVIEWED_CODE_IDENTICAL_UPGRADE" then
      require (tells policyResult "PERMITTED_CODE_IDENTICAL_CHANGE") "PASS requires the result policy to equal the reviewed code-identical-upgrade policy"
    else require false "PASS requires a declared reviewed authority implementation-address policy"
  else if equals_text (reviewed_model "authority") "DIRECT" then
    require (tells policyResult "NOT_APPLICABLE_DIRECT_DEPLOYMENT") "PASS requires a direct authority to have no implementation-address policy" ++
    require (bool_decide (implementation = toLowerCase (String_of (at_field "authorityAddress"))))
      "PASS requires a direct authority implementation address to equal its derived authority address"
  else [].

(** ** PASS: the plan, the controls and the calls *)
Definition positive_number (value : option Json) : bool := match value with Some (jnumber z) => 0 <? z | _ => false end.
Definition control_proven (field : string) (limit : Z) : bool :=
  equals_text (optional_member (at_field field) "authorityState") "PROVEN_PRESENT" && equals_text (optional_member (at_field field) "value") (Z_toString limit).
Definition plan_errors : list string :=
  require (tells "reproducedBuildResult" "MATCHES_PINNED_REPRODUCED_BUILD") "PASS requires the official artifact build to match the pinned independently reproduced build" ++
  require (tells "reproducedBuildInfoSha256" OFFICIAL_BUILD_INFO_SHA256) "PASS requires the pinned reproduced build-info digest" ++
  require (tells "planEnforcementResult" "ENFORCED_EXACT") "PASS requires the verifier to have enforced its generated live call plan exactly" ++
  require (positive_number (at_field "livePlanCallCount")) "PASS requires a generated live call plan with at least one call" ++
  require (strictly_equal (at_field "liveCallCount") (at_field "livePlanCallCount")) "PASS requires the issued call count to equal the planned call count" ++
  require (is_hash (at_field "livePlanDigest")) "PASS requires a canonical live call plan digest" ++
  require (is_hash (at_field "liveCallLogDigest")) "PASS requires a canonical live call log digest" ++
  require (is_false (optional_member (at_field "localAuthorityFixtureRoot") "passRelevant")) "the local authority fixture root may never be PASS-relevant" ++
  require (control_proven "transactionTotalControlState" TRANSACTION_TOTAL_HCU_LIMIT) "PASS requires the transaction-total control proven present with the exact limit" ++
  require (control_proven "transactionDepthControlState" TRANSACTION_DEPTH_HCU_LIMIT) "PASS requires the transaction-depth control proven present with the exact limit" ++
  (let blockState := optional_member (at_field "blockOrBatchControlState") "authorityState" in
   require (equals_text blockState "PROVEN_PRESENT" || equals_text blockState "PROVEN_ABSENT_IN_VERIFIED_IMPLEMENTATION")
     "PASS requires the block/batch control to be resolved, never UNRESOLVED") ++
  require (bool_decide (length_or_zero (compatibility "costMismatches") = Some 0)) "PASS requires zero operation cost mismatches" ++
  require (bool_decide (length_or_zero (compatibility "operandMismatches") = Some 0)) "PASS requires zero operand mismatches" ++
  require (bool_decide (length_or_zero (compatibility "installedOnly") = Some 0)) "PASS requires every SG-4 variant to be priced" ++
  require (match length_or_zero (compatibility "shared") with Some n => 0 <? n | None => false end) "PASS requires the SG-4 used-variant closure to have been compared" ++
  require (bool_decide (length_or_zero (compatibility "unsupportedByCalculator") = Some 0)) "PASS requires every deployed operation to be priceable by the installed calculator".

Definition slot_reads : Z := (if tells "executorDeploymentModel" "ERC1967_PROXY" then 1 else 0) + (if authority_proxy then 1 else 0).
Definition call_errors : result (list string) :=
  methods ← array_or_nil (at_field "rpcMethodsUsed");
  let reads_slots := existsb (fun method => equals_text (Some method) "eth_getStorageAt") methods in
  Ok (
    require (match at_field "unsupportedOperations" with Some unsupported => bool_decide (js_length unsupported = Some 0) | None => false end)
      "PASS requires no unsupported operation" ++
    require (forallb (fun method => match method with jstring name => bool_decide (name ∈ LIVE_RPC_ALLOWED_METHODS) | _ => false end) methods)
      "PASS requires every RPC method used to be on the read-only allow-list" ++
    require (if slot_reads =? 0 then negb reads_slots else reads_slots)
      "PASS requires exactly one ERC-1967 slot read for each proxied role and none for direct roles; the read-only transport method set must include the planned slot-read method" ++
    require (strictly_equal (at_field "erc1967SlotReadCount") (Some (jnumber slot_reads)))
      "PASS requires exactly one ERC-1967 slot read for each proxied role and none for direct roles" ++
    require (negb (tells "callerExemptionResult" "EXEMPT")) "PASS requires that no SG-4-relevant caller is exempt from the enforced ceiling" ++
    require (is_false (at_field "walletRequested")) "walletRequested must be false" ++
    require (is_false (at_field "accountAuthorizationRequested")) "accountAuthorizationRequested must be false" ++
    require (is_false (at_field "signingRequested")) "signingRequested must be false" ++
    require (is_false (at_field "transactionSubmitted")) "transactionSubmitted must be false").

Definition pass_errors : result (list string) :=
  artifacts ← artifact_errors;
  applicability ← applicability_errors;
  calls ← call_errors;
  Ok (derivation_errors ++ artifacts ++ executor_build_errors ++ executor_address_errors ++ executor_deployment_errors ++ executor_version_errors ++
    authority_errors ++ reading_errors ++ applicability ++ semantics_errors ++ provenance_errors ++ resolution_errors ++ root_errors ++ compatibility_errors ++
    policy_errors ++ plan_errors ++ calls).

Definition validateAuthorityResult : result (list string) :=
  if negb (tells "finalVerdict" "PASS") then Ok (js_sort compare_code_units (js_set every_verdict_errors))
  else errors ← pass_errors; Ok (js_sort compare_code_units (js_set (every_verdict_errors ++ errors))).
End Report.

(** * Properties *)
Lemma require_nil condition message : require condition message = [] <-> condition = true.
Proof. apply error_unless_nil. Qed.

Lemma tells_text value text : equals_text value text = true <-> value = Some (jstring text).
Proof.
  split; [|intros ->; by apply bool_decide_eq_true]. unfold equals_text. destruct value as [[| | |s| |]|]; try done. by intros ->%bool_decide_eq_true.
Qed.

Lemma matches_build_nil report build field digest message b :
  matches_build report build field digest message = [] -> build = Some b -> json_field report field = Some (jstring (digest b)).
Proof. intros H ->. by apply require_nil, tells_text in H. Qed.

Section Sound.
Context `{RecordValidator} `{Derivations}.
Variable closure : list PricingVariant.
Variable report record : Json.

(** ** What an accepted PASS establishes

    The report says a text in a field; [recorded] is a property of a role in the reviewed
    record, [recorded_policy] one of the policy on its implementation address. *)
Definition says (key text : string) : Prop := at_field report key = Some (jstring text).
Definition recorded (role key : string) : option Json := optional_member (json_field record role) key.
Definition recorded_policy (role key : string) : option Json := optional_member (recorded role "implementationAddressPolicy") key.
Definition hash_text (s : string) : Prop := of_length 64 is_lower_hex s = true.

(** Results and digests of which a PASS admits one value. *)
Definition REQUIRED_CLAIMS : list (string * string) := [
  ("codeIdentityResult", "VERIFIED"); ("authorityBindingRecordResult", "VALID"); ("executorCodeIdentityResult", "VERIFIED");
  ("executorImplementationCodeIdentityResult", "VERIFIED"); ("executorReproducedBuildResult", "MATCHES_PINNED_REPRODUCED_BUILD");
  ("executorReproducedBuildInfoSha256", EXECUTOR_BUILD_INFO_SHA256); ("executorExpectedNormalizedImplementationHash", EXECUTOR_NORMALIZED_RUNTIME_SHA256);
  ("executorNormalizedImplementationHash", EXECUTOR_NORMALIZED_RUNTIME_SHA256); ("executorVersionResult", "MATCHES_BINDING_RECORD");
  ("executorAuthorityDerivationResult", "VERIFIED"); ("authorityCodeIdentityResult", "VERIFIED"); ("authorityVersionResult", "MATCHES_BINDING_RECORD");
  ("pinnedBlockFinality", "FINALIZED"); ("preparationLineageResult", "VERIFIED"); ("reciprocalLinkageResult", "VERIFIED");
  ("staleAddressGuardResult", "NOT_USED"); ("installedSourceHashesResult", "MATCH"); ("sg4CoverageResult", "COMPLETE");
  ("operationScheduleAuthorityState", "RESOLVED"); ("immutableProvenanceState", "RESOLVED");
  ("authorityProtocolDigest", EXPECTED_AUTHORITY_PROTOCOL_SHA256); ("benchmarkProtocolDigest", EXPECTED_SG4_PROTOCOL_SHA256);
  ("calculatorHash", EXPECTED_CALCULATOR_HASH); ("installedTableHash", EXPECTED_COST_TABLE_HASH);
  ("reproducedBuildResult", "MATCHES_PINNED_REPRODUCED_BUILD"); ("reproducedBuildInfoSha256", OFFICIAL_BUILD_INFO_SHA256);
  ("planEnforcementResult", "ENFORCED_EXACT")].

(** The code at the executor's address: the reviewed proxy in front of an implementation
    read from its slot, or the artifact itself at the known address. *)
Definition executor_deployed (model : string) (executor : ArtifactBuild) : Prop :=
  model = "ERC1967_PROXY" /\
    (exists proxy, says "executorProxyCodeHash" proxy /\ says "executorCodeHash" proxy /\ hash_text proxy /\
       recorded "executor" "expectedProxyRuntimeSha256" = Some (jstring proxy)) /\
    says "executorProxyCodeIdentityResult" "VERIFIED" /\
    says "executorImplementationResolutionResult" "VERIFIED_ERC1967_STORAGE_SLOT" /\
    says "executorImplementationAddressPolicyResult" "EXACT_MATCH" \/
  model = "DIRECT" /\
    says "executorCodeHash" (ab_expectedDeployedRuntimeSha256 executor) /\
    (exists address, says "executorImplementationAddress" address /\ toLowerCase address = toLowerCase SEPOLIA_EXECUTOR_ADDRESS) /\
    says "executorProxyCodeHash" "UNRESOLVED" /\ says "executorProxyCodeIdentityResult" "UNRESOLVED" /\
    says "executorImplementationResolutionResult" "NOT_APPLICABLE_DIRECT_DEPLOYMENT" /\
    says "executorImplementationAddressPolicyResult" "NOT_APPLICABLE_DIRECT_DEPLOYMENT".
(** Where the record has the executor's code: at its own address, or at the one of its policy. *)
Definition executor_pin (model : string) : option string :=
  if bool_decide (model = "DIRECT") then Some (default SEPOLIA_EXECUTOR_ADDRESS (text_value (recorded "executor" "address")))
  else text_value (recorded_policy "executor" "expectedImplementationAddress").
Definition executor_version : string := default REPRODUCED_EXECUTOR_VERSION (text_value (recorded "executor" "expectedVersion")).

Record executor_agrees (model : string) (executor : ArtifactBuild) : Prop := {
  ex_model : says "executorDeploymentModel" model /\ recorded "executor" "deploymentModel" = Some (jstring model);
  ex_address : says "executorAddress" (default SEPOLIA_EXECUTOR_ADDRESS (text_value (recorded "executor" "address")));
  ex_implementation : exists pinned address expected, executor_pin model = Some pinned /\
    says "executorImplementationAddress" address /\ is_address address = true /\ toLowerCase address = toLowerCase pinned /\
    says "executorExpectedImplementationAddress" expected /\ is_address expected = true /\ toLowerCase expected = toLowerCase pinned;
  ex_version : says "executorVersion" executor_version /\ says "executorExpectedVersion" executor_version;
  ex_material : ab_sourceContentSha256 executor = EXECUTOR_BUILD_INFO_SHA256 /\
    ab_expectedNormalizedRuntimeSha256 executor = EXECUTOR_NORMALIZED_RUNTIME_SHA256;
  ex_code : hash_text (ab_expectedDeployedRuntimeSha256 executor) /\
    says "executorImplementationCodeHash" (ab_expectedDeployedRuntimeSha256 executor) /\
    says "executorExpectedImplementationCodeHash" (ab_expectedDeployedRuntimeSha256 executor);
  ex_deployed : executor_deployed model executor
}.

(** The code at the authority's address, and its implementation by the reviewed policy. *)
Definition authority_deployed (model implementation : string) (authority : ArtifactBuild) : Prop :=
  model = "ERC1967_PROXY" /\
    (exists proxy, says "authorityCodeHash" proxy /\ recorded "authority" "expectedProxyRuntimeSha256" = Some (jstring proxy)) /\
    says "implementationResolutionResult" "VERIFIED_ERC1967_STORAGE_SLOT" /\
    (recorded_policy "authority" "kind" = Some (jstring "EXACT_PINNED_ADDRESS") /\
       says "implementationAddressPolicyResult" "EXACT_MATCH" /\
       (exists pinned, recorded_policy "authority" "expectedImplementationAddress" = Some (jstring pinned) /\
          toLowerCase implementation = toLowerCase pinned) \/
     recorded_policy "authority" "kind" = Some (jstring "REVIEWED_CODE_IDENTICAL_UPGRADE") /\
       says "implementationAddressPolicyResult" "PERMITTED_CODE_IDENTICAL_CHANGE") \/
  model = "DIRECT" /\
    says "authorityCodeHash" (ab_expectedDeployedRuntimeSha256 authority) /\
    says "implementationResolutionResult" "NOT_APPLICABLE_DIRECT_DEPLOYMENT" /\
    says "implementationAddressPolicyResult" "NOT_APPLICABLE_DIRECT_DEPLOYMENT" /\
    (exists address, says "authorityAddress" address /\ toLowerCase implementation = toLowerCase address).

Record authority_agrees (model : string) (authority : ArtifactBuild) (derived : string) : Prop := {
  au_model : says "authorityDeploymentModel" model /\ recorded "authority" "deploymentModel" = Some (jstring model);
  au_version : exists version, says "authorityVersion" version /\ recorded "authority" "expectedImplementationVersion" = Some (jstring version);
  au_address : exists address, says "authorityAddress" address /\ is_address address = true /\ toLowerCase address = derived;
  au_code : hash_text (ab_expectedNormalizedRuntimeSha256 authority) /\
    says "normalizedImplementationHash" (ab_expectedNormalizedRuntimeSha256 authority) /\
    says "expectedDeployedNormalizedHash" (ab_expectedNormalizedRuntimeSha256 authority);
  au_deployed : exists implementation, says "authorityImplementationAddress" implementation /\ is_address implementation = true /\
    authority_deployed model implementation authority
}.

(** Everything is about one artifact, and none of it comes from the local fixture. *)
Record artifact_agrees : Prop := {
  ar_facets : exists artifact, says "authoritativeArtifactId" artifact /\ artifact <> LOCAL_INSTALLED_FIXTURE_id /\ artifact <> "UNRESOLVED" /\
    optional_member (at_field report "deployedAuthorityRoot") "artifactId" = Some (jstring artifact) /\
    forall facet, facet ∈ ARTIFACT_FACETS ->
      facet_field report facet "artifactId" = Some (jstring artifact) /\
      exists origin, facet_field report facet "origin" = Some (jstring origin) /\ origin ∉ FACET_ORIGINS_FORBIDDEN_FOR_PASS;
  ar_root : forall key, key ∈ DEPLOYED_AUTHORITY_ROOT_POLICY_fields -> exists text,
    optional_member (at_field report "deployedAuthorityRoot") key = Some (jstring text) /\ text <> "" /\ text <> "UNRESOLVED" /\
    (key = "commit" -> of_length 40 is_lower_hex text = true) /\ (key = "contentSha256" -> hash_text text) /\
    (key = "repository" -> includes LOCAL_AUTHORITY_FIXTURE_ROOT_package text = false);
  ar_toolchain : forall key text, (key, text) ∈ [("package", MEASUREMENT_TOOLCHAIN_ROOT_package); ("version", MEASUREMENT_TOOLCHAIN_ROOT_version);
      ("integrity", MEASUREMENT_TOOLCHAIN_ROOT_integrity); ("verificationResult", "VERIFIED")] ->
    optional_member (at_field report "measurementToolchainRoot") key = Some (jstring text);
  ar_files : exists files, optional_member (at_field report "measurementToolchainRoot") "executionRelevantFiles" = Some (jarray files) /\
    length files = length MEASUREMENT_EXECUTION_RELEVANT_FILES;
  ar_block : (exists number, says "pinnedBlockNumber" number /\ matches_digits number = true) /\
    exists hash, says "pinnedBlockHash" hash /\ after_0x (of_length 64 is_lower_hex) hash = true
}.

(** The limits are proven, and the greatest values accepted are those of their semantics. *)
Record limits_proven : Prop := {
  li_controls : forall state limit,
    (state, limit) ∈ [("transactionTotalControlState", TRANSACTION_TOTAL_HCU_LIMIT); ("transactionDepthControlState", TRANSACTION_DEPTH_HCU_LIMIT)] ->
    optional_member (at_field report state) "authorityState" = Some (jstring "PROVEN_PRESENT") /\
    optional_member (at_field report state) "value" = Some (jstring (Z_toString limit));
  li_block : exists state, optional_member (at_field report "blockOrBatchControlState") "authorityState" = Some (jstring state) /\
    (state = "PROVEN_PRESENT" /\ is_Some (optional_member (at_field report "blockOrBatchControlState") "value") \/
     state = "PROVEN_ABSENT_IN_VERIFIED_IMPLEMENTATION" /\ optional_member (at_field report "blockOrBatchControlState") "value" = None /\
       optional_member (at_field report "blockOrBatchControlState") "liveDeploymentBinding" = Some (jstring "BOUND_TO_VERIFIED_DEPLOYED_IMPLEMENTATION"));
  li_readings : forall reading, reading ∈ ["totalHcuOnChainReading"; "depthHcuOnChainReading"] ->
    exists result, optional_member (at_field report reading) "result" = Some (jstring result) /\ result ∈ PROMOTING_LIMIT_RESULTS;
  li_block_reading : exists result, optional_member (at_field report "blockOrBatchOnChainReading") "result" = Some (jstring result) /\
    result ∈ PROMOTING_LIMIT_RESULTS ++ ["NOT_APPLICABLE_WITH_ARTIFACT_PROOF"];
  li_greatest : exists below,
    (says "liveLimitSemantics" "CONFIGURED_CEILING_INCLUSIVE_REVERT_ON_GREATER_THAN" /\ below = 0 \/
     says "liveLimitSemantics" "CONFIGURED_CEILING_EXCLUSIVE_REVERT_ON_GREATER_THAN_OR_EQUAL" /\ below = 1) /\
    says "greatestAcceptedTotalHcu" (Z_toString (TRANSACTION_TOTAL_HCU_LIMIT - below)) /\
    says "greatestAcceptedDepthHcu" (Z_toString (TRANSACTION_DEPTH_HCU_LIMIT - below))
}.

(** The calls were those planned, only read, and nothing was asked of a wallet. *)
Definition slots (model : string) : Z := if bool_decide (model = "ERC1967_PROXY") then 1 else 0.
Record calls_planned (executor_model authority_model : string) : Prop := {
  ca_count : exists calls, 0 < calls /\ at_field report "liveCallCount" = Some (jnumber calls) /\
    at_field report "livePlanCallCount" = Some (jnumber calls);
  ca_digests : forall key, key ∈ ["livePlanDigest"; "liveCallLogDigest"; "executorCodeHash"; "authorityCodeHash"] ->
    exists hash, says key hash /\ hash_text hash;
  ca_methods : exists methods, at_field report "rpcMethodsUsed" = Some (jarray (map jstring methods)) /\
    (forall method, method ∈ methods -> method ∈ LIVE_RPC_ALLOWED_METHODS) /\
    ("eth_getStorageAt" ∈ methods <-> 0 < slots executor_model + slots authority_model);
  ca_slots : at_field report "erc1967SlotReadCount" = Some (jnumber (slots executor_model + slots authority_model));
  ca_unsupported : at_field report "unsupportedOperations" = Some (jarray []);
  ca_wallet : forall flag, flag ∈ ["walletRequested"; "accountAuthorizationRequested"; "signingRequested"; "transactionSubmitted"] ->
    at_field report flag = Some (jbool false);
  ca_exempt : exists exemption, says "callerExemptionResult" exemption /\ exemption ∉ ["EXEMPT"; "UNKNOWN_EXEMPTION"; "UNRESOLVED"];
  ca_subjects : forall subject, subject ∈ SG4_APPLICABILITY_SUBJECTS -> exists entries entry result,
    at_field report "callerApplicabilityResults" = Some (jarray entries) /\ entry ∈ entries /\
    json_field entry "subject" = Some (jstring subject) /\ json_field entry "result" = Some (jstring result) /\
    result ∉ ["UNRESOLVED"; "MALFORMED"]
}.

Record established : Prop := {
  es_record : validateAuthorityBindingRecord record = [];
  es_schema : conforms objectPrototypeKeys buildResultSchema report /\ (plain_value report -> conforms [] buildResultSchema report);
  es_sensitive : forall key, key ∈ forbiddenProperties -> at_field report key = None;
  es_claims : forall key text, (key, text) ∈ REQUIRED_CLAIMS -> says key text;
  es_artifact : artifact_agrees;
  es_limits : limits_proven;
  es_parties : exists executor_model authority_model executor authority address given_executor given_authority,
    executor_agrees executor_model executor /\ authority_agrees authority_model authority address /\
    calls_planned executor_model authority_model /\
    deriveExecutorFromSourceMaterial record given_executor = ([], Some executor) /\ ab_failures executor = [] /\
    deriveAuthorityFromSourceMaterial record (Some given_authority) = ([], Some authority) /\ ab_failures authority = [] /\
    deriveExecutorAuthorityAddressFromSourceMaterial record = ([], Some address) /\
    given_executor = (if bool_decide (executor_model = "DIRECT") then Some (String_of (recorded "executor" "address"))
                      else text_value (recorded_policy "executor" "expectedImplementationAddress")) /\
    (exists implementation, says "authorityImplementationAddress" implementation /\ toLowerCase given_authority = toLowerCase implementation);
  es_prices : exists prices, at_field report "operationCompatibilityResult" = Some prices /\
    (forall class, class ∈ COMPATIBILITY_CLASSES -> json_field prices class = Some (jarray [])) /\
    json_field prices "shared" = Some (jarray (map jstring (js_sort compare_code_units (map variantId closure))))
}.

(** ** From the empty lists of errors *)
Lemma text_value_some value s : text_value value = Some s <-> value = Some (jstring s).
Proof. destruct value as [[]|]; cbn; split; congruence. Qed.
Lemma strictly_equal_text value s : strictly_equal value (Some (jstring s)) = true -> value = Some (jstring s).
Proof. destruct value as [[| | |t| |]|]; cbn; try done. intros E%bool_decide_eq_true. by subst. Qed.
Lemma text_strictly_equal value s : strictly_equal (Some (jstring s)) value = true -> value = Some (jstring s).
Proof. destruct value as [[| | |t| |]|]; cbn; try done. intros E%bool_decide_eq_true. by subst. Qed.
Lemma is_false_some value : is_false value = true -> value = Some (jbool false).
Proof. by destruct value as [[|[]| | | |]|]. Qed.

Ltac facts :=
  repeat match goal with
  | H : _ ++ _ = [] |- _ => let F := fresh "F" in apply app_nil in H as [F H]
  | H : require _ _ = [] |- _ => apply require_nil in H
  | H : tells _ _ _ = true |- _ => apply tells_text in H
  | H : equals_text _ _ = true |- _ => apply tells_text in H
  | H : _ && _ = true |- _ => let F := fresh "F" in apply andb_true_iff in H as [F H]
  | H : bool_decide _ = true |- _ => apply bool_decide_eq_true in H
  | H : negb _ = true |- _ => apply negb_true_iff in H
  end.
(** One member of a list written out at a time. *)
Ltac each_member Hin :=
  repeat (apply elem_of_cons in Hin as [Hin|Hin]; [|]); [..|by apply elem_of_nil in Hin].

(** Membership in a list that is written out. *)
Ltac listed := repeat first [apply list_elem_of_here|apply list_elem_of_further].

Lemma recorded_reviewed role key : optional_member (reviewed (Some record) role) key = recorded role key.
Proof. reflexivity. Qed.
Lemma recorded_reviewed_policy role key : optional_member (reviewed_policy (Some record) role) key = recorded_policy role key.
Proof.
  unfold reviewed_policy, recorded_policy. rewrite recorded_reviewed. destruct (recorded role _) as [policy|]; [|done].
  by destruct policy.
Qed.

(** Which fields of a report are texts by its schema. *)
Definition text_field (key : string) : bool :=
  existsb (fun '(name, child) => bool_decide (name = key) && match child with s_string _ | s_enum _ => true | _ => false end)
    (result_properties_1 ++ result_properties_2).
Lemma report_object : admits buildResultSchema report -> exists fields, report = jobject fields.
Proof. inversion 1; by eexists. Qed.
Lemma reported_text key : admits buildResultSchema report -> text_field key = true -> exists s, says key s.
Proof.
  intros Ha (entry & Hin & Ht)%existsb_exists. destruct entry as [name child]. apply andb_true_iff in Ht as [->%bool_decide_eq_true Ht].
  destruct (report_object Ha) as [fields E]. apply list_elem_of_In in Hin. unfold says, at_field. rewrite E in *.
  destruct (report_field fields key child Ha Hin) as (item & -> & Hi). destruct child; try discriminate Ht; inversion Hi; subst; by eexists.
Qed.
(** What the schema says of a field that is an object, by one of its required texts. *)
Lemma reported_item i key child : admits buildResultSchema report -> (result_properties_1 ++ result_properties_2) !! i = Some (key, child) ->
  exists item, at_field report key = Some item /\ admits child item.
Proof.
  intros Ha Hi. destruct (report_object Ha) as [fields E]. unfold at_field. rewrite E in *. by apply (report_at fields i).
Qed.
Lemma reading_text item : admits onChainLimitReadingSchema item -> exists s, json_field item "result" = Some (jstring s).
Proof.
  inversion 1 as [| |? ? ? fields Hr _ Hp| | | |]; subst. destruct (json_field_some fields "result") as (result & E).
  { apply has_own_property; [by apply (bool_decide_unpack _); vm_compute|]. apply Hr. listed. }
  assert (Hs : admits (s_enum LIMIT_READING_RESULTS) result) by (eapply (Hp "result"); [listed|done]). inversion Hs; subst. by eexists.
Qed.

Lemma artifact_facts : artifact_errors report = Ok [] ->
  tells report "codeIdentityResult" "VERIFIED" = true /\ tells report "authorityBindingRecordResult" "VALID" = true /\
  (forall s, says "expectedDeployedNormalizedHash" s -> hash_text s) /\
  (exists artifact, says "authoritativeArtifactId" artifact /\ artifact <> LOCAL_INSTALLED_FIXTURE_id /\ artifact <> "UNRESOLVED" /\
     forall facet, facet ∈ ARTIFACT_FACETS -> facet_field report facet "artifactId" = Some (jstring artifact) /\
       origin_forbidden (facet_field report facet "origin") = false).
Proof.
  unfold artifact_errors. intros E. apply result_bind_Ok in E as ([] & _ & E). injection E as E. facts.
  split; [by apply tells_text|]. split; [by apply tells_text|].
  split.
  { intros s Hs. unfold says in Hs. rewrite Hs in *. cbn [text_value] in *. assumption. }
  destruct (text_value (at_field report "authoritativeArtifactId")) as [artifact|] eqn:Ea; [|done]. apply text_value_some in Ea.
  unfold says. rewrite Ea in *. exists artifact. split; [done|]. facts.
  repeat match goal with H : forallb _ _ = true |- _ => rewrite forallb_forall in H end.
  split.
  { intros ->. match goal with H : tells report _ LOCAL_INSTALLED_FIXTURE_id = false |- _ => unfold tells in H; rewrite Ea in H; cbn [equals_text] in H;
      apply bool_decide_eq_false in H; congruence end. }
  split.
  { intros ->. match goal with H : bool_decide _ = false |- _ => apply bool_decide_eq_false in H; congruence end. }
  intros facet Hin. unfold ARTIFACT_FACETS in Hin. each_member Hin; subst facet; (split; [by apply strictly_equal_text|assumption]).
Qed.

Lemma claims :
  artifact_errors report = Ok [] -> executor_build_errors report (Some record) = [] -> executor_version_errors report (Some record) = [] ->
  authority_errors report (Some record) = [] -> semantics_errors report = [] -> provenance_errors report = [] -> plan_errors report = [] ->
  says "executorNormalizedImplementationHash" EXECUTOR_NORMALIZED_RUNTIME_SHA256 ->
  forall key text, (key, text) ∈ REQUIRED_CLAIMS -> says key text.
Proof.
  intros (A1 & A2 & _)%artifact_facts. unfold executor_build_errors, executor_version_errors, authority_errors, semantics_errors, provenance_errors, plan_errors.
  intros E1 E2 E3 E4 E5 E6 E7. facts. intros key text Hin. unfold REQUIRED_CLAIMS in Hin.
  each_member Hin; injection Hin as -> ->; unfold says; assumption.
Qed.

Lemma executor_deployed_ok model executor :
  executor_deployment_errors report (Some record) = [] -> says "executorDeploymentModel" model ->
  admits buildResultSchema report -> says "executorImplementationCodeHash" (ab_expectedDeployedRuntimeSha256 executor) ->
  executor_deployed model executor.
Proof.
  unfold executor_deployment_errors. intros Hd Hm Ha Hcode. unfold tells at 1 in Hd. unfold says in Hm. rewrite Hm in Hd. cbn [equals_text] in Hd.
  destruct (reported_text "executorProxyCodeHash" Ha ltac:(by vm_compute)) as [proxy Hproxy].
  destruct (reported_text "executorImplementationAddress" Ha ltac:(by vm_compute)) as [address Haddress].
  unfold says in Hproxy, Haddress, Hcode. case_bool_decide as Em; facts.
  - left. split; [done|]. split; [|by split_and!]. exists proxy. unfold says. split; [done|].
    match goal with H : strictly_equal (at_field report "executorProxyCodeHash") _ = true |- _ => rewrite Hproxy in H; apply text_strictly_equal in H end.
    split; [done|]. split.
    { match goal with H : is_hash (at_field report "executorProxyCodeHash") = true |- _ => unfold is_hash in H; by rewrite Hproxy in H end. }
    match goal with H : is_reviewed_text _ _ _ _ _ = true |- _ => unfold is_reviewed_text in H; rewrite recorded_reviewed in H end.
    destruct (text_value (recorded "executor" "expectedProxyRuntimeSha256")) as [s|] eqn:Es; [|done]. facts. apply text_value_some in Es. congruence.
  - right. match goal with H : at_field report "executorDeploymentModel" = Some (jstring "DIRECT") |- _ => rewrite Hm in H; injection H as -> end.
    split; [done|]. split; [|split].
    + match goal with H : strictly_equal _ (at_field report "executorImplementationCodeHash") = true |- _ => rewrite Hcode in H; by apply strictly_equal_text in H end.
    + exists address. split; [done|]. match goal with H : toLowerCase (String_of (at_field report "executorImplementationAddress")) = _ |- _ => by rewrite Haddress in H end.
    + by split_and!.
Qed.

Lemma executor_digests build :
  executor_build_errors report (Some record) = [] -> reviewedExecutorBuild (Some record) = Some build ->
  (ab_sourceContentSha256 build = EXECUTOR_BUILD_INFO_SHA256 /\ ab_expectedNormalizedRuntimeSha256 build = EXECUTOR_NORMALIZED_RUNTIME_SHA256) /\
  hash_text (ab_expectedDeployedRuntimeSha256 build) /\
  says "executorImplementationCodeHash" (ab_expectedDeployedRuntimeSha256 build) /\
  says "executorExpectedImplementationCodeHash" (ab_expectedDeployedRuntimeSha256 build) /\
  says "executorNormalizedImplementationHash" EXECUTOR_NORMALIZED_RUNTIME_SHA256.
Proof.
  intros Hx Hb. unfold executor_build_errors in Hx. rewrite Hb in Hx. unfold matches_build in Hx. facts. unfold says, hash_text.
  repeat match goal with H : at_field report ?k = Some (jstring ?x), H' : at_field report ?k = Some (jstring ?y) |- _ =>
    lazymatch x with y => fail | _ => idtac end; rewrite H in H'; injection H' as H' end.
  split_and!; try congruence.
  match goal with H : is_hash (at_field report "executorImplementationCodeHash") = true, H' : at_field report "executorImplementationCodeHash" = _ |- _ =>
    unfold is_hash in H; by rewrite H' in H end.
Qed.

Lemma executor_ok executor :
  admits buildResultSchema report ->
  executor_build_errors report (Some record) = [] -> executor_address_errors report (Some record) = [] ->
  executor_deployment_errors report (Some record) = [] -> executor_version_errors report (Some record) = [] ->
  reviewedExecutorBuild (Some record) = Some executor -> exists model, executor_agrees model executor.
Proof.
  intros Ha Hbuild Haddr Hdep Hver Hb. destruct (executor_digests executor Hbuild Hb) as (Hmat & Hhash & Hc1 & Hc2 & _).
  destruct (reported_text "executorDeploymentModel" Ha ltac:(by vm_compute)) as [model Hm].
  destruct (reported_text "executorImplementationAddress" Ha ltac:(by vm_compute)) as [address Hi].
  destruct (reported_text "executorExpectedImplementationAddress" Ha ltac:(by vm_compute)) as [expected He].
  exists model. unfold executor_address_errors, executor_version_errors in Haddr, Hver. rewrite recorded_reviewed in Haddr. unfold says in Hm, Hi, He.
  facts. match goal with H : is_reviewed _ _ "executorDeploymentModel" _ _ = true |- _ =>
    unfold is_reviewed in H; rewrite Hm, recorded_reviewed in H; apply text_strictly_equal in H; rename H into Hrec end.
  assert (Epin : executor_expected_address (Some record) = toLowerCase <$> executor_pin model).
  { unfold executor_expected_address, reviewed_model, executor_pin, policy_address. rewrite !recorded_reviewed, recorded_reviewed_policy, Hrec.
    cbn [equals_text]. by case_bool_decide. }
  rewrite Epin in *. destruct (executor_pin model) as [pinned|] eqn:Ep; [|match goal with H : is_Some _ |- _ => by destruct H end].
  constructor; [done|done| | |done|done|by apply executor_deployed_ok].
  - exists pinned, address, expected. unfold executor_build_errors in Hbuild. rewrite Hi, He in *. cbn [text_value String_of Json_toString fmap option_fmap option_map] in *.
    facts. split_and!; try done; congruence.
  - by unfold executor_version, executor_expected_version, says in *.
Qed.

Lemma authority_deployed_ok model implementation address authority :
  resolution_errors report (Some record) = [] -> policy_errors report (Some record) = [] ->
  reviewedAuthorityBuild report (Some record) = Some authority ->
  says "authorityDeploymentModel" model -> recorded "authority" "deploymentModel" = Some (jstring model) -> model ∈ DEPLOYMENT_MODELS ->
  says "authorityImplementationAddress" implementation -> says "authorityAddress" address ->
  authority_deployed model implementation authority.
Proof.
  unfold resolution_errors, policy_errors, authority_proxy, reviewed_model. rewrite !recorded_reviewed. unfold says. cbv zeta.
  intros Hr Hp Hb Hm Hrec Hin Hi Haddr. 
  change (tells report "authorityDeploymentModel" "ERC1967_PROXY") with (equals_text (at_field report "authorityDeploymentModel") "ERC1967_PROXY") in Hr, Hp.
  rewrite Hm, Hrec in Hr, Hp. rewrite Hi, Haddr in Hp. rewrite Hb in Hr.
  cbn [equals_text] in Hr, Hp. unfold DEPLOYMENT_MODELS in Hin. each_member Hin; subst model.
  - rewrite !(bool_decide_eq_false_2 ("DIRECT" = "ERC1967_PROXY")), !(bool_decide_eq_true_2 ("DIRECT" = "DIRECT")) in Hr, Hp by done.
    unfold matches_build in Hr. cbn [String_of Json_toString] in Hp. facts. right. split_and!; try done. by exists address.
  - rewrite !(bool_decide_eq_true_2 ("ERC1967_PROXY" = "ERC1967_PROXY")) in Hr, Hp by done. left. split; [done|].
    unfold is_reviewed_text in Hr. rewrite recorded_reviewed in Hr. unfold policy_address in Hp. rewrite !recorded_reviewed_policy in Hp.
    cbn [String_of Json_toString] in Hp. facts. split.
    { destruct (text_value (recorded "authority" "expectedProxyRuntimeSha256")) as [proxy|] eqn:Ep; [|done]. apply text_value_some in Ep.
      facts. by exists proxy. }
    split; [done|]. destruct (recorded_policy "authority" "kind") as [[| | |kind| |]|]; cbn [equals_text] in Hp; try by facts.
    case_bool_decide as E1; [subst; left|case_bool_decide as E2; [subst; right|by facts]]; facts; [|by split_and!].
    split; [done|split; [done|]]. destruct (text_value (recorded_policy _ _)) as [pinned|] eqn:Ep; [|done]. apply text_value_some in Ep. facts. by exists pinned.
Qed.

Lemma authority_ok authority derived :
  admits buildResultSchema report -> (forall s, says "expectedDeployedNormalizedHash" s -> hash_text s) ->
  authority_errors report (Some record) = [] -> resolution_errors report (Some record) = [] -> policy_errors report (Some record) = [] ->
  reviewedAuthorityBuild report (Some record) = Some authority -> reviewedExecutorAuthorityAddress (Some record) = Some derived ->
  exists model, authority_agrees model authority derived.
Proof.
  intros Ha Hash He Hr Hp Hb Hx. destruct (reported_text "authorityDeploymentModel" Ha ltac:(by vm_compute)) as [model Hm].
  destruct (reported_text "authorityAddress" Ha ltac:(by vm_compute)) as [address Haddr].
  destruct (reported_text "authorityVersion" Ha ltac:(by vm_compute)) as [version Hv].
  destruct (reported_text "authorityImplementationAddress" Ha ltac:(by vm_compute)) as [implementation Hi].
  pose proof Hr as Hr'. unfold authority_errors in He. unfold resolution_errors in Hr'. rewrite Hb in Hr'. rewrite Hx in He. unfold says in *.
  rewrite Haddr, Hm in He. rewrite Haddr, Hi in Hr'. cbn [text_value String_of Json_toString] in He, Hr'. unfold is_reviewed in He. rewrite !recorded_reviewed, Hm, Hv in He.
  unfold matches_build at 1 2 in Hr'. facts. repeat match goal with H : strictly_equal (Some (jstring _)) _ = true |- _ => apply text_strictly_equal in H end.
  exists model. constructor.
  - done.
  - by exists version.
  - exists address. split_and!; [done|done|congruence].
  - split_and!; [by apply Hash|done..].
  - exists implementation. split_and!; [done..|]. by eapply authority_deployed_ok.
Qed.

Lemma facet_origin_text facet origin :
  admits buildResultSchema report -> facet ∈ ARTIFACT_FACETS -> facet_field report facet "origin" = origin ->
  exists s, origin = Some (jstring s).
Proof.
  intros Ha Hin <-. destruct (report_object Ha) as [fields E]. unfold facet_field, at_field. rewrite E in *. clear E.
  destruct (report_at fields 58 "facetArtifactBinding" _ Ha ltac:(vm_compute; reflexivity)) as (item & -> & Hi).
  inversion Hi as [| |? ? ? facets Hr _ Hp| | | |]; subst. cbn [optional_member mbind option_bind].
  assert (Hown : facet ∉ objectPrototypeKeys /\ facet ∈ ["blockOrBatch"; "codeIdentity"; "limitSemantics"; "limitValues"; "operationSchedule"]).
  { unfold ARTIFACT_FACETS in Hin. each_member Hin; subst facet; (split; [by apply (bool_decide_unpack _); vm_compute|listed]). }
  destruct Hown as [Hown Hreq]. destruct (json_field_some facets facet) as (binding & Eb); [by apply has_own_property, Hr|].
  change (map_get facet facets) with (json_field (jobject facets) facet). rewrite Eb. cbn [mbind option_bind].
  assert (Hb : admits facetBindingSchema binding) by (eapply (Hp facet); [unfold ARTIFACT_FACETS in Hin; each_member Hin; subst facet; listed|done]).
  inversion Hb as [| |? ? ? entry Hr' _ Hp'| | | |]; subst.
  destruct (json_field_some entry "origin") as (origin & Eo).
  { apply has_own_property; [by apply (bool_decide_unpack _); vm_compute|]. apply Hr'. listed. }
  change (map_get "origin" entry) with (json_field (jobject entry) "origin"). rewrite Eo.
  assert (Ho : admits (s_enum FACET_ORIGINS) origin) by (eapply (Hp' "origin"); [listed|done]). inversion Ho; subst. by eexists.
Qed.

(** The optional control, present with a value or proven absent. *)
Lemma block_state_ok :
  concat (map (control_state_errors report) CONTROL_STATE_FIELDS) = [] ->
  equals_text (optional_member (at_field report "blockOrBatchControlState") "authorityState") "PROVEN_PRESENT" ||
  equals_text (optional_member (at_field report "blockOrBatchControlState") "authorityState") "PROVEN_ABSENT_IN_VERIFIED_IMPLEMENTATION" = true ->
  exists state, optional_member (at_field report "blockOrBatchControlState") "authorityState" = Some (jstring state) /\
    (state = "PROVEN_PRESENT" /\ is_Some (optional_member (at_field report "blockOrBatchControlState") "value") \/
     state = "PROVEN_ABSENT_IN_VERIFIED_IMPLEMENTATION" /\ optional_member (at_field report "blockOrBatchControlState") "value" = None /\
       optional_member (at_field report "blockOrBatchControlState") "liveDeploymentBinding" = Some (jstring "BOUND_TO_VERIFIED_DEPLOYED_IMPLEMENTATION")).
Proof.
  rewrite concat_nil. intros He Hb. specialize (He "blockOrBatchControlState" ltac:(listed)). unfold control_state_errors in He. cbv zeta in He.
  destruct (at_field report "blockOrBatchControlState") as [state|]; [|done].
  assert (Ht : truthy (Some state) = true) by (by destruct state). rewrite Ht in He. cbn [negb] in He.
  apply app_nil in He as [E1 He]. apply app_nil in He as [E2 He]. apply app_nil in He as [_ E3].
  apply no_error_if_nil in E1, E2, E3. apply orb_true_iff in Hb as [Hb|Hb]; apply tells_text in Hb; rewrite Hb in *; cbn [equals_text] in *.
  - exists "PROVEN_PRESENT". split; [done|]. left. split; [done|]. cbn in E2. by apply negb_false_iff, bool_decide_eq_true in E2.
  - eexists. split; [done|]. right. split; [done|]. cbn in E1, E3. split.
    + apply bool_decide_eq_false in E1. by apply eq_None_not_Some.
    + by apply negb_false_iff, tells_text in E3.
Qed.

Lemma artifact_ok :
  admits buildResultSchema report ->
  artifact_errors report = Ok [] -> resolution_errors report (Some record) = [] -> root_errors report = [] -> artifact_agrees.
Proof.
  intros Ha Hart Hres Hroot. destruct (artifact_facts Hart) as (_ & _ & _ & artifact & Hid & Hl & Hu & Hf).
  unfold root_errors in Hroot. unfold resolution_errors in Hres. facts.
  assert (Htexts : forall key, key ∈ DEPLOYED_AUTHORITY_ROOT_POLICY_fields -> exists text,
    optional_member (at_field report "deployedAuthorityRoot") key = Some (jstring text) /\ text <> "" /\ text <> "UNRESOLVED").
  { intros key Hin. match goal with H : concat _ = [] |- _ => rewrite concat_nil in H; specialize (H key Hin) end. cbv beta in *. facts.
    destruct (text_value (deployed report key)) as [text|] eqn:Et; [|done]. apply text_value_some in Et. exists text. facts. split_and!; [done|by destruct text|].
    match goal with H : bool_decide _ = false |- _ => by apply bool_decide_eq_false in H end. }
  constructor.
  - exists artifact. split_and!; try done.
    + destruct (Htexts "artifactId") as (text & Et & _); [listed|]. unfold deployed, says in *.
      match goal with H : String_of (optional_member _ "artifactId") = _ |- _ => rewrite Et, Hid in H; cbn in H end. congruence.
    + intros facet Hin. destruct (Hf facet Hin) as [Hfa Ho]. split; [done|]. unfold origin_forbidden in Ho.
      destruct (facet_origin_text facet _ Ha Hin eq_refl) as [origin Eo]. rewrite Eo in *. exists origin. split; [done|]. by apply bool_decide_eq_false in Ho.
  - intros key Hin. destruct (Htexts key Hin) as (text & Et & Hne & Hun). exists text. split_and!; try done; intros ->;
      unfold deployed, is_hash, hash_text in *; rewrite Et in *; done.
  - intros key text Hin. each_member Hin; injection Hin as -> ->; assumption.
  - match goal with H : match toolchain report "executionRelevantFiles" with _ => _ end = true |- _ => rename H into Hfiles end.
    unfold toolchain in *. destruct (optional_member _ "executionRelevantFiles") as [[| | | |files|]|]; try done. exists files. by facts.
  - destruct (reported_text "pinnedBlockNumber" Ha ltac:(by vm_compute)) as [number Hn].
    destruct (reported_text "pinnedBlockHash" Ha ltac:(by vm_compute)) as [hash Hh]. unfold says in *. rewrite Hn, Hh in *.
    split; [by exists number|by exists hash].
Qed.

Lemma limits_ok :
  admits buildResultSchema report -> every_verdict_errors report = [] -> reading_errors report = [] -> semantics_errors report = [] ->
  plan_errors report = [] -> limits_proven.
Proof.
  intros Ha Hv Hr Hs Hp. unfold reading_errors, promotes, reading_result in Hr. unfold semantics_errors in Hs. unfold plan_errors, control_proven in Hp.
  cbv zeta in Hp. cbn [map concat] in Hr. facts.
  assert (Htext : forall i key, (result_properties_1 ++ result_properties_2) !! i = Some (key, onChainLimitReadingSchema) ->
    exists s, optional_member (at_field report key) "result" = Some (jstring s)).
  { intros i key Hi. destruct (reported_item i key _ Ha Hi) as (item & -> & Hitem). by apply reading_text. }
  constructor.
  - intros state limit Hin. each_member Hin; injection Hin as -> ->; by split.
  - match goal with H : equals_text _ _ || _ = true |- _ => rename H into Hb end. unfold every_verdict_errors in Hv. facts.
    eapply block_state_ok; eassumption.
  - intros reading Hin. each_member Hin; subst reading.
    + destruct (Htext 85%nat "totalHcuOnChainReading") as [s Es]; [by vm_compute|]. rewrite Es in *. by exists s.
    + destruct (Htext 27%nat "depthHcuOnChainReading") as [s Es]; [by vm_compute|]. rewrite Es in *. by exists s.
  - destruct (Htext 24%nat "blockOrBatchOnChainReading") as [s Es]; [by vm_compute|]. rewrite Es in *. exists s. split; [done|].
    match goal with H : bool_decide (String_of _ ∈ _) || _ = true |- _ => apply orb_true_iff in H as [H|H]; facts; apply elem_of_app; [by left|right] end.
    match goal with H : Some _ = Some _ |- _ => injection H as -> end. listed.
  - unfold is_greatest in *. unfold live_semantics in *. destruct (tells report "liveLimitSemantics" "CONFIGURED_CEILING_INCLUSIVE_REVERT_ON_GREATER_THAN") eqn:E1.
    + apply tells_text in E1. exists 0. cbn [greatestAcceptedValue] in *. facts. rewrite !Z.sub_0_r. split_and!; [by left|done..].
    + destruct (tells report "liveLimitSemantics" "CONFIGURED_CEILING_EXCLUSIVE_REVERT_ON_GREATER_THAN_OR_EQUAL") eqn:E2; [|done].
      apply tells_text in E2. exists 1. cbn [greatestAcceptedValue] in *. facts. split_and!; [by right|done..].
Qed.

Lemma every_result_true {A} (p : A -> result bool) xs : every_result p xs = Ok true -> forall x, x ∈ xs -> p x = Ok true.
Proof.
  induction xs as [|x xs IH]; cbn [every_result]; [by intros _ ? ?%elem_of_nil|]. destruct (p x) as [[]|] eqn:E; try done.
  intros Hx y [->|Hy]%elem_of_cons; [done|by apply IH].
Qed.
Lemma find_by_some entries key text entry :
  find_by entries key text = Ok (Some entry) -> entry ∈ entries /\ json_field entry key = Some (jstring text).
Proof.
  induction entries as [|e entries IH]; cbn [find_by]; [done|]. intros E. apply result_bind_Ok in E as (v & Ev & E).
  destruct (equals_text v text) eqn:Et.
  - injection E as <-. split; [by left|]. apply tells_text in Et. subst. unfold member in Ev. destruct e; try discriminate Ev. by injection Ev.
  - destruct (IH E) as [? ?]. split; [by right|done].
Qed.

(** Each subject has an entry, and a result. *)
Lemma subjects_ok entries subject :
  admits (s_array callerApplicabilityResultSchema) (jarray entries) -> subject_resolved entries subject = Ok true ->
  exists entry result, entry ∈ entries /\ json_field entry "subject" = Some (jstring subject) /\
    json_field entry "result" = Some (jstring result) /\ result ∉ ["UNRESOLVED"; "MALFORMED"].
Proof.
  intros Ha E. unfold subject_resolved in E. destruct (find_by _ _ _) as [[entry|]|] eqn:Ef; try done. apply find_by_some in Ef as [Hin Hs].
  inversion Ha as [| | |? ? He| | |]; subst. specialize (He entry Hin). inversion He as [| |? ? ? fields Hr _ Hp| | | |]; subst.
  destruct (json_field_some fields "result") as (result & Er); [apply has_own_property; [by apply (bool_decide_unpack _); vm_compute|]; apply Hr; listed|].
  assert (Hres : admits (s_enum ["EXEMPT"; "MALFORMED"; "NOT_APPLICABLE_WITH_PROOF"; "NOT_EXEMPT"; "UNKNOWN_EXEMPTION"; "UNRESOLVED"]) result)
    by (eapply (Hp "result"); [listed|done]).
  inversion Hres as [|? s Hsin| | | | |]; subst. exists (jobject fields), s. split_and!; try done. injection E as E. change (map_get "result" fields) with (json_field (jobject fields) "result") in E. rewrite Er in E. cbn [equals_text] in E. facts.
  repeat match goal with H : bool_decide _ = false |- _ => apply bool_decide_eq_false in H end. set_solver.
Qed.

Lemma slots_nonnegative m : 0 <= slots m <= 1.
Proof. unfold slots. by case_bool_decide. Qed.
Lemma tells_slots key model : says key model -> (if tells report key "ERC1967_PROXY" then 1 else 0) = slots model.
Proof. unfold says, tells, slots. intros ->. reflexivity. Qed.

Lemma methods_ok executor_model authority_model errors :
  admits buildResultSchema report -> says "executorDeploymentModel" executor_model -> says "authorityDeploymentModel" authority_model ->
  call_errors report = Ok errors -> errors = [] ->
  exists methods, at_field report "rpcMethodsUsed" = Some (jarray (map jstring methods)) /\
    (forall method, method ∈ methods -> method ∈ LIVE_RPC_ALLOWED_METHODS) /\
    ("eth_getStorageAt" ∈ methods <-> 0 < slots executor_model + slots authority_model).
Proof.
  intros Ha Hm Hm' Hc ->. unfold call_errors in Hc. apply result_bind_Ok in Hc as (methods & Hmethods & Hc). injection Hc as Hc.
  unfold slot_reads, authority_proxy in Hc. rewrite (tells_slots _ _ Hm), (tells_slots _ _ Hm') in Hc. facts.
  destruct (reported_item 77 "rpcMethodsUsed" _ Ha ltac:(vm_compute; reflexivity)) as (item & Ei & Hi). inversion Hi as [| | |? entries He| | |]; subst.
  rewrite Ei in Hmethods. injection Hmethods as <-.
  assert (Hnames : exists names, entries = map jstring names /\ forall name, name ∈ names -> name ∈ LIVE_RPC_ALLOWED_METHODS).
  { clear -He. induction entries as [|entry entries IH]; [exists []; split; [done|by intros ? ?%elem_of_nil]|].
    destruct IH as (names & -> & Hn); [intros e Hin; apply He; by right|].
    assert (Hx : admits (s_enum LIVE_RPC_ALLOWED_METHODS) entry) by (apply He; by left). inversion Hx; subst.
    exists (s :: names). split; [done|]. intros name [->|Hin]%elem_of_cons; auto. }
  destruct Hnames as (names & -> & Hn). exists names. split_and!; [done|done|].
  assert (Hex : existsb (fun method => equals_text (Some method) "eth_getStorageAt") (map jstring names) = true <-> "eth_getStorageAt" ∈ names).
  { rewrite existsb_exists. setoid_rewrite <- list_elem_of_In. split.
    - intros (v & Hv & Et). apply tells_text in Et. injection Et as ->. by apply list_elem_of_fmap in Hv as (name & [= <-] & Hv).
    - intros Hin. exists (jstring "eth_getStorageAt"). split; [by apply list_elem_of_fmap_2|done]. }
  pose proof (slots_nonnegative executor_model). pose proof (slots_nonnegative authority_model). rewrite <- Hex.
  match goal with H : (if _ then _ else _) = true |- _ => rename H into Hslot end.
  destruct (slots executor_model + slots authority_model =? 0) eqn:Ez.
  - apply Z.eqb_eq in Ez. apply negb_true_iff in Hslot. split; [|lia]. intros Hr. pose proof (eq_trans (eq_sym Hr) Hslot). done.
  - apply Z.eqb_neq in Ez. split; [lia|]. intros _. exact Hslot.
Qed.

Lemma calls_ok executor_model authority_model :
  admits buildResultSchema report -> says "executorDeploymentModel" executor_model -> says "authorityDeploymentModel" authority_model ->
  applicability_errors report = Ok [] -> resolution_errors report (Some record) = [] -> plan_errors report = [] -> call_errors report = Ok [] ->
  calls_planned executor_model authority_model.
Proof.
  intros Ha Hm Hm' Happ Hres Hp Hc. pose proof (methods_ok _ _ _ Ha Hm Hm' Hc eq_refl) as Hmethods.
  unfold call_errors in Hc. apply result_bind_Ok in Hc as (methods & _ & Hc). injection Hc as Hc. unfold slot_reads, authority_proxy in Hc.
  rewrite (tells_slots _ _ Hm), (tells_slots _ _ Hm') in Hc. unfold applicability_errors in Happ. apply result_bind_Ok in Happ as (entries & Hentries & Happ).
  apply result_bind_Ok in Happ as (resolved & Hresolved & Happ). injection Happ as Happ. unfold plan_errors in Hp. cbv zeta in Hp. unfold resolution_errors in Hres. facts.
  assert (Hhash : forall key, text_field key = true -> is_hash (at_field report key) = true -> exists hash, says key hash /\ hash_text hash).
  { intros key Ht Hh. destruct (reported_text key Ha Ht) as [hash E]. unfold says, is_hash in *. rewrite E in Hh. by exists hash. }
  constructor.
  - unfold positive_number in *. destruct (at_field report "livePlanCallCount") as [[| |calls| | |]|] eqn:E; try done. exists calls.
    split; [by apply Z.ltb_lt|]. split; [|done]. destruct (at_field report "liveCallCount") as [[| |c| | |]|]; try done.
    match goal with H : strictly_equal _ _ = true |- _ => cbn in H; apply Z.eqb_eq in H; by subst end.
  - intros key Hin. each_member Hin; subst key; (apply Hhash; [by vm_compute|assumption]).
  - exact Hmethods.
  - match goal with H : strictly_equal (at_field report "erc1967SlotReadCount") _ = true |- _ => rename H into Hs end.
    destruct (at_field report "erc1967SlotReadCount") as [[| |n| | |]|]; try done. cbn in Hs. apply Z.eqb_eq in Hs. by subst.
  - destruct (reported_item 90 "unsupportedOperations" _ Ha ltac:(vm_compute; reflexivity)) as (item & Ei & Hi). inversion Hi as [| | |? items _| | |]; subst.
    rewrite Ei in *. cbn [js_length] in *. facts. match goal with H : Some _ = Some 0 |- _ => injection H as H; destruct items; [done|cbn in H; lia] end.
  - intros flag Hin. each_member Hin; subst flag; by apply is_false_some.
  - destruct (reported_text "callerExemptionResult" Ha ltac:(by vm_compute)) as [exemption E]. exists exemption. split; [done|]. unfold says, tells in *.
    rewrite E in *. cbn [equals_text] in *. repeat match goal with H : bool_decide _ = false |- _ => apply bool_decide_eq_false in H end. set_solver.
  - intros subject Hin. destruct (reported_item 25 "callerApplicabilityResults" _ Ha ltac:(vm_compute; reflexivity)) as (item & Ei & Hi).
    pose proof Hi as Hi'. inversion Hi' as [| | |? items _| | |]; subst. rewrite Ei in Hentries. injection Hentries as <-.
    assert (Hr : subject_resolved items subject = Ok true) by (by eapply every_result_true).
    destruct (subjects_ok items subject Hi Hr) as (entry & result & ? & ? & ? & ?). exists items, entry, result. by split_and!.
Qed.

Lemma compared_prices :
  compatibility_errors closure report = [] ->
  exists prices, at_field report "operationCompatibilityResult" = Some prices /\
    (forall class, class ∈ COMPATIBILITY_CLASSES -> json_field prices class = Some (jarray [])) /\
    json_field prices "shared" = Some (jarray (map jstring (js_sort compare_code_units (map variantId closure)))).
Proof.
  intros [Hc Hs%require_nil]%app_nil. destruct (compatibility report "shared") as [[| | | |shared|]|] eqn:Eshared; try done. apply bool_decide_eq_true in Hs.
  unfold compatibility in *. destruct (at_field report "operationCompatibilityResult") as [prices|]; [|done]. cbn [optional_member mbind option_bind] in *.
  exists prices. split; [done|]. split.
  - intros class Hin. rewrite concat_nil in Hc. apply (Hc class), require_nil in Hin. destruct (json_field prices class) as [[| | | |[|? ?]|]|]; done.
  - rewrite Eshared. do 2 f_equal. unfold stringify_texts in Hs. apply (f_equal (fun s => s +:+ "")) in Hs. apply print_unambiguous in Hs as [Hs _]; [|done|done]. by injection Hs.
Qed.

(** A report that is accepted although its counts are not checked conforms, since a PASS has counts. *)
Lemma schema_ok executor_model authority_model :
  admits buildResultSchema report -> calls_planned executor_model authority_model ->
  conforms objectPrototypeKeys buildResultSchema report /\ (plain_value report -> conforms [] buildResultSchema report).
Proof.
  intros Ha Hc. assert (Hcon : conforms objectPrototypeKeys buildResultSchema report).
  { destruct (report_object Ha) as [fields E]. pose proof (ca_count _ _ Hc) as (calls & Hpos & Hl & Hp). pose proof (ca_slots _ _ Hc) as Hs.
    unfold at_field in *. rewrite E in *. apply report_conforms; [done|]. intros key Hin. unfold COUNTS in Hin.
    pose proof (slots_nonnegative executor_model). pose proof (slots_nonnegative authority_model).
    each_member Hin; subst key; (eexists; split; [eassumption|lia]). }
  split; [done|]. by apply plain_conforms.
Qed.

Lemma sensitive_ok : every_verdict_errors report = [] -> forall key, key ∈ forbiddenProperties -> at_field report key = None.
Proof.
  unfold every_verdict_errors. intros Hv key Hin. facts. match goal with H : concat (map _ forbiddenProperties) = [] |- _ => rewrite concat_nil in H; specialize (H key Hin) end.
  cbv beta in *. match goal with H : error_if _ _ = [] |- _ => apply no_error_if_nil, bool_decide_eq_false in H; by apply eq_None_not_Some end.
Qed.
End Sound.

Section Accepted.
Context `{RecordValidator} `{Derivations}.
Variable closure : list PricingVariant.
Variable report : Json.
Variable reviewedBinding : option Json.
Hypothesis accepted : validateAuthorityResult closure report reviewedBinding = Ok [].
Hypothesis verdict : tells report "finalVerdict" "PASS" = true.

(** Each list of errors is empty. *)
Lemma pass_parts :
  every_verdict_errors report = [] /\ derivation_errors report reviewedBinding = [] /\ artifact_errors report = Ok [] /\
  executor_build_errors report reviewedBinding = [] /\ executor_address_errors report reviewedBinding = [] /\
  executor_deployment_errors report reviewedBinding = [] /\ executor_version_errors report reviewedBinding = [] /\
  authority_errors report reviewedBinding = [] /\ reading_errors report = [] /\ applicability_errors report = Ok [] /\ semantics_errors report = [] /\
  provenance_errors report = [] /\ resolution_errors report reviewedBinding = [] /\ root_errors report = [] /\ compatibility_errors closure report = [] /\
  policy_errors report reviewedBinding = [] /\ plan_errors report = [] /\ call_errors report = Ok [].
Proof.
  pose proof accepted as Ha. unfold validateAuthorityResult in Ha. rewrite verdict in Ha. cbn [negb] in Ha. apply result_bind_Ok in Ha as (errors & Hp & Ha).
  injection Ha as Ha. rewrite sorted_nil, js_set_nil in Ha. apply app_nil in Ha as [Hv ->]. unfold pass_errors in Hp.
  apply result_bind_Ok in Hp as (artifacts & Hart & Hp). apply result_bind_Ok in Hp as (applicability & Happ & Hp). apply result_bind_Ok in Hp as (calls & Hcalls & Hp).
  injection Hp as Hp. repeat (let F := fresh "P" in apply app_nil in Hp as [F Hp]). subst. by split_and!.
Qed.

Lemma ready_build_some derived build : ready_build derived = Some build -> derived = ([], Some build) /\ ab_failures build = [].
Proof. unfold ready_build. destruct derived as [[|? ?] [b|]]; try done. destruct (ab_failures b) eqn:E; [|done]. by intros [= <-]. Qed.

(** The record is valid and its material gives two builds and an address. *)
Lemma derived_material :
  exists r executor authority address, reviewedBinding = Some r /\ validateAuthorityBindingRecord r = [] /\
    reviewedExecutorBuild reviewedBinding = Some executor /\ reviewedAuthorityBuild report reviewedBinding = Some authority /\
    reviewedExecutorAuthorityAddress reviewedBinding = Some address /\ deriveExecutorAuthorityAddressFromSourceMaterial r = ([], Some address).
Proof.
  destruct pass_parts as (_ & Hd & _). apply app_nil in Hd as [_ Hd]. apply app_nil in Hd as [He Hd]. apply app_nil in Hd as [Ha Hx].
  apply require_nil, bool_decide_eq_true in He as [executor He]. apply require_nil, bool_decide_eq_true in Ha as [authority Ha].
  apply require_nil, bool_decide_eq_true in Hx as [address Hx]. pose proof Ha as Ha'. pose proof Hx as Hx'.
  unfold reviewedAuthorityBuild in Ha'. unfold reviewedExecutorAuthorityAddress in Hx'.
  destruct reviewedBinding as [r|] eqn:Er; [|done]. rewrite He in Hx'. unfold reviewedBindingErrors in Ha'. destruct (validateAuthorityBindingRecord r) eqn:Ev; [|done].
  exists r, executor, authority, address. do 5 (split; [done|]).
  destruct (deriveExecutorAuthorityAddressFromSourceMaterial r) as [[|? ?] a]; [|done]. by subst.
Qed.
End Accepted.

(** The address a build is derived for. *)
Lemma executor_given `{RecordValidator} `{Derivations} report record model executor :
  executor_agrees report record model executor -> reviewedExecutorBuild (Some record) = Some executor ->
  deriveExecutorFromSourceMaterial record
    (if bool_decide (model = "DIRECT") then Some (String_of (recorded record "executor" "address"))
     else text_value (recorded_policy record "executor" "expectedImplementationAddress")) = ([], Some executor) /\ ab_failures executor = [].
Proof.
  intros [[_ Hrec] _ _ _ _ _ _] Hb. unfold reviewedExecutorBuild in Hb. destruct (reviewedBindingErrors (Some record)) as [|]; [|done].
  apply ready_build_some in Hb. unfold reviewed_model, policy_address in Hb. rewrite !recorded_reviewed, recorded_reviewed_policy, Hrec in Hb.
  exact Hb.
Qed.

Lemma authority_given `{RecordValidator} `{Derivations} report record model authority address :
  authority_agrees report record model authority address -> reviewedAuthorityBuild report (Some record) = Some authority ->
  exists given implementation, deriveAuthorityFromSourceMaterial record (Some given) = ([], Some authority) /\ ab_failures authority = [] /\
    says report "authorityImplementationAddress" implementation /\ toLowerCase given = toLowerCase implementation.
Proof.
  intros [[_ Hrec] _ _ _ (implementation & Hi & Hadd & Hdep)] Hb. unfold reviewedAuthorityBuild in Hb. destruct (reviewedBindingErrors (Some record)) as [|]; [|done].
  apply ready_build_some in Hb. unfold reviewed_model, policy_address in Hb. unfold says in Hi. rewrite !recorded_reviewed, !recorded_reviewed_policy, Hrec, Hi in Hb.
  cbn [text_value] in Hb. rewrite Hadd in Hb. cbn [equals_text] in Hb.
  destruct Hdep as [(-> & _ & _ & [(Hk & _ & pinned & Hpin & Hlow)|(Hk & _)])|(-> & _)].
  - rewrite Hk, Hpin in Hb. cbn in Hb. exists pinned, implementation. destruct Hb. by split_and!.
  - rewrite Hk in Hb. cbn in Hb. exists implementation, implementation. destruct Hb. by split_and!.
  - cbn in Hb. exists implementation, implementation. destruct Hb. by split_and!.
Qed.


(** An authority behind a proxy, an executor that is deployed directly. *)
Definition repeat_text (n : nat) : string := String.concat "" (repeat "a" n).
Definition some_hash : string := repeat_text 64.
Definition other_hash : string := String.concat "" (repeat "b" 64).
Definition authority_address : string := "0x" +:+ repeat_text 40.
Definition pinned_address : string := "0x" +:+ String.concat "" (repeat "c" 40).
Definition one_variant : PricingVariant :=
  {| pv_canonicalOperation := "add"; pv_enforcementOperation := "fheAdd"; pv_operandMode := "scalar"; pv_costKeyType := "uint8"; pv_operandTypes := ["euint8"; "uint8"];
     pv_resultType := "euint8"; pv_arity := 2 |}.
Definition reading : Json := jobject [("getterAvailability", jstring "AVAILABLE_AND_READ_ON_CHAIN"); ("onChainValue", jstring "1"); ("result", jstring "MATCHES_BINDING_RECORD_ON_CHAIN")].
Definition facet_entry : Json := jobject [("artifactId", jstring "artifact"); ("origin", jstring "AUTHORITATIVE_BINDING_RECORD")].
Definition example_record : Json := jobject [
  ("executor", jobject [("deploymentModel", jstring "DIRECT"); ("address", jstring SEPOLIA_EXECUTOR_ADDRESS)]);
  ("authority", jobject [("deploymentModel", jstring "ERC1967_PROXY"); ("expectedProxyRuntimeSha256", jstring some_hash); ("expectedImplementationVersion", jstring "v1");
     ("implementationAddressPolicy", jobject [("kind", jstring "EXACT_PINNED_ADDRESS"); ("expectedImplementationAddress", jstring pinned_address)])])].
Definition example_validator : RecordValidator := {| validateAuthorityBindingRecord record := error_if (negb (isObject record)) "the record must be an object" |}.
Definition example_build (info normalized : string) : ArtifactBuild :=
  {| ab_sourceContentSha256 := info; ab_expectedDeployedRuntimeSha256 := some_hash; ab_expectedNormalizedRuntimeSha256 := normalized; ab_failures := [] |}.
Definition example_derivations : Derivations := {|
  deriveExecutorFromSourceMaterial _ address :=
    (if bool_decide (address = Some SEPOLIA_EXECUTOR_ADDRESS) then [] else ["address"], Some (example_build EXECUTOR_BUILD_INFO_SHA256 EXECUTOR_NORMALIZED_RUNTIME_SHA256));
  deriveExecutorAuthorityAddressFromSourceMaterial _ := ([], Some authority_address);
  deriveAuthorityFromSourceMaterial _ address := (if bool_decide (address = Some pinned_address) then [] else ["address"], Some (example_build OFFICIAL_BUILD_INFO_SHA256 other_hash))
|}.
Definition example_report : Json := jobject [
  ("accountAuthorizationRequested", jbool false); ("authoritativeArtifactId", jstring "artifact"); ("authorityAddress", jstring authority_address);
  ("authorityBindingRecordResult", jstring "VALID"); ("authorityCodeHash", jstring some_hash); ("authorityCodeIdentityResult", jstring "VERIFIED");
  ("authorityDeploymentModel", jstring "ERC1967_PROXY"); ("authorityImplementationAddress", jstring pinned_address);
  ("authorityProtocolDigest", jstring EXPECTED_AUTHORITY_PROTOCOL_SHA256); ("authorityTableHash", jstring some_hash); ("authorityVersion", jstring "v1");
  ("authorityVersionResult", jstring "MATCHES_BINDING_RECORD"); ("benchmarkProtocolDigest", jstring EXPECTED_SG4_PROTOCOL_SHA256);
  ("blockOrBatchControlState", jobject [("authorityState", jstring "PROVEN_ABSENT_IN_VERIFIED_IMPLEMENTATION"); ("blocking", jbool true); ("liveDeploymentBinding", jstring "BOUND_TO_VERIFIED_DEPLOYED_IMPLEMENTATION")]);
  ("blockOrBatchOnChainReading", reading); ("calculatorHash", jstring EXPECTED_CALCULATOR_HASH);
  ("callerApplicabilityResults", jarray (map (fun subject => jobject [("result", jstring "NOT_EXEMPT"); ("state", jstring "AVAILABLE"); ("subject", jstring subject); ("subjectAddress", jstring "unlisted")]) SG4_APPLICABILITY_SUBJECTS));
  ("callerExemptionResult", jstring "NOT_EXEMPT"); ("chainId", jstring (Z_toString SEPOLIA_CHAIN_ID)); ("codeIdentityResult", jstring "VERIFIED");
  ("deployedAuthorityRoot", jobject [("artifactId", jstring "artifact"); ("commit", jstring (repeat_text 40)); ("contentSha256", jstring some_hash); ("path", jstring "p"); ("repository", jstring "r"); ("tag", jstring "t")]);
  ("depthHcuLimit", jstring (Z_toString TRANSACTION_DEPTH_HCU_LIMIT)); ("depthHcuOnChainReading", reading);
  ("depthSafetyThreshold", jstring (Z_toString DEPTH_SAFETY_THRESHOLD)); ("erc1967SlotReadCount", jnumber 1); ("executorAddress", jstring SEPOLIA_EXECUTOR_ADDRESS);
  ("executorAuthorityDerivationResult", jstring "VERIFIED"); ("executorCodeHash", jstring some_hash); ("executorCodeIdentityResult", jstring "VERIFIED");
  ("executorDeploymentModel", jstring "DIRECT"); ("executorExpectedImplementationAddress", jstring SEPOLIA_EXECUTOR_ADDRESS);
  ("executorExpectedImplementationCodeHash", jstring some_hash); ("executorExpectedNormalizedImplementationHash", jstring EXECUTOR_NORMALIZED_RUNTIME_SHA256);
  ("executorExpectedVersion", jstring REPRODUCED_EXECUTOR_VERSION); ("executorImplementationAddress", jstring SEPOLIA_EXECUTOR_ADDRESS);
  ("executorImplementationAddressPolicyResult", jstring "NOT_APPLICABLE_DIRECT_DEPLOYMENT"); ("executorImplementationCodeHash", jstring some_hash);
  ("executorImplementationCodeIdentityResult", jstring "VERIFIED"); ("executorImplementationResolutionResult", jstring "NOT_APPLICABLE_DIRECT_DEPLOYMENT");
  ("executorNormalizedImplementationHash", jstring EXECUTOR_NORMALIZED_RUNTIME_SHA256); ("executorProxyCodeHash", jstring "UNRESOLVED");
  ("executorProxyCodeIdentityResult", jstring "UNRESOLVED"); ("executorReproducedBuildInfoSha256", jstring EXECUTOR_BUILD_INFO_SHA256);
  ("executorReproducedBuildResult", jstring "MATCHES_PINNED_REPRODUCED_BUILD"); ("executorVersion", jstring REPRODUCED_EXECUTOR_VERSION);
  ("executorVersionResult", jstring "MATCHES_BINDING_RECORD"); ("expectedDeployedNormalizedHash", jstring other_hash);
  ("facetArtifactBinding", jobject (map (fun facet => (facet, facet_entry)) ARTIFACT_FACETS)); ("finalVerdict", jstring "PASS"); ("gate", jstring "SG-4");
  ("greatestAcceptedDepthHcu", jstring (Z_toString TRANSACTION_DEPTH_HCU_LIMIT)); ("greatestAcceptedTotalHcu", jstring (Z_toString TRANSACTION_TOTAL_HCU_LIMIT));
  ("immutableProvenanceState", jstring "RESOLVED"); ("implementationAddressPolicyResult", jstring "EXACT_MATCH");
  ("implementationResolutionResult", jstring "VERIFIED_ERC1967_STORAGE_SLOT"); ("installedSourceHashesResult", jstring "MATCH");
  ("installedTableHash", jstring EXPECTED_COST_TABLE_HASH); ("liveCallCount", jnumber 9); ("liveCallLogDigest", jstring some_hash);
  ("liveLimitSemantics", jstring "CONFIGURED_CEILING_INCLUSIVE_REVERT_ON_GREATER_THAN"); ("livePlanCallCount", jnumber 9); ("livePlanDigest", jstring some_hash);
  ("localAuthorityFixtureRoot", jobject [("integrity", jstring "i"); ("package", jstring LOCAL_AUTHORITY_FIXTURE_ROOT_package); ("passRelevant", jbool false); ("version", jstring "v")]);
  ("localFixtureSelfTestResult", jstring "MATCH");
  ("measurementToolchainRoot", jobject [("calculatorPath", jstring MEASUREMENT_TOOLCHAIN_ROOT_calculatorPath); ("costTablePath", jstring MEASUREMENT_TOOLCHAIN_ROOT_costTablePath); ("executionRelevantFiles", jarray (map jstring MEASUREMENT_EXECUTION_RELEVANT_FILES)); ("integrity", jstring MEASUREMENT_TOOLCHAIN_ROOT_integrity); ("package", jstring MEASUREMENT_TOOLCHAIN_ROOT_package); ("verificationResult", jstring "VERIFIED"); ("version", jstring MEASUREMENT_TOOLCHAIN_ROOT_version)]);
  ("normalizedImplementationHash", jstring other_hash);
  ("operationCompatibilityResult", jobject (("authorityOnly", jarray []) :: ("shared", jarray [jstring (variantId one_variant)]) :: map (fun class => (class, jarray [])) COMPATIBILITY_CLASSES));
  ("operationScheduleAuthorityState", jstring "RESOLVED"); ("pinnedBlockFinality", jstring "FINALIZED"); ("pinnedBlockHash", jstring ("0x" +:+ some_hash));
  ("pinnedBlockNumber", jstring "7"); ("planEnforcementResult", jstring "ENFORCED_EXACT"); ("preparationLineageResult", jstring "VERIFIED");
  ("protocolVersion", jstring AUTHORITY_PROTOCOL_VERSION); ("reciprocalLinkageResult", jstring "VERIFIED");
  ("reproducedBuildInfoSha256", jstring OFFICIAL_BUILD_INFO_SHA256); ("reproducedBuildResult", jstring "MATCHES_PINNED_REPRODUCED_BUILD");
  ("rpcMethodsUsed", jarray (map jstring LIVE_RPC_ALLOWED_METHODS)); ("safetyBoundExclusivity", jstring "EXCLUSIVE"); ("schema", jstring AUTHORITY_RESULT_SCHEMA);
  ("sg4CoverageResult", jstring "COMPLETE"); ("signingRequested", jbool false); ("staleAddressGuardResult", jstring "NOT_USED"); ("status", jstring "done");
  ("totalHcuLimit", jstring (Z_toString TRANSACTION_TOTAL_HCU_LIMIT)); ("totalHcuOnChainReading", reading);
  ("totalSafetyThreshold", jstring (Z_toString TOTAL_SAFETY_THRESHOLD));
  ("transactionDepthControlState", jobject [("authorityState", jstring "PROVEN_PRESENT"); ("blocking", jbool true); ("liveDeploymentBinding", jstring "BOUND_TO_VERIFIED_DEPLOYED_IMPLEMENTATION"); ("value", jstring (Z_toString TRANSACTION_DEPTH_HCU_LIMIT))]);
  ("transactionSubmitted", jbool false);
  ("transactionTotalControlState", jobject [("authorityState", jstring "PROVEN_PRESENT"); ("blocking", jbool true); ("liveDeploymentBinding", jstring "BOUND_TO_VERIFIED_DEPLOYED_IMPLEMENTATION"); ("value", jstring (Z_toString TRANSACTION_TOTAL_HCU_LIMIT))]);
  ("unsupportedOperations", jarray []); ("walletRequested", jbool false)].

