(* ===== verification/Sg5Process.v ===== *)
(** * Processes of the browser gate: scripts/sg5-launcher.cjs

    The launcher starts a frontend and a browser suite, each as the leader of a process
    group of its own, and ends them when it is done.  A process group is signalled only
    while everything in it can be recognised; the theorems say what every signal was
    preceded by, and what a successful end means.

    The operating system is [ProcFs], what the calls on /proc return at one moment.  The
    moments follow each other, and the steps of an inspection see [world] at successive
    moments: every process that was verified before is looked at, then /proc is listed,
    then every process of the listing is looked at, then the owner of the port is searched,
    each at a moment of its own, so processes may come, go and change in between.  What
    is read of one process, and one search for the owners of the port, belong to one
    moment: [inspectProcess] and [resolvePortOwnerIdentities] take one [ProcFs]. *)
From Stdlib Require Import ZArith Lia Ascii.
From stdpp Require Import base option list strings sorting.
From S2P Require Import Prelude HcuBytecode.
Local Open Scope Z_scope.

(** ** Reading /proc *)
(** The calls of node:fs; [None] is a call that throws. *)
Record ProcFs := {
  fs_readFile : string -> option string; fs_readlink : string -> option string; fs_realpath : string -> option string;
  fs_readdir : string -> option (list string)
}.

(** [Number.parseInt(text, 10)]: white space, a sign, the leading digits; [None] is NaN. *)
Fixpoint leading_digits (s : string) : string :=
  match s with String c s' => if is_digit c then String c (leading_digits s') else "" | EmptyString => "" end.
Definition parse_digits (s : string) : option Z :=
  match leading_digits s with
  | EmptyString => None
  | digits => match BigInt_of_digits digits with Ok z => Some z | Throw _ => None end
  end.
Definition parseInt (text : string) : option Z :=
  match trimStart text with
  | String "-" body => Z.opp <$> parse_digits body
  | String "+" body => parse_digits body
  | body => parse_digits body
  end.
(** [===] on numbers that may be NaN. *)
Definition same_number (a b : option Z) : bool := match a, b with Some x, Some y => x =? y | _, _ => false end.

(** [text.indexOf(c)], [text.lastIndexOf(c)]; [None] is -1. *)
Fixpoint indexOf (c : ascii) (s : string) : option nat :=
  match s with EmptyString => None | String d s' => if Ascii.eqb d c then Some O else S <$> indexOf c s' end.
Fixpoint lastIndexOf (c : ascii) (s : string) : option nat :=
  match s with
  | EmptyString => None
  | String d s' => match lastIndexOf c s' with Some n => Some (S n) | None => if Ascii.eqb d c then Some O else None end
  end.
(** [text.slice(n)] *)
Fixpoint slice_from (n : nat) (s : string) : string :=
  match n, s with O, _ => s | S n', String _ s' => slice_from n' s' | S _, EmptyString => "" end.

(** [text.split(/\s+/u)] of a text without blanks around it. *)
Fixpoint split_spaces (s : string) : list string :=
  match s with
  | EmptyString => [""]
  | String c s' =>
      if is_space c then
        match s' with String d _ => if is_space d then split_spaces s' else "" :: split_spaces s' | EmptyString => ["" ; ""] end
      else match split_spaces s' with part :: rest => String c part :: rest | [] => [String c ""] end
  end.

Record Stat := { st_pid : Z; st_ppid : option Z; st_processGroup : option Z; st_session : option Z; st_startTime : string }.

Definition parseProcStat (text : string) : result Stat :=
  match lastIndexOf ")" text with
  | None => throw_new "invalid proc stat record"
  | Some close =>
      let head := match indexOf " " text with Some n => slice0 n text | None => slice0 (String.length text - 1) text end in
      let fields := split_spaces (trim (slice_from (close + 2) text)) in
      match parseInt head, fields !! 1%nat, fields !! 2%nat, fields !! 3%nat, fields !! 19%nat with
      | Some pid, Some ppid, Some processGroup, Some session, Some startTime =>
          if Z.abs pid <=? MAX_SAFE_INTEGER then
            Ok {| st_pid := pid; st_ppid := parseInt ppid; st_processGroup := parseInt processGroup;
                  st_session := parseInt session; st_startTime := startTime |}
          else throw_new "invalid proc stat fields"
      | _, _, _, _, _ => throw_new "invalid proc stat fields"
      end
  end.

Record Identity := {
  id_pid : Z; id_ppid : option Z; id_processGroup : option Z; id_session : option Z; id_startTime : string;
  id_cwd : string; id_exe : string; id_cmdline : string
}.

Definition proc_path (pid : Z) (entry : string) : string := "/proc/" +:+ Z_toString pid +:+ "/" +:+ entry.

(** [Number.isSafeInteger(pid) && pid > 0] *)
Definition valid_pid (pid : option Z) : option Z :=
  p ← pid; if (0 <? p) && (p <=? MAX_SAFE_INTEGER) then Some p else None.

Definition inspectProcess (fs : ProcFs) (pid : option Z) : result (option Identity) :=
  match valid_pid pid with
  | None => throw_new "invalid process identifier"
  | Some pid =>
      Ok (text ← fs_readFile fs (proc_path pid "stat");
          stat ← match parseProcStat text with Ok stat => Some stat | Throw _ => None end;
          cwd ← fs_readlink fs (proc_path pid "cwd") ≫= fs_realpath fs;
          exe ← fs_readlink fs (proc_path pid "exe") ≫= fs_realpath fs;
          cmdline ← fs_readFile fs (proc_path pid "cmdline");
          Some {| id_pid := st_pid stat; id_ppid := st_ppid stat; id_processGroup := st_processGroup stat;
                  id_session := st_session stat; id_startTime := st_startTime stat; id_cwd := cwd; id_exe := exe;
                  id_cmdline := join_char " " (List.filter string_nonempty (split_char (ascii_of_nat 0) cmdline)) |})
  end.

(** ** Who listens *)
Definition newline_char : ascii := ascii_of_nat 10.

(** The inode of a line of /proc/net/tcp that listens on the port. *)
Definition listening_inode (port : Z) (line : string) : option string :=
  let fields := split_spaces (trim line) in
  match fields !! 1%nat, fields !! 3%nat, fields !! 9%nat with
  | Some local, Some state, Some inode =>
      if bool_decide (state = "0A") && same_number (parseInt_hex (default "" (last (split_char ":" local)))) (Some port)
      then Some inode else None
  | _, _, _ => None
  end.

Definition socketInodesForPort (fs : ProcFs) (port : Z) : list string :=
  js_set (flat_map (fun table =>
    match fs_readFile fs table with
    | Some contents => omap (listening_inode port) (tail (split_char newline_char contents))
    | None => []
    end) ["/proc/net/tcp"; "/proc/net/tcp6"]).

(** [/^[1-9][0-9]*$/u] and [Number(name)] *)
Definition pid_of_name (name : string) : option Z :=
  match name with
  | String c rest => if is_digit c && negb (Ascii.eqb c "0") && string_forall is_digit rest then parse_digits name else None
  | EmptyString => None
  end.

(** [/^socket:\[([0-9]+)\]$/u] *)
Definition socket_inode (target : string) : option string :=
  if startsWith "socket:[" target then
    let body := slice_from 8 target in
    let digits := leading_digits body in
    if string_nonempty digits && bool_decide (body = digits +:+ "]") then Some digits else None
  else None.

(** A descriptor of the process is one of the sockets. *)
Definition owns_socket (fs : ProcFs) (inodes : list string) (name : string) : bool :=
  match fs_readdir fs ("/proc/" +:+ name +:+ "/fd") with
  | None => false
  | Some descriptors =>
      existsb (fun descriptor =>
        match fs_readlink fs ("/proc/" +:+ name +:+ "/fd/" +:+ descriptor) ≫= socket_inode with
        | Some inode => bool_decide (inode ∈ inodes)
        | None => false
        end) descriptors
  end.

Definition ascending (a b : Z) : Z := a - b.

Definition resolvePortOwnerPids (fs : ProcFs) (port : Z) : result (list Z) :=
  let inodes := socketInodesForPort fs port in
  match inodes, fs_readdir fs "/proc" with
  | [], _ => Ok []
  | _, None => throw_new "ENOENT: no such file or directory, scandir '/proc'"
  | _, Some names =>
      Ok (js_sort ascending (js_set (omap (fun name =>
        pid ← pid_of_name name; if owns_socket fs inodes name then Some pid else None) names)))
  end.

(** ** Ancestors *)
Definition Ancestor : Type := Z * string.
Record Owner := { ow_identity : Identity; ow_ancestry : list Ancestor }.

(** The loop on [current]; [fuel] bounds the processes that are visited. *)
Fixpoint ancestry_loop (fuel : nat) (fs : ProcFs) (current : option Identity) (visited : list Z) : result (list Ancestor) :=
  match fuel, current with
  | S fuel', Some identity =>
      if (1 <? id_pid identity) && negb (bool_decide (id_pid identity ∈ visited)) then
        parent ← inspectProcess fs (id_ppid identity);
        rest ← ancestry_loop fuel' fs parent (id_pid identity :: visited);
        Ok ((id_pid identity, id_startTime identity) :: rest)
      else Ok []
  | _, _ => Ok []
  end.

(** The largest number of a process, /proc/sys/kernel/pid_max; no chain of parents is longer. *)
Class PidMax := pid_max : nat.

Section processes.
Context `{PidMax}.

Definition ancestryForProcess (fs : ProcFs) (identity : Identity) : result (list Ancestor) :=
  ancestry_loop (S pid_max) fs (Some identity) [].

Definition resolvePortOwnerIdentities (fs : ProcFs) (port : Z) : result (list Owner) :=
  pids ← resolvePortOwnerPids fs port;
  found ← result_map (fun pid => inspectProcess fs (Some pid)) pids;
  result_map (fun identity => ancestry ← ancestryForProcess fs identity; Ok {| ow_identity := identity; ow_ancestry := ancestry |})
    (omap id found).

(** ** Groups *)
Inductive GroupKind : Type := FRONTEND | PLAYWRIGHT.
#[export] Instance GroupKind_eq_dec : EqDecision GroupKind.
Proof. solve_decision. Defined.

(** What [captureOwnedProcessGroup] makes; the list of members grows. *)
Record Group := { gr_kind : GroupKind; gr_leader : Identity; gr_verifiedMembers : list Identity }.

(** Where the launcher runs: the repository, the canonical path of the node that runs it. *)
Record Install := { in_root : string; in_execPath : string }.
Definition FRONTEND_ROOT (install : Install) : string := in_root install +:+ "/frontend".
Definition NEXT_CLI (install : Install) : string := in_root install +:+ "/frontend/node_modules/next/dist/bin/next".
Definition PLAYWRIGHT_CLI (install : Install) : string := in_root install +:+ "/frontend/node_modules/@playwright/test/cli.js".
Definition entrypoint (install : Install) (kind : GroupKind) : string :=
  match kind with FRONTEND => NEXT_CLI install | PLAYWRIGHT => PLAYWRIGHT_CLI install end.

Section launcher.
Variable install : Install.

Definition expectedEntrypoint (group : Group) : string := entrypoint install (gr_kind group).

Definition validateOwnedGroupLeader (identity : option Identity) (expected : Identity) : result unit :=
  fail_if (match identity with
           | None => true
           | Some current =>
               negb (id_pid current =? id_pid expected) || negb (bool_decide (id_startTime current = id_startTime expected)) ||
               negb (same_number (id_processGroup current) (id_processGroup expected)) ||
               negb (same_number (id_session current) (id_session expected)) ||
               negb (same_number (id_processGroup current) (Some (id_pid expected))) ||
               negb (same_number (id_session current) (Some (id_pid expected))) ||
               negb (bool_decide (id_cwd current = id_cwd expected)) || negb (bool_decide (id_exe current = id_exe expected))
           end) "launcher-owned process identity changed".

Definition matchesLaunchIdentity (group : Group) (identity : Identity) : bool :=
  same_number (id_processGroup identity) (id_processGroup (gr_leader group)) &&
  same_number (id_session identity) (id_session (gr_leader group)) &&
  bool_decide (id_cwd identity = id_cwd (gr_leader group)) && bool_decide (id_exe identity = id_exe (gr_leader group)) &&
  includes (expectedEntrypoint group) (id_cmdline identity).

(** The same process: number and start time. *)
Definition same_process (a b : Identity) : bool := (id_pid a =? id_pid b) && bool_decide (id_startTime a = id_startTime b).

(** The member that is kept has no parent. *)
Definition frozen_member (identity : Identity) : Identity :=
  {| id_pid := id_pid identity; id_ppid := None; id_processGroup := id_processGroup identity; id_session := id_session identity;
     id_startTime := id_startTime identity; id_cwd := id_cwd identity; id_exe := id_exe identity; id_cmdline := id_cmdline identity |}.

Definition rememberVerifiedMember (group : Group) (identity : Identity) : Group :=
  if existsb (fun member => same_process member identity) (gr_verifiedMembers group) then group
  else {| gr_kind := gr_kind group; gr_leader := gr_leader group;
          gr_verifiedMembers := gr_verifiedMembers group ++ [frozen_member identity] |}.

Definition descends_from_leader (group : Group) (owner : Owner) : bool :=
  existsb (fun ancestor => (ancestor.1 =? id_pid (gr_leader group)) && bool_decide (ancestor.2 = id_startTime (gr_leader group)))
    (ow_ancestry owner).
Definition in_group (group : Group) (identity : Identity) : bool :=
  same_number (id_processGroup identity) (id_processGroup (gr_leader group)) &&
  same_number (id_session identity) (id_session (gr_leader group)).

Definition verifySpawnedListenerOwnership (group : Group) (owners : list Owner) : result (Owner * Group) :=
  match owners with
  | [owner] =>
      let identity := ow_identity owner in
      let previouslyVerified := existsb (fun member => same_process member identity) (gr_verifiedMembers group) in
      let ownedByGroup := in_group group identity && (previouslyVerified || descends_from_leader group owner) in
      fail_if (negb ownedByGroup || negb (matchesLaunchIdentity group identity))
        "port 3000 listener is not the verified spawned Next frontend" ;;
      Ok (owner, rememberVerifiedMember group identity)
  | _ => throw_new "port 3000 must have exactly one socket owner"
  end.

Definition captureOwnedProcessGroup (fs : ProcFs) (child_pid : option Z) (kind : GroupKind) : result Group :=
  match valid_pid child_pid with
  | None => throw_new "spawned process has no valid PID"
  | Some pid =>
      found ← inspectProcess fs (Some pid);
      match found with
      | None => throw_new "spawned process did not create a dedicated process group and session"
      | Some leader =>
          fail_if (negb (same_number (id_processGroup leader) (Some (id_pid leader))) ||
                   negb (same_number (id_session leader) (Some (id_pid leader))))
            "spawned process did not create a dedicated process group and session" ;;
          fail_if (negb (bool_decide (id_cwd leader = FRONTEND_ROOT install)) ||
                   negb (bool_decide (id_exe leader = in_execPath install)) ||
                   negb (includes (entrypoint install kind) (id_cmdline leader)))
            "spawned process identity does not match the trusted local entrypoint" ;;
          Ok {| gr_kind := kind; gr_leader := leader; gr_verifiedMembers := [leader] |}
      end
  end.

(** ** What an inspection sees *)
Inductive Classification : Type :=
| VERIFIED_ACTIVE | ALREADY_EXITED | TERMINATED_GRACEFULLY | TERMINATED_FORCIBLY
| OWNERSHIP_LOST | PID_REUSE_DETECTED | AMBIGUOUS_PROCESS_GROUP.
#[export] Instance Classification_eq_dec : EqDecision Classification.
Proof. solve_decision. Defined.

Record Inspection := { is_classification : Classification; is_members : list Identity; is_listenerOwners : list Owner }.
Definition inspected (classification : Classification) (members : list Identity) (owners : list Owner) : Inspection :=
  {| is_classification := classification; is_members := members; is_listenerOwners := owners |}.

(** The moments of the run, and what it has done: signals with the moment before which
    they were sent. *)
Inductive Signal : Type := SIGTERM | SIGKILL.
Record Sent := { se_moment : nat; se_target : option Z; se_signal : Signal }.
Record Run := { ru_clock : nat; ru_group : Group; ru_sent : list Sent }.

Variable world : nat -> ProcFs.

(** A call that reads the processes, at the next moment. *)
Definition observe {A} (call : ProcFs -> result A) : method Run A := fun s =>
  (call (world (ru_clock s)), {| ru_clock := S (ru_clock s); ru_group := ru_group s; ru_sent := ru_sent s |}).

(** The listing of /proc, then every process of it, each at its own moment. *)
Definition list_proc (fs : ProcFs) : result (list string) :=
  match fs_readdir fs "/proc" with Some names => Ok names | None => throw_new "ENOENT: no such file or directory, scandir '/proc'" end.

Fixpoint collect_members (processGroup : option Z) (pids : list Z) : method Run (list Identity) :=
  match pids with
  | [] => mret []
  | pid :: pids' =>
      identity ← observe (fun fs => inspectProcess fs (Some pid));
      members ← collect_members processGroup pids';
      mret (match identity with
            | Some identity => if same_number (id_processGroup identity) processGroup then identity :: members else members
            | None => members
            end)
  end.

Definition by_pid (a b : Identity) : Z := id_pid a - id_pid b.

Definition enumerateProcessGroupMembers (processGroup : option Z) : method Run (list Identity) :=
  match valid_pid processGroup with
  | None => throw_in (new_Error "invalid process-group identifier")
  | Some _ =>
      names ← observe list_proc;
      members ← collect_members processGroup (omap pid_of_name names);
      mret (js_sort by_pid members)
  end.

Definition remember (identity : Identity) : method Run unit :=
  modify (fun s => {| ru_clock := ru_clock s; ru_group := rememberVerifiedMember (ru_group s) identity; ru_sent := ru_sent s |}).

(** The verified members that are still there, or the classification that ends the
    inspection. *)
Fixpoint inspect_known (group : Group) (members : list Identity) : method Run (Classification + list Identity) :=
  match members with
  | [] => mret (inr [])
  | known :: members' =>
      found ← observe (fun fs => inspectProcess fs (Some (id_pid known)));
      match found with
      | None => inspect_known group members'
      | Some current =>
          if negb (bool_decide (id_startTime current = id_startTime known)) then mret (inl PID_REUSE_DETECTED)
          else if (id_pid known =? id_pid (gr_leader group)) && negb (is_ok (validateOwnedGroupLeader (Some current) (gr_leader group)))
          then mret (inl AMBIGUOUS_PROCESS_GROUP)
          else if negb (in_group group current) || negb (matchesLaunchIdentity group current) then mret (inl OWNERSHIP_LOST)
          else
            rest ← inspect_known group members';
            mret (match rest with inl c => inl c | inr live => inr (current :: live) end)
      end
  end.

(** The first member that is not accepted. *)
Fixpoint judge_members (group : Group) (known : list Identity) (members : list Identity) (uniquePids : list Z) : option Classification :=
  match members with
  | [] => None
  | member :: members' =>
      if bool_decide (id_pid member ∈ uniquePids) then Some AMBIGUOUS_PROCESS_GROUP
      else if match List.find (fun candidate => id_pid candidate =? id_pid member) known with
              | Some candidate => negb (bool_decide (id_startTime candidate = id_startTime member))
              | None => false
              end then Some PID_REUSE_DETECTED
      else if negb (matchesLaunchIdentity group member) then Some AMBIGUOUS_PROCESS_GROUP
      else judge_members group known members' (id_pid member :: uniquePids)
  end.

(** The listener of the frontend: what ends the inspection, or the owners. *)
Definition inspect_listener (group : Group) (members : list Identity) : method Run (Inspection + list Owner) :=
  match gr_kind group with
  | PLAYWRIGHT => mret (inr [])
  | FRONTEND =>
      owners ← try_catch (found ← observe (fun fs => resolvePortOwnerIdentities fs 3000); mret (Some found)) (fun _ => mret None);
      match owners with
      | None => mret (inl (inspected OWNERSHIP_LOST members []))
      | Some [] => mret (inr [])
      | Some [listener] =>
          let identity := ow_identity listener in
          if negb (existsb (fun member => same_process member identity) members) then mret (inl (inspected OWNERSHIP_LOST members [listener]))
          else if negb (matchesLaunchIdentity group identity) then mret (inl (inspected AMBIGUOUS_PROCESS_GROUP members [listener]))
          else remember identity ;; mret (inr [listener])
      | Some owners => mret (inl (inspected AMBIGUOUS_PROCESS_GROUP members owners))
      end
  end.

Definition inspectOwnedProcessGroup : method Run Inspection :=
  group ← gets ru_group;
  let knownMembers := gr_verifiedMembers group in
  live ← inspect_known group knownMembers;
  match live with
  | inl classification => mret (inspected classification [] [])
  | inr liveKnownMembers =>
      found ← try_catch (members ← enumerateProcessGroupMembers (id_processGroup (gr_leader group)); mret (Some members))
                (fun _ => mret None);
      match found with
      | None => mret (inspected AMBIGUOUS_PROCESS_GROUP [] [])
      | Some members =>
          match judge_members group knownMembers members [] with
          | Some classification => mret (inspected classification members [])
          | None =>
              if existsb (fun known => negb (existsb (fun member => same_process member known) members)) liveKnownMembers
              then mret (inspected AMBIGUOUS_PROCESS_GROUP members [])
              else
                listener ← inspect_listener group members;
                match listener with
                | inl inspection => mret inspection
                | inr owners =>
                    match members with
                    | [] => mret (inspected ALREADY_EXITED members owners)
                    | _ => for_each members remember ;; mret (inspected VERIFIED_ACTIVE members owners)
                    end
                end
          end
      end
  end.

(** ** Ending a group *)
(** [signal(pid, name)] throws when the system refuses it. *)
Variable signal_fails : nat -> bool.
Definition send_signal (name : Signal) : method Run unit :=
  s ← get;
  modify (fun s => {| ru_clock := ru_clock s; ru_group := ru_group s;
                      ru_sent := ru_sent s ++ [{| se_moment := ru_clock s; se_target := Z.opp <$> id_processGroup (gr_leader (ru_group s));
                                                  se_signal := name |}] |}) ;;
  throw_if (signal_fails (ru_clock s)) "kill failed".

(** [waitForResolution]: an inspection every 50 milliseconds until the deadline, then a
    last one; [polls] is how many came before the deadline. *)
Fixpoint waitForResolution (polls : nat) : method Run Inspection :=
  match polls with
  | O => inspectOwnedProcessGroup
  | S polls' =>
      state ← inspectOwnedProcessGroup;
      if bool_decide (is_classification state = VERIFIED_ACTIVE) then waitForResolution polls' else mret state
  end.

(** How often each wait polls. *)
Variables term_polls kill_polls : nat.

Definition terminateOwnedProcessGroup : method Run Classification :=
  first ← inspectOwnedProcessGroup;
  if negb (bool_decide (is_classification first = VERIFIED_ACTIVE)) then mret (is_classification first) else
  second ← inspectOwnedProcessGroup;
  if negb (bool_decide (is_classification second = VERIFIED_ACTIVE)) then mret (is_classification second) else
  send_signal SIGTERM ;;
  state ← waitForResolution term_polls;
  if bool_decide (is_classification state = ALREADY_EXITED) then mret TERMINATED_GRACEFULLY else
  if negb (bool_decide (is_classification state = VERIFIED_ACTIVE)) then mret (is_classification state) else
  last_look ← inspectOwnedProcessGroup;
  if bool_decide (is_classification last_look = ALREADY_EXITED) then mret TERMINATED_GRACEFULLY else
  if negb (bool_decide (is_classification last_look = VERIFIED_ACTIVE)) then mret (is_classification last_look) else
  send_signal SIGKILL ;;
  final ← waitForResolution kill_polls;
  if bool_decide (is_classification final = ALREADY_EXITED) then mret TERMINATED_FORCIBLY else
  if negb (bool_decide (is_classification final = VERIFIED_ACTIVE)) then mret (is_classification final) else
  mret AMBIGUOUS_PROCESS_GROUP.

Definition successful_cleanup (result : Classification) : bool :=
  match result with ALREADY_EXITED | TERMINATED_GRACEFULLY | TERMINATED_FORCIBLY => true | _ => false end.

(** ** The frontend *)
(** Whether the n-th request for the health of the frontend succeeds with an ok. *)
Variable healthy : nat -> bool.

Definition verify_listener : method Run unit :=
  owners ← observe (fun fs => resolvePortOwnerIdentities fs 3000);
  s ← get;
  verified ← lift (verifySpawnedListenerOwnership (ru_group s) owners);
  put {| ru_clock := ru_clock s; ru_group := verified.2; ru_sent := ru_sent s |}.

Fixpoint await_frontend (attempts : nat) : method Run unit :=
  match attempts with
  | O => throw_in (new_Error "verified local SG-5 frontend did not become ready")
  | S attempts' =>
      owners ← observe (fun fs => resolvePortOwnerIdentities fs 3000);
      s ← get;
      match owners with
      | [] => await_frontend attempts'
      | _ =>
          verified ← lift (verifySpawnedListenerOwnership (ru_group s) owners);
          put {| ru_clock := ru_clock s; ru_group := verified.2; ru_sent := ru_sent s |} ;;
          if healthy attempts' then verify_listener else await_frontend attempts'
      end
  end.
Definition waitForOwnedFrontend : method Run unit := await_frontend 120.

Definition processGroupStillMatches (fs : ProcFs) (group : Group) : result bool :=
  found ← inspectProcess fs (Some (id_pid (gr_leader group)));
  match found with
  | None => Ok false
  | Some current => validateOwnedGroupLeader (Some current) (gr_leader group) ;; Ok true
  end.

Definition revalidateOwnedListenerBeforeSignal (fs : ProcFs) (group : Group) : result Group :=
  match gr_kind group with
  | PLAYWRIGHT => Ok group
  | FRONTEND =>
      owners ← resolvePortOwnerIdentities fs 3000;
      match List.filter (fun owner => in_group group (ow_identity owner) && descends_from_leader group owner) owners with
      | [] => Ok group
      | [owner] => verified ← verifySpawnedListenerOwnership group [owner]; Ok verified.2
      | _ => throw_new "launcher-owned frontend has ambiguous port owners"
      end
  end.

Definition assertOwnedListenerReleased (fs : ProcFs) (group : Group) : result unit :=
  match gr_kind group with
  | PLAYWRIGHT => Ok tt
  | FRONTEND =>
      owners ← resolvePortOwnerIdentities fs 3000;
      fail_if (existsb (fun owner => in_group group (ow_identity owner)) owners)
        "launcher-owned frontend still owns port 3000 after cleanup"
  end.

End launcher.
End processes.

(** * Properties *)

(** ** Ancestors *)
Lemma inspectProcess_stat fs pid found :
  inspectProcess fs pid = Ok (Some found) ->
  exists p text stat, fs_readFile fs (proc_path p "stat") = Some text /\ parseProcStat text = Ok stat /\ id_pid found = st_pid stat.
Proof.
  unfold inspectProcess. destruct (valid_pid pid) as [p|]; [|done]. intros [= E].
  apply bind_Some in E as (text & Et & E). apply bind_Some in E as (stat & Es & E). apply bind_Some in E as (cwd & _ & E).
  apply bind_Some in E as (exe & _ & E). apply bind_Some in E as (cmdline & _ & E). injection E as <-.
  exists p, text, stat. split_and!; [done| |done]. destruct (parseProcStat text); congruence.
Qed.

Section ancestors.
Context (fs : ProcFs) (bound : nat).
(** No process has a larger number. *)
Hypothesis bounded : forall pid identity, inspectProcess fs pid = Ok (Some identity) -> id_pid identity <= Z.of_nat bound.

(** The loop as the source writes it, without a bound. *)
Inductive ancestry_run : option Identity -> list Z -> result (list Ancestor) -> Prop :=
| run_none visited : ancestry_run None visited (Ok [])
| run_stop identity visited :
    id_pid identity <= 1 \/ id_pid identity ∈ visited -> ancestry_run (Some identity) visited (Ok [])
| run_throw identity visited e :
    1 < id_pid identity -> id_pid identity ∉ visited -> inspectProcess fs (id_ppid identity) = Throw e ->
    ancestry_run (Some identity) visited (Throw e)
| run_step identity parent visited r :
    1 < id_pid identity -> id_pid identity ∉ visited -> inspectProcess fs (id_ppid identity) = Ok parent ->
    ancestry_run parent (id_pid identity :: visited) r ->
    ancestry_run (Some identity) visited (rest ← r; Ok ((id_pid identity, id_startTime identity) :: rest)).

Definition visitable (visited : list Z) : Prop := NoDup visited /\ Forall (fun pid => 1 < pid <= Z.of_nat bound) visited.

Lemma visited_length visited : visitable visited -> (length visited <= bound)%nat.
Proof.
  intros [Hnd Hall]. transitivity (length (seqZ 1 (Z.of_nat bound))); [|by rewrite length_seqZ, Nat2Z.id].
  apply NoDup_incl_length; [by apply NoDup_ListNoDup|]. intros pid Hin.
  apply list_elem_of_In, elem_of_seqZ. rewrite Forall_forall in Hall. specialize (Hall pid). rewrite list_elem_of_In in Hall.
  specialize (Hall Hin). lia.
Qed.

Lemma ancestry_loop_run fuel : forall current visited,
  (forall identity, current = Some identity -> id_pid identity <= Z.of_nat bound) ->
  visitable visited -> (bound < fuel + length visited)%nat ->
  ancestry_run current visited (ancestry_loop fuel fs current visited).
Proof.
  induction fuel as [|fuel IH]; intros current visited Hcurrent Hv Hfuel; [pose proof (visited_length _ Hv); lia|].
  destruct current as [identity|]; cbn [ancestry_loop]; [|constructor].
  specialize (Hcurrent identity eq_refl). destruct (Z.ltb_spec 1 (id_pid identity)) as [H1|H1]; cbn [andb]; [|constructor; lia].
  case_bool_decide as Hin; cbn [negb]; [constructor; by right|].
  destruct (inspectProcess fs (id_ppid identity)) as [parent|e] eqn:Ep; [|by eapply run_throw].
  change (mbind (M := result) _ (Ok parent)) with
    (rest ← ancestry_loop fuel fs parent (id_pid identity :: visited); Ok ((id_pid identity, id_startTime identity) :: rest)).
  eapply run_step; [done..|]. apply IH.
  - intros identity' ->. by eapply bounded.
  - destruct Hv as [Hnd Hall]. split; constructor; auto with lia.
  - cbn [length]. lia.
Qed.

Lemma ancestry_run_functional current visited r r' : ancestry_run current visited r -> ancestry_run current visited r' -> r = r'.
Proof.
  intros H. revert r'. induction H as [| |identity visited e H1 Hn Ee|identity parent visited r H1 Hn Ep H IH]; intros r' H'; inversion H'; subst;
    try done; try (exfalso; naive_solver lia); try congruence.
  match goal with E : inspectProcess fs _ = Ok ?p, H : ancestry_run ?p _ _ |- _ => rewrite Ep in E; injection E as <-; by rewrite (IH _ H) end.
Qed.
End ancestors.

(** walking up the parents ends.  When the kernel's process numbers are bounded, the walk
    of an identity's ancestors reaches its end within the fuel that the bound gives, and
    what it answers is the answer of the walk without fuel. *)
Theorem ancestry_terminates `{PidMax} fs identity :
  (forall pid found, inspectProcess fs pid = Ok (Some found) -> id_pid found <= Z.of_nat pid_max) ->
  id_pid identity <= Z.of_nat pid_max ->
  forall r, ancestry_run fs (Some identity) [] r <-> r = ancestryForProcess fs identity.
Proof.
  intros Hb Hi r. assert (Hrun : ancestry_run fs (Some identity) [] (ancestryForProcess fs identity)).
  { apply (ancestry_loop_run fs pid_max Hb); [by intros ? [= <-]| |cbn [length]; lia]. split; constructor. }
  split; [|by intros ->]. intros Hr. by eapply ancestry_run_functional.
Qed.

(** ** Inspections *)
Section inspections.
Context `{PidMax} (install : Install) (world : nat -> ProcFs).
Implicit Types (s : Run) (group : Group).

(** Members may have been added; nothing else of a group changes. *)
Definition same_launch (g g' : Group) : Prop :=
  gr_kind g' = gr_kind g /\ gr_leader g' = gr_leader g /\ exists more, gr_verifiedMembers g' = gr_verifiedMembers g ++ more.

#[export] Instance same_launch_preorder : PreOrder same_launch.
Proof.
  split; [intros g; repeat split; exists []; by rewrite app_nil_r|].
  intros a b c (Ek & El & m & Em) (Ek' & El' & m' & Em'). split_and!; [congruence|congruence|].
  exists (m ++ m'). by rewrite Em', Em, <- app_assoc.
Qed.

Lemma remember_same_launch group identity : same_launch group (rememberVerifiedMember group identity).
Proof.
  unfold rememberVerifiedMember. destruct (existsb _ _); [done|]. repeat split. by exists [frozen_member identity].
Qed.

(** What a step that only looks leaves. *)
Definition looked s s' : Prop :=
  (ru_clock s <= ru_clock s')%nat /\ ru_sent s' = ru_sent s /\ same_launch (ru_group s) (ru_group s').

#[export] Instance looked_preorder : PreOrder looked.
Proof.
  split; [intros s; repeat split; auto; exists []; by rewrite app_nil_r|].
  intros a b c (H1 & E1 & S1) (H2 & E2 & S2). split_and!; [lia|congruence|by etransitivity].
Qed.

Lemma wp_observe {A} (call : ProcFs -> result A) (Q : result A -> Run -> Prop) s :
  Q (call (world (ru_clock s))) {| ru_clock := S (ru_clock s); ru_group := ru_group s; ru_sent := ru_sent s |} ->
  wp (observe world call) Q s.
Proof. done. Qed.

Lemma observed_looked s : looked s {| ru_clock := S (ru_clock s); ru_group := ru_group s; ru_sent := ru_sent s |}.
Proof. split_and!; cbn; [lia|done|done]. Qed.

Definition between s s' (t : nat) : Prop := (ru_clock s <= t < ru_clock s')%nat.

(** A verified member is gone, or still the same process, in the group and recognised. *)
Definition still_known (fs : ProcFs) group (known : Identity) : Prop :=
  inspectProcess fs (Some (id_pid known)) = Ok None \/
  exists current, inspectProcess fs (Some (id_pid known)) = Ok (Some current) /\
    id_startTime current = id_startTime known /\ matchesLaunchIdentity install group current = true.

Definition refused (classification : Classification) : Prop :=
  classification = PID_REUSE_DETECTED \/ classification = AMBIGUOUS_PROCESS_GROUP \/ classification = OWNERSHIP_LOST.

Lemma inspect_known_looks group members s :
  wp (inspect_known install world group members) (fun r s' => looked s s' /\
    (forall c, r = Ok (inl c) -> refused c) /\
    (forall live, r = Ok (inr live) -> Forall (fun known => exists t, between s s' t /\ still_known (world t) group known) members)) s.
Proof.
  revert s. induction members as [|known members IH]; intros s; cbn [inspect_known].
  { apply wp_ret. split_and!; [done|by intros|by constructor]. }
  apply wp_bind, wp_observe. set (s1 := {| ru_clock := S _ |}).
  assert (Hl : looked s s1) by apply observed_looked.
  assert (Hnow : between s s1 (ru_clock s)) by (unfold between; cbn; lia).
  destruct (inspectProcess (world (ru_clock s)) (Some (id_pid known))) as [[current|]|e] eqn:Ei; [| |by split_and!].
  - case_bool_decide as Hs; cbn [negb]; [|apply wp_ret; split_and!; [done|intros c [= <-]; by left|by intros]].
    destruct (_ && negb _); [apply wp_ret; split_and!; [done|intros c [= <-]; right; by left|by intros]|].
    destruct (in_group group current) eqn:Eg, (matchesLaunchIdentity install group current) eqn:Em; cbn [negb orb];
      try (apply wp_ret; split_and!; [done|intros c [= <-]; right; by right|by intros]).
    apply wp_bind. eapply wp_mono; [apply IH|]. intros r s' (Hl' & Hc & Hk).
    destruct r as [[c|live]|e]; cbn; split_and!; try by etransitivity. all: try (by intros).
    + intros c' [= <-]. by apply Hc.
    + intros live' [= <-]. destruct Hl as (Hc1 & _), Hl' as (Hc2 & _). constructor.
      * exists (ru_clock s). split; [unfold between in *; lia|]. right. by exists current.
      * eapply Forall_impl; [by apply (Hk live)|]. intros k (t & Ht & Hst). exists t. split; [unfold between in *; lia|done].
  - eapply wp_mono; [apply IH|]. intros r s' (Hl' & Hc & Hk). split_and!; [by etransitivity|done|].
    intros live ->. destruct Hl as (Hc1 & _), Hl' as (Hc2 & _). constructor.
    + exists (ru_clock s). split; [unfold between in *; lia|]. by left.
    + eapply Forall_impl; [by apply (Hk live)|]. intros k (t & Ht & Hst). exists t. split; [unfold between in *; lia|done].
Qed.

Lemma remember_looks identity s : wp (remember identity) (fun r s' => r = Ok tt /\ looked s s') s.
Proof. split; [done|]. split; [done|]. split; [done|]. apply remember_same_launch. Qed.

Lemma remember_all_looks identities s : wp (for_each identities remember) (fun r s' => r = Ok tt /\ looked s s') s.
Proof.
  revert s. induction identities as [|identity identities IH]; intros s; cbn [for_each]; [by apply wp_ret|].
  apply wp_bind. eapply wp_mono; [apply remember_looks|]. intros r s1 [-> Hl]. eapply wp_mono; [apply IH|].
  intros r s2 [-> Hl']. split; [done|by etransitivity].
Qed.

(** [try { return call() } catch { return undefined }] *)
Lemma wp_try_observe {A} (call : ProcFs -> result A) s (Q : result (option A) -> Run -> Prop) :
  let s1 := {| ru_clock := S (ru_clock s); ru_group := ru_group s; ru_sent := ru_sent s |} in
  (forall a, call (world (ru_clock s)) = Ok a -> Q (Ok (Some a)) s1) -> Q (Ok None) s1 ->
  wp (try_catch (found ← observe world call; mret (Some found)) (fun _ => mret None)) Q s.
Proof.
  intros s1 Hok Hnone. apply wp_try_catch, wp_bind, wp_observe. destruct (call _) as [a|e] eqn:E; apply wp_ret; auto.
Qed.

Lemma inspect_listener_looks group members s :
  wp (inspect_listener install world group members) (fun r s' => looked s s' /\ is_ok r = true /\
    (forall i, r = Ok (inl i) -> refused (is_classification i)) /\
    (forall owners, r = Ok (inr owners) -> gr_kind group = FRONTEND ->
       exists t, between s s' t /\ resolvePortOwnerIdentities (world t) 3000 = Ok owners /\ (members = [] -> owners = []))) s.
Proof.
  unfold inspect_listener. destruct (gr_kind group); [|apply wp_ret; by split_and!].
  apply wp_bind, wp_try_observe.
  - intros owners Eo. set (s1 := {| ru_clock := _; ru_group := _; ru_sent := _ |}).
    assert (Hl : looked s s1) by apply observed_looked.
    assert (Hnow : between s s1 (ru_clock s)) by (unfold between; cbn; lia).
    destruct owners as [|listener [|second more]].
    + apply wp_ret. split_and!; [done|done|by intros|]. intros owners [= <-] _. by exists (ru_clock s).
    + destruct (existsb _ members) eqn:Ex; cbn [negb]; [|apply wp_ret; split_and!; [done|done|intros i [= <-]; right; by right|by intros]].
      destruct (matchesLaunchIdentity _ _ _); cbn [negb]; [|apply wp_ret; split_and!; [done|done|intros i [= <-]; right; by left|by intros]].
      apply wp_bind. eapply wp_mono; [apply remember_looks|]. intros r s' [-> Hl']. apply wp_ret.
      split_and!; [by etransitivity|done|by intros|]. intros owners [= <-] _. exists (ru_clock s). split_and!; [|done|by intros ->].
      destruct Hl' as [Hc _]. unfold between in *. lia.
    + apply wp_ret. split_and!; [done|done|intros i [= <-]; right; by left|by intros].
  - apply wp_ret. split_and!; [apply observed_looked|done|intros i [= <-]; right; by right|by intros].
Qed.

(** Every process that /proc lists at some moment of [a, b) is looked at afterwards, before
    [b], and those of the group that are there have the property. *)
Definition enumerated (a b : nat) group (P : Identity -> Prop) : Prop :=
  exists t names, (a <= t < b)%nat /\ list_proc (world t) = Ok names /\
    Forall (fun pid => exists t' found, (t < t' < b)%nat /\ inspectProcess (world t') (Some pid) = Ok found /\
      forall member, found = Some member -> same_number (id_processGroup member) (id_processGroup (gr_leader group)) = true -> P member)
      (omap pid_of_name names).

(** The process runs the launcher's program in its session, and is not one that took over
    the number of a verified member. *)
Definition own_process group (member : Identity) : Prop :=
  matchesLaunchIdentity install group member = true /\
  match List.find (fun candidate => id_pid candidate =? id_pid member) (gr_verifiedMembers group) with
  | Some known => id_startTime known = id_startTime member
  | None => True
  end.

(** Between [a] and [b] the group was recognised: whatever is in it is one of the launcher's
    own, something is in it, and every verified member is gone or the same process still. *)
Definition active (a b : nat) group : Prop :=
  enumerated a b group (own_process group) /\
  (exists t pid member, (a <= t < b)%nat /\ inspectProcess (world t) (Some pid) = Ok (Some member) /\
     same_number (id_processGroup member) (id_processGroup (gr_leader group)) = true) /\
  Forall (fun known => exists t, (a <= t < b)%nat /\ still_known (world t) group known) (gr_verifiedMembers group).

(** Between [a] and [b] nothing was found in the group and, if it is the frontend's, nobody
    listened after that. *)
Definition gone (a b : nat) group : Prop :=
  exists m, (a <= m <= b)%nat /\ enumerated a m group (fun _ => False) /\
    (gr_kind group = FRONTEND -> exists t, (m <= t < b)%nat /\ resolvePortOwnerIdentities (world t) 3000 = Ok []).

Lemma enumerated_mono a b group (P P' : Identity -> Prop) :
  (forall member, P member -> P' member) -> enumerated a b group P -> enumerated a b group P'.
Proof.
  intros HP (t & names & Ht & En & Hall). exists t, names. split_and!; [lia|lia|done|]. eapply Forall_impl; [exact Hall|].
  intros pid (t' & found & Ht' & Ei & Hfound). exists t', found. eauto 6.
Qed.

Lemma enumerated_later a b b' group P : (b <= b')%nat -> enumerated a b group P -> enumerated a b' group P.
Proof.
  intros Hb (t & names & Ht & En & Hall). exists t, names. split_and!; [lia|lia|done|]. eapply Forall_impl; [exact Hall|].
  intros pid (t' & found & Ht' & Ei & Hfound). exists t', found. split_and!; [lia|lia|done|done].
Qed.

Lemma enumerated_earlier a a' b group P : (a' <= a)%nat -> enumerated a b group P -> enumerated a' b group P.
Proof. intros Ha (t & names & Ht & En & Hall). exists t, names. split_and!; first [lia|done]. Qed.

Definition present (a b : nat) group (member : Identity) : Prop :=
  same_number (id_processGroup member) (id_processGroup (gr_leader group)) = true /\
  exists t pid, (a <= t < b)%nat /\ inspectProcess (world t) (Some pid) = Ok (Some member).

Lemma collect_members_looks group pids s :
  wp (collect_members world (id_processGroup (gr_leader group)) pids) (fun r s' => looked s s' /\
    forall members, r = Ok members ->
      Forall (fun pid => exists t found, between s s' t /\ inspectProcess (world t) (Some pid) = Ok found /\
        forall member, found = Some member -> same_number (id_processGroup member) (id_processGroup (gr_leader group)) = true ->
          member ∈ members) pids /\
      (forall member, member ∈ members -> present (ru_clock s) (ru_clock s') group member)) s.
Proof.
  revert s. induction pids as [|pid pids IH]; intros s; cbn [collect_members].
  { apply wp_ret. split; [done|]. intros members [= <-]. split; [constructor|]. by intros ? ?%elem_of_nil. }
  apply wp_bind, wp_observe. destruct (inspectProcess (world (ru_clock s)) (Some pid)) as [identity|e] eqn:Ei; [|by split; [apply observed_looked|]].
  set (s1 := {| ru_clock := _; ru_group := _; ru_sent := _ |}). assert (Hl : looked s s1) by apply observed_looked.
  apply wp_bind. eapply wp_mono; [apply IH|]. intros [members|e] s' [Hl' Hr]; [|by split; [by etransitivity|]].
  apply wp_ret. split; [by etransitivity|]. intros members' [= <-]. destruct (Hr members eq_refl) as [Hall Hpresent].
  destruct Hl' as (Hc & _). cbn in Hc. split; [constructor|].
  - exists (ru_clock s), identity. split_and!; [unfold between; lia|done|]. intros member -> Hg. rewrite Hg. by apply elem_of_cons; left.
  - eapply Forall_impl; [exact Hall|]. intros pid' (t & found & Ht & Ef & Hin). exists t, found.
    split_and!; [unfold between in *; cbn in *; lia|done|]. intros member Em Hg. specialize (Hin member Em Hg).
    destruct identity as [identity|]; [|done]. destruct (same_number (id_processGroup identity) _); [|done]. apply elem_of_cons. by right.
  - assert (Hmore : forall member, present (S (ru_clock s)) (ru_clock s') group member -> present (ru_clock s) (ru_clock s') group member).
    { intros member (Hg & t & p & Ht & E). split; [done|]. exists t, p. split; [lia|done]. }
    intros member Hin. destruct identity as [identity|]; [|by apply Hmore, Hpresent].
    destruct (same_number _ _) eqn:Eg; [|by apply Hmore, Hpresent]. apply elem_of_cons in Hin as [->|Hin]; [|by apply Hmore, Hpresent].
    split; [done|]. exists (ru_clock s), pid. split; [lia|done].
Qed.

Lemma enumerate_looks group s :
  wp (enumerateProcessGroupMembers world (id_processGroup (gr_leader group))) (fun r s' => looked s s' /\
    forall members, r = Ok members ->
      enumerated (ru_clock s) (ru_clock s') group (fun member => member ∈ members) /\
      (forall member, member ∈ members -> present (ru_clock s) (ru_clock s') group member)) s.
Proof.
  unfold enumerateProcessGroupMembers. destruct (valid_pid _); [|by split].
  apply wp_bind, wp_observe. destruct (list_proc (world (ru_clock s))) as [names|e] eqn:En; [|by split; [apply observed_looked|]].
  set (s1 := {| ru_clock := _; ru_group := _; ru_sent := _ |}). assert (Hl : looked s s1) by apply observed_looked.
  apply wp_bind. eapply wp_mono; [apply collect_members_looks|]. intros [members|e] s' [Hl' Hr]; [|by split; [by etransitivity|]].
  apply wp_ret. split; [by etransitivity|]. intros members' [= <-]. destruct (Hr members eq_refl) as [Hall Hpresent].
  destruct Hl' as (Hc & _). cbn in Hc. split.
  - exists (ru_clock s), names. split_and!; [lia|lia|done|]. eapply Forall_impl; [exact Hall|].
    intros pid (t & found & Ht & Ef & Hin). exists t, found. unfold between in Ht. cbn in Ht. split_and!; [lia|lia|done|].
    intros member Em Hg. rewrite elem_of_js_sort. by apply Hin.
  - intros member Hin. rewrite elem_of_js_sort in Hin. apply Hpresent in Hin as (Hg & t & p & Ht & E). split; [done|]. exists t, p.
    cbn in Ht. split; [lia|done].
Qed.

Lemma judge_members_None group known members seen :
  judge_members install group known members seen = None ->
  forall member, member ∈ members -> matchesLaunchIdentity install group member = true /\
    match List.find (fun candidate => id_pid candidate =? id_pid member) known with
    | Some known => id_startTime known = id_startTime member
    | None => True
    end.
Proof.
  revert seen. induction members as [|m members IH]; intros seen; cbn [judge_members]; [by intros _ ? ?%elem_of_nil|].
  case_bool_decide; [done|]. destruct (List.find _ known) as [k|] eqn:Ef.
  - case_bool_decide as Hs; cbn [negb]; [|done]. destruct (matchesLaunchIdentity install group m) eqn:Em; cbn [negb]; [|done].
    intros E member [->|Hin]%elem_of_cons; [by rewrite Ef|by eapply IH].
  - destruct (matchesLaunchIdentity install group m) eqn:Em; cbn [negb]; [|done].
    intros E member [->|Hin]%elem_of_cons; [by rewrite Ef|by eapply IH].
Qed.

Lemma judge_members_Some group known members seen c : judge_members install group known members seen = Some c -> refused c.
Proof.
  revert seen. induction members as [|m members IH]; intros seen; cbn [judge_members]; [done|]. unfold refused.
  repeat case_match; intros E; simplify_eq; eauto; naive_solver.
Qed.

(** What an inspection establishes by what it returns. *)
Definition established s s' (i : Inspection) : Prop :=
  match is_classification i with
  | VERIFIED_ACTIVE => active (ru_clock s) (ru_clock s') (ru_group s)
  | ALREADY_EXITED => gone (ru_clock s) (ru_clock s') (ru_group s)
  | c => refused c
  end.

Lemma refused_established s s' i : refused (is_classification i) -> established s s' i.
Proof. unfold established. intros [E|[E|E]]; rewrite E; unfold refused; eauto. Qed.

Lemma active_intro s s1 s2 s3 members :
  (ru_clock s <= ru_clock s1)%nat -> (ru_clock s1 <= ru_clock s2)%nat -> (ru_clock s2 <= ru_clock s3)%nat -> members <> [] ->
  Forall (fun known => exists t, between s s1 t /\ still_known (world t) (ru_group s) known) (gr_verifiedMembers (ru_group s)) ->
  enumerated (ru_clock s1) (ru_clock s2) (ru_group s) (fun member => member ∈ members) ->
  (forall member, member ∈ members -> present (ru_clock s1) (ru_clock s2) (ru_group s) member) ->
  (forall member, member ∈ members -> own_process (ru_group s) member) ->
  active (ru_clock s) (ru_clock s3) (ru_group s).
Proof.
  intros H1 H2 H3 Hne Hknown Henum Hpresent Hown. split_and!.
  - eapply enumerated_later, enumerated_earlier, enumerated_mono, Henum; [exact H3|exact H1|exact Hown].
  - destruct members as [|m ms]; [done|]. destruct (Hpresent m) as (Hg & t & pid & Ht & E); [by apply elem_of_cons; left|].
    exists t, pid, m. split_and!; [lia|lia|done|done].
  - eapply Forall_impl; [exact Hknown|]. unfold between. intros k (t & Ht & Hst). exists t. split; [lia|done].
Qed.

Lemma inspect_looks s :
  wp (inspectOwnedProcessGroup install world) (fun r s' => looked s s' /\ forall i, r = Ok i -> established s s' i) s.
Proof.
  unfold inspectOwnedProcessGroup. apply wp_bind. unfold gets, wp at 1. cbn beta iota.
  apply wp_bind. eapply wp_mono; [apply inspect_known_looks|]. intros [[c|live]|e] s1 (Hl1 & Hc & Hk); [| |by split].
  { apply wp_ret. split; [done|]. intros i [= <-]. by apply refused_established, Hc. }
  specialize (Hk live eq_refl). apply wp_bind, wp_try_catch, wp_bind. eapply wp_mono; [apply enumerate_looks|].
  intros [members|e] s2 [Hl12 Hm]; apply wp_ret; assert (Hl2 : looked s s2) by (by etransitivity).
  2: { apply wp_ret. split; [done|]. intros i [= <-]. apply refused_established. right. by left. }
  destruct (Hm members eq_refl) as [Henum Hpresent].
  destruct (judge_members install (ru_group s) (gr_verifiedMembers (ru_group s)) members []) as [c|] eqn:Ej.
  { apply wp_ret. split; [done|]. intros i [= <-]. eapply refused_established, judge_members_Some, Ej. }
  destruct (existsb _ live); [apply wp_ret; split; [done|intros i [= <-]; apply refused_established; right; by left]|].
  apply wp_bind. eapply wp_mono; [apply inspect_listener_looks|]. intros [[i|owners]|e] s3 (Hl3 & Hok & Hi & Ho); [| |done].
  { apply wp_ret. split; [by etransitivity|]. intros i' [= <-]. by apply refused_established, Hi. }
  specialize (Ho owners eq_refl). assert (Hl : looked s s3) by by etransitivity.
  destruct Hl1 as (H1 & _), Hl12 as (H2 & _), (Hl3) as (H3 & _).
  destruct members as [|m ms].
  - apply wp_ret. split; [done|]. intros i [= <-]. unfold established. cbn. exists (ru_clock s2). split_and!; [lia|lia| |].
    + eapply enumerated_earlier, enumerated_mono, Henum; [done|]. by intros member ?%elem_of_nil.
    + intros Hf. destruct (Ho Hf) as (t & Ht & Et & Hnil). rewrite (Hnil eq_refl) in Et. exists t. by split.
  - apply wp_bind. eapply wp_mono; [apply remember_all_looks|]. intros r s4 [-> Hl4]. apply wp_ret.
    split; [by etransitivity|]. intros i [= <-]. unfold established. cbn. destruct Hl4 as (H4 & _).
    apply (active_intro s s1 s2 s4 (m :: ms)); try lia; try done. by apply (judge_members_None _ _ _ []).
Qed.

Lemma wp_inspect_then {A} (k : Inspection -> method Run A) (Q : result A -> Run -> Prop) s :
  (forall i s', looked s s' -> established s s' i -> wp (k i) Q s') -> (forall e s', looked s s' -> Q (Throw e) s') ->
  wp (inspectOwnedProcessGroup install world ≫= k) Q s.
Proof.
  intros Hk He. apply wp_bind. eapply wp_mono; [apply inspect_looks|]. intros [i|e] s' [Hl Hi]; [by apply Hk; [|apply Hi]|by apply He].
Qed.

Lemma wait_looks polls s :
  wp (waitForResolution install world polls) (fun r s' => looked s s' /\
    forall i, r = Ok i -> exists s1, looked s s1 /\ looked s1 s' /\ established s1 s' i) s.
Proof.
  revert s. induction polls as [|polls IH]; intros s; cbn [waitForResolution].
  - eapply wp_mono; [apply inspect_looks|]. intros r s' [Hl Hi]. split; [done|]. intros i ->. exists s. split_and!; [done|done|by apply Hi].
  - apply wp_inspect_then; [|by split]. intros i s1 Hl Hi. case_bool_decide.
    + eapply wp_mono; [apply IH|]. intros r s' [Hl' Hr]. split; [by etransitivity|].
      intros i' ->. destruct (Hr i' eq_refl) as (s2 & H1 & H2 & H3). exists s2. split_and!; [by etransitivity|done|done].
    + apply wp_ret. split; [done|]. intros i' [= <-]. by exists s.
Qed.

Lemma wp_wait_then {A} polls (k : Inspection -> method Run A) (Q : result A -> Run -> Prop) s :
  (forall i s1 s', looked s s1 -> looked s1 s' -> established s1 s' i -> wp (k i) Q s') ->
  (forall e s', looked s s' -> Q (Throw e) s') -> wp (waitForResolution install world polls ≫= k) Q s.
Proof.
  intros Hk He. apply wp_bind. eapply wp_mono; [apply wait_looks|].
  intros [i|e] s' [Hl Hi]; [|by apply He]. destruct (Hi i eq_refl) as (s1 & H1 & H2 & H3). by eapply Hk.
Qed.

(** A signal goes to the group of the leader, and since the moment [since] two inspections,
    one after the other, had recognised the group; the second, of everything the first
    had verified, was over when the signal was sent. *)
Definition justified group (since : nat) (sent : Sent) : Prop :=
  se_target sent = Z.opp <$> id_processGroup (gr_leader group) /\
  exists a m g1 g2, (since <= a)%nat /\ same_launch group g1 /\ same_launch g1 g2 /\ active a m g1 /\ active m (se_moment sent) g2.

(** Every signal is justified by what was seen after the one before it. *)
Fixpoint all_justified group (since : nat) (sents : list Sent) : Prop :=
  match sents with
  | [] => True
  | sent :: sents' => justified group since sent /\ all_justified group (se_moment sent) sents'
  end.

Lemma all_justified_snoc group since sents sent :
  all_justified group since sents -> justified group (default since (se_moment <$> last sents)) sent ->
  all_justified group since (sents ++ [sent]).
Proof.
  revert since. induction sents as [|first sents IH]; intros since; cbn [all_justified app]; [done|].
  intros [Hfirst Hrest] Hsent. split; [done|]. apply IH; [done|]. rewrite last_cons in Hsent. by destruct (last sents).
Qed.

(** What a run that ends with [r] in [s'] may have done, and what it may say. *)
Record outcome group (start : nat) (r : result Classification) s' : Prop := {
  oc_order : map se_signal (ru_sent s') `prefix_of` [SIGTERM; SIGKILL];
  oc_justified : all_justified group start (ru_sent s');
  oc_gone : forall c, r = Ok c -> successful_cleanup c = true ->
    exists a b g, (b <= ru_clock s')%nat /\ Forall (fun sent => (se_moment sent <= a)%nat) (ru_sent s') /\
      same_launch group g /\ gone a b g
}.

(** The states of a run, begun at [start], after some of the signals. *)
Definition reached group start (signals : list Signal) s : Prop :=
  map se_signal (ru_sent s) = signals /\ same_launch group (ru_group s) /\ all_justified group start (ru_sent s) /\
  Forall (fun sent => (se_moment sent <= ru_clock s)%nat) (ru_sent s) /\ (start <= ru_clock s)%nat.

Lemma reached_looked group start signals s s' : reached group start signals s -> looked s s' -> reached group start signals s'.
Proof.
  intros (Em & Hg & Hj & Ht & Hs) (Hc & Es & Hg'). unfold reached. rewrite Es. split_and!; [done|by etransitivity|done| |lia].
  eapply Forall_impl; [done|]. cbn. lia.
Qed.

Lemma reached_outcome group start signals s r :
  reached group start signals s -> signals `prefix_of` [SIGTERM; SIGKILL] ->
  (forall c, r = Ok c -> successful_cleanup c = true -> False) -> outcome group start r s.
Proof. intros (Em & Hg & Hj & Ht & Hs) Hp Hr. split; [by rewrite Em|done|]. intros c Ec Hc. by destruct (Hr c Ec Hc). Qed.

Lemma gone_outcome group start signals s0 s s' i c :
  reached group start signals s0 -> signals `prefix_of` [SIGTERM; SIGKILL] -> looked s0 s -> looked s s' -> established s s' i ->
  is_classification i = ALREADY_EXITED -> outcome group start (Ok c) s'.
Proof.
  intros Hr Hp H1 H2 He Ei. pose proof (reached_looked _ _ _ _ _ Hr H1) as Hr1.
  pose proof (reached_looked _ _ _ _ _ Hr1 H2) as (Em & Hg & Hj & Ht & _).
  split; [by rewrite Em|done|]. intros c' [= <-] _. unfold established in He. rewrite Ei in He.
  destruct Hr1 as (_ & Hg1 & _ & Ht1 & _). exists (ru_clock s), (ru_clock s'), (ru_group s).
  destruct H2 as (_ & Es & _). rewrite Es. split_and!; done.
Qed.

Lemma established_active s s' i : established s s' i -> is_classification i = VERIFIED_ACTIVE -> active (ru_clock s) (ru_clock s') (ru_group s).
Proof. unfold established. intros He Ei. by rewrite Ei in He. Qed.

Lemma reached_since group start signals s : reached group start signals s -> (default start (se_moment <$> last (ru_sent s)) <= ru_clock s)%nat.
Proof.
  intros (_ & _ & _ & Ht & Hs). destruct (last (ru_sent s)) as [sent|] eqn:El; cbn; [|lia].
  apply last_Some_elem_of in El. by eapply Forall_forall in Ht.
Qed.

(** A signal after two inspections, from [s1] to [s2] and from there to [s3]. *)
Lemma wp_signal_then {A} signal_fails name signals group start (k : unit -> method Run A) (Q : result A -> Run -> Prop) s1 s2 s3 :
  reached group start signals s1 -> looked s1 s2 -> looked s2 s3 ->
  active (ru_clock s1) (ru_clock s2) (ru_group s1) -> active (ru_clock s2) (ru_clock s3) (ru_group s2) ->
  (forall s', reached group start (signals ++ [name]) s' -> wp (k tt) Q s') ->
  (forall e s', reached group start (signals ++ [name]) s' -> Q (Throw e) s') ->
  wp (send_signal signal_fails name ≫= k) Q s3.
Proof.
  intros Hr L12 L23 A1 A2 Hk Hq. pose proof (reached_since _ _ _ _ Hr) as Hsince.
  pose proof (reached_looked _ _ _ _ _ (reached_looked _ _ _ _ _ Hr L12) L23) as (Em & Hg & Hj & Ht & Hs).
  set (sent := {| se_moment := ru_clock s3; se_target := Z.opp <$> id_processGroup (gr_leader (ru_group s3)); se_signal := name |}).
  set (s' := {| ru_clock := ru_clock s3; ru_group := ru_group s3; ru_sent := ru_sent s3 ++ [sent] |}).
  assert (Hnew : reached group start (signals ++ [name]) s').
  { unfold reached, s'. cbn. rewrite map_app, Em. split_and!; [done|done| | |done].
    - apply all_justified_snoc; [done|]. split; [cbn; by destruct Hg as (_ & -> & _)|].
      destruct Hr as (_ & Hg0 & _), L12 as (_ & E12 & G12), L23 as (_ & E23 & _).
      exists (ru_clock s1), (ru_clock s2), (ru_group s1), (ru_group s2). rewrite E23, E12. split_and!; done.
    - apply Forall_app. split; [done|]. by constructor. }
  apply wp_bind. change (wp (throw_if (signal_fails (ru_clock s3)) "kill failed") (fun r s => match r with Ok a => wp (k a) Q s | Throw e => Q (Throw e) s end) s').
  apply wp_throw_if; intros _; auto. by apply Hq.
Qed.

Lemma thrown_outcome group start signals s s' e :
  reached group start signals s -> signals `prefix_of` [SIGTERM; SIGKILL] -> looked s s' -> outcome group start (Throw e) s'.
Proof. intros Hr Hp Hl. eapply reached_outcome; [by eapply reached_looked|done|by intros]. Qed.

(** The run stops at an inspection that does not find the group active. *)
Lemma stop_outcome group start signals s0 s s' i c :
  reached group start signals s0 -> signals `prefix_of` [SIGTERM; SIGKILL] -> looked s0 s -> looked s s' -> established s s' i ->
  is_classification i = ALREADY_EXITED \/ successful_cleanup c = false -> outcome group start (Ok c) s'.
Proof.
  intros Hr Hp H1 H2 He [Ei|Hc]; [by eapply gone_outcome|].
  eapply reached_outcome; [eapply reached_looked; [exact Hr|by etransitivity]|done|]. intros c' [= <-]. by rewrite Hc.
Qed.

Lemma classification_stops s s' i :
  established s s' i -> is_classification i <> VERIFIED_ACTIVE ->
  is_classification i = ALREADY_EXITED \/ successful_cleanup (is_classification i) = false.
Proof. unfold established, refused. destruct (is_classification i); intros He Hn; try tauto; by destruct He as [|[]]. Qed.

Lemma terminate_outcome signal_fails term_polls kill_polls s :
  ru_sent s = [] -> wp (terminateOwnedProcessGroup install world signal_fails term_polls kill_polls) (outcome (ru_group s) (ru_clock s)) s.
Proof.
  intros Hs. assert (H0 : reached (ru_group s) (ru_clock s) [] s) by (unfold reached; rewrite Hs; split_and!; done || constructor).
  assert (P0 : [] `prefix_of` [SIGTERM; SIGKILL]) by apply prefix_nil.
  assert (P1 : [SIGTERM] `prefix_of` [SIGTERM; SIGKILL]) by by exists [SIGKILL].
  assert (P2 : [SIGTERM; SIGKILL] `prefix_of` [SIGTERM; SIGKILL]) by done.
  unfold terminateOwnedProcessGroup. apply wp_inspect_then; [|by intros; eapply thrown_outcome]. intros i1 s1 L1 E1.
  case_bool_decide as C1; cbn [negb];
    [|apply wp_ret; eapply (stop_outcome _ _ [] s s); [exact H0|done|done|exact L1|exact E1|by eapply classification_stops]].
  pose proof (reached_looked _ _ _ _ _ H0 L1) as H1.
  apply wp_inspect_then; [|by intros; eapply thrown_outcome]. intros i2 s2 L2 E2.
  case_bool_decide as C2; cbn [negb];
    [|apply wp_ret; eapply (stop_outcome _ _ [] s1 s1); [exact H1|done|done|exact L2|exact E2|by eapply classification_stops]].
  eapply (wp_signal_then _ SIGTERM []); [exact H0|exact L1|exact L2|by eapply established_active|by eapply established_active| |by intros; eapply thrown_outcome]. intros s3 H3.
  apply wp_wait_then; [|by intros; eapply thrown_outcome]. intros i4 s4 s5 L4 L5 E5.
  case_bool_decide as C5; [apply wp_ret; eapply (stop_outcome _ _ _ s3 s4); [exact H3|done|exact L4|exact L5|exact E5|by left]|].
  case_bool_decide as C5'; cbn [negb];
    [|apply wp_ret; eapply (stop_outcome _ _ _ s3 s4); [exact H3|done|exact L4|exact L5|exact E5|by eapply classification_stops]].
  assert (H4 : reached (ru_group s) (ru_clock s) [SIGTERM] s4) by (by eapply reached_looked).
  assert (H5 : reached (ru_group s) (ru_clock s) [SIGTERM] s5) by (by eapply reached_looked).
  apply wp_inspect_then; [|by intros; eapply thrown_outcome]. intros i6 s6 L6 E6.
  case_bool_decide as C6; [apply wp_ret; eapply (stop_outcome _ _ _ s5 s5); [exact H5|done|done|exact L6|exact E6|by left]|].
  case_bool_decide as C6'; cbn [negb];
    [|apply wp_ret; eapply (stop_outcome _ _ _ s5 s5); [exact H5|done|done|exact L6|exact E6|by eapply classification_stops]].
  eapply (wp_signal_then _ SIGKILL [SIGTERM]); [exact H4|exact L5|exact L6|by eapply established_active|by eapply established_active| |by intros; eapply thrown_outcome]. intros s7 H7.
  apply wp_wait_then; [|by intros; eapply thrown_outcome]. intros i8 s8 s9 L8 L9 E9.
  case_bool_decide as C9; [apply wp_ret; eapply (stop_outcome _ _ _ s7 s8); [exact H7|done|exact L8|exact L9|exact E9|by left]|].
  case_bool_decide as C9'; cbn [negb]; apply wp_ret; eapply (stop_outcome _ _ _ s7 s8);
    [exact H7|done|exact L8|exact L9|exact E9|by right|exact H7|done|exact L8|exact L9|exact E9|by eapply classification_stops].
Qed.
End inspections.

(** C27: a process group is signalled only while it is recognised.  A run that ends a group
    sends at most SIGTERM and then SIGKILL, only to the group of its leader.  Between the
    start of the run and SIGTERM, and again between SIGTERM and SIGKILL, two inspections,
    one after the other and both complete, each saw every process that /proc listed in the
    group as one of the launcher's own, saw at least one, and saw every verified member
    gone or the same process still. *)
Theorem signals_are_justified `{PidMax} install world signal_fails term_polls kill_polls s r s' :
  ru_sent s = [] ->
  terminateOwnedProcessGroup install world signal_fails term_polls kill_polls s = (r, s') ->
  map se_signal (ru_sent s') `prefix_of` [SIGTERM; SIGKILL] /\
  all_justified install world (ru_group s) (ru_clock s) (ru_sent s').
Proof.
  intros Hs E. pose proof (wp_run _ _ _ _ _ (terminate_outcome install world signal_fails term_polls kill_polls s Hs) E) as [Ho Hj _]. done.
Qed.

(** C28: a group that is reported as ended has ended.  When the run reports the group as
    already exited or terminated, an inspection after the last signal listed /proc, looked
    at every process of the listing and saw none of them in the group, and for the
    frontend saw, after that, nobody listening on its port. *)
Theorem ended_group_is_gone `{PidMax} install world signal_fails term_polls kill_polls s c s' :
  ru_sent s = [] ->
  terminateOwnedProcessGroup install world signal_fails term_polls kill_polls s = (Ok c, s') ->
  successful_cleanup c = true ->
  exists a b g, (b <= ru_clock s')%nat /\ Forall (fun sent => (se_moment sent <= a)%nat) (ru_sent s') /\
    same_launch (ru_group s) g /\ gone world a b g.
Proof.
  intros Hs E Hc. pose proof (wp_run _ _ _ _ _ (terminate_outcome install world signal_fails term_polls kill_polls s Hs) E) as [_ _ Hg]. exact (Hg c eq_refl Hc).
Qed.

(** One process, the frontend, that is there until some moment. *)
#[local] Instance sample_pid_max : PidMax := 100%nat.
Definition sample_install : Install := {| in_root := "/r"; in_execPath := "/bin/node" |}.
Definition sample_stat : string := "7 (node) S 1 7 7 0 0 0 0 0 0 0 0 0 0 0 0 0 0 0 4242 0".
Definition sample_fs (alive : bool) : ProcFs := {|
  fs_readFile path := if alive then
      if bool_decide (path = "/proc/7/stat") then Some sample_stat
      else if bool_decide (path = "/proc/7/cmdline") then
        Some ("node" +:+ String (ascii_of_nat 0) "/r/frontend/node_modules/next/dist/bin/next" +:+ String (ascii_of_nat 0) "dev") else None
    else None;
  fs_readlink path := if alive then
      if bool_decide (path = "/proc/7/cwd") then Some "/r/frontend" else if bool_decide (path = "/proc/7/exe") then Some "/bin/node" else None
    else None;
  fs_realpath := Some;
  fs_readdir path := if bool_decide (path = "/proc") then Some (if alive then ["1"; "7"; "self"] else ["1"; "self"]) else None |}.
Definition sample_leader : Identity := {|
  id_pid := 7; id_ppid := Some 1; id_processGroup := Some 7; id_session := Some 7; id_startTime := "4242";
  id_cwd := "/r/frontend"; id_exe := "/bin/node"; id_cmdline := "node /r/frontend/node_modules/next/dist/bin/next dev" |}.
Definition sample_group : Group := {| gr_kind := FRONTEND; gr_leader := sample_leader; gr_verifiedMembers := [sample_leader] |}.
Definition sample_until (last t : nat) : ProcFs := sample_fs (t <? last)%nat.
(** It goes on the first signal. *)
Definition sample_world : nat -> ProcFs := sample_until 10.
(** It does not. *)
Definition stubborn_world : nat -> ProcFs := sample_until 20.
Definition sample_run : Run := {| ru_clock := 0; ru_group := sample_group; ru_sent := [] |}.

Example sample_capture : captureOwnedProcessGroup sample_install (sample_fs true) (Some 7) FRONTEND = Ok sample_group.
Proof. vm_compute. reflexivity. Qed.

Lemma ancestry_terminates_witness :
  ancestry_run (sample_fs true) (Some sample_leader) [] (ancestryForProcess (sample_fs true) sample_leader).
Proof.
  apply (ancestry_terminates (sample_fs true) sample_leader); [|vm_compute; discriminate|reflexivity].
  intros pid found (p & text & stat & Et & Es & ->)%inspectProcess_stat. unfold sample_fs in Et. cbn [fs_readFile] in Et. cbv beta iota in Et.
  destruct (bool_decide _); [injection Et as <-; vm_compute in Es; injection Es as <-; vm_compute; discriminate|].
  destruct (bool_decide _); [injection Et as <-; vm_compute in Es; discriminate|discriminate].
Defined.

Lemma signals_are_justified_witness :
  exists s', terminateOwnedProcessGroup sample_install stubborn_world (fun _ => false) 0 0 sample_run = (Ok TERMINATED_FORCIBLY, s') /\
    map se_signal (ru_sent s') = [SIGTERM; SIGKILL] /\ all_justified sample_install stubborn_world sample_group 0 (ru_sent s').
Proof.
  destruct (terminateOwnedProcessGroup sample_install stubborn_world (fun _ => false) 0 0 sample_run) as [r s'] eqn:E.
  pose proof (signals_are_justified sample_install stubborn_world (fun _ => false) 0 0 sample_run r s' eq_refl E) as [_ Hj].
  exists s'. vm_compute in E. injection E as <- <-. exact (conj eq_refl (conj eq_refl Hj)).
Defined.

Lemma ended_group_is_gone_witness :
  exists s' a b g, terminateOwnedProcessGroup sample_install sample_world (fun _ => false) 3 3 sample_run = (Ok TERMINATED_GRACEFULLY, s') /\
    (b <= ru_clock s')%nat /\ same_launch sample_group g /\ gone sample_world a b g.
Proof.
  destruct (terminateOwnedProcessGroup sample_install sample_world (fun _ => false) 3 3 sample_run) as [r s'] eqn:E.
  assert (Er : r = Ok TERMINATED_GRACEFULLY) by (vm_compute in E; injection E as <- _; reflexivity). subst r.
  destruct (ended_group_is_gone sample_install sample_world (fun _ => false) 3 3 sample_run _ s' eq_refl E eq_refl) as (a & b & g & Hb & _ & Hs & Hg).
  exists s', a, b, g. exact (conj eq_refl (conj Hb (conj Hs Hg))).
Defined.
