(* ===== verification/Sg5Plan.v ===== *)
(** * The protocol of the browser gate: scripts/sg5-protocol.ts

    The protocol that the repository generates, its validation, and the text that the
    script prints.  It is compared with what the launcher of Sg5Launcher.v expects. *)
From Stdlib Require Import ZArith Lia Ascii.
From stdpp Require Import base option list strings.
From S2P Require Import Prelude HcuJson HcuPlan HcuBytecode HcuManifest.
Local Open Scope Z_scope.

Definition texts (items : list string) : Json := jarray (map jstring items).

Definition protocol : Json := jobject [
  ("schema", jstring "zama-szn4.sg5-browser-capability-protocol.v2");
  ("protocolVersion", jstring "sg5-browser-capability-v2");
  ("gate", jstring "SG-5");
  ("gateStatus", jstring "PENDING");
  ("preparationStatus", jstring "PREPARED_LIVE_BROWSER_EXECUTION_REQUIRED");
  ("relationship", jobject [("sg1", jstring "PASS_UNCHANGED"); ("sg2", jstring "PASS_UNCHANGED");
    ("sg3", jstring "PASS_UNCHANGED"); ("sg4", jstring "PASS_UNCHANGED"); ("sg5", jstring "PENDING_LIVE_BROWSER_EXECUTION")]);
  ("installedLineage", jobject [("next", jobject [("package", jstring "next"); ("version", jstring "16.3.0")]);
    ("react", jobject [("package", jstring "react"); ("version", jstring "19.2.8")]);
    ("typescript", jobject [("package", jstring "typescript"); ("version", jstring "5.9.3")]);
    ("playwright", jobject [("package", jstring "@playwright/test"); ("version", jstring "1.62.1")]);
    ("viem", jobject [("package", jstring "viem"); ("version", jstring "2.55.10")]);
    ("zamaBrowserSdk", jobject [("package", jstring "@zama-fhe/sdk"); ("version", jstring "3.4.0")]);
    ("zamaReactSdk", jobject [("package", jstring "@zama-fhe/react-sdk"); ("version", jstring "3.4.0")]);
    ("fhevmSolidity", jobject [("package", jstring "@fhevm/solidity"); ("version", jstring "0.11.1")])]);
  ("lockedProbe", jobject [("network", jstring "Ethereum Sepolia"); ("chainId", jstring "11155111");
    ("contractAddress", jstring "0xfc672ca5846896A7A135943E79dd11283c38FE78"); ("encryptedWidth", jstring "euint64");
    ("plaintextClassification", jstring "FIXED_TEST_VALUE_ONE"); ("fixedPlaintext", jstring "1");
    ("sdkEncryptionMethod", jstring "ZamaSDK.encrypt"); ("contractArtifact", jstring "SG5BrowserProbe");
    ("requiredColdContexts", jstring "2")]);
  ("browserRequirements", jobject [("realChromium", jbool true); ("nodeExecutionForbiddenForFHEPath", jbool true);
    ("cleanContext", jbool true); ("serviceWorkersBlocked", jbool true); ("emptyStorageRequired", jbool true);
    ("productionBundleRequired", jbool true); ("refreshRepeatRequired", jbool true)]);
  ("browserApi", jobject [("sdkInitialization", jstring "@zama-fhe/sdk ZamaSDK + createConfig");
    ("encryptedInput", jstring "ZamaSDK.encrypt"); ("providerAdapter", jstring "ViemProvider + ViemSigner");
    ("userDecryption", jstring "sdk.decryption.decryptValues"); ("inputType", jstring "euint64");
    ("boundedRandomnessNotUsed", jbool true)]);
  ("installedSepoliaConfiguration", jobject [("gatewayChainId", jstring "10901");
    ("relayerOrigin", jstring "https://relayer.testnet.zama.org");
    ("chainRpcOrigin", jstring "https://ethereum-sepolia-rpc.publicnode.com")]);
  ("assetOriginAuthority", jobject [("dynamicAssetOriginsResolved", jbool true);
    ("publicKeyAssetOrigin", jstring "https://zama-mpc-testnet-public-efd88e2b.s3.eu-west-1.amazonaws.com");
    ("publicKeyAssetPathPrefix", jstring "/PUB-p1/PublicKey/");
    ("crsAssetOrigin", jstring "https://zama-mpc-testnet-public-efd88e2b.s3.eu-west-1.amazonaws.com");
    ("crsAssetPathPrefix", jstring "/PUB-p1/CRS/"); ("crsAssetRequired", jbool true);
    ("discovery", jstring "authorized read-only GET /v2/keyurl")]);
  ("networkPolicy", jobject [("allowedOrigins", texts ["http://localhost:3000"; "https://relayer.testnet.zama.org";
    "https://ethereum-sepolia-rpc.publicnode.com"; "https://zama-mpc-testnet-public-efd88e2b.s3.eu-west-1.amazonaws.com"]);
    ("officialRelayerPathNamespace", jstring "/v2/"); ("embeddedRuntimeAssetSchemes", texts ["data:"]);
    ("requiredCategories", texts ["RELAYER_KEYURL_METADATA"; "RELAYER_RUNTIME"; "PUBLIC_KEY_ASSET"; "CRS_ASSET"; "SEPOLIA_RPC"]);
    ("criticalFailuresDisallowed", jbool true); ("secretsAndBodiesNotPersisted", jbool true)]);
  ("scenarios", texts ["SG5-01_CLEAN_LOAD"; "SG5-02_SDK_INITIALIZATION"; "SG5-03_SEPOLIA_PROVIDER"; "SG5-04_WRONG_NETWORK";
    "SG5-05_BROWSER_ENCRYPTION"; "SG5-06_LIVE_ENCRYPTED_TRANSACTION"; "SG5-07_RESULT_READBACK"; "SG5-08_AUTHORIZED_DECRYPTION";
    "SG5-09_UNAUTHORIZED_ACCESS"; "SG5-10_FRESH_CONTEXT_REPEAT"; "SG5-11_PRODUCTION_BUILD"]);
  ("walletModel", jobject [("automation", jstring "Node-side EIP-1193 bridge signs only through a test wallet supplied by runtime environment");
    ("production", jstring "standard browser wallet/EIP-1193 interface"); ("frontendNeverReceivesPrivateKey", jbool true);
    ("unauthorizedIdentityMustBeRejected", jbool true)]);
  ("forbiddenMaterial", texts ["private keys"; "seed phrases"; "RPC secrets"; "raw ciphertexts"; "input proofs";
    "encrypted handles"; "signed payloads"; "provider objects"; "browser storage dumps"]);
  ("productionSafety", jobject [("probeOnly", jbool true); ("productionPrizePoolUntouched", jbool true);
    ("noRandomTicket", jbool true); ("noWinnerSelection", jbool true); ("noProductionProtocolBuild", jbool true)]);
  ("evidence", jobject [("path", jstring "evidence/cp0/SG5_BROWSER_CAPABILITY.json");
    ("sidecarPath", jstring "evidence/cp0/SG5_BROWSER_CAPABILITY.json.sha256"); ("requiredMarker", jstring "SG5_EVIDENCE_VALID");
    ("rawSecretsForbidden", jbool true)]);
  ("verdict", jobject [("pass", texts ["two independent clean Chromium contexts"; "production bundle lifecycle";
    "real browser SDK encryption"; "successful Sepolia transaction"; "readback"; "authorized and unauthorized decryption checks";
    "wrong-network refusal"; "zero critical browser errors"; "validated evidence"]);
    ("retry", jstring "preserve failed attempts; rerun complete set only"); ("final", jstring "SG5 CLOSED — VERIFIED")])].


(** [candidate.a.b] *)
Fixpoint member_path (value : option Json) (keys : list string) : result (option Json) :=
  match keys with [] => Ok value | key :: keys' => v ← member value key; member_path v keys' end.
(** [candidate.a.b !== text], [candidate.a.b !== true] *)
Definition member_differs (value : option Json) (keys : list string) (text : string) : result bool :=
  v ← member_path value keys; Ok (negb (equals_text v text)).
Definition member_not_true (value : option Json) (keys : list string) : result bool :=
  v ← member_path value keys; Ok (negb (match v with Some (jbool true) => true | _ => false end)).
(** [if (a || b || ...) throw new Error(message)] *)
Fixpoint throw_if_any (conditions : list (result bool)) (message : string) : result unit :=
  match conditions with
  | [] => Ok tt
  | condition :: conditions' => c ← condition; if (c : bool) then throw_new message else throw_if_any conditions' message
  end.

(** The scenarios: a value without a length of eleven, or without the named one. *)
Definition scenarios_drifted (scenarios : option Json) : result bool :=
  match scenarios with
  | None | Some jnull => type_error
  | Some (jarray items) =>
      Ok (negb (length items =? 11)%nat || negb (existsb (fun item => equals_text (Some item) "SG5-09_UNAUTHORIZED_ACCESS") items))
  | Some _ => Ok true
  end.

Definition validateProtocol (candidate : Json) : result unit :=
  let c := Some candidate in
  throw_if_any [member_differs c ["schema"] "zama-szn4.sg5-browser-capability-protocol.v2"] "SG5 protocol schema mismatch" ;;
  throw_if_any [member_differs c ["protocolVersion"] "sg5-browser-capability-v2"] "SG5 protocol version mismatch" ;;
  throw_if_any [member_differs c ["relationship"; "sg4"] "PASS_UNCHANGED"] "SG-4 relationship is not closed unchanged" ;;
  throw_if_any [member_differs c ["lockedProbe"; "chainId"] "11155111";
                member_differs c ["lockedProbe"; "contractAddress"] "0xfc672ca5846896A7A135943E79dd11283c38FE78";
                member_differs c ["lockedProbe"; "encryptedWidth"] "euint64"] "SG5 probe identity drifted" ;;
  throw_if_any [member_not_true c ["browserRequirements"; "productionBundleRequired"]; member_not_true c ["browserRequirements"; "cleanContext"]]
    "browser requirements weakened" ;;
  throw_if_any [member_not_true c ["assetOriginAuthority"; "dynamicAssetOriginsResolved"]] "asset origins unresolved" ;;
  publicKey ← member_path c ["assetOriginAuthority"; "publicKeyAssetOrigin"];
  crs ← member_path c ["assetOriginAuthority"; "crsAssetOrigin"];
  fail_if (negb (same_scalar publicKey crs)) "unexpected asset-origin drift" ;;
  scenarios ← member_path c ["scenarios"];
  throw_if_any [scenarios_drifted scenarios] "scenario set drifted" ;;
  throw_if_any [member_not_true c ["walletModel"; "frontendNeverReceivesPrivateKey"];
                member_not_true c ["productionSafety"; "productionPrizePoolUntouched"]] "security invariant weakened".

Definition deriveProtocol : result Json := validateProtocol protocol ;; Ok protocol.

(** [JSON.stringify(value, null, 2)], at a depth. *)
Fixpoint spaces (n : nat) : string := match n with O => "" | S n' => String " " (spaces n') end.
Definition line_break : string := String (ascii_of_nat 10) "".
Fixpoint lines (prefix : string) (parts : list string) : string :=
  match parts with
  | [] => ""
  | [part] => prefix +:+ part
  | part :: parts' => prefix +:+ part +:+ "," +:+ line_break +:+ lines prefix parts'
  end.
Fixpoint stringify_indented (depth : nat) (value : Json) : string :=
  match value with
  | jarray [] => "[]"
  | jobject [] => "{}"
  | jarray items =>
      "[" +:+ line_break +:+ lines (spaces (2 * S depth)) (map (stringify_indented (S depth)) items) +:+ line_break +:+ spaces (2 * depth) +:+ "]"
  | jobject fields =>
      "{" +:+ line_break +:+
      lines (spaces (2 * S depth)) (map (fun field => stringify_text field.1 +:+ ": " +:+ stringify_indented (S depth) field.2) fields) +:+
      line_break +:+ spaces (2 * depth) +:+ "}"
  | jnull => "null"
  | jbool b => if b then "true" else "false"
  | jnumber z => Z_toString z
  | jstring s => stringify_text s
  end.

Definition serializeProtocol (candidate : Json) : result string :=
  validateProtocol candidate ;; Ok (stringify_indented 0 candidate +:+ line_break).

(** The bytes of a text. *)
Definition text_bytes (s : string) : list Z := map (fun c => Z.of_nat (nat_of_ascii c)) (String.list_ascii_of_string s).

Definition protocolDigest `{Sha256} (candidate : Json) : result string :=
  text ← serializeProtocol candidate; Ok (sha256 (text_bytes text)).

(** What the script prints, without the end of the line. *)
Definition printed `{Sha256} : result Json :=
  value ← deriveProtocol; digest ← protocolDigest value;
  Ok (jobject [("protocol", value); ("protocolSha256", jstring digest)]).

(** * Properties *)
Lemma printed_Ok `{Sha256} : exists digest, printed = Ok (jobject [("protocol", protocol); ("protocolSha256", jstring digest)]).
Proof. eexists. reflexivity. Qed.
