(* ===== verification/Sg5Launcher.v ===== *)
(** * The launcher of the browser gate: scripts/sg5-launcher.cjs

    What is checked before anything is started, the private directory of a run, and the
    order of a run.  The processes themselves are in Sg5Process.v.  The theorems: the live
    mode cannot be reached while the protocol registers its blockers; only a directory of
    the launcher's own is deleted, and only after everything it started is gone; a run
    that passes has cleaned up. *)
From Stdlib Require Import ZArith Lia Ascii.
From stdpp Require Import base option list sets strings.
From S2P Require Import Prelude HcuJson HcuAbi HcuPlan HcuTransport HcuBytecode Sg5Process Sg5Plan.
Local Open Scope Z_scope.

Definition TRUSTED_ROOT : string := "/home/dell/zama-szn4".
Definition LIVE_ACK : string := "I_UNDERSTAND_THIS_CONTACTS_SEPOLIA".
Definition MAX_PROTOCOL_BYTES : Z := 64 * 1024.

(** ** The file system *)
Record LinkStatus := { ls_isSymbolicLink : bool; ls_isFile : bool; ls_isDirectory : bool; ls_mode : option Z }.
(** The time of the last change is in microseconds. *)
Record FileStatus := { fl_isFile : bool; fl_dev : Z; fl_ino : Z; fl_size : Z; fl_mtimeMicros : Z }.
Record DirFs := {
  df_lstat : string -> result LinkStatus; df_realpath : string -> result string; df_stat : string -> result FileStatus;
  df_access : string -> result unit
}.

Record RootSnapshot := { rt_derivedRoot : string; rt_cwd : string; rt_gitRoot : string; rt_rootIsSymlink : bool }.
Definition validateTrustedRootSnapshot (snapshot : RootSnapshot) : result unit :=
  fail_if (negb (bool_decide (rt_derivedRoot snapshot = TRUSTED_ROOT)) || negb (bool_decide (rt_cwd snapshot = TRUSTED_ROOT)) ||
           negb (bool_decide (rt_gitRoot snapshot = TRUSTED_ROOT)) || rt_rootIsSymlink snapshot)
    "launcher must run from the nonsymlinked trusted repository root".

(** [git(...args)]: the trimmed output, or a throw. *)
Definition Git : Type := list string -> result string.

Definition assertTrustedRoot (fs : DirFs) (git : Git) (root cwd : string) : result unit :=
  cwd ← df_realpath fs cwd;
  toplevel ← git ["rev-parse"; "--show-toplevel"];
  gitRoot ← df_realpath fs toplevel;
  link ← df_lstat fs TRUSTED_ROOT;
  validateTrustedRootSnapshot {| rt_derivedRoot := root; rt_cwd := cwd; rt_gitRoot := gitRoot; rt_rootIsSymlink := ls_isSymbolicLink link |} ;;
  let script := root +:+ "/scripts/sg5-protocol.ts" in
  script_link ← df_lstat fs script;
  if ls_isSymbolicLink script_link then throw_new "protocol generator must be the trusted nonsymlinked repository file"
  else
    real ← df_realpath fs script;
    fail_if (negb (bool_decide (real = script))) "protocol generator must be the trusted nonsymlinked repository file".

(** ** Browsers *)
Record Selection := {
  sl_path : string; sl_classification : string; sl_device : string; sl_inode : string; sl_size : string;
  sl_modifiedMilliseconds : string
}.
#[export] Instance Selection_eq_dec : EqDecision Selection.
Proof. solve_decision. Defined.

Definition isAbsolute (path : string) : bool := startsWith "/" path.

Definition validateBrowserCandidate (fs : DirFs) (path classification : string) : result Selection :=
  fail_if (negb (isAbsolute path)) "browser path must be absolute" ;;
  link ← df_lstat fs path;
  fail_if (ls_isSymbolicLink link || negb (ls_isFile link)) "browser must be a nonsymlinked regular file" ;;
  canonicalPath ← df_realpath fs path;
  fail_if (negb (bool_decide (canonicalPath = path))) "browser path must already be canonical" ;;
  status ← df_stat fs canonicalPath;
  fail_if (negb (fl_isFile status)) "browser target must remain a regular file" ;;
  df_access fs canonicalPath ;;
  Ok {| sl_path := canonicalPath; sl_classification := classification; sl_device := Z_toString (fl_dev status);
        sl_inode := Z_toString (fl_ino status); sl_size := Z_toString (fl_size status);
        sl_modifiedMilliseconds := Z_toString (Z.quot (fl_mtimeMicros status) 1000) |}.

Definition revalidateBrowserSelection (fs : DirFs) (selection : Selection) : result Selection :=
  current ← validateBrowserCandidate fs (sl_path selection) (sl_classification selection);
  fail_if (negb (bool_decide (current = selection))) "selected browser changed after discovery" ;;
  Ok current.

Fixpoint discoverBrowser (fs : DirFs) (candidates : list (string * string)) : option Selection :=
  match candidates with
  | [] => None
  | (path, classification) :: candidates' =>
      if negb (string_nonempty path) then discoverBrowser fs candidates'
      else match validateBrowserCandidate fs path classification with
           | Ok selection => Some selection
           | Throw _ => discoverBrowser fs candidates'
           end
  end.

Definition SYSTEM_BROWSER_CANDIDATES : list (string * string) := [
  ("/usr/bin/chromium", "SYSTEM_CHROMIUM"); ("/usr/bin/chromium-browser", "SYSTEM_CHROMIUM");
  ("/usr/bin/google-chrome", "SYSTEM_CHROME"); ("/usr/bin/google-chrome-stable", "SYSTEM_CHROME");
  ("/opt/google/chrome/chrome", "SYSTEM_CHROME")].

(** What loading the package gives: a throw, a value without the method, or the method,
    which returns a path ([None] is undefined) or throws. *)
Definition PlaywrightLoad : Type := result (option (result (option string))).
Definition resolvePlaywrightApi (load : PlaywrightLoad) : string * option (result (option string)) :=
  match load with
  | Ok (Some executablePath) => ("PLAYWRIGHT_API_AVAILABLE", Some executablePath)
  | _ => ("PLAYWRIGHT_API_UNAVAILABLE", None)
  end.

Record Availability := {
  av_playwrightApi : string; av_managedBrowser : string; av_availability : string; av_selection : option Selection
}.

Definition managed_browser (fs : DirFs) (load : PlaywrightLoad) : option Selection :=
  match (resolvePlaywrightApi load).2 with
  | Some (Ok (Some path)) =>
      if string_nonempty path then
        match validateBrowserCandidate fs path "PLAYWRIGHT_MANAGED" with Ok selection => Some selection | Throw _ => None end
      else None
  | _ => None
  end.

Definition inspectBrowserAvailability (fs : DirFs) (load : PlaywrightLoad) (systemCandidates : list (string * string)) : Availability :=
  let api := (resolvePlaywrightApi load).1 in
  match managed_browser fs load with
  | Some selection =>
      {| av_playwrightApi := "PLAYWRIGHT_API_AVAILABLE"; av_managedBrowser := "MANAGED_BROWSER_AVAILABLE";
         av_availability := "MANAGED_BROWSER_AVAILABLE"; av_selection := Some selection |}
  | None =>
      match discoverBrowser fs systemCandidates with
      | Some system =>
          {| av_playwrightApi := api; av_managedBrowser := "MANAGED_BROWSER_NOT_INSTALLED";
             av_availability := "SYSTEM_BROWSER_AVAILABLE"; av_selection := Some system |}
      | None =>
          {| av_playwrightApi := api; av_managedBrowser := "MANAGED_BROWSER_NOT_INSTALLED";
             av_availability := if bool_decide (api = "PLAYWRIGHT_API_AVAILABLE") then "MANAGED_BROWSER_NOT_INSTALLED"
                                else "PLAYWRIGHT_API_UNAVAILABLE";
             av_selection := None |}
      end
  end.

(** ** The environment *)
(** The characters up to the end of the line. *)
Fixpoint first_line (s : string) : string :=
  match s with
  | String c s' => if Ascii.eqb c newline_char || Ascii.eqb c (ascii_of_nat 13) then "" else String c (first_line s')
  | EmptyString => ""
  end.
(** [/RPC.*(URL|KEY)/] on a text in capitals. *)
Fixpoint rpc_url_or_key (s : string) : bool :=
  match s with
  | String _ s' =>
      (startsWith "RPC" s && (let rest := first_line (slice_from 3 s) in includes "URL" rest || includes "KEY" rest)) || rpc_url_or_key s'
  | EmptyString => false
  end.
Definition to_upper (c : ascii) : ascii :=
  let n := nat_of_ascii c in if ((97 <=? n) && (n <=? 122))%nat then ascii_of_nat (n - 32) else c.
Fixpoint toUpperCase (s : string) : string := match s with String c s' => String (to_upper c) (toUpperCase s') | EmptyString => "" end.
Definition SUSPICIOUS_ENV_KEY (key : string) : bool :=
  let name := toUpperCase key in
  existsb (fun word => includes word name) ["PRIVATE"; "SECRET"; "MNEMONIC"; "SEED"; "WALLET"; "AUTH"; "TOKEN"; "CREDENTIAL"] ||
  rpc_url_or_key name.

Definition assertNoCredentialEnvironment (env_names : list string) : result unit :=
  fail_if (existsb SUSPICIOUS_ENV_KEY env_names) "credential-bearing environment variable names must be removed".

(** The names in the root and in the frontend. *)
Definition assertNoLocalEnvironmentFiles (directories : list (list string)) : result unit :=
  fail_if (existsb (existsb (fun name => bool_decide (name = ".env") || startsWith ".env." name)) directories)
    "local environment files must be removed from the SG-5 launcher scope".

(** ** The protocol *)
(** [value === flag] *)
Definition equals_flag (value : option Json) (flag : bool) : bool := match value with Some (jbool b) => eqb b flag | _ => false end.
Definition equals_null (value : option Json) : bool := match value with Some jnull => true | _ => false end.
(** [value?.a?.b] *)
Definition at_path (value : option Json) (keys : list string) : option Json := fold_left optional_member keys value.
(** Some text at a path is not the expected one. *)
Definition text_differs (value : option Json) (expected : list (list string * string)) : bool :=
  existsb (fun entry => negb (equals_text (at_path value entry.1) entry.2)) expected.
Definition flag_differs (value : option Json) (expected : list (list string * bool)) : bool :=
  existsb (fun entry => negb (equals_flag (at_path value entry.1) entry.2)) expected.

(** [value?.join(",") !== text]: only a list has the method. *)
Definition join_differs (value : option Json) (text : string) : result bool :=
  match value with
  | None | Some jnull => Ok true
  | Some (jarray items) =>
      Ok (negb (bool_decide (commas (map (fun item => match item with jnull => "" | _ => Json_toString item end) items) = text)))
  | Some _ => type_error
  end.
(** [a || b] when [b] may throw. *)
Definition or_else (a : bool) (b : result bool) : result bool := if a then Ok true else b.

(** [list.includes(text)] on a list. *)
Definition list_includes (value : option Json) (text : string) : bool :=
  match value with Some (jarray items) => existsb (fun item => equals_text (Some item) text) items | _ => false end.

Definition locked_probe : list (list string * string) := [
  (["contractAddress"], "0x332C58e28Bb31c902ddd370265eBBF1030299bC7"); (["userAddress"], "0x57357D26D1f56eca4556d271078A0239a7696Bbf");
  (["plaintextClassification"], "FIXED_TEST_VALUE_ONE"); (["fixedPlaintext"], "1"); (["encryptedWidth"], "euint64");
  (["sdkEncryptionMethod"], "ZamaSDK.encrypt"); (["sdkTypedValue"; "type"], "euint64"); (["sdkTypedValue"; "value"], "1");
  (["requiredColdContexts"], "2")].
Definition FORBIDDEN_ACTIONS : list string := [
  "wallet connection"; "eth_requestAccounts"; "signMessage"; "signTypedData"; "signature request"; "eth_sendTransaction";
  "sendTransaction"; "writeContract"; "transaction submission"].

Definition check_network_policy (protocol : option Json) : result bool :=
  let policy := optional_member protocol "networkPolicy" in
  let redirect := optional_member policy "redirectObservationSemantics" in
  categories ← join_differs (optional_member policy "requestCategories")
    "LOCAL_FRONTEND_ASSET,SEPOLIA_RPC,RELAYER_KEYURL_METADATA,PUBLIC_KEY_ASSET,CRS_ASSET";
  Ok (categories ||
      flag_differs policy [(["passRequiresCommittedExactAssetOrigins"], true); (["runtimeKeyurlResponseCannotExpandAllowlist"], true)] ||
      text_differs redirect [(["originalResponseTargetRelationship"], "REQUEST_REDIRECTED_TO"); (["requiredTerminalStatus"], "SUCCESS_2XX")] ||
      flag_differs redirect [(["permittedTransitionIsTerminalProof"], false); (["missingRedirectTargetFails"], true);
                             (["forbiddenRedirectFails"], true)]).

Definition check_runtime_safety (protocol : option Json) : result bool :=
  let ownership := at_path protocol ["liveExecution"; "frontendOwnership"] in
  let cleanup := at_path protocol ["liveExecution"; "cleanup"] in
  let discovery := at_path protocol ["browserRequirements"; "executableDiscovery"] in
  or_else
    (flag_differs ownership [(["spawnedListenerPidOrVerifiedDescendantRequired"], true); (["leaderAbsenceAloneProvesExit"], false);
                             (["survivingProcessGroupMembersEnumerated"], true);
                             (["verifiedDescendantsAndPortOwnerCheckedAfterLeaderExit"], true)])
    (results ← join_differs (optional_member ownership "cleanupResultClassifications")
       "ALREADY_EXITED,TERMINATED_GRACEFULLY,TERMINATED_FORCIBLY,OWNERSHIP_LOST,PID_REUSE_DETECTED,AMBIGUOUS_PROCESS_GROUP";
     Ok (results ||
         flag_differs ownership [(["pidAndStartTimeRevalidatedBeforeEverySignal"], true)] ||
         text_differs ownership [(["gracefulSignal"], "SIGTERM"); (["boundedEscalationSignal"], "SIGKILL")] ||
         flag_differs cleanup [(["containmentRevalidatedBeforeDeletion"], true); (["unresolvedOwnershipRetainsPrivateRunDirectory"], true);
                               (["privateRunDirectoryDeletionRequiresVerifiedExitOrTermination"], true)] ||
         flag_differs protocol [(["wasmProof"; "concurrentInstallationForbidden"], true)] ||
         flag_differs discovery [(["regularFileRequired"], true)] ||
         text_differs discovery [(["playwrightResolutionContext"], "FRONTEND_INSTALLED_@PLAYWRIGHT_TEST");
                                 (["playwrightResolutionMechanism"], "CREATE_REQUIRE_FROM_FRONTEND_PACKAGE_JSON");
                                 (["managedExecutableMethod"], "chromium.executablePath")] ||
         flag_differs discovery [(["apiAvailabilityDistinctFromManagedExecutableInstallation"], true)])).

Definition validateGeneratedProtocol (value : Json) : result unit :=
  fail_if (negb (isObject value)) "protocol JSON object required" ;;
  let protocol := Some value in
  let locked := optional_member protocol "lockedProbe" in
  let live := optional_member protocol "liveExecution" in
  let forbidden := optional_member protocol "forbiddenActions" in
  fail_if (text_differs protocol [(["schema"], "zama-szn4.sg5-browser-capability-protocol.v1")]) "protocol schema mismatch" ;;
  fail_if (text_differs protocol [(["protocolVersion"], "sg5-browser-capability-v1")]) "protocol version mismatch" ;;
  fail_if (text_differs protocol [(["preparationStatus"], "PREPARED_LIVE_BROWSER_EXECUTION_REQUIRED"); (["gateStatus"], "PENDING")])
    "protocol must remain non-PASS and PENDING" ;;
  fail_if (text_differs locked [(["chainId"], "11155111")] ||
           text_differs protocol [(["installedSepoliaConfiguration"; "gatewayChainId"], "10901")] || text_differs locked locked_probe)
    "locked SG-5 probe values mismatch" ;;
  fail_if (text_differs live [(["acknowledgment"; "exactValue"], LIVE_ACK)]) "protocol acknowledgment mismatch" ;;
  fail_if (text_differs protocol [(["publicKeyProof"; "assetOriginsStatus"], "UNRESOLVED_FROM_INSTALLED_LOCAL_SOURCE")])
    "protocol public-key origin authority mismatch" ;;
  let proof := optional_member protocol "publicKeyProof" in
  fail_if (flag_differs proof [(["dynamicAssetOriginsResolved"], false)] || negb (equals_null (optional_member proof "publicKeyAssetOrigin")) ||
           negb (equals_null (optional_member proof "crsAssetOrigin")) ||
           flag_differs (at_path protocol ["resultSchema"; "aggregate"])
             [(["passRequiresResolvedCommittedAssetOrigins"], true);
              (["passRequiresCompleteKeyurlPublicKeyCrsAndRpcProofPerContext"], true)])
    "protocol dynamic asset proof authority mismatch" ;;
  network ← check_network_policy protocol;
  fail_if network "protocol network proof model mismatch" ;;
  runtime ← check_runtime_safety protocol;
  fail_if runtime "protocol launcher/runtime safety model mismatch" ;;
  let blockedUntil := optional_member live "blockedUntil" in
  fail_if (negb (list_includes blockedUntil "EXACT_PUBLIC_KEY_ASSET_ORIGIN") || negb (list_includes blockedUntil "EXACT_CRS_ASSET_ORIGIN"))
    "dynamic key and CRS origin blockers must remain registered" ;;
  fail_if (existsb (fun action => negb (list_includes forbidden action)) FORBIDDEN_ACTIONS) "authority prohibitions mismatch".

(** What running the generator gives: [error] is set when it could not be run. *)
Record ExecResult := { ex_error : bool; ex_status : option Z; ex_stdout : string; ex_stderr : string }.

Definition generateAndVerifyProtocol `{JsonParser, Sha256} (expectedDigest : string) (run : ExecResult) : result (string * Json) :=
  fail_if (negb (lower_hex 64 expectedDigest)) "expected protocol SHA-256 is invalid" ;;
  fail_if (ex_error run || negb (bool_decide (ex_status run = Some 0))) "deterministic protocol generation failed" ;;
  fail_if (string_nonempty (ex_stderr run)) "deterministic protocol generator wrote unexpected stderr" ;;
  fail_if (MAX_PROTOCOL_BYTES <? Z.of_nat (String.length (ex_stdout run))) "deterministic protocol exceeds size limit" ;;
  protocol ← match parse_JSON (ex_stdout run) with
             | Some protocol => Ok protocol
             | None => throw_new "deterministic protocol output is malformed JSON"
             end;
  validateGeneratedProtocol protocol ;;
  let actualDigest := sha256 (text_bytes (ex_stdout run)) in
  fail_if (negb (bool_decide (actualDigest = expectedDigest))) "deterministic protocol digest mismatch" ;;
  Ok (actualDigest, protocol).

Record GitSnapshot := { gs_branch : string; gs_commit : string; gs_tree : string; gs_status : string }.
Definition validateGitIdentity (snapshot : GitSnapshot) (commit tree : string) : result unit :=
  fail_if (negb (bool_decide (gs_branch snapshot = "main"))) "live execution requires branch main" ;;
  fail_if (negb (bool_decide (gs_commit snapshot = commit))) "preparation commit mismatch" ;;
  fail_if (negb (bool_decide (gs_tree snapshot = tree))) "preparation tree mismatch" ;;
  fail_if (string_nonempty (gs_status snapshot)) "live execution requires no staged, tracked, or untracked changes".

Definition validateLiveAcknowledgment (value : option string) : result unit :=
  fail_if (negb (bool_decide (value = Some LIVE_ACK))) "exact live acknowledgment is required".

Definition assertLiveBlockersResolved (protocol : Json) : result unit :=
  live ← member (Some protocol) "liveExecution";
  blocked ← member live "blockedUntil";
  match blocked with
  | Some (jarray _) =>
      fail_if (list_includes blocked "EXACT_PUBLIC_KEY_ASSET_ORIGIN")
        "exact public-key and CRS asset origins remain unresolved; reopen SG-5 before live execution"
  | Some (jstring text) =>
      fail_if (includes "EXACT_PUBLIC_KEY_ASSET_ORIGIN" text)
        "exact public-key and CRS asset origins remain unresolved; reopen SG-5 before live execution"
  | _ => type_error
  end.

(** ** The private directory *)
Definition RUN_DIRECTORY_PREFIX : string := "zama-szn4-sg5-".
Record RunDirectory := { rd_directory : string; rd_directoryRealpath : string; rd_parentRealpath : string; rd_prefix : string }.

(** [path.basename], [path.dirname] of a path that does not end in a slash. *)
Definition basename (path : string) : string :=
  match lastIndexOf "/" path with Some n => slice_from (S n) path | None => path end.
Definition dirname (path : string) : string :=
  match lastIndexOf "/" path with
  | Some O => "/"
  | Some (S O) => if startsWith "/" path then "//" else slice0 1 path
  | Some n => slice0 n path
  | None => "."
  end.
(** [join(parent, name)] for a canonical parent. *)
Definition join_path (parent name : string) : string := if bool_decide (parent = "/") then "/" +:+ name else parent +:+ "/" +:+ name.

Definition private_mode (link : LinkStatus) : bool :=
  match ls_mode link with Some mode => Z.land mode 511 =? 448 | None => false end.

(** [mkdtemp] appends six characters to its argument; [fs] is the file system after
    [chmod]. *)
Definition createPrivateRunDirectory (fs : DirFs) (mkdtemp : string -> result string) (chmod : string -> result unit) (temporaryRoot : string)
    : result RunDirectory :=
  parentRealpath ← df_realpath fs temporaryRoot;
  directory ← mkdtemp (join_path parentRealpath RUN_DIRECTORY_PREFIX);
  chmod directory ;;
  link ← df_lstat fs directory;
  fail_if (ls_isSymbolicLink link || negb (ls_isDirectory link)) "private run path is not a directory" ;;
  fail_if (negb (private_mode link)) "private run directory mode is not 0700" ;;
  directoryRealpath ← df_realpath fs directory;
  fail_if (negb (bool_decide (dirname directoryRealpath = parentRealpath)) ||
           negb (startsWith RUN_DIRECTORY_PREFIX (basename directoryRealpath)))
    "private run directory escaped its trusted parent" ;;
  Ok {| rd_directory := directory; rd_directoryRealpath := directoryRealpath; rd_parentRealpath := parentRealpath;
        rd_prefix := RUN_DIRECTORY_PREFIX |}.

Section cleaning.
Context `{PidMax} (install : Install).
Variables (tmpdir : string) (world : nat -> ProcFs) (files : nat -> DirFs).

Definition dangerous_targets (record : RunDirectory) : list string :=
  ["/"; rd_parentRealpath record; tmpdir; in_root install; TRUSTED_ROOT].

Definition validatePrivateRunDirectory (record : RunDirectory) (fs : DirFs) : result string :=
  fail_if (bool_decide (rd_directory record ∈ dangerous_targets record) || bool_decide (rd_directoryRealpath record ∈ dangerous_targets record))
    "refusing dangerous temporary-directory target" ;;
  parent ← df_realpath fs (rd_parentRealpath record);
  fail_if (negb (bool_decide (parent = rd_parentRealpath record))) "temporary parent realpath changed" ;;
  link ← df_lstat fs (rd_directory record);
  fail_if (ls_isSymbolicLink link || negb (ls_isDirectory link)) "temporary run directory was substituted" ;;
  fail_if (bool_decide (is_Some (ls_mode link)) && negb (private_mode link)) "temporary run directory permissions changed" ;;
  currentRealpath ← df_realpath fs (rd_directory record);
  fail_if (negb (bool_decide (currentRealpath = rd_directoryRealpath record)) ||
           negb (bool_decide (dirname currentRealpath = rd_parentRealpath record)) ||
           negb (startsWith (rd_prefix record) (basename currentRealpath)) ||
           bool_decide (basename currentRealpath = rd_prefix record))
    "temporary run directory containment failed" ;;
  Ok currentRealpath.

(** ** Cleaning up *)
(** What the controller holds: the groups, the directory, the one cleanup that was made;
    and what was done: moments passed, signals, directories deleted. *)
Record Resources := {
  rs_groups : list Group; rs_runDirectory : option RunDirectory; rs_cleanup : option (result unit);
  rs_clock : nat; rs_sent : list Sent; rs_removed : list string
}.

Variables (signal_fails : nat -> bool) (term_polls kill_polls : nat).
(** Whether the deletion throws. *)
Variable rm_fails : bool.

(** Ends one group; whether that succeeded. *)
Definition clean_group (group : Group) : method Resources bool := fun s =>
  let '(r, run) := terminateOwnedProcessGroup install world signal_fails term_polls kill_polls
                     {| ru_clock := rs_clock s; ru_group := group; ru_sent := [] |} in
  (Ok (match r with Ok classification => successful_cleanup classification | Throw _ => false end),
   {| rs_groups := rs_groups s; rs_runDirectory := rs_runDirectory s; rs_cleanup := rs_cleanup s; rs_clock := ru_clock run;
      rs_sent := rs_sent s ++ ru_sent run; rs_removed := rs_removed s |}).

(** Ends the groups in order; whether all of that succeeded. *)
Fixpoint clean_groups (groups : list Group) : method Resources bool :=
  match groups with
  | [] => mret true
  | group :: groups' => ended ← clean_group group; rest ← clean_groups groups'; mret (ended && rest)
  end.

Definition removePrivateRunDirectory (record : RunDirectory) : method Resources unit :=
  s ← get;
  verified ← lift (validatePrivateRunDirectory record (files (rs_clock s)));
  put {| rs_groups := rs_groups s; rs_runDirectory := rs_runDirectory s; rs_cleanup := rs_cleanup s; rs_clock := rs_clock s;
         rs_sent := rs_sent s; rs_removed := rs_removed s ++ [verified] |} ;;
  throw_if rm_fails "rm failed".

Definition clean_all : method Resources unit :=
  groups ← gets rs_groups;
  ended ← clean_groups (rev groups);
  record ← gets rs_runDirectory;
  removed ← match record with
            | Some record => if ended then try_catch (removePrivateRunDirectory record ;; mret true) (fun _ => mret false) else mret true
            | None => mret true
            end;
  throw_if (negb (ended && removed)) "one or more SG-5 cleanup operations remain unresolved; private diagnostics retained".

(** [cleanup()] of the controller: the first call cleans, every call gives its outcome. *)
Definition cleanup : method Resources unit := fun s =>
  match rs_cleanup s with
  | Some outcome => (outcome, s)
  | None =>
      let '(outcome, s') := clean_all s in
      (outcome, {| rs_groups := rs_groups s'; rs_runDirectory := rs_runDirectory s'; rs_cleanup := Some outcome; rs_clock := rs_clock s';
                   rs_sent := rs_sent s'; rs_removed := rs_removed s' |})
  end.
End cleaning.

(** ** Events of the process *)
(** What the handlers of [createLifecycleHandlers] do: [Dispatch] is an event that
    reaches them, [Cleaned] the end of the cleanup that the first one awaits. *)
Inductive LifecycleInput : Type := Dispatch (event : string) | Cleaned.
Inductive LifecycleEffect : Type := StartCleanup | RemoveHandlers | KillSelf (event : string) | Exit (code : Z).
Record Lifecycle := { lc_handling : option string; lc_done : bool; lc_effects : list LifecycleEffect }.
Definition SIGNALS : list string := ["SIGINT"; "SIGTERM"; "SIGHUP"].

Definition lifecycle_step (input : LifecycleInput) (s : Lifecycle) : Lifecycle :=
  match input, lc_handling s with
  | Dispatch _, Some _ => s
  | Dispatch event, None => {| lc_handling := Some event; lc_done := lc_done s; lc_effects := lc_effects s ++ [StartCleanup] |}
  | Cleaned, Some event =>
      if lc_done s then s
      else {| lc_handling := Some event; lc_done := true;
              lc_effects := lc_effects s ++ [RemoveHandlers; if bool_decide (event ∈ SIGNALS) then KillSelf event else Exit 1] |}
  | Cleaned, None => s
  end.
Definition initial_lifecycle : Lifecycle := {| lc_handling := None; lc_done := false; lc_effects := [] |}.

(** ** A run *)
(** What the steps of a run give, in the order of the code. *)
Record Session := {
  ss_trusted : result unit; ss_env : list string; ss_directories : list (list string); ss_availability : Availability;
  ss_ack : option string; ss_args : list string; ss_generator : ExecResult; ss_git : Git; ss_evidence : bool;
  ss_port_available : bool; ss_directory : result RunDirectory; ss_home : result unit; ss_capture : GroupKind -> result Group;
  ss_discarded : result unit; ss_ready : result unit; ss_revalidated : result Selection;
  ss_status : result (option Z * option string); ss_cleaned : result unit
}.

Inductive LaunchEvent : Type :=
| Spawned (kind : GroupKind) | Discarded | Registered (kind : GroupKind) | HandlersInstalled | Printed (passed : bool)
| CleanedUp | HandlersRemoved.
Definition emitted : Type := list LaunchEvent.
Definition emit (event : LaunchEvent) : method emitted unit := modify (fun events => events ++ [event]).

Section run.
Context `{JsonParser, Sha256} (session : Session).

Definition live_checks : result unit :=
  validateLiveAcknowledgment (ss_ack session) ;;
  let argument n := default "" (ss_args session !! n) in
  fail_if (negb (lower_hex 40 (argument 0%nat)) || negb (lower_hex 40 (argument 1%nat)))
    "live mode requires explicit expected preparation commit and tree arguments" ;;
  verified ← generateAndVerifyProtocol (argument 2%nat) (ss_generator session);
  branch ← ss_git session ["branch"; "--show-current"];
  commit ← ss_git session ["rev-parse"; "HEAD"];
  tree ← ss_git session ["rev-parse"; "HEAD^{tree}"];
  status ← ss_git session ["status"; "--porcelain"; "--untracked-files=all"];
  validateGitIdentity {| gs_branch := branch; gs_commit := commit; gs_tree := tree; gs_status := status |} (argument 0%nat) (argument 1%nat) ;;
  fail_if (ss_evidence session) "SG-5 evidence or sidecar already exists; reviewed rerun authorization is required" ;;
  assertLiveBlockersResolved verified.2.

(** The part of the run in the [try] block. *)
Definition run_suite : method emitted unit :=
  lift (ss_ready session) ;;
  lift (ss_revalidated session) ;;
  emit (Spawned PLAYWRIGHT) ;;
  lift (ss_capture session PLAYWRIGHT) ;;
  emit (Registered PLAYWRIGHT) ;;
  status ← lift (ss_status session);
  let passed := bool_decide (status.1 = Some 0) && bool_decide (status.2 = None) in
  emit (Printed passed) ;;
  throw_if (negb passed) "sanitized Playwright suite failed".

(** Everything before the frontend is started. *)
Definition prepare_run (live : bool) : result unit :=
  ss_trusted session ;;
  assertNoCredentialEnvironment (ss_env session) ;;
  assertNoLocalEnvironmentFiles (ss_directories session) ;;
  fail_if (bool_decide (av_selection (ss_availability session) = None))
    "no existing Playwright Chromium or system Chromium browser is available" ;;
  (if live then live_checks else Ok tt) ;;
  fail_if (negb (ss_port_available session)) "port 3000 is occupied; the launcher never terminates pre-existing processes" ;;
  ss_directory session ;;
  ss_home session.

(** The frontend is not registered when it cannot be captured. *)
Definition start_frontend : method emitted unit :=
  emit (Spawned FRONTEND) ;;
  try_catch (lift (ss_capture session FRONTEND) ;; mret tt) (fun error => emit Discarded ;; lift (ss_discarded session) ;; throw_in error) ;;
  emit (Registered FRONTEND) ;;
  emit HandlersInstalled.

Definition runBrowserMode (live : bool) : method emitted unit :=
  lift (prepare_run live) ;;
  start_frontend ;;
  try_finally run_suite (try_finally (emit CleanedUp ;; lift (ss_cleaned session)) (emit HandlersRemoved)).

Definition main (arguments : list string) : method emitted unit :=
  let mode := match arguments with mode :: _ => if string_nonempty mode then mode else "preflight" | [] => "preflight" end in
  lift (ss_trusted session) ;;
  if bool_decide (mode = "preflight") then mret tt
  else if bool_decide (mode = "structural") then runBrowserMode false
  else if bool_decide (mode = "live") then runBrowserMode true
  else throw_in (new_Error "mode must be preflight, structural, or live").
End run.

Definition preflight_status (availability : Availability) : string :=
  match av_selection availability with Some _ => "READY" | None => "BLOCKED_NO_BROWSER" end.

(** * Properties *)

(** ** Browsers *)
(** The checks of a browser, at one state of the files. *)
Definition usable_browser (fs : DirFs) (selection : Selection) : Prop :=
  isAbsolute (sl_path selection) = true /\ df_realpath fs (sl_path selection) = Ok (sl_path selection) /\
  df_access fs (sl_path selection) = Ok tt /\
  (exists link, df_lstat fs (sl_path selection) = Ok link /\ ls_isSymbolicLink link = false /\ ls_isFile link = true) /\
  exists status, df_stat fs (sl_path selection) = Ok status /\ fl_isFile status = true.

Lemma validateBrowserCandidate_usable fs path classification selection :
  validateBrowserCandidate fs path classification = Ok selection ->
  usable_browser fs selection /\ sl_path selection = path /\ sl_classification selection = classification.
Proof.
  unfold validateBrowserCandidate. intros E. apply result_bind_Ok in E as (? & Ha%fail_if_Ok & E).
  apply result_bind_Ok in E as (link & El & E). apply result_bind_Ok in E as (? & Hl%fail_if_Ok & E).
  apply result_bind_Ok in E as (real & Er & E). apply result_bind_Ok in E as (? & Hr%fail_if_Ok & E).
  apply result_bind_Ok in E as (status & Es & E). apply result_bind_Ok in E as (? & Hs%fail_if_Ok & E).
  apply result_bind_Ok in E as ([] & Hx & E). injection E as <-. bool_to_prop. subst real. cbn.
  split; [|done]. unfold usable_browser. cbn. bool_to_prop. split_and!; eauto.
Qed.

Lemma discoverBrowser_some fs candidates selection :
  discoverBrowser fs candidates = Some selection ->
  validateBrowserCandidate fs (sl_path selection) (sl_classification selection) = Ok selection.
Proof.
  induction candidates as [|[path classification] candidates IH]; cbn [discoverBrowser]; [done|].
  destruct (negb _); [done|]. destruct (validateBrowserCandidate fs path classification) as [found|] eqn:E; [|done].
  intros [= <-]. by destruct (validateBrowserCandidate_usable _ _ _ _ E) as (_ & -> & ->).
Qed.

(** the browser that is started is there and can run.  Whatever browser the launcher
    selects is a canonical, absolute path of an executable regular file, and checking it
    again on the same files gives the same selection. *)
Theorem selected_browser_usable fs load candidates selection :
  av_selection (inspectBrowserAvailability fs load candidates) = Some selection ->
  usable_browser fs selection /\ revalidateBrowserSelection fs selection = Ok selection.
Proof.
  assert (Hv : forall selection, validateBrowserCandidate fs (sl_path selection) (sl_classification selection) = Ok selection ->
            usable_browser fs selection /\ revalidateBrowserSelection fs selection = Ok selection).
  { clear. intros selection E. split; [by apply validateBrowserCandidate_usable in E as [? _]|].
    unfold revalidateBrowserSelection. rewrite E. cbn. by rewrite bool_decide_eq_true_2. }
  unfold inspectBrowserAvailability, managed_browser. destruct (resolvePlaywrightApi load) as [api path]. cbn [fst snd].
  destruct path as [[[path|]|]|]; [destruct (string_nonempty path); [destruct (validateBrowserCandidate fs path _) as [found|] eqn:E|]|..];
    try (destruct (discoverBrowser fs candidates) eqn:Ed; cbn; [intros [= <-]; apply Hv; by apply discoverBrowser_some in Ed|done]).
  cbn. intros [= <-]. apply Hv. by destruct (validateBrowserCandidate_usable _ _ _ _ E) as (_ & -> & ->).
Qed.

(** ** The live mode *)
Lemma validated_protocol_blocks protocol :
  validateGeneratedProtocol protocol = Ok tt -> is_ok (assertLiveBlockersResolved protocol) = false.
Proof.
  unfold validateGeneratedProtocol. intros E. apply result_bind_Ok in E as (? & Ho%fail_if_Ok & E). apply negb_false_iff in Ho.
  do 11 (apply result_bind_Ok in E as (? & _ & E)). apply result_bind_Ok in E as (? & Hb%fail_if_Ok & _).
  apply orb_false_iff in Hb as [Hb _]. apply negb_false_iff in Hb.
  destruct protocol as [| | | | |fields]; try done. unfold assertLiveBlockersResolved. cbn [member mbind result_bind optional_member option_bind] in *.
  destruct (json_field (jobject fields) "liveExecution") as [live|]; [|done]. cbn [mbind option_bind] in Hb.
  destruct (json_field live "blockedUntil") as [[| | | |items|]|] eqn:Eb; try done.
  destruct live; try done. cbn [member mbind result_bind]. rewrite Eb. cbn [mbind result_bind]. by rewrite Hb.
Qed.

Lemma generateAndVerifyProtocol_validates `{JsonParser, Sha256} digest run verified :
  generateAndVerifyProtocol digest run = Ok verified -> validateGeneratedProtocol verified.2 = Ok tt.
Proof.
  unfold generateAndVerifyProtocol. intros E. do 4 (apply result_bind_Ok in E as (? & _ & E)).
  apply result_bind_Ok in E as (protocol & _ & E). apply result_bind_Ok in E as ([] & Hv & E).
  apply result_bind_Ok in E as (? & _ & [= <-]). done.
Qed.

(** A method that does nothing but throw or give a value. *)
Lemma lift_bind {S A B} (r : result A) (k : A -> method S B) s :
  (lift r ≫= k) s = match r with Ok a => k a s | Throw e => (Throw e, s) end.
Proof. by destruct r. Qed.

(** What throws after every success throws. *)
Lemma bind_throws {A B} (r : result A) (k : A -> result B) :
  (forall a, r = Ok a -> is_ok (k a) = false) -> is_ok (r ≫= k) = false.
Proof. intros H. destruct r as [a|e]; [by apply H|done]. Qed.

Lemma live_checks_throw `{JsonParser, Sha256} session : is_ok (live_checks session) = false.
Proof.
  unfold live_checks. do 2 (apply bind_throws; intros ? _). apply bind_throws. intros verified Ev.
  do 6 (apply bind_throws; intros ? _). by eapply validated_protocol_blocks, generateAndVerifyProtocol_validates.
Qed.

Lemma prepare_live_throws `{JsonParser, Sha256} session : is_ok (prepare_run session true) = false.
Proof.
  unfold prepare_run. do 4 (apply bind_throws; intros ? _). pose proof (live_checks_throw session) as Hl.
  by destruct (live_checks session).
Qed.

Lemma live_run `{JsonParser, Sha256} session r events :
  runBrowserMode session true [] = (r, events) -> is_ok r = false /\ events = [].
Proof.
  unfold runBrowserMode. rewrite lift_bind. pose proof (prepare_live_throws session) as Hp.
  destruct (prepare_run session true); [done|]. by intros [= <- <-].
Qed.

(** C30: the live mode is closed.  Whatever the repository, the environment and the
    arguments are, the live mode throws and starts nothing: a protocol that is accepted
    registers the unresolved origin of the public key, and that blocker refuses the run. *)
Theorem live_mode_closed `{JsonParser, Sha256} session arguments :
  is_ok (runBrowserMode session true []).1 = false /\ (runBrowserMode session true []).2 = [] /\
  (is_ok (main session ("live" :: arguments) []).1 = false /\ (main session ("live" :: arguments) []).2 = []).
Proof.
  destruct (runBrowserMode session true []) as [r events] eqn:E. destruct (live_run _ _ _ E) as [Hr He].
  split; [done|]. split; [done|]. unfold main. cbn [string_nonempty]. rewrite lift_bind. destruct (ss_trusted session); [|done].
  cbv zeta. rewrite bool_decide_eq_false_2, bool_decide_eq_false_2, bool_decide_eq_true_2 by done. by rewrite E.
Qed.

(** the launcher does not accept the protocol of the repository.  Neither the protocol
    that the generator derives nor what it prints passes the launcher's validation. *)
Theorem launcher_refuses_generated `{Sha256} value :
  printed = Ok value ->
  deriveProtocol = Ok protocol /\ json_field value "protocol" = Some protocol /\
  validateGeneratedProtocol value = throw_new "protocol schema mismatch" /\
  validateGeneratedProtocol protocol = throw_new "protocol schema mismatch".
Proof. destruct printed_Ok as [digest ->]. intros [= <-]. split_and!; vm_compute; reflexivity. Qed.

(** ** A run *)
Lemma run_suite_events session events r events' :
  run_suite session events = (r, events') ->
  exists suite, events' = events ++ suite /\ CleanedUp ∉ suite /\
    (r = Ok tt -> suite = [Spawned PLAYWRIGHT; Registered PLAYWRIGHT; Printed true] /\ ss_status session = Ok (Some 0, None) /\
      is_ok (ss_ready session) = true /\ is_ok (ss_revalidated session) = true).
Proof.
  unfold run_suite. rewrite lift_bind. destruct (ss_ready session) as [[]|e]; [|intros [= <- <-]; exists []; rewrite app_nil_r; set_solver].
  rewrite lift_bind. destruct (ss_revalidated session) as [selection|e]; [|intros [= <- <-]; exists []; rewrite app_nil_r; set_solver].
  unfold emit, modify. unfold mbind at 1, method_bind at 1. rewrite lift_bind.
  destruct (ss_capture session PLAYWRIGHT) as [group|e]; [|intros [= <- <-]; exists [Spawned PLAYWRIGHT]; set_solver].
  unfold mbind at 1, method_bind at 1. rewrite lift_bind, <- app_assoc. cbn [app].
  destruct (ss_status session) as [[code signal]|e] eqn:Es; [|intros [= <- <-]; exists [Spawned PLAYWRIGHT; Registered PLAYWRIGHT]; set_solver].
  cbv zeta. unfold mbind, method_bind, throw_if. rewrite <- app_assoc. cbn [app fst snd].
  intros [= Er <-]. exists [Spawned PLAYWRIGHT; Registered PLAYWRIGHT; Printed (bool_decide (code = Some 0) && bool_decide (signal = None))].
  split; [done|]. split; [set_solver|]. intros ->. destruct (bool_decide (code = Some 0)) eqn:E0, (bool_decide (signal = None)) eqn:E1; try done.
  bool_to_prop. by subst.
Qed.

Lemma try_finally_events {S A} (body : method S A) last_step s r s1 :
  body s = (r, s1) ->
  try_finally body last_step s = match last_step s1 with (Ok _, s2) => (r, s2) | (Throw e, s2) => (Throw e, s2) end.
Proof. unfold try_finally. by intros ->. Qed.

(** The ends of [runBrowserMode], after the frontend was registered. *)
Lemma run_tail session events r events' :
  try_finally (run_suite session) (try_finally (emit CleanedUp ;; lift (ss_cleaned session)) (emit HandlersRemoved)) events = (r, events') ->
  exists suite, events' = events ++ suite ++ [CleanedUp; HandlersRemoved] /\ CleanedUp ∉ suite /\
    (r = Ok tt -> suite = [Spawned PLAYWRIGHT; Registered PLAYWRIGHT; Printed true] /\ ss_status session = Ok (Some 0, None) /\
      is_ok (ss_ready session) = true /\ is_ok (ss_revalidated session) = true /\ ss_cleaned session = Ok tt).
Proof.
  unfold try_finally at 1. destruct (run_suite session events) as [r0 events0] eqn:E0.
  destruct (run_suite_events _ _ _ _ E0) as (suite & -> & Hn & Hok).
  unfold try_finally, emit, modify, mbind, method_bind, lift. rewrite <- !app_assoc. cbn [app].
  destruct (ss_cleaned session) as [[]|e]; intros [= <- <-]; exists suite; split_and!; try done. naive_solver.
Qed.

(** How a run ends, by its outcome and its events. *)
Definition cleaned_run session (r : result unit) (events : list LaunchEvent) : Prop :=
  (Registered FRONTEND ∈ events -> exists before, events = before ++ [CleanedUp; HandlersRemoved] /\ CleanedUp ∉ before) /\
  (r = Ok tt ->
     events = [Spawned FRONTEND; Registered FRONTEND; HandlersInstalled; Spawned PLAYWRIGHT; Registered PLAYWRIGHT; Printed true;
               CleanedUp; HandlersRemoved] /\
     ss_status session = Ok (Some 0, None) /\ ss_cleaned session = Ok tt).

Lemma thrown_unregistered session e events : Registered FRONTEND ∉ events -> cleaned_run session (Throw e) events.
Proof. intros Hn. by split. Qed.

Lemma start_frontend_events session r events :
  start_frontend session [] = (r, events) ->
  r = Ok tt /\ events = [Spawned FRONTEND; Registered FRONTEND; HandlersInstalled] \/
  is_ok r = false /\ events = [Spawned FRONTEND; Discarded].
Proof.
  unfold start_frontend, try_catch, emit, modify, mbind, method_bind, lift, mret, method_ret, throw_in. cbn [app].
  destruct (ss_capture session FRONTEND); [intros [= <- <-]; by left|].
  destruct (ss_discarded session); intros [= <- <-]; by right.
Qed.

Lemma structural_mode_run `{JsonParser, Sha256} session r events : runBrowserMode session false [] = (r, events) -> cleaned_run session r events.
Proof.
  unfold runBrowserMode. rewrite lift_bind. destruct (prepare_run session false) as [_|e];
    [|intros [= <- <-]; apply thrown_unregistered; set_solver].
  unfold mbind, method_bind at 1. destruct (start_frontend session []) as [r0 events0] eqn:E0.
  destruct (start_frontend_events _ _ _ E0) as [[-> ->]|[Hr ->]].
  - intros E. apply run_tail in E as (suite & -> & Hn & Hok). split.
    + intros _. exists ([Spawned FRONTEND; Registered FRONTEND; HandlersInstalled] ++ suite). split; [by rewrite <- app_assoc|set_solver].
    + intros Hr. by destruct (Hok Hr) as (-> & Hs & _ & _ & Hc).
  - destruct r0 as [[]|e]; [done|]. intros [= <- <-]. apply thrown_unregistered. set_solver.
Qed.

(** a run cleans up.  Once the frontend is registered, the events of a run end with the
    cleanup and the removal of the handlers, and there is no other cleanup; a run that
    does not throw is a structural one that started and registered both groups, saw the
    suite exit with code 0 and no signal, and cleaned up without an error. *)
Theorem run_cleans_up `{JsonParser, Sha256} session live r events :
  runBrowserMode session live [] = (r, events) -> cleaned_run session r events /\ (r = Ok tt -> live = false).
Proof.
  destruct live; intros E; [|split; [by apply structural_mode_run|done]].
  destruct (live_run _ _ _ E) as [Hr ->]. destruct r; [done|]. split; [apply thrown_unregistered; set_solver|done].
Qed.

(** A frontend that was started but could not be captured is left alone: its directory is
    deleted and nothing is cleaned up. *)
Lemma uncaptured_frontend_left `{JsonParser, Sha256} session e :
  prepare_run session false = Ok tt -> ss_capture session FRONTEND = Throw e ->
  (runBrowserMode session false []).2 = [Spawned FRONTEND; Discarded].
Proof.
  intros Hp Hc. unfold runBrowserMode. rewrite lift_bind, Hp.
  unfold start_frontend, try_catch, emit, modify, mbind, method_bind, lift, mret, method_ret, throw_in. cbn [app]. rewrite Hc.
  by destruct (ss_discarded session).
Qed.

(** ** Cleaning up *)
Section cleanup_properties.
Context `{PidMax} (install : Install) (tmpdir : string) (world : nat -> ProcFs) (files : nat -> DirFs).
Context (signal_fails : nat -> bool) (term_polls kill_polls : nat) (rm_fails : bool).

(** The group was seen empty, and nobody listened after that if it was the frontend's. *)
Definition ended (group : Group) : Prop := exists a b g, same_launch group g /\ gone world a b g.

(** The directory lies in its parent, has the launcher's name, and is no other place. *)
Definition contained (record : RunDirectory) : Prop :=
  dirname (rd_directoryRealpath record) = rd_parentRealpath record /\
  startsWith (rd_prefix record) (basename (rd_directoryRealpath record)) = true /\
  basename (rd_directoryRealpath record) <> rd_prefix record /\
  rd_directoryRealpath record ∉ dangerous_targets install tmpdir record.

Lemma validated_directory record fs path :
  validatePrivateRunDirectory install tmpdir record fs = Ok path -> path = rd_directoryRealpath record /\ contained record.
Proof.
  unfold validatePrivateRunDirectory. intros E. apply result_bind_Ok in E as (? & Hd%fail_if_Ok & E).
  apply result_bind_Ok in E as (? & _ & E). apply result_bind_Ok in E as (? & _ & E). apply result_bind_Ok in E as (? & _ & E).
  apply result_bind_Ok in E as (? & _ & E). apply result_bind_Ok in E as (? & _ & E).
  apply result_bind_Ok in E as (real & _ & E). apply result_bind_Ok in E as (? & Hc%fail_if_Ok & [= <-]).
  bool_to_prop. subst. done.
Qed.

(** What the steps of the cleanup leave alone. *)
Definition kept (s s' : Resources) : Prop :=
  rs_groups s' = rs_groups s /\ rs_runDirectory s' = rs_runDirectory s /\ rs_removed s' = rs_removed s.

Lemma clean_group_ends group s :
  wp (clean_group install world signal_fails term_polls kill_polls group)
    (fun r s' => kept s s' /\ exists b, r = Ok b /\ (b = true -> ended group)) s.
Proof.
  unfold clean_group, wp. set (run := {| ru_clock := _; ru_group := _; ru_sent := _ |}).
  destruct (terminateOwnedProcessGroup _ _ _ _ _ run) as [r run'] eqn:E.
  pose proof (wp_run _ _ _ _ _ (terminate_outcome install world signal_fails term_polls kill_polls run eq_refl) E) as [_ _ Hg].
  split; [done|]. eexists. split; [done|]. destruct r as [c|e]; [|done]. intros Hc.
  destruct (Hg c eq_refl Hc) as (a & b & g & _ & _ & Hs & Hgone). by exists a, b, g.
Qed.

Lemma clean_groups_ends groups s :
  wp (clean_groups install world signal_fails term_polls kill_polls groups)
    (fun r s' => kept s s' /\ exists b, r = Ok b /\ (b = true -> Forall ended groups)) s.
Proof.
  revert s. induction groups as [|group groups IH]; intros s; cbn [clean_groups]; [apply wp_ret; split; [done|by exists true]|].
  apply wp_bind. eapply wp_mono; [apply clean_group_ends|]. intros r s1 ((K1 & K2 & K3) & b & -> & Hb).
  apply wp_bind. eapply wp_mono; [apply IH|]. intros r s2 ((K1' & K2' & K3') & b' & -> & Hb'). apply wp_ret.
  split; [split_and!; congruence|]. eexists. split; [done|]. intros [E E']%andb_true_iff. constructor; auto.
Qed.

(** What a cleanup does with the directory. *)
Definition removal (s s' : Resources) : Prop :=
  rs_removed s' = rs_removed s \/
  exists record, rs_runDirectory s = Some record /\ rs_removed s' = rs_removed s ++ [rd_directoryRealpath record] /\ contained record.

Lemma removePrivateRunDirectory_contained record s :
  wp (removePrivateRunDirectory install tmpdir files rm_fails record) (fun r s' =>
    rs_removed s' = rs_removed s \/ rs_removed s' = rs_removed s ++ [rd_directoryRealpath record] /\ contained record) s.
Proof.
  unfold removePrivateRunDirectory. apply wp_bind. unfold get, wp at 1. cbn beta iota. apply wp_bind, wp_lift.
  destruct (validatePrivateRunDirectory install tmpdir record (files (rs_clock s))) as [path|e] eqn:Ev; [|by left].
  apply validated_directory in Ev as [-> Hc]. apply wp_bind. unfold put, wp at 1. cbn beta iota.
  apply wp_throw_if; intros _; right; done.
Qed.

Lemma clean_all_last s :
  wp (clean_all install tmpdir world files signal_fails term_polls kill_polls rm_fails) (fun r s' =>
    removal s s' /\ (rs_removed s' <> rs_removed s \/ r = Ok tt -> Forall ended (rs_groups s))) s.
Proof.
  unfold clean_all. apply wp_bind. unfold gets at 1, wp at 1. cbn beta iota.
  apply wp_bind. eapply wp_mono; [apply clean_groups_ends|]. intros r s1 ((_ & K2 & K3) & b & -> & Hb).
  assert (Hall : b = true -> Forall ended (rs_groups s)) by (intros ->; rewrite <- (rev_involutive (rs_groups s)); apply List.Forall_rev; by apply Hb).
  apply wp_bind. unfold gets at 1, wp at 1. cbn beta iota. rewrite K2. apply wp_bind.
  destruct (rs_runDirectory s) as [record|] eqn:Er; [destruct b|].
  - apply wp_try_catch, wp_bind. eapply wp_mono; [apply removePrivateRunDirectory_contained|].
    intros r s2 Hr. assert (Hrem : removal s s2).
    { unfold removal. rewrite Er, <- K3. destruct Hr as [Hr|[Hr Hc]]; [by left|right; by exists record]. }
    destruct r; apply wp_ret; apply wp_throw_if; intros _; split; auto.
  - apply wp_ret. apply wp_throw_if; intros Hd; (split; [by left|]); [intros [?|?]; [congruence|done]|done].
  - apply wp_ret. apply wp_throw_if; intros Hd; (split; [by left|]); [intros [?|?]; [congruence|done]|].
    intros _. apply Hall. by destruct b.
Qed.
End cleanup_properties.

(** C29: only what is the launcher's is deleted, and last.  A cleanup happens once: any later
    call gives the same outcome and does nothing.  It deletes at most the private
    directory, which then lies in its parent under the launcher's name and is none of the
    dangerous places; and it deletes it, or succeeds, only when every group was seen
    empty, with nobody listening on the frontend's port. *)
Theorem cleanup_deletes_last `{PidMax} install tmpdir world files signal_fails term_polls kill_polls rm_fails s r s' :
  rs_cleanup s = None ->
  cleanup install tmpdir world files signal_fails term_polls kill_polls rm_fails s = (r, s') ->
  cleanup install tmpdir world files signal_fails term_polls kill_polls rm_fails s' = (r, s') /\
  removal install tmpdir s s' /\
  (rs_removed s' <> rs_removed s \/ r = Ok tt -> Forall (ended world) (rs_groups s)).
Proof.
  unfold cleanup at 1. intros ->. destruct (clean_all _ _ _ _ _ _ _ _ s) as [outcome s1] eqn:E. intros [= <- <-].
  pose proof (wp_run _ _ _ _ _ (clean_all_last install tmpdir world files signal_fails term_polls kill_polls rm_fails s) E) as Hl.
  split; [done|]. exact Hl.
Qed.

(** ** Events *)
Definition exit_of (event : string) : LifecycleEffect := if bool_decide (event ∈ SIGNALS) then KillSelf event else Exit 1.

(** the first event decides.  Whatever events come and whenever the cleanup ends, the
    handlers start one cleanup, for the first event, and after it they remove themselves
    and end the process once, with the signal of that event or with code 1. *)
Theorem lifecycle_first_event inputs :
  let s := fold_left (fun s input => lifecycle_step input s) inputs initial_lifecycle in
  match first_some (fun input => match input with Dispatch event => Some event | Cleaned => None end) inputs with
  | None => lc_effects s = []
  | Some event => lc_effects s `prefix_of` [StartCleanup; RemoveHandlers; exit_of event] /\ StartCleanup ∈ lc_effects s
  end.
Proof.
  cbv zeta.
  assert (Hlater : forall inputs event (finished : bool),
    let after := if finished then [StartCleanup; RemoveHandlers; exit_of event] else [StartCleanup] in
    exists finished' : bool, fold_left (fun s input => lifecycle_step input s) inputs {| lc_handling := Some event; lc_done := finished; lc_effects := after |} =
      {| lc_handling := Some event; lc_done := finished'; lc_effects := if finished' then [StartCleanup; RemoveHandlers; exit_of event] else [StartCleanup] |}).
  { clear. intros inputs event. induction inputs as [|input inputs IH]; intros finished; [by exists finished|].
    destruct input; cbn [fold_left lifecycle_step lc_handling]; [apply IH|]. destruct finished; cbn; [apply (IH true)|apply (IH true)]. }
  enough (H0 : forall inputs, match first_some (fun input => match input with Dispatch event => Some event | Cleaned => None end) inputs with
    | None => fold_left (fun s input => lifecycle_step input s) inputs initial_lifecycle = initial_lifecycle
    | Some event => exists finished : bool, fold_left (fun s input => lifecycle_step input s) inputs initial_lifecycle =
        {| lc_handling := Some event; lc_done := finished; lc_effects := if finished then [StartCleanup; RemoveHandlers; exit_of event] else [StartCleanup] |}
    end).
  { specialize (H0 inputs). destruct (first_some _ inputs) as [event|]; [|by rewrite H0]. destruct H0 as [finished ->]. cbn.
    destruct finished; (split; [|set_solver]); [done|by exists [RemoveHandlers; exit_of event]]. }
  clear inputs. intros inputs. induction inputs as [|input inputs IH]; [done|]. destruct input as [event|]; cbn [first_some fold_left]; [|exact IH].
  apply (Hlater inputs event false).
Qed.

(** A run of the cleanup on the frontend of the example, with its directory. *)
Definition sample_directory : RunDirectory := {|
  rd_directory := "/tmp/zama-szn4-sg5-a1b2c3"; rd_directoryRealpath := "/tmp/zama-szn4-sg5-a1b2c3"; rd_parentRealpath := "/tmp";
  rd_prefix := RUN_DIRECTORY_PREFIX |}.
Definition sample_files : DirFs := {|
  df_lstat _ := Ok {| ls_isSymbolicLink := false; ls_isFile := false; ls_isDirectory := true; ls_mode := Some 16832 |};
  df_realpath := Ok; df_stat _ := throw_new "ENOENT"; df_access _ := Ok tt |}.
Definition sample_resources : Resources := {|
  rs_groups := [Sg5Process.sample_group]; rs_runDirectory := Some sample_directory; rs_cleanup := None; rs_clock := 0%nat; rs_sent := [];
  rs_removed := [] |}.

Example sample_created :
  createPrivateRunDirectory sample_files (fun template => Ok (template +:+ "a1b2c3")) (fun _ => Ok tt) "/tmp" = Ok sample_directory.
Proof. vm_compute. reflexivity. Qed.

Lemma cleanup_deletes_last_witness :
  exists s', cleanup (H := Sg5Process.sample_pid_max) Sg5Process.sample_install "/tmp" Sg5Process.sample_world (fun _ => sample_files) (fun _ => false) 3 3 false sample_resources =
    (Ok tt, s') /\ rs_removed s' = ["/tmp/zama-szn4-sg5-a1b2c3"] /\ Forall (ended (H := Sg5Process.sample_pid_max) Sg5Process.sample_world) (rs_groups sample_resources).
Proof.
  destruct (cleanup (H := Sg5Process.sample_pid_max) Sg5Process.sample_install "/tmp" Sg5Process.sample_world (fun _ => sample_files) (fun _ => false) 3 3 false sample_resources)
    as [r s'] eqn:E.
  destruct (cleanup_deletes_last (H := Sg5Process.sample_pid_max) Sg5Process.sample_install "/tmp" Sg5Process.sample_world (fun _ => sample_files) (fun _ => false) 3 3 false
              sample_resources r s' eq_refl E) as (_ & _ & Hall).
  exists s'. assert (Er : r = Ok tt /\ rs_removed s' = ["/tmp/zama-szn4-sg5-a1b2c3"]) by (vm_compute in E; injection E as <- <-; split; reflexivity).
  destruct Er as [Er Em]. subst r. exact (conj eq_refl (conj Em (Hall (or_intror eq_refl)))).
Defined.

Lemma selected_browser_usable_witness :
  let fs := {| df_lstat _ := Ok {| ls_isSymbolicLink := false; ls_isFile := true; ls_isDirectory := false; ls_mode := None |};
               df_realpath := Ok; df_access _ := Ok tt;
               df_stat _ := Ok {| fl_isFile := true; fl_dev := 1; fl_ino := 2; fl_size := 3; fl_mtimeMicros := 4567 |} |} in
  exists selection, av_selection (inspectBrowserAvailability fs (Throw (new_Error "no module")) SYSTEM_BROWSER_CANDIDATES) = Some selection /\
    revalidateBrowserSelection fs selection = Ok selection.
Proof.
  intros fs. destruct (av_selection (inspectBrowserAvailability fs (Throw (new_Error "no module")) SYSTEM_BROWSER_CANDIDATES)) as [selection|] eqn:E;
    [|vm_compute in E; discriminate].
  exists selection. exact (conj eq_refl (proj2 (selected_browser_usable fs (Throw (new_Error "no module")) SYSTEM_BROWSER_CANDIDATES selection E))).
Defined.

#[local] Instance sample_sha : Sha256 := {| sha256 := to_hex |}.
Lemma launcher_refuses_generated_witness :
  exists value, printed = Ok value /\ validateGeneratedProtocol value = throw_new "protocol schema mismatch".
Proof.
  destruct printed as [value|e] eqn:E; [|vm_compute in E; discriminate].
  exists value. exact (conj eq_refl (proj1 (proj2 (proj2 (launcher_refuses_generated value E))))).
Defined.

(** A structural run in which everything succeeds. *)
#[local] Instance sample_parser : JsonParser := {| parse_JSON _ := None |}.
Definition sample_session : Session := {|
  ss_trusted := Ok tt; ss_env := ["PATH"; "HOME"]; ss_directories := [["package.json"]; ["next.config.ts"]];
  ss_availability := {| av_playwrightApi := "PLAYWRIGHT_API_UNAVAILABLE"; av_managedBrowser := "MANAGED_BROWSER_NOT_INSTALLED";
    av_availability := "SYSTEM_BROWSER_AVAILABLE";
    av_selection := Some {| sl_path := "/usr/bin/chromium"; sl_classification := "SYSTEM_CHROMIUM"; sl_device := "1"; sl_inode := "2";
                            sl_size := "3"; sl_modifiedMilliseconds := "4" |} |};
  ss_ack := None; ss_args := []; ss_generator := {| ex_error := false; ex_status := Some 0; ex_stdout := ""; ex_stderr := "" |};
  ss_git _ := Ok ""; ss_evidence := false; ss_port_available := true; ss_directory := Ok sample_directory; ss_home := Ok tt;
  ss_capture _ := Ok Sg5Process.sample_group; ss_discarded := Ok tt; ss_ready := Ok tt;
  ss_revalidated := Ok {| sl_path := "/usr/bin/chromium"; sl_classification := "SYSTEM_CHROMIUM"; sl_device := "1"; sl_inode := "2";
                          sl_size := "3"; sl_modifiedMilliseconds := "4" |};
  ss_status := Ok (Some 0, None); ss_cleaned := Ok tt |}.
Lemma run_cleans_up_witness :
  exists events, runBrowserMode sample_session false [] = (Ok tt, events) /\ cleaned_run sample_session (Ok tt) events.
Proof.
  destruct (runBrowserMode sample_session false []) as [r events] eqn:E.
  pose proof (run_cleans_up sample_session false r events E) as [Hc _].
  assert (Er : r = Ok tt) by (vm_compute in E; injection E as <- _; reflexivity). subst r. exists events. exact (conj eq_refl Hc).
Defined.
