(* ===== verification/DomainReport.v ===== *)
(** * The report of the weight domain: scripts/sg3-domain.ts, [deriveDomainAnalysis]

    The bounds of [WeightDomain] as the JSON document that the script prints, with the
    decisions it records beside them.  [serializeDomainAnalysis_prints]: the checks pass, so
    the document is printed, and its figures are those the arithmetic derives. *)
From Stdlib Require Import ZArith Lia.
From stdpp Require Import base option list strings.
From S2P Require Import Prelude WeightDomain HcuJson Sg5Plan.
Local Open Scope Z_scope.

Definition decimal (value : Z) : string := Z_toString value.

(** A decision in the order of its fields; five of them are the same answer. *)
Definition width_json (d : WidthDecision) : Json :=
  let twab := jbool (wd_twabEnvelopeFits d) in
  jobject [("widthBits", jstring (wd_widthBits d)); ("maximumRepresentable", jstring (wd_maximumRepresentable d));
    ("balanceEnvelopeFits", jbool (wd_balanceEnvelopeFits d)); ("userTwabEnvelopeFits", twab); ("aggregateTwabEnvelopeFits", twab);
    ("prefixWeightEnvelopeFits", twab); ("ticketEnvelopeFits", twab); ("capacityMarginAgainstMaximumTwab", jstring (wd_capacityMargin d));
    ("unusedHeadroomBits", jstring (wd_unusedHeadroomBits d)); ("maximumWholeTokenPoolForLockedDuration", jstring (wd_maximumWholeTokenPool d));
    ("maximumRoundDurationSecondsForLockedPool", jstring (wd_maximumRoundDuration d)); ("mathematicalVerdict", jstring (wd_mathematicalVerdict d));
    ("installedTicketApiVerdict", jstring (wd_installedTicketApiVerdict d))].

(** The document. *)
Definition domain_report (db : DomainBounds) (requiredProductBits requiredAggregateBits : Z) (decisions : list WidthDecision) : Json :=
  let plan := db_plan db in
  let domainSize := Z.shiftl 1 (db_ticketWidth db) in
  jobject [
    ("schema", jstring "sg3-weight-domain/v1");
    ("status", jstring "PASS");
    ("repositoryInspection", jobject [
      ("requestedScopeDocumentsPresent", jbool false);
      ("absentRequestedDocuments", jarray [jstring "00_SCOPE_REGISTER.md";
        jstring "CP0_INDEPENDENT_REVIEW.md";
        jstring "03_RANDOMNESS_ARCHITECTURE_LOCK.md";
        jstring "01_SUCCESS_AND_RELEASE_CRITERIA.md"]);
      ("strongerCommittedPoolOrDurationCeilingFound", jbool false);
      ("envelopeResolution", jstring "The supplied minimum production envelope is locked as the SG-3 maximum supported envelope.")]);
    ("assumptions", jobject [
      ("tokenSymbol", jstring "cUSDT");
      ("tokenDecimals", jstring (decimal (TOKEN_DECIMALS)));
      ("tokenScale", jstring (decimal (TOKEN_SCALE)));
      ("maximumPoolWholeTokens", jstring (decimal (MAX_POOL_WHOLE_TOKENS)));
      ("maximumPoolBaseUnits", jstring (decimal (MAX_POOL_BASE_UNITS)));
      ("timeGranularitySeconds", jstring (decimal (TIME_GRANULARITY_SECONDS)));
      ("maximumRoundDurationDays", jstring (decimal (MAX_ROUND_DURATION_DAYS)));
      ("maximumRoundDurationSeconds", jstring (decimal (MAX_ROUND_DURATION_SECONDS)));
      ("singleParticipantMayHoldFullPool", jbool true);
      ("participantCountLimitAssumed", jbool false);
      ("roundingOrTimeCompressionPermitted", jbool false)]);
    ("formulas", jobject [
      ("maximumPoolBaseUnits", jstring "MAX_POOL_WHOLE_TOKENS * TOKEN_SCALE");
      ("maximumRoundDurationSeconds", jstring "MAX_ROUND_DURATION_DAYS * 24 * 60 * 60");
      ("maximumUserTwab", jstring "MAX_USER_BALANCE_BASE_UNITS * MAX_ROUND_DURATION_SECONDS");
      ("maximumAggregateTwab", jstring "MAX_POOL_BASE_UNITS * MAX_ROUND_DURATION_SECONDS");
      ("requiredBits", jstring "smallest w such that x <= 2^w - 1");
      ("rejectionLimit", jstring "floor(2^w / T) * T");
      ("acceptanceProbability", jstring "REJECTION_LIMIT / 2^w");
      ("expectedAttempts", jstring "2^w / REJECTION_LIMIT")]);
    ("derivedBounds", jobject [
      ("maximumUserBalanceBaseUnits", jstring (decimal (MAX_USER_BALANCE_BASE_UNITS)));
      ("maximumUserTwab", jstring (decimal (MAX_USER_TWAB)));
      ("maximumAggregateTwab", jstring (decimal (MAX_AGGREGATE_TWAB)));
      ("maximumPrefixWeight", jstring (decimal (MAX_AGGREGATE_TWAB)));
      ("maximumAcceptedTicket", jstring (decimal (MAX_AGGREGATE_TWAB - 1)));
      ("requiredBalanceBits", jstring (decimal (db_requiredBalanceBits db)));
      ("requiredElapsedTimeBits", jstring (decimal (db_requiredElapsedTimeBits db)));
      ("requiredProductBits", jstring (decimal (requiredProductBits)));
      ("requiredTwabBits", jstring (decimal (db_requiredTwabBits db)));
      ("requiredAggregateBits", jstring (decimal (requiredAggregateBits)));
      ("requiredTicketBits", jstring (decimal (db_requiredTicketBits db)))]);
    ("recommendedTypes", jobject [
      ("encryptedBalance", jstring ("euint" +:+ decimal (db_balanceWidth db)));
      ("publicTimestamp", jstring "uint64");
      ("publicElapsed", jstring "uint64 (checked), then exact uint128 scalar cast for FHE.mul");
      ("widenedBalanceOperand", jstring ("euint" +:+ decimal (db_twabWidth db)));
      ("weightedDelta", jstring ("euint" +:+ decimal (db_twabWidth db)));
      ("perUserTwab", jstring ("euint" +:+ decimal (db_twabWidth db)));
      ("aggregateTwab", jstring ("euint" +:+ decimal (db_twabWidth db)));
      ("cumulativePrefixWeight", jstring ("euint" +:+ decimal (db_twabWidth db)));
      ("randomCandidate", jstring ("euint" +:+ decimal (db_ticketWidth db)));
      ("acceptedTicket", jstring ("euint" +:+ decimal (db_ticketWidth db)));
      ("rejectionValidity", jstring "ebool");
      ("publicRejectionArithmetic", jstring "uint256")]);
    ("widthDecisions", jarray (map width_json decisions));
    ("installedFheApi", jobject [
      ("source", jstring "@fhevm/solidity 0.11.1 lib/FHE.sol");
      ("encryptedWidthsInspected", jarray [jstring "euint64";
        jstring "euint128";
        jstring "euint256"]);
      ("randomGeneration", jarray [jstring "FHE.randEuint64()";
        jstring "FHE.randEuint128()";
        jstring "FHE.randEuint256()"]);
      ("productionComparison", jstring "FHE.lt(euint128,uint128) returns ebool");
      ("productionRemainder", jstring "FHE.rem(euint128,uint128) returns euint128");
      ("productionMultiplication", jstring "FHE.mul(euint128,uint128) returns euint128");
      ("wideningCast", jstring "FHE.asEuint128(euint64) returns euint128");
      ("automaticMultiplicationWidening", jbool false);
      ("encryptedOverflowPolicy", jstring "Fixed-width results are not exposed as checked arithmetic; SG-3 forbids reaching overflow and requires pre-operation widening and proven bounds.");
      ("euint256Limitation", jstring "randEuint256 exists, but euint256 ordered comparison, multiplication, and public-scalar remainder overloads are absent.")]);
    ("rejectionSampling", jobject [
      ("candidateWidthBits", jstring (decimal (db_ticketWidth db)));
      ("domainSize", jstring (decimal (domainSize)));
      ("maximumTotal", jstring (decimal (MAX_AGGREGATE_TWAB)));
      ("quotientAtMaximumTotal", jstring (decimal (default 0 (pl_quotient plan))));
      ("rejectionLimitAtMaximumTotal", jstring (decimal (default 0 (pl_rejectionLimit plan))));
      ("rejectedCandidatesAtMaximumTotal", jstring (decimal (default 0 (pl_rejectedCandidateCount plan))));
      ("acceptanceProbabilityAtMaximumTotal", jobject [
        ("numerator", jstring (decimal (default 0 (pl_acceptanceNumerator plan))));
        ("denominator", jstring (decimal (pl_acceptanceDenominator plan)))]);
      ("expectedAttemptsAtMaximumTotal", jobject [
        ("numerator", jstring (decimal (default 0 (pl_expectedAttemptsNumerator plan))));
        ("denominator", jstring (decimal (default 1 (pl_expectedAttemptsDenominator plan))))]);
      ("guaranteedAcceptanceProbabilityLowerBound", jobject [
        ("numerator", jstring (decimal (db_lowerBoundNumerator db)));
        ("denominator", jstring (decimal (domainSize)));
        ("proof", jstring "2^w mod T <= T - 1 <= MAX_AGGREGATE_TWAB - 1");
        ("strictlyGreaterThanOneHalf", jbool true)]);
      ("guaranteedExpectedAttemptsUpperBound", jobject [
        ("numerator", jstring (decimal (domainSize)));
        ("denominator", jstring (decimal (db_lowerBoundNumerator db)))]);
      ("zeroTotal", jstring "No draw, no candidate, and no modulo operation.");
      ("oneTotal", jstring "All candidates are valid and the accepted encrypted ticket is deterministically zero.");
      ("divisorOfDomainSize", jstring "REJECTION_LIMIT equals 2^w and is not representable in w bits; set encrypted VALID to true and compute encrypted remainder, with T=1 specialized to encrypted zero.");
      ("nonDivisor", jstring "REJECTION_LIMIT is at most 2^w - 1, is checked before uint128 conversion, VALID is FHE.lt(R, limit), and ticket is FHE.rem(R, T).");
      ("confidentiality", jstring "R and accepted ticket remain encrypted forever; only T at the permitted draw stage and encrypted VALID may be publicly decrypted.");
      ("rerollRule", jstring "A valid candidate is immutable; exactly one replacement is allowed only after VALID decrypts false.")]);
    ("twabTransition", jobject [
      ("sequence", jarray [jstring "effectiveTime = min(currentTimestamp, roundEnd)";
        jstring "require effectiveTime >= lastUpdate";
        jstring "elapsed = effectiveTime - lastUpdate";
        jstring "weightedDelta = widen(balance to euint128) * exact uint128(elapsed)";
        jstring "cumulativeTwab += weightedDelta";
        jstring "lastUpdate = effectiveTime";
        jstring "mutate balance only after accrual"]);
      ("sameTimestampDelta", jstring "0");
      ("closeBehavior", jstring "Accrual is clamped to roundEnd; later updates add zero to closed-round TWAB.");
      ("aggregateProof", jstring "sum(user TWAB) = integral(sum(user balances)) dt <= MAX_POOL_BASE_UNITS * MAX_ROUND_DURATION_SECONDS, independent of participant count.")]);
    ("privacyClassification", jobject [
      ("userBalance", jstring "CONFIDENTIAL");
      ("userTwab", jstring "CONFIDENTIAL");
      ("aggregateTwabBeforeDraw", jstring "CONFIDENTIAL");
      ("aggregateTwabAtPermittedDraw", jstring "PUBLICLY_DECRYPTABLE");
      ("randomCandidate", jstring "CONFIDENTIAL_FOREVER");
      ("acceptedTicket", jstring "CONFIDENTIAL_FOREVER");
      ("rejectionValidity", jstring "PUBLICLY_DECRYPTABLE");
      ("timestamps", jstring "PUBLIC_EXACT_SECONDS")]);
    ("reopenConditions", jarray [jstring "pool ceiling exceeds 1,000,000,000 whole cUSDT";
      jstring "round duration exceeds 365 days";
      jstring "token precision changes from 6 decimals";
      jstring "time resolution changes from exact seconds";
      jstring "aggregate or prefix semantics exceed the pool-time integral bound";
      jstring "winner selection requires a domain larger than the aggregate TWAB";
      jstring "installed FHE arithmetic or casting semantics change";
      jstring "SG-4 cannot execute the required euint128 production path within accepted limits"])].

(** [None]: a loop ran out of fuel. *)
Definition deriveDomainAnalysis : option (result Json) :=
  match deriveDomainBounds, requiredBits (MAX_USER_BALANCE_BASE_UNITS * MAX_ROUND_DURATION_SECONDS), requiredBits MAX_AGGREGATE_TWAB,
        mapM deriveWidthDecision ENCRYPTED_WIDTHS with
  | Some bounds, Some productBits, Some aggregateBits, Some decisions => Some (
      requiredProductBits ← productBits;
      requiredAggregateBits ← aggregateBits;
      db ← bounds;
      widths ← result_map id decisions;
      Ok (domain_report db requiredProductBits requiredAggregateBits widths))
  | _, _, _, _ => None
  end.

Definition serializeDomainAnalysis : option (result string) :=
  analysis ← deriveDomainAnalysis;
  Some (document ← analysis; Ok (stringify_indented 0 document +:+ line_break)).

(** What is printed. *)
Definition main (output : string) : string * option string :=
  match serializeDomainAnalysis with
  | Some (Ok text) => (output +:+ text, None)
  | _ => (output, Some "SG3 domain derivation failed.")
  end.

(** * Properties *)
Lemma main_prints output document :
  deriveDomainAnalysis = Some (Ok document) -> main output = (output +:+ stringify_indented 0 document +:+ line_break, None).
Proof. intros E. unfold main, serializeDomainAnalysis. by rewrite E. Qed.

(** The document is printed: every check passes on the constants of the file, nothing is
    written to the error stream, and the figures are the bounds. *)
Theorem serializeDomainAnalysis_prints output :
  exists db decisions text,
    deriveDomainBounds = Some (Ok db) /\ mapM deriveWidthDecision ENCRYPTED_WIDTHS = Some (map Ok decisions) /\
    deriveDomainAnalysis = Some (Ok (domain_report db 75 75 decisions)) /\
    text = stringify_indented 0 (domain_report db 75 75 decisions) /\ main output = (output +:+ text +:+ line_break, None).
Proof.
  destruct deriveDomainBounds as [[db|]|] eqn:Eb; [|by vm_compute in Eb..].
  destruct (mapM deriveWidthDecision ENCRYPTED_WIDTHS) as [results|] eqn:Ed; [|by vm_compute in Ed].
  assert (Hd : exists decisions, results = map Ok decisions) by (vm_compute in Ed; injection Ed as <-; by eexists [_; _; _]).
  destruct Hd as [decisions ->]. exists db, decisions, (stringify_indented 0 (domain_report db 75 75 decisions)).
  assert (E : deriveDomainAnalysis = Some (Ok (domain_report db 75 75 decisions))).
  { unfold deriveDomainAnalysis. rewrite Eb, Ed. assert (E1 : requiredBits (MAX_USER_BALANCE_BASE_UNITS * MAX_ROUND_DURATION_SECONDS) = Some (Ok 75)) by by vm_compute.
    assert (E2 : requiredBits MAX_AGGREGATE_TWAB = Some (Ok 75)) by by vm_compute. rewrite E1, E2. cbn [mbind result_bind].
    assert (Hm : forall ds : list WidthDecision, result_map id (map Ok ds) = Ok ds).
    { induction ds as [|d ds IH]; [done|]. cbn [map result_map id mbind result_bind]. by rewrite IH. }
    by rewrite Hm. }
  split; [reflexivity|]. split; [reflexivity|]. split; [exact E|]. split; [reflexivity|]. by apply main_prints.
Qed.
