(* ===== verification/Sg2Debug.v ===== *)
(** * What is refused before anything is loaded: tasks/sg2.ts, scripts/sg2-launcher.cjs

    Debug output of Hardhat and of the FHE plugin can show a private key or an RPC
    address, so the tasks of the second gate refuse to run while any of the namespaces
    that print them is enabled.  The matcher of selectors is a loop over two indices that
    steps back to its last wildcard; the theorem says that it ends and that it decides
    the usual meaning of a pattern, and so which selectors are refused. *)
From Stdlib Require Import ZArith Lia Ascii.
From stdpp Require Import base option list sets strings.
From S2P Require Import Prelude.

(** ** Patterns *)
Definition star : ascii := "*".

(** The variables of the loop; [None] is the index -1. *)
Record MatchState := {
  ms_namespaceIndex : nat; ms_patternIndex : nat; ms_wildcardIndex : option nat; ms_wildcardMatchIndex : nat
}.

(** The second loop: stars at the end of the pattern, then nothing. *)
Fixpoint only_stars (rest : list ascii) : bool :=
  match rest with [] => true | c :: rest' => Ascii.eqb c star && only_stars rest' end.

(** The character of the pattern is that of the namespace, or a wildcard. *)
Definition accepts (c d : ascii) : bool := Ascii.eqb c d || Ascii.eqb c star.

(** The loops of [debugPatternMatches]; [None] when the fuel is spent. *)
Fixpoint match_loop (fuel : nat) (namespace pattern : list ascii) (s : MatchState) : option bool :=
  match fuel with
  | O => None
  | S fuel' =>
      match namespace !! ms_namespaceIndex s with
      | None => Some (only_stars (drop (ms_patternIndex s) pattern))
      | Some d =>
          let retry :=
            match ms_wildcardIndex s with
            | Some wildcard =>
                match_loop fuel' namespace pattern
                  {| ms_namespaceIndex := S (ms_wildcardMatchIndex s); ms_patternIndex := S wildcard; ms_wildcardIndex := Some wildcard;
                     ms_wildcardMatchIndex := S (ms_wildcardMatchIndex s) |}
            | None => Some false
            end in
          match pattern !! ms_patternIndex s with
          | Some c =>
              if accepts c d then
                if Ascii.eqb c star then
                  match_loop fuel' namespace pattern
                    {| ms_namespaceIndex := ms_namespaceIndex s; ms_patternIndex := S (ms_patternIndex s);
                       ms_wildcardIndex := Some (ms_patternIndex s); ms_wildcardMatchIndex := ms_namespaceIndex s |}
                else
                  match_loop fuel' namespace pattern
                    {| ms_namespaceIndex := S (ms_namespaceIndex s); ms_patternIndex := S (ms_patternIndex s);
                       ms_wildcardIndex := ms_wildcardIndex s; ms_wildcardMatchIndex := ms_wildcardMatchIndex s |}
              else retry
          | None => retry
          end
      end
  end.

(** Each step moves on in the pattern, or starts again one character later. *)
Definition match_fuel (namespace pattern : list ascii) : nat := S (S (length namespace) * S (length pattern)).
Definition match_run (namespace pattern : string) : option bool :=
  let n := String.list_ascii_of_string namespace in
  let p := String.list_ascii_of_string pattern in
  match_loop (match_fuel n p) n p
    {| ms_namespaceIndex := 0; ms_patternIndex := 0; ms_wildcardIndex := None; ms_wildcardMatchIndex := 0 |}.
Definition debugPatternMatches (namespace pattern : string) : bool := default false (match_run namespace pattern).

(** ** Selectors *)
(** [text.replace(/\s+/gu, ",")]; the flag says that the run of blanks was replaced. *)
Fixpoint replace_spaces (replaced : bool) (s : string) : string :=
  match s with
  | EmptyString => ""
  | String c s' =>
      if is_space c then (if replaced then replace_spaces true s' else String "," (replace_spaces true s'))
      else String c (replace_spaces false s')
  end.

Definition selector_patterns (debugSelector : option string) : list string :=
  List.filter string_nonempty (split_char "," (replace_spaces false (trim (default "" debugSelector)))).
Definition is_exclusion (pattern : string) : bool := startsWith "-" pattern.
(** [pattern.slice(1)] *)
Definition without_first (s : string) : string := match s with String _ s' => s' | EmptyString => "" end.
Definition exclusions (patterns : list string) : list string := map without_first (List.filter is_exclusion patterns).
Definition inclusions (patterns : list string) : list string := List.filter (fun pattern => negb (is_exclusion pattern)) patterns.

Definition debugNamespaceEnabled (debugSelector : option string) (namespace : string) : bool :=
  let patterns := selector_patterns debugSelector in
  if existsb (debugPatternMatches namespace) (exclusions patterns) then false
  else existsb (debugPatternMatches namespace) (inclusions patterns).

Definition FORBIDDEN_HARDHAT_DEBUG_NAMESPACES : list string := [
  "hardhat:sentry:subprocess"; "hardhat:core:hre"; "hardhat:core:config"; "hardhat:core:vars:varsManager";
  "hardhat:core:scripts-runner"; "hardhat:util:multi-process-mutex"; "hardhat:core:vars:varsManagerSetup";
  "hardhat:core:tasks:compile"; "hardhat:core:tasks:console"; "hardhat:core:tasks:run"; "hardhat:core:tasks:compile:cache";
  "hardhat:core:compilation-watcher"; "hardhat:util:request"; "hardhat:core:global-dir"; "hardhat:core:tasks:node";
  "hardhat:core:artifacts"; "hardhat:core:hardhat-network:provider"; "hardhat:core:hardhat-network:jsonrpc";
  "hardhat:core:analytics"; "hardhat:core:solidity:downloader"; "hardhat:util:banner-manager"; "hardhat:core:cli";
  "hardhat:cli:vars"; "hardhat:core:compilation-job"; "@fhevm/hardhat:provider"; "@fhevm/hardhat:instance";
  "@fhevm/hardhat:addresses"; "@fhevm/hardhat:env"; "@fhevm/hardhat:builtin-tasks"; "@fhevm/hardhat:setup"].

Definition requireSafeFhevmDebugConfiguration (debug : option string) : result unit :=
  fail_if (existsb (debugNamespaceEnabled debug) FORBIDDEN_HARDHAT_DEBUG_NAMESPACES)
    "SG2 sensitive Hardhat debug output is enabled; sensitive details suppressed.".

(** The launcher has the namespaces again, and the matcher, which is the same text. *)
Definition FORBIDDEN_DEBUG_NAMESPACES : list string := [
  "hardhat:sentry:subprocess"; "hardhat:core:hre"; "hardhat:core:config"; "hardhat:core:vars:varsManager";
  "hardhat:core:scripts-runner"; "hardhat:util:multi-process-mutex"; "hardhat:core:vars:varsManagerSetup";
  "hardhat:core:tasks:compile"; "hardhat:core:tasks:console"; "hardhat:core:tasks:run"; "hardhat:core:tasks:compile:cache";
  "hardhat:core:compilation-watcher"; "hardhat:util:request"; "hardhat:core:global-dir"; "hardhat:core:tasks:node";
  "hardhat:core:artifacts"; "hardhat:core:hardhat-network:provider"; "hardhat:core:hardhat-network:jsonrpc";
  "hardhat:core:analytics"; "hardhat:core:solidity:downloader"; "hardhat:util:banner-manager"; "hardhat:core:cli";
  "hardhat:cli:vars"; "hardhat:core:compilation-job"; "@fhevm/hardhat:provider"; "@fhevm/hardhat:instance";
  "@fhevm/hardhat:addresses"; "@fhevm/hardhat:env"; "@fhevm/hardhat:builtin-tasks"; "@fhevm/hardhat:setup"].
Definition forbiddenDebugEnabled (debugSelector : option string) : bool :=
  let patterns := selector_patterns debugSelector in
  let excluded := exclusions patterns in
  existsb (fun namespace =>
    if existsb (debugPatternMatches namespace) excluded then false
    else existsb (debugPatternMatches namespace) (inclusions patterns)) FORBIDDEN_DEBUG_NAMESPACES.

(** ** The command line of Hardhat *)
(** What Hardhat declares of its own options: the prefix, which names are options and
    whether they are flags, and the option of verbose output. *)
Class HardhatCli := {
  PARAM_PREFIX : string; HARDHAT_GLOBAL_OPTIONS : string -> option bool; HARDHAT_VERBOSE_OPTION : string
}.

Record HardhatCommandClassification := { hc_selectedTask : option string; hc_verbose : bool }.
Definition SG2_CAPABILITY_TASK_NAMES : list string := ["sg2:preflight"; "sg2:deploy"; "sg2:prepare"; "sg2:verify"].

Section command.
Context `{HardhatCli}.

(** [for (let index = 0; ...)]: the rest of the arguments, what was found before. *)
Fixpoint classify_arguments (argumentsList : list string) (selectedTask : option string) (verbose : bool) : HardhatCommandClassification :=
  let rejected := {| hc_selectedTask := None; hc_verbose := false |} in
  match argumentsList with
  | [] => {| hc_selectedTask := selectedTask; hc_verbose := verbose |}
  | argument :: rest =>
      if negb (startsWith PARAM_PREFIX argument) then
        classify_arguments rest (Some (default argument selectedTask)) verbose
      else
        match HARDHAT_GLOBAL_OPTIONS argument with
        | None => match selectedTask with None => rejected | Some _ => classify_arguments rest selectedTask verbose end
        | Some true => classify_arguments rest selectedTask (verbose || bool_decide (argument = HARDHAT_VERBOSE_OPTION))
        | Some false => match rest with [] => rejected | _ :: rest' => classify_arguments rest' selectedTask verbose end
        end
  end.

(** [verbose_variable] is the variable of the environment for the verbose option. *)
Definition classifyHardhatCommand (argumentsList : list string) (verbose_variable : option string) : HardhatCommandClassification :=
  classify_arguments argumentsList None (bool_decide (toLowerCase <$> verbose_variable = Some "true")).

Definition detectHardhatTaskArgument (argumentsList : list string) : option string :=
  hc_selectedTask (classifyHardhatCommand argumentsList None).

Definition guardSg2TaskBeforeConfiguration (argumentsList : list string) (verbose_variable : option string) (guard : result unit)
    : result bool :=
  let command := classifyHardhatCommand argumentsList verbose_variable in
  if match hc_selectedTask command with Some task => bool_decide (task ∈ SG2_CAPABILITY_TASK_NAMES) | None => false end then
    fail_if (hc_verbose command) "SG2 Hardhat verbose output is enabled; sensitive details suppressed." ;;
    guard ;;
    Ok true
  else Ok false.
End command.

(** * Properties *)

(** ** Patterns *)
(** The meaning of a pattern: a star is any characters, another character is itself. *)
Inductive glob : list ascii -> list ascii -> Prop :=
| glob_nil : glob [] []
| glob_char c p s : c <> star -> glob p s -> glob (c :: p) (c :: s)
| glob_star_end p s : glob p s -> glob (star :: p) s
| glob_star_more p c s : glob (star :: p) s -> glob (star :: p) (c :: s).

Lemma glob_star p s : glob (star :: p) s <-> exists k, k <= length s /\ glob p (drop k s).
Proof.
  split.
  - remember (star :: p) as q eqn:Eq. induction 1 as [|c p' s Hc _ _|p' s H _|p' c s H IH]; simplify_eq.
    + exists 0. split; [lia|done].
    + destruct (IH eq_refl) as (k & Hk & Hg). exists (S k). split; [cbn; lia|done].
  - intros (k & Hk & Hg). revert s Hk Hg. induction k as [|k IH]; intros s Hk Hg; [by constructor|].
    destruct s as [|c s]; [cbn in Hk; lia|]. apply glob_star_more, IH; [cbn in Hk; lia|done].
Qed.

Lemma only_stars_glob p : only_stars p = true <-> glob p [].
Proof.
  induction p as [|c p IH]; cbn [only_stars]; [split; [constructor|done]|]. rewrite andb_true_iff, Ascii.eqb_eq. split.
  - intros [-> Hp%IH]. by constructor.
  - intros H. inversion H; subst; naive_solver.
Qed.

(** Characters that are no stars match themselves. *)
Lemma glob_literal l p s :
  Forall (.≠ star) l -> glob (l ++ p) s -> length l <= length s /\ glob p (drop (length l) s).
Proof.
  intros Hl. revert s. induction Hl as [|c l Hc Hl IH]; intros s; cbn [app length].
  { intros Hg. split; [lia|done]. }
  intros Hg. inversion Hg as [|c' p' s' Hc' Hg'| |]; subst; try done. destruct (IH _ Hg') as [Hle Hd]. split; [cbn; lia|done].
Qed.

Section matching.
Variables n p : list ascii.
Implicit Types s : MatchState.

(** Another place after the last wildcard. *)
Definition later s : Prop :=
  exists wildcard k, ms_wildcardIndex s = Some wildcard /\ ms_wildcardMatchIndex s < k <= length n /\ glob (drop (S wildcard) p) (drop k n).
Definition answer s : Prop := glob (drop (ms_patternIndex s) p) (drop (ms_namespaceIndex s) n) \/ later s.

(** What the indices satisfy: since the last wildcard both moved over the same number of
    characters, none of them a star. *)
Definition aligned s : Prop :=
  ms_namespaceIndex s <= length n /\ ms_patternIndex s <= length p /\ ms_wildcardMatchIndex s <= ms_namespaceIndex s /\
  forall wildcard, ms_wildcardIndex s = Some wildcard -> S wildcard <= length p /\
    exists literal, drop (S wildcard) p = literal ++ drop (ms_patternIndex s) p /\ Forall (.≠ star) literal /\
      length literal + ms_wildcardMatchIndex s = ms_namespaceIndex s.

Definition steps_left s : nat := (length n - ms_wildcardMatchIndex s) * S (length p) + (length p - ms_patternIndex s).

Lemma later_at_end s : aligned s -> ms_namespaceIndex s = length n -> ~ later s.
Proof.
  intros (_ & _ & _ & Ha) En (w & k & Ew & [Hk Hk'] & Hg). destruct (Ha _ Ew) as (Hw & l & El & Hl & Hlen).
  rewrite El in Hg. apply glob_literal in Hg as [Hle _]; [|done]. rewrite length_drop in Hle. lia.
Qed.

(** A later place is no better once the pattern reached another star. *)
Lemma later_at_star s q :
  aligned s -> drop (ms_patternIndex s) p = star :: q -> later s -> glob (star :: q) (drop (ms_namespaceIndex s) n).
Proof.
  intros (_ & _ & _ & Ha) Eq (w & k & Ew & [Hk Hk'] & Hg). destruct (Ha _ Ew) as (Hw & l & El & Hl & Hlen).
  rewrite El, Eq in Hg. apply glob_literal in Hg as [Hle Hg]; [|done]. rewrite length_drop in Hle. rewrite drop_drop in Hg.
  apply glob_star in Hg as (j & Hj & Hg). apply glob_star. rewrite drop_drop in Hg. rewrite length_drop in Hj.
  exists (k + length l + j - ms_namespaceIndex s). rewrite length_drop, drop_drop. split; [lia|].
  by replace (ms_namespaceIndex s + (k + length l + j - ms_namespaceIndex s)) with (k + length l + j) by lia.
Qed.

Definition star_state s : MatchState :=
  {| ms_namespaceIndex := ms_namespaceIndex s; ms_patternIndex := S (ms_patternIndex s); ms_wildcardIndex := Some (ms_patternIndex s);
     ms_wildcardMatchIndex := ms_namespaceIndex s |}.
Definition char_state s : MatchState :=
  {| ms_namespaceIndex := S (ms_namespaceIndex s); ms_patternIndex := S (ms_patternIndex s); ms_wildcardIndex := ms_wildcardIndex s;
     ms_wildcardMatchIndex := ms_wildcardMatchIndex s |}.
Definition retry_state s (wildcard : nat) : MatchState :=
  {| ms_namespaceIndex := S (ms_wildcardMatchIndex s); ms_patternIndex := S wildcard; ms_wildcardIndex := Some wildcard;
     ms_wildcardMatchIndex := S (ms_wildcardMatchIndex s) |}.

Lemma star_step s d :
  aligned s -> n !! ms_namespaceIndex s = Some d -> p !! ms_patternIndex s = Some star ->
  aligned (star_state s) /\ (answer (star_state s) <-> answer s) /\ steps_left (star_state s) < steps_left s.
Proof.
  intros Ha Ed Ec. pose proof (lookup_lt_Some _ _ _ Ed) as Hd. pose proof (lookup_lt_Some _ _ _ Ec) as Hc.
  pose proof (drop_S _ _ _ Ec) as Ep. pose proof Ha as (H1 & H2 & H3 & H4). split_and!.
  - split_and!; cbn; try lia. intros w [= <-]. split; [lia|]. exists []. split_and!; [done|constructor|done].
  - unfold answer. cbn [star_state ms_patternIndex ms_namespaceIndex]. rewrite Ep. split.
    + intros [Hg|(w & k & [= <-] & [Hk Hk'] & Hg)]; left; apply glob_star.
      * exists 0. split; [lia|]. by rewrite drop_drop, Nat.add_0_r.
      * cbn [star_state ms_wildcardMatchIndex] in Hk. exists (k - ms_namespaceIndex s). rewrite length_drop, drop_drop.
        replace (ms_namespaceIndex s + (k - ms_namespaceIndex s)) with k by lia. split; [lia|done].
    + intros Hs. assert (Hg : glob (star :: drop (S (ms_patternIndex s)) p) (drop (ms_namespaceIndex s) n))
        by (destruct Hs as [Hg|Hl]; [done|by apply later_at_star]).
      apply glob_star in Hg as ([|k] & Hk & Hg); rewrite drop_drop in Hg; rewrite length_drop in Hk.
      * left. by rewrite Nat.add_0_r in Hg.
      * right. exists (ms_patternIndex s), (ms_namespaceIndex s + S k). cbn. split_and!; [done|lia|lia|done].
  - unfold steps_left. cbn. nia.
Qed.

Lemma char_step s d :
  aligned s -> n !! ms_namespaceIndex s = Some d -> p !! ms_patternIndex s = Some d -> d <> star ->
  aligned (char_state s) /\ (answer (char_state s) <-> answer s) /\ steps_left (char_state s) < steps_left s.
Proof.
  intros Ha Ed Ec Hs. pose proof (lookup_lt_Some _ _ _ Ed) as Hd. pose proof (lookup_lt_Some _ _ _ Ec) as Hc.
  pose proof (drop_S _ _ _ Ec) as Ep. pose proof (drop_S _ _ _ Ed) as En. destruct Ha as (H1 & H2 & H3 & H4). split_and!.
  - split_and!; cbn; try lia. intros w Ew. destruct (H4 w Ew) as (Hw & l & El & Hl & Hlen). split; [done|].
    exists (l ++ [d]). split_and!.
    + by rewrite El, Ep, <- app_assoc.
    + apply Forall_app. by split; [|constructor; [|constructor]].
    + rewrite length_app. cbn. lia.
  - unfold answer. cbn [char_state ms_patternIndex ms_namespaceIndex]. rewrite Ep, En. apply or_iff_compat_r. split; [by constructor|].
    intros Hg. inversion Hg; subst; done.
  - unfold steps_left. cbn. lia.
Qed.

Lemma retry_step s d w :
  aligned s -> n !! ms_namespaceIndex s = Some d -> ms_wildcardIndex s = Some w ->
  ~ glob (drop (ms_patternIndex s) p) (drop (ms_namespaceIndex s) n) ->
  aligned (retry_state s w) /\ (answer (retry_state s w) <-> answer s) /\ steps_left (retry_state s w) < steps_left s.
Proof.
  intros (H1 & H2 & H3 & H4) Ed Ew Hno. pose proof (lookup_lt_Some _ _ _ Ed) as Hd. destruct (H4 w Ew) as (Hw & l & El & Hl & Hlen).
  split_and!.
  - split_and!; cbn; try lia. intros w' [= <-]. split; [done|]. exists []. split_and!; [done|constructor|done].
  - unfold answer. cbn [retry_state ms_patternIndex ms_namespaceIndex]. split.
    + intros [Hg|(w' & k & [= <-] & [Hk Hk'] & Hg)]; right; exists w.
      * exists (S (ms_wildcardMatchIndex s)). split_and!; [done|lia|lia|done].
      * cbn in Hk. exists k. split_and!; [done|lia|lia|done].
    + intros [Hg|(w' & k & Ew' & [Hk Hk'] & Hg)]; [done|]. rewrite Ew in Ew'. injection Ew' as <-.
      destruct (decide (k = S (ms_wildcardMatchIndex s))) as [->|Hne]; [by left|]. right. exists w, k. cbn. split_and!; [done|lia|lia|done].
  - unfold steps_left. cbn. nia.
Qed.

Lemma no_match s d :
  n !! ms_namespaceIndex s = Some d -> (forall c, p !! ms_patternIndex s = Some c -> accepts c d = false) ->
  ~ glob (drop (ms_patternIndex s) p) (drop (ms_namespaceIndex s) n).
Proof.
  intros Ed Hc Hg. rewrite (drop_S _ _ _ Ed) in Hg. destruct (p !! ms_patternIndex s) as [c|] eqn:Ec.
  - specialize (Hc c eq_refl). unfold accepts in Hc. rewrite (drop_S _ _ _ Ec) in Hg.
    inversion Hg; subst; by rewrite ?Ascii.eqb_refl, ?orb_true_r in Hc.
  - rewrite drop_ge in Hg by by apply lookup_ge_None. inversion Hg.
Qed.

(** With as much fuel as there are steps left, the loop ends with the answer. *)
Lemma match_loop_answer fuel s :
  aligned s -> steps_left s < fuel -> exists b, match_loop fuel n p s = Some b /\ (b = true <-> answer s).
Proof.
  revert s. induction fuel as [|fuel IH]; intros s Ha Hf; [lia|]. cbn [match_loop].
  assert (Hnext : forall s', aligned s' /\ (answer s' <-> answer s) /\ steps_left s' < steps_left s ->
            exists b, match_loop fuel n p s' = Some b /\ (b = true <-> answer s)).
  { intros s' (Ha' & He & Hlt). destruct (IH s' Ha') as (b & Eb & Hb); [lia|]. exists b. split; [done|]. by rewrite Hb. }
  destruct (n !! ms_namespaceIndex s) as [d|] eqn:Ed.
  - assert (Hretry : (forall c, p !! ms_patternIndex s = Some c -> accepts c d = false) ->
      exists b, match ms_wildcardIndex s with Some w => match_loop fuel n p (retry_state s w) | None => Some false end = Some b /\
        (b = true <-> answer s)).
    { intros Hc. pose proof (no_match s d Ed Hc) as Hno. destruct (ms_wildcardIndex s) as [w|] eqn:Ew; [by eapply Hnext, retry_step|].
      exists false. split; [done|]. split; [done|]. intros [Hg|(w & k & Ew' & _)]; [done|]. by rewrite Ew in Ew'. }
    destruct (p !! ms_patternIndex s) as [c|] eqn:Ec; [|apply Hretry; intros c' E'; done].
    destruct (accepts c d) eqn:Eacc; [|apply Hretry; by intros c' [= <-]].
    destruct (Ascii.eqb_spec c star) as [->|Hs]; [by eapply Hnext, star_step|].
    unfold accepts in Eacc. apply orb_true_iff in Eacc as [->%Ascii.eqb_eq|E%Ascii.eqb_eq]; [|done].
    by eapply Hnext, char_step.
  - pose proof Ha as (H1 & _). apply lookup_ge_None in Ed. assert (En : ms_namespaceIndex s = length n) by lia.
    eexists. split; [done|]. rewrite only_stars_glob. unfold answer. rewrite En, drop_all. split; [by left|].
    intros [Hg|Hl]; [done|]. by apply later_at_end in Hl.
Qed.
End matching.

Lemma match_run_glob namespace pattern :
  exists b, match_run namespace pattern = Some b /\
    (b = true <-> glob (String.list_ascii_of_string pattern) (String.list_ascii_of_string namespace)).
Proof.
  unfold match_run. cbv zeta. set (n := String.list_ascii_of_string namespace). set (p := String.list_ascii_of_string pattern).
  match goal with |- context [match_loop _ _ _ ?s] => destruct (match_loop_answer n p (match_fuel n p) s) as (b & Eb & Hb) end.
  - split_and!; cbn; try lia. by intros.
  - unfold match_fuel, steps_left. cbn [ms_wildcardMatchIndex ms_patternIndex]. nia.
  - exists b. split; [done|]. rewrite Hb. unfold answer. cbn [ms_patternIndex ms_namespaceIndex]. rewrite !drop_0. split; [|by left].
    intros [Hg|(w & k & Ew & _)]; [done|]. done.
Qed.

Lemma debugPatternMatches_glob namespace pattern :
  debugPatternMatches namespace pattern = true <->
  glob (String.list_ascii_of_string pattern) (String.list_ascii_of_string namespace).
Proof. unfold debugPatternMatches. destruct (match_run_glob namespace pattern) as (b & -> & Hb). done. Qed.

(** ** Selectors *)
(** A selector enables a namespace: one of its patterns means it and no exclusion does. *)
Definition enables (debugSelector : option string) (namespace : string) : Prop :=
  let means pattern := glob (String.list_ascii_of_string pattern) (String.list_ascii_of_string namespace) in
  (exists pattern, pattern ∈ selector_patterns debugSelector /\ is_exclusion pattern = false /\ means pattern) /\
  (forall pattern, pattern ∈ selector_patterns debugSelector -> is_exclusion pattern = true -> ~ means (without_first pattern)).

Lemma debugNamespaceEnabled_enables debugSelector namespace :
  debugNamespaceEnabled debugSelector namespace = true <-> enables debugSelector namespace.
Proof.
  unfold debugNamespaceEnabled, enables, exclusions, inclusions.
  assert (Hex : existsb (debugPatternMatches namespace) (map without_first (List.filter is_exclusion (selector_patterns debugSelector))) = true <->
    exists pattern, pattern ∈ selector_patterns debugSelector /\ is_exclusion pattern = true /\
      glob (String.list_ascii_of_string (without_first pattern)) (String.list_ascii_of_string namespace)).
  { rewrite existsb_exists. setoid_rewrite in_map_iff. setoid_rewrite filter_In. setoid_rewrite debugPatternMatches_glob.
    setoid_rewrite list_elem_of_In. naive_solver. }
  destruct (existsb (debugPatternMatches namespace) (map _ _)) eqn:Ee.
  - split; [done|]. intros [_ Hno]. apply proj1 in Hex. destruct (Hex eq_refl) as (pattern & H1 & H2 & H3). by destruct (Hno pattern).
  - rewrite existsb_exists. setoid_rewrite filter_In. setoid_rewrite debugPatternMatches_glob. setoid_rewrite list_elem_of_In.
    setoid_rewrite negb_true_iff. split.
    + intros (pattern & [H1 H2] & H3). split; [by exists pattern|]. intros q Hq Eq Hm. apply proj2 in Hex.
      discriminate Hex. exists q. rewrite list_elem_of_In. by split_and!.
    + intros [(pattern & H1 & H2 & H3) _]. by exists pattern.
Qed.

(** C26: debug output is refused exactly when it would be printed.  The matcher of patterns
    ends on every input and gives what the pattern means; so the configuration is accepted
    exactly when no forbidden namespace is meant by a pattern of the selector or one that
    means it is excluded again, and the launcher's own copy of the check agrees. *)
Theorem requireSafe_exact debugSelector :
  (forall namespace pattern, is_Some (match_run namespace pattern)) /\
  (requireSafeFhevmDebugConfiguration debugSelector = Ok tt <->
     forall namespace, namespace ∈ FORBIDDEN_HARDHAT_DEBUG_NAMESPACES -> ~ enables debugSelector namespace) /\
  (forbiddenDebugEnabled debugSelector = false <-> requireSafeFhevmDebugConfiguration debugSelector = Ok tt).
Proof.
  split; [intros n p; by destruct (match_run_glob n p) as (b & -> & _)|]. unfold requireSafeFhevmDebugConfiguration. rewrite fail_if_Ok. split; [|done].
  generalize FORBIDDEN_HARDHAT_DEBUG_NAMESPACES. intros namespaces.
  rewrite <- not_true_iff_false, existsb_exists. setoid_rewrite <- debugNamespaceEnabled_enables. setoid_rewrite list_elem_of_In.
  naive_solver.
Qed.
