(* ===== verification/Sg2Bootstrap.v ===== *)
(** * Who may run a task of the second gate: scripts/sg2-bootstrap-state.cjs, scripts/sg2-launcher.cjs

    The launcher makes one session for one action; its capability lets the tasks run once,
    and is revoked at the end.  The registry of capabilities is state private to a module:
    other code reaches it only by the functions the module exports, so what other code
    does to it is a list of operations, any list.  [dispatch_once]: in every such list at
    most one capability is consumed, once, for the action it was made for, before it is
    revoked.  [launch_closes]: after a launch, however it ended, nothing more is
    authorised, and what it reports is one of its fixed messages. *)
From Stdlib Require Import ZArith Lia Ascii.
From stdpp Require Import base option list sets strings.
From S2P Require Import Prelude GasPolicy Sg2Debug.

Definition AUTHORIZATION_ERROR : string := "SG2 process-local authorization failed; sensitive details suppressed.".
Definition TRUSTED_ROOT : string := "/home/dell/zama-szn4".
Definition SG2_TASK_NAMES : list string := ["sg2:preflight"; "sg2:deploy"; "sg2:prepare"; "sg2:verify"].

Definition failAuthorization {A} : result A := throw_new AUTHORIZATION_ERROR.

(** ** Loading the module *)
(** [realpathSync.native]: [None] when it throws. *)
Definition FileSystem : Type := string -> option string.
Definition realPath (fs : FileSystem) (path : string) : result string :=
  match fs path with Some real => Ok real | None => failAuthorization end.
Definition script (name : string) : string := TRUSTED_ROOT +:+ "/scripts/" +:+ name.

(** [typeof filename === "string" && realPath(filename) === trustedLauncher] *)
Definition is_launcher (fs : FileSystem) (trustedLauncher : string) (filename : option string) : result bool :=
  match filename with
  | None => Ok false
  | Some filename => real ← realPath fs filename; Ok (bool_decide (real = trustedLauncher))
  end.

(** The code at the top of the module: the path of the launcher, and whether sessions may be
    made at all.  [parent] and [main] are the files that load it and that the process runs. *)
Definition load_registry_module (fs : FileSystem) (filename : string) (parent main : option string) : result (string * bool) :=
  trustedRoot ← realPath fs TRUSTED_ROOT;
  fail_if (negb (bool_decide (trustedRoot = TRUSTED_ROOT))) AUTHORIZATION_ERROR ;;
  trustedLauncher ← realPath fs (script "sg2-launcher.cjs");
  trustedState ← realPath fs (script "sg2-bootstrap-state.cjs");
  (if negb (bool_decide (trustedLauncher = script "sg2-launcher.cjs")) || negb (bool_decide (trustedState = script "sg2-bootstrap-state.cjs"))
   then failAuthorization
   else real ← realPath fs filename; fail_if (negb (bool_decide (real = trustedState))) AUTHORIZATION_ERROR) ;;
  by_parent ← is_launcher fs trustedLauncher parent;
  if negb by_parent then Ok (trustedLauncher, false)
  else by_main ← is_launcher fs trustedLauncher main; Ok (trustedLauncher, by_main).

(** ** The registry *)
(** A capability is an object without properties, known by its identity: the number of the
    object among those the module made. *)
Inductive Value : Type := AnObject (identity : nat) | NotAnObject.

Record CapabilityRecord := { cr_action : string; cr_consumed : bool; cr_revoked : bool }.
Record Registry := {
  rg_capabilityRecords : list CapabilityRecord; rg_activeAction : option string; rg_establishmentOccurred : bool
}.
Definition initial_registry : Registry :=
  {| rg_capabilityRecords := []; rg_activeAction := None; rg_establishmentOccurred := false |}.

Definition set_record (identity : nat) (record : CapabilityRecord) (s : Registry) : Registry :=
  {| rg_capabilityRecords := <[identity := record]> (rg_capabilityRecords s); rg_activeAction := rg_activeAction s;
     rg_establishmentOccurred := rg_establishmentOccurred s |}.

Section registry.
(** The process: paths, the main file, and what loading the module gave. *)
Context (fs : FileSystem) (main : option string) (trustedLauncher : string) (launcherFactoryEnabled : bool).

Definition requireCanonicalLauncherMain : result unit :=
  by_main ← is_launcher fs trustedLauncher main;
  fail_if (negb by_main) AUTHORIZATION_ERROR.

(** The capability that is made; the task may be no text (see [task_of_action]). *)
Definition createLauncherSession (action : option string) : method Registry nat :=
  lift requireCanonicalLauncherMain ;;
  s ← get;
  match action with
  | None => lift failAuthorization
  | Some action =>
      throw_if (negb launcherFactoryEnabled || negb (bool_decide (action ∈ SG2_TASK_NAMES)) || rg_establishmentOccurred s ||
                negb (bool_decide (rg_activeAction s = None))) AUTHORIZATION_ERROR ;;
      put {| rg_capabilityRecords := rg_capabilityRecords s ++ [{| cr_action := action; cr_consumed := false; cr_revoked := false |}];
             rg_activeAction := Some action; rg_establishmentOccurred := true |} ;;
      mret (length (rg_capabilityRecords s))
  end.

(** The functions of the session of a capability. *)
Definition readAction (session : nat) : method Registry string :=
  s ← get;
  match rg_capabilityRecords s !! session with
  | None => lift failAuthorization
  | Some record =>
      throw_if (cr_revoked record || negb (bool_decide (rg_activeAction s = Some (cr_action record)))) AUTHORIZATION_ERROR ;;
      mret (cr_action record)
  end.
Definition revoke (session : nat) : method Registry unit :=
  s ← get;
  match rg_capabilityRecords s !! session with
  | None => lift failAuthorization
  | Some record =>
      if cr_revoked record then mret tt
      else
        let s' := set_record session {| cr_action := cr_action record; cr_consumed := true; cr_revoked := true |} s in
        put {| rg_capabilityRecords := rg_capabilityRecords s';
               rg_activeAction := if bool_decide (rg_activeAction s = Some (cr_action record)) then None else rg_activeAction s;
               rg_establishmentOccurred := rg_establishmentOccurred s |}
  end.

Definition consumeDispatchCapability (capability : Value) (action : string) : method Registry unit :=
  match capability with
  | NotAnObject => lift failAuthorization
  | AnObject identity =>
      throw_if (negb (bool_decide (action ∈ SG2_TASK_NAMES))) AUTHORIZATION_ERROR ;;
      s ← get;
      match rg_capabilityRecords s !! identity with
      | None => lift failAuthorization
      | Some record =>
          throw_if (cr_revoked record || cr_consumed record || negb (bool_decide (cr_action record = action)) ||
                    negb (bool_decide (rg_activeAction s = Some action))) AUTHORIZATION_ERROR ;;
          put (set_record identity {| cr_action := cr_action record; cr_consumed := true; cr_revoked := cr_revoked record |} s)
      end
  end.

Definition peekAuthorizedAction : method Registry (option string) := gets rg_activeAction.

(** What code in the process can do to the registry. *)
Inductive Operation : Type :=
| CreateSession (action : option string) | ReadAction (session : nat) | Revoke (session : nat)
| Consume (capability : Value) (action : string) | Peek.
Definition operate (operation : Operation) : method Registry unit :=
  match operation with
  | CreateSession action => createLauncherSession action ;; mret tt
  | ReadAction session => readAction session ;; mret tt
  | Revoke session => revoke session
  | Consume capability action => consumeDispatchCapability capability action
  | Peek => peekAuthorizedAction ;; mret tt
  end.

(** A history: the operations in order, each with whether it succeeded. *)
Definition History : Type := list (Operation * bool).
Fixpoint run_operations (operations : list Operation) (s : Registry) : History * Registry :=
  match operations with
  | [] => ([], s)
  | operation :: operations' =>
      let '(r, s1) := operate operation s in
      let '(history, s2) := run_operations operations' s1 in
      ((operation, is_ok r) :: history, s2)
  end.
End registry.

(** ** The launcher *)
Definition SG2_SECURE_LAUNCH_MARKER : string := "SG2_SECURE_LAUNCH".
Definition SEPOLIA_NETWORK_NAME : string := "sepolia".
Definition VERBOSE_ERROR : string := "SG2 launcher rejected Hardhat verbose mode; sensitive details suppressed.".
Definition DEBUG_ERROR : string := "SG2 launcher rejected unsafe debug configuration; sensitive details suppressed.".
Definition ARGUMENT_ERROR : string := "SG2 launcher arguments are invalid; sensitive details suppressed.".
Definition BOOTSTRAP_ERROR : string := "SG2 launcher bootstrap failed; sensitive details suppressed.".
Definition HARDHAT_BOOTSTRAP_ERROR : string := "SG2 launcher Hardhat bootstrap failed; sensitive details suppressed.".
Definition DISPATCHER_LOADING_ERROR : string := "SG2 launcher dispatcher loading failed; sensitive details suppressed.".
Definition DISPATCH_ERROR : string := "SG2 launcher dispatch failed; sensitive details suppressed.".

(** [new LauncherValidationError(message)]; the name stands for the class. *)
Definition LauncherValidationError (message : string) : js_error := JsError true "LauncherValidationError" None message.
Definition is_validation_error (e : js_error) : bool := bool_decide (err_name e = "LauncherValidationError").
Definition refuse {A} (message : string) : result A := Throw (LauncherValidationError message).
Definition refuse_if (c : bool) (message : string) : result unit := if c then refuse message else Ok tt.

(** The launcher's [realPath] and [resolveCanonicalProjectPaths]: the paths are the constants. *)
Definition launcher_realPath (fs : FileSystem) (path : string) : result string :=
  match fs path with Some real => Ok real | None => refuse AUTHORIZATION_ERROR end.
Definition resolveCanonicalProjectPaths (fs : FileSystem) (cwd : string) : result unit :=
  root ← launcher_realPath fs TRUSTED_ROOT;
  (if negb (bool_decide (root = TRUSTED_ROOT)) then refuse AUTHORIZATION_ERROR
   else here ← launcher_realPath fs cwd; refuse_if (negb (bool_decide (here = TRUSTED_ROOT))) AUTHORIZATION_ERROR) ;;
  launcher ← launcher_realPath fs (script "sg2-launcher.cjs");
  state ← launcher_realPath fs (script "sg2-bootstrap-state.cjs");
  tasks ← launcher_realPath fs (TRUSTED_ROOT +:+ "/tasks/sg2.ts");
  refuse_if (negb (bool_decide (launcher = script "sg2-launcher.cjs")) || negb (bool_decide (state = script "sg2-bootstrap-state.cjs")) ||
             negb (bool_decide (tasks = TRUSTED_ROOT +:+ "/tasks/sg2.ts"))) AUTHORIZATION_ERROR.

(** The code at the top of the launcher: the registry module it loaded, if it did. *)
Definition bootstrap (fs : FileSystem) (cwd filename : string) (main : option string) : option (string * bool) :=
  match (resolveCanonicalProjectPaths fs cwd ;; real ← launcher_realPath fs filename;
         refuse_if (negb (bool_decide (real = script "sg2-launcher.cjs"))) AUTHORIZATION_ERROR ;;
         load_registry_module fs (script "sg2-bootstrap-state.cjs") (Some filename) main) with
  | Ok loaded => Some loaded
  | Throw _ => None
  end.

(** [requireCanonicalBootstrap(true)] *)
Definition requireCanonicalBootstrap (fs : FileSystem) (main : option string) (loaded : option (string * bool)) : result (string * bool) :=
  match loaded, main with
  | None, _ | _, None => refuse AUTHORIZATION_ERROR
  | Some module, Some filename =>
      real ← launcher_realPath fs filename;
      refuse_if (negb (bool_decide (real = script "sg2-launcher.cjs"))) AUTHORIZATION_ERROR ;;
      Ok module
  end.

(** The variables of the environment that the launcher reads and writes. *)
Record Environment := {
  en_DEBUG : option string; en_HARDHAT_VERBOSE : option string; en_HARDHAT_NETWORK : option string;
  en_SG2_SECURE_LAUNCH : option string
}.

Definition requireSafePreBootstrapEnvironment (argumentsList : list string) (environment : Environment) : result unit :=
  refuse_if (match en_HARDHAT_VERBOSE environment with
             | Some hardhatVerbose => negb (bool_decide (toLowerCase hardhatVerbose = "false"))
             | None => false
             end) VERBOSE_ERROR ;;
  refuse_if (bool_decide ("--verbose" ∈ argumentsList)) VERBOSE_ERROR ;;
  refuse_if (forbiddenDebugEnabled (en_DEBUG environment)) DEBUG_ERROR.

(** [ACTION_TO_TASK[action]]: [None] is undefined, [Some None] a property that every object
    inherits, which is no text. *)
Definition task_of_action (action : option string) : option (option string) :=
  match action with
  | None => None
  | Some action =>
      if bool_decide (action ∈ ["preflight"; "deploy"; "prepare"; "verify"]) then Some (Some ("sg2:" +:+ action))
      else if bool_decide (action ∈ objectPrototypeKeys) then Some None else None
  end.

Definition TaskArguments : Type := list (string * option string).
Record LaunchRequest := { lr_action : string; lr_taskArguments : TaskArguments; lr_taskName : option string }.

(** [/^0x[0-9a-fA-F]{40}$/u] *)
Definition installedAddressValidator (address : string) : bool := matches_hex 40 address.

Definition validateLaunchRequest (action : option string) (rawArguments : list string) (environment : Environment) : result LaunchRequest :=
  requireSafePreBootstrapEnvironment rawArguments environment ;;
  match task_of_action action with
  | None => refuse ARGUMENT_ERROR
  | Some taskName =>
      let action := default "" action in
      if bool_decide (action = "preflight") || bool_decide (action = "deploy") then
        refuse_if (negb (bool_decide (rawArguments = []))) ARGUMENT_ERROR ;;
        Ok {| lr_action := action; lr_taskArguments := []; lr_taskName := taskName |}
      else
        match rawArguments with
        | [dashes; option_name; address] =>
            refuse_if (negb (bool_decide (dashes = "--")) || negb (bool_decide (option_name = "--address"))) ARGUMENT_ERROR ;;
            refuse_if (negb (installedAddressValidator address)) ARGUMENT_ERROR ;;
            Ok {| lr_action := action; lr_taskArguments := [("address", Some (toLowerCase address))]; lr_taskName := taskName |}
        | _ => refuse ARGUMENT_ERROR
        end
  end.

(** The process while it launches: [la_world] is everything the loaded code acts on. *)
Record Launch (W : Type) := {
  la_registry : Registry; la_environment : Environment; la_processArguments : list string; la_world : W
}.
Arguments la_registry {W}.
Arguments la_environment {W}.
Arguments la_processArguments {W}.
Arguments la_world {W}.
Arguments Build_Launch {W}.

Section launch.
Context {W : Type}.
Definition on_registry {A} (m : method Registry A) : method (Launch W) A := fun s =>
  let '(r, registry) := m (la_registry s) in
  (r, {| la_registry := registry; la_environment := la_environment s; la_processArguments := la_processArguments s; la_world := la_world s |}).

(** Paths and files of the process, and the code it loads: Hardhat (whether what it gives
    is an object), the dispatcher, the task. *)
Context (fs : FileSystem) (cwd filename : string) (main : option string).
Context (loadHardhat : method (Launch W) bool) (loadDispatcher : method (Launch W) unit).
Context (dispatchSg2 : string -> TaskArguments -> Value -> method (Launch W) unit).

Definition mark_environment : method (Launch W) unit :=
  modify (fun s => {| la_registry := la_registry s;
    la_environment := {| en_DEBUG := en_DEBUG (la_environment s); en_HARDHAT_VERBOSE := en_HARDHAT_VERBOSE (la_environment s);
                         en_HARDHAT_NETWORK := Some SEPOLIA_NETWORK_NAME; en_SG2_SECURE_LAUNCH := Some "1" |};
    la_processArguments := take 2 (la_processArguments s); la_world := la_world s |}).

(** The [try] block of [executeLaunch]. *)
Definition launch_body (request : LaunchRequest) (session : nat) : method (Launch W) unit :=
  mark_environment ;;
  try_catch (hre ← loadHardhat; throw_if (negb hre) "invalid Hardhat runtime") (fun _ => lift (refuse HARDHAT_BOOTSTRAP_ERROR)) ;;
  try_catch loadDispatcher (fun _ => lift (refuse DISPATCHER_LOADING_ERROR)) ;;
  task ← on_registry (readAction session);
  throw_if (negb (bool_decide (Some task = lr_taskName request))) BOOTSTRAP_ERROR ;;
  try_catch (dispatchSg2 (lr_action request) (lr_taskArguments request) (AnObject session)) (fun _ => lift (refuse DISPATCH_ERROR)).

Definition executeLaunch (action : option string) (argumentsList : list string) : method (Launch W) unit :=
  s ← get;
  request ← lift (validateLaunchRequest action argumentsList (la_environment s));
  module ← lift (requireCanonicalBootstrap fs main (bootstrap fs cwd filename main));
  session ← on_registry (createLauncherSession fs main module.1 module.2 (lr_taskName request));
  try_finally
    (try_catch (launch_body request session)
       (fun error => if is_validation_error error then throw_in error else throw_in (new_Error BOOTSTRAP_ERROR)))
    (on_registry (revoke session)).

(** The code of exit, and the message that is written. *)
Definition runCli (action : option string) (argumentsList : list string) : method (Launch W) (Z * option string) :=
  try_catch (executeLaunch action argumentsList ;; mret (0%Z, None))
    (fun error => mret (1%Z, Some (if is_validation_error error then err_message error else BOOTSTRAP_ERROR))).
End launch.

(** * Properties *)
Definition created (entry : Operation * bool) : bool := match entry with (CreateSession _, true) => true | _ => false end.
Definition consumed (entry : Operation * bool) : bool := match entry with (Consume _ _, true) => true | _ => false end.

Section registry_properties.
Context (fs : FileSystem) (main : option string) (trustedLauncher : string) (launcherFactoryEnabled : bool).
Notation operate := (operate fs main trustedLauncher launcherFactoryEnabled).
Notation run_operations := (run_operations fs main trustedLauncher launcherFactoryEnabled).

(** The registry after a session was made: its one record, and what is active. *)
Definition one_session (action : string) (used closed : bool) : Registry :=
  {| rg_capabilityRecords := [{| cr_action := action; cr_consumed := used; cr_revoked := closed |}];
     rg_activeAction := if closed then None else Some action; rg_establishmentOccurred := true |}.

(** What a session that is made next allows. *)
Lemma operate_initial operation r s' :
  operate operation initial_registry = (r, s') ->
  (s' = initial_registry /\ created (operation, is_ok r) = false /\ consumed (operation, is_ok r) = false) \/
  (exists action, operation = CreateSession (Some action) /\ is_ok r = true /\ action ∈ SG2_TASK_NAMES /\
    launcherFactoryEnabled = true /\ is_launcher fs trustedLauncher main = Ok true /\ s' = one_session action false false).
Proof.
  destruct operation as [action|session|session|capability action|]; cbn [Sg2Bootstrap.operate]; try (by intros [= <- <-]; left).
  - unfold createLauncherSession, requireCanonicalLauncherMain.
    destruct (is_launcher fs trustedLauncher main) as [[]|]; [|by intros [= <- <-]; left..].
    destruct action as [action|]; [|by intros [= <- <-]; left]. destruct launcherFactoryEnabled; [|by intros [= <- <-]; left].
    unfold_method. cbn [negb orb initial_registry rg_establishmentOccurred rg_activeAction].
    case_bool_decide; cbn; [|by intros [= <- <-]; left]. intros [= <- <-]. right. by exists action.
  - destruct capability as [identity|]; [|by intros [= <- <-]; left]. unfold consumeDispatchCapability, throw_if, mbind, method_bind.
    destruct (negb _); by intros [= <- <-]; left.
Qed.

Ltac session_is used closed := intros [= <- <-]; split; [done|]; exists used, closed; split_and!; done || by intros.

(** Once it was made, no other is, and it is consumed at most while it is neither consumed
    nor revoked. *)
Lemma operate_session action used closed operation r s' :
  operate operation (one_session action used closed) = (r, s') ->
  created (operation, is_ok r) = false /\
  exists used' closed', s' = one_session action used' closed' /\ (closed = true -> closed' = true) /\
    (consumed (operation, is_ok r) = true -> operation = Consume (AnObject 0) action /\ used = false /\ closed = false /\ used' = true) /\
    (used = true -> used' = true) /\ (operation = Revoke 0 -> closed' = true).
Proof.
  destruct operation as [action'|session|session|capability action'|]; cbn [Sg2Bootstrap.operate created consumed].
  - unfold createLauncherSession. destruct (requireCanonicalLauncherMain _ _ _); [|session_is used closed].
    destruct action' as [action'|]; [|session_is used closed]. unfold_method. cbn [one_session rg_establishmentOccurred].
    rewrite orb_true_r. session_is used closed.
  - unfold readAction. unfold_method. destruct (rg_capabilityRecords _ !! session) as [record|]; [|session_is used closed].
    cbn. destruct (cr_revoked record || _); session_is used closed.
  - destruct session as [|session]; cbn; [|session_is used closed]. destruct closed; [session_is used true|].
    unfold revoke, mbind, method_bind. cbn. rewrite bool_decide_eq_true_2 by done. session_is true true.
  - destruct capability as [[|identity]|]; [| |session_is used closed]; unfold consumeDispatchCapability; unfold_method;
      (destruct (negb (bool_decide (action' ∈ _))); [session_is used closed|]); [|session_is used closed].
    cbn. destruct closed; [session_is used true|]. destruct used; [session_is true false|]. cbn.
    case_bool_decide as Ea; cbn; [subst action'|session_is false false].
    rewrite bool_decide_eq_true_2 by done. session_is true false.
  - session_is used closed.
Qed.

Lemma run_session operations action used closed h s' :
  run_operations operations (one_session action used closed) = (h, s') ->
  List.filter created h = [] /\ length (List.filter consumed h) <= (if used || closed then 0 else 1) /\
  (exists used' closed', s' = one_session action used' closed' /\ (closed = true -> closed' = true)) /\
  forall pre entry post, h = pre ++ entry :: post -> consumed entry = true ->
    entry.1 = Consume (AnObject 0) action /\ closed = false /\ (Revoke 0, true) ∉ pre.
Proof.
  revert used closed h s'. induction operations as [|operation operations IH]; intros used closed h s'; cbn [Sg2Bootstrap.run_operations].
  { intros [= <- <-]. split_and!; [done|cbn; lia|by exists used, closed|by intros []]. }
  destruct (operate operation _) as [r s1] eqn:E1. destruct (run_operations operations s1) as [h1 s2] eqn:E2. intros [= <- <-].
  destruct (operate_session _ _ _ _ _ _ E1) as (Hc & used1 & closed1 & -> & Hcl & Hcon & Hu & Hrev).
  destruct (IH _ _ _ _ E2) as (Hf & Hn & (used2 & closed2 & -> & Hcl2) & Hsplit). cbn [List.filter]. rewrite Hc. split_and!.
  - done.
  - destruct (consumed (operation, is_ok r)) eqn:Ec; cbn [length].
    + destruct (Hcon eq_refl) as (_ & -> & -> & ->). cbn in *. lia.
    + etransitivity; [exact Hn|]. destruct used1, closed1, used, closed; cbn; try lia.
      all: by (specialize (Hu eq_refl) || specialize (Hcl eq_refl)).
  - exists used2, closed2. naive_solver.
  - intros [|first pre] entry post Eh Hentry; cbn [app] in Eh; injection Eh as <- Eh.
    + destruct (Hcon Hentry) as (-> & _ & -> & _). split_and!; [done|done|]. by intros ?%elem_of_nil.
    + destruct (Hsplit _ _ _ Eh Hentry) as (He & -> & Hr). split_and!; [done|destruct closed; [by specialize (Hcl eq_refl)|done]|].
      intros [[= <-]|Hin]%elem_of_cons; [|done]. by specialize (Hrev eq_refl).
Qed.

(** A session that was revoked authorises nothing, whatever is done afterwards. *)
Lemma closed_forever operations action used h s' :
  run_operations operations (one_session action used true) = (h, s') ->
  Forall (fun entry => created entry = false /\ consumed entry = false) h /\ rg_activeAction s' = None.
Proof.
  intros E. destruct (run_session _ _ _ _ _ _ E) as (Hf & Hn & (u & c & -> & Hc) & _). rewrite orb_true_r in Hn.
  rewrite (Hc eq_refl). split; [|done].
  assert (Hf' : List.filter consumed h = []) by (apply nil_length_inv; lia). clear -Hf Hf'.
  induction h as [|entry h IH]; [constructor|]. cbn in *. destruct (created entry) eqn:?, (consumed entry) eqn:?; try done. constructor; auto.
Qed.

(** C24: an authorisation is used at most once.  Whatever code in the process does with the
    registry, at most one session is made and at most one capability is consumed; it is
    consumed for the action the session was made for, after it was made and before it was
    revoked, and only when the file that the process runs is the launcher. *)
Theorem dispatch_once operations :
  let h := (run_operations operations initial_registry).1 in
  length (List.filter created h) <= 1 /\ length (List.filter consumed h) <= 1 /\
  forall pre entry post, h = pre ++ entry :: post -> consumed entry = true ->
    exists action, entry.1 = Consume (AnObject 0) action /\ action ∈ SG2_TASK_NAMES /\
      (CreateSession (Some action), true) ∈ pre /\ (Revoke 0, true) ∉ pre /\
      launcherFactoryEnabled = true /\ is_launcher fs trustedLauncher main = Ok true.
Proof.
  cbv zeta. induction operations as [|operation operations IH]; cbn [Sg2Bootstrap.run_operations]; [cbn; split; [lia|split; [lia|by intros []]]|].
  destruct (operate operation initial_registry) as [r s1] eqn:E1. destruct (run_operations operations s1) as [h1 s2] eqn:E2. cbn [fst].
  destruct (operate_initial _ _ _ E1) as [(-> & Hc & Hu)|(action & -> & Hr & Ha & Hf & Hm & ->)].
  - rewrite E2 in IH. cbn [fst] in IH. destruct IH as (H1 & H2 & H3). cbn [List.filter]. rewrite Hc, Hu. split_and!; [done|done|].
    intros [|first pre] entry post Eh Hentry; cbn [app] in Eh; injection Eh as <- Eh; [by rewrite Hu in Hentry|].
    destruct (H3 _ _ _ Eh Hentry) as (action & He & Hin & Hcr & Hrev & Hfa & Hma). exists action. split_and!; try done; [by right|].
    intros [Eq|Hin']%elem_of_cons; [|done]. injection Eq as <- Er. cbn in E1. injection E1 as <-. done.
  - destruct (run_session _ _ _ _ _ _ E2) as (Hcr & Hn & _ & Hsplit). rewrite Hr. cbn [List.filter created consumed]. rewrite Hcr. cbn [length orb] in *.
    split_and!; [lia|done|]. intros [|first pre] entry post Eh Hentry; cbn [app] in Eh; injection Eh as <- Eh; [done|].
    destruct (Hsplit _ _ _ Eh Hentry) as (He & _ & Hrev). exists action. split_and!; try done; [by left|].
    by intros [?|?]%elem_of_cons.
Qed.
End registry_properties.

(** ** Launches *)
Definition LAUNCHER_MESSAGES : list string := [
  AUTHORIZATION_ERROR; VERBOSE_ERROR; DEBUG_ERROR; ARGUMENT_ERROR; BOOTSTRAP_ERROR; HARDHAT_BOOTSTRAP_ERROR; DISPATCHER_LOADING_ERROR;
  DISPATCH_ERROR].
(** A refusal of the launcher carries one of its messages. *)
Definition known (e : js_error) : Prop := is_validation_error e = true -> err_message e ∈ LAUNCHER_MESSAGES.

Lemma refuse_known {A} message (e : js_error) : message ∈ LAUNCHER_MESSAGES -> @refuse A message = Throw e -> known e.
Proof. by intros Hm [= <-] _. Qed.
Lemma refuse_if_known c message e : message ∈ LAUNCHER_MESSAGES -> refuse_if c message = Throw e -> known e.
Proof. unfold refuse_if. destruct c; [apply refuse_known|done]. Qed.
Lemma plain_known message : known (new_Error message).
Proof. done. Qed.
Lemma bind_known {A B} (r : result A) (k : A -> result B) e :
  (forall e, r = Throw e -> known e) -> (forall a e, k a = Throw e -> known e) -> (r ≫= k) = Throw e -> known e.
Proof. destruct r as [a|e']; cbn; [intros _ Hk; apply Hk|intros Hr _ [= <-]; by apply Hr]. Qed.

Ltac is_known_message := apply (bool_decide_unpack _); by vm_compute.
Ltac knows :=
  match goal with
  | |- (_ ≫= _) = Throw _ -> known _ => apply bind_known; [intros ?|intros ? ?]
  | |- refuse _ = Throw _ -> known _ => apply refuse_known; is_known_message
  | |- refuse_if _ _ = Throw _ -> known _ => apply refuse_if_known; is_known_message
  | |- Ok _ = Throw _ -> known _ => done
  | |- context [match ?x with _ => _ end] => destruct x
  end.

Lemma validateLaunchRequest_known action arguments environment e :
  validateLaunchRequest action arguments environment = Throw e -> known e.
Proof. unfold validateLaunchRequest, requireSafePreBootstrapEnvironment. repeat knows. Qed.

Lemma requireCanonicalBootstrap_known fs main loaded e : requireCanonicalBootstrap fs main loaded = Throw e -> known e.
Proof. unfold requireCanonicalBootstrap, launcher_realPath. repeat knows. Qed.

Section launches.
Context {W : Type} (fs : FileSystem) (cwd filename : string) (main : option string).
Context (module : string * bool).
Notation run_operations := (run_operations fs main module.1 module.2).
Implicit Types s : Launch W.

(** Code outside the registry's module acts on it by its operations only. *)
Definition through {A} (m : method (Launch W) A) : Prop :=
  forall s, wp m (fun _ s' => exists operations, la_registry s' = (run_operations operations (la_registry s)).2) s.

Definition in_session (action : string) s : Prop := exists used closed, la_registry s = one_session action used closed.

Lemma through_session {A} (m : method (Launch W) A) action s :
  through m -> in_session action s -> wp m (fun _ s' => in_session action s') s.
Proof.
  intros Hm (u & c & Es). eapply wp_mono; [apply Hm|]. intros _ s' (operations & E). rewrite Es in E.
  destruct (run_operations operations (one_session action u c)) as [h registry] eqn:Er.
  destruct (run_session _ _ _ _ _ _ _ _ _ _ Er) as (_ & _ & (u' & c' & -> & _) & _). by exists u', c'.
Qed.

(** What a part of a launch leaves: the session, and only known refusals. *)
Definition sound {A} action (r : result A) s : Prop := in_session action s /\ forall e, r = Throw e -> known e.

Lemma catch_sound (m : method (Launch W) unit) action message s :
  message ∈ LAUNCHER_MESSAGES -> wp m (fun _ s' => in_session action s') s ->
  wp (try_catch m (fun _ => lift (refuse message))) (sound action) s.
Proof.
  intros Hm Hw. apply wp_try_catch. eapply wp_mono; [exact Hw|]. intros [[]|e] s' Hs; [by split|].
  apply wp_lift. split; [done|]. intros e' E. by eapply refuse_known.
Qed.

Context (loadHardhat : method (Launch W) bool) (loadDispatcher : method (Launch W) unit).
Context (dispatchSg2 : string -> TaskArguments -> Value -> method (Launch W) unit).
Context (Hhardhat : through loadHardhat) (Hdispatcher : through loadDispatcher).
Context (Hdispatch : forall action arguments capability, through (dispatchSg2 action arguments capability)).

Lemma launch_body_sound request action s :
  in_session action s -> wp (launch_body loadHardhat loadDispatcher dispatchSg2 request 0) (sound action) s.
Proof.
  intros Hs. unfold launch_body. apply wp_bind. unfold mark_environment, modify, wp at 1. cbn beta iota.
  set (s0 := {| la_registry := _ |}). assert (H0 : in_session action s0) by exact Hs.
  apply wp_bind. eapply wp_mono; [apply catch_sound; [is_known_message|]|].
  { apply wp_bind. eapply wp_mono; [by apply through_session|]. intros [hre|e] s1 H1; [|done]. by apply wp_throw_if. }
  intros [[]|e] s1 [H1 Hk]; [|by split]. clear Hk.
  apply wp_bind. eapply wp_mono; [apply catch_sound; [is_known_message|by apply through_session]|].
  intros [[]|e] s2 [H2 Hk]; [|by split]. clear Hk. apply wp_bind.
  assert (Hread : wp (on_registry (readAction 0)) (sound action) s2).
  { destruct H2 as (u & c & E2). unfold wp, on_registry, readAction, mbind, method_bind, throw_if. rewrite E2. cbn.
    unfold throw_new. destruct (c || _); cbn; (split; [by exists u, c|]); [intros ? [= <-]; apply plain_known|done]. }
  eapply wp_mono; [exact Hread|]. intros [task|e] s3 [H3 Hk];
    [|split; [done|intros ? [= <-]; by apply Hk]]. clear Hk. apply wp_bind.
  apply wp_throw_if; intros _; [split; [done|intros ? [= <-]; apply plain_known]|].
  apply catch_sound; [is_known_message|]. by apply through_session.
Qed.

Lemma create_session task registry r :
  createLauncherSession fs main module.1 module.2 task initial_registry = (r, registry) ->
  (exists action, task = Some action /\ r = Ok 0 /\ registry = one_session action false false) \/
  (registry = initial_registry /\ exists e, r = Throw e /\ is_validation_error e = false).
Proof.
  assert (Hm : forall e, requireCanonicalLauncherMain fs main module.1 = Throw e -> is_validation_error e = false).
  { intros e. unfold requireCanonicalLauncherMain, is_launcher, realPath. destruct main as [file|]; [|by intros [= <-]].
    destruct (fs file) as [real|]; [|by intros [= <-]]. cbn. destruct (negb _); [by intros [= <-]|done]. }
  unfold createLauncherSession. destruct (requireCanonicalLauncherMain _ _ _) as [[]|e]; [|intros [= <- <-]; right; split; [done|eauto]].
  destruct task as [action|]; [|intros [= <- <-]; right; split; [done|by eexists]].
  unfold mbind, method_bind, throw_if, lift, get. destruct (_ || _); [intros [= <- <-]; right; split; [done|by eexists]|].
  intros [= <- <-]. left. by exists action.
Qed.

Definition launched (r : result unit) s : Prop :=
  (rg_activeAction (la_registry s) = None) /\
  (la_registry s = initial_registry \/ exists action used, la_registry s = one_session action used true) /\
  forall e, r = Throw e -> known e.

Lemma executeLaunch_launched action arguments s :
  bootstrap fs cwd filename main = Some module -> la_registry s = initial_registry ->
  wp (executeLaunch fs cwd filename main loadHardhat loadDispatcher dispatchSg2 action arguments) launched s.
Proof.
  intros Hb Hs. unfold executeLaunch. rewrite Hb. apply wp_bind. unfold get, wp at 1. cbn beta iota.
  assert (H0 : forall r : result unit, (forall e, r = Throw e -> known e) -> launched r s).
  { intros r Hr. split; [by rewrite Hs|]. split; [by left|done]. }
  apply wp_bind, wp_lift. destruct (validateLaunchRequest _ _ _) as [request|e] eqn:Ev;
    [|apply H0; intros ? [= <-]; by eapply validateLaunchRequest_known].
  apply wp_bind, wp_lift. destruct (requireCanonicalBootstrap _ _ _) as [m|e] eqn:Ec;
    [|apply H0; intros ? [= <-]; by eapply requireCanonicalBootstrap_known].
  assert (m = module) as ->.
  { revert Ec. unfold requireCanonicalBootstrap. destruct main as [file|]; [|done].
    intros E. apply result_bind_Ok in E as (? & _ & E). apply result_bind_Ok in E as (? & _ & E). by injection E as <-. }
  apply wp_bind. unfold wp at 1, on_registry at 1. rewrite Hs.
  destruct (createLauncherSession _ _ _ _ _ _) as [r registry] eqn:Er.
  destruct (create_session _ _ _ Er) as [(task & _ & -> & ->)|(-> & e & -> & He)];
    [|split; [done|]; split; [by left|]; intros ? [= <-] Hk; by rewrite He in Hk].
  set (s1 := {| la_registry := _ |}). assert (H1 : in_session task s1) by by exists false, false.
  apply wp_try_finally. eapply wp_mono with (P := sound task).
  { apply wp_try_catch. eapply wp_mono; [by apply launch_body_sound|]. intros [[]|e] s2 [H2 Hk]; [by split|].
    destruct (is_validation_error e) eqn:Ee; (split; [done|]); intros ? [= <-]; [by apply Hk|apply plain_known]. }
  intros r s2 [(u & c & E2) Hk]. unfold wp, on_registry, revoke. rewrite E2. unfold mbind, method_bind, get. cbn.
  destruct c; cbn; [split; [done|]; split; [right; by exists task, u|done]|]. rewrite bool_decide_eq_true_2 by done.
  split; [done|]. split; [right; by exists task, true|done].
Qed.
End launches.

(** C25: a launch closes what it opened.  However it ends, the launcher exits with 0 and no
    message or with 1 and one of its fixed messages; no action is authorised any more; and
    either no session was ever made, or no operation on the registry makes or consumes one
    again.  Loaded code may do anything to the registry that the module's functions do. *)
Theorem launch_closes {W} fs cwd filename main module (loadHardhat : method (Launch W) bool) loadDispatcher dispatchSg2 action arguments s r s' :
  bootstrap fs cwd filename main = Some module ->
  through fs main module loadHardhat -> through fs main module loadDispatcher ->
  (forall action arguments capability, through fs main module (dispatchSg2 action arguments capability)) ->
  la_registry s = initial_registry ->
  runCli fs cwd filename main loadHardhat loadDispatcher dispatchSg2 action arguments s = (r, s') ->
  (r = Ok (0%Z, None) \/ exists text, text ∈ LAUNCHER_MESSAGES /\ r = Ok (1%Z, Some text)) /\
  rg_activeAction (la_registry s') = None /\
  (la_registry s' = initial_registry \/
   forall operations, Forall (fun entry => created entry = false /\ consumed entry = false)
     (run_operations fs main module.1 module.2 operations (la_registry s')).1).
Proof.
  intros Hb Hh Hl Hd Hs E. revert E. unfold runCli, try_catch, mbind, method_bind, mret, method_ret.
  pose proof (executeLaunch_launched fs cwd filename main module loadHardhat loadDispatcher dispatchSg2 Hh Hl Hd action arguments s Hb Hs) as Hw.
  destruct (executeLaunch _ _ _ _ _ _ _ _ _ s) as [[[]|e] s1] eqn:E1; pose proof (wp_run _ _ _ _ _ Hw E1) as (Ha & Hr & Hk);
    intros [= <- <-]; (split; [|split; [done|]]).
  - by left.
  - destruct Hr as [|(task & u & ->)]; [by left|right]. intros operations. destruct (run_operations _ _ _ _ _ _) as [h s2] eqn:Er.
    by apply closed_forever in Er as [? _].
  - right. destruct (is_validation_error e) eqn:Ee; eexists; (split; [|done]); [by apply (Hk e)|is_known_message].
  - destruct Hr as [|(task & u & ->)]; [by left|right]. intros operations. destruct (run_operations _ _ _ _ _ _) as [h s2] eqn:Er.
    by apply closed_forever in Er as [? _].
Qed.

(** A checkout at its place, and a task that uses its capability. *)
Definition sample_fs : FileSystem := Some.
Definition sample_launcher : string := script "sg2-launcher.cjs".
Definition sample_task (action : string) (arguments : TaskArguments) (capability : Value) : method (Launch unit) unit :=
  on_registry (consumeDispatchCapability capability ("sg2:" +:+ action)).
Definition sample_launch : Launch unit :=
  {| la_registry := initial_registry; la_environment := {| en_DEBUG := Some "hardhat:*,-hardhat:*,-@fhevm*"; en_HARDHAT_VERBOSE := Some "false";
       en_HARDHAT_NETWORK := None; en_SG2_SECURE_LAUNCH := None |};
     la_processArguments := ["node"; "sg2-launcher.cjs"; "preflight"]; la_world := () |}.

Lemma through_operation {W} fs main module operation :
  through (W := W) fs main module (on_registry (operate fs main module.1 module.2 operation)).
Proof.
  intros s. unfold wp, on_registry. destruct (operate fs main module.1 module.2 operation (la_registry s)) as [r registry] eqn:E.
  exists [operation]. cbn. by rewrite E.
Qed.

Lemma launch_closes_witness :
  let run := runCli sample_fs TRUSTED_ROOT sample_launcher (Some sample_launcher) (mret true) (mret tt) sample_task (Some "preflight") [] sample_launch in
  run.1 = Ok (0%Z, None) /\
  forall operations, Forall (fun entry => created entry = false /\ consumed entry = false)
    (run_operations sample_fs (Some sample_launcher) sample_launcher true operations (la_registry run.2)).1.
Proof.
  cbv zeta. destruct (runCli _ _ _ _ _ _ _ _ _ _) as [r s'] eqn:E. pose proof E as E'. vm_compute in E'.
  destruct (launch_closes sample_fs TRUSTED_ROOT sample_launcher (Some sample_launcher) (sample_launcher, true) (mret true) (mret tt) sample_task
    (Some "preflight") [] sample_launch r s') as (_ & _ & [Hr|Hr]).
  - by vm_compute.
  - intros s. by exists [].
  - intros s. by exists [].
  - intros action arguments capability. exact (through_operation _ _ _ (Consume capability ("sg2:" +:+ action))).
  - done.
  - exact E.
  - injection E' as <- <-. discriminate Hr.
  - split; [by injection E' as <- <-|exact Hr].
Defined.
