(* ===== verification/GateTasks.v ===== *)
(** * What the gates' tasks share: tasks/sg2.ts, tasks/sg1.ts

    The tasks of the first and of the second gate on the Sepolia network: the same functions
    in both files, but for the name of the gate in their messages (the class [Gate]).  A task
    checks the repository, the network and the wallet, prepares one transaction, signs it
    itself, checks what it signed, and sends it.  Hardhat, ethers, the FHE plugin, git and the
    disk are the class [Hardhat]; what a task asks of them is recorded in order ([Event]).
    [send_exact_reaches]: what is sent is what was signed, directly after the repository was
    seen clean and at the commit it started from, on Sepolia, funded, with the fields that
    were prepared; every failure has a fixed text, or is that of ethers on a text that is no
    address ([getAddress] is called outside the functions that suppress). *)
From Stdlib Require Import ZArith Lia Ascii.
From stdpp Require Import base option list sets strings.
From S2P Require Import Prelude HcuJson HcuAbi.
Local Open Scope Z_scope.

(** The name of the gate, and a message of it. *)
Class Gate := gate : string.
Definition says `{Gate} (text : string) : string := gate +:+ " " +:+ text.

Definition SEPOLIA_CHAIN_ID : Z := 11155111.
Definition BASIS_POINTS : Z := 10000.
Definition GAS_BUFFER_BASIS_POINTS : Z := 2000.
Definition MAX_GAS_BUFFER : Z := 500000.
Definition RECEIPT_POLL_INTERVAL_MILLISECONDS : Z := 5000.
Definition RECEIPT_POLL_ATTEMPTS : nat := 120.
(** [/^[0-9a-f]{40}$/u] *)
Definition HASH_PATTERN (s : string) : bool := lower_hex 40 s.
Definition INSTALLED_PACKAGES : list string :=
  ["@fhevm/hardhat-plugin"; "@fhevm/solidity"; "@zama-fhe/relayer-sdk"; "hardhat"; "ethers"].

Record RepositoryIdentity := { ri_gitCommit : string; ri_gitTree : string }.
Record PublicBuildMetadata := {
  bm_identity : RepositoryIdentity; bm_packageVersions : list (string * string); bm_pnpmLockSha256 : string
}.

(** ** Transactions *)
(** An absent field is [None]; a field that is null is not made anywhere. *)
Record TransactionRequest := {
  tr_to : option string; tr_from : option string; tr_nonce : option Z; tr_chainId : option Z; tr_type : option Z;
  tr_gasLimit : option Z; tr_value : option Z; tr_data : option string; tr_gasPrice : option Z; tr_maxFeePerGas : option Z;
  tr_maxPriorityFeePerGas : option Z
}.

(** What the contract factory gives: the destination, the calldata if it is a text, and
    [toBigInt(value ?? 0n)]. *)
Inductive Destination : Type := NoDestination | DestinationText (address : string) | OtherDestination.
Record BaseRequest := { br_to : Destination; br_data : option string; br_value : result Z }.

Record FeeData := { fd_maxFeePerGas : option Z; fd_maxPriorityFeePerGas : option Z; fd_gasPrice : option Z }.
Record ParsedTransaction := {
  pt_isSigned : bool; pt_from : option string; pt_chainId : Z; pt_type : option Z; pt_nonce : Z; pt_gasLimit : Z; pt_value : Z;
  pt_data : string; pt_to : option string; pt_gasPrice : option Z; pt_maxFeePerGas : option Z; pt_maxPriorityFeePerGas : option Z
}.
(** The number of the block is [None] when it is no number. *)
Record Receipt := {
  rc_blockNumber : option js_number; rc_hash : string; rc_status : option Z; rc_to : option string; rc_contractAddress : option string
}.
Record Wallet := { wl_key : string; wl_address : string }.
Record PreparedTransaction := { px_feeCeilingPerGas : Z; px_signableRequest : TransactionRequest }.

(** ** Values of the FHE plugin *)
(** A value that is bytes for ethers, with its length. *)
Record Bytes := { bt_value : string; bt_dataLength : Z }.
(** The answer of the encryption: its handles if they are a list; a part that is no bytes is
    [None]. *)
Inductive EncryptedInputResult : Type :=
| NoEncryptedInput | EncryptedInput (handles : option (list (option Bytes))) (inputProof : option Bytes).
(** The declared type of an encryption; a handle beyond the list is [None]. *)
Record EncryptedValue := { ev_handles : list (option Bytes); ev_inputProof : Bytes }.
(** [clearValues[handle]] when it is a bigint. *)
Record PublicDecryption := {
  pd_clearValues : string -> option Z; pd_abiEncodedClearValues : string; pd_decryptionProof : string
}.

Record SG2State := {
  sg_ciphertext : string; sg_expectedValue : Z; sg_initialized : bool; sg_publiclyDecryptable : bool; sg_verificationSucceeded : bool;
  sg_verifiedValue : Z
}.

(** A package.json: the name and the version that are texts; no file is [None]. *)
Definition PackageFile : Type := option (option string * option string).

(** ** What the tasks call *)
Class Hardhat (W : Type) := {
  hr_networkName : string; hr_DEBUG : option string; hr_cwd : string;
  hr_git : list string -> method W string;
  hr_resolve : string -> result string; hr_readPackage : string -> result PackageFile; hr_lockfileSha256 : result string;
  hr_vars : string -> method W string; hr_parseUrl : string -> result (string * string);
  hr_isAddress : string -> bool; hr_getAddress : string -> result string; hr_isHexString : string -> bool;
  hr_isHexString32 : string -> bool; hr_dataLength : string -> result Z; hr_toNumber : Z -> result Z; hr_toBigInt : Z -> result Z;
  hr_ZeroHash : string; hr_keccak256 : string -> result string; hr_getCreateAddress : string -> Z -> result string;
  hr_parseTransaction : string -> result ParsedTransaction; hr_newWallet : string -> result string;
  hr_getNetwork : method W Z; hr_getSigners : method W (list string); hr_signerAddress : string -> method W string;
  hr_getTransactionCount : string -> method W Z; hr_getFeeData : method W FeeData; hr_estimateGas : TransactionRequest -> method W Z;
  hr_getBalance : string -> method W Z; hr_getCode : string -> method W string;
  hr_signTransaction : Wallet -> TransactionRequest -> method W string;
  hr_sendRawTransaction : string -> method W (option string); hr_getTransactionReceipt : string -> method W (option Receipt);
  hr_getContractFactory : string -> method W unit; hr_getDeployTransaction : string -> method W BaseRequest;
  hr_getContractAt : string -> string -> method W unit;
  hr_OPERATOR : string -> method W string; hr_getCiphertext : string -> method W string; hr_SG2_EXPECTED_VALUE : string -> method W Z;
  hr_initialized : string -> method W bool; hr_isCiphertextPubliclyDecryptable : string -> method W bool;
  hr_verificationSucceeded : string -> method W bool; hr_verifiedValue : string -> method W Z;
  hr_populateInitialize : string -> Bytes -> Bytes -> method W BaseRequest;
  hr_populateVerify : string -> string -> string -> method W BaseRequest;
  hr_initializeCLIApi : method W unit; hr_encrypt : string -> string -> Z -> method W EncryptedInputResult;
  hr_publicDecrypt : string -> method W PublicDecryption;
  hr_getCount : string -> method W string; hr_encrypt32 : string -> string -> Z -> method W EncryptedValue;
  hr_populateIncrement : string -> Bytes -> Bytes -> method W BaseRequest; hr_userDecryptEuint : string -> string -> method W Z;
  hr_now : W -> string * W; hr_delay : Z -> W -> W
}.

(** What a task did, with the answers. *)
Inductive Event : Type :=
| EGit (arguments : list string) (answer : result string)
| ENetwork (answer : result Z)
| ENonce (address : string) (answer : result Z)
| EEstimate (request : TransactionRequest) (answer : result Z)
| EBalance (address : string) (answer : result Z)
| EFlag (contract : string) (name : string) (answer : result bool)
| EState (contract : string) (state : SG2State)
| ECount (contract : string) (answer : result string)
| EDecrypted (handle : string) (answer : result Z)
| ESign (wallet : Wallet) (request : TransactionRequest) (answer : result string)
| EBroadcast (transaction : string) (answer : result (option string))
| EReceipt (hash : string) (answer : result (option Receipt))
| EPrinted (metadata : Json)
| EOther (call : string).

(** The world, what was done, and whether the functions that print are replaced. *)
Record TaskState (W : Type) := { ts_world : W; ts_events : list Event; ts_muted : bool }.
Arguments ts_world {W}.
Arguments ts_events {W}.
Arguments ts_muted {W}.
Arguments Build_TaskState {W}.

Section tasks.
Context {W : Type} `{Hardhat W, Gate}.
#[local] Notation Task := (method (TaskState W)).

Definition record_event (event : Event) : Task unit :=
  modify (fun s : TaskState W => {| ts_world := ts_world s; ts_events := ts_events s ++ [event]; ts_muted := ts_muted s |}).
(** A call, recorded with its answer. *)
Definition ask {A} (event : result A -> Event) (call : method W A) : Task A := fun s : TaskState W =>
  let '(r, w) := call (ts_world s) in
  (r, {| ts_world := w; ts_events := ts_events s ++ [event r]; ts_muted := ts_muted s |}).
(** The clock and the timer do not throw. *)
Definition total {A} (call : W -> A * W) : method W A := fun w => let '(a, w') := call w in (Ok a, w').
Definition ask_other {A} (name : string) (call : method W A) : Task A := ask (fun _ => EOther name) call.

Definition suppressSensitiveFailure {A} (message : string) (operation : Task A) : Task A :=
  try_catch operation (fun _ => throw_in (new_Error message)).
Definition suppressSensitiveSyncFailure {A} (message : string) (operation : result A) : result A :=
  match operation with Ok a => Ok a | Throw _ => throw_new message end.

(** [console.log] of the line; nothing is printed while it is replaced. *)
Definition emitPublicMetadata (metadata : Json) : Task unit :=
  muted ← gets (S := TaskState W) ts_muted;
  if (muted : bool) then mret tt else record_event (EPrinted metadata).

(** ** The repository *)
Definition GIT_STATUS : list string := ["status"; "--porcelain=v1"; "--untracked-files=all"].
Definition GIT_COMMIT : list string := ["rev-parse"; "HEAD"].
Definition GIT_TREE : list string := ["rev-parse"; "HEAD^{tree}"].

Definition runGit (argumentsList : list string) : Task string :=
  output ← suppressSensitiveFailure (says "Git metadata resolution failed; sensitive details suppressed.")
             (ask (EGit argumentsList) (hr_git argumentsList));
  mret (trim output).

Definition requireCleanRepository : Task RepositoryIdentity :=
  porcelainStatus ← runGit GIT_STATUS;
  throw_if (string_nonempty porcelainStatus) (says "requires a clean committed index and worktree; sensitive details suppressed.") ;;
  gitCommit ← runGit GIT_COMMIT;
  gitTree ← runGit GIT_TREE;
  throw_if (negb (HASH_PATTERN gitCommit) || negb (HASH_PATTERN gitTree))
    (says "Git metadata validation failed; sensitive details suppressed.") ;;
  mret {| ri_gitCommit := gitCommit; ri_gitTree := gitTree |}.

Definition requireRepositoryIdentityUnchanged (expectedIdentity : RepositoryIdentity) : Task unit :=
  currentCommit ← runGit GIT_COMMIT;
  currentTree ← runGit GIT_TREE;
  throw_if (negb (HASH_PATTERN currentCommit) || negb (HASH_PATTERN currentTree))
    (says "Git metadata validation failed; sensitive details suppressed.") ;;
  throw_if (negb (bool_decide (currentCommit = ri_gitCommit expectedIdentity)) || negb (bool_decide (currentTree = ri_gitTree expectedIdentity)))
    (says "repository identity changed during execution; sensitive details suppressed.") ;;
  porcelainStatus ← runGit GIT_STATUS;
  throw_if (string_nonempty porcelainStatus) (says "requires a clean committed index and worktree; sensitive details suppressed.").

(** [dirname] of an absolute path. *)
Fixpoint before_last_slash (s : string) : option string :=
  match s with
  | EmptyString => None
  | String c s' =>
      match before_last_slash s' with
      | Some before => Some (String c before)
      | None => if Ascii.eqb c "/" then Some "" else None
      end
  end.
Definition dirname (path : string) : string :=
  match before_last_slash path with None => "." | Some "" => "/" | Some before => before end.

Definition repository_prefix (repositoryRoot : string) : string :=
  if endsWith "/" repositoryRoot then repositoryRoot else repositoryRoot +:+ "/".

(** The loop up the directories; one step for each character of the path is enough. *)
Fixpoint search_package (fuel : nat) (packageName repositoryRoot candidateDirectory : string) : result string :=
  let unavailable := throw_new "package metadata unavailable" in
  match fuel with
  | O => unavailable
  | S fuel' =>
      if bool_decide (candidateDirectory = repositoryRoot) || startsWith (repository_prefix repositoryRoot) candidateDirectory then
        let parent :=
          let parentDirectory := dirname candidateDirectory in
          if bool_decide (parentDirectory = candidateDirectory) then unavailable
          else search_package fuel' packageName repositoryRoot parentDirectory in
        file ← hr_readPackage candidateDirectory;
        match file with
        | Some (Some name, Some version) => if bool_decide (name = packageName) then Ok version else parent
        | _ => parent
        end
      else unavailable
  end.

Definition installedPackageVersion (packageName : string) : result string :=
  suppressSensitiveSyncFailure (says "installed-package metadata failed; sensitive details suppressed.")
    (packageEntry ← match hr_resolve (packageName +:+ "/package.json") with Ok entry => Ok entry | Throw _ => hr_resolve packageName end;
     search_package (S (String.length packageEntry)) packageName hr_cwd (dirname packageEntry)).

Definition readPublicBuildMetadata (repositoryIdentity : RepositoryIdentity) : result PublicBuildMetadata :=
  versions ← result_map (fun packageName => version ← installedPackageVersion packageName; Ok (packageName, version)) INSTALLED_PACKAGES;
  pnpmLockSha256 ← suppressSensitiveSyncFailure (says "lockfile metadata failed; sensitive details suppressed.") hr_lockfileSha256;
  Ok {| bm_identity := repositoryIdentity; bm_packageVersions := versions; bm_pnpmLockSha256 := pnpmLockSha256 |}.

(** ** The live context *)
Definition requireSepoliaTaskNetwork : result unit :=
  fail_if (negb (bool_decide (hr_networkName = "sepolia"))) (says "live tasks require the Sepolia network; sensitive details suppressed.").

Definition readValidatedPrivateKey : Task string :=
  variables ← suppressSensitiveFailure (says "Hardhat variable check failed; sensitive details suppressed.")
                (rpcUrl ← ask_other "vars SEPOLIA_RPC_URL" (hr_vars "SEPOLIA_RPC_URL");
                 privateKey ← ask_other "vars SEPOLIA_PRIVATE_KEY" (hr_vars "SEPOLIA_PRIVATE_KEY");
                 mret (trim rpcUrl, trim privateKey));
  let '(rpcUrl, privateKey) := variables in
  throw_if (negb (string_nonempty rpcUrl) || negb (string_nonempty privateKey))
    (says "required Hardhat variables are not configured; sensitive details suppressed.") ;;
  let validRpcUrl :=
    match hr_parseUrl rpcUrl with
    | Ok (protocol, hostname) => (bool_decide (protocol = "http:") || bool_decide (protocol = "https:")) && string_nonempty hostname
    | Throw _ => false
    end in
  throw_if (negb validRpcUrl) (says "RPC URL validation failed; sensitive details suppressed.") ;;
  throw_if (negb (matches_hex 64 privateKey)) (says "private-key validation failed; sensitive details suppressed.") ;;
  mret privateKey.

Definition readSepoliaChainId : Task Z :=
  chainId ← suppressSensitiveFailure (says "provider request failed; sensitive details suppressed.") (ask ENetwork hr_getNetwork);
  throw_if (negb (chainId =? SEPOLIA_CHAIN_ID)) (says "live chain validation failed; sensitive details suppressed.") ;;
  mret chainId.

Record LiveContext := { lc_metadata : PublicBuildMetadata; lc_chainId : Z; lc_signerAddress : string; lc_wallet : Wallet }.

Definition createLiveContext : Task LiveContext :=
  lift requireSepoliaTaskNetwork ;;
  repositoryIdentity ← requireCleanRepository;
  publicBuildMetadata ← lift (readPublicBuildMetadata repositoryIdentity);
  privateKey ← readValidatedPrivateKey;
  chainId ← readSepoliaChainId;
  signers ← suppressSensitiveFailure (says "signer retrieval failed; sensitive details suppressed.") (ask_other "getSigners" hr_getSigners);
  match signers with
  | [signer] =>
      signerAddress ← suppressSensitiveFailure (says "signer address resolution failed; sensitive details suppressed.")
                        (ask_other "signer.getAddress" (hr_signerAddress signer));
      throw_if (negb (hr_isAddress signerAddress)) (says "signer address validation failed; sensitive details suppressed.") ;;
      normalizedSignerAddress ← lift (hr_getAddress signerAddress);
      address ← lift (suppressSensitiveSyncFailure (says "wallet setup failed; sensitive details suppressed.") (hr_newWallet privateKey));
      throw_if (negb (bool_decide (address = normalizedSignerAddress))) (says "wallet identity validation failed; sensitive details suppressed.") ;;
      mret {| lc_metadata := publicBuildMetadata; lc_chainId := chainId; lc_signerAddress := normalizedSignerAddress;
              lc_wallet := {| wl_key := privateKey; wl_address := address |} |}
  | _ => throw_in (new_Error (says "requires exactly one configured signer; sensitive details suppressed."))
  end.

(** ** Preparing a transaction *)
Definition bufferedGasLimit (estimatedGas : Z) : result Z :=
  fail_if (estimatedGas <=? 0) (says "gas estimation validation failed; sensitive details suppressed.") ;;
  let proportionalBuffer := Z.quot (estimatedGas * GAS_BUFFER_BASIS_POINTS + BASIS_POINTS - 1) BASIS_POINTS in
  let boundedBuffer := if proportionalBuffer <? MAX_GAS_BUFFER then proportionalBuffer else MAX_GAS_BUFFER in
  Ok (estimatedGas + boundedBuffer).

(** The request that is estimated: the fees as the network gives them. *)
Definition request_for_estimation (signerAddress : string) (destination : option string) (data : string) (value nonce : Z) (feeData : FeeData)
    : result (Z * TransactionRequest) :=
  let request type gasPrice maxFee maxPriority :=
    {| tr_to := destination; tr_from := Some signerAddress; tr_nonce := Some nonce; tr_chainId := Some SEPOLIA_CHAIN_ID; tr_type := Some type;
       tr_gasLimit := None; tr_value := Some value; tr_data := Some data; tr_gasPrice := gasPrice; tr_maxFeePerGas := maxFee;
       tr_maxPriorityFeePerGas := maxPriority |} in
  match fd_maxFeePerGas feeData, fd_maxPriorityFeePerGas feeData, fd_gasPrice feeData with
  | Some maxFeePerGas, Some maxPriorityFeePerGas, _ =>
      fail_if (maxFeePerGas <? maxPriorityFeePerGas) (says "EIP-1559 fee-data validation failed; sensitive details suppressed.") ;;
      Ok (maxFeePerGas, request 2 None (Some maxFeePerGas) (Some maxPriorityFeePerGas))
  | _, _, Some gasPrice => Ok (gasPrice, request 0 (Some gasPrice) None None)
  | _, _, None => throw_new (says "fee-data validation failed; sensitive details suppressed.")
  end.

Definition with_gasLimit (request : TransactionRequest) (gasLimit : Z) : TransactionRequest :=
  {| tr_to := tr_to request; tr_from := None; tr_nonce := tr_nonce request; tr_chainId := tr_chainId request; tr_type := tr_type request;
     tr_gasLimit := Some gasLimit; tr_value := tr_value request; tr_data := tr_data request; tr_gasPrice := tr_gasPrice request;
     tr_maxFeePerGas := tr_maxFeePerGas request; tr_maxPriorityFeePerGas := tr_maxPriorityFeePerGas request |}.

Definition destination_of (destination : Destination) : result (option string) :=
  match destination with
  | NoDestination => Ok None
  | DestinationText address =>
      fail_if (negb (hr_isAddress address)) (says "transaction destination validation failed; sensitive details suppressed.") ;;
      checked ← hr_getAddress address;
      Ok (Some checked)
  | OtherDestination => throw_new (says "transaction destination validation failed; sensitive details suppressed.")
  end.

Definition calldata_of (data : option string) : result string :=
  match data with
  | Some data =>
      fail_if (negb (hr_isHexString data)) (says "transaction calldata validation failed; sensitive details suppressed.") ;;
      Ok data
  | None => throw_new (says "transaction calldata validation failed; sensitive details suppressed.")
  end.

Definition prepareExactTransaction (signerAddress : string) (baseRequest : BaseRequest) : Task PreparedTransaction :=
  nonce ← suppressSensitiveFailure (says "provider request failed; sensitive details suppressed.")
            (ask (ENonce signerAddress) (hr_getTransactionCount signerAddress));
  feeData ← suppressSensitiveFailure (says "fee-data request failed; sensitive details suppressed.") (ask_other "getFeeData" hr_getFeeData);
  destination ← lift (destination_of (br_to baseRequest));
  data ← lift (calldata_of (br_data baseRequest));
  value ← lift (suppressSensitiveSyncFailure (says "transaction value validation failed; sensitive details suppressed.") (br_value baseRequest));
  estimation ← lift (request_for_estimation signerAddress destination data value nonce feeData);
  estimatedGas ← suppressSensitiveFailure (says "gas estimation failed; sensitive details suppressed.")
                   (ask (EEstimate estimation.2) (hr_estimateGas estimation.2));
  gasLimit ← lift (bufferedGasLimit estimatedGas);
  mret {| px_feeCeilingPerGas := estimation.1; px_signableRequest := with_gasLimit estimation.2 gasLimit |}.

Definition required_balance (preparedTransaction : PreparedTransaction) (fundingMultiplier : Z) : result Z :=
  gasLimit ← hr_toBigInt (default 0 (tr_gasLimit (px_signableRequest preparedTransaction)));
  value ← hr_toBigInt (default 0 (tr_value (px_signableRequest preparedTransaction)));
  Ok ((gasLimit * px_feeCeilingPerGas preparedTransaction + value) * fundingMultiplier).

Definition requireSufficientFunding (signerAddress : string) (preparedTransaction : PreparedTransaction) (fundingMultiplier : Z) : Task unit :=
  balance ← suppressSensitiveFailure (says "balance request failed; sensitive details suppressed.")
              (ask (EBalance signerAddress) (hr_getBalance signerAddress));
  requiredBalance ← lift (suppressSensitiveSyncFailure (says "funding calculation failed; sensitive details suppressed.")
                            (required_balance preparedTransaction fundingMultiplier));
  throw_if (balance <? requiredBalance) (says "funding check failed; sensitive details suppressed.").

Definition requireValidTransactionHash (transactionHash : string) : result unit :=
  fail_if (negb (hr_isHexString32 transactionHash)) (says "transaction hash validation failed; sensitive details suppressed.").

(** ** Signing *)
Definition absent {A} (o : option A) : bool := match o with None => true | Some _ => false end.
Definition present {A} (o : option A) : bool := negb (absent o).

Record RequiredFields := { rf_data : string; rf_nonce : Z; rf_type : Z }.
Definition required_fields (request : TransactionRequest) : result RequiredFields :=
  match tr_from request, tr_nonce request, tr_chainId request, tr_type request, tr_gasLimit request, tr_value request, tr_data request with
  | None, Some nonce, Some _, Some type, Some _, Some _, Some data =>
      type ← hr_toNumber type;
      fail_if ((type =? 2) && (present (tr_gasPrice request) || absent (tr_maxFeePerGas request) || absent (tr_maxPriorityFeePerGas request)) ||
               (type =? 0) && (absent (tr_gasPrice request) || present (tr_maxFeePerGas request) || present (tr_maxPriorityFeePerGas request)) ||
               negb (type =? 0) && negb (type =? 2)) "incomplete signable transaction fee fields" ;;
      nonce ← hr_toNumber nonce;
      Ok {| rf_data := data; rf_nonce := nonce; rf_type := type |}
  | _, _, _, _, _, _, _ => throw_new "incomplete signable transaction"
  end.

(** [parsed !== toBigInt(field ?? 0n)] *)
Definition amount_differs (parsed : option Z) (field : option Z) : result bool :=
  expected ← hr_toBigInt (default 0 field); Ok (negb (bool_decide (parsed = Some expected))).

(** What is checked of the fees: the fields of the other kind are absent. *)
Definition fees_differ (request : TransactionRequest) (type : Z) (parsed : ParsedTransaction) : result bool :=
  if type =? 2 then
    fee ← amount_differs (pt_maxFeePerGas parsed) (tr_maxFeePerGas request);
    priority ← amount_differs (pt_maxPriorityFeePerGas parsed) (tr_maxPriorityFeePerGas request);
    Ok (present (tr_gasPrice request) || present (pt_gasPrice parsed) || fee || priority)
  else
    price ← amount_differs (pt_gasPrice parsed) (tr_gasPrice request);
    Ok (negb (type =? 0) || present (tr_maxFeePerGas request) || present (tr_maxPriorityFeePerGas request) || price ||
        present (pt_maxFeePerGas parsed) || present (pt_maxPriorityFeePerGas parsed)).

(** The hash of what was signed, when it is what was asked for.  A conversion that throws and
    a field that differs end in the same failure, so their order does not matter. *)
Definition check_signed (wallet : Wallet) (request : TransactionRequest) (requiredFields : RequiredFields) (signedTransaction : string)
    : result string :=
  parsedTransaction ← hr_parseTransaction signedTransaction;
  transactionHash ← hr_keccak256 signedTransaction;
  expectedTo ← match tr_to request with
               | None => Ok None
               | Some destination => checked ← hr_getAddress destination; Ok (Some checked)
               end;
  chainId ← amount_differs (Some (pt_chainId parsedTransaction)) (tr_chainId request);
  gasLimit ← amount_differs (Some (pt_gasLimit parsedTransaction)) (tr_gasLimit request);
  value ← amount_differs (Some (pt_value parsedTransaction)) (tr_value request);
  fail_if (negb (pt_isSigned parsedTransaction) || negb (bool_decide (pt_from parsedTransaction = Some (wl_address wallet))) || chainId ||
           negb (bool_decide (pt_type parsedTransaction = Some (rf_type requiredFields))) ||
           negb (pt_nonce parsedTransaction =? rf_nonce requiredFields) || gasLimit || value ||
           negb (bool_decide (toLowerCase (pt_data parsedTransaction) = toLowerCase (rf_data requiredFields))) ||
           negb (bool_decide (pt_to parsedTransaction = expectedTo))) "signed transaction field mismatch" ;;
  fees ← fees_differ request (rf_type requiredFields) parsedTransaction;
  fail_if fees "signed fee field mismatch" ;;
  Ok transactionHash.

(** The hash it must have, and the signed transaction. *)
Definition signExactTransaction (wallet : Wallet) (request : TransactionRequest) : Task (string * string) :=
  requiredFields ← lift (suppressSensitiveSyncFailure (says "signable transaction validation failed; sensitive details suppressed.")
                           (required_fields request));
  signedTransaction ← suppressSensitiveFailure (says "transaction signing failed; sensitive details suppressed.")
                        (ask (ESign wallet request) (hr_signTransaction wallet request));
  expectedHash ← lift (suppressSensitiveSyncFailure (says "signed transaction validation failed; sensitive details suppressed.")
                         (check_signed wallet request requiredFields signedTransaction));
  lift (requireValidTransactionHash expectedHash) ;;
  mret (expectedHash, signedTransaction).

(** ** Sending and waiting *)
Definition broadcastSignedTransaction (signedTransaction expectedHash : string) : Task string :=
  answer ← try_catch (ask (EBroadcast signedTransaction) (hr_sendRawTransaction signedTransaction))
             (fun _ => throw_in (new_Error (says "transaction broadcast failed; sensitive details suppressed.")));
  match answer with
  | None => throw_in (new_Error (says "transaction broadcast hash validation failed; sensitive details suppressed."))
  | Some hash =>
      lift (requireValidTransactionHash hash) ;;
      throw_if (negb (bool_decide (toLowerCase hash = toLowerCase expectedHash)))
        (says "transaction broadcast hash mismatch; sensitive details suppressed.") ;;
      mret hash
  end.

Definition requireValidReceiptBlockNumber (blockNumber : option js_number) : result unit :=
  fail_if (negb (match blockNumber with Some (JInt z) => Number_isSafeInteger (JInt z) && (0 <? z) | _ => false end))
    (says "transaction receipt block number is invalid; sensitive details suppressed.").

(** The attempts that are left. *)
Fixpoint poll_receipt (attempts : nat) (transactionHash : string) : Task Receipt :=
  match attempts with
  | O => throw_in (new_Error (says "transaction receipt timed out; sensitive details suppressed."))
  | S attempts' =>
      answer ← try_catch (ask (EReceipt transactionHash) (hr_getTransactionReceipt transactionHash))
                 (fun _ => throw_in (new_Error (says "transaction receipt request failed; sensitive details suppressed.")));
      match answer with
      | Some receipt =>
          lift (requireValidReceiptBlockNumber (rc_blockNumber receipt)) ;;
          lift (requireValidTransactionHash (rc_hash receipt)) ;;
          throw_if (negb (bool_decide (toLowerCase (rc_hash receipt) = toLowerCase transactionHash)))
            (says "transaction receipt hash mismatch; sensitive details suppressed.") ;;
          mret receipt
      | None =>
          (if (0 <? attempts')%nat then ask_other "delay" (total (fun w => (tt, hr_delay RECEIPT_POLL_INTERVAL_MILLISECONDS w))) else mret tt) ;;
          poll_receipt attempts' transactionHash
      end
  end.
Definition pollForTransactionReceipt (transactionHash : string) : Task Receipt := poll_receipt RECEIPT_POLL_ATTEMPTS transactionHash.

Definition requireDeployedCode (contractAddress : string) : Task unit :=
  deployedCode ← suppressSensitiveFailure (says "deployed-code read failed; sensitive details suppressed.")
                   (ask_other "getCode" (hr_getCode contractAddress));
  throw_if (bool_decide (deployedCode = "0x")) (says "deployed-code validation failed; sensitive details suppressed.").


(** ** What the tasks share *)
(** The fields a line of metadata starts with. *)
Definition metadata_head (event utcTimestamp : string) (context : LiveContext) (chainId : Z) (operator : string) : list (string * Json) :=
  let build := lc_metadata context in
  [("event", jstring event); ("utcTimestamp", jstring utcTimestamp); ("gitCommit", jstring (ri_gitCommit (bm_identity build)));
   ("gitTree", jstring (ri_gitTree (bm_identity build)));
   ("packageVersions", jobject (map (fun entry => (entry.1, jstring entry.2)) (bm_packageVersions build)));
   ("pnpmLockSha256", jstring (bm_pnpmLockSha256 build)); ("chainId", jnumber chainId);
   (operator, jstring (lc_signerAddress context))].
Definition block_number (receipt : Receipt) : Json := match rc_blockNumber receipt with Some (JInt z) => jnumber z | _ => jnull end.

Definition now : Task string := ask_other "now" (total hr_now).

(** The request that deploys the contract, prepared and affordable. *)
Definition prepare_deployment (name : string) (context : LiveContext) (fundingMultiplier : Z) : Task PreparedTransaction :=
  suppressSensitiveFailure (says "contract factory setup failed; sensitive details suppressed.")
    (ask_other "getContractFactory" (hr_getContractFactory name)) ;;
  deploymentRequest ← suppressSensitiveFailure (says "deployment transaction preparation failed; sensitive details suppressed.")
                        (ask_other "getDeployTransaction" (hr_getDeployTransaction name));
  preparedTransaction ← prepareExactTransaction (lc_signerAddress context) deploymentRequest;
  requireSufficientFunding (lc_signerAddress context) preparedTransaction fundingMultiplier ;;
  mret preparedTransaction.

(** Sign, compare the repository, send, wait: the steps the three other tasks share. *)
Definition send_exact (context : LiveContext) (request : TransactionRequest) : Task (string * Receipt) :=
  signed ← signExactTransaction (lc_wallet context) request;
  requireRepositoryIdentityUnchanged (bm_identity (lc_metadata context)) ;;
  transactionHash ← broadcastSignedTransaction signed.2 signed.1;
  receipt ← pollForTransactionReceipt transactionHash;
  mret (transactionHash, receipt).

Definition check_deployment (receipt : Receipt) (expectedContractAddress : string) : result string :=
  fail_if (negb (bool_decide (rc_status receipt = Some 1))) (says "deployment receipt status failed; sensitive details suppressed.") ;;
  fail_if (present (rc_to receipt)) (says "deployment receipt target validation failed; sensitive details suppressed.") ;;
  match rc_contractAddress receipt with
  | None => throw_new (says "deployment receipt contract address missing; sensitive details suppressed.")
  | Some contractAddress =>
      fail_if (negb (bool_decide (toLowerCase contractAddress = toLowerCase expectedContractAddress)))
        (says "deployment receipt contract address mismatch; sensitive details suppressed.") ;;
      hr_getAddress contractAddress
  end.

(** A deployment up to its metadata: the time, the contract, what was sent, the chain. *)
Definition deploy_exact (name : string) (context : LiveContext) : Task (string * string * (string * Receipt) * Z) :=
  preparedTransaction ← prepare_deployment name context 1;
  match tr_nonce (px_signableRequest preparedTransaction) with
  | None => throw_in (new_Error (says "pending nonce validation failed; sensitive details suppressed."))
  | Some pendingNonce =>
      expectedContractAddress ← lift (suppressSensitiveSyncFailure
        (says "expected contract address calculation failed; sensitive details suppressed.")
        (hr_getCreateAddress (lc_signerAddress context) pendingNonce));
      readSepoliaChainId ;;
      utcTimestamp ← now;
      sent ← send_exact context (px_signableRequest preparedTransaction);
      contractAddress ← lift (check_deployment sent.2 expectedContractAddress);
      requireDeployedCode contractAddress ;;
      finalChainId ← readSepoliaChainId;
      mret (utcTimestamp, contractAddress, sent, finalChainId)
  end.

(** The request for a call of the contract, prepared, affordable, and still due: what the
    call changes was not changed ([flag]). *)
Definition prepare_call (context : LiveContext) (baseRequest : BaseRequest) (destination : TransactionRequest -> result unit) (flag : Task bool)
    (changed : string) : Task (PreparedTransaction * string) :=
  preparedTransaction ← prepareExactTransaction (lc_signerAddress context) baseRequest;
  requireSufficientFunding (lc_signerAddress context) preparedTransaction 1 ;;
  readSepoliaChainId ;;
  lift (destination (px_signableRequest preparedTransaction)) ;;
  utcTimestamp ← now;
  done_before ← flag;
  throw_if done_before changed ;;
  mret (preparedTransaction, utcTimestamp).

(** Sending the call, and what is read after it. *)
Definition send_call {A} (contractAddress : string) (context : LiveContext) (request : TransactionRequest) (check_receipt : Receipt -> result unit)
    (read : Task A) : Task (string * Receipt * Z * A) :=
  sent ← send_exact context request;
  lift (check_receipt sent.2) ;;
  requireDeployedCode contractAddress ;;
  finalChainId ← readSepoliaChainId;
  state ← read;
  mret (sent, finalChainId, state).
End tasks.

(** * Properties *)

(** ** Failures and what is asked *)
(** A fixed text that gives nothing away. *)
Definition fixed_text (message : string) : bool :=
  endsWith "sensitive details suppressed." message || endsWith "transaction not submitted." message.

Lemma endsWith_app p a s : endsWith p s = true -> endsWith p (a +:+ s) = true.
Proof. intros Hs. induction a as [|c a IH]; [done|]. rewrite append_cons. cbn [endsWith]. by rewrite IH, orb_true_r. Qed.
Lemma fixed_says `{Gate} text : fixed_text text = true -> fixed_text (says text) = true.
Proof.
  unfold fixed_text, says. rewrite !orb_true_iff. intros [Ht|Ht]; [left|right]; by do 2 apply endsWith_app.
Qed.
#[export] Hint Extern 0 (fixed_text (says _) = true) => apply fixed_says; reflexivity : core.

(** Nothing is signed, nothing is sent. *)
Definition quiet (event : Event) : Prop := match event with ESign _ _ _ | EBroadcast _ _ => False | _ => True end.

Section task_properties.
Context {W : Type} `{Hardhat W, Gate}.
#[local] Notation Task := (method (TaskState W)).
Implicit Types s : TaskState W.

(** A failure has a fixed text, or is that of an address that has no checksum. *)
Definition suppressed (e : js_error) : Prop := fixed_text (err_message e) = true \/ exists address, hr_getAddress address = Throw e.

Lemma text_suppressed message : fixed_text message = true -> suppressed (new_Error message).
Proof. by left. Qed.

(** Only questions were asked between two states. *)
Definition grows s s' : Prop :=
  ts_muted s' = ts_muted s /\ exists added, ts_events s' = ts_events s ++ added /\ Forall quiet added.

#[global] Instance grows_preorder : PreOrder grows.
Proof.
  split; [intros s; split; [done|]; exists []; by rewrite app_nil_r|].
  intros s1 s2 s3 (M1 & a & Ea & Ha) (M2 & b & Eb & Hb). split; [congruence|]. exists (a ++ b).
  rewrite Eb, Ea, app_assoc. split; [done|]. by apply Forall_app.
Qed.

Lemma grows_sub s s' : grows s s' -> ts_events s ⊆ ts_events s'.
Proof. intros (_ & a & -> & _) e He. apply elem_of_app. by left. Qed.

Definition asks {A} (m : Task A) (Q : A -> list Event -> Prop) : Prop :=
  forall s, wp m (fun r s' => grows s s' /\ match r with Ok a => Q a (ts_events s') | Throw e => suppressed e end) s.

(** A relation between the first state and the present one that questions keep. *)
Class Extends (R : TaskState W -> TaskState W -> Prop) : Prop := extends : forall s0 s s', R s0 s -> grows s s' -> R s0 s'.
#[global] Instance grows_extends : Extends grows.
Proof. intros s0 s s'. apply transitivity. Qed.

(** What a computation that began in [s0] ends with. *)
Definition ends {A} (R : TaskState W -> TaskState W -> Prop) (Q : A -> list Event -> Prop) s0 (r : result A) s' : Prop :=
  R s0 s' /\ match r with Ok a => Q a (ts_events s') | Throw e => suppressed e end.

(** What is known of the present state is enough for what is claimed of the last. *)
Class Within (R R' : TaskState W -> TaskState W -> Prop) : Prop := within : forall s0 s, R s0 s -> R' s0 s.
#[global] Instance within_same R : Within R R.
Proof. by intros s0 s. Qed.

Section steps.
Context {B : Type} (R R' : TaskState W -> TaskState W -> Prop) `{Extends R, Within R R'}.
Context (Q : B -> list Event -> Prop) (s0 s : TaskState W).
Hypothesis Hr : R s0 s.

Lemma wp_then {A} (P : A -> list Event -> Prop) (m : Task A) (f : A -> Task B) :
  asks m P -> (forall a s1, grows s s1 -> R s0 s1 -> P a (ts_events s1) -> wp (f a) (ends R' Q s0) s1) -> wp (m ≫= f) (ends R' Q s0) s.
Proof using Type*.
  intros Hm Hf. apply wp_bind. eapply wp_mono; [apply Hm|]. intros [a|e] s1 [G Ha].
  - apply Hf; try done. by eapply extends.
  - split; [|done]. eapply within, extends; eauto.
Qed.

Lemma wp_checked {A} (r : result A) (f : A -> Task B) :
  (forall e, r = Throw e -> suppressed e) -> (forall a, r = Ok a -> wp (f a) (ends R' Q s0) s) -> wp (lift r ≫= f) (ends R' Q s0) s.
Proof using Type*. intros He Hf. apply wp_bind, wp_lift. destruct r as [a|e]; [by apply Hf|]. split; [by apply within|auto]. Qed.

Lemma wp_guarded c message (f : unit -> Task B) :
  fixed_text message = true -> (c = false -> wp (f tt) (ends R' Q s0) s) -> wp (throw_if c message ≫= f) (ends R' Q s0) s.
Proof using Type*.
  intros Ht Hf. apply wp_bind, wp_throw_if; intros Hc; [split; [by apply within|by apply text_suppressed]|by apply Hf].
Qed.

Lemma wp_done (b : B) : Q b (ts_events s) -> wp (mret b) (ends R' Q s0) s.
Proof using Type*. intros Hq. apply wp_ret. split; [by apply within|done]. Qed.
Lemma wp_refused message : fixed_text message = true -> wp (throw_in (new_Error message)) (ends R' Q s0) s.
Proof using Type*. intros Ht. split; [by apply within|by apply text_suppressed]. Qed.
Lemma wp_last (m : Task B) : asks m Q -> wp m (ends R' Q s0) s.
Proof using Type*. intros Hm. eapply wp_mono; [apply Hm|]. intros r s1 [G Hq]. split; [|done]. eapply within, extends; eauto. Qed.
Lemma wp_end {P : B -> list Event -> Prop} (m : Task B) :
  asks m P -> (forall b s1, grows s s1 -> P b (ts_events s1) -> Q b (ts_events s1)) -> wp m (ends R' Q s0) s.
Proof using Type*.
  intros Hm Hq. eapply wp_mono; [apply Hm|]. intros r s1 [G Hp]. split; [eapply within, extends; eauto|]. destruct r; auto.
Qed.
End steps.

Lemma asks_ends {A} (m : Task A) Q : (forall s, wp m (ends grows Q s) s) -> asks m Q.
Proof. done. Qed.
Lemma asks_mono {A} (m : Task A) (P Q : A -> list Event -> Prop) : asks m P -> (forall a tr, P a tr -> Q a tr) -> asks m Q.
Proof. intros Hm Hq s. eapply wp_mono; [apply Hm|]. intros [a|e] s' [G Ha]; split; auto. Qed.

(** ** Failures of checks *)
Definition fails_well {A} (r : result A) : Prop := forall e, r = Throw e -> suppressed e.

Lemma fails_well_Ok {A} (a : A) : fails_well (Ok a).
Proof. done. Qed.
Lemma fails_well_text {A} message : fixed_text message = true -> fails_well (@throw_new A message).
Proof. intros Ht e [= <-]. by apply text_suppressed. Qed.
Lemma fails_well_if c message : fixed_text message = true -> fails_well (fail_if c message).
Proof. unfold fail_if. intros Ht. destruct c; [by apply fails_well_text|done]. Qed.
Lemma fails_well_sync {A} message (r : result A) : fixed_text message = true -> fails_well (suppressSensitiveSyncFailure message r).
Proof. intros Ht. destruct r; [done|by apply fails_well_text]. Qed.
Lemma fails_well_bind {A B} (r : result A) (k : A -> result B) : fails_well r -> (forall a, r = Ok a -> fails_well (k a)) -> fails_well (r ≫= k).
Proof. intros Hr Hk e. destruct r as [a|e']; cbn; [by apply Hk|intros [= <-]; by apply Hr]. Qed.
Lemma fails_well_map {A B} (f : A -> result B) xs : (forall x, fails_well (f x)) -> fails_well (result_map f xs).
Proof.
  intros Hf. induction xs as [|x xs IH]; cbn [result_map]; [done|]. apply fails_well_bind; [apply Hf|]. intros y _.
  apply fails_well_bind; [done|]. by intros.
Qed.
Lemma fails_well_getAddress address : fails_well (hr_getAddress address).
Proof. intros e E. right. by exists address. Qed.

Lemma asks_ask {A} message (event : result A -> Event) (call : method W A) :
  fixed_text message = true -> (forall r, quiet (event r)) ->
  asks (suppressSensitiveFailure message (ask event call)) (fun a tr => event (Ok a) ∈ tr).
Proof.
  intros Ht Hq s. unfold suppressSensitiveFailure. apply wp_try_catch. unfold wp at 1, ask. destruct (call (ts_world s)) as [r w].
  assert (G : grows s {| ts_world := w; ts_events := ts_events s ++ [event r]; ts_muted := ts_muted s |})
    by (split; [done|]; exists [event r]; split; [done|by constructor; [|constructor]]).
  destruct r as [a|e]; [split; [done|]; apply elem_of_app; right; by apply list_elem_of_singleton|].
  split; [done|]. by apply text_suppressed.
Qed.
End task_properties.

(** The text of a message is fixed: of the gate, or in full. *)
Ltac plain_text := first [apply fixed_says; reflexivity | assumption | reflexivity].

Create HintDb tasks.
#[export] Hint Resolve fails_well_Ok fails_well_sync fails_well_if fails_well_text fails_well_getAddress fails_well_map : tasks.
#[export] Hint Extern 1 (fixed_text _ = true) => plain_text : tasks.
#[export] Hint Extern 1 (quiet _) => exact I : tasks.
#[export] Hint Extern 2 (fails_well (_ ≫= _)) => apply fails_well_bind; [|intros ? _] : tasks.

(** One step of a task: a question, a check, a guard, the end.  What is known relates the
    first state to the present one, or they are the same. *)
Ltac at_state := first [eassumption | reflexivity].
Ltac with_known k :=
  match goal with
  | |- @wp (TaskState ?W) _ _ (ends _ _ ?s0) ?s => match goal with _ : ?R s0 s |- _ => k R | _ => k constr:(@grows W) end
  end.
Tactic Notation "step" uconstr(question) :=
  with_known ltac:(fun R => eapply (wp_then R)); [apply _|apply _|at_state|eapply question; eauto with tasks|].
Ltac check_step :=
  with_known ltac:(fun R => eapply (wp_checked R));
  [apply _|apply _|at_state|solve [match goal with |- forall e, ?r = Throw e -> _ => change (fails_well r); eauto 8 with tasks end]|].
Tactic Notation "check_by" uconstr(reason) := with_known ltac:(fun R => eapply (wp_checked R)); [apply _|apply _|at_state|apply reason|].
Ltac guard_step := with_known ltac:(fun R => eapply (wp_guarded R)); [apply _|apply _|at_state|plain_text|].
Ltac finish := with_known ltac:(fun R => eapply (wp_done R)); [apply _|apply _|at_state|].
Ltac refusal := with_known ltac:(fun R => eapply (wp_refused R)); [apply _|apply _|at_state|plain_text].
Tactic Notation "end_step" uconstr(question) := with_known ltac:(fun R => eapply (wp_end R)); [apply _|apply _|at_state|eapply question; eauto with tasks|].
Tactic Notation "last_step" uconstr(question) := with_known ltac:(fun R => eapply (wp_last R)); [apply _|apply _|at_state|eapply question; eauto with tasks].

(** What was there earlier is there now. *)
Ltac earlier := apply grows_sub; by repeat (etransitivity; [eassumption|]).

Section task_facts.
Context {W : Type} `{Hardhat W, Gate}.
#[local] Notation Task := (method (TaskState W)).
Implicit Types s : TaskState W.

(** ** The repository and the live context *)
Lemma runGit_asks arguments : asks (runGit arguments) (fun output tr => exists raw, EGit arguments (Ok raw) ∈ tr /\ output = trim raw).
Proof.
  apply asks_ends. intros s. unfold runGit. step asks_ask. intros raw s1 G1 R1 P1. finish. by exists raw.
Qed.

(** The repository was clean, at this commit and tree. *)
Definition clean_identity (identity : RepositoryIdentity) (tr : list Event) : Prop :=
  exists status commit tree, EGit GIT_STATUS (Ok status) ∈ tr /\ EGit GIT_COMMIT (Ok commit) ∈ tr /\ EGit GIT_TREE (Ok tree) ∈ tr /\
    trim status = "" /\ trim commit = ri_gitCommit identity /\ trim tree = ri_gitTree identity /\
    HASH_PATTERN (ri_gitCommit identity) = true /\ HASH_PATTERN (ri_gitTree identity) = true.

Lemma string_nonempty_false text : string_nonempty text = false -> text = "".
Proof. by destruct text. Qed.

Lemma requireCleanRepository_asks : asks requireCleanRepository clean_identity.
Proof.
  apply asks_ends. intros s. unfold requireCleanRepository.
  step runGit_asks. intros status s1 G1 R1 (raw1 & P1 & ->).
  guard_step. intros C1%string_nonempty_false.
  step runGit_asks. intros commit s2 G2 R2 (raw2 & P2 & ->).
  step runGit_asks. intros tree s3 G3 R3 (raw3 & P3 & ->).
  guard_step. intros [C2%negb_false_iff C3%negb_false_iff]%orb_false_iff. finish.
  pose proof (grows_sub _ _ G2). pose proof (grows_sub _ _ G3). exists raw1, raw2, raw3. split_and!; set_solver.
Qed.

Lemma installedPackageVersion_fails_well packageName : fails_well (installedPackageVersion packageName).
Proof. by apply fails_well_sync. Qed.
Lemma readPublicBuildMetadata_spec identity :
  fails_well (readPublicBuildMetadata identity) /\ forall metadata, readPublicBuildMetadata identity = Ok metadata -> bm_identity metadata = identity.
Proof.
  unfold readPublicBuildMetadata. split.
  - apply fails_well_bind; [|intros versions _].
    + apply fails_well_map. intros packageName. apply fails_well_bind; [apply installedPackageVersion_fails_well|done].
    + apply fails_well_bind; [by apply fails_well_sync|done].
  - intros metadata E. do 2 (apply result_bind_Ok in E as (? & _ & E)). by injection E as <-.
Qed.

Lemma asks_other {A} message name (call : method W A) :
  fixed_text message = true -> asks (suppressSensitiveFailure message (ask_other name call)) (fun _ _ => True).
Proof. intros Ht. eapply asks_mono; [by apply asks_ask|done]. Qed.

Lemma readValidatedPrivateKey_asks : asks readValidatedPrivateKey (fun _ _ => True).
Proof.
  apply asks_ends. intros s. unfold readValidatedPrivateKey.
  assert (Hv : forall name, forall s, wp (ask_other ("vars " +:+ name) (hr_vars name)) (fun _ s' => grows s s') s).
  { intros name s1. unfold wp, ask_other, ask. destruct (hr_vars name (ts_world s1)) as [r w]. split; [done|].
    eexists. split; [done|]. by constructor; [|constructor]. }
  match goal with |- wp (?m ≫= _) _ _ => assert (Hm : asks m (fun _ _ => True)) end.
  { clear s. intros s. unfold suppressSensitiveFailure. apply wp_try_catch, wp_bind. eapply wp_mono; [apply (Hv "SEPOLIA_RPC_URL")|].
    intros [url|e] s1 G1; [|split; [done|by apply text_suppressed]]. apply wp_bind. eapply wp_mono; [apply (Hv "SEPOLIA_PRIVATE_KEY")|].
    intros [key|e] s2 G2; (split; [by etransitivity|]); [done|by apply text_suppressed]. }
  step Hm. intros [url key] s1 G1 R1 _. guard_step. intros _. guard_step. intros _. guard_step. intros _. by finish.
Qed.

Lemma readSepoliaChainId_asks : asks readSepoliaChainId (fun chainId tr => chainId = SEPOLIA_CHAIN_ID /\ ENetwork (Ok SEPOLIA_CHAIN_ID) ∈ tr).
Proof.
  apply asks_ends. intros s. unfold readSepoliaChainId. step asks_ask. intros chainId s1 G1 R1 P1.
  guard_step. intros Hc%negb_false_iff%Z.eqb_eq. subst chainId. by finish.
Qed.

(** What a live context says: a clean repository, Sepolia, and the wallet of the signer. *)
Record context_ok (context : LiveContext) (tr : list Event) : Prop := {
  co_identity : clean_identity (bm_identity (lc_metadata context)) tr;
  co_network : ENetwork (Ok SEPOLIA_CHAIN_ID) ∈ tr;
  co_wallet : wl_address (lc_wallet context) = lc_signerAddress context
}.

Lemma clean_identity_sub identity tr tr' : clean_identity identity tr -> tr ⊆ tr' -> clean_identity identity tr'.
Proof. intros (status & commit & tree & H1 & H2 & H3 & Hrest) Hs. exists status, commit, tree. split_and!; auto; naive_solver. Qed.
Lemma context_ok_sub context tr tr' : context_ok context tr -> tr ⊆ tr' -> context_ok context tr'.
Proof. intros [H1 H2 H3] Hs. split; [by eapply clean_identity_sub|auto|done]. Qed.

Lemma requireSepoliaTaskNetwork_fails_well : fails_well requireSepoliaTaskNetwork.
Proof. by apply fails_well_if. Qed.
Hint Resolve requireSepoliaTaskNetwork_fails_well : tasks.

Lemma createLiveContext_asks : asks createLiveContext (fun context tr => context_ok context tr /\ hr_networkName = "sepolia").
Proof.
  apply asks_ends. intros s. unfold createLiveContext. check_step. intros [] Hn%fail_if_Ok.
  apply negb_false_iff, bool_decide_eq_true in Hn. step requireCleanRepository_asks. intros identity s1 G1 R1 P1.
  destruct (readPublicBuildMetadata_spec identity) as [Hf Hm].
  check_by Hf. intros metadata Em%Hm.
  step readValidatedPrivateKey_asks. intros key s2 G2 R2 _.
  step readSepoliaChainId_asks. intros chainId s3 G3 R3 [-> P3].
  step asks_other. intros [|signer []] s4 G4 R4 _; [refusal| |refusal].
  step asks_other. intros address s5 G5 R5 _. guard_step. intros _. check_step. intros normalized _. check_step. intros wallet _.
  guard_step. intros Hw%negb_false_iff%bool_decide_eq_true. subst wallet. finish. split; [|done].
  pose proof (grows_sub _ _ G2). pose proof (grows_sub _ _ G3). pose proof (grows_sub _ _ G4). pose proof (grows_sub _ _ G5).
  split; cbn [lc_metadata lc_wallet wl_address lc_signerAddress]; [|set_solver|done].
  rewrite Em. eapply clean_identity_sub; [done|]. set_solver.
Qed.

(** ** Preparation *)
Lemma bufferedGasLimit_fails_well gas : fails_well (bufferedGasLimit gas).
Proof. unfold bufferedGasLimit. eauto with tasks. Qed.
Lemma destination_of_fails_well destination : fails_well (destination_of destination).
Proof. unfold destination_of. destruct destination; eauto 8 with tasks. Qed.
Lemma calldata_of_fails_well data : fails_well (calldata_of data).
Proof. unfold calldata_of. destruct data; eauto 8 with tasks. Qed.
Lemma request_for_estimation_fails_well signer destination data value nonce feeData :
  fails_well (request_for_estimation signer destination data value nonce feeData).
Proof. unfold request_for_estimation. destruct (fd_maxFeePerGas feeData), (fd_maxPriorityFeePerGas feeData), (fd_gasPrice feeData); eauto 8 with tasks. Qed.
Hint Resolve bufferedGasLimit_fails_well destination_of_fails_well calldata_of_fails_well request_for_estimation_fails_well : tasks.

(** The fee that a unit of gas costs at most. *)
Definition fee_ceiling (request : TransactionRequest) : option Z :=
  match tr_maxFeePerGas request with Some fee => Some fee | None => tr_gasPrice request end.

(** A request that was prepared for a signer: its nonce, its gas, the chain, the fee. *)
Record prepared_ok (signerAddress : string) (request : TransactionRequest) (fee : Z) (tr : list Event) : Prop := {
  po_nonce : exists nonce, ENonce signerAddress (Ok nonce) ∈ tr /\ tr_nonce request = Some nonce;
  po_chain : tr_chainId request = Some SEPOLIA_CHAIN_ID;
  po_gas : exists estimated gas limit, EEstimate estimated (Ok gas) ∈ tr /\ bufferedGasLimit gas = Ok limit /\
             request = with_gasLimit estimated limit;
  po_fee : fee_ceiling request = Some fee
}.

Lemma request_for_estimation_spec signer destination data value nonce feeData fee request :
  request_for_estimation signer destination data value nonce feeData = Ok (fee, request) ->
  tr_nonce request = Some nonce /\ tr_chainId request = Some SEPOLIA_CHAIN_ID /\ fee_ceiling request = Some fee.
Proof.
  unfold request_for_estimation. destruct (fd_maxFeePerGas feeData) as [maxFee|], (fd_maxPriorityFeePerGas feeData) as [maxPriority|], (fd_gasPrice feeData) as [price|];
    try done; try (intros E; apply result_bind_Ok in E as (? & _ & E); injection E as <- <-; done); by intros [= <- <-].
Qed.

Lemma prepareExactTransaction_asks signerAddress baseRequest :
  asks (prepareExactTransaction signerAddress baseRequest)
    (fun prepared tr => prepared_ok signerAddress (px_signableRequest prepared) (px_feeCeilingPerGas prepared) tr).
Proof.
  apply asks_ends. intros s. unfold prepareExactTransaction. step asks_ask. intros nonce s1 G1 R1 P1. step asks_other. intros feeData s2 G2 R2 _.
  check_step. intros destination _. check_step. intros data _. check_step. intros value _. check_step. intros [fee request] Er.
  destruct (request_for_estimation_spec _ _ _ _ _ _ _ _ Er) as (E1 & E2 & E3). cbn [fst snd].
  step asks_ask. intros gas s3 G3 R3 P3. check_step. intros limit Eg. finish. cbn [px_signableRequest px_feeCeilingPerGas].
  pose proof (grows_sub _ _ G2). pose proof (grows_sub _ _ G3). split; cbn [with_gasLimit tr_nonce tr_chainId]; [exists nonce; set_solver|done| |done].
  by exists request, gas, limit.
Qed.

(** The signer can pay for the request, several times over. *)
Definition funded (signerAddress : string) (request : TransactionRequest) (fee multiplier : Z) (tr : list Event) : Prop :=
  exists balance gas value, EBalance signerAddress (Ok balance) ∈ tr /\ hr_toBigInt (default 0 (tr_gasLimit request)) = Ok gas /\
    hr_toBigInt (default 0 (tr_value request)) = Ok value /\ (gas * fee + value) * multiplier <= balance.

Lemma requireSufficientFunding_asks signerAddress prepared multiplier :
  asks (requireSufficientFunding signerAddress prepared multiplier)
    (fun _ tr => funded signerAddress (px_signableRequest prepared) (px_feeCeilingPerGas prepared) multiplier tr).
Proof.
  apply asks_ends. intros s. unfold requireSufficientFunding. step asks_ask. intros balance s1 G1 R1 P1.
  check_step. intros required Er. unfold suppressSensitiveSyncFailure in Er. destruct (required_balance _ _) as [required'|] eqn:E; [|done].
  injection Er as ->. unfold required_balance in E. apply result_bind_Ok in E as (gas & Eg & E). apply result_bind_Ok in E as (value & Ev & E).
  injection E as <-. unfold wp, throw_if. destruct (Z.ltb_spec balance ((gas * px_feeCeilingPerGas prepared + value) * multiplier));
    (split; [done|]); [by apply text_suppressed|]. by exists balance, gas, value.
Qed.

Lemma asks_total {A} (event : result A -> Event) (call : W -> A * W) :
  (forall r, quiet (event r)) -> asks (ask event (total call)) (fun _ _ => True).
Proof.
  intros Hq s. unfold wp, ask, total. destruct (call (ts_world s)) as [a w]. split; [|done]. split; [done|].
  eexists. split; [done|]. by constructor; [|constructor].
Qed.

(** ** Signing *)
(** What was signed has the fields of the request, and is from the wallet. *)
Definition signed_as (wallet : Wallet) (request : TransactionRequest) (transaction : string) : Prop :=
  exists parsed data nonce type,
    hr_parseTransaction transaction = Ok parsed /\ pt_isSigned parsed = true /\ pt_from parsed = Some (wl_address wallet) /\
    hr_toBigInt (default 0 (tr_chainId request)) = Ok (pt_chainId parsed) /\
    hr_toBigInt (default 0 (tr_gasLimit request)) = Ok (pt_gasLimit parsed) /\
    hr_toBigInt (default 0 (tr_value request)) = Ok (pt_value parsed) /\
    (tr_nonce request = Some nonce /\ hr_toNumber nonce = Ok (pt_nonce parsed)) /\
    (tr_data request = Some data /\ toLowerCase (pt_data parsed) = toLowerCase data) /\
    match tr_to request with None => pt_to parsed = None | Some to => exists checked, hr_getAddress to = Ok checked /\ pt_to parsed = Some checked end /\
    pt_type parsed = Some type /\
    if type =? 2 then
      pt_gasPrice parsed = None /\
      exists fee priority, pt_maxFeePerGas parsed = Some fee /\ hr_toBigInt (default 0 (tr_maxFeePerGas request)) = Ok fee /\
        pt_maxPriorityFeePerGas parsed = Some priority /\ hr_toBigInt (default 0 (tr_maxPriorityFeePerGas request)) = Ok priority
    else
      type = 0 /\ pt_maxFeePerGas parsed = None /\ pt_maxPriorityFeePerGas parsed = None /\
      exists price, pt_gasPrice parsed = Some price /\ hr_toBigInt (default 0 (tr_gasPrice request)) = Ok price.

Lemma required_fields_Ok request fields :
  required_fields request = Ok fields ->
  tr_data request = Some (rf_data fields) /\ exists nonce, tr_nonce request = Some nonce /\ hr_toNumber nonce = Ok (rf_nonce fields).
Proof.
  unfold required_fields. destruct (tr_from request), (tr_nonce request) as [nonce|], (tr_chainId request), (tr_type request), (tr_gasLimit request),
    (tr_value request), (tr_data request) as [data|]; try done.
  intros E. apply result_bind_Ok in E as (type & _ & E). apply result_bind_Ok in E as (? & _ & E).
  apply result_bind_Ok in E as (number & En & E). injection E as <-. split; [done|]. by exists nonce.
Qed.

Lemma amount_same parsed field : amount_differs parsed field = Ok false -> exists z, parsed = Some z /\ hr_toBigInt (default 0 field) = Ok z.
Proof.
  unfold amount_differs. intros E. apply result_bind_Ok in E as (z & Ez & E). injection E as E.
  apply negb_false_iff, bool_decide_eq_true in E. by exists z.
Qed.

Lemma absent_None {A} (o : option A) : present o = false -> o = None.
Proof. by destruct o. Qed.

Lemma fees_same request type parsed :
  fees_differ request type parsed = Ok false ->
  if type =? 2 then
    pt_gasPrice parsed = None /\
    exists fee priority, pt_maxFeePerGas parsed = Some fee /\ hr_toBigInt (default 0 (tr_maxFeePerGas request)) = Ok fee /\
      pt_maxPriorityFeePerGas parsed = Some priority /\ hr_toBigInt (default 0 (tr_maxPriorityFeePerGas request)) = Ok priority
  else
    type = 0 /\ pt_maxFeePerGas parsed = None /\ pt_maxPriorityFeePerGas parsed = None /\
    exists price, pt_gasPrice parsed = Some price /\ hr_toBigInt (default 0 (tr_gasPrice request)) = Ok price.
Proof.
  unfold fees_differ. destruct (type =? 2) eqn:Et.
  - intros E. apply result_bind_Ok in E as (b1 & E1 & E). apply result_bind_Ok in E as (b2 & E2 & E). injection E as E.
    bool_to_prop. subst. split; [by apply absent_None|]. apply amount_same in E1 as (fee & ? & ?), E2 as (priority & ? & ?). by exists fee, priority.
  - intros E. apply result_bind_Ok in E as (b1 & E1 & E). injection E as E. bool_to_prop. subst.
    split_and!; [done|by apply absent_None..|by apply amount_same].
Qed.

Lemma check_signed_Ok wallet request fields transaction hash :
  required_fields request = Ok fields -> check_signed wallet request fields transaction = Ok hash -> signed_as wallet request transaction.
Proof.
  intros Ef E. destruct (required_fields_Ok _ _ Ef) as (Ed & nonce & En & Hn). unfold check_signed in E.
  apply result_bind_Ok in E as (parsed & Ep & E). apply result_bind_Ok in E as (? & _ & E). apply result_bind_Ok in E as (to & Eto & E).
  apply result_bind_Ok in E as (b1 & E1 & E). apply result_bind_Ok in E as (b2 & E2 & E). apply result_bind_Ok in E as (b3 & E3 & E).
  apply result_bind_Ok in E as (? & Hok%fail_if_Ok & E). apply result_bind_Ok in E as (b4 & E4 & E). apply result_bind_Ok in E as (? & ->%fail_if_Ok & _).
  bool_to_prop. subst.
  apply amount_same in E1 as (? & [= <-] & ?), E2 as (? & [= <-] & ?), E3 as (? & [= <-] & ?). apply fees_same in E4.
  exists parsed, (rf_data fields), nonce, (rf_type fields). split_and!; try done; [congruence|].
  destruct (tr_to request) as [d|]; [|by injection Eto as <-]. apply result_bind_Ok in Eto as (checked & ? & [= <-]). by exists checked.
Qed.

(** ** Sending *)
(** The one thing that may be sent, with what was seen before it was signed ([tr]) and
    between that and sending: the repository as it was at the start, and clean. *)
Record authorised (tr : list Event) (wallet : Wallet) (request : TransactionRequest) (transaction commit tree status : string) : Prop := {
  au_signed : signed_as wallet request transaction;
  au_identity : exists identity, clean_identity identity tr /\ trim commit = ri_gitCommit identity /\ trim tree = ri_gitTree identity /\
                  trim status = "";
  au_network : ENetwork (Ok SEPOLIA_CHAIN_ID) ∈ tr;
  au_prepared : exists fee, prepared_ok (wl_address wallet) request fee tr /\ funded (wl_address wallet) request fee 1 tr
}.

Definition is_git (event : Event) : Prop := match event with EGit _ _ => True | _ => False end.

(** What is done besides asking: nothing, or a signature and looks at the repository, or
    these and the transaction that was signed. *)
Definition sent_part (tr part : list Event) : Prop :=
  part = [] \/
  (exists wallet request answer gits, part = ESign wallet request answer :: gits /\ Forall is_git gits) \/
  exists wallet request transaction commit tree status answer,
    part = [ESign wallet request (Ok transaction); EGit GIT_COMMIT (Ok commit); EGit GIT_TREE (Ok tree); EGit GIT_STATUS (Ok status);
            EBroadcast transaction answer] /\
    authorised tr wallet request transaction commit tree status.

Definition reached s0 s : Prop :=
  ts_muted s = ts_muted s0 /\
  exists before part after, ts_events s = ts_events s0 ++ before ++ part ++ after /\ Forall quiet before /\ Forall quiet after /\
    sent_part (ts_events s0 ++ before) part.

#[global] Instance reached_extends : Extends reached.
Proof.
  intros s0 s s' (M & before & part & after & E & Hb & Ha & Hp) (M' & added & E' & Hadded). split; [congruence|].
  exists before, part, (after ++ added). rewrite E', E, !app_assoc. split_and!; try done. by apply Forall_app.
Qed.
#[global] Instance grows_within_reached : Within grows reached.
Proof.
  intros s0 s (M & added & E & Hadded). split; [done|]. exists added, [], []. rewrite !app_nil_r. split_and!; [done|done|constructor|by left].
Qed.

Lemma wp_sent {A B} (m : Task A) (f : A -> Task B) P Q s0 s :
  wp m (ends reached P s0) s -> (forall a s1, reached s0 s1 -> P a (ts_events s1) -> wp (f a) (ends reached Q s0) s1) ->
  wp (m ≫= f) (ends reached Q s0) s.
Proof. intros Hm Hf. apply wp_bind. eapply wp_mono; [exact Hm|]. intros [a|e] s1 [R Ha]; [by apply Hf|by split]. Qed.

(** A look at the repository, exactly. *)
Definition looks_at {A} (m : Task A) (Q : A -> list Event -> Prop) : Prop :=
  forall s, wp m (fun r s' => ts_muted s' = ts_muted s /\ exists gits, ts_events s' = ts_events s ++ gits /\ Forall is_git gits /\
    match r with Ok a => Q a gits | Throw e => suppressed e end) s.

Lemma runGit_looks arguments : looks_at (runGit arguments) (fun output gits => exists raw, gits = [EGit arguments (Ok raw)] /\ output = trim raw).
Proof.
  intros s. unfold runGit. apply wp_bind. unfold suppressSensitiveFailure. apply wp_try_catch. unfold wp at 1, ask.
  destruct (hr_git arguments (ts_world s)) as [[raw|e] w]; cbn beta iota; [apply wp_ret|]; (split; [done|]); eexists; (split; [done|]);
    (split; [by constructor; [|constructor]|]); [by exists raw|by apply text_suppressed].
Qed.

Lemma looks_bind {A B} (m : Task A) (f : A -> Task B) P Q :
  looks_at m P -> (forall a gits, P a gits -> looks_at (f a) (fun b more => Q b (gits ++ more))) -> looks_at (m ≫= f) Q.
Proof.
  intros Hm Hf s. apply wp_bind. eapply wp_mono; [apply Hm|]. intros [a|e] s1 (M1 & g1 & E1 & H1 & Ha); [|by split; [|exists g1]].
  eapply wp_mono; [by eapply Hf|]. intros r s2 (M2 & g2 & E2 & H2 & Hr). split; [congruence|]. exists (g1 ++ g2).
  rewrite E2, E1, app_assoc. split_and!; [done|by apply Forall_app|]. by destruct r.
Qed.
Lemma looks_guard c message : fixed_text message = true -> looks_at (throw_if c message) (fun _ gits => gits = [] /\ c = false).
Proof.
  intros Ht s. apply wp_throw_if; intros Hc; (split; [done|]); exists []; rewrite app_nil_r; (split; [done|]); (split; [by apply Forall_nil|]);
    [by apply text_suppressed|done].
Qed.

Lemma requireRepositoryIdentityUnchanged_looks identity :
  looks_at (requireRepositoryIdentityUnchanged identity) (fun _ gits => exists commit tree status,
    gits = [EGit GIT_COMMIT (Ok commit); EGit GIT_TREE (Ok tree); EGit GIT_STATUS (Ok status)] /\
    trim commit = ri_gitCommit identity /\ trim tree = ri_gitTree identity /\ trim status = "").
Proof.
  unfold requireRepositoryIdentityUnchanged. eapply looks_bind; [apply runGit_looks|]. intros ? ? (commit & -> & ->).
  eapply looks_bind; [apply runGit_looks|]. intros ? ? (tree & -> & ->).
  eapply looks_bind; [by apply looks_guard|]. intros _ ? [-> _]. eapply looks_bind; [by apply looks_guard|]. intros _ ? [-> Hc].
  bool_to_prop. eapply looks_bind; [apply runGit_looks|]. intros ? ? (status & -> & ->). intros s.
  eapply wp_mono; [by apply looks_guard|]. intros r s' (M & gits & E & Hg & Hr). split; [done|]. exists gits. split_and!; [done..|].
  destruct r as [[]|e]; [|done]. destruct Hr as [-> Es%string_nonempty_false]. by exists commit, tree, status.
Qed.

(** The signature, exactly. *)
Lemma signExactTransaction_signs wallet request s :
  wp (signExactTransaction wallet request) (fun r s' => ts_muted s' = ts_muted s /\
    (ts_events s' = ts_events s /\ (exists e, r = Throw e /\ suppressed e) \/
     exists answer, ts_events s' = ts_events s ++ [ESign wallet request answer] /\
       match r with Ok signed => answer = Ok signed.2 /\ signed_as wallet request signed.2 | Throw e => suppressed e end)) s.
Proof.
  unfold signExactTransaction. apply wp_bind, wp_lift. unfold suppressSensitiveSyncFailure at 1.
  destruct (required_fields request) as [fields|e] eqn:Ef; [|split; [done|left; split; [done|]; eexists; split; [done|by apply text_suppressed]]].
  apply wp_bind. unfold suppressSensitiveFailure. apply wp_try_catch. unfold wp at 1, ask.
  destruct (hr_signTransaction wallet request (ts_world s)) as [[transaction|e] w]; cbn beta iota;
    [|split; [done|right]; eexists; split; [done|by apply text_suppressed]].
  apply wp_bind, wp_lift. unfold suppressSensitiveSyncFailure. destruct (check_signed _ _ _ _) as [hash|e] eqn:Ec;
    [|split; [done|right]; eexists; split; [done|by apply text_suppressed]].
  apply wp_bind, wp_lift. unfold requireValidTransactionHash, fail_if. destruct (negb _); (split; [done|right]); eexists; (split; [done|]);
    [by apply text_suppressed|]. split; [done|]. by eapply check_signed_Ok.
Qed.

Lemma broadcastSignedTransaction_sends transaction expectedHash s :
  wp (broadcastSignedTransaction transaction expectedHash) (fun r s' => ts_muted s' = ts_muted s /\
    exists answer, ts_events s' = ts_events s ++ [EBroadcast transaction answer] /\
      match r with Ok hash => answer = Ok (Some hash) | Throw e => suppressed e end) s.
Proof.
  unfold broadcastSignedTransaction. apply wp_bind, wp_try_catch. unfold wp at 1, ask.
  destruct (hr_sendRawTransaction transaction (ts_world s)) as [[[hash|]|e] w]; cbn beta iota;
    [|split; [done|]; eexists; (split; [done|]); by apply text_suppressed..].
  apply wp_bind, wp_lift. unfold requireValidTransactionHash, fail_if.
  destruct (negb _); [split; [done|]; eexists; (split; [done|]); by apply text_suppressed|].
  apply wp_bind, wp_throw_if; intros _; (split; [done|]); eexists; (split; [done|]); [by apply text_suppressed|done].
Qed.

(** A receipt that is taken for the transaction's. *)
Definition received (hash : string) (receipt : Receipt) (tr : list Event) : Prop :=
  EReceipt hash (Ok (Some receipt)) ∈ tr /\ toLowerCase (rc_hash receipt) = toLowerCase hash /\
  requireValidReceiptBlockNumber (rc_blockNumber receipt) = Ok tt.

Lemma requireValid_fails_well : (forall block, fails_well (requireValidReceiptBlockNumber block)) /\ (forall hash, fails_well (requireValidTransactionHash hash)).
Proof. split; intros; by apply fails_well_if. Qed.

Lemma poll_receipt_asks attempts hash : asks (poll_receipt attempts hash) (fun receipt tr => received hash receipt tr).
Proof.
  induction attempts as [|attempts IH]; apply asks_ends; intros s; cbn [poll_receipt]; [refusal|].
  assert (Ha : asks (try_catch (ask (EReceipt hash) (hr_getTransactionReceipt hash))
      (fun _ => throw_in (new_Error (says "transaction receipt request failed; sensitive details suppressed."))))
    (fun answer tr => EReceipt hash (Ok answer) ∈ tr)) by (by apply asks_ask).
  step Ha. intros [receipt|] s1 G1 R1 P1.
  - check_by requireValid_fails_well. intros [] Eb.
    check_by requireValid_fails_well. intros [] _. guard_step. intros Hh%negb_false_iff%bool_decide_eq_true.
    finish. by split_and!.
  - assert (Hd : asks (if (0 <? attempts)%nat then ask_other "delay" (total (fun w => (tt, hr_delay RECEIPT_POLL_INTERVAL_MILLISECONDS w))) else mret tt)
      (fun _ _ => True)) by (destruct (0 <? attempts)%nat; [by apply asks_total|intros s2; by split]).
    step Hd. intros [] s2 G2 R2 _. last_step IH.
Qed.

(** Sent, and received. *)
Definition delivered (sent : string * Receipt) (tr : list Event) : Prop :=
  (exists transaction, EBroadcast transaction (Ok (Some sent.1)) ∈ tr) /\ received sent.1 sent.2 tr.

Section sending.
Variables (context : LiveContext) (request : TransactionRequest) (fee : Z) (s0 s : TaskState W).
Hypothesis Hg : grows s0 s.
Hypothesis Hc : context_ok context (ts_events s).
Hypothesis Hp : prepared_ok (lc_signerAddress context) request fee (ts_events s).
Hypothesis Hf : funded (lc_signerAddress context) request fee 1 (ts_events s).

Lemma reached_part s1 part :
  ts_muted s1 = ts_muted s -> ts_events s1 = ts_events s ++ part -> sent_part (ts_events s) part -> reached s0 s1.
Proof using Hg.
  destruct Hg as (M & before & E & Hb). intros M1 E1 Hpart. split; [congruence|]. exists before, part, [].
  rewrite app_nil_r, E1, E, app_assoc. rewrite E in Hpart. split_and!; [done|done|constructor|done].
Qed.

Lemma authorised_now transaction commit tree status :
  signed_as (lc_wallet context) request transaction ->
  trim commit = ri_gitCommit (bm_identity (lc_metadata context)) -> trim tree = ri_gitTree (bm_identity (lc_metadata context)) -> trim status = "" ->
  authorised (ts_events s) (lc_wallet context) request transaction commit tree status.
Proof using Hc Hp Hf.
  intros Hs H1 H2 H3. destruct Hc as [Hi Hn Hw]. split; [done|by eexists|done|]. rewrite Hw. by exists fee.
Qed.

Lemma send_exact_reaches :
  wp (send_exact context request) (ends reached (fun sent tr => delivered sent tr /\ ts_events s ⊆ tr) s0) s.
Proof using Hg Hc Hp Hf.
  unfold send_exact. apply wp_bind. eapply wp_mono; [apply signExactTransaction_signs|].
  intros r s1 (M1 & [(E1 & e & -> & He)|(answer & E1 & Hr)]).
  { split; [|done]. eapply (reached_part _ []); [done|by rewrite app_nil_r|by left]. }
  destruct r as [signed|e]; [|split; [|done]; eapply reached_part; [done|exact E1|]; right; left; eexists _, _, _, []; split; [done|constructor]].
  destruct Hr as [-> Hs]. apply wp_bind. eapply wp_mono; [apply requireRepositoryIdentityUnchanged_looks|].
  intros [[]|e] s2 (M2 & gits & E2 & Hgits & Hr).
  2: { split; [|done]. eapply reached_part; [congruence|rewrite E2, E1, <- app_assoc; done|]. right. left. by eexists _, _, _, gits. }
  destruct Hr as (commit & tree & status & -> & H1 & H2 & H3). apply wp_bind.
  eapply wp_mono; [apply broadcastSignedTransaction_sends|]. intros r s3 (M3 & answer & E3 & Hr).
  assert (R3 : reached s0 s3).
  { eapply reached_part; [congruence|rewrite E3, E2, E1, <- !app_assoc; done|]. right. right.
    eexists _, _, _, commit, tree, status, answer. split; [done|]. by apply authorised_now. }
  destruct r as [hash|e]; [|by split]. subst answer. step poll_receipt_asks. intros receipt s4 G4 R4 P4. finish.
  assert (Hsub : ts_events s3 ⊆ ts_events s4) by by apply grows_sub. rewrite E3, E2, E1 in Hsub.
  split; [split; [|done]; exists signed.2|]; set_solver.
Qed.
End sending.

(** ** The parts of the tasks *)
Lemma record_event_asks event : quiet event -> asks (record_event event) (fun _ tr => event ∈ tr).
Proof.
  intros Hq s. unfold wp, record_event, modify. cbn. split; [|set_solver]. split; [done|]. eexists. split; [done|]. by constructor; [|constructor].
Qed.
Lemma emitPublicMetadata_asks metadata : asks (emitPublicMetadata metadata) (fun _ _ => True).
Proof.
  intros s. unfold emitPublicMetadata. apply wp_bind. unfold gets, wp at 1. cbn beta iota. destruct (ts_muted s); [by split|].
  eapply wp_mono; [by apply record_event_asks|]. intros [[]|e] s' [G P]; by split.
Qed.
Lemma now_asks : asks now (fun _ _ => True).
Proof. by apply asks_total. Qed.

Lemma prepare_deployment_asks name context multiplier :
  asks (prepare_deployment name context multiplier) (fun prepared tr =>
    prepared_ok (lc_signerAddress context) (px_signableRequest prepared) (px_feeCeilingPerGas prepared) tr /\
    funded (lc_signerAddress context) (px_signableRequest prepared) (px_feeCeilingPerGas prepared) multiplier tr).
Proof.
  apply asks_ends. intros s. unfold prepare_deployment. step asks_other. intros [] s1 G1 R1 _. step asks_other. intros base s2 G2 R2 _.
  step prepareExactTransaction_asks. intros prepared s3 G3 R3 P3. step requireSufficientFunding_asks. intros [] s4 G4 R4 P4. finish.
  split; [|done]. destruct P3 as [(nonce & Hn & En) Hc (estimated & gas & limit & He & Hrest) Hfee]. pose proof (grows_sub _ _ G4).
  split; [exists nonce; set_solver|done|exists estimated, gas, limit; set_solver|done].
Qed.

Lemma prepared_ok_sub signer request fee tr tr' : prepared_ok signer request fee tr -> tr ⊆ tr' -> prepared_ok signer request fee tr'.
Proof.
  intros [(nonce & Hn & En) Hc (estimated & gas & limit & He & Hrest) Hfee] Hs.
  split; [exists nonce; set_solver|done|exists estimated, gas, limit; set_solver|done].
Qed.
Lemma funded_sub signer request fee multiplier tr tr' : funded signer request fee multiplier tr -> tr ⊆ tr' -> funded signer request fee multiplier tr'.
Proof. intros (balance & gas & value & Hb & Hrest) Hs. exists balance, gas, value. set_solver. Qed.

(** Calls that only ask, together. *)
Definition silent {A} (m : Task A) : Prop := forall s, wp m (fun _ s' => grows s s') s.
Lemma silent_ask {A} (event : result A -> Event) (call : method W A) : (forall r, quiet (event r)) -> silent (ask event call).
Proof.
  intros Hq s. unfold wp, ask. destruct (call (ts_world s)) as [r w]. split; [done|]. eexists. split; [done|]. by constructor; [|constructor].
Qed.
Lemma silent_both {A B} (p : Task A) (q : Task B) : silent p -> silent q -> silent (promise_all2 p q).
Proof.
  intros Hp Hq s. apply wp_promise_all2. eapply wp_mono; [apply Hp|]. intros r1 s1 G1. eapply wp_mono; [apply Hq|]. intros r2 s2 G2.
  cbn beta in *. by transitivity s1.
Qed.
Lemma asks_silent {A} message (m : Task A) : fixed_text message = true -> silent m -> asks (suppressSensitiveFailure message m) (fun _ _ => True).
Proof.
  intros Ht Hm s. apply wp_try_catch. eapply wp_mono; [apply Hm|]. intros [a|e] s' G; [done|]. split; [done|by apply text_suppressed].
Qed.

Lemma requireDeployedCode_asks contract : asks (requireDeployedCode contract) (fun _ _ => True).
Proof.
  apply asks_ends. intros s. unfold requireDeployedCode. step asks_other. intros code s1 G1 R1 _.
  apply wp_throw_if; intros _; (split; [done|]); [by apply text_suppressed|done].
Qed.

Lemma delivered_sub sent tr tr' : delivered sent tr -> tr ⊆ tr' -> delivered sent tr'.
Proof. intros [(transaction & Ht) [H1 H2]] Hs. split; [exists transaction; set_solver|split; [set_solver|done]]. Qed.

Lemma check_deployment_fails_well receipt expected : fails_well (check_deployment receipt expected).
Proof. unfold check_deployment. destruct (rc_contractAddress receipt); eauto 8 with tasks. Qed.

Lemma prepare_call_asks context base destination flag changed (P : bool -> list Event -> Prop) :
  asks flag P -> fixed_text changed = true -> (forall request, fails_well (destination request)) ->
  asks (prepare_call context base destination flag changed) (fun call tr =>
    prepared_ok (lc_signerAddress context) (px_signableRequest call.1) (px_feeCeilingPerGas call.1) tr /\
    funded (lc_signerAddress context) (px_signableRequest call.1) (px_feeCeilingPerGas call.1) 1 tr /\
    destination (px_signableRequest call.1) = Ok tt /\ P false tr).
Proof.
  intros Hflag Ht Hd. apply asks_ends. intros s. unfold prepare_call. step prepareExactTransaction_asks. intros prepared s1 G1 R1 P1.
  step requireSufficientFunding_asks. intros [] s2 G2 R2 P2. step readSepoliaChainId_asks. intros chain s3 G3 R3 _.
  check_by Hd. intros [] Ed. step now_asks. intros time s4 G4 R4 _. step Hflag. intros flagged s5 G5 R5 P5. guard_step. intros ->. finish.
  assert (H2 : ts_events s2 ⊆ ts_events s5) by earlier.
  cbn [fst]. split_and!; [|by eapply funded_sub|done|done].
  eapply prepared_ok_sub; [exact P1|]. pose proof (grows_sub _ _ G2). set_solver.
Qed.

Lemma send_call_reaches {A} contract context request fee check_receipt (read : Task A) P s0 s :
  asks read P -> (forall receipt, fails_well (check_receipt receipt)) ->
  grows s0 s -> context_ok context (ts_events s) -> prepared_ok (lc_signerAddress context) request fee (ts_events s) ->
  funded (lc_signerAddress context) request fee 1 (ts_events s) ->
  wp (send_call contract context request check_receipt read) (ends reached (fun '(sent, _, state) tr => ts_events s ⊆ tr /\
    delivered sent tr /\ check_receipt sent.2 = Ok tt /\ P state tr) s0) s.
Proof.
  intros Hread Hcheck Hg Hc Hp Hf. unfold send_call. eapply wp_sent; [by eapply send_exact_reaches|]. intros sent s1 R1 [P1 S1].
  check_by Hcheck. intros [] Er. step requireDeployedCode_asks. intros [] s2 G2 R2 _.
  step readSepoliaChainId_asks. intros chain s3 G3 R3 _. step Hread. intros state s4 G4 R4 P4. finish.
  assert (Hsub : ts_events s1 ⊆ ts_events s4) by earlier.
  split_and!; [by transitivity (ts_events s1)|by eapply delivered_sub|done|done].
Qed.

(** What a deployment that succeeds says. *)
Definition deployed (tr : list Event) : Prop :=
  exists sent signer nonce expected contract, delivered sent tr /\ ENonce signer (Ok nonce) ∈ tr /\ hr_getCreateAddress signer nonce = Ok expected /\
    check_deployment sent.2 expected = Ok contract.

Lemma deployed_sub tr tr' : deployed tr -> tr ⊆ tr' -> deployed tr'.
Proof.
  intros (sent & signer & nonce & expected & contract & H1 & H2 & H3) Hs. exists sent, signer, nonce, expected, contract.
  split; [by eapply delivered_sub|]. split; [set_solver|done].
Qed.

Lemma deploy_exact_reaches name context s0 s :
  grows s0 s -> context_ok context (ts_events s) -> wp (deploy_exact name context) (ends reached (fun _ tr => deployed tr) s0) s.
Proof.
  intros G0 Hc. unfold deploy_exact.
  step prepare_deployment_asks. intros prepared s2 G2 R2 [P2 F2]. destruct (po_nonce _ _ _ _ P2) as (nonce & Hn & En). rewrite En.
  check_step. intros expected Ee. step readSepoliaChainId_asks. intros chain s3 G3 R3 _. step now_asks. intros time s4 G4 R4 _.
  assert (H1 : ts_events s ⊆ ts_events s4) by earlier. assert (H2 : ts_events s2 ⊆ ts_events s4) by earlier.
  eapply wp_sent.
  { eapply send_exact_reaches; [done|by eapply context_ok_sub|by eapply prepared_ok_sub|by eapply funded_sub]. }
  intros sent s5 R5 [P5 S5]. check_by check_deployment_fails_well. intros contract Ec.
  assert (Hd : deployed (ts_events s5)).
  { exists sent, (lc_signerAddress context), nonce, expected, contract. split_and!; [done|set_solver| |done].
    unfold suppressSensitiveSyncFailure in Ee. by destruct (hr_getCreateAddress _ _). }
  step requireDeployedCode_asks. intros [] s6 G6 R6 _. step readSepoliaChainId_asks. intros final s7 G7 R7 _. finish.
  eapply deployed_sub; [exact Hd|]. earlier.
Qed.

(** One transaction at most in a record, the one that was authorised. *)
Definition sends_once (tr : list Event) : Prop :=
  exists before part after, tr = before ++ part ++ after /\ Forall quiet before /\ Forall quiet after /\ sent_part before part.

Lemma reached_once s0 s : ts_events s0 = [] -> reached s0 s -> sends_once (ts_events s).
Proof. intros E (_ & before & part & after & E' & Hb & Ha & Hp). rewrite E in *. by exists before, part, after. Qed.
End task_facts.

(** ** Gas *)
(** The limit is the estimate and a fifth of it, rounded up and at most the bound; an
    estimate that is not positive is refused. *)
Lemma bufferedGasLimit_bounds `{Gate} gas :
  (gas <= 0 -> is_ok (bufferedGasLimit gas) = false) /\
  (0 < gas -> exists limit, bufferedGasLimit gas = Ok limit /\ gas < limit <= gas + MAX_GAS_BUFFER /\
     BASIS_POINTS * (limit - gas) < gas * GAS_BUFFER_BASIS_POINTS + BASIS_POINTS /\
     (limit < gas + MAX_GAS_BUFFER -> gas * GAS_BUFFER_BASIS_POINTS <= BASIS_POINTS * (limit - gas))).
Proof.
  unfold bufferedGasLimit, fail_if, BASIS_POINTS, GAS_BUFFER_BASIS_POINTS, MAX_GAS_BUFFER. split; intros Hg.
  - by rewrite (proj2 (Z.leb_le gas 0)) by lia.
  - rewrite (proj2 (Z.leb_gt gas 0)) by lia. cbn [mbind result_bind]. eexists. split; [done|].
    rewrite Z.quot_div_nonneg by lia. pose proof (Z.div_mod (gas * 2000 + 10000 - 1) 10000 ltac:(lia)).
    pose proof (Z.mod_pos_bound (gas * 2000 + 10000 - 1) 10000 ltac:(lia)).
    destruct (Z.ltb_spec ((gas * 2000 + 10000 - 1) / 10000) 500000); lia.
Qed.

(** ** Packages *)
Lemma before_last_slash_split path before : before_last_slash path = Some before -> exists rest, path = before +:+ String "/" rest.
Proof.
  revert before. induction path as [|c path IH]; intros before; cbn [before_last_slash]; [done|].
  destruct (before_last_slash path) as [b|]; [intros [= <-]; destruct (IH b eq_refl) as [rest ->]; by exists rest|].
  destruct (Ascii.eqb_spec c "/") as [->|]; [|done]. intros [= <-]. by exists path.
Qed.
Lemma before_last_slash_some path : before_last_slash (String "/" path) <> None.
Proof. cbn. by destruct (before_last_slash path). Qed.

(** The directory above one of the root's is one of the root's, and shorter, but for "/". *)
Lemma dirname_absolute path :
  let parent := dirname (String "/" path) in
  (exists path', parent = String "/" path') /\ (parent = String "/" path \/ (String.length parent < String.length (String "/" path))%nat).
Proof.
  unfold dirname. pose proof (before_last_slash_some path). destruct (before_last_slash (String "/" path)) as [before|] eqn:E; [|done].
  apply before_last_slash_split in E as [rest E]. destruct before as [|c before].
  - split; [by exists ""|]. destruct path; [by left|]. right. cbn. lia.
  - injection E as <- E. split; [by exists before|]. right. apply (f_equal String.length) in E. cbn [String.length]. rewrite E, length_append. cbn. lia.
Qed.

(** The search is over after as many steps as the directory has characters: the fuel that
    [installedPackageVersion] gives is never spent. *)
Lemma search_package_enough `{Hardhat W, Gate} packageName root path fuel :
  (String.length (String "/" path) <= fuel)%nat ->
  search_package fuel packageName root (String "/" path) = search_package (String.length (String "/" path)) packageName root (String "/" path).
Proof.
  revert path. assert (Hmore : forall n path, (String.length (String "/" path) <= n)%nat -> forall m, (String.length (String "/" path) <= m)%nat ->
    search_package n packageName root (String "/" path) = search_package m packageName root (String "/" path)).
  { induction n as [|n IH]; intros path Hn m Hm; [cbn in Hn; lia|]. destruct m as [|m]; [cbn in Hm; lia|]. cbn [search_package].
    assert (Hparent : forall unavailable, (if bool_decide (dirname (String "/" path) = String "/" path) then unavailable
        else search_package n packageName root (dirname (String "/" path))) =
      (if bool_decide (dirname (String "/" path) = String "/" path) then unavailable
        else search_package m packageName root (dirname (String "/" path)))).
    { intros unavailable. case_bool_decide as Hp; [done|]. destruct (dirname_absolute path) as [[path' Ep] [E|Hlt]]; [done|].
      rewrite Ep in *. apply IH; cbn in *; lia. }
    destruct (_ || _); [|done]. destruct (hr_readPackage _) as [[[[name|] [version|]]|]|]; cbn; rewrite ?Hparent; done. }
  intros path Hf. by apply Hmore.
Qed.

(** ** A deployment *)
(** A network on which everything succeeds. *)
Definition sample_address : string := "0x1111111111111111111111111111111111111111".
Definition sample_created : string := "0x2222222222222222222222222222222222222222".
Definition sample_hash : string := "0xabcd".
Definition sample_request : TransactionRequest :=
  {| tr_to := None; tr_from := None; tr_nonce := Some 7; tr_chainId := Some SEPOLIA_CHAIN_ID; tr_type := Some 2; tr_gasLimit := Some 1200;
     tr_value := Some 0; tr_data := Some "0x00"; tr_gasPrice := None; tr_maxFeePerGas := Some 30; tr_maxPriorityFeePerGas := Some 2 |}.
Definition sample_receipt : Receipt :=
  {| rc_blockNumber := Some (JInt 100); rc_hash := sample_hash; rc_status := Some 1; rc_to := None; rc_contractAddress := Some sample_created |}.
Definition sample_git (arguments : list string) : string :=
  if bool_decide (arguments = GIT_STATUS) then "" else "0123456789abcdef0123456789abcdef01234567".
Definition sample_hardhat : Hardhat unit := {|
  hr_networkName := "sepolia"; hr_DEBUG := None; hr_cwd := "/repo"; hr_git arguments := mret (sample_git arguments);
  hr_resolve name := Ok ("/repo/node_modules/" +:+ name);
  hr_readPackage directory := Ok (Some (Some (String.substring 19 100 directory), Some "1.0.0"));
  hr_lockfileSha256 := Ok "00"; hr_vars name := mret (if bool_decide (name = "SEPOLIA_RPC_URL") then "https://rpc"
    else "0x0000000000000000000000000000000000000000000000000000000000000001");
  hr_parseUrl _ := Ok ("https:", "rpc"); hr_isAddress := matches_hex 40; hr_getAddress a := Ok a; hr_isHexString _ := true;
  hr_isHexString32 _ := true; hr_dataLength _ := Ok 32; hr_toNumber := Ok; hr_toBigInt := Ok; hr_ZeroHash := "0x00"; hr_keccak256 _ := Ok sample_hash;
  hr_getCreateAddress _ _ := Ok sample_created;
  hr_parseTransaction _ := Ok {| pt_isSigned := true; pt_from := Some sample_address; pt_chainId := SEPOLIA_CHAIN_ID; pt_type := Some 2;
    pt_nonce := 7; pt_gasLimit := 1200; pt_value := 0; pt_data := "0x00"; pt_to := None; pt_gasPrice := None; pt_maxFeePerGas := Some 30;
    pt_maxPriorityFeePerGas := Some 2 |};
  hr_newWallet _ := Ok sample_address; hr_getNetwork := mret SEPOLIA_CHAIN_ID; hr_getSigners := mret ["signer"]; hr_signerAddress _ := mret sample_address;
  hr_getTransactionCount _ := mret 7;
  hr_getFeeData := mret {| fd_maxFeePerGas := Some 30; fd_maxPriorityFeePerGas := Some 2; fd_gasPrice := Some 20 |};
  hr_estimateGas _ := mret 1000; hr_getBalance _ := mret 36000; hr_getCode _ := mret "0x60"; hr_signTransaction _ _ := mret "0xsigned";
  hr_sendRawTransaction _ := mret (Some sample_hash); hr_getTransactionReceipt _ := mret (Some sample_receipt); hr_getContractFactory _ := mret tt;
  hr_getDeployTransaction _ := mret {| br_to := NoDestination; br_data := Some "0x00"; br_value := Ok 0 |}; hr_getContractAt _ _ := mret tt;
  hr_OPERATOR _ := mret sample_address; hr_getCiphertext _ := mret "0x01"; hr_SG2_EXPECTED_VALUE _ := mret 42; hr_initialized _ := mret true;
  hr_isCiphertextPubliclyDecryptable _ := mret true; hr_verificationSucceeded _ := mret false; hr_verifiedValue _ := mret 0;
  hr_populateInitialize _ _ _ := mret {| br_to := NoDestination; br_data := None; br_value := Ok 0 |};
  hr_populateVerify _ _ _ := mret {| br_to := NoDestination; br_data := None; br_value := Ok 0 |}; hr_initializeCLIApi := mret tt;
  hr_encrypt _ _ _ := mret NoEncryptedInput;
  hr_publicDecrypt _ := mret {| pd_clearValues _ := None; pd_abiEncodedClearValues := ""; pd_decryptionProof := "" |};
  hr_getCount _ := mret "0x01"; hr_encrypt32 _ _ _ := mret {| ev_handles := []; ev_inputProof := {| bt_value := ""; bt_dataLength := 0 |} |};
  hr_populateIncrement _ _ _ := mret {| br_to := NoDestination; br_data := None; br_value := Ok 0 |}; hr_userDecryptEuint _ _ := mret 1;
  hr_now w := ("2026-01-01T00:00:00.000Z", w); hr_delay _ w := w |}.
