(* ===== verification/Sg2Tasks.v ===== *)
(** * The tasks of the second gate: tasks/sg2.ts

    Four tasks on the Sepolia network: check, deploy a contract, prepare an encrypted value
    in it, verify its public decryption.  What they share with the first gate is in
    [GateTasks].  A task runs only for a capability that the launcher made ([Sg2Bootstrap]).
    [dispatch_sends_once]: a task sends at most one transaction, directly after it saw the
    repository clean and at the commit it started from, on Sepolia, funded, with the fields
    that were prepared; every failure has a fixed text, or is that of ethers on a text that
    is no address; a success says what the task was for. *)
From Stdlib Require Import ZArith Lia Ascii.
From stdpp Require Import base option list sets strings.
From S2P Require Import Prelude HcuJson Sg2Debug Sg2Bootstrap GateTasks.
Local Open Scope Z_scope.

#[local] Instance second_gate : Gate := "SG2".

Definition SG2_EXPECTED_VALUE : Z := 42.
Definition PREFLIGHT_FUNDING_MULTIPLIER : Z := 4.

Section tasks.
Context {W : Type} `{Hardhat W}.
#[local] Notation Task := (method (TaskState W)).

Definition set_muted (muted : bool) : Task unit :=
  modify (fun s : TaskState W => {| ts_world := ts_world s; ts_events := ts_events s; ts_muted := muted |}).
Definition withSuppressedExternalOutput {A} (operation : Task A) (failureMessage : string) : Task A :=
  original ← gets (S := TaskState W) ts_muted;
  try_finally (try_catch (set_muted true ;; operation) (fun _ => throw_in (new_Error failureMessage))) (set_muted original).
Definition initializeFhevmCli (failureMessage : string) : Task unit :=
  withSuppressedExternalOutput (ask_other "initializeCLIApi" hr_initializeCLIApi) failureMessage.

Definition validateEncryptedInputResult (answer : EncryptedInputResult) : result (Bytes * Bytes) :=
  suppressSensitiveSyncFailure "SG2 encrypted input validation failed; sensitive details suppressed."
    (match answer with
     | NoEncryptedInput => throw_new "invalid encrypted input result"
     | EncryptedInput (Some [handle]) inputProof =>
         match handle, inputProof with
         | Some handle, Some inputProof =>
             fail_if (negb (bt_dataLength handle =? 32) || (bt_dataLength inputProof =? 0)) "invalid encrypted input bytes" ;;
             Ok (handle, inputProof)
         | _, _ => throw_new "invalid encrypted input bytes"
         end
     | EncryptedInput _ _ => throw_new "invalid encrypted handles"
     end).

(** The debug output is looked at before anything else. *)
Definition createLiveContext : Task LiveContext :=
  lift (requireSafeFhevmDebugConfiguration hr_DEBUG) ;;
  GateTasks.createLiveContext.

(** The six reads are started together; the state is recorded when all are there. *)
Definition readSG2State (contract : string) : Task SG2State :=
  answers ← suppressSensitiveFailure "SG2 contract state read failed; sensitive details suppressed."
    (promise_all2 (ask_other "getCiphertext" (hr_getCiphertext contract))
      (promise_all2 (ask_other "SG2_EXPECTED_VALUE" (hr_SG2_EXPECTED_VALUE contract))
        (promise_all2 (ask (EFlag contract "initialized") (hr_initialized contract))
          (promise_all2 (ask (EFlag contract "isCiphertextPubliclyDecryptable") (hr_isCiphertextPubliclyDecryptable contract))
            (promise_all2 (ask (EFlag contract "verificationSucceeded") (hr_verificationSucceeded contract))
              (ask_other "verifiedValue" (hr_verifiedValue contract)))))));
  let '(ciphertext, (expectedValue, (initialized, (publiclyDecryptable, (verificationSucceeded, verifiedValue))))) := answers in
  let state := {| sg_ciphertext := ciphertext; sg_expectedValue := expectedValue; sg_initialized := initialized;
                  sg_publiclyDecryptable := publiclyDecryptable; sg_verificationSucceeded := verificationSucceeded;
                  sg_verifiedValue := verifiedValue |} in
  record_event (EState contract state) ;;
  mret state.

Definition requireTransactionDestination (request : TransactionRequest) (contractAddress : string) : result unit :=
  let mismatch := throw_new "SG2 transaction destination mismatch; sensitive details suppressed." in
  match tr_to request with
  | None => mismatch
  | Some destination =>
      checked ← hr_getAddress destination;
      if bool_decide (checked = contractAddress) then Ok tt else mismatch
  end.

Definition requireSuccessfulCallReceipt (receipt : Receipt) (contractAddress : string) : result unit :=
  fail_if (negb (bool_decide (rc_status receipt = Some 1))) "SG2 transaction receipt status failed; sensitive details suppressed." ;;
  fail_if (negb (bool_decide (toLowerCase <$> rc_to receipt = Some (toLowerCase contractAddress))))
    "SG2 transaction receipt target mismatch; sensitive details suppressed." ;;
  fail_if (present (rc_contractAddress receipt)) "SG2 transaction receipt contract address is invalid; sensitive details suppressed.".

(** ** The four tasks *)
Definition runSg2Preflight : Task unit :=
  context ← createLiveContext;
  prepare_deployment "SG2PublicDecrypt" context PREFLIGHT_FUNDING_MULTIPLIER ;;
  utcTimestamp ← now;
  emitPublicMetadata (jobject (metadata_head "sg2-preflight" utcTimestamp context (lc_chainId context) "operatorAddress" ++
    [("expectedPublicValue", jnumber SG2_EXPECTED_VALUE); ("fundingCheck", jstring "PASS"); ("status", jstring "PASS")])).

Definition runSg2Deploy : Task unit :=
  context ← createLiveContext;
  deployed ← deploy_exact "SG2PublicDecrypt" context;
  let '(utcTimestamp, contractAddress, sent, finalChainId) := deployed in
  emitPublicMetadata (jobject (metadata_head "sg2-deployment" utcTimestamp context finalChainId "operatorAddress" ++
    [("contractAddress", jstring contractAddress); ("deploymentTransactionHash", jstring sent.1);
     ("deploymentBlockNumber", block_number sent.2); ("expectedPublicValue", jnumber SG2_EXPECTED_VALUE); ("status", jstring "PASS")])).

(** The contract that is worked on, checked: its address, the context, its state. *)
Definition open_contract (address : string) : Task (string * LiveContext * SG2State) :=
  lift requireSepoliaTaskNetwork ;;
  throw_if (negb (hr_isAddress address)) "SG2 contract address validation failed; sensitive details suppressed." ;;
  contractAddress ← lift (hr_getAddress address);
  context ← createLiveContext;
  requireDeployedCode contractAddress ;;
  suppressSensitiveFailure "SG2 contract setup failed; sensitive details suppressed." (ask_other "getContractAt" (hr_getContractAt "SG2PublicDecrypt" contractAddress)) ;;
  operator ← suppressSensitiveFailure "SG2 operator state read failed; sensitive details suppressed."
               (ask_other "OPERATOR" (hr_OPERATOR contractAddress));
  throw_if (negb (bool_decide (operator = lc_signerAddress context))) "SG2 operator identity mismatch; sensitive details suppressed." ;;
  state ← readSG2State contractAddress;
  mret (contractAddress, context, state).

(** A flag of the contract, read before signing. *)
Definition read_flag (flag : Task bool) : Task bool :=
  suppressSensitiveFailure "SG2 contract state read failed; sensitive details suppressed." flag.

Definition fresh (state : SG2State) : bool :=
  negb (sg_initialized state || negb (bool_decide (sg_ciphertext state = hr_ZeroHash)) || negb (sg_expectedValue state =? SG2_EXPECTED_VALUE) ||
        sg_publiclyDecryptable state || sg_verificationSucceeded state || negb (sg_verifiedValue state =? 0)).
Definition prepared (state : SG2State) : bool :=
  negb (negb (sg_initialized state) || bool_decide (sg_ciphertext state = hr_ZeroHash) || negb (sg_expectedValue state =? SG2_EXPECTED_VALUE) ||
        negb (sg_publiclyDecryptable state) || sg_verificationSucceeded state || negb (sg_verifiedValue state =? 0)).
Definition verified (state : SG2State) : bool :=
  negb (negb (sg_expectedValue state =? SG2_EXPECTED_VALUE) || negb (sg_verificationSucceeded state) ||
        negb (sg_verifiedValue state =? SG2_EXPECTED_VALUE)).

Definition runSg2Prepare (address : string) : Task unit :=
  opened ← open_contract address;
  let '(contractAddress, context, initialState) := opened in
  throw_if (negb (fresh initialState)) "SG2 contract is not fresh; transaction not submitted." ;;
  initializeFhevmCli "SG2 encryption initialization failed; sensitive details suppressed." ;;
  encryptedValue ← suppressSensitiveFailure "SG2 encrypted input creation failed; sensitive details suppressed."
                     (ask_other "encrypt" (hr_encrypt contractAddress (lc_signerAddress context) SG2_EXPECTED_VALUE));
  validated ← lift (validateEncryptedInputResult encryptedValue);
  initializeRequest ← suppressSensitiveFailure "SG2 initialization transaction preparation failed; sensitive details suppressed."
                        (ask_other "populate initialize" (hr_populateInitialize contractAddress validated.1 validated.2));
  call ← prepare_call context initializeRequest (fun request => requireTransactionDestination request contractAddress)
           (read_flag (ask (EFlag contractAddress "initialized") (hr_initialized contractAddress)))
           "SG2 preparation state changed before signing; transaction not submitted.";
  sent ← send_call contractAddress context (px_signableRequest call.1)
           (fun receipt => requireSuccessfulCallReceipt receipt contractAddress) (readSG2State contractAddress);
  let '(preparationTransactionHash, receipt, finalChainId, preparedState) := sent in
  throw_if (negb (prepared preparedState)) "SG2 prepared state validation failed; sensitive details suppressed." ;;
  emitPublicMetadata (jobject (metadata_head "sg2-preparation" call.2 context finalChainId "operatorAddress" ++
    [("contractAddress", jstring contractAddress); ("preparationTransactionHash", jstring preparationTransactionHash);
     ("preparationBlockNumber", block_number receipt); ("expectedPublicValue", jnumber SG2_EXPECTED_VALUE); ("status", jstring "PASS")])).

Definition check_publicDecryption (publicDecryption : PublicDecryption) (ciphertext : string) : result (string * string) :=
  fail_if (negb (bool_decide (pd_clearValues publicDecryption ciphertext = Some SG2_EXPECTED_VALUE))) "invalid clear value" ;;
  let clear := pd_abiEncodedClearValues publicDecryption in
  let proof := pd_decryptionProof publicDecryption in
  let invalid := throw_new "invalid public decryption result" in
  if negb (hr_isHexString clear) then invalid
  else
    clear_length ← hr_dataLength clear;
    if negb (clear_length =? 32) || negb (hr_isHexString proof) then invalid
    else
      proof_length ← hr_dataLength proof;
      fail_if (proof_length =? 0) "invalid public decryption result" ;;
      Ok (clear, proof).

Definition runSg2Verify (address : string) : Task unit :=
  opened ← open_contract address;
  let '(contractAddress, context, initialState) := opened in
  throw_if (negb (prepared initialState)) "SG2 contract is not ready for verification; transaction not submitted." ;;
  initializeFhevmCli "SG2 relayer initialization failed; sensitive details suppressed." ;;
  publicDecryption ← suppressSensitiveFailure "SG2 public decryption failed; sensitive details suppressed."
                       (ask_other "publicDecrypt" (hr_publicDecrypt (sg_ciphertext initialState)));
  validated ← lift (suppressSensitiveSyncFailure "SG2 public decryption result validation failed; sensitive details suppressed."
                      (check_publicDecryption publicDecryption (sg_ciphertext initialState)));
  verificationRequest ← suppressSensitiveFailure "SG2 verification transaction preparation failed; sensitive details suppressed."
                          (ask_other "populate verify" (hr_populateVerify contractAddress validated.1 validated.2));
  call ← prepare_call context verificationRequest (fun request => requireTransactionDestination request contractAddress)
           (read_flag (ask (EFlag contractAddress "verificationSucceeded") (hr_verificationSucceeded contractAddress)))
           "SG2 verification state changed before signing; transaction not submitted.";
  sent ← send_call contractAddress context (px_signableRequest call.1)
           (fun receipt => requireSuccessfulCallReceipt receipt contractAddress) (readSG2State contractAddress);
  let '(verificationTransactionHash, receipt, finalChainId, finalState) := sent in
  throw_if (negb (verified finalState)) "SG2 verified state validation failed; sensitive details suppressed." ;;
  emitPublicMetadata (jobject (metadata_head "sg2-verification" call.2 context finalChainId "operatorAddress" ++
    [("contractAddress", jstring contractAddress); ("verificationTransactionHash", jstring verificationTransactionHash);
     ("verificationBlockNumber", block_number receipt); ("expectedPublicValue", jnumber SG2_EXPECTED_VALUE);
     ("verifiedPublicValue", jnumber (sg_verifiedValue finalState)); ("status", jstring "PASS")])).

(** ** Dispatch *)
Definition SG2_BOOTSTRAP_STATE_PATH : string := "/home/dell/zama-szn4/scripts/sg2-bootstrap-state.cjs".

(** The capability is used on the registry of the one module that makes it. *)
Definition consumeAuthenticDispatchCapability (fs : FileSystem) (capability : Value) (action : string) : method (Launch (TaskState W)) unit :=
  try_catch
    (throw_if (negb (bool_decide (fs SG2_BOOTSTRAP_STATE_PATH = Some SG2_BOOTSTRAP_STATE_PATH))) "invalid state" ;;
     on_registry (consumeDispatchCapability capability action))
    (fun _ => throw_in (new_Error "SG2 secure launcher is required; sensitive details suppressed.")).

(** A task, on the world of the launch. *)
Definition on_world {A} (m : Task A) : method (Launch (TaskState W)) A := fun s =>
  let '(r, world) := m (la_world s) in
  (r, {| la_registry := la_registry s; la_environment := la_environment s; la_processArguments := la_processArguments s; la_world := world |}).

Definition run_action (action : string) (taskArguments : TaskArguments) : Task unit :=
  let invalid := throw_in (new_Error "SG2 launcher arguments are invalid; sensitive details suppressed.") in
  if bool_decide (action = "preflight") || bool_decide (action = "deploy") then
    if negb (bool_decide (taskArguments = [])) then invalid
    else if bool_decide (action = "preflight") then runSg2Preflight else runSg2Deploy
  else
    match length taskArguments, map_get "address" taskArguments with
    | 1%nat, Some (Some address) => if bool_decide (action = "prepare") then runSg2Prepare address else runSg2Verify address
    | _, _ => invalid
    end.

Definition dispatchSg2 (fs : FileSystem) (action : string) (taskArguments : TaskArguments) (capability : Value)
    : method (Launch (TaskState W)) unit :=
  let taskName := if bool_decide (action ∈ ["preflight"; "deploy"; "prepare"; "verify"]) then "sg2:" +:+ action else "" in
  consumeAuthenticDispatchCapability fs capability taskName ;;
  on_world (run_action action taskArguments).
End tasks.

(** * Properties *)
Section task_facts.
Context {W : Type} `{Hardhat W}.
#[local] Notation Task := (method (TaskState W)).
Implicit Types s : TaskState W.

Lemma requireSafe_fails_well debug : fails_well (requireSafeFhevmDebugConfiguration debug).
Proof. by apply fails_well_if. Qed.
Lemma live_context_asks : asks createLiveContext (fun context tr => context_ok context tr /\ hr_networkName = "sepolia").
Proof.
  apply asks_ends. intros s. unfold createLiveContext. check_by requireSafe_fails_well. intros [] _. last_step createLiveContext_asks.
Qed.

(** Printing is off while the plugin starts, and as before afterwards. *)
Lemma initializeFhevmCli_asks message : fixed_text message = true -> asks (initializeFhevmCli message) (fun _ _ => True).
Proof.
  intros Ht s. unfold initializeFhevmCli, withSuppressedExternalOutput. apply wp_bind. unfold gets, wp at 1. cbn beta iota.
  apply wp_try_finally, wp_try_catch, wp_bind. unfold set_muted, modify, wp at 1. cbn beta iota. unfold wp at 1, ask_other, ask.
  cbn [ts_world ts_events]. destruct (hr_initializeCLIApi (ts_world s)) as [[[]|e] w]; cbn beta iota.
  all: unfold wp; cbn; split; [|done || by apply text_suppressed].
  all: split; [done|]; eexists; (split; [done|]); by constructor; [|constructor].
Qed.

Lemma readSG2State_asks contract : asks (readSG2State contract) (fun state tr => EState contract state ∈ tr).
Proof.
  apply asks_ends. intros s. unfold readSG2State.
  match goal with |- wp (suppressSensitiveFailure ?message ?m ≫= _) _ _ => assert (Hm : silent m) end.
  { repeat (apply silent_both; [by apply silent_ask|]). by apply silent_ask. }
  step asks_silent. intros [ciphertext [expected [initialized [decryptable [succeeded value]]]]] s1 G1 R1 _.
  step record_event_asks. intros [] s2 G2 R2 P2. by finish.
Qed.

Lemma open_contract_asks address :
  asks (open_contract address) (fun '(contract, context, state) tr =>
    hr_getAddress address = Ok contract /\ context_ok context tr /\ EState contract state ∈ tr).
Proof.
  apply asks_ends. intros s. unfold open_contract. check_by requireSepoliaTaskNetwork_fails_well. intros [] _. guard_step. intros _.
  check_by fails_well_getAddress. intros contract Ec. step live_context_asks. intros context s1 G1 R1 [P1 _].
  step requireDeployedCode_asks. intros [] s2 G2 R2 _. step asks_other. intros [] s3 G3 R3 _. step asks_other. intros operator s4 G4 R4 _.
  guard_step. intros _. step readSG2State_asks. intros state s5 G5 R5 P5. finish. split_and!; [done| |done].
  eapply context_ok_sub; [done|]. apply grows_sub. by repeat (etransitivity; [eassumption|]).
Qed.

Lemma requireTransactionDestination_spec request contract :
  fails_well (requireTransactionDestination request contract) /\
  (requireTransactionDestination request contract = Ok tt -> exists to, tr_to request = Some to /\ hr_getAddress to = Ok contract).
Proof.
  unfold requireTransactionDestination. destruct (tr_to request) as [to|]; [|split; [by apply fails_well_text|done]]. split.
  - apply fails_well_bind; [apply fails_well_getAddress|]. intros checked _. case_bool_decide; [done|by apply fails_well_text].
  - intros E. apply result_bind_Ok in E as (checked & Ec & E). exists to. split; [done|]. case_bool_decide; [by subst|done].
Qed.

Lemma requireSuccessfulCallReceipt_fails_well receipt contract : fails_well (requireSuccessfulCallReceipt receipt contract).
Proof. unfold requireSuccessfulCallReceipt. eauto 8 with tasks. Qed.

(** What a success of the two last tasks says. *)
Definition called (address : string) (before after : SG2State -> bool) (tr : list Event) : Prop :=
  exists contract state0 sent state1, hr_getAddress address = Ok contract /\ EState contract state0 ∈ tr /\ before state0 = true /\
    delivered sent tr /\ requireSuccessfulCallReceipt sent.2 contract = Ok tt /\ EState contract state1 ∈ tr /\ after state1 = true.

Lemma called_sub address before after tr tr' : called address before after tr -> tr ⊆ tr' -> called address before after tr'.
Proof.
  intros (contract & state0 & sent & state1 & H1 & H2 & H3 & H4 & H5 & H6 & H7) Hs. exists contract, state0, sent, state1.
  split_and!; try done; [set_solver|by eapply delivered_sub|set_solver].
Qed.

Lemma runSg2Preflight_asks : asks runSg2Preflight (fun _ _ => True).
Proof.
  apply asks_ends. intros s. unfold runSg2Preflight. step live_context_asks. intros context s1 G1 R1 [P1 _].
  step prepare_deployment_asks. intros prepared s2 G2 R2 _. step now_asks. intros time s3 G3 R3 _. last_step emitPublicMetadata_asks.
Qed.

Lemma runSg2Deploy_reaches s : wp runSg2Deploy (ends reached (fun _ tr => deployed tr) s) s.
Proof.
  unfold runSg2Deploy. step live_context_asks. intros context s1 G1 R1 [P1 _].
  eapply wp_sent; [by eapply deploy_exact_reaches|]. intros [[[time contract] sent] chain] s2 R2 P2.
  end_step emitPublicMetadata_asks. intros [] s3 G3 _. eapply deployed_sub; [exact P2|]. earlier.
Qed.

Lemma read_flag_asks contract name call : asks (read_flag (ask (EFlag contract name) call)) (fun flag tr => EFlag contract name (Ok flag) ∈ tr).
Proof. by apply asks_ask. Qed.
Lemma destination_fails_well contract request : fails_well (requireTransactionDestination request contract).
Proof. apply requireTransactionDestination_spec. Qed.

(** Opening, then a step that only asks, then the call and its end. *)
Lemma call_reaches address (before after : SG2State -> bool) contract context state0 call s0 s2 s3 (f : _ -> Task unit) :
  hr_getAddress address = Ok contract -> EState contract state0 ∈ ts_events s2 -> before state0 = true -> context_ok context (ts_events s2) ->
  grows s0 s3 -> grows s2 s3 ->
  prepared_ok (lc_signerAddress context) (px_signableRequest call) (px_feeCeilingPerGas call) (ts_events s3) ->
  funded (lc_signerAddress context) (px_signableRequest call) (px_feeCeilingPerGas call) 1 (ts_events s3) ->
  (forall sent final state s4, reached s0 s4 ->
     (after state = true -> called address before after (ts_events s4)) ->
     wp (f (sent, final, state)) (ends reached (fun _ tr => called address before after tr) s0) s4) ->
  wp (send_call contract context (px_signableRequest call) (fun receipt => requireSuccessfulCallReceipt receipt contract)
        (readSG2State contract) ≫= f) (ends reached (fun _ tr => called address before after tr) s0) s3.
Proof.
  intros Ea Hs0 Hb Hc G0 G2 Hp Hf Hk. pose proof (grows_sub _ _ G2) as S2. eapply wp_sent.
  { eapply send_call_reaches; [apply readSG2State_asks|intros; apply requireSuccessfulCallReceipt_fails_well|done|by eapply context_ok_sub|exact Hp|exact Hf]. }
  intros [[sent final] state] s4 R4 (S4 & Hd & Hr & Hs). apply Hk; [done|]. intros Hafter.
  exists contract, state0, sent, state. split_and!; try done. set_solver.
Qed.

Lemma validateEncryptedInputResult_fails_well answer : fails_well (validateEncryptedInputResult answer).
Proof. by apply fails_well_sync. Qed.

Lemma runSg2Prepare_reaches address s : wp (runSg2Prepare address) (ends reached (fun _ tr => called address fresh prepared tr) s) s.
Proof.
  unfold runSg2Prepare. step open_contract_asks. intros [[contract context] state0] s1 G1 R1 (Ea & Pc & Ps). guard_step. intros Hb%negb_false_iff.
  step initializeFhevmCli_asks. intros [] s2 G2 R2 _. step asks_other. intros encrypted s3 G3 R3 _.
  check_by validateEncryptedInputResult_fails_well. intros validated _. step asks_other. intros base s4 G4 R4 _.
  step prepare_call_asks; [apply read_flag_asks|intros; apply destination_fails_well|]. intros call s5 G5 R5 (P5 & F5 & _).
  eapply call_reaches; try done; [by repeat (etransitivity; [eassumption|])|]. intros sent final state s6 R6 Hcalled. destruct sent as [hash receipt].
  guard_step. intros Ha%negb_false_iff. end_step emitPublicMetadata_asks. intros [] s7 G7 _.
  eapply called_sub; [by apply Hcalled|]. earlier.
Qed.

Lemma runSg2Verify_reaches address s : wp (runSg2Verify address) (ends reached (fun _ tr => called address prepared verified tr) s) s.
Proof.
  unfold runSg2Verify. step open_contract_asks. intros [[contract context] state0] s1 G1 R1 (Ea & Pc & Ps). guard_step. intros Hb%negb_false_iff.
  step initializeFhevmCli_asks. intros [] s2 G2 R2 _. step asks_other. intros decryption s3 G3 R3 _.
  check_step. intros validated _. step asks_other. intros base s4 G4 R4 _.
  step prepare_call_asks; [apply read_flag_asks|intros; apply destination_fails_well|]. intros call s5 G5 R5 (P5 & F5 & _).
  eapply call_reaches; try done; [by repeat (etransitivity; [eassumption|])|]. intros sent final state s6 R6 Hcalled. destruct sent as [hash receipt].
  guard_step. intros Ha%negb_false_iff. end_step emitPublicMetadata_asks. intros [] s7 G7 _.
  eapply called_sub; [by apply Hcalled|]. earlier.
Qed.
End task_facts.

(** ** Dispatch *)
(** What a success of an action says. *)
Definition succeeded `{Hardhat W} (action : string) (arguments : TaskArguments) (tr : list Event) : Prop :=
  (action = "deploy" -> deployed tr) /\
  forall address, map_get "address" arguments = Some (Some address) ->
    (action = "prepare" -> called address fresh prepared tr) /\ (action = "verify" -> called address prepared verified tr).

(** The capability that lets an action run: unused, of this action, which is the active one. *)
Definition authorises (registry : Registry) (capability : Value) (task : string) : Prop :=
  task ∈ SG2_TASK_NAMES /\ exists identity record, capability = AnObject identity /\ rg_capabilityRecords registry !! identity = Some record /\
    cr_action record = task /\ cr_consumed record = false /\ cr_revoked record = false /\ rg_activeAction registry = Some task.

Lemma consume_authorises capability task registry r registry' :
  consumeDispatchCapability capability task registry = (r, registry') -> is_ok r = true -> authorises registry capability task.
Proof.
  unfold consumeDispatchCapability. destruct capability as [identity|]; [|by intros [= <- <-]].
  unfold throw_if, mbind, method_bind, get. destruct (negb (bool_decide (task ∈ _))) eqn:Et; [by intros [= <- <-]|].
  apply negb_false_iff, bool_decide_eq_true in Et.
  destruct (rg_capabilityRecords registry !! identity) as [record|] eqn:El; [|by intros [= <- <-]].
  destruct (_ || _) eqn:Ec; [by intros [= <- <-]|]. intros _ _. bool_to_prop. split; [done|]. by exists identity, record.
Qed.

Section dispatch.
Context {W : Type} `{Hardhat W}.

Lemma run_action_reaches action arguments s :
  wp (run_action action arguments) (fun r s' =>
    ends reached (fun _ tr => succeeded action arguments tr) s r s' /\ (action = "preflight" -> grows s s')) s.
Proof.
  unfold run_action. destruct (bool_decide (action = "preflight")) eqn:E1; [apply bool_decide_eq_true in E1 as ->; cbn [orb]|].
  - destruct (negb _); [split; [split; [by apply grows_within_reached|by apply text_suppressed]|done]|].
    eapply wp_mono; [apply runSg2Preflight_asks|]. intros r s' [G Hr]. split; [|done]. split; [by apply grows_within_reached|].
    destruct r; [|done]. split; done.
  - apply bool_decide_eq_false in E1. cbn [orb]. destruct (bool_decide (action = "deploy")) eqn:E2; [apply bool_decide_eq_true in E2 as ->|].
    + destruct (negb _); [split; [split; [by apply grows_within_reached|by apply text_suppressed]|done]|].
      eapply wp_mono; [apply runSg2Deploy_reaches|]. intros r s' [R Hr]. split; [|done]. split; [done|]. destruct r; [|done]. by split.
    + apply bool_decide_eq_false in E2.
      assert (Hinvalid : wp (throw_in (A := unit) (new_Error "SG2 launcher arguments are invalid; sensitive details suppressed.")) (fun r s' =>
        ends reached (fun _ tr => succeeded action arguments tr) s r s' /\ (action = "preflight" -> grows s s')) s)
        by (split; [split; [by apply grows_within_reached|by apply text_suppressed]|done]).
      destruct (length arguments) as [|[|]]; try exact Hinvalid. destruct (map_get "address" arguments) as [[address|]|] eqn:Em; try exact Hinvalid.
      case_bool_decide as E3; (eapply wp_mono; [apply runSg2Prepare_reaches || apply runSg2Verify_reaches|]);
        intros r s' [R Hr]; (split; [|done]); (split; [done|]); (destruct r; [|done]); (split; [done|]); rewrite Em; intros ? [= <-];
        split; intros Ev; first [exact Hr|by rewrite E3 in Ev|done].
Qed.

Lemma consumeAuthentic_spec fs capability task (s : Launch (TaskState W)) r s' :
  consumeAuthenticDispatchCapability fs capability task s = (r, s') ->
  la_world s' = la_world s /\ match r with Ok _ => authorises (la_registry s) capability task | Throw e => suppressed e end.
Proof.
  unfold consumeAuthenticDispatchCapability, try_catch, throw_if, mbind, method_bind, on_registry.
  destruct (negb _); [intros [= <- <-]; split; [done|by apply text_suppressed]|].
  destruct (consumeDispatchCapability capability task (la_registry s)) as [[u|e] registry] eqn:E; intros [= <- <-]; (split; [done|]).
  - by eapply consume_authorises.
  - by apply text_suppressed.
Qed.

(** The dispatcher acts on the registry by consuming, and not otherwise. *)
Lemma dispatchSg2_through fs fs' main module action arguments capability :
  through fs main module (dispatchSg2 (W := W) fs' action arguments capability).
Proof.
  intros s. unfold dispatchSg2. cbv zeta. set (task := if bool_decide _ then _ else _). apply wp_bind.
  assert (Hc : wp (consumeAuthenticDispatchCapability fs' capability task)
    (fun _ s' => exists operations, la_registry s' = (run_operations fs main module.1 module.2 operations (la_registry s)).2) s).
  { unfold consumeAuthenticDispatchCapability. apply wp_try_catch, wp_bind, wp_throw_if; intros _; [by exists []|].
    eapply wp_mono; [exact (through_operation fs main module (Consume capability task) s)|]. by intros [u|e] s1 Hs. }
  eapply wp_mono; [exact Hc|]. intros [u|e] s1 (operations & E); [|by exists operations]. unfold wp, on_world.
  destruct (run_action action arguments (la_world s1)) as [r world]. by exists operations.
Qed.
End dispatch.

(** C23: a task sends at most one transaction, and only what it may.  Nothing is asked or sent
    without a capability for the action that is active and unused; the check sends nothing;
    the other tasks sign at most once and send at most what they signed, which has the
    fields of a request prepared for the wallet with its pending nonce, a buffered estimate
    of gas and enough balance, on Sepolia; between signing and sending only the repository
    is looked at, and it is clean and where it was at the start.  Every failure has a fixed
    text, but for that of ethers on what is no address.  A success says that the
    transaction was received and did what it was for. *)
Theorem dispatch_sends_once `{Hardhat W} fs action arguments capability s r s' :
  ts_events (la_world s) = [] ->
  dispatchSg2 fs action arguments capability s = (r, s') ->
  let tr := ts_events (la_world s') in
  (tr <> [] -> authorises (la_registry s) capability ("sg2:" +:+ action)) /\
  sends_once tr /\
  (action = "preflight" -> Forall quiet tr) /\
  match r with Ok _ => succeeded action arguments tr | Throw e => suppressed e end.
Proof.
  intros Hs. unfold dispatchSg2. cbv zeta. unfold mbind, method_bind. set (task := if bool_decide _ then _ else _).
  destruct (consumeAuthenticDispatchCapability _ _ _ _) as [rc s1] eqn:Ec. destruct (consumeAuthentic_spec _ _ _ _ _ _ Ec) as [Ew Hc].
  destruct rc as [u|e].
  2: { intros [= <- <-]. rewrite Ew, Hs. split_and!; [done|exists [], [], []; split_and!; [done|constructor|constructor|by left]|constructor|done]. }
  unfold on_world. destruct (run_action action arguments (la_world s1)) as [r1 world] eqn:Er. intros [= <- <-]. cbn [la_world].
  pose proof (wp_run _ _ _ _ _ (run_action_reaches action arguments (la_world s1)) Er) as [[Hr Hq] Hp]. rewrite Ew in Hr, Hp.
  destruct Hr as (_ & before & part & after & E & Hb & Ha & Hpart). rewrite Hs in *. split_and!.
  - intros _. subst task. destruct (bool_decide _); [done|]. destruct Hc as [Ht _]. pose proof (bool_decide_pack _ Ht) as Hf. by vm_compute in Hf.
  - by exists before, part, after.
  - intros Hpre. destruct (Hp Hpre) as (_ & added & -> & Hadded). by rewrite Hs.
  - done.
Qed.

#[local] Existing Instance sample_hardhat.
Definition sample_dispatch : Launch (TaskState unit) :=
  {| la_registry := one_session "sg2:deploy" false false;
     la_environment := {| en_DEBUG := None; en_HARDHAT_VERBOSE := None; en_HARDHAT_NETWORK := Some "sepolia"; en_SG2_SECURE_LAUNCH := Some "1" |};
     la_processArguments := []; la_world := {| ts_world := tt; ts_events := []; ts_muted := false |} |}.
Lemma dispatch_sends_once_witness : exists s',
  dispatchSg2 sample_fs "deploy" [] (AnObject 0) sample_dispatch = (Ok tt, s') /\
  let tr := ts_events (la_world s') in
  authorises (la_registry sample_dispatch) (AnObject 0) "sg2:deploy" /\ sends_once tr.
Proof.
  destruct (dispatchSg2 sample_fs "deploy" [] (AnObject 0) sample_dispatch) as [r s'] eqn:E.
  destruct (dispatch_sends_once sample_fs "deploy" [] (AnObject 0) sample_dispatch r s' eq_refl E) as (Ha & Hp & _ & _).
  vm_compute in E. injection E as <- <-. eexists. split; [reflexivity|]. split; [apply Ha; discriminate|exact Hp].
Defined.
