(* ===== verification/Sg1Tasks.v ===== *)
(** * The tasks of the first gate: tasks/sg1.ts

    Three tasks on the Sepolia network: check, deploy a counter, add one to it encrypted and
    decrypt the sum.  The functions are those of the second gate with other messages, so
    each is that of [GateTasks] at this gate's name; unlike there, no capability is asked
    for and debug output is not looked at.  [sg1_sends_once]: a task sends at most one
    transaction, directly after it saw the repository clean and at the commit it started
    from, on Sepolia, funded, with the fields that were prepared. *)
From Stdlib Require Import ZArith Lia Ascii.
From stdpp Require Import base option list sets strings.
From S2P Require Import Prelude HcuJson GateTasks.
Local Open Scope Z_scope.

#[local] Instance first_gate : Gate := "SG1".

Definition SEPOLIA_CHAIN_ID : Z := GateTasks.SEPOLIA_CHAIN_ID.
Definition PREFLIGHT_FUNDING_MULTIPLIER : Z := 3.
Definition INSTALLED_PACKAGES : list string := GateTasks.INSTALLED_PACKAGES.

Inductive Sg1Task : Type := Preflight | Deploy | Probe (address : string).

Section tasks.
Context {W : Type} `{Hardhat W}.
#[local] Notation Task := (method (TaskState W)).

(** The functions that the two files share; their messages are those of this gate. *)
Definition suppressSensitiveFailure {A} : string -> Task A -> Task A := GateTasks.suppressSensitiveFailure.
Definition suppressSensitiveSyncFailure {A} : string -> result A -> result A := GateTasks.suppressSensitiveSyncFailure.
Definition runGit : list string -> Task string := GateTasks.runGit.
Definition requireCleanRepository : Task RepositoryIdentity := GateTasks.requireCleanRepository.
Definition requireRepositoryIdentityUnchanged : RepositoryIdentity -> Task unit := GateTasks.requireRepositoryIdentityUnchanged.
Definition installedPackageVersion : string -> result string := GateTasks.installedPackageVersion.
Definition readPublicBuildMetadata : RepositoryIdentity -> result PublicBuildMetadata := GateTasks.readPublicBuildMetadata.
Definition requireSepoliaTaskNetwork : result unit := GateTasks.requireSepoliaTaskNetwork.
Definition readValidatedPrivateKey : Task string := GateTasks.readValidatedPrivateKey.
Definition readSepoliaChainId : Task Z := GateTasks.readSepoliaChainId.
Definition createLiveContext : Task LiveContext := GateTasks.createLiveContext.
Definition bufferedGasLimit : Z -> result Z := GateTasks.bufferedGasLimit.
Definition prepareExactTransaction : string -> BaseRequest -> Task PreparedTransaction := GateTasks.prepareExactTransaction.
Definition requireSufficientFunding : string -> PreparedTransaction -> Z -> Task unit := GateTasks.requireSufficientFunding.
Definition requireValidTransactionHash : string -> result unit := GateTasks.requireValidTransactionHash.
Definition signExactTransaction : Wallet -> TransactionRequest -> Task (string * string) := GateTasks.signExactTransaction.
Definition broadcastSignedTransaction : string -> string -> Task string := GateTasks.broadcastSignedTransaction.
Definition requireValidReceiptBlockNumber : option js_number -> result unit := GateTasks.requireValidReceiptBlockNumber.
Definition pollForTransactionReceipt : string -> Task Receipt := GateTasks.pollForTransactionReceipt.
Definition requireDeployedCode : string -> Task unit := GateTasks.requireDeployedCode.
Definition emitPublicMetadata : Json -> Task unit := GateTasks.emitPublicMetadata.

(** ** The three tasks *)
Definition sg1_preflight : Task unit :=
  lift requireSepoliaTaskNetwork ;;
  readValidatedPrivateKey ;;
  context ← createLiveContext;
  prepare_deployment "FHECounter" context PREFLIGHT_FUNDING_MULTIPLIER ;;
  utcTimestamp ← now;
  let build := lc_metadata context in
  emitPublicMetadata (jobject [("event", jstring "sg1-preflight"); ("utcTimestamp", jstring utcTimestamp);
    ("gitCommit", jstring (ri_gitCommit (bm_identity build))); ("gitTree", jstring (ri_gitTree (bm_identity build)));
    ("chainId", jnumber (lc_chainId context)); ("signerAddress", jstring (lc_signerAddress context)); ("fundingCheck", jstring "PASS");
    ("packageVersions", jobject (map (fun entry => (entry.1, jstring entry.2)) (bm_packageVersions build)));
    ("pnpmLockSha256", jstring (bm_pnpmLockSha256 build))]).

Definition sg1_deploy : Task unit :=
  context ← createLiveContext;
  deployed ← deploy_exact "FHECounter" context;
  let '(utcTimestamp, contractAddress, sent, finalChainId) := deployed in
  emitPublicMetadata (jobject (metadata_head "sg1-deployment" utcTimestamp context finalChainId "deployerAddress" ++
    [("contractAddress", jstring contractAddress); ("deploymentTransactionHash", jstring sent.1);
     ("deploymentBlockNumber", block_number sent.2)])).

Definition read_count (contractAddress : string) : Task string :=
  suppressSensitiveFailure "SG1 encrypted-state read failed; sensitive details suppressed." (ask (ECount contractAddress) (hr_getCount contractAddress)).

(** The first handle of the encryption, when it is the only one. *)
Definition only_handle (encryptedOne : EncryptedValue) : result Bytes :=
  match ev_handles encryptedOne with
  | [Some handle] => Ok handle
  | _ => throw_new "SG1 encrypted input validation failed; sensitive details suppressed."
  end.

Definition destination_matches (contractAddress : string) (request : TransactionRequest) : result unit :=
  fail_if (negb (bool_decide (toLowerCase <$> tr_to request = Some (toLowerCase contractAddress))))
    "SG1 increment transaction destination mismatch; sensitive details suppressed.".

Definition check_increment (contractAddress : string) (receipt : Receipt) : result unit :=
  fail_if (negb (bool_decide (rc_status receipt = Some 1))) "SG1 increment receipt status failed; sensitive details suppressed." ;;
  fail_if (negb (bool_decide (toLowerCase <$> rc_to receipt = Some (toLowerCase contractAddress))))
    "SG1 increment receipt target mismatch; sensitive details suppressed.".

(** The counter still holds nothing. *)
Definition count_changed (contractAddress : string) : Task bool :=
  count ← read_count contractAddress;
  mret (negb (bool_decide (count = hr_ZeroHash))).

(** The counter that is worked on, and the request that adds one. *)
Definition open_counter (address : string) : Task (string * LiveContext * BaseRequest) :=
  lift requireSepoliaTaskNetwork ;;
  throw_if (negb (hr_isAddress address)) "SG1 contract address validation failed; sensitive details suppressed." ;;
  contractAddress ← lift (hr_getAddress address);
  context ← createLiveContext;
  requireDeployedCode contractAddress ;;
  suppressSensitiveFailure "SG1 contract setup failed; sensitive details suppressed."
    (ask_other "getContractAt" (hr_getContractAt "FHECounter" contractAddress)) ;;
  encryptedCountBeforeIncrement ← read_count contractAddress;
  throw_if (negb (bool_decide (encryptedCountBeforeIncrement = hr_ZeroHash))) "SG1 counter is already initialized; sensitive details suppressed." ;;
  suppressSensitiveFailure "SG1 encryption initialization failed; sensitive details suppressed." (ask_other "initializeCLIApi" hr_initializeCLIApi) ;;
  encryptedOne ← suppressSensitiveFailure "SG1 encrypted input creation failed; sensitive details suppressed."
                   (ask_other "encrypt" (hr_encrypt32 contractAddress (lc_signerAddress context) 1));
  handle ← lift (only_handle encryptedOne);
  incrementRequest ← suppressSensitiveFailure "SG1 increment transaction preparation failed; sensitive details suppressed."
                       (ask_other "populate increment" (hr_populateIncrement contractAddress handle (ev_inputProof encryptedOne)));
  mret (contractAddress, context, incrementRequest).

Definition sg1_probe (address : string) : Task unit :=
  opened ← open_counter address;
  let '(contractAddress, context, incrementRequest) := opened in
  call ← prepare_call context incrementRequest (destination_matches contractAddress) (count_changed contractAddress)
           "SG1 probe state changed before signing; transaction not submitted.";
  sent ← send_call contractAddress context (px_signableRequest call.1) (check_increment contractAddress) (read_count contractAddress);
  let '(incrementTransactionHash, receipt, finalChainId, encryptedCountAfterIncrement) := sent in
  throw_if (bool_decide (encryptedCountAfterIncrement = hr_ZeroHash)) "SG1 encrypted-state validation failed; sensitive details suppressed." ;;
  decryptedResult ← suppressSensitiveFailure "SG1 user decryption failed; sensitive details suppressed."
                      (ask (EDecrypted encryptedCountAfterIncrement) (hr_userDecryptEuint encryptedCountAfterIncrement contractAddress));
  throw_if (negb (decryptedResult =? 1)) "SG1 decrypted result validation failed; sensitive details suppressed." ;;
  emitPublicMetadata (jobject (metadata_head "sg1-probe" call.2 context finalChainId "probeAddress" ++
    [("contractAddress", jstring contractAddress); ("incrementTransactionHash", jstring incrementTransactionHash);
     ("incrementBlockNumber", block_number receipt); ("decryptedResult", jnumber 1)])).

(** The tasks, with the parameter of the last. *)
Definition run_task (task : Sg1Task) : Task unit :=
  match task with Preflight => sg1_preflight | Deploy => sg1_deploy | Probe address => sg1_probe address end.
End tasks.

(** * Properties *)
Section task_facts.
Context {W : Type} `{Hardhat W}.
#[local] Notation Task := (method (TaskState W)).
Implicit Types s : TaskState W.

Lemma only_handle_fails_well encryptedOne : fails_well (only_handle encryptedOne).
Proof. unfold only_handle. destruct (ev_handles encryptedOne) as [|[handle|] [|]]; eauto with tasks. Qed.
Lemma destination_matches_fails_well contract request : fails_well (destination_matches contract request).
Proof. by apply fails_well_if. Qed.
Lemma check_increment_fails_well contract receipt : fails_well (check_increment contract receipt).
Proof. unfold check_increment. eauto with tasks. Qed.

Lemma read_count_asks contract : asks (read_count contract) (fun count tr => ECount contract (Ok count) ∈ tr).
Proof. by apply asks_ask. Qed.
Lemma count_changed_asks contract :
  asks (count_changed contract) (fun changed tr => changed = false -> ECount contract (Ok hr_ZeroHash) ∈ tr).
Proof.
  apply asks_ends. intros s. unfold count_changed. step read_count_asks. intros count s1 G1 R1 P1. finish.
  intros Hc%negb_false_iff%bool_decide_eq_true. by subst count.
Qed.

Lemma open_counter_asks address :
  asks (open_counter address) (fun '(contract, context, _) tr => hr_getAddress address = Ok contract /\ context_ok context tr).
Proof.
  apply asks_ends. intros s. unfold open_counter. check_by requireSepoliaTaskNetwork_fails_well. intros [] _. guard_step. intros _.
  check_by fails_well_getAddress. intros contract Ec. step createLiveContext_asks. intros context s1 G1 R1 [P1 _].
  step requireDeployedCode_asks. intros [] s2 G2 R2 _. step asks_other. intros [] s3 G3 R3 _. step read_count_asks. intros count s4 G4 R4 _.
  guard_step. intros _. step asks_other. intros [] s5 G5 R5 _. step asks_other. intros encrypted s6 G6 R6 _.
  check_by only_handle_fails_well. intros handle _. step asks_other. intros base s7 G7 R7 _. finish. split; [done|].
  eapply context_ok_sub; [done|]. earlier.
Qed.

(** What a success of the last task says: the counter of the address held nothing, the
    transaction was received, and what the counter held then was decrypted to one. *)
Definition counted (address : string) (tr : list Event) : Prop :=
  exists contract sent count, hr_getAddress address = Ok contract /\ ECount contract (Ok hr_ZeroHash) ∈ tr /\ delivered sent tr /\
    check_increment contract sent.2 = Ok tt /\ ECount contract (Ok count) ∈ tr /\ count <> hr_ZeroHash /\ EDecrypted count (Ok 1) ∈ tr.

Lemma counted_sub address tr tr' : counted address tr -> tr ⊆ tr' -> counted address tr'.
Proof.
  intros (contract & sent & count & H1 & H2 & H3 & H4 & H5 & H6 & H7) Hs. exists contract, sent, count.
  split_and!; try done; [set_solver|by eapply delivered_sub|set_solver|set_solver].
Qed.

Lemma sg1_preflight_asks : asks sg1_preflight (fun _ _ => True).
Proof.
  apply asks_ends. intros s. unfold sg1_preflight. check_by requireSepoliaTaskNetwork_fails_well. intros [] _.
  step readValidatedPrivateKey_asks. intros key s1 G1 R1 _. step createLiveContext_asks. intros context s2 G2 R2 _.
  step prepare_deployment_asks. intros prepared s3 G3 R3 _. step now_asks. intros time s4 G4 R4 _. last_step emitPublicMetadata_asks.
Qed.

Lemma sg1_deploy_reaches s : wp sg1_deploy (ends reached (fun _ tr => deployed tr) s) s.
Proof.
  unfold sg1_deploy. step createLiveContext_asks. intros context s1 G1 R1 [P1 _].
  eapply wp_sent; [by eapply deploy_exact_reaches|]. intros [[[time contract] sent] chain] s2 R2 P2.
  end_step emitPublicMetadata_asks. intros [] s3 G3 _. eapply deployed_sub; [exact P2|]. earlier.
Qed.

Lemma sg1_probe_reaches address s : wp (sg1_probe address) (ends reached (fun _ tr => counted address tr) s) s.
Proof.
  unfold sg1_probe. step open_counter_asks. intros [[contract context] base] s1 G1 R1 [Ea Pc].
  step prepare_call_asks; [apply count_changed_asks|]. intros call s2 G2 R2 (P2 & F2 & _ & Z2).
  eapply wp_sent.
  { eapply send_call_reaches; [apply read_count_asks|intros; apply check_increment_fails_well|done| |exact P2|exact F2].
    eapply context_ok_sub; [exact Pc|]. earlier. }
  intros [[[hash receipt] chain] count] s3 R3 (S3 & D3 & C3 & P3). guard_step. intros Hc%bool_decide_eq_false.
  step asks_ask. intros plain s4 G4 R4 P4. guard_step. intros Hp%negb_false_iff%Z.eqb_eq. subst plain.
  assert (S4 : ts_events s3 ⊆ ts_events s4) by earlier. specialize (Z2 eq_refl).
  end_step emitPublicMetadata_asks. intros [] s5 G5 _. apply (counted_sub _ (ts_events s4)); [|earlier].
  exists contract, (hash, receipt), count. split_and!; [done|set_solver|by eapply delivered_sub|done|set_solver|done|done].
Qed.
End task_facts.

(** What a success of a task says. *)
Definition task_succeeded `{Hardhat W} (task : Sg1Task) (tr : list Event) : Prop :=
  match task with Preflight => True | Deploy => deployed tr | Probe address => counted address tr end.

(** a task of the first gate sends at most one transaction, and only what it may.  The
    check signs and sends nothing; the others sign at most once and send at most what they
    signed, with the fields of a request prepared for the wallet, enough balance, on
    Sepolia, directly after the repository was seen clean and where it was.  A failure has a
    fixed text, or is that of ethers on what is no address; a success of the probe says that
    the counter held nothing before and decrypts to one after. *)
Theorem sg1_sends_once `{Hardhat W} task s r s' :
  ts_events s = [] -> run_task task s = (r, s') ->
  sends_once (ts_events s') /\ (task = Preflight -> Forall quiet (ts_events s')) /\
  match r with Ok _ => task_succeeded task (ts_events s') | Throw e => suppressed e end.
Proof.
  intros Hs E. assert (Hr : ends reached (fun _ tr => task_succeeded task tr) s r s' /\ (task = Preflight -> grows s s')).
  { destruct task as [| |address]; cbn [run_task] in E.
    - pose proof (wp_run _ _ _ _ _ (sg1_preflight_asks s) E) as [G Hr]. split; [|done]. split; [by apply within|]. by destruct r.
    - split; [|done]. exact (wp_run _ _ _ _ _ (sg1_deploy_reaches s) E).
    - split; [|done]. exact (wp_run _ _ _ _ _ (sg1_probe_reaches address s) E). }
  destruct Hr as [[Hr Hq] Hp]. split; [by eapply reached_once|]. split; [|done].
  intros (_ & added & -> & Ha)%Hp. by rewrite Hs.
Qed.
